(* ===== verification/_CoqProject ===== *)
-Q . S2P
Prelude.v
Actors.v
Lifecycle.v
StageClaim.v
Delivery.v
Thread.v
Acceptance.v
Database.v
Tx.v
State.v
ThreadStore.v
ClaimStore.v
WorkflowStore.v
WorkflowCommands.v
AgentRun.v
AgentStore.v
AgentCommands.v
AgentEffects.v
AgentProperties.v
TaskStore.v
TaskGraph.v
WorkflowEffects.v
WorkflowInvariant.v
WorkflowOutcomes.v
WorkflowSafety.v
TaskEffects.v
TaskInvariant.v
StoreCommands.v
Refinement.v
History.v
Changes.v
Workspace.v
Records.v
Progress.v
ClaimProgress.v
Demo.v
WorkflowProperties.v
RecordProperties.v
ReadProperties.v
PlanProperties.v
Http.v
Idempotency.v
IdempotencySystem.v
IdempotencyProperties.v
Access.v
AccessProperties.v
Delegation.v
Membership.v
MembershipProperties.v
Events.v
Identity.v
IdentityStore.v
IdentityService.v
Gateway.v
IdentitySystem.v
IdentityInvariant.v
IdentityProperties.v
Relay.v
RelayProperties.v
PlanningStore.v
CriteriaStore.v
PlanningEffects.v
PlanningCommands.v
PlanningInvariant.v
PlanningMoves.v
PlanningProperties.v
Attachment.v
Paths.v
BlobStore.v
AttachmentStore.v
AttachmentTables.v
AttachmentSystem.v
AttachmentProperties.v
DeliveryStore.v
DeliveryInvariant.v
DeliverySystem.v
Providers.v
DeliveryService.v
DeliveryProperties.v
