(* ===== verification/Prelude.v ===== *)
(** * A verification development for Pactline

    Pactline is a task-management server written in Go.  People and Agents move Tasks through a
    lifecycle by commands; a Task is worked on under an exclusive Claim, talked about in Threads,
    blocked and unblocked by Issues, and accepted on evidence.  The commands run as PostgreSQL
    transactions.  Agent runs are queued and executed by workers under leases.  People log in through
    the company's identity provider and act under sessions; programs reach the server with API tokens
    or delegated credentials and repeat mutations under idempotency keys.  Events leave the database
    through an outbox.  This development models that core and proves it correct.

    ** The parts of the program and where they are modelled

    - [Prelude] (this file): errors and [errors.Is] (internal/domain/errors.go), results of
      fallible functions, UUIDs, instants, [int64] with its wrap-around, [strings.TrimSpace] over
      UTF-8 bytes, and the tactics that invert a run.
    - [Actors]: [Actor] and [OperationActor], who acts and through which credential
      (internal/domain/acceptance.go, operation.go, thread.go).
    - [Lifecycle]: the phases and activities of a Task and its transitions
      (internal/domain/task_lifecycle.go, task.go), with the workflow diagram as an inductive
      relation: as the code follows it ([workflow_edge]) and as it is documented
      ([documented_edge], with one edge more).
    - [StageClaim]: execution and review Claims and how they end (internal/domain/task_stage_claim.go).
    - [Delivery]: repositories, code changes and their snapshots (internal/domain/repository_delivery.go).
    - [Thread]: Threads, Issues, Items and typed payloads (internal/domain/thread.go).
    - [Acceptance]: criteria, revisions and checks (internal/domain/acceptance.go).
    - [Database]: the rows and CHECK constraints of the tables (migrations), in SQL's three-valued
      logic; a table is a finite map from primary keys to rows.
    - [Tx]: a store method as a function of the world (tables and the number of UUIDs drawn) to a
      result and a new world; transactions that commit or roll back as a whole.  [uuid.New] is code
      outside the repository: it is the class [UUIDSource] (distinct, never nil), with the instance
      [counting_uuids] on which the examples run.
    - [ThreadStore] (internal/store/task_thread_store.go, business_audit.go), [ClaimStore]
      (task_stage_claim_store.go), [WorkflowStore] (task_workflow_store.go) and [WorkflowCommands]
      (task_workflow_store.go, task_claim_commands.go): every statement with its constraint, unique
      index and foreign-key failures, and every command composed of them as the code composes them.
    - [StoreCommands]: the commands as data, those that name a Claim alone included, and the world
      after any sequence of them.
    - [TaskStore] (internal/store/task_store.go with the deferred triggers of migration 0015):
      creation, edits and archiving of Tasks, their parents, dependencies, labels and schedules;
      [TaskGraph]: the recursive query of the dependencies; [Workspace]: the workflow commands and
      the edits together, as one type of commands.  How JSON and dates are written is the class
      [TextForms].
    - [State]: a state and error monad for the stores with tables of their own.
    - [AgentRun] (internal/agent/domain.go): a run and its methods; [AgentStore]
      (internal/store/agent_store.go): the queue of runs, inputs, checkpoints, the ledger of tool calls
      and the outbox; [AgentCommands]: its methods as data.  The texts of UUIDs and the normal form of
      jsonb are the class [AgentTexts].
    - [Http]: what the middleware uses of Go's standard library: SHA-256, header names, URL values.
    - [Idempotency]: the table of idempotency records, its store (internal/store/idempotency_store.go)
      and the middleware around the handlers (internal/api/idempotency.go); the handler is a
      parameter.  [IdempotencySystem]: any number of requests at the same time, as a step relation over
      their statements with failures, crashes and maintenance.  What the JSON column gives back is the
      class [HeaderJson].
    - [Access] (internal/access/domain.go, service.go, internal/store/access_store.go,
      internal/domain/user.go): users and API tokens, with base64; [Delegation]
      (internal/access/delegation.go): credentials of running Agent runs.  The library for JWT is the
      class [JwtLibrary], the texts of identifiers are the class [UuidLibrary] of [Http].
    - [Membership] (internal/domain/project_membership.go, internal/store/project_membership_store.go,
      internal/application/project_access.go): the members of projects and what they may do.
    - [PlanningStore] (internal/domain/project.go, internal/store/project_store.go, milestone_store.go,
      milestone_versioned_store.go) and [CriteriaStore] (acceptance_store.go,
      acceptance_versioned_store.go): Projects, Milestones, acceptance criteria and plain checks, over
      their tables next to those of the workflow.  [PlanningCommands]: these commands and those of
      [Workspace] as one type of commands.  The collation of names is the class [NameOrder].
    - [Identity] (internal/identity/domain.go, policy.go, crypto.go and the session cookie, with
      HMAC-SHA256), [IdentityStore] (internal/store/identity_store.go, access_events.go, user_store.go
      with migrations 0009, 0010 and 0024) and [IdentityService] (internal/identity/service.go): logins,
      invitations, access requests and their approval, sessions, impersonation, and the verification of
      principals.  The provider, the clock and the drawn secrets are arguments of a call.
      [IdentitySystem]: the transactions of the store as commands, and every call of the service as a
      sequence of them.  [Gateway] (internal/api/identity.go, bearer_auth.go, router.go): which
      requests reach a handler, through a session or a bearer credential, and for whom.
    - [Events] (internal/events, internal/store/event_writer.go, outbox_store.go) and [Relay]
      (internal/application/outbox_relay.go, the consumers of internal/messaging/rabbitmq.go): events,
      the outbox, the relay that publishes it and the consumers.  The broker, the JSON of events and the
      handler of a consumer are arguments.
    - [Attachment] (internal/domain/attachment.go), [Paths] (Go's path/filepath), [BlobStore]
      (internal/blob/store.go and local.go) and [AttachmentStore] (internal/store/attachment_store.go with
      migrations 0019 and 0021, internal/application/attachment_service.go,
      attachment_cleanup.go, the content branches of internal/api/v1/server.go): upload sessions, files of
      Tasks and the cleanup worker.  An object store is the class [BlobStore], what its clients rely on is
      the class [BlobLaws], and the store on the local disk is an instance ([local_laws]).  A call is a tree
      of steps on the tables and on the objects ([Call]); [AttachmentSystem] runs any number of them at
      once.  Media types are looked up in the class [MimeLibrary].
    - [DeliveryStore] (internal/store/repository_connection_store.go, project_repository_store.go,
      task_code_change_store.go with migrations 0031 and 0033): Connections to repositories, their binding
      to Projects and the links of Tasks to code changes, next to the tables of the workflow and the
      Projects.  [Providers] (internal/integrations/gitlab/client.go and github/client.go): the clients of
      the providers; a client is a record of operations, what callers rely on is the class [ClientLaws],
      and both clients are instances.  [DeliveryService] (internal/application/
      repository_provider_registry.go, repository_connection_service.go, project_repository_service.go,
      task_delivery_service.go and the cipher of internal/identity/crypto.go): the services over both.
      net/url is the class [UrlLibrary], AES-GCM the class [AEAD]; the exchange with a provider and the
      decoding of its answers are arguments.

    One command runs at a time: the commands lock the Task row ([SELECT ... FOR UPDATE]) and check
    its version, so that commands on one Task are serialised by the database; interleavings are
    sequences of commands of any callers, in any order, with any failures.  For edits of different
    Tasks this is an assumption that the code does not enforce: an edit locks the Task and the
    dependencies that it names, and reads the rest of the graph without a lock, so that two
    concurrent edits may close a cycle that neither of them sees; the theorems on the plan are about
    edits that do not overlap.  The runs that other
    workers have locked ([SKIP LOCKED]) are an argument of the queries that skip them.  Requests under
    idempotency keys and the relays of the outbox interleave statement by statement, the calls of the
    identity service transaction by transaction, and the calls of the attachment service step by step
    over the tables and the object store, where every step may fail, also after it took effect.  The
    goroutines that refresh the links of a Task write in any order, with other requests in between.

    ** What the theorems show

    - [Lifecycle]: the transitions are exactly the edges of the documented workflow diagram but one
      (the code does not mark a Task ready that has unfinished dependencies); done is reached
      only through a review; the review cycle counts completed executions; final states are final.
    - [StageClaim]: a Claim ends once, with a status that fits its outcome and its stage.
    - [WorkflowProperties]: whatever commands run, a Task is worked on exactly when it has one active
      Claim of its stage and waits exactly when it has one open Issue ([wf]); every run refines the
      diagram; stale callers are refused and lose no update; failures change nothing but the expiry of
      the Claim that a command is addressed by; only the owner of a Claim acts through it; done needs the evidence of the current review cycle.
    - [RecordProperties]: one audit event per command, in an append-only trail; ended Claims, resolved
      Issues, Items and checks never change; the rows stay within their constraints; cancelling,
      claiming and expiring are always possible when they should be; what completion and resolution
      store; a Task gets ready only after its dependencies.
    - [ReadProperties]: lists and pages are the slices they promise; rows give back what was written;
      messages belong to their authors; an edited criterion voids its checks.
    - [PlanProperties]: whatever commands and edits run, the workflow stays consistent and the plan
      stays a plan (acyclic dependencies, one level of parents, one project); the check for cycles is
      exact; the deferred triggers never reject a commit; shifts of schedules are uniform; and where the
      code differs from its comments ([empty_patch_is_write], [done_parent_gets_child]).
    - [AgentProperties]: the store implements the methods of a run, but for three moves that no method
      makes; every stored run is valid; leases
      are exclusive while they last and end when they should; ended runs, delivered messages and
      completed tool calls are final; a run asks and reads no more than its limits.
    - [IdempotencyProperties]: under any interleaving and failures a mutation runs once per key in 24
      hours, and replays repeat the original response; retries after server errors run again; and
      where the code fails its clients: responses without a body ([empty_response_blocks_key]) and
      keys reused for another resource ([other_resource_replayed]).
    - [AccessProperties] and [Delegation]: tokens are accepted with their secret, from issue to expiry
      or revocation, with the rights asked for; delegated credentials work exactly while their run runs.
    - [MembershipProperties]: a project keeps an active administrator; access is exactly what the
      memberships say; a removed member no longer sees the project.
    - [PlanningProperties]: the tables of Projects, Milestones, criteria and checks stay consistent with
      those of the workflow; a check stays evidence of the text that was checked; Milestones move along
      their state machine only, with the evidence it asks for, and every edge can be taken; a Project is
      archived only when nothing in it is open; and where the code differs from its own rule
      ([reopened_without_criterion]).  The proofs go through [PlanningEffects] (a command is a sequence
      of edits), [PlanningInvariant] and [PlanningMoves].
    - [IdentityProperties]: what an accepted session cookie proves, until when it is accepted and that an
      ended session stays ended; states and invitations are used once; access needs the approval of the
      only administrator; impersonation is read-only; requests that change anything in a session need the
      origin and the CSRF secret, and bearer credentials reach the API below /api/v1 and its document only.  The proofs go through [IdentityInvariant].
    - [RelayProperties]: no event of the outbox is lost, published events have reached the broker, one
      round of the relay does what it should, and a direct message is tried a bounded number of times, ends
      acknowledged or in the dead-letter queue, and is not handled again once it is recorded.
    - [AttachmentProperties]: the limits on attachments hold and the content of an attachment is fixed
      under every interleaving and failure; the local store stays below its root; a round of the cleanup
      worker removes what it should and nothing else; an uploaded file is served byte for byte; and where
      the code falls short: content replaced or lost between inspection and completion
      ([inspection_bypassed], [content_lost]) and objects that are never removed
      ([late_completion_leaks]).  The proofs go through [AttachmentTables] (how rows may change) and the
      rely-guarantee rules of [AttachmentSystem].
    - [DeliveryProperties]: whatever requests arrive and however the providers answer, the tables of
      repositories and code changes stay consistent and rows keep what they stand for; a provider never
      keeps work from being completed; only the holder of an execution Claim, named by the command,
      edits the links of a Task; a
      repository is bound only when the provider has confirmed it with the stored credential; and a stored
      credential decrypts to the one that was given.  The proofs go through [DeliveryInvariant] (the
      invariant and what every method of the stores does to the rows) and [DeliverySystem] (the commands
      as data).

    The proofs go through [WorkflowEffects] (when a statement succeeds and what it does),
    [WorkflowInvariant] (the invariant and how one Task's rows may change), [WorkflowOutcomes] (what
    the success of a command implies), [WorkflowSafety] (every command keeps the invariant),
    [Refinement], [History], [Changes] and [Records] (what every command leaves behind), and
    [Progress] and [ClaimProgress] (when a command cannot fail), [TaskEffects] and [TaskInvariant]
    (the same for the edits of Tasks), and [AgentEffects] for the runs.  [Demo] is a small workspace
    for the examples.

    ** Bounds and fuel

    [trim_fuel] strips at most as many encodings as the text has bytes, and every encoding has one;
    [reverse_loop] turns at most as often as the slice is long; [reachable] takes as many rounds as
    there are dependencies, which [recursive_query_exact] proves to be enough; [Sha256.blocks] takes a
    round per word of the padded message and consumes sixteen.  Versions and review cycles are
    [int64] with wrap-around; theorems about their growth state the bound they need.

    ** What is not modelled

    Transport (HTTP handlers, generated API types, CLI, web), the integrations with Lark and DeepSeek, the
    connections to the broker, the cloud object stores with their direct uploads, notifications and logging
    are input and output.  Lists of users are ordered by a collation of the database, and the tokens of the
    identity provider are kept encrypted; both are left out.  Rate limits compute with float64, whose
    rounding decides their boundary cases.  Comments, labels, the records of Agent conversations, the
    legacy Agent Claims, the middleware of the Agent's tools and the remaining application services (checks
    of access before a call of a store) are outside the core that is modelled here. *)

From Stdlib Require Import ZArith Lia.
From stdpp Require Import base tactics strings gmap list numbers.

Declare Scope go_scope.
Delimit Scope go_scope with go.

(** Go's [==] and [!=] on comparable values. *)
Notation "a == b" := (bool_decide (a = b)) (at level 70, no associativity) : go_scope.
Notation "a != b" := (negb (bool_decide (a = b))) (at level 70, no associativity) : go_scope.

#[global] Open Scope string_scope.
#[global] Open Scope list_scope.
#[global] Open Scope go_scope.
#[global] Open Scope Z_scope.

(** ** Errors

    The error values of internal/domain/errors.go, of internal/agent/domain.go (whose
    [ErrInvalidTransition] is [ErrInvalidRunTransition] here), of the package internal/access and of
    internal/identity/errors.go (whose [ErrUserInactive] is [ErrIdentityUserInactive] here); [ErrOther]
    stands for the errors that no caller tells apart. *)

Inductive error :=
| ErrNotFound
| ErrInvalidInput
| ErrForbidden
| ErrConflict
| ErrInvalidTransition
| ErrActiveClaim
| ErrActiveIssue
| ErrMigrationRequired
| ErrWrongIssueType
| ErrIntegrationNotConfigured
| ErrProviderUnauthorized
| ErrProviderUnavailable
| ErrProviderRejected
| ErrVersionConflict
| VersionConflictError (CurrentVersion : Z)
| ErrInvalidOperationActor
| ErrInvalidRun
| ErrInvalidRunTransition
| ErrRunTerminal
| ErrRunNotWaiting
| ErrClarificationUserMismatch
| ErrClarificationExpired
| ErrClarificationLimit
| ErrTaskAlreadyCreated
| ErrContextLimit
| ErrToolCallProtocol
| ErrToolEvidenceNotFound
| ErrAgentRunNotFound
| ErrAgentRunLeaseLost
| ErrAgentCheckpointNotFound
| ErrAgentOutboxDeliveryClaimed
| ErrIdempotencyNotClaimed
| ErrInvalidName
| ErrInvalidScope
| ErrInvalidLifetime
| ErrTokenInvalid
| ErrTokenNotFound
| ErrTokenExpired
| ErrTokenRevoked
| ErrUserInactive
| ErrAgentDelegateInvalid
| ErrAgentDelegateExpired
| ErrAgentDelegateRun
| ErrAuthorizationInvalid
| ErrInvitationInvalid
| ErrInvitationConflict
| ErrCredentialNotFound
| ErrSessionInvalid
| ErrSessionExpired
| ErrSessionRevoked
| ErrIdentityUserInactive
| ErrImpersonationDenied
| ErrImpersonationActive
| ErrImpersonationNotFound
| ErrProviderTransient
| ErrProviderContract
| ErrLoginDenied
| ErrAdminRequired
| ErrOther.

#[global] Instance error_eq_dec : EqDecision error.
Proof. solve_decision. Defined.

(** The error an error value wraps ([fmt.Errorf("%w: ...")] and [Unwrap]). *)
Definition error_Unwrap (e : error) : option error :=
  match e with
  | ErrInvalidTransition | ErrActiveClaim | ErrActiveIssue | ErrMigrationRequired => Some ErrConflict
  | ErrWrongIssueType => Some ErrInvalidInput
  | VersionConflictError _ => Some ErrVersionConflict
  | _ => None
  end.

(** [errors.Is]: the error itself or one it wraps; the chains of this program have length two. *)
Definition errors_Is (e target : error) : bool :=
  (e == target) || match error_Unwrap e with Some w => w == target | None => false end.

(** ** Results: a Go function that returns [(T, error)] *)

Inductive result (A : Type) :=
| Ok (a : A)
| Err (e : error).
Arguments Ok {A} a.
Arguments Err {A} e.

#[global] Instance result_mret : MRet result := fun A a => Ok a.
#[global] Instance result_mbind : MBind result :=
  fun A B f m => match m with Ok a => f a | Err e => Err e end.

(** [if b { return ..., e }] *)
Definition fail_if (b : bool) (e : error) : result unit := if b then Err e else Ok tt.

Definition is_ok {A} (r : result A) : bool := match r with Ok _ => true | Err _ => false end.

(** ** Identifiers, clocks and machine integers *)

(** [uuid.UUID] is a 16-byte array that the program only creates, compares and orders;
    it is its big-endian value here, and [uuid.Nil] is zero. *)
Definition UUID := N.
Definition uuid_Nil : UUID := 0%N.

(** [time.Time]: the instant in microseconds (the resolution of [timestamptz]) counted
    from Go's zero time, so that [IsZero] is a comparison with zero and [UTC()] is the
    identity; a [time.Duration] is a difference of instants. *)
Definition Time := Z.
Definition Time_IsZero (t : Time) : bool := t == 0.
Definition Time_Before (t u : Time) : bool := t <? u.
Definition Time_After (t u : Time) : bool := u <? t.
Definition Hour : Z := 3600 * 1000000.

(** An [int64] result: two's-complement wrap-around. *)
Definition int64 (z : Z) : Z := (z + 2 ^ 63) mod 2 ^ 64 - 2 ^ 63.
Definition MaxInt64 : Z := 2 ^ 63 - 1.

Lemma int64_range z : - 2 ^ 63 <= int64 z <= MaxInt64.
Proof. unfold int64, MaxInt64. pose proof (Z.mod_pos_bound (z + 2 ^ 63) (2 ^ 64)). lia. Qed.

Lemma int64_small z : - 2 ^ 63 <= z <= MaxInt64 -> int64 z = z.
Proof. unfold int64, MaxInt64. intros. rewrite Z.mod_small by lia. lia. Qed.

Lemma int64_MaxInt64_succ : int64 (MaxInt64 + 1) = - 2 ^ 63.
Proof. reflexivity. Qed.

(** The successor of an [int64] never is the [int64] itself. *)
Lemma int64_succ_ne z : int64 (z + 1) <> z.
Proof.
  intros H. pose proof (int64_range (z + 1)) as R. unfold MaxInt64 in R.
  destruct (decide (z + 1 <= MaxInt64)) as [L|L].
  - rewrite int64_small in H; unfold MaxInt64 in *; lia.
  - assert (z = MaxInt64) as -> by (unfold MaxInt64 in *; lia).
    rewrite int64_MaxInt64_succ in H. discriminate.
Qed.

(** ** Strings: [strings.TrimSpace] over UTF-8 bytes *)

Module GoStrings.

Definition bytes (l : list nat) : list Ascii.ascii := Ascii.ascii_of_nat <$> l.

(** The UTF-8 encodings of the code points for which [unicode.IsSpace] holds. *)
Definition spaces : list (list Ascii.ascii) :=
  bytes <$> [[9]; [10]; [11]; [12]; [13]; [32];
             [194; 133]; [194; 160]; [225; 154; 128];
             [226; 128; 128]; [226; 128; 129]; [226; 128; 130]; [226; 128; 131];
             [226; 128; 132]; [226; 128; 133]; [226; 128; 134]; [226; 128; 135];
             [226; 128; 136]; [226; 128; 137]; [226; 128; 138];
             [226; 128; 168]; [226; 128; 169]; [226; 128; 175];
             [226; 129; 159]; [227; 128; 128]]%nat.

Fixpoint strip_prefix (p l : list Ascii.ascii) : option (list Ascii.ascii) :=
  match p, l with
  | [], _ => Some l
  | a :: p', b :: l' => if a == b then strip_prefix p' l' else None
  | _ :: _, [] => None
  end.

(** The rest after the first of [ps] that is a prefix of [l]. *)
Fixpoint strip_any (ps : list (list Ascii.ascii)) (l : list Ascii.ascii) : option (list Ascii.ascii) :=
  match ps with
  | [] => None
  | p :: ps' => match strip_prefix p l with Some r => Some r | None => strip_any ps' l end
  end.

Fixpoint trim_fuel (ps : list (list Ascii.ascii)) (n : nat) (l : list Ascii.ascii) : list Ascii.ascii :=
  match n with
  | O => l
  | S n' => match strip_any ps l with Some r => trim_fuel ps n' r | None => l end
  end.

(** Every stripped encoding is non-empty, so the length of the input is fuel enough. *)
Definition trim_front (ps : list (list Ascii.ascii)) (l : list Ascii.ascii) : list Ascii.ascii :=
  trim_fuel ps (length l) l.

Definition trim (l : list Ascii.ascii) : list Ascii.ascii :=
  rev (trim_front (@rev _ <$> spaces) (rev (trim_front spaces l))).

Lemma strip_prefix_Some p l r : strip_prefix p l = Some r <-> l = p ++ r.
Proof.
  revert l; induction p as [|a p IH]; intros l; simpl; [naive_solver|].
  destruct l as [|b l]; [naive_solver|].
  case_bool_decide; [rewrite IH|]; naive_solver.
Qed.

Lemma strip_any_Some ps l r : strip_any ps l = Some r -> exists p, p ∈ ps /\ l = p ++ r.
Proof.
  induction ps as [|p ps IH]; simpl; [done|].
  destruct (strip_prefix p l) eqn:E; intros H; simplify_eq.
  - apply strip_prefix_Some in E. exists p. set_solver.
  - destruct (IH H) as (q & ? & ?). exists q. set_solver.
Qed.

Lemma strip_any_None ps l : strip_any ps l = None <-> forall p r, p ∈ ps -> l <> p ++ r.
Proof.
  induction ps as [|p ps IH]; simpl; [set_solver|].
  destruct (strip_prefix p l) as [r|] eqn:E.
  - apply strip_prefix_Some in E. split; [done|]. intros H. destruct (H p r); set_solver.
  - rewrite IH. split; intros H q r Hq.
    + intros ->. apply elem_of_cons in Hq as [->|Hq]; [|by eapply H].
      pose proof (proj2 (strip_prefix_Some p (p ++ r) r) eq_refl). congruence.
    + apply H. set_solver.
Qed.

Section trim_front.
Context (ps : list (list Ascii.ascii)) (Hne : forall p, p ∈ ps -> p <> []).

Lemma trim_fuel_suffix n l : exists k, l = k ++ trim_fuel ps n l.
Proof.
  revert l; induction n as [|n IH]; intros l; simpl; [by exists []|].
  destruct (strip_any ps l) as [r|] eqn:E; [|by exists []].
  apply strip_any_Some in E as (p & _ & ->). destruct (IH r) as [k Hk].
  exists (p ++ k). by rewrite <- app_assoc, <- Hk.
Qed.

Lemma trim_fuel_stripped n l :
  (length l <= n)%nat -> strip_any ps (trim_fuel ps n l) = None.
Proof using Hne.
  revert l; induction n as [|n IH]; intros l Hl; simpl.
  - apply strip_any_None. intros p r Hp ->. specialize (Hne p Hp).
    destruct p; [done|simpl in Hl; lia].
  - destruct (strip_any ps l) as [r|] eqn:E; [|done].
    apply strip_any_Some in E as (p & Hp & ->). apply IH.
    specialize (Hne p Hp). destruct p; [done|]. rewrite length_app in Hl. simpl in Hl. lia.
Qed.

Lemma trim_front_id l : strip_any ps l = None -> trim_front ps l = l.
Proof. unfold trim_front. destruct (length l); simpl; [done|]. by intros ->. Qed.

Lemma trim_front_stripped l : strip_any ps (trim_front ps l) = None.
Proof using Hne. by apply trim_fuel_stripped. Qed.

Lemma strip_any_prefix_None l k : strip_any ps (l ++ k) = None -> strip_any ps l = None.
Proof.
  rewrite !strip_any_None. intros H p r Hp ->. apply (H p (r ++ k) Hp). by rewrite app_assoc.
Qed.
End trim_front.

Lemma spaces_ne p : p ∈ spaces -> p <> [].
Proof. unfold spaces. rewrite list_elem_of_fmap. intros (l & -> & Hl). by repeat (apply elem_of_cons in Hl as [->|Hl]; [done|]); apply elem_of_nil in Hl. Qed.

Lemma rev_spaces_ne p : p ∈ (@rev _ <$> spaces) -> p <> [].
Proof.
  rewrite list_elem_of_fmap. intros (q & -> & Hq%spaces_ne) E.
  apply (f_equal (@rev _)) in E. rewrite rev_involutive in E. done.
Qed.

Lemma trim_idemp l : trim (trim l) = trim l.
Proof.
  unfold trim.
  set (a := trim_front spaces l).
  set (b := trim_front (@rev _ <$> spaces) (rev a)).
  assert (strip_any spaces (rev b) = None) as Ha.
  { destruct (trim_fuel_suffix (@rev _ <$> spaces) (length (rev a)) (rev a)) as [k Hk].
    fold (trim_front (@rev _ <$> spaces) (rev a)) in Hk. fold b in Hk.
    apply (strip_any_prefix_None _ _ (rev k)).
    rewrite <- rev_app_distr, <- Hk, rev_involutive. apply trim_front_stripped, spaces_ne. }
  rewrite (trim_front_id _ _ Ha), rev_involutive.
  by rewrite (trim_front_id _ b); [|apply trim_front_stripped, rev_spaces_ne].
Qed.

(** [strings.TrimSpace] *)
Definition TrimSpace (s : string) : string :=
  String.string_of_list_ascii (trim (String.list_ascii_of_string s)).

Lemma TrimSpace_idemp s : TrimSpace (TrimSpace s) = TrimSpace s.
Proof.
  unfold TrimSpace. by rewrite String.list_ascii_of_string_of_list_ascii, trim_idemp.
Qed.

Lemma trim_fuel_concat ps n l :
  exists qs, (forall q, q ∈ qs -> q ∈ ps) /\ l = concat qs ++ trim_fuel ps n l.
Proof.
  revert l; induction n as [|n IH]; intros l; simpl; [exists []; set_solver|].
  destruct (strip_any ps l) as [r|] eqn:E; [|exists []; set_solver].
  apply strip_any_Some in E as (p & Hp & ->). destruct (IH r) as (qs & Hqs & Hr).
  exists (p :: qs). split; [set_solver|]. simpl. by rewrite <- app_assoc, <- Hr.
Qed.

(** A text that does not start with white space is not trimmed away. *)
Lemma trim_first l : l <> [] -> strip_any spaces l = None -> trim l <> [].
Proof.
  intros Hne Hs. unfold trim. rewrite (trim_front_id spaces l Hs).
  intros E%(f_equal (@rev _)). rewrite rev_involutive in E. unfold trim_front in E. change (rev []) with (@nil Ascii.ascii) in E.
  destruct (trim_fuel_concat (@rev _ <$> spaces) (length (rev l)) (rev l)) as (qs & Hqs & Hl).
  rewrite E, app_nil_r in Hl. destruct qs as [|q qs' _] using rev_ind; simpl in Hl.
  - apply Hne. by apply (f_equal (@rev _)) in Hl; rewrite rev_involutive in Hl.
  - rewrite concat_app in Hl. simpl in Hl. rewrite app_nil_r in Hl.
    apply (f_equal (@rev _)) in Hl. rewrite rev_involutive, rev_app_distr in Hl.
    assert (q ∈ @rev _ <$> spaces) as (p & -> & Hp)%list_elem_of_fmap by (apply Hqs; set_solver).
    rewrite rev_involutive in Hl. by apply (proj1 (strip_any_None _ _) Hs p _ Hp) in Hl.
Qed.

(** PostgreSQL's [btrim(s)], which strips U+0020 only: whether the result is [''] . *)
Definition btrim_empty (s : string) : bool :=
  forallb (fun a => a == Ascii.ascii_of_nat 32) (String.list_ascii_of_string s).

Lemma trim_front_spaces l :
  Forall (fun a => a = Ascii.ascii_of_nat 32) l -> trim_front spaces l = [].
Proof.
  unfold trim_front. induction 1 as [|a l -> _ IH]; [done|]. exact IH.
Qed.

Lemma TrimSpace_btrim s : TrimSpace s <> "" -> btrim_empty s = false.
Proof.
  intros H. apply not_true_is_false. intros F. apply H. clear H.
  unfold TrimSpace, trim. rewrite trim_front_spaces; [done|].
  apply Forall_forall. intros a Ha.
  unfold btrim_empty in F. rewrite forallb_forall in F. by apply F, bool_decide_eq_true in Ha.
Qed.

End GoStrings.

Abbreviation TrimSpace := GoStrings.TrimSpace.

(** [strings.TrimSpace(s) == ""] *)
Definition blank (s : string) : bool := TrimSpace s == "".

Lemma blank_false s : blank s = false <-> TrimSpace s <> "".
Proof. apply bool_decide_eq_false. Qed.

Lemma blank_first c s :
  GoStrings.strip_any GoStrings.spaces (c :: String.list_ascii_of_string s) = None -> blank (String c s) = false.
Proof.
  intros Hs. apply blank_false. unfold TrimSpace. intros E%(f_equal String.list_ascii_of_string).
  rewrite String.list_ascii_of_string_of_list_ascii in E. by eapply GoStrings.trim_first; [|exact Hs|].
Qed.

(** ** Automation *)

Create HintDb go.

Lemma bind_Ok {A B} (m : result A) (f : A -> result B) b :
  (m ≫= f) = Ok b <-> exists a, m = Ok a /\ f a = Ok b.
Proof. destruct m; unfold mbind; simpl; naive_solver. Qed.

Lemma bind_Err {A B} (m : result A) (f : A -> result B) e :
  (m ≫= f) = Err e <-> m = Err e \/ exists a, m = Ok a /\ f a = Err e.
Proof. destruct m; unfold mbind; simpl; naive_solver. Qed.

Lemma fail_if_Ok b e u : fail_if b e = Ok u <-> b = false.
Proof. destruct b, u; unfold fail_if; naive_solver. Qed.

Lemma fail_if_Err b e e' : fail_if b e = Err e' <-> b = true /\ e = e'.
Proof. destruct b; unfold fail_if; naive_solver. Qed.

(** Boolean conditions of the code as propositions. *)
Ltac go_bool_step :=
  match goal with
  | H : _ && _ = true |- _ => apply andb_true_iff in H as [? ?]
  | H : _ || _ = false |- _ => apply orb_false_iff in H as [? ?]
  | H : negb _ = true |- _ => apply negb_true_iff in H
  | H : negb _ = false |- _ => apply negb_false_iff in H
  | H : bool_decide _ = true |- _ => apply bool_decide_eq_true in H
  | H : bool_decide _ = false |- _ => apply bool_decide_eq_false in H
  | H : (_ <? _) = true |- _ => apply Z.ltb_lt in H
  | H : (_ <? _) = false |- _ => apply Z.ltb_ge in H
  | H : (_ <=? _) = true |- _ => apply Z.leb_le in H
  | H : (_ <=? _) = false |- _ => apply Z.leb_gt in H
  | H : (_ =? _) = true |- _ => apply Z.eqb_eq in H
  | H : (_ =? _) = false |- _ => apply Z.eqb_neq in H
  end.
Ltac go_bool := repeat go_bool_step.

(** Inverts a successful (or failed) run of a result-valued function, one Go statement per step. *)
Ltac go_step :=
  match goal with
  | H : (_ ≫= _) = Ok _ |- _ => apply bind_Ok in H as (? & ? & ?)
  | H : fail_if _ _ = Ok _ |- _ => apply fail_if_Ok in H
  | H : fail_if _ _ = Err _ |- _ => apply fail_if_Err in H as [? ?]
  | H : mret _ = Ok _ |- _ => injection H as H
  | H : Ok _ = Ok _ |- _ => injection H as H
  | H : Err _ = Err _ |- _ => injection H as H
  | H : Ok _ = Err _ |- _ => discriminate H
  | H : Err _ = Ok _ |- _ => discriminate H
  | H : (if ?b then _ else _) = Ok _ |- _ => destruct b eqn:?
  | H : match ?x with _ => _ end = Ok _ |- _ => destruct x eqn:?
  | u : unit |- _ => destruct u
  | _ => go_bool_step
  end.
Ltac go_inv := repeat (go_step; simplify_eq/=).
