(* ===== verification/Actors.v ===== *)
(** * Actors and authentication provenance

    [Actor] (internal/domain/acceptance.go), [OperationActor] and its validation
    (internal/domain/operation.go) and [validThreadActor] (internal/domain/thread.go):
    who performs an operation, and through which credential. *)

From stdpp Require Import base tactics strings gmap list numbers.
From S2P Require Import Prelude.

(** ** Actor: internal/domain/acceptance.go *)

Definition ActorType := string.
Definition ActorTypeUser : ActorType := "user".
Definition ActorTypeAgent : ActorType := "agent".
Definition ActorTypeSystem : ActorType := "system".

Record Actor := mkActor {
  actor_Type : ActorType;
  actor_UserID : option UUID;
  actor_Ref : string;
}.

#[global] Instance Actor_eq_dec : EqDecision Actor.
Proof. solve_decision. Defined.

(** The zero value [Actor{}]. *)
Definition Actor_zero : Actor := mkActor "" None "".

Definition Actor_IsHuman (a : Actor) : bool :=
  (actor_Type a == ActorTypeUser) &&
  match actor_UserID a with Some u => u != uuid_Nil | None => false end.

(** internal/domain/thread.go *)
Definition validThreadActor (actor : Actor) : bool :=
  if actor_Type actor == ActorTypeUser then Actor_IsHuman actor
  else if (actor_Type actor == ActorTypeAgent) || (actor_Type actor == ActorTypeSystem)
  then negb (blank (actor_Ref actor))
  else false.

(** ** OperationActor: internal/domain/operation.go *)

Definition AuthenticationMethod := string.
Definition AuthenticationMethodSession : AuthenticationMethod := "session".
Definition AuthenticationMethodAPIToken : AuthenticationMethod := "api_token".
Definition AuthenticationMethodAgentDelegate : AuthenticationMethod := "agent_delegate".

Record OperationActor := mkOperationActor {
  op_UserID : UUID;
  op_AuthMethod : AuthenticationMethod;
  op_TokenID : option UUID;
  op_TokenName : string;
  op_AgentRunID : option UUID;
  op_RequestID : string;
}.

(** [p == nil || *p == uuid.Nil] *)
Definition missing (p : option UUID) : bool :=
  match p with Some u => u == uuid_Nil | None => true end.

(** [p != nil] *)
Definition present {A} (p : option A) : bool :=
  match p with Some _ => true | None => false end.

Lemma present_false {A} (o : option A) : present o = false <-> o = None.
Proof. by destruct o. Qed.

Definition OperationActor_Validate (a : OperationActor) : result unit :=
  _ ← fail_if ((op_UserID a == uuid_Nil) || blank (op_RequestID a)) ErrInvalidOperationActor;
  if op_AuthMethod a == AuthenticationMethodSession then
    fail_if (present (op_TokenID a) || (op_TokenName a != "") || present (op_AgentRunID a))
      ErrInvalidOperationActor
  else if op_AuthMethod a == AuthenticationMethodAPIToken then
    fail_if (missing (op_TokenID a) || present (op_AgentRunID a)) ErrInvalidOperationActor
  else if op_AuthMethod a == AuthenticationMethodAgentDelegate then
    fail_if (present (op_TokenID a) || (op_TokenName a != "") || missing (op_AgentRunID a))
      ErrInvalidOperationActor
  else Err ErrInvalidOperationActor.

Definition SessionOperation (userID : UUID) (requestID : string) : OperationActor :=
  let requestID := if blank requestID then "internal" else requestID in
  mkOperationActor userID AuthenticationMethodSession None "" None requestID.
