(* ===== verification/Lifecycle.v ===== *)
(** * The Task lifecycle state machine

    internal/domain/task_lifecycle.go and the completion and schedule rules of
    internal/domain/task.go.  A Go enumeration of type [string] stays a string, so that
    [Valid] and the empty activity mean what they mean in the code; a method with a pointer
    receiver returns the updated value.  The second half states the workflow diagram twice:
    as it is documented ([documented_edge]) and with the one edge less that the code has
    ([workflow_edge]: a Task with an unfinished dependency is not marked ready), and relates
    the code to both. *)

From stdpp Require Import base tactics strings gmap list numbers.
From S2P Require Import Prelude Actors.

(** ** Phases, activities and stages *)

Definition TaskPhase := string.
Definition TaskPhaseBacklog : TaskPhase := "backlog".
Definition TaskPhaseReady : TaskPhase := "ready".
Definition TaskPhaseInProgress : TaskPhase := "in_progress".
Definition TaskPhaseInReview : TaskPhase := "in_review".
Definition TaskPhaseDone : TaskPhase := "done".
Definition TaskPhaseCancelled : TaskPhase := "cancelled".

Definition TaskPhase_Valid (p : TaskPhase) : bool :=
  bool_decide (p ∈ [TaskPhaseBacklog; TaskPhaseReady; TaskPhaseInProgress;
                    TaskPhaseInReview; TaskPhaseDone; TaskPhaseCancelled]).

Definition TaskPhase_Active (p : TaskPhase) : bool :=
  (p == TaskPhaseInProgress) || (p == TaskPhaseInReview).

Definition TaskPhase_Terminal (p : TaskPhase) : bool :=
  (p == TaskPhaseDone) || (p == TaskPhaseCancelled).

Definition TaskActivityState := string.
Definition TaskActivityAvailable : TaskActivityState := "available".
Definition TaskActivityWorking : TaskActivityState := "working".
Definition TaskActivityNeedsResolution : TaskActivityState := "needs_resolution".

Definition TaskActivityState_Valid (s : TaskActivityState) : bool :=
  bool_decide (s ∈ [TaskActivityAvailable; TaskActivityWorking; TaskActivityNeedsResolution]).

Definition TaskClaimStage := string.
Definition TaskClaimStageExecution : TaskClaimStage := "execution".
Definition TaskClaimStageReview : TaskClaimStage := "review".

Definition TaskClaimStage_Valid (s : TaskClaimStage) : bool :=
  (s == TaskClaimStageExecution) || (s == TaskClaimStageReview).

(** ** Completion readiness and schedules: internal/domain/task.go *)

Record TaskCompletionReadiness := mkTaskCompletionReadiness {
  ActiveCriteria : Z;
  UnsatisfiedCriteria : Z;
  UnfinishedChildren : Z;
  UnfinishedDependencies : Z;
}.

Definition ValidateAcceptance (r : TaskCompletionReadiness) : result unit :=
  fail_if ((0 <? ActiveCriteria r) && (0 <? UnsatisfiedCriteria r)) ErrConflict.

Definition ValidateCompletion (readiness : TaskCompletionReadiness) : result unit :=
  _ ← ValidateAcceptance readiness;
  _ ← fail_if (0 <? UnfinishedChildren readiness) ErrConflict;
  fail_if (0 <? UnfinishedDependencies readiness) ErrConflict.

Definition ValidateSchedule (startDate dueDate : option Time) : result unit :=
  match startDate, dueDate with
  | Some s, Some d => fail_if (Time_After s d) ErrInvalidInput
  | _, _ => Ok tt
  end.

(** ** TaskLifecycle *)

Record TaskLifecycle := mkTaskLifecycle {
  Phase : TaskPhase;
  Activity : TaskActivityState;
  ReviewCycle : Z;
}.

#[global] Instance TaskLifecycle_eq_dec : EqDecision TaskLifecycle.
Proof. solve_decision. Defined.

Definition NewTaskLifecycle : TaskLifecycle := mkTaskLifecycle TaskPhaseBacklog "" 0.

Definition TaskLifecycle_Validate (s : TaskLifecycle) : result unit :=
  _ ← fail_if (negb (TaskPhase_Valid (Phase s))) ErrInvalidInput;
  _ ← fail_if (ReviewCycle s <? 0) ErrInvalidInput;
  if TaskPhase_Active (Phase s) then
    fail_if (negb (TaskActivityState_Valid (Activity s))) ErrInvalidInput
  else fail_if (Activity s != "") ErrInvalidInput.

Definition TaskLifecycle_Claimable (s : TaskLifecycle) : bool :=
  (Phase s == TaskPhaseReady) ||
  (TaskPhase_Active (Phase s) && (Activity s == TaskActivityAvailable)).

Definition invalidTaskTransition : error := ErrInvalidTransition.

Definition requireWorkingStage (s : TaskLifecycle) (stage : TaskClaimStage) : result unit :=
  _ ← fail_if (negb (TaskClaimStage_Valid stage) || (Activity s != TaskActivityWorking))
        invalidTaskTransition;
  expected ←
    (if Phase s == TaskPhaseInReview then Ok TaskClaimStageReview
     else if Phase s != TaskPhaseInProgress then Err invalidTaskTransition
     else Ok TaskClaimStageExecution);
  fail_if (stage != expected) ErrConflict.

Definition TaskLifecycle_MarkReady (s : TaskLifecycle) (archived hasUnfinishedDependencies : bool)
  : result TaskLifecycle :=
  _ ← fail_if ((Phase s != TaskPhaseBacklog) || (Activity s != "")) invalidTaskTransition;
  _ ← fail_if archived ErrConflict;
  _ ← fail_if hasUnfinishedDependencies ErrConflict;
  Ok (mkTaskLifecycle TaskPhaseReady (Activity s) (ReviewCycle s)).

Definition TaskLifecycle_WithdrawReadiness (s : TaskLifecycle) : result TaskLifecycle :=
  _ ← fail_if ((Phase s != TaskPhaseReady) || (Activity s != "")) invalidTaskTransition;
  Ok (mkTaskLifecycle TaskPhaseBacklog (Activity s) (ReviewCycle s)).

Definition TaskLifecycle_Claim (s : TaskLifecycle) (archived : bool)
  : result (TaskClaimStage * TaskLifecycle) :=
  _ ← fail_if archived ErrConflict;
  if TaskPhase_Active (Phase s) && (Activity s == TaskActivityWorking) then Err ErrActiveClaim
  else if (Phase s == TaskPhaseReady) && (Activity s == "") then
    Ok (TaskClaimStageExecution,
        mkTaskLifecycle TaskPhaseInProgress TaskActivityWorking (ReviewCycle s))
  else if (Phase s == TaskPhaseInProgress) && (Activity s == TaskActivityAvailable) then
    Ok (TaskClaimStageExecution, mkTaskLifecycle (Phase s) TaskActivityWorking (ReviewCycle s))
  else if (Phase s == TaskPhaseInReview) && (Activity s == TaskActivityAvailable) then
    Ok (TaskClaimStageReview, mkTaskLifecycle (Phase s) TaskActivityWorking (ReviewCycle s))
  else Err invalidTaskTransition.

Definition TaskLifecycle_Release (s : TaskLifecycle) (stage : TaskClaimStage) : result TaskLifecycle :=
  _ ← requireWorkingStage s stage;
  Ok (mkTaskLifecycle (Phase s) TaskActivityAvailable (ReviewCycle s)).

Definition TaskLifecycle_RequestResolution (s : TaskLifecycle) (stage : TaskClaimStage)
  : result TaskLifecycle :=
  _ ← requireWorkingStage s stage;
  Ok (mkTaskLifecycle (Phase s) TaskActivityNeedsResolution (ReviewCycle s)).

Definition TaskLifecycle_ResolveIssue (s : TaskLifecycle) : result TaskLifecycle :=
  _ ← fail_if (negb (TaskPhase_Active (Phase s)) || (Activity s != TaskActivityNeedsResolution))
        invalidTaskTransition;
  Ok (mkTaskLifecycle (Phase s) TaskActivityAvailable (ReviewCycle s)).

Definition TaskLifecycle_CompleteExecution (s : TaskLifecycle) : result TaskLifecycle :=
  _ ← requireWorkingStage s TaskClaimStageExecution;
  Ok (mkTaskLifecycle TaskPhaseInReview TaskActivityAvailable (int64 (ReviewCycle s + 1))).

Definition TaskLifecycle_RequestChanges (s : TaskLifecycle) : result TaskLifecycle :=
  _ ← requireWorkingStage s TaskClaimStageReview;
  Ok (mkTaskLifecycle TaskPhaseInProgress TaskActivityAvailable (ReviewCycle s)).

Definition TaskLifecycle_Accept (s : TaskLifecycle) (readiness : TaskCompletionReadiness)
  : result TaskLifecycle :=
  _ ← requireWorkingStage s TaskClaimStageReview;
  _ ← ValidateCompletion readiness;
  Ok (mkTaskLifecycle TaskPhaseDone "" (ReviewCycle s)).

Definition TaskLifecycle_Cancel (s : TaskLifecycle) : result TaskLifecycle :=
  _ ← fail_if (TaskPhase_Terminal (Phase s)) invalidTaskTransition;
  _ ← TaskLifecycle_Validate s;
  Ok (mkTaskLifecycle TaskPhaseCancelled "" (ReviewCycle s)).

(** The commands of the lifecycle, as one type. *)
Inductive LifecycleCommand :=
| CMarkReady (archived hasUnfinishedDependencies : bool)
| CWithdrawReadiness
| CClaim (archived : bool)
| CRelease (stage : TaskClaimStage)
| CRequestResolution (stage : TaskClaimStage)
| CResolveIssue
| CCompleteExecution
| CRequestChanges
| CAccept (readiness : TaskCompletionReadiness)
| CCancel.

Definition run_command (c : LifecycleCommand) (s : TaskLifecycle) : result TaskLifecycle :=
  match c with
  | CMarkReady archived deps => TaskLifecycle_MarkReady s archived deps
  | CWithdrawReadiness => TaskLifecycle_WithdrawReadiness s
  | CClaim archived => '(_, s') ← TaskLifecycle_Claim s archived; Ok s'
  | CRelease stage => TaskLifecycle_Release s stage
  | CRequestResolution stage => TaskLifecycle_RequestResolution s stage
  | CResolveIssue => TaskLifecycle_ResolveIssue s
  | CCompleteExecution => TaskLifecycle_CompleteExecution s
  | CRequestChanges => TaskLifecycle_RequestChanges s
  | CAccept readiness => TaskLifecycle_Accept s readiness
  | CCancel => TaskLifecycle_Cancel s
  end.

Fixpoint run_commands (cs : list LifecycleCommand) (s : TaskLifecycle) : result TaskLifecycle :=
  match cs with
  | [] => Ok s
  | c :: cs' => s' ← run_command c s; run_commands cs' s'
  end.

(** ** The workflow diagram *)

Inductive Stage := Execution | Review.

Inductive WorkState :=
| Backlog
| Ready
| Available (st : Stage)
| Working (st : Stage)
| NeedsResolution (st : Stage)
| Done
| Cancelled.

#[global] Instance Stage_eq_dec : EqDecision Stage.
Proof. solve_decision. Defined.
#[global] Instance WorkState_eq_dec : EqDecision WorkState.
Proof. solve_decision. Defined.

Definition stage_text (st : Stage) : TaskClaimStage :=
  match st with Execution => TaskClaimStageExecution | Review => TaskClaimStageReview end.

Definition stage_phase (st : Stage) : TaskPhase :=
  match st with Execution => TaskPhaseInProgress | Review => TaskPhaseInReview end.

(** The phase and activity that represent a state of the diagram. *)
Definition encode (w : WorkState) : TaskPhase * TaskActivityState :=
  match w with
  | Backlog => (TaskPhaseBacklog, "")
  | Ready => (TaskPhaseReady, "")
  | Available st => (stage_phase st, TaskActivityAvailable)
  | Working st => (stage_phase st, TaskActivityWorking)
  | NeedsResolution st => (stage_phase st, TaskActivityNeedsResolution)
  | Done => (TaskPhaseDone, "")
  | Cancelled => (TaskPhaseCancelled, "")
  end.

Definition represents (s : TaskLifecycle) (w : WorkState) : Prop :=
  (Phase s, Activity s) = encode w.

Definition terminal (w : WorkState) : Prop := w = Done \/ w = Cancelled.

(** Nothing outstanding: no unsatisfied criterion, child or dependency. *)
Definition complete_ready (r : TaskCompletionReadiness) : Prop :=
  (ActiveCriteria r <= 0 \/ UnsatisfiedCriteria r <= 0) /\
  UnfinishedChildren r <= 0 /\ UnfinishedDependencies r <= 0.

(** The diagram that the code follows; a Task is marked ready only without unfinished
    dependencies (compare [documented_edge] below). *)
Inductive workflow_edge : LifecycleCommand -> WorkState -> WorkState -> Prop :=
| edge_mark_ready : workflow_edge (CMarkReady false false) Backlog Ready
| edge_withdraw : workflow_edge CWithdrawReadiness Ready Backlog
| edge_start : workflow_edge (CClaim false) Ready (Working Execution)
| edge_claim st : workflow_edge (CClaim false) (Available st) (Working st)
| edge_release st : workflow_edge (CRelease (stage_text st)) (Working st) (Available st)
| edge_block st :
    workflow_edge (CRequestResolution (stage_text st)) (Working st) (NeedsResolution st)
| edge_resolve st : workflow_edge CResolveIssue (NeedsResolution st) (Available st)
| edge_complete : workflow_edge CCompleteExecution (Working Execution) (Available Review)
| edge_changes : workflow_edge CRequestChanges (Working Review) (Available Execution)
| edge_accept r : complete_ready r -> workflow_edge (CAccept r) (Working Review) Done
| edge_cancel w : ~ terminal w -> workflow_edge CCancel w Cancelled.

(** Paths of the diagram, labelled with the commands that take them. *)
Inductive workflow_path : list LifecycleCommand -> WorkState -> WorkState -> Prop :=
| path_nil w : workflow_path [] w w
| path_cons c cs w w' w'' :
    workflow_edge c w w' -> workflow_path cs w' w'' -> workflow_path (c :: cs) w w''.

Definition is_complete (c : LifecycleCommand) : bool :=
  match c with CCompleteExecution => true | _ => false end.

(** How often execution was completed along a trace. *)
Definition completions (cs : list LifecycleCommand) : Z :=
  Z.of_nat (length (List.filter is_complete cs)).

(** ** The code against the diagram *)

(** The diagram of docs/product-model.md (lines 107-108) and of the comment of
    Task.ValidateCompletion: an unfinished dependency does not prevent work from starting,
    so that a Task of the backlog can be marked ready whatever its dependencies. *)
Inductive documented_edge : LifecycleCommand -> WorkState -> WorkState -> Prop :=
| documented_mark_ready unfinished : documented_edge (CMarkReady false unfinished) Backlog Ready
| documented_workflow c w w' : workflow_edge c w w' -> documented_edge c w w'.

Inductive documented_path : list LifecycleCommand -> WorkState -> WorkState -> Prop :=
| documented_nil w : documented_path [] w w
| documented_cons c cs w w' w'' :
    documented_edge c w w' -> documented_path cs w' w'' -> documented_path (c :: cs) w w''.

#[export] Hint Constructors workflow_edge workflow_path documented_edge documented_path : go.

Lemma represents_fun s w w' : represents s w -> represents s w' -> w = w'.
Proof.
  unfold represents. intros -> H.
  destruct w as [| |[]|[]|[]| |], w' as [| |[]|[]|[]| |]; (reflexivity || discriminate H).
Qed.

(** Splits a lifecycle value that represents a known state into its three fields. *)
Ltac lifecycle_state :=
  match goal with
  | H : represents ?s ?w |- _ =>
      destruct s as [ph act cyc]; unfold represents in H; cbn in H;
      injection H as -> ->
  end.

Lemma ValidateCompletion_Ok r : ValidateCompletion r = Ok tt <-> complete_ready r.
Proof.
  unfold ValidateCompletion, ValidateAcceptance, complete_ready, fail_if, mbind, result_mbind.
  destruct (Z.ltb_spec 0 (ActiveCriteria r)), (Z.ltb_spec 0 (UnsatisfiedCriteria r)),
    (Z.ltb_spec 0 (UnfinishedChildren r)), (Z.ltb_spec 0 (UnfinishedDependencies r));
    cbn; (split; [intros; try discriminate|intros; try reflexivity]); lia.
Qed.

Lemma TaskLifecycle_Validate_represents s :
  TaskLifecycle_Validate s = Ok tt <-> (exists w, represents s w) /\ 0 <= ReviewCycle s.
Proof.
  destruct s as [ph act cyc]. unfold TaskLifecycle_Validate, represents. cbn. split.
  - intros H. go_inv.
    + unfold TaskPhase_Active, TaskActivityState_Valid in *.
      apply orb_true_iff in Heqb as [Hp|Hp]; go_bool; subst.
      all: split; [|lia].
      all: repeat (match goal with H : _ ∈ _ :: _ |- _ => apply elem_of_cons in H as [->|H] end).
      all: try by match goal with H : _ ∈ [] |- _ => apply elem_of_nil in H end.
      all: first [exists (Available Execution); reflexivity | exists (Working Execution); reflexivity
                 | exists (NeedsResolution Execution); reflexivity
                 | exists (Available Review); reflexivity | exists (Working Review); reflexivity
                 | exists (NeedsResolution Review); reflexivity].
    + unfold TaskPhase_Active, TaskPhase_Valid in *. go_bool.
      split; [|lia].
      repeat (match goal with H : _ ∈ _ :: _ |- _ => apply elem_of_cons in H as [->|H] end);
        try done; try by match goal with H : _ ∈ [] |- _ => apply elem_of_nil in H end.
      all: first [exists Backlog; reflexivity | exists Ready; reflexivity
                 | exists Done; reflexivity | exists Cancelled; reflexivity].
  - intros [[w Hw] Hc]. destruct (Z.ltb_spec cyc 0); [lia|].
    by destruct w as [| |[]|[]|[]| |]; injection Hw as -> ->.
Qed.

Lemma requireWorkingStage_Ok s stage :
  requireWorkingStage s stage = Ok tt <->
  exists st, stage = stage_text st /\ represents s (Working st).
Proof.
  destruct s as [ph act cyc].
  unfold requireWorkingStage, represents, TaskClaimStage_Valid. cbn. split.
  - intros H. go_inv; unfold TaskClaimStageReview, TaskClaimStageExecution in *; subst;
      [by exists Review|by exists Execution].
  - intros ([] & -> & H); by injection H as -> ->.
Qed.

Lemma stage_text_inj st st' : stage_text st = stage_text st' -> st = st'.
Proof. by destruct st, st'. Qed.

Definition next_cycle (c : LifecycleCommand) (n : Z) : Z :=
  if is_complete c then int64 (n + 1) else n.

Ltac working_stage :=
  match goal with
  | H : requireWorkingStage _ _ = Ok _ |- _ =>
      apply requireWorkingStage_Ok in H as (st & Hst & Hr)
  end.
Ltac edge_done := split_and!; first [reflexivity | eauto with go | constructor; eauto].

(** A command succeeds only along an edge of the diagram, whatever the value it runs on. *)
Lemma run_command_sound c s s' :
  run_command c s = Ok s' ->
  exists w w', represents s w /\ represents s' w' /\ workflow_edge c w w' /\
    ReviewCycle s' = next_cycle c (ReviewCycle s).
Proof.
  intros H. destruct c; cbn in H.
  - unfold TaskLifecycle_MarkReady in H. go_inv.
    exists Backlog, Ready. destruct s; cbn in *; subst. edge_done.
  - unfold TaskLifecycle_WithdrawReadiness in H. go_inv.
    exists Ready, Backlog. destruct s; cbn in *; subst. edge_done.
  - unfold TaskLifecycle_Claim in H. go_inv; destruct s; cbn in *; subst.
    + exists Ready, (Working Execution). edge_done.
    + exists (Available Execution), (Working Execution). edge_done.
    + exists (Available Review), (Working Review). edge_done.
  - unfold TaskLifecycle_Release in H. go_inv.
    working_stage. subst stage. exists (Working st), (Available st).
    destruct st; lifecycle_state; edge_done.
  - unfold TaskLifecycle_RequestResolution in H. go_inv.
    working_stage. subst stage. exists (Working st), (NeedsResolution st).
    destruct st; lifecycle_state; edge_done.
  - unfold TaskLifecycle_ResolveIssue, TaskPhase_Active in H. go_inv. destruct s; cbn in *; subst.
    match goal with H : _ || _ = true |- _ => apply orb_true_iff in H as [Hp|Hp] end; go_bool; subst.
    + exists (NeedsResolution Execution), (Available Execution). edge_done.
    + exists (NeedsResolution Review), (Available Review). edge_done.
  - unfold TaskLifecycle_CompleteExecution in H. go_inv.
    working_stage.
    apply (stage_text_inj Execution) in Hst as <-.
    exists (Working Execution), (Available Review). edge_done.
  - unfold TaskLifecycle_RequestChanges in H. go_inv.
    working_stage.
    apply (stage_text_inj Review) in Hst as <-.
    exists (Working Review), (Available Execution). edge_done.
  - unfold TaskLifecycle_Accept in H. go_inv.
    working_stage.
    apply (stage_text_inj Review) in Hst as <-. 
    match goal with H : ValidateCompletion _ = _ |- _ => apply ValidateCompletion_Ok in H end.
    exists (Working Review), Done. edge_done.
  - unfold TaskLifecycle_Cancel in H. go_inv.
    match goal with H : TaskLifecycle_Validate _ = _ |- _ =>
      apply TaskLifecycle_Validate_represents in H as [[w Hw] _] end.
    exists w, Cancelled. split_and!; [done..| |done].
    constructor. by intros [-> | ->]; lifecycle_state.
Qed.

(** Every edge of the diagram can be taken by its command. *)
Lemma run_command_complete c s w w' :
  represents s w -> 0 <= ReviewCycle s -> workflow_edge c w w' ->
  exists s', run_command c s = Ok s' /\ represents s' w'.
Proof.
  intros Hw Hc He. destruct He; cbn.
  1-3: lifecycle_state; by eexists.
  - destruct st; lifecycle_state; by eexists.
  - unfold TaskLifecycle_Release. rewrite (proj2 (requireWorkingStage_Ok _ _)) by eauto.
    destruct st; lifecycle_state; by eexists.
  - unfold TaskLifecycle_RequestResolution. rewrite (proj2 (requireWorkingStage_Ok _ _)) by eauto.
    destruct st; lifecycle_state; by eexists.
  - destruct st; lifecycle_state; by eexists.
  - lifecycle_state; by eexists.
  - lifecycle_state; by eexists.
  - unfold TaskLifecycle_Accept.
    rewrite (proj2 (requireWorkingStage_Ok _ _)) by (exists Review; eauto).
    cbn. rewrite (proj2 (ValidateCompletion_Ok r)) by done. by eexists.
  - unfold TaskLifecycle_Cancel, TaskPhase_Terminal.
    rewrite (proj2 (TaskLifecycle_Validate_represents s)) by eauto.
    assert (((Phase s == TaskPhaseDone) || (Phase s == TaskPhaseCancelled)) = false) as ->.
    { unfold terminal in *. destruct w as [| |[]|[]|[]| |]; try tauto; by lifecycle_state. }
    by eexists.
Qed.

Lemma run_command_edge c s s' w w' :
  represents s w -> represents s' w' -> run_command c s = Ok s' -> workflow_edge c w w'.
Proof.
  intros Hw Hw' (v & v' & Hv & Hv' & He & _)%run_command_sound.
  by rewrite (represents_fun _ _ _ Hw Hv), (represents_fun _ _ _ Hw' Hv').
Qed.

Lemma next_cycle_small c n :
  0 <= n -> n + completions [c] <= MaxInt64 -> next_cycle c n = n + completions [c].
Proof.
  unfold next_cycle, completions. intros H0 H1.
  destruct (is_complete c) eqn:E; cbn in *; rewrite E in *; cbn in *; [|lia].
  apply int64_small. unfold MaxInt64 in *. lia.
Qed.

Lemma completions_cons c cs : completions (c :: cs) = completions [c] + completions cs.
Proof. unfold completions. cbn. destruct (is_complete c); cbn; lia. Qed.

Lemma completions_nonneg cs : 0 <= completions cs.
Proof. unfold completions. lia. Qed.

Lemma run_commands_path cs s w s' :
  represents s w -> run_commands cs s = Ok s' ->
  exists w', represents s' w' /\ workflow_path cs w w'.
Proof.
  revert s w; induction cs as [|c cs IH]; intros s w Hw H; cbn in H.
  - go_inv. eauto with go.
  - apply bind_Ok in H as (s1 & E1 & E2).
    destruct (run_command_sound _ _ _ E1) as (v & v' & Hv & Hv' & He & _).
    rewrite (represents_fun _ _ _ Hw Hv). destruct (IH _ _ Hv' E2) as (w' & ? & ?).
    eauto with go.
Qed.

Lemma run_commands_cycle cs s s' :
  0 <= ReviewCycle s -> ReviewCycle s + completions cs <= MaxInt64 ->
  run_commands cs s = Ok s' -> ReviewCycle s' = ReviewCycle s + completions cs.
Proof.
  revert s; induction cs as [|c cs IH]; intros s H0 H1 H; cbn in H.
  - go_inv. unfold completions. cbn. lia.
  - rewrite completions_cons in *. pose proof (completions_nonneg cs).
    pose proof (completions_nonneg [c]). apply bind_Ok in H as (s1 & E1 & E2).
    destruct (run_command_sound _ _ _ E1) as (_ & _ & _ & _ & _ & E).
    rewrite next_cycle_small in E by lia. rewrite (IH s1 ltac:(lia) ltac:(lia) E2). lia.
Qed.

Lemma path_run_commands cs s w w' :
  represents s w -> 0 <= ReviewCycle s -> ReviewCycle s + completions cs <= MaxInt64 ->
  workflow_path cs w w' -> exists s', run_commands cs s = Ok s' /\ represents s' w'.
Proof.
  intros Hw H0 H1 Hp. revert s Hw H0 H1.
  induction Hp as [w|c cs w w' w'' He Hp IH]; intros s Hw H0 H1; [by exists s|].
  rewrite completions_cons in H1. pose proof (completions_nonneg cs).
  pose proof (completions_nonneg [c]).
  destruct (run_command_complete _ _ _ _ Hw H0 He) as (s1 & E1 & Hw1).
  destruct (run_command_sound _ _ _ E1) as (_ & _ & _ & _ & _ & Hc).
  rewrite next_cycle_small in Hc by lia.
  destruct (IH s1 Hw1 ltac:(lia) ltac:(lia)) as (s2 & E2 & Hw2).
  exists s2. cbn. rewrite E1. eauto.
Qed.

Lemma workflow_path_snoc cs c w w'' :
  workflow_path (cs ++ [c]) w w'' <-> exists w', workflow_path cs w w' /\ workflow_edge c w' w''.
Proof.
  split.
  - revert w; induction cs as [|d cs IH]; intros w H;
      inversion H as [|? ? ? ? ? He Hp]; subst.
    + inversion Hp; subst. eauto with go.
    + destruct (IH _ Hp) as (v & ? & ?). eauto with go.
  - intros (w' & Hp & He). induction Hp; cbn; eauto with go.
Qed.

Lemma workflow_edge_documented c w w' :
  workflow_edge c w w' <-> documented_edge c w w' /\ c <> CMarkReady false true.
Proof.
  split.
  - intros He. split; [eauto with go|]. by destruct He.
  - intros [He Hc]. destruct He as [[]|]; eauto with go. done.
Qed.

(** The paths of the code are the documented ones that do not use the missing edge. *)
Lemma workflow_path_documented cs w w' :
  workflow_path cs w w' <-> documented_path cs w w' /\ CMarkReady false true ∉ cs.
Proof.
  split.
  - induction 1 as [|c cs w w' w'' He Hp [IH Hin]]; [split; [eauto with go|set_solver]|].
    apply workflow_edge_documented in He as [He Hc].
    split; [eauto with go|]. by apply not_elem_of_cons.
  - intros [Hp Hin]. induction Hp as [|c cs w w' w'' He Hp IH]; [eauto with go|].
    apply not_elem_of_cons in Hin as [Hc Hin]. econstructor; [|by apply IH].
    by apply workflow_edge_documented.
Qed.

Lemma mark_ready_blocked s :
  represents s Backlog -> 0 <= ReviewCycle s ->
  run_command (CMarkReady false true) s = Err ErrConflict.
Proof. intros Hw Hc. cbn. by lifecycle_state. Qed.

(** In review, execution was completed before. *)
Lemma in_review_completed cs w :
  workflow_path cs Backlog w ->
  w = Available Review \/ w = Working Review \/ w = NeedsResolution Review ->
  CCompleteExecution ∈ cs.
Proof.
  revert w; induction cs as [|c cs IH] using rev_ind; intros w Hp Hw.
  - inversion Hp; subst. naive_solver.
  - apply workflow_path_snoc in Hp as (w' & Hp & He). rewrite elem_of_app.
    destruct He; try naive_solver; first [left; eapply IH; naive_solver | set_solver].
Qed.

(** Work under review was claimed for review after execution was completed. *)
Lemma working_review_history cs :
  workflow_path cs Backlog (Working Review) ->
  exists pre mid, cs = pre ++ CCompleteExecution :: mid /\ CClaim false ∈ mid.
Proof.
  destruct cs as [|c cs _] using rev_ind; intros H; [by inversion H|].
  apply workflow_path_snoc in H as (w' & Hp & He). inversion He; subst.
  destruct (list_elem_of_split _ _ (in_review_completed _ _ Hp ltac:(eauto))) as (pre & mid & ->).
  exists pre, (mid ++ [CClaim false]). rewrite <- app_assoc. set_solver.
Qed.

(** ** Properties *)

(** C5: the lifecycle code implements the documented workflow diagram except for one edge.
    From a value that represents a state of the diagram, a sequence of commands succeeds with
    a value that represents [w'] if and only if the documented diagram has a path to [w']
    labelled with those commands and none of them marks a Task ready that has an unfinished
    dependency (as long as the review cycle stays an int64).  The documented diagram does
    have that edge out of the backlog (an unfinished dependency never prevents work from
    starting); the code refuses it with a conflict. *)
Theorem lifecycle_refinement cs s w w'
  (Hw : represents s w) (Hc : 0 <= ReviewCycle s)
  (Hmax : ReviewCycle s + completions cs <= MaxInt64) :
  ((exists s', run_commands cs s = Ok s' /\ represents s' w') <->
   documented_path cs w w' /\ CMarkReady false true ∉ cs) /\
  (w = Backlog ->
   documented_edge (CMarkReady false true) w Ready /\
   run_command (CMarkReady false true) s = Err ErrConflict).
Proof.
  split; [split|].
  - intros (s' & E & Hw'). destruct (run_commands_path _ _ _ _ Hw E) as (v & Hv & Hp).
    rewrite (represents_fun _ _ _ Hw' Hv). by apply workflow_path_documented.
  - intros Hp. eapply path_run_commands; try done. by apply workflow_path_documented.
  - intros ->. split; [constructor|]. by apply mark_ready_blocked.
Qed.

Definition full_delivery : list LifecycleCommand :=
  [CMarkReady false false; CClaim false; CCompleteExecution; CClaim false; CRequestChanges;
   CClaim false; CRequestResolution TaskClaimStageExecution; CResolveIssue; CClaim false;
   CCompleteExecution; CClaim false; CAccept (mkTaskCompletionReadiness 2 0 0 0)].

Lemma lifecycle_refinement_witness :
  documented_path full_delivery Backlog Done /\ documented_edge (CMarkReady false true) Backlog Ready.
Proof.
  destruct (lifecycle_refinement full_delivery NewTaskLifecycle Backlog Done) as [H1 H2];
    [reflexivity|cbn; lia|by vm_compute|].
  split; [|by apply H2].
  apply H1. eexists. split; [vm_compute; reflexivity|reflexivity].
Defined.

(** No sequence of commands brings a new Task to done unless execution was completed,
    the Task was claimed again afterwards for review, and the last command accepts it with
    every active criterion satisfied and no unfinished child or dependency. *)
Theorem done_requires_review cs s'
  (Hrun : run_commands cs NewTaskLifecycle = Ok s') (Hdone : Phase s' = TaskPhaseDone) :
  exists pre mid r, cs = pre ++ CCompleteExecution :: mid ++ [CAccept r] /\
    CClaim false ∈ mid /\ complete_ready r.
Proof.
  destruct (run_commands_path cs NewTaskLifecycle Backlog s' eq_refl Hrun) as (w & Hw & Hp).
  assert (w = Done) as ->.
  { unfold represents in Hw. rewrite Hdone in Hw.
    destruct w as [| |[]|[]|[]| |]; (reflexivity || discriminate Hw). }
  destruct cs as [|c cs _] using rev_ind; [by inversion Hp|].
  apply workflow_path_snoc in Hp as (v & Hp & He). inversion He; subst.
  destruct (working_review_history _ Hp) as (pre & mid & -> & Hin).
  exists pre, mid, r. by rewrite <- app_assoc.
Qed.

Lemma done_requires_review_witness :
  exists pre mid r, full_delivery = pre ++ CCompleteExecution :: mid ++ [CAccept r] /\
    CClaim false ∈ mid /\ complete_ready r.
Proof.
  apply (done_requires_review full_delivery (mkTaskLifecycle TaskPhaseDone "" 2)).
  - vm_compute. reflexivity.
  - reflexivity.
Defined.

(** The review cycle of a Task is the number of completed executions: every other command
    leaves it alone, so an acceptance check of an older cycle is never current again. *)
Theorem review_cycle_counts cs s'
  (Hrun : run_commands cs NewTaskLifecycle = Ok s') (Hmax : completions cs <= MaxInt64) :
  ReviewCycle s' = completions cs /\ TaskLifecycle_Validate s' = Ok tt.
Proof.
  assert (ReviewCycle s' = completions cs) as E by (by apply (run_commands_cycle cs NewTaskLifecycle)).
  split; [done|]. apply TaskLifecycle_Validate_represents.
  destruct (run_commands_path cs NewTaskLifecycle Backlog s' eq_refl Hrun) as (w & Hw & _).
  rewrite E. eauto using completions_nonneg.
Qed.

Lemma review_cycle_counts_witness :
  ReviewCycle (mkTaskLifecycle TaskPhaseDone "" 2) = completions full_delivery /\
  TaskLifecycle_Validate (mkTaskLifecycle TaskPhaseDone "" 2) = Ok tt.
Proof.
  apply (review_cycle_counts full_delivery); [vm_compute; reflexivity|by vm_compute].
Defined.

(** Done and cancelled are final: every command on such a Task is rejected with an error
    that is a conflict. *)
Theorem terminal_rejects_all c s w (Hw : represents s w) (Ht : terminal w) :
  exists e, run_command c s = Err e /\ errors_Is e ErrConflict = true.
Proof.
  destruct Ht as [-> | ->]; lifecycle_state; destruct c as [[] ?| |[]|st|st| | | | |];
    cbn; try (eexists; split; reflexivity);
    unfold TaskLifecycle_Release, TaskLifecycle_RequestResolution, requireWorkingStage;
    destruct (TaskClaimStage_Valid st); cbn; eexists; split; reflexivity.
Qed.

Lemma terminal_rejects_all_witness :
  exists e, run_command (CClaim false) (mkTaskLifecycle TaskPhaseDone "" 1) = Err e /\
    errors_Is e ErrConflict = true.
Proof. apply (terminal_rejects_all _ _ Done); [reflexivity|by left]. Defined.

(** [Claimable] agrees with [Claim] on every valid lifecycle value: it holds exactly when
    an unarchived Task can be claimed, and the stage that [Claim] infers is the one that the
    resulting state lets act. *)
Theorem claimable_iff_claim s (Hv : TaskLifecycle_Validate s = Ok tt) :
  TaskLifecycle_Claimable s = true <->
  exists stage s', TaskLifecycle_Claim s false = Ok (stage, s') /\
    requireWorkingStage s' stage = Ok tt.
Proof.
  apply TaskLifecycle_Validate_represents in Hv as [[w Hw] Hc].
  destruct w as [| |[]|[]|[]| |]; lifecycle_state;
    (split; [intros H; (discriminate H || (do 2 eexists; split; reflexivity))
            |intros (st & s' & H & _); (discriminate H || reflexivity)]).
Qed.

Lemma claimable_iff_claim_witness :
  TaskLifecycle_Claimable (mkTaskLifecycle TaskPhaseInReview TaskActivityAvailable 3) = true <->
  exists stage s',
    TaskLifecycle_Claim (mkTaskLifecycle TaskPhaseInReview TaskActivityAvailable 3) false
      = Ok (stage, s') /\ requireWorkingStage s' stage = Ok tt.
Proof. apply claimable_iff_claim. vm_compute. reflexivity. Defined.
