(* ===== verification/StageClaim.v ===== *)
(** * Task stage Claims

    internal/domain/task_stage_claim.go: the exclusive, temporary ownership of the execution
    or the review of a Task, its creation, its validation and its one terminal transition. *)

From stdpp Require Import base tactics strings gmap list numbers.
From S2P Require Import Prelude Actors Lifecycle.

(** internal/domain/task_claim.go *)
Definition TaskClaimActiveLifetime : Z := 7 * 24 * Hour.
Definition TaskClaimWaitingLifetime : Z := 24 * Hour.

Definition StageClaimStatus := string.
Definition StageClaimStatusActive : StageClaimStatus := "active".
Definition StageClaimStatusCompleted : StageClaimStatus := "completed".
Definition StageClaimStatusReleased : StageClaimStatus := "released".
Definition StageClaimStatusExpired : StageClaimStatus := "expired".
Definition StageClaimStatusCancelled : StageClaimStatus := "cancelled".

Definition StageClaimStatus_Valid (s : StageClaimStatus) : bool :=
  bool_decide (s ∈ [StageClaimStatusActive; StageClaimStatusCompleted; StageClaimStatusReleased;
                    StageClaimStatusExpired; StageClaimStatusCancelled]).

Definition StageClaimStatus_Terminal (s : StageClaimStatus) : bool :=
  (s != StageClaimStatusActive) && StageClaimStatus_Valid s.

Definition TaskClaimOutcome := string.
Definition TaskClaimOutcomeExecutionCompleted : TaskClaimOutcome := "execution_completed".
Definition TaskClaimOutcomeTaskAccepted : TaskClaimOutcome := "task_accepted".
Definition TaskClaimOutcomeChangesRequested : TaskClaimOutcome := "changes_requested".
Definition TaskClaimOutcomeNeedsResolution : TaskClaimOutcome := "needs_resolution".
Definition TaskClaimOutcomeVoluntarilyReleased : TaskClaimOutcome := "voluntarily_released".
Definition TaskClaimOutcomeDeadlineElapsed : TaskClaimOutcome := "deadline_elapsed".
Definition TaskClaimOutcomeTaskCancelled : TaskClaimOutcome := "task_cancelled".

Definition TaskClaimOutcome_Valid (o : TaskClaimOutcome) : bool :=
  bool_decide (o ∈ [TaskClaimOutcomeExecutionCompleted; TaskClaimOutcomeTaskAccepted;
                    TaskClaimOutcomeChangesRequested; TaskClaimOutcomeNeedsResolution;
                    TaskClaimOutcomeVoluntarilyReleased; TaskClaimOutcomeDeadlineElapsed;
                    TaskClaimOutcomeTaskCancelled]).

Record TaskStageClaim := mkTaskStageClaim {
  sc_ID : UUID;
  sc_TaskID : UUID;
  sc_TaskNumber : Z;
  sc_Stage : TaskClaimStage;
  sc_ClaimedBy : Actor;
  sc_SubjectUserID : UUID;
  sc_AuthMethod : AuthenticationMethod;
  sc_APITokenID : option UUID;
  sc_TokenName : string;
  sc_AgentRunID : option UUID;
  sc_ClientKind : string;
  sc_ClientSessionID : string;
  sc_Status : StageClaimStatus;
  sc_Outcome : TaskClaimOutcome;
  sc_Version : Z;
  sc_ExpiresAt : Time;
  sc_CreatedAt : Time;
  sc_UpdatedAt : Time;
  sc_CompletedAt : option Time;
}.

Definition stageAcceptsOutcome (stage : TaskClaimStage) (outcome : TaskClaimOutcome) : bool :=
  if (outcome == TaskClaimOutcomeNeedsResolution) ||
     (outcome == TaskClaimOutcomeVoluntarilyReleased) ||
     (outcome == TaskClaimOutcomeDeadlineElapsed) ||
     (outcome == TaskClaimOutcomeTaskCancelled) then true
  else if stage == TaskClaimStageExecution then outcome == TaskClaimOutcomeExecutionCompleted
  else (stage == TaskClaimStageReview) &&
       ((outcome == TaskClaimOutcomeTaskAccepted) || (outcome == TaskClaimOutcomeChangesRequested)).

Definition claimStatusAcceptsOutcome (status : StageClaimStatus) (outcome : TaskClaimOutcome) : bool :=
  if status == StageClaimStatusCompleted then
    (outcome == TaskClaimOutcomeExecutionCompleted) ||
    (outcome == TaskClaimOutcomeTaskAccepted) ||
    (outcome == TaskClaimOutcomeChangesRequested)
  else if status == StageClaimStatusReleased then
    (outcome == TaskClaimOutcomeNeedsResolution) || (outcome == TaskClaimOutcomeVoluntarilyReleased)
  else if status == StageClaimStatusExpired then outcome == TaskClaimOutcomeDeadlineElapsed
  else if status == StageClaimStatusCancelled then outcome == TaskClaimOutcomeTaskCancelled
  else false.

Definition validateTaskClaimAuthentication (c : TaskStageClaim) : result unit :=
  if sc_AuthMethod c == AuthenticationMethodSession then
    _ ← fail_if ((actor_Type (sc_ClaimedBy c) != ActorTypeUser) ||
                 present (sc_APITokenID c) || present (sc_AgentRunID c)) ErrInvalidInput;
    fail_if (actor_UserID (sc_ClaimedBy c) != Some (sc_SubjectUserID c)) ErrInvalidInput
  else if sc_AuthMethod c == AuthenticationMethodAPIToken then
    fail_if (missing (sc_APITokenID c) || blank (sc_TokenName c) || present (sc_AgentRunID c) ||
             (actor_Type (sc_ClaimedBy c) != ActorTypeAgent)) ErrInvalidInput
  else if sc_AuthMethod c == AuthenticationMethodAgentDelegate then
    fail_if (missing (sc_AgentRunID c) || present (sc_APITokenID c) ||
             (actor_Type (sc_ClaimedBy c) != ActorTypeAgent)) ErrInvalidInput
  else Err ErrInvalidInput.

Definition TaskStageClaim_Validate (c : TaskStageClaim) : result unit :=
  _ ← fail_if ((sc_ID c == uuid_Nil) || (sc_TaskID c == uuid_Nil) || (sc_TaskNumber c <? 1) ||
               (sc_SubjectUserID c == uuid_Nil) ||
               negb (TaskClaimStage_Valid (sc_Stage c)) || negb (validThreadActor (sc_ClaimedBy c)) ||
               negb (StageClaimStatus_Valid (sc_Status c)) || (sc_Version c <? 1) ||
               Time_IsZero (sc_ExpiresAt c) || Time_IsZero (sc_CreatedAt c) ||
               Time_IsZero (sc_UpdatedAt c)) ErrInvalidInput;
  _ ← validateTaskClaimAuthentication c;
  if sc_Status c == StageClaimStatusActive then
    fail_if ((sc_Outcome c != "") || present (sc_CompletedAt c)) ErrInvalidInput
  else
    _ ← fail_if (negb (TaskClaimOutcome_Valid (sc_Outcome c)) || negb (present (sc_CompletedAt c)))
          ErrInvalidInput;
    fail_if (negb (claimStatusAcceptsOutcome (sc_Status c) (sc_Outcome c))) ErrInvalidInput.

(** [newID] is the value of [uuid.New()]. *)
Definition NewTaskStageClaim (newID : UUID) (taskID : UUID) (taskNumber : Z) (stage : TaskClaimStage)
  (claimedBy : Actor) (operation : OperationActor) (clientKind clientSessionID : string) (now : Time)
  : result TaskStageClaim :=
  _ ← OperationActor_Validate operation;
  let claim := {|
    sc_ID := newID; sc_TaskID := taskID; sc_TaskNumber := taskNumber; sc_Stage := stage;
    sc_ClaimedBy := claimedBy; sc_SubjectUserID := op_UserID operation;
    sc_AuthMethod := op_AuthMethod operation;
    sc_APITokenID := op_TokenID operation; sc_TokenName := op_TokenName operation;
    sc_AgentRunID := op_AgentRunID operation;
    sc_ClientKind := TrimSpace clientKind;
    sc_ClientSessionID := TrimSpace clientSessionID;
    sc_Status := StageClaimStatusActive; sc_Outcome := ""; sc_Version := 1;
    sc_ExpiresAt := now + TaskClaimActiveLifetime;
    sc_CreatedAt := now; sc_UpdatedAt := now; sc_CompletedAt := None |} in
  _ ← TaskStageClaim_Validate claim;
  Ok claim.

Definition completed_status (outcome : TaskClaimOutcome) : result StageClaimStatus :=
  if (outcome == TaskClaimOutcomeExecutionCompleted) ||
     (outcome == TaskClaimOutcomeTaskAccepted) ||
     (outcome == TaskClaimOutcomeChangesRequested) then Ok StageClaimStatusCompleted
  else if (outcome == TaskClaimOutcomeNeedsResolution) ||
          (outcome == TaskClaimOutcomeVoluntarilyReleased) then Ok StageClaimStatusReleased
  else if outcome == TaskClaimOutcomeDeadlineElapsed then Ok StageClaimStatusExpired
  else if outcome == TaskClaimOutcomeTaskCancelled then Ok StageClaimStatusCancelled
  else Err ErrInvalidInput.

(** The five assignments that end a Claim. *)
Definition sc_completed (c : TaskStageClaim) (status : StageClaimStatus) (outcome : TaskClaimOutcome)
  (completedAt : Time) : TaskStageClaim :=
  {| sc_ID := sc_ID c; sc_TaskID := sc_TaskID c; sc_TaskNumber := sc_TaskNumber c;
     sc_Stage := sc_Stage c; sc_ClaimedBy := sc_ClaimedBy c;
     sc_SubjectUserID := sc_SubjectUserID c; sc_AuthMethod := sc_AuthMethod c;
     sc_APITokenID := sc_APITokenID c; sc_TokenName := sc_TokenName c;
     sc_AgentRunID := sc_AgentRunID c; sc_ClientKind := sc_ClientKind c;
     sc_ClientSessionID := sc_ClientSessionID c;
     sc_Status := status; sc_Outcome := outcome; sc_Version := int64 (sc_Version c + 1);
     sc_ExpiresAt := sc_ExpiresAt c; sc_CreatedAt := sc_CreatedAt c; sc_UpdatedAt := completedAt;
     sc_CompletedAt := Some completedAt |}.

Definition TaskStageClaim_Complete (c : TaskStageClaim) (outcome : TaskClaimOutcome) (now : Time)
  : result TaskStageClaim :=
  _ ← fail_if (sc_Status c != StageClaimStatusActive) ErrConflict;
  status ← completed_status outcome;
  _ ← fail_if (negb (stageAcceptsOutcome (sc_Stage c) outcome)) ErrConflict;
  Ok (sc_completed c status outcome now).

(** ** Lemmas *)

Lemma completed_status_cases o st :
  completed_status o = Ok st ->
  claimStatusAcceptsOutcome st o = true /\ StageClaimStatus_Terminal st = true /\
  TaskClaimOutcome_Valid o = true.
Proof.
  unfold completed_status. intros H.
  repeat (case_match; simplify_eq);
    repeat match goal with H : _ || _ = true |- _ => apply orb_true_iff in H as [H|H] end;
    go_bool; subst; split_and!; reflexivity.
Qed.

(** The shape of a successful [Complete]. *)
Lemma TaskStageClaim_Complete_Ok c o now c' :
  TaskStageClaim_Complete c o now = Ok c' <->
  exists st, sc_Status c = StageClaimStatusActive /\ completed_status o = Ok st /\
    stageAcceptsOutcome (sc_Stage c) o = true /\ c' = sc_completed c st o now.
Proof.
  unfold TaskStageClaim_Complete. split.
  - intros H. apply bind_Ok in H as (? & ? & H). apply bind_Ok in H as (st & ? & H).
    exists st. go_inv. done.
  - intros (st & -> & Hst & Hs & ->). cbn. by rewrite Hst, Hs.
Qed.

Lemma TaskStageClaim_Complete_terminal c o now c' :
  TaskStageClaim_Complete c o now = Ok c' -> StageClaimStatus_Terminal (sc_Status c') = true.
Proof.
  intros (st & _ & H & _ & ->)%TaskStageClaim_Complete_Ok.
  by apply completed_status_cases in H as (_ & ? & _).
Qed.

Lemma Terminal_not_active st :
  StageClaimStatus_Terminal st = true -> st <> StageClaimStatusActive /\ StageClaimStatus_Valid st = true.
Proof. unfold StageClaimStatus_Terminal. intros H. by go_bool. Qed.

Lemma TaskStageClaim_Complete_inactive c o now :
  sc_Status c <> StageClaimStatusActive -> TaskStageClaim_Complete c o now = Err ErrConflict.
Proof. intros H. unfold TaskStageClaim_Complete. by rewrite bool_decide_eq_false_2. Qed.

(** [Validate], clause by clause. *)
Lemma TaskStageClaim_Validate_Ok c :
  TaskStageClaim_Validate c = Ok tt <->
  (sc_ID c <> uuid_Nil /\ sc_TaskID c <> uuid_Nil /\ 1 <= sc_TaskNumber c /\
   sc_SubjectUserID c <> uuid_Nil /\ TaskClaimStage_Valid (sc_Stage c) = true /\
   validThreadActor (sc_ClaimedBy c) = true /\ StageClaimStatus_Valid (sc_Status c) = true /\
   1 <= sc_Version c /\ Time_IsZero (sc_ExpiresAt c) = false /\
   Time_IsZero (sc_CreatedAt c) = false /\ Time_IsZero (sc_UpdatedAt c) = false) /\
  validateTaskClaimAuthentication c = Ok tt /\
  (if sc_Status c == StageClaimStatusActive then sc_Outcome c = "" /\ sc_CompletedAt c = None
   else TaskClaimOutcome_Valid (sc_Outcome c) = true /\ is_Some (sc_CompletedAt c) /\
        claimStatusAcceptsOutcome (sc_Status c) (sc_Outcome c) = true).
Proof.
  unfold TaskStageClaim_Validate. split.
  - intros H. apply bind_Ok in H as ([] & H1 & H). apply bind_Ok in H as ([] & H2 & H).
    split; [|split; [done|]].
    + apply fail_if_Ok in H1. go_bool. split_and!; done || lia.
    + case_bool_decide; go_inv; destruct (sc_CompletedAt c); try discriminate; split_and?; eauto.
  - intros ((? & ? & ? & ? & H5 & H6 & H7 & ? & H9 & H10 & H11) & Ha & Ht).
    rewrite H5, H6, H7, H9, H10, H11, Ha, (bool_decide_eq_false_2 (sc_ID c = _)),
      (bool_decide_eq_false_2 (sc_TaskID c = _)), (bool_decide_eq_false_2 (sc_SubjectUserID c = _))
      by done.
    destruct (Z.ltb_spec (sc_TaskNumber c) 1), (Z.ltb_spec (sc_Version c) 1); try lia. cbn.
    case_bool_decide.
    + destruct Ht as [-> ->]. reflexivity.
    + destruct Ht as (-> & [t ->] & ->). reflexivity.
Qed.

(** ** Properties *)

(** [Complete] keeps a Claim well formed: a valid Claim that completes is valid again,
    terminal, one version later, with an outcome that both its status and its stage accept. *)
Theorem claim_complete_valid c o now c'
  (Hv : TaskStageClaim_Validate c = Ok tt) (Hnow : Time_IsZero now = false)
  (Hmax : sc_Version c < MaxInt64) (Hc : TaskStageClaim_Complete c o now = Ok c') :
  TaskStageClaim_Validate c' = Ok tt /\ StageClaimStatus_Terminal (sc_Status c') = true /\
  sc_Version c' = sc_Version c + 1 /\
  claimStatusAcceptsOutcome (sc_Status c') (sc_Outcome c') = true /\
  stageAcceptsOutcome (sc_Stage c') (sc_Outcome c') = true.
Proof.
  apply TaskStageClaim_Complete_Ok in Hc as (st & _ & Hst & Hacc & ->).
  destruct (completed_status_cases _ _ Hst) as (Hso & Hterm & Hout).
  destruct (Terminal_not_active _ Hterm) as [Hna Hsv].
  apply TaskStageClaim_Validate_Ok in Hv as (Hid & Ha & _). destruct_and! Hid.
  assert (int64 (sc_Version c + 1) = sc_Version c + 1) as Hi
    by (apply int64_small; unfold MaxInt64 in *; lia).
  split_and!; try done. apply TaskStageClaim_Validate_Ok. cbn.
  rewrite bool_decide_eq_false_2, Hi by done. split_and!; try done; lia.
Qed.

Definition claim_example (stage : TaskClaimStage) : TaskStageClaim := {|
  sc_ID := 7%N; sc_TaskID := 3%N; sc_TaskNumber := 142; sc_Stage := stage;
  sc_ClaimedBy := mkActor ActorTypeUser (Some 5%N) ""; sc_SubjectUserID := 5%N;
  sc_AuthMethod := AuthenticationMethodSession; sc_APITokenID := None; sc_TokenName := "";
  sc_AgentRunID := None; sc_ClientKind := "web"; sc_ClientSessionID := "s1";
  sc_Status := StageClaimStatusActive; sc_Outcome := ""; sc_Version := 1;
  sc_ExpiresAt := 1000 + TaskClaimActiveLifetime; sc_CreatedAt := 1000; sc_UpdatedAt := 1000;
  sc_CompletedAt := None |}.

Lemma claim_complete_valid_witness :
  exists c', TaskStageClaim_Complete (claim_example TaskClaimStageReview)
               TaskClaimOutcomeTaskAccepted 2000 = Ok c' /\
    TaskStageClaim_Validate c' = Ok tt.
Proof.
  eexists. split; [reflexivity|].
  apply (claim_complete_valid (claim_example TaskClaimStageReview) TaskClaimOutcomeTaskAccepted 2000);
    vm_compute; reflexivity.
Defined.

(** A Claim ends at most once: after a successful [Complete] every further one is refused
    with a conflict, whatever its outcome and time. *)
Theorem claim_ends_once c o now c' o' now'
  (Hc : TaskStageClaim_Complete c o now = Ok c') :
  TaskStageClaim_Complete c' o' now' = Err ErrConflict.
Proof.
  apply TaskStageClaim_Complete_inactive, Terminal_not_active.
  by eapply TaskStageClaim_Complete_terminal.
Qed.

Lemma claim_ends_once_witness :
  exists c', TaskStageClaim_Complete (claim_example TaskClaimStageExecution)
               TaskClaimOutcomeDeadlineElapsed 2000 = Ok c' /\
    TaskStageClaim_Complete c' TaskClaimOutcomeExecutionCompleted 3000 = Err ErrConflict.
Proof.
  eexists. split; [reflexivity|].
  eapply (claim_ends_once (claim_example TaskClaimStageExecution)
            TaskClaimOutcomeDeadlineElapsed 2000).
  reflexivity.
Defined.
