(* ===== verification/Delivery.v ===== *)
(** * Repository delivery evidence

    internal/domain/repository_delivery.go: repository connections and bindings, code changes,
    their observations, and the snapshots that an execution completion freezes. *)

From stdpp Require Import base tactics strings gmap list numbers.
From S2P Require Import Prelude Actors.

Definition RepositoryProvider := string.
Definition RepositoryProviderGitLab : RepositoryProvider := "gitlab".
Definition RepositoryProviderGitHub : RepositoryProvider := "github".

Definition RepositoryProvider_Valid (p : RepositoryProvider) : bool :=
  (p == RepositoryProviderGitLab) || (p == RepositoryProviderGitHub).

Record RepositoryReference := mkRepositoryReference {
  rr_Provider : RepositoryProvider;
  rr_Origin : string;
  rr_PathWithNamespace : string;
  rr_PathLookupKey : string;
  rr_WebURL : string;
}.

Definition RepositoryReference_Validate (r : RepositoryReference) : result unit :=
  fail_if (negb (RepositoryProvider_Valid (rr_Provider r)) || blank (rr_Origin r) ||
           blank (rr_PathWithNamespace r) || blank (rr_PathLookupKey r) || blank (rr_WebURL r))
    ErrInvalidInput.

Record RepositoryIdentity := mkRepositoryIdentity {
  ri_ProviderRepositoryID : string;
  ri_PathWithNamespace : string;
  ri_WebURL : string;
  ri_DefaultBranch : string;
}.

Definition RepositoryIdentity_Validate (i : RepositoryIdentity) : result unit :=
  fail_if (blank (ri_ProviderRepositoryID i) || blank (ri_PathWithNamespace i) || blank (ri_WebURL i))
    ErrInvalidInput.

Definition RepositoryConnectionStatus := string.
Definition RepositoryConnectionStatusActive : RepositoryConnectionStatus := "active".
Definition RepositoryConnectionStatusDisabled : RepositoryConnectionStatus := "disabled".

Definition RepositoryConnectionStatus_Valid (s : RepositoryConnectionStatus) : bool :=
  (s == RepositoryConnectionStatusActive) || (s == RepositoryConnectionStatusDisabled).

Record RepositoryConnection := mkRepositoryConnection {
  rc_ID : UUID;
  rc_Version : Z;
  rc_Label : string;
  rc_Provider : RepositoryProvider;
  rc_Origin : string;
  rc_ProviderRepositoryID : string;
  rc_PathWithNamespace : string;
  rc_PathLookupKey : string;
  rc_CanonicalWebURL : string;
  rc_DefaultBranch : string;
  rc_CredentialCiphertext : list Byte.byte;
  rc_EncryptionKeyID : string;
  rc_CredentialExpiresAt : option Time;
  rc_Status : RepositoryConnectionStatus;
  rc_LastValidatedAt : Time;
  rc_CreatedBy : UUID;
  rc_DisabledBy : option UUID;
  rc_DisabledAt : option Time;
  rc_CreatedAt : Time;
  rc_UpdatedAt : Time;
}.

Definition RepositoryConnection_Validate (c : RepositoryConnection) : result unit :=
  _ ← fail_if ((rc_ID c == uuid_Nil) || (rc_Version c <? 1) || blank (rc_Label c) ||
               blank (rc_ProviderRepositoryID c) || (length (rc_CredentialCiphertext c) == 0%nat) ||
               blank (rc_EncryptionKeyID c) || negb (RepositoryConnectionStatus_Valid (rc_Status c)) ||
               Time_IsZero (rc_LastValidatedAt c) || (rc_CreatedBy c == uuid_Nil) ||
               Time_IsZero (rc_CreatedAt c) || Time_IsZero (rc_UpdatedAt c)) ErrInvalidInput;
  let reference := mkRepositoryReference (rc_Provider c) (rc_Origin c) (rc_PathWithNamespace c)
                     (rc_PathLookupKey c) (rc_CanonicalWebURL c) in
  _ ← match RepositoryReference_Validate reference with
      | Err _ => Err ErrInvalidInput
      | Ok _ => Ok tt
      end;
  fail_if (((rc_Status c == RepositoryConnectionStatusActive) &&
            (present (rc_DisabledBy c) || present (rc_DisabledAt c))) ||
           ((rc_Status c == RepositoryConnectionStatusDisabled) &&
            (missing (rc_DisabledBy c) || negb (present (rc_DisabledAt c))))) ErrInvalidInput.

Record ProjectRepository := mkProjectRepository {
  pr_ID : UUID;
  pr_ProjectID : UUID;
  pr_ConnectionID : UUID;
  pr_BoundBy : UUID;
  pr_BoundAt : Time;
  pr_UnboundBy : option UUID;
  pr_UnboundAt : option Time;
}.

Definition ProjectRepository_Active (r : ProjectRepository) : bool := negb (present (pr_UnboundAt r)).

(** [p != nil && p.Before(t)]; the program dereferences such a pointer only where another
    condition makes it non-nil. *)
Definition opt_before (p : option Time) (t : Time) : bool :=
  match p with Some u => Time_Before u t | None => false end.

Definition ProjectRepository_Validate (r : ProjectRepository) : result unit :=
  _ ← fail_if ((pr_ID r == uuid_Nil) || (pr_ProjectID r == uuid_Nil) ||
               (pr_ConnectionID r == uuid_Nil) || (pr_BoundBy r == uuid_Nil) ||
               Time_IsZero (pr_BoundAt r)) ErrInvalidInput;
  fail_if (xorb (present (pr_UnboundBy r)) (present (pr_UnboundAt r)) ||
           (present (pr_UnboundBy r) &&
            (missing (pr_UnboundBy r) || opt_before (pr_UnboundAt r) (pr_BoundAt r)))) ErrInvalidInput.

Definition CodeChangeKind := string.
Definition CodeChangeKindMergeRequest : CodeChangeKind := "merge_request".
Definition CodeChangeKindPullRequest : CodeChangeKind := "pull_request".

Definition CodeChangeKind_Valid (k : CodeChangeKind) : bool :=
  (k == CodeChangeKindMergeRequest) || (k == CodeChangeKindPullRequest).

Definition CodeChangeKind_CompatibleWith (k : CodeChangeKind) (provider : RepositoryProvider) : bool :=
  ((provider == RepositoryProviderGitLab) && (k == CodeChangeKindMergeRequest)) ||
  ((provider == RepositoryProviderGitHub) && (k == CodeChangeKindPullRequest)).

Definition CodeChangeObservationStatus := string.
Definition CodeChangeObservationConfirmed : CodeChangeObservationStatus := "confirmed".
Definition CodeChangeObservationMissing : CodeChangeObservationStatus := "missing".
Definition CodeChangeObservationUnauthorized : CodeChangeObservationStatus := "unauthorized".
Definition CodeChangeObservationUnreachable : CodeChangeObservationStatus := "unreachable".
Definition CodeChangeObservationDisconnected : CodeChangeObservationStatus := "disconnected".

Definition CodeChangeObservationStatus_Valid (s : CodeChangeObservationStatus) : bool :=
  bool_decide (s ∈ [CodeChangeObservationConfirmed; CodeChangeObservationMissing;
                    CodeChangeObservationUnauthorized; CodeChangeObservationUnreachable;
                    CodeChangeObservationDisconnected]).

Definition CodeChangeState := string.
Definition CodeChangeStateOpened : CodeChangeState := "opened".
Definition CodeChangeStateClosed : CodeChangeState := "closed".
Definition CodeChangeStateMerged : CodeChangeState := "merged".
Definition CodeChangeStateLocked : CodeChangeState := "locked".

Definition CodeChangeState_Valid (s : CodeChangeState) : bool :=
  bool_decide (s ∈ [CodeChangeStateOpened; CodeChangeStateClosed; CodeChangeStateMerged;
                    CodeChangeStateLocked]).

Record CodeChangeObservation := mkCodeChangeObservation {
  ob_Status : CodeChangeObservationStatus;
  ob_ObservedAt : Time;
  ob_Title : string;
  ob_State : CodeChangeState;
  ob_Draft : bool;
  ob_SourceBranch : string;
  ob_TargetBranch : string;
  ob_HeadSHA : string;
  ob_MergeCommitSHA : option string;
  ob_MergedAt : option Time;
  ob_ProviderUpdatedAt : Time;
}.

Definition CodeChangeObservation_Validate (o : CodeChangeObservation) : result unit :=
  _ ← fail_if (negb (CodeChangeObservationStatus_Valid (ob_Status o)) || Time_IsZero (ob_ObservedAt o))
        ErrInvalidInput;
  if ob_Status o != CodeChangeObservationConfirmed then Ok tt
  else fail_if (blank (ob_Title o) || negb (CodeChangeState_Valid (ob_State o)) ||
                blank (ob_SourceBranch o) || blank (ob_TargetBranch o) || blank (ob_HeadSHA o) ||
                Time_IsZero (ob_ProviderUpdatedAt o)) ErrInvalidInput.

Record CodeChangeReference := mkCodeChangeReference {
  ccr_Repository : RepositoryReference;
  ccr_Kind : CodeChangeKind;
  ccr_ChangeNumber : Z;
  ccr_WebURL : string;
}.

Definition CodeChangeReference_Validate (r : CodeChangeReference) : result unit :=
  _ ← RepositoryReference_Validate (ccr_Repository r);
  fail_if (negb (CodeChangeKind_CompatibleWith (ccr_Kind r) (rr_Provider (ccr_Repository r))) ||
           (ccr_ChangeNumber r <? 1) || blank (ccr_WebURL r)) ErrInvalidInput.

Record CodeChange := mkCodeChange {
  cc_Provider : RepositoryProvider;
  cc_Kind : CodeChangeKind;
  cc_ProviderChangeID : string;
  cc_ChangeNumber : Z;
  cc_WebURL : string;
  cc_Observation : CodeChangeObservation;
}.

Definition CodeChange_Validate (c : CodeChange) : result unit :=
  _ ← fail_if (negb (CodeChangeKind_CompatibleWith (cc_Kind c) (cc_Provider c)) ||
               blank (cc_ProviderChangeID c) || (cc_ChangeNumber c <? 1) || blank (cc_WebURL c))
        ErrInvalidInput;
  CodeChangeObservation_Validate (cc_Observation c).

Record TaskCodeChange := mkTaskCodeChange {
  tcc_ID : UUID;
  tcc_TaskID : UUID;
  tcc_ProjectID : UUID;
  tcc_ProjectRepositoryID : UUID;
  tcc_Provider : RepositoryProvider;
  tcc_Kind : CodeChangeKind;
  tcc_ChangeNumber : Z;
  tcc_ProviderChangeID : string;
  tcc_WebURL : string;
  tcc_LinkedBy : Actor;
  tcc_LinkedThroughClaimID : UUID;
  tcc_LinkedAt : Time;
  tcc_UnlinkedBy : option Actor;
  tcc_UnlinkedThroughClaimID : option UUID;
  tcc_UnlinkedAt : option Time;
  tcc_LatestObservation : CodeChangeObservation;
  tcc_CreatedAt : Time;
  tcc_UpdatedAt : Time;
}.

Definition TaskCodeChange_Active (c : TaskCodeChange) : bool := negb (present (tcc_UnlinkedAt c)).

Definition validDeliveryActor (actor : Actor) : bool :=
  ((actor_Type actor == ActorTypeUser) && negb (missing (actor_UserID actor)) &&
   (actor_Ref actor == "")) ||
  ((actor_Type actor == ActorTypeAgent) && negb (present (actor_UserID actor)) &&
   negb (blank (actor_Ref actor))).

Definition TaskCodeChange_Validate (c : TaskCodeChange) : result unit :=
  _ ← fail_if ((tcc_ID c == uuid_Nil) || (tcc_TaskID c == uuid_Nil) || (tcc_ProjectID c == uuid_Nil) ||
               (tcc_ProjectRepositoryID c == uuid_Nil) ||
               negb (CodeChangeKind_CompatibleWith (tcc_Kind c) (tcc_Provider c)) ||
               (tcc_ChangeNumber c <? 1) || blank (tcc_ProviderChangeID c) || blank (tcc_WebURL c) ||
               negb (validDeliveryActor (tcc_LinkedBy c)) ||
               (tcc_LinkedThroughClaimID c == uuid_Nil) || Time_IsZero (tcc_LinkedAt c) ||
               Time_IsZero (tcc_CreatedAt c) || Time_IsZero (tcc_UpdatedAt c)) ErrInvalidInput;
  _ ← CodeChangeObservation_Validate (tcc_LatestObservation c);
  _ ← fail_if (xorb (present (tcc_UnlinkedBy c)) (present (tcc_UnlinkedAt c)) ||
               xorb (present (tcc_UnlinkedThroughClaimID c)) (present (tcc_UnlinkedAt c)))
        ErrInvalidInput;
  fail_if (match tcc_UnlinkedBy c with
           | Some unlinkedBy => negb (validDeliveryActor unlinkedBy) || missing (tcc_UnlinkedThroughClaimID c) ||
                        opt_before (tcc_UnlinkedAt c) (tcc_LinkedAt c)
           | None => false
           end) ErrInvalidInput.

Record CodeChangeSnapshot := mkCodeChangeSnapshot {
  ccs_TaskCodeChangeID : UUID;
  ccs_ProjectRepositoryID : UUID;
  ccs_ConnectionID : UUID;
  ccs_Provider : RepositoryProvider;
  ccs_ProviderRepositoryID : string;
  ccs_Kind : CodeChangeKind;
  ccs_ChangeNumber : Z;
  ccs_ProviderChangeID : string;
  ccs_WebURL : string;
  ccs_Title : string;
  ccs_State : CodeChangeState;
  ccs_Draft : bool;
  ccs_SourceBranch : string;
  ccs_TargetBranch : string;
  ccs_HeadSHA : string;
  ccs_MergeCommitSHA : option string;
  ccs_MergedAt : option Time;
  ccs_ObservationStatus : CodeChangeObservationStatus;
  ccs_ObservedAt : Time;
}.

Definition CodeChangeSnapshot_Validate (s : CodeChangeSnapshot) : result unit :=
  _ ← fail_if ((ccs_TaskCodeChangeID s == uuid_Nil) || (ccs_ProjectRepositoryID s == uuid_Nil) ||
               (ccs_ConnectionID s == uuid_Nil) ||
               negb (CodeChangeKind_CompatibleWith (ccs_Kind s) (ccs_Provider s)) ||
               blank (ccs_ProviderRepositoryID s) || (ccs_ChangeNumber s <? 1) ||
               blank (ccs_ProviderChangeID s) || blank (ccs_WebURL s) ||
               negb (CodeChangeObservationStatus_Valid (ccs_ObservationStatus s)) ||
               Time_IsZero (ccs_ObservedAt s)) ErrInvalidInput;
  fail_if ((ccs_ObservationStatus s == CodeChangeObservationConfirmed) &&
           (blank (ccs_Title s) || negb (CodeChangeState_Valid (ccs_State s)) ||
            blank (ccs_HeadSHA s))) ErrInvalidInput.
