(* ===== verification/Thread.v ===== *)
(** * Threads and Thread Items

    internal/domain/thread.go: the Main Thread of a Task, its typed Issue Threads, the Items
    they hold, and the payloads of the immutable workflow Items. *)

From stdpp Require Import base tactics strings gmap list numbers.
From S2P Require Import Prelude Actors Lifecycle Delivery.

Definition ThreadRole := string.
Definition ThreadRoleMain : ThreadRole := "main".
Definition ThreadRoleIssue : ThreadRole := "issue".

Definition IssueThreadType := string.
Definition IssueThreadTypeDecisionRequired : IssueThreadType := "decision_required".
Definition IssueThreadTypeDependencyRequired : IssueThreadType := "dependency_required".

Definition IssueThreadType_Valid (t : IssueThreadType) : bool :=
  (t == IssueThreadTypeDecisionRequired) || (t == IssueThreadTypeDependencyRequired).

Definition IssueThreadStatus := string.
Definition IssueThreadStatusOpen : IssueThreadStatus := "open".
Definition IssueThreadStatusResolved : IssueThreadStatus := "resolved".

Record Thread := mkThread {
  th_ID : UUID;
  th_TaskID : UUID;
  th_Role : ThreadRole;
  th_IssueType : IssueThreadType;
  th_IssueStatus : IssueThreadStatus;
  th_OpenedFromPhase : TaskPhase;
  th_OpenedBy : Actor;
  th_ResolvedBy : option Actor;
  th_Version : Z;
  th_CreatedAt : Time;
  th_UpdatedAt : Time;
  th_ResolvedAt : option Time;
}.

Definition Thread_Validate (t : Thread) : result unit :=
  _ ← fail_if ((th_ID t == uuid_Nil) || (th_TaskID t == uuid_Nil) || (th_Version t <? 1) ||
               Time_IsZero (th_CreatedAt t) || Time_IsZero (th_UpdatedAt t)) ErrInvalidInput;
  if th_Role t == ThreadRoleMain then
    fail_if ((th_IssueType t != "") || (th_IssueStatus t != "") || (th_OpenedFromPhase t != "") ||
             present (th_ResolvedBy t) || present (th_ResolvedAt t)) ErrInvalidInput
  else if th_Role t == ThreadRoleIssue then
    _ ← fail_if (negb (IssueThreadType_Valid (th_IssueType t))) ErrWrongIssueType;
    _ ← fail_if (((th_OpenedFromPhase t != TaskPhaseInProgress) &&
                  (th_OpenedFromPhase t != TaskPhaseInReview)) ||
                 negb (validThreadActor (th_OpenedBy t))) ErrInvalidInput;
    if th_IssueStatus t == IssueThreadStatusOpen then
      fail_if (present (th_ResolvedBy t) || present (th_ResolvedAt t)) ErrInvalidInput
    else if th_IssueStatus t == IssueThreadStatusResolved then
      fail_if (match th_ResolvedBy t with
               | None => true
               | Some a => negb (validThreadActor a) || negb (present (th_ResolvedAt t))
               end) ErrInvalidInput
    else Err ErrInvalidInput
  else Err ErrInvalidInput.

(** [newID] is the value of [uuid.New()]. *)
Definition NewMainThread (newID taskID : UUID) (now : Time) : result Thread :=
  let thread := mkThread newID taskID ThreadRoleMain "" "" "" Actor_zero None 1 now now None in
  _ ← Thread_Validate thread;
  Ok thread.

Definition NewIssueThread (newID taskID : UUID) (issueType : IssueThreadType) (phase : TaskPhase)
  (openedBy : Actor) (now : Time) : result Thread :=
  _ ← fail_if (negb (IssueThreadType_Valid issueType)) ErrWrongIssueType;
  let thread := mkThread newID taskID ThreadRoleIssue issueType IssueThreadStatusOpen phase openedBy
                  None 1 now now None in
  _ ← Thread_Validate thread;
  Ok thread.

(** The five assignments of [Resolve]. *)
Definition th_resolved (t : Thread) (resolvedBy : Actor) (resolvedAt : Time) : Thread :=
  {| th_ID := th_ID t; th_TaskID := th_TaskID t; th_Role := th_Role t;
     th_IssueType := th_IssueType t; th_IssueStatus := IssueThreadStatusResolved;
     th_OpenedFromPhase := th_OpenedFromPhase t; th_OpenedBy := th_OpenedBy t;
     th_ResolvedBy := Some resolvedBy; th_Version := int64 (th_Version t + 1);
     th_CreatedAt := th_CreatedAt t; th_UpdatedAt := resolvedAt; th_ResolvedAt := Some resolvedAt |}.

Definition Thread_Resolve (t : Thread) (resolvedBy : Actor) (now : Time) : result Thread :=
  _ ← fail_if ((th_Role t != ThreadRoleIssue) || (th_IssueStatus t != IssueThreadStatusOpen)) ErrConflict;
  _ ← fail_if (negb (validThreadActor resolvedBy)) ErrInvalidInput;
  Ok (th_resolved t resolvedBy now).

(** ** Thread Items *)

Definition ThreadItemKind := string.
Definition ThreadItemKindMessage : ThreadItemKind := "message".
Definition ThreadItemKindProgress : ThreadItemKind := "progress".
Definition ThreadItemKindHandoff : ThreadItemKind := "handoff".
Definition ThreadItemKindWorkSubmission : ThreadItemKind := "work_submission".
Definition ThreadItemKindExecutionCompleted : ThreadItemKind := "execution_completed".
Definition ThreadItemKindReviewOutcome : ThreadItemKind := "review_outcome".
Definition ThreadItemKindResolutionRequest : ThreadItemKind := "resolution_request".
Definition ThreadItemKindResolution : ThreadItemKind := "resolution".
Definition ThreadItemKindIssueResolution : ThreadItemKind := "issue_resolution".
Definition ThreadItemKindSystemEvent : ThreadItemKind := "system_event".

Definition ThreadItemKind_Valid (k : ThreadItemKind) : bool :=
  bool_decide (k ∈ [ThreadItemKindMessage; ThreadItemKindProgress; ThreadItemKindHandoff;
                    ThreadItemKindWorkSubmission; ThreadItemKindExecutionCompleted;
                    ThreadItemKindReviewOutcome; ThreadItemKindResolutionRequest;
                    ThreadItemKindResolution; ThreadItemKindIssueResolution;
                    ThreadItemKindSystemEvent]).

Definition ThreadItemKind_Immutable (k : ThreadItemKind) : bool := k != ThreadItemKindMessage.

Record IssueResolutionPayload := mkIssueResolutionPayload {
  irp_IssueThreadID : UUID;
  irp_IssueType : IssueThreadType;
  irp_Request : string;
  irp_Resolution : string;
  irp_OpenedBy : Actor;
  irp_ResolvedBy : Actor;
  irp_OpenedAt : Time;
  irp_ResolvedAt : Time;
}.

Record CriterionRevisionSnapshot := mkCriterionRevisionSnapshot {
  crs_CriterionID : UUID;
  crs_Revision : Z;
}.

Record ExecutionCompletedPayload := mkExecutionCompletedPayload {
  ecp_ReviewCycle : Z;
  ecp_SubmissionItemIDs : list UUID;
  ecp_ExecutionCheckIDs : list UUID;
  ecp_CriterionRevisions : list CriterionRevisionSnapshot;
  ecp_CodeChanges : list CodeChangeSnapshot;
}.

(** The first error of a [for ... { if err := f(x); err != nil { return err } }] loop. *)
Fixpoint first_error {A} (f : A -> result unit) (l : list A) : result unit :=
  match l with
  | [] => Ok tt
  | x :: l' => _ ← f x; first_error f l'
  end.

Definition ExecutionCompletedPayload_Validate (p : ExecutionCompletedPayload) : result unit :=
  _ ← fail_if (ecp_ReviewCycle p <? 1) ErrInvalidInput;
  _ ← first_error (fun id => fail_if (id == uuid_Nil) ErrInvalidInput)
        (ecp_SubmissionItemIDs p ++ ecp_ExecutionCheckIDs p);
  _ ← first_error (fun revision =>
        fail_if ((crs_CriterionID revision == uuid_Nil) || (crs_Revision revision <? 1)) ErrInvalidInput)
        (ecp_CriterionRevisions p);
  first_error CodeChangeSnapshot_Validate (ecp_CodeChanges p).

Definition IssueResolutionPayload_Validate (p : IssueResolutionPayload) : result unit :=
  fail_if ((irp_IssueThreadID p == uuid_Nil) || negb (IssueThreadType_Valid (irp_IssueType p)) ||
           blank (irp_Request p) || blank (irp_Resolution p) ||
           negb (validThreadActor (irp_OpenedBy p)) || negb (validThreadActor (irp_ResolvedBy p)) ||
           Time_IsZero (irp_OpenedAt p) || Time_IsZero (irp_ResolvedAt p) ||
           Time_Before (irp_ResolvedAt p) (irp_OpenedAt p)) ErrInvalidInput.

Record ThreadItem := mkThreadItem {
  ti_ID : UUID;
  ti_ThreadID : UUID;
  ti_Kind : ThreadItemKind;
  ti_Author : Actor;
  ti_Body : string;
  ti_IssueResolution : option IssueResolutionPayload;
  ti_ExecutionCompleted : option ExecutionCompletedPayload;
  ti_TaskStageClaimID : option UUID;
  ti_TaskReviewCycle : option Z;
  ti_ReplyToItemID : option UUID;
  ti_MentionedUserIDs : list UUID;
  ti_Version : Z;
  ti_CreatedAt : Time;
  ti_UpdatedAt : Time;
  ti_DeletedAt : option Time;
}.

(** [p == nil || *p < 1] *)
Definition cycle_missing (p : option Z) : bool :=
  match p with Some n => n <? 1 | None => true end.

Definition ThreadItem_Validate (i : ThreadItem) : result unit :=
  _ ← fail_if ((ti_ID i == uuid_Nil) || (ti_ThreadID i == uuid_Nil) ||
               negb (ThreadItemKind_Valid (ti_Kind i)) || negb (validThreadActor (ti_Author i)) ||
               (ti_Version i <? 1) || Time_IsZero (ti_CreatedAt i) || Time_IsZero (ti_UpdatedAt i))
        ErrInvalidInput;
  _ ← (if ti_Kind i == ThreadItemKindIssueResolution then
         match ti_IssueResolution i with
         | None => Err ErrInvalidInput
         | Some p => IssueResolutionPayload_Validate p
         end
       else fail_if (present (ti_IssueResolution i)) ErrInvalidInput);
  _ ← (if ti_Kind i == ThreadItemKindExecutionCompleted then
         match ti_ExecutionCompleted i with
         | None => Err ErrInvalidInput
         | Some p => ExecutionCompletedPayload_Validate p
         end
       else fail_if (present (ti_ExecutionCompleted i)) ErrInvalidInput);
  _ ← (if (ti_Kind i == ThreadItemKindWorkSubmission) || (ti_Kind i == ThreadItemKindExecutionCompleted) then
         _ ← fail_if (missing (ti_TaskStageClaimID i) || cycle_missing (ti_TaskReviewCycle i))
               ErrInvalidInput;
         fail_if (match ti_ExecutionCompleted i with
                  | Some p => Some (ecp_ReviewCycle p) != ti_TaskReviewCycle i
                  | None => false
                  end) ErrInvalidInput
       else if (ti_Kind i == ThreadItemKindProgress) && present (ti_TaskStageClaimID i) then
         fail_if (missing (ti_TaskStageClaimID i) || cycle_missing (ti_TaskReviewCycle i)) ErrInvalidInput
       else fail_if (present (ti_TaskStageClaimID i) || present (ti_TaskReviewCycle i)) ErrInvalidInput);
  if present (ti_DeletedAt i) then
    fail_if (ti_Kind i != ThreadItemKindMessage) ErrInvalidInput
  else fail_if (blank (ti_Body i) && (ti_Kind i != ThreadItemKindIssueResolution)) ErrInvalidInput.

(** The assignments of [Edit] and [Delete]. *)
Definition ti_rewritten (i : ThreadItem) (body : string) (mentioned : list UUID) (updatedAt : Time)
  (deletedAt : option Time) : ThreadItem :=
  {| ti_ID := ti_ID i; ti_ThreadID := ti_ThreadID i; ti_Kind := ti_Kind i; ti_Author := ti_Author i;
     ti_Body := body; ti_IssueResolution := ti_IssueResolution i;
     ti_ExecutionCompleted := ti_ExecutionCompleted i; ti_TaskStageClaimID := ti_TaskStageClaimID i;
     ti_TaskReviewCycle := ti_TaskReviewCycle i; ti_ReplyToItemID := ti_ReplyToItemID i;
     ti_MentionedUserIDs := mentioned; ti_Version := int64 (ti_Version i + 1);
     ti_CreatedAt := ti_CreatedAt i; ti_UpdatedAt := updatedAt; ti_DeletedAt := deletedAt |}.

Definition ThreadItem_Edit (i : ThreadItem) (body : string) (mentionedUserIDs : list UUID) (now : Time)
  : result ThreadItem :=
  _ ← fail_if (ThreadItemKind_Immutable (ti_Kind i) || present (ti_DeletedAt i)) ErrConflict;
  _ ← fail_if (blank body) ErrInvalidInput;
  Ok (ti_rewritten i body mentionedUserIDs now (ti_DeletedAt i)).

Definition ThreadItem_Delete (i : ThreadItem) (now : Time) : result ThreadItem :=
  _ ← fail_if (ThreadItemKind_Immutable (ti_Kind i) || present (ti_DeletedAt i)) ErrConflict;
  Ok (ti_rewritten i "" [] now (Some now)).
