(* ===== verification/Acceptance.v ===== *)
(** * Acceptance criteria and checks

    internal/domain/acceptance.go: revisioned criteria with one owner, and immutable checks that
    bind an outcome to one criterion revision, one Claim and one review cycle. *)

From stdpp Require Import base tactics strings gmap list numbers.
From S2P Require Import Prelude Actors Lifecycle.

Record AcceptanceCriterion := mkAcceptanceCriterion {
  ac_ID : UUID;
  ac_Version : Z;
  ac_MilestoneID : option UUID;
  ac_TaskID : option UUID;
  ac_Criterion : string;
  ac_VerificationInstructions : string;
  ac_Revision : Z;
  ac_Position : Z;
  ac_ArchivedAt : option Time;
  ac_CreatedAt : Time;
  ac_UpdatedAt : Time;
}.

Definition AcceptanceCriterion_Validate (c : AcceptanceCriterion) : result unit :=
  let ownerCount := length (List.filter present [ac_MilestoneID c; ac_TaskID c]) in
  _ ← fail_if (ownerCount != 1%nat) ErrInvalidInput;
  _ ← fail_if (blank (ac_Criterion c) || blank (ac_VerificationInstructions c)) ErrInvalidInput;
  fail_if ((ac_Revision c <? 1) || (ac_Position c <? 0)) ErrInvalidInput.

(** [now] is [time.Now().UTC()]. *)
Definition AcceptanceCriterion_Edit (c : AcceptanceCriterion) (criterion verificationInstructions : string)
  (now : Time) : AcceptanceCriterion :=
  if (ac_Criterion c != criterion) || (ac_VerificationInstructions c != verificationInstructions) then
    {| ac_ID := ac_ID c; ac_Version := ac_Version c; ac_MilestoneID := ac_MilestoneID c;
       ac_TaskID := ac_TaskID c; ac_Criterion := criterion;
       ac_VerificationInstructions := verificationInstructions; ac_Revision := int64 (ac_Revision c + 1);
       ac_Position := ac_Position c; ac_ArchivedAt := ac_ArchivedAt c; ac_CreatedAt := ac_CreatedAt c;
       ac_UpdatedAt := now |}
  else c.

Definition AcceptanceCriterion_Move (c : AcceptanceCriterion) (position : Z) (now : Time)
  : AcceptanceCriterion :=
  if ac_Position c != position then
    {| ac_ID := ac_ID c; ac_Version := ac_Version c; ac_MilestoneID := ac_MilestoneID c;
       ac_TaskID := ac_TaskID c; ac_Criterion := ac_Criterion c;
       ac_VerificationInstructions := ac_VerificationInstructions c; ac_Revision := ac_Revision c;
       ac_Position := position; ac_ArchivedAt := ac_ArchivedAt c; ac_CreatedAt := ac_CreatedAt c;
       ac_UpdatedAt := now |}
  else c.

Definition AcceptanceOutcome := string.
Definition AcceptanceOutcomePassed : AcceptanceOutcome := "passed".
Definition AcceptanceOutcomeFailed : AcceptanceOutcome := "failed".
Definition AcceptanceOutcomeUnable : AcceptanceOutcome := "unable".
Definition AcceptanceOutcomeWaived : AcceptanceOutcome := "waived".

Definition AcceptanceOutcome_Valid (o : AcceptanceOutcome) : bool :=
  bool_decide (o ∈ [AcceptanceOutcomePassed; AcceptanceOutcomeFailed; AcceptanceOutcomeUnable;
                    AcceptanceOutcomeWaived]).

Definition AcceptanceOutcome_Satisfies (o : AcceptanceOutcome) : bool :=
  (o == AcceptanceOutcomePassed) || (o == AcceptanceOutcomeWaived).

Definition AcceptanceCheckPurpose := string.
Definition AcceptanceCheckPurposeExecutionVerification : AcceptanceCheckPurpose := "execution_verification".
Definition AcceptanceCheckPurposeAcceptance : AcceptanceCheckPurpose := "acceptance".

Definition AcceptanceCheckPurpose_Valid (p : AcceptanceCheckPurpose) : bool :=
  (p == AcceptanceCheckPurposeExecutionVerification) || (p == AcceptanceCheckPurposeAcceptance).

Record AcceptanceCheck := mkAcceptanceCheck {
  ck_ID : UUID;
  ck_CriterionID : UUID;
  ck_CriterionRevision : Z;
  ck_Outcome : AcceptanceOutcome;
  ck_Evidence : string;
  ck_Checker : Actor;
  ck_Purpose : AcceptanceCheckPurpose;
  ck_TaskClaimID : option UUID;
  ck_TaskReviewCycle : option Z;
  ck_CheckedAt : Time;
}.

Definition validateBase (c : AcceptanceCheck) (criterion : AcceptanceCriterion) : result unit :=
  _ ← fail_if ((ck_CriterionID c != ac_ID criterion) || (ck_CriterionRevision c != ac_Revision criterion))
        ErrConflict;
  _ ← fail_if (negb (AcceptanceOutcome_Valid (ck_Outcome c)) || blank (ck_Evidence c)) ErrInvalidInput;
  if actor_Type (ck_Checker c) == ActorTypeUser then
    fail_if (negb (Actor_IsHuman (ck_Checker c))) ErrInvalidInput
  else if (actor_Type (ck_Checker c) == ActorTypeAgent) || (actor_Type (ck_Checker c) == ActorTypeSystem) then
    fail_if (blank (actor_Ref (ck_Checker c))) ErrInvalidInput
  else Err ErrInvalidInput.

Definition ValidateForTaskClaim (c : AcceptanceCheck) (criterion : AcceptanceCriterion)
  (claimID : UUID) (stage : TaskClaimStage) (reviewCycle : Z) : result unit :=
  _ ← validateBase c criterion;
  _ ← fail_if ((claimID == uuid_Nil) || (ck_TaskClaimID c != Some claimID) ||
               (ck_TaskReviewCycle c != Some reviewCycle) || (reviewCycle <? 0)) ErrConflict;
  fail_if (negb (AcceptanceCheckPurpose_Valid (ck_Purpose c)) ||
           ((stage == TaskClaimStageExecution) &&
            (ck_Purpose c != AcceptanceCheckPurposeExecutionVerification)) ||
           ((stage == TaskClaimStageReview) && (ck_Purpose c != AcceptanceCheckPurposeAcceptance)) ||
           negb (TaskClaimStage_Valid stage)) ErrConflict.

Definition SatisfiesTaskReview (c : AcceptanceCheck) (reviewCycle : Z) : bool :=
  (ck_Purpose c == AcceptanceCheckPurposeAcceptance) &&
  (ck_TaskReviewCycle c == Some reviewCycle) && AcceptanceOutcome_Satisfies (ck_Outcome c).

Definition ValidateAgainst (c : AcceptanceCheck) (criterion : AcceptanceCriterion) : result unit :=
  validateBase c criterion.
