(* ===== verification/Database.v ===== *)
(** * The PostgreSQL tables of the workflow

    The rows, CHECK constraints, unique indexes and foreign keys (migrations/*.sql) that the
    workflow, thread and acceptance stores read and write, and the monad in which a store
    method runs: a world of committed tables with the generator of [uuid.New()], statements
    that fail with the error [mapPgError] gives them, and transactions that roll back. *)

From stdpp Require Import base tactics strings gmap list numbers sorting.
From S2P Require Import Prelude Actors Lifecycle StageClaim Delivery Thread Acceptance.

(** ** SQL's three-valued logic *)

Definition tv := option bool.
Definition tand (a b : tv) : tv :=
  match a, b with
  | Some false, _ | _, Some false => Some false
  | Some true, Some true => Some true
  | _, _ => None
  end.
Definition tor (a b : tv) : tv :=
  match a, b with
  | Some true, _ | _, Some true => Some true
  | Some false, Some false => Some false
  | _, _ => None
  end.
Definition is_null {A} (c : option A) : tv := Some (negb (present c)).
Definition not_null {A} (c : option A) : tv := Some (present c).
(** [c = v] and [c IN (...)] on a nullable column. *)
Definition teq {A} `{EqDecision A} (c : option A) (v : A) : tv := (fun x => x == v) <$> c.
Definition tin (c : option string) (vs : list string) : tv := (fun x => bool_decide (x ∈ vs)) <$> c.
Definition tnot_in (c : option string) (vs : list string) : tv :=
  (fun x => negb (bool_decide (x ∈ vs))) <$> c.
(** [btrim(c) <> ''] *)
Definition not_btrim_empty (c : option string) : tv := (fun x => negb (GoStrings.btrim_empty x)) <$> c.

(** A CHECK constraint is violated only when it is false, not when it is unknown. *)
Definition check_ok (t : tv) : bool := t != Some false.

Declare Scope sql_scope.
Delimit Scope sql_scope with sql.
Infix "AND" := tand (at level 40, left associativity) : sql_scope.
Infix "OR" := tor (at level 50, left associativity) : sql_scope.

(** ** Rows *)

(** A [date]: the number of its day.  The API and the [date] columns carry midnights. *)
Definition Date := Z.

(** The columns of [tasks] that the workflow never writes and a patch may edit. *)
Record TaskBrief := mkTaskBrief {
  b_title : string;
  b_context : string;
  b_expected_result : string;
  b_description : string;
  b_status : string;
  b_priority : string;
  b_execution_mode : string;
  b_assignee_id : option UUID;
  b_start_date : option Date;
  b_due_date : option Date;
  b_milestone_id : option UUID;
}.

#[global] Instance TaskBrief_eq_dec : EqDecision TaskBrief.
Proof. solve_decision. Defined.

(** A row of [tasks]. *)
Record TaskRow := mkTaskRow {
  t_id : UUID;
  t_number : Z;
  t_version : Z;
  t_phase : option string;
  t_activity_state : option string;
  t_review_cycle : option Z;
  t_active_issue_thread_id : option UUID;
  t_project_id : UUID;
  t_parent_task_id : option UUID;
  t_updated_at : Time;
  t_completed_at : option Time;
  t_archived_at : option Time;
  t_creator_id : UUID;
  t_created_at : Time;
  t_brief : TaskBrief;
}.

Record ClaimRow := mkClaimRow {
  c_id : UUID;
  c_task_id : UUID;
  c_task_number : Z;
  c_stage : string;
  c_claimed_by_type : string;
  c_claimed_by_user_id : option UUID;
  c_claimed_by_ref : option string;
  c_subject_user_id : UUID;
  c_auth_method : string;
  c_api_token_id : option UUID;
  c_token_name_snapshot : option string;
  c_agent_run_id : option UUID;
  c_client_kind : string;
  c_client_session_id : string;
  c_status : string;
  c_outcome : option string;
  c_version : Z;
  c_expires_at : Time;
  c_created_at : Time;
  c_updated_at : Time;
  c_completed_at : option Time;
}.

Record ThreadRow := mkThreadRow {
  h_id : UUID;
  h_task_id : UUID;
  h_role : string;
  h_issue_type : option string;
  h_issue_status : option string;
  h_opened_from_phase : option string;
  h_opened_by_type : option string;
  h_opened_by_user_id : option UUID;
  h_opened_by_ref : option string;
  h_resolved_by_type : option string;
  h_resolved_by_user_id : option UUID;
  h_resolved_by_ref : option string;
  h_version : Z;
  h_created_at : Time;
  h_updated_at : Time;
  h_resolved_at : option Time;
}.

(** [typed_payload]: the JSON object that [encoding/json] writes for a payload and reads back. *)
Inductive TypedPayload :=
| IssueResolutionJSON (p : IssueResolutionPayload)
| ExecutionCompletedJSON (p : ExecutionCompletedPayload).

Record ItemRow := mkItemRow {
  i_id : UUID;
  i_thread_id : UUID;
  i_kind : string;
  i_author_type : string;
  i_author_user_id : option UUID;
  i_author_ref : option string;
  i_body : option string;
  i_typed_payload : option TypedPayload;
  i_task_stage_claim_id : option UUID;
  i_task_review_cycle : option Z;
  i_reply_to_item_id : option UUID;
  i_request_id : string;
  i_version : Z;
  i_created_at : Time;
  i_updated_at : Time;
  i_deleted_at : option Time;
}.

Record CheckRow := mkCheckRow {
  k_id : UUID;
  k_criterion_id : UUID;
  k_criterion_revision : Z;
  k_outcome : string;
  k_evidence : string;
  k_checker_type : string;
  k_checked_by_user_id : option UUID;
  k_checker_ref : option string;
  k_checked_at : Time;
  k_purpose : option string;
  k_task_stage_claim_id : option UUID;
  k_task_review_cycle : option Z;
}.

(** [task_code_changes] of migration 0033; the observation stands for its eleven columns. *)
Record CodeChangeRow := mkCodeChangeRow {
  cr_id : UUID;
  cr_task_id : UUID;
  cr_project_id : UUID;
  cr_project_repository_id : UUID;
  cr_kind : string;
  cr_change_number : Z;
  cr_provider_change_id : string;
  cr_web_url : string;
  cr_linked_by_type : string;
  cr_linked_by_user_id : option UUID;
  cr_linked_by_ref : option string;
  cr_linked_through_claim_id : UUID;
  cr_linked_at : Time;
  cr_unlinked_by_type : option string;
  cr_unlinked_by_user_id : option UUID;
  cr_unlinked_by_ref : option string;
  cr_unlinked_through_claim_id : option UUID;
  cr_unlinked_at : option Time;
  cr_observation : CodeChangeObservation;
  cr_created_at : Time;
  cr_updated_at : Time;
}.

(** The columns of the legacy [task_claims] that completion by status reads. *)
Record LegacyClaimRow := mkLegacyClaimRow {
  lc_id : UUID;
  lc_task_id : UUID;
  lc_status : string;
  lc_completed_at : option Time;
}.

(** A row of [task_activity], without its identifier and time. *)
Record ActivityRow := mkActivityRow {
  y_task_id : UUID;
  y_actor : OperationActor;
  y_field : string;
  y_old_value : option string;
  y_new_value : option string;
}.

(** The JSON objects in [old_value] and [new_value] of an audit event, as the values they encode. *)
Inductive AuditValue :=
| AuditLifecycle (l : TaskLifecycle)
| AuditTask (brief : TaskBrief) (project_id : UUID) (parent_task_id : option UUID)
    (label_ids : option (list UUID)) (dependency_ids : list UUID) (schedule_shift_days : option Z)
| AuditPlacement (project_id : UUID) (milestone_id moved_with_parent_id : option UUID)
| AuditSchedule (start_date due_date : option Date) (shifted_with : option (UUID * Z))
| AuditArchived (archived : bool)
| AuditProject (name description : string)
| AuditProjectArchived (archived_at : option Time)
| AuditMilestone (project_id : option UUID) (name outcome description : string) (owner_id : UUID)
    (status : option string) (target_date : option Date) (position : Z)
| AuditMilestoneStatus (status : string) (reason : option string)
| AuditCriterion (owner : option (option UUID * option UUID)) (criterion verification_instructions : string)
    (revision position : Z)
| AuditCriterionRemoved (owner : option UUID) (reason : string) (check_count : Z)
| AuditCheck (criterion_id : UUID) (criterion_revision : Z) (outcome evidence checker_type : string)
    (checked_by_user_id : option UUID) (checker_ref : option string)
| AuditCriterionChange (criterion_id : UUID) (revision : Z)
| AuditAttachment (task_id : UUID) (filename media_type : string) (size_bytes : Z) (provider : string)
| AuditConnection (label provider origin provider_repository_id path_with_namespace canonical_web_url default_branch : string)
    (credential_expires_at : option Time) (status : string) (last_validated_at : Time)
| AuditRepository (project_id connection_id : UUID) (provider provider_repository_id canonical_web_url : string)
    (bound_at : Time) (unbound_at : option Time)
| AuditCodeChange (project_repository_id : UUID) (provider provider_repository_id kind : string) (change_number : Z)
    (provider_change_id web_url head_sha observation_status : string).

(** A row of [business_audit_events] (internal/domain/operation.go). *)
Record BusinessAuditEvent := mkBusinessAuditEvent {
  be_ID : UUID;
  be_OccurredAt : Time;
  be_Actor : OperationActor;
  be_EntityType : string;
  be_EntityID : UUID;
  be_EntityNumber : option Z;
  be_Action : string;
  be_OldValue : option AuditValue;
  be_NewValue : option AuditValue;
}.

Record DB := mkDB {
  tasks : gmap UUID TaskRow;
  task_stage_claims : gmap UUID ClaimRow;
  task_threads : gmap UUID ThreadRow;
  task_thread_items : gmap UUID ItemRow;
  task_thread_item_mentions : gset (UUID * UUID);
  acceptance_criteria : gmap UUID AcceptanceCriterion;
  acceptance_checks : gmap UUID CheckRow;
  task_dependencies : gset (UUID * UUID);
  task_code_changes : gmap UUID CodeChangeRow;
  business_audit_events : list BusinessAuditEvent;
  users : gset UUID;
  api_tokens : gset UUID;
  agent_runs : gset UUID;
  projects : gset UUID;
  milestones : gset (UUID * UUID);  (** [(project_id, id)] *)
  labels : gmap UUID string;
  task_labels : gset (UUID * UUID);
  task_activity : list ActivityRow;
  task_claims : gmap UUID LegacyClaimRow;
}.

Definition set_tasks (x : gmap UUID TaskRow) (d : DB) : DB :=
  mkDB x (task_stage_claims d) (task_threads d) (task_thread_items d) (task_thread_item_mentions d)
    (acceptance_criteria d) (acceptance_checks d) (task_dependencies d) (task_code_changes d)
    (business_audit_events d) (users d) (api_tokens d) (agent_runs d)
    (projects d) (milestones d) (labels d) (task_labels d) (task_activity d) (task_claims d).
Definition set_claims (x : gmap UUID ClaimRow) (d : DB) : DB :=
  mkDB (tasks d) x (task_threads d) (task_thread_items d) (task_thread_item_mentions d)
    (acceptance_criteria d) (acceptance_checks d) (task_dependencies d) (task_code_changes d)
    (business_audit_events d) (users d) (api_tokens d) (agent_runs d)
    (projects d) (milestones d) (labels d) (task_labels d) (task_activity d) (task_claims d).
Definition set_threads (x : gmap UUID ThreadRow) (d : DB) : DB :=
  mkDB (tasks d) (task_stage_claims d) x (task_thread_items d) (task_thread_item_mentions d)
    (acceptance_criteria d) (acceptance_checks d) (task_dependencies d) (task_code_changes d)
    (business_audit_events d) (users d) (api_tokens d) (agent_runs d)
    (projects d) (milestones d) (labels d) (task_labels d) (task_activity d) (task_claims d).
Definition set_items (x : gmap UUID ItemRow) (d : DB) : DB :=
  mkDB (tasks d) (task_stage_claims d) (task_threads d) x (task_thread_item_mentions d)
    (acceptance_criteria d) (acceptance_checks d) (task_dependencies d) (task_code_changes d)
    (business_audit_events d) (users d) (api_tokens d) (agent_runs d)
    (projects d) (milestones d) (labels d) (task_labels d) (task_activity d) (task_claims d).
Definition set_mentions (x : gset (UUID * UUID)) (d : DB) : DB :=
  mkDB (tasks d) (task_stage_claims d) (task_threads d) (task_thread_items d) x
    (acceptance_criteria d) (acceptance_checks d) (task_dependencies d) (task_code_changes d)
    (business_audit_events d) (users d) (api_tokens d) (agent_runs d)
    (projects d) (milestones d) (labels d) (task_labels d) (task_activity d) (task_claims d).
Definition set_checks (x : gmap UUID CheckRow) (d : DB) : DB :=
  mkDB (tasks d) (task_stage_claims d) (task_threads d) (task_thread_items d)
    (task_thread_item_mentions d) (acceptance_criteria d) x (task_dependencies d)
    (task_code_changes d) (business_audit_events d) (users d) (api_tokens d) (agent_runs d)
    (projects d) (milestones d) (labels d) (task_labels d) (task_activity d) (task_claims d).
Definition set_code_changes (x : gmap UUID CodeChangeRow) (d : DB) : DB :=
  mkDB (tasks d) (task_stage_claims d) (task_threads d) (task_thread_items d) (task_thread_item_mentions d)
    (acceptance_criteria d) (acceptance_checks d) (task_dependencies d) x
    (business_audit_events d) (users d) (api_tokens d) (agent_runs d)
    (projects d) (milestones d) (labels d) (task_labels d) (task_activity d) (task_claims d).
Definition set_audit (x : list BusinessAuditEvent) (d : DB) : DB :=
  mkDB (tasks d) (task_stage_claims d) (task_threads d) (task_thread_items d)
    (task_thread_item_mentions d) (acceptance_criteria d) (acceptance_checks d)
    (task_dependencies d) (task_code_changes d) x (users d) (api_tokens d) (agent_runs d)
    (projects d) (milestones d) (labels d) (task_labels d) (task_activity d) (task_claims d).

Definition set_dependencies (x : gset (UUID * UUID)) (d : DB) : DB :=
  mkDB (tasks d) (task_stage_claims d) (task_threads d) (task_thread_items d)
    (task_thread_item_mentions d) (acceptance_criteria d) (acceptance_checks d) x
    (task_code_changes d) (business_audit_events d) (users d) (api_tokens d) (agent_runs d)
    (projects d) (milestones d) (labels d) (task_labels d) (task_activity d) (task_claims d).
Definition set_task_labels (x : gset (UUID * UUID)) (d : DB) : DB :=
  mkDB (tasks d) (task_stage_claims d) (task_threads d) (task_thread_items d)
    (task_thread_item_mentions d) (acceptance_criteria d) (acceptance_checks d) (task_dependencies d)
    (task_code_changes d) (business_audit_events d) (users d) (api_tokens d) (agent_runs d)
    (projects d) (milestones d) (labels d) x (task_activity d) (task_claims d).
Definition set_activity (x : list ActivityRow) (d : DB) : DB :=
  mkDB (tasks d) (task_stage_claims d) (task_threads d) (task_thread_items d)
    (task_thread_item_mentions d) (acceptance_criteria d) (acceptance_checks d) (task_dependencies d)
    (task_code_changes d) (business_audit_events d) (users d) (api_tokens d) (agent_runs d)
    (projects d) (milestones d) (labels d) (task_labels d) x (task_claims d).

Definition set_criteria (x : gmap UUID AcceptanceCriterion) (d : DB) : DB :=
  mkDB (tasks d) (task_stage_claims d) (task_threads d) (task_thread_items d)
    (task_thread_item_mentions d) x (acceptance_checks d) (task_dependencies d)
    (task_code_changes d) (business_audit_events d) (users d) (api_tokens d) (agent_runs d)
    (projects d) (milestones d) (labels d) (task_labels d) (task_activity d) (task_claims d).
Definition set_project_keys (x : gset UUID) (d : DB) : DB :=
  mkDB (tasks d) (task_stage_claims d) (task_threads d) (task_thread_items d)
    (task_thread_item_mentions d) (acceptance_criteria d) (acceptance_checks d) (task_dependencies d)
    (task_code_changes d) (business_audit_events d) (users d) (api_tokens d) (agent_runs d)
    x (milestones d) (labels d) (task_labels d) (task_activity d) (task_claims d).
Definition set_milestone_keys (x : gset (UUID * UUID)) (d : DB) : DB :=
  mkDB (tasks d) (task_stage_claims d) (task_threads d) (task_thread_items d)
    (task_thread_item_mentions d) (acceptance_criteria d) (acceptance_checks d) (task_dependencies d)
    (task_code_changes d) (business_audit_events d) (users d) (api_tokens d) (agent_runs d)
    (projects d) x (labels d) (task_labels d) (task_activity d) (task_claims d).

(** ** CHECK constraints *)

Section checks.
Local Open Scope sql_scope.

Definition tasks_target_lifecycle_shape (r : TaskRow) : tv :=
  (is_null (t_phase r) AND is_null (t_activity_state r) AND is_null (t_review_cycle r)) OR
  (tin (t_phase r) ["backlog"; "ready"; "in_progress"; "in_review"; "done"; "cancelled"] AND
   ((fun n => 0 <=? n) <$> t_review_cycle r) AND
   ((tin (t_phase r) ["backlog"; "ready"] AND is_null (t_activity_state r)) OR
    (tin (t_phase r) ["in_progress"; "in_review"] AND
     tin (t_activity_state r) ["available"; "working"; "needs_resolution"]) OR
    (tin (t_phase r) ["done"; "cancelled"] AND is_null (t_activity_state r)))).

Definition tasks_active_issue_shape (r : TaskRow) : tv :=
  (is_null (t_phase r) AND is_null (t_active_issue_thread_id r)) OR
  (tin (t_phase r) ["backlog"; "ready"] AND is_null (t_activity_state r) AND
   is_null (t_active_issue_thread_id r)) OR
  (tin (t_phase r) ["in_progress"; "in_review"] AND
   ((teq (t_activity_state r) "needs_resolution" AND not_null (t_active_issue_thread_id r)) OR
    (tin (t_activity_state r) ["available"; "working"] AND is_null (t_active_issue_thread_id r)))) OR
  (tin (t_phase r) ["done"; "cancelled"] AND is_null (t_active_issue_thread_id r)).

(** The CHECKs of [tasks] on the columns that the workflow writes (migrations 0012 and 0026) and on
    the others (0011, 0015 and 0017).  An UPDATE can only violate those whose columns it writes. *)
Definition tasks_checks (r : TaskRow) : bool :=
  check_ok (tasks_target_lifecycle_shape r) && check_ok (tasks_active_issue_shape r) &&
  (0 <? t_version r).

Definition tasks_brief_checks (r : TaskRow) : bool :=
  let b := t_brief r in
  check_ok (tin (Some (b_status b)) ["todo"; "in_progress"; "in_review"; "done"; "cancelled"]) &&
  check_ok (tin (Some (b_execution_mode b)) ["human_only"; "agent_allowed"]) &&
  check_ok (is_null (b_start_date b) OR is_null (b_due_date b) OR
            (s ← b_start_date b; e ← b_due_date b; Some (s <=? e))) &&
  check_ok (is_null (t_parent_task_id r) OR ((fun p => p != t_id r) <$> t_parent_task_id r)).

(** The CHECKs of [task_activity] (migrations 0012 and 0016). *)
Definition task_activity_checks (y : ActivityRow) : bool :=
  let o := y_actor y in
  check_ok (tin (Some (op_AuthMethod o)) ["session"; "api_token"; "agent_delegate"]) &&
  check_ok
    ((teq (Some (op_AuthMethod o)) "session" AND is_null (op_TokenID o) AND is_null (op_AgentRunID o)) OR
     (teq (Some (op_AuthMethod o)) "api_token" AND not_null (op_TokenID o) AND
      is_null (op_AgentRunID o)) OR
     (teq (Some (op_AuthMethod o)) "agent_delegate" AND is_null (op_TokenID o) AND
      not_null (op_AgentRunID o))).

(** The CHECKs of [task_stage_claims] (migrations 0026 and 0030): on the columns that an UPDATE of
    the store never writes, and on those that it does. *)
Definition claim_identity_checks (r : ClaimRow) : bool :=
  check_ok (tin (Some (c_stage r)) ["execution"; "review"]) &&
  check_ok (tin (Some (c_claimed_by_type r)) ["user"; "agent"]) &&
  check_ok (tin (Some (c_auth_method r)) ["session"; "api_token"; "agent_delegate"]) &&
  (c_created_at r <? c_expires_at r) &&
  check_ok
    ((teq (Some (c_claimed_by_type r)) "user" AND
      teq (c_claimed_by_user_id r) (c_subject_user_id r) AND is_null (c_claimed_by_ref r)) OR
     (teq (Some (c_claimed_by_type r)) "agent" AND is_null (c_claimed_by_user_id r) AND
      not_btrim_empty (c_claimed_by_ref r))) &&
  check_ok
    ((teq (Some (c_auth_method r)) "session" AND teq (Some (c_claimed_by_type r)) "user" AND
      is_null (c_api_token_id r) AND is_null (c_token_name_snapshot r) AND
      is_null (c_agent_run_id r)) OR
     (teq (Some (c_auth_method r)) "api_token" AND teq (Some (c_claimed_by_type r)) "agent" AND
      not_null (c_api_token_id r) AND not_btrim_empty (c_token_name_snapshot r) AND
      is_null (c_agent_run_id r)) OR
     (teq (Some (c_auth_method r)) "agent_delegate" AND teq (Some (c_claimed_by_type r)) "agent" AND
      is_null (c_api_token_id r) AND is_null (c_token_name_snapshot r) AND
      not_null (c_agent_run_id r))).

Definition claim_outcome_checks (stage status : string) (outcome : option string)
  (completed_at : option Time) : bool :=
  check_ok (tin (Some status) ["active"; "completed"; "released"; "expired"; "cancelled"]) &&
  check_ok (tin outcome
    ["execution_completed"; "task_accepted"; "changes_requested"; "needs_resolution";
     "voluntarily_released"; "deadline_elapsed"; "task_cancelled"]) &&
  check_ok
    ((teq (Some status) "active" AND is_null outcome AND is_null completed_at) OR
     (tnot_in (Some status) ["active"] AND not_null outcome AND not_null completed_at)) &&
  check_ok
    ((teq (Some status) "completed" AND
      tin outcome ["execution_completed"; "task_accepted"; "changes_requested"]) OR
     (teq (Some status) "released" AND tin outcome ["needs_resolution"; "voluntarily_released"]) OR
     (teq (Some status) "expired" AND teq outcome "deadline_elapsed") OR
     (teq (Some status) "cancelled" AND teq outcome "task_cancelled") OR
     teq (Some status) "active") &&
  check_ok
    ((teq (Some stage) "execution" AND tnot_in outcome ["task_accepted"; "changes_requested"]) OR
     (teq (Some stage) "review" AND tnot_in outcome ["execution_completed"]) OR
     is_null outcome).

Definition task_stage_claims_checks (r : ClaimRow) : bool :=
  claim_identity_checks r && (0 <? c_version r) &&
  claim_outcome_checks (c_stage r) (c_status r) (c_outcome r) (c_completed_at r).

(** An actor in three columns: a user by id alone, an Agent or the system by reference alone. *)
Definition actor_columns_shape (ty : option string) (user : option UUID) (ref : option string) : tv :=
  (teq ty "user" AND not_null user AND is_null ref) OR
  (tin ty ["agent"; "system"] AND is_null user AND not_btrim_empty ref).

(** The CHECKs of [task_threads], in the same way. *)
Definition thread_identity_checks (r : ThreadRow) : bool :=
  check_ok (tin (Some (h_role r)) ["main"; "issue"]) &&
  check_ok (tin (h_issue_type r) ["decision_required"; "dependency_required"]) &&
  check_ok (tin (h_opened_from_phase r) ["in_progress"; "in_review"]) &&
  check_ok (tin (h_opened_by_type r) ["user"; "agent"; "system"]).

Definition thread_status_shape (r : ThreadRow) : tv :=
  (teq (h_issue_status r) "open" AND is_null (h_resolved_by_type r) AND
   is_null (h_resolved_by_user_id r) AND is_null (h_resolved_by_ref r) AND is_null (h_resolved_at r)) OR
  (teq (h_issue_status r) "resolved" AND not_null (h_resolved_at r) AND
   actor_columns_shape (h_resolved_by_type r) (h_resolved_by_user_id r) (h_resolved_by_ref r)).

Definition task_threads_checks (r : ThreadRow) : bool :=
  thread_identity_checks r &&
  check_ok (tin (h_issue_status r) ["open"; "resolved"]) &&
  check_ok (tin (h_resolved_by_type r) ["user"; "agent"; "system"]) &&
  (0 <? h_version r) &&
  check_ok
    ((teq (Some (h_role r)) "main" AND is_null (h_issue_type r) AND is_null (h_issue_status r) AND
      is_null (h_opened_from_phase r) AND is_null (h_opened_by_type r) AND
      is_null (h_opened_by_user_id r) AND is_null (h_opened_by_ref r) AND
      is_null (h_resolved_by_type r) AND is_null (h_resolved_by_user_id r) AND
      is_null (h_resolved_by_ref r) AND is_null (h_resolved_at r)) OR
     (teq (Some (h_role r)) "issue" AND not_null (h_issue_type r) AND not_null (h_issue_status r) AND
      not_null (h_opened_from_phase r) AND
      actor_columns_shape (h_opened_by_type r) (h_opened_by_user_id r) (h_opened_by_ref r) AND
      thread_status_shape r)).

(** The CHECKs of [task_thread_items] (migrations 0026, 0028, 0030 and 0032). *)
Definition task_thread_items_checks (r : ItemRow) : bool :=
  check_ok (tin (Some (i_kind r))
    ["message"; "progress"; "handoff"; "work_submission"; "execution_completed"; "review_outcome";
     "resolution_request"; "resolution"; "issue_resolution"; "system_event"]) &&
  check_ok (tin (Some (i_author_type r)) ["user"; "agent"; "system"]) &&
  check_ok (not_btrim_empty (Some (i_request_id r))) && (0 <? i_version r) &&
  check_ok (actor_columns_shape (Some (i_author_type r)) (i_author_user_id r) (i_author_ref r)) &&
  check_ok (not_null (i_body r) OR not_null (i_typed_payload r) OR
            (teq (Some (i_kind r)) "message" AND not_null (i_deleted_at r))) &&
  check_ok (is_null (i_deleted_at r) OR teq (Some (i_kind r)) "message") &&
  check_ok ((teq (Some (i_kind r)) "issue_resolution" AND not_null (i_typed_payload r)) OR
            tnot_in (Some (i_kind r)) ["issue_resolution"]) &&
  check_ok
    ((tin (Some (i_kind r)) ["work_submission"; "execution_completed"] AND
      not_null (i_task_stage_claim_id r) AND ((fun n => 1 <=? n) <$> i_task_review_cycle r)) OR
     (teq (Some (i_kind r)) "progress" AND
      ((is_null (i_task_stage_claim_id r) AND is_null (i_task_review_cycle r)) OR
       (not_null (i_task_stage_claim_id r) AND ((fun n => 1 <=? n) <$> i_task_review_cycle r)))) OR
     (tnot_in (Some (i_kind r)) ["progress"; "work_submission"; "execution_completed"] AND
      is_null (i_task_stage_claim_id r) AND is_null (i_task_review_cycle r))) &&
  check_ok ((teq (Some (i_kind r)) "execution_completed" AND not_null (i_typed_payload r)) OR
            tnot_in (Some (i_kind r)) ["execution_completed"]).

(** The CHECKs of [acceptance_checks] (migrations 0006, 0007 and 0026; 0026 drops the one that
    reserved waivers to users). *)
Definition acceptance_checks_checks (r : CheckRow) : bool :=
  (0 <? k_criterion_revision r) &&
  check_ok (tin (Some (k_outcome r)) ["passed"; "failed"; "unable"; "waived"]) &&
  check_ok (not_btrim_empty (Some (k_evidence r))) &&
  check_ok (tin (Some (k_checker_type r)) ["user"; "agent"; "system"]) &&
  check_ok
    ((teq (Some (k_checker_type r)) "user" AND not_null (k_checked_by_user_id r)) OR
     (tin (Some (k_checker_type r)) ["agent"; "system"] AND is_null (k_checked_by_user_id r) AND
      not_btrim_empty (k_checker_ref r))) &&
  check_ok
    (teq (Some (k_checker_type r)) "user" OR
     (not_null (k_checker_ref r) AND not_btrim_empty (k_checker_ref r))) &&
  check_ok
    ((is_null (k_purpose r) AND is_null (k_task_stage_claim_id r) AND is_null (k_task_review_cycle r)) OR
     (tin (k_purpose r) ["execution_verification"; "acceptance"] AND
      not_null (k_task_stage_claim_id r) AND ((fun n => 0 <=? n) <$> k_task_review_cycle r))).

Definition business_audit_events_checks (e : BusinessAuditEvent) : bool :=
  let o := be_Actor e in
  check_ok (tin (Some (op_AuthMethod o)) ["session"; "api_token"; "agent_delegate"]) &&
  check_ok
    ((teq (Some (op_AuthMethod o)) "session" AND is_null (op_TokenID o) AND is_null (op_AgentRunID o)) OR
     (teq (Some (op_AuthMethod o)) "api_token" AND not_null (op_TokenID o) AND
      is_null (op_AgentRunID o)) OR
     (teq (Some (op_AuthMethod o)) "agent_delegate" AND is_null (op_TokenID o) AND
      not_null (op_AgentRunID o))).

End checks.
