(* ===== verification/Tx.v ===== *)
(** * Store methods as state transformers

    The world a store method acts on, the monad of its statements, transactions that commit or
    roll back as a whole ([tx.Commit], [defer tx.Rollback]), and the inversion rules with which
    the proofs read a run statement by statement. *)

From stdpp Require Import base tactics strings gmap list numbers sorting.
From S2P Require Import Prelude Actors Lifecycle StageClaim Delivery Thread Acceptance Database.

(** What the program relies on of [uuid.New()] (github.com/google/uuid): the identifiers that
    one process draws are pairwise distinct and never [uuid.Nil]. *)
Class UUIDSource := {
  uuid_seq : nat -> UUID;
  uuid_seq_inj : forall m n, uuid_seq m = uuid_seq n -> m = n;
  uuid_seq_ne : forall n, uuid_seq n <> uuid_Nil;
}.

(** A generator that meets the contract. *)
Definition counting_uuid (n : nat) : UUID := (1000000 + N.of_nat n)%N.

Lemma counting_uuid_inj m n : counting_uuid m = counting_uuid n -> m = n.
Proof. unfold counting_uuid. lia. Qed.

Lemma counting_uuid_ne n : counting_uuid n <> uuid_Nil.
Proof. unfold counting_uuid, uuid_Nil. lia. Qed.

Definition counting_uuids : UUIDSource := {|
  uuid_seq := counting_uuid;
  uuid_seq_inj := counting_uuid_inj;
  uuid_seq_ne := counting_uuid_ne;
|}.

Record World := mkWorld {
  w_db : DB;
  w_next : nat;  (** how many identifiers were drawn *)
}.

Definition M (A : Type) : Type := World -> result A * World.

#[global] Instance M_ret : MRet M := fun A a w => (Ok a, w).
#[global] Instance M_bind : MBind M := fun A B f m w =>
  match m w with
  | (Ok a, w') => f a w'
  | (Err e, w') => (Err e, w')
  end.

(** A call that neither reads nor writes the database. *)
Definition lift {A} (r : result A) : M A := fun w => (r, w).
Definition throw {A} (e : error) : M A := lift (Err e).
(** [if b { return ..., e }] *)
Definition throw_if (b : bool) (e : error) : M unit := lift (fail_if b e).
Definition query {A} (q : DB -> A) : M A := fun w => (Ok (q (w_db w)), w).
Definition exec (f : DB -> DB) : M unit := fun w => (Ok tt, mkWorld (f (w_db w)) (w_next w)).
(** [errors.Is(err, pgx.ErrNoRows)] *)
Definition or_err {A} (o : option A) (e : error) : M A :=
  lift (match o with Some a => Ok a | None => Err e end).

Definition uuid_New `{UUIDSource} : M UUID :=
  fun w => (Ok (uuid_seq (w_next w)), mkWorld (w_db w) (S (w_next w))).

(** [tx := Begin(); defer tx.Rollback(); ...; tx.Commit()]: the statements take effect together,
    or, when one returns an error, not at all.  Identifiers that were drawn stay drawn. *)
Definition transaction {A} (m : M A) : M A := fun w =>
  match m w with
  | (Ok a, w') => (Ok a, w')
  | (Err e, w') => (Err e, mkWorld (w_db w) (w_next w'))
  end.

(** A transaction body that may return early without an error and without committing:
    [commit] tells from the result whether [tx.Commit] was reached. *)
Definition transaction_if {A} (commit : A -> bool) (m : M A) : M A := fun w =>
  match m w with
  | (Ok a, w') => (Ok a, if commit a then w' else mkWorld (w_db w) (w_next w'))
  | (Err e, w') => (Err e, mkWorld (w_db w) (w_next w'))
  end.

(** ** Queries *)

Section queries.
Context {K V : Type} `{Countable K}.

Definition rows (m : gmap K V) : list V := (map_to_list m).*2.
(** The rows of [SELECT ... WHERE p]. *)
Definition select (p : V -> bool) (m : gmap K V) : list V := List.filter p (rows m).
(** [QueryRow]: the first row. *)
Definition select_one (p : V -> bool) (m : gmap K V) : option V := head (select p m).

Lemma elem_of_rows (m : gmap K V) v : v ∈ rows m <-> exists k, m !! k = Some v.
Proof.
  unfold rows. rewrite list_elem_of_fmap. split.
  - intros ([k v'] & -> & Hin%elem_of_map_to_list). by exists k.
  - intros [k Hk]. exists (k, v). by rewrite elem_of_map_to_list.
Qed.

Lemma elem_of_select p (m : gmap K V) v : v ∈ select p m <-> p v = true /\ exists k, m !! k = Some v.
Proof.
  unfold select. rewrite list_elem_of_In, filter_In, <- list_elem_of_In, elem_of_rows. tauto.
Qed.

Lemma select_one_Some p (m : gmap K V) v :
  select_one p m = Some v -> p v = true /\ exists k, m !! k = Some v.
Proof.
  unfold select_one. intros Hh. apply elem_of_select. destruct (select p m); [done|].
  injection Hh as ->. set_solver.
Qed.

Lemma select_one_None p (m : gmap K V) : select_one p m = None <-> forall k v, m !! k = Some v -> p v = false.
Proof.
  unfold select_one. split.
  - intros Hh k v Hk. apply not_true_is_false. intros Hp.
    assert (v ∈ select p m) by (apply elem_of_select; eauto). destruct (select p m); set_solver.
  - intros Hh. destruct (select p m) as [|v l] eqn:E; [done|].
    assert (v ∈ select p m) as [Hp [k Hk]]%elem_of_select by (rewrite E; set_solver).
    by rewrite (Hh _ _ Hk) in Hp.
Qed.

Lemma select_one_unique p (m : gmap K V) k v :
  m !! k = Some v -> p v = true ->
  (forall k' v', m !! k' = Some v' -> p v' = true -> v' = v) -> select_one p m = Some v.
Proof.
  intros Hk Hp Hu. destruct (select_one p m) as [v'|] eqn:E.
  - apply select_one_Some in E as [Hp' [k' Hk']]. f_equal. eauto.
  - rewrite select_one_None in E. by rewrite (E _ _ Hk) in Hp.
Qed.

(** Keys that the rows carry are pairwise distinct in every result. *)
Lemma select_NoDup (key : V -> K) p (m : gmap K V) :
  (forall k v, m !! k = Some v -> key v = k) -> NoDup (key <$> select p m).
Proof.
  intros Hkey. assert (NoDup (key <$> rows m)) as Hnd.
  { unfold rows. replace (key <$> (map_to_list m).*2) with (map_to_list m).*1; [apply NoDup_fst_map_to_list|].
    rewrite <- list_fmap_compose. apply list_fmap_ext. intros n [k v] Hn. cbn.
    apply list_elem_of_lookup_2, elem_of_map_to_list in Hn. symmetry. eauto. }
  unfold select. induction (rows m) as [|v l IH]; [constructor|]. cbn in Hnd |- *.
  apply NoDup_cons in Hnd as [Hv Hnd]. destruct (p v); cbn; [|by apply IH]. constructor; [|by apply IH].
  intros (x & E & Hx)%list_elem_of_fmap. apply Hv, list_elem_of_fmap. exists x. split; [done|].
  apply list_elem_of_In, filter_In in Hx as [Hx _]. by apply list_elem_of_In.
Qed.
End queries.

Lemma filter_length_nil {A} (f : A -> bool) l :
  Z.of_nat (length (List.filter f l)) <= 0 -> forall x, x ∈ l -> f x = false.
Proof.
  intros Hz x Hx. apply not_true_is_false. intros Hf.
  assert (x ∈ List.filter f l) as Hin by (apply list_elem_of_In, filter_In; by rewrite <- list_elem_of_In).
  destruct (List.filter f l); [set_solver|cbn in Hz; lia].
Qed.

(** [ORDER BY t, id] *)
Definition key_le (a b : Z * UUID) : Prop := a.1 < b.1 \/ (a.1 = b.1 /\ (a.2 <= b.2)%N).
#[global] Instance key_le_dec a b : Decision (key_le a b).
Proof. unfold key_le. apply _. Defined.
#[global] Instance key_le_total : Total key_le.
Proof. intros [] []. unfold key_le. simpl. lia. Qed.
#[global] Instance key_le_trans : Transitive key_le.
Proof. intros [] [] []. unfold key_le. simpl. lia. Qed.

Definition order_by {A} (key : A -> Z * UUID) (l : list A) : list A :=
  merge_sort (fun x y => key_le (key x) (key y)) l.

Lemma order_by_perm {A} (key : A -> Z * UUID) l : order_by key l ≡ₚ l.
Proof. apply merge_sort_Permutation. Qed.

Lemma order_by_sorted {A} (key : A -> Z * UUID) l :
  StronglySorted (fun x y => key_le (key x) (key y)) (order_by key l).
Proof.
  apply Sorted_StronglySorted; [intros x y z; apply key_le_trans|].
  apply Sorted_merge_sort. intros x y. apply key_le_total.
Qed.

(** ** Reading a run statement by statement *)

Lemma M_bind_Ok {A B} (m : M A) (f : A -> M B) w b w' :
  (m ≫= f) w = (Ok b, w') <-> exists a w1, m w = (Ok a, w1) /\ f a w1 = (Ok b, w').
Proof.
  unfold mbind, M_bind. destruct (m w) as [[a|e] w1]; split; naive_solver.
Qed.

Lemma M_ret_Ok {A} (a b : A) w w' : (mret a : M A) w = (Ok b, w') <-> a = b /\ w = w'.
Proof. unfold mret, M_ret. naive_solver. Qed.

Lemma lift_Ok {A} (r : result A) a w w' : lift r w = (Ok a, w') <-> r = Ok a /\ w = w'.
Proof. unfold lift. naive_solver. Qed.

Lemma throw_Ok {A} e (a : A) w w' : throw e w <> (Ok a, w').
Proof. done. Qed.

Lemma throw_if_Ok b e w u w' : throw_if b e w = (Ok u, w') <-> b = false /\ w = w'.
Proof. unfold throw_if. rewrite lift_Ok, fail_if_Ok. done. Qed.

Lemma query_Ok {A} (q : DB -> A) w a w' : query q w = (Ok a, w') <-> q (w_db w) = a /\ w = w'.
Proof. unfold query. naive_solver. Qed.

Lemma exec_Ok f w u w' : exec f w = (Ok u, w') <-> w' = mkWorld (f (w_db w)) (w_next w).
Proof. destruct u. unfold exec. naive_solver. Qed.

Lemma or_err_Ok {A} (o : option A) e w a w' : or_err o e w = (Ok a, w') <-> o = Some a /\ w = w'.
Proof. unfold or_err. rewrite lift_Ok. destruct o; naive_solver. Qed.

Lemma uuid_New_Ok `{UUIDSource} w u w' :
  uuid_New w = (Ok u, w') <-> u = uuid_seq (w_next w) /\ w' = mkWorld (w_db w) (S (w_next w)).
Proof. unfold uuid_New. naive_solver. Qed.

Lemma transaction_Ok {A} (m : M A) w a w' : transaction m w = (Ok a, w') <-> m w = (Ok a, w').
Proof. unfold transaction. destruct (m w) as [[]]; naive_solver. Qed.

(** A failed transaction leaves every table as it was. *)
Lemma transaction_rollback {A} (m : M A) w e w' : transaction m w = (Err e, w') -> w_db w' = w_db w.
Proof. unfold transaction. destruct (m w) as [[]]; naive_solver. Qed.

Lemma transaction_if_Ok {A} (commit : A -> bool) (m : M A) w a w' :
  transaction_if commit m w = (Ok a, w') <->
  exists w1, m w = (Ok a, w1) /\ w' = if commit a then w1 else mkWorld (w_db w) (w_next w1).
Proof. unfold transaction_if. destruct (m w) as [[b|e] w1]; naive_solver. Qed.

(** Splits a successful run into its statements. *)
Ltac run_step :=
  match goal with
  | H : (_ ≫= _) _ = (Ok _, _) |- _ => apply M_bind_Ok in H as (? & ? & ? & ?)
  | H : mret _ _ = (Ok _, _) |- _ => apply M_ret_Ok in H as [? ?]
  | H : transaction _ _ = (Ok _, _) |- _ => apply (proj1 (transaction_Ok _ _ _ _)) in H
  | H : transaction_if _ _ _ = (Ok _, _) |- _ => apply transaction_if_Ok in H as (? & ? & ?)
  | H : lift _ _ = (Ok _, _) |- _ => apply lift_Ok in H as [? ?]
  | H : throw _ _ = (Ok _, _) |- _ => exfalso; exact (throw_Ok _ _ _ _ H)
  | H : throw_if _ _ _ = (Ok _, _) |- _ => apply throw_if_Ok in H as [? ?]
  | H : query _ _ = (Ok _, _) |- _ => apply query_Ok in H as [? ?]
  | H : exec _ _ = (Ok _, _) |- _ => apply exec_Ok in H
  | H : or_err _ _ _ = (Ok _, _) |- _ => apply or_err_Ok in H as [? ?]
  | H : uuid_New _ = (Ok _, _) |- _ => apply uuid_New_Ok in H as [? ?]
  | H : (match ?p with _ => _ end) _ = (Ok _, _) |- _ =>
      lazymatch type of p with prod _ _ => destruct p end
  | u : unit |- _ => destruct u
  | _ => progress subst
  end.
Ltac run_inv := repeat run_step.
