(* ===== verification/State.v ===== *)
(** * A state and error monad for the stores with tables of their own

    A method of such a store maps the tables to a result and the new tables.  A statement that fails
    changes nothing; [atomically] is a transaction. *)

From stdpp Require Import base tactics strings gmap list numbers.
From S2P Require Import Prelude.

Definition St (S A : Type) : Type := S -> result A * S.

#[global] Instance St_ret S : MRet (St S) := fun A a s => (Ok a, s).
#[global] Instance St_bind S : MBind (St S) := fun A B f m s =>
  match m s with
  | (Ok a, s') => f a s'
  | (Err e, s') => (Err e, s')
  end.

Section state.
Context {S : Type}.

Definition st_lift {A} (r : result A) : St S A := fun s => (r, s).
Definition st_throw {A} (e : error) : St S A := st_lift (Err e).
(** [if b { return ..., e }] *)
Definition st_fail (b : bool) (e : error) : St S unit := st_lift (fail_if b e).
Definition st_get {A} (q : S -> A) : St S A := fun s => (Ok (q s), s).
Definition st_mod (f : S -> S) : St S unit := fun s => (Ok tt, f s).
Definition st_or_err {A} (o : option A) (e : error) : St S A :=
  st_lift (match o with Some a => Ok a | None => Err e end).

(** [tx := Begin(); defer tx.Rollback(); ...; tx.Commit()] *)
Definition atomically {A} (m : St S A) : St S A := fun s =>
  match m s with
  | (Ok a, s') => (Ok a, s')
  | (Err e, _) => (Err e, s)
  end.

(** [if err != nil { return ..., f(err) }] *)
Definition st_map_err {A} (f : error -> error) (m : St S A) : St S A := fun s =>
  match m s with
  | (Err e, s') => (Err (f e), s')
  | ok => ok
  end.

Lemma St_bind_Ok {A B} (m : St S A) (f : A -> St S B) s b s' :
  (m ≫= f) s = (Ok b, s') <-> exists a s1, m s = (Ok a, s1) /\ f a s1 = (Ok b, s').
Proof. unfold mbind, St_bind. destruct (m s) as [[a|e] s1]; split; naive_solver. Qed.

Lemma St_ret_Ok {A} (a b : A) (s s' : S) : (mret a : St S A) s = (Ok b, s') <-> a = b /\ s = s'.
Proof. unfold mret, St_ret. naive_solver. Qed.

Lemma st_lift_Ok {A} (r : result A) a (s s' : S) : st_lift r s = (Ok a, s') <-> r = Ok a /\ s = s'.
Proof. unfold st_lift. naive_solver. Qed.

Lemma st_throw_Ok {A} e (a : A) (s s' : S) : st_throw e s <> (Ok a, s').
Proof. done. Qed.

Lemma st_fail_Ok b e (s : S) u s' : st_fail b e s = (Ok u, s') <-> b = false /\ s = s'.
Proof. unfold st_fail. rewrite st_lift_Ok, fail_if_Ok. done. Qed.

Lemma st_get_Ok {A} (q : S -> A) s a s' : st_get q s = (Ok a, s') <-> q s = a /\ s = s'.
Proof. unfold st_get. naive_solver. Qed.

Lemma st_mod_Ok (f : S -> S) s u s' : st_mod f s = (Ok u, s') <-> s' = f s.
Proof. destruct u. unfold st_mod. naive_solver. Qed.

Lemma st_or_err_Ok {A} (o : option A) e (s : S) a s' : st_or_err o e s = (Ok a, s') <-> o = Some a /\ s = s'.
Proof. unfold st_or_err. rewrite st_lift_Ok. destruct o; naive_solver. Qed.

Lemma st_map_err_Ok {A} f (m : St S A) s a s' : st_map_err f m s = (Ok a, s') <-> m s = (Ok a, s').
Proof. unfold st_map_err. destruct (m s) as [[]]; naive_solver. Qed.

Lemma atomically_Ok {A} (m : St S A) s a s' : atomically m s = (Ok a, s') <-> m s = (Ok a, s').
Proof. unfold atomically. destruct (m s) as [[]]; naive_solver. Qed.

Lemma atomically_Err {A} (m : St S A) s e s' : atomically m s = (Err e, s') -> s' = s.
Proof. unfold atomically. destruct (m s) as [[]]; naive_solver. Qed.

(** ** Failures

    [keeps m]: [m] only reads.  [clean m]: when [m] fails, the tables are as they were. *)

Definition keeps {A} (m : St S A) : Prop := forall s, (m s).2 = s.
Definition clean {A} (m : St S A) : Prop := forall s e s', m s = (Err e, s') -> s' = s.

Lemma keeps_bind {A B} (m : St S A) (f : A -> St S B) : keeps m -> (forall a, keeps (f a)) -> keeps (m ≫= f).
Proof.
  intros Hm Hf s. specialize (Hm s). unfold mbind, St_bind. destruct (m s) as [[a|e] s1]; cbn in *; [|done].
  rewrite Hf. done.
Qed.
Lemma keeps_ret {A} (a : A) : keeps (mret a : St S A).
Proof. done. Qed.
Lemma keeps_lift {A} (r : result A) : keeps (st_lift r : St S A).
Proof. done. Qed.
Lemma keeps_throw {A} e : keeps (st_throw e : St S A).
Proof. done. Qed.
Lemma keeps_fail b e : keeps (st_fail b e : St S unit).
Proof. done. Qed.
Lemma keeps_get {A} (q : S -> A) : keeps (st_get q).
Proof. done. Qed.
Lemma keeps_or_err {A} (o : option A) e : keeps (st_or_err o e : St S A).
Proof. done. Qed.
Lemma keeps_map_err {A} f (m : St S A) : keeps m -> keeps (st_map_err f m).
Proof. intros Hm s. specialize (Hm s). unfold st_map_err. by destruct (m s) as [[]]. Qed.
Lemma keeps_clean {A} (m : St S A) : keeps m -> clean m.
Proof. intros Hm s e s' E. specialize (Hm s). by rewrite E in Hm. Qed.

Lemma clean_bind {A B} (m : St S A) (f : A -> St S B) : keeps m -> (forall a, clean (f a)) -> clean (m ≫= f).
Proof.
  intros Hm Hf s e s' E. unfold mbind, St_bind in E. specialize (Hm s).
  destruct (m s) as [[a|e1] s1]; cbn in Hm; subst; [by eapply Hf|congruence].
Qed.
Lemma clean_ret_after {A B} (m : St S A) (b : A -> B) : clean m -> clean (a ← m; mret (b a)).
Proof.
  intros Hm s e s' E. unfold mbind, St_bind in E. destruct (m s) as [[a|e1] s1] eqn:Em; [done|].
  injection E as <- <-. by eapply Hm.
Qed.
Lemma clean_mod (f : S -> S) : clean (st_mod f).
Proof. intros s e s'. done. Qed.
Lemma clean_atomically {A} (m : St S A) : clean (atomically m).
Proof. intros s e s'. apply atomically_Err. Qed.
Lemma clean_map_err {A} f (m : St S A) : clean m -> clean (st_map_err f m).
Proof. intros Hm s e s' E. unfold st_map_err in E. destruct (m s) as [[a|e1] s1] eqn:Em; [done|]. injection E as _ <-. by eapply Hm. Qed.

(** [preserves f m]: a successful [m] leaves the part [f] of the tables as it was. *)
Definition preserves {X A} (f : S -> X) (m : St S A) : Prop := forall s a s', m s = (Ok a, s') -> f s' = f s.

Lemma preserves_bind {X A B} (f : S -> X) (m : St S A) (k : A -> St S B) :
  preserves f m -> (forall a, preserves f (k a)) -> preserves f (m ≫= k).
Proof. intros Hm Hk s b s' (a & s1 & H1 & H2)%St_bind_Ok. rewrite (Hk _ _ _ _ H2). by eapply Hm. Qed.
Lemma preserves_keeps {X A} (f : S -> X) (m : St S A) : keeps m -> preserves f m.
Proof. intros Hm s a s' E. specialize (Hm s). by rewrite E in Hm; cbn in Hm; subst. Qed.
Lemma preserves_mod {X} (f : S -> X) (g : S -> S) : (forall s, f (g s) = f s) -> preserves f (st_mod g).
Proof. intros Hg s a s' ->%st_mod_Ok. apply Hg. Qed.
Lemma preserves_atomically {X A} (f : S -> X) (m : St S A) : preserves f m -> preserves f (atomically m).
Proof. intros Hm s a s' E. apply (proj1 (atomically_Ok _ _ _ _)) in E. by eapply Hm. Qed.

(** ** Postconditions of successful runs

    [wp m s Q]: when [m] succeeds from [s], its result and the new tables satisfy [Q]. *)
Definition wp {A} (m : St S A) (s : S) (Q : A -> S -> Prop) : Prop := forall a s', m s = (Ok a, s') -> Q a s'.

Lemma wp_bind {A B} (m : St S A) (f : A -> St S B) s Q : wp m s (fun a s1 => wp (f a) s1 Q) -> wp (m ≫= f) s Q.
Proof. intros Hm b s' (a & s1 & H1 & H2)%St_bind_Ok. by eapply Hm. Qed.
Lemma wp_ret {A} (a : A) s (Q : A -> S -> Prop) : Q a s -> wp (mret a) s Q.
Proof. intros HQ b s' [<- <-]%St_ret_Ok. done. Qed.
Lemma wp_lift {A} (r : result A) s (Q : A -> S -> Prop) : (forall a, r = Ok a -> Q a s) -> wp (st_lift r) s Q.
Proof. intros HQ b s' [? <-]%st_lift_Ok. auto. Qed.
Lemma wp_throw {A} e s (Q : A -> S -> Prop) : wp (st_throw e) s Q.
Proof. intros b s' Hb. by apply st_throw_Ok in Hb. Qed.
Lemma wp_fail b e s (Q : unit -> S -> Prop) : (b = false -> Q tt s) -> wp (st_fail b e) s Q.
Proof. intros HQ [] s' [? <-]%st_fail_Ok. auto. Qed.
Lemma wp_get {A} (q : S -> A) s (Q : A -> S -> Prop) : Q (q s) s -> wp (st_get q) s Q.
Proof. intros HQ b s' [<- <-]%st_get_Ok. done. Qed.
Lemma wp_mod (f : S -> S) s (Q : unit -> S -> Prop) : Q tt (f s) -> wp (st_mod f) s Q.
Proof. intros HQ [] s' ->%st_mod_Ok. done. Qed.
Lemma wp_or_err {A} (o : option A) e s (Q : A -> S -> Prop) : (forall a, o = Some a -> Q a s) -> wp (st_or_err o e) s Q.
Proof. intros HQ b s' [? <-]%st_or_err_Ok. auto. Qed.
Lemma wp_map_err {A} f (m : St S A) s Q : wp m s Q -> wp (st_map_err f m) s Q.
Proof. intros Hm b s' Hb. apply (proj1 (st_map_err_Ok _ _ _ _ _)) in Hb. by apply Hm. Qed.
Lemma wp_atomically {A} (m : St S A) s Q : wp m s Q -> wp (atomically m) s Q.
Proof. intros Hm b s' Hb. apply (proj1 (atomically_Ok _ _ _ _)) in Hb. by apply Hm. Qed.
Lemma wp_mono {A} (m : St S A) s (Q Q' : A -> S -> Prop) : wp m s Q -> (forall a s', Q a s' -> Q' a s') -> wp m s Q'.
Proof. intros Hm HQ a s' Ha. auto. Qed.
Lemma wp_keeps {A} (m : St S A) s : keeps m -> wp m s (fun _ s' => s' = s).
Proof. intros Hm a s' E. specialize (Hm s). by rewrite E in Hm. Qed.
End state.

(** Runs the statements of a body. *)
Ltac wp_step :=
  lazymatch goal with
  | |- wp (_ ≫= _) _ _ => apply wp_bind
  | |- wp (mret _) _ _ => apply wp_ret
  | |- wp (st_lift _) _ _ => apply wp_lift; intros ? ?
  | |- wp (st_throw _) _ _ => apply wp_throw
  | |- wp (st_fail _ _) _ _ => apply wp_fail; intros ?
  | |- wp (st_get _) _ _ => apply wp_get
  | |- wp (st_mod _) _ _ => apply wp_mod
  | |- wp (st_or_err _ _) _ _ => apply wp_or_err; intros ? ?
  | |- wp (st_map_err _ _) _ _ => apply wp_map_err
  | |- wp (atomically _) _ _ => apply wp_atomically
  | |- wp (let '(_, _) := ?x in _) _ _ => destruct x
  | |- wp (match ?x with _ => _ end) _ _ => let E := fresh "E" in destruct x eqn:E
  end.
Ltac wp_steps := repeat wp_step.

Create HintDb keeps discriminated.
#[export] Hint Resolve keeps_bind keeps_ret keeps_lift keeps_throw keeps_fail keeps_get keeps_or_err keeps_map_err : keeps.

(** Proves [clean] for a body whose writes come last; [known] proves it for the methods it calls. *)
Ltac cleaned known := repeat first
  [ apply clean_atomically
  | apply clean_mod
  | match goal with |- clean (st_map_err _ _) => apply clean_map_err end
  | known
  | apply clean_bind; [solve [auto with keeps]|intros]
  | apply clean_ret_after
  | match goal with |- clean (match ?x with _ => _ end) => destruct x end
  | apply keeps_clean; solve [auto with keeps] ].

(** Proves [preserves] for a body of statements, none of which writes the part. *)
Ltac framed :=
  repeat first
    [ lazymatch goal with |- preserves _ _ => fail | |- forall _, _ => intro end
    | apply preserves_bind
    | apply preserves_atomically
    | apply preserves_mod; intros; reflexivity
    | apply preserves_keeps; solve [auto with keeps]
    | match goal with |- preserves _ (match ?x with _ => _ end) => destruct x end ].

(** Splits a successful run into its statements. *)
Ltac st_step :=
  match goal with
  | H : (_ ≫= _) _ = (Ok _, _) |- _ => apply St_bind_Ok in H as (? & ? & ? & ?)
  | H : mret _ _ = (Ok _, _) |- _ => apply St_ret_Ok in H as [? ?]
  | H : atomically _ _ = (Ok _, _) |- _ => apply (proj1 (atomically_Ok _ _ _ _)) in H
  | H : st_lift _ _ = (Ok _, _) |- _ => apply st_lift_Ok in H as [? ?]
  | H : st_throw _ _ = (Ok _, _) |- _ => exfalso; exact (st_throw_Ok _ _ _ _ H)
  | H : st_fail _ _ _ = (Ok _, _) |- _ => apply st_fail_Ok in H as [? ?]
  | H : st_get _ _ = (Ok _, _) |- _ => apply st_get_Ok in H as [? ?]
  | H : st_mod _ _ = (Ok _, _) |- _ => apply st_mod_Ok in H
  | H : st_or_err _ _ _ = (Ok _, _) |- _ => apply st_or_err_Ok in H as [? ?]
  | H : st_map_err _ _ _ = (Ok _, _) |- _ => apply (proj1 (st_map_err_Ok _ _ _ _ _)) in H
  | u : unit |- _ => destruct u
  | _ => progress subst
  end.
Ltac st_inv := repeat st_step.
