(* ===== verification/ThreadStore.v ===== *)
(** * The thread store and the business audit

    internal/store/task_thread_store.go and internal/store/business_audit.go: reading and
    writing Threads and Thread Items, the caller checks, message editing, and the audit record
    that every command appends. *)

From stdpp Require Import base tactics strings gmap list numbers sorting.
From S2P Require Import Prelude Actors Lifecycle StageClaim Delivery Thread Acceptance Database Tx.

Section store.
Context `{UUIDSource}.

(** ** Columns *)

(** internal/store/access_audit_store.go *)
Definition nullIfEmpty (value : string) : option string :=
  if value == "" then None else Some value.

Definition of_null (value : option string) : string :=
  match value with Some s => s | None => "" end.

Definition actorFromColumns (actorType : string) (userID : option UUID) (ref : option string) : Actor :=
  mkActor actorType userID (of_null ref).

Definition actorColumns (actor : Actor) : option UUID * option string :=
  if actor_Type actor == ActorTypeUser then (actor_UserID actor, None)
  else (None, nullIfEmpty (actor_Ref actor)).

Definition scanTaskThread (r : ThreadRow) : Thread :=
  {| th_ID := h_id r; th_TaskID := h_task_id r; th_Role := h_role r;
     th_IssueType := of_null (h_issue_type r); th_IssueStatus := of_null (h_issue_status r);
     th_OpenedFromPhase := of_null (h_opened_from_phase r);
     th_OpenedBy := match h_opened_by_type r with
                    | Some ty => actorFromColumns ty (h_opened_by_user_id r) (h_opened_by_ref r)
                    | None => Actor_zero
                    end;
     th_ResolvedBy := (fun ty => actorFromColumns ty (h_resolved_by_user_id r) (h_resolved_by_ref r))
                        <$> h_resolved_by_type r;
     th_Version := h_version r; th_CreatedAt := h_created_at r; th_UpdatedAt := h_updated_at r;
     th_ResolvedAt := h_resolved_at r |}.

(** The mentioned users of an Item, [ORDER BY mention.user_id]. *)
Definition mentions_of (d : DB) (itemID : UUID) : list UUID :=
  merge_sort N.le (snd <$> List.filter (fun m => m.1 == itemID) (elements (task_thread_item_mentions d))).

Definition scanTaskThreadItem (mentioned : list UUID) (r : ItemRow) : ThreadItem :=
  {| ti_ID := i_id r; ti_ThreadID := i_thread_id r; ti_Kind := i_kind r;
     ti_Author := actorFromColumns (i_author_type r) (i_author_user_id r) (i_author_ref r);
     ti_Body := of_null (i_body r);
     ti_IssueResolution :=
       match i_typed_payload r with
       | Some (IssueResolutionJSON p) =>
           if i_kind r == ThreadItemKindIssueResolution then Some p else None
       | _ => None
       end;
     ti_ExecutionCompleted :=
       match i_typed_payload r with
       | Some (ExecutionCompletedJSON p) =>
           if i_kind r == ThreadItemKindExecutionCompleted then Some p else None
       | _ => None
       end;
     ti_TaskStageClaimID := i_task_stage_claim_id r; ti_TaskReviewCycle := i_task_review_cycle r;
     ti_ReplyToItemID := i_reply_to_item_id r; ti_MentionedUserIDs := mentioned;
     ti_Version := i_version r; ti_CreatedAt := i_created_at r; ti_UpdatedAt := i_updated_at r;
     ti_DeletedAt := i_deleted_at r |}.

(** ** Caller checks *)

Definition sameOptionalUUID (a b : option UUID) : bool :=
  match a, b with
  | Some x, Some y => x == y
  | None, None => true
  | _, _ => false
  end.

Definition validateThreadOperationActor (actor : Actor) (operation : OperationActor) : result unit :=
  _ ← OperationActor_Validate operation;
  if actor_Type actor == ActorTypeUser then
    fail_if ((op_AuthMethod operation != AuthenticationMethodSession) ||
             (actor_UserID actor != Some (op_UserID operation))) ErrForbidden
  else if actor_Type actor == ActorTypeAgent then
    fail_if ((op_AuthMethod operation == AuthenticationMethodSession) || blank (actor_Ref actor))
      ErrForbidden
  else Err ErrForbidden.

(** ** Audit: internal/store/business_audit.go *)

Definition InsertBusinessAudit (event : BusinessAuditEvent) : M unit :=
  _ ← lift (OperationActor_Validate (be_Actor event));
  id ← (if be_ID event == uuid_Nil then uuid_New else mret (be_ID event));
  let event := mkBusinessAuditEvent id (be_OccurredAt event) (be_Actor event) (be_EntityType event)
                 (be_EntityID event) (be_EntityNumber event) (be_Action event)
                 (be_OldValue event) (be_NewValue event) in
  _ ← throw_if (Time_IsZero (be_OccurredAt event)) ErrOther;
  _ ← throw_if ((be_EntityID event == uuid_Nil) || (be_EntityType event == "") ||
                (be_Action event == "")) ErrOther;
  d ← query (fun d => d);
  _ ← throw_if (negb (business_audit_events_checks event)) ErrOther;
  _ ← throw_if (bool_decide (be_ID event ∈ (be_ID <$> business_audit_events d))) ErrOther;
  _ ← throw_if (negb (bool_decide (op_UserID (be_Actor event) ∈ users d) &&
                      match op_TokenID (be_Actor event) with
                      | Some t => bool_decide (t ∈ api_tokens d)
                      | None => true
                      end)) ErrOther;
  exec (fun d => set_audit (business_audit_events d ++ [event]) d).

(** ** Writing Items and mentions *)

Definition item_row (item : ThreadItem) (requestID : string) : ItemRow :=
  let '(authorUserID, authorRef) := actorColumns (ti_Author item) in
  {| i_id := ti_ID item; i_thread_id := ti_ThreadID item; i_kind := ti_Kind item;
     i_author_type := actor_Type (ti_Author item); i_author_user_id := authorUserID;
     i_author_ref := authorRef; i_body := nullIfEmpty (ti_Body item);
     i_typed_payload :=
       match ti_ExecutionCompleted item, ti_IssueResolution item with
       | Some p, _ => Some (ExecutionCompletedJSON p)
       | None, Some p => Some (IssueResolutionJSON p)
       | None, None => None
       end;
     i_task_stage_claim_id := ti_TaskStageClaimID item; i_task_review_cycle := ti_TaskReviewCycle item;
     i_reply_to_item_id := ti_ReplyToItemID item; i_request_id := requestID;
     i_version := ti_Version item; i_created_at := ti_CreatedAt item;
     i_updated_at := ti_UpdatedAt item; i_deleted_at := ti_DeletedAt item |}.

(** A nullable reference to a row of a table with keys [dom]. *)
Definition fk (ref : option UUID) (keys : gset UUID) : bool :=
  match ref with Some k => bool_decide (k ∈ keys) | None => true end.

(** A row of the same thread already has this kind (the unique indexes
    [task_thread_items_one_issue_request] and [task_thread_items_one_issue_resolution]). *)
Definition item_kind_taken (d : DB) (threadID : UUID) (kind : string) : bool :=
  present (select_one (fun r => (i_thread_id r == threadID) && (i_kind r == kind)) (task_thread_items d)).

Definition item_unique_violated (d : DB) (r : ItemRow) : bool :=
  ((i_kind r == ThreadItemKindResolutionRequest) || (i_kind r == ThreadItemKindResolution)) &&
  item_kind_taken d (i_thread_id r) (i_kind r).

Definition item_fks (d : DB) (r : ItemRow) : bool :=
  fk (Some (i_thread_id r)) (dom (task_threads d)) && fk (i_author_user_id r) (users d) &&
  fk (i_reply_to_item_id r) (dom (task_thread_items d)) &&
  fk (i_task_stage_claim_id r) (dom (task_stage_claims d)).

(** [INSERT INTO task_thread_items] *)
Definition insert_item_row (r : ItemRow) : M unit :=
  d ← query (fun d => d);
  _ ← throw_if (negb (task_thread_items_checks r)) ErrInvalidInput;
  _ ← throw_if (present (task_thread_items d !! i_id r)) ErrConflict;
  _ ← throw_if (item_unique_violated d r) ErrConflict;
  _ ← throw_if (negb (item_fks d r)) ErrInvalidInput;
  exec (fun d => set_items (<[i_id r := r]> (task_thread_items d)) d).

Definition insertTaskThreadItem (item : ThreadItem) (requestID : string) : M unit :=
  _ ← lift (ThreadItem_Validate item);
  insert_item_row (item_row item requestID).

(** [INSERT INTO task_thread_item_mentions] *)
Definition insert_mention (itemID userID : UUID) : M unit :=
  d ← query (fun d => d);
  _ ← throw_if (bool_decide ((itemID, userID) ∈ task_thread_item_mentions d)) ErrConflict;
  _ ← throw_if (negb (fk (Some itemID) (dom (task_thread_items d)) && fk (Some userID) (users d)))
        ErrInvalidInput;
  exec (fun d => set_mentions ({[ (itemID, userID) ]} ∪ task_thread_item_mentions d) d).

Fixpoint insert_mentions (itemID : UUID) (seen userIDs : list UUID) : M unit :=
  match userIDs with
  | [] => mret tt
  | userID :: rest =>
      _ ← throw_if (userID == uuid_Nil) ErrInvalidInput;
      if bool_decide (userID ∈ seen) then insert_mentions itemID seen rest
      else
        _ ← insert_mention itemID userID;
        insert_mentions itemID (userID :: seen) rest
  end.

Definition replaceThreadItemMentions (itemID : UUID) (userIDs : list UUID) : M unit :=
  _ ← exec (fun d => set_mentions (filter (fun m => m.1 <> itemID) (task_thread_item_mentions d)) d);
  insert_mentions itemID [] userIDs.

(** ** Commands *)

Definition AddItem (threadID : UUID) (kind : ThreadItemKind) (body : string)
  (replyToItemID : option UUID) (mentionedUserIDs : list UUID) (author : Actor)
  (operation : OperationActor) (now : Time) : M ThreadItem :=
  _ ← lift (validateThreadOperationActor author operation);
  _ ← throw_if ((kind != ThreadItemKindMessage) && (kind != ThreadItemKindProgress)) ErrInvalidInput;
  _ ← throw_if ((kind == ThreadItemKindProgress) && present replyToItemID) ErrInvalidInput;
  itemID ← uuid_New;
  let item := mkThreadItem itemID threadID kind author body None None None None replyToItemID
                mentionedUserIDs 1 now now None in
  _ ← lift (ThreadItem_Validate item);
  transaction (
    d ← query (fun d => d);
    thread ← or_err (task_threads d !! threadID) ErrNotFound;
    task ← or_err (tasks d !! h_task_id thread) ErrNotFound;
    _ ← throw_if (h_issue_status thread == Some IssueThreadStatusResolved) ErrConflict;
    _ ← throw_if ((kind == ThreadItemKindProgress) && (h_role thread != ThreadRoleMain)) ErrInvalidInput;
    _ ← throw_if (match replyToItemID with
                  | Some replyTo =>
                      match task_thread_items d !! replyTo with
                      | Some reply => i_thread_id reply != threadID
                      | None => true
                      end
                  | None => false
                  end) ErrInvalidInput;
    _ ← insertTaskThreadItem item (op_RequestID operation);
    _ ← replaceThreadItemMentions itemID mentionedUserIDs;
    _ ← InsertBusinessAudit (mkBusinessAuditEvent uuid_Nil now operation "task_thread_item" itemID
          (Some (t_number task)) (kind +:+ "_added") None None);
    mret item).

Definition lockTaskThreadItem (itemID : UUID) : M (ThreadItem * Z * option string) :=
  d ← query (fun d => d);
  r ← or_err (task_thread_items d !! itemID) ErrNotFound;
  thread ← or_err (task_threads d !! i_thread_id r) ErrOther;
  task ← or_err (tasks d !! h_task_id thread) ErrOther;
  mret (scanTaskThreadItem (mentions_of d itemID) r, t_number task, h_issue_status thread).

(** [SET body,version,updated_at,deleted_at] *)
Definition set_message_row (r : ItemRow) (item : ThreadItem) : ItemRow :=
  mkItemRow (i_id r) (i_thread_id r) (i_kind r) (i_author_type r) (i_author_user_id r) (i_author_ref r)
    (match ti_DeletedAt item with None => Some (ti_Body item) | Some _ => None end)
    (i_typed_payload r) (i_task_stage_claim_id r) (i_task_review_cycle r) (i_reply_to_item_id r)
    (i_request_id r) (ti_Version item) (i_created_at r) (ti_UpdatedAt item) (ti_DeletedAt item).

(** [UPDATE task_thread_items SET ... WHERE id=$5 AND version=$6] *)
Definition update_item_row (item : ThreadItem) (expectedVersion : Z) : M unit :=
  d ← query (fun d => d);
  match task_thread_items d !! ti_ID item with
  | Some r =>
      if i_version r == expectedVersion then
        let r' := set_message_row r item in
        _ ← throw_if (negb (task_thread_items_checks r')) ErrInvalidInput;
        exec (fun d => set_items (<[ti_ID item := r']> (task_thread_items d)) d)
      else throw ErrVersionConflict
  | None => throw ErrVersionConflict
  end.

Definition mutateMessage (itemID : UUID) (expectedVersion : Z) (author : Actor)
  (operation : OperationActor) (now : Time) (mutate : ThreadItem -> result ThreadItem)
  (action : string) : M ThreadItem :=
  _ ← lift (validateThreadOperationActor author operation);
  transaction (
    '(item, taskNumber, issueStatus) ← lockTaskThreadItem itemID;
    _ ← throw_if (ti_Version item != expectedVersion) (VersionConflictError (ti_Version item));
    _ ← throw_if (issueStatus == Some IssueThreadStatusResolved) ErrConflict;
    _ ← throw_if ((actor_Type (ti_Author item) != actor_Type author) ||
                  (actor_Ref (ti_Author item) != actor_Ref author) ||
                  negb (sameOptionalUUID (actor_UserID (ti_Author item)) (actor_UserID author)))
          ErrForbidden;
    item ← lift (mutate item);
    _ ← update_item_row item expectedVersion;
    _ ← replaceThreadItemMentions (ti_ID item) (ti_MentionedUserIDs item);
    _ ← InsertBusinessAudit (mkBusinessAuditEvent uuid_Nil now operation "task_thread_item"
          (ti_ID item) (Some taskNumber) action None None);
    mret item).

Definition EditMessage (itemID : UUID) (expectedVersion : Z) (body : string)
  (mentionedUserIDs : list UUID) (author : Actor) (operation : OperationActor) (now : Time)
  : M ThreadItem :=
  mutateMessage itemID expectedVersion author operation now
    (fun item => ThreadItem_Edit item body mentionedUserIDs now) "message_edited".

Definition DeleteMessage (itemID : UUID) (expectedVersion : Z) (author : Actor)
  (operation : OperationActor) (now : Time) : M ThreadItem :=
  mutateMessage itemID expectedVersion author operation now
    (fun item => ThreadItem_Delete item now) "message_deleted".

(** ** Reads *)

Definition item_key (r : ItemRow) : Z * UUID := (i_created_at r, i_id r).

Definition items_of (d : DB) (threadID : UUID) : list ItemRow :=
  select (fun r => i_thread_id r == threadID) (task_thread_items d).

Definition ListItems (d : DB) (threadID : UUID) : list ThreadItem :=
  (fun r => scanTaskThreadItem (mentions_of d (i_id r)) r) <$> order_by item_key (items_of d threadID).

(** [ORDER BY item.created_at DESC,item.id DESC] *)
Definition order_by_desc {A} (key : A -> Z * UUID) (l : list A) : list A :=
  merge_sort (fun x y => key_le (key y) (key x)) l.

(** [for left, right := 0, len(l)-1; left < right; left, right = left+1, right-1 { swap }];
    the distance between the indexes bounds the number of turns. *)
Fixpoint reverse_loop {A} (fuel left right : nat) (l : list A) : list A :=
  match fuel with
  | O => l
  | S fuel' =>
      if bool_decide (left < right)%nat then
        match l !! left, l !! right with
        | Some x, Some y => reverse_loop fuel' (S left) (right - 1) (<[right := x]> (<[left := y]> l))
        | _, _ => l
        end
      else l
  end.

Definition reverse_in_place {A} (l : list A) : list A := reverse_loop (length l) 0 (length l - 1) l.

Definition ListRecentItems (d : DB) (threadID : UUID) (limit : Z) : result (list ThreadItem * Z) :=
  _ ← fail_if ((limit <? 1) || (100 <? limit)) ErrInvalidInput;
  let totalCount := Z.of_nat (length (items_of d threadID)) in
  let recent := take (Z.to_nat limit) (order_by_desc item_key (items_of d threadID)) in
  Ok (reverse_in_place ((fun r => scanTaskThreadItem (mentions_of d (i_id r)) r) <$> recent), totalCount).

Definition GetFirstItemByKind (d : DB) (threadID : UUID) (kind : ThreadItemKind) : result ThreadItem :=
  match order_by item_key (List.filter (fun r => i_kind r == kind) (items_of d threadID)) with
  | r :: _ => Ok (scanTaskThreadItem (mentions_of d (i_id r)) r)
  | [] => Err ErrNotFound
  end.

Definition task_by_number (d : DB) (taskNumber : Z) : option TaskRow :=
  select_one (fun t => t_number t == taskNumber) (tasks d).

Definition main_thread (d : DB) (taskID : UUID) : option ThreadRow :=
  select_one (fun h => (h_task_id h == taskID) && (h_role h == ThreadRoleMain)) (task_threads d).

Definition GetMainByTaskNumber (d : DB) (taskNumber : Z) : result Thread :=
  match task_by_number d taskNumber with
  | Some task => match main_thread d (t_id task) with
                 | Some h => Ok (scanTaskThread h)
                 | None => Err ErrNotFound
                 end
  | None => Err ErrNotFound
  end.

Definition GetForTaskNumber (d : DB) (taskNumber : Z) (threadID : UUID) : result Thread :=
  match task_by_number d taskNumber, task_threads d !! threadID with
  | Some task, Some h => if h_task_id h == t_id task then Ok (scanTaskThread h) else Err ErrNotFound
  | _, _ => Err ErrNotFound
  end.

Definition thread_key (h : ThreadRow) : Z * UUID := (h_created_at h, h_id h).

(** [ORDER BY CASE WHEN thread.role='main' THEN 0 ELSE 1 END, thread.created_at, thread.id] *)
Definition ListThreadsForTaskNumber (d : DB) (taskNumber : Z) : list Thread :=
  match task_by_number d taskNumber with
  | Some task =>
      let of_task p := order_by thread_key (select (fun h => (h_task_id h == t_id task) && p h) (task_threads d)) in
      scanTaskThread <$> of_task (fun h => h_role h == ThreadRoleMain) ++
                         of_task (fun h => h_role h != ThreadRoleMain)
  | None => []
  end.

Definition GetThread (d : DB) (threadID : UUID) : result Thread :=
  match task_threads d !! threadID with Some h => Ok (scanTaskThread h) | None => Err ErrNotFound end.

Definition GetThreadForItem (d : DB) (itemID : UUID) : result Thread :=
  match task_thread_items d !! itemID with
  | Some r => GetThread d (i_thread_id r)
  | None => Err ErrNotFound
  end.

Record TaskThreadContext := mkTaskThreadContext {
  ctx_Main : Thread;
  ctx_ActiveIssue : option Thread;
  ctx_ResolvedIssueCount : Z;
}.

(** The rows arrive main Thread first; a later row of the same role replaces an earlier one. *)
Definition GetCompactContextForTaskNumber (d : DB) (taskNumber : Z) : result TaskThreadContext :=
  let of_task p :=
    match task_by_number d taskNumber with
    | Some task => select (fun h => (h_task_id h == t_id task) && p h) (task_threads d)
    | None => []
    end in
  let mains := of_task (fun h => h_role h == ThreadRoleMain) in
  let open_issues := of_task (fun h => (h_role h == ThreadRoleIssue) &&
                                       (h_issue_status h == Some IssueThreadStatusOpen)) in
  let resolved := of_task (fun h => (h_role h == ThreadRoleIssue) &&
                                    (h_issue_status h == Some IssueThreadStatusResolved)) in
  match last mains with
  | Some m => if h_id m == uuid_Nil then Err ErrNotFound
              else Ok (mkTaskThreadContext (scanTaskThread m) (scanTaskThread <$> last open_issues)
                         (Z.of_nat (length resolved)))
  | None => Err ErrNotFound
  end.

End store.
