(* ===== verification/ClaimStore.v ===== *)
(** * The stage Claim store

    internal/store/task_stage_claim_store.go: the rows of [task_stage_claims], the reads of
    Claims, and the two statements (INSERT, versioned UPDATE) through which a Claim starts and
    ends. *)

From stdpp Require Import base tactics strings gmap list numbers sorting.
From S2P Require Import Prelude Actors Lifecycle StageClaim Delivery Thread Acceptance.
From S2P Require Import Database Tx ThreadStore.

(** ** Rows *)

Definition scanTaskStageClaim (r : ClaimRow) : TaskStageClaim :=
  {| sc_ID := c_id r; sc_TaskID := c_task_id r; sc_TaskNumber := c_task_number r;
     sc_Stage := c_stage r;
     sc_ClaimedBy := actorFromColumns (c_claimed_by_type r) (c_claimed_by_user_id r)
                       (c_claimed_by_ref r);
     sc_SubjectUserID := c_subject_user_id r; sc_AuthMethod := c_auth_method r;
     sc_APITokenID := c_api_token_id r; sc_TokenName := of_null (c_token_name_snapshot r);
     sc_AgentRunID := c_agent_run_id r; sc_ClientKind := c_client_kind r;
     sc_ClientSessionID := c_client_session_id r; sc_Status := c_status r;
     sc_Outcome := of_null (c_outcome r); sc_Version := c_version r;
     sc_ExpiresAt := c_expires_at r; sc_CreatedAt := c_created_at r;
     sc_UpdatedAt := c_updated_at r; sc_CompletedAt := c_completed_at r |}.

(** The values of [INSERT INTO task_stage_claims]. *)
Definition claim_row (c : TaskStageClaim) : ClaimRow :=
  let '(claimedByUserID, claimedByRef) := actorColumns (sc_ClaimedBy c) in
  {| c_id := sc_ID c; c_task_id := sc_TaskID c; c_task_number := sc_TaskNumber c;
     c_stage := sc_Stage c; c_claimed_by_type := actor_Type (sc_ClaimedBy c);
     c_claimed_by_user_id := claimedByUserID; c_claimed_by_ref := claimedByRef;
     c_subject_user_id := sc_SubjectUserID c; c_auth_method := sc_AuthMethod c;
     c_api_token_id := sc_APITokenID c; c_token_name_snapshot := nullIfEmpty (sc_TokenName c);
     c_agent_run_id := sc_AgentRunID c; c_client_kind := sc_ClientKind c;
     c_client_session_id := sc_ClientSessionID c; c_status := sc_Status c;
     c_outcome := nullIfEmpty (sc_Outcome c); c_version := sc_Version c;
     c_expires_at := sc_ExpiresAt c; c_created_at := sc_CreatedAt c;
     c_updated_at := sc_UpdatedAt c; c_completed_at := sc_CompletedAt c |}.

(** [SET status,outcome,version,updated_at,completed_at] *)
Definition set_claim_row (r : ClaimRow) (c : TaskStageClaim) : ClaimRow :=
  {| c_id := c_id r; c_task_id := c_task_id r; c_task_number := c_task_number r;
     c_stage := c_stage r; c_claimed_by_type := c_claimed_by_type r;
     c_claimed_by_user_id := c_claimed_by_user_id r; c_claimed_by_ref := c_claimed_by_ref r;
     c_subject_user_id := c_subject_user_id r; c_auth_method := c_auth_method r;
     c_api_token_id := c_api_token_id r; c_token_name_snapshot := c_token_name_snapshot r;
     c_agent_run_id := c_agent_run_id r; c_client_kind := c_client_kind r;
     c_client_session_id := c_client_session_id r; c_status := sc_Status c;
     c_outcome := nullIfEmpty (sc_Outcome c); c_version := sc_Version c;
     c_expires_at := c_expires_at r; c_created_at := c_created_at r;
     c_updated_at := sc_UpdatedAt c; c_completed_at := sc_CompletedAt c |}.

(** ** Reads *)

(** [claim.task_id=$1 AND claim.status='active'] *)
Definition is_active_claim (taskID : UUID) (r : ClaimRow) : bool :=
  (c_task_id r == taskID) && (c_status r == StageClaimStatusActive).

Definition active_claim (d : DB) (taskID : UUID) : option ClaimRow :=
  select_one (is_active_claim taskID) (task_stage_claims d).

Definition GetClaim (d : DB) (claimID : UUID) : result TaskStageClaim :=
  match task_stage_claims d !! claimID with
  | Some r => Ok (scanTaskStageClaim r)
  | None => Err ErrNotFound
  end.

Definition GetActiveForTaskNumber (d : DB) (taskNumber : Z) : result TaskStageClaim :=
  match task_by_number d taskNumber with
  | Some task => match active_claim d (t_id task) with
                 | Some r => Ok (scanTaskStageClaim r)
                 | None => Err ErrNotFound
                 end
  | None => Err ErrNotFound
  end.

Definition claim_key (r : ClaimRow) : Z * UUID := (c_created_at r, c_id r).

(** The WHERE clause of [ListOwnedPage]: ownership is the authenticated principal. *)
Definition owned_by (operation : OperationActor) (status : StageClaimStatus) (stage : TaskClaimStage)
  (r : ClaimRow) : bool :=
  (c_subject_user_id r == op_UserID operation) && (c_auth_method r == op_AuthMethod operation) &&
  (c_api_token_id r == op_TokenID operation) && (c_agent_run_id r == op_AgentRunID operation) &&
  ((status == "") || (c_status r == status)) && ((stage == "") || (c_stage r == stage)).

Definition ListOwnedPage (d : DB) (operation : OperationActor) (status : StageClaimStatus)
  (stage : TaskClaimStage) (offset limit : Z) : result (list TaskStageClaim * bool) :=
  _ ← OperationActor_Validate operation;
  _ ← fail_if ((status != "") && negb (StageClaimStatus_Valid status)) ErrInvalidInput;
  _ ← fail_if ((stage != "") && negb (TaskClaimStage_Valid stage)) ErrInvalidInput;
  _ ← fail_if ((offset <? 0) || (limit <? 1) || (10000 <? limit)) ErrInvalidInput;
  let rows := take (Z.to_nat (limit + 1)) (drop (Z.to_nat offset)
                (order_by_desc claim_key (select (owned_by operation status stage) (task_stage_claims d)))) in
  let claims := scanTaskStageClaim <$> rows in
  let hasMore := limit <? Z.of_nat (length claims) in
  Ok (if hasMore then take (Z.to_nat limit) claims else claims, hasMore).

Definition ListOwned (d : DB) (operation : OperationActor) (status : StageClaimStatus)
  (stage : TaskClaimStage) : result (list TaskStageClaim) :=
  '(claims, _) ← ListOwnedPage d operation status stage 0 10000;
  Ok claims.

Definition ListForTaskNumber (d : DB) (taskNumber : Z) : list TaskStageClaim :=
  match task_by_number d taskNumber with
  | Some task =>
      scanTaskStageClaim <$>
        order_by claim_key (select (fun r => c_task_id r == t_id task) (task_stage_claims d))
  | None => []
  end.

(** ** Statements *)

Definition claim_fks (d : DB) (r : ClaimRow) : bool :=
  fk (Some (c_task_id r)) (dom (tasks d)) && fk (c_claimed_by_user_id r) (users d) &&
  fk (Some (c_subject_user_id r)) (users d) && fk (c_api_token_id r) (api_tokens d) &&
  fk (c_agent_run_id r) (agent_runs d).

(** The unique index [task_stage_claims_one_active_per_task]. *)
Definition one_active_violated (d : DB) (r : ClaimRow) : bool :=
  (c_status r == StageClaimStatusActive) && present (active_claim d (c_task_id r)).

Definition insertTaskStageClaim (claim : TaskStageClaim) : M unit :=
  _ ← lift (TaskStageClaim_Validate claim);
  let r := claim_row claim in
  d ← query (fun d => d);
  _ ← throw_if (negb (task_stage_claims_checks r)) ErrInvalidInput;
  _ ← throw_if (present (task_stage_claims d !! c_id r)) ErrConflict;
  _ ← throw_if (one_active_violated d r) ErrActiveClaim;
  _ ← throw_if (negb (claim_fks d r)) ErrInvalidInput;
  exec (fun d => set_claims (<[c_id r := r]> (task_stage_claims d)) d).

(** [UPDATE task_stage_claims SET ... WHERE id=$6 AND version=$7].  Another active row of the
    Task is a unique violation when the written status is active. *)
Definition updateTaskStageClaim (claim : TaskStageClaim) (expectedVersion : Z) : M unit :=
  d ← query (fun d => d);
  match task_stage_claims d !! sc_ID claim with
  | Some r =>
      if c_version r == expectedVersion then
        let r' := set_claim_row r claim in
        _ ← throw_if (negb (task_stage_claims_checks r')) ErrInvalidInput;
        _ ← throw_if (one_active_violated
                        (set_claims (delete (sc_ID claim) (task_stage_claims d)) d) r') ErrActiveClaim;
        exec (fun d => set_claims (<[sc_ID claim := r']> (task_stage_claims d)) d)
      else throw ErrConflict
  | None => throw ErrConflict
  end.
