(* ===== verification/WorkflowStore.v ===== *)
(** * The workflow store

    internal/store/task_workflow_store.go: the commands that move a Task through its lifecycle.
    Each command validates its caller, locks the Task row, checks the expected version, applies
    the domain transition, writes the Claim, the Issue Thread, the Task row, the Thread Item and
    the audit record, and commits; an error anywhere rolls the transaction back. *)

From stdpp Require Import base tactics strings gmap list numbers sorting.
From S2P Require Import Prelude Actors Lifecycle StageClaim Delivery Thread Acceptance.
From S2P Require Import Database Tx ThreadStore ClaimStore.

Definition workflowSystemActorRef : string := "pactline".
Definition systemActor : Actor := mkActor ActorTypeSystem None workflowSystemActorRef.

Record TaskWorkflowSnapshot := mkTaskWorkflowSnapshot {
  ws_TaskID : UUID;
  ws_TaskNumber : Z;
  ws_Version : Z;
  ws_Lifecycle : TaskLifecycle;
  ws_ActiveIssueThreadID : option UUID;
  ws_MainThreadID : UUID;
  ws_ArchivedAt : option Time;
}.

(** The embedded snapshot with the Project of the Task. *)
Record workflowTask := mkWorkflowTask {
  wt_TaskID : UUID;
  wt_TaskNumber : Z;
  wt_Version : Z;
  wt_Lifecycle : TaskLifecycle;
  wt_ActiveIssueThreadID : option UUID;
  wt_MainThreadID : UUID;
  wt_ArchivedAt : option Time;
  wt_ProjectID : UUID;
}.

Definition wt_snapshot (t : workflowTask) : TaskWorkflowSnapshot :=
  mkTaskWorkflowSnapshot (wt_TaskID t) (wt_TaskNumber t) (wt_Version t) (wt_Lifecycle t)
    (wt_ActiveIssueThreadID t) (wt_MainThreadID t) (wt_ArchivedAt t).

(** Assignments to the fields of a [workflowTask]. *)
Definition with_Lifecycle (t : workflowTask) (l : TaskLifecycle) : workflowTask :=
  mkWorkflowTask (wt_TaskID t) (wt_TaskNumber t) (wt_Version t) l (wt_ActiveIssueThreadID t)
    (wt_MainThreadID t) (wt_ArchivedAt t) (wt_ProjectID t).
Definition with_ActiveIssueThreadID (t : workflowTask) (i : option UUID) : workflowTask :=
  mkWorkflowTask (wt_TaskID t) (wt_TaskNumber t) (wt_Version t) (wt_Lifecycle t) i
    (wt_MainThreadID t) (wt_ArchivedAt t) (wt_ProjectID t).
Definition with_Version (t : workflowTask) (v : Z) : workflowTask :=
  mkWorkflowTask (wt_TaskID t) (wt_TaskNumber t) v (wt_Lifecycle t) (wt_ActiveIssueThreadID t)
    (wt_MainThreadID t) (wt_ArchivedAt t) (wt_ProjectID t).

Section workflow.
Context `{UUIDSource}.

(** ** Reading and locking a Task *)

(** The Task row and the id of its Main Thread, when the LEFT JOIN finds one. *)
Definition scanWorkflowTask (r : TaskRow) (mainThreadID : option UUID) : result workflowTask :=
  match t_phase r, t_review_cycle r, mainThreadID with
  | Some phase, Some reviewCycle, Some main =>
      let lifecycle := mkTaskLifecycle phase (of_null (t_activity_state r)) reviewCycle in
      _ ← TaskLifecycle_Validate lifecycle;
      Ok (mkWorkflowTask (t_id r) (t_number r) (t_version r) lifecycle (t_active_issue_thread_id r)
            main (t_archived_at r) (t_project_id r))
  | _, _, _ => Err ErrMigrationRequired
  end.

Definition lockWorkflowTask (taskNumber : Z) : M workflowTask :=
  d ← query (fun d => d);
  r ← or_err (task_by_number d taskNumber) ErrNotFound;
  lift (scanWorkflowTask r (h_id <$> main_thread d (t_id r))).

(** [TaskWorkflowStore.Get] *)
Definition GetWorkflow (taskNumber : Z) : M TaskWorkflowSnapshot :=
  task ← lockWorkflowTask taskNumber;
  mret (wt_snapshot task).

(** ** Writing *)

(** [SET phase,activity_state,review_cycle,active_issue_thread_id,version,updated_at,completed_at] *)
Definition set_task_row (r : TaskRow) (task : workflowTask) (now : Time) : TaskRow :=
  {| t_id := t_id r; t_number := t_number r; t_version := wt_Version task;
     t_phase := Some (Phase (wt_Lifecycle task));
     t_activity_state := nullIfEmpty (Activity (wt_Lifecycle task));
     t_review_cycle := Some (ReviewCycle (wt_Lifecycle task));
     t_active_issue_thread_id := wt_ActiveIssueThreadID task;
     t_project_id := t_project_id r; t_parent_task_id := t_parent_task_id r;
     t_updated_at := now;
     t_completed_at := if Phase (wt_Lifecycle task) == TaskPhaseDone then Some now else None;
     t_archived_at := t_archived_at r; t_creator_id := t_creator_id r;
     t_created_at := t_created_at r; t_brief := t_brief r |}.

Definition persistWorkflowTask (task : workflowTask) (expectedVersion : Z) (now : Time)
  : M workflowTask :=
  _ ← lift (TaskLifecycle_Validate (wt_Lifecycle task));
  let task := with_Version task (int64 (expectedVersion + 1)) in
  d ← query (fun d => d);
  match tasks d !! wt_TaskID task with
  | Some r =>
      if t_version r == expectedVersion then
        let r' := set_task_row r task now in
        _ ← throw_if (negb (tasks_checks r')) ErrInvalidInput;
        _ ← throw_if (negb (fk (t_active_issue_thread_id r') (dom (task_threads d)))) ErrInvalidInput;
        _ ← exec (fun d => set_tasks (<[wt_TaskID task := r']> (tasks d)) d);
        mret task
      else throw ErrConflict
  | None => throw ErrConflict
  end.

Definition insertWorkflowItem (threadID : UUID) (kind : ThreadItemKind) (author : Actor)
  (body : string) (payload : option IssueResolutionPayload) (requestID : string) (now : Time)
  : M ThreadItem :=
  id ← uuid_New;
  let item := mkThreadItem id threadID kind author body payload None None None None [] 1 now now None in
  _ ← insertTaskThreadItem item requestID;
  mret item.

Definition insertDeliveryWorkflowItem (threadID : UUID) (kind : ThreadItemKind) (author : Actor)
  (body : string) (claimID : UUID) (reviewCycle : Z) (payload : option ExecutionCompletedPayload)
  (requestID : string) (now : Time) : M ThreadItem :=
  id ← uuid_New;
  let item := mkThreadItem id threadID kind author body None payload (Some claimID) (Some reviewCycle)
                None [] 1 now now None in
  _ ← insertTaskThreadItem item requestID;
  mret item.

Definition insertWorkflowAudit (task : workflowTask) (operation : OperationActor) (action : string)
  (now : Time) : M unit :=
  InsertBusinessAudit (mkBusinessAuditEvent uuid_Nil now operation "task" (wt_TaskID task)
    (Some (wt_TaskNumber task)) action None (Some (AuditLifecycle (wt_Lifecycle task)))).

(** [INSERT INTO task_threads] of an Issue; the omitted resolution columns are NULL. *)
Definition issue_row (issue : Thread) : ThreadRow :=
  let '(openedByUserID, openedByRef) := actorColumns (th_OpenedBy issue) in
  {| h_id := th_ID issue; h_task_id := th_TaskID issue; h_role := th_Role issue;
     h_issue_type := Some (th_IssueType issue); h_issue_status := Some (th_IssueStatus issue);
     h_opened_from_phase := Some (th_OpenedFromPhase issue);
     h_opened_by_type := Some (actor_Type (th_OpenedBy issue));
     h_opened_by_user_id := openedByUserID; h_opened_by_ref := openedByRef;
     h_resolved_by_type := None; h_resolved_by_user_id := None; h_resolved_by_ref := None;
     h_version := th_Version issue; h_created_at := th_CreatedAt issue;
     h_updated_at := th_UpdatedAt issue; h_resolved_at := None |}.

(** [role='issue' AND issue_status='open'] *)
Definition is_open_issue (taskID : UUID) (h : ThreadRow) : bool :=
  (h_task_id h == taskID) && (h_role h == ThreadRoleIssue) &&
  (h_issue_status h == Some IssueThreadStatusOpen).

Definition open_issue (d : DB) (taskID : UUID) : option ThreadRow :=
  select_one (is_open_issue taskID) (task_threads d).

Definition insertIssueThread (issue : Thread) : M unit :=
  _ ← lift (Thread_Validate issue);
  let r := issue_row issue in
  d ← query (fun d => d);
  _ ← throw_if (negb (task_threads_checks r)) ErrInvalidInput;
  _ ← throw_if (present (task_threads d !! h_id r)) ErrConflict;
  _ ← throw_if (is_open_issue (h_task_id r) r && present (open_issue d (h_task_id r))) ErrActiveIssue;
  _ ← throw_if (negb (fk (Some (h_task_id r)) (dom (tasks d)) && fk (h_opened_by_user_id r) (users d)))
        ErrInvalidInput;
  exec (fun d => set_threads (<[h_id r := r]> (task_threads d)) d).

Definition lockIssueThread (taskID threadID : UUID) : M Thread :=
  d ← query (fun d => d);
  r ← or_err (select_one (fun h => (h_id h == threadID) && (h_task_id h == taskID) &&
                                   (h_role h == ThreadRoleIssue)) (task_threads d)) ErrNotFound;
  mret (scanTaskThread r).

Definition getIssueRequest (threadID : UUID) : M ThreadItem :=
  d ← query (fun d => d);
  r ← or_err (select_one (fun r => (i_thread_id r == threadID) &&
                                   (i_kind r == ThreadItemKindResolutionRequest))
                (task_thread_items d)) ErrConflict;
  mret (scanTaskThreadItem [] r).

(** [SET issue_status,resolved_by_*,version,updated_at,resolved_at] *)
Definition set_resolved_row (r : ThreadRow) (issue : Thread) (resolvedBy : Actor) : ThreadRow :=
  let '(resolvedByUserID, resolvedByRef) := actorColumns resolvedBy in
  {| h_id := h_id r; h_task_id := h_task_id r; h_role := h_role r;
     h_issue_type := h_issue_type r; h_issue_status := Some (th_IssueStatus issue);
     h_opened_from_phase := h_opened_from_phase r; h_opened_by_type := h_opened_by_type r;
     h_opened_by_user_id := h_opened_by_user_id r; h_opened_by_ref := h_opened_by_ref r;
     h_resolved_by_type := Some (actor_Type resolvedBy);
     h_resolved_by_user_id := resolvedByUserID; h_resolved_by_ref := resolvedByRef;
     h_version := th_Version issue; h_created_at := h_created_at r;
     h_updated_at := th_UpdatedAt issue; h_resolved_at := th_ResolvedAt issue |}.

Definition persistResolvedIssue (issue : Thread) (expectedVersion : Z) : M unit :=
  resolvedBy ← or_err (th_ResolvedBy issue) ErrInvalidInput;
  d ← query (fun d => d);
  match task_threads d !! th_ID issue with
  | Some r =>
      if (h_version r == expectedVersion) && (h_issue_status r == Some IssueThreadStatusOpen) then
        let r' := set_resolved_row r issue resolvedBy in
        _ ← throw_if (negb (task_threads_checks r')) ErrInvalidInput;
        _ ← throw_if (negb (fk (h_resolved_by_user_id r') (users d))) ErrInvalidInput;
        exec (fun d => set_threads (<[th_ID issue := r']> (task_threads d)) d)
      else throw ErrConflict
  | None => throw ErrConflict
  end.

(** ** Ownership of the active Claim *)

Definition lockActiveTaskStageClaim (taskID : UUID) : M TaskStageClaim :=
  d ← query (fun d => d);
  r ← or_err (active_claim d taskID) ErrConflict;
  mret (scanTaskStageClaim r).

Definition validateClaimActor (claim : TaskStageClaim) (actor : Actor) (operation : OperationActor)
  : result unit :=
  _ ← validateThreadOperationActor actor operation;
  fail_if ((sc_SubjectUserID claim != op_UserID operation) ||
           (sc_AuthMethod claim != op_AuthMethod operation) ||
           (actor_Type (sc_ClaimedBy claim) != actor_Type actor) ||
           (actor_Ref (sc_ClaimedBy claim) != actor_Ref actor) ||
           negb (sameOptionalUUID (actor_UserID (sc_ClaimedBy claim)) (actor_UserID actor)) ||
           negb (sameOptionalUUID (sc_APITokenID claim) (op_TokenID operation)) ||
           negb (sameOptionalUUID (sc_AgentRunID claim) (op_AgentRunID operation))) ErrForbidden.

Definition lockOwnedWorkflowClaim (taskNumber : Z) (claimID : UUID)
  (expectedTaskVersion expectedClaimVersion : Z) (actor : Actor) (operation : OperationActor)
  : M (workflowTask * TaskStageClaim) :=
  task ← lockWorkflowTask taskNumber;
  _ ← throw_if (wt_Version task != expectedTaskVersion) (VersionConflictError (wt_Version task));
  claim ← lockActiveTaskStageClaim (wt_TaskID task);
  _ ← throw_if ((sc_ID claim != claimID) || (sc_Version claim != expectedClaimVersion)) ErrConflict;
  _ ← lift (validateClaimActor claim actor operation);
  mret (task, claim).

(** [claim.Complete(outcome, now)] followed by its UPDATE. *)
Definition complete_claim (claim : TaskStageClaim) (outcome : TaskClaimOutcome) (now : Time)
  : M TaskStageClaim :=
  let previousClaimVersion := sc_Version claim in
  claim ← lift (TaskStageClaim_Complete claim outcome now);
  _ ← updateTaskStageClaim claim previousClaimVersion;
  mret claim.

End workflow.
