(* ===== verification/WorkflowCommands.v ===== *)
(** * The workflow commands

    The public commands of internal/store/task_workflow_store.go and task_claim_commands.go.  [ReleaseClaim],
    [RequestChanges], [RequestResolution] and [AcceptTask] repeat the statements of
    [lockOwnedWorkflowClaim] in the source (lock, version, active Claim, its id and version,
    ownership); they call it here. *)

From stdpp Require Import base tactics strings gmap list numbers sorting.
From S2P Require Import Prelude Actors Lifecycle StageClaim Delivery Thread Acceptance.
From S2P Require Import Database Tx ThreadStore ClaimStore WorkflowStore.

Section commands.
Context `{UUIDSource}.

(** A system event in the Main Thread of the Task. *)
Definition system_event (task : workflowTask) (body : string) (operation : OperationActor) (now : Time)
  : M ThreadItem :=
  insertWorkflowItem (wt_MainThreadID task) ThreadItemKindSystemEvent systemActor body None
    (op_RequestID operation) now.

(** ** Readiness *)

Definition simpleLifecycleCommand (taskNumber expectedVersion : Z) (operation : OperationActor)
  (now : Time) (action eventBody : string) (mutate : workflowTask -> M workflowTask)
  : M TaskWorkflowSnapshot :=
  _ ← lift (OperationActor_Validate operation);
  transaction (
    task ← lockWorkflowTask taskNumber;
    _ ← throw_if (wt_Version task != expectedVersion) (VersionConflictError (wt_Version task));
    task ← mutate task;
    task ← persistWorkflowTask task expectedVersion now;
    _ ← system_event task eventBody operation now;
    _ ← insertWorkflowAudit task operation action now;
    mret (wt_snapshot task)).

(** [phase IS NULL OR phase NOT IN ('done','cancelled')] *)
Definition unfinished (t : TaskRow) : bool :=
  match t_phase t with
  | Some phase => negb (bool_decide (phase ∈ ["done"; "cancelled"]))
  | None => true
  end.

(** The Tasks that a Task depends on, by the join of [task_dependencies] with [tasks]. *)
Definition prerequisites (d : DB) (taskID : UUID) : list TaskRow :=
  select (fun p => bool_decide ((taskID, t_id p) ∈ task_dependencies d)) (tasks d).

Definition MarkReady (taskNumber expectedVersion : Z) (operation : OperationActor) (now : Time)
  : M TaskWorkflowSnapshot :=
  _ ← lift (OperationActor_Validate operation);
  simpleLifecycleCommand taskNumber expectedVersion operation now "marked_ready" "Task marked ready"
    (fun task =>
       unfinishedDependencies ← query (fun d => existsb unfinished (prerequisites d (wt_TaskID task)));
       l ← lift (TaskLifecycle_MarkReady (wt_Lifecycle task) (present (wt_ArchivedAt task))
                   unfinishedDependencies);
       mret (with_Lifecycle task l)).

Definition WithdrawReadiness (taskNumber expectedVersion : Z) (reason : string)
  (operation : OperationActor) (now : Time) : M TaskWorkflowSnapshot :=
  _ ← throw_if (blank reason) ErrInvalidInput;
  simpleLifecycleCommand taskNumber expectedVersion operation now "readiness_withdrawn"
    ("Readiness withdrawn: " +:+ reason)
    (fun task =>
       l ← lift (TaskLifecycle_WithdrawReadiness (wt_Lifecycle task));
       mret (with_Lifecycle task l)).

(** ** Claims *)

Definition expireDueWorkflowClaim (task : workflowTask) (operation : OperationActor) (now : Time)
  : M workflowTask :=
  if Activity (wt_Lifecycle task) != TaskActivityWorking then mret task
  else
    claim ← lockActiveTaskStageClaim (wt_TaskID task);
    if Time_After (sc_ExpiresAt claim) now then mret task
    else
      claim ← complete_claim claim TaskClaimOutcomeDeadlineElapsed now;
      l ← lift (TaskLifecycle_Release (wt_Lifecycle task) (sc_Stage claim));
      let task := with_Lifecycle task l in
      _ ← system_event task (sc_Stage claim +:+ " Claim expired") operation now;
      mret task.

Definition Claim (taskNumber expectedVersion : Z) (claimedBy : Actor) (operation : OperationActor)
  (clientKind clientSessionID : string) (now : Time) : M (TaskWorkflowSnapshot * TaskStageClaim) :=
  _ ← lift (validateThreadOperationActor claimedBy operation);
  transaction (
    task ← lockWorkflowTask taskNumber;
    _ ← throw_if (wt_Version task != expectedVersion) (VersionConflictError (wt_Version task));
    task ← expireDueWorkflowClaim task operation now;
    '(stage, l) ← lift (TaskLifecycle_Claim (wt_Lifecycle task) (present (wt_ArchivedAt task)));
    let task := with_Lifecycle task l in
    id ← uuid_New;
    claim ← lift (NewTaskStageClaim id (wt_TaskID task) (wt_TaskNumber task) stage claimedBy operation
                    clientKind clientSessionID now);
    _ ← insertTaskStageClaim claim;
    task ← persistWorkflowTask task expectedVersion now;
    _ ← system_event task (stage +:+ " Claim started") operation now;
    _ ← insertWorkflowAudit task operation "claimed" now;
    mret (wt_snapshot task, claim)).

(** Whether the Claim was due, and so was expired. *)
Definition ExpireDueClaim (taskNumber : Z) (operation : OperationActor) (now : Time) : M bool :=
  _ ← lift (OperationActor_Validate operation);
  transaction_if (fun expired => expired) (
    task ← lockWorkflowTask taskNumber;
    if Activity (wt_Lifecycle task) != TaskActivityWorking then mret false
    else
      let previousVersion := wt_Version task in
      let previousActivity := Activity (wt_Lifecycle task) in
      task ← expireDueWorkflowClaim task operation now;
      if Activity (wt_Lifecycle task) == previousActivity then mret false
      else
        task ← persistWorkflowTask task previousVersion now;
        _ ← insertWorkflowAudit task operation "claim_expired" now;
        mret true).

Definition finishClaim (taskNumber : Z) (claimID : UUID)
  (expectedTaskVersion expectedClaimVersion : Z) (outcome : TaskClaimOutcome)
  (itemKind : ThreadItemKind) (body : string) (actor : Actor) (operation : OperationActor)
  (now : Time) (mutate : workflowTask -> TaskStageClaim -> result workflowTask)
  : M (TaskWorkflowSnapshot * TaskStageClaim) :=
  _ ← lift (validateThreadOperationActor actor operation);
  transaction (
    '(task, claim) ← lockOwnedWorkflowClaim taskNumber claimID expectedTaskVersion
                       expectedClaimVersion actor operation;
    task ← lift (mutate task claim);
    claim ← complete_claim claim outcome now;
    task ← persistWorkflowTask task expectedTaskVersion now;
    _ ← insertWorkflowItem (wt_MainThreadID task) itemKind actor body None (op_RequestID operation) now;
    _ ← insertWorkflowAudit task operation outcome now;
    mret (wt_snapshot task, claim)).

Definition ReleaseClaim (taskNumber : Z) (claimID : UUID)
  (expectedTaskVersion expectedClaimVersion : Z) (handoff : string) (actor : Actor)
  (operation : OperationActor) (now : Time) : M (TaskWorkflowSnapshot * TaskStageClaim) :=
  _ ← throw_if (blank handoff) ErrInvalidInput;
  finishClaim taskNumber claimID expectedTaskVersion expectedClaimVersion
    TaskClaimOutcomeVoluntarilyReleased ThreadItemKindHandoff handoff actor operation now
    (fun task claim =>
       l ← TaskLifecycle_Release (wt_Lifecycle task) (sc_Stage claim);
       Ok (with_Lifecycle task l)).

Definition RequestChanges (taskNumber : Z) (claimID : UUID)
  (expectedTaskVersion expectedClaimVersion : Z) (reason : string) (actor : Actor)
  (operation : OperationActor) (now : Time) : M (TaskWorkflowSnapshot * TaskStageClaim) :=
  _ ← throw_if (blank reason) ErrInvalidInput;
  finishClaim taskNumber claimID expectedTaskVersion expectedClaimVersion
    TaskClaimOutcomeChangesRequested ThreadItemKindReviewOutcome reason actor operation now
    (fun task _ =>
       l ← TaskLifecycle_RequestChanges (wt_Lifecycle task);
       Ok (with_Lifecycle task l)).

(** ** Delivery *)

Definition RecordWorkSubmission (taskNumber : Z) (claimID : UUID)
  (expectedTaskVersion expectedClaimVersion : Z) (summary : string) (actor : Actor)
  (operation : OperationActor) (now : Time)
  : M (TaskWorkflowSnapshot * TaskStageClaim * ThreadItem) :=
  _ ← throw_if (blank summary) ErrInvalidInput;
  _ ← lift (validateThreadOperationActor actor operation);
  transaction (
    '(task, claim) ← lockOwnedWorkflowClaim taskNumber claimID expectedTaskVersion
                       expectedClaimVersion actor operation;
    _ ← throw_if ((Phase (wt_Lifecycle task) != TaskPhaseInProgress) ||
                  (Activity (wt_Lifecycle task) != TaskActivityWorking) ||
                  (sc_Stage claim != TaskClaimStageExecution)) ErrConflict;
    let cycle := int64 (ReviewCycle (wt_Lifecycle task) + 1) in
    item ← insertDeliveryWorkflowItem (wt_MainThreadID task) ThreadItemKindWorkSubmission actor
             summary (sc_ID claim) cycle None (op_RequestID operation) now;
    _ ← insertWorkflowAudit task operation "work_submission_recorded" now;
    mret (wt_snapshot task, claim, item)).

(** The loop that indexes the prepared snapshots by code change. *)
Fixpoint prepare_snapshots (preparedByID : gmap UUID CodeChangeSnapshot)
  (snapshots : list CodeChangeSnapshot) : result (gmap UUID CodeChangeSnapshot) :=
  match snapshots with
  | [] => Ok preparedByID
  | snapshot :: rest =>
      _ ← CodeChangeSnapshot_Validate snapshot;
      _ ← fail_if (present (preparedByID !! ccs_TaskCodeChangeID snapshot)) ErrInvalidInput;
      prepare_snapshots (<[ccs_TaskCodeChangeID snapshot := snapshot]> preparedByID) rest
  end.

(** [task_id=$1 AND unlinked_at IS NULL]; the ids are only counted and looked up, so their
    order has no effect. *)
Definition activeCodeChangeIDs (d : DB) (taskID : UUID) : list UUID :=
  cr_id <$> select (fun r => (cr_task_id r == taskID) && negb (present (cr_unlinked_at r)))
              (task_code_changes d).

(** The work submissions of one cycle, oldest first. *)
Definition submissions_of (d : DB) (mainThreadID : UUID) (cycle : Z) : list ItemRow :=
  order_by item_key
    (select (fun r => (i_thread_id r == mainThreadID) && (i_kind r == "work_submission") &&
                      (i_task_review_cycle r == Some cycle)) (task_thread_items d)).

(** The execution verifications of one cycle, oldest first. *)
Definition execution_checks_of (d : DB) (taskID : UUID) (cycle : Z) : list CheckRow :=
  order_by (fun k => (k_checked_at k, k_id k))
    (select (fun k => match acceptance_criteria d !! k_criterion_id k with
                      | Some c => ac_TaskID c == Some taskID
                      | None => false
                      end && (k_purpose k == Some "execution_verification") &&
                      (k_task_review_cycle k == Some cycle)) (acceptance_checks d)).

(** [criterion.task_id=$1 AND criterion.archived_at IS NULL] *)
Definition active_criteria (d : DB) (taskID : UUID) : list AcceptanceCriterion :=
  select (fun c => (ac_TaskID c == Some taskID) && negb (present (ac_ArchivedAt c)))
    (acceptance_criteria d).

Definition executionCompletionPayload (d : DB) (task : workflowTask) (reviewCycle : Z)
  (codeChanges : list CodeChangeSnapshot) : result ExecutionCompletedPayload :=
  let active := activeCodeChangeIDs d (wt_TaskID task) in
  _ ← fail_if (length active != length codeChanges) ErrConflict;
  preparedByID ← prepare_snapshots ∅ codeChanges;
  _ ← first_error (fun id => fail_if (negb (present (preparedByID !! id))) ErrConflict) active;
  let payload := {|
    ecp_ReviewCycle := reviewCycle;
    ecp_SubmissionItemIDs := i_id <$> submissions_of d (wt_MainThreadID task) reviewCycle;
    ecp_ExecutionCheckIDs := k_id <$> execution_checks_of d (wt_TaskID task) (int64 (reviewCycle - 1));
    ecp_CriterionRevisions :=
      (fun c => mkCriterionRevisionSnapshot (ac_ID c) (ac_Revision c)) <$>
        order_by (fun c => (ac_Position c, ac_ID c)) (active_criteria d (wt_TaskID task));
    ecp_CodeChanges := codeChanges |} in
  _ ← ExecutionCompletedPayload_Validate payload;
  Ok payload.

Definition CompleteExecutionWithDelivery (taskNumber : Z) (claimID : UUID)
  (expectedTaskVersion expectedClaimVersion : Z) (summary : string)
  (codeChanges : list CodeChangeSnapshot) (actor : Actor) (operation : OperationActor) (now : Time)
  : M (TaskWorkflowSnapshot * TaskStageClaim * ThreadItem) :=
  _ ← throw_if (blank summary) ErrInvalidInput;
  _ ← lift (validateThreadOperationActor actor operation);
  transaction (
    '(task, claim) ← lockOwnedWorkflowClaim taskNumber claimID expectedTaskVersion
                       expectedClaimVersion actor operation;
    l ← lift (TaskLifecycle_CompleteExecution (wt_Lifecycle task));
    let task := with_Lifecycle task l in
    d ← query (fun d => d);
    payload ← lift (executionCompletionPayload d task (ReviewCycle (wt_Lifecycle task)) codeChanges);
    claim ← complete_claim claim TaskClaimOutcomeExecutionCompleted now;
    task ← persistWorkflowTask task expectedTaskVersion now;
    item ← insertDeliveryWorkflowItem (wt_MainThreadID task) ThreadItemKindExecutionCompleted actor
             summary (sc_ID claim) (ReviewCycle (wt_Lifecycle task)) (Some payload)
             (op_RequestID operation) now;
    _ ← insertWorkflowAudit task operation "execution_completed" now;
    mret (wt_snapshot task, claim, item)).

Definition CompleteExecution (taskNumber : Z) (claimID : UUID)
  (expectedTaskVersion expectedClaimVersion : Z) (summary : string) (actor : Actor)
  (operation : OperationActor) (now : Time)
  : M (TaskWorkflowSnapshot * TaskStageClaim * ThreadItem) :=
  CompleteExecutionWithDelivery taskNumber claimID expectedTaskVersion expectedClaimVersion summary []
    actor operation now.

(** ** Issues *)

Definition RequestResolution (taskNumber : Z) (claimID : UUID)
  (expectedTaskVersion expectedClaimVersion : Z) (issueType : IssueThreadType) (request : string)
  (actor : Actor) (operation : OperationActor) (now : Time)
  : M (TaskWorkflowSnapshot * TaskStageClaim * Thread) :=
  _ ← throw_if (negb (IssueThreadType_Valid issueType)) ErrWrongIssueType;
  _ ← throw_if (blank request) ErrInvalidInput;
  _ ← lift (validateThreadOperationActor actor operation);
  transaction (
    '(task, claim) ← lockOwnedWorkflowClaim taskNumber claimID expectedTaskVersion
                       expectedClaimVersion actor operation;
    id ← uuid_New;
    issue ← lift (NewIssueThread id (wt_TaskID task) issueType (Phase (wt_Lifecycle task)) actor now);
    l ← lift (TaskLifecycle_RequestResolution (wt_Lifecycle task) (sc_Stage claim));
    let task := with_Lifecycle task l in
    _ ← insertIssueThread issue;
    _ ← insertWorkflowItem (th_ID issue) ThreadItemKindResolutionRequest actor request None
          (op_RequestID operation) now;
    claim ← complete_claim claim TaskClaimOutcomeNeedsResolution now;
    let task := with_ActiveIssueThreadID task (Some (th_ID issue)) in
    task ← persistWorkflowTask task expectedTaskVersion now;
    _ ← system_event task ("Resolution requested in " +:+ issueType +:+ " Issue Thread") operation now;
    _ ← insertWorkflowAudit task operation "resolution_requested" now;
    mret (wt_snapshot task, claim, issue)).

(** The statements that [ResolveIssue] and [CancelTask] share: the resolution in the Issue
    Thread, its resolved row, and the resolution record in the Main Thread. *)
Definition resolve_issue (task : workflowTask) (issue : Thread) (requestItem : ThreadItem)
  (expectedThreadVersion : Z) (resolution : string) (actor : Actor) (operation : OperationActor)
  (now : Time) : M Thread :=
  _ ← insertWorkflowItem (th_ID issue) ThreadItemKindResolution actor resolution None
        (op_RequestID operation) now;
  issue ← lift (Thread_Resolve issue actor now);
  _ ← persistResolvedIssue issue expectedThreadVersion;
  resolvedAt ← or_err (th_ResolvedAt issue) ErrOther;
  let payload := mkIssueResolutionPayload (th_ID issue) (th_IssueType issue) (ti_Body requestItem)
                   resolution (th_OpenedBy issue) actor (th_CreatedAt issue) resolvedAt in
  _ ← insertWorkflowItem (wt_MainThreadID task) ThreadItemKindIssueResolution systemActor "" (Some payload)
        (op_RequestID operation) now;
  mret issue.

Definition ResolveIssue (taskNumber expectedTaskVersion : Z) (issueThreadID : UUID)
  (expectedThreadVersion : Z) (resolution : string) (actor : Actor) (operation : OperationActor)
  (now : Time) : M (TaskWorkflowSnapshot * Thread) :=
  _ ← throw_if (blank resolution) ErrInvalidInput;
  _ ← lift (validateThreadOperationActor actor operation);
  transaction (
    task ← lockWorkflowTask taskNumber;
    _ ← throw_if (wt_Version task != expectedTaskVersion) (VersionConflictError (wt_Version task));
    _ ← throw_if (wt_ActiveIssueThreadID task != Some issueThreadID) ErrConflict;
    issue ← lockIssueThread (wt_TaskID task) issueThreadID;
    _ ← throw_if ((th_Version issue != expectedThreadVersion) ||
                  (th_OpenedFromPhase issue != Phase (wt_Lifecycle task))) ErrConflict;
    requestItem ← getIssueRequest (th_ID issue);
    issue ← resolve_issue task issue requestItem expectedThreadVersion resolution actor operation now;
    l ← lift (TaskLifecycle_ResolveIssue (wt_Lifecycle task));
    let task := with_ActiveIssueThreadID (with_Lifecycle task l) None in
    task ← persistWorkflowTask task expectedTaskVersion now;
    _ ← insertWorkflowAudit task operation "issue_resolved" now;
    mret (wt_snapshot task, issue)).

(** ** Acceptance *)

Definition lockTaskAcceptanceCriterion (taskID criterionID : UUID) : M AcceptanceCriterion :=
  d ← query (fun d => d);
  c ← or_err (acceptance_criteria d !! criterionID) ErrNotFound;
  _ ← throw_if ((ac_TaskID c != Some taskID) || present (ac_ArchivedAt c)) ErrNotFound;
  mret c.

(** [INSERT INTO acceptance_checks] *)
Definition insert_check_row (r : CheckRow) : M unit :=
  d ← query (fun d => d);
  _ ← throw_if (negb (acceptance_checks_checks r)) ErrInvalidInput;
  _ ← throw_if (present (acceptance_checks d !! k_id r)) ErrConflict;
  _ ← throw_if (negb (fk (Some (k_criterion_id r)) (dom (acceptance_criteria d)) &&
                      fk (k_checked_by_user_id r) (users d) &&
                      fk (k_task_stage_claim_id r) (dom (task_stage_claims d)))) ErrInvalidInput;
  exec (fun d => set_checks (<[k_id r := r]> (acceptance_checks d)) d).

Definition check_row (c : AcceptanceCheck) (claimID : UUID) (cycle : Z) : CheckRow :=
  let '(checkerUserID, checkerRef) := actorColumns (ck_Checker c) in
  {| k_id := ck_ID c; k_criterion_id := ck_CriterionID c;
     k_criterion_revision := ck_CriterionRevision c; k_outcome := ck_Outcome c;
     k_evidence := ck_Evidence c; k_checker_type := actor_Type (ck_Checker c);
     k_checked_by_user_id := checkerUserID; k_checker_ref := checkerRef;
     k_checked_at := ck_CheckedAt c; k_purpose := Some (ck_Purpose c);
     k_task_stage_claim_id := Some claimID; k_task_review_cycle := Some cycle |}.

Definition RecordAcceptanceCheck (taskNumber : Z) (claimID : UUID)
  (expectedTaskVersion expectedClaimVersion : Z) (check : AcceptanceCheck) (actor : Actor)
  (operation : OperationActor) (now : Time) : M AcceptanceCheck :=
  _ ← lift (validateThreadOperationActor actor operation);
  transaction (
    task ← lockWorkflowTask taskNumber;
    _ ← throw_if (wt_Version task != expectedTaskVersion) (VersionConflictError (wt_Version task));
    _ ← throw_if (Activity (wt_Lifecycle task) != TaskActivityWorking) ErrConflict;
    claim ← lockActiveTaskStageClaim (wt_TaskID task);
    _ ← throw_if ((sc_ID claim != claimID) || (sc_Version claim != expectedClaimVersion)) ErrConflict;
    _ ← lift (validateClaimActor claim actor operation);
    let checker := if actor_Type (ck_Checker check) == "" then actor else ck_Checker check in
    _ ← throw_if ((actor_Type checker != actor_Type actor) || (actor_Ref checker != actor_Ref actor) ||
                  negb (sameOptionalUUID (actor_UserID checker) (actor_UserID actor))) ErrForbidden;
    criterion ← lockTaskAcceptanceCriterion (wt_TaskID task) (ck_CriterionID check);
    id ← uuid_New;
    let cycle := ReviewCycle (wt_Lifecycle task) in
    let check := {|
      ck_ID := id; ck_CriterionID := ck_CriterionID check;
      ck_CriterionRevision := ck_CriterionRevision check; ck_Outcome := ck_Outcome check;
      ck_Evidence := ck_Evidence check; ck_Checker := checker;
      ck_Purpose := if sc_Stage claim == TaskClaimStageExecution
                    then AcceptanceCheckPurposeExecutionVerification
                    else AcceptanceCheckPurposeAcceptance;
      ck_TaskClaimID := Some (sc_ID claim); ck_TaskReviewCycle := Some cycle; ck_CheckedAt := now |} in
    _ ← lift (ValidateForTaskClaim check criterion (sc_ID claim) (sc_Stage claim) cycle);
    _ ← insert_check_row (check_row check (sc_ID claim) cycle);
    _ ← insertWorkflowAudit task operation "acceptance_check_recorded" now;
    mret check).

(** A check that satisfies the current revision of a criterion in one review cycle. *)
Definition satisfies (c : AcceptanceCriterion) (cycle : Z) (k : CheckRow) : bool :=
  (k_criterion_id k == ac_ID c) && (k_criterion_revision k == ac_Revision c) &&
  (k_purpose k == Some "acceptance") && (k_task_review_cycle k == Some cycle) &&
  bool_decide (k_outcome k ∈ ["passed"; "waived"]).

Definition taskCompletionReadinessForCycle (d : DB) (taskID : UUID) (reviewCycle : Z)
  : TaskCompletionReadiness :=
  let criteria := active_criteria d taskID in
  let unsatisfied := List.filter
    (fun c => negb (existsb (satisfies c reviewCycle) (rows (acceptance_checks d)))) criteria in
  let related := match tasks d !! taskID with Some _ => true | None => false end in
  let children := List.filter unfinished
                    (select (fun t => t_parent_task_id t == Some taskID) (tasks d)) in
  let dependencies := List.filter unfinished (prerequisites d taskID) in
  {| ActiveCriteria := Z.of_nat (length criteria);
     UnsatisfiedCriteria := Z.of_nat (length unsatisfied);
     UnfinishedChildren := if related then Z.of_nat (length children) else 0;
     UnfinishedDependencies := if related then Z.of_nat (length dependencies) else 0 |}.

Definition AcceptTask (taskNumber : Z) (claimID : UUID)
  (expectedTaskVersion expectedClaimVersion : Z) (summary : string) (actor : Actor)
  (operation : OperationActor) (now : Time) : M (TaskWorkflowSnapshot * TaskStageClaim) :=
  _ ← throw_if (blank summary) ErrInvalidInput;
  _ ← lift (validateThreadOperationActor actor operation);
  transaction (
    '(task, claim) ← lockOwnedWorkflowClaim taskNumber claimID expectedTaskVersion
                       expectedClaimVersion actor operation;
    readiness ← query (fun d =>
      taskCompletionReadinessForCycle d (wt_TaskID task) (ReviewCycle (wt_Lifecycle task)));
    l ← lift (TaskLifecycle_Accept (wt_Lifecycle task) readiness);
    let task := with_Lifecycle task l in
    claim ← complete_claim claim TaskClaimOutcomeTaskAccepted now;
    task ← persistWorkflowTask task expectedTaskVersion now;
    _ ← insertWorkflowItem (wt_MainThreadID task) ThreadItemKindReviewOutcome actor summary None
          (op_RequestID operation) now;
    _ ← insertWorkflowAudit task operation "task_accepted" now;
    mret (wt_snapshot task, claim)).

(** ** Cancellation *)

Record CancelTaskResult := mkCancelTaskResult {
  ctr_Task : TaskWorkflowSnapshot;
  ctr_EndedClaim : option TaskStageClaim;
  ctr_ResolvedIssue : option Thread;
}.

Definition CancelTask (taskNumber expectedTaskVersion : Z) (reason : string) (actor : Actor)
  (operation : OperationActor) (now : Time) : M CancelTaskResult :=
  _ ← throw_if (blank reason) ErrInvalidInput;
  _ ← lift (validateThreadOperationActor actor operation);
  transaction (
    task ← lockWorkflowTask taskNumber;
    _ ← throw_if (wt_Version task != expectedTaskVersion) (VersionConflictError (wt_Version task));
    endedClaim ← (if Activity (wt_Lifecycle task) == TaskActivityWorking then
        claim ← lockActiveTaskStageClaim (wt_TaskID task);
        claim ← complete_claim claim TaskClaimOutcomeTaskCancelled now;
        mret (Some claim)
      else mret None);
    '(task, resolvedIssue) ← (if Activity (wt_Lifecycle task) == TaskActivityNeedsResolution then
        issueID ← or_err (wt_ActiveIssueThreadID task) ErrConflict;
        issue ← lockIssueThread (wt_TaskID task) issueID;
        requestItem ← getIssueRequest (th_ID issue);
        let previousThreadVersion := th_Version issue in
        issue ← resolve_issue task issue requestItem previousThreadVersion
                  ("Task cancelled: " +:+ reason) actor operation now;
        mret (with_ActiveIssueThreadID task None, Some issue)
      else mret (task, None));
    l ← lift (TaskLifecycle_Cancel (wt_Lifecycle task));
    let task := with_Lifecycle task l in
    task ← persistWorkflowTask task expectedTaskVersion now;
    _ ← system_event task ("Task cancelled: " +:+ reason) operation now;
    _ ← insertWorkflowAudit task operation "task_cancelled" now;
    mret (mkCancelTaskResult (wt_snapshot task) endedClaim resolvedIssue)).

End commands.

(** ** Claim-addressed commands

    internal/store/task_claim_commands.go: commands that name a Claim instead of a Task.
    [claimCommandTarget] runs before the command's own transaction: it resolves the Task, and
    commits the expiry of a Claim that is past its deadline even though the command then fails. *)

Section claim_commands.
Context `{UUIDSource}.

Definition get_claim (claimID : UUID) : M TaskStageClaim :=
  d ← query (fun d => d);
  lift (GetClaim d claimID).

Definition claimCommandTarget (claimID : UUID) (operation : OperationActor) (now : Time)
  : M TaskStageClaim :=
  claim ← get_claim claimID;
  claim ← (if (sc_Status claim == StageClaimStatusActive) && negb (Time_After (sc_ExpiresAt claim) now)
           then
             expired ← ExpireDueClaim (sc_TaskNumber claim) operation now;
             _ ← throw_if expired ErrConflict;
             get_claim claimID
           else mret claim);
  _ ← throw_if (sc_Status claim != StageClaimStatusActive) ErrConflict;
  mret claim.

Definition ReleaseClaimByID (claimID : UUID) (expectedTaskVersion : Z) (handoff : string)
  (actor : Actor) (operation : OperationActor) (now : Time) : M (TaskWorkflowSnapshot * TaskStageClaim) :=
  claim ← claimCommandTarget claimID operation now;
  ReleaseClaim (sc_TaskNumber claim) claimID expectedTaskVersion (sc_Version claim) handoff
    actor operation now.

Definition RecordWorkSubmissionByID (claimID : UUID) (expectedTaskVersion : Z) (summary : string)
  (actor : Actor) (operation : OperationActor) (now : Time)
  : M (TaskWorkflowSnapshot * TaskStageClaim * ThreadItem) :=
  claim ← claimCommandTarget claimID operation now;
  RecordWorkSubmission (sc_TaskNumber claim) claimID expectedTaskVersion (sc_Version claim) summary
    actor operation now.

Definition CompleteExecutionByID (claimID : UUID) (expectedTaskVersion : Z) (summary : string)
  (codeChanges : list CodeChangeSnapshot) (actor : Actor) (operation : OperationActor) (now : Time)
  : M (TaskWorkflowSnapshot * TaskStageClaim * ThreadItem) :=
  claim ← claimCommandTarget claimID operation now;
  CompleteExecutionWithDelivery (sc_TaskNumber claim) claimID expectedTaskVersion (sc_Version claim)
    summary codeChanges actor operation now.

Definition RequestChangesByID (claimID : UUID) (expectedTaskVersion : Z) (reason : string)
  (actor : Actor) (operation : OperationActor) (now : Time) : M (TaskWorkflowSnapshot * TaskStageClaim) :=
  claim ← claimCommandTarget claimID operation now;
  RequestChanges (sc_TaskNumber claim) claimID expectedTaskVersion (sc_Version claim) reason
    actor operation now.

Definition RequestResolutionByID (claimID : UUID) (expectedTaskVersion : Z)
  (issueType : IssueThreadType) (request : string) (actor : Actor) (operation : OperationActor)
  (now : Time) : M (TaskWorkflowSnapshot * TaskStageClaim * Thread) :=
  claim ← claimCommandTarget claimID operation now;
  RequestResolution (sc_TaskNumber claim) claimID expectedTaskVersion (sc_Version claim) issueType
    request actor operation now.

Definition RecordAcceptanceCheckByID (claimID : UUID) (expectedTaskVersion : Z)
  (check : AcceptanceCheck) (actor : Actor) (operation : OperationActor) (now : Time)
  : M AcceptanceCheck :=
  claim ← claimCommandTarget claimID operation now;
  RecordAcceptanceCheck (sc_TaskNumber claim) claimID expectedTaskVersion (sc_Version claim) check
    actor operation now.

Definition AcceptTaskByID (claimID : UUID) (expectedTaskVersion : Z) (summary : string)
  (actor : Actor) (operation : OperationActor) (now : Time) : M (TaskWorkflowSnapshot * TaskStageClaim) :=
  claim ← claimCommandTarget claimID operation now;
  AcceptTask (sc_TaskNumber claim) claimID expectedTaskVersion (sc_Version claim) summary
    actor operation now.

Definition executionCycleOffset (stage : TaskClaimStage) : Z :=
  if stage == TaskClaimStageExecution then 1 else 0.

Definition RecordClaimProgress (claimID : UUID) (body : string) (actor : Actor)
  (operation : OperationActor) (now : Time) : M (TaskWorkflowSnapshot * TaskStageClaim * ThreadItem) :=
  _ ← throw_if (blank body) ErrInvalidInput;
  _ ← lift (validateThreadOperationActor actor operation);
  target ← claimCommandTarget claimID operation now;
  transaction (
    task ← lockWorkflowTask (sc_TaskNumber target);
    claim ← lockActiveTaskStageClaim (wt_TaskID task);
    _ ← throw_if ((sc_ID claim != claimID) || (sc_TaskID claim != sc_TaskID target)) ErrConflict;
    _ ← lift (validateClaimActor claim actor operation);
    _ ← throw_if (Activity (wt_Lifecycle task) != TaskActivityWorking) ErrConflict;
    item ← insertDeliveryWorkflowItem (wt_MainThreadID task) ThreadItemKindProgress actor body
             (sc_ID claim)
             (int64 (ReviewCycle (wt_Lifecycle task) + executionCycleOffset (sc_Stage claim))) None
             (op_RequestID operation) now;
    _ ← insertWorkflowAudit task operation "claim_progress_recorded" now;
    mret (wt_snapshot task, claim, item)).

End claim_commands.
