(* ===== verification/AgentRun.v ===== *)
(** * Runs of the first-party Agent

    The state of a run and the methods that move it (internal/agent/domain.go): a worker claims a
    queued run under a lease, may ask its user for a clarification, and ends it.  A method returns
    the new run; on an error the run is unchanged. *)

From stdpp Require Import base tactics strings gmap list numbers.
From S2P Require Import Prelude.

Definition MaxClarificationRounds : Z := 3.
Definition MaxContextMessages : Z := 100.
Definition ClarificationLifetime : Z := 24 * Hour.
Definition DefaultLeaseDuration : Z := 2 * 60 * 1000000.

Definition RunStatus := string.
Definition RunQueued : RunStatus := "queued".
Definition RunRunning : RunStatus := "running".
Definition RunWaitingUser : RunStatus := "waiting_user".
Definition RunSucceeded : RunStatus := "succeeded".
Definition RunFailed : RunStatus := "failed".
Definition RunCancelled : RunStatus := "cancelled".

Definition CommandKind := string.
Definition CommandDirect : CommandKind := "direct".
Definition CommandDiscussion : CommandKind := "discussion".

(** The fields of a [Run] that no method changes. *)
Record RunHead := mkRunHead {
  rn_ID : UUID;
  rn_Provider : string;
  rn_TenantID : string;
  rn_ConversationID : string;
  rn_TriggerMessageID : string;
  rn_ProviderEventID : string;
  rn_ConversationRevisionID : option UUID;
  rn_TriggerOccurredAt : Time;
  rn_InitiatingUserID : UUID;
  rn_InitiatingSubjectID : string;
  rn_CommandKind : CommandKind;
  rn_Model : string;
  rn_PromptVersion : string;
  rn_CreatedAt : Time;
}.

(** The struct [Run] and, with nullable texts, the row of the table that keeps it. *)
Record RunOf (text : Type) := mkRun {
  rn_Head : RunHead;
  rn_ThreadRootMessageID : text;
  rn_ReplyParentMessageID : text;
  rn_Status : RunStatus;
  rn_AttemptCount : Z;
  rn_ClarificationRounds : Z;
  rn_ClarificationMessageID : text;
  rn_ClarificationInterruptID : text;
  rn_ClarificationExpiresAt : option Time;
  rn_ContextMessagesUsed : Z;
  rn_LeaseOwner : text;
  rn_LeaseExpiresAt : option Time;
  rn_AvailableAt : Time;
  rn_CreatedTaskID : option UUID;
  rn_CreatedTaskNumber : option Z;
  rn_TerminalErrorCategory : text;
  rn_TerminalErrorDetail : text;
  rn_UpdatedAt : Time;
  rn_CompletedAt : option Time;
}.

Arguments mkRun {text}.
Arguments rn_Head {text} _.
Arguments rn_ThreadRootMessageID {text} _.
Arguments rn_ReplyParentMessageID {text} _.
Arguments rn_Status {text} _.
Arguments rn_AttemptCount {text} _.
Arguments rn_ClarificationRounds {text} _.
Arguments rn_ClarificationMessageID {text} _.
Arguments rn_ClarificationInterruptID {text} _.
Arguments rn_ClarificationExpiresAt {text} _.
Arguments rn_ContextMessagesUsed {text} _.
Arguments rn_LeaseOwner {text} _.
Arguments rn_LeaseExpiresAt {text} _.
Arguments rn_AvailableAt {text} _.
Arguments rn_CreatedTaskID {text} _.
Arguments rn_CreatedTaskNumber {text} _.
Arguments rn_TerminalErrorCategory {text} _.
Arguments rn_TerminalErrorDetail {text} _.
Arguments rn_UpdatedAt {text} _.
Arguments rn_CompletedAt {text} _.

Abbreviation Run := (RunOf string).

#[global] Instance RunHead_eq_dec : EqDecision RunHead.
Proof. solve_decision. Defined.
#[global] Instance RunOf_eq_dec {text} `{EqDecision text} : EqDecision (RunOf text).
Proof. solve_decision. Defined.

(** ** Assignments to the fields *)

Section assignments.
Context {text : Type}.

Definition with_state (status : RunStatus) (available : Time) (r : RunOf text) : RunOf text :=
  mkRun (rn_Head r) (rn_ThreadRootMessageID r) (rn_ReplyParentMessageID r) status (rn_AttemptCount r)
    (rn_ClarificationRounds r) (rn_ClarificationMessageID r) (rn_ClarificationInterruptID r)
    (rn_ClarificationExpiresAt r) (rn_ContextMessagesUsed r) (rn_LeaseOwner r) (rn_LeaseExpiresAt r) available
    (rn_CreatedTaskID r) (rn_CreatedTaskNumber r) (rn_TerminalErrorCategory r) (rn_TerminalErrorDetail r)
    (rn_UpdatedAt r) (rn_CompletedAt r).
Definition with_lease (owner : text) (expires : option Time) (r : RunOf text) : RunOf text :=
  mkRun (rn_Head r) (rn_ThreadRootMessageID r) (rn_ReplyParentMessageID r) (rn_Status r) (rn_AttemptCount r)
    (rn_ClarificationRounds r) (rn_ClarificationMessageID r) (rn_ClarificationInterruptID r)
    (rn_ClarificationExpiresAt r) (rn_ContextMessagesUsed r) owner expires (rn_AvailableAt r)
    (rn_CreatedTaskID r) (rn_CreatedTaskNumber r) (rn_TerminalErrorCategory r) (rn_TerminalErrorDetail r)
    (rn_UpdatedAt r) (rn_CompletedAt r).
Definition with_counts (attempts rounds context : Z) (r : RunOf text) : RunOf text :=
  mkRun (rn_Head r) (rn_ThreadRootMessageID r) (rn_ReplyParentMessageID r) (rn_Status r) attempts rounds
    (rn_ClarificationMessageID r) (rn_ClarificationInterruptID r) (rn_ClarificationExpiresAt r) context
    (rn_LeaseOwner r) (rn_LeaseExpiresAt r) (rn_AvailableAt r) (rn_CreatedTaskID r) (rn_CreatedTaskNumber r)
    (rn_TerminalErrorCategory r) (rn_TerminalErrorDetail r) (rn_UpdatedAt r) (rn_CompletedAt r).
Definition with_clarification (message interrupt : text) (expires : option Time) (r : RunOf text) : RunOf text :=
  mkRun (rn_Head r) (rn_ThreadRootMessageID r) (rn_ReplyParentMessageID r) (rn_Status r) (rn_AttemptCount r)
    (rn_ClarificationRounds r) message interrupt expires (rn_ContextMessagesUsed r) (rn_LeaseOwner r)
    (rn_LeaseExpiresAt r) (rn_AvailableAt r) (rn_CreatedTaskID r) (rn_CreatedTaskNumber r)
    (rn_TerminalErrorCategory r) (rn_TerminalErrorDetail r) (rn_UpdatedAt r) (rn_CompletedAt r).
Definition with_task (id : option UUID) (number : option Z) (r : RunOf text) : RunOf text :=
  mkRun (rn_Head r) (rn_ThreadRootMessageID r) (rn_ReplyParentMessageID r) (rn_Status r) (rn_AttemptCount r)
    (rn_ClarificationRounds r) (rn_ClarificationMessageID r) (rn_ClarificationInterruptID r)
    (rn_ClarificationExpiresAt r) (rn_ContextMessagesUsed r) (rn_LeaseOwner r) (rn_LeaseExpiresAt r)
    (rn_AvailableAt r) id number (rn_TerminalErrorCategory r) (rn_TerminalErrorDetail r) (rn_UpdatedAt r)
    (rn_CompletedAt r).
Definition with_end (category detail : text) (completed : option Time) (r : RunOf text) : RunOf text :=
  mkRun (rn_Head r) (rn_ThreadRootMessageID r) (rn_ReplyParentMessageID r) (rn_Status r) (rn_AttemptCount r)
    (rn_ClarificationRounds r) (rn_ClarificationMessageID r) (rn_ClarificationInterruptID r)
    (rn_ClarificationExpiresAt r) (rn_ContextMessagesUsed r) (rn_LeaseOwner r) (rn_LeaseExpiresAt r)
    (rn_AvailableAt r) (rn_CreatedTaskID r) (rn_CreatedTaskNumber r) category detail (rn_UpdatedAt r) completed.
Definition with_updated (now : Time) (r : RunOf text) : RunOf text :=
  mkRun (rn_Head r) (rn_ThreadRootMessageID r) (rn_ReplyParentMessageID r) (rn_Status r) (rn_AttemptCount r)
    (rn_ClarificationRounds r) (rn_ClarificationMessageID r) (rn_ClarificationInterruptID r)
    (rn_ClarificationExpiresAt r) (rn_ContextMessagesUsed r) (rn_LeaseOwner r) (rn_LeaseExpiresAt r)
    (rn_AvailableAt r) (rn_CreatedTaskID r) (rn_CreatedTaskNumber r) (rn_TerminalErrorCategory r)
    (rn_TerminalErrorDetail r) now (rn_CompletedAt r).
End assignments.

(** ** Methods *)

Definition validStatus (s : RunStatus) : bool :=
  bool_decide (s ∈ [RunQueued; RunRunning; RunWaitingUser; RunSucceeded; RunFailed; RunCancelled]).

Definition Run_IsTerminal (r : Run) : bool :=
  (rn_Status r == RunSucceeded) || (rn_Status r == RunFailed) || (rn_Status r == RunCancelled).

Definition validate_head (r : Run) : bool :=
  let h := rn_Head r in
  (rn_ID h != uuid_Nil) && negb (blank (rn_Provider h)) && negb (blank (rn_TenantID h)) &&
  negb (blank (rn_ConversationID h)) && negb (blank (rn_TriggerMessageID h)) &&
  negb (blank (rn_ProviderEventID h)) && negb (Time_IsZero (rn_TriggerOccurredAt h)) &&
  (rn_InitiatingUserID h != uuid_Nil) && negb (blank (rn_InitiatingSubjectID h)) && negb (blank (rn_Model h)) &&
  negb (blank (rn_PromptVersion h)) && negb (Time_IsZero (rn_CreatedAt h)) && (rn_Provider h == "lark") &&
  (rn_ConversationRevisionID h != Some uuid_Nil) &&
  ((rn_CommandKind h == CommandDirect) || (rn_CommandKind h == CommandDiscussion)).

Definition validate_counts (r : Run) : bool :=
  validStatus (rn_Status r) && (0 <=? rn_AttemptCount r) && (0 <=? rn_ClarificationRounds r) &&
  (rn_ClarificationRounds r <=? MaxClarificationRounds) && (0 <=? rn_ContextMessagesUsed r) &&
  (rn_ContextMessagesUsed r <=? MaxContextMessages).

Definition validate_task (r : Run) : bool :=
  match rn_CreatedTaskID r, rn_CreatedTaskNumber r with
  | None, None => true
  | Some id, Some number => (id != uuid_Nil) && (0 <? number)
  | _, _ => false
  end.

Definition validate_lease (r : Run) : bool :=
  if rn_Status r == RunRunning
  then negb (blank (rn_LeaseOwner r)) && bool_decide (is_Some (rn_LeaseExpiresAt r))
  else (rn_LeaseOwner r == "") && (rn_LeaseExpiresAt r == None).

Definition validate_clarification (r : Run) : bool :=
  (rn_Status r != RunWaitingUser) ||
  (negb (blank (rn_ClarificationMessageID r)) && negb (blank (rn_ClarificationInterruptID r)) &&
   bool_decide (is_Some (rn_ClarificationExpiresAt r))).

Definition Run_Validate (r : Run) : result unit :=
  fail_if (negb (validate_head r && negb (Time_IsZero (rn_UpdatedAt r)) && negb (Time_IsZero (rn_AvailableAt r)) &&
    validate_counts r && validate_task r &&
    (Run_IsTerminal r == bool_decide (is_Some (rn_CompletedAt r))) &&
    validate_lease r && validate_clarification r)) ErrInvalidRun.

Record NewRunInput := mkNewRunInput {
  ni_Provider : string;
  ni_TenantID : string;
  ni_ConversationID : string;
  ni_TriggerMessageID : string;
  ni_ProviderEventID : string;
  ni_ThreadRootMessageID : string;
  ni_ReplyParentMessageID : string;
  ni_ConversationRevisionID : option UUID;
  ni_TriggerOccurredAt : Time;
  ni_InitiatingUserID : UUID;
  ni_InitiatingSubjectID : string;
  ni_CommandKind : CommandKind;
  ni_Model : string;
  ni_PromptVersion : string;
}.

(** [newID] is what [uuid.New()] draws. *)
Definition NewRun (newID : UUID) (input : NewRunInput) (now : Time) : result Run :=
  let run := {|
    rn_Head := {|
      rn_ID := newID; rn_Provider := TrimSpace (ni_Provider input); rn_TenantID := TrimSpace (ni_TenantID input);
      rn_ConversationID := TrimSpace (ni_ConversationID input);
      rn_TriggerMessageID := TrimSpace (ni_TriggerMessageID input);
      rn_ProviderEventID := TrimSpace (ni_ProviderEventID input);
      rn_ConversationRevisionID := ni_ConversationRevisionID input;
      rn_TriggerOccurredAt := ni_TriggerOccurredAt input; rn_InitiatingUserID := ni_InitiatingUserID input;
      rn_InitiatingSubjectID := TrimSpace (ni_InitiatingSubjectID input); rn_CommandKind := ni_CommandKind input;
      rn_Model := TrimSpace (ni_Model input); rn_PromptVersion := TrimSpace (ni_PromptVersion input);
      rn_CreatedAt := now |};
    rn_ThreadRootMessageID := TrimSpace (ni_ThreadRootMessageID input);
    rn_ReplyParentMessageID := TrimSpace (ni_ReplyParentMessageID input);
    rn_Status := RunQueued; rn_AttemptCount := 0; rn_ClarificationRounds := 0; rn_ClarificationMessageID := "";
    rn_ClarificationInterruptID := ""; rn_ClarificationExpiresAt := None; rn_ContextMessagesUsed := 0;
    rn_LeaseOwner := ""; rn_LeaseExpiresAt := None; rn_AvailableAt := now; rn_CreatedTaskID := None;
    rn_CreatedTaskNumber := None; rn_TerminalErrorCategory := ""; rn_TerminalErrorDetail := "";
    rn_UpdatedAt := now; rn_CompletedAt := None |} in
  _ ← Run_Validate run;
  Ok run.

Definition lease_or_default (leaseDuration : Z) : Z :=
  if leaseDuration <=? 0 then DefaultLeaseDuration else leaseDuration.

Definition clearLease : Run -> Run := with_lease "" None.

Definition Run_Claim (workerID : string) (now : Time) (leaseDuration : Z) (r : Run) : result Run :=
  _ ← fail_if (Run_IsTerminal r) ErrRunTerminal;
  _ ← fail_if ((rn_Status r != RunQueued) || blank workerID || Time_Before now (rn_AvailableAt r))
        ErrInvalidRunTransition;
  Ok (with_updated now (with_counts (int64 (rn_AttemptCount r + 1)) (rn_ClarificationRounds r)
        (rn_ContextMessagesUsed r) (with_lease (TrimSpace workerID) (Some (now + lease_or_default leaseDuration))
        (with_state RunRunning (rn_AvailableAt r) r)))).

Definition Run_RenewLease (workerID : string) (now : Time) (leaseDuration : Z) (r : Run) : result Run :=
  _ ← fail_if ((rn_Status r != RunRunning) || (rn_LeaseOwner r != workerID) ||
        match rn_LeaseExpiresAt r with None => true | Some e => Time_After now e end) ErrAgentRunLeaseLost;
  Ok (with_updated now (with_lease (rn_LeaseOwner r) (Some (now + lease_or_default leaseDuration)) r)).

Definition Run_WaitForUser (messageID interruptID : string) (now : Time) (r : Run) : result Run :=
  _ ← fail_if (rn_Status r != RunRunning) ErrInvalidRunTransition;
  _ ← fail_if (MaxClarificationRounds <=? rn_ClarificationRounds r) ErrClarificationLimit;
  _ ← fail_if (blank messageID || blank interruptID) ErrInvalidRunTransition;
  Ok (with_updated now (clearLease
       (with_clarification (TrimSpace messageID) (TrimSpace interruptID) (Some (now + ClarificationLifetime))
       (with_counts (rn_AttemptCount r) (int64 (rn_ClarificationRounds r + 1)) (rn_ContextMessagesUsed r)
       (with_state RunWaitingUser (rn_AvailableAt r) r))))).

Definition Run_Resume (userID : UUID) (now : Time) (r : Run) : result Run :=
  _ ← fail_if (rn_Status r != RunWaitingUser) ErrRunNotWaiting;
  _ ← fail_if (userID != rn_InitiatingUserID (rn_Head r)) ErrClarificationUserMismatch;
  _ ← fail_if (match rn_ClarificationExpiresAt r with None => true | Some e => negb (Time_Before now e) end)
        ErrClarificationExpired;
  Ok (with_updated now (with_clarification "" (rn_ClarificationInterruptID r) None (with_state RunQueued now r))).

Definition Run_AddContextMessages (count : Z) (now : Time) (r : Run) : result Run :=
  _ ← fail_if ((count <? 0) || (MaxContextMessages <? int64 (rn_ContextMessagesUsed r + count))) ErrContextLimit;
  Ok (with_updated now (with_counts (rn_AttemptCount r) (rn_ClarificationRounds r)
        (int64 (rn_ContextMessagesUsed r + count)) r)).

Definition Run_AttachTask (taskID : UUID) (taskNumber : Z) (now : Time) (r : Run) : result Run :=
  match rn_CreatedTaskID r with
  | Some id =>
      if (id == taskID) && (rn_CreatedTaskNumber r == Some taskNumber) then Ok r else Err ErrTaskAlreadyCreated
  | None =>
      _ ← fail_if ((rn_Status r != RunRunning) || (taskID == uuid_Nil) || (taskNumber <=? 0)) ErrInvalidRunTransition;
      Ok (with_updated now (with_task (Some taskID) (Some taskNumber) r))
  end.

Definition Run_terminal (status : RunStatus) (category detail : string) (now : Time) (r : Run) : result Run :=
  _ ← fail_if ((status != RunSucceeded) && (status != RunFailed) && (status != RunCancelled))
        ErrInvalidRunTransition;
  Ok (with_updated now (clearLease (with_clarification "" "" None
        (with_end (TrimSpace category) (TrimSpace detail) (Some now) (with_state status (rn_AvailableAt r) r))))).

Definition Run_Succeed (now : Time) (r : Run) : result Run :=
  _ ← fail_if ((rn_Status r != RunRunning) || (rn_CreatedTaskID r == None)) ErrInvalidRunTransition;
  Run_terminal RunSucceeded "" "" now r.

Definition Run_Fail (category detail : string) (now : Time) (r : Run) : result Run :=
  _ ← fail_if ((rn_Status r != RunRunning) && (rn_Status r != RunQueued)) ErrInvalidRunTransition;
  Run_terminal RunFailed category detail now r.

Definition Run_Cancel (category detail : string) (now : Time) (r : Run) : result Run :=
  _ ← fail_if (Run_IsTerminal r) ErrRunTerminal;
  Run_terminal RunCancelled category detail now r.

Definition Run_Retry (availableAt now : Time) (r : Run) : result Run :=
  _ ← fail_if (rn_Status r != RunRunning) ErrInvalidRunTransition;
  Ok (with_updated now (clearLease (with_state RunQueued availableAt r))).
