(* ===== verification/AgentStore.v ===== *)
(** * The store of Agent runs

    The tables of migration 0016 (with 0022 and 0023) and the methods of
    internal/store/agent_store.go: the queue of runs under leases, their inputs and checkpoints, the
    ledger of tool calls and the outbox of messages.  A statement that violates a constraint fails
    with an error that no caller inspects ([ErrOther]). *)

From stdpp Require Import base tactics strings gmap list numbers sorting.
From S2P Require Import Prelude Actors Lifecycle StageClaim Delivery Thread Acceptance.
From S2P Require Import Database Tx State ThreadStore AgentRun.

(** What the store relies on of code outside the repository: the text of an identifier
    ([uuid.UUID.String]) and the normal form in which PostgreSQL keeps a JSON text in a [jsonb] column
    ([None] when it rejects the text). *)
Class AgentTexts := {
  uuid_text : UUID -> string;
  jsonb : string -> option string;
}.

Definition MaxInt32 : Z := 2 ^ 31 - 1.

(** ** Rows *)

Abbreviation RunRow := (RunOf (option string)).

Record RunInput := mkRunInput {
  ri_RunID : UUID;
  ri_EncryptionKeyID : string;
  ri_CommandCiphertext : string;
  ri_PendingResumeCiphertext : string;
}.

Record InputRow := mkInputRow {
  ir_run_id : UUID;
  ir_encryption_key_id : string;
  ir_command_ciphertext : string;
  ir_pending_resume_ciphertext : option string;
  ir_updated_at : Time;
}.

Record Checkpoint := mkCheckpoint {
  cp_RunID : UUID;
  cp_FormatVersion : Z;
  cp_EinoVersion : string;
  cp_Model : string;
  cp_EncryptionKeyID : string;
  cp_Ciphertext : string;
  cp_UpdatedAt : Time;
}.

Record ToolCall := mkToolCall {
  tc_RunID : UUID;
  tc_ToolCallID : string;
  tc_ToolName : string;
  tc_ArgumentHash : string;
  tc_ArgumentSummary : string;
  tc_State : string;
  tc_Result : option string;
  tc_ErrorCategory : option string;
  tc_StartedAt : Time;
  tc_CompletedAt : option Time;
}.
Definition ToolCallRunning : string := "running".
Definition ToolCallCompleted : string := "completed".
Definition ToolCallFailed : string := "failed".

Inductive ToolCallClaim :=
| ToolCallClaimAcquired
| ToolCallClaimReplay (result : option string)
| ToolCallClaimConflict
| ToolCallClaimRunning.

(** The struct [OutboxMessage] and, with nullable texts, its row. *)
Record OutboxOf (text : Type) := mkOutbox {
  om_ID : UUID;
  om_RunID : UUID;
  om_DeduplicationKey : string;
  om_Kind : string;
  om_TargetMessageID : string;
  om_Body : string;
  om_State : string;
  om_AttemptCount : Z;
  om_AvailableAt : Time;
  om_LeaseOwner : text;
  om_LeaseExpiresAt : option Time;
  om_ProviderMessageID : text;
  om_ProviderErrorCode : text;
  om_CreatedAt : Time;
  om_UpdatedAt : Time;
  om_DeliveredAt : option Time;
}.
Arguments mkOutbox {text}.
Arguments om_ID {text} _.
Arguments om_RunID {text} _.
Arguments om_DeduplicationKey {text} _.
Arguments om_Kind {text} _.
Arguments om_TargetMessageID {text} _.
Arguments om_Body {text} _.
Arguments om_State {text} _.
Arguments om_AttemptCount {text} _.
Arguments om_AvailableAt {text} _.
Arguments om_LeaseOwner {text} _.
Arguments om_LeaseExpiresAt {text} _.
Arguments om_ProviderMessageID {text} _.
Arguments om_ProviderErrorCode {text} _.
Arguments om_CreatedAt {text} _.
Arguments om_UpdatedAt {text} _.
Arguments om_DeliveredAt {text} _.
Abbreviation OutboxMessage := (OutboxOf string).
Abbreviation OutboxRow := (OutboxOf (option string)).
Definition OutboxClarification : string := "clarification".
Definition OutboxExpired : string := "expired".
Definition OutboxPending : string := "pending".
Definition OutboxDelivering : string := "delivering".
Definition OutboxDelivered : string := "delivered".
Definition OutboxFailed : string := "failed".

Record AgentDB := mkAgentDB {
  agent_run_rows : gmap UUID RunRow;
  agent_run_inputs : gmap UUID InputRow;
  agent_run_checkpoints : gmap UUID Checkpoint;
  agent_tool_calls : gmap (UUID * string) ToolCall;
  agent_message_outbox : gmap UUID OutboxRow;
  agent_users : gset UUID;
  agent_tasks : gset UUID;
  agent_conversation_revisions : gset UUID;
}.

Definition set_runs (x : gmap UUID RunRow) (d : AgentDB) : AgentDB :=
  mkAgentDB x (agent_run_inputs d) (agent_run_checkpoints d) (agent_tool_calls d) (agent_message_outbox d)
    (agent_users d) (agent_tasks d) (agent_conversation_revisions d).
Definition set_inputs (x : gmap UUID InputRow) (d : AgentDB) : AgentDB :=
  mkAgentDB (agent_run_rows d) x (agent_run_checkpoints d) (agent_tool_calls d) (agent_message_outbox d)
    (agent_users d) (agent_tasks d) (agent_conversation_revisions d).
Definition set_checkpoints (x : gmap UUID Checkpoint) (d : AgentDB) : AgentDB :=
  mkAgentDB (agent_run_rows d) (agent_run_inputs d) x (agent_tool_calls d) (agent_message_outbox d)
    (agent_users d) (agent_tasks d) (agent_conversation_revisions d).
Definition set_tool_calls (x : gmap (UUID * string) ToolCall) (d : AgentDB) : AgentDB :=
  mkAgentDB (agent_run_rows d) (agent_run_inputs d) (agent_run_checkpoints d) x (agent_message_outbox d)
    (agent_users d) (agent_tasks d) (agent_conversation_revisions d).
Definition set_outbox (x : gmap UUID OutboxRow) (d : AgentDB) : AgentDB :=
  mkAgentDB (agent_run_rows d) (agent_run_inputs d) (agent_run_checkpoints d) (agent_tool_calls d) x
    (agent_users d) (agent_tasks d) (agent_conversation_revisions d).

Definition AgentM (X : Type) : Type := St AgentDB X.

(** ** Constraints *)

(** [IS NULL] *)
Definition absent {X} (o : option X) : bool := negb (present o).

Definition run_head_checks (h : RunHead) : bool :=
  (rn_Provider h == "lark") && negb (GoStrings.btrim_empty (rn_TenantID h)) &&
  negb (GoStrings.btrim_empty (rn_ConversationID h)) && negb (GoStrings.btrim_empty (rn_TriggerMessageID h)) &&
  negb (GoStrings.btrim_empty (rn_ProviderEventID h)) && negb (GoStrings.btrim_empty (rn_InitiatingSubjectID h)) &&
  bool_decide (rn_CommandKind h ∈ ["direct"; "discussion"]) &&
  negb (GoStrings.btrim_empty (rn_Model h)) && negb (GoStrings.btrim_empty (rn_PromptVersion h)).

Definition run_count_checks (r : RunRow) : bool :=
  (0 <=? rn_AttemptCount r) && (rn_AttemptCount r <=? MaxInt32) &&
  (0 <=? rn_ClarificationRounds r) && (rn_ClarificationRounds r <=? 3) &&
  (0 <=? rn_ContextMessagesUsed r) && (rn_ContextMessagesUsed r <=? 100).

Definition run_lease_check (r : RunRow) : bool :=
  if rn_Status r == RunRunning then present (rn_LeaseOwner r) && present (rn_LeaseExpiresAt r)
  else absent (rn_LeaseOwner r) && absent (rn_LeaseExpiresAt r).

Definition run_clarification_check (r : RunRow) : bool :=
  (rn_Status r != RunWaitingUser) ||
  (present (rn_ClarificationMessageID r) && present (rn_ClarificationInterruptID r) && present (rn_ClarificationExpiresAt r)).

Definition agent_runs_checks (r : RunRow) : bool :=
  run_head_checks (rn_Head r) && validStatus (rn_Status r) && run_count_checks r && run_lease_check r &&
  run_clarification_check r && (present (rn_CreatedTaskID r) == present (rn_CreatedTaskNumber r)) &&
  (bool_decide (rn_Status r ∈ [RunSucceeded; RunFailed; RunCancelled]) == present (rn_CompletedAt r)).

(** The unique indexes: no other row has the task of [r]. *)
Definition task_free (d : AgentDB) (r : RunRow) : bool :=
  forallb (fun x => (rn_ID (rn_Head x) == rn_ID (rn_Head r)) ||
    ((absent (rn_CreatedTaskID r) || (rn_CreatedTaskID x != rn_CreatedTaskID r)) &&
     (absent (rn_CreatedTaskNumber r) || (rn_CreatedTaskNumber x != rn_CreatedTaskNumber r))))
    (rows (agent_run_rows d)).

Definition run_fks (d : AgentDB) (r : RunRow) : bool :=
  bool_decide (rn_InitiatingUserID (rn_Head r) ∈ agent_users d) &&
  match rn_CreatedTaskID r with None => true | Some t => bool_decide (t ∈ agent_tasks d) end &&
  match rn_ConversationRevisionID (rn_Head r) with
  | None => true
  | Some v => bool_decide (v ∈ agent_conversation_revisions d)
  end.

(** [UPDATE agent_runs ... WHERE id = ...]: [r] is the new row. *)
Definition update_run (r : RunRow) : AgentM unit :=
  ok ← st_get (fun d => agent_runs_checks r && run_fks d r && task_free d r);
  _ ← st_fail (negb ok) ErrOther;
  st_mod (fun d => set_runs (<[rn_ID (rn_Head r) := r]> (agent_run_rows d)) d).

(** The two unique identities of a run at its provider. *)
Definition same_identity (a b : RunHead) : bool :=
  (rn_Provider a == rn_Provider b) && (rn_TenantID a == rn_TenantID b) &&
  ((rn_ProviderEventID a == rn_ProviderEventID b) || (rn_TriggerMessageID a == rn_TriggerMessageID b)).

Definition run_conflicts (d : AgentDB) (r : RunRow) : bool :=
  existsb (fun x => (rn_ID (rn_Head x) == rn_ID (rn_Head r)) || same_identity (rn_Head x) (rn_Head r))
    (rows (agent_run_rows d)).

Definition agent_tool_calls_checks (c : ToolCall) : bool :=
  negb (GoStrings.btrim_empty (tc_ToolCallID c)) && negb (GoStrings.btrim_empty (tc_ToolName c)) &&
  (Z.of_nat (String.length (tc_ArgumentHash c)) =? 32) &&
  bool_decide (tc_State c ∈ [ToolCallRunning; ToolCallCompleted; ToolCallFailed]) &&
  ((tc_State c == ToolCallRunning) == absent (tc_CompletedAt c)) &&
  (((tc_State c == ToolCallCompleted) && present (tc_Result c) && absent (tc_ErrorCategory c)) ||
   ((tc_State c == ToolCallFailed) && present (tc_ErrorCategory c)) ||
   ((tc_State c == ToolCallRunning) && absent (tc_Result c) && absent (tc_ErrorCategory c))).

Definition agent_message_outbox_checks (m : OutboxRow) : bool :=
  negb (GoStrings.btrim_empty (om_DeduplicationKey m)) &&
  bool_decide (om_Kind m ∈ ["clarification"; "success"; "permission_failure"; "terminal_failure"; "retrying"; "expired"]) &&
  negb (GoStrings.btrim_empty (om_TargetMessageID m)) && negb (GoStrings.btrim_empty (om_Body m)) &&
  bool_decide (om_State m ∈ [OutboxPending; OutboxDelivering; OutboxDelivered; OutboxFailed]) &&
  (0 <=? om_AttemptCount m) && (om_AttemptCount m <=? MaxInt32) &&
  (if om_State m == OutboxDelivering then present (om_LeaseOwner m) && present (om_LeaseExpiresAt m)
   else absent (om_LeaseOwner m) && absent (om_LeaseExpiresAt m)) &&
  (if om_State m == OutboxDelivered then present (om_ProviderMessageID m) && present (om_DeliveredAt m)
   else absent (om_DeliveredAt m)).

Definition agent_run_inputs_checks (i : InputRow) : bool :=
  negb (GoStrings.btrim_empty (ir_encryption_key_id i)) && (ir_command_ciphertext i != "").

Definition agent_run_checkpoints_checks (c : Checkpoint) : bool :=
  (0 <? cp_FormatVersion c) && (cp_FormatVersion c <=? MaxInt32) && negb (GoStrings.btrim_empty (cp_EinoVersion c)) &&
  negb (GoStrings.btrim_empty (cp_Model c)) && negb (GoStrings.btrim_empty (cp_EncryptionKeyID c)) &&
  (cp_Ciphertext c != "").

Definition run_exists (d : AgentDB) (id : UUID) : bool := bool_decide (is_Some (agent_run_rows d !! id)).

(** ** Reading *)

Definition stringValue (value : option string) : string := of_null value.

Definition scanAgentRun (r : RunRow) : Run :=
  mkRun (rn_Head r) (stringValue (rn_ThreadRootMessageID r)) (stringValue (rn_ReplyParentMessageID r)) (rn_Status r)
    (rn_AttemptCount r) (rn_ClarificationRounds r) (stringValue (rn_ClarificationMessageID r))
    (stringValue (rn_ClarificationInterruptID r)) (rn_ClarificationExpiresAt r) (rn_ContextMessagesUsed r)
    (stringValue (rn_LeaseOwner r)) (rn_LeaseExpiresAt r) (rn_AvailableAt r) (rn_CreatedTaskID r)
    (rn_CreatedTaskNumber r) (stringValue (rn_TerminalErrorCategory r)) (stringValue (rn_TerminalErrorDetail r))
    (rn_UpdatedAt r) (rn_CompletedAt r).

Definition scanOutbox (m : OutboxRow) : OutboxMessage :=
  mkOutbox (om_ID m) (om_RunID m) (om_DeduplicationKey m) (om_Kind m) (om_TargetMessageID m) (om_Body m) (om_State m)
    (om_AttemptCount m) (om_AvailableAt m) (stringValue (om_LeaseOwner m)) (om_LeaseExpiresAt m)
    (stringValue (om_ProviderMessageID m)) (stringValue (om_ProviderErrorCode m)) (om_CreatedAt m) (om_UpdatedAt m)
    (om_DeliveredAt m).

Definition read_run (o : option RunRow) : AgentM Run :=
  r ← st_or_err o ErrAgentRunNotFound; mret (scanAgentRun r).

(** [ORDER BY created_at]: rows of one instant come in no promised order. *)
Definition created_le (a b : RunRow) : Prop := rn_CreatedAt (rn_Head a) <= rn_CreatedAt (rn_Head b).
#[global] Instance created_le_dec a b : Decision (created_le a b).
Proof. unfold created_le. apply Z_le_dec. Defined.
Definition by_created : list RunRow -> list RunRow := merge_sort created_le.
Definition by_created_desc : list RunRow -> list RunRow := merge_sort (fun a b => created_le b a).

Definition findRunByProviderIdentity (h : RunHead) : AgentM Run :=
  o ← st_get (fun d => head (by_created (select (fun x => same_identity (rn_Head x) h) (agent_run_rows d))));
  read_run o.

Definition GetRun (id : UUID) : AgentM Run :=
  o ← st_get (fun d => agent_run_rows d !! id); read_run o.

Definition GetRunForDelegate (id userID : UUID) : AgentM Run :=
  o ← st_get (fun d => r ← agent_run_rows d !! id; guard (rn_InitiatingUserID (rn_Head r) = userID);; Some r);
  read_run o.

Definition FindWaitingRunByClarification (provider tenantID conversationID messageID : string) : AgentM Run :=
  o ← st_get (fun d => head (by_created_desc (select (fun x =>
    (rn_Provider (rn_Head x) == provider) && (rn_TenantID (rn_Head x) == tenantID) &&
    (rn_ConversationID (rn_Head x) == conversationID) && (rn_ClarificationMessageID x == Some messageID) &&
    (rn_Status x == RunWaitingUser)) (agent_run_rows d))));
  read_run o.

(** [ORDER BY clarification_expires_at, id LIMIT n] *)
Definition ListExpiredClarifications (now : Time) (limit : Z) : AgentM (list Run) :=
  let limit := if (limit <=? 0) || (1000 <? limit) then 100 else limit in
  st_get (fun d => scanAgentRun <$> take (Z.to_nat limit)
    (order_by (fun r => (default 0 (rn_ClarificationExpiresAt r), rn_ID (rn_Head r)))
      (select (fun r => (rn_Status r == RunWaitingUser) &&
         match rn_ClarificationExpiresAt r with Some e => e <=? now | None => false end) (agent_run_rows d)))).

(** ** Creation *)

(** [INSERT INTO agent_runs ... ON CONFLICT DO NOTHING]: whether a row was inserted.  The columns that
    the statement does not name are null. *)
Definition new_run_row (run : Run) : RunRow :=
  mkRun (rn_Head run) (nullIfEmpty (rn_ThreadRootMessageID run)) (nullIfEmpty (rn_ReplyParentMessageID run))
    (rn_Status run) (rn_AttemptCount run) (rn_ClarificationRounds run) None None None (rn_ContextMessagesUsed run)
    None None (rn_AvailableAt run) None None None None (rn_UpdatedAt run) None.

Definition insert_run (run : Run) : AgentM bool :=
  let r := new_run_row run in
  _ ← st_fail (negb (agent_runs_checks r)) ErrOther;
  conflict ← st_get (fun d => run_conflicts d r);
  if conflict : bool then mret false else
  fks ← st_get (fun d => run_fks d r);
  _ ← st_fail (negb fks) ErrOther;
  _ ← st_mod (fun d => set_runs (<[rn_ID (rn_Head r) := r]> (agent_run_rows d)) d);
  mret true.

Definition CreateRun (run : Run) : AgentM (Run * bool) :=
  _ ← st_lift (Run_Validate run);
  inserted ← insert_run run;
  if inserted : bool then mret (run, true) else
  stored ← findRunByProviderIdentity (rn_Head run);
  mret (stored, false).

Definition insert_input (i : InputRow) : AgentM unit :=
  ok ← st_get (fun d => agent_run_inputs_checks i && run_exists d (ir_run_id i));
  _ ← st_fail (negb ok) ErrOther;
  st_mod (fun d => set_inputs (<[ir_run_id i := i]> (agent_run_inputs d)) d).

Definition input_row (input : RunInput) (now : Time) : InputRow :=
  mkInputRow (ri_RunID input) (ri_EncryptionKeyID input) (ri_CommandCiphertext input) None now.

(** The statements up to the commit, and the read after it. *)
Definition create_with_input (run : Run) (input : RunInput) (now : Time) : AgentM bool :=
  atomically (
    inserted ← insert_run run;
    if inserted : bool then
      taken ← st_get (fun d => present (agent_run_inputs d !! ri_RunID input));
      _ ← st_fail taken ErrOther;
      _ ← insert_input (input_row input now);
      mret true
    else mret false).

Definition CreateRunWithInput (run : Run) (input : RunInput) (now : Time) : AgentM (Run * bool) :=
  _ ← st_lift (Run_Validate run);
  _ ← st_fail ((ri_RunID input != rn_ID (rn_Head run)) || (ri_EncryptionKeyID input == "") ||
        (ri_CommandCiphertext input == "")) ErrInvalidRun;
  created ← create_with_input run input now;
  if created : bool then mret (run, true) else
  stored ← findRunByProviderIdentity (rn_Head run);
  mret (stored, false).

(** ** Inputs *)

Definition SaveRunInput (input : RunInput) (now : Time) : AgentM unit :=
  _ ← st_fail ((ri_RunID input == uuid_Nil) || (ri_EncryptionKeyID input == "") || (ri_CommandCiphertext input == ""))
        ErrInvalidRun;
  let i := input_row input now in
  _ ← st_fail (negb (agent_run_inputs_checks i)) ErrOther;
  taken ← st_get (fun d => present (agent_run_inputs d !! ri_RunID input));
  if taken : bool then mret () else insert_input i.

Definition GetRunInput (runID : UUID) : AgentM RunInput :=
  o ← st_get (fun d => agent_run_inputs d !! runID);
  i ← st_or_err o ErrAgentRunNotFound;
  mret (mkRunInput (ir_run_id i) (ir_encryption_key_id i) (ir_command_ciphertext i)
          (stringValue (ir_pending_resume_ciphertext i))).

Definition set_pending (ciphertext : option string) (now : Time) (i : InputRow) : InputRow :=
  mkInputRow (ir_run_id i) (ir_encryption_key_id i) (ir_command_ciphertext i) ciphertext now.

Definition SavePendingResumeInput (runID : UUID) (ciphertext : string) (now : Time) : AgentM unit :=
  o ← st_get (fun d => agent_run_inputs d !! runID);
  i ← st_or_err o ErrAgentRunNotFound;
  st_mod (fun d => set_inputs (<[runID := set_pending (Some ciphertext) now i]> (agent_run_inputs d)) d).

Definition ClearPendingResumeInput (runID : UUID) (now : Time) : AgentM unit :=
  st_mod (fun d => set_inputs (alter (set_pending None now) runID (agent_run_inputs d)) d).

(** ** The queue *)

(** [ORDER BY available_at, created_at, id] *)
Definition queue_le (a b : Time * Time * UUID) : Prop :=
  a.1.1 < b.1.1 \/ (a.1.1 = b.1.1 /\ (a.1.2 < b.1.2 \/ (a.1.2 = b.1.2 /\ (a.2 <= b.2)%N))).
#[global] Instance queue_le_dec a b : Decision (queue_le a b).
Proof. unfold queue_le. apply _. Defined.
Definition queue_order {X} (key : X -> Time * Time * UUID) : list X -> list X :=
  merge_sort (fun x y => queue_le (key x) (key y)).

(** Rows that other transactions hold are passed over ([SKIP LOCKED]). *)
Definition claimable_run (locked : gset UUID) (now : Time) (r : RunRow) : bool :=
  (((rn_Status r == RunQueued) && (rn_AvailableAt r <=? now)) ||
   ((rn_Status r == RunRunning) && match rn_LeaseExpiresAt r with Some e => e <=? now | None => false end)) &&
  bool_decide (rn_ID (rn_Head r) ∉ locked).

Definition run_key (r : RunRow) : Time * Time * UUID := (rn_AvailableAt r, rn_CreatedAt (rn_Head r), rn_ID (rn_Head r)).

Definition next_run (locked : gset UUID) (now : Time) (d : AgentDB) : option RunRow :=
  head (queue_order run_key (select (claimable_run locked now) (agent_run_rows d))).

(** [integer] arithmetic fails out of range. *)
Definition int4 (z : Z) : AgentM Z :=
  _ ← st_fail ((z <? - MaxInt32 - 1) || (MaxInt32 <? z)) ErrOther; mret z.

Definition ClaimRun (locked : gset UUID) (workerID : string) (now : Time) (leaseDuration : Z) : AgentM (option Run) :=
  _ ← st_fail (workerID == "") ErrInvalidRun;
  o ← st_get (next_run locked now);
  match o with
  | None => mret None
  | Some r =>
      attempts ← int4 (rn_AttemptCount r + 1);
      let r' := with_updated now (with_counts attempts (rn_ClarificationRounds r) (rn_ContextMessagesUsed r)
        (with_lease (Some workerID) (Some (now + lease_or_default leaseDuration))
        (with_state RunRunning (rn_AvailableAt r) r))) in
      _ ← update_run r';
      mret (Some (scanAgentRun r'))
  end.

(** [WHERE id=$1 AND status='running' AND lease_owner=$2] *)
Definition held_run (runID : UUID) (workerID : string) (d : AgentDB) : option RunRow :=
  r ← agent_run_rows d !! runID;
  if (rn_Status r == RunRunning) && (rn_LeaseOwner r == Some workerID) then Some r else None.

Definition RenewRunLease (runID : UUID) (workerID : string) (now : Time) (leaseDuration : Z) : AgentM unit :=
  o ← st_get (fun d => r ← held_run runID workerID d;
    match rn_LeaseExpiresAt r with Some e => if now <? e then Some r else None | None => None end);
  r ← st_or_err o ErrAgentRunLeaseLost;
  update_run (with_updated now (with_lease (rn_LeaseOwner r) (Some (now + lease_or_default leaseDuration)) r)).

Definition AddContextMessages (runID : UUID) (workerID : string) (count : Z) (now : Time) : AgentM Z :=
  _ ← st_fail (count <? 0) ErrContextLimit;
  count ← int4 count;
  o ← st_get (held_run runID workerID);
  r ← st_or_err o ErrContextLimit;
  used ← int4 (rn_ContextMessagesUsed r + count);
  _ ← st_fail (MaxContextMessages <? used) ErrContextLimit;
  _ ← update_run (with_updated now (with_counts (rn_AttemptCount r) (rn_ClarificationRounds r) used r));
  mret used.

Definition AttachTask (runID : UUID) (workerID : string) (taskID : UUID) (taskNumber : Z) (now : Time)
  : AgentM (UUID * Z * bool) :=
  o ← st_get (fun d => r ← held_run runID workerID d; if rn_CreatedTaskID r == None then Some r else None);
  match o with
  | Some r =>
      _ ← update_run (with_updated now (with_task (Some taskID) (Some taskNumber) r));
      mret (taskID, taskNumber, true)
  | None =>
      o ← st_get (fun d => r ← agent_run_rows d !! runID; t ← rn_CreatedTaskID r; n ← rn_CreatedTaskNumber r; Some (t, n));
      t ← st_or_err o ErrAgentRunLeaseLost;
      mret (t, false)
  end.

Definition RetryRun (runID : UUID) (workerID : string) (availableAt now : Time) : AgentM unit :=
  o ← st_get (held_run runID workerID);
  r ← st_or_err o ErrAgentRunLeaseLost;
  update_run (with_updated now (with_lease None None (with_state RunQueued availableAt r))).

(** ** Checkpoints *)

Definition SaveCheckpoint (c : Checkpoint) : AgentM unit :=
  _ ← st_fail ((cp_RunID c == uuid_Nil) || (cp_FormatVersion c <=? 0) || (cp_EinoVersion c == "") || (cp_Model c == "") ||
        (cp_EncryptionKeyID c == "") || (cp_Ciphertext c == "") || Time_IsZero (cp_UpdatedAt c)) ErrInvalidRun;
  ok ← st_get (fun d => agent_run_checkpoints_checks c && run_exists d (cp_RunID c));
  _ ← st_fail (negb ok) ErrOther;
  st_mod (fun d => set_checkpoints (<[cp_RunID c := c]> (agent_run_checkpoints d)) d).

Definition GetCheckpoint (runID : UUID) : AgentM Checkpoint :=
  o ← st_get (fun d => agent_run_checkpoints d !! runID);
  st_or_err o ErrAgentCheckpointNotFound.

Definition DeleteCheckpoint (runID : UUID) : AgentM unit :=
  st_mod (fun d => set_checkpoints (delete runID (agent_run_checkpoints d)) d).

Definition delete_input (runID : UUID) : AgentM unit :=
  st_mod (fun d => set_inputs (delete runID (agent_run_inputs d)) d).

(** ** The ledger of tool calls *)

Section tool_calls.
Context `{AgentTexts}.

Definition put_tool_call (c : ToolCall) : AgentM unit :=
  _ ← st_fail (negb (agent_tool_calls_checks c)) ErrOther;
  st_mod (fun d => set_tool_calls (<[(tc_RunID c, tc_ToolCallID c) := c]> (agent_tool_calls d)) d).

Definition new_tool_call (call : ToolCall) (summary : string) : ToolCall :=
  mkToolCall (tc_RunID call) (tc_ToolCallID call) (tc_ToolName call) (tc_ArgumentHash call) summary ToolCallRunning
    None None (tc_StartedAt call) None.

(** What a claim of a call that has a row already means. *)
Definition claim_kind (stored call : ToolCall) : ToolCallClaim :=
  if (tc_ToolName stored != tc_ToolName call) || (tc_ArgumentHash stored != tc_ArgumentHash call)
  then ToolCallClaimConflict
  else if tc_State stored == ToolCallCompleted then ToolCallClaimReplay (tc_Result stored)
  else if tc_State stored == ToolCallRunning then ToolCallClaimRunning
  else ToolCallClaimConflict.

Definition ClaimToolCall (call : ToolCall) : AgentM ToolCallClaim :=
  summary ← st_or_err (jsonb (tc_ArgumentSummary call)) ErrOther;
  let c := new_tool_call call summary in
  _ ← st_fail (negb (agent_tool_calls_checks c)) ErrOther;
  o ← st_get (fun d => agent_tool_calls d !! (tc_RunID call, tc_ToolCallID call));
  match o with
  | None =>
      ok ← st_get (fun d => run_exists d (tc_RunID call));
      _ ← st_fail (negb ok) ErrOther;
      _ ← put_tool_call c;
      mret ToolCallClaimAcquired
  | Some stored => mret (claim_kind stored call)
  end.

Definition ended_call (c : ToolCall) (state : string) (result category : option string) (now : Time) : ToolCall :=
  mkToolCall (tc_RunID c) (tc_ToolCallID c) (tc_ToolName c) (tc_ArgumentHash c) (tc_ArgumentSummary c) state
    result category (tc_StartedAt c) (Some now).

(** [WHERE run_id=$1 AND tool_call_id=$2 AND state='running'] *)
Definition running_call (runID : UUID) (toolCallID : string) (d : AgentDB) : option ToolCall :=
  c ← agent_tool_calls d !! (runID, toolCallID);
  if tc_State c == ToolCallRunning then Some c else None.

Definition CompleteToolCall (runID : UUID) (toolCallID result : string) (now : Time) : AgentM unit :=
  result ← st_or_err (jsonb result) ErrOther;
  o ← st_get (running_call runID toolCallID);
  c ← st_or_err o ErrToolCallProtocol;
  put_tool_call (ended_call c ToolCallCompleted (Some result) (tc_ErrorCategory c) now).

Definition FailToolCall (runID : UUID) (toolCallID category : string) (now : Time) : AgentM unit :=
  o ← st_get (running_call runID toolCallID);
  c ← st_or_err o ErrToolCallProtocol;
  put_tool_call (ended_call c ToolCallFailed (tc_Result c) (Some category) now).

Definition GetCompletedToolCall (runID : UUID) (toolCallID : string) : AgentM ToolCall :=
  o ← st_get (fun d => c ← agent_tool_calls d !! (runID, toolCallID);
    if tc_State c == ToolCallCompleted then Some c else None);
  c ← st_or_err o ErrToolEvidenceNotFound;
  mret (mkToolCall runID toolCallID (tc_ToolName c) "" "" ToolCallCompleted (tc_Result c) None (tc_StartedAt c)
          (tc_CompletedAt c)).

(** ** The outbox *)

(** [INSERT ... ON CONFLICT (deduplication_key) DO NOTHING] *)
Definition new_outbox_row (m : OutboxMessage) : OutboxRow :=
  mkOutbox (om_ID m) (om_RunID m) (om_DeduplicationKey m) (om_Kind m) (om_TargetMessageID m) (om_Body m) (om_State m)
    (om_AttemptCount m) (om_AvailableAt m) None None None None (om_CreatedAt m) (om_UpdatedAt m) None.

Definition key_taken (d : AgentDB) (key : string) : bool :=
  existsb (fun x => om_DeduplicationKey x == key) (rows (agent_message_outbox d)).

Definition insertOutbox (message : OutboxMessage) : AgentM unit :=
  let m := new_outbox_row message in
  _ ← st_fail (negb (agent_message_outbox_checks m)) ErrOther;
  taken ← st_get (fun d => key_taken d (om_DeduplicationKey m));
  if taken : bool then mret () else
  bad ← st_get (fun d => present (agent_message_outbox d !! om_ID m) || negb (run_exists d (om_RunID m)));
  _ ← st_fail bad ErrOther;
  st_mod (fun d => set_outbox (<[om_ID m := m]> (agent_message_outbox d)) d).

Definition EnqueueOutbox (message : OutboxMessage) : AgentM unit := insertOutbox message.

Definition update_outbox (m : OutboxRow) : AgentM unit :=
  _ ← st_fail (negb (agent_message_outbox_checks m)) ErrOther;
  st_mod (fun d => set_outbox (<[om_ID m := m]> (agent_message_outbox d)) d).

(** A message in a new state with its lease, its attempts and what the provider said. *)
Definition outbox_state (m : OutboxRow) (state : string) (attempts : Z) (available : Time) (owner : option string)
    (expires : option Time) (provider_id error_code : option string) (now : Time) (delivered : option Time) : OutboxRow :=
  mkOutbox (om_ID m) (om_RunID m) (om_DeduplicationKey m) (om_Kind m) (om_TargetMessageID m) (om_Body m) state
    attempts available owner expires provider_id error_code (om_CreatedAt m) now delivered.

Definition claimable_message (locked : gset UUID) (now : Time) (m : OutboxRow) : bool :=
  ((bool_decide (om_State m ∈ [OutboxPending; OutboxFailed]) && (om_AvailableAt m <=? now)) ||
   ((om_State m == OutboxDelivering) && match om_LeaseExpiresAt m with Some e => e <=? now | None => false end)) &&
  bool_decide (om_ID m ∉ locked).

Definition message_key (m : OutboxRow) : Time * Time * UUID := (om_AvailableAt m, om_CreatedAt m, om_ID m).

Definition next_message (locked : gset UUID) (now : Time) (d : AgentDB) : option OutboxRow :=
  head (queue_order message_key (select (claimable_message locked now) (agent_message_outbox d))).

Definition Minute : Z := 60 * 1000000.

Definition ClaimOutbox (locked : gset UUID) (workerID : string) (now : Time) (leaseDuration : Z)
  : AgentM (option OutboxMessage) :=
  let leaseDuration := if leaseDuration <=? 0 then Minute else leaseDuration in
  o ← st_get (next_message locked now);
  match o with
  | None => mret None
  | Some m =>
      attempts ← int4 (om_AttemptCount m + 1);
      let m' := outbox_state m OutboxDelivering attempts (om_AvailableAt m) (Some workerID)
        (Some (now + leaseDuration)) (om_ProviderMessageID m) (om_ProviderErrorCode m) now (om_DeliveredAt m) in
      _ ← update_outbox m';
      mret (Some (scanOutbox m'))
  end.

(** [WHERE id=$1 AND state='delivering' AND lease_owner=$2] *)
Definition held_message (id : UUID) (workerID : string) (d : AgentDB) : option OutboxRow :=
  m ← agent_message_outbox d !! id;
  if (om_State m == OutboxDelivering) && (om_LeaseOwner m == Some workerID) then Some m else None.

Definition pending_message (id : UUID) : string := "pending:" +:+ uuid_text id.

(** The run that waits for the reply to this message now waits for the reply to the delivered one. *)
Definition bind_reply (m : OutboxRow) (providerMessageID : string) (now : Time) : AgentM unit :=
  o ← st_get (fun d => r ← agent_run_rows d !! om_RunID m;
    if (rn_Status r == RunWaitingUser) && (rn_ClarificationMessageID r == Some (pending_message (om_ID m)))
    then Some r else None);
  match o with
  | None => mret ()
  | Some r => update_run (with_updated now (with_clarification (Some providerMessageID)
                (rn_ClarificationInterruptID r) (rn_ClarificationExpiresAt r) r))
  end.

Definition MarkOutboxDelivered (id : UUID) (workerID providerMessageID : string) (now : Time) : AgentM unit :=
  atomically (
    o ← st_get (held_message id workerID);
    m ← st_or_err o ErrAgentOutboxDeliveryClaimed;
    _ ← update_outbox (outbox_state m OutboxDelivered (om_AttemptCount m) (om_AvailableAt m) None None
          (Some providerMessageID) (om_ProviderErrorCode m) now (Some now));
    if om_Kind m == OutboxClarification then bind_reply m providerMessageID now else mret ()).

Definition MarkOutboxFailed (id : UUID) (workerID providerErrorCode : string) (availableAt now : Time) : AgentM unit :=
  o ← st_get (held_message id workerID);
  m ← st_or_err o ErrAgentOutboxDeliveryClaimed;
  update_outbox (outbox_state m OutboxFailed (om_AttemptCount m) availableAt None None (om_ProviderMessageID m)
    (nullIfEmpty providerErrorCode) now (om_DeliveredAt m)).

(** ** Clarifications and ends *)

Definition MarkRunWaiting (runID : UUID) (workerID interruptID : string) (outbox : OutboxMessage) (now : Time)
  : AgentM unit :=
  atomically (
    o ← st_get (fun d => agent_run_rows d !! runID);
    row ← st_or_err o ErrAgentRunNotFound;
    let run := scanAgentRun row in
    _ ← st_fail (rn_LeaseOwner run != workerID) ErrAgentRunLeaseLost;
    run ← st_lift (Run_WaitForUser (pending_message (om_ID outbox)) interruptID now run);
    o ← st_get (held_run runID workerID);
    row ← st_or_err o ErrAgentRunLeaseLost;
    _ ← update_run (with_updated (rn_UpdatedAt run) (with_lease None None
          (with_clarification (Some (rn_ClarificationMessageID run)) (Some (rn_ClarificationInterruptID run))
             (rn_ClarificationExpiresAt run)
          (with_counts (rn_AttemptCount row) (rn_ClarificationRounds run) (rn_ContextMessagesUsed row)
          (with_state (rn_Status run) (rn_AvailableAt row) row)))));
    insertOutbox outbox).

(** [WHERE id=$1 AND status='waiting_user' AND initiating_user_id=$2 AND clarification_message_id=$3 AND
    clarification_expires_at > $4] *)
Definition waiting_run (runID userID : UUID) (messageID : string) (now : Time) (d : AgentDB) : option RunRow :=
  r ← agent_run_rows d !! runID;
  if (rn_Status r == RunWaitingUser) && (rn_InitiatingUserID (rn_Head r) == userID) &&
     (rn_ClarificationMessageID r == Some messageID) &&
     match rn_ClarificationExpiresAt r with Some e => now <? e | None => false end
  then Some r else None.

Definition resumed_run (now : Time) (r : RunRow) : RunRow :=
  with_updated now (with_clarification None (rn_ClarificationInterruptID r) None (with_state RunQueued now r)).

Definition ResumeWaitingRun (runID userID : UUID) (clarificationMessageID : string) (now : Time) : AgentM unit :=
  o ← st_get (waiting_run runID userID clarificationMessageID now);
  match o with
  | Some r => update_run (resumed_run now r)
  | None =>
      run ← GetRun runID;
      _ ← st_fail (rn_Status run != RunWaitingUser) ErrRunNotWaiting;
      _ ← st_fail (rn_InitiatingUserID (rn_Head run) != userID) ErrClarificationUserMismatch;
      _ ← st_fail (match rn_ClarificationExpiresAt run with None => true | Some e => negb (Time_Before now e) end)
            ErrClarificationExpired;
      st_throw ErrInvalidRunTransition
  end.

Definition ResumeWaitingRunWithInput (runID userID : UUID) (clarificationMessageID ciphertext : string) (now : Time)
  : AgentM unit :=
  _ ← st_fail (ciphertext == "") ErrInvalidRun;
  atomically (
    o ← st_get (waiting_run runID userID clarificationMessageID now);
    r ← st_or_err o ErrInvalidRunTransition;
    _ ← update_run (resumed_run now r);
    SavePendingResumeInput runID ciphertext now).

(** The columns that the end of a run writes. *)
Definition ended_run (status : RunStatus) (category detail : option string) (now : Time) (r : RunRow) : RunRow :=
  with_updated now (with_clarification None None None (with_end category detail (Some now)
    (with_state status (rn_AvailableAt r) r))).

Definition FinishRun (runID : UUID) (workerID : string) (status : RunStatus) (errorCategory errorDetail : string)
    (outbox : option OutboxMessage) (now : Time) : AgentM unit :=
  _ ← st_fail ((status != RunSucceeded) && (status != RunFailed) && (status != RunCancelled)) ErrInvalidRunTransition;
  atomically (
    o ← st_get (held_run runID workerID);
    r ← st_or_err o ErrAgentRunLeaseLost;
    _ ← update_run (with_lease None None (ended_run status (nullIfEmpty errorCategory) (nullIfEmpty errorDetail) now r));
    _ ← DeleteCheckpoint runID;
    _ ← delete_input runID;
    match outbox with Some m => insertOutbox m | None => mret () end).

Definition expired_run (runID : UUID) (now : Time) (d : AgentDB) : option RunRow :=
  r ← agent_run_rows d !! runID;
  if (rn_Status r == RunWaitingUser) && match rn_ClarificationExpiresAt r with Some e => e <=? now | None => false end
  then Some r else None.

(** [false]: nothing had expired, and nothing is written. *)
Definition CancelExpiredClarification (runID : UUID) (outbox : OutboxMessage) (now : Time) : AgentM bool :=
  _ ← st_fail ((om_RunID outbox != runID) || (om_Kind outbox != OutboxExpired)) ErrInvalidRun;
  atomically (
    o ← st_get (expired_run runID now);
    match o with
    | None => mret false
    | Some r =>
        _ ← update_run (ended_run RunCancelled (Some "clarification_expired") (Some "clarification expired") now r);
        _ ← DeleteCheckpoint runID;
        _ ← delete_input runID;
        _ ← insertOutbox outbox;
        mret true
    end).

End tool_calls.
