(* ===== verification/AgentCommands.v ===== *)
(** * Sequences of operations on Agent runs

    The methods of the Agent store as data, what each one does to the row of a run ([row_move]), and
    that nothing else happens to the runs. *)

From stdpp Require Import base tactics strings gmap list numbers sorting.
From S2P Require Import Prelude Actors Lifecycle StageClaim Delivery Thread Acceptance.
From S2P Require Import Database Tx State ThreadStore AgentRun AgentStore.

Inductive AgentCommand :=
| ACreateRun (run : Run)
| ACreateRunWithInput (run : Run) (input : RunInput) (now : Time)
| ASaveRunInput (input : RunInput) (now : Time)
| ASavePendingResumeInput (runID : UUID) (ciphertext : string) (now : Time)
| AClearPendingResumeInput (runID : UUID) (now : Time)
| AClaimRun (locked : gset UUID) (workerID : string) (now : Time) (leaseDuration : Z)
| ARenewRunLease (runID : UUID) (workerID : string) (now : Time) (leaseDuration : Z)
| AAddContextMessages (runID : UUID) (workerID : string) (count : Z) (now : Time)
| AAttachTask (runID : UUID) (workerID : string) (taskID : UUID) (taskNumber : Z) (now : Time)
| ARetryRun (runID : UUID) (workerID : string) (availableAt now : Time)
| ASaveCheckpoint (checkpoint : Checkpoint)
| ADeleteCheckpoint (runID : UUID)
| AClaimToolCall (call : ToolCall)
| ACompleteToolCall (runID : UUID) (toolCallID result : string) (now : Time)
| AFailToolCall (runID : UUID) (toolCallID category : string) (now : Time)
| AEnqueueOutbox (message : OutboxMessage)
| AClaimOutbox (locked : gset UUID) (workerID : string) (now : Time) (leaseDuration : Z)
| AMarkOutboxDelivered (id : UUID) (workerID providerMessageID : string) (now : Time)
| AMarkOutboxFailed (id : UUID) (workerID providerErrorCode : string) (availableAt now : Time)
| AMarkRunWaiting (runID : UUID) (workerID interruptID : string) (outbox : OutboxMessage) (now : Time)
| AResumeWaitingRun (runID userID : UUID) (messageID : string) (now : Time)
| AResumeWaitingRunWithInput (runID userID : UUID) (messageID ciphertext : string) (now : Time)
| AFinishRun (runID : UUID) (workerID : string) (status : RunStatus) (category detail : string)
    (outbox : option OutboxMessage) (now : Time)
| ACancelExpiredClarification (runID : UUID) (outbox : OutboxMessage) (now : Time).

Definition done_with {X} (m : AgentM X) : AgentM unit := _ ← m; mret tt.

Section commands.
Context `{AgentTexts}.

Definition run_agent (c : AgentCommand) : AgentM unit :=
  match c with
  | ACreateRun run => done_with (CreateRun run)
  | ACreateRunWithInput run input now => done_with (CreateRunWithInput run input now)
  | ASaveRunInput input now => SaveRunInput input now
  | ASavePendingResumeInput id text now => SavePendingResumeInput id text now
  | AClearPendingResumeInput id now => ClearPendingResumeInput id now
  | AClaimRun locked w now l => done_with (ClaimRun locked w now l)
  | ARenewRunLease id w now l => RenewRunLease id w now l
  | AAddContextMessages id w n now => done_with (AddContextMessages id w n now)
  | AAttachTask id w t n now => done_with (AttachTask id w t n now)
  | ARetryRun id w available now => RetryRun id w available now
  | ASaveCheckpoint c => SaveCheckpoint c
  | ADeleteCheckpoint id => DeleteCheckpoint id
  | AClaimToolCall call => done_with (ClaimToolCall call)
  | ACompleteToolCall id call res now => CompleteToolCall id call res now
  | AFailToolCall id call cat now => FailToolCall id call cat now
  | AEnqueueOutbox m => EnqueueOutbox m
  | AClaimOutbox locked w now l => done_with (ClaimOutbox locked w now l)
  | AMarkOutboxDelivered id w pm now => MarkOutboxDelivered id w pm now
  | AMarkOutboxFailed id w code available now => MarkOutboxFailed id w code available now
  | AMarkRunWaiting id w i m now => MarkRunWaiting id w i m now
  | AResumeWaitingRun id u m now => ResumeWaitingRun id u m now
  | AResumeWaitingRunWithInput id u m text now => ResumeWaitingRunWithInput id u m text now
  | AFinishRun id w st cat det m now => FinishRun id w st cat det m now
  | ACancelExpiredClarification id m now => done_with (CancelExpiredClarification id m now)
  end.

(** The tables after the commands, whether they succeed or fail. *)
Definition agent_step (c : AgentCommand) (d : AgentDB) : AgentDB := (run_agent c d).2.
Fixpoint agent_steps (cs : list AgentCommand) (d : AgentDB) : AgentDB :=
  match cs with [] => d | c :: cs => agent_steps cs (agent_step c d) end.

(** ** What a method does to a row *)

Definition held_by (w : string) (r : RunRow) : Prop := rn_Status r = RunRunning /\ rn_LeaseOwner r = Some w.

Definition ends_at (o : option Time) (P : Time -> Prop) : Prop := exists e, o = Some e /\ P e.

Definition row_move (c : AgentCommand) (r r' : RunRow) : Prop :=
  match c with
  | AClaimRun locked w now l =>
      claimable_run locked now r = true /\ w <> "" /\
      r' = with_updated now (with_counts (rn_AttemptCount r + 1) (rn_ClarificationRounds r) (rn_ContextMessagesUsed r)
        (with_lease (Some w) (Some (now + lease_or_default l)) (with_state RunRunning (rn_AvailableAt r) r)))
  | ARenewRunLease id w now l =>
      rn_ID (rn_Head r) = id /\ held_by w r /\ ends_at (rn_LeaseExpiresAt r) (fun e => now < e) /\
      r' = with_updated now (with_lease (Some w) (Some (now + lease_or_default l)) r)
  | AAddContextMessages id w n now =>
      rn_ID (rn_Head r) = id /\ held_by w r /\ 0 <= n /\ rn_ContextMessagesUsed r + n <= MaxContextMessages /\
      r' = with_updated now (with_counts (rn_AttemptCount r) (rn_ClarificationRounds r) (rn_ContextMessagesUsed r + n) r)
  | AAttachTask id w t n now =>
      rn_ID (rn_Head r) = id /\ held_by w r /\ rn_CreatedTaskID r = None /\
      r' = with_updated now (with_task (Some t) (Some n) r)
  | ARetryRun id w available now =>
      rn_ID (rn_Head r) = id /\ held_by w r /\
      r' = with_updated now (with_lease None None (with_state RunQueued available r))
  | AMarkOutboxDelivered id _ pm now =>
      rn_Status r = RunWaitingUser /\ rn_ClarificationMessageID r = Some (pending_message id) /\
      r' = with_updated now (with_clarification (Some pm) (rn_ClarificationInterruptID r) (rn_ClarificationExpiresAt r) r)
  | AMarkRunWaiting id w i m now =>
      rn_ID (rn_Head r) = id /\ held_by w r /\ rn_ClarificationRounds r < MaxClarificationRounds /\
      blank i = false /\
      r' = with_updated now (with_lease None None
        (with_clarification (Some (TrimSpace (pending_message (om_ID m)))) (Some (TrimSpace i))
           (Some (now + ClarificationLifetime))
        (with_counts (rn_AttemptCount r) (int64 (rn_ClarificationRounds r + 1)) (rn_ContextMessagesUsed r)
        (with_state RunWaitingUser (rn_AvailableAt r) r))))
  | AResumeWaitingRun id u m now | AResumeWaitingRunWithInput id u m _ now =>
      rn_ID (rn_Head r) = id /\ rn_Status r = RunWaitingUser /\ rn_InitiatingUserID (rn_Head r) = u /\
      rn_ClarificationMessageID r = Some m /\ ends_at (rn_ClarificationExpiresAt r) (fun e => now < e) /\
      r' = resumed_run now r
  | AFinishRun id w st cat det _ now =>
      rn_ID (rn_Head r) = id /\ held_by w r /\ st ∈ [RunSucceeded; RunFailed; RunCancelled] /\
      r' = with_lease None None (ended_run st (nullIfEmpty cat) (nullIfEmpty det) now r)
  | ACancelExpiredClarification id _ now =>
      rn_ID (rn_Head r) = id /\ rn_Status r = RunWaitingUser /\ ends_at (rn_ClarificationExpiresAt r) (fun e => e <= now) /\
      r' = ended_run RunCancelled (Some "clarification_expired") (Some "clarification expired") now r
  | _ => False
  end.

(** The run that a command inserts, if it does. *)
Definition created_run (c : AgentCommand) : option Run :=
  match c with ACreateRun run | ACreateRunWithInput run _ _ => Some run | _ => None end.

(** ** Nothing else happens to the runs *)

Record agent_wf (d : AgentDB) : Prop := {
  aw_key : forall id r, agent_run_rows d !! id = Some r -> rn_ID (rn_Head r) = id;
  aw_checks : forall id r, agent_run_rows d !! id = Some r -> agent_runs_checks r = true;
  aw_fks : forall id r, agent_run_rows d !! id = Some r -> run_fks d r = true;
  aw_task : forall id r, agent_run_rows d !! id = Some r -> task_free d r = true;
  aw_identity : forall i j r s, agent_run_rows d !! i = Some r -> agent_run_rows d !! j = Some s ->
    same_identity (rn_Head r) (rn_Head s) = true -> i = j;
  aw_call : forall k c, agent_tool_calls d !! k = Some c ->
    k = (tc_RunID c, tc_ToolCallID c) /\ agent_tool_calls_checks c = true;
  aw_message : forall id m, agent_message_outbox d !! id = Some m ->
    om_ID m = id /\ agent_message_outbox_checks m = true;
  aw_deduplicated : forall i j m n, agent_message_outbox d !! i = Some m -> agent_message_outbox d !! j = Some n ->
    om_DeduplicationKey m = om_DeduplicationKey n -> i = j;
}.

(** The rows of the runs stay, one row moves, or one is created. *)
Inductive runs_changed (c : AgentCommand) (d d' : AgentDB) : Prop :=
| runs_same : agent_run_rows d' = agent_run_rows d -> runs_changed c d d'
| runs_moved r r' :
    agent_run_rows d !! rn_ID (rn_Head r) = Some r -> row_move c r r' ->
    agent_runs_checks r' = true /\ run_fks d r' = true /\ task_free d r' = true ->
    agent_run_rows d' = <[rn_ID (rn_Head r) := r']> (agent_run_rows d) -> runs_changed c d d'
| runs_created run :
    created_run c = Some run -> Run_Validate run = Ok tt ->
    agent_runs_checks (new_run_row run) = true -> run_fks d (new_run_row run) = true -> run_conflicts d (new_run_row run) = false ->
    agent_run_rows d' = <[rn_ID (rn_Head run) := new_run_row run]> (agent_run_rows d) -> runs_changed c d d'.

(** The same for tool calls and messages. *)
Definition call_move (c : AgentCommand) (t t' : ToolCall) : Prop :=
  match c with
  | ACompleteToolCall id call res now =>
      (tc_RunID t, tc_ToolCallID t) = (id, call) /\ tc_State t = ToolCallRunning /\
      exists j, jsonb res = Some j /\ t' = ended_call t ToolCallCompleted (Some j) (tc_ErrorCategory t) now
  | AFailToolCall id call cat now =>
      (tc_RunID t, tc_ToolCallID t) = (id, call) /\ tc_State t = ToolCallRunning /\
      t' = ended_call t ToolCallFailed (tc_Result t) (Some cat) now
  | _ => False
  end.

Inductive calls_changed (c : AgentCommand) (d d' : AgentDB) : Prop :=
| calls_same : agent_tool_calls d' = agent_tool_calls d -> calls_changed c d d'
| calls_moved t t' :
    agent_tool_calls d !! (tc_RunID t, tc_ToolCallID t) = Some t -> call_move c t t' ->
    agent_tool_calls_checks t' = true ->
    agent_tool_calls d' = <[(tc_RunID t, tc_ToolCallID t) := t']> (agent_tool_calls d) -> calls_changed c d d'
| calls_created call summary :
    c = AClaimToolCall call -> agent_tool_calls d !! (tc_RunID call, tc_ToolCallID call) = None ->
    agent_tool_calls_checks (new_tool_call call summary) = true ->
    agent_tool_calls d' = <[(tc_RunID call, tc_ToolCallID call) := new_tool_call call summary]> (agent_tool_calls d) ->
    calls_changed c d d'.

Definition message_move (c : AgentCommand) (m m' : OutboxRow) : Prop :=
  match c with
  | AClaimOutbox locked w now l =>
      claimable_message locked now m = true /\
      m' = outbox_state m OutboxDelivering (om_AttemptCount m + 1) (om_AvailableAt m) (Some w)
        (Some (now + if l <=? 0 then Minute else l)) (om_ProviderMessageID m) (om_ProviderErrorCode m) now (om_DeliveredAt m)
  | AMarkOutboxDelivered id w pm now =>
      om_ID m = id /\ om_State m = OutboxDelivering /\ om_LeaseOwner m = Some w /\
      m' = outbox_state m OutboxDelivered (om_AttemptCount m) (om_AvailableAt m) None None (Some pm)
        (om_ProviderErrorCode m) now (Some now)
  | AMarkOutboxFailed id w code available now =>
      om_ID m = id /\ om_State m = OutboxDelivering /\ om_LeaseOwner m = Some w /\
      m' = outbox_state m OutboxFailed (om_AttemptCount m) available None None (om_ProviderMessageID m)
        (nullIfEmpty code) now (om_DeliveredAt m)
  | _ => False
  end.

(** The message that a command enqueues, if it does. *)
Definition enqueued (c : AgentCommand) : option OutboxMessage :=
  match c with
  | AEnqueueOutbox m | AMarkRunWaiting _ _ _ m _ | ACancelExpiredClarification _ m _ => Some m
  | AFinishRun _ _ _ _ _ o _ => o
  | _ => None
  end.

Inductive outbox_changed (c : AgentCommand) (d d' : AgentDB) : Prop :=
| outbox_same : agent_message_outbox d' = agent_message_outbox d -> outbox_changed c d d'
| outbox_moved m m' :
    agent_message_outbox d !! om_ID m = Some m -> message_move c m m' -> agent_message_outbox_checks m' = true ->
    agent_message_outbox d' = <[om_ID m := m']> (agent_message_outbox d) -> outbox_changed c d d'
| outbox_created m :
    enqueued c = Some m -> agent_message_outbox_checks (new_outbox_row m) = true ->
    key_taken d (om_DeduplicationKey m) = false -> agent_message_outbox d !! om_ID m = None ->
    agent_message_outbox d' = <[om_ID m := new_outbox_row m]> (agent_message_outbox d) -> outbox_changed c d d'.

End commands.
