(* ===== verification/AgentEffects.v ===== *)
(** * What the methods of the Agent store do

    Every command that succeeds moves at most one run, one tool call and one message, in the ways that
    [AgentCommands] lists, or creates one; a command that fails changes nothing; and the tables stay
    consistent. *)

From stdpp Require Import base tactics strings gmap list numbers sorting.
From S2P Require Import Prelude Actors Lifecycle StageClaim Delivery Thread Acceptance.
From S2P Require Import Database Tx State ThreadStore AgentRun AgentStore AgentCommands.

Section effects.
Context `{AgentTexts}.

Lemma update_run_Ok r d u d' :
  update_run r d = (Ok u, d') <->
  (agent_runs_checks r = true /\ run_fks d r = true /\ task_free d r = true) /\
  d' = set_runs (<[rn_ID (rn_Head r) := r]> (agent_run_rows d)) d.
Proof.
  unfold update_run. split.
  - intros Hr. st_inv. go_bool. done.
  - intros [(H1 & H2 & H3) ->]. destruct u. unfold mbind, St_bind. cbn. by rewrite H1, H2, H3.
Qed.

Lemma insertOutbox_runs m d u d' : insertOutbox m d = (Ok u, d') -> agent_run_rows d' = agent_run_rows d.
Proof. unfold insertOutbox. intros Hr. st_inv. case_match; st_inv; done. Qed.

Lemma insert_run_Ok run d b d' :
  insert_run run d = (Ok b, d') ->
  agent_runs_checks (new_run_row run) = true /\
  if b then run_conflicts d (new_run_row run) = false /\ run_fks d (new_run_row run) = true /\
            d' = set_runs (<[rn_ID (rn_Head run) := new_run_row run]> (agent_run_rows d)) d
  else d' = d.
Proof.
  unfold insert_run. cbv zeta. intros Hr. st_inv. go_bool. case_match; st_inv; [done|]. go_bool. done.
Qed.

Lemma held_run_Some id w d r :
  held_run id w d = Some r <-> agent_run_rows d !! id = Some r /\ held_by w r.
Proof.
  unfold held_run, held_by. rewrite bind_Some. split.
  - intros (x & Hx & E). case_match; simplify_eq. by go_bool.
  - intros (Hx & H1 & H2). exists r. split; [done|]. rewrite H1, H2. by rewrite !bool_decide_eq_true_2.
Qed.

Lemma next_run_Some locked now d r :
  agent_wf d -> next_run locked now d = Some r ->
  agent_run_rows d !! rn_ID (rn_Head r) = Some r /\ claimable_run locked now r = true.
Proof.
  intros Hw Hn. unfold next_run in Hn.
  assert (r ∈ queue_order run_key (select (claimable_run locked now) (agent_run_rows d))) as Hin.
  { destruct (queue_order _ _); [done|]. injection Hn as ->. by left. }
  unfold queue_order in Hin. rewrite merge_sort_Permutation in Hin. apply elem_of_select in Hin as [Hc [k Hk]].
  by rewrite (aw_key _ Hw _ _ Hk).
Qed.

Lemma int4_Ok z d z' d' : int4 z d = (Ok z', d') <-> z' = z /\ (- MaxInt32 - 1 <= z <= MaxInt32) /\ d' = d.
Proof.
  unfold int4. split.
  - intros Hr. st_inv. go_bool. done.
  - intros (-> & [] & ->). unfold mbind, St_bind. cbn.
    destruct (Z.ltb_spec z (- MaxInt32 - 1)), (Z.ltb_spec MaxInt32 z); try lia. done.
Qed.

Lemma DeleteCheckpoint_runs id d u d' : DeleteCheckpoint id d = (Ok u, d') -> agent_run_rows d' = agent_run_rows d.
Proof. intros [= _ <-]. done. Qed.
Lemma delete_input_runs id d u d' : delete_input id d = (Ok u, d') -> agent_run_rows d' = agent_run_rows d.
Proof. intros [= _ <-]. done. Qed.
Lemma put_tool_call_runs c d u d' : put_tool_call c d = (Ok u, d') -> agent_run_rows d' = agent_run_rows d.
Proof. unfold put_tool_call. intros Hr. st_inv. done. Qed.
Lemma update_outbox_runs m d u d' : update_outbox m d = (Ok u, d') -> agent_run_rows d' = agent_run_rows d.
Proof. unfold update_outbox. intros Hr. st_inv. done. Qed.
Lemma update_outbox_Ok m d u d' :
  update_outbox m d = (Ok u, d') ->
  agent_message_outbox_checks m = true /\ d' = set_outbox (<[om_ID m := m]> (agent_message_outbox d)) d.
Proof. unfold update_outbox. intros Hr. st_inv. by go_bool. Qed.
Lemma insert_input_runs i d u d' : insert_input i d = (Ok u, d') -> agent_run_rows d' = agent_run_rows d.
Proof. unfold insert_input. intros Hr. st_inv. done. Qed.
Lemma findRun_keeps h : keeps (findRunByProviderIdentity h).
Proof. unfold findRunByProviderIdentity, read_run. auto with keeps. Qed.

Lemma moved (c : AgentCommand) d r r' d' :
  agent_run_rows d !! rn_ID (rn_Head r) = Some r -> row_move c r r' ->
  agent_runs_checks r' = true /\ run_fks d r' = true /\ task_free d r' = true -> rn_Head r' = rn_Head r -> agent_run_rows d' = <[rn_ID (rn_Head r') := r']> (agent_run_rows d) -> runs_changed c d d'.
Proof. intros ? ? ? E ?. rewrite E in *. by eapply runs_moved. Qed.

(** The statement shared by both creations. *)
Lemma created_or_found (c : AgentCommand) run d b d1 h x d' :
  insert_run run d = (Ok b, d1) -> created_run c = Some run -> Run_Validate run = Ok tt ->
  (if b : bool then mret (run, true) else stored ← findRunByProviderIdentity h; mret (stored, false)) d1 = (Ok x, d') ->
  runs_changed c d d'.
Proof.
  intros [Hc Hi]%insert_run_Ok Hcr Hv Hr. destruct b.
  - destruct Hi as (Hf & Hfk & ->). st_inv. by eapply runs_created.
  - subst. apply runs_same. apply St_bind_Ok in Hr as (y & d2 & Hf & Hr). st_inv.
    pose proof (findRun_keeps h d) as Hk. rewrite Hf in Hk. by cbn in Hk; subst.
Qed.

Lemma create_with_input_Ok run input now d b d' :
  create_with_input run input now d = (Ok b, d') ->
  exists d1, insert_run run d = (Ok b, d1) /\ agent_run_rows d' = agent_run_rows d1.
Proof.
  unfold create_with_input. intros Hr. apply atomically_Ok, St_bind_Ok in Hr as (x & d1 & Hi & Hr). exists d1.
  destruct x; st_inv; [|done]. split; [done|]. by eapply insert_input_runs.
Qed.

Lemma runs_changed_rows (c : AgentCommand) d d1 d2 :
  runs_changed c d d1 -> agent_run_rows d2 = agent_run_rows d1 -> runs_changed c d d2.
Proof. intros [] E; [apply runs_same|eapply runs_moved|eapply runs_created]; try done; congruence. Qed.

Lemma creation_effect c d u d' :
  is_Some (created_run c) -> run_agent c d = (Ok u, d') -> runs_changed c d d'.
Proof.
  intros [run Hrun] Hr. destruct c; try discriminate; injection Hrun as ->; cbn in Hr; unfold done_with in Hr;
    apply St_bind_Ok in Hr as (x & d2 & Hr & [= _ ->]).
  - unfold CreateRun in Hr. apply St_bind_Ok in Hr as ([] & d1 & [Hv <-]%st_lift_Ok & Hr).
    apply St_bind_Ok in Hr as (b & d1' & Hi & Hr). by eapply created_or_found.
  - unfold CreateRunWithInput in Hr. apply St_bind_Ok in Hr as ([] & d1 & [Hv <-]%st_lift_Ok & Hr).
    apply St_bind_Ok in Hr as ([] & d1 & [Hf <-]%st_fail_Ok & Hr). apply St_bind_Ok in Hr as (b & d1' & Hi & Hr).
    apply create_with_input_Ok in Hi as (d3 & Hi & E). destruct b.
    + st_inv. eapply runs_changed_rows; [|exact E]. by eapply (created_or_found _ _ _ true _ (rn_Head run)).
    + apply insert_run_Ok in Hi as [_ ->]. apply runs_same. apply St_bind_Ok in Hr as (y & d4 & Hf' & Hr). st_inv.
      pose proof (findRun_keeps (rn_Head run) d1') as Hk. rewrite Hf' in Hk. by cbn in Hk; subst.
Qed.

Lemma claim_effect locked w now l d u d' :
  agent_wf d -> run_agent (AClaimRun locked w now l) d = (Ok u, d') -> runs_changed (AClaimRun locked w now l) d d'.
Proof.
  intros Hw Hr. cbn in Hr. unfold done_with, ClaimRun in Hr. st_inv. go_bool. case_match; st_inv; [|by apply runs_same].
  match goal with Hn : next_run _ _ _ = Some _, Hi : int4 _ _ = _, Hu : update_run _ _ = _ |- _ =>
    apply (next_run_Some _ _ _ _ Hw) in Hn as [Hk Hc]; apply int4_Ok in Hi as (-> & _ & ->);
    apply update_run_Ok in Hu as [? ->] end.
  eapply moved; [exact Hk| |done|done|done]. done.
Qed.

Lemma held_run_key id w d r :
  agent_wf d -> held_run id w d = Some r ->
  agent_run_rows d !! rn_ID (rn_Head r) = Some r /\ rn_ID (rn_Head r) = id /\ held_by w r.
Proof. intros Hw [Hk Hh]%held_run_Some. by rewrite (aw_key _ Hw _ _ Hk). Qed.

Ltac held Hw := match goal with Ho : held_run _ _ _ = Some _ |- _ =>
  apply (held_run_key _ _ _ _ Hw) in Ho as (? & ? & ?) end.
(** Closes a case in which the last statement updates the row of one run. *)
Ltac one_row := match goal with Hu : update_run _ _ = _ |- _ => apply update_run_Ok in Hu as [? ->] end;
  eapply moved; [eassumption| |done|done|done]; cbn; split_and!; try done; try (by eexists).

Lemma worker_effect c d u d' :
  agent_wf d -> run_agent c d = (Ok u, d') ->
  match c with
  | ARenewRunLease _ _ _ _ | AAddContextMessages _ _ _ _ | AAttachTask _ _ _ _ _ | ARetryRun _ _ _ _
  | AFinishRun _ _ _ _ _ _ _ => runs_changed c d d'
  | _ => True
  end.
Proof.
  intros Hw Hr. destruct c; try exact I; cbn in Hr; unfold done_with in Hr.
  - unfold RenewRunLease in Hr. st_inv.
    match goal with Ho : _ ≫= _ = Some _ |- _ => apply bind_Some in Ho as (y & Ho & He) end.
    held Hw. destruct (rn_LeaseExpiresAt y) as [e|] eqn:Ee; [|done]. case_match; [|done]. simplify_eq. go_bool.
    match goal with Hh : held_by _ _ |- _ => pose proof (proj2 Hh) as Eo end. rewrite Eo in *. one_row.
  - unfold AddContextMessages in Hr. st_inv.
    repeat match goal with Hi : int4 _ _ = _ |- _ => apply int4_Ok in Hi as (-> & _ & ->) end. held Hw. go_bool. one_row.
  - unfold AttachTask in Hr. st_inv. case_match eqn:Ho; st_inv; [|by apply runs_same].
    apply bind_Some in Ho as (y & Ho & He). held Hw. case_match; simplify_eq. go_bool. one_row.
  - unfold RetryRun in Hr. st_inv. held Hw. one_row.
  - unfold FinishRun in Hr. apply St_bind_Ok in Hr as ([] & d0 & [Hs <-]%st_fail_Ok & Hr).
    apply atomically_Ok, St_bind_Ok in Hr as (o & d0 & [Ho <-]%st_get_Ok & Hr).
    apply St_bind_Ok in Hr as (r & d0 & [-> <-]%st_or_err_Ok & Hr). held Hw.
    apply St_bind_Ok in Hr as ([] & d1 & Hu & Hr). apply (runs_changed_rows _ _ d1).
    { one_row. rewrite !elem_of_cons. destruct (decide (status = RunSucceeded)), (decide (status = RunFailed)),
        (decide (status = RunCancelled)); try tauto. by rewrite !bool_decide_eq_false_2 in Hs. }
    st_inv. unfold DeleteCheckpoint, delete_input in *. st_inv. case_match; [|by st_inv].
    match goal with Hi : insertOutbox _ _ = _ |- _ => by apply insertOutbox_runs in Hi end.
Qed.

Lemma waiting_run_Some id u m now d r :
  agent_wf d -> waiting_run id u m now d = Some r ->
  agent_run_rows d !! rn_ID (rn_Head r) = Some r /\ rn_ID (rn_Head r) = id /\ rn_Status r = RunWaitingUser /\
  rn_InitiatingUserID (rn_Head r) = u /\ rn_ClarificationMessageID r = Some m /\
  ends_at (rn_ClarificationExpiresAt r) (fun e => now < e).
Proof.
  intros Hw (x & Hx & E)%bind_Some. destruct (rn_ClarificationExpiresAt x) as [e|] eqn:Ee; case_match; simplify_eq.
  - go_bool. rewrite (aw_key _ Hw _ _ Hx). split_and!; try done. exists e. by go_bool.
  - by rewrite andb_false_r in *.
Qed.

Lemma user_effect c d u d' :
  agent_wf d -> run_agent c d = (Ok u, d') ->
  match c with
  | AResumeWaitingRun _ _ _ _ | AResumeWaitingRunWithInput _ _ _ _ _ | ACancelExpiredClarification _ _ _ =>
      runs_changed c d d'
  | _ => True
  end.
Proof.
  intros Hw Hr. destruct c; try exact I; cbn in Hr; unfold done_with in Hr.
  - unfold ResumeWaitingRun in Hr. apply St_bind_Ok in Hr as (o & d0 & [Ho <-]%st_get_Ok & Hr). destruct o as [r|].
    + apply (waiting_run_Some _ _ _ _ _ _ Hw) in Ho as (? & ? & ? & ? & ? & ?). one_row.
    + exfalso. st_inv.
  - unfold ResumeWaitingRunWithInput in Hr. apply St_bind_Ok in Hr as ([] & d0 & [Hs <-]%st_fail_Ok & Hr).
    apply atomically_Ok, St_bind_Ok in Hr as (o & d0 & [Ho <-]%st_get_Ok & Hr).
    apply St_bind_Ok in Hr as (r & d0 & [-> <-]%st_or_err_Ok & Hr).
    apply (waiting_run_Some _ _ _ _ _ _ Hw) in Ho as (? & ? & ? & ? & ? & ?).
    apply St_bind_Ok in Hr as ([] & d1 & Hu & Hr). apply (runs_changed_rows _ _ d1); [one_row|].
    unfold SavePendingResumeInput in Hr. st_inv. done.
  - apply St_bind_Ok in Hr as (b & d2 & Hr & [= _ ->]). unfold CancelExpiredClarification in Hr.
    apply St_bind_Ok in Hr as ([] & d0 & [Hs <-]%st_fail_Ok & Hr).
    apply atomically_Ok, St_bind_Ok in Hr as (o & d0 & [Ho <-]%st_get_Ok & Hr). destruct o as [r|]; [|st_inv; by apply runs_same].
    apply bind_Some in Ho as (x & Hx & E). destruct (rn_ClarificationExpiresAt x) as [e|] eqn:Ee; case_match; simplify_eq;
      [|by rewrite andb_false_r in *].
    go_bool. pose proof (aw_key _ Hw _ _ Hx) as Hid. rewrite <- Hid in Hx.
    apply St_bind_Ok in Hr as ([] & d1 & Hu & Hr). apply (runs_changed_rows _ _ d1); [one_row|].
    unfold DeleteCheckpoint, delete_input in *. st_inv.
    match goal with Hi : insertOutbox _ _ = _ |- _ => by apply insertOutbox_runs in Hi end.
Qed.

Lemma wait_effect id w i m now d u d' :
  agent_wf d -> run_agent (AMarkRunWaiting id w i m now) d = (Ok u, d') -> runs_changed (AMarkRunWaiting id w i m now) d d'.
Proof.
  intros Hw Hr. cbn in Hr. unfold MarkRunWaiting in Hr.
  apply atomically_Ok, St_bind_Ok in Hr as (o & d0 & [Ho <-]%st_get_Ok & Hr).
  apply St_bind_Ok in Hr as (r & d0 & [-> <-]%st_or_err_Ok & Hr). cbv zeta in Hr.
  apply St_bind_Ok in Hr as ([] & d0 & [Hl <-]%st_fail_Ok & Hr).
  apply St_bind_Ok in Hr as (run & d0 & [Hm <-]%st_lift_Ok & Hr).
  apply St_bind_Ok in Hr as (o & d0 & [Hh <-]%st_get_Ok & Hr).
  apply St_bind_Ok in Hr as (r1 & d0 & [-> <-]%st_or_err_Ok & Hr).
  apply St_bind_Ok in Hr as ([] & d1 & Hu & Hr). held Hw.
  assert (r1 = r) as -> by congruence. eapply runs_changed_rows; [|by eapply insertOutbox_runs].
  unfold Run_WaitForUser in Hm. apply bind_Ok in Hm as ([] & Hst%fail_if_Ok & Hm).
  apply bind_Ok in Hm as ([] & Hrounds%fail_if_Ok & Hm). apply bind_Ok in Hm as ([] & Hb%fail_if_Ok & [= <-]).
  apply orb_false_iff in Hb as [_ Hb]. apply Z.leb_gt in Hrounds. apply update_run_Ok in Hu as [Hc ->].
  eapply moved; [eassumption| |exact Hc|reflexivity|reflexivity]. split_and!; [done|done|exact Hrounds|exact Hb|reflexivity].
Qed.

Lemma held_message_Some id w d m : held_message id w d = Some m -> agent_message_outbox d !! id = Some m.
Proof. intros (x & Hx & E)%bind_Some. by case_match; simplify_eq. Qed.

Lemma delivered_effect id w pm now d u d' :
  agent_wf d -> run_agent (AMarkOutboxDelivered id w pm now) d = (Ok u, d') ->
  runs_changed (AMarkOutboxDelivered id w pm now) d d'.
Proof.
  intros Hw Hr. cbn in Hr. unfold MarkOutboxDelivered in Hr.
  apply atomically_Ok, St_bind_Ok in Hr as (o & d0 & [Ho <-]%st_get_Ok & Hr).
  apply St_bind_Ok in Hr as (m & d0 & [-> <-]%st_or_err_Ok & Hr). apply held_message_Some, (aw_message _ Hw) in Ho as [Hid _].
  apply St_bind_Ok in Hr as ([] & d1 & [_ ->]%update_outbox_Ok & Hr).
  case_match; [|st_inv; by apply runs_same]. unfold bind_reply in Hr.
  apply St_bind_Ok in Hr as (o & d2 & [Hb <-]%st_get_Ok & Hr). destruct o as [r|]; [|st_inv; by apply runs_same].
  apply bind_Some in Hb as (x & Hx & E). case_match; simplify_eq. go_bool.
  rewrite <- (aw_key _ Hw _ _ Hx) in Hx. apply update_run_Ok in Hr as [Hc ->].
  eapply moved; [exact Hx| |exact Hc|reflexivity|reflexivity]. done.
Qed.

Lemma runs_effect c d u d' : agent_wf d -> run_agent c d = (Ok u, d') -> runs_changed c d d'.
Proof.
  intros Hw Hr. pose proof (worker_effect _ _ _ _ Hw Hr) as H1. pose proof (user_effect _ _ _ _ Hw Hr) as H2.
  destruct c; try exact H1; try exact H2; clear H1 H2; try (by eapply creation_effect);
    try (by eapply claim_effect); try (by eapply wait_effect); try (by eapply delivered_effect); apply runs_same; cbn in Hr.
  - unfold SaveRunInput in Hr. st_inv. case_match; st_inv; [done|]. by eapply insert_input_runs.
  - unfold SavePendingResumeInput in Hr. by st_inv.
  - unfold ClearPendingResumeInput in Hr. by st_inv.
  - unfold SaveCheckpoint in Hr. by st_inv.
  - by eapply DeleteCheckpoint_runs.
  - unfold done_with, ClaimToolCall in Hr. st_inv. case_match; st_inv; [done|]. by eapply put_tool_call_runs.
  - unfold CompleteToolCall in Hr. st_inv. by eapply put_tool_call_runs.
  - unfold FailToolCall in Hr. st_inv. by eapply put_tool_call_runs.
  - by eapply insertOutbox_runs.
  - unfold done_with, ClaimOutbox in Hr. st_inv. case_match; st_inv; [|done].
    match goal with Hi : int4 _ _ = _ |- _ => apply int4_Ok in Hi as (-> & _ & ->) end. by eapply update_outbox_runs.
  - unfold MarkOutboxFailed in Hr. st_inv. by eapply update_outbox_runs.
Qed.

(** ** Frames *)

Section frames.
Context {X : Type} (f : AgentDB -> X).

Lemma update_run_frame r : (forall x d, f (set_runs x d) = f d) -> preserves f (update_run r).
Proof. intros Hf. unfold update_run. framed. apply preserves_mod. auto. Qed.
Lemma insert_run_frame run : (forall x d, f (set_runs x d) = f d) -> preserves f (insert_run run).
Proof. intros Hf. unfold insert_run. cbv zeta. framed. apply preserves_mod. auto. Qed.
Lemma insert_input_frame i : (forall x d, f (set_inputs x d) = f d) -> preserves f (insert_input i).
Proof. intros Hf. unfold insert_input. framed. apply preserves_mod. auto. Qed.
Lemma insertOutbox_frame m : (forall x d, f (set_outbox x d) = f d) -> preserves f (insertOutbox m).
Proof. intros Hf. unfold insertOutbox. cbv zeta. framed. apply preserves_mod. auto. Qed.
Lemma update_outbox_frame m : (forall x d, f (set_outbox x d) = f d) -> preserves f (update_outbox m).
Proof. intros Hf. unfold update_outbox. framed. apply preserves_mod. auto. Qed.
Lemma put_tool_call_frame c : (forall x d, f (set_tool_calls x d) = f d) -> preserves f (put_tool_call c).
Proof. intros Hf. unfold put_tool_call. framed. apply preserves_mod. auto. Qed.
Lemma save_pending_frame id t now : (forall x d, f (set_inputs x d) = f d) -> preserves f (SavePendingResumeInput id t now).
Proof. intros Hf. unfold SavePendingResumeInput. framed. apply preserves_mod. auto. Qed.
Lemma delete_input_frame id : (forall x d, f (set_inputs x d) = f d) -> preserves f (delete_input id).
Proof. intros Hf. apply preserves_mod. auto. Qed.
Lemma DeleteCheckpoint_frame id : (forall x d, f (set_checkpoints x d) = f d) -> preserves f (DeleteCheckpoint id).
Proof. intros Hf. apply preserves_mod. auto. Qed.
End frames.

Ltac frames := repeat (framed; try first
  [ apply update_run_frame; reflexivity | apply insert_run_frame; reflexivity | apply insert_input_frame; reflexivity
  | apply insertOutbox_frame; reflexivity | apply update_outbox_frame; reflexivity | apply put_tool_call_frame; reflexivity
  | apply save_pending_frame; reflexivity | apply delete_input_frame; reflexivity
  | apply DeleteCheckpoint_frame; reflexivity | apply preserves_keeps, findRun_keeps ]).

Ltac bodies := cbn [run_agent]; unfold done_with, CreateRun, CreateRunWithInput, create_with_input, SaveRunInput,
  ClearPendingResumeInput, ClaimRun, RenewRunLease, AddContextMessages, AttachTask, RetryRun, SaveCheckpoint,
  EnqueueOutbox, ClaimOutbox, MarkOutboxDelivered, bind_reply, MarkOutboxFailed, MarkRunWaiting, ResumeWaitingRun, GetRun,
  read_run, ResumeWaitingRunWithInput, FinishRun, CancelExpiredClarification, ClaimToolCall, CompleteToolCall,
  FailToolCall, int4; cbv zeta.

Lemma calls_frame c :
  match c with
  | AClaimToolCall _ | ACompleteToolCall _ _ _ _ | AFailToolCall _ _ _ _ => True
  | _ => preserves agent_tool_calls (run_agent c)
  end.
Proof. destruct c; try exact I; bodies; frames. Qed.

Lemma outbox_frame c :
  match c with
  | AEnqueueOutbox _ | AClaimOutbox _ _ _ _ | AMarkOutboxDelivered _ _ _ _ | AMarkOutboxFailed _ _ _ _ _
  | AMarkRunWaiting _ _ _ _ _ | AFinishRun _ _ _ _ _ _ _ | ACancelExpiredClarification _ _ _ => True
  | _ => preserves agent_message_outbox (run_agent c)
  end.
Proof. destruct c; try exact I; bodies; frames. Qed.
(** ** Failures *)

Lemma update_run_clean r : clean (update_run r).
Proof. unfold update_run. cleaned fail. Qed.
Lemma insert_input_clean i : clean (insert_input i).
Proof. unfold insert_input. cleaned fail. Qed.
Lemma insert_run_clean run : clean (insert_run run).
Proof. unfold insert_run. cbv zeta. cleaned fail. Qed.
Lemma insertOutbox_clean m : clean (insertOutbox m).
Proof. unfold insertOutbox. cbv zeta. cleaned fail. Qed.
Lemma update_outbox_clean m : clean (update_outbox m).
Proof. unfold update_outbox. cleaned fail. Qed.
Lemma put_tool_call_clean c : clean (put_tool_call c).
Proof. unfold put_tool_call. cleaned fail. Qed.
Lemma clean_found {Y} (h : RunHead) (g : Run -> Y) : clean (stored ← findRunByProviderIdentity h; mret (g stored) : AgentM Y).
Proof. apply clean_ret_after, keeps_clean, findRun_keeps. Qed.

Lemma St_bind_Err {Y Z} (m : AgentM Y) (k : Y -> AgentM Z) s e s' :
  (m ≫= k) s = (Err e, s') -> m s = (Err e, s') \/ exists a s1, m s = (Ok a, s1) /\ k a s1 = (Err e, s').
Proof. unfold mbind, St_bind. destruct (m s) as [[a|e1] s1]; [right; eauto|left; congruence]. Qed.

(** A method that inserts a run, or finds the one that is there. *)
Lemma clean_insert_or_find (m : AgentM bool) run h :
  clean m -> (forall d d', m d = (Ok false, d') -> d' = d) ->
  clean (b ← m; if b : bool then mret (run, true) else stored ← findRunByProviderIdentity h; mret (stored, false)).
Proof.
  intros Hm Hf d e d' [E|(b & d1 & E & E')]%St_bind_Err; [by eapply Hm|]. destruct b; [done|].
  apply Hf in E as ->. exact (clean_found h (fun r => (r, false)) _ _ _ E').
Qed.

Ltac statement := idtac; lazymatch goal with
  | |- clean (update_run _) => apply update_run_clean
  | |- clean (insert_input _) => apply insert_input_clean
  | |- clean (insertOutbox _) => apply insertOutbox_clean
  | |- clean (update_outbox _) => apply update_outbox_clean
  | |- clean (put_tool_call _) => apply put_tool_call_clean
  end.

Lemma creation_clean c : is_Some (created_run c) -> clean (run_agent c).
Proof.
  intros [run Hrun]. destruct c; try discriminate; cbn [run_agent]; unfold done_with; apply clean_ret_after.
  - apply clean_bind; [auto with keeps|intros _]. apply clean_insert_or_find; [apply insert_run_clean|].
    by intros d d' [_ ?]%insert_run_Ok.
  - apply clean_bind; [auto with keeps|intros _]. apply clean_bind; [auto with keeps|intros _].
    apply clean_insert_or_find; [apply clean_atomically|]. unfold create_with_input.
    intros d d' (b & d1 & E & E')%atomically_Ok%St_bind_Ok. destruct b; st_inv; [done|]. by apply insert_run_Ok in E as [_ ?].
Qed.

Lemma agent_clean c : clean (run_agent c).
Proof.
  destruct (created_run c) eqn:Ec; [apply creation_clean; eauto|].
  destruct c; try discriminate; bodies; try (unfold SavePendingResumeInput, DeleteCheckpoint);
    cleaned statement.
Qed.

(** ** Tool calls *)

Lemma running_call_Some id call d c :
  agent_wf d -> running_call id call d = Some c ->
  agent_tool_calls d !! (tc_RunID c, tc_ToolCallID c) = Some c /\ (tc_RunID c, tc_ToolCallID c) = (id, call) /\
  tc_State c = ToolCallRunning.
Proof.
  intros Hw (x & Hx & E)%bind_Some. case_match; simplify_eq. go_bool.
  destruct (aw_call _ Hw _ _ Hx) as [Hid _]. by rewrite <- Hid.
Qed.

Lemma put_tool_call_Ok c d u d' :
  put_tool_call c d = (Ok u, d') ->
  agent_tool_calls_checks c = true /\ d' = set_tool_calls (<[(tc_RunID c, tc_ToolCallID c) := c]> (agent_tool_calls d)) d.
Proof. unfold put_tool_call. intros Hr. st_inv. by go_bool. Qed.

Lemma calls_effect c d u d' : agent_wf d -> run_agent c d = (Ok u, d') -> calls_changed c d d'.
Proof.
  intros Hw Hr. pose proof (calls_frame c) as Hf. destruct c; try (apply calls_same; by eapply Hf); clear Hf; cbn in Hr.
  - unfold done_with, ClaimToolCall in Hr. st_inv. case_match; st_inv; [by apply calls_same|].
    match goal with Hp : put_tool_call _ _ = _ |- _ => apply put_tool_call_Ok in Hp as [? ->] end.
    by eapply calls_created.
  - unfold CompleteToolCall in Hr. st_inv.
    match goal with Ho : running_call _ _ _ = Some _, Hp : put_tool_call _ _ = _ |- _ =>
      apply (running_call_Some _ _ _ _ Hw) in Ho as (? & ? & ?); apply put_tool_call_Ok in Hp as [? ->] end.
    eapply calls_moved; [eassumption| |eassumption|reflexivity]. by split_and!; [| |eexists].
  - unfold FailToolCall in Hr. st_inv.
    match goal with Ho : running_call _ _ _ = Some _, Hp : put_tool_call _ _ = _ |- _ =>
      apply (running_call_Some _ _ _ _ Hw) in Ho as (? & ? & ?); apply put_tool_call_Ok in Hp as [? ->] end.
    eapply calls_moved; [eassumption| |eassumption|reflexivity]. done.
Qed.

(** ** Messages *)

Lemma insertOutbox_Ok m d u d' :
  insertOutbox m d = (Ok u, d') ->
  agent_message_outbox d' = agent_message_outbox d \/
  (agent_message_outbox_checks (new_outbox_row m) = true /\ key_taken d (om_DeduplicationKey m) = false /\
   agent_message_outbox d !! om_ID m = None /\
   agent_message_outbox d' = <[om_ID m := new_outbox_row m]> (agent_message_outbox d)).
Proof.
  unfold insertOutbox. cbv zeta. intros Hr. st_inv. case_match; st_inv; [by left|right]. go_bool. split_and!; try done.
  by apply present_false.
Qed.

Lemma enqueued_effect (c : AgentCommand) m d d1 u d' :
  enqueued c = Some m -> agent_message_outbox d1 = agent_message_outbox d -> insertOutbox m d1 = (Ok u, d') ->
  outbox_changed c d d'.
Proof.
  intros Hc E [Hs|(H1 & H2 & H3 & H4)]%insertOutbox_Ok; [apply outbox_same; congruence|].
  unfold key_taken in H2. rewrite E in *. by eapply outbox_created.
Qed.

Lemma held_message_held id w d m :
  agent_wf d -> held_message id w d = Some m ->
  agent_message_outbox d !! om_ID m = Some m /\ om_ID m = id /\ om_State m = OutboxDelivering /\ om_LeaseOwner m = Some w.
Proof.
  intros Hw (x & Hx & E)%bind_Some. case_match; simplify_eq. go_bool. by destruct (aw_message _ Hw _ _ Hx) as [<- _].
Qed.

Lemma next_message_Some locked now d m :
  agent_wf d -> next_message locked now d = Some m ->
  agent_message_outbox d !! om_ID m = Some m /\ claimable_message locked now m = true.
Proof.
  intros Hw Hn. unfold next_message in Hn.
  assert (m ∈ queue_order message_key (select (claimable_message locked now) (agent_message_outbox d))) as Hin.
  { destruct (queue_order _ _); [done|]. injection Hn as ->. by left. }
  unfold queue_order in Hin. rewrite merge_sort_Permutation in Hin. apply elem_of_select in Hin as [Hc [k Hk]].
  by destruct (aw_message _ Hw _ _ Hk) as [-> _].
Qed.

Lemma bind_reply_outbox m pm now : preserves agent_message_outbox (bind_reply m pm now).
Proof. unfold bind_reply. frames. Qed.

Lemma outbox_effect c d u d' : agent_wf d -> run_agent c d = (Ok u, d') -> outbox_changed c d d'.
Proof.
  intros Hw Hr. pose proof (outbox_frame c) as Hf. destruct c; try (apply outbox_same; by eapply Hf); clear Hf; cbn in Hr.
  - by eapply enqueued_effect.
  - unfold done_with, ClaimOutbox in Hr. cbv zeta in Hr. st_inv. case_match; st_inv; [|by apply outbox_same].
    match goal with Hi : int4 _ _ = _, Hn : next_message _ _ _ = _, Hu : update_outbox _ _ = _ |- _ =>
      apply int4_Ok in Hi as (-> & _ & ->); apply (next_message_Some _ _ _ _ Hw) in Hn as [? ?];
      apply update_outbox_Ok in Hu as [? ->] end.
    by eapply outbox_moved.
  - unfold MarkOutboxDelivered in Hr. apply atomically_Ok, St_bind_Ok in Hr as (o & d0 & [Ho <-]%st_get_Ok & Hr).
    apply St_bind_Ok in Hr as (m & d0 & [-> <-]%st_or_err_Ok & Hr).
    apply (held_message_held _ _ _ _ Hw) in Ho as (? & ? & ? & ?).
    apply St_bind_Ok in Hr as ([] & d1 & [? Hu]%update_outbox_Ok & Hr).
    assert (agent_message_outbox d' = agent_message_outbox d1) as E.
    { case_match; [by eapply bind_reply_outbox|by st_inv]. }
    subst d1. by eapply outbox_moved.
  - unfold MarkOutboxFailed in Hr. st_inv.
    match goal with Hu : update_outbox _ _ = _, Ho : held_message _ _ _ = _ |- _ => apply update_outbox_Ok in Hu as [? ->];
      apply (held_message_held _ _ _ _ Hw) in Ho as (? & ? & ? & ?) end.
    by eapply outbox_moved.
  - unfold MarkRunWaiting in Hr. apply (proj1 (atomically_Ok _ _ _ _)) in Hr. st_inv.
    match goal with Hu : update_run _ _ = _, Hi : insertOutbox _ _ = _ |- _ => apply update_run_Ok in Hu as [_ ->];
      by eapply enqueued_effect in Hi end.
  - unfold FinishRun, DeleteCheckpoint, delete_input in Hr. apply St_bind_Ok in Hr as ([] & d0 & [Hs <-]%st_fail_Ok & Hr).
    apply (proj1 (atomically_Ok _ _ _ _)) in Hr. st_inv.
    match goal with Hu : update_run _ _ = _ |- _ => apply update_run_Ok in Hu as [_ ->] end.
    case_match; [|st_inv; by apply outbox_same]. eapply enqueued_effect; [reflexivity| |eassumption]. reflexivity.
  - apply St_bind_Ok in Hr as (b & d2 & Hr & [= _ ->]). unfold CancelExpiredClarification, DeleteCheckpoint, delete_input in Hr.
    apply St_bind_Ok in Hr as ([] & d0 & [Hs <-]%st_fail_Ok & Hr). apply (proj1 (atomically_Ok _ _ _ _)) in Hr.
    apply St_bind_Ok in Hr as (o & d0 & [Ho <-]%st_get_Ok & Hr). destruct o as [r|]; st_inv; [|by apply outbox_same].
    match goal with Hu : update_run _ _ = _, Hi : insertOutbox _ _ = _ |- _ => apply update_run_Ok in Hu as [_ ->];
      by eapply enqueued_effect in Hi end.
Qed.

(** ** Consistency *)

Lemma row_move_head c r r' : row_move c r r' -> rn_Head r' = rn_Head r.
Proof. destruct c; cbn; intros Hm; try done; destruct_and?; by subst. Qed.

Lemma existsb_false {Y} (f : Y -> bool) l : existsb f l = false -> forall x, x ∈ l -> f x = false.
Proof.
  intros Hf x Hx. apply not_true_is_false. intros E. assert (existsb f l = true); [|congruence].
  apply existsb_exists. exists x. by rewrite <- list_elem_of_In.
Qed.

Lemma same_identity_sym a b : same_identity a b = same_identity b a.
Proof. unfold same_identity. do 2 f_equal; try apply bool_decide_ext; try f_equal; try apply bool_decide_ext; split; congruence. Qed.

Lemma message_move_same c m m' :
  message_move c m m' -> om_ID m' = om_ID m /\ om_DeduplicationKey m' = om_DeduplicationKey m.
Proof. destruct c; cbn; intros Hm; try done; destruct_and?; by subst. Qed.

Lemma call_move_same c t t' : call_move c t t' -> (tc_RunID t', tc_ToolCallID t') = (tc_RunID t, tc_ToolCallID t).
Proof. destruct c; cbn; intros Hm; try done; [destruct Hm as (_ & _ & j & _ & ->)|destruct Hm as (_ & _ & ->)]; done. Qed.

(** The columns of the task of [r] are null or differ from those of [x]. *)
Definition other_task {Y} (o p : option Y) : Prop := o = None \/ p <> o.

Lemma other_task_sym {Y} (o p : option Y) : other_task o p -> other_task p o.
Proof. intros [-> | Hne]; [destruct p; [by right|by left]|right; congruence]. Qed.

Lemma task_free_iff d r :
  task_free d r = true <-> forall k x, agent_run_rows d !! k = Some x ->
    rn_ID (rn_Head x) = rn_ID (rn_Head r) \/
    (other_task (rn_CreatedTaskID r) (rn_CreatedTaskID x) /\ other_task (rn_CreatedTaskNumber r) (rn_CreatedTaskNumber x)).
Proof.
  assert (forall Y (o p : option Y) `{EqDecision Y}, absent o || (p != o) = true <-> other_task o p) as E.
  { intros Y o p ?. unfold other_task, absent. rewrite orb_true_iff, !negb_true_iff, present_false, bool_decide_eq_false. done. }
  unfold task_free. rewrite forallb_forall. split.
  - intros Hf k x Hx. assert (In x (rows (agent_run_rows d))) as Hin by (apply list_elem_of_In, elem_of_rows; eauto).
    apply Hf in Hin. rewrite orb_true_iff, andb_true_iff, !E, bool_decide_eq_true in Hin. done.
  - intros Hf x [k Hx]%list_elem_of_In%elem_of_rows. rewrite orb_true_iff, andb_true_iff, !E, bool_decide_eq_true. eauto.
Qed.

Section keeps.
Context (c : AgentCommand) (d d' : AgentDB) (Hw : agent_wf d).

Lemma runs_keep (He : runs_changed c d d') id r :
  agent_run_rows d' !! id = Some r -> rn_ID (rn_Head r) = id /\ agent_runs_checks r = true.
Proof using Hw.
  destruct He as [->|s s' Hs Hm [Hk _] ->|run _ _ Hk _ _ ->]; [intros Hr; split; by eapply Hw| |];
    intros [[<- <-]|[_ Hr]]%lookup_insert_Some; try (split; by eapply Hw); split; try done.
  by rewrite (row_move_head _ _ _ Hm).
Qed.

Lemma identities_keep (He : runs_changed c d d') i j r s :
  agent_run_rows d' !! i = Some r -> agent_run_rows d' !! j = Some s ->
  same_identity (rn_Head r) (rn_Head s) = true -> i = j.
Proof using Hw.
  destruct He as [->|x x' Hx Hm _ ->|run _ _ _ _ Hf ->]; [by apply Hw| |].
  - intros [[<- <-]|[_ Hr]]%lookup_insert_Some [[<- <-]|[_ Hs]]%lookup_insert_Some; [done| | |by eapply Hw];
      rewrite (row_move_head _ _ _ Hm); by eapply (aw_identity _ Hw).
  - assert (forall k x, agent_run_rows d !! k = Some x -> same_identity (rn_Head x) (rn_Head run) = false) as Hno.
    { intros k x Hx. assert (x ∈ rows (agent_run_rows d)) as Hin by (apply elem_of_rows; eauto).
      apply (existsb_false _ _ Hf) in Hin. by apply orb_false_iff in Hin as [_ ?]. }
    intros [[<- <-]|[_ Hr]]%lookup_insert_Some [[<- <-]|[_ Hs]]%lookup_insert_Some; [done| | |by eapply Hw]; intros E.
    + rewrite same_identity_sym in E. cbn in E. by rewrite (Hno _ _ Hs) in E.
    + cbn in E. by rewrite (Hno _ _ Hr) in E.
Qed.

Lemma fks_keep (He : runs_changed c d d') (Hsame : forall r, run_fks d' r = run_fks d r) id r :
  agent_run_rows d' !! id = Some r -> run_fks d' r = true.
Proof using Hw.
  rewrite Hsame. destruct He as [->|s s' Hs Hm (_ & Hk & _) ->|run _ _ _ Hk _ ->]; [by eapply Hw| |];
    intros [[<- <-]|[_ Hr]]%lookup_insert_Some; try done; by eapply Hw.
Qed.

Lemma tasks_keep (He : runs_changed c d d') id r : agent_run_rows d' !! id = Some r -> task_free d' r = true.
Proof using Hw.
  rewrite task_free_iff. destruct He as [->|s s' Hs Hm (_ & _ & Hk) ->|run _ _ _ _ _ ->].
  - intros Hr. apply task_free_iff. by eapply Hw.
  - rewrite task_free_iff in Hk. pose proof (row_move_head _ _ _ Hm) as Eh.
    intros [[<- <-]|[Hne Hr]]%lookup_insert_Some k x [[<- <-]|[Hne' Hx]]%lookup_insert_Some; [by left|by eapply Hk| |].
    + destruct (Hk _ _ Hr) as [E|[]]; [left; congruence|right]. split; by apply other_task_sym.
    + eapply task_free_iff; [|done]. by eapply Hw.
  - intros [[<- <-]|[Hne Hr]]%lookup_insert_Some k x [[<- <-]|[Hne' Hx]]%lookup_insert_Some; [by left|right; by split; left| |].
    + right. unfold other_task. cbn. destruct (rn_CreatedTaskID r), (rn_CreatedTaskNumber r); split; first [by left|by right].
    + eapply task_free_iff; [|done]. by eapply Hw.
Qed.

Lemma calls_keep (Hc : calls_changed c d d') k t :
  agent_tool_calls d' !! k = Some t -> k = (tc_RunID t, tc_ToolCallID t) /\ agent_tool_calls_checks t = true.
Proof using Hw.
  destruct Hc as [->|s s' Hs Hm Hk ->|call summary _ _ Hk ->]; [by apply Hw| |];
    intros [[<- <-]|[_ Hr]]%lookup_insert_Some; try (by eapply (aw_call _ Hw)); split; try done.
  by rewrite (call_move_same _ _ _ Hm).
Qed.

Lemma messages_keep (Ho : outbox_changed c d d') id m :
  agent_message_outbox d' !! id = Some m -> om_ID m = id /\ agent_message_outbox_checks m = true.
Proof using Hw.
  destruct Ho as [->|s s' Hs Hm Hk ->|x _ Hk _ _ ->]; [by apply Hw| |];
    intros [[<- <-]|[_ Hr]]%lookup_insert_Some; try (by eapply (aw_message _ Hw)); split; try done.
  by destruct (message_move_same _ _ _ Hm).
Qed.

Lemma deduplication_keep (Ho : outbox_changed c d d') i j m n :
  agent_message_outbox d' !! i = Some m -> agent_message_outbox d' !! j = Some n ->
  om_DeduplicationKey m = om_DeduplicationKey n -> i = j.
Proof using Hw.
  destruct Ho as [->|x x' Hx Hm _ ->|x _ _ Hf _ ->]; [by apply Hw| |].
  - destruct (message_move_same _ _ _ Hm) as [_ E].
    intros [[<- <-]|[_ Hr]]%lookup_insert_Some [[<- <-]|[_ Hs]]%lookup_insert_Some; [done| | |by eapply Hw];
      rewrite E; by eapply (aw_deduplicated _ Hw).
  - assert (forall k y, agent_message_outbox d !! k = Some y -> om_DeduplicationKey y <> om_DeduplicationKey x) as Hno.
    { intros k y Hy. assert (y ∈ rows (agent_message_outbox d)) as Hin by (apply elem_of_rows; eauto).
      apply (existsb_false _ _ Hf) in Hin. by apply bool_decide_eq_false in Hin. }
    intros [[<- <-]|[_ Hr]]%lookup_insert_Some [[<- <-]|[_ Hs]]%lookup_insert_Some; [done| | |by eapply Hw]; cbn; intros E.
    + by edestruct Hno.
    + by edestruct Hno.
Qed.
End keeps.

Lemma references_same c d u d' r : run_agent c d = (Ok u, d') -> run_fks d' r = run_fks d r.
Proof.
  intros Hr. unfold run_fks.
  assert (preserves (fun d => (agent_users d, agent_tasks d, agent_conversation_revisions d)) (run_agent c)) as Hp.
  { destruct c; bodies; try (unfold SavePendingResumeInput, DeleteCheckpoint); frames. }
  apply Hp in Hr. cbn in Hr. by injection Hr as -> -> ->.
Qed.

Lemma agent_keeps c d u d' : agent_wf d -> run_agent c d = (Ok u, d') -> agent_wf d'.
Proof.
  intros Hw Hr. pose proof (runs_effect _ _ _ _ Hw Hr) as He. pose proof (calls_effect _ _ _ _ Hw Hr) as Hc.
  pose proof (outbox_effect _ _ _ _ Hw Hr) as Ho. split.
  - intros id r Hk. by apply (runs_keep _ _ _ Hw He).
  - intros id r Hk. by apply (runs_keep _ _ _ Hw He) in Hk as [_ ?].
  - eapply fks_keep; [exact Hw|exact He|]. intros r. by eapply references_same.
  - by apply (tasks_keep c d).
  - by apply (identities_keep c d).
  - by apply (calls_keep c d).
  - by apply (messages_keep c d).
  - by apply (deduplication_keep c d).
Qed.

Lemma agent_step_cases c d :
  agent_step c d = d \/ exists d', agent_step c d = d' /\ run_agent c d = (Ok tt, d').
Proof.
  unfold agent_step. destruct (run_agent c d) as [[[]|e] d'] eqn:E; [right; eauto|left]. by eapply agent_clean.
Qed.

Lemma agent_step_keeps c d : agent_wf d -> agent_wf (agent_step c d).
Proof. intros Hw. destruct (agent_step_cases c d) as [->|(d' & -> & Hr)]; [done|]. by eapply agent_keeps. Qed.

Lemma agent_steps_keep cs d : agent_wf d -> agent_wf (agent_steps cs d).
Proof. revert d. induction cs as [|c cs IH]; intros d Hw; cbn; [done|]. by apply IH, agent_step_keeps. Qed.

End effects.
