(* ===== verification/AgentProperties.v ===== *)
(** * Properties of Agent runs

    The store implements the methods of a run; stored runs stay valid; leases exclude, ends are final,
    results of tool calls and deliveries of messages are kept; the queue serves in order and loses
    no run. *)

From stdpp Require Import base tactics strings pretty gmap list numbers sorting.
From S2P Require Import Prelude Actors Lifecycle StageClaim Delivery Thread Acceptance.
From S2P Require Import Database Tx State ThreadStore AgentRun AgentStore AgentCommands AgentEffects.

(** ** The specification: what a command may do to a run *)

(** A claim of a run whose worker is gone: the run is queued again and claimed, and keeps its place. *)
Definition takeover (w : string) (now : Time) (l : Z) (r r' : Run) : Prop :=
  rn_Status r = RunRunning /\ ends_at (rn_LeaseExpiresAt r) (fun e => e <= now) /\
  exists q, Run_Claim w now l (with_state RunQueued now (clearLease r)) = Ok q /\
    r' = with_state RunRunning (rn_AvailableAt r) q.

(** What a command of the store does to a run. *)
Definition run_effect `{AgentTexts} (c : AgentCommand) (r r' : Run) : Prop :=
  match c with
  | AClaimRun _ w now l => Run_Claim w now l r = Ok r' \/ takeover w now l r r'
  | ARenewRunLease _ w now l => Run_RenewLease w now l r = Ok r'
  | AAddContextMessages _ w n now => rn_LeaseOwner r = w /\ Run_AddContextMessages n now r = Ok r'
  | AAttachTask _ w t n now => rn_LeaseOwner r = w /\ Run_AttachTask t n now r = Ok r'
  | ARetryRun _ w available now => rn_LeaseOwner r = w /\ Run_Retry available now r = Ok r'
  | AMarkRunWaiting _ w i m now => rn_LeaseOwner r = w /\ Run_WaitForUser (pending_message (om_ID m)) i now r = Ok r'
  | AResumeWaitingRun _ u m now | AResumeWaitingRunWithInput _ u m _ now =>
      rn_ClarificationMessageID r = m /\ Run_Resume u now r = Ok r'
  | AFinishRun _ w st cat det _ now =>
      rn_Status r = RunRunning /\ rn_LeaseOwner r = w /\ Run_terminal st cat det now r = Ok r'
  | ACancelExpiredClarification _ _ now =>
      rn_Status r = RunWaitingUser /\ ends_at (rn_ClarificationExpiresAt r) (fun e => e <= now) /\
      Run_Cancel "clarification_expired" "clarification expired" now r = Ok r'
  | AMarkOutboxDelivered id _ pm now =>
      rn_Status r = RunWaitingUser /\ rn_ClarificationMessageID r = pending_message id /\
      r' = with_updated now (with_clarification pm (rn_ClarificationInterruptID r) (rn_ClarificationExpiresAt r) r)
  | _ => False
  end.



(** Arguments in the form in which the methods keep them: texts without surrounding white space, and a
    task that exists. *)
Definition tidy (c : AgentCommand) : bool :=
  match c with
  | AClaimRun _ w _ _ => TrimSpace w == w
  | AAttachTask _ _ t n _ => (t != uuid_Nil) && (0 <? n)
  | AFinishRun _ _ _ cat det _ _ => (TrimSpace cat == cat) && (TrimSpace det == det)
  | _ => true
  end.

Lemma stringValue_nullIfEmpty s : stringValue (nullIfEmpty s) = s.
Proof. unfold nullIfEmpty. by case_bool_decide; subst. Qed.

Lemma fail_if_false {X} b e (k : result X) : b = false -> (fail_if b e ≫= fun _ => k) = k.
Proof. by intros ->. Qed.

Ltac passes := rewrite fail_if_false; [|].

Section properties.
Context `{AgentTexts}.

Lemma claim_method w now l (r : Run) :
  rn_Status r = RunQueued -> blank w = false -> rn_AvailableAt r <= now -> TrimSpace w = w ->
  Run_Claim w now l r = Ok (with_updated now (with_counts (int64 (rn_AttemptCount r + 1)) (rn_ClarificationRounds r)
    (rn_ContextMessagesUsed r) (with_lease w (Some (now + lease_or_default l)) (with_state RunRunning (rn_AvailableAt r) r)))).
Proof.
  intros Hs Hb Ha Ht. unfold Run_Claim, Run_IsTerminal. rewrite Hs, Hb, Ht. cbn [orb].
  unfold Time_Before. destruct (Z.ltb_spec now (rn_AvailableAt r)); [lia|done].
Qed.

Lemma checks_counts (r : RunRow) :
  agent_runs_checks r = true ->
  0 <= rn_AttemptCount r <= MaxInt32 /\ 0 <= rn_ClarificationRounds r <= 3 /\ 0 <= rn_ContextMessagesUsed r <= 100.
Proof. unfold agent_runs_checks, run_count_checks. intros Hc. go_bool. lia. Qed.

Lemma checks_lease (r : RunRow) :
  agent_runs_checks r = true -> rn_Status r <> RunRunning -> rn_LeaseOwner r = None /\ rn_LeaseExpiresAt r = None.
Proof.
  unfold agent_runs_checks, run_lease_check. intros Hc Hs. rewrite (bool_decide_eq_false_2 (_ = RunRunning)) in Hc by done.
  unfold absent in Hc. go_bool. by rewrite <- !present_false.
Qed.

Lemma counts_int64 z : 0 <= z <= MaxInt32 -> int64 z = z.
Proof. unfold MaxInt32. intros. apply int64_small. unfold MaxInt64. lia. Qed.

Lemma resume_method u now r e :
  rn_Status r = RunWaitingUser -> rn_InitiatingUserID (rn_Head r) = u -> rn_ClarificationExpiresAt r = Some e -> now < e ->
  Run_Resume u now (scanAgentRun r) = Ok (scanAgentRun (resumed_run now r)).
Proof.
  intros Hs Hu Ee He. unfold Run_Resume. cbn. rewrite Hs, Hu, Ee. cbn. rewrite (bool_decide_eq_true_2 (u = u)) by done.
  cbn. unfold Time_Before. by destruct (Z.ltb_spec now e); [|lia].
Qed.

Lemma row_move_method c r r' :
  row_move c r r' -> agent_runs_checks r = true -> agent_runs_checks r' = true -> tidy c = true ->
  run_effect c (scanAgentRun r) (scanAgentRun r').
Proof.
  intros Hm Hc Hc' Ht. pose proof (checks_counts _ Hc) as (Ha & Hcl & Hx). pose proof (checks_counts _ Hc') as (Ha' & _ & Hx').
  destruct c; cbn in Hm, Ht |- *; try done.
  - destruct Hm as (Hcl' & Hw & ->). apply bool_decide_eq_true in Ht. cbn in Ha'.
    assert (blank workerID = false) as Hb by (apply blank_false; congruence).
    apply andb_true_iff in Hcl' as [[[Hs Hav]%andb_true_iff|[Hs Hl]%andb_true_iff]%orb_true_iff _]; go_bool.
    + left. rewrite claim_method by done. cbn. by rewrite counts_int64.
    + right. destruct (rn_LeaseExpiresAt r) as [e|] eqn:Ee; [|done]. go_bool. split_and!; [done|by exists e|].
      eexists. rewrite claim_method; [|done|done|cbn; lia|done]. split; [done|]. cbn. by rewrite counts_int64.
  - destruct Hm as (_ & [Hs Ho] & (e & Ee & He) & ->). unfold Run_RenewLease. passes.
    + cbn. by rewrite Ho.
    + cbn. rewrite Hs, Ho, Ee. unfold Time_After. cbn. rewrite !bool_decide_eq_true_2 by done. cbn. apply Z.ltb_ge. lia.
  - destruct Hm as (_ & [Hs Ho] & Hn & Hle & ->). split; [cbn; by rewrite Ho|]. unfold Run_AddContextMessages.
    change (rn_ContextMessagesUsed (scanAgentRun r)) with (rn_ContextMessagesUsed r).
    rewrite (counts_int64 (_ + _)) by (unfold MaxContextMessages, MaxInt32 in *; lia). passes; [done|].
    rewrite orb_false_iff, !Z.ltb_ge. lia.
  - destruct Hm as (_ & [Hs Ho] & Hnone & ->). go_bool. split; [cbn; by rewrite Ho|]. unfold Run_AttachTask. cbn.
    rewrite Hnone. passes; [done|]. rewrite Hs, !orb_false_iff, !bool_decide_eq_false. split_and!; [done|done|]. apply Z.leb_gt. lia.
  - destruct Hm as (_ & [Hs Ho] & ->). split; [cbn; by rewrite Ho|]. unfold Run_Retry. cbn. by rewrite Hs.
  - destruct Hm as (Hs & Hp & ->). split_and!; [done|cbn; by rewrite Hp|done].
  - destruct Hm as (_ & [Hs Ho] & Hr & Hb & ->). split; [cbn; by rewrite Ho|]. unfold Run_WaitForUser.
    passes; [passes; [passes; [done|]|]|].
    + rewrite Hb, orb_false_r. apply blank_first. done.
    + by apply Z.leb_gt.
    + cbn. by rewrite Hs.
  - destruct Hm as (_ & Hs & Hu & Hp & (e & Ee & He) & ->). split; [cbn; by rewrite Hp|]. by eapply resume_method.
  - destruct Hm as (_ & Hs & Hu & Hp & (e & Ee & He) & ->). split; [cbn; by rewrite Hp|]. by eapply resume_method.
  - destruct Hm as (_ & [Hs Ho] & Hst & ->). go_bool. split_and!; [done|cbn; by rewrite Ho|]. unfold Run_terminal.
    passes; [|repeat (apply elem_of_cons in Hst as [-> | Hst]; [done|]); by apply elem_of_nil in Hst].
    unfold scanAgentRun, ended_run. cbn -[stringValue nullIfEmpty]. rewrite !stringValue_nullIfEmpty. by repeat match goal with E : TrimSpace _ = _ |- _ => rewrite E; clear E end.
  - destruct Hm as (_ & Hs & (e & Ee & He) & ->). split_and!; [done|by exists e|]. unfold Run_Cancel, Run_IsTerminal. cbn.
    rewrite Hs. cbn. destruct (checks_lease _ Hc) as [E1 E2]; [by rewrite Hs|].
    unfold scanAgentRun, ended_run. cbn. by rewrite E1, E2.
Qed.




(** ** Validity *)

Record valid (r : Run) : Prop := {
  v_head : validate_head r = true;
  v_updated : rn_UpdatedAt r <> 0;
  v_available : rn_AvailableAt r <> 0;
  v_counts : validate_counts r = true;
  v_task : validate_task r = true;
  v_terminal : Run_IsTerminal r = bool_decide (is_Some (rn_CompletedAt r));
  v_lease : validate_lease r = true;
  v_clarification : validate_clarification r = true;
}.

Lemma Run_Validate_valid r : Run_Validate r = Ok tt <-> valid r.
Proof.
  unfold Run_Validate, Time_IsZero. rewrite fail_if_Ok, negb_false_iff, !andb_true_iff, !negb_true_iff, bool_decide_eq_true,
    !bool_decide_eq_false. split; [|intros []; tauto]. intros ?. by constructor; destruct_and?.
Qed.

(** What the clock and the provider must give for the new run to be valid. *)
Definition clocked (c : AgentCommand) : bool :=
  match c with
  | AClaimRun _ _ now _ | ARenewRunLease _ _ now _ | AAddContextMessages _ _ _ now | AAttachTask _ _ _ _ now
  | AMarkRunWaiting _ _ _ _ now | AResumeWaitingRun _ _ _ now | AResumeWaitingRunWithInput _ _ _ _ now
  | AFinishRun _ _ _ _ _ _ now | ACancelExpiredClarification _ _ now => now != 0
  | ARetryRun _ _ available now => (available != 0) && (now != 0)
  | AMarkOutboxDelivered _ _ pm now => negb (blank pm) && (now != 0)
  | _ => true
  end.

Lemma counts_valid (r : Run) :
  validate_counts r = true <-> validStatus (rn_Status r) = true /\ 0 <= rn_AttemptCount r /\
    0 <= rn_ClarificationRounds r <= MaxClarificationRounds /\ 0 <= rn_ContextMessagesUsed r <= MaxContextMessages.
Proof. unfold validate_counts. rewrite !andb_true_iff, !Z.leb_le. tauto. Qed.

Lemma claim_valid w now l r r' :
  now <> 0 -> rn_AttemptCount r < MaxInt64 -> valid r -> Run_Claim w now l r = Ok r' -> valid r'.
Proof.
  intros Hn Ha [V1 V2 V3 V4 V5 V6 V7 V8] Hr. unfold Run_Claim in Hr.
  apply bind_Ok in Hr as ([] & Ht%fail_if_Ok & Hr). apply bind_Ok in Hr as ([] & Hf%fail_if_Ok & [= <-]).
  apply orb_false_iff in Hf as [[Hs Hb]%orb_false_iff _]. apply negb_false_iff, bool_decide_eq_true in Hs.
  apply counts_valid in V4 as (_ & Hat & Hcl & Hcx).
  rewrite Ht in V6. split; [exact V1|exact Hn|exact V3| |exact V5|exact V6| |reflexivity].
  - apply counts_valid. cbn. rewrite int64_small by (unfold MaxInt64 in *; lia). split_and!; [done|lia|lia|lia|lia|lia].
  - change (negb (blank (TrimSpace w)) && true = true). unfold blank in *. by rewrite GoStrings.TrimSpace_idemp, Hb.
Qed.

Lemma takeover_valid w now l r r' :
  now <> 0 -> rn_AttemptCount r < MaxInt64 -> valid r -> takeover w now l r r' -> valid r'.
Proof.
  intros Hn Ha V (Hs & _ & q & Hq & ->). assert (valid q) as Vq.
  { eapply claim_valid; [exact Hn| | |exact Hq]; [exact Ha|]. destruct V as [V1 V2 V3 V4 V5 V6 V7 V8].
    apply counts_valid in V4 as (_ & ?). unfold Run_IsTerminal in V6. rewrite Hs in V6.
    split; [exact V1|exact V2|exact Hn| |exact V5|exact V6|reflexivity|reflexivity]. by apply counts_valid. }
  unfold Run_Claim in Hq. apply bind_Ok in Hq as ([] & _ & Hq). apply bind_Ok in Hq as ([] & _ & [= <-]).
  destruct Vq as [V1 V2 V3 V4 V5 V6 V7 V8]. split; try assumption. apply V.
Qed.

Lemma worker_method_valid c (r r' : Run) :
  clocked c = true -> valid r -> rn_Status r = RunRunning ->
  match c with
  | ARenewRunLease _ w now l => Run_RenewLease w now l r = Ok r' -> valid r'
  | AAddContextMessages _ _ n now => Run_AddContextMessages n now r = Ok r' -> n <= MaxInt32 -> valid r'
  | AAttachTask _ _ t n now => Run_AttachTask t n now r = Ok r' -> valid r'
  | ARetryRun _ _ available now => Run_Retry available now r = Ok r' -> valid r'
  | _ => True
  end.
Proof.
  intros Hc V Hs. pose proof (v_lease _ V) as Hl. unfold validate_lease in Hl. rewrite Hs in Hl.
  change (negb (blank (rn_LeaseOwner r)) && bool_decide (is_Some (rn_LeaseExpiresAt r)) = true) in Hl.
  apply andb_true_iff in Hl as [Hb Hex]. pose proof (v_counts _ V) as (_ & Hat & Hcl & Hcx)%counts_valid.
  destruct V as [V1 V2 V3 V4 V5 V6 V7 V8].
  destruct c; cbn in Hc; try exact I; intros Hr; go_bool.
  - unfold Run_RenewLease in Hr. apply bind_Ok in Hr as ([] & _ & [= <-]). split; try assumption.
    unfold validate_lease. cbn. rewrite Hs. change (negb (blank (rn_LeaseOwner r)) && true = true). by rewrite Hb.
  - intros Hn. unfold Run_AddContextMessages in Hr. apply bind_Ok in Hr as ([] & Hf%fail_if_Ok & [= <-]).
    apply orb_false_iff in Hf as [H1%Z.ltb_ge H2%Z.ltb_ge].
    rewrite int64_small in H2 by (unfold MaxContextMessages, MaxInt32, MaxInt64 in *; lia).
    split; try assumption. apply counts_valid. cbn. rewrite Hs, int64_small by (unfold MaxContextMessages, MaxInt32, MaxInt64 in *; lia).
    split_and!; [done|lia|lia|lia|lia|lia].
  - unfold Run_AttachTask in Hr. destruct (rn_CreatedTaskID r); [case_match; [|done]; injection Hr as <-; by split|].
    apply bind_Ok in Hr as ([] & Hf%fail_if_Ok & [= <-]). go_bool. split; try assumption.
    unfold validate_task. cbn. apply andb_true_iff. split; [by apply negb_true_iff, bool_decide_eq_false|by apply Z.ltb_lt].
  - unfold Run_Retry in Hr. apply bind_Ok in Hr as ([] & _ & [= <-]). unfold Run_IsTerminal in V6. rewrite Hs in V6.
    split; try assumption; try done. apply counts_valid. cbn. split_and!; [done|lia|lia|lia|lia|lia].
Qed.

Lemma wait_valid m i now (r r' : Run) :
  now <> 0 -> valid r -> Run_WaitForUser m i now r = Ok r' -> valid r'.
Proof.
  intros Hn [V1 V2 V3 V4 V5 V6 V7 V8] Hr. unfold Run_WaitForUser in Hr.
  apply bind_Ok in Hr as ([] & Hs%fail_if_Ok & Hr). apply bind_Ok in Hr as ([] & Hc%fail_if_Ok & Hr).
  apply bind_Ok in Hr as ([] & Hb%fail_if_Ok & [= <-]). apply negb_false_iff, bool_decide_eq_true in Hs.
  apply Z.leb_gt in Hc. apply orb_false_iff in Hb as [Hm Hi]. apply counts_valid in V4 as (_ & Hat & Hcl & Hcx).
  unfold Run_IsTerminal in V6. rewrite Hs in V6.
  split; [exact V1|exact Hn|exact V3| |exact V5|exact V6|reflexivity|].
  - apply counts_valid. cbn. unfold MaxClarificationRounds in *. rewrite int64_small by (unfold MaxInt64; lia).
    split_and!; [done|lia|lia|lia|lia|lia].
  - change (negb (blank (TrimSpace m)) && negb (blank (TrimSpace i)) && true = true). unfold blank in *.
    by rewrite !GoStrings.TrimSpace_idemp, Hm, Hi.
Qed.

Lemma resume_valid u now (r r' : Run) : now <> 0 -> valid r -> Run_Resume u now r = Ok r' -> valid r'.
Proof.
  intros Hn [V1 V2 V3 V4 V5 V6 V7 V8] Hr. unfold Run_Resume in Hr. apply bind_Ok in Hr as ([] & Hs%fail_if_Ok & Hr).
  apply negb_false_iff, bool_decide_eq_true in Hs.
  apply bind_Ok in Hr as ([] & _ & Hr). apply bind_Ok in Hr as ([] & _ & [= <-]).
  apply counts_valid in V4 as (_ & ?). unfold Run_IsTerminal in V6. rewrite Hs in V6. unfold validate_lease in V7. rewrite Hs in V7.
  split; [exact V1|exact Hn|exact Hn| |exact V5|exact V6|exact V7|reflexivity]. by apply counts_valid.
Qed.

Lemma terminal_valid st cat det now (r r' : Run) : now <> 0 -> valid r -> Run_terminal st cat det now r = Ok r' -> valid r'.
Proof.
  intros Hn [V1 V2 V3 V4 V5 V6 V7 V8] Hr. unfold Run_terminal in Hr. apply bind_Ok in Hr as ([] & Hs%fail_if_Ok & [= <-]).
  apply counts_valid in V4 as (_ & Hat & Hcl & Hcx).
  assert (st = RunSucceeded \/ st = RunFailed \/ st = RunCancelled) as Hst.
  { destruct (decide (st = RunSucceeded)), (decide (st = RunFailed)), (decide (st = RunCancelled)); try tauto.
    by rewrite !bool_decide_eq_false_2 in Hs. }
  split; [exact V1|exact Hn|exact V3| |exact V5|by destruct Hst as [-> | [-> | ->]]..].
  apply counts_valid. split; [by destruct Hst as [-> | [-> | ->]]|]. split_and!; apply Hat || apply Hcl || apply Hcx.
Qed.

Lemma delivered_valid pm now (r : Run) :
  now <> 0 -> blank pm = false -> valid r -> rn_Status r = RunWaitingUser ->
  valid (with_updated now (with_clarification pm (rn_ClarificationInterruptID r) (rn_ClarificationExpiresAt r) r)).
Proof.
  intros Hn Hb [V1 V2 V3 V4 V5 V6 V7 V8] Hs. split; try assumption. unfold validate_clarification in *. rewrite Hs in V8.
  change (negb (blank (rn_ClarificationMessageID r)) && negb (blank (rn_ClarificationInterruptID r)) &&
    bool_decide (is_Some (rn_ClarificationExpiresAt r)) = true) in V8.
  cbn [rn_Status rn_ClarificationMessageID rn_ClarificationInterruptID rn_ClarificationExpiresAt with_updated with_clarification].
  rewrite Hs, Hb. apply andb_true_iff in V8 as [[_ V8]%andb_true_iff V9]. by rewrite V8, V9.
Qed.

Lemma row_move_valid c r r' :
  row_move c r r' -> agent_runs_checks r = true -> agent_runs_checks r' = true -> tidy c = true -> clocked c = true ->
  valid (scanAgentRun r) -> valid (scanAgentRun r').
Proof.
  intros Hm Hc Hc' Ht Hk V. pose proof (row_move_method _ _ _ Hm Hc Hc' Ht) as Hr.
  pose proof (checks_counts _ Hc) as (Ha & _ & Hx).
  pose proof (fun Hs => worker_method_valid c _ (scanAgentRun r') Hk V Hs) as Hworker.
  destruct c; cbn in Hm, Hr, Hk; try done; try (apply Hworker; [apply Hm|apply Hr]); go_bool.
  - assert (rn_AttemptCount (scanAgentRun r) < MaxInt64) by (unfold MaxInt32, MaxInt64 in *; cbn; lia).
    destruct Hr as [Hr|Hr]; [by eapply claim_valid|by eapply takeover_valid].
  - apply Hworker; [apply Hm|apply Hr|]. destruct Hm as (_ & _ & _ & Hle & _). unfold MaxContextMessages, MaxInt32 in *. lia.
  - destruct Hr as (Hs & _ & ->). by apply delivered_valid.
  - eapply wait_valid; [done|exact V|apply Hr].
  - eapply resume_valid; [done|exact V|apply Hr].
  - eapply resume_valid; [done|exact V|apply Hr].
  - eapply terminal_valid; [done|exact V|apply Hr].
  - destruct Hr as (_ & _ & Hr). unfold Run_Cancel in Hr. apply bind_Ok in Hr as ([] & _ & Hr). by eapply terminal_valid.
Qed.

(** Only a queued run can be inserted, and it reads back valid. *)
Lemma created_queued run : agent_runs_checks (new_run_row run) = true -> rn_Status run = RunQueued.
Proof.
  unfold agent_runs_checks, run_lease_check, run_clarification_check. intros [[[[Hc Hl]%andb_true_iff Hcl]%andb_true_iff _]%andb_true_iff Hd]%andb_true_iff.
  assert (validStatus (rn_Status run) = true) as Hs by (go_bool; done).
  unfold validStatus in Hs. apply bool_decide_eq_true in Hs. rewrite !elem_of_cons, elem_of_nil in Hs.
  change (rn_Status (new_run_row run)) with (rn_Status run) in *.
  destruct Hs as [? | [E | [E | [E | [E | [E | []]]]]]]; [done|exfalso..]; rewrite E in Hl, Hcl, Hd;
    first [discriminate Hl|discriminate Hcl|discriminate Hd].
Qed.

Lemma created_valid run :
  Run_Validate run = Ok tt -> agent_runs_checks (new_run_row run) = true -> valid (scanAgentRun (new_run_row run)).
Proof.
  intros [V1 V2 V3 V4 V5 V6 V7 V8]%Run_Validate_valid Hc%created_queued.
  split; [exact V1|exact V2|exact V3|exact V4|reflexivity| | |]; unfold Run_IsTerminal, validate_lease, validate_clarification;
    cbn; by rewrite Hc.
Qed.

(** ** Theorems *)


Definition runs_valid (d : AgentDB) : Prop :=
  forall id r, agent_run_rows d !! id = Some r -> Run_Validate (scanAgentRun r) = Ok tt.

Lemma step_valid c d :
  agent_wf d -> tidy c = true -> clocked c = true -> runs_valid d -> runs_valid (agent_step c d).
Proof.
  intros Hw Ht Hk Hv. destruct (agent_step_cases c d) as [->|(d' & -> & Hr)]; [done|]. intros id r.
  destruct (runs_effect _ _ _ _ Hw Hr) as [->|s s' Hs Hm [Hc' _] ->|run _ Hrun Hc _ _ ->]; [apply Hv| |];
    intros [[<- <-]|[_ ?]]%lookup_insert_Some; try (by eapply Hv); apply Run_Validate_valid.
  - eapply row_move_valid; [done|by eapply aw_checks|done|done|done|]. apply Run_Validate_valid. by eapply Hv.
  - by apply created_valid.
Qed.

(** C17: stored runs are valid.  Whatever commands run, with trimmed texts and a running clock, every run
    that the store returns passes [Run.Validate]: a lease exactly while it runs, an end time exactly when
    it has ended, a pending question while it waits, and its counters within their limits. *)
Theorem agent_runs_valid cs d (Hw : agent_wf d) (Hv : runs_valid d)
  (Hcs : forallb (fun c => tidy c && clocked c) cs = true) : runs_valid (agent_steps cs d).
Proof.
  revert d Hw Hv. induction cs as [|c cs IH]; intros d Hw Hv; cbn in *; [done|].
  apply andb_true_iff in Hcs as [[Ht Hk]%andb_true_iff Hcs]. apply IH; [done|by apply agent_step_keeps|by apply step_valid].
Qed.

(** ** Leases and ends *)

Lemma row_stays c d id r :
  agent_wf d -> agent_run_rows d !! id = Some r -> (forall r', ~ row_move c r r') ->
  agent_run_rows (agent_step c d) !! id = Some r.
Proof.
  intros Hw Hk Hno. destruct (agent_step_cases c d) as [->|(d' & -> & Hr)]; [done|].
  destruct (runs_effect _ _ _ _ Hw Hr) as [->|s s' Hs Hm _ ->|run _ _ _ _ Hf ->]; [done| |].
  - rewrite lookup_insert_ne; [done|]. intros E. rewrite E in Hs. assert (s = r) as -> by congruence. by eapply Hno.
  - rewrite lookup_insert_ne; [done|]. intros E. assert (r ∈ rows (agent_run_rows d)) as Hin by (apply elem_of_rows; eauto).
    apply (existsb_false _ _ Hf) in Hin. apply orb_false_iff in Hin as [Hin _]. apply bool_decide_eq_false in Hin. apply Hin.
    by rewrite (aw_key _ Hw _ _ Hk).
Qed.

Lemma row_stays_steps (P : AgentCommand -> Prop) cs d id r :
  agent_wf d -> agent_run_rows d !! id = Some r -> (forall c, c ∈ cs -> P c) ->
  (forall c r', P c -> ~ row_move c r r') -> agent_run_rows (agent_steps cs d) !! id = Some r.
Proof.
  intros Hw Hk Hcs Hno. revert d Hw Hk. induction cs as [|c cs IH]; intros d Hw Hk; cbn; [done|]. apply IH.
  - intros c' Hc'. apply Hcs. by right.
  - by apply agent_step_keeps.
  - apply row_stays; [done|done|]. intros r'. apply Hno, Hcs. by left.
Qed.

(** A command of worker [w] on run [id]. *)
Definition acts_for (w : string) (id : UUID) (c : AgentCommand) : bool :=
  match c with
  | ARenewRunLease id' w' _ _ | AAddContextMessages id' w' _ _ | AAttachTask id' w' _ _ _ | ARetryRun id' w' _ _
  | AMarkRunWaiting id' w' _ _ _ | AFinishRun id' w' _ _ _ _ _ => (id' == id) && (w' == w)
  | _ => false
  end.

(** C18: a lease cannot be stolen.  While the lease of a worker on a run lasts, no command of anybody
    else changes the run, in any order and number: not another claim, not the commands of other
    workers, not a late answer or expiry. *)
Theorem lease_not_stolen cs d id r w e
  (Hw : agent_wf d) (Hk : agent_run_rows d !! id = Some r) (Hs : rn_Status r = RunRunning)
  (Ho : rn_LeaseOwner r = Some w) (He : rn_LeaseExpiresAt r = Some e)
  (Hother : forall c, c ∈ cs -> acts_for w id c = false)
  (Hclock : forall locked w' now l, AClaimRun locked w' now l ∈ cs -> now < e) :
  agent_run_rows (agent_steps cs d) !! id = Some r.
Proof.
  apply (row_stays_steps (fun c => acts_for w id c = false /\ forall locked w' now l, c = AClaimRun locked w' now l -> now < e));
    [done|done| |].
  - intros c Hc. split; [by apply Hother|]. intros locked w' now l ->. by eapply Hclock.
  - pose proof (aw_key _ Hw _ _ Hk) as Hid. assert (RunRunning <> RunWaitingUser) by done. intros c r' [Hact Hcl] Hm. destruct c; cbn in Hm, Hact; try done.
    1: { destruct Hm as (Hc & _). unfold claimable_run in Hc. rewrite Hs, He in Hc. cbn in Hc.
         apply andb_true_iff in Hc as [Hc _]. apply Z.leb_le in Hc. pose proof (Hcl _ _ _ _ eq_refl). lia. }
    all: destruct_and? Hm; unfold held_by in *; destruct_and?; try congruence.
    all: apply andb_false_iff in Hact as [Ha|Ha]; apply bool_decide_eq_false in Ha; congruence.
Qed.

(** The end of a run is final: no sequence of commands changes a run that has succeeded, failed or been
    cancelled. *)
Theorem ended_runs_final cs d id r
  (Hw : agent_wf d) (Hk : agent_run_rows d !! id = Some r) (Ht : Run_IsTerminal (scanAgentRun r) = true) :
  agent_run_rows (agent_steps cs d) !! id = Some r.
Proof.
  apply (row_stays_steps (fun _ => True)); [done|done|done|]. intros c r' _ Hm.
  assert (rn_Status r <> RunQueued /\ rn_Status r <> RunRunning /\ rn_Status r <> RunWaitingUser) as (H1 & H2 & H3).
  { unfold Run_IsTerminal in Ht. cbn in Ht. rewrite !orb_true_iff, !bool_decide_eq_true in Ht.
    by destruct Ht as [[-> | ->] | ->]. }
  destruct c; cbn in Hm; try done; unfold held_by in *; destruct_and? Hm; try done.
  match goal with Hc : claimable_run _ _ _ = true |- _ => unfold claimable_run in Hc end.
  rewrite (bool_decide_eq_false_2 (_ = RunQueued)), (bool_decide_eq_false_2 (_ = RunRunning)) in * by done. done.
Qed.

(** ** Progress *)

(** A new row keeps the references of the old one. *)
Lemma update_run_succeeds (r r' : RunRow) d :
  agent_wf d -> agent_run_rows d !! rn_ID (rn_Head r) = Some r -> rn_Head r' = rn_Head r ->
  rn_CreatedTaskID r' = rn_CreatedTaskID r -> rn_CreatedTaskNumber r' = rn_CreatedTaskNumber r ->
  agent_runs_checks r' = true ->
  update_run r' d = (Ok tt, set_runs (<[rn_ID (rn_Head r) := r']> (agent_run_rows d)) d).
Proof.
  intros Hw Hk Eh Et En Hc. apply update_run_Ok. split; [split; [done|]|by rewrite Eh].
  pose proof (aw_fks _ Hw _ _ Hk) as Hf. pose proof (aw_task _ Hw _ _ Hk) as Hfree.
  unfold run_fks, task_free in *. by rewrite Eh, Et, En.
Qed.

Definition terminal_status (st : RunStatus) : bool := bool_decide (st ∈ [RunSucceeded; RunFailed; RunCancelled]).

(** The constraints of a row that changed in its state, counters, lease and end. *)
Lemma checks_after (r r' : RunRow) :
  agent_runs_checks r = true -> rn_Head r' = rn_Head r -> rn_CreatedTaskID r' = rn_CreatedTaskID r ->
  rn_CreatedTaskNumber r' = rn_CreatedTaskNumber r -> validStatus (rn_Status r') = true -> run_count_checks r' = true ->
  run_lease_check r' = true -> rn_Status r' <> RunWaitingUser ->
  terminal_status (rn_Status r') = present (rn_CompletedAt r') -> agent_runs_checks r' = true.
Proof.
  unfold agent_runs_checks, run_clarification_check. intros Hc -> -> -> -> -> -> Hs Hd.
  unfold terminal_status in Hd. rewrite Hd, (bool_decide_eq_false_2 (_ = RunWaitingUser)) by done.
  apply andb_true_iff in Hc as [[Hc Ht]%andb_true_iff _].
  do 4 apply andb_true_iff in Hc as [Hc _]. rewrite Ht, Hc. by rewrite bool_decide_eq_true_2.
Qed.

Lemma counts_of (r r' : RunRow) :
  agent_runs_checks r = true -> rn_AttemptCount r' = rn_AttemptCount r -> rn_ClarificationRounds r' = rn_ClarificationRounds r ->
  rn_ContextMessagesUsed r' = rn_ContextMessagesUsed r -> run_count_checks r' = true.
Proof. unfold agent_runs_checks, run_count_checks. intros Hc -> -> ->. go_bool. rewrite !andb_true_iff, !Z.leb_le. lia. Qed.

Lemma retry_succeeds d id r w available now :
  agent_wf d -> agent_run_rows d !! id = Some r -> rn_Status r = RunRunning -> rn_LeaseOwner r = Some w ->
  RetryRun id w available now d =
    (Ok tt, set_runs (<[id := with_updated now (with_lease None None (with_state RunQueued available r))]> (agent_run_rows d)) d).
Proof.
  intros Hw Hk Hs Ho. pose proof (aw_key _ Hw _ _ Hk) as Hid. pose proof (aw_checks _ Hw _ _ Hk) as Hc. unfold RetryRun.
  assert (held_run id w d = Some r) as Hh by (by apply held_run_Some).
  unfold mbind, St_bind, st_get, st_or_err, st_lift. rewrite Hh, <- Hid. apply update_run_succeeds; try done; [by rewrite Hid|].
  apply (checks_after r); try done; [by apply (counts_of r)|].
  unfold agent_runs_checks in Hc. apply andb_true_iff in Hc as [_ Hc]. rewrite Hs in Hc. by apply bool_decide_eq_true in Hc.
Qed.

Lemma finish_succeeds d id r w st cat det now :
  agent_wf d -> agent_run_rows d !! id = Some r -> rn_Status r = RunRunning -> rn_LeaseOwner r = Some w ->
  st ∈ [RunSucceeded; RunFailed; RunCancelled] ->
  FinishRun id w st cat det None now d =
    (Ok tt, set_inputs (delete id (agent_run_inputs d)) (set_checkpoints (delete id (agent_run_checkpoints d))
      (set_runs (<[id := with_lease None None (ended_run st (nullIfEmpty cat) (nullIfEmpty det) now r)]> (agent_run_rows d)) d))).
Proof.
  intros Hw Hk Hs Ho Hst. pose proof (aw_key _ Hw _ _ Hk) as Hid. pose proof (aw_checks _ Hw _ _ Hk) as Hc.
  assert (held_run id w d = Some r) as Hh by (by apply held_run_Some).
  set (r' := with_lease None None (ended_run st (nullIfEmpty cat) (nullIfEmpty det) now r)).
  assert (update_run r' d = (Ok tt, set_runs (<[id := r']> (agent_run_rows d)) d)) as Hu.
  { rewrite <- Hid. apply update_run_succeeds; try done; [by rewrite Hid|]. apply (checks_after r); try done.
    - by repeat (apply elem_of_cons in Hst as [-> | Hst]; [done|]); apply elem_of_nil in Hst.
    - by apply (counts_of r).
    - by repeat (apply elem_of_cons in Hst as [-> | Hst]; [done|]); apply elem_of_nil in Hst.
    - by repeat (apply elem_of_cons in Hst as [-> | Hst]; [done|]); apply elem_of_nil in Hst.
    - cbn. unfold terminal_status. by rewrite bool_decide_eq_true_2. }
  assert ((st != RunSucceeded) && (st != RunFailed) && (st != RunCancelled) = false) as Hok.
  { by repeat (apply elem_of_cons in Hst as [-> | Hst]; [done|]); apply elem_of_nil in Hst. }
  unfold FinishRun, atomically, mbind, St_bind, st_get, st_or_err, st_fail, st_lift. rewrite Hok, Hh. cbn [fail_if]. subst r'. by rewrite Hu.
Qed.

(** The holder of a lease can always give its run back, or end it: whatever happened before, neither
    constraints nor references stop it; the run is queued again without a lease, or has ended with its
    input and checkpoint removed. *)
Theorem lease_holder_succeeds d id r w available st cat det now
  (Hw : agent_wf d) (Hk : agent_run_rows d !! id = Some r) (Hs : rn_Status r = RunRunning) (Ho : rn_LeaseOwner r = Some w)
  (Hst : st ∈ [RunSucceeded; RunFailed; RunCancelled]) :
  (exists d' r', RetryRun id w available now d = (Ok tt, d') /\ agent_run_rows d' !! id = Some r' /\
     rn_Status r' = RunQueued /\ rn_LeaseOwner r' = None /\ rn_AvailableAt r' = available) /\
  (exists d' r', FinishRun id w st cat det None now d = (Ok tt, d') /\ agent_run_rows d' !! id = Some r' /\
     rn_Status r' = st /\ rn_CompletedAt r' = Some now /\
     agent_run_inputs d' !! id = None /\ agent_run_checkpoints d' !! id = None).
Proof.
  split.
  - do 2 eexists. rewrite (retry_succeeds d id r) by done. split; [done|]. cbn. by rewrite lookup_insert_eq.
  - do 2 eexists. rewrite (finish_succeeds d id r) by done. split; [done|]. cbn.
    rewrite lookup_insert_eq, !lookup_delete_eq. done.
Qed.

(** ** The queue *)

#[local] Instance queue_le_total : Total queue_le.
Proof. intros [[a1 a2] a3] [[b1 b2] b3]. unfold queue_le. cbn. lia. Qed.
#[local] Instance queue_le_trans : Transitive queue_le.
Proof. intros [[a1 a2] a3] [[b1 b2] b3] [[c1 c2] c3]. unfold queue_le. cbn. lia. Qed.

Lemma queue_head {X} (key : X -> Time * Time * UUID) l x :
  head (queue_order key l) = Some x -> x ∈ l /\ forall y, y ∈ l -> queue_le (key x) (key y).
Proof.
  intros Hh. pose proof (merge_sort_Permutation (fun x y => queue_le (key x) (key y)) l) as Hp.
  assert (StronglySorted (fun x y => queue_le (key x) (key y)) (queue_order key l)) as Hs.
  { apply Sorted_StronglySorted; [intros a b c; apply queue_le_trans|]. apply Sorted_merge_sort. intros a b. apply queue_le_total. }
  unfold queue_order in *. destruct (merge_sort _ l) as [|z q]; [done|]. injection Hh as ->. split.
  - rewrite <- Hp. by left.
  - intros y Hy. rewrite <- Hp in Hy. apply elem_of_cons in Hy as [-> | Hy]; [destruct (queue_le_total (key x) (key x)); done|].
    inversion Hs as [|? ? ? Hall]. subst. rewrite Forall_forall in Hall. by apply Hall.
Qed.

Lemma queue_head_None {X} (key : X -> Time * Time * UUID) l : head (queue_order key l) = None -> l = [].
Proof.
  pose proof (merge_sort_Permutation (fun x y => queue_le (key x) (key y)) l) as Hp. unfold queue_order.
  destruct (merge_sort _ l); [|done]. intros _. by apply Permutation_nil.
Qed.

(** The queue is served in order and loses no run.  As soon as a run that nobody else is claiming is
    due, because it is queued and available or because the lease of its worker has expired, a claim
    succeeds: it takes the first due run by availability, creation and identifier, counts the attempt
    and stores the new lease. *)
Theorem due_run_claimed locked w now l d k x
  (Hw : agent_wf d) (Hne : w <> "") (Hk : agent_run_rows d !! k = Some x) (Hx : claimable_run locked now x = true)
  (Hattempts : forall j y, agent_run_rows d !! j = Some y -> claimable_run locked now y = true -> rn_AttemptCount y < MaxInt32) :
  exists r run d', ClaimRun locked w now l d = (Ok (Some run), d') /\
    agent_run_rows d !! rn_ID (rn_Head r) = Some r /\ claimable_run locked now r = true /\
    (forall j y, agent_run_rows d !! j = Some y -> claimable_run locked now y = true -> queue_le (run_key r) (run_key y)) /\
    (exists r', agent_run_rows d' !! rn_ID (rn_Head r) = Some r' /\ run = scanAgentRun r') /\
    rn_Status run = RunRunning /\ rn_LeaseOwner run = w /\ rn_LeaseExpiresAt run = Some (now + lease_or_default l) /\
    rn_AttemptCount run = rn_AttemptCount r + 1.
Proof.
  destruct (next_run locked now d) as [r|] eqn:En.
  2: { apply queue_head_None in En. assert (x ∈ select (claimable_run locked now) (agent_run_rows d)) as Hin
         by (apply elem_of_select; eauto). rewrite En in Hin. by apply elem_of_nil in Hin. }
  pose proof (next_run_Some _ _ _ _ Hw En) as [Hr Hcl]. pose proof (Hattempts _ _ Hr Hcl) as Hlt.
  pose proof (checks_counts _ (aw_checks _ Hw _ _ Hr)) as (Ha & Hc & Hm).
  set (r' := with_updated now (with_counts (rn_AttemptCount r + 1) (rn_ClarificationRounds r) (rn_ContextMessagesUsed r)
    (with_lease (Some w) (Some (now + lease_or_default l)) (with_state RunRunning (rn_AvailableAt r) r)))).
  assert (update_run r' d = (Ok tt, set_runs (<[rn_ID (rn_Head r) := r']> (agent_run_rows d)) d)) as Hu.
  { apply update_run_succeeds; try done. apply (checks_after r); try done; [by eapply aw_checks| |].
    - unfold run_count_checks. cbn. rewrite !andb_true_iff, !Z.leb_le. lia.
    - pose proof (aw_checks _ Hw _ _ Hr) as Hck. unfold agent_runs_checks in Hck. apply andb_true_iff in Hck as [_ Hck].
      apply bool_decide_eq_true in Hck. cbn. rewrite <- Hck. symmetry. apply bool_decide_eq_false_2.
      unfold claimable_run in Hcl. intros Ht. by repeat (apply elem_of_cons in Ht as [E | Ht]; [rewrite E in Hcl|]);
        try apply elem_of_nil in Ht. }
  exists r, (scanAgentRun r'), (set_runs (<[rn_ID (rn_Head r) := r']> (agent_run_rows d)) d). split_and!; try done.
  - unfold ClaimRun, int4, mbind, St_bind, st_get, st_fail, st_lift. rewrite (bool_decide_eq_false_2 (w = "")) by done.
    cbn [fail_if]. rewrite En. destruct (Z.ltb_spec (rn_AttemptCount r + 1) (- MaxInt32 - 1)); [unfold MaxInt32 in *; lia|].
    destruct (Z.ltb_spec MaxInt32 (rn_AttemptCount r + 1)); [lia|]. cbn [orb fail_if mret St_ret]. subst r'. by rewrite Hu.
  - intros j y Hj Hy. apply queue_head in En as [_ Hmin]. apply Hmin, elem_of_select. eauto.
  - exists r'. split; [|done]. cbn. by rewrite lookup_insert_eq.
Qed.

(** ** Tool calls and messages *)

Lemma call_stays c d k t :
  agent_wf d -> agent_tool_calls d !! k = Some t -> tc_State t <> ToolCallRunning ->
  agent_tool_calls (agent_step c d) !! k = Some t.
Proof.
  intros Hw Hk Hs. destruct (agent_step_cases c d) as [->|(d' & -> & Hr)]; [done|].
  destruct (calls_effect _ _ _ _ Hw Hr) as [->|u u' Hu Hm _ ->|call summary _ Hnone _ ->]; [done| |]; rewrite lookup_insert_ne; try done.
  - intros <-. assert (u = t) as -> by congruence. by destruct c; cbn in Hm; try done; destruct Hm as (_ & ? & _).
  - congruence.
Qed.

Lemma call_stays_steps cs d k t :
  agent_wf d -> agent_tool_calls d !! k = Some t -> tc_State t <> ToolCallRunning ->
  agent_tool_calls (agent_steps cs d) !! k = Some t.
Proof.
  revert d. induction cs as [|c cs IH]; intros d Hw Hk Hs; cbn; [done|].
  apply IH; [by apply agent_step_keeps|by apply call_stays|done].
Qed.

(** C19: a completed tool call is never executed again.  Whatever commands run afterwards, every claim of
    the same call with the same tool and arguments is answered with the stored result, which never changes. *)
Theorem tool_result_replayed cs d id call t j call' summary
  (Hw : agent_wf d) (Hk : agent_tool_calls d !! (id, call) = Some t)
  (Hs : tc_State t = ToolCallCompleted) (Hj : tc_Result t = Some j)
  (Hsame : tc_RunID call' = id /\ tc_ToolCallID call' = call /\ tc_ToolName call' = tc_ToolName t /\
    tc_ArgumentHash call' = tc_ArgumentHash t)
  (Hsum : jsonb (tc_ArgumentSummary call') = Some summary) :
  ClaimToolCall call' (agent_steps cs d) = (Ok (ToolCallClaimReplay (Some j)), agent_steps cs d).
Proof.
  assert (tc_State t <> ToolCallRunning) as Hne by (by rewrite Hs).
  pose proof (call_stays_steps cs _ _ _ Hw Hk Hne) as Hk'. destruct Hsame as (E1 & E2 & E3 & E4).
  destruct (aw_call _ Hw _ _ Hk) as [[= _ Hcall] Hc]. unfold agent_tool_calls_checks in Hc.
  unfold ClaimToolCall, mbind, St_bind, st_get, st_fail, st_or_err, st_lift. cbv zeta. rewrite Hsum, E1, E2, Hk'.
  assert (agent_tool_calls_checks (new_tool_call call' summary) = true) as ->.
  { unfold agent_tool_calls_checks. cbn -[GoStrings.btrim_empty]. rewrite E2, E3, E4, Hcall, !andb_true_r. go_bool.
    repeat match goal with Hx : GoStrings.btrim_empty _ = false |- _ => rewrite Hx; clear Hx end. by apply Z.eqb_eq. }
  cbn. unfold claim_kind. rewrite E3, E4, Hs, Hj. by rewrite !bool_decide_eq_true_2.
Qed.

Lemma message_stays c d id m :
  agent_wf d -> agent_message_outbox d !! id = Some m -> om_State m = OutboxDelivered ->
  agent_message_outbox (agent_step c d) !! id = Some m.
Proof.
  intros Hw Hk Hs. destruct (agent_step_cases c d) as [->|(d' & -> & Hr)]; [done|].
  destruct (outbox_effect _ _ _ _ Hw Hr) as [->|u u' Hu Hm _ ->|x _ _ _ Hnone ->]; [done| |]; rewrite lookup_insert_ne; try done.
  - intros E. rewrite E in Hu. assert (u = m) as -> by congruence. destruct c; cbn in Hm; try done.
    + destruct Hm as [Hc _]. unfold claimable_message in Hc. by rewrite Hs in Hc.
    + destruct Hm as (_ & Hd & _). by rewrite Hs in Hd.
    + destruct Hm as (_ & Hd & _). by rewrite Hs in Hd.
  - congruence.
Qed.

(** A message is delivered at most once.  A delivered message never changes, so that no worker gets it
    again, and whatever is enqueued later under its deduplication key adds no second message. *)
Theorem delivered_message_final cs d id m
  (Hw : agent_wf d) (Hk : agent_message_outbox d !! id = Some m) (Hs : om_State m = OutboxDelivered) :
  agent_message_outbox (agent_steps cs d) !! id = Some m /\
  (forall id' m', agent_message_outbox (agent_steps cs d) !! id' = Some m' ->
     om_DeduplicationKey m' = om_DeduplicationKey m -> id' = id) /\
  (forall locked w now l message d', ClaimOutbox locked w now l (agent_steps cs d) = (Ok (Some message), d') ->
     om_ID message <> id).
Proof.
  assert (agent_wf (agent_steps cs d) /\ agent_message_outbox (agent_steps cs d) !! id = Some m) as [Hw' Hk'].
  { revert d Hw Hk. induction cs as [|c cs IH]; intros d Hw Hk; cbn; [done|].
    apply IH; [by apply agent_step_keeps|by apply message_stays]. }
  split_and!; [done| |].
  - intros id' m' Hm' E. by eapply (aw_deduplicated _ Hw').
  - intros locked w now l message d' Hr. unfold ClaimOutbox in Hr. cbv zeta in Hr. st_inv. case_match; st_inv; [|done].
    match goal with Hi : int4 _ _ = _, Hn : next_message _ _ _ = _, Hx : Some _ = Some _ |- _ =>
      apply int4_Ok in Hi as (-> & _ & ->); apply (next_message_Some _ _ _ _ Hw') in Hn as [Hl Hc]; injection Hx as <- end.
    cbn. intros E. rewrite E in Hl. rewrite Hk' in Hl. injection Hl as <-. unfold claimable_message in Hc. by rewrite Hs in Hc.
Qed.

(** ** Limits over the life of a run *)

(** What a command adds to the questions and to the context messages of a run. *)
Definition asks (id : UUID) (c : AgentCommand) (d : AgentDB) : Z :=
  match c with
  | AMarkRunWaiting i _ _ _ _ => if (i == id) && is_ok (run_agent c d).1 then 1 else 0
  | _ => 0
  end.
Definition fetches (id : UUID) (c : AgentCommand) (d : AgentDB) : Z :=
  match c with
  | AAddContextMessages i _ n _ => if (i == id) && is_ok (run_agent c d).1 then n else 0
  | _ => 0
  end.
Fixpoint total (f : AgentCommand -> AgentDB -> Z) (cs : list AgentCommand) (d : AgentDB) : Z :=
  match cs with [] => 0 | c :: cs => f c d + total f cs (agent_step c d) end.

Lemma row_move_counts c r r' d :
  row_move c r r' -> agent_runs_checks r = true -> is_ok (run_agent c d).1 = true ->
  rn_ClarificationRounds r' = rn_ClarificationRounds r + asks (rn_ID (rn_Head r)) c d /\
  rn_ContextMessagesUsed r' = rn_ContextMessagesUsed r + fetches (rn_ID (rn_Head r)) c d.
Proof.
  intros Hm (_ & Hc & _)%checks_counts Hok.
  destruct c; unfold asks, fetches; rewrite ?Hok; cbn in Hm; try done; destruct_and? Hm; subst; cbn -[int64]; try lia;
    rewrite bool_decide_eq_true_2 by done; cbn; split; try lia.
  rewrite int64_small by (unfold MaxInt64; lia). done.
Qed.

(** The commands that count do change the row of their run. *)
Lemma wait_moves id w i m now d d' :
  agent_wf d -> run_agent (AMarkRunWaiting id w i m now) d = (Ok tt, d') ->
  exists r r', agent_run_rows d !! id = Some r /\ row_move (AMarkRunWaiting id w i m now) r r' /\
    agent_run_rows d' !! id = Some r'.
Proof.
  intros Hw Hr. pose proof Hr as Hr'. cbn in Hr'. unfold MarkRunWaiting in Hr'.
  apply atomically_Ok, St_bind_Ok in Hr' as (o & d0 & [Ho <-]%st_get_Ok & Hr').
  apply St_bind_Ok in Hr' as (r & d0 & [-> <-]%st_or_err_Ok & Hr'). cbv zeta in Hr'.
  apply St_bind_Ok in Hr' as ([] & d0 & [Hl <-]%st_fail_Ok & Hr').
  apply St_bind_Ok in Hr' as (run & d0 & [Hm <-]%st_lift_Ok & Hr').
  apply St_bind_Ok in Hr' as (o & d0 & [Hh <-]%st_get_Ok & Hr').
  apply St_bind_Ok in Hr' as (r1 & d0 & [-> <-]%st_or_err_Ok & Hr').
  apply St_bind_Ok in Hr' as ([] & d1 & [_ Hu]%update_run_Ok & Hi%insertOutbox_runs).
  apply held_run_Some in Hh as [Hh [Hs _]]. assert (r1 = r) as -> by congruence.
  assert (rn_Status run = RunWaitingUser) as Hst.
  { unfold Run_WaitForUser in Hm. do 3 (apply bind_Ok in Hm as ([] & _ & Hm)). by injection Hm as <-. }
  assert (exists r', agent_run_rows d' !! id = Some r' /\ rn_Status r' = RunWaitingUser) as (r' & Hk' & Hs').
  { eexists. rewrite Hi, Hu. cbn. rewrite (aw_key _ Hw _ _ Ho), lookup_insert_eq. by split. }
  exists r, r'. split; [done|]. split; [|done].
  destruct (runs_effect _ _ _ _ Hw Hr) as [E|s s' Hk Hmv _ E|? [=]].
  - rewrite E, Ho in Hk'. injection Hk' as <-. by rewrite Hs in Hs'.
  - rewrite E in Hk'. apply lookup_insert_Some in Hk' as [[<- <-]|[_ Hk']]; [by assert (s = r) as -> by congruence|].
    rewrite Ho in Hk'. injection Hk' as <-. by rewrite Hs in Hs'.
Qed.

Lemma fetch_moves id w n now d d' :
  agent_wf d -> run_agent (AAddContextMessages id w n now) d = (Ok tt, d') ->
  exists r r', agent_run_rows d !! id = Some r /\ row_move (AAddContextMessages id w n now) r r' /\
    agent_run_rows d' !! id = Some r'.
Proof.
  intros Hw Hr. cbn in Hr. unfold done_with, AddContextMessages in Hr. st_inv.
  repeat match goal with Hi : int4 _ _ = _ |- _ => apply int4_Ok in Hi as (-> & _ & ->) end.
  match goal with Hh : held_run _ _ _ = Some ?x, Hu : update_run _ _ = _ |- _ =>
    apply held_run_Some in Hh as [Hk Hh]; apply update_run_Ok in Hu as [_ ->]; exists x end.
  pose proof (aw_key _ Hw _ _ Hk) as Hid. eexists. split; [done|]. split; [|cbn; rewrite Hid; apply lookup_insert_eq].
  go_bool. done.
Qed.

Lemma step_counts c d id r :
  agent_wf d -> agent_run_rows d !! id = Some r ->
  exists r', agent_run_rows (agent_step c d) !! id = Some r' /\
    rn_ClarificationRounds r' = rn_ClarificationRounds r + asks id c d /\
    rn_ContextMessagesUsed r' = rn_ContextMessagesUsed r + fetches id c d.
Proof.
  intros Hw Hk. pose proof (aw_key _ Hw _ _ Hk) as Hid. pose proof (aw_checks _ Hw _ _ Hk) as Hc. unfold agent_step.
  destruct (run_agent c d) as [[[]|e] d'] eqn:Hr; cbn [snd].
  2: { pose proof (agent_clean c _ _ _ Hr) as ->. exists r. split; [done|].
       destruct c; unfold asks, fetches; rewrite ?Hr; cbn; rewrite ?andb_false_r; lia. }
  assert (is_ok (run_agent c d).1 = true) as Hok by (by rewrite Hr).
  assert ((exists r', row_move c r r' /\ agent_run_rows d' !! id = Some r') \/
    (agent_run_rows d' !! id = Some r /\ asks id c d = 0 /\ fetches id c d = 0)) as [(r' & Hm & Hk')|(Hk' & H1 & H2)].
  - assert (forall i, i <> id \/ asks i c d = 0 /\ fetches i c d = 0 \/
      exists r', row_move c r r' /\ agent_run_rows d' !! id = Some r') as Hcount.
    { intros i. destruct (decide (i = id)) as [->|]; [right|by left].
      destruct c; try (left; done).
      - destruct (decide (runID = id)) as [->|Hne]; [right|left; unfold asks, fetches; by rewrite bool_decide_eq_false_2].
        destruct (fetch_moves _ _ _ _ _ _ Hw Hr) as (x & x' & Hx & Hm & Hx'). exists x'. by assert (x = r) as -> by congruence.
      - destruct (decide (runID = id)) as [->|Hne]; [right|left; unfold asks, fetches; by rewrite bool_decide_eq_false_2].
        destruct (wait_moves _ _ _ _ _ _ _ Hw Hr) as (x & x' & Hx & Hm & Hx'). exists x'. by assert (x = r) as -> by congruence. }
    destruct (Hcount id) as [?|[[H1 H2]|?]]; [done| |by left].
    destruct (runs_effect _ _ _ _ Hw Hr) as [E|s s' Hs Hm _ E|run _ _ _ _ Hf E]; rewrite E.
    + right. done.
    + destruct (decide (rn_ID (rn_Head s) = id)) as [Es|Hne].
      * left. rewrite Es in *. assert (s = r) as -> by congruence. exists s'. by rewrite lookup_insert_eq.
      * right. by rewrite lookup_insert_ne.
    + right. rewrite lookup_insert_ne; [done|]. intros Er. assert (r ∈ rows (agent_run_rows d)) as Hin by (apply elem_of_rows; eauto).
      apply (existsb_false _ _ Hf) in Hin. apply orb_false_iff in Hin as [Hin _]. apply bool_decide_eq_false in Hin. apply Hin. by rewrite Hid.
  - exists r'. split; [done|]. rewrite <- Hid. by apply row_move_counts.
  - exists r. rewrite H1, H2. split; [done|lia].
Qed.

Lemma no_row_counts c d id :
  agent_wf d -> agent_run_rows d !! id = None -> asks id c d = 0 /\ fetches id c d = 0.
Proof.
  intros Hw Hk. destruct c; try done; unfold asks, fetches; (split; [|done]) || (split; [done|]);
    (destruct (decide (runID = id)) as [Ei|Hne]; [subst runID|by rewrite bool_decide_eq_false_2]).
  - destruct (run_agent (AAddContextMessages id workerID count now) d) as [[[]|e] d'] eqn:Hr; [|by rewrite andb_false_r].
    destruct (fetch_moves _ _ _ _ _ _ Hw Hr) as (x & x' & Hx & _). congruence.
  - destruct (run_agent (AMarkRunWaiting id workerID interruptID outbox now) d) as [[[]|e] d'] eqn:Hr; [|by rewrite andb_false_r].
    destruct (wait_moves _ _ _ _ _ _ _ Hw Hr) as (x & x' & Hx & _). congruence.
Qed.

(** A run bothers its user at most three times and reads at most a hundred messages: however often it is
    retried, taken over and resumed, over its whole life at most [MaxClarificationRounds] questions are
    asked and at most [MaxContextMessages] messages are fetched for it. *)
Theorem run_limits_hold cs d id (Hw : agent_wf d) :
  total (asks id) cs d <= MaxClarificationRounds /\ total (fetches id) cs d <= MaxContextMessages.
Proof.
  assert (forall d, agent_wf d -> match agent_run_rows d !! id with
    | Some r => rn_ClarificationRounds r + total (asks id) cs d <= MaxClarificationRounds /\
                rn_ContextMessagesUsed r + total (fetches id) cs d <= MaxContextMessages
    | None => total (asks id) cs d <= MaxClarificationRounds /\ total (fetches id) cs d <= MaxContextMessages
    end) as Hall.
  { clear d Hw. induction cs as [|c cs IH]; intros d Hw; cbn [total].
    - destruct (agent_run_rows d !! id) as [r|] eqn:Hk; [|done].
      pose proof (checks_counts _ (aw_checks _ Hw _ _ Hk)). unfold MaxClarificationRounds, MaxContextMessages. lia.
    - specialize (IH _ (agent_step_keeps c d Hw)). destruct (agent_run_rows d !! id) as [r|] eqn:Hk.
      + destruct (step_counts c d id r Hw Hk) as (r' & Hr' & H1 & H2). rewrite Hr' in IH. lia.
      + destruct (no_row_counts c d id Hw Hk) as [-> ->]. destruct (agent_run_rows (agent_step c d) !! id) as [r'|] eqn:Hr'; [|lia].
        pose proof (checks_counts _ (aw_checks _ (agent_step_keeps c d Hw) _ _ Hr')). lia. }
  specialize (Hall d Hw). destruct (agent_run_rows d !! id) as [r|] eqn:Hk; [|done].
  pose proof (checks_counts _ (aw_checks _ Hw _ _ Hk)). lia.
Qed.
End properties.

(** ** Examples *)

Definition plain_texts : AgentTexts := {| uuid_text := fun u => "#" +:+ pretty u; jsonb := Some |}.
#[local] Existing Instance plain_texts.

Definition demo_agent_db : AgentDB := mkAgentDB ∅ ∅ ∅ ∅ ∅ {[5%N]} {[3%N]} ∅.

Lemma demo_agent_wf : agent_wf demo_agent_db.
Proof. split; cbn; intros *; rewrite lookup_empty; discriminate. Qed.

Lemma demo_agent_valid : runs_valid demo_agent_db.
Proof. intros id r. cbn. rewrite lookup_empty. discriminate. Qed.

Definition demo_run_input : NewRunInput :=
  mkNewRunInput "lark" "tenant" "chat" "message" "event" "" "" None 900 5%N "subject" CommandDirect "model" "v13".
Definition demo_run : Run :=
  mkRun (mkRunHead 100%N "lark" "tenant" "chat" "message" "event" None 900 5%N "subject" CommandDirect "model" "v13" 1000)
    "" "" RunQueued 0 0 "" "" None 0 "" None 1000 None None "" "" 1000 None.

Example demo_run_new : NewRun 100%N demo_run_input 1000 = Ok demo_run.
Proof. vm_compute. reflexivity. Qed.

Definition demo_answer : OutboxMessage :=
  mkOutbox 200%N 100%N "agent-run:100:success" "success" "message" "Done" OutboxPending 0 5000 "" None "" "" 5000 5000 None.
Definition demo_call : ToolCall :=
  mkToolCall 100%N "call-1" "create_task" "0123456789abcdef0123456789abcdef" "{}" ToolCallRunning None None 2500 None.

(** A run is created and claimed, calls a tool, and is ended with a message that is delivered. *)
Definition demo_start : list AgentCommand :=
  [ACreateRunWithInput demo_run (mkRunInput 100%N "key" "sealed" "") 1000; AClaimRun ∅ "worker-1" 2000 0;
   AClaimToolCall demo_call; ACompleteToolCall 100%N "call-1" "{}" 3000].
Definition demo_finish : AgentCommand := AFinishRun 100%N "worker-1" RunSucceeded "" "" (Some demo_answer) 5000.
Definition demo_running : AgentDB := agent_steps demo_start demo_agent_db.
Definition demo_ended : AgentDB := agent_step demo_finish demo_running.
Definition demo_sent : AgentDB :=
  agent_steps [AClaimOutbox ∅ "outbox" 6000 0; AMarkOutboxDelivered 200%N "outbox" "om_1" 7000] demo_ended.

Definition demo_row (d : AgentDB) : RunRow :=
  match agent_run_rows d !! 100%N with Some r => r | None => new_run_row demo_run end.

Lemma demo_running_wf : agent_wf demo_running.
Proof. apply agent_steps_keep, demo_agent_wf. Qed.
Lemma demo_ended_wf : agent_wf demo_ended.
Proof. apply agent_step_keeps, demo_running_wf. Qed.
Lemma demo_sent_wf : agent_wf demo_sent.
Proof. apply agent_steps_keep, demo_ended_wf. Qed.
Lemma demo_running_row : agent_run_rows demo_running !! 100%N = Some (demo_row demo_running).
Proof. vm_compute. reflexivity. Qed.
Lemma demo_ended_row : agent_run_rows demo_ended !! 100%N = Some (demo_row demo_ended).
Proof. vm_compute. reflexivity. Qed.



Lemma agent_runs_valid_witness : Run_Validate (scanAgentRun (demo_row demo_running)) = Ok tt.
Proof.
  exact (agent_runs_valid demo_start demo_agent_db demo_agent_wf demo_agent_valid ltac:(vm_compute; reflexivity)
    100%N _ demo_running_row).
Defined.

Lemma lease_not_stolen_witness :
  agent_run_rows (agent_steps [AClaimRun ∅ "worker-2" 3500 0; ARetryRun 100%N "worker-2" 4000 4000] demo_running) !! 100%N
    = Some (demo_row demo_running).
Proof.
  apply (lease_not_stolen _ demo_running 100%N (demo_row demo_running) "worker-1" (2000 + DefaultLeaseDuration));
    [exact demo_running_wf|exact demo_running_row|vm_compute; reflexivity|vm_compute; reflexivity|vm_compute; reflexivity| |].
  - intros c Hc. apply elem_of_cons in Hc as [-> | Hc]; [reflexivity|]. apply elem_of_cons in Hc as [-> | Hc]; [reflexivity|].
    by apply elem_of_nil in Hc.
  - intros locked w' now l Hc. apply elem_of_cons in Hc as [[= -> -> -> ->] | Hc]; [reflexivity|].
    apply elem_of_cons in Hc as [Hc | Hc]; [discriminate Hc|]. by apply elem_of_nil in Hc.
Defined.

Lemma ended_runs_final_witness :
  agent_run_rows (agent_steps demo_start demo_ended) !! 100%N = Some (demo_row demo_ended).
Proof. apply (ended_runs_final demo_start _ _ _ demo_ended_wf demo_ended_row). vm_compute. reflexivity. Defined.

Lemma lease_holder_succeeds_witness :
  exists d' r', RetryRun 100%N "worker-1" 9000 4000 demo_running = (Ok tt, d') /\ agent_run_rows d' !! 100%N = Some r' /\
    rn_Status r' = RunQueued.
Proof.
  destruct (lease_holder_succeeds demo_running 100%N (demo_row demo_running) "worker-1" 9000 RunFailed "timeout" "" 4000
    demo_running_wf demo_running_row ltac:(vm_compute; reflexivity) ltac:(vm_compute; reflexivity) ltac:(set_solver))
    as [(d' & r' & H1 & H2 & H3 & _) _]. eauto.
Defined.

Lemma demo_running_rows : agent_run_rows demo_running = {[100%N := demo_row demo_running]}.
Proof. vm_compute. reflexivity. Qed.

Lemma due_run_claimed_witness :
  exists run d', ClaimRun ∅ "worker-2" (2000 + DefaultLeaseDuration) 0 demo_running = (Ok (Some run), d') /\
    rn_LeaseOwner run = "worker-2".
Proof.
  destruct (due_run_claimed ∅ "worker-2" (2000 + DefaultLeaseDuration) 0 demo_running 100%N (demo_row demo_running))
    as (r & run & d' & Hr & _ & _ & _ & _ & _ & Ho & _).
  - exact demo_running_wf.
  - discriminate.
  - exact demo_running_row.
  - vm_compute. reflexivity.
  - intros j y Hj _. rewrite demo_running_rows in Hj. apply lookup_singleton_Some in Hj as [_ <-]. vm_compute. reflexivity.
  - exists run, d'. split; [exact Hr|exact Ho].
Defined.

Lemma tool_result_replayed_witness :
  ClaimToolCall demo_call (agent_steps [demo_finish] demo_running) =
    (Ok (ToolCallClaimReplay (Some "{}")), agent_steps [demo_finish] demo_running).
Proof.
  eapply (tool_result_replayed [demo_finish] demo_running 100%N "call-1" _ "{}" demo_call "{}" demo_running_wf);
    [vm_compute; reflexivity|reflexivity|reflexivity|split_and!; reflexivity|reflexivity].
Defined.

Lemma delivered_message_final_witness :
  exists m, agent_message_outbox (agent_steps [AClaimOutbox ∅ "outbox" 9000 0] demo_sent) !! 200%N = Some m /\
    om_State m = OutboxDelivered.
Proof.
  eexists. split.
  - eapply (delivered_message_final [AClaimOutbox ∅ "outbox" 9000 0] demo_sent 200%N _ demo_sent_wf);
      [vm_compute; reflexivity|reflexivity].
  - reflexivity.
Defined.

Lemma run_limits_hold_witness :
  total (fetches 100%N) [AAddContextMessages 100%N "worker-1" 60 3100; AAddContextMessages 100%N "worker-1" 60 3200] demo_running
    <= MaxContextMessages.
Proof. apply (run_limits_hold _ demo_running 100%N demo_running_wf). Defined.
