(* ===== verification/TaskStore.v ===== *)
(** * The task store

    internal/store/task_store.go with internal/domain/task.go: creating, editing and archiving
    Tasks, their parents, dependencies and schedules, and the activity log of their fields.

    The deferred constraint triggers of migration 0015 check the relations again at commit; they are
    [validate_task_relationships] and [validate_task_dependency] below, and not part of the methods:
    the invariant of the store implies that they pass. *)

From stdpp Require Import base tactics strings gmap list numbers sorting pretty.
From S2P Require Import Prelude Actors Lifecycle StageClaim Delivery Thread Acceptance Database Tx.
From S2P Require Import ThreadStore ClaimStore WorkflowStore WorkflowCommands.

(** What the activity log uses of code outside the repository: the text of a UUID
    (github.com/google/uuid) and the order of label names in the database's collation. *)
Class TextForms := {
  uuid_String : UUID -> string;
  uuid_String_inj : forall u v, uuid_String u = uuid_String v -> u = v;
  uuid_String_ne : forall u, uuid_String u <> "";
  collate_le : string -> string -> bool;
}.

(** Texts that meet the contract. *)
Definition counting_text (u : UUID) : string := "#" +:+ pretty u.

Lemma counting_text_inj u v : counting_text u = counting_text v -> u = v.
Proof. unfold counting_text. intros E. apply (inj (String.app "#")) in E. by apply (inj pretty) in E. Qed.

Lemma counting_text_ne u : counting_text u <> "".
Proof. done. Qed.

Definition counting_texts : TextForms := {|
  uuid_String := counting_text;
  uuid_String_inj := counting_text_inj;
  uuid_String_ne := counting_text_ne;
  collate_le := String.leb;
|}.

(** ** Enumerations: internal/domain/task.go *)

Definition TaskStatus := string.
Definition TaskStatusTodo : TaskStatus := "todo".
Definition TaskStatusInProgress : TaskStatus := "in_progress".
Definition TaskStatusInReview : TaskStatus := "in_review".
Definition TaskStatusDone : TaskStatus := "done".
Definition TaskStatusCancelled : TaskStatus := "cancelled".

Definition TaskStatus_Valid (s : TaskStatus) : bool :=
  bool_decide (s ∈ [TaskStatusTodo; TaskStatusInProgress; TaskStatusInReview; TaskStatusDone;
                    TaskStatusCancelled]).

Definition TaskPriorityNone : string := "none".
Definition TaskPriority_Valid (p : string) : bool :=
  bool_decide (p ∈ [TaskPriorityNone; "low"; "medium"; "high"; "urgent"]).

Definition TaskExecutionModeHumanOnly : string := "human_only".
Definition TaskExecutionMode_Valid (m : string) : bool :=
  bool_decide (m ∈ [TaskExecutionModeHumanOnly; "agent_allowed"]).

(** [TaskPatch]: [None] is a nil pointer; the [Set] flags tell a cleared value from a missing one. *)
Record TaskPatch := mkTaskPatch {
  tp_Title : option string;
  tp_Context : option string;
  tp_ExpectedResult : option string;
  tp_Description : option string;
  tp_Status : option TaskStatus;
  tp_Priority : option string;
  tp_ExecutionMode : option string;
  tp_AssigneeSet : bool;
  tp_AssigneeID : option UUID;
  tp_DueDateSet : bool;
  tp_DueDate : option Date;
  tp_StartDateSet : bool;
  tp_StartDate : option Date;
  tp_LabelsSet : bool;
  tp_LabelIDs : list UUID;
  tp_ProjectSet : bool;
  tp_ProjectID : option UUID;
  tp_MilestoneSet : bool;
  tp_MilestoneID : option UUID;
  tp_ParentSet : bool;
  tp_ParentTaskID : option UUID;
  tp_DependenciesSet : bool;
  tp_DependencyIDs : list UUID;
  tp_ScheduleShiftDays : option Z;
}.

Definition TaskPatch_IsEmpty (p : TaskPatch) : bool :=
  negb (present (tp_Title p)) && negb (present (tp_Context p)) && negb (present (tp_ExpectedResult p)) &&
  negb (present (tp_Description p)) && negb (present (tp_Status p)) && negb (present (tp_Priority p)) &&
  negb (present (tp_ExecutionMode p)) && negb (tp_AssigneeSet p) && negb (tp_StartDateSet p) &&
  negb (tp_DueDateSet p) && negb (tp_LabelsSet p) && negb (tp_ProjectSet p) && negb (tp_MilestoneSet p) &&
  negb (tp_ParentSet p) && negb (tp_DependenciesSet p) && negb (present (tp_ScheduleShiftDays p)).

(** ** Texts *)

Section text.
Context `{TextForms}.

Definition strPtrOrNil (s : string) : option string := if s == "" then None else Some s.

Definition uuidPtrString (id : option UUID) : string :=
  match id with Some u => uuid_String u | None => "" end.

(** The civil date of a day counted from 1970-01-01, in the proleptic Gregorian calendar of Go's
    [time] package: eras of 400 years, years that begin on the first of March. *)
Definition civil (z : Z) : Z * Z * Z :=
  let z := z + 719468 in
  let era := z / 146097 in
  let doe := z mod 146097 in
  let yoe := (doe - doe / 1460 + doe / 36524 - doe / 146096) / 365 in
  let doy := doe - (365 * yoe + yoe / 4 - yoe / 100) in
  let mp := (5 * doy + 2) / 153 in
  let m := if mp <? 10 then mp + 3 else mp - 9 in
  (yoe + era * 400 + (if m <=? 2 then 1 else 0), m, doy - (153 * mp + 2) / 5 + 1).

Definition zero_padded (width : nat) (n : Z) : string :=
  let digits := pretty (Z.to_N n) in
  String.concat "" (repeat "0" (width - String.length digits)) +:+ digits.

(** [t.Format("2006-01-02")] *)
Definition datePtrString (t : option Date) : string :=
  match t with
  | Some day => let '(y, m, d) := civil day in
      (if y <? 0 then "-" else "") +:+ zero_padded 4 (Z.abs y) +:+ "-" +:+ zero_padded 2 m +:+ "-" +:+
      zero_padded 2 d
  | None => ""
  end.

(** [sort.Strings], then [strings.Join(values, ",")]. *)
Definition uuidListString (ids : list UUID) : string :=
  String.concat "," (merge_sort (fun a b => Is_true (String.leb a b)) (uuid_String <$> ids)).

Definition bool_String (b : bool) : string := if b then "true" else "false".
End text.

Definition uuidPtrsEqual (left right : option UUID) : bool :=
  match left, right with
  | Some l, Some r => l == r
  | None, None => true
  | _, _ => false
  end.

(** [for _, x := range l { if err := f(x); err != nil { return err } }] *)
Fixpoint for_each {A} (f : A -> M unit) (l : list A) : M unit :=
  match l with
  | [] => mret tt
  | x :: rest => _ ← f x; for_each f rest
  end.

(** ** Relations *)

(** One round of the recursive query [reachable]. *)
Definition dependency_round (E : gset (UUID * UUID)) (S : gset UUID) : gset UUID :=
  S ∪ set_map snd (filter (fun e => e.1 ∈ S) E).

(** [WITH RECURSIVE reachable(id) AS (... UNION ...)]: the Tasks on which [id] depends, directly or
    through others.  PostgreSQL repeats the round until it adds nothing; every round before that adds
    a Task, so that as many rounds as there are edges are enough. *)
Definition reachable (E : gset (UUID * UUID)) (id : UUID) : gset UUID :=
  Nat.iter (size E) (dependency_round E) (set_map snd (filter (fun e => e.1 = id) E)).

Definition validateParentAssignment (d : DB) (taskID : UUID) (parentID : option UUID)
  (projectID : UUID) (milestoneID : option UUID) (status : TaskStatus) : result unit :=
  match parentID with
  | None => Ok tt
  | Some p =>
      _ ← fail_if (p == taskID) ErrInvalidInput;
      parent ← (match tasks d !! p with Some q => Ok q | None => Err ErrNotFound end);
      _ ← fail_if (present (t_archived_at parent)) ErrConflict;
      _ ← fail_if (present (t_parent_task_id parent)) ErrConflict;
      _ ← fail_if ((t_project_id parent != projectID) ||
                   negb (uuidPtrsEqual (b_milestone_id (t_brief parent)) milestoneID)) ErrConflict;
      _ ← fail_if (existsb (fun c => t_parent_task_id c == Some taskID) (rows (tasks d))) ErrConflict;
      _ ← fail_if ((b_status (t_brief parent) == TaskStatusDone) && (status != TaskStatusDone) &&
                   (status != TaskStatusCancelled)) ErrConflict;
      fail_if (bool_decide ((taskID, p) ∈ task_dependencies d) ||
               bool_decide ((p, taskID) ∈ task_dependencies d)) ErrConflict
  end.

Fixpoint validate_dependencies (d : DB) (taskID projectID : UUID) (parentID : option UUID)
  (seen : gset UUID) (dependencyIDs : list UUID) : result unit :=
  match dependencyIDs with
  | [] => Ok tt
  | dep :: rest =>
      _ ← fail_if (dep == taskID) ErrInvalidInput;
      _ ← fail_if (bool_decide (dep ∈ seen)) ErrInvalidInput;
      dependency ← (match tasks d !! dep with Some q => Ok q | None => Err ErrNotFound end);
      _ ← fail_if (present (t_archived_at dependency)) ErrConflict;
      _ ← fail_if (t_project_id dependency != projectID) ErrConflict;
      _ ← fail_if ((parentID == Some dep) || (t_parent_task_id dependency == Some taskID)) ErrConflict;
      _ ← fail_if (bool_decide (taskID ∈ reachable (task_dependencies d) dep)) ErrConflict;
      validate_dependencies d taskID projectID parentID ({[ dep ]} ∪ seen) rest
  end.

Definition validateDependencyAssignments (d : DB) (taskID projectID : UUID) (parentID : option UUID)
  (dependencyIDs : list UUID) : result unit :=
  validate_dependencies d taskID projectID parentID ∅ dependencyIDs.

(** The other end of an edge of [taskID] is in another project. *)
Definition validateExistingDependenciesForProject (d : DB) (taskID projectID : UUID) : result unit :=
  fail_if (existsb (fun e => ((e.1 == taskID) || (e.2 == taskID)) &&
      match tasks d !! (if e.1 == taskID then e.2 else e.1) with
      | Some related => t_project_id related != projectID
      | None => false
      end) (elements (task_dependencies d))) ErrConflict.

(** [INSERT INTO task_dependencies] *)
Definition insert_dependency (taskID dependencyID : UUID) : M unit :=
  d ← query (fun d => d);
  _ ← throw_if (taskID == dependencyID) ErrInvalidInput;
  _ ← throw_if (bool_decide ((taskID, dependencyID) ∈ task_dependencies d)) ErrConflict;
  _ ← throw_if (negb (fk (Some taskID) (dom (tasks d)) && fk (Some dependencyID) (dom (tasks d))))
        ErrInvalidInput;
  exec (fun d => set_dependencies ({[ (taskID, dependencyID) ]} ∪ task_dependencies d) d).

Definition replaceTaskDependencies (taskID : UUID) (dependencyIDs : list UUID) : M unit :=
  _ ← exec (fun d => set_dependencies (filter (fun e => e.1 <> taskID) (task_dependencies d)) d);
  for_each (insert_dependency taskID) dependencyIDs.

Definition taskDependencyIDs (d : DB) (taskID : UUID) : list UUID :=
  merge_sort N.le (snd <$> List.filter (fun e => e.1 == taskID) (elements (task_dependencies d))).

Definition countUnfinishedTasks (d : DB) (taskIDs : list UUID) : Z :=
  match taskIDs with
  | [] => 0
  | _ => Z.of_nat (length (select (fun t => bool_decide (t_id t ∈ taskIDs) && unfinished t) (tasks d)))
  end.

(** The triggers of migration 0015, as conditions on the tables at commit: for a row that was inserted
    or whose parent, project or milestone was written, and for an edge that was inserted. *)
Definition validate_task_relationships (d : DB) (r : TaskRow) : bool :=
  match t_parent_task_id r with
  | Some p =>
      match tasks d !! p with
      | Some q => negb (present (t_parent_task_id q)) &&
          negb (existsb (fun c => t_parent_task_id c == Some (t_id r)) (rows (tasks d))) &&
          (t_project_id q == t_project_id r) && (b_milestone_id (t_brief q) == b_milestone_id (t_brief r))
      | None => false
      end &&
      negb (bool_decide ((t_id r, p) ∈ task_dependencies d) || bool_decide ((p, t_id r) ∈ task_dependencies d))
  | None =>
      negb (existsb (fun c => (t_parent_task_id c == Some (t_id r)) &&
        ((t_project_id c != t_project_id r) || (b_milestone_id (t_brief c) != b_milestone_id (t_brief r))))
        (rows (tasks d)))
  end &&
  match validateExistingDependenciesForProject d (t_id r) (t_project_id r) with Ok _ => true | Err _ => false end.

Definition validate_task_dependency (d : DB) (e : UUID * UUID) : bool :=
  match tasks d !! e.1, tasks d !! e.2 with
  | Some a, Some b =>
      (t_project_id a == t_project_id b) && (t_parent_task_id a != Some e.2) &&
      (t_parent_task_id b != Some e.1)
  | _, _ => true
  end && negb (bool_decide (e.1 ∈ reachable (task_dependencies d) e.2)).

(** ** Writing *)

Section store.
Context `{UUIDSource} `{TextForms}.

Definition insertActivity (taskID : UUID) (actor : OperationActor) (field : string)
  (oldValue newValue : option string) : M unit :=
  _ ← uuid_New;
  let y := mkActivityRow taskID actor field oldValue newValue in
  d ← query (fun d => d);
  _ ← throw_if (negb (task_activity_checks y)) ErrOther;
  _ ← throw_if (negb (fk (Some taskID) (dom (tasks d)) && fk (Some (op_UserID actor)) (users d) &&
                      fk (op_TokenID actor) (api_tokens d))) ErrOther;
  exec (fun d => set_activity (task_activity d ++ [y]) d).

Definition recordFieldChange (taskID : UUID) (actor : OperationActor) (field oldVal newVal : string)
  : M unit :=
  if oldVal == newVal then mret tt
  else insertActivity taskID actor field (strPtrOrNil oldVal) (strPtrOrNil newVal).

(** [INSERT INTO task_labels ... ON CONFLICT DO NOTHING] *)
Definition insert_label (taskID labelID : UUID) : M unit :=
  d ← query (fun d => d);
  _ ← throw_if (negb (fk (Some taskID) (dom (tasks d)) && fk (Some labelID) (dom (labels d)))) ErrInvalidInput;
  exec (fun d => set_task_labels ({[ (taskID, labelID) ]} ∪ task_labels d) d).

Definition replaceTaskLabels (taskID : UUID) (labelIDs : list UUID) : M unit :=
  _ ← exec (fun d => set_task_labels (filter (fun e => e.1 <> taskID) (task_labels d)) d);
  for_each (insert_label taskID) labelIDs.

Definition labelNamesForTask (d : DB) (taskID : UUID) : list string :=
  merge_sort (fun a b => Is_true (collate_le a b))
    (omap (fun e => if e.1 == taskID then labels d !! e.2 else None) (elements (task_labels d))).

(** [version=version+1] of a bigint that is not the last one, on the row [r] of [tasks], with the
    constraints of the written columns. *)
Definition task_fks (d : DB) (r : TaskRow) : bool :=
  fk (b_assignee_id (t_brief r)) (users d) && fk (Some (t_creator_id r)) (users d) &&
  fk (Some (t_project_id r)) (projects d) && fk (t_parent_task_id r) (dom (tasks d)) &&
  match b_milestone_id (t_brief r) with
  | Some m => bool_decide ((t_project_id r, m) ∈ milestones d)
  | None => true
  end.

(** The row with the next version; every other column as given. *)
Definition edited (r : TaskRow) (brief : TaskBrief) (project_id : UUID) (parent : option UUID)
  (completed_at archived_at : option Time) (now : Time) : TaskRow :=
  {| t_id := t_id r; t_number := t_number r; t_version := t_version r + 1; t_phase := t_phase r;
     t_activity_state := t_activity_state r; t_review_cycle := t_review_cycle r;
     t_active_issue_thread_id := t_active_issue_thread_id r; t_project_id := project_id;
     t_parent_task_id := parent; t_updated_at := now; t_completed_at := completed_at;
     t_archived_at := archived_at; t_creator_id := t_creator_id r; t_created_at := t_created_at r;
     t_brief := brief |}.

(** [UPDATE tasks SET ...,version=version+1,updated_at=now() WHERE id=$1]; migration 0027 forbids
    another project. *)
Definition update_task (r r' : TaskRow) : M unit :=
  d ← query (fun d => d);
  _ ← throw_if (MaxInt64 <=? t_version r) ErrOther;
  _ ← throw_if (t_project_id r != t_project_id r') ErrInvalidInput;
  _ ← throw_if (negb (tasks_checks r' && tasks_brief_checks r')) ErrInvalidInput;
  _ ← throw_if (negb (task_fks d r')) ErrInvalidInput;
  exec (fun d => set_tasks (<[t_id r := r']> (tasks d)) d).

Definition with_milestone (b : TaskBrief) (m : option UUID) : TaskBrief :=
  mkTaskBrief (b_title b) (b_context b) (b_expected_result b) (b_description b) (b_status b) (b_priority b)
    (b_execution_mode b) (b_assignee_id b) (b_start_date b) (b_due_date b) m.

Definition with_schedule (b : TaskBrief) (s e : option Date) : TaskBrief :=
  mkTaskBrief (b_title b) (b_context b) (b_expected_result b) (b_description b) (b_status b) (b_priority b)
    (b_execution_mode b) (b_assignee_id b) s e (b_milestone_id b).

(** [WHERE parent_task_id=$1 ... ORDER BY number] *)
Definition children_of (d : DB) (parentID : UUID) : list TaskRow :=
  order_by (fun r => (t_number r, t_id r)) (select (fun c => t_parent_task_id c == Some parentID) (tasks d)).

Definition move_child (parentID projectID : UUID) (milestoneID : option UUID) (actor : OperationActor)
  (now : Time) (child : TaskRow) : M unit :=
  let old := b_milestone_id (t_brief child) in
  _ ← update_task child (edited child (with_milestone (t_brief child) milestoneID) projectID
                           (t_parent_task_id child) (t_completed_at child) (t_archived_at child) now);
  _ ← recordFieldChange (t_id child) actor "project" (uuid_String (t_project_id child))
        (uuid_String projectID);
  _ ← recordFieldChange (t_id child) actor "milestone" (uuidPtrString old) (uuidPtrString milestoneID);
  InsertBusinessAudit (mkBusinessAuditEvent uuid_Nil now actor "task" (t_id child) (Some (t_number child))
    "moved_with_parent" (Some (AuditPlacement (t_project_id child) old None))
    (Some (AuditPlacement projectID milestoneID (Some parentID)))).

Definition moveTaskChildren (parentID projectID : UUID) (milestoneID : option UUID)
  (actor : OperationActor) (now : Time) : M unit :=
  d ← query (fun d => d);
  match children_of d parentID with
  | [] => mret tt
  | first :: _ =>
      let groupIDs := parentID :: (t_id <$> children_of d parentID) in
      _ ← throw_if ((t_project_id first != projectID) &&
            existsb (fun e => bool_decide (e.1 ∈ groupIDs) != bool_decide (e.2 ∈ groupIDs))
              (elements (task_dependencies d))) ErrConflict;
      for_each (move_child parentID projectID milestoneID actor now) (children_of d parentID)
  end.

(** [AddDate(0, 0, days)] *)
Definition shifted (days : Z) (day : option Date) : option Date := (fun n => n + days) <$> day.

Definition shift_child (parentID : UUID) (days : Z) (actor : OperationActor) (now : Time) (child : TaskRow)
  : M unit :=
  let s := b_start_date (t_brief child) in
  let e := b_due_date (t_brief child) in
  _ ← update_task child (edited child (with_schedule (t_brief child) (shifted days s) (shifted days e))
        (t_project_id child) (t_parent_task_id child) (t_completed_at child) (t_archived_at child) now);
  _ ← recordFieldChange (t_id child) actor "start_date" (datePtrString s) (datePtrString (shifted days s));
  _ ← recordFieldChange (t_id child) actor "due_date" (datePtrString e) (datePtrString (shifted days e));
  InsertBusinessAudit (mkBusinessAuditEvent uuid_Nil now actor "task" (t_id child) (Some (t_number child))
    "schedule_shifted_with_parent" (Some (AuditSchedule s e None))
    (Some (AuditSchedule (shifted days s) (shifted days e) (Some (parentID, days))))).

Definition scheduled (r : TaskRow) : bool :=
  present (b_start_date (t_brief r)) || present (b_due_date (t_brief r)).

Definition shiftTaskChildrenSchedules (parentID : UUID) (days : Z) (actor : OperationActor) (now : Time)
  : M unit :=
  d ← query (fun d => d);
  for_each (shift_child parentID days actor now) (List.filter scheduled (children_of d parentID)).

(** ** Create *)

(** The fields of [domain.Task] that creation reads. *)
Record NewTask := mkNewTask {
  nt_ID : UUID;
  nt_CreatorID : UUID;
  nt_ProjectID : UUID;
  nt_ParentTaskID : option UUID;
  nt_brief : TaskBrief;
}.

(** [if v == "" { v = fallback }] *)
Definition defaulted (v fallback : string) : string := if v == "" then fallback else v.

Definition with_defaults (b : TaskBrief) : TaskBrief :=
  mkTaskBrief (b_title b) (b_context b) (b_expected_result b) (b_description b)
    (defaulted (b_status b) TaskStatusTodo) (defaulted (b_priority b) TaskPriorityNone)
    (defaulted (b_execution_mode b) TaskExecutionModeHumanOnly) (b_assignee_id b) (b_start_date b)
    (b_due_date b) (b_milestone_id b).

Definition validate_new_brief (b : TaskBrief) : result unit :=
  _ ← fail_if (blank (b_title b)) ErrInvalidInput;
  _ ← fail_if (blank (b_context b)) ErrInvalidInput;
  _ ← fail_if (blank (b_expected_result b)) ErrInvalidInput;
  let b := with_defaults b in
  _ ← fail_if (negb (TaskStatus_Valid (b_status b))) ErrInvalidInput;
  _ ← fail_if (negb (TaskPriority_Valid (b_priority b))) ErrInvalidInput;
  fail_if (negb (TaskExecutionMode_Valid (b_execution_mode b))) ErrInvalidInput.

(** The columns that the INSERT omits take their defaults: version 1, phase backlog, cycle 0. *)
Definition new_task_row (t : NewTask) (id : UUID) (number : Z) (now : Time) : TaskRow :=
  let b := with_defaults (nt_brief t) in
  mkTaskRow id number 1 (Some TaskPhaseBacklog) None (Some 0) None (nt_ProjectID t) (nt_ParentTaskID t) now
    (if b_status b == TaskStatusDone then Some now else None) None (nt_CreatorID t) now b.

Definition main_thread_row (id taskID : UUID) (now : Time) : ThreadRow :=
  mkThreadRow id taskID ThreadRoleMain None None None None None None None None None 1 now now None.

(** The trigger [create_task_main_thread] (migration 0026). *)
Definition create_task_main_thread (taskID : UUID) (now : Time) : M unit :=
  id ← uuid_New;
  d ← query (fun d => d);
  _ ← throw_if (present (task_threads d !! id) || present (main_thread d taskID)) ErrConflict;
  exec (fun d => set_threads (<[id := main_thread_row id taskID now]> (task_threads d)) d).

(** [INSERT INTO tasks]; [number] is the value of the sequence of [tasks.number]. *)
Definition insert_task (r : TaskRow) (now : Time) : M unit :=
  d ← query (fun d => d);
  _ ← throw_if (negb (tasks_checks r && tasks_brief_checks r)) ErrInvalidInput;
  _ ← throw_if (present (tasks d !! t_id r) || present (task_by_number d (t_number r))) ErrConflict;
  _ ← exec (fun d => set_tasks (<[t_id r := r]> (tasks d)) d);
  _ ← create_task_main_thread (t_id r) now;
  d ← query (fun d => d);
  throw_if (negb (task_fks d r)) ErrInvalidInput.

Definition CreateWithOperation (t : NewTask) (labelIDs dependencyIDs : list UUID) (actor : OperationActor)
  (number : Z) (now : Time) : M TaskRow :=
  _ ← lift (OperationActor_Validate actor);
  _ ← throw_if (nt_CreatorID t != op_UserID actor) ErrForbidden;
  id ← (if nt_ID t == uuid_Nil then uuid_New else mret (nt_ID t));
  _ ← lift (validate_new_brief (nt_brief t));
  _ ← throw_if (nt_ProjectID t == uuid_Nil) ErrInvalidInput;
  let b := with_defaults (nt_brief t) in
  _ ← lift (ValidateSchedule (b_start_date b) (b_due_date b));
  transaction (
    d ← query (fun d => d);
    _ ← lift (validateParentAssignment d id (nt_ParentTaskID t) (nt_ProjectID t) (b_milestone_id b) (b_status b));
    _ ← lift (validateDependencyAssignments d id (nt_ProjectID t) (nt_ParentTaskID t) dependencyIDs);
    _ ← lift (if b_status b == TaskStatusDone
              then ValidateCompletion (mkTaskCompletionReadiness 0 0 0 (countUnfinishedTasks d dependencyIDs))
              else Ok tt);
    let r := new_task_row t id number now in
    _ ← insert_task r now;
    _ ← (match labelIDs with [] => mret tt | _ => replaceTaskLabels id labelIDs end);
    _ ← replaceTaskDependencies id dependencyIDs;
    _ ← insertActivity id actor "created" None (Some (b_status b));
    _ ← InsertBusinessAudit (mkBusinessAuditEvent uuid_Nil now actor "task" id (Some number) "created" None
          (Some (AuditTask b (nt_ProjectID t) (nt_ParentTaskID t) (Some labelIDs) dependencyIDs None)));
    mret r).

Definition Create (t : NewTask) (labelIDs : list UUID) (number : Z) (now : Time) : M TaskRow :=
  CreateWithOperation t labelIDs [] (SessionOperation (nt_CreatorID t) "internal") number now.

(** ** Update *)

(** [if p != nil { v = *p }] *)
Definition patched {A} (p : option A) (v : A) : A := match p with Some x => x | None => v end.

(** [p != nil && bad( *p )] *)
Definition patch_is {A} (bad : A -> bool) (p : option A) : bool :=
  match p with Some x => bad x | None => false end.

Definition patched_brief (d : DB) (r : TaskRow) (patch : TaskPatch) : result TaskBrief :=
  let b := t_brief r in
  _ ← fail_if (patch_is blank (tp_Title patch)) ErrInvalidInput;
  _ ← fail_if (patch_is blank (tp_Context patch)) ErrInvalidInput;
  _ ← fail_if (patch_is blank (tp_ExpectedResult patch)) ErrInvalidInput;
  _ ← fail_if (patch_is (fun s => negb (TaskStatus_Valid s)) (tp_Status patch)) ErrInvalidInput;
  _ ← fail_if (patch_is (fun s => negb (TaskPriority_Valid s)) (tp_Priority patch)) ErrInvalidInput;
  _ ← fail_if (patch_is (fun s => negb (TaskExecutionMode_Valid s)) (tp_ExecutionMode patch)) ErrInvalidInput;
  let newStartDate := if tp_StartDateSet patch then tp_StartDate patch else b_start_date b in
  let newDueDate := if tp_DueDateSet patch then tp_DueDate patch else b_due_date b in
  '(newStartDate, newDueDate) ←
    (match tp_ScheduleShiftDays patch with
     | Some days =>
         _ ← fail_if (days == 0) ErrInvalidInput;
         _ ← fail_if (tp_StartDateSet patch || tp_DueDateSet patch) ErrInvalidInput;
         _ ← fail_if (negb (present newStartDate) && negb (present newDueDate) &&
                      negb (existsb scheduled (children_of d (t_id r)))) ErrConflict;
         Ok (shifted days newStartDate, shifted days newDueDate)
     | None => Ok (newStartDate, newDueDate)
     end);
  _ ← fail_if (tp_ProjectSet patch) ErrConflict;
  Ok (mkTaskBrief (patched (tp_Title patch) (b_title b)) (patched (tp_Context patch) (b_context b))
        (patched (tp_ExpectedResult patch) (b_expected_result b))
        (patched (tp_Description patch) (b_description b)) (patched (tp_Status patch) (b_status b))
        (patched (tp_Priority patch) (b_priority b))
        (patched (tp_ExecutionMode patch) (b_execution_mode b))
        (if tp_AssigneeSet patch then tp_AssigneeID patch else b_assignee_id b) newStartDate newDueDate
        (if tp_MilestoneSet patch then tp_MilestoneID patch else b_milestone_id b)).

(** The completion of the last submitted legacy Claim of a Task; its CHECK makes it non-null. *)
Definition last_submission (d : DB) (taskID : UUID) : option Time :=
  c ← last (order_by (fun c => (default 0 (lc_completed_at c), lc_id c))
        (select (fun c => (lc_task_id c == taskID) && (lc_status c == "submitted")) (task_claims d)));
  lc_completed_at c.

(** The latest check of the current revision that counts. *)
Definition latest_check (d : DB) (submission : option Time) (c : AcceptanceCriterion) : option CheckRow :=
  last (order_by (fun k => (k_checked_at k, k_id k))
    (select (fun k => (k_criterion_id k == ac_ID c) && (k_criterion_revision k == ac_Revision c) &&
       match submission with
       | Some at_ => (k_checker_type k == "user") && (at_ <=? k_checked_at k)
       | None => true
       end) (acceptance_checks d))).

(** The readiness that completion by status asks for. *)
Definition statusReadiness (d : DB) (taskID : UUID) : TaskCompletionReadiness :=
  let criteria := active_criteria d taskID in
  let submission := last_submission d taskID in
  mkTaskCompletionReadiness (Z.of_nat (length criteria))
    (Z.of_nat (length (List.filter (fun c => match latest_check d submission c with
       | Some k => negb (bool_decide (k_outcome k ∈ ["passed"; "waived"]))
       | None => true
       end) criteria)))
    (Z.of_nat (length (select (fun t => (t_parent_task_id t == Some taskID) && unfinished t) (tasks d))))
    (Z.of_nat (length (List.filter unfinished (prerequisites d taskID)))).

(** The activity entries of an edit, in the order of the code. *)
Definition field_changes (r : TaskRow) (brief : TaskBrief) (project : UUID) (parent : option UUID)
  : list (string * string * string) :=
  let b := t_brief r in
  [("title", b_title b, b_title brief); ("context", b_context b, b_context brief);
   ("expected_result", b_expected_result b, b_expected_result brief);
   ("description", b_description b, b_description brief); ("status", b_status b, b_status brief);
   ("priority", b_priority b, b_priority brief);
   ("execution_mode", b_execution_mode b, b_execution_mode brief);
   ("assignee", uuidPtrString (b_assignee_id b), uuidPtrString (b_assignee_id brief));
   ("start_date", datePtrString (b_start_date b), datePtrString (b_start_date brief));
   ("due_date", datePtrString (b_due_date b), datePtrString (b_due_date brief));
   ("project", uuid_String (t_project_id r), uuid_String project);
   ("milestone", uuidPtrString (b_milestone_id b), uuidPtrString (b_milestone_id brief));
   ("parent", uuidPtrString (t_parent_task_id r), uuidPtrString parent)].

Definition record_change (taskID : UUID) (actor : OperationActor) (c : string * string * string) : M unit :=
  recordFieldChange taskID actor c.1.1 c.1.2 c.2.

(** The part of an update that is done before its UPDATE statement: the new dependencies. *)
Definition update_dependencies (r : TaskRow) (newProject : UUID) (newParent : option UUID) (patch : TaskPatch)
  : M unit :=
  d ← query (fun d => d);
  if tp_DependenciesSet patch then
    _ ← lift (validateDependencyAssignments d (t_id r) newProject newParent (tp_DependencyIDs patch));
    _ ← throw_if ((t_phase r == Some TaskPhaseReady) &&
                  (0 <? countUnfinishedTasks d (tp_DependencyIDs patch))) ErrInvalidTransition;
    replaceTaskDependencies (t_id r) (tp_DependencyIDs patch)
  else if t_project_id r != newProject then
    lift (validateExistingDependenciesForProject d (t_id r) newProject)
  else mret tt.

(** The new [completed_at]: set when the status becomes done, cleared when it leaves done. *)
Definition completion_time (r : TaskRow) (newStatus : TaskStatus) (patch : TaskPatch) (now : Time)
  : M (option Time) :=
  let oldStatus := b_status (t_brief r) in
  d ← query (fun d => d);
  if (newStatus == TaskStatusDone) && ((oldStatus != TaskStatusDone) || tp_DependenciesSet patch) then
    _ ← lift (ValidateCompletion (statusReadiness d (t_id r)));
    mret (if oldStatus != TaskStatusDone then Some now else t_completed_at r)
  else mret (if (oldStatus == TaskStatusDone) && (newStatus != TaskStatusDone) then None else t_completed_at r).

Definition update_labels (r : TaskRow) (patch : TaskPatch) (actor : OperationActor) : M unit :=
  if tp_LabelsSet patch then
    oldNames ← query (fun d => labelNamesForTask d (t_id r));
    _ ← replaceTaskLabels (t_id r) (tp_LabelIDs patch);
    newNames ← query (fun d => labelNamesForTask d (t_id r));
    recordFieldChange (t_id r) actor "labels" (String.concat ", " oldNames) (String.concat ", " newNames)
  else mret tt.

Definition updateWithExpectedVersion (number : Z) (expectedVersion : option Z) (patch : TaskPatch)
  (actor : OperationActor) (now : Time) : M TaskRow :=
  _ ← lift (OperationActor_Validate actor);
  transaction (
    d ← query (fun d => d);
    r ← or_err (task_by_number d number) ErrNotFound;
    _ ← throw_if (patch_is (fun v => t_version r != v) expectedVersion) (VersionConflictError (t_version r));
    brief ← lift (patched_brief d r patch);
    let newProject := t_project_id r in
    let newParent := if tp_ParentSet patch then tp_ParentTaskID patch else t_parent_task_id r in
    let moved := (t_project_id r != newProject) ||
                 negb (uuidPtrsEqual (b_milestone_id (t_brief r)) (b_milestone_id brief)) in
    _ ← throw_if (newProject == uuid_Nil) ErrInvalidInput;
    _ ← lift (ValidateSchedule (b_start_date brief) (b_due_date brief));
    _ ← throw_if (present (t_parent_task_id r) && moved &&
                  (negb (tp_ParentSet patch) || present (tp_ParentTaskID patch))) ErrConflict;
    _ ← lift (validateParentAssignment d (t_id r) newParent newProject (b_milestone_id brief) (b_status brief));
    let oldDependencyIDs := taskDependencyIDs d (t_id r) in
    let newDependencyIDs := if tp_DependenciesSet patch then tp_DependencyIDs patch else oldDependencyIDs in
    _ ← update_dependencies r newProject newParent patch;
    newCompletedAt ← completion_time r (b_status brief) patch now;
    _ ← update_task r (edited r brief newProject newParent newCompletedAt (t_archived_at r) now);
    _ ← (if negb (present (t_parent_task_id r)) && moved
         then moveTaskChildren (t_id r) newProject (b_milestone_id brief) actor now else mret tt);
    _ ← (match tp_ScheduleShiftDays patch with
         | Some days => if negb (present (t_parent_task_id r))
                        then shiftTaskChildrenSchedules (t_id r) days actor now else mret tt
         | None => mret tt
         end);
    _ ← for_each (record_change (t_id r) actor) (field_changes r brief newProject newParent);
    _ ← (if tp_DependenciesSet patch
         then recordFieldChange (t_id r) actor "dependencies" (uuidListString oldDependencyIDs)
                (uuidListString newDependencyIDs)
         else mret tt);
    _ ← update_labels r patch actor;
    _ ← InsertBusinessAudit (mkBusinessAuditEvent uuid_Nil now actor "task" (t_id r) (Some number) "updated"
          (Some (AuditTask (t_brief r) (t_project_id r) (t_parent_task_id r) None oldDependencyIDs None))
          (Some (AuditTask brief newProject newParent None newDependencyIDs (tp_ScheduleShiftDays patch))));
    d ← query (fun d => d);
    or_err (tasks d !! t_id r) ErrNotFound).

Definition UpdateWithOperation (number : Z) (patch : TaskPatch) (actor : OperationActor) (now : Time) : M TaskRow :=
  updateWithExpectedVersion number None patch actor now.

Definition UpdateVersionedWithOperation (number expectedVersion : Z) (patch : TaskPatch)
  (actor : OperationActor) (now : Time) : M TaskRow :=
  updateWithExpectedVersion number (Some expectedVersion) patch actor now.

Definition Update (number : Z) (patch : TaskPatch) (actorID : UUID) (now : Time) : M TaskRow :=
  UpdateWithOperation number patch (SessionOperation actorID "internal") now.

(** ** Archive *)

(** [COALESCE(archived_at, now())] or NULL *)
Definition archive_time (archived : bool) (old : option Time) (now : Time) : option Time :=
  if archived then Some (default now old) else None.

Definition setArchivedWithExpectedVersion (number : Z) (expectedVersion : option Z) (archived : bool)
  (actor : OperationActor) (now : Time) : M TaskRow :=
  _ ← lift (OperationActor_Validate actor);
  transaction (
    d ← query (fun d => d);
    r ← or_err (task_by_number d number) ErrNotFound;
    let wasArchived := present (t_archived_at r) in
    _ ← throw_if (patch_is (fun v => t_version r != v) expectedVersion) (VersionConflictError (t_version r));
    _ ← throw_if (archived && negb wasArchived &&
          ((t_activity_state r == Some TaskActivityWorking) ||
           (t_activity_state r == Some TaskActivityNeedsResolution))) ErrConflict;
    _ ← (if Bool.eqb wasArchived archived then mret tt
         else
           _ ← recordFieldChange (t_id r) actor "archived" (bool_String wasArchived) (bool_String archived);
           InsertBusinessAudit (mkBusinessAuditEvent uuid_Nil now actor "task" (t_id r) (Some number)
             (if archived then "archived" else "restored") (Some (AuditArchived wasArchived))
             (Some (AuditArchived archived))));
    _ ← throw_if (MaxInt64 <=? t_version r) ErrOther;
    let r' := edited r (t_brief r) (t_project_id r) (t_parent_task_id r) (t_completed_at r)
                (archive_time archived (t_archived_at r) now) now in
    _ ← exec (fun d => set_tasks (<[t_id r := r']> (tasks d)) d);
    mret r').

Definition SetArchivedWithOperation (number : Z) (archived : bool) (actor : OperationActor) (now : Time)
  : M TaskRow := setArchivedWithExpectedVersion number None archived actor now.

Definition SetArchivedVersionedWithOperation (number expectedVersion : Z) (archived : bool)
  (actor : OperationActor) (now : Time) : M TaskRow :=
  setArchivedWithExpectedVersion number (Some expectedVersion) archived actor now.

Definition SetArchived (number : Z) (archived : bool) (actorID : UUID) (now : Time) : M TaskRow :=
  SetArchivedWithOperation number archived (SessionOperation actorID "internal") now.

End store.
