(* ===== verification/TaskGraph.v ===== *)
(** * The graph of dependencies

    The recursive query of the task store computes the transitive closure of the dependencies, and
    its answer decides exactly whether new dependencies of a Task close a cycle. *)

From stdpp Require Import base tactics strings gmap list numbers sorting relations.
From S2P Require Import Prelude Actors Lifecycle StageClaim Delivery Thread Acceptance Database Tx.
From S2P Require Import ThreadStore ClaimStore WorkflowStore WorkflowCommands TaskStore.

(** ** Edges as a relation *)

Definition depends (E : gset (UUID * UUID)) (a b : UUID) : Prop := (a, b) ∈ E.

(** No Task depends on itself, directly or through others. *)
Definition acyclic (E : gset (UUID * UUID)) : Prop := forall a, ~ tc (depends E) a a.

Lemma depends_mono E E' : E ⊆ E' -> forall a b, depends E a b -> depends E' a b.
Proof. unfold depends. set_solver. Qed.

Lemma tc_first {A} (R : relation A) x y : tc R x y -> exists z, R x z /\ rtc R z y.
Proof. destruct 1; eauto using rtc_refl, tc_rtc. Qed.

Lemma tc_of_first {A} (R : relation A) x z y : R x z -> rtc R z y -> tc R x y.
Proof. intros Hd [->|Ht]%rtc_tc; [by apply tc_once|by eapply tc_l]. Qed.

Lemma tc_end {A} (R : relation A) x y : tc R x y -> exists z, R z y.
Proof. induction 1; eauto. Qed.

Lemma size_image (f : UUID * UUID -> UUID) (l : list (UUID * UUID)) :
  (size (list_to_set (f <$> l) : gset UUID) <= length l)%nat.
Proof.
  induction l as [|e l IH]; cbn; [by rewrite size_empty|].
  etrans; [apply Nat.eq_le_incl, size_union_alt|]. rewrite size_singleton.
  pose proof (subseteq_size (list_to_set (f <$> l) ∖ {[f e]} : gset UUID) (list_to_set (f <$> l)) ltac:(set_solver)).
  lia.
Qed.

(** ** The recursive query *)

Section closure.
Context (E : gset (UUID * UUID)) (id : UUID).

Definition rounds (n : nat) : gset UUID :=
  Nat.iter n (dependency_round E) (set_map snd (filter (fun e => e.1 = id) E)).

Lemma elem_of_round S b : b ∈ dependency_round E S <-> b ∈ S \/ exists a, a ∈ S /\ depends E a b.
Proof.
  unfold dependency_round, depends. rewrite elem_of_union, elem_of_map. split.
  - intros [?|([a c] & -> & Hin%elem_of_filter)]; [by left|]. right. exists a. naive_solver.
  - intros [?|(a & Ha & Hd)]; [by left|]. right. exists (a, b). split; [done|]. by apply elem_of_filter.
Qed.

Lemma elem_of_first b : b ∈ rounds 0 <-> depends E id b.
Proof.
  unfold rounds, depends. cbn. rewrite elem_of_map. split.
  - intros ([a c] & -> & Hin%elem_of_filter). naive_solver.
  - intros Hd. exists (id, b). split; [done|]. by apply elem_of_filter.
Qed.

Lemma rounds_sound n b : b ∈ rounds n -> tc (depends E) id b.
Proof.
  revert b. induction n as [|n IH]; intros b Hb.
  - apply tc_once. by apply elem_of_first.
  - apply elem_of_round in Hb as [Hb|(a & Ha & Hd)]; [by apply IH|].
    eapply tc_r; [by apply IH|done].
Qed.

Lemma rounds_bound n : (size (rounds n) <= size E)%nat.
Proof.
  transitivity (size (set_map snd E : gset UUID)); [|apply size_image].
  apply subseteq_size. intros b Hb. apply rounds_sound, tc_end in Hb as [a Ha].
  apply elem_of_map. by exists (a, b).
Qed.

Definition closed (S : gset UUID) : Prop := forall a b, a ∈ S -> depends E a b -> b ∈ S.

Lemma closed_or_grown n : closed (rounds n) \/ (S n <= size (rounds n))%nat.
Proof.
  induction n as [|n IH].
  - destruct (decide (rounds 0 = ∅)) as [E0|Hne].
    + left. intros a b Ha _. rewrite E0 in Ha. by apply not_elem_of_empty in Ha.
    + right. assert (size (rounds 0) <> 0%nat); [|lia]. apply size_non_empty_iff. intros E0. apply Hne. by apply leibniz_equiv.
  - destruct IH as [Hc|Hs].
    + left. intros a b Ha Hd. cbn in *. apply elem_of_round.
      apply elem_of_round in Ha as [Ha|(c & Hc' & Hd')]; eauto.
    + destruct (decide (rounds (S n) ⊆ rounds n)) as [Hsub|Hsub].
      * left. intros a b Ha Hd. cbn. apply elem_of_round. right. exists a. split; [by apply Hsub|done].
      * right. assert (rounds n ⊂ rounds (S n)) as Hlt.
        { split; [|done]. intros b Hb. cbn. apply elem_of_round. by left. }
        apply subset_size in Hlt. lia.
Qed.
End closure.

Lemma reachable_tc E a b : b ∈ reachable E a <-> tc (depends E) a b.
Proof.
  change (reachable E a) with (rounds E a (size E)). split; [apply rounds_sound|].
  assert (closed E (rounds E a (size E))) as Hc.
  { destruct (closed_or_grown E a (size E)) as [?|Hs]; [done|]. pose proof (rounds_bound E a (size E)). lia. }
  assert (forall n c, c ∈ rounds E a 0 -> c ∈ rounds E a n) as Hup.
  { induction n; [done|]. intros c H0. cbn. apply elem_of_round. eauto. }
  intros (c & Hd & Hr)%tc_first.
  assert (c ∈ rounds E a (size E)) as Hin by (apply Hup, elem_of_first; done).
  clear Hd. induction Hr; eauto.
Qed.

(** ** Replacing the dependencies of one Task *)

(** The dependencies after [replaceTaskDependencies]. *)
Definition replaced (E : gset (UUID * UUID)) (t : UUID) (ds : list UUID) : gset (UUID * UUID) :=
  list_to_set ((fun b => (t, b)) <$> ds) ∪ filter (fun e => e.1 <> t) E.

Lemma depends_replaced E t ds a b :
  depends (replaced E t ds) a b <-> (a = t /\ b ∈ ds) \/ (a <> t /\ depends E a b).
Proof.
  unfold depends, replaced. rewrite elem_of_union, elem_of_list_to_set, list_elem_of_fmap, elem_of_filter. cbn.
  naive_solver.
Qed.

Section replace.
Context (E : gset (UUID * UUID)) (t : UUID) (ds : list UUID).

(** A path to [t] uses no edge that leaves [t] before it gets there. *)
Lemma path_to a : rtc (depends E) a t <-> rtc (depends (replaced E t ds)) a t.
Proof.
  assert (forall u, rtc (depends E) a u -> u = t -> rtc (depends (replaced E t ds)) a t) as H1.
  { induction 1 as [|x y z Hd _ IH]; intros ->; [done|]. destruct (decide (x = t)) as [->|Hne]; [done|].
    eapply rtc_l; [|by apply IH]. apply depends_replaced. by right. }
  assert (forall u, rtc (depends (replaced E t ds)) a u -> u = t -> rtc (depends E) a t) as H2.
  { clear H1. induction 1 as [|x y z Hd _ IH]; intros ->; [done|]. destruct (decide (x = t)) as [->|Hne]; [done|].
    apply depends_replaced in Hd as [[? _]|[_ Hd]]; [done|]. eapply rtc_l; [done|by apply IH]. }
  naive_solver.
Qed.

(** A path either uses no new edge or passes through [t]. *)
Lemma path_split a b :
  tc (depends (replaced E t ds)) a b ->
  tc (depends E) a b \/
  (rtc (depends (replaced E t ds)) a t /\ tc (depends (replaced E t ds)) t b).
Proof.
  induction 1 as [a b Hd|a c b Hd Ht IH].
  - pose proof Hd as Hd'. apply depends_replaced in Hd as [[-> _]|[_ Hd]].
    + right. split; [done|by apply tc_once].
    + left. by apply tc_once.
  - pose proof Hd as Hd'. apply depends_replaced in Hd as [[-> _]|[_ Hd]].
    + right. split; [done|]. by eapply tc_l.
    + destruct IH as [IH|[IH1 IH2]]; [left; by eapply tc_l|right]. split; [by eapply rtc_l|done].
Qed.

(** The check of the code is exact: an acyclic graph stays acyclic if and only if the Task is neither
    one of its new dependencies nor reachable from one of them in the old graph. *)
Lemma acyclic_replaced :
  acyclic E ->
  acyclic (replaced E t ds) <-> forall b, b ∈ ds -> b <> t /\ t ∉ reachable E b.
Proof.
  intros HE. split.
  - intros HE' b Hb.
    assert (~ rtc (depends (replaced E t ds)) b t) as Hn.
    { intros Hr. apply (HE' t). eapply tc_of_first; [|done]. apply depends_replaced. by left. }
    split.
    + intros ->. by apply Hn.
    + rewrite reachable_tc. intros Ht. by apply Hn, path_to, tc_rtc.
  - intros Hds.
    assert (~ tc (depends (replaced E t ds)) t t) as Ht.
    { intros (b & Hd & Hr)%tc_first. apply depends_replaced in Hd as [[_ Hb]|[? _]]; [|done].
      apply path_to in Hr. destruct (Hds b Hb) as [Hne Hnr]. rewrite reachable_tc in Hnr.
      by apply rtc_tc in Hr as [?|?]. }
    intros a [Ha|[H1 H2]]%path_split; [by apply (HE a)|]. apply Ht. by eapply tc_rtc_r.
Qed.
End replace.
