(* ===== verification/WorkflowEffects.v ===== *)
(** * What the statements of the workflow store do

    For every statement of the workflow commands, when it succeeds and what it changes: an
    equivalence, used from left to right to read a run and from right to left to perform one. *)

From stdpp Require Import base tactics strings gmap list numbers sorting.
From S2P Require Import Prelude Actors Lifecycle StageClaim Delivery Thread Acceptance.
From S2P Require Import Database Tx ThreadStore ClaimStore WorkflowStore WorkflowCommands.

(** Runs the statements whose outcome is known. *)
Ltac run_fwd :=
  repeat (progress (unfold lift, throw_if, fail_if, query, exec, or_err, uuid_New, mret, M_ret,
    result_mret, mbind, M_bind, result_mbind; cbn [w_db w_next])).

Lemma present_true {A} (o : option A) : present o = true <-> is_Some o.
Proof. destruct o; cbn; split; intros Hx; (discriminate Hx || done || by destruct Hx). Qed.

Section effects.
Context `{UUIDSource}.

(** ** Items *)

Record item_insertable (d : DB) (r : ItemRow) : Prop := {
  ii_checks : task_thread_items_checks r = true;
  ii_fresh : task_thread_items d !! i_id r = None;
  ii_unique : item_unique_violated d r = false;
  ii_fks : item_fks d r = true;
}.

Definition add_item (r : ItemRow) (d : DB) : DB :=
  set_items (<[i_id r := r]> (task_thread_items d)) d.

Lemma insertTaskThreadItem_Ok item rid w u w' :
  insertTaskThreadItem item rid w = (Ok u, w') <->
  ThreadItem_Validate item = Ok tt /\ item_insertable (w_db w) (item_row item rid) /\
  w' = mkWorld (add_item (item_row item rid) (w_db w)) (w_next w).
Proof.
  unfold insertTaskThreadItem, insert_item_row. split.
  - intros Hr. run_inv. go_bool. split_and!; [done|..|done].
    split; [done|by apply present_false|done|done].
  - intros (Hv & [Hc Hf Hu Hk] & ->). destruct u. run_fwd. rewrite Hv. run_fwd.
    rewrite Hc, Hf, Hu, Hk. reflexivity.
Qed.

(** The Item of [insertWorkflowItem] and [insertDeliveryWorkflowItem]. *)
Definition workflow_item (id threadID : UUID) (kind : ThreadItemKind) (author : Actor) (body : string)
  (payload : option IssueResolutionPayload) (now : Time) : ThreadItem :=
  mkThreadItem id threadID kind author body payload None None None None [] 1 now now None.

Definition delivery_item (id threadID : UUID) (kind : ThreadItemKind) (author : Actor) (body : string)
  (claimID : UUID) (cycle : Z) (payload : option ExecutionCompletedPayload) (now : Time) : ThreadItem :=
  mkThreadItem id threadID kind author body None payload (Some claimID) (Some cycle) None [] 1 now now None.

(** One Item is added with the next identifier. *)
Definition item_added (item : ThreadItem) (rid : string) (w w' : World) : Prop :=
  ThreadItem_Validate item = Ok tt /\ item_insertable (w_db w) (item_row item rid) /\
  w' = mkWorld (add_item (item_row item rid) (w_db w)) (S (w_next w)).

Lemma insertWorkflowItem_Ok th kind author body payload rid now w item w' :
  insertWorkflowItem th kind author body payload rid now w = (Ok item, w') <->
  item = workflow_item (uuid_seq (w_next w)) th kind author body payload now /\ item_added item rid w w'.
Proof.
  unfold insertWorkflowItem. split.
  - intros Hr. run_inv.
    match goal with Hi : insertTaskThreadItem _ _ _ = _ |- _ =>
      apply insertTaskThreadItem_Ok in Hi as (? & ? & ->) end.
    done.
  - intros (-> & Hv & Hi & ->). apply M_bind_Ok. eexists _, _. split; [by apply uuid_New_Ok|].
    apply M_bind_Ok. eexists tt, _. split; [apply insertTaskThreadItem_Ok; split_and!; done|done].
Qed.

Lemma insertDeliveryWorkflowItem_Ok th kind author body cl cycle payload rid now w item w' :
  insertDeliveryWorkflowItem th kind author body cl cycle payload rid now w = (Ok item, w') <->
  item = delivery_item (uuid_seq (w_next w)) th kind author body cl cycle payload now /\
  item_added item rid w w'.
Proof.
  unfold insertDeliveryWorkflowItem. split.
  - intros Hr. run_inv.
    match goal with Hi : insertTaskThreadItem _ _ _ = _ |- _ =>
      apply insertTaskThreadItem_Ok in Hi as (? & ? & ->) end.
    done.
  - intros (-> & Hv & Hi & ->). apply M_bind_Ok. eexists _, _. split; [by apply uuid_New_Ok|].
    apply M_bind_Ok. eexists tt, _. split; [apply insertTaskThreadItem_Ok; split_and!; done|done].
Qed.

(** ** Audit *)

Record auditable (d : DB) (e : BusinessAuditEvent) : Prop := {
  au_actor : OperationActor_Validate (be_Actor e) = Ok tt;
  au_time : Time_IsZero (be_OccurredAt e) = false;
  au_named : be_EntityID e <> uuid_Nil /\ be_EntityType e <> "" /\ be_Action e <> "";
  au_checks : business_audit_events_checks e = true;
  au_fresh : be_ID e ∉ (be_ID <$> business_audit_events d);
  au_fks : bool_decide (op_UserID (be_Actor e) ∈ users d) &&
           match op_TokenID (be_Actor e) with
           | Some t => bool_decide (t ∈ api_tokens d)
           | None => true
           end = true;
}.

Definition add_audit (e : BusinessAuditEvent) (d : DB) : DB :=
  set_audit (business_audit_events d ++ [e]) d.

Definition workflow_event (id : UUID) (task : workflowTask) (operation : OperationActor)
  (action : string) (now : Time) : BusinessAuditEvent :=
  mkBusinessAuditEvent id now operation "task" (wt_TaskID task) (Some (wt_TaskNumber task)) action None
    (Some (AuditLifecycle (wt_Lifecycle task))).

Lemma InsertBusinessAudit_Ok now operation ety eid num action old new w u w' :
  InsertBusinessAudit (mkBusinessAuditEvent uuid_Nil now operation ety eid num action old new) w
    = (Ok u, w') <->
  let e := mkBusinessAuditEvent (uuid_seq (w_next w)) now operation ety eid num action old new in
  auditable (w_db w) e /\ w' = mkWorld (add_audit e (w_db w)) (S (w_next w)).
Proof.
  unfold InsertBusinessAudit. cbn [be_ID be_Actor be_OccurredAt be_EntityID be_EntityType be_EntityNumber
    be_Action be_OldValue be_NewValue]. rewrite (bool_decide_eq_true_2 (uuid_Nil = uuid_Nil) eq_refl). cbv zeta. split.
  - intros Hr. run_inv. go_bool. split; [|done]. split; cbn; try done.
    apply andb_true_iff. split; [by apply bool_decide_eq_true|done].
  - intros [[Ha Ht (Hn1 & Hn2 & Hn3) Hc Hf Hk] ->]. destruct u.
    cbn in Ha, Ht, Hn1, Hn2, Hn3, Hf, Hk. run_fwd. rewrite Ha. run_fwd.
    rewrite Ht, Hc, Hk, (bool_decide_eq_false_2 (eid = _) Hn1), (bool_decide_eq_false_2 (ety = _) Hn2),
      (bool_decide_eq_false_2 (action = _) Hn3). cbn [orb].
    by rewrite (bool_decide_eq_false_2 _ Hf).
Qed.

Definition audited (task : workflowTask) (operation : OperationActor) (action : string) (now : Time)
  (w w' : World) : Prop :=
  let e := workflow_event (uuid_seq (w_next w)) task operation action now in
  auditable (w_db w) e /\ w' = mkWorld (add_audit e (w_db w)) (S (w_next w)).

Lemma insertWorkflowAudit_Ok task operation action now w u w' :
  insertWorkflowAudit task operation action now w = (Ok u, w') <-> audited task operation action now w w'.
Proof. apply InsertBusinessAudit_Ok. Qed.

(** ** The Task row *)

Record task_writable (d : DB) (task : workflowTask) (v : Z) (r r' : TaskRow) : Prop := {
  tk_valid : TaskLifecycle_Validate (wt_Lifecycle task) = Ok tt;
  tk_row : tasks d !! wt_TaskID task = Some r;
  tk_version : t_version r = v;
  tk_checks : tasks_checks r' = true;
  tk_fk : fk (t_active_issue_thread_id r') (dom (task_threads d)) = true;
}.

Definition put_task (k : UUID) (r : TaskRow) (d : DB) : DB := set_tasks (<[k := r]> (tasks d)) d.

Lemma persistWorkflowTask_Ok task v now w task' w' :
  persistWorkflowTask task v now w = (Ok task', w') <->
  task' = with_Version task (int64 (v + 1)) /\
  exists r, task_writable (w_db w) task v r (set_task_row r task' now) /\
    w' = mkWorld (put_task (wt_TaskID task) (set_task_row r task' now) (w_db w)) (w_next w).
Proof.
  unfold persistWorkflowTask. split.
  - intros Hr. run_inv. cbn in *.
    match goal with Hm : context [tasks ?d !! ?k] |- _ => destruct (tasks d !! k) as [r|] eqn:Hl end;
      [|run_inv].
    case_bool_decide; run_inv. go_bool. split; [done|]. exists r. done.
  - intros (-> & r & [Hv Hl Hver Hc Hk] & ->). run_fwd. rewrite Hv. run_fwd. cbn in Hl |- *. rewrite Hl.
    rewrite bool_decide_eq_true_2 by done. run_fwd. cbn in Hc, Hk. rewrite Hc, Hk. reflexivity.
Qed.

(** ** Claims *)

Record claim_writable (d : DB) (c : TaskStageClaim) (v : Z) (r : ClaimRow) : Prop := {
  cl_row : task_stage_claims d !! sc_ID c = Some r;
  cl_version : c_version r = v;
  cl_checks : task_stage_claims_checks (set_claim_row r c) = true;
  cl_unique : one_active_violated (set_claims (delete (sc_ID c) (task_stage_claims d)) d)
                (set_claim_row r c) = false;
}.

Definition put_claim (k : UUID) (r : ClaimRow) (d : DB) : DB :=
  set_claims (<[k := r]> (task_stage_claims d)) d.

Lemma updateTaskStageClaim_Ok c v w u w' :
  updateTaskStageClaim c v w = (Ok u, w') <->
  exists r, claim_writable (w_db w) c v r /\
    w' = mkWorld (put_claim (sc_ID c) (set_claim_row r c) (w_db w)) (w_next w).
Proof.
  unfold updateTaskStageClaim. split.
  - intros Hr. run_inv.
    match goal with Hm : context [task_stage_claims ?d !! ?k] |- _ =>
      destruct (task_stage_claims d !! k) as [r|] eqn:Hl end; [|run_inv].
    case_bool_decide; run_inv. go_bool. exists r. done.
  - intros (r & [Hl Hver Hc Hu] & ->). destruct u. run_fwd. rewrite Hl.
    rewrite bool_decide_eq_true_2 by done. run_fwd. rewrite Hc, Hu. reflexivity.
Qed.

Lemma complete_claim_Ok c o now w c' w' :
  complete_claim c o now w = (Ok c', w') <->
  TaskStageClaim_Complete c o now = Ok c' /\
  exists r, claim_writable (w_db w) c' (sc_Version c) r /\
    w' = mkWorld (put_claim (sc_ID c') (set_claim_row r c') (w_db w)) (w_next w).
Proof.
  unfold complete_claim. split.
  - intros Hr. run_inv.
    match goal with Hu : updateTaskStageClaim _ _ _ = _ |- _ => apply updateTaskStageClaim_Ok in Hu end.
    done.
  - intros (Hc & Hw). apply M_bind_Ok. exists c', w. split; [by apply lift_Ok|].
    apply M_bind_Ok. eexists tt, _. split; [by apply updateTaskStageClaim_Ok|done].
Qed.

Record claim_insertable (d : DB) (c : TaskStageClaim) : Prop := {
  ci_valid : TaskStageClaim_Validate c = Ok tt;
  ci_checks : task_stage_claims_checks (claim_row c) = true;
  ci_fresh : task_stage_claims d !! sc_ID c = None;
  ci_unique : one_active_violated d (claim_row c) = false;
  ci_fks : claim_fks d (claim_row c) = true;
}.

Lemma claim_row_id c : c_id (claim_row c) = sc_ID c.
Proof. unfold claim_row. by destruct (actorColumns _). Qed.

Lemma insertTaskStageClaim_Ok c w u w' :
  insertTaskStageClaim c w = (Ok u, w') <->
  claim_insertable (w_db w) c /\ w' = mkWorld (put_claim (sc_ID c) (claim_row c) (w_db w)) (w_next w).
Proof.
  unfold insertTaskStageClaim. cbv zeta. rewrite claim_row_id. split.
  - intros Hr. run_inv. go_bool. split; [split; try done; by apply present_false|done].
  - intros [[Hv Hc Hf Hu Hk] ->]. destruct u. run_fwd. rewrite Hv. run_fwd. rewrite Hc, Hf, Hu, Hk.
    reflexivity.
Qed.

(** ** Issue Threads *)

Definition put_thread (k : UUID) (r : ThreadRow) (d : DB) : DB :=
  set_threads (<[k := r]> (task_threads d)) d.

Record issue_insertable (d : DB) (issue : Thread) : Prop := {
  is_valid : Thread_Validate issue = Ok tt;
  is_checks : task_threads_checks (issue_row issue) = true;
  is_fresh : task_threads d !! th_ID issue = None;
  is_unique : is_open_issue (th_TaskID issue) (issue_row issue) &&
              present (open_issue d (th_TaskID issue)) = false;
  is_fks : fk (Some (th_TaskID issue)) (dom (tasks d)) &&
           fk (h_opened_by_user_id (issue_row issue)) (users d) = true;
}.

Lemma issue_row_id i : h_id (issue_row i) = th_ID i.
Proof. unfold issue_row. by destruct (actorColumns _). Qed.
Lemma issue_row_task i : h_task_id (issue_row i) = th_TaskID i.
Proof. unfold issue_row. by destruct (actorColumns _). Qed.

Lemma insertIssueThread_Ok issue w u w' :
  insertIssueThread issue w = (Ok u, w') <->
  issue_insertable (w_db w) issue /\
  w' = mkWorld (put_thread (th_ID issue) (issue_row issue) (w_db w)) (w_next w).
Proof.
  unfold insertIssueThread. cbv zeta. rewrite issue_row_id, issue_row_task. split.
  - intros Hr. run_inv. repeat match goal with Hn : negb _ = false |- _ => apply negb_false_iff in Hn end.
     split; [split; try done; by apply present_false|done].
  - intros [[Hv Hc Hf Hu Hk] ->]. destruct u. run_fwd. rewrite Hv. run_fwd. rewrite Hc, Hf, Hu, Hk.
    reflexivity.
Qed.

Record issue_resolvable (d : DB) (issue : Thread) (by_ : Actor) (v : Z) (r : ThreadRow) : Prop := {
  ir_by : th_ResolvedBy issue = Some by_;
  ir_row : task_threads d !! th_ID issue = Some r;
  ir_version : h_version r = v;
  ir_open : h_issue_status r = Some IssueThreadStatusOpen;
  ir_checks : task_threads_checks (set_resolved_row r issue by_) = true;
  ir_fk : fk (h_resolved_by_user_id (set_resolved_row r issue by_)) (users d) = true;
}.

Lemma persistResolvedIssue_Ok issue v w u w' :
  persistResolvedIssue issue v w = (Ok u, w') <->
  exists by_ r, issue_resolvable (w_db w) issue by_ v r /\
    w' = mkWorld (put_thread (th_ID issue) (set_resolved_row r issue by_) (w_db w)) (w_next w).
Proof.
  unfold persistResolvedIssue. split.
  - intros Hr. run_inv.
    match goal with Hm : context [task_threads ?d !! ?k] |- _ =>
      destruct (task_threads d !! k) as [r|] eqn:Hl end; [|run_inv].
    match goal with Hm : (if ?b then _ else _) _ = _ |- _ => destruct b eqn:? end; run_inv.
    go_bool. eexists _, r. done.
  - intros (b & r & [Hb Hl Hver Ho Hc Hk] & ->). destruct u. run_fwd. rewrite Hb. run_fwd. rewrite Hl.
    rewrite !bool_decide_eq_true_2 by done. run_fwd. cbn in Hc, Hk. rewrite Hc, Hk. reflexivity.
Qed.

End effects.
