(* ===== verification/WorkflowInvariant.v ===== *)
(** * Consistency of the workflow tables

    What the tables of a workspace satisfy between any two commands: a Task is being worked on
    exactly when it has one active Claim, of the stage of its phase; it waits for a resolution
    exactly when it has one open Issue Thread, opened from its phase, with its request and no
    resolution yet; every Task of the workflow has a valid lifecycle and one Main Thread.  The
    lemmas say when a change of the rows of one Task keeps each part. *)

From stdpp Require Import base tactics strings gmap list numbers sorting.
From S2P Require Import Prelude Actors Lifecycle StageClaim Delivery Thread Acceptance.
From S2P Require Import Database Tx ThreadStore ClaimStore WorkflowStore WorkflowCommands.
From S2P Require Import WorkflowEffects.

(** ** The lifecycle in a row *)

Definition row_lifecycle (r : TaskRow) : option TaskLifecycle :=
  match t_phase r, t_review_cycle r with
  | Some phase, Some cycle => Some (mkTaskLifecycle phase (of_null (t_activity_state r)) cycle)
  | _, _ => None
  end.

Definition row_in (r : TaskRow) (w : WorkState) : Prop :=
  exists l, row_lifecycle r = Some l /\ represents l w.

Lemma of_nullIfEmpty s : of_null (nullIfEmpty s) = s.
Proof. unfold nullIfEmpty. by case_bool_decide; subst. Qed.

Lemma row_lifecycle_set r task now : row_lifecycle (set_task_row r task now) = Some (wt_Lifecycle task).
Proof. unfold row_lifecycle. cbn. rewrite of_nullIfEmpty. by destruct (wt_Lifecycle task). Qed.

Lemma row_in_fun r w w' : row_in r w -> row_in r w' -> w = w'.
Proof. intros (l & Hl & Hw) (l' & Hl' & Hw'). simplify_eq. eauto using represents_fun. Qed.

Lemma row_in_set r task now w : row_in (set_task_row r task now) w <-> represents (wt_Lifecycle task) w.
Proof.
  unfold row_in. rewrite row_lifecycle_set. split; [|eauto]. intros (l & Hl & Hr). by simplify_eq.
Qed.

(** ** The invariant *)

Record tasks_wf (T : gmap UUID TaskRow) : Prop := {
  tw_key : forall k r, T !! k = Some r -> t_id r = k;
  tw_number : forall k k' r r', T !! k = Some r -> T !! k' = Some r' -> t_number r = t_number r' -> k = k';
  tw_lifecycle : forall k r l, T !! k = Some r -> row_lifecycle r = Some l -> TaskLifecycle_Validate l = Ok tt;
}.

Record claims_wf (T : gmap UUID TaskRow) (C : gmap UUID ClaimRow) : Prop := {
  cw_key : forall i c, C !! i = Some c -> c_id c = i;
  cw_active : forall i c, C !! i = Some c -> c_status c = StageClaimStatusActive ->
    exists r st, T !! c_task_id c = Some r /\ row_in r (Working st) /\ c_stage c = stage_text st /\
      c_task_number c = t_number r;
  cw_one : forall i j c c', C !! i = Some c -> C !! j = Some c' -> c_task_id c = c_task_id c' ->
    c_status c = StageClaimStatusActive -> c_status c' = StageClaimStatusActive -> i = j;
  cw_working : forall k r st, T !! k = Some r -> row_in r (Working st) ->
    exists i c, C !! i = Some c /\ c_task_id c = k /\ c_status c = StageClaimStatusActive;
}.

Definition is_main (taskID : UUID) (h : ThreadRow) : bool :=
  (h_task_id h == taskID) && (h_role h == ThreadRoleMain).

Record threads_wf (T : gmap UUID TaskRow) (H : gmap UUID ThreadRow) : Prop := {
  hw_key : forall i h, H !! i = Some h -> h_id h = i;
  hw_main : forall k r l, T !! k = Some r -> row_lifecycle r = Some l ->
    exists i h, H !! i = Some h /\ is_main k h = true;
  hw_one_main : forall i j h h' k, H !! i = Some h -> H !! j = Some h' ->
    is_main k h = true -> is_main k h' = true -> i = j;
  hw_open : forall i h k, H !! i = Some h -> is_open_issue k h = true ->
    exists r st, T !! k = Some r /\ row_in r (NeedsResolution st) /\
      t_active_issue_thread_id r = Some i /\ h_opened_from_phase h = Some (stage_phase st);
  hw_blocked : forall k r st, T !! k = Some r -> row_in r (NeedsResolution st) ->
    exists i h, t_active_issue_thread_id r = Some i /\ H !! i = Some h /\ is_open_issue k h = true;
}.

(** A row of kind [kind] in thread [i]. *)
Definition has_item (I : gmap UUID ItemRow) (i : UUID) (kind : ThreadItemKind) : Prop :=
  exists j r, I !! j = Some r /\ i_thread_id r = i /\ i_kind r = kind.

Record items_wf (H : gmap UUID ThreadRow) (I : gmap UUID ItemRow) : Prop := {
  iw_key : forall j r, I !! j = Some r -> i_id r = j;
  iw_thread : forall j r, I !! j = Some r -> is_Some (H !! i_thread_id r);
  iw_request : forall i h k, H !! i = Some h -> is_open_issue k h = true ->
    has_item I i ThreadItemKindResolutionRequest;
  iw_unanswered : forall i h k, H !! i = Some h -> is_open_issue k h = true ->
    ~ has_item I i ThreadItemKindResolution;
}.

Record wf (d : DB) : Prop := {
  wf_tasks : tasks_wf (tasks d);
  wf_claims : claims_wf (tasks d) (task_stage_claims d);
  wf_threads : threads_wf (tasks d) (task_threads d);
  wf_items : items_wf (task_threads d) (task_thread_items d);
}.

(** ** Changing the row of one Task *)

Lemma lookup_put {V} (m : gmap UUID V) k k' v x :
  <[k := v]> m !! k' = Some x <-> (k' = k /\ x = v) \/ (k' <> k /\ m !! k' = Some x).
Proof.
  destruct (decide (k' = k)) as [->|Hne].
  - rewrite lookup_insert_eq. naive_solver.
  - rewrite lookup_insert_ne by done. naive_solver.
Qed.

Section one_task.
Context (T : gmap UUID TaskRow) (k : UUID) (r : TaskRow) (HT : T !! k = Some r).

(** A new version of the row: same Task, same number. *)
Definition same_task (r' : TaskRow) : Prop := t_id r' = t_id r /\ t_number r' = t_number r.

Lemma tasks_wf_put r' l' :
  tasks_wf T -> same_task r' -> row_lifecycle r' = Some l' -> TaskLifecycle_Validate l' = Ok tt ->
  tasks_wf (<[k := r']> T).
Proof using HT.
  intros [Hkey Hnum Hlc] [Hid Hn] Hl Hv. split.
  - intros j q. rewrite lookup_put. intros [[-> ->]|[_ Hq]]; [|eauto]. rewrite Hid. eauto.
  - intros i j p q. rewrite !lookup_put. intros [[-> ->]|[Hi Hp]] [[-> ->]|[Hj Hq]] E; try done.
    + symmetry. eapply Hnum; eauto. congruence.
    + eapply Hnum; eauto. congruence.
    + eauto.
  - intros j q l. rewrite lookup_put. intros [[-> ->]|[_ Hq]] E; [congruence|eauto].
Qed.

(** *** Claims *)

(** [C'] agrees with [C] on the Claims of other Tasks, and [oc] is the active Claim of [k]. *)
Record claims_step (C C' : gmap UUID ClaimRow) (oc : option ClaimRow) : Prop := {
  cs_key : forall i c, C' !! i = Some c -> c_id c = i;
  cs_other : forall i c, c_task_id c <> k -> C' !! i = Some c <-> C !! i = Some c;
  cs_active : forall i c, C' !! i = Some c -> c_task_id c = k -> c_status c = StageClaimStatusActive ->
    oc = Some c;
  cs_some : forall c, oc = Some c ->
    C' !! c_id c = Some c /\ c_task_id c = k /\ c_status c = StageClaimStatusActive;
}.

Definition claim_matches (r' : TaskRow) (oc : option ClaimRow) : Prop :=
  match oc with
  | Some c => exists st, row_in r' (Working st) /\ c_stage c = stage_text st /\
                c_task_number c = t_number r'
  | None => forall st, ~ row_in r' (Working st)
  end.

Lemma claims_wf_put C C' oc r' :
  claims_wf T C -> claims_step C C' oc -> claim_matches r' oc -> claims_wf (<[k := r']> T) C'.
Proof using HT.
  intros [Hkey Hact Hone Hwork] [Skey Soth Sact Ssome] Hm. split; [exact Skey| | |].
  - intros i c Hi Hs. destruct (decide (c_task_id c = k)) as [E|E].
    + specialize (Sact _ _ Hi E Hs) as ->. destruct Hm as (st & ? & ? & ?).
      exists r', st. rewrite E, lookup_insert_eq. done.
    + apply Soth in Hi; [|done]. rewrite lookup_insert_ne by done. eauto.
  - intros i j c c' Hi Hj E Hs Hs'. destruct (decide (c_task_id c = k)) as [Ek|Ek].
    + pose proof (Sact _ _ Hi Ek Hs). assert (c_task_id c' = k) as Ek' by congruence.
      pose proof (Sact _ _ Hj Ek' Hs'). simplify_eq.
      by rewrite <- (Skey _ _ Hi), <- (Skey _ _ Hj).
    + apply Soth in Hi; [|done]. apply Soth in Hj; [|congruence]. eauto.
  - intros j q st. rewrite lookup_put. intros [[-> ->]|[Hne Hq]] Hin.
    + destruct oc as [c|]; [|by destruct (Hm st)]. destruct (Ssome c eq_refl) as (? & ? & ?). eauto.
    + destruct (Hwork _ _ _ Hq Hin) as (i & c & Hi & E & Hs). exists i, c.
      split; [apply Soth; congruence|done].
Qed.

Lemma claims_step_keep C : claims_wf T C -> (forall st, ~ row_in r (Working st)) -> claims_step C C None.
Proof using HT.
  intros Hw Hn. split; [apply Hw|done| |done].
  intros i c Hi E Hs. destruct (cw_active _ _ Hw _ _ Hi Hs) as (q & st & Hq & Hin & _).
  rewrite E, HT in Hq. simplify_eq. by destruct (Hn st).
Qed.

Lemma claims_step_complete C i c c' :
  claims_wf T C -> C !! i = Some c -> c_task_id c = k -> c_status c = StageClaimStatusActive ->
  c_id c' = c_id c -> c_task_id c' = c_task_id c -> c_status c' <> StageClaimStatusActive ->
  claims_step C (<[i := c']> C) None.
Proof using.
  clear HT.
  intros Hw Hi Ek Hs Eid Etask Hs'. split; [| | |done].
  - intros j q. rewrite lookup_put. intros [[-> ->]|[_ Hq]]; [|by eapply cw_key].
    rewrite Eid. by eapply cw_key.
  - intros j q Hne. rewrite lookup_put. split.
    + intros [[-> ->]|[_ Hq]]; [congruence|done].
    + intros Hq. right. split; [|done]. intros ->. simplify_eq.
  - intros j q. rewrite lookup_put. intros [[-> ->]|[Hne Hq]] E Hq'; [done|].
    destruct Hne. eapply (cw_one _ _ Hw); eauto. congruence.
Qed.

Lemma claims_step_insert C C' c :
  claims_step C C' None -> C' !! c_id c = None -> c_task_id c = k ->
  c_status c = StageClaimStatusActive -> claims_step C (<[c_id c := c]> C') (Some c).
Proof using.
  clear HT.
  intros [Skey Soth Sact _] Hf Ek Hs. split.
  - intros j q. rewrite lookup_put. intros [[-> ->]|[_ Hq]]; [done|eauto].
  - intros j q Hne. rewrite lookup_put. rewrite <- Soth by done. split.
    + intros [[-> ->]|[_ Hq]]; done.
    + intros Hq. right. split; [|done]. intros ->. simplify_eq.
  - intros j q. rewrite lookup_put. intros [[-> ->]|[_ Hq]] E Hq'; [done|].
    by specialize (Sact _ _ Hq E Hq').
  - intros q [= <-]. by rewrite lookup_insert_eq.
Qed.

(** *** Threads *)

Record threads_step (H H' : gmap UUID ThreadRow) (oi : option UUID) : Prop := {
  hs_key : forall i h, H' !! i = Some h -> h_id h = i;
  hs_main : forall i h q, is_main q h = true -> H' !! i = Some h <-> H !! i = Some h;
  hs_other : forall i h q, q <> k -> is_open_issue q h = true -> H' !! i = Some h <-> H !! i = Some h;
  hs_open : forall i h, H' !! i = Some h -> is_open_issue k h = true -> oi = Some i;
  hs_some : forall i, oi = Some i -> exists h, H' !! i = Some h /\ is_open_issue k h = true;
}.

Definition issue_matches (r' : TaskRow) (H' : gmap UUID ThreadRow) (oi : option UUID) : Prop :=
  match oi with
  | Some i => exists st, row_in r' (NeedsResolution st) /\ t_active_issue_thread_id r' = Some i /\
                forall h, H' !! i = Some h -> h_opened_from_phase h = Some (stage_phase st)
  | None => forall st, ~ row_in r' (NeedsResolution st)
  end.

Lemma threads_wf_put H H' oi r' l :
  threads_wf T H -> row_lifecycle r = Some l -> threads_step H H' oi -> issue_matches r' H' oi ->
  threads_wf (<[k := r']> T) H'.
Proof using HT.
  intros [Hkey Hmain Hone Hopen Hblk] Hl [Skey Smain Soth Sopen Ssome] Hm. split; [exact Skey| | | |].
  - intros j q l' Hq Hq'.
    assert (exists i h, H !! i = Some h /\ is_main j h = true) as (i & h & Hi & Hh).
    { apply lookup_put in Hq as [[-> ->]|[_ Hq]]; eauto. }
    exists i, h. split; [by eapply Smain|done].
  - intros i j h h' q Hi Hj M M'. apply (Smain _ _ _ M) in Hi. apply (Smain _ _ _ M') in Hj. eauto.
  - intros i h q Hi Ho. destruct (decide (q = k)) as [->|Hne].
    + specialize (Sopen _ _ Hi Ho) as ->. destruct Hm as (st & ? & ? & Hp).
      exists r', st. rewrite lookup_insert_eq. eauto.
    + apply (Soth _ _ _ Hne Ho) in Hi. rewrite lookup_insert_ne by done. eauto.
  - intros j q st. rewrite lookup_put. intros [[-> ->]|[Hne Hq]] Hin.
    + destruct oi as [i|]; [|by destruct (Hm st)]. destruct Hm as (st' & _ & ? & _).
      destruct (Ssome i eq_refl) as (h & ? & ?). eauto.
    + destruct (Hblk _ _ _ Hq Hin) as (i & h & ? & Hi & Ho). exists i, h.
      split_and!; [done|by eapply Soth|done].
Qed.

Lemma threads_step_keep H :
  threads_wf T H -> (forall st, ~ row_in r (NeedsResolution st)) -> threads_step H H None.
Proof using HT.
  intros Hw Hn. split; [apply Hw|done|done| |done].
  intros i h Hi Ho. destruct (hw_open _ _ Hw _ _ _ Hi Ho) as (q & st & Hq & Hin & _).
  rewrite HT in Hq. simplify_eq. by destruct (Hn st).
Qed.
End one_task.

Lemma is_open_issue_true k h :
  is_open_issue k h = true <->
  h_task_id h = k /\ h_role h = ThreadRoleIssue /\ h_issue_status h = Some IssueThreadStatusOpen.
Proof.
  unfold is_open_issue. rewrite !andb_true_iff, !bool_decide_eq_true. tauto.
Qed.

Lemma is_main_true k h : is_main k h = true <-> h_task_id h = k /\ h_role h = ThreadRoleMain.
Proof. unfold is_main. rewrite andb_true_iff, !bool_decide_eq_true. done. Qed.

Lemma is_active_claim_true k c :
  is_active_claim k c = true <-> c_task_id c = k /\ c_status c = StageClaimStatusActive.
Proof. unfold is_active_claim. rewrite andb_true_iff, !bool_decide_eq_true. done. Qed.

Section issue_steps.
Context (T : gmap UUID TaskRow) (k : UUID) (r : TaskRow) (HT : T !! k = Some r).

Lemma threads_step_insert H h :
  threads_step k H H None -> H !! h_id h = None -> is_open_issue k h = true ->
  threads_step k H (<[h_id h := h]> H) (Some (h_id h)).
Proof using.
  clear HT.
  intros [Skey _ _ Sopen _] Hf Ho. pose proof Ho as (Et & Er & _)%is_open_issue_true. split.
  - intros j q. rewrite lookup_put. intros [[-> ->]|[_ Hq]]; [done|eauto].
  - intros j q p Hm. rewrite lookup_put. split.
    + intros [[-> ->]|[_ Hq]]; [|done]. apply is_main_true in Hm as [_ Hm]. by rewrite Er in Hm.
    + intros Hq. right. split; [|done]. intros ->. simplify_eq.
  - intros j q p Hne Hq. rewrite lookup_put. split.
    + intros [[-> ->]|[_ Hq']]; [|done]. apply is_open_issue_true in Hq as [? _]. congruence.
    + intros Hq'. right. split; [|done]. intros ->. simplify_eq.
  - intros j q. rewrite lookup_put. intros [[-> ->]|[_ Hq]] Hq'; [done|].
    by specialize (Sopen _ _ Hq Hq').
  - intros j [= <-]. exists h. by rewrite lookup_insert_eq.
Qed.

Lemma threads_step_resolve H i h h' :
  threads_wf T H -> H !! i = Some h -> is_open_issue k h = true ->
  h_id h' = h_id h -> h_task_id h' = h_task_id h -> h_role h' = h_role h ->
  h_issue_status h' <> Some IssueThreadStatusOpen ->
  threads_step k H (<[i := h']> H) None.
Proof using.
  clear HT.
  intros Hw Hi Ho Eid Et Er Hs. pose proof Ho as (Ek & Eri & _)%is_open_issue_true. split; [| | | |done].
  - intros j q. rewrite lookup_put. intros [[-> ->]|[_ Hq]]; [|by eapply hw_key].
    rewrite Eid. by eapply hw_key.
  - intros j q p Hm. rewrite lookup_put. apply is_main_true in Hm as [_ Hm]. split.
    + intros [[-> ->]|[_ Hq]]; [|done]. by rewrite Er, Eri in Hm.
    + intros Hq. right. split; [|done]. intros ->. simplify_eq. by rewrite Eri in Hm.
  - intros j q p Hne Hq. rewrite lookup_put. apply is_open_issue_true in Hq as (Eq & _ & Hq). split.
    + intros [[-> ->]|[_ Hq']]; done.
    + intros Hq'. right. split; [|done]. intros ->. congruence.
  - intros j q. rewrite lookup_put. intros [[-> ->]|[Hne Hq]] Hq'.
    + by apply is_open_issue_true in Hq' as (_ & _ & ?).
    + destruct (hw_open _ _ Hw _ _ _ Hi Ho) as (p & st & Hp & _ & E & _).
      destruct (hw_open _ _ Hw _ _ _ Hq Hq') as (p' & st' & Hp' & _ & E' & _). congruence.
Qed.
End issue_steps.

(** *** Items *)

Lemma has_item_add I i kind r :
  I !! i_id r = None -> has_item (<[i_id r := r]> I) i kind <->
  has_item I i kind \/ (i_thread_id r = i /\ i_kind r = kind).
Proof.
  intros Hf. unfold has_item. setoid_rewrite lookup_put. split.
  - intros (j & q & [[-> ->]|[_ Hq]] & ? & ?); [by right|left; eauto].
  - intros [(j & q & Hq & ? & ?)|[? ?]].
    + exists j, q. split; [|done]. right. split; [|done]. intros ->. simplify_eq.
    + exists (i_id r), r. eauto.
Qed.

(** An Item other than a resolution keeps the invariant; so does a resolution in a Thread that
    is not open. *)
Lemma items_wf_add H I r :
  items_wf H I -> I !! i_id r = None -> is_Some (H !! i_thread_id r) ->
  (i_kind r = ThreadItemKindResolution -> forall h k, H !! i_thread_id r = Some h -> is_open_issue k h = false) ->
  items_wf H (<[i_id r := r]> I).
Proof.
  intros [Ikey Ith Ireq Iun] Hf Hth Hr. split.
  - intros j q. rewrite lookup_put. intros [[-> ->]|[_ Hq]]; [done|eauto].
  - intros j q. rewrite lookup_put. intros [[-> ->]|[_ Hq]]; [done|eauto].
  - intros i h k Hi Ho. rewrite has_item_add by done. left. eauto.
  - intros i h k Hi Ho. rewrite has_item_add by done. intros [Hh|[E Hk]]; [by eapply Iun|].
    subst i. by rewrite (Hr Hk _ _ Hi) in Ho.
Qed.

(** Opening an Issue Thread together with its request. *)
Lemma items_wf_open H I i h r :
  items_wf H I -> H !! i = None -> I !! i_id r = None ->
  i_thread_id r = i -> i_kind r = ThreadItemKindResolutionRequest ->
  items_wf (<[i := h]> H) (<[i_id r := r]> I).
Proof.
  intros [Ikey Ith Ireq Iun] Hh Hf Et Ek. split.
  - intros j q. rewrite lookup_put. intros [[-> ->]|[_ Hq]]; [done|eauto].
  - intros j q. rewrite lookup_put. rewrite lookup_insert_is_Some.
    intros [[-> ->]|[_ Hq]]; [by left|]. destruct (decide (i = i_thread_id q)); [by left|right; eauto].
  - intros j q k. rewrite lookup_put, has_item_add by done. intros [[-> ->]|[_ Hi]] Ho; [by right|left; eauto].
  - intros j q k. rewrite lookup_put, has_item_add by done. rewrite Ek.
    intros [[-> ->]|[_ Hi]] Ho [Hx|[_ Hx]]; try done; [|by eapply Iun].
    destruct Hx as (j & p & Hp & Ep & _). destruct (Ith _ _ Hp) as [? Hx]. congruence.
Qed.

(** Resolving the open Issue of a Thread keeps the other open Issues as they are. *)
Lemma items_wf_resolve H I i h' :
  items_wf H I -> h_issue_status h' <> Some IssueThreadStatusOpen -> items_wf (<[i := h']> H) I.
Proof.
  intros [Ikey Ith Ireq Iun] Hs. split; [done| | |].
  { intros j q Hq. apply lookup_insert_is_Some. destruct (decide (i = i_thread_id q)); [by left|right; eauto]. }
  all: intros j q k; rewrite lookup_put;
    intros [[-> ->]|[_ Hi]] Ho; eauto; by apply is_open_issue_true in Ho as (_ & _ & ?).
Qed.

(** Rewriting an Item in place. *)
Lemma items_wf_update H I j r r' :
  items_wf H I -> I !! j = Some r -> i_id r' = i_id r -> i_thread_id r' = i_thread_id r ->
  i_kind r' = i_kind r -> items_wf H (<[j := r']> I).
Proof.
  intros [Ikey Ith Ireq Iun] Hj Eid Et Ek.
  assert (forall i kind, has_item (<[j := r']> I) i kind <-> has_item I i kind) as Hh.
  { intros i kind. unfold has_item. setoid_rewrite lookup_put. split.
    - intros (k & q & [[-> ->]|[_ Hq]] & ? & ?); [exists j, r|exists k, q]; split_and!; congruence.
    - intros (k & q & Hq & ? & ?). destruct (decide (k = j)) as [->|Hne].
      + exists j, r'. simplify_eq. split_and!; [by left|congruence..].
      + exists k, q. eauto. }
  split.
  - intros k q. rewrite lookup_put. intros [[-> ->]|[_ Hq]]; [|eauto]. rewrite Eid. eauto.
  - intros k q. rewrite lookup_put. intros [[-> ->]|[_ Hq]]; [|eauto]. rewrite Et. eauto.
  - intros. apply Hh. eauto.
  - intros i h k Hi Ho. rewrite Hh. eauto.
Qed.

(** ** Locks *)

Section locks.
Context `{UUIDSource}.

(** The [workflowTask] that is scanned from a row, its Main Thread and its lifecycle. *)
Definition load (r : TaskRow) (main : UUID) (l : TaskLifecycle) : workflowTask :=
  mkWorkflowTask (t_id r) (t_number r) (t_version r) l (t_active_issue_thread_id r) main
    (t_archived_at r) (t_project_id r).

(** The Task with number [n] is part of the workflow. *)
Definition loaded (d : DB) (n : Z) (r : TaskRow) (h : ThreadRow) (l : TaskLifecycle) : Prop :=
  task_by_number d n = Some r /\ main_thread d (t_id r) = Some h /\ row_lifecycle r = Some l /\
  TaskLifecycle_Validate l = Ok tt.

Lemma lockWorkflowTask_Ok n w task w' :
  lockWorkflowTask n w = (Ok task, w') <->
  w' = w /\ exists r h l, loaded (w_db w) n r h l /\ task = load r (h_id h) l.
Proof.
  unfold lockWorkflowTask, loaded, load. split.
  - intros Hr. run_inv. split; [done|].
    match goal with Hs : scanWorkflowTask ?r _ = _ |- _ => exists r; unfold scanWorkflowTask in Hs;
      unfold row_lifecycle end.
    destruct (t_phase _) as [ph|]; [|done]. destruct (t_review_cycle _) as [cy|]; [|done].
    destruct (main_thread _ _) as [h|] eqn:Hm; [|done]. cbn in *. go_inv. eexists h, _. eauto.
  - intros (-> & r & h & l & (Hn & Hm & Hl & Hv) & ->). run_fwd. rewrite Hn. run_fwd. rewrite Hm.
    unfold scanWorkflowTask, row_lifecycle in *. destruct (t_phase r); [|done].
    destruct (t_review_cycle r); [|done]. cbn. simplify_eq. rewrite Hv. done.
Qed.

Lemma task_by_number_Some d n r :
  tasks_wf (tasks d) -> task_by_number d n = Some r <-> tasks d !! t_id r = Some r /\ t_number r = n.
Proof.
  intros Hw. unfold task_by_number. split.
  - intros (Hp & k & Hk)%select_one_Some. apply bool_decide_eq_true in Hp.
    by rewrite (tw_key _ Hw _ _ Hk).
  - intros [Hk Hn]. eapply select_one_unique; [done|by apply bool_decide_eq_true|].
    intros k' v Hv Hp%bool_decide_eq_true.
    assert (k' = t_id r) as -> by (eapply (tw_number _ Hw); eauto; congruence). congruence.
Qed.

Lemma active_claim_Some d k c :
  active_claim d k = Some c ->
  exists i, task_stage_claims d !! i = Some c /\ c_task_id c = k /\ c_status c = StageClaimStatusActive.
Proof. intros (Hp & i & Hi)%select_one_Some. apply is_active_claim_true in Hp as [? ?]. eauto. Qed.

Lemma active_claim_wf d k c :
  claims_wf (tasks d) (task_stage_claims d) ->
  active_claim d k = Some c <->
  task_stage_claims d !! c_id c = Some c /\ c_task_id c = k /\ c_status c = StageClaimStatusActive.
Proof.
  intros Hw. split.
  - intros (i & Hi & ? & ?)%active_claim_Some. by rewrite (cw_key _ _ Hw _ _ Hi).
  - intros (Hi & Hk & Hs). eapply select_one_unique; [done|by apply is_active_claim_true|].
    intros j c' Hj [Hk' Hs']%is_active_claim_true.
    assert (j = c_id c) as -> by (eapply (cw_one _ _ Hw); eauto; congruence). congruence.
Qed.

Lemma lockActiveTaskStageClaim_Ok k w claim w' :
  lockActiveTaskStageClaim k w = (Ok claim, w') <->
  w' = w /\ exists c, active_claim (w_db w) k = Some c /\ claim = scanTaskStageClaim c.
Proof.
  unfold lockActiveTaskStageClaim. split.
  - intros Hr. run_inv. eauto.
  - intros (-> & c & Hc & ->). run_fwd. by rewrite Hc.
Qed.

(** The caller holds the active Claim of the Task, at the versions it expects. *)
Record owns (d : DB) (n : Z) (claimID : UUID) (tv cv : Z) (actor : Actor) (op : OperationActor)
  (r : TaskRow) (h : ThreadRow) (l : TaskLifecycle) (c : ClaimRow) : Prop := {
  ow_loaded : loaded d n r h l;
  ow_version : t_version r = tv;
  ow_claim : active_claim d (t_id r) = Some c;
  ow_id : c_id c = claimID;
  ow_claim_version : c_version c = cv;
  ow_actor : validateClaimActor (scanTaskStageClaim c) actor op = Ok tt;
}.

Lemma lockOwnedWorkflowClaim_Ok n claimID tv cv actor op w task claim w' :
  lockOwnedWorkflowClaim n claimID tv cv actor op w = (Ok (task, claim), w') <->
  w' = w /\ exists r h l c, owns (w_db w) n claimID tv cv actor op r h l c /\
    task = load r (h_id h) l /\ claim = scanTaskStageClaim c.
Proof.
  unfold lockOwnedWorkflowClaim. split.
  - intros Hr. run_inv.
    match goal with Hl : lockWorkflowTask _ _ = _ |- _ =>
      apply lockWorkflowTask_Ok in Hl as (-> & r & h & l & ? & ->) end.
    match goal with Hl : lockActiveTaskStageClaim _ _ = _ |- _ =>
      apply lockActiveTaskStageClaim_Ok in Hl as (-> & c & ? & ->) end.
    simplify_eq. split; [done|]. exists r, h, l, c. go_bool. split; [|done]. by split.
  - intros (-> & r & h & l & c & [Hl Hv Hc Hid Hcv Ha] & -> & ->).
    apply M_bind_Ok. eexists _, w. split; [apply lockWorkflowTask_Ok; eauto 10|].
    apply M_bind_Ok. eexists tt, w. split; [apply throw_if_Ok; split; [|done];
      cbn; by rewrite bool_decide_eq_true_2|].
    apply M_bind_Ok. eexists _, w. split; [apply lockActiveTaskStageClaim_Ok; eauto|].
    apply M_bind_Ok. eexists tt, w. split; [apply throw_if_Ok; split; [|done];
      cbn; by rewrite !bool_decide_eq_true_2|].
    apply M_bind_Ok. eexists tt, w. split; [by apply lift_Ok|done].
Qed.

End locks.
