(* ===== verification/WorkflowOutcomes.v ===== *)
(** * What the workflow commands do

    For every command, what its success implies: which Task it loaded, that its caller owned the
    active Claim, which domain transition it applied, and the exact tables it leaves behind. *)

From stdpp Require Import base tactics strings gmap list numbers sorting.
From S2P Require Import Prelude Actors Lifecycle StageClaim Delivery Thread Acceptance.
From S2P Require Import Database Tx ThreadStore ClaimStore WorkflowStore WorkflowCommands.
From S2P Require Import WorkflowEffects WorkflowInvariant.

(** Supplies the components of an existential conclusion from the hypotheses. *)
Ltac give := split_and!; try eassumption; try eassumption; try reflexivity.

Section outcomes.
Context `{UUIDSource}.

(** ** The common end of a lifecycle command: Task row, Thread Item, audit record *)

(** [d'] is [d] with the row of a Task written, one Item and one audit event added. *)
Record recorded (d d' : DB) (task task' : workflowTask) (v : Z) (now : Time) (r : TaskRow)
  (item : ThreadItem) (rid : string) (op : OperationActor) (action : string) : Prop := {
  rc_task : task' = with_Version task (int64 (v + 1));
  rc_writable : task_writable d task v r (set_task_row r task' now);
  rc_valid : ThreadItem_Validate item = Ok tt;
  rc_item : item_insertable (put_task (wt_TaskID task) (set_task_row r task' now) d) (item_row item rid);
  rc_db : exists e, auditable (add_item (item_row item rid)
                         (put_task (wt_TaskID task) (set_task_row r task' now) d)) e /\
            (exists id, e = workflow_event id task' op action now) /\
            d' = add_audit e (add_item (item_row item rid)
                   (put_task (wt_TaskID task) (set_task_row r task' now) d));
}.

Lemma record_workflow_Ok task v now kind author body payload rid op action w w1 w2 w3 task' item u :
  persistWorkflowTask task v now w = (Ok task', w1) ->
  insertWorkflowItem (wt_MainThreadID task') kind author body payload rid now w1 = (Ok item, w2) ->
  insertWorkflowAudit task' op action now w2 = (Ok u, w3) ->
  exists r, item = workflow_item (uuid_seq (w_next w)) (wt_MainThreadID task) kind author body payload now /\
    recorded (w_db w) (w_db w3) task task' v now r item rid op action.
Proof.
  intros (-> & r & Hr & ->)%persistWorkflowTask_Ok (-> & Hv & Hi & ->)%insertWorkflowItem_Ok
    (Ha & ->)%insertWorkflowAudit_Ok.
  exists r. split; [done|]. split; eauto.
Qed.

Lemma record_delivery_Ok task v now kind author body cl cy payload rid op action w w1 w2 w3 task' item u :
  persistWorkflowTask task v now w = (Ok task', w1) ->
  insertDeliveryWorkflowItem (wt_MainThreadID task') kind author body cl cy payload rid now w1
    = (Ok item, w2) ->
  insertWorkflowAudit task' op action now w2 = (Ok u, w3) ->
  exists r, item = delivery_item (uuid_seq (w_next w)) (wt_MainThreadID task) kind author body cl cy payload now /\
    recorded (w_db w) (w_db w3) task task' v now r item rid op action.
Proof.
  intros (-> & r & Hr & ->)%persistWorkflowTask_Ok (-> & Hv & Hi & ->)%insertDeliveryWorkflowItem_Ok
    (Ha & ->)%insertWorkflowAudit_Ok.
  exists r. split; [done|]. split; eauto.
Qed.

(** ** Outcomes of the commands *)

Lemma simple_Ok n v op now action body mutate w s w' :
  simpleLifecycleCommand n v op now action body mutate w = (Ok s, w') ->
  exists r h l task task' w1 r0 item,
    OperationActor_Validate op = Ok tt /\ loaded (w_db w) n r h l /\ t_version r = v /\
    mutate (load r (h_id h) l) w = (Ok task, w1) /\ s = wt_snapshot task' /\
    item = workflow_item (uuid_seq (w_next w1)) (wt_MainThreadID task) ThreadItemKindSystemEvent
             systemActor body None now /\
    recorded (w_db w1) (w_db w') task task' v now r0 item (op_RequestID op) op action.
Proof.
  unfold simpleLifecycleCommand, system_event. intros Hr. run_inv.
  match goal with Hl : lockWorkflowTask _ _ = _ |- _ =>
    apply lockWorkflowTask_Ok in Hl as (-> & r & h & l & ? & ->) end.
  match goal with Hp : persistWorkflowTask _ _ _ _ = _, Hi : insertWorkflowItem _ _ _ _ _ _ _ _ = _,
    Ha : insertWorkflowAudit _ _ _ _ _ = _ |- _ =>
    destruct (record_workflow_Ok _ _ _ _ _ _ _ _ _ _ _ _ _ _ _ _ _ Hp Hi Ha) as (r0 & -> & ?) end.
  go_bool. exists r, h, l. do 3 eexists. exists r0. eexists. give.
Qed.

Lemma MarkReady_Ok n v op now w s w' :
  MarkReady n v op now w = (Ok s, w') ->
  exists r h l l' task' r0 item,
    OperationActor_Validate op = Ok tt /\ loaded (w_db w) n r h l /\ t_version r = v /\
    run_command (CMarkReady (present (t_archived_at r))
                   (existsb unfinished (prerequisites (w_db w) (t_id r)))) l = Ok l' /\
    s = wt_snapshot task' /\ ti_Kind item = ThreadItemKindSystemEvent /\
    recorded (w_db w) (w_db w') (with_Lifecycle (load r (h_id h) l) l') task' v now r0 item
      (op_RequestID op) op "marked_ready".
Proof.
  unfold MarkReady. intros Hr. run_inv.
  match goal with Hs : simpleLifecycleCommand _ _ _ _ _ _ _ _ = _ |- _ =>
    apply simple_Ok in Hs as (r & h & l & task & task' & w1 & r0 & item & ? & ? & ? & Hm & ? & Hi & ?) end.
  run_inv. exists r, h, l. do 4 eexists. give.
Qed.

Lemma WithdrawReadiness_Ok n v reason op now w s w' :
  WithdrawReadiness n v reason op now w = (Ok s, w') ->
  exists r h l l' task' r0 item,
    OperationActor_Validate op = Ok tt /\ loaded (w_db w) n r h l /\ t_version r = v /\
    run_command CWithdrawReadiness l = Ok l' /\
    s = wt_snapshot task' /\ ti_Kind item = ThreadItemKindSystemEvent /\
    recorded (w_db w) (w_db w') (with_Lifecycle (load r (h_id h) l) l') task' v now r0 item
      (op_RequestID op) op "readiness_withdrawn".
Proof.
  unfold WithdrawReadiness. intros Hr. run_inv.
  match goal with Hs : simpleLifecycleCommand _ _ _ _ _ _ _ _ = _ |- _ =>
    apply simple_Ok in Hs as (r & h & l & task & task' & w1 & r0 & item & ? & ? & ? & Hm & ? & Hi & ?) end.
  run_inv. exists r, h, l. do 4 eexists. give.
Qed.

(** The active Claim of a Task row ended with [outcome]: the changed row. *)
Record ended (d : DB) (c : ClaimRow) (outcome : TaskClaimOutcome) (now : Time) (claim' : TaskStageClaim)
  (cr : ClaimRow) (d' : DB) : Prop := {
  en_complete : TaskStageClaim_Complete (scanTaskStageClaim c) outcome now = Ok claim';
  en_writable : claim_writable d claim' (c_version c) cr;
  en_db : d' = put_claim (sc_ID claim') (set_claim_row cr claim') d;
}.

Lemma complete_claim_ended c o now w claim' w' :
  complete_claim (scanTaskStageClaim c) o now w = (Ok claim', w') ->
  exists cr, ended (w_db w) c o now claim' cr (w_db w') /\ w_next w' = w_next w.
Proof. intros (Hc & r & Hw & ->)%complete_claim_Ok. exists r. split; [by split|done]. Qed.

Lemma finishClaim_Ok n cid tv cv o kind body actor op now mutate w s claim' w' :
  finishClaim n cid tv cv o kind body actor op now mutate w = (Ok (s, claim'), w') ->
  exists r h l c task cr d1 task' r0 item,
    validateThreadOperationActor actor op = Ok tt /\ owns (w_db w) n cid tv cv actor op r h l c /\
    mutate (load r (h_id h) l) (scanTaskStageClaim c) = Ok task /\
    ended (w_db w) c o now claim' cr d1 /\ s = wt_snapshot task' /\
    item = workflow_item (uuid_seq (w_next w)) (wt_MainThreadID task) kind actor body None now /\
    recorded d1 (w_db w') task task' tv now r0 item (op_RequestID op) op o.
Proof.
  unfold finishClaim. intros Hr. run_inv.
  match goal with Hl : lockOwnedWorkflowClaim _ _ _ _ _ _ _ = _ |- _ =>
    apply lockOwnedWorkflowClaim_Ok in Hl as (-> & r & h & l & c & ? & -> & ->) end.
  match goal with Hc : complete_claim _ _ _ _ = _ |- _ =>
    apply complete_claim_ended in Hc as (cr & ? & Hn) end.
  match goal with Hp : persistWorkflowTask _ _ _ _ = _, Hi : insertWorkflowItem _ _ _ _ _ _ _ _ = _,
    Ha : insertWorkflowAudit _ _ _ _ _ = _ |- _ =>
    destruct (record_workflow_Ok _ _ _ _ _ _ _ _ _ _ _ _ _ _ _ _ _ Hp Hi Ha) as (r0 & -> & ?) end.
  simplify_eq. rewrite Hn in *.
  exists r, h, l, c. do 3 eexists. do 3 eexists. give.
Qed.

Lemma ReleaseClaim_Ok n cid tv cv handoff actor op now w s claim' w' :
  ReleaseClaim n cid tv cv handoff actor op now w = (Ok (s, claim'), w') ->
  exists r h l c l' cr d1 task' r0 item,
    blank handoff = false /\ validateThreadOperationActor actor op = Ok tt /\
    owns (w_db w) n cid tv cv actor op r h l c /\ run_command (CRelease (c_stage c)) l = Ok l' /\
    ended (w_db w) c TaskClaimOutcomeVoluntarilyReleased now claim' cr d1 /\ s = wt_snapshot task' /\
    item = workflow_item (uuid_seq (w_next w)) (h_id h) ThreadItemKindHandoff actor handoff None now /\
    recorded d1 (w_db w') (with_Lifecycle (load r (h_id h) l) l') task' tv now r0 item (op_RequestID op) op
      TaskClaimOutcomeVoluntarilyReleased.
Proof.
  unfold ReleaseClaim. intros Hr. run_inv.
  match goal with Hf : finishClaim _ _ _ _ _ _ _ _ _ _ _ _ = _ |- _ =>
    apply finishClaim_Ok in Hf as (r & h & l & c & task & cr & d1 & task' & r0 & item & ? & ? & Hm & ? & ? & Hi & ?)
  end.
  apply bind_Ok in Hm as (l' & Hl & [= <-]). exists r, h, l, c, l', cr, d1, task', r0, item. give.
Qed.

Lemma RequestChanges_Ok n cid tv cv reason actor op now w s claim' w' :
  RequestChanges n cid tv cv reason actor op now w = (Ok (s, claim'), w') ->
  exists r h l c l' cr d1 task' r0 item,
    blank reason = false /\ validateThreadOperationActor actor op = Ok tt /\
    owns (w_db w) n cid tv cv actor op r h l c /\ run_command CRequestChanges l = Ok l' /\
    ended (w_db w) c TaskClaimOutcomeChangesRequested now claim' cr d1 /\ s = wt_snapshot task' /\
    item = workflow_item (uuid_seq (w_next w)) (h_id h) ThreadItemKindReviewOutcome actor reason None now /\
    recorded d1 (w_db w') (with_Lifecycle (load r (h_id h) l) l') task' tv now r0 item (op_RequestID op) op
      TaskClaimOutcomeChangesRequested.
Proof.
  unfold RequestChanges. intros Hr. run_inv.
  match goal with Hf : finishClaim _ _ _ _ _ _ _ _ _ _ _ _ = _ |- _ =>
    apply finishClaim_Ok in Hf as (r & h & l & c & task & cr & d1 & task' & r0 & item & ? & ? & Hm & ? & ? & Hi & ?)
  end.
  apply bind_Ok in Hm as (l' & Hl & [= <-]). exists r, h, l, c, l', cr, d1, task', r0, item. give.
Qed.

(** A due Claim was expired, with its system event. *)
Record expired (d : DB) (task : workflowTask) (now : Time) (c : ClaimRow) (l' : TaskLifecycle)
  (claim' : TaskStageClaim) (cr : ClaimRow) (item : ThreadItem) (rid : string) (d' : DB) : Prop := {
  ex_working : Activity (wt_Lifecycle task) = TaskActivityWorking;
  ex_claim : active_claim d (wt_TaskID task) = Some c;
  ex_due : c_expires_at c <= now;
  ex_release : run_command (CRelease (c_stage c)) (wt_Lifecycle task) = Ok l';
  ex_kind : ti_Kind item = ThreadItemKindSystemEvent;
  ex_valid : ThreadItem_Validate item = Ok tt;
  ex_db : exists d1, ended d c TaskClaimOutcomeDeadlineElapsed now claim' cr d1 /\
            item_insertable d1 (item_row item rid) /\ d' = add_item (item_row item rid) d1;
}.

(** There is nothing to expire. *)
Definition not_due (d : DB) (task : workflowTask) (now : Time) : Prop :=
  Activity (wt_Lifecycle task) <> TaskActivityWorking \/
  exists c, active_claim d (wt_TaskID task) = Some c /\ now < c_expires_at c.

Lemma Complete_keeps c o now c' :
  TaskStageClaim_Complete c o now = Ok c' ->
  sc_ID c' = sc_ID c /\ sc_TaskID c' = sc_TaskID c /\ sc_Stage c' = sc_Stage c /\
  sc_Status c' <> StageClaimStatusActive.
Proof.
  intros Hc. pose proof (TaskStageClaim_Complete_terminal _ _ _ _ Hc) as [Hn _]%Terminal_not_active.
  apply TaskStageClaim_Complete_Ok in Hc as (st & _ & _ & _ & ->). done.
Qed.

Lemma expireDueWorkflowClaim_Ok task op now w task' w' :
  expireDueWorkflowClaim task op now w = (Ok task', w') ->
  (task' = task /\ w' = w /\ not_due (w_db w) task now) \/
  (exists c l' claim' cr item,
     expired (w_db w) task now c l' claim' cr item (op_RequestID op) (w_db w') /\
     task' = with_Lifecycle task l').
Proof.
  unfold expireDueWorkflowClaim, system_event, not_due. intros Hr. case_bool_decide as Ha; cbn in Hr.
  2: { left. run_inv. eauto. }
  run_inv. match goal with Hl : lockActiveTaskStageClaim _ _ = _ |- _ =>
    apply lockActiveTaskStageClaim_Ok in Hl as (-> & c & ? & ->) end.
  destruct (Time_After _ _) eqn:Ht; unfold Time_After in Ht; cbn in Ht; go_bool; run_inv.
  - left. split_and!; eauto.
  - right. match goal with Hc : complete_claim _ _ _ _ = _ |- _ =>
      apply complete_claim_ended in Hc as (cr & He & Hn) end.
    match goal with Hi : insertWorkflowItem _ _ _ _ _ _ _ _ = _ |- _ =>
      apply insertWorkflowItem_Ok in Hi as (-> & ? & ? & ->) end.
    destruct (Complete_keeps _ _ _ _ (en_complete _ _ _ _ _ _ _ He)) as (_ & _ & Est & _).
    match goal with Hl : TaskLifecycle_Release _ _ = _ |- _ => rewrite Est in Hl end.
    do 5 eexists. split; [|reflexivity].
    split; try eassumption; [|eexists; split_and!; [eassumption..|reflexivity]]; reflexivity.
Qed.

Lemma Claim_Ok n v actor op ck cs now w s claim w' :
  Claim n v actor op ck cs now w = (Ok (s, claim), w') ->
  exists r h l task1 w1 stage l' id task' r0 item,
    validateThreadOperationActor actor op = Ok tt /\ loaded (w_db w) n r h l /\ t_version r = v /\
    expireDueWorkflowClaim (load r (h_id h) l) op now w = (Ok task1, w1) /\
    TaskLifecycle_Claim (wt_Lifecycle task1) (present (wt_ArchivedAt task1)) = Ok (stage, l') /\
    NewTaskStageClaim id (wt_TaskID task1) (wt_TaskNumber task1) stage actor op ck cs now = Ok claim /\
    claim_insertable (w_db w1) claim /\ s = wt_snapshot task' /\
    ti_Kind item = ThreadItemKindSystemEvent /\
    recorded (put_claim (sc_ID claim) (claim_row claim) (w_db w1)) (w_db w')
      (with_Lifecycle task1 l') task' v now r0 item (op_RequestID op) op "claimed".
Proof.
  unfold Claim, system_event. intros Hr. run_inv.
  match goal with Hl : lockWorkflowTask _ _ = _ |- _ =>
    apply lockWorkflowTask_Ok in Hl as (-> & r & h & l & ? & ->) end.
  match goal with Hc : insertTaskStageClaim _ _ = _ |- _ => apply insertTaskStageClaim_Ok in Hc as (? & ->) end.
  match goal with Hp : persistWorkflowTask _ _ _ _ = _, Hi : insertWorkflowItem _ _ _ _ _ _ _ _ = _,
    Ha : insertWorkflowAudit _ _ _ _ _ = _ |- _ =>
    destruct (record_workflow_Ok _ _ _ _ _ _ _ _ _ _ _ _ _ _ _ _ _ Hp Hi Ha) as (r0 & -> & ?) end.
  simplify_eq. go_bool. exists r, h, l. do 6 eexists. exists r0. eexists. give.
Qed.

Lemma ExpireDueClaim_Ok n op now w b w' :
  ExpireDueClaim n op now w = (Ok b, w') ->
  if b then exists r h l c l' claim' cr item d1 task' r0 e,
    OperationActor_Validate op = Ok tt /\ loaded (w_db w) n r h l /\
    expired (w_db w) (load r (h_id h) l) now c l' claim' cr item (op_RequestID op) d1 /\
    task' = with_Version (with_Lifecycle (load r (h_id h) l) l') (int64 (t_version r + 1)) /\
    task_writable d1 (with_Lifecycle (load r (h_id h) l) l') (t_version r) r0 (set_task_row r0 task' now) /\
    (exists id, e = workflow_event id task' op "claim_expired" now) /\
    w_db w' = add_audit e (put_task (t_id r) (set_task_row r0 task' now) d1)
  else w_db w' = w_db w.
Proof.
  unfold ExpireDueClaim. intros Hr. run_inv. destruct b; [|done].
  match goal with Hl : lockWorkflowTask _ _ = _ |- _ =>
    apply lockWorkflowTask_Ok in Hl as (-> & r & h & l & ? & ->) end.
  match goal with Hx : (if ?b then _ else _) _ = _ |- _ => destruct b eqn:? end; [run_inv; done|]. run_inv.
  match goal with Hx : (if ?b then _ else _) _ = _ |- _ => destruct b eqn:? end; [run_inv; done|]. run_inv.
  match goal with Hx : expireDueWorkflowClaim _ _ _ _ = _ |- _ =>
    apply expireDueWorkflowClaim_Ok in Hx as [(-> & -> & _)|(c & l' & claim' & cr & item & ? & ->)] end.
  { go_bool. done. }
  match goal with Hp : persistWorkflowTask _ _ _ _ = _ |- _ =>
    apply persistWorkflowTask_Ok in Hp as (-> & r0 & ? & ->) end.
  match goal with Hp : insertWorkflowAudit _ _ _ _ _ = _ |- _ =>
    apply insertWorkflowAudit_Ok in Hp as (? & ->) end.
  exists r, h, l, c, l', claim', cr, item. do 2 eexists. exists r0. eexists. give. by eexists.
Qed.

(** A note in the Main Thread by the holder of the Claim: one Item, one audit event. *)
Record noted (d d' : DB) (task : workflowTask) (item : ThreadItem) (op : OperationActor)
  (action : string) (now : Time) : Prop := {
  nt_valid : ThreadItem_Validate item = Ok tt;
  nt_item : item_insertable d (item_row item (op_RequestID op));
  nt_db : exists id, d' = add_audit (workflow_event id task op action now)
                            (add_item (item_row item (op_RequestID op)) d);
}.

Lemma RecordWorkSubmission_Ok n cid tv cv summary actor op now w s claim item w' :
  RecordWorkSubmission n cid tv cv summary actor op now w = (Ok (s, claim, item), w') ->
  exists r h l c,
    blank summary = false /\ validateThreadOperationActor actor op = Ok tt /\
    owns (w_db w) n cid tv cv actor op r h l c /\ represents l (Working Execution) /\
    c_stage c = TaskClaimStageExecution /\ s = wt_snapshot (load r (h_id h) l) /\
    claim = scanTaskStageClaim c /\
    item = delivery_item (uuid_seq (w_next w)) (h_id h) ThreadItemKindWorkSubmission actor summary (c_id c)
             (int64 (ReviewCycle l + 1)) None now /\
    noted (w_db w) (w_db w') (load r (h_id h) l) item op "work_submission_recorded" now.
Proof.
  unfold RecordWorkSubmission. intros Hr. run_inv.
  match goal with Hl : lockOwnedWorkflowClaim _ _ _ _ _ _ _ = _ |- _ =>
    apply lockOwnedWorkflowClaim_Ok in Hl as (-> & r & h & l & c & ? & -> & ->) end.
  match goal with Hi : insertDeliveryWorkflowItem _ _ _ _ _ _ _ _ _ _ = _ |- _ =>
    apply insertDeliveryWorkflowItem_Ok in Hi as (-> & ? & ? & ->) end.
  match goal with Hp : insertWorkflowAudit _ _ _ _ _ = _ |- _ =>
    apply insertWorkflowAudit_Ok in Hp as (? & ->) end.
  simplify_eq. go_bool. exists r, h, l, c. give.
  - destruct l. unfold represents. cbn in *. by subst.
  - split; [done..|]. by eexists.
Qed.

Lemma get_claim_Ok cid w claim w' :
  get_claim cid w = (Ok claim, w') <->
  w' = w /\ exists c, task_stage_claims (w_db w) !! cid = Some c /\ claim = scanTaskStageClaim c.
Proof.
  unfold get_claim, GetClaim. split.
  - intros Hr. run_inv. destruct (task_stage_claims _ !! _); naive_solver.
  - intros (-> & c & Hc & ->). run_fwd. by rewrite Hc.
Qed.

(** Resolving the target of a command reads only; when it succeeds the Claim is active. *)
Lemma claimCommandTarget_Ok cid op now w claim w' :
  claimCommandTarget cid op now w = (Ok claim, w') ->
  w_db w' = w_db w /\ exists c, task_stage_claims (w_db w) !! cid = Some c /\
    claim = scanTaskStageClaim c /\ c_status c = StageClaimStatusActive.
Proof.
  unfold claimCommandTarget. intros Hr. run_inv.
  match goal with Hg : get_claim _ _ = _ |- _ => apply get_claim_Ok in Hg as (-> & c & ? & ->) end.
  go_bool. match goal with Hx : (if ?b then _ else _) _ = _ |- _ => destruct b eqn:? end; run_inv.
  - match goal with Hx : ExpireDueClaim _ _ _ _ = _ |- _ => apply ExpireDueClaim_Ok in Hx end.
    match goal with Hg : get_claim _ _ = _ |- _ => apply get_claim_Ok in Hg as (-> & c' & Hc' & ->) end.
    cbn in *. match goal with E : w_db _ = w_db _ |- _ => rewrite E in * end. eauto.
  - eauto.
Qed.

Lemma RecordClaimProgress_Ok cid body actor op now w s claim item w' :
  RecordClaimProgress cid body actor op now w = (Ok (s, claim, item), w') ->
  exists target w1 r h l c,
    blank body = false /\ validateThreadOperationActor actor op = Ok tt /\
    claimCommandTarget cid op now w = (Ok target, w1) /\ w_db w1 = w_db w /\
    loaded (w_db w) (sc_TaskNumber target) r h l /\
    active_claim (w_db w) (t_id r) = Some c /\ c_id c = cid /\
    validateClaimActor (scanTaskStageClaim c) actor op = Ok tt /\
    Activity l = TaskActivityWorking /\ s = wt_snapshot (load r (h_id h) l) /\
    claim = scanTaskStageClaim c /\
    item = delivery_item (uuid_seq (w_next w1)) (h_id h) ThreadItemKindProgress actor body (c_id c)
             (int64 (ReviewCycle l + executionCycleOffset (c_stage c))) None now /\
    noted (w_db w) (w_db w') (load r (h_id h) l) item op "claim_progress_recorded" now.
Proof.
  unfold RecordClaimProgress. intros Hr. run_inv.
  match goal with Ht : claimCommandTarget _ _ _ _ = _ |- _ =>
    pose proof (claimCommandTarget_Ok _ _ _ _ _ _ Ht) as [Edb _] end.
  match goal with Hl : lockWorkflowTask _ _ = _ |- _ =>
    apply lockWorkflowTask_Ok in Hl as (-> & r & h & l & ? & ->) end.
  match goal with Hl : lockActiveTaskStageClaim _ _ = _ |- _ =>
    apply lockActiveTaskStageClaim_Ok in Hl as (-> & c & ? & ->) end.
  match goal with Hi : insertDeliveryWorkflowItem _ _ _ _ _ _ _ _ _ _ = _ |- _ =>
    apply insertDeliveryWorkflowItem_Ok in Hi as (-> & ? & ? & ->) end.
  match goal with Hp : insertWorkflowAudit _ _ _ _ _ = _ |- _ =>
    apply insertWorkflowAudit_Ok in Hp as (? & ->) end.
  simplify_eq. go_bool. rewrite Edb in *. do 2 eexists. exists r, h, l, c. give.
  split; [done..|]. by eexists.
Qed.

Lemma CompleteExecution_Ok n cid tv cv summary changes actor op now w s claim' item w' :
  CompleteExecutionWithDelivery n cid tv cv summary changes actor op now w = (Ok (s, claim', item), w') ->
  exists r h l c l' payload cr d1 task' r0,
    blank summary = false /\ validateThreadOperationActor actor op = Ok tt /\
    owns (w_db w) n cid tv cv actor op r h l c /\ run_command CCompleteExecution l = Ok l' /\
    executionCompletionPayload (w_db w) (with_Lifecycle (load r (h_id h) l) l') (ReviewCycle l') changes
      = Ok payload /\
    ended (w_db w) c TaskClaimOutcomeExecutionCompleted now claim' cr d1 /\ s = wt_snapshot task' /\
    item = delivery_item (uuid_seq (w_next w)) (h_id h) ThreadItemKindExecutionCompleted actor summary
             (sc_ID claim') (ReviewCycle l') (Some payload) now /\
    recorded d1 (w_db w') (with_Lifecycle (load r (h_id h) l) l') task' tv now r0 item (op_RequestID op) op
      "execution_completed".
Proof.
  unfold CompleteExecutionWithDelivery. intros Hr. run_inv.
  match goal with Hl : lockOwnedWorkflowClaim _ _ _ _ _ _ _ = _ |- _ =>
    apply lockOwnedWorkflowClaim_Ok in Hl as (-> & r & h & l & c & ? & -> & ->) end.
  match goal with Hc : complete_claim _ _ _ _ = _ |- _ =>
    apply complete_claim_ended in Hc as (cr & ? & Hn) end.
  match goal with Hp : persistWorkflowTask _ _ _ _ = _,
    Hi : insertDeliveryWorkflowItem _ _ _ _ _ _ _ _ _ _ = _, Ha : insertWorkflowAudit _ _ _ _ _ = _ |- _ =>
    pose proof (proj1 (persistWorkflowTask_Ok _ _ _ _ _ _) Hp) as [Et _];
    destruct (record_delivery_Ok _ _ _ _ _ _ _ _ _ _ _ _ _ _ _ _ _ _ _ Hp Hi Ha) as (r0 & -> & ?) end.
  simplify_eq. rewrite Hn in *.
  exists r, h, l, c. do 4 eexists. eexists. exists r0. give.
Qed.

Lemma AcceptTask_Ok n cid tv cv summary actor op now w s claim' w' :
  AcceptTask n cid tv cv summary actor op now w = (Ok (s, claim'), w') ->
  exists r h l c l' cr d1 task' r0 item,
    blank summary = false /\ validateThreadOperationActor actor op = Ok tt /\
    owns (w_db w) n cid tv cv actor op r h l c /\
    run_command (CAccept (taskCompletionReadinessForCycle (w_db w) (t_id r) (ReviewCycle l))) l = Ok l' /\
    ended (w_db w) c TaskClaimOutcomeTaskAccepted now claim' cr d1 /\ s = wt_snapshot task' /\
    item = workflow_item (uuid_seq (w_next w)) (h_id h) ThreadItemKindReviewOutcome actor summary None now /\
    recorded d1 (w_db w') (with_Lifecycle (load r (h_id h) l) l') task' tv now r0 item (op_RequestID op) op
      "task_accepted".
Proof.
  unfold AcceptTask. intros Hr. run_inv.
  match goal with Hl : lockOwnedWorkflowClaim _ _ _ _ _ _ _ = _ |- _ =>
    apply lockOwnedWorkflowClaim_Ok in Hl as (-> & r & h & l & c & ? & -> & ->) end.
  match goal with Hc : complete_claim _ _ _ _ = _ |- _ =>
    apply complete_claim_ended in Hc as (cr & ? & Hn) end.
  match goal with Hp : persistWorkflowTask _ _ _ _ = _, Hi : insertWorkflowItem _ _ _ _ _ _ _ _ = _,
    Ha : insertWorkflowAudit _ _ _ _ _ = _ |- _ =>
    destruct (record_workflow_Ok _ _ _ _ _ _ _ _ _ _ _ _ _ _ _ _ _ Hp Hi Ha) as (r0 & -> & ?) end.
  simplify_eq. rewrite Hn in *.
  exists r, h, l, c. do 4 eexists. exists r0. eexists. give.
Qed.

(** The Issue Thread and its request are written before the Claim ends. *)
Lemma RequestResolution_Ok n cid tv cv ity request actor op now w s claim' issue w' :
  RequestResolution n cid tv cv ity request actor op now w = (Ok (s, claim', issue), w') ->
  exists r h l c l' req cr d1 d2 d3 task' r0 item,
    IssueThreadType_Valid ity = true /\ blank request = false /\
    validateThreadOperationActor actor op = Ok tt /\
    owns (w_db w) n cid tv cv actor op r h l c /\
    NewIssueThread (uuid_seq (w_next w)) (t_id r) ity (Phase l) actor now = Ok issue /\
    run_command (CRequestResolution (c_stage c)) l = Ok l' /\
    issue_insertable (w_db w) issue /\ d1 = put_thread (th_ID issue) (issue_row issue) (w_db w) /\
    req = workflow_item (uuid_seq (S (w_next w))) (th_ID issue) ThreadItemKindResolutionRequest actor request
            None now /\
    ThreadItem_Validate req = Ok tt /\ item_insertable d1 (item_row req (op_RequestID op)) /\
    d2 = add_item (item_row req (op_RequestID op)) d1 /\
    ended d2 c TaskClaimOutcomeNeedsResolution now claim' cr d3 /\ s = wt_snapshot task' /\
    ti_Kind item = ThreadItemKindSystemEvent /\
    recorded d3 (w_db w') (with_ActiveIssueThreadID (with_Lifecycle (load r (h_id h) l) l') (Some (th_ID issue)))
      task' tv now r0 item (op_RequestID op) op "resolution_requested".
Proof.
  unfold RequestResolution, system_event. intros Hr. run_inv.
  match goal with Hl : lockOwnedWorkflowClaim _ _ _ _ _ _ _ = _ |- _ =>
    apply lockOwnedWorkflowClaim_Ok in Hl as (-> & r & h & l & c & ? & -> & ->) end.
  match goal with Hc : insertIssueThread _ _ = _ |- _ => apply insertIssueThread_Ok in Hc as (? & ->) end.
  match goal with Hp : persistWorkflowTask _ _ _ _ = _, Hi : insertWorkflowItem _ _ _ _ _ _ _ ?w1 = (_, ?w2),
    Ha : insertWorkflowAudit _ _ _ _ ?w2 = _ |- _ =>
    destruct (record_workflow_Ok _ _ _ _ _ _ _ _ _ _ _ _ _ _ _ _ _ Hp Hi Ha) as (r0 & -> & ?); clear Hi end.
  match goal with Hi : insertWorkflowItem _ _ _ _ _ _ _ _ = _ |- _ =>
    apply insertWorkflowItem_Ok in Hi as (-> & ? & ? & ->) end.
  match goal with Hc : complete_claim _ _ _ _ = _ |- _ =>
    apply complete_claim_ended in Hc as (cr & ? & Hn) end.
  simplify_eq. go_bool. cbn in *.
  exists r, h, l, c. do 7 eexists. exists r0. eexists. give.
Qed.

(** An open Issue was resolved: the resolution Item, the resolved row, the record in the Main Thread. *)
Record issue_answered (d : DB) (task : workflowTask) (issue : Thread) (request : ThreadItem) (v : Z)
  (resolution : string) (actor : Actor) (rid : string) (now : Time) (i1 i2 : UUID) (issue' : Thread)
  (hr : ThreadRow) (d' : DB) : Prop := {
  ia_resolve : Thread_Resolve issue actor now = Ok issue';
  ia_answer_valid : ThreadItem_Validate
    (workflow_item i1 (th_ID issue) ThreadItemKindResolution actor resolution None now) = Ok tt;
  ia_answer : item_insertable d
    (item_row (workflow_item i1 (th_ID issue) ThreadItemKindResolution actor resolution None now) rid);
  ia_row : issue_resolvable d issue' actor v hr;
  ia_db : exists record,
    record = workflow_item i2 (wt_MainThreadID task) ThreadItemKindIssueResolution systemActor ""
      (Some (mkIssueResolutionPayload (th_ID issue) (th_IssueType issue) (ti_Body request) resolution
               (th_OpenedBy issue) actor (th_CreatedAt issue) now)) now /\
    ThreadItem_Validate record = Ok tt /\
    let answer := item_row (workflow_item i1 (th_ID issue) ThreadItemKindResolution actor resolution None now) rid in
    let d1 := put_thread (th_ID issue') (set_resolved_row hr issue' actor) (add_item answer d) in
    item_insertable d1 (item_row record rid) /\ d' = add_item (item_row record rid) d1;
}.

Lemma Thread_Resolve_Ok t a now t' :
  Thread_Resolve t a now = Ok t' <->
  th_Role t = ThreadRoleIssue /\ th_IssueStatus t = IssueThreadStatusOpen /\ validThreadActor a = true /\
  t' = th_resolved t a now.
Proof.
  unfold Thread_Resolve. split.
  - intros Hr. go_inv. done.
  - intros (-> & -> & Hv & ->). cbn. by rewrite Hv.
Qed.

Lemma resolve_issue_Ok task issue request v resolution actor op now w issue' w' :
  resolve_issue task issue request v resolution actor op now w = (Ok issue', w') ->
  exists hr, issue_answered (w_db w) task issue request v resolution actor (op_RequestID op) now
    (uuid_seq (w_next w)) (uuid_seq (S (w_next w))) issue' hr (w_db w') /\ w_next w' = S (S (w_next w)).
Proof.
  unfold resolve_issue. intros Hr. run_inv.
  repeat match goal with Hi : insertWorkflowItem _ _ _ _ _ _ _ _ = _ |- _ =>
    apply insertWorkflowItem_Ok in Hi as (-> & ? & ? & ->) end.
  match goal with Hp : persistResolvedIssue _ _ _ = _ |- _ =>
    apply persistResolvedIssue_Ok in Hp as (b & hr & Hres & ->) end.
  match goal with Ht : Thread_Resolve _ _ _ = _ |- _ =>
    pose proof (proj1 (Thread_Resolve_Ok _ _ _ _) Ht) as (_ & _ & _ & ->) end.
  assert (b = actor) as -> by (pose proof (ir_by _ _ _ _ _ Hres); cbn in *; congruence).
  cbn in *. simplify_eq. exists hr. split; [|done]. split; eauto 10. by destruct Hres; split.
Qed.

(** The Issue Thread [hr] of a Task with its request. *)
Definition issue_of (d : DB) (k i : UUID) (hr : ThreadRow) (req : ItemRow) : Prop :=
  select_one (fun h => (h_id h == i) && (h_task_id h == k) && (h_role h == ThreadRoleIssue)) (task_threads d)
    = Some hr /\
  select_one (fun q => (i_thread_id q == h_id hr) && (i_kind q == ThreadItemKindResolutionRequest))
    (task_thread_items d) = Some req.

Lemma ResolveIssue_Ok n tv i hv resolution actor op now w s issue' w' :
  ResolveIssue n tv i hv resolution actor op now w = (Ok (s, issue'), w') ->
  exists r h l hr0 req l' hr d1 task' r0 e,
    blank resolution = false /\ validateThreadOperationActor actor op = Ok tt /\
    loaded (w_db w) n r h l /\ t_version r = tv /\ t_active_issue_thread_id r = Some i /\
    issue_of (w_db w) (t_id r) i hr0 req /\ h_version hr0 = hv /\
    of_null (h_opened_from_phase hr0) = Phase l /\
    issue_answered (w_db w) (load r (h_id h) l) (scanTaskThread hr0) (scanTaskThreadItem [] req) hv resolution
      actor (op_RequestID op) now (uuid_seq (w_next w)) (uuid_seq (S (w_next w))) issue' hr d1 /\
    run_command CResolveIssue l = Ok l' /\
    task' = with_Version (with_ActiveIssueThreadID (with_Lifecycle (load r (h_id h) l) l') None) (int64 (tv + 1)) /\
    s = wt_snapshot task' /\
    task_writable d1 (with_ActiveIssueThreadID (with_Lifecycle (load r (h_id h) l) l') None) tv r0
      (set_task_row r0 task' now) /\
    (exists id, e = workflow_event id task' op "issue_resolved" now) /\
    w_db w' = add_audit e (put_task (t_id r) (set_task_row r0 task' now) d1).
Proof.
  unfold ResolveIssue, lockIssueThread, getIssueRequest. intros Hr. run_inv.
  match goal with Hl : lockWorkflowTask _ _ = _ |- _ =>
    apply lockWorkflowTask_Ok in Hl as (-> & r & h & l & ? & ->) end.
  match goal with Hl : resolve_issue _ _ _ _ _ _ _ _ _ = _ |- _ =>
    apply resolve_issue_Ok in Hl as (hr & ? & ?) end.
  match goal with Hp : persistWorkflowTask _ _ _ _ = _ |- _ =>
    apply persistWorkflowTask_Ok in Hp as (-> & r0 & ? & ->) end.
  match goal with Hp : insertWorkflowAudit _ _ _ _ _ = _ |- _ =>
    apply insertWorkflowAudit_Ok in Hp as (? & ->) end.
  simplify_eq. go_bool. exists r, h, l. do 3 eexists. exists hr. do 2 eexists. exists r0. eexists.
  give; [by split|by eexists].
Qed.

Lemma RecordAcceptanceCheck_Ok n cid tv cv check actor op now w check' w' :
  RecordAcceptanceCheck n cid tv cv check actor op now w = (Ok check', w') ->
  exists r h l c criterion e,
    validateThreadOperationActor actor op = Ok tt /\
    owns (w_db w) n cid tv cv actor op r h l c /\ Activity l = TaskActivityWorking /\
    acceptance_criteria (w_db w) !! ck_CriterionID check = Some criterion /\
    ac_TaskID criterion = Some (t_id r) /\ ac_ArchivedAt criterion = None /\
    ck_CriterionID check' = ck_CriterionID check /\ ck_Outcome check' = ck_Outcome check /\
    ck_CheckedAt check' = now /\
    ck_Purpose check' = (if c_stage c == TaskClaimStageExecution
                         then AcceptanceCheckPurposeExecutionVerification
                         else AcceptanceCheckPurposeAcceptance) /\
    ValidateForTaskClaim check' criterion (c_id c) (c_stage c) (ReviewCycle l) = Ok tt /\
    acceptance_checks (w_db w) !! ck_ID check' = None /\
    (exists id, e = workflow_event id (load r (h_id h) l) op "acceptance_check_recorded" now) /\
    w_db w' = add_audit e (set_checks (<[ck_ID check' := check_row check' (c_id c) (ReviewCycle l)]>
                                         (acceptance_checks (w_db w))) (w_db w)).
Proof.
  unfold RecordAcceptanceCheck, lockTaskAcceptanceCriterion, insert_check_row. intros Hr. run_inv.
  match goal with Hl : lockWorkflowTask _ _ = _ |- _ =>
    apply lockWorkflowTask_Ok in Hl as (-> & r & h & l & ? & ->) end.
  match goal with Hl : lockActiveTaskStageClaim _ _ = _ |- _ =>
    apply lockActiveTaskStageClaim_Ok in Hl as (-> & c & ? & ->) end.
  match goal with Hp : insertWorkflowAudit _ _ _ _ _ = _ |- _ =>
    apply insertWorkflowAudit_Ok in Hp as (? & ->) end.
  unfold check_row in *. cbn [ck_Checker ck_ID ck_CriterionID] in *.
  destruct (actorColumns _) as [cu cref] eqn:Ec. go_bool. cbn in *.
  repeat match goal with Hp : present _ = false |- _ => apply present_false in Hp end.
  exists r, h, l, c. do 2 eexists. give; try rewrite Ec; try done.
  by eexists.
Qed.

(** How a Task leaves its state when it is cancelled: a working Task ends its Claim, a blocked one
    resolves its Issue. *)
Inductive cancel_prologue (w : World) (k : UUID) (main : UUID) (l : TaskLifecycle) (oi : option UUID)
  (reason : string) (actor : Actor) (op : OperationActor) (now : Time) (d1 : DB)
  : option TaskStageClaim -> option Thread -> Prop :=
| cancel_idle :
    Activity l <> TaskActivityWorking -> Activity l <> TaskActivityNeedsResolution -> d1 = w_db w ->
    cancel_prologue w k main l oi reason actor op now d1 None None
| cancel_working c claim' cr :
    Activity l = TaskActivityWorking -> active_claim (w_db w) k = Some c ->
    ended (w_db w) c TaskClaimOutcomeTaskCancelled now claim' cr d1 ->
    cancel_prologue w k main l oi reason actor op now d1 (Some claim') None
| cancel_blocked i hr0 req task issue' hr :
    Activity l = TaskActivityNeedsResolution -> oi = Some i -> issue_of (w_db w) k i hr0 req ->
    wt_MainThreadID task = main ->
    issue_answered (w_db w) task (scanTaskThread hr0) (scanTaskThreadItem [] req) (h_version hr0)
      ("Task cancelled: " +:+ reason) actor (op_RequestID op) now (uuid_seq (w_next w))
      (uuid_seq (S (w_next w))) issue' hr d1 ->
    cancel_prologue w k main l oi reason actor op now d1 None (Some issue').

Lemma working_not_blocked : TaskActivityWorking <> TaskActivityNeedsResolution.
Proof. done. Qed.

Lemma CancelTask_Ok n tv reason actor op now w res w' :
  CancelTask n tv reason actor op now w = (Ok res, w') ->
  exists r h l d1 l' task' r0 item,
    blank reason = false /\ validateThreadOperationActor actor op = Ok tt /\
    loaded (w_db w) n r h l /\ t_version r = tv /\
    cancel_prologue w (t_id r) (h_id h) l (t_active_issue_thread_id r) reason actor op now d1
      (ctr_EndedClaim res) (ctr_ResolvedIssue res) /\
    run_command CCancel l = Ok l' /\ ctr_Task res = wt_snapshot task' /\
    ti_Kind item = ThreadItemKindSystemEvent /\
    recorded d1 (w_db w')
      (with_ActiveIssueThreadID (with_Lifecycle (load r (h_id h) l) l')
         (if Activity l == TaskActivityNeedsResolution then None else t_active_issue_thread_id r))
      task' tv now r0 item (op_RequestID op) op "task_cancelled".
Proof.
  pose proof working_not_blocked.
  unfold CancelTask, lockIssueThread, getIssueRequest, system_event. intros Hr. run_inv.
  match goal with Hl : lockWorkflowTask _ _ = _ |- _ =>
    apply lockWorkflowTask_Ok in Hl as (-> & r & h & l & ? & ->) end.
  cbn [wt_Lifecycle load] in *.
  match goal with Hp : persistWorkflowTask _ _ _ _ = _, Hi : insertWorkflowItem _ _ _ _ _ _ _ _ = _,
    Ha : insertWorkflowAudit _ _ _ _ _ = _ |- _ =>
    destruct (record_workflow_Ok _ _ _ _ _ _ _ _ _ _ _ _ _ _ _ _ _ Hp Hi Ha) as (r0 & -> & ?); clear Hp Hi Ha end.
  repeat match goal with Hx : (if ?b then _ else _) _ = _ |- _ => destruct b eqn:? end; run_inv;
    simplify_eq; go_bool; try congruence; cbn [ctr_EndedClaim ctr_ResolvedIssue].
  - match goal with Hl : resolve_issue _ _ _ _ _ _ _ _ _ = _ |- _ =>
      apply resolve_issue_Ok in Hl as (hr & ? & ?) end.
    exists r, h, l. rewrite (bool_decide_eq_true_2 (Activity l = _)) by congruence.
    do 3 eexists. exists r0. eexists. give.
    eapply cancel_blocked; [eassumption..|split; eassumption| |eassumption]. done.
  - match goal with Hl : lockActiveTaskStageClaim _ _ = _ |- _ =>
      apply lockActiveTaskStageClaim_Ok in Hl as (-> & c & ? & ->) end.
    match goal with Hc : complete_claim _ _ _ _ = _ |- _ =>
      apply complete_claim_ended in Hc as (cr & ? & Hn) end.
    exists r, h, l. rewrite (bool_decide_eq_false_2 (Activity l = _)) by congruence.
    do 3 eexists. exists r0. eexists. give. eapply cancel_working; eassumption.
  - exists r, h, l. rewrite (bool_decide_eq_false_2 (Activity l = _)) by congruence.
    do 3 eexists. exists r0. eexists. give. by apply cancel_idle.
Qed.

End outcomes.
