(* ===== verification/WorkflowSafety.v ===== *)
(** * The workflow commands keep the tables consistent

    Every successful command of the workflow and thread stores leads from consistent tables to
    consistent tables; one lemma per command. *)

From stdpp Require Import base tactics strings gmap list numbers sorting.
From S2P Require Import Prelude Actors Lifecycle StageClaim Delivery Thread Acceptance.
From S2P Require Import Database Tx ThreadStore ClaimStore WorkflowStore WorkflowCommands.
From S2P Require Import WorkflowEffects WorkflowInvariant WorkflowOutcomes.

Section safety.
Context `{UUIDSource}.

Lemma wf_add_audit e d : wf d -> wf (add_audit e d).
Proof. by intros []; split. Qed.

Lemma item_row_kind item rid : i_kind (item_row item rid) = ti_Kind item.
Proof. unfold item_row. by destruct (actorColumns _). Qed.

Lemma item_row_thread item rid : i_thread_id (item_row item rid) = ti_ThreadID item.
Proof. unfold item_row. by destruct (actorColumns _). Qed.

Lemma item_row_id item rid : i_id (item_row item rid) = ti_ID item.
Proof. unfold item_row. by destruct (actorColumns _). Qed.

Lemma insertable_thread d r : item_insertable d r -> is_Some (task_threads d !! i_thread_id r).
Proof.
  intros [_ _ _ Hk]. unfold item_fks in Hk. go_bool. cbn in *. go_bool. by apply elem_of_dom.
Qed.

Lemma wf_add_item d r :
  wf d -> item_insertable d r -> i_kind r <> ThreadItemKindResolution -> wf (add_item r d).
Proof.
  intros [HT HC HH HI] Hi Hk. split; [done..|].
  apply items_wf_add; [done|apply Hi|by apply (insertable_thread d)|done].
Qed.

(** ** Writing the Task row after its Claims and Threads *)

Lemma wf_put d d1 r l task now oc oi :
  wf d -> tasks d !! t_id r = Some r -> row_lifecycle r = Some l -> tasks d1 = tasks d ->
  TaskLifecycle_Validate (wt_Lifecycle task) = Ok tt ->
  claims_step (t_id r) (task_stage_claims d) (task_stage_claims d1) oc ->
  threads_step (t_id r) (task_threads d) (task_threads d1) oi ->
  items_wf (task_threads d1) (task_thread_items d1) ->
  claim_matches (set_task_row r task now) oc ->
  issue_matches (set_task_row r task now) (task_threads d1) oi ->
  wf (put_task (t_id r) (set_task_row r task now) d1).
Proof.
  intros [HT HC HH HI] Hr Hl ET Hv Hcs Hhs Hi Hcm Him. split; cbn; rewrite ?ET.
  - eapply tasks_wf_put; [done..|apply row_lifecycle_set|done].
  - by eapply claims_wf_put.
  - by eapply threads_wf_put.
  - done.
Qed.

Lemma wf_recorded d d1 d' r l task task' v now r0 item rid op action oc oi :
  recorded d1 d' task task' v now r0 item rid op action ->
  wf d -> tasks d !! t_id r = Some r -> row_lifecycle r = Some l -> wt_TaskID task = t_id r ->
  ti_Kind item <> ThreadItemKindResolution -> tasks d1 = tasks d ->
  claims_step (t_id r) (task_stage_claims d) (task_stage_claims d1) oc ->
  threads_step (t_id r) (task_threads d) (task_threads d1) oi ->
  items_wf (task_threads d1) (task_thread_items d1) ->
  claim_matches (set_task_row r task' now) oc ->
  issue_matches (set_task_row r task' now) (task_threads d1) oi -> wf d'.
Proof.
  intros [-> Hwr Hv Hit (e & _ & _ & ->)] Hw Hr Hl Ek Hk ET Hcs Hhs Hi Hcm Him.
  pose proof (tk_row _ _ _ _ _ Hwr) as Hr0. rewrite ET, Ek in Hr0. simplify_eq.
  apply wf_add_audit, wf_add_item; [|done|by rewrite item_row_kind]. rewrite Ek in *.
  eapply wf_put; eauto. apply Hwr.
Qed.

(** ** States *)

Lemma loaded_row d n r h l :
  tasks_wf (tasks d) -> loaded d n r h l ->
  tasks d !! t_id r = Some r /\ t_number r = n /\ row_lifecycle r = Some l.
Proof. intros Hw (Hn & _ & Hl & _). apply task_by_number_Some in Hn; [|done]. tauto. Qed.

(** The row represents the state that its lifecycle represents. *)
Lemma row_state r l w w' : row_lifecycle r = Some l -> represents l w -> row_in r w' -> w' = w.
Proof. intros Hl Hw (l' & Hl' & Hw'). simplify_eq. eauto using represents_fun. Qed.

Lemma set_state r task now w w' :
  represents (wt_Lifecycle task) w -> row_in (set_task_row r task now) w' -> w' = w.
Proof. rewrite row_in_set. eauto using represents_fun. Qed.

Lemma ended_step d r c o now claim' cr d1 d' :
  claims_wf (tasks d) (task_stage_claims d) -> task_stage_claims d1 = task_stage_claims d ->
  active_claim d (t_id r) = Some c -> ended d1 c o now claim' cr d' ->
  claims_step (t_id r) (task_stage_claims d) (task_stage_claims d') None /\
  cr = c /\ tasks d' = tasks d1 /\ task_threads d' = task_threads d1 /\
  task_thread_items d' = task_thread_items d1.
Proof.
  intros Hw EC Hc [Hcomp Hwr ->]. apply active_claim_wf in Hc as (Hc & Ht & Hs); [|done].
  destruct (Complete_keeps _ _ _ _ Hcomp) as (Eid & _ & _ & Hst). cbn in Eid.
  pose proof (cl_row _ _ _ _ Hwr) as Hcr. rewrite Eid, EC in Hcr.
  assert (cr = c) as -> by congruence.
  split_and!; try done. cbn. rewrite Eid, EC. by eapply (claims_step_complete (tasks d)).
Qed.

(** A command that only moves the Task row. *)
Lemma wf_simple d d' n r h l l' c w w' task' v now r0 item rid op action :
  wf d -> loaded d n r h l -> run_command c l = Ok l' ->
  represents l w -> represents l' w' ->
  (forall st, w <> Working st /\ w <> NeedsResolution st /\ w' <> Working st /\ w' <> NeedsResolution st) ->
  ti_Kind item <> ThreadItemKindResolution ->
  recorded d d' (with_Lifecycle (load r (h_id h) l) l') task' v now r0 item rid op action -> wf d'.
Proof.
  intros Hw Hld Hc Hr Hr' Hst Hk Hrec. destruct (loaded_row _ _ _ _ _ (wf_tasks _ Hw) Hld) as (Ht & _ & Hl).
  pose proof (rc_task _ _ _ _ _ _ _ _ _ _ _ Hrec) as Et.
  eapply (wf_recorded _ _ _ _ _ _ _ _ _ _ _ _ _ _ None None Hrec Hw Ht Hl); try done.
  - eapply claims_step_keep; [done|apply Hw|]. intros st Hin. by edestruct (Hst st), (row_state _ _ _ _ Hl Hr Hin).
  - eapply threads_step_keep; [done|apply Hw|]. intros st Hin.
    by edestruct (Hst st) as (_ & ? & _), (row_state _ _ _ _ Hl Hr Hin).
  - apply Hw.
  - intros st Hin. subst task'. apply row_in_set in Hin. cbn in Hin.
    by edestruct (Hst st) as (_ & _ & ? & _), (represents_fun _ _ _ Hr' Hin).
  - intros st Hin. subst task'. apply row_in_set in Hin. cbn in Hin.
    by edestruct (Hst st) as (_ & _ & _ & ?), (represents_fun _ _ _ Hr' Hin).
Qed.

(** A row with an active Claim is being worked on. *)
Lemma active_working d r l c :
  wf d -> tasks d !! t_id r = Some r -> row_lifecycle r = Some l -> active_claim d (t_id r) = Some c ->
  exists st, represents l (Working st) /\ c_stage c = stage_text st.
Proof.
  intros Hw Hr Hl (i & Hi & Hk & Hs)%active_claim_Some.
  destruct (cw_active _ _ (wf_claims _ Hw) _ _ Hi Hs) as (r' & st & Hr' & (l' & Hl' & Hin) & Est & _).
  rewrite Hk, Hr in Hr'. simplify_eq. eauto.
Qed.

(** A command that ends the active Claim and moves the Task row. *)
Lemma wf_finish d d1 d' n cid tv cv actor op r h l c l' w' o now claim' cr task' v r0 item rid action :
  wf d -> owns d n cid tv cv actor op r h l c -> ended d c o now claim' cr d1 ->
  represents l' w' -> (forall st, w' <> Working st /\ w' <> NeedsResolution st) ->
  ti_Kind item <> ThreadItemKindResolution ->
  recorded d1 d' (with_Lifecycle (load r (h_id h) l) l') task' v now r0 item rid op action -> wf d'.
Proof.
  intros Hw Ho He Hr' Hst Hk Hrec.
  destruct (loaded_row _ _ _ _ _ (wf_tasks _ Hw) (ow_loaded _ _ _ _ _ _ _ _ _ _ _ Ho)) as (Ht & _ & Hl).
  pose proof (ow_claim _ _ _ _ _ _ _ _ _ _ _ Ho) as Hc.
  destruct (active_working _ _ _ _ Hw Ht Hl Hc) as (st0 & Hst0 & _).
  destruct (ended_step _ _ _ _ _ _ _ _ _ (wf_claims _ Hw) eq_refl Hc He) as (Hcs & -> & ET & EH & EI).
  pose proof (rc_task _ _ _ _ _ _ _ _ _ _ _ Hrec) as Et.
  eapply (wf_recorded _ _ _ _ _ _ _ _ _ _ _ _ _ _ None None Hrec Hw Ht Hl); try done; rewrite ?EH, ?EI.
  - eapply threads_step_keep; [done|apply Hw|]. intros st Hin.
    discriminate (row_state _ _ _ _ Hl Hst0 Hin).
  - apply Hw.
  - intros st Hin. subst task'. apply row_in_set in Hin. cbn in Hin.
    by edestruct (Hst st) as (? & _), (represents_fun _ _ _ Hr' Hin).
  - intros st Hin. subst task'. apply row_in_set in Hin. cbn in Hin.
    by edestruct (Hst st) as (_ & ?), (represents_fun _ _ _ Hr' Hin).
Qed.

(** Expiring a due Claim leaves the Task without an active one. *)
Lemma expired_step d n r h l now c l' claim' cr item rid d1 :
  wf d -> loaded d n r h l -> expired d (load r (h_id h) l) now c l' claim' cr item rid d1 ->
  claims_step (t_id r) (task_stage_claims d) (task_stage_claims d1) None /\
  tasks d1 = tasks d /\ task_threads d1 = task_threads d /\
  items_wf (task_threads d1) (task_thread_items d1) /\
  exists st, represents l (Working st) /\ represents l' (Available st).
Proof.
  intros Hw Hld [_ Hc _ Hrel Hk _ (d0 & He & Hi & ->)].
  destruct (loaded_row _ _ _ _ _ (wf_tasks _ Hw) Hld) as (Ht & _ & Hl).
  destruct (ended_step _ _ _ _ _ _ _ _ _ (wf_claims _ Hw) eq_refl Hc He) as (Hcs & -> & ET & EH & EI).
  destruct (run_command_sound _ _ _ Hrel) as (v & v' & Hv & Hv' & Hedge & _).
  split_and!; [done..| |].
  - cbn. rewrite EI, EH. apply items_wf_add; [apply Hw|..].
    + pose proof (ii_fresh _ _ Hi) as Hf. by rewrite EI in Hf.
    + pose proof (insertable_thread _ _ Hi) as Hth. by rewrite EH in Hth.
    + by rewrite item_row_kind, Hk.
  - inversion Hedge; subst; eauto.
Qed.

Lemma NewTaskStageClaim_Ok id tid n stage a op ck cs now c :
  NewTaskStageClaim id tid n stage a op ck cs now = Ok c ->
  OperationActor_Validate op = Ok tt /\ TaskStageClaim_Validate c = Ok tt /\
  c = {| sc_ID := id; sc_TaskID := tid; sc_TaskNumber := n; sc_Stage := stage; sc_ClaimedBy := a;
         sc_SubjectUserID := op_UserID op; sc_AuthMethod := op_AuthMethod op;
         sc_APITokenID := op_TokenID op; sc_TokenName := op_TokenName op;
         sc_AgentRunID := op_AgentRunID op; sc_ClientKind := TrimSpace ck;
         sc_ClientSessionID := TrimSpace cs; sc_Status := StageClaimStatusActive; sc_Outcome := "";
         sc_Version := 1; sc_ExpiresAt := now + TaskClaimActiveLifetime; sc_CreatedAt := now;
         sc_UpdatedAt := now; sc_CompletedAt := None |}.
Proof.
  unfold NewTaskStageClaim. cbv zeta. intros Hr. apply bind_Ok in Hr as ([] & ? & Hr).
  apply bind_Ok in Hr as ([] & ? & Hr). by injection Hr as <-.
Qed.

Lemma claim_row_fields c :
  c_task_id (claim_row c) = sc_TaskID c /\ c_task_number (claim_row c) = sc_TaskNumber c /\
  c_stage (claim_row c) = sc_Stage c /\ c_status (claim_row c) = sc_Status c.
Proof. unfold claim_row. by destruct (actorColumns _). Qed.

Lemma TaskLifecycle_Claim_run l a st l' :
  TaskLifecycle_Claim l a = Ok (st, l') ->
  run_command (CClaim a) l = Ok l' /\
  exists w s, represents l w /\ represents l' (Working s) /\ st = stage_text s /\
    (w = Ready \/ w = Available s).
Proof.
  intros Hc. split; [cbn; by rewrite Hc|]. unfold TaskLifecycle_Claim in Hc. destruct l as [ph act cy].
  go_inv.
  - exists Ready, Execution. split_and!; try done. by left.
  - exists (Available Execution), Execution. split_and!; try done. by right.
  - exists (Available Review), Review. split_and!; try done. by right.
Qed.

(** ** Every command keeps the tables consistent *)

(** The states at the two ends of the transition that a command applies. *)
Tactic Notation "edge_states" hyp(Hc) "as" ident(Hf) ident(Ht) :=
  let E := fresh "Hedge" in
  destruct (run_command_sound _ _ _ Hc) as (? & ? & Hf & Ht & E & _); inversion E; subst; clear E.

Lemma MarkReady_wf n v op now w s w' :
  wf (w_db w) -> MarkReady n v op now w = (Ok s, w') -> wf (w_db w').
Proof.
  intros Hw (r & h & l & l' & task' & r0 & item & _ & Hld & _ & Hc & _ & Hk & Hrec)%MarkReady_Ok.
  edge_states Hc as Hf Hto. eapply wf_simple; eauto. by rewrite Hk.
Qed.

Lemma WithdrawReadiness_wf n v reason op now w s w' :
  wf (w_db w) -> WithdrawReadiness n v reason op now w = (Ok s, w') -> wf (w_db w').
Proof.
  intros Hw (r & h & l & l' & task' & r0 & item & _ & Hld & _ & Hc & _ & Hk & Hrec)%WithdrawReadiness_Ok.
  edge_states Hc as Hf Hto. eapply wf_simple; eauto. by rewrite Hk.
Qed.

Lemma Claim_wf n v actor op ck cs now w s claim w' :
  wf (w_db w) -> Claim n v actor op ck cs now w = (Ok (s, claim), w') -> wf (w_db w').
Proof.
  intros Hw (r & h & l & task1 & w1 & stage & l' & id & task' & r0 & item & _ & Hld & _ & Hex & Hcl & Hnew &
    Hins & _ & Hk & Hrec)%Claim_Ok.
  destruct (loaded_row _ _ _ _ _ (wf_tasks _ Hw) Hld) as (Ht & _ & Hl).
  destruct (TaskLifecycle_Claim_run _ _ _ _ Hcl) as (_ & ws & st & Hws & Hl' & -> & Hfrom).
  apply NewTaskStageClaim_Ok in Hnew as (_ & _ & Ecl).
  assert (wt_TaskID task1 = t_id r /\ wt_TaskNumber task1 = t_number r /\
    claims_step (t_id r) (task_stage_claims (w_db w)) (task_stage_claims (w_db w1)) None /\
    tasks (w_db w1) = tasks (w_db w) /\ task_threads (w_db w1) = task_threads (w_db w) /\
    items_wf (task_threads (w_db w1)) (task_thread_items (w_db w1)) /\
    forall s, ~ row_in r (NeedsResolution s)) as (Eid & En & Hcs & ET & EH & HI & Hnb).
  { apply expireDueWorkflowClaim_Ok in Hex as [(-> & -> & _)|(c & l1 & claim' & cr & it & Hex & ->)].
    - split_and!; try done; [|apply Hw|].
      + eapply claims_step_keep; [done|apply Hw|]. intros s' Hin.
        pose proof (row_state _ _ _ _ Hl Hws Hin). naive_solver.
      + intros s' Hin. pose proof (row_state _ _ _ _ Hl Hws Hin). naive_solver.
    - destruct (expired_step _ _ _ _ _ _ _ _ _ _ _ _ _ Hw Hld Hex) as (? & ? & ? & ? & s0 & Hs0 & _).
      split_and!; try done. intros s' Hin. discriminate (row_state _ _ _ _ Hl Hs0 Hin). }
  pose proof (rc_task _ _ _ _ _ _ _ _ _ _ _ Hrec) as Et.
  destruct (claim_row_fields claim) as (F1 & F2 & F3 & F4).
  eapply (wf_recorded _ _ _ _ _ _ _ _ _ _ _ _ _ _ (Some (claim_row claim)) None Hrec Hw Ht Hl); try done.
  - by rewrite Hk.
  - cbn. rewrite <- (claim_row_id claim). apply claims_step_insert; [done| | |].
    + rewrite claim_row_id. apply Hins.
    + rewrite F1, Ecl. done.
    + rewrite F4, Ecl. done.
  - cbn. rewrite EH. eapply threads_step_keep; [done|apply Hw|done].
  - exists st. rewrite row_in_set. subst task'. cbn. rewrite F2, F3, Ecl. done.
  - intros s' Hin. subst task'. apply row_in_set in Hin. cbn in Hin.
    discriminate (represents_fun _ _ _ Hl' Hin).
Qed.

Lemma ExpireDueClaim_wf n op now w b w' :
  wf (w_db w) -> ExpireDueClaim n op now w = (Ok b, w') -> wf (w_db w').
Proof.
  intros Hw Hx%ExpireDueClaim_Ok. destruct b; [|by rewrite Hx].
  destruct Hx as (r & h & l & c & l' & claim' & cr & item & d1 & task' & r0 & e & _ & Hld & Hex & Et & Hwr & _ & ->).
  destruct (loaded_row _ _ _ _ _ (wf_tasks _ Hw) Hld) as (Ht & _ & Hl).
  destruct (expired_step _ _ _ _ _ _ _ _ _ _ _ _ _ Hw Hld Hex) as (Hcs & ET & EH & HI & st & Hst & Hst').
  pose proof (tk_row _ _ _ _ _ Hwr) as Hr0. rewrite ET in Hr0. cbn in Hr0. simplify_eq.
  apply wf_add_audit. eapply (wf_put _ _ _ _ _ _ None None Hw Ht Hl ET); try done.
  - apply Hwr.
  - rewrite EH. eapply threads_step_keep; [done|apply Hw|]. intros s' Hin.
    discriminate (row_state _ _ _ _ Hl Hst Hin).
  - intros s' Hin. apply row_in_set in Hin. cbn in Hin. discriminate (represents_fun _ _ _ Hst' Hin).
  - intros s' Hin. apply row_in_set in Hin. cbn in Hin. discriminate (represents_fun _ _ _ Hst' Hin).
Qed.

Lemma ReleaseClaim_wf n cid tv cv handoff actor op now w s c' w' :
  wf (w_db w) -> ReleaseClaim n cid tv cv handoff actor op now w = (Ok (s, c'), w') -> wf (w_db w').
Proof.
  intros Hw (r & h & l & c & l' & cr & d1 & task' & r0 & item & _ & _ & Ho & Hc & He & _ & -> & Hrec)%ReleaseClaim_Ok.
  edge_states Hc as Hf Hto. eapply wf_finish; eauto. done.
Qed.

Lemma RequestChanges_wf n cid tv cv reason actor op now w s c' w' :
  wf (w_db w) -> RequestChanges n cid tv cv reason actor op now w = (Ok (s, c'), w') -> wf (w_db w').
Proof.
  intros Hw (r & h & l & c & l' & cr & d1 & task' & r0 & item & _ & _ & Ho & Hc & He & _ & -> & Hrec)%RequestChanges_Ok.
  edge_states Hc as Hf Hto. eapply wf_finish; eauto. done.
Qed.

Lemma CompleteExecution_wf n cid tv cv summary changes actor op now w s c' item w' :
  wf (w_db w) ->
  CompleteExecutionWithDelivery n cid tv cv summary changes actor op now w = (Ok (s, c', item), w') ->
  wf (w_db w').
Proof.
  intros Hw (r & h & l & c & l' & p & cr & d1 & task' & r0 & _ & _ & Ho & Hc & _ & He & _ & -> & Hrec)%CompleteExecution_Ok.
  edge_states Hc as Hf Hto. eapply wf_finish; eauto. done.
Qed.

Lemma AcceptTask_wf n cid tv cv summary actor op now w s c' w' :
  wf (w_db w) -> AcceptTask n cid tv cv summary actor op now w = (Ok (s, c'), w') -> wf (w_db w').
Proof.
  intros Hw (r & h & l & c & l' & cr & d1 & task' & r0 & item & _ & _ & Ho & Hc & He & _ & -> & Hrec)%AcceptTask_Ok.
  edge_states Hc as Hf Hto. eapply wf_finish; eauto. done.
Qed.

Lemma noted_wf d d' task item op action now :
  wf d -> noted d d' task item op action now -> ti_Kind item <> ThreadItemKindResolution -> wf d'.
Proof.
  intros Hw [_ Hi (id & ->)] Hk. apply wf_add_audit, wf_add_item; [done|done|by rewrite item_row_kind].
Qed.

Lemma RecordWorkSubmission_wf n cid tv cv summary actor op now w s c item w' :
  wf (w_db w) -> RecordWorkSubmission n cid tv cv summary actor op now w = (Ok (s, c, item), w') ->
  wf (w_db w').
Proof.
  intros Hw (r & h & l & c0 & _ & _ & _ & _ & _ & _ & _ & -> & Hn)%RecordWorkSubmission_Ok.
  by eapply noted_wf.
Qed.

Lemma RecordClaimProgress_wf cid body actor op now w s c item w' :
  wf (w_db w) -> RecordClaimProgress cid body actor op now w = (Ok (s, c, item), w') -> wf (w_db w').
Proof.
  intros Hw (t & w1 & r & h & l & c0 & _ & _ & _ & _ & _ & _ & _ & _ & _ & _ & _ & -> & Hn)%RecordClaimProgress_Ok.
  by eapply noted_wf.
Qed.

Lemma RecordAcceptanceCheck_wf n cid tv cv check actor op now w c' w' :
  wf (w_db w) -> RecordAcceptanceCheck n cid tv cv check actor op now w = (Ok c', w') -> wf (w_db w').
Proof.
  intros [] Hr%RecordAcceptanceCheck_Ok. destruct Hr as (r & h & l & c & cr & e & Hr).
  destruct_and! Hr. match goal with E : w_db w' = _ |- _ => rewrite E end. by split.
Qed.

(** ** Issues *)

Lemma RequestResolution_wf n cid tv cv ity request actor op now w s c' issue w' :
  wf (w_db w) -> RequestResolution n cid tv cv ity request actor op now w = (Ok (s, c', issue), w') ->
  wf (w_db w').
Proof.
  intros Hw Hr%RequestResolution_Ok.
  destruct Hr as (r & h & l & c & l' & req & cr & d1 & d2 & d3 & task' & r0 & item & _ & _ & _ & Ho & Hnew & Hc &
    Hins & Ed1 & Ereq & _ & Hreq & Ed2 & He & _ & Hk & Hrec).
  destruct (loaded_row _ _ _ _ _ (wf_tasks _ Hw) (ow_loaded _ _ _ _ _ _ _ _ _ _ _ Ho)) as (Ht & _ & Hl).
  pose proof (ow_claim _ _ _ _ _ _ _ _ _ _ _ Ho) as Hac.
  edge_states Hc as Hs0 Hs1.
  eapply (ended_step (w_db w)) in He as (Hcs & -> & ET & EH & EI); [|apply Hw|done|done].
  pose proof (rc_task _ _ _ _ _ _ _ _ _ _ _ Hrec) as Et. cbn in EH, EI.
  assert (issue_row_facts : h_task_id (issue_row issue) = t_id r /\
    is_open_issue (t_id r) (issue_row issue) = true /\
    h_opened_from_phase (issue_row issue) = Some (Phase l)).
  { unfold NewIssueThread in Hnew. go_inv. rewrite is_open_issue_true. unfold issue_row. cbn.
    by destruct (actorColumns actor). }
  destruct issue_row_facts as (Fk & Fo & Fp).
  assert (Hnb : forall st', ~ row_in r (NeedsResolution st'))
    by (intros st' Hin; discriminate (row_state _ _ _ _ Hl Hs0 Hin)).
  pose proof (is_fresh _ _ Hins) as Hfr. rewrite <- issue_row_id in Hfr.
  eapply (wf_recorded _ _ _ _ _ _ _ _ _ _ _ _ _ _ None (Some (th_ID issue)) Hrec Hw Ht Hl); try done.
  - by rewrite Hk.
  - rewrite EH, <- issue_row_id. apply threads_step_insert; [|done|done].
    eapply threads_step_keep; [done|apply Hw|done].
  - rewrite EH, EI. apply items_wf_open; [apply Hw|apply Hins|apply Hreq| |].
    + by rewrite item_row_thread.
    + by rewrite item_row_kind.
  - intros st' Hin. subst task'. apply row_in_set in Hin. cbn in Hin.
    discriminate (represents_fun _ _ _ Hs1 Hin).
  - exists st. split_and!.
    + subst task'. by apply row_in_set.
    + by subst task'.
    + intros q. rewrite EH, lookup_insert_eq. intros [= <-]. rewrite Fp.
      unfold represents in Hs0. by destruct st; injection Hs0 as -> _.
Qed.

(** Answering the open Issue of a Task leaves it without one. *)
Lemma answered_step d n r h l task hr0 req v resolution actor rid now i1 i2 i issue' hr d1 :
  wf d -> loaded d n r h l -> issue_of d (t_id r) i hr0 req ->
  issue_answered d task (scanTaskThread hr0) (scanTaskThreadItem [] req) v resolution actor rid now i1 i2
    issue' hr d1 ->
  hr = hr0 /\ is_open_issue (t_id r) hr0 = true /\ task_threads d !! i = Some hr0 /\
  tasks d1 = tasks d /\ task_stage_claims d1 = task_stage_claims d /\
  threads_step (t_id r) (task_threads d) (task_threads d1) None /\
  items_wf (task_threads d1) (task_thread_items d1).
Proof.
  intros Hw Hld [Hhr Hreq] [Hres _ Hans Hrow (record & -> & _ & Hrec & ->)].
  apply select_one_Some in Hhr as (Hp & j & Hj). go_bool.
  assert (j = i) as ->. { pose proof (hw_key _ _ (wf_threads _ Hw) _ _ Hj). congruence. }
  apply Thread_Resolve_Ok in Hres as (_ & Ho & _ & ->). cbn in Ho, Hrow.
  pose proof (ir_row _ _ _ _ _ Hrow) as Hl. cbn in Hl.
  assert (hr = hr0) as -> by congruence.
  assert (is_open_issue (t_id r) hr0 = true) as Hopen.
  { apply is_open_issue_true. split_and!; [done..|apply Hrow]. }
  assert (Hst : h_issue_status (set_resolved_row hr0 (th_resolved (scanTaskThread hr0) actor now) actor)
    <> Some IssueThreadStatusOpen) by (unfold set_resolved_row; by destruct (actorColumns actor)).
  split_and!; try done; cbn.
  - eapply threads_step_resolve; [apply Hw|done|done|..|done];
      unfold set_resolved_row; by destruct (actorColumns actor).
  - apply items_wf_add; [|apply Hrec|by apply (insertable_thread _ _ Hrec)|by rewrite item_row_kind].
    apply items_wf_add; [by apply items_wf_resolve; [apply Hw|]|apply Hans| |].
    + rewrite item_row_thread. cbn. by rewrite lookup_insert_eq.
    + intros _ q k. rewrite item_row_thread. cbn. rewrite lookup_insert_eq. intros [= <-].
      apply not_true_is_false. by intros (_ & _ & ?)%is_open_issue_true.
Qed.

Lemma ResolveIssue_wf n tv i hv resolution actor op now w s issue' w' :
  wf (w_db w) -> ResolveIssue n tv i hv resolution actor op now w = (Ok (s, issue'), w') -> wf (w_db w').
Proof.
  intros Hw Hr%ResolveIssue_Ok.
  destruct Hr as (r & h & l & hr0 & req & l' & hr & d1 & task' & r0 & e & _ & _ & Hld & _ & _ & His & _ & _ & Hia &
    Hc & -> & _ & Hwr & _ & ->).
  destruct (loaded_row _ _ _ _ _ (wf_tasks _ Hw) Hld) as (Ht & _ & Hl).
  destruct (answered_step _ _ _ _ _ _ _ _ _ _ _ _ _ _ _ _ _ _ _ Hw Hld His Hia)
    as (-> & Ho & Hi & ET & EC & Hhs & HI).
  edge_states Hc as Hf Hto.
  pose proof (tk_row _ _ _ _ _ Hwr) as Hr0. rewrite ET in Hr0. cbn in Hr0. simplify_eq.
  apply wf_add_audit. eapply (wf_put _ _ _ _ _ _ None None Hw Ht Hl ET); try done.
  - apply Hwr.
  - rewrite EC. eapply claims_step_keep; [done|apply Hw|]. intros s' Hin.
    discriminate (row_state _ _ _ _ Hl Hf Hin).
  - intros s' Hin. apply row_in_set in Hin. cbn in Hin.
    discriminate (represents_fun _ _ _ Hto Hin).
  - intros s' Hin. apply row_in_set in Hin. cbn in Hin.
    discriminate (represents_fun _ _ _ Hto Hin).
Qed.

Lemma CancelTask_wf n tv reason actor op now w res w' :
  wf (w_db w) -> CancelTask n tv reason actor op now w = (Ok res, w') -> wf (w_db w').
Proof.
  intros Hw (r & h & l & d1 & l' & task' & r0 & item & _ & _ & Hld & _ & Hpro & Hc & _ & Hk & Hrec)%CancelTask_Ok.
  destruct (loaded_row _ _ _ _ _ (wf_tasks _ Hw) Hld) as (Ht & _ & Hl).
  edge_states Hc as Hf Hto.
  pose proof (rc_task _ _ _ _ _ _ _ _ _ _ _ Hrec) as Et.
  assert (forall st, ~ row_in (set_task_row r task' now) (Working st)) as Hnw.
  { intros st Hin. subst task'. apply row_in_set in Hin. discriminate (represents_fun _ _ _ Hto Hin). }
  assert (forall st, ~ row_in (set_task_row r task' now) (NeedsResolution st)) as Hnn.
  { intros st Hin. subst task'. apply row_in_set in Hin. discriminate (represents_fun _ _ _ Hto Hin). }
  assert (ti_Kind item <> ThreadItemKindResolution) as Hk' by (by rewrite Hk).
  destruct Hpro as [Hna Hnb ->|c claim' cr Ha Hac He|i hr0 req task issue' hr Ha Hoi His Hm Hia].
  - eapply (wf_recorded _ _ _ _ _ _ _ _ _ _ _ _ _ _ None None Hrec Hw Ht Hl); try done.
    + eapply claims_step_keep; [done|apply Hw|]. intros st (l0 & E & Hin). simplify_eq.
      unfold represents in Hin. by destruct st; injection Hin as _ ?.
    + eapply threads_step_keep; [done|apply Hw|]. intros st (l0 & E & Hin). simplify_eq.
      unfold represents in Hin. by destruct st; injection Hin as _ ?.
    + apply Hw.
  - destruct (active_working _ _ _ _ Hw Ht Hl Hac) as (st0 & Hst0 & _).
    destruct (ended_step _ _ _ _ _ _ _ _ _ (wf_claims _ Hw) eq_refl Hac He) as (Hcs & -> & ET & EH & EI).
    eapply (wf_recorded _ _ _ _ _ _ _ _ _ _ _ _ _ _ None None Hrec Hw Ht Hl); try done; rewrite ?EH, ?EI.
    + eapply threads_step_keep; [done|apply Hw|]. intros st Hin.
      discriminate (row_state _ _ _ _ Hl Hst0 Hin).
    + apply Hw.
  - destruct (answered_step _ _ _ _ _ _ _ _ _ _ _ _ _ _ _ _ _ _ _ Hw Hld His Hia)
      as (-> & Ho & Hi & ET & EC & Hhs & HI).
    destruct (hw_open _ _ (wf_threads _ Hw) _ _ _ Hi Ho) as (q & st0 & Hq & Hin0 & _).
    rewrite Ht in Hq. simplify_eq.
    eapply (wf_recorded _ _ _ _ _ _ _ _ _ _ _ _ _ _ None None Hrec Hw Ht Hl); try done.
    rewrite EC. eapply claims_step_keep; [done|apply Hw|]. intros st Hin.
    discriminate (row_in_fun _ _ _ Hin0 Hin).
Qed.

(** ** Messages *)

Lemma insert_mention_db i u w x w' :
  insert_mention i u w = (Ok x, w') -> exists m, w_db w' = set_mentions m (w_db w).
Proof. unfold insert_mention. intros Hr. run_inv. by eexists. Qed.

Lemma insert_mentions_db i seen us w x w' :
  insert_mentions i seen us w = (Ok x, w') -> exists m, w_db w' = set_mentions m (w_db w).
Proof.
  revert seen w. induction us as [|u us IH]; intros seen w Hr; cbn in Hr; run_inv.
  - exists (task_thread_item_mentions (w_db w')). by destruct (w_db w').
  - case_bool_decide; [eauto|]. run_inv.
    match goal with Hi : insert_mention _ _ _ = _ |- _ => apply insert_mention_db in Hi as (m & E) end.
    match goal with Hi : insert_mentions _ _ _ _ = _ |- _ => apply IH in Hi as (m' & E') end.
    exists m'. by rewrite E', E.
Qed.

Lemma replaceThreadItemMentions_db i us w x w' :
  replaceThreadItemMentions i us w = (Ok x, w') -> exists m, w_db w' = set_mentions m (w_db w).
Proof.
  unfold replaceThreadItemMentions. intros Hr. run_inv.
  match goal with Hi : insert_mentions _ _ _ _ = _ |- _ => apply insert_mentions_db in Hi as (m' & ->) end.
  by exists m'.
Qed.

Lemma AddItem_Ok th kind body reply mentioned author op now w item w' :
  AddItem th kind body reply mentioned author op now w = (Ok item, w') ->
  exists h m e,
    validateThreadOperationActor author op = Ok tt /\
    (kind = ThreadItemKindMessage \/ kind = ThreadItemKindProgress /\ h_role h = ThreadRoleMain) /\
    item = mkThreadItem (uuid_seq (w_next w)) th kind author body None None None None reply mentioned 1 now now
             None /\
    task_threads (w_db w) !! th = Some h /\ h_issue_status h <> Some IssueThreadStatusResolved /\
    ThreadItem_Validate item = Ok tt /\ item_insertable (w_db w) (item_row item (op_RequestID op)) /\
    be_Actor e = op /\ be_OccurredAt e = now /\
    w_db w' = add_audit e (set_mentions m (add_item (item_row item (op_RequestID op)) (w_db w))).
Proof.
  unfold AddItem. intros Hr. run_inv.
  match goal with Hi : insertTaskThreadItem _ _ _ = _ |- _ =>
    apply insertTaskThreadItem_Ok in Hi as (? & ? & ->) end.
  match goal with Hi : replaceThreadItemMentions _ _ _ = _ |- _ =>
    apply replaceThreadItemMentions_db in Hi as (m & Em) end.
  match goal with Hi : InsertBusinessAudit _ _ = _ |- _ =>
    apply InsertBusinessAudit_Ok in Hi as (? & ->) end.
  cbn in *. rewrite Em. do 3 eexists. give; [|by go_bool|reflexivity..].
  repeat match goal with Hb : _ && _ = false |- _ => apply andb_false_iff in Hb end. go_bool.
  naive_solver (go_bool; done).
Qed.

Lemma AddItem_wf th kind body reply mentioned author op now w item w' :
  wf (w_db w) -> AddItem th kind body reply mentioned author op now w = (Ok item, w') -> wf (w_db w').
Proof.
  intros Hw (h & m & e & _ & Hkind & Ei & _ & _ & _ & Hi & _ & _ & ->)%AddItem_Ok. apply wf_add_audit.
  apply (wf_add_item _ _ Hw) in Hi; [by destruct Hi; split|]. rewrite item_row_kind, Ei. cbn.
  by destruct Hkind as [->|[-> _]].
Qed.

(** A message was rewritten by its author. *)
Lemma mutateMessage_Ok i v author op now mutate action w item' w' :
  mutateMessage i v author op now mutate action w = (Ok item', w') ->
  exists r h r1 m e,
    validateThreadOperationActor author op = Ok tt /\
    task_thread_items (w_db w) !! i = Some r /\ i_version r = v /\
    task_threads (w_db w) !! i_thread_id r = Some h /\ h_issue_status h <> Some IssueThreadStatusResolved /\
    mutate (scanTaskThreadItem (mentions_of (w_db w) i) r) = Ok item' /\
    actor_Type author = i_author_type r /\ actor_Ref author = of_null (i_author_ref r) /\
    actor_UserID author = i_author_user_id r /\
    task_thread_items (w_db w) !! ti_ID item' = Some r1 /\ i_version r1 = v /\
    be_Actor e = op /\ be_OccurredAt e = now /\
    w_db w' = add_audit e (set_mentions m
                (set_items (<[ti_ID item' := set_message_row r1 item']> (task_thread_items (w_db w))) (w_db w))).
Proof.
  unfold mutateMessage, lockTaskThreadItem, update_item_row. intros Hr. run_inv.
  match goal with Hm : context [task_thread_items ?d !! ti_ID ?k] |- _ =>
    destruct (task_thread_items d !! ti_ID k) as [r1|] eqn:Hl end; [|run_inv].
  match goal with Hm : (if ?b then _ else _) _ = _ |- _ => destruct b eqn:? end; run_inv.
  match goal with Hi : replaceThreadItemMentions _ _ _ = _ |- _ =>
    apply replaceThreadItemMentions_db in Hi as (m & Em) end.
  match goal with Hi : InsertBusinessAudit _ _ = _ |- _ =>
    apply InsertBusinessAudit_Ok in Hi as (? & ->) end.
  simplify_eq. cbn in *. rewrite Em. go_bool.
  match goal with Hs : sameOptionalUUID ?a ?b = true |- _ =>
    assert (a = b) by (unfold sameOptionalUUID in Hs; destruct a, b; go_bool; congruence) end.
  do 5 eexists. give; done.
Qed.

Lemma mutateMessage_wf i v author op now mutate action w item' w' :
  wf (w_db w) -> mutateMessage i v author op now mutate action w = (Ok item', w') -> wf (w_db w').
Proof.
  intros [HT HC HH HI] Hr%mutateMessage_Ok. destruct Hr as (r & h & r1 & m & e & Hr). destruct_and! Hr.
  match goal with E : w_db w' = _ |- _ => rewrite E end.
  apply wf_add_audit. split; [done..|]. by eapply items_wf_update.
Qed.

End safety.

(** ** What the guards of MarkReady and AcceptTask read *)

(** A Task that is done or cancelled. *)
Definition finished (t : TaskRow) : Prop :=
  t_phase t = Some TaskPhaseDone \/ t_phase t = Some TaskPhaseCancelled.

Lemma unfinished_false t : unfinished t = false -> finished t.
Proof.
  unfold unfinished, finished. destruct (t_phase t) as [p|]; [|done]. intros Hp.
  apply negb_false_iff, bool_decide_eq_true in Hp. set_solver.
Qed.

Lemma elem_of_active_criteria d k i c :
  acceptance_criteria d !! i = Some c -> ac_TaskID c = Some k -> ac_ArchivedAt c = None ->
  c ∈ active_criteria d k.
Proof.
  intros Hi Hk Ha. apply elem_of_select. rewrite Ha. cbn. by rewrite bool_decide_eq_true_2; eauto.
Qed.
