(* ===== verification/TaskEffects.v ===== *)
(** * What the task store does to the tables

    The effects of the methods of [TaskStore] when they succeed: the rows of Tasks and the edges that
    they write, and the log entries that they leave behind. *)

From stdpp Require Import base tactics strings gmap list numbers sorting relations.
From S2P Require Import Prelude Actors Lifecycle StageClaim Delivery Thread Acceptance Database Tx.
From S2P Require Import ThreadStore ClaimStore WorkflowStore WorkflowCommands TaskStore TaskGraph.
From S2P Require Import WorkflowEffects WorkflowInvariant WorkflowSafety.

(** ** Log entries *)

(** Nothing but activity entries, labels and further audit events. *)
Definition logged (d d' : DB) : Prop :=
  exists es ys ls, d' = set_task_labels ls (set_activity ys (set_audit (business_audit_events d ++ es) d)).

Lemma logged_refl d : logged d d.
Proof. exists [], (task_activity d), (task_labels d). rewrite app_nil_r. by destruct d. Qed.

Lemma logged_trans d d1 d2 : logged d d1 -> logged d1 d2 -> logged d d2.
Proof.
  intros (es & ys & ls & ->) (es' & ys' & ls' & ->). exists (es ++ es'), ys', ls'. cbn. by rewrite app_assoc.
Qed.

Lemma logged_set_tasks T d d' : logged d d' -> logged (set_tasks T d) (set_tasks T d').
Proof. intros (es & ys & ls & ->). by exists es, ys, ls. Qed.

(** A method that only logs. *)
Definition logs {A} (m : M A) : Prop := forall w a w', m w = (Ok a, w') -> logged (w_db w) (w_db w').

Section logs.
Context `{UUIDSource} `{TextForms}.

Lemma logs_ret {A} (a : A) : logs (mret a : M A).
Proof. intros w b w' [_ ->]%M_ret_Ok. apply logged_refl. Qed.

Lemma logs_bind {A B} (m : M A) (f : A -> M B) : logs m -> (forall a, logs (f a)) -> logs (m ≫= f).
Proof. intros Hm Hf w b w' (a & w1 & Ha & Hb)%M_bind_Ok. eapply logged_trans; [by eapply Hm|by eapply Hf]. Qed.

Lemma logs_lift {A} (r : result A) : logs (lift r).
Proof. intros w b w' [_ ->]%lift_Ok. apply logged_refl. Qed.

Lemma logs_query {A} (q : DB -> A) : logs (query q).
Proof. intros w b w' [_ ->]%query_Ok. apply logged_refl. Qed.

Lemma logs_uuid : logs uuid_New.
Proof. intros w b w' [_ ->]%uuid_New_Ok. apply logged_refl. Qed.

Lemma logs_for_each {A} (f : A -> M unit) l : (forall x, logs (f x)) -> logs (for_each f l).
Proof. intros Hf. induction l; cbn; [apply logs_ret|]. by apply logs_bind. Qed.

Lemma logs_if {A} (b : bool) (m1 m2 : M A) : logs m1 -> logs m2 -> logs (if b then m1 else m2).
Proof. by destruct b. Qed.

Lemma logs_audit e : logs (InsertBusinessAudit e).
Proof.
  unfold InsertBusinessAudit. apply logs_bind; [apply logs_lift|intros _].
  apply logs_bind; [case_bool_decide; [apply logs_uuid|apply logs_ret]|intros id]. cbv zeta.
  repeat (apply logs_bind; [first [apply logs_lift|apply logs_query]|intros ?]).
  intros w x w' ->%exec_Ok. cbn.
  exists [mkBusinessAuditEvent id (be_OccurredAt e) (be_Actor e) (be_EntityType e) (be_EntityID e)
    (be_EntityNumber e) (be_Action e) (be_OldValue e) (be_NewValue e)], (task_activity (w_db w)), (task_labels (w_db w)).
  done.
Qed.

Lemma logs_activity id actor field old new : logs (insertActivity id actor field old new).
Proof.
  unfold insertActivity. apply logs_bind; [apply logs_uuid|intros _]. cbv zeta.
  repeat (apply logs_bind; [first [apply logs_lift|apply logs_query]|intros ?]).
  intros w x w' ->%exec_Ok. cbn. exists [], (task_activity (w_db w) ++ [mkActivityRow id actor field old new]),
    (task_labels (w_db w)). rewrite app_nil_r. by destruct (w_db w).
Qed.

Lemma logs_field_change id actor field old new : logs (recordFieldChange id actor field old new).
Proof. apply logs_if; [apply logs_ret|apply logs_activity]. Qed.

Lemma logs_set_labels f : logs (exec (fun d => set_task_labels (f d) d)).
Proof.
  intros w a w' ->%exec_Ok. cbn. exists [], (task_activity (w_db w)), (f (w_db w)). rewrite app_nil_r.
  by destruct (w_db w).
Qed.

Lemma logs_labels id ls : logs (replaceTaskLabels id ls).
Proof.
  apply logs_bind; [apply (logs_set_labels (fun d => filter (fun e => e.1 <> id) (task_labels d)))|intros _].
  apply logs_for_each. intros l. unfold insert_label.
  repeat (apply logs_bind; [first [apply logs_lift|apply logs_query]|intros ?]).
  apply (logs_set_labels (fun d => {[ (id, l) ]} ∪ task_labels d)).
Qed.
End logs.

Create HintDb logs.
#[export] Hint Resolve logs_ret logs_bind logs_lift logs_query logs_uuid logs_for_each logs_if logs_audit
  logs_activity logs_field_change logs_labels : logs.

(** ** Rows of Tasks *)

(** The statement [update_task] on a row that the table holds. *)
Record editable (d : DB) (r r' : TaskRow) : Prop := {
  el_version : t_version r < MaxInt64;
  el_project : t_project_id r' = t_project_id r;
  el_checks : tasks_checks r' = true;
  el_brief : tasks_brief_checks r' = true;
  el_fks : task_fks d r' = true;
}.

Lemma update_task_Ok r r' w u w' :
  update_task r r' w = (Ok u, w') <->
  editable (w_db w) r r' /\ w' = mkWorld (put_task (t_id r) r' (w_db w)) (w_next w).
Proof.
  unfold update_task. split.
  - intros Hr. run_inv. go_bool. split; [|done]. split; done || lia.
  - intros [[Hv Hp Hc Hb Hf] ->]. destruct u. run_fwd. rewrite (proj2 (Z.leb_gt _ _) Hv). run_fwd.
    rewrite Hp, bool_decide_eq_true_2 by done. run_fwd. rewrite Hc, Hb. run_fwd. by rewrite Hf.
Qed.

(** An edit leaves the workflow of a Task alone. *)
Record same_work (r r' : TaskRow) : Prop := {
  sw_id : t_id r' = t_id r;
  sw_number : t_number r' = t_number r;
  sw_phase : t_phase r' = t_phase r;
  sw_activity : t_activity_state r' = t_activity_state r;
  sw_cycle : t_review_cycle r' = t_review_cycle r;
  sw_issue : t_active_issue_thread_id r' = t_active_issue_thread_id r;
  sw_project : t_project_id r' = t_project_id r;
}.

#[global] Instance same_work_refl : Reflexive same_work.
Proof. by split. Qed.
#[global] Instance same_work_trans : Transitive same_work.
Proof. intros ? ? ? [] []. split; congruence. Qed.

Lemma same_work_edited r b p c a now : same_work r (edited r b (t_project_id r) p c a now).
Proof. by split. Qed.

(** Rows written one after the other, each under its own key. *)
Fixpoint put_rows (f : TaskRow -> TaskRow) (l : list TaskRow) (T : gmap UUID TaskRow) : gmap UUID TaskRow :=
  match l with
  | [] => T
  | c :: rest => put_rows f rest (<[t_id c := f c]> T)
  end.

Lemma lookup_put_rows f l T k :
  NoDup (t_id <$> l) ->
  put_rows f l T !! k = match list_find (fun c => t_id c = k) l with
                        | Some (_, c) => Some (f c)
                        | None => T !! k
                        end.
Proof.
  revert T. induction l as [|c l IH]; intros T Hnd; cbn; [done|].
  apply NoDup_cons in Hnd as [Hc Hnd]. rewrite (IH _ Hnd). case_decide as E.
  - subst k. destruct (list_find _ l) as [[i x]|] eqn:Hf; cbn.
    + apply list_find_Some in Hf as (Hi & Ex & _). destruct Hc. apply list_elem_of_fmap.
      exists x. split; [done|]. by eapply list_elem_of_lookup_2.
    + by rewrite lookup_insert_eq.
  - destruct (list_find _ l) as [[i x]|]; cbn; [done|]. by rewrite lookup_insert_ne.
Qed.

Lemma put_rows_inv f l T k x :
  NoDup (t_id <$> l) -> put_rows f l T !! k = Some x ->
  (exists c, c ∈ l /\ t_id c = k /\ x = f c) \/ (~ (k ∈ (t_id <$> l)) /\ T !! k = Some x).
Proof.
  intros Hnd. rewrite lookup_put_rows by done. destruct (list_find _ l) as [[i c]|] eqn:Hf.
  - intros [= <-]. apply list_find_Some in Hf as (Hi & Ec & _). left. exists c.
    split; [by eapply list_elem_of_lookup_2|done].
  - intros Hk. right. split; [|done]. intros (c & -> & Hc)%list_elem_of_fmap.
    apply list_find_None in Hf. rewrite Forall_forall in Hf. by apply (Hf c).
Qed.

Lemma put_rows_in f l T c : NoDup (t_id <$> l) -> c ∈ l -> put_rows f l T !! t_id c = Some (f c).
Proof.
  intros Hnd Hc. rewrite lookup_put_rows by done. destruct (list_find _ l) as [[i x]|] eqn:Hf.
  - apply list_find_Some in Hf as (Hi & Ex & _). f_equal. f_equal.
    assert (forall a b, a ∈ l -> b ∈ l -> t_id a = t_id b -> a = b) as Hu.
    { clear -Hnd. induction l as [|y l IH]; intros a b Ha Hb E; [set_solver|]. cbn in Hnd.
      apply NoDup_cons in Hnd as [Hy Hnd]. apply elem_of_cons in Ha as [->|Ha]; apply elem_of_cons in Hb as [->|Hb]; auto.
      - destruct Hy. apply list_elem_of_fmap. eauto.
      - destruct Hy. apply list_elem_of_fmap. eauto. }
    apply Hu; [by eapply list_elem_of_lookup_2|done|done].
  - apply list_find_None in Hf. rewrite Forall_forall in Hf. by destruct (Hf c Hc).
Qed.

Lemma put_rows_out f l T k : ~ (k ∈ (t_id <$> l)) -> put_rows f l T !! k = T !! k.
Proof.
  revert T. induction l as [|c l IH]; intros T Hk; cbn; [done|]. cbn in Hk. apply not_elem_of_cons in Hk as [? ?].
  rewrite IH by done. by rewrite lookup_insert_ne.
Qed.

Section effects.
Context `{UUIDSource} `{TextForms}.

(** A loop over rows whose body writes the row and logs. *)
Lemma for_each_edits (P : TaskRow -> Prop) f (g : TaskRow -> M unit) l w u w' :
  (forall c w u w', g c w = (Ok u, w') -> P c /\ logged (put_task (t_id c) (f c) (w_db w)) (w_db w')) ->
  for_each g l w = (Ok u, w') ->
  Forall P l /\ logged (set_tasks (put_rows f l (tasks (w_db w))) (w_db w)) (w_db w').
Proof.
  intros Hg. revert w. induction l as [|c l IH]; intros w; cbn.
  - intros [_ ->]%M_ret_Ok. split; [done|]. destruct (w_db w'). apply logged_refl.
  - intros ([] & w1 & Hc & Hl)%M_bind_Ok. apply Hg in Hc as [HP Hc]. apply IH in Hl as [HF Hl].
    split; [by constructor|]. eapply logged_trans; [|exact Hl].
    assert (tasks (w_db w1) = <[t_id c := f c]> (tasks (w_db w))) as -> by (by destruct Hc as (? & ? & ? & ->)).
    apply (logged_set_tasks (put_rows f l (<[t_id c := f c]> (tasks (w_db w))))) in Hc. exact Hc.
Qed.

Definition moved_child (projectID : UUID) (milestoneID : option UUID) (now : Time) (c : TaskRow) : TaskRow :=
  edited c (with_milestone (t_brief c) milestoneID) projectID (t_parent_task_id c) (t_completed_at c)
    (t_archived_at c) now.

Definition shifted_child (days : Z) (now : Time) (c : TaskRow) : TaskRow :=
  edited c (with_schedule (t_brief c) (shifted days (b_start_date (t_brief c)))
              (shifted days (b_due_date (t_brief c))))
    (t_project_id c) (t_parent_task_id c) (t_completed_at c) (t_archived_at c) now.

(** The written row is within its constraints and in its project. *)
Definition sound_edit (f : TaskRow -> TaskRow) (c : TaskRow) : Prop :=
  tasks_brief_checks (f c) = true /\ t_project_id (f c) = t_project_id c /\ tasks_checks (f c) = true.

Lemma move_child_edits pid proj m op now c w u w' :
  move_child pid proj m op now c w = (Ok u, w') ->
  sound_edit (moved_child proj m now) c /\
  logged (put_task (t_id c) (moved_child proj m now c) (w_db w)) (w_db w').
Proof.
  unfold move_child. cbv zeta. intros ([] & w1 & Hu & Hl)%M_bind_Ok. apply update_task_Ok in Hu as [[] ->].
  split; [done|]. refine ((_ : logs _) _ _ _ Hl). auto with logs.
Qed.

Lemma shift_child_edits pid days op now c w u w' :
  shift_child pid days op now c w = (Ok u, w') ->
  sound_edit (shifted_child days now) c /\
  logged (put_task (t_id c) (shifted_child days now c) (w_db w)) (w_db w').
Proof.
  unfold shift_child. cbv zeta. intros ([] & w1 & Hu & Hl)%M_bind_Ok. apply update_task_Ok in Hu as [[] ->].
  split; [done|]. refine ((_ : logs _) _ _ _ Hl). auto with logs.
Qed.

Lemma children_of_tasks d d' k : tasks d = tasks d' -> children_of d k = children_of d' k.
Proof. unfold children_of. by intros ->. Qed.

Lemma moveTaskChildren_edits pid proj m op now w u w' :
  moveTaskChildren pid proj m op now w = (Ok u, w') ->
  let l := children_of (w_db w) pid in
  Forall (sound_edit (moved_child proj m now)) l /\
  logged (set_tasks (put_rows (moved_child proj m now) l (tasks (w_db w))) (w_db w)) (w_db w').
Proof.
  unfold moveTaskChildren. intros (d & w1 & [<- <-]%query_Ok & Hr)%M_bind_Ok. cbv zeta.
  destruct (children_of (w_db w) pid) as [|c l] eqn:El.
  - apply M_ret_Ok in Hr as [_ <-]. split; [done|]. destruct (w_db w). apply logged_refl.
  - rewrite <- El in *. apply M_bind_Ok in Hr as ([] & w1 & [_ <-]%throw_if_Ok & Hr).
    eapply for_each_edits; [|exact Hr]. intros *. apply move_child_edits.
Qed.

Lemma shiftTaskChildrenSchedules_edits pid days op now w u w' :
  shiftTaskChildrenSchedules pid days op now w = (Ok u, w') ->
  let l := List.filter scheduled (children_of (w_db w) pid) in
  Forall (sound_edit (shifted_child days now)) l /\
  logged (set_tasks (put_rows (shifted_child days now) l (tasks (w_db w))) (w_db w)) (w_db w').
Proof.
  unfold shiftTaskChildrenSchedules. intros (d & w1 & [<- <-]%query_Ok & Hr)%M_bind_Ok. cbv zeta.
  eapply for_each_edits; [|exact Hr]. intros *. apply shift_child_edits.
Qed.

(** ** Edges *)

Lemma insert_dependencies_Ok t l w u w' :
  for_each (insert_dependency t) l w = (Ok u, w') ->
  w' = mkWorld (set_dependencies (list_to_set ((fun b => (t, b)) <$> l) ∪ task_dependencies (w_db w)) (w_db w))
         (w_next w) /\
  forall b, b ∈ l -> b <> t /\ is_Some (tasks (w_db w) !! t) /\ is_Some (tasks (w_db w) !! b).
Proof.
  revert w. induction l as [|b l IH]; intros w; cbn.
  - intros [_ <-]%M_ret_Ok. split; [|set_solver]. destruct w as [[] n]. cbn. unfold set_dependencies. cbn.
    do 2 f_equal. set_solver.
  - intros ([] & w1 & Hb & Hl)%M_bind_Ok. unfold insert_dependency in Hb. run_inv. go_bool.
    apply IH in Hl as [-> Hl]. cbn in *. split.
    + unfold set_dependencies. cbn. do 2 f_equal. set_solver.
    + intros c [->|Hc]%elem_of_cons; [|by apply Hl]. rewrite <- !elem_of_dom.
      repeat match goal with Hx : bool_decide _ = true |- _ => apply bool_decide_eq_true in Hx end. done.
Qed.

Lemma replaceTaskDependencies_Ok t l w u w' :
  replaceTaskDependencies t l w = (Ok u, w') ->
  w' = mkWorld (set_dependencies (replaced (task_dependencies (w_db w)) t l) (w_db w)) (w_next w).
Proof.
  unfold replaceTaskDependencies. intros ([] & w1 & ->%exec_Ok & Hr)%M_bind_Ok.
  by apply insert_dependencies_Ok in Hr as [-> _].
Qed.

(** ** Update *)

Lemma uuidPtrsEqual_true a b : uuidPtrsEqual a b = true <-> a = b.
Proof. destruct a, b; cbn; rewrite ?bool_decide_eq_true; naive_solver. Qed.

Definition patched_parent (r : TaskRow) (patch : TaskPatch) : option UUID :=
  if tp_ParentSet patch then tp_ParentTaskID patch else t_parent_task_id r.

Definition updated_row (r : TaskRow) (brief : TaskBrief) (patch : TaskPatch) (completed : option Time)
  (now : Time) : TaskRow :=
  edited r brief (t_project_id r) (patched_parent r patch) completed (t_archived_at r) now.

(** A successful update of the row [r] to [r'], with the edges [E] and the rows [T]. *)
Record task_updated (d : DB) (number : Z) (expected : option Z) (patch : TaskPatch) (now : Time)
  (r : TaskRow) (brief : TaskBrief) (completed : option Time) (E : gset (UUID * UUID))
  (T1 T2 T3 : gmap UUID TaskRow) : Prop := {
  tu_row : task_by_number d number = Some r;
  tu_version : forall v, expected = Some v -> t_version r = v;
  tu_brief : patched_brief d r patch = Ok brief;
  tu_parent : validateParentAssignment d (t_id r) (patched_parent r patch) (t_project_id r)
    (b_milestone_id brief) (b_status brief) = Ok tt;
  tu_stay : present (t_parent_task_id r) = true -> b_milestone_id brief <> b_milestone_id (t_brief r) ->
    patched_parent r patch = None;
  tu_dependencies : if tp_DependenciesSet patch
    then validateDependencyAssignments d (t_id r) (t_project_id r) (patched_parent r patch)
           (tp_DependencyIDs patch) = Ok tt /\
         (t_phase r = Some TaskPhaseReady -> countUnfinishedTasks d (tp_DependencyIDs patch) <= 0) /\
         E = replaced (task_dependencies d) (t_id r) (tp_DependencyIDs patch)
    else E = task_dependencies d;
  tu_edit : editable (set_dependencies E d) r (updated_row r brief patch completed now);
  tu_T1 : T1 = <[t_id r := updated_row r brief patch completed now]> (tasks d);
  tu_T2 : let l := children_of (set_tasks T1 d) (t_id r) in
    if negb (present (t_parent_task_id r)) && negb (uuidPtrsEqual (b_milestone_id (t_brief r)) (b_milestone_id brief))
    then T2 = put_rows (moved_child (t_project_id r) (b_milestone_id brief) now) l T1 /\
         Forall (sound_edit (moved_child (t_project_id r) (b_milestone_id brief) now)) l
    else T2 = T1;
  tu_T3 : let l := List.filter scheduled (children_of (set_tasks T2 d) (t_id r)) in
    match tp_ScheduleShiftDays patch with
    | Some days => if negb (present (t_parent_task_id r))
        then T3 = put_rows (shifted_child days now) l T2 /\ Forall (sound_edit (shifted_child days now)) l
        else T3 = T2
    | None => T3 = T2
    end;
}.

Lemma logs_update_labels r patch op : logs (update_labels r patch op).
Proof. apply logs_if; eauto with logs. Qed.

Lemma update_dependencies_Ok r proj parent patch w u w' :
  update_dependencies r proj parent patch w = (Ok u, w') -> exists E,
    (if tp_DependenciesSet patch
     then validateDependencyAssignments (w_db w) (t_id r) proj parent (tp_DependencyIDs patch) = Ok tt /\
          (t_phase r = Some TaskPhaseReady -> countUnfinishedTasks (w_db w) (tp_DependencyIDs patch) <= 0) /\
          E = replaced (task_dependencies (w_db w)) (t_id r) (tp_DependencyIDs patch)
     else E = task_dependencies (w_db w)) /\
    w' = mkWorld (set_dependencies E (w_db w)) (w_next w).
Proof.
  unfold update_dependencies. intros (d & w1 & [<- <-]%query_Ok & Hr)%M_bind_Ok.
  destruct (tp_DependenciesSet patch).
  - apply M_bind_Ok in Hr as ([] & w1 & [Hv <-]%lift_Ok & Hr).
    apply M_bind_Ok in Hr as ([] & w1 & [Hc <-]%throw_if_Ok & Hr).
    apply replaceTaskDependencies_Ok in Hr. eexists. split; [|exact Hr]. split_and!; [done| |done].
    intros E. rewrite E, bool_decide_eq_true_2 in Hc by done. cbn in Hc. lia.
  - exists (task_dependencies (w_db w)). split; [done|].
    assert (w' = w) as -> by (case_bool_decide; [by apply M_ret_Ok in Hr as [_ <-]|by apply lift_Ok in Hr as [_ <-]]).
    by destruct w as [[] ?].
Qed.

Lemma completion_time_Ok r s patch now w c w' : completion_time r s patch now w = (Ok c, w') -> w' = w.
Proof.
  unfold completion_time. cbv zeta. intros (d & w1 & [<- <-]%query_Ok & Hr)%M_bind_Ok.
  destruct (_ && _); run_inv; done.
Qed.

Lemma moves_children (b : bool) pid proj m op now w u w' :
  (if b then moveTaskChildren pid proj m op now else mret tt) w = (Ok u, w') -> exists T,
    (let l := children_of (w_db w) pid in
     if b then T = put_rows (moved_child proj m now) l (tasks (w_db w)) /\
               Forall (sound_edit (moved_child proj m now)) l
     else T = tasks (w_db w)) /\ logged (set_tasks T (w_db w)) (w_db w').
Proof.
  destruct b; cbn.
  - intros [HF Hl]%moveTaskChildren_edits. eauto.
  - intros [_ <-]%M_ret_Ok. eexists. split; [done|]. destruct (w_db w). apply logged_refl.
Qed.

Lemma shifts_children (shift : option Z) (b : bool) pid op now w u w' :
  match shift with
  | Some days => if b then shiftTaskChildrenSchedules pid days op now else mret tt
  | None => mret tt
  end w = (Ok u, w') -> exists T,
    (let l := List.filter scheduled (children_of (w_db w) pid) in
     match shift with
     | Some days => if b then T = put_rows (shifted_child days now) l (tasks (w_db w)) /\
                              Forall (sound_edit (shifted_child days now)) l
                    else T = tasks (w_db w)
     | None => T = tasks (w_db w)
     end) /\ logged (set_tasks T (w_db w)) (w_db w').
Proof.
  assert (forall w : World, logged (set_tasks (tasks (w_db w)) (w_db w)) (w_db w)) as Hd.
  { intros [[] ?]. apply logged_refl. }
  destruct shift as [days|]; [destruct b|]; cbn.
  - intros [HF Hl]%shiftTaskChildrenSchedules_edits. eauto.
  - intros [_ <-]%M_ret_Ok. eauto.
  - intros [_ <-]%M_ret_Ok. eauto.
Qed.

Lemma update_Ok number expected patch op now w out w' :
  updateWithExpectedVersion number expected patch op now w = (Ok out, w') ->
  exists r brief completed E T1 T2 T3,
    task_updated (w_db w) number expected patch now r brief completed E T1 T2 T3 /\
    logged (set_tasks T3 (set_dependencies E (w_db w))) (w_db w') /\ tasks (w_db w') !! t_id r = Some out.
Proof.
  unfold updateWithExpectedVersion. intros Hr.
  apply M_bind_Ok in Hr as ([] & w0 & [_ <-]%lift_Ok & Hr). apply (proj1 (transaction_Ok _ _ _ _)) in Hr.
  apply M_bind_Ok in Hr as (d & w0 & [<- <-]%query_Ok & Hr).
  apply M_bind_Ok in Hr as (r & w0 & [Hrow <-]%or_err_Ok & Hr).
  apply M_bind_Ok in Hr as ([] & w0 & [Hver <-]%throw_if_Ok & Hr).
  apply M_bind_Ok in Hr as (brief & w0 & [Hbrief <-]%lift_Ok & Hr). cbv zeta in Hr.
  rewrite (bool_decide_eq_true_2 (t_project_id r = t_project_id r)) in Hr by done. cbn [negb orb] in Hr.
  apply M_bind_Ok in Hr as ([] & w0 & [_ <-]%throw_if_Ok & Hr).
  apply M_bind_Ok in Hr as ([] & w0 & [_ <-]%lift_Ok & Hr).
  apply M_bind_Ok in Hr as ([] & w0 & [Hstay <-]%throw_if_Ok & Hr).
  apply M_bind_Ok in Hr as ([] & w0 & [Hpar <-]%lift_Ok & Hr).
  apply M_bind_Ok in Hr as ([] & w1 & Hdeps & Hr).
  apply M_bind_Ok in Hr as (completed & w2 & Hcomp & Hr).
  apply M_bind_Ok in Hr as ([] & w3 & Hupd & Hr).
  apply M_bind_Ok in Hr as ([] & w4 & Hmove & Hr).
  apply M_bind_Ok in Hr as ([] & w5 & Hshift & Hr).
  assert (logged (w_db w5) (w_db w') /\ tasks (w_db w') !! t_id r = Some out) as [Hlog Hout].
  { apply M_bind_Ok in Hr as ([] & w6 & L1 & Hr). apply M_bind_Ok in Hr as ([] & w7 & L2 & Hr).
    apply M_bind_Ok in Hr as ([] & w8 & L3 & Hr). apply M_bind_Ok in Hr as ([] & w9 & L4 & Hr).
    apply M_bind_Ok in Hr as (d & w10 & [<- <-]%query_Ok & Hr). apply or_err_Ok in Hr as [Hout <-].
    split; [|done]. eapply logged_trans; [by eapply (logs_for_each _ _ (fun _ => logs_field_change _ _ _ _ _))|].
    eapply logged_trans; [eapply (logs_if _ _ _ (logs_field_change _ _ _ _ _) (logs_ret _)); exact L2|].
    eapply logged_trans; [by eapply logs_update_labels|by eapply logs_audit]. }
  apply update_dependencies_Ok in Hdeps as (E & HE & ->).
  apply completion_time_Ok in Hcomp as ->. apply update_task_Ok in Hupd as [Hed ->]. cbn in Hed.
  set (T1 := <[t_id r := updated_row r brief patch completed now]> (tasks (w_db w))).
  apply moves_children in Hmove as (T2 & HT2 & Hmove).
  apply shifts_children in Hshift as (T3 & HT3 & Hshift).
  cbn in *. assert (tasks (w_db w4) = T2) as E4 by (by destruct Hmove as (? & ? & ? & ->)).
  exists r, brief, completed, E, T1, T2, T3. split; [|split; [|done]].
  - split; try done.
    + intros v ->. cbn in Hver. by apply negb_false_iff, bool_decide_eq_true in Hver.
    + intros Hp Hm. apply andb_false_iff in Hstay as [Hs|Hs].
      * rewrite Hp in Hs. cbn in Hs. apply negb_false_iff, uuidPtrsEqual_true in Hs. by destruct Hm.
      * apply orb_false_iff in Hs as [Hs1 Hs2]. unfold patched_parent.
        apply negb_false_iff in Hs1 as ->. by apply present_false.
    + rewrite E4 in HT3. by rewrite (children_of_tasks (set_tasks T2 (w_db w)) (w_db w4)) by done.
  - eapply logged_trans; [|exact Hlog]. eapply logged_trans; [|exact Hshift].
    by apply (logged_set_tasks T3) in Hmove.
Qed.

(** ** Create *)

Record task_created (d : DB) (t : NewTask) (ds : list UUID) (number : Z) (now : Time) (id mid : UUID) : Prop := {
  tc_schedule : ValidateSchedule (b_start_date (nt_brief t)) (b_due_date (nt_brief t)) = Ok tt;
  tc_parent : validateParentAssignment d id (nt_ParentTaskID t) (nt_ProjectID t) (b_milestone_id (nt_brief t))
    (b_status (with_defaults (nt_brief t))) = Ok tt;
  tc_dependencies : validateDependencyAssignments d id (nt_ProjectID t) (nt_ParentTaskID t) ds = Ok tt;
  tc_checks : tasks_checks (new_task_row t id number now) = true;
  tc_brief : tasks_brief_checks (new_task_row t id number now) = true;
  tc_fresh : tasks d !! id = None;
  tc_number : task_by_number d number = None;
  tc_thread : task_threads d !! mid = None;
}.

(** The tables with the new Task, its Main Thread and its dependencies. *)
Definition created_db (d : DB) (t : NewTask) (ds : list UUID) (number : Z) (now : Time) (id mid : UUID) : DB :=
  set_dependencies (replaced (task_dependencies d) id ds)
    (set_threads (<[mid := main_thread_row mid id now]> (task_threads d))
       (put_task id (new_task_row t id number now) d)).

Lemma insert_task_Ok r now w u w' :
  insert_task r now w = (Ok u, w') -> exists mid,
    tasks_checks r = true /\ tasks_brief_checks r = true /\ tasks (w_db w) !! t_id r = None /\
    task_by_number (w_db w) (t_number r) = None /\ task_threads (w_db w) !! mid = None /\
    w_db w' = set_threads (<[mid := main_thread_row mid (t_id r) now]> (task_threads (w_db w)))
                (put_task (t_id r) r (w_db w)).
Proof.
  unfold insert_task, create_task_main_thread. intros Hr. run_inv. go_bool. cbn in *.
  repeat match goal with Hp : present _ = false |- _ => apply present_false in Hp end.
  eexists. split_and!; try done.
Qed.

Lemma logged_set_dependencies E d d' : logged d d' -> logged (set_dependencies E d) (set_dependencies E d').
Proof. intros (es & ys & ls & ->). by exists es, ys, ls. Qed.

Lemma create_Ok t ls ds op number now w r w' :
  CreateWithOperation t ls ds op number now w = (Ok r, w') -> exists id mid,
    task_created (w_db w) t ds number now id mid /\ r = new_task_row t id number now /\
    logged (created_db (w_db w) t ds number now id mid) (w_db w').
Proof.
  unfold CreateWithOperation. intros Hr.
  apply M_bind_Ok in Hr as ([] & w0 & [_ <-]%lift_Ok & Hr). apply M_bind_Ok in Hr as ([] & w0 & [_ <-]%throw_if_Ok & Hr).
  apply M_bind_Ok in Hr as (id & w0 & Hid & Hr).
  assert (w_db w0 = w_db w) as E0.
  { destruct (nt_ID t == uuid_Nil); [by apply uuid_New_Ok in Hid as [_ ->]|by apply M_ret_Ok in Hid as [_ ->]]. }
  apply M_bind_Ok in Hr as ([] & w1 & [_ <-]%lift_Ok & Hr). apply M_bind_Ok in Hr as ([] & w1 & [_ <-]%throw_if_Ok & Hr).
  cbv zeta in Hr. apply M_bind_Ok in Hr as ([] & w1 & [Hs <-]%lift_Ok & Hr).
  apply (proj1 (transaction_Ok _ _ _ _)) in Hr. apply M_bind_Ok in Hr as (d & w1 & [<- <-]%query_Ok & Hr).
  apply M_bind_Ok in Hr as ([] & w1 & [Hp <-]%lift_Ok & Hr). apply M_bind_Ok in Hr as ([] & w1 & [Hd <-]%lift_Ok & Hr).
  apply M_bind_Ok in Hr as ([] & w1 & [_ <-]%lift_Ok & Hr).
  apply M_bind_Ok in Hr as ([] & w1 & Hi & Hr). apply M_bind_Ok in Hr as ([] & w2 & L1 & Hr).
  apply M_bind_Ok in Hr as ([] & w3 & Hdep & Hr). apply M_bind_Ok in Hr as ([] & w4 & L2 & Hr).
  apply M_bind_Ok in Hr as ([] & w5 & L3 & Hr). apply M_ret_Ok in Hr as [<- <-].
  apply insert_task_Ok in Hi as (mid & Hc & Hb & Hf & Hn & Ht & E1). rewrite E0 in *. cbn in Hf, Hn, E1.
  assert (logged (w_db w1) (w_db w2)) as L1'.
  { destruct ls; [by eapply logs_ret|by eapply logs_labels]. }
  apply replaceTaskDependencies_Ok in Hdep. exists id, mid. split; [by split|]. split; [done|].
  assert (task_dependencies (w_db w2) = task_dependencies (w_db w)) as E2.
  { destruct L1' as (? & ? & ? & ->). by rewrite E1. }
  eapply logged_trans; [|eapply logged_trans; [by eapply logs_activity|by eapply logs_audit]].
  rewrite Hdep, E2. cbn. unfold created_db. rewrite <- E1. by apply logged_set_dependencies.
Qed.

(** ** Archive *)

Lemma archive_Ok number expected archived op now w r' w' :
  setArchivedWithExpectedVersion number expected archived op now w = (Ok r', w') -> exists r,
    task_by_number (w_db w) number = Some r /\ (forall v, expected = Some v -> t_version r = v) /\
    (archived = true -> t_archived_at r = None -> t_activity_state r <> Some TaskActivityWorking /\
       t_activity_state r <> Some TaskActivityNeedsResolution) /\
    t_version r < MaxInt64 /\
    r' = edited r (t_brief r) (t_project_id r) (t_parent_task_id r) (t_completed_at r)
           (archive_time archived (t_archived_at r) now) now /\
    logged (put_task (t_id r) r' (w_db w)) (w_db w').
Proof.
  unfold setArchivedWithExpectedVersion. intros Hr.
  apply M_bind_Ok in Hr as ([] & w0 & [_ <-]%lift_Ok & Hr). apply (proj1 (transaction_Ok _ _ _ _)) in Hr.
  apply M_bind_Ok in Hr as (d & w0 & [<- <-]%query_Ok & Hr).
  apply M_bind_Ok in Hr as (r & w0 & [Hrow <-]%or_err_Ok & Hr). cbv zeta in Hr.
  apply M_bind_Ok in Hr as ([] & w0 & [Hver <-]%throw_if_Ok & Hr).
  apply M_bind_Ok in Hr as ([] & w0 & [Hact <-]%throw_if_Ok & Hr).
  apply M_bind_Ok in Hr as ([] & w1 & L1 & Hr). apply M_bind_Ok in Hr as ([] & w2 & [Hv <-]%throw_if_Ok & Hr).
  apply M_bind_Ok in Hr as ([] & w2 & ->%exec_Ok & Hr). apply M_ret_Ok in Hr as [<- <-]. cbn.
  assert (logged (w_db w) (w_db w1)) as L1'.
  { destruct (Bool.eqb _ _); [by eapply logs_ret|]. refine ((_ : logs _) _ _ _ L1). auto with logs. }
  exists r. split_and!; try done; [| |lia|].
  - intros v ->. cbn in Hver. by apply negb_false_iff, bool_decide_eq_true in Hver.
  - intros -> Ha. rewrite Ha in Hact. cbn in Hact. apply orb_false_iff in Hact as [?%bool_decide_eq_false ?%bool_decide_eq_false]. done.
  - assert (tasks (w_db w1) = tasks (w_db w)) as -> by (by destruct L1' as (? & ? & ? & ->)).
    by apply logged_set_tasks.
Qed.

End effects.
