(* ===== verification/TaskInvariant.v ===== *)
(** * The plan of Tasks

    The invariant of parents, dependencies, schedules and readiness, and that creating, editing and
    archiving Tasks keep it together with the invariant of the workflow. *)

From stdpp Require Import base tactics strings gmap list numbers sorting relations.
From S2P Require Import Prelude Actors Lifecycle StageClaim Delivery Thread Acceptance Database Tx.
From S2P Require Import ThreadStore ClaimStore WorkflowStore WorkflowCommands TaskStore TaskGraph.
From S2P Require Import WorkflowEffects WorkflowInvariant WorkflowSafety TaskEffects.

(** ** The workflow under edits *)

(** The same Tasks, each in the same state of its workflow. *)
Definition edited_rows (T T' : gmap UUID TaskRow) : Prop :=
  forall k, option_Forall2 same_work (T !! k) (T' !! k).

Lemma edited_rows_old T T' k r' : edited_rows T T' -> T' !! k = Some r' -> exists r, T !! k = Some r /\ same_work r r'.
Proof. intros HE Hk. specialize (HE k). rewrite Hk in HE. inversion HE; subst; eauto. Qed.

Lemma edited_rows_new T T' k r : edited_rows T T' -> T !! k = Some r -> exists r', T' !! k = Some r' /\ same_work r r'.
Proof. intros HE Hk. specialize (HE k). rewrite Hk in HE. inversion HE; subst; eauto. Qed.

Lemma same_work_lifecycle r r' : same_work r r' -> row_lifecycle r' = row_lifecycle r.
Proof. intros [_ _ E1 E2 E3 _ _]. unfold row_lifecycle. by rewrite E1, E2, E3. Qed.

Lemma same_work_in r r' s : same_work r r' -> row_in r' s <-> row_in r s.
Proof. intros Hs. unfold row_in. by rewrite (same_work_lifecycle _ _ Hs). Qed.

Lemma wf_edited d d' :
  wf d -> edited_rows (tasks d) (tasks d') -> task_stage_claims d' = task_stage_claims d ->
  task_threads d' = task_threads d -> task_thread_items d' = task_thread_items d -> wf d'.
Proof.
  intros [[Tk Tn Tl] [Ck Ca Co Cw] [Hk Hm Ho Hop Hb] HI] HE EC EH EI. split; rewrite ?EC, ?EH, ?EI; [| | |done].
  - split.
    + intros k r' (r & Hr & Hs)%(edited_rows_old _ _ _ _ HE). rewrite (sw_id _ _ Hs). eauto.
    + intros k j r' q' (r & Hr & Hs)%(edited_rows_old _ _ _ _ HE) (q & Hq & Hs')%(edited_rows_old _ _ _ _ HE).
      rewrite (sw_number _ _ Hs), (sw_number _ _ Hs'). eauto.
    + intros k r' l (r & Hr & Hs)%(edited_rows_old _ _ _ _ HE). rewrite (same_work_lifecycle _ _ Hs). eauto.
  - split; [done| |done|].
    + intros i c Hi Hs. destruct (Ca _ _ Hi Hs) as (r & st & Hr & Hin & E & E').
      destruct (edited_rows_new _ _ _ _ HE Hr) as (r' & Hr' & Hw). exists r', st.
      rewrite (same_work_in _ _ _ Hw), (sw_number _ _ Hw). done.
    + intros k r' st (r & Hr & Hs)%(edited_rows_old _ _ _ _ HE). rewrite (same_work_in _ _ _ Hs). eauto.
  - split; [done| |done| |].
    + intros k r' l (r & Hr & Hs)%(edited_rows_old _ _ _ _ HE). rewrite (same_work_lifecycle _ _ Hs). eauto.
    + intros i h k Hi Hopen. destruct (Hop _ _ _ Hi Hopen) as (r & st & Hr & Hin & E & E').
      destruct (edited_rows_new _ _ _ _ HE Hr) as (r' & Hr' & Hw). exists r', st.
      rewrite (same_work_in _ _ _ Hw), (sw_issue _ _ Hw). done.
    + intros k r' st (r & Hr & Hs)%(edited_rows_old _ _ _ _ HE). rewrite (same_work_in _ _ _ Hs), (sw_issue _ _ Hs). eauto.
Qed.

(** ** The plan *)

Record plan_wf (T : gmap UUID TaskRow) (E : gset (UUID * UUID)) (H : gmap UUID ThreadRow) : Prop := {
  pw_acyclic : acyclic E;
  pw_edge : forall a b, depends E a b -> exists ra rb, T !! a = Some ra /\ T !! b = Some rb /\
    t_project_id ra = t_project_id rb /\ t_parent_task_id ra <> Some b /\ t_parent_task_id rb <> Some a;
  pw_parent : forall k r p, T !! k = Some r -> t_parent_task_id r = Some p -> exists q, T !! p = Some q /\
    t_parent_task_id q = None /\ t_project_id q = t_project_id r /\
    b_milestone_id (t_brief q) = b_milestone_id (t_brief r);
  pw_brief : forall k r, T !! k = Some r -> tasks_brief_checks r = true;
  pw_ready : forall k r b q, T !! k = Some r -> t_phase r = Some TaskPhaseReady -> depends E k b ->
    T !! b = Some q -> finished q;
  pw_threads : forall i h, H !! i = Some h -> is_Some (T !! h_task_id h);
}.

Definition planned (d : DB) : Prop := plan_wf (tasks d) (task_dependencies d) (task_threads d).

(** A row in the same place of the plan. *)
Record same_place (y x : TaskRow) : Prop := {
  sp_id : t_id x = t_id y;
  sp_project : t_project_id x = t_project_id y;
  sp_parent : t_parent_task_id x = t_parent_task_id y;
  sp_brief : t_brief x = t_brief y;
}.

Lemma option_Forall2_insert {V} (R : V -> V -> Prop) (T : gmap UUID V) k y x :
  T !! k = Some y -> R y x -> (forall v, R v v) -> forall j, option_Forall2 R (T !! j) (<[k := x]> T !! j).
Proof.
  intros Hk HR Hrefl j. destruct (decide (j = k)) as [->|Hne].
  - rewrite Hk, lookup_insert_eq. by constructor.
  - rewrite lookup_insert_ne by done. destruct (T !! j); by constructor.
Qed.

(** The plan of rows that stay in place; what is ready and which Threads exist is up to the caller. *)
Lemma planned_rows T T' E H H' :
  plan_wf T E H -> (forall k, option_Forall2 same_place (T !! k) (T' !! k)) ->
  (forall k r b q, T' !! k = Some r -> t_phase r = Some TaskPhaseReady -> depends E k b -> T' !! b = Some q ->
     finished q) ->
  (forall i h, H' !! i = Some h -> is_Some (T' !! h_task_id h)) -> plan_wf T' E H'.
Proof.
  intros [Pa Pe Pp Pb _ _] HT Hready Hth.
  assert (forall k x, T' !! k = Some x -> exists y, T !! k = Some y /\ same_place y x) as Hold.
  { intros k x Hx. specialize (HT k). rewrite Hx in HT. inversion HT; subst. eauto. }
  assert (forall k y, T !! k = Some y -> exists x, T' !! k = Some x /\ same_place y x) as Hnew.
  { intros k x Hx. specialize (HT k). rewrite Hx in HT. inversion HT; subst. eauto. }
  split; [done| | | |exact Hready|exact Hth].
  - intros a b Hd. destruct (Pe _ _ Hd) as (ra & rb & Ha & Hb & Hx).
    destruct (Hnew _ _ Ha) as (xa & Hxa & [_ Ea Fa _]). destruct (Hnew _ _ Hb) as (xb & Hxb & [_ Eb Fb _]).
    exists xa, xb. by rewrite Ea, Eb, Fa, Fb.
  - intros k x p Hx Ep. destruct (Hold _ _ Hx) as (y & Hy & [_ Ey Fy By]). rewrite Fy in Ep.
    destruct (Pp _ _ _ Hy Ep) as (q & Hq & Hz). destruct (Hnew _ _ Hq) as (z & Hz' & [_ Ez Fz Bz]).
    exists z. by rewrite Ez, Fz, Bz, Ey, By.
  - intros k x Hx. destruct (Hold _ _ Hx) as (y & Hy & [Iy _ Fy By]). specialize (Pb _ _ Hy).
    unfold tasks_brief_checks in *. by rewrite By, Fy, Iy.
Qed.

(** What [validateParentAssignment] makes sure of. *)
Lemma validateParent_Ok d k parent proj m s :
  tasks_wf (tasks d) -> validateParentAssignment d k parent proj m s = Ok tt ->
  forall p, parent = Some p -> p <> k /\ (exists q, tasks d !! p = Some q /\ t_parent_task_id q = None /\
    t_archived_at q = None /\ t_project_id q = proj /\ b_milestone_id (t_brief q) = m) /\
    (forall j c, tasks d !! j = Some c -> t_parent_task_id c <> Some k) /\
    ~ depends (task_dependencies d) k p /\ ~ depends (task_dependencies d) p k.
Proof.
  intros Hw Hv p ->. unfold validateParentAssignment in Hv. go_inv. destruct (tasks d !! p) as [q|] eqn:Hq; [|done].
  go_inv. repeat match goal with Hx : _ || _ = false |- _ => apply orb_false_iff in Hx as [? ?] end. go_bool.
  repeat match goal with Hx : present _ = false |- _ => apply present_false in Hx end.
  match goal with Hx : uuidPtrsEqual _ _ = true |- _ => apply uuidPtrsEqual_true in Hx end.
  split_and!; [done|eexists; split_and!; [reflexivity|done..]| |done|done].
  intros j c Hj E. match goal with Hx : existsb _ _ = false |- _ => apply not_true_iff_false in Hx; apply Hx end.
  apply existsb_exists. exists c. split; [apply list_elem_of_In, elem_of_rows; eauto|by apply bool_decide_eq_true].
Qed.

(** What [validateDependencyAssignments] makes sure of. *)
Lemma validateDependencies_Ok d k proj parent ds :
  validateDependencyAssignments d k proj parent ds = Ok tt ->
  forall b, b ∈ ds -> b <> k /\ (k ∉ reachable (task_dependencies d) b) /\ parent <> Some b /\
    exists q, tasks d !! b = Some q /\ t_project_id q = proj /\ t_parent_task_id q <> Some k.
Proof.
  unfold validateDependencyAssignments. generalize (∅ : gset UUID).
  induction ds as [|c ds IH]; intros seen Hv b Hb; [set_solver|]. cbn in Hv. go_inv.
  apply elem_of_cons in Hb as [->|Hb]; [|by eapply IH].
  repeat match goal with Hx : _ || _ = false |- _ => apply orb_false_iff in Hx as [? ?] end. go_bool.
  split_and!; [done..|]. eexists. split_and!; [eassumption|done..].
Qed.

(** Nothing unfinished is left among the counted Tasks. *)
Lemma countUnfinished_none d ds b q :
  tasks_wf (tasks d) -> countUnfinishedTasks d ds <= 0 -> b ∈ ds -> tasks d !! b = Some q -> finished q.
Proof.
  intros Hw Hc Hb Hq. apply unfinished_false. destruct ds as [|x l]; [set_solver|].
  apply not_true_is_false. intros Hu. unfold countUnfinishedTasks in Hc.
  assert (q ∈ select (fun t => bool_decide (t_id t ∈ x :: l) && unfinished t) (tasks d)) as Hin.
  { apply elem_of_select. rewrite (tw_key _ Hw _ _ Hq), bool_decide_eq_true_2, Hu by done. eauto. }
  destruct (select _ _); [set_solver|cbn in Hc; lia].
Qed.

(** ** Writing the rows that a query selects *)

Lemma put_rows_select (f : TaskRow -> TaskRow) p T l k :
  (forall k r, T !! k = Some r -> t_id r = k) -> l ≡ₚ select p T ->
  put_rows f l T !! k = (fun y => if p y then f y else y) <$> T !! k.
Proof.
  intros Hkey Hl.
  assert (NoDup (t_id <$> l)) as Hnd by (rewrite Hl; by apply select_NoDup).
  destruct (T !! k) as [y|] eqn:Hy; cbn.
  - pose proof (Hkey _ _ Hy) as Ek. destruct (p y) eqn:Hp.
    + rewrite <- Ek. apply put_rows_in; [done|]. rewrite Hl. apply elem_of_select. eauto.
    + rewrite put_rows_out; [done|]. intros (c & Ec & Hc)%list_elem_of_fmap. rewrite Hl in Hc.
      apply elem_of_select in Hc as (Hpc & j & Hj). rewrite (Hkey _ _ Hj) in Ec. congruence.
  - rewrite put_rows_out; [done|]. intros (c & Ec & Hc)%list_elem_of_fmap. rewrite Hl in Hc.
    apply elem_of_select in Hc as (_ & j & Hj). rewrite (Hkey _ _ Hj) in Ec. congruence.
Qed.

Definition is_child (k : UUID) (c : TaskRow) : bool := t_parent_task_id c == Some k.

Lemma children_perm d k : children_of d k ≡ₚ select (is_child k) (tasks d).
Proof. apply order_by_perm. Qed.

#[local] Instance filter_perm {A} (f : A -> bool) : Proper (Permutation ==> Permutation) (List.filter f).
Proof.
  induction 1 as [|x l l' _ IH|x y l|l l1 l' _ IH _ IH']; cbn; [done| | |by etrans].
  - destruct (f x); by rewrite IH.
  - destruct (f x), (f y); try done. apply Permutation_swap.
Qed.

Lemma scheduled_children_perm d k :
  List.filter scheduled (children_of d k) ≡ₚ select (fun c => is_child k c && scheduled c) (tasks d).
Proof.
  rewrite children_perm. unfold select. induction (rows (tasks d)) as [|c l IH]; cbn; [done|].
  destruct (is_child k c); cbn; [destruct (scheduled c)|]; by rewrite ?IH.
Qed.

(** ** Update *)

(** How an update of the Task [k] with the milestone [m] treats the row of another Task. *)
Record touched (k : UUID) (m : option UUID) (y x : TaskRow) : Prop := {
  to_work : same_work y x;
  to_parent : t_parent_task_id x = t_parent_task_id y;
  to_archived : t_archived_at x = t_archived_at y;
  to_brief : tasks_brief_checks y = true -> tasks_brief_checks x = true;
  to_milestone : b_milestone_id (t_brief x) = b_milestone_id (t_brief y) \/ b_milestone_id (t_brief x) = m;
  to_other : is_child k y = false -> x = y;
}.

#[global] Instance touched_refl k m : Reflexive (touched k m).
Proof. split; eauto. reflexivity. Qed.

Lemma touched_trans k m y x z : touched k m y x -> touched k m x z -> touched k m y z.
Proof.
  intros [Hw Hp Ha Hb Hm Ho] [Hw' Hp' Ha' Hb' Hm' Ho']. split; try congruence; eauto.
  - by etrans.
  - destruct Hm' as [-> | ->]; eauto.
  - intros Hy. rewrite <- (Ho Hy). apply Ho'. unfold is_child in *. by rewrite Hp.
Qed.

(** Writing the selected children with [f] touches every row as allowed. *)
Lemma put_rows_touched k m f p (T : gmap UUID TaskRow) l :
  (forall k r, T !! k = Some r -> t_id r = k) -> l ≡ₚ select (fun c => is_child k c && p c) T ->
  Forall (sound_edit f) l ->
  (forall c, same_work c (f c) \/ t_project_id (f c) <> t_project_id c) ->
  (forall c, t_parent_task_id (f c) = t_parent_task_id c /\ t_archived_at (f c) = t_archived_at c /\
     (b_milestone_id (t_brief (f c)) = b_milestone_id (t_brief c) \/ b_milestone_id (t_brief (f c)) = m)) ->
  forall j, option_Forall2 (touched k m) (T !! j) (put_rows f l T !! j).
Proof.
  intros Hkey Hl Hs Hwork Hplan j. rewrite (put_rows_select f _ T l j Hkey Hl).
  destruct (T !! j) as [y|] eqn:Hy; cbn; constructor.
  destruct (is_child k y && p y) eqn:Hp; [|reflexivity]. apply andb_true_iff in Hp as [Hc Hp].
  assert (y ∈ l) as Hin by (rewrite Hl; apply elem_of_select; rewrite Hc, Hp; eauto).
  rewrite Forall_forall in Hs. destruct (Hs y Hin) as (Hb & Hproj & _). destruct (Hplan y) as (? & ? & ?).
  split; try done; [by destruct (Hwork y)|by rewrite Hc].
Qed.

Lemma option_touched_trans k m o o1 o2 :
  option_Forall2 (touched k m) o o1 -> option_Forall2 (touched k m) o1 o2 -> option_Forall2 (touched k m) o o2.
Proof. intros [y x H1|]; inversion 1; subst; constructor. by eapply touched_trans. Qed.

Lemma option_touched_refl k m o : option_Forall2 (touched k m) o o.
Proof. destruct o; constructor. reflexivity. Qed.

Lemma touched_keys k m (T T' : gmap UUID TaskRow) :
  (forall k r, T !! k = Some r -> t_id r = k) -> (forall j, option_Forall2 (touched k m) (T !! j) (T' !! j)) ->
  forall k r, T' !! k = Some r -> t_id r = k.
Proof.
  intros Hkey HT j x Hx. specialize (HT j). rewrite Hx in HT. inversion HT as [y ? Ht E|]; subst.
  rewrite (sw_id _ _ (to_work _ _ _ _ Ht)). eauto.
Qed.

Section update.
Context (d : DB) (number : Z) (expected : option Z) (patch : TaskPatch) (now : Time) (r : TaskRow)
  (brief : TaskBrief) (completed : option Time) (E : gset (UUID * UUID)) (T1 T2 T3 : gmap UUID TaskRow)
  (Hw : wf d) (Hp : planned d)
  (Hu : task_updated d number expected patch now r brief completed E T1 T2 T3).

Abbreviation k0 := (t_id r).
Abbreviation r' := (updated_row r brief patch completed now).
Abbreviation m := (b_milestone_id brief).

Lemma updated_target : tasks d !! k0 = Some r.
Proof using Hw Hu.
  pose proof (tu_row _ _ _ _ _ _ _ _ _ _ _ _ Hu) as Hn.
  by apply (task_by_number_Some d number r (wf_tasks _ Hw)) in Hn as [? _].
Qed.

Lemma T1_key k x : T1 !! k = Some x -> t_id x = k.
Proof using Hw Hu.
  rewrite (tu_T1 _ _ _ _ _ _ _ _ _ _ _ _ Hu). rewrite lookup_put.
  intros [[-> ->]|[_ Hx]]; [done|]. by eapply (tw_key _ (wf_tasks _ Hw)).
Qed.

Lemma T2_touched k : option_Forall2 (touched k0 m) (T1 !! k) (T2 !! k).
Proof using Hw Hu.
  pose proof (tu_T2 _ _ _ _ _ _ _ _ _ _ _ _ Hu) as H2. cbv zeta in H2.
  destruct (negb _ && negb _); [|rewrite H2; apply option_touched_refl].
  destruct H2 as [E2 Hs]. rewrite E2.
  apply (put_rows_touched _ _ _ (fun _ => true)); [exact T1_key| |exact Hs| |].
  - rewrite children_perm. cbn. unfold select. apply Permutation_refl'. apply filter_ext. intros c. by rewrite andb_true_r.
  - intros c. destruct (decide (t_project_id (moved_child (t_project_id r) m now c) = t_project_id c)); [left|by right].
    by split.
  - intros c. cbn. auto.
Qed.

Lemma T3_touched_from k : option_Forall2 (touched k0 m) (T2 !! k) (T3 !! k).
Proof using Hw Hu.
  pose proof (tu_T3 _ _ _ _ _ _ _ _ _ _ _ _ Hu) as H3. cbv zeta in H3.
  destruct (tp_ScheduleShiftDays patch) as [days|]; [|rewrite H3; apply option_touched_refl].
  destruct (negb _); [|rewrite H3; apply option_touched_refl]. destruct H3 as [E3 Hs]. rewrite E3.
  apply (put_rows_touched _ _ _ scheduled); [|apply scheduled_children_perm|exact Hs| |].
  - eapply touched_keys; [exact T1_key|exact T2_touched].
  - intros c. by left.
  - intros c. cbn. auto.
Qed.

Lemma T3_touched k : option_Forall2 (touched k0 m) (T1 !! k) (T3 !! k).
Proof using Hw Hu. eapply option_touched_trans; [apply T2_touched|apply T3_touched_from]. Qed.

Lemma updated_not_own_child : is_child k0 r' = false.
Proof using Hw Hu.
  unfold is_child. cbn. apply bool_decide_eq_false. intros Ek.
  destruct (validateParent_Ok _ _ _ _ _ _ (wf_tasks _ Hw) (tu_parent _ _ _ _ _ _ _ _ _ _ _ _ Hu) _ Ek) as [Hne _].
  by apply Hne.
Qed.

(** The rows after the update. *)
Lemma updated_self : T3 !! k0 = Some r'.
Proof using Hw Hu.
  pose proof (T3_touched k0) as Ht. rewrite (tu_T1 _ _ _ _ _ _ _ _ _ _ _ _ Hu), lookup_insert_eq in Ht.
  inversion Ht as [y x Hx E1 E2|]. subst y. by rewrite (to_other _ _ _ _ Hx updated_not_own_child).
Qed.

Lemma updated_others k : k <> k0 -> option_Forall2 (touched k0 m) (tasks d !! k) (T3 !! k).
Proof using Hw Hu.
  intros Hne. pose proof (T3_touched k) as Ht.
  by rewrite (tu_T1 _ _ _ _ _ _ _ _ _ _ _ _ Hu), lookup_insert_ne in Ht.
Qed.

Lemma updated_old k x :
  T3 !! k = Some x -> exists y, tasks d !! k = Some y /\ same_work y x /\
    ((k = k0 /\ y = r /\ x = r') \/ (k <> k0 /\ touched k0 m y x)).
Proof using Hw Hu.
  intros Hx. destruct (decide (k = k0)) as [->|Hne].
  - rewrite updated_self in Hx. injection Hx as <-. exists r. split; [apply updated_target|].
    split; [apply same_work_edited|by left].
  - pose proof (updated_others k Hne) as Ht. rewrite Hx in Ht. inversion Ht as [y z Hy E1 E2|]. subst z.
    exists y. split; [done|]. split; [by apply (to_work _ _ _ _ Hy)|by right].
Qed.

Lemma updated_new k y :
  tasks d !! k = Some y -> exists x, T3 !! k = Some x /\ same_work y x /\
    ((k = k0 /\ y = r /\ x = r') \/ (k <> k0 /\ touched k0 m y x)).
Proof using Hw Hu.
  intros Hy. destruct (T3 !! k) as [x|] eqn:Hx.
  - exists x. split; [done|]. destruct (updated_old _ _ Hx) as (y' & Hy' & ? & ?). by simplify_eq.
  - destruct (decide (k = k0)) as [->|Hne]; [by rewrite updated_self in Hx|].
    pose proof (updated_others k Hne) as Ht. rewrite Hx, Hy in Ht. inversion Ht.
Qed.

Lemma update_edits : edited_rows (tasks d) T3.
Proof using Hw Hu.
  intros k. destruct (tasks d !! k) as [y|] eqn:Hy.
  - destruct (updated_new _ _ Hy) as (x & -> & ? & _). by constructor.
  - destruct (T3 !! k) as [x|] eqn:Hx; [|constructor].
    destruct (updated_old _ _ Hx) as (y & ? & _). congruence.
Qed.

Lemma moved_children k x :
  t_parent_task_id r = None -> m <> b_milestone_id (t_brief r) -> k <> k0 -> T3 !! k = Some x ->
  t_parent_task_id x = Some k0 -> b_milestone_id (t_brief x) = m.
Proof using Hw Hu.
  intros Hpar Hm Hne Hx Hc.
  destruct (updated_old _ _ Hx) as (y & Hy & _ & [[? _]|[_ Ht]]); [done|].
  assert (T2 !! k = Some (moved_child (t_project_id r) m now y)) as HT2.
  { pose proof (tu_T2 _ _ _ _ _ _ _ _ _ _ _ _ Hu) as H2. cbv zeta in H2. rewrite Hpar in H2. cbn in H2.
    assert (uuidPtrsEqual (b_milestone_id (t_brief r)) m = false) as E0.
    { apply not_true_is_false. intros ?%uuidPtrsEqual_true. by destruct Hm. }
    rewrite E0 in H2. cbn in H2. destruct H2 as [E2 _]. rewrite E2.
    rewrite (put_rows_select _ (is_child k0) _ _ _ T1_key (children_perm (set_tasks T1 d) k0)).
    rewrite (tu_T1 _ _ _ _ _ _ _ _ _ _ _ _ Hu), lookup_insert_ne, Hy by done. cbn.
    unfold is_child. rewrite <- (to_parent _ _ _ _ Ht), Hc, bool_decide_eq_true_2 by done. done. }
  pose proof (T3_touched_from k) as Ht3. rewrite HT2, Hx in Ht3. inversion Ht3 as [? ? Hz|].
  by destruct (to_milestone _ _ _ _ Hz) as [-> | ->].
Qed.

Lemma updated_edge a b :
  depends E a b ->
  (a = k0 /\ tp_DependenciesSet patch = true /\ b ∈ tp_DependencyIDs patch) \/ depends (task_dependencies d) a b.
Proof using Hu.
  pose proof (tu_dependencies _ _ _ _ _ _ _ _ _ _ _ _ Hu) as HE. destruct (tp_DependenciesSet patch).
  - destruct HE as (_ & _ & HE). rewrite HE, depends_replaced. naive_solver.
  - rewrite HE. by right.
Qed.

Lemma new_edge b :
  tp_DependenciesSet patch = true -> b ∈ tp_DependencyIDs patch ->
  b <> k0 /\ patched_parent r patch <> Some b /\
  (exists q, tasks d !! b = Some q /\ t_project_id q = t_project_id r /\ t_parent_task_id q <> Some k0 /\
     (t_phase r = Some TaskPhaseReady -> finished q)).
Proof using Hw Hu.
  intros Hs Hb. pose proof (tu_dependencies _ _ _ _ _ _ _ _ _ _ _ _ Hu) as HE. rewrite Hs in HE.
  destruct HE as (Hv & Hc & _).
  destruct (validateDependencies_Ok _ _ _ _ _ Hv _ Hb) as (Hne & _ & Hpar & q & Hq & Hproj & Hqp).
  split_and!; [done..|]. exists q. split_and!; [done..|]. intros Hph.
  by eapply countUnfinished_none; [apply Hw|apply Hc| |].
Qed.

(** Whoever becomes the parent is no dependency. *)
Lemma updated_parent_free p :
  patched_parent r patch = Some p -> ~ depends (task_dependencies d) k0 p /\ ~ depends (task_dependencies d) p k0.
Proof using Hw Hu.
  intros Ep.
  by destruct (validateParent_Ok _ _ _ _ _ _ (wf_tasks _ Hw) (tu_parent _ _ _ _ _ _ _ _ _ _ _ _ Hu) _ Ep)
    as (_ & _ & _ & ?).
Qed.

Lemma update_acyclic : acyclic E.
Proof using Hp Hu.
  pose proof (tu_dependencies _ _ _ _ _ _ _ _ _ _ _ _ Hu) as HE. destruct (tp_DependenciesSet patch).
  - destruct HE as (Hv & _ & HE). rewrite HE. apply acyclic_replaced; [apply Hp|]. intros b Hb.
    destruct (validateDependencies_Ok _ _ _ _ _ Hv _ Hb) as (? & ? & _). done.
  - rewrite HE. apply Hp.
Qed.

Lemma update_edges a b :
  depends E a b -> exists ra rb, T3 !! a = Some ra /\ T3 !! b = Some rb /\
    t_project_id ra = t_project_id rb /\ t_parent_task_id ra <> Some b /\ t_parent_task_id rb <> Some a.
Proof using Hw Hp Hu.
  intros [(-> & Hs & Hb)|Hd]%updated_edge.
  - destruct (new_edge b Hs Hb) as (Hne & Hpar & q & Hq & Hproj & Hqp & _).
    destruct (updated_new _ _ Hq) as (x & Hx & Hsw & [[? _]|[_ Ht]]); [done|].
    exists r', x. rewrite updated_self, (sw_project _ _ Hsw), (to_parent _ _ _ _ Ht). cbn. done.
  - destruct (pw_edge _ _ _ Hp _ _ Hd) as (ra & rb & Ha & Hb & Hproj & Hpa & Hpb).
    destruct (updated_new _ _ Ha) as (xa & Hxa & Hsa & Hca). destruct (updated_new _ _ Hb) as (xb & Hxb & Hsb & Hcb).
    exists xa, xb. rewrite (sw_project _ _ Hsa), (sw_project _ _ Hsb). split_and!; [done..| |].
    + destruct Hca as [(-> & _ & ->)|(_ & Ht)]; [|by rewrite (to_parent _ _ _ _ Ht)].
      cbn. intros Ep. by destruct (updated_parent_free _ Ep).
    + destruct Hcb as [(-> & _ & ->)|(_ & Ht)]; [|by rewrite (to_parent _ _ _ _ Ht)].
      cbn. intros Ep. by destruct (updated_parent_free _ Ep).
Qed.

Lemma update_parents k x p :
  T3 !! k = Some x -> t_parent_task_id x = Some p -> exists q, T3 !! p = Some q /\
    t_parent_task_id q = None /\ t_project_id q = t_project_id x /\
    b_milestone_id (t_brief q) = b_milestone_id (t_brief x).
Proof using Hw Hp Hu.
  intros Hx Ep. destruct (updated_old _ _ Hx) as (y & Hy & Hsw & [(-> & -> & ->)|(Hne & Ht)]).
  - cbn in Ep |- *.
    destruct (validateParent_Ok _ _ _ _ _ _ (wf_tasks _ Hw) (tu_parent _ _ _ _ _ _ _ _ _ _ _ _ Hu) _ Ep)
      as (Hpk & (q & Hq & Hqp & _ & Hproj & Hm) & _).
    destruct (updated_new _ _ Hq) as (z & Hz & _ & [[? _]|[_ Htz]]); [done|].
    assert (z = q) as -> by (apply (to_other _ _ _ _ Htz); unfold is_child; by rewrite Hqp). eauto.
  - pose proof Ep as Epy. rewrite (to_parent _ _ _ _ Ht) in Epy.
    destruct (pw_parent _ _ _ Hp _ _ _ Hy Epy) as (q & Hq & Hqp & Hproj & Hm).
    destruct (updated_new _ _ Hq) as (z & Hz & _ & [(-> & -> & ->)|[Hpne Htz]]).
    + exists r'. split; [done|]. cbn. split; [|split; [by rewrite (sw_project _ _ Hsw)|]].
      * destruct (patched_parent r patch) as [p'|] eqn:Epp; [|done].
        destruct (validateParent_Ok _ _ _ _ _ _ (wf_tasks _ Hw) (tu_parent _ _ _ _ _ _ _ _ _ _ _ _ Hu) _ Epp)
          as (_ & _ & Hnone & _). by destruct (Hnone _ _ Hy).
      * destruct (decide (m = b_milestone_id (t_brief r))) as [Em|Em].
        -- destruct (to_milestone _ _ _ _ Ht) as [-> | ->]; congruence.
        -- symmetry. by eapply moved_children.
    + assert (z = q) as -> by (apply (to_other _ _ _ _ Htz); unfold is_child; by rewrite Hqp).
      assert (x = y) as -> by (apply (to_other _ _ _ _ Ht); unfold is_child; rewrite Epy;
        apply bool_decide_eq_false; congruence). eauto.
Qed.

Lemma finished_same_work y x : same_work y x -> finished y -> finished x.
Proof using. intros Hs. unfold finished. by rewrite (sw_phase _ _ Hs). Qed.

Lemma update_planned : plan_wf T3 E (task_threads d).
Proof using Hw Hp Hu.
  split; [apply update_acyclic|exact update_edges|exact update_parents| | |].
  - intros k x Hx. destruct (updated_old _ _ Hx) as (y & Hy & _ & [(_ & _ & ->)|(_ & Ht)]).
    + apply (tu_edit _ _ _ _ _ _ _ _ _ _ _ _ Hu).
    + eapply to_brief; [done|]. by eapply (pw_brief _ _ _ Hp).
  - intros k x b z Hx Hph Hd Hz. destruct (updated_old _ _ Hx) as (y & Hy & Hsw & _).
    destruct (updated_old _ _ Hz) as (q & Hq & Hsq & _). eapply finished_same_work; [done|].
    rewrite (sw_phase _ _ Hsw) in Hph. apply updated_edge in Hd as [(-> & Hs & Hb)|Hd].
    + rewrite updated_target in Hy. injection Hy as <-.
      destruct (new_edge b Hs Hb) as (_ & _ & q' & Hq' & _ & _ & Hf). simplify_eq. by apply Hf.
    + exact (pw_ready _ _ _ Hp k y b q Hy Hph Hd Hq).
  - intros i h Hi. destruct (pw_threads _ _ _ Hp _ _ Hi) as [y Hy].
    destruct (updated_new _ _ Hy) as (x & Hx & _). by exists x.
Qed.
End update.

(** ** Log entries *)

Lemma logged_wf d d' : logged d d' -> wf d -> wf d'.
Proof. intros (es & ys & ls & ->) []. by split. Qed.

Lemma logged_planned d d' : logged d d' -> planned d -> planned d'.
Proof. by intros (es & ys & ls & ->). Qed.

(** ** Create *)

Section create.
Context (d : DB) (t : NewTask) (ds : list UUID) (number : Z) (now : Time) (id mid : UUID)
  (Hw : wf d) (Hp : planned d) (Hc : task_created d t ds number now id mid).

Abbreviation r0 := (new_task_row t id number now).
Abbreviation T' := (<[id := r0]> (tasks d)).
Abbreviation H' := (<[mid := main_thread_row mid id now]> (task_threads d)).

Lemma new_row_in s : row_in r0 s -> s = Backlog.
Proof using. intros (l & [= <-] & E). by destruct s as [| |[]|[]|[]| |]. Qed.

Lemma old_row k r : tasks d !! k = Some r -> k <> id.
Proof using Hc. intros Hk ->. by rewrite (tc_fresh _ _ _ _ _ _ _ Hc) in Hk. Qed.

Lemma created_tasks_wf : tasks_wf T'.
Proof using Hw Hc.
  destruct (wf_tasks _ Hw) as [Tk Tn Tl].
  assert (forall k r, tasks d !! k = Some r -> t_number r <> number) as Hn.
  { intros k r Hk. pose proof (tc_number _ _ _ _ _ _ _ Hc) as E. unfold task_by_number in E.
    rewrite select_one_None in E. exact (proj1 (bool_decide_eq_false _) (E _ _ Hk)). }
  split.
  - intros k r. rewrite lookup_put. intros [[-> ->]|[_ Hk]]; [done|eauto].
  - intros k j r q. rewrite !lookup_put. intros [[-> ->]|[Hk Hr]] [[-> ->]|[Hj Hq]]; cbn; try done.
    + intros E. by destruct (Hn _ _ Hq).
    + intros E. by destruct (Hn _ _ Hr).
    + eauto.
  - intros k r l. rewrite lookup_put. intros [[-> ->]|[_ Hk]]; [by intros [= <-]|eauto].
Qed.

Lemma created_claims_wf : claims_wf T' (task_stage_claims d).
Proof using Hw Hc.
  destruct (wf_claims _ Hw) as [Ck Ca Co Cw]. split; [done| |done|].
  - intros i c Hi Hs. destruct (Ca _ _ Hi Hs) as (r & st & Hr & Hx). exists r, st.
    by rewrite lookup_insert_ne by (symmetry; by eapply old_row).
  - intros k r st. rewrite lookup_put. intros [[-> ->]|[_ Hk]] Hin; [by apply new_row_in in Hin|eauto].
Qed.

Lemma main_not_open k : is_open_issue k (main_thread_row mid id now) = false.
Proof using. apply not_true_is_false. by intros (_ & ? & _)%is_open_issue_true. Qed.

Lemma created_threads_wf : threads_wf T' H'.
Proof using Hw Hp Hc.
  destruct (wf_threads _ Hw) as [Hk Hm Ho Hop Hb].
  assert (forall i h, task_threads d !! i = Some h -> i <> mid) as Hmid.
  { intros i h Hi ->. by rewrite (tc_thread _ _ _ _ _ _ _ Hc) in Hi. }
  assert (forall i h, task_threads d !! i = Some h -> h_task_id h <> id) as Hold.
  { intros i h Hi E. destruct (pw_threads _ _ _ Hp _ _ Hi) as [r Hr]. rewrite E in Hr. by apply old_row in Hr. }
  split.
  - intros i h. rewrite lookup_put. intros [[-> ->]|[_ Hi]]; [done|eauto].
  - intros k r l. rewrite lookup_put. intros [[-> ->]|[_ Hr]] Hl.
    + exists mid, (main_thread_row mid id now). rewrite lookup_insert_eq. split; [done|]. by apply is_main_true.
    + destruct (Hm _ _ _ Hr Hl) as (i & h & Hi & Hmn). exists i, h.
      by rewrite lookup_insert_ne by (symmetry; by eapply Hmid).
  - intros i j h h' k. rewrite !lookup_put. intros [[-> ->]|[_ Hi]] [[-> ->]|[_ Hj]] M1 M2; try done.
    + apply is_main_true in M1 as [E _]. apply is_main_true in M2 as [E' _]. cbn in E. subst k. by destruct (Hold _ _ Hj).
    + apply is_main_true in M1 as [E' _]. apply is_main_true in M2 as [E _]. cbn in E. subst k. by destruct (Hold _ _ Hi).
    + eauto.
  - intros i h k. rewrite lookup_put. intros [[-> ->]|[_ Hi]] Hx; [by rewrite main_not_open in Hx|].
    destruct (Hop _ _ _ Hi Hx) as (r & st & Hr & Hy). exists r, st.
    by rewrite lookup_insert_ne by (symmetry; by eapply old_row).
  - intros k r st. rewrite lookup_put. intros [[-> ->]|[_ Hr]] Hin; [by apply new_row_in in Hin|].
    destruct (Hb _ _ _ Hr Hin) as (i & h & E & Hi & Hx). exists i, h.
    by rewrite lookup_insert_ne by (symmetry; by eapply Hmid).
Qed.

Lemma created_items_wf : items_wf H' (task_thread_items d).
Proof using Hw Hc.
  destruct (wf_items _ Hw) as [Ik Ith Ir Iu]. split; [done| | |].
  - intros j r Hj. apply lookup_insert_is_Some. destruct (decide (mid = i_thread_id r)); [by left|right; eauto].
  - intros i h k. rewrite lookup_put. intros [[-> ->]|[_ Hi]] Hx; [by rewrite main_not_open in Hx|eauto].
  - intros i h k. rewrite lookup_put. intros [[-> ->]|[_ Hi]] Hx; [by rewrite main_not_open in Hx|eauto].
Qed.

Lemma created_edge a b :
  depends (replaced (task_dependencies d) id ds) a b ->
  (a = id /\ b <> id /\ nt_ParentTaskID t <> Some b /\ exists q, tasks d !! b = Some q /\
     t_project_id q = nt_ProjectID t /\ t_parent_task_id q <> Some id) \/
  (a <> id /\ b <> id /\ depends (task_dependencies d) a b).
Proof using Hp Hc.
  rewrite depends_replaced. intros [[-> Hb]|[Hne Hd]].
  - left. destruct (validateDependencies_Ok _ _ _ _ _ (tc_dependencies _ _ _ _ _ _ _ Hc) _ Hb) as (? & _ & ? & ?). done.
  - right. destruct (pw_edge _ _ _ Hp _ _ Hd) as (ra & rb & _ & Hb & _). by apply old_row in Hb.
Qed.

Lemma created_planned : plan_wf T' (replaced (task_dependencies d) id ds) H'.
Proof using Hw Hp Hc.
  split.
  - apply acyclic_replaced; [apply Hp|]. intros b Hb.
    by destruct (validateDependencies_Ok _ _ _ _ _ (tc_dependencies _ _ _ _ _ _ _ Hc) _ Hb) as (? & ? & _).
  - intros a b [(-> & Hne & Hpar & q & Hq & Hproj & Hqp)|(Ha & Hb & Hd)]%created_edge.
    + exists r0, q. rewrite lookup_insert_eq, lookup_insert_ne by done. done.
    + destruct (pw_edge _ _ _ Hp _ _ Hd) as (ra & rb & Hra & Hrb & Hx). exists ra, rb.
      by rewrite !lookup_insert_ne by done.
  - intros k r p. rewrite lookup_put. intros [[-> ->]|[_ Hk]] Ep.
    + cbn in Ep. destruct (validateParent_Ok _ _ _ _ _ _ (wf_tasks _ Hw) (tc_parent _ _ _ _ _ _ _ Hc) _ Ep)
        as (Hne & (q & Hq & Hqp & _ & Hproj & Hm) & _).
      exists q. rewrite lookup_insert_ne by done. done.
    + destruct (pw_parent _ _ _ Hp _ _ _ Hk Ep) as (q & Hq & Hx). exists q.
      by rewrite lookup_insert_ne by (symmetry; by eapply old_row).
  - intros k r. rewrite lookup_put. intros [[-> ->]|[_ Hk]]; [apply Hc|by eapply (pw_brief _ _ _ Hp)].
  - intros k r b q. rewrite !lookup_put. intros [[-> ->]|[_ Hk]] Hph Hd Hq; [done|].
    apply created_edge in Hd as [(-> & _)|(_ & Hb & Hd)]; [by apply old_row in Hk|].
    destruct Hq as [[-> _]|[_ Hq]]; [done|]. exact (pw_ready _ _ _ Hp k r b q Hk Hph Hd Hq).
  - intros i h. rewrite lookup_put. intros [[-> ->]|[_ Hi]]; cbn; [by rewrite lookup_insert_eq|].
    apply lookup_insert_is_Some. right. destruct (pw_threads _ _ _ Hp _ _ Hi) as [r Hr].
    split; [symmetry; by eapply old_row|by exists r].
Qed.
End create.

Section store.
Context `{UUIDSource} `{TextForms}.

Lemma create_keeps t ls ds op number now w r w' :
  wf (w_db w) -> planned (w_db w) -> CreateWithOperation t ls ds op number now w = (Ok r, w') ->
  wf (w_db w') /\ planned (w_db w').
Proof.
  intros Hw Hp (id & mid & Hc & _ & Hl)%create_Ok. split.
  - eapply logged_wf; [exact Hl|]. split; cbn.
    + by eapply created_tasks_wf.
    + by eapply created_claims_wf.
    + by eapply created_threads_wf.
    + by eapply created_items_wf.
  - eapply logged_planned; [exact Hl|]. exact (created_planned _ _ _ _ _ _ _ Hw Hp Hc).
Qed.

Lemma update_keeps number expected patch op now w r w' :
  wf (w_db w) -> planned (w_db w) -> updateWithExpectedVersion number expected patch op now w = (Ok r, w') ->
  wf (w_db w') /\ planned (w_db w').
Proof.
  intros Hw Hp (r0 & brief & completed & E & T1 & T2 & T3 & Hu & Hl & _)%update_Ok. split.
  - eapply logged_wf; [exact Hl|]. eapply wf_edited; [exact Hw|by eapply update_edits|done..].
  - eapply logged_planned; [exact Hl|]. exact (update_planned _ _ _ _ _ _ _ _ _ _ _ _ Hw Hp Hu).
Qed.

Lemma archive_keeps number expected archived op now w r w' :
  wf (w_db w) -> planned (w_db w) -> setArchivedWithExpectedVersion number expected archived op now w = (Ok r, w') ->
  wf (w_db w') /\ planned (w_db w').
Proof.
  intros Hw Hp (r0 & Hn & _ & _ & _ & Er & Hl)%archive_Ok.
  apply (task_by_number_Some _ _ _ (wf_tasks _ Hw)) in Hn as [Hk _].
  split.
  - eapply logged_wf; [exact Hl|]. eapply wf_edited; [exact Hw| |done..].
    intros k. cbn. eapply option_Forall2_insert; [exact Hk|subst r; apply same_work_edited|]. intros x. reflexivity.
  - eapply logged_planned; [exact Hl|]. eapply planned_rows; [exact Hp| | |]; cbn.
    + intros k. eapply option_Forall2_insert; [exact Hk|by subst r|]. intros x. by split.
    + intros k x b z Hx Hph Hd Hz. apply lookup_put in Hx as [[-> ->]|[_ Hx]]; apply lookup_put in Hz as [[-> ->]|[_ Hz]].
      * exfalso. apply (pw_acyclic _ _ _ Hp (t_id r0)). by apply tc_once.
      * subst r. exact (pw_ready _ _ _ Hp _ _ _ _ Hk Hph Hd Hz).
      * subst r. exact (pw_ready _ _ _ Hp _ _ _ _ Hx Hph Hd Hk).
      * exact (pw_ready _ _ _ Hp _ _ _ _ Hx Hph Hd Hz).
    + intros i h Hi. apply lookup_insert_is_Some'. right. by eapply (pw_threads _ _ _ Hp).
Qed.
End store.
