(* ===== verification/StoreCommands.v ===== *)
(** * Sequences of store commands

    The commands of the workflow and thread stores as data, the world after running a sequence of
    them in any order, what a failed command leaves behind, and the relation of every run to the
    workflow diagram. *)

From stdpp Require Import base tactics strings gmap list numbers sorting.
From S2P Require Import Prelude Actors Lifecycle StageClaim Delivery Thread Acceptance.
From S2P Require Import Database Tx ThreadStore ClaimStore WorkflowStore WorkflowCommands.
From S2P Require Import WorkflowEffects WorkflowInvariant WorkflowOutcomes WorkflowSafety.

Section commands.
Context `{UUIDSource}.

(** ** Failed commands *)

(** A method that does not write. *)
Definition reads {A} (m : M A) : Prop := forall w, w_db (m w).2 = w_db w.
(** A method that leaves the tables alone when it fails. *)
Definition atomic {A} (m : M A) : Prop := forall w e w', m w = (Err e, w') -> w_db w' = w_db w.

Lemma reads_lift {A} (r : result A) : reads (lift r).
Proof. done. Qed.
Lemma reads_ret {A} (a : A) : reads (mret a : M A).
Proof. done. Qed.
Lemma reads_uuid : reads uuid_New.
Proof. done. Qed.
Lemma reads_query {A} (q : DB -> A) : reads (query q).
Proof. done. Qed.
Lemma reads_bind {A B} (m : M A) (f : A -> M B) : reads m -> (forall a, reads (f a)) -> reads (m ≫= f).
Proof.
  intros Hm Hf w. specialize (Hm w). unfold mbind, M_bind. destruct (m w) as [[a|e] w1]; [|done].
  cbn in Hm. by rewrite Hf.
Qed.
Lemma reads_atomic {A} (m : M A) : reads m -> atomic m.
Proof. intros Hm w e w' E. specialize (Hm w). by rewrite E in Hm. Qed.
Lemma atomic_bind {A B} (m : M A) (f : A -> M B) : reads m -> (forall a, atomic (f a)) -> atomic (m ≫= f).
Proof.
  intros Hm Hf w e w'. specialize (Hm w). unfold mbind, M_bind.
  destruct (m w) as [[a|e'] w1]; cbn in Hm; [|naive_solver]. intros E. rewrite <- Hm. by eapply Hf.
Qed.
(** Discarding the result of an atomic method. *)
Lemma atomic_then {A} (m : M A) : atomic m -> atomic (_ ← m; mret tt).
Proof.
  intros Hm w e w'. unfold mbind, M_bind. destruct (m w) as [[a|e'] w1] eqn:E; intros Er; [done|].
  simplify_eq. by eapply Hm.
Qed.
Lemma atomic_transaction {A} (m : M A) : atomic (transaction m).
Proof. intros w e w'. apply transaction_rollback. Qed.
Lemma atomic_transaction_if {A} c (m : M A) : atomic (transaction_if c m).
Proof. intros w e w'. unfold transaction_if. destruct (m w) as [[]]; naive_solver. Qed.

Create HintDb atomicity.
#[local] Hint Resolve reads_lift reads_ret reads_uuid reads_query reads_bind atomic_transaction
  atomic_transaction_if : atomicity.
#[local] Hint Resolve reads_atomic atomic_bind | 2 : atomicity.
Ltac atomic_tac :=
  repeat first [apply atomic_transaction | apply atomic_transaction_if
    | apply atomic_bind; [by eauto with atomicity|intros ?] | by eauto with atomicity].

(** ** The commands as data *)

(** The commands that [task_claim_commands.go] addresses by a Claim alone. *)
Inductive ClaimCommand :=
| KReleaseClaimByID (handoff : string)
| KRecordWorkSubmissionByID (summary : string)
| KCompleteExecutionByID (summary : string) (changes : list CodeChangeSnapshot)
| KRequestChangesByID (reason : string)
| KRequestResolutionByID (ity : IssueThreadType) (request : string)
| KRecordAcceptanceCheckByID (check : AcceptanceCheck)
| KAcceptTaskByID (summary : string).

Inductive StoreCommand :=
| SMarkReady (n v : Z) (op : OperationActor) (now : Time)
| SWithdrawReadiness (n v : Z) (reason : string) (op : OperationActor) (now : Time)
| SClaim (n v : Z) (actor : Actor) (op : OperationActor) (clientKind clientSession : string) (now : Time)
| SExpireDueClaim (n : Z) (op : OperationActor) (now : Time)
| SReleaseClaim (n : Z) (cid : UUID) (tv cv : Z) (handoff : string) (actor : Actor)
    (op : OperationActor) (now : Time)
| SRecordWorkSubmission (n : Z) (cid : UUID) (tv cv : Z) (summary : string) (actor : Actor)
    (op : OperationActor) (now : Time)
| SCompleteExecution (n : Z) (cid : UUID) (tv cv : Z) (summary : string)
    (changes : list CodeChangeSnapshot) (actor : Actor) (op : OperationActor) (now : Time)
| SRequestChanges (n : Z) (cid : UUID) (tv cv : Z) (reason : string) (actor : Actor)
    (op : OperationActor) (now : Time)
| SRequestResolution (n : Z) (cid : UUID) (tv cv : Z) (ity : IssueThreadType) (request : string)
    (actor : Actor) (op : OperationActor) (now : Time)
| SResolveIssue (n tv : Z) (i : UUID) (hv : Z) (resolution : string) (actor : Actor)
    (op : OperationActor) (now : Time)
| SRecordAcceptanceCheck (n : Z) (cid : UUID) (tv cv : Z) (check : AcceptanceCheck) (actor : Actor)
    (op : OperationActor) (now : Time)
| SAcceptTask (n : Z) (cid : UUID) (tv cv : Z) (summary : string) (actor : Actor)
    (op : OperationActor) (now : Time)
| SCancelTask (n tv : Z) (reason : string) (actor : Actor) (op : OperationActor) (now : Time)
| SRecordClaimProgress (cid : UUID) (body : string) (actor : Actor) (op : OperationActor) (now : Time)
| SAddItem (th : UUID) (kind : ThreadItemKind) (body : string) (reply : option UUID)
    (mentioned : list UUID) (author : Actor) (op : OperationActor) (now : Time)
| SEditMessage (i : UUID) (v : Z) (body : string) (mentioned : list UUID) (author : Actor)
    (op : OperationActor) (now : Time)
| SDeleteMessage (i : UUID) (v : Z) (author : Actor) (op : OperationActor) (now : Time)
| SByClaim (k : ClaimCommand) (cid : UUID) (tv : Z) (actor : Actor) (op : OperationActor) (now : Time).

Definition run_by_claim (k : ClaimCommand) (cid : UUID) (tv : Z) (actor : Actor) (op : OperationActor)
  (now : Time) : M unit :=
  match k with
  | KReleaseClaimByID handoff => _ ← ReleaseClaimByID cid tv handoff actor op now; mret tt
  | KRecordWorkSubmissionByID summary => _ ← RecordWorkSubmissionByID cid tv summary actor op now; mret tt
  | KCompleteExecutionByID summary changes =>
      _ ← CompleteExecutionByID cid tv summary changes actor op now; mret tt
  | KRequestChangesByID reason => _ ← RequestChangesByID cid tv reason actor op now; mret tt
  | KRequestResolutionByID ity request =>
      _ ← RequestResolutionByID cid tv ity request actor op now; mret tt
  | KRecordAcceptanceCheckByID check => _ ← RecordAcceptanceCheckByID cid tv check actor op now; mret tt
  | KAcceptTaskByID summary => _ ← AcceptTaskByID cid tv summary actor op now; mret tt
  end.

Definition run_store (c : StoreCommand) : M unit :=
  match c with
  | SMarkReady n v op now => _ ← MarkReady n v op now; mret tt
  | SWithdrawReadiness n v reason op now => _ ← WithdrawReadiness n v reason op now; mret tt
  | SClaim n v actor op ck cs now => _ ← Claim n v actor op ck cs now; mret tt
  | SExpireDueClaim n op now => _ ← ExpireDueClaim n op now; mret tt
  | SReleaseClaim n cid tv cv handoff actor op now =>
      _ ← ReleaseClaim n cid tv cv handoff actor op now; mret tt
  | SRecordWorkSubmission n cid tv cv summary actor op now =>
      _ ← RecordWorkSubmission n cid tv cv summary actor op now; mret tt
  | SCompleteExecution n cid tv cv summary changes actor op now =>
      _ ← CompleteExecutionWithDelivery n cid tv cv summary changes actor op now; mret tt
  | SRequestChanges n cid tv cv reason actor op now =>
      _ ← RequestChanges n cid tv cv reason actor op now; mret tt
  | SRequestResolution n cid tv cv ity request actor op now =>
      _ ← RequestResolution n cid tv cv ity request actor op now; mret tt
  | SResolveIssue n tv i hv resolution actor op now =>
      _ ← ResolveIssue n tv i hv resolution actor op now; mret tt
  | SRecordAcceptanceCheck n cid tv cv check actor op now =>
      _ ← RecordAcceptanceCheck n cid tv cv check actor op now; mret tt
  | SAcceptTask n cid tv cv summary actor op now =>
      _ ← AcceptTask n cid tv cv summary actor op now; mret tt
  | SCancelTask n tv reason actor op now => _ ← CancelTask n tv reason actor op now; mret tt
  | SRecordClaimProgress cid body actor op now =>
      _ ← RecordClaimProgress cid body actor op now; mret tt
  | SAddItem th kind body reply mentioned author op now =>
      _ ← AddItem th kind body reply mentioned author op now; mret tt
  | SEditMessage i v body mentioned author op now =>
      _ ← EditMessage i v body mentioned author op now; mret tt
  | SDeleteMessage i v author op now => _ ← DeleteMessage i v author op now; mret tt
  | SByClaim k cid tv actor op now => run_by_claim k cid tv actor op now
  end.

(** The world after a command, successful or not, and after a sequence of them. *)
Definition after (c : StoreCommand) (w : World) : World := (run_store c w).2.
Fixpoint after_all (cs : list StoreCommand) (w : World) : World :=
  match cs with
  | [] => w
  | c :: cs' => after_all cs' (after c w)
  end.

(** The caller and the time of a command. *)
Definition operation_of (c : StoreCommand) : OperationActor :=
  match c with
  | SMarkReady _ _ op _ | SWithdrawReadiness _ _ _ op _ | SClaim _ _ _ op _ _ _ | SExpireDueClaim _ op _
  | SReleaseClaim _ _ _ _ _ _ op _ | SRecordWorkSubmission _ _ _ _ _ _ op _
  | SCompleteExecution _ _ _ _ _ _ _ op _ | SRequestChanges _ _ _ _ _ _ op _
  | SRequestResolution _ _ _ _ _ _ _ op _ | SResolveIssue _ _ _ _ _ _ op _
  | SRecordAcceptanceCheck _ _ _ _ _ _ op _ | SAcceptTask _ _ _ _ _ _ op _ | SCancelTask _ _ _ _ op _
  | SRecordClaimProgress _ _ _ op _ | SAddItem _ _ _ _ _ _ op _ | SEditMessage _ _ _ _ _ op _
  | SDeleteMessage _ _ _ op _ | SByClaim _ _ _ _ op _ => op
  end.
Definition time_of (c : StoreCommand) : Time :=
  match c with
  | SMarkReady _ _ _ now | SWithdrawReadiness _ _ _ _ now | SClaim _ _ _ _ _ _ now | SExpireDueClaim _ _ now
  | SReleaseClaim _ _ _ _ _ _ _ now | SRecordWorkSubmission _ _ _ _ _ _ _ now
  | SCompleteExecution _ _ _ _ _ _ _ _ now | SRequestChanges _ _ _ _ _ _ _ now
  | SRequestResolution _ _ _ _ _ _ _ _ now | SResolveIssue _ _ _ _ _ _ _ now
  | SRecordAcceptanceCheck _ _ _ _ _ _ _ now | SAcceptTask _ _ _ _ _ _ _ now | SCancelTask _ _ _ _ _ now
  | SRecordClaimProgress _ _ _ _ now | SAddItem _ _ _ _ _ _ _ now | SEditMessage _ _ _ _ _ _ now
  | SDeleteMessage _ _ _ _ now | SByClaim _ _ _ _ _ now => now
  end.

(** The Claim that a command is addressed by; the Task follows from it. *)
Definition addressed_claim (c : StoreCommand) : option UUID :=
  match c with
  | SRecordClaimProgress cid _ _ _ _ | SByClaim _ cid _ _ _ _ => Some cid
  | _ => None
  end.

Definition is_by_claim (c : StoreCommand) : bool :=
  match c with SByClaim _ _ _ _ _ _ => true | _ => false end.

(** The command that a Claim-addressed one becomes when its Claim has been found. *)
Definition direct_command (k : ClaimCommand) (n : Z) (cid : UUID) (tv cv : Z) (actor : Actor)
  (op : OperationActor) (now : Time) : StoreCommand :=
  match k with
  | KReleaseClaimByID handoff => SReleaseClaim n cid tv cv handoff actor op now
  | KRecordWorkSubmissionByID summary => SRecordWorkSubmission n cid tv cv summary actor op now
  | KCompleteExecutionByID summary changes => SCompleteExecution n cid tv cv summary changes actor op now
  | KRequestChangesByID reason => SRequestChanges n cid tv cv reason actor op now
  | KRequestResolutionByID ity request => SRequestResolution n cid tv cv ity request actor op now
  | KRecordAcceptanceCheckByID check => SRecordAcceptanceCheck n cid tv cv check actor op now
  | KAcceptTaskByID summary => SAcceptTask n cid tv cv summary actor op now
  end.

Lemma bind_assoc_run {A B C} (m : M A) (f : A -> M B) (g : B -> M C) w :
  ((m ≫= f) ≫= g) w = (m ≫= (fun a => f a ≫= g)) w.
Proof. unfold mbind, M_bind. by destruct (m w) as [[a|e] w1]. Qed.

(** A Claim-addressed command resolves its target and then is the direct command. *)
Lemma run_by_claim_direct k cid tv actor op now w :
  run_store (SByClaim k cid tv actor op now) w =
  (claim ← claimCommandTarget cid op now;
   run_store (direct_command k (sc_TaskNumber claim) cid tv (sc_Version claim) actor op now)) w.
Proof. destruct k; cbn; apply bind_assoc_run. Qed.

Lemma direct_command_facts k n cid tv cv actor op now :
  let c := direct_command k n cid tv cv actor op now in
  is_by_claim c = false /\ addressed_claim c = None /\ operation_of c = op /\ time_of c = now.
Proof. by destruct k. Qed.

(** A run of a Claim-addressed command that succeeds is a run of the direct command, for the
    active Claim, on the same tables. *)
Lemma by_claim_Ok k cid tv actor op now w w' :
  run_store (SByClaim k cid tv actor op now) w = (Ok tt, w') ->
  exists c w1, task_stage_claims (w_db w) !! cid = Some c /\ c_status c = StageClaimStatusActive /\
    w_db w1 = w_db w /\
    run_store (direct_command k (c_task_number c) cid tv (c_version c) actor op now) w1 = (Ok tt, w').
Proof.
  rewrite run_by_claim_direct. intros (claim & w1 & Ht & Hr)%M_bind_Ok.
  apply claimCommandTarget_Ok in Ht as (E & c & Hc & -> & Hs). by exists c, w1.
Qed.

(** A command that fails changes nothing, unless it is addressed by a Claim. *)
Lemma failed_unchanged c w e w' :
  addressed_claim c = None -> run_store c w = (Err e, w') -> w_db w' = w_db w.
Proof.
  intros Hp. assert (atomic (run_store c)) as Ha; [|by eapply Ha].
  destruct c; try done; cbn; apply atomic_then;
    unfold MarkReady, WithdrawReadiness, simpleLifecycleCommand, Claim, ExpireDueClaim, ReleaseClaim,
      RequestChanges, finishClaim, RecordWorkSubmission, CompleteExecutionWithDelivery, RequestResolution,
      ResolveIssue, RecordAcceptanceCheck, AcceptTask, CancelTask, AddItem, EditMessage, DeleteMessage,
      mutateMessage, throw_if; atomic_tac.
Qed.

(** The expiry of a due Claim that a failed command leaves behind. *)
Definition due_expiry (cid : UUID) (op : OperationActor) (now : Time) (w w' : World) : Prop :=
  exists c w1, task_stage_claims (w_db w) !! cid = Some c /\ c_status c = StageClaimStatusActive /\
    c_expires_at c <= now /\ ExpireDueClaim (c_task_number c) op now w = (Ok true, w1) /\ w_db w' = w_db w1.

(** Resolving the target of a Claim-addressed command fails either with the tables unchanged, or
    after committing the expiry of a due Claim. *)
Lemma claimCommandTarget_Err cid op now w e w' :
  claimCommandTarget cid op now w = (Err e, w') ->
  w_db w' = w_db w \/ e = ErrConflict /\ due_expiry cid op now w w'.
Proof.
  unfold claimCommandTarget, get_claim, GetClaim. intros Hr.
  unfold mbind, M_bind, query, lift, throw_if, fail_if, mret, M_ret in Hr.
  destruct (task_stage_claims (w_db w) !! cid) as [c|] eqn:Hc; cbn in Hr; [|by left; simplify_eq].
  match type of Hr with context [(if ?b then _ else _) w] => destruct b eqn:Hd end.
  - destruct (ExpireDueClaim (c_task_number c) op now w) as [[b|e'] w1] eqn:He; cbn in Hr.
    + destruct b; cbn in Hr.
      * right. unfold Time_After in Hd. simplify_eq. go_bool. split; [done|]. unfold due_expiry. eauto 10.
      * left. assert (w_db w1 = w_db w) as E by (by apply ExpireDueClaim_Ok in He).
        destruct (task_stage_claims (w_db w1) !! cid); cbn in Hr; [|by simplify_eq].
        repeat case_match; by simplify_eq.
    + left. simplify_eq. assert (atomic (ExpireDueClaim (c_task_number c) op now)) as Ha.
      { unfold ExpireDueClaim. atomic_tac. }
      by eapply Ha.
  - left. repeat case_match; by simplify_eq.
Qed.

Lemma progress_failed cid body actor op now w e w' :
  RecordClaimProgress cid body actor op now w = (Err e, w') ->
  w_db w' = w_db w \/ e = ErrConflict /\ due_expiry cid op now w w'.
Proof.
  unfold RecordClaimProgress. unfold mbind, M_bind at 1. unfold throw_if, lift.
  destruct (fail_if _ _); [|intros; left; by simplify_eq].
  unfold M_bind at 1. destruct (validateThreadOperationActor _ _); [|intros; left; by simplify_eq].
  unfold M_bind at 1. destruct (claimCommandTarget cid op now w) as [[t|e'] w1] eqn:Ht.
  - apply claimCommandTarget_Ok in Ht as [E _]. intros Hr%transaction_rollback. left. congruence.
  - intros Hr. simplify_eq. by apply claimCommandTarget_Err in Ht.
Qed.

Lemma by_claim_failed k cid tv actor op now w e w' :
  run_store (SByClaim k cid tv actor op now) w = (Err e, w') ->
  w_db w' = w_db w \/ e = ErrConflict /\ due_expiry cid op now w w'.
Proof.
  rewrite run_by_claim_direct. unfold mbind, M_bind.
  destruct (claimCommandTarget cid op now w) as [[t|e'] w1] eqn:Ht; intros Hr.
  - left. apply claimCommandTarget_Ok in Ht as [E _]. rewrite <- E.
    by eapply failed_unchanged, Hr; apply direct_command_facts.
  - simplify_eq. by apply claimCommandTarget_Err in Ht.
Qed.

(** Every failure leaves the tables alone or commits the expiry of the Claim named. *)
Lemma failed_cases c w e w' :
  run_store c w = (Err e, w') ->
  w_db w' = w_db w \/
  exists cid, addressed_claim c = Some cid /\ e = ErrConflict /\
    due_expiry cid (operation_of c) (time_of c) w w'.
Proof.
  intros Hr. destruct (addressed_claim c) as [cid|] eqn:Ha; [|left; by eapply failed_unchanged].
  destruct c; try discriminate Ha; injection Ha as ->.
  - cbn in Hr. unfold mbind, M_bind in Hr.
    destruct (RecordClaimProgress _ _ _ _ _ w) as [[a|e'] w1] eqn:Er; [done|]. simplify_eq.
    apply progress_failed in Er as [?|[-> ?]]; [by left|right; eauto].
  - apply by_claim_failed in Hr as [?|[-> ?]]; [by left|right; eauto].
Qed.

(** ** Consistency along every sequence of commands *)

Lemma run_direct_wf c w w' :
  is_by_claim c = false -> wf (w_db w) -> run_store c w = (Ok tt, w') -> wf (w_db w').
Proof.
  intros Hd Hw Hr. destruct c; try discriminate Hd; cbn in Hr; apply M_bind_Ok in Hr as (a & w1 & Hr & [_ ->]%M_ret_Ok).
  - by eapply MarkReady_wf.
  - by eapply WithdrawReadiness_wf.
  - destruct a. by eapply Claim_wf.
  - by eapply ExpireDueClaim_wf.
  - destruct a. by eapply ReleaseClaim_wf.
  - destruct a as [[]]. by eapply RecordWorkSubmission_wf.
  - destruct a as [[]]. by eapply CompleteExecution_wf.
  - destruct a. by eapply RequestChanges_wf.
  - destruct a as [[]]. by eapply RequestResolution_wf.
  - destruct a. by eapply ResolveIssue_wf.
  - by eapply RecordAcceptanceCheck_wf.
  - destruct a. by eapply AcceptTask_wf.
  - by eapply CancelTask_wf.
  - destruct a as [[]]. by eapply RecordClaimProgress_wf.
  - by eapply AddItem_wf.
  - by eapply mutateMessage_wf.
  - by eapply mutateMessage_wf.
Qed.

Lemma run_store_wf c w w' : wf (w_db w) -> run_store c w = (Ok tt, w') -> wf (w_db w').
Proof.
  intros Hw Hr. destruct (is_by_claim c) eqn:Hd; [|by eapply run_direct_wf].
  destruct c; try discriminate Hd. apply by_claim_Ok in Hr as (c & w1 & _ & _ & E & Hr).
  eapply run_direct_wf, Hr; [apply direct_command_facts|by rewrite E].
Qed.

Lemma after_wf c w : wf (w_db w) -> wf (w_db (after c w)).
Proof.
  intros Hw. unfold after. destruct (run_store c w) as [[[]|e] w'] eqn:E; cbn; [by eapply run_store_wf|].
  apply failed_cases in E as [->|(cid & _ & _ & c' & w1 & _ & _ & _ & Hx & ->)]; [done|].
  by eapply ExpireDueClaim_wf.
Qed.

Lemma after_all_wf cs w : wf (w_db w) -> wf (w_db (after_all cs w)).
Proof. revert w. induction cs; intros w Hw; cbn; eauto using after_wf. Qed.

(** ** What an expiry does *)

(** The expiry of one Claim: it ends with the outcome of an elapsed deadline, its Task waits for
    the next claimant of the stage, and no other Claim or Task changes. *)
Definition expires_claim (cid : UUID) (claim : ClaimRow) (now : Time) (d d' : DB) : Prop :=
  exists claim' r' st,
    task_stage_claims d' = <[cid := claim']> (task_stage_claims d) /\
    c_status claim' = StageClaimStatusExpired /\ c_outcome claim' = Some TaskClaimOutcomeDeadlineElapsed /\
    c_completed_at claim' = Some now /\
    tasks d' = <[c_task_id claim := r']> (tasks d) /\ c_stage claim = stage_text st /\ row_in r' (Available st).

(** Expiring the Task of an active Claim expires that Claim. *)
Lemma ExpireDueClaim_effect w cid c op now w' :
  wf (w_db w) -> task_stage_claims (w_db w) !! cid = Some c -> c_status c = StageClaimStatusActive ->
  ExpireDueClaim (c_task_number c) op now w = (Ok true, w') -> expires_claim cid c now (w_db w) (w_db w').
Proof.
  intros Hw Hc Hs (r & h & l & c1 & l' & claim' & cr & item & d1 & task' & r0 & e & _ & Hld & Hex & -> & Hwr & _ & Ed)%ExpireDueClaim_Ok.
  pose proof (cw_key _ _ (wf_claims _ Hw) _ _ Hc) as Hid.
  destruct (cw_active _ _ (wf_claims _ Hw) _ _ Hc Hs) as (r1 & st & Hk & Hin & Est & En).
  pose proof (tw_key _ (wf_tasks _ Hw) _ _ Hk) as Ek.
  assert (task_by_number (w_db w) (c_task_number c) = Some r1) as Hn
    by (apply task_by_number_Some; [apply Hw|]; by rewrite Ek).
  assert (active_claim (w_db w) (t_id r1) = Some c) as Hac
    by (apply active_claim_wf; [apply Hw|]; by rewrite Hid, Ek).
  assert (r1 = r) as -> by (destruct Hld; congruence).
  destruct Hex as [_ Hac' _ Hrel _ _ (d0 & [Hcomp Hcw ->] & _ & ->)]. cbn in Hac'.
  assert (c1 = c) as -> by congruence.
  apply TaskStageClaim_Complete_Ok in Hcomp as (status & _ & [= <-] & _ & ->).
  destruct (run_command_sound _ _ _ Hrel) as (ws & ws' & Hrep & Hrep' & He & _).
  assert (ws = Working st) as ->.
  { destruct Hin as (l0 & Hl0 & Hr0). destruct Hld as (_ & _ & Hl & _). simplify_eq. by eapply represents_fun. }
  inversion He; subst. unfold expires_claim. rewrite Ed. cbn. do 3 eexists. rewrite Ek. split_and!; try done.
  by apply row_in_set.
Qed.

End commands.
