(* ===== verification/Refinement.v ===== *)
(** * The store commands against the workflow diagram

    Every successful command moves at most one Task, along an edge of the diagram (or along two,
    when it first expires a due Claim), by exactly one version; every sequence of commands, in any
    order and with any failures, moves each Task along a path. *)

From stdpp Require Import base tactics strings gmap list numbers sorting.
From S2P Require Import Prelude Actors Lifecycle StageClaim Delivery Thread Acceptance.
From S2P Require Import Database Tx ThreadStore ClaimStore WorkflowStore WorkflowCommands.
From S2P Require Import WorkflowEffects WorkflowInvariant WorkflowOutcomes WorkflowSafety StoreCommands.

(** ** Commands against the diagram *)

Section refinement.
Context `{UUIDSource}.

(** One Task moved along [path]: only its row changed, by one version. *)
Record moves (d d' : DB) (path : list LifecycleCommand) (r : TaskRow) (l l' : TaskLifecycle)
  (task' : workflowTask) (now : Time) : Prop := {
  mv_row : tasks d !! t_id r = Some r;
  mv_lifecycle : row_lifecycle r = Some l;
  mv_tasks : tasks d' = <[t_id r := set_task_row r task' now]> (tasks d);
  mv_to : wt_Lifecycle task' = l';
  mv_run : run_commands path l = Ok l';
  mv_version : wt_Version task' = int64 (t_version r + 1);
}.

Lemma written_moves d d1 d' task v now r r0 l path :
  tasks d1 = tasks d -> wt_TaskID task = t_id r -> tasks d !! t_id r = Some r ->
  row_lifecycle r = Some l -> t_version r = v -> run_commands path l = Ok (wt_Lifecycle task) ->
  task_writable d1 task v r0 (set_task_row r0 (with_Version task (int64 (v + 1))) now) ->
  tasks d' = <[wt_TaskID task := set_task_row r0 (with_Version task (int64 (v + 1))) now]> (tasks d1) ->
  moves d d' path r l (wt_Lifecycle task) (with_Version task (int64 (v + 1))) now.
Proof.
  intros ET Ek Hr Hl Hv Hrun Hwr Hd. pose proof (tk_row _ _ _ _ _ Hwr) as Hr0.
  rewrite ET, Ek in Hr0. rewrite ET, Ek in Hd. simplify_eq. by split.
Qed.

Lemma recorded_moves d d1 d' task task' v now r r0 l item rid op action path :
  recorded d1 d' task task' v now r0 item rid op action ->
  tasks d1 = tasks d -> wt_TaskID task = t_id r -> tasks d !! t_id r = Some r ->
  row_lifecycle r = Some l -> t_version r = v -> run_commands path l = Ok (wt_Lifecycle task) ->
  moves d d' path r l (wt_Lifecycle task) task' now.
Proof.
  intros [-> Hwr _ _ (e & _ & _ & ->)] ET Ek Hr Hl Hv Hrun. by eapply written_moves.
Qed.

Lemma run_one c l l' : run_command c l = Ok l' -> run_commands [c] l = Ok l'.
Proof. intros Hc. cbn. by rewrite Hc. Qed.

Lemma run_two c1 c2 l l1 l' :
  run_command c1 l = Ok l1 -> run_command c2 l1 = Ok l' -> run_commands [c1; c2] l = Ok l'.
Proof. intros H1 H2. cbn. rewrite H1. cbn. by rewrite H2. Qed.

(** The Task number and the version that a command was given; a command that is addressed by a
    Claim gets the number from the row of the Claim. *)
Definition expected_version (d : DB) (c : StoreCommand) : option (Z * Z) :=
  match c with
  | SMarkReady n v _ _ | SWithdrawReadiness n v _ _ _ | SClaim n v _ _ _ _ _
  | SReleaseClaim n _ v _ _ _ _ _ | SRecordWorkSubmission n _ v _ _ _ _ _
  | SCompleteExecution n _ v _ _ _ _ _ _ | SRequestChanges n _ v _ _ _ _ _
  | SRequestResolution n _ v _ _ _ _ _ _ | SResolveIssue n v _ _ _ _ _ _
  | SRecordAcceptanceCheck n _ v _ _ _ _ _ | SAcceptTask n _ v _ _ _ _ _
  | SCancelTask n v _ _ _ _ => Some (n, v)
  | SByClaim _ cid v _ _ _ => (fun c => (c_task_number c, v)) <$> task_stage_claims d !! cid
  | _ => None
  end.

(** The commands that always move their Task when they succeed. *)
Definition is_lifecycle (c : StoreCommand) : bool :=
  match c with
  | SRecordWorkSubmission _ _ _ _ _ _ _ _ | SRecordAcceptanceCheck _ _ _ _ _ _ _ _
  | SExpireDueClaim _ _ _ | SRecordClaimProgress _ _ _ _ _ | SAddItem _ _ _ _ _ _ _ _
  | SEditMessage _ _ _ _ _ _ _ | SDeleteMessage _ _ _ _ _
  | SByClaim (KRecordWorkSubmissionByID _ | KRecordAcceptanceCheckByID _) _ _ _ _ _ => false
  | _ => true
  end.

(** The guards on the path see what the tables show: the readiness of an acceptance, and whether a
    Task that gets ready waits for others. *)
Definition path_evidence (d : DB) (r : TaskRow) (l : TaskLifecycle) (path : list LifecycleCommand) : Prop :=
  (forall rd, CAccept rd ∈ path -> rd = taskCompletionReadinessForCycle d (t_id r) (ReviewCycle l)) /\
  (forall a b, CMarkReady a b ∈ path -> b = existsb unfinished (prerequisites d (t_id r))).

(** A command moves one Task along the diagram, or no Task at all. *)
Definition moves_one (c : StoreCommand) (d d' : DB) : Prop :=
  exists path r l l' task' now, moves d d' path r l l' task' now /\
    (forall nv, expected_version d c = Some nv -> nv = (t_number r, t_version r)) /\
    path_evidence d r l path /\
    ((exists lc, path = [lc]) \/ (exists st a, path = [CRelease st; CClaim a])).

Ltac guarded := split; intros *; rewrite ?elem_of_cons, ?elem_of_nil; naive_solver.

Lemma ended_tasks d c o now claim' cr d' : ended d c o now claim' cr d' -> tasks d' = tasks d.
Proof. by intros [_ _ ->]. Qed.

(** A run that owned the active Claim, ended it and wrote the Task row. *)
Lemma finish_moves d d1 d' n cid tv cv actor op r h l c o now claim' cr l' task' r0 item rid action lc :
  wf d -> owns d n cid tv cv actor op r h l c -> ended d c o now claim' cr d1 ->
  run_command lc l = Ok l' ->
  recorded d1 d' (with_Lifecycle (load r (h_id h) l) l') task' tv now r0 item rid op action ->
  moves d d' [lc] r l l' task' now /\ (n, tv) = (t_number r, t_version r).
Proof.
  intros Hw Ho He Hc Hrec.
  destruct (loaded_row _ _ _ _ _ (wf_tasks _ Hw) (ow_loaded _ _ _ _ _ _ _ _ _ _ _ Ho)) as (Ht & Hn & Hl).
  pose proof (ow_version _ _ _ _ _ _ _ _ _ _ _ Ho) as Hv.
  split; [|by rewrite Hn, Hv].
  eapply (recorded_moves _ _ _ _ _ _ _ _ _ _ _ _ _ _ _ Hrec); eauto using run_one, ended_tasks.
Qed.

Lemma owns_version d n cid tv cv actor op r h l c :
  owns d n cid tv cv actor op r h l c -> exists r, task_by_number d n = Some r /\ t_version r = tv.
Proof. intros [(Hn & _) Hv _ _ _ _]. eauto. Qed.

Lemma Claim_moves n v actor op ck cs now w s claim w' :
  wf (w_db w) -> Claim n v actor op ck cs now w = (Ok (s, claim), w') ->
  moves_one (SClaim n v actor op ck cs now) (w_db w) (w_db w').
Proof.
  intros Hw (r & h & l & task1 & w1 & stage & l' & id & task' & r0 & item & _ & Hld & Hv & Hex & Hcl & _ & _ &
    _ & _ & Hrec)%Claim_Ok.
  destruct (loaded_row _ _ _ _ _ (wf_tasks _ Hw) Hld) as (Ht & Hn & Hl).
  destruct (TaskLifecycle_Claim_run _ _ _ _ Hcl) as (Hrun & _).
  apply expireDueWorkflowClaim_Ok in Hex as [(-> & -> & _)|(c & l1 & claim' & cr & it & Hex & ->)].
  - do 6 eexists. split; [by eapply (recorded_moves _ _ _ _ _ _ _ _ _ _ _ _ _ _ _ Hrec); eauto using run_one|].
    split_and!; [naive_solver|guarded|eauto].
  - destruct (expired_step _ _ _ _ _ _ _ _ _ _ _ _ _ Hw Hld Hex) as (_ & ET & _).
    pose proof (ex_release _ _ _ _ _ _ _ _ _ _ Hex) as Hrel.
    do 6 eexists. split; [by eapply (recorded_moves _ _ _ _ _ _ _ _ _ _ _ _ _ _ _ Hrec); eauto using run_two|].
    split_and!; [naive_solver|guarded|eauto].
Qed.

Lemma ExpireDueClaim_moves n op now w b w' :
  wf (w_db w) -> ExpireDueClaim n op now w = (Ok b, w') ->
  tasks (w_db w') = tasks (w_db w) \/ moves_one (SExpireDueClaim n op now) (w_db w) (w_db w').
Proof.
  intros Hw Hr%ExpireDueClaim_Ok. destruct b; [|left; congruence]. right.
  destruct Hr as (r & h & l & c & l' & claim' & cr & item & d1 & task' & r0 & e & _ & Hld & Hex & -> & Hwr & _ & E).
  destruct (loaded_row _ _ _ _ _ (wf_tasks _ Hw) Hld) as (Ht & _ & Hl).
  destruct (expired_step _ _ _ _ _ _ _ _ _ _ _ _ _ Hw Hld Hex) as (_ & ET & _).
  pose proof (ex_release _ _ _ _ _ _ _ _ _ _ Hex) as Hrel.
  do 6 eexists. split.
  { apply (written_moves (w_db w) d1 (w_db w') (with_Lifecycle (load r (h_id h) l) l') (t_version r) now r r0 l
             [CRelease (c_stage c)]); eauto using run_one. by rewrite E. }
  split_and!; [done|guarded|eauto].
Qed.

Lemma RequestResolution_moves n cid tv cv ity request actor op now w s c' issue w' :
  wf (w_db w) -> RequestResolution n cid tv cv ity request actor op now w = (Ok (s, c', issue), w') ->
  moves_one (SRequestResolution n cid tv cv ity request actor op now) (w_db w) (w_db w').
Proof.
  intros Hw Hr%RequestResolution_Ok.
  destruct Hr as (r & h & l & c & l' & req & cr & d1 & d2 & d3 & task' & r0 & item & _ & _ & _ & Ho & _ & Hc &
    _ & -> & _ & _ & _ & -> & He & _ & _ & Hrec).
  destruct (loaded_row _ _ _ _ _ (wf_tasks _ Hw) (ow_loaded _ _ _ _ _ _ _ _ _ _ _ Ho)) as (Ht & Hn & Hl).
  pose proof (ow_version _ _ _ _ _ _ _ _ _ _ _ Ho) as Hv. pose proof (ended_tasks _ _ _ _ _ _ _ He) as ET.
  do 6 eexists. split; [by eapply (recorded_moves _ _ _ _ _ _ _ _ _ _ _ _ _ _ _ Hrec); eauto using run_one|].
  split_and!; [naive_solver|guarded|eauto].
Qed.

Lemma ResolveIssue_moves n tv i hv resolution actor op now w s issue' w' :
  wf (w_db w) -> ResolveIssue n tv i hv resolution actor op now w = (Ok (s, issue'), w') ->
  moves_one (SResolveIssue n tv i hv resolution actor op now) (w_db w) (w_db w').
Proof.
  intros Hw Hr%ResolveIssue_Ok.
  destruct Hr as (r & h & l & hr0 & req & l' & hr & d1 & task' & r0 & e & _ & _ & Hld & Hv & _ & His & _ & _ & Hia &
    Hc & -> & _ & Hwr & _ & E).
  destruct (loaded_row _ _ _ _ _ (wf_tasks _ Hw) Hld) as (Ht & Hn & Hl).
  destruct (answered_step _ _ _ _ _ _ _ _ _ _ _ _ _ _ _ _ _ _ _ Hw Hld His Hia) as (_ & _ & _ & ET & _).
  do 6 eexists. split.
  { apply (written_moves (w_db w) d1 (w_db w')
             (with_ActiveIssueThreadID (with_Lifecycle (load r (h_id h) l) l') None) tv now r r0 l
             [CResolveIssue]); eauto using run_one. by rewrite E. }
  split_and!; [naive_solver|guarded|eauto].
Qed.

Lemma CancelTask_moves n tv reason actor op now w res w' :
  wf (w_db w) -> CancelTask n tv reason actor op now w = (Ok res, w') ->
  moves_one (SCancelTask n tv reason actor op now) (w_db w) (w_db w').
Proof.
  intros Hw (r & h & l & d1 & l' & task' & r0 & item & _ & _ & Hld & Hv & Hpro & Hc & _ & _ & Hrec)%CancelTask_Ok.
  destruct (loaded_row _ _ _ _ _ (wf_tasks _ Hw) Hld) as (Ht & Hn & Hl).
  assert (tasks d1 = tasks (w_db w)) as ET.
  { destruct Hpro as [_ _ ->|c claim' cr _ _ He|i hr0 req task issue' hr _ _ His _ Hia]; [done| |].
    - by eapply ended_tasks.
    - by destruct (answered_step _ _ _ _ _ _ _ _ _ _ _ _ _ _ _ _ _ _ _ Hw Hld His Hia) as (_ & _ & _ & ? & _). }
  do 6 eexists. split; [by eapply (recorded_moves _ _ _ _ _ _ _ _ _ _ _ _ _ _ _ Hrec); eauto using run_one|].
  split_and!; [naive_solver|guarded|eauto].
Qed.

Lemma AcceptTask_moves n cid tv cv summary actor op now w s c' w' :
  wf (w_db w) -> AcceptTask n cid tv cv summary actor op now w = (Ok (s, c'), w') ->
  moves_one (SAcceptTask n cid tv cv summary actor op now) (w_db w) (w_db w').
Proof.
  intros Hw (r & h & l & c & l' & cr & d1 & task' & r0 & item & _ & _ & Ho & Hc & He & _ & _ & Hrec)%AcceptTask_Ok.
  destruct (finish_moves _ _ _ _ _ _ _ _ _ _ _ _ _ _ _ _ _ _ _ _ _ _ _ _ Hw Ho He Hc Hrec) as [Hm E].
  do 6 eexists. split; [exact Hm|]. split_and!; [naive_solver|guarded|eauto].
Qed.

Lemma run_direct_moves c w w' :
  is_by_claim c = false -> wf (w_db w) -> run_store c w = (Ok tt, w') ->
  (tasks (w_db w') = tasks (w_db w) /\ is_lifecycle c = false /\
   forall n v, expected_version (w_db w) c = Some (n, v) -> exists r, task_by_number (w_db w) n = Some r /\ t_version r = v)
  \/ moves_one c (w_db w) (w_db w').
Proof.
  intros Hd Hw Hr. destruct c; try discriminate Hd; cbn in Hr;
    apply M_bind_Ok in Hr as (a & w1 & Hr & [_ ->]%M_ret_Ok).
  - right. apply MarkReady_Ok in Hr as (r & h & l & l' & task' & r0 & item & _ & Hld & Hv & Hc & _ & _ & Hrec).
    destruct (loaded_row _ _ _ _ _ (wf_tasks _ Hw) Hld) as (Ht & Hn & Hl).
    do 6 eexists. split; [by eapply recorded_moves; eauto using run_one|]. split_and!; [naive_solver|guarded|eauto].
  - right. apply WithdrawReadiness_Ok in Hr as (r & h & l & l' & task' & r0 & item & _ & Hld & Hv & Hc & _ & _ & Hrec).
    destruct (loaded_row _ _ _ _ _ (wf_tasks _ Hw) Hld) as (Ht & Hn & Hl).
    do 6 eexists. split; [by eapply recorded_moves; eauto using run_one|]. split_and!; [naive_solver|guarded|eauto].
  - right. destruct a. by eapply Claim_moves.
  - destruct (ExpireDueClaim_moves _ _ _ _ _ _ Hw Hr) as [?|?]; [left|right]; done.
  - right. destruct a. apply ReleaseClaim_Ok in Hr
      as (r & h & l & c & l' & cr & d1 & task' & r0 & item & _ & _ & Ho & Hc & He & _ & _ & Hrec).
    destruct (finish_moves _ _ _ _ _ _ _ _ _ _ _ _ _ _ _ _ _ _ _ _ _ _ _ _ Hw Ho He Hc Hrec) as [Hm E].
    do 6 eexists. split; [exact Hm|]. split_and!; [naive_solver|guarded|eauto].
  - left. destruct a as [[]]. apply RecordWorkSubmission_Ok in Hr as (r & h & l & c & Hr). destruct_and! Hr.
    match goal with Hn : noted _ _ _ _ _ _ _ |- _ => destruct Hn as [_ _ (id & ->)] end.
    do 2 (split; [done|]). cbn. intros n' v' [= <- <-]. by eapply owns_version.
  - right. destruct a as [[]]. apply CompleteExecution_Ok in Hr
      as (r & h & l & c & l' & p & cr & d1 & task' & r0 & _ & _ & Ho & Hc & _ & He & _ & _ & Hrec).
    destruct (finish_moves _ _ _ _ _ _ _ _ _ _ _ _ _ _ _ _ _ _ _ _ _ _ _ _ Hw Ho He Hc Hrec) as [Hm E].
    do 6 eexists. split; [exact Hm|]. split_and!; [naive_solver|guarded|eauto].
  - right. destruct a. apply RequestChanges_Ok in Hr
      as (r & h & l & c & l' & cr & d1 & task' & r0 & item & _ & _ & Ho & Hc & He & _ & _ & Hrec).
    destruct (finish_moves _ _ _ _ _ _ _ _ _ _ _ _ _ _ _ _ _ _ _ _ _ _ _ _ Hw Ho He Hc Hrec) as [Hm E].
    do 6 eexists. split; [exact Hm|]. split_and!; [naive_solver|guarded|eauto].
  - right. destruct a as [[]]. by eapply RequestResolution_moves.
  - right. destruct a. by eapply ResolveIssue_moves.
  - left. apply RecordAcceptanceCheck_Ok in Hr as (r & h & l & c & cr & e & Hr). destruct_and! Hr.
    match goal with E : w_db w' = _ |- _ => rewrite E end.
    do 2 (split; [done|]). cbn. intros n' v' [= <- <-]. by eapply owns_version.
  - right. destruct a. by eapply AcceptTask_moves.
  - right. by eapply CancelTask_moves.
  - left. destruct a as [[]]. apply RecordClaimProgress_Ok in Hr as (tg & w0 & r & h & l & c & Hr). destruct_and! Hr.
    match goal with Hn : noted _ _ _ _ _ _ _ |- _ => destruct Hn as [_ _ (id & ->)] end. done.
  - left. apply AddItem_Ok in Hr as (h & m & e & _ & _ & _ & _ & _ & _ & _ & _ & _ & ->). done.
  - left. apply mutateMessage_Ok in Hr as (r & h & r1 & m & e & Hr). destruct_and! Hr.
    match goal with E : w_db w' = _ |- _ => rewrite E end. done.
  - left. apply mutateMessage_Ok in Hr as (r & h & r1 & m & e & Hr). destruct_and! Hr.
    match goal with E : w_db w' = _ |- _ => rewrite E end. done.
Qed.

(** A Claim-addressed command names the version that its direct form names. *)
Lemma direct_moves d d' k cid tv cv actor op now c :
  task_stage_claims d !! cid = Some c ->
  moves_one (direct_command k (c_task_number c) cid tv cv actor op now) d d' ->
  moves_one (SByClaim k cid tv actor op now) d d'.
Proof.
  intros Hc (path & r & l & l' & task' & t & Hm & Hx & Hp). exists path, r, l, l', task', t.
  split_and!; [done| |apply Hp..]. intros nv. cbn. rewrite Hc. intros [= <-]. apply Hx. by destruct k.
Qed.

Lemma run_store_moves c w w' :
  wf (w_db w) -> run_store c w = (Ok tt, w') ->
  (tasks (w_db w') = tasks (w_db w) /\ is_lifecycle c = false /\
   forall n v, expected_version (w_db w) c = Some (n, v) -> exists r, task_by_number (w_db w) n = Some r /\ t_version r = v)
  \/ moves_one c (w_db w) (w_db w').
Proof.
  intros Hw Hr. destruct (is_by_claim c) eqn:Hd; [|by apply run_direct_moves].
  destruct c as [| | | | | | | | | | | | | | | | |k cid tv actor op now]; try discriminate Hd.
  apply by_claim_Ok in Hr as (c & w1 & Hc & _ & E & Hr). rewrite <- E in Hw, Hc.
  apply run_direct_moves in Hr as [(Ht & Hl & Hv)|Hm]; [left|right|apply direct_command_facts|done].
  - rewrite E in *. split_and!; [done|by destruct k|].
    intros n v. cbn. rewrite Hc. intros [= <- <-]. apply Hv. by destruct k.
  - rewrite E in *. by eapply direct_moves.
Qed.

(** The same for the world after a command, successful or not. *)
Lemma after_moves c w :
  wf (w_db w) ->
  tasks (w_db (after c w)) = tasks (w_db w) \/ exists c', moves_one c' (w_db w) (w_db (after c w)).
Proof.
  intros Hw. unfold after. destruct (run_store c w) as [[[]|e] w'] eqn:E; cbn.
  { destruct (run_store_moves _ _ _ Hw E) as [[? _]|?]; eauto. }
  apply failed_cases in E as [->|(cid & _ & _ & c' & w1 & _ & _ & _ & Hx & ->)]; [by left|].
  apply ExpireDueClaim_moves in Hx as [?|?]; eauto.
Qed.

(** ** How the row of a Task evolves *)

Record evolves (n : nat) (r r' : TaskRow) : Prop := {
  ev_id : t_id r' = t_id r;
  ev_number : t_number r' = t_number r;
  ev_project : t_project_id r' = t_project_id r;
  ev_parent : t_parent_task_id r' = t_parent_task_id r;
  ev_archived : t_archived_at r' = t_archived_at r;
  ev_version : 0 <= t_version r -> t_version r + Z.of_nat n <= MaxInt64 ->
    t_version r <= t_version r' <= t_version r + Z.of_nat n;
  ev_lifecycle : forall l, row_lifecycle r = Some l ->
    exists l' path, row_lifecycle r' = Some l' /\ run_commands path l = Ok l';
}.

Lemma evolves_refl r : evolves 0 r r.
Proof. split; try done; [lia|]. intros l Hl. exists l, []. done. Qed.

Lemma run_commands_app cs cs' l l1 l' :
  run_commands cs l = Ok l1 -> run_commands cs' l1 = Ok l' -> run_commands (cs ++ cs') l = Ok l'.
Proof.
  revert l. induction cs as [|c cs IH]; intros l H1 H2; cbn in *; [by simplify_eq|].
  apply bind_Ok in H1 as (l2 & -> & H1). cbn. eauto.
Qed.

Lemma evolves_trans n m r r1 r2 : evolves n r r1 -> evolves m r1 r2 -> evolves (n + m) r r2.
Proof.
  intros [? ? ? ? ? Hv Hl] [? ? ? ? ? Hv' Hl']. split; try congruence.
  - rewrite Nat2Z.inj_add. intros. specialize (Hv ltac:(lia) ltac:(lia)). specialize (Hv' ltac:(lia) ltac:(lia)). lia.
  - intros l E. destruct (Hl l E) as (l1 & p & E1 & P). destruct (Hl' l1 E1) as (l2 & p' & E2 & P').
    exists l2, (p ++ p'). split; [done|]. by eapply run_commands_app.
Qed.

Lemma moves_evolves d d' path r l l' task' now k r0 :
  moves d d' path r l l' task' now -> tasks d !! k = Some r0 ->
  exists r', tasks d' !! k = Some r' /\ evolves 1 r0 r' /\
    (k = t_id r -> t_version r' = int64 (t_version r0 + 1)).
Proof.
  intros [Hr Hl HT Hto Hrun Hv] Hk. rewrite HT. destruct (decide (k = t_id r)) as [->|Hne].
  - simplify_eq. rewrite lookup_insert_eq. eexists. split; [done|]. split; [|by rewrite <- Hv].
    split; try done.
    + cbn. rewrite Hv. intros. rewrite int64_small by (unfold MaxInt64 in *; lia). lia.
    + intros l0 E. simplify_eq. exists (wt_Lifecycle task'), path. by rewrite row_lifecycle_set.
  - rewrite lookup_insert_ne by done. exists r0. split; [done|]. split; [|done].
    destruct (evolves_refl r0). split; try done. lia.
Qed.

Lemma after_evolves c w k r :
  wf (w_db w) -> tasks (w_db w) !! k = Some r ->
  exists r', tasks (w_db (after c w)) !! k = Some r' /\ evolves 1 r r'.
Proof.
  intros Hw Hk. destruct (after_moves c w Hw) as [->|(c' & path & r0 & l & l' & task' & now & Hm & _)].
  - exists r. split; [done|]. destruct (evolves_refl r). split; try done. lia.
  - destruct (moves_evolves _ _ _ _ _ _ _ _ _ _ Hm Hk) as (r' & ? & ? & _). eauto.
Qed.

Lemma after_all_evolves cs w k r :
  wf (w_db w) -> tasks (w_db w) !! k = Some r ->
  exists r', tasks (w_db (after_all cs w)) !! k = Some r' /\ evolves (length cs) r r'.
Proof.
  revert w r. induction cs as [|c cs IH]; intros w r Hw Hk; cbn; [eauto using evolves_refl|].
  destruct (after_evolves c w k r Hw Hk) as (r1 & Hk1 & H1).
  destruct (IH _ _ (after_wf c w Hw) Hk1) as (r2 & Hk2 & H2).
  exists r2. split; [done|]. by apply (evolves_trans 1 (length cs) r r1 r2).
Qed.

End refinement.
