(* ===== verification/History.v ===== *)
(** * History: Thread Items and the audit

    What the commands leave behind for good: Items of the workflow are never changed or removed,
    and every successful command appends its audit event. *)

From stdpp Require Import base tactics strings gmap list numbers sorting.
From S2P Require Import Prelude Actors Lifecycle StageClaim Delivery Thread Acceptance.
From S2P Require Import Database Tx ThreadStore ClaimStore WorkflowStore WorkflowCommands.
From S2P Require Import WorkflowEffects WorkflowInvariant WorkflowOutcomes WorkflowSafety StoreCommands Refinement.

Section history.
Context `{UUIDSource}.

(** ** Items *)

(** What stays of an Item: an immutable one is untouched; a message keeps its identity, its Thread,
    its author and its creation. *)
Definition item_kept (r r' : ItemRow) : Prop :=
  (i_kind r <> ThreadItemKindMessage -> r' = r) /\
  i_id r' = i_id r /\ i_thread_id r' = i_thread_id r /\ i_kind r' = i_kind r /\
  i_author_type r' = i_author_type r /\ i_author_user_id r' = i_author_user_id r /\
  i_author_ref r' = i_author_ref r /\ i_reply_to_item_id r' = i_reply_to_item_id r /\
  i_created_at r' = i_created_at r.

Definition items_grow (I I' : gmap UUID ItemRow) : Prop :=
  forall j r, I !! j = Some r -> exists r', I' !! j = Some r' /\ item_kept r r'.

Lemma item_kept_refl r : item_kept r r.
Proof. done. Qed.
Lemma item_kept_trans r1 r2 r3 : item_kept r1 r2 -> item_kept r2 r3 -> item_kept r1 r3.
Proof.
  intros (A1 & ? & ? & ? & ? & ? & ? & ? & ?) (A2 & ? & ? & ? & ? & ? & ? & ? & ?).
  split_and!; try congruence. intros Hk. specialize (A1 Hk) as ->. auto.
Qed.

#[global] Instance items_grow_preorder : PreOrder items_grow.
Proof.
  split.
  - intros I j r Hj. eauto using item_kept_refl.
  - intros I1 I2 I3 H12 H23 j r Hj. destruct (H12 j r Hj) as (r2 & Hj2 & ?).
    destruct (H23 j r2 Hj2) as (r3 & Hj3 & ?). eauto using item_kept_trans.
Qed.

Lemma items_grow_add I r : I !! i_id r = None -> items_grow I (<[i_id r := r]> I).
Proof.
  intros Hf j q Hj. exists q. split; [|done]. rewrite lookup_insert_ne; [done|]. intros <-. congruence.
Qed.

(** ** What every change of the tables leaves in the history *)

(** [es] are the audit events added, all by [op] at [now]. *)
Record history (op : OperationActor) (now : Time) (es : list BusinessAuditEvent) (d d' : DB) : Prop := {
  hy_items : items_grow (task_thread_items d) (task_thread_items d');
  hy_audit : business_audit_events d' = business_audit_events d ++ es;
  hy_by : Forall (fun e => be_Actor e = op /\ be_OccurredAt e = now) es;
}.

Lemma history_trans op now es es' d d1 d2 :
  history op now es d d1 -> history op now es' d1 d2 -> history op now (es ++ es') d d2.
Proof.
  intros [I1 A1 B1] [I2 A2 B2]. split; [by etrans|by rewrite A2, A1, app_assoc|by apply Forall_app].
Qed.

(** Tables other than the Items and the audit. *)
Lemma history_none op now d d' :
  task_thread_items d' = task_thread_items d -> business_audit_events d' = business_audit_events d ->
  history op now [] d d'.
Proof. intros E1 E2. split; [by rewrite E1|by rewrite app_nil_r|done]. Qed.

Lemma history_item op now d r : task_thread_items d !! i_id r = None -> history op now [] d (add_item r d).
Proof. intros Hf. split; [by apply items_grow_add|by rewrite app_nil_r|done]. Qed.

Lemma recorded_history d d' task task' v now r item rid op action :
  recorded d d' task task' v now r item rid op action -> exists e, history op now [e] d d'.
Proof.
  intros [_ _ _ Hi (e & _ & (id & ->) & ->)]. eexists.
  split; [apply items_grow_add; apply Hi|done|by repeat constructor].
Qed.

Lemma ended_history op d c o now claim' cr d' : ended d c o now claim' cr d' -> history op now [] d d'.
Proof. intros [_ _ ->]. by apply history_none. Qed.

Lemma answered_history op d task issue req v res actor rid now i1 i2 issue' hr d' :
  issue_answered d task issue req v res actor rid now i1 i2 issue' hr d' -> history op now [] d d'.
Proof.
  intros [_ _ Ha _ (record & _ & _ & Hr & ->)].
  apply (history_trans _ _ [] [] _ (add_item (item_row (workflow_item i1 (th_ID issue) ThreadItemKindResolution
    actor res None now) rid) d)); [apply history_item, Ha|].
  apply (history_trans _ _ [] [] _ (put_thread (th_ID issue') (set_resolved_row hr issue' actor)
    (add_item (item_row (workflow_item i1 (th_ID issue) ThreadItemKindResolution actor res None now) rid) d)));
    [by apply history_none|apply history_item, Hr].
Qed.

Lemma expired_history op d task now c l' claim' cr item rid d' :
  expired d task now c l' claim' cr item rid d' -> history op now [] d d'.
Proof.
  intros [_ _ _ _ _ _ (d1 & He & Hi & ->)].
  apply (history_trans _ _ [] [] _ d1); [by eapply ended_history|apply history_item, Hi].
Qed.

Lemma noted_history d d' task item op action now :
  noted d d' task item op action now -> exists e, history op now [e] d d'.
Proof.
  intros [_ Hi (id & ->)]. eexists. split; [apply items_grow_add, Hi|done|by repeat constructor].
Qed.

(** One audit event. *)
Definition one_event (op : OperationActor) (now : Time) (d d' : DB) : Prop :=
  exists e, history op now [e] d d'.

Lemma one_event_after op now d d1 d' : history op now [] d d1 -> one_event op now d1 d' -> one_event op now d d'.
Proof. intros H1 (e & H2). exists e. by apply (history_trans _ _ [] [e] _ d1). Qed.

Lemma ExpireDueClaim_history n op now w b w' :
  ExpireDueClaim n op now w = (Ok b, w') ->
  if b then one_event op now (w_db w) (w_db w') else w_db w' = w_db w.
Proof.
  intros Hr%ExpireDueClaim_Ok. destruct b; [|done].
  destruct Hr as (r & h & l & c & l' & claim' & cr & item & d1 & task' & r0 & e & _ & Hld & Hex & -> & Hwr & (id & ->) & ->).
  eapply one_event_after; [by eapply expired_history|]. eexists. by split; [|reflexivity|repeat constructor].
Qed.

Lemma message_kept r m b mentioned now item' :
  ThreadItem_Edit (scanTaskThreadItem m r) b mentioned now = Ok item' \/
  ThreadItem_Delete (scanTaskThreadItem m r) now = Ok item' ->
  i_kind r = ThreadItemKindMessage /\ ti_ID item' = i_id r.
Proof.
  unfold ThreadItem_Edit, ThreadItem_Delete, ThreadItemKind_Immutable.
  intros [Hr|Hr]; go_inv; cbn in *; done.
Qed.

Lemma mutateMessage_history i v author op now mutate action w item' w' :
  items_wf (task_threads (w_db w)) (task_thread_items (w_db w)) ->
  (forall r m, mutate (scanTaskThreadItem m r) = Ok item' ->
     i_kind r = ThreadItemKindMessage /\ ti_ID item' = i_id r) ->
  mutateMessage i v author op now mutate action w = (Ok item', w') -> one_event op now (w_db w) (w_db w').
Proof.
  intros Hw Hm Hr%mutateMessage_Ok. destruct Hr as (r & h & r1 & m & e & Hr). destruct_and! Hr.
  match goal with E : w_db w' = _ |- _ => rewrite E end.
  match goal with Hmu : mutate _ = Ok _ |- _ => apply Hm in Hmu as [Hk Hid] end.
  match goal with Hl : task_thread_items (w_db w) !! i = Some r |- _ =>
    pose proof (iw_key _ _ Hw _ _ Hl) as Hi; rewrite Hid, Hi in *; rewrite Hl in * end.
  simplify_eq. exists e. split; [|done|by repeat constructor].
  cbn. intros j q Hq. destruct (decide (j = ti_ID item')) as [->|Hne].
  - rewrite lookup_insert_eq. eexists. split; [done|]. simplify_eq. by split.
  - rewrite lookup_insert_ne by done. exists q. done.
Qed.

Lemma AddItem_history th kind body reply mentioned author op now w item w' :
  AddItem th kind body reply mentioned author op now w = (Ok item, w') -> one_event op now (w_db w) (w_db w').
Proof.
  intros (h & m & e & _ & _ & _ & _ & _ & _ & Hi & ? & ? & ->)%AddItem_Ok. exists e.
  split; [apply items_grow_add, Hi|done|by repeat constructor].
Qed.

Lemma CancelTask_history n tv reason actor op now w res w' :
  CancelTask n tv reason actor op now w = (Ok res, w') -> one_event op now (w_db w) (w_db w').
Proof.
  intros (r & h & l & d1 & l' & task' & r0 & item & _ & _ & _ & _ & Hpro & _ & _ & _ & Hrec)%CancelTask_Ok.
  eapply one_event_after; [|by eapply recorded_history].
  destruct Hpro as [_ _ ->|c claim' cr _ _ He|i hr0 req task issue' hr _ _ _ _ Hia].
  - by apply history_none.
  - by eapply ended_history.
  - by eapply answered_history.
Qed.

Lemma Claim_history n v actor op ck cs now w x w' :
  Claim n v actor op ck cs now w = (Ok x, w') -> one_event op now (w_db w) (w_db w').
Proof.
  destruct x as [s claim].
  intros (r & h & l & task1 & w1 & stage & l' & id & task' & r0 & item & _ & _ & _ & Hex & _ & _ & _ & _ & _ & Hrec)%Claim_Ok.
  apply (one_event_after _ _ _ (put_claim (sc_ID claim) (claim_row claim) (w_db w1)));
    [|by eapply recorded_history].
  apply (history_trans _ _ [] [] _ (w_db w1)); [|by apply history_none].
  apply expireDueWorkflowClaim_Ok in Hex as [(-> & -> & _)|(c & l1 & claim' & cr & it & Hex & ->)].
  - by apply history_none.
  - by eapply expired_history.
Qed.

Lemma RequestResolution_history n cid tv cv ity request actor op now w x w' :
  RequestResolution n cid tv cv ity request actor op now w = (Ok x, w') -> one_event op now (w_db w) (w_db w').
Proof.
  destruct x as [[s c'] issue]. intros Hr%RequestResolution_Ok.
  destruct Hr as (r & h & l & c & l' & req & cr & d1 & d2 & d3 & task' & r0 & item & _ & _ & _ & _ & _ & _ &
    _ & Ed1 & _ & _ & Hreq & Ed2 & He & _ & _ & Hrec).
  eapply one_event_after; [|by eapply recorded_history].
  apply (history_trans _ _ [] [] _ d2); [|by eapply ended_history]. subst d2.
  apply (history_trans _ _ [] [] _ d1); [subst d1; by apply history_none|apply history_item, Hreq].
Qed.

Lemma run_direct_history c w w' :
  is_by_claim c = false -> wf (w_db w) -> run_store c w = (Ok tt, w') ->
  one_event (operation_of c) (time_of c) (w_db w) (w_db w') \/
  (exists n op now, c = SExpireDueClaim n op now) /\ w_db w' = w_db w.
Proof.
  intros Hd Hw Hr. destruct c; try discriminate Hd; cbn in Hr;
    apply M_bind_Ok in Hr as (a & w1 & Hr & [_ ->]%M_ret_Ok); cbn.
  - left. apply MarkReady_Ok in Hr as (r & h & l & l' & task' & r0 & item & Hr). destruct_and! Hr.
    by eapply recorded_history.
  - left. apply WithdrawReadiness_Ok in Hr as (r & h & l & l' & task' & r0 & item & Hr). destruct_and! Hr.
    by eapply recorded_history.
  - left. by eapply Claim_history.
  - apply ExpireDueClaim_history in Hr. destruct a; [by left|right; eauto].
  - left. destruct a. apply ReleaseClaim_Ok in Hr as (r & h & l & c & l' & cr & d1 & task' & r0 & item & Hr).
    destruct_and! Hr. by eapply one_event_after; [eapply ended_history|eapply recorded_history].
  - left. destruct a as [[]]. apply RecordWorkSubmission_Ok in Hr as (r & h & l & c & Hr). destruct_and! Hr.
    by eapply noted_history.
  - left. destruct a as [[]].
    apply CompleteExecution_Ok in Hr as (r & h & l & c & l' & p & cr & d1 & task' & r0 & Hr).
    destruct_and! Hr. by eapply one_event_after; [eapply ended_history|eapply recorded_history].
  - left. destruct a. apply RequestChanges_Ok in Hr as (r & h & l & c & l' & cr & d1 & task' & r0 & item & Hr).
    destruct_and! Hr. by eapply one_event_after; [eapply ended_history|eapply recorded_history].
  - left. by eapply RequestResolution_history.
  - left. destruct a. apply ResolveIssue_Ok in Hr as (r & h & l & hr0 & req & l' & hr & d1 & task' & r0 & e & Hr).
    destruct_and! Hr. eapply one_event_after; [by eapply answered_history|].
    match goal with E : w_db w' = _, Ex : exists id, e = _ |- _ => rewrite E; destruct Ex as (id & ->) end.
    eexists. by split; [|reflexivity|repeat constructor].
  - left. apply RecordAcceptanceCheck_Ok in Hr as (r & h & l & c & cr & e & Hr). destruct_and! Hr.
    match goal with E : w_db w' = _, Ex : exists id, e = _ |- _ => rewrite E; destruct Ex as (id & ->) end.
    eexists. by split; [|reflexivity|repeat constructor].
  - left. destruct a. apply AcceptTask_Ok in Hr as (r & h & l & c & l' & cr & d1 & task' & r0 & item & Hr).
    destruct_and! Hr. by eapply one_event_after; [eapply ended_history|eapply recorded_history].
  - left. by eapply CancelTask_history.
  - left. destruct a as [[]]. apply RecordClaimProgress_Ok in Hr as (tg & w0 & r & h & l & c & Hr). destruct_and! Hr.
    by eapply noted_history.
  - left. by eapply AddItem_history.
  - left. eapply mutateMessage_history; [apply Hw| |exact Hr]. intros r m Hm. cbn in Hm. eapply message_kept. left. exact Hm.
  - left. eapply mutateMessage_history; [apply Hw| |exact Hr]. intros r m Hm. eapply (message_kept _ _ "" []). right. exact Hm.
Qed.

Lemma run_store_history c w w' :
  wf (w_db w) -> run_store c w = (Ok tt, w') ->
  one_event (operation_of c) (time_of c) (w_db w) (w_db w') \/
  (exists n op now, c = SExpireDueClaim n op now) /\ w_db w' = w_db w.
Proof.
  intros Hw Hr. destruct (is_by_claim c) eqn:Hd; [|by apply run_direct_history].
  destruct c as [| | | | | | | | | | | | | | | | |k]; try discriminate Hd.
  apply by_claim_Ok in Hr as (c & w1 & _ & _ & E & Hr). rewrite <- E in Hw |- *.
  destruct k; apply run_direct_history in Hr as [?|[(? & ? & ? & ?) _]]; auto; done.
Qed.

(** The history after any command. *)
Lemma after_history c w :
  wf (w_db w) -> exists es, (length es <= 1)%nat /\
    history (operation_of c) (time_of c) es (w_db w) (w_db (after c w)).
Proof.
  intros Hw. unfold after. destruct (run_store c w) as [[[]|e] w'] eqn:E; cbn.
  { destruct (run_store_history _ _ _ Hw E) as [(ev & Hh)|[_ ->]]; [by exists [ev]|].
    exists []. split; [cbn; lia|by apply history_none]. }
  apply failed_cases in E as [->|(cid & _ & _ & c' & w1 & _ & _ & _ & Hx & ->)].
  - exists []. split; [cbn; lia|by apply history_none].
  - apply ExpireDueClaim_history in Hx as (ev & Hx). by exists [ev].
Qed.

End history.
