(* ===== verification/Changes.v ===== *)
(** * Commands as sequences of statements

    A successful command is a sequence of a few kinds of statements; what every kind preserves,
    every sequence of commands preserves (by induction on the statements). *)

From stdpp Require Import base tactics strings gmap list numbers sorting relations.
From S2P Require Import Prelude Actors Lifecycle StageClaim Delivery Thread Acceptance.
From S2P Require Import Database Tx ThreadStore ClaimStore WorkflowStore WorkflowCommands.
From S2P Require Import WorkflowEffects WorkflowInvariant WorkflowOutcomes WorkflowSafety StoreCommands Refinement History.

Section changes.
Context `{UUIDSource}.

(** One statement of a command that took effect. *)
Inductive change : DB -> DB -> Prop :=
| change_audit d e : change d (add_audit e d)
| change_mentions d m : change d (set_mentions m d)
| change_task d k r task now :
    tasks d !! k = Some r -> tasks_checks (set_task_row r task now) = true ->
    change d (put_task k (set_task_row r task now) d)
| change_item d item rid :
    ThreadItem_Validate item = Ok tt -> item_insertable d (item_row item rid) ->
    change d (add_item (item_row item rid) d)
| change_message d r item :
    task_thread_items d !! i_id r = Some r -> i_kind r = ThreadItemKindMessage ->
    change d (set_items (<[i_id r := set_message_row r item]> (task_thread_items d)) d)
| change_check d chk crit :
    acceptance_checks d !! k_id chk = None -> acceptance_criteria d !! k_criterion_id chk = Some crit ->
    k_criterion_revision chk = ac_Revision crit ->
    change d (set_checks (<[k_id chk := chk]> (acceptance_checks d)) d)
| change_claim_new d claim :
    claim_insertable d claim -> sc_Status claim = StageClaimStatusActive -> sc_Version claim = 1 ->
    change d (put_claim (sc_ID claim) (claim_row claim) d)
| change_claim_end d c o now claim' d' :
    task_stage_claims d !! c_id c = Some c -> c_status c = StageClaimStatusActive ->
    ended d c o now claim' c d' -> change d d'
| change_issue_new d issue :
    issue_insertable d issue -> th_Role issue = ThreadRoleIssue -> th_Version issue = 1 ->
    change d (put_thread (th_ID issue) (issue_row issue) d)
| change_issue_resolved d h by_ now v :
    task_threads d !! h_id h = Some h -> h_role h = ThreadRoleIssue ->
    issue_resolvable d (th_resolved (scanTaskThread h) by_ now) by_ v h ->
    change d (put_thread (h_id h) (set_resolved_row h (th_resolved (scanTaskThread h) by_ now) by_) d).


Lemma writable_change d task task' v r now :
  task_writable d task v r (set_task_row r task' now) ->
  change d (put_task (wt_TaskID task) (set_task_row r task' now) d).
Proof. intros [_ Hr _ Hc _]. by eapply change_task. Qed.

Lemma recorded_changes d d' task task' v now r item rid op action :
  recorded d d' task task' v now r item rid op action -> rtc change d d'.
Proof.
  intros [_ Hwr Hv Hi (e & _ & _ & ->)]. eapply rtc_l; [by eapply writable_change|].
  eapply rtc_l; [by apply change_item|]. apply rtc_once, change_audit.
Qed.

Lemma noted_changes d d' task item op action now :
  noted d d' task item op action now -> rtc change d d'.
Proof.
  intros [Hv Hi (id & ->)]. eapply rtc_l; [by apply change_item|]. apply rtc_once, change_audit.
Qed.

Lemma ended_changes d r c o now claim' cr d1 d' :
  claims_wf (tasks d) (task_stage_claims d) -> task_stage_claims d1 = task_stage_claims d ->
  active_claim d (t_id r) = Some c -> ended d1 c o now claim' cr d' -> change d1 d'.
Proof.
  intros Hw EC Hc He. destruct (ended_step _ _ _ _ _ _ _ _ _ Hw EC Hc He) as (_ & -> & _).
  apply active_claim_wf in Hc as (Hc & _ & Hs); [|done]. eapply change_claim_end; [by rewrite EC|done..].
Qed.

Lemma expired_changes d n r h l now c l' claim' cr item rid d1 :
  wf d -> loaded d n r h l -> expired d (load r (h_id h) l) now c l' claim' cr item rid d1 -> rtc change d d1.
Proof.
  intros Hw Hld [_ Hc _ _ _ Hv (d0 & He & Hi & ->)].
  eapply rtc_l; [by eapply (ended_changes d r); [apply Hw|..]|]. by apply rtc_once, change_item.
Qed.

Lemma answered_changes d n r h l task hr0 req v resolution actor rid now i1 i2 i issue' hr d1 :
  wf d -> loaded d n r h l -> issue_of d (t_id r) i hr0 req ->
  issue_answered d task (scanTaskThread hr0) (scanTaskThreadItem [] req) v resolution actor rid now i1 i2
    issue' hr d1 ->
  rtc change d d1.
Proof.
  intros Hw Hld His Hia.
  destruct (answered_step _ _ _ _ _ _ _ _ _ _ _ _ _ _ _ _ _ _ _ Hw Hld His Hia) as (-> & Ho & Hj & _).
  destruct Hia as [Hres Hav Hans Hrow (record & -> & Hrv & Hrec & ->)].
  apply Thread_Resolve_Ok in Hres as (Hrole & _ & _ & ->). cbn in Hrole.
  eapply rtc_l; [apply (change_item _ _ _ Hav Hans)|]. eapply rtc_l; [|by apply rtc_once, change_item].
  apply (change_issue_resolved _ hr0 actor now v); [|done|by destruct Hrow].
  apply Hrow.
Qed.

Lemma finish_changes d d1 d' n cid tv cv actor op r h l c o now claim' cr task task' v r0 item rid action :
  wf d -> owns d n cid tv cv actor op r h l c -> ended d c o now claim' cr d1 ->
  recorded d1 d' task task' v now r0 item rid op action -> rtc change d d'.
Proof.
  intros Hw Ho He Hrec. eapply rtc_l; [|by eapply recorded_changes].
  eapply (ended_changes d r); [apply Hw|done|apply Ho|done].
Qed.

Lemma Claim_changes n v actor op ck cs now w x w' :
  wf (w_db w) -> Claim n v actor op ck cs now w = (Ok x, w') -> rtc change (w_db w) (w_db w').
Proof.
  destruct x as [s claim].
  intros Hw (r & h & l & task1 & w1 & stage & l' & id & task' & r0 & item & _ & Hld & _ & Hex & _ & Hnew & Hins &
    _ & _ & Hrec)%Claim_Ok.
  apply NewTaskStageClaim_Ok in Hnew as (_ & _ & Ecl).
  transitivity (w_db w1).
  - apply expireDueWorkflowClaim_Ok in Hex as [(-> & -> & _)|(c & l1 & claim' & cr & it & Hex & ->)]; [done|].
    by eapply expired_changes.
  - eapply rtc_l; [|by eapply recorded_changes]. apply change_claim_new; [done|by rewrite Ecl..].
Qed.

Lemma ExpireDueClaim_changes n op now w b w' :
  wf (w_db w) -> ExpireDueClaim n op now w = (Ok b, w') -> rtc change (w_db w) (w_db w').
Proof.
  intros Hw Hr%ExpireDueClaim_Ok. destruct b; [|by rewrite Hr].
  destruct Hr as (r & h & l & c & l' & claim' & cr & item & d1 & task' & r0 & e & _ & Hld & Hex & -> & Hwr & _ & ->).
  etrans; [by eapply expired_changes|]. eapply rtc_l; [by eapply writable_change|]. apply rtc_once, change_audit.
Qed.

Lemma RequestResolution_changes n cid tv cv ity request actor op now w x w' :
  wf (w_db w) -> RequestResolution n cid tv cv ity request actor op now w = (Ok x, w') ->
  rtc change (w_db w) (w_db w').
Proof.
  destruct x as [[s c'] issue]. intros Hw Hr%RequestResolution_Ok.
  destruct Hr as (r & h & l & c & l' & req & cr & d1 & d2 & d3 & task' & r0 & item & _ & _ & _ & Ho & Hnew & _ &
    Hins & -> & _ & Hrv & Hreq & -> & He & _ & _ & Hrec).
  assert (th_Role issue = ThreadRoleIssue /\ th_Version issue = 1) as [Hro Hver].
  { unfold NewIssueThread in Hnew. go_inv. done. }
  eapply rtc_l; [by apply change_issue_new|]. eapply rtc_l; [apply (change_item _ _ _ Hrv Hreq)|].
  eapply rtc_l; [eapply (ended_changes (w_db w) r); [apply Hw|done|apply Ho|exact He]|].
  by eapply recorded_changes.
Qed.

Lemma CancelTask_changes n tv reason actor op now w res w' :
  wf (w_db w) -> CancelTask n tv reason actor op now w = (Ok res, w') -> rtc change (w_db w) (w_db w').
Proof.
  intros Hw (r & h & l & d1 & l' & task' & r0 & item & _ & _ & Hld & _ & Hpro & _ & _ & _ & Hrec)%CancelTask_Ok.
  transitivity d1; [|by eapply recorded_changes].
  destruct Hpro as [_ _ ->|c claim' cr _ Hac He|i hr0 req task issue' hr _ _ His _ Hia]; [done| |].
  - apply rtc_once. eapply (ended_changes (w_db w) r); [apply Hw|done|exact Hac|exact He].
  - by eapply answered_changes.
Qed.

Lemma mutateMessage_changes i v author op now mutate action w item' w' :
  wf (w_db w) ->
  (forall r m, mutate (scanTaskThreadItem m r) = Ok item' ->
     i_kind r = ThreadItemKindMessage /\ ti_ID item' = i_id r) ->
  mutateMessage i v author op now mutate action w = (Ok item', w') -> rtc change (w_db w) (w_db w').
Proof.
  intros Hw Hm Hr%mutateMessage_Ok. destruct Hr as (r & h & r1 & m & e & Hr). destruct_and! Hr.
  match goal with E : w_db w' = _ |- _ => rewrite E end.
  match goal with Hmu : mutate _ = Ok _ |- _ => apply Hm in Hmu as [Hk Hid] end.
  match goal with Hl : task_thread_items (w_db w) !! i = Some r |- _ =>
    pose proof (iw_key _ _ (wf_items _ Hw) _ _ Hl) as Hi; rewrite Hid, Hi in * end.
  assert (r1 = r) as -> by congruence.
  eapply rtc_l; [eapply (change_message _ r item'); [by rewrite Hi|done]|]. rewrite Hi.
  eapply rtc_l; [apply change_mentions|]. apply rtc_once, change_audit.
Qed.

Lemma RecordAcceptanceCheck_changes n cid tv cv check actor op now w c' w' :
  RecordAcceptanceCheck n cid tv cv check actor op now w = (Ok c', w') -> rtc change (w_db w) (w_db w').
Proof.
  intros (r & h & l & c & cr & e & Hr)%RecordAcceptanceCheck_Ok. destruct_and! Hr.
  match goal with E : w_db w' = _ |- _ => rewrite E end.
  assert (ck_CriterionRevision c' = ac_Revision cr) as Hrev.
  { match goal with Hv : ValidateForTaskClaim _ _ _ _ _ = Ok _ |- _ => unfold ValidateForTaskClaim, validateBase in Hv;
      apply bind_Ok in Hv as ([] & Hv & _); apply bind_Ok in Hv as ([] & Hv%fail_if_Ok & _);
      apply orb_false_iff in Hv as [_ Hv]; by apply negb_false_iff, bool_decide_eq_true in Hv end. }
  assert (k_id (check_row c' (c_id c) (ReviewCycle l)) = ck_ID c' /\
          k_criterion_id (check_row c' (c_id c) (ReviewCycle l)) = ck_CriterionID c' /\
          k_criterion_revision (check_row c' (c_id c) (ReviewCycle l)) = ck_CriterionRevision c') as (E & Ec & Er)
    by (unfold check_row; by destruct (actorColumns _)).
  rewrite <- E. eapply rtc_l; [eapply (change_check _ (check_row c' (c_id c) (ReviewCycle l)) cr); [by rewrite E|rewrite Ec; congruence|by rewrite Er]|].
  apply rtc_once, change_audit.
Qed.

Lemma run_direct_changes c w w' :
  is_by_claim c = false -> wf (w_db w) -> run_store c w = (Ok tt, w') -> rtc change (w_db w) (w_db w').
Proof.
  intros Hd Hw Hr. destruct c; try discriminate Hd; cbn in Hr;
    apply M_bind_Ok in Hr as (a & w1 & Hr & [_ ->]%M_ret_Ok).
  - apply MarkReady_Ok in Hr as (r & h & l & l' & task' & r0 & item & Hr). destruct_and! Hr.
    by eapply recorded_changes.
  - apply WithdrawReadiness_Ok in Hr as (r & h & l & l' & task' & r0 & item & Hr). destruct_and! Hr.
    by eapply recorded_changes.
  - by eapply Claim_changes.
  - by eapply ExpireDueClaim_changes.
  - destruct a. apply ReleaseClaim_Ok in Hr as (r & h & l & c & l' & cr & d1 & task' & r0 & item & Hr).
    destruct_and! Hr. by eapply finish_changes.
  - destruct a as [[]]. apply RecordWorkSubmission_Ok in Hr as (r & h & l & c & Hr). destruct_and! Hr.
    by eapply noted_changes.
  - destruct a as [[]].
    apply CompleteExecution_Ok in Hr as (r & h & l & c & l' & p & cr & d1 & task' & r0 & Hr).
    destruct_and! Hr. by eapply finish_changes.
  - destruct a. apply RequestChanges_Ok in Hr as (r & h & l & c & l' & cr & d1 & task' & r0 & item & Hr).
    destruct_and! Hr. by eapply finish_changes.
  - by eapply RequestResolution_changes.
  - destruct a. apply ResolveIssue_Ok in Hr as (r & h & l & hr0 & req & l' & hr & d1 & task' & r0 & e & Hr).
    destruct_and! Hr. transitivity d1; [by eapply answered_changes|].
    match goal with E : w_db w' = _ |- _ => rewrite E end.
    eapply rtc_l; [by eapply writable_change|]. apply rtc_once, change_audit.
  - by eapply RecordAcceptanceCheck_changes.
  - destruct a. apply AcceptTask_Ok in Hr as (r & h & l & c & l' & cr & d1 & task' & r0 & item & Hr).
    destruct_and! Hr. by eapply finish_changes.
  - by eapply CancelTask_changes.
  - destruct a as [[]]. apply RecordClaimProgress_Ok in Hr as (tg & w0 & r & h & l & c & Hr). destruct_and! Hr.
    by eapply noted_changes.
  - apply AddItem_Ok in Hr as (h & m & e & _ & _ & _ & _ & _ & Hv & Hi & _ & _ & ->).
    eapply rtc_l; [apply (change_item _ _ _ Hv Hi)|]. eapply rtc_l; [apply change_mentions|].
    apply rtc_once, change_audit.
  - eapply mutateMessage_changes; [done| |exact Hr]. intros r m Hm. cbn in Hm.
    eapply message_kept. left. exact Hm.
  - eapply mutateMessage_changes; [done| |exact Hr]. intros r m Hm. cbn in Hm.
    eapply (message_kept _ _ "" []). right. exact Hm.
Qed.

Lemma run_store_changes c w w' :
  wf (w_db w) -> run_store c w = (Ok tt, w') -> rtc change (w_db w) (w_db w').
Proof.
  intros Hw Hr. destruct (is_by_claim c) eqn:Hd; [|by eapply run_direct_changes].
  destruct c; try discriminate Hd. apply by_claim_Ok in Hr as (c & w1 & _ & _ & E & Hr).
  rewrite <- E in Hw |- *. by eapply run_direct_changes, Hr; [apply direct_command_facts|].
Qed.

Lemma after_changes c w : wf (w_db w) -> rtc change (w_db w) (w_db (after c w)).
Proof.
  intros Hw. unfold after. destruct (run_store c w) as [[[]|e] w'] eqn:E; cbn; [by eapply run_store_changes|].
  apply failed_cases in E as [->|(cid & _ & _ & c' & w1 & _ & _ & _ & Hx & ->)]; [done|].
  by eapply ExpireDueClaim_changes.
Qed.

Lemma after_all_changes cs w : wf (w_db w) -> rtc change (w_db w) (w_db (after_all cs w)).
Proof.
  revert w. induction cs as [|c cs IH]; intros w Hw; cbn; [done|].
  etrans; [by apply after_changes|]. by apply IH, after_wf.
Qed.

End changes.
