(* ===== verification/Workspace.v ===== *)
(** * A workspace under all commands

    The commands of the workflow, the threads and the task store in any order: the workflow and the
    plan stay consistent together. *)

From stdpp Require Import base tactics strings gmap list numbers sorting relations.
From S2P Require Import Prelude Actors Lifecycle StageClaim Delivery Thread Acceptance.
From S2P Require Import Database Tx ThreadStore ClaimStore WorkflowStore WorkflowCommands.
From S2P Require Import TaskStore TaskGraph WorkflowEffects WorkflowInvariant WorkflowOutcomes WorkflowSafety.
From S2P Require Import TaskEffects TaskInvariant StoreCommands Refinement History Changes.

Section workspace.
Context `{UUIDSource} `{TextForms}.

(** ** The workflow keeps the plan *)

(** No statement of the workflow touches the edges, and every Thread belongs to a Task. *)
Lemma change_edges d d' :
  change d d' -> task_dependencies d' = task_dependencies d /\
    (forall k, is_Some (tasks d !! k) -> is_Some (tasks d' !! k)) /\
    ((forall i h, task_threads d !! i = Some h -> is_Some (tasks d !! h_task_id h)) ->
     forall i h, task_threads d' !! i = Some h -> is_Some (tasks d' !! h_task_id h)).
Proof.
  destruct 1 as [| |d k r task now Hk _| | | | |d c o now claim' d' _ _ [_ _ ->]|d issue Hi _ _|d h by_ now v Hh _ _];
    cbn; split_and!; try done.
  - intros j Hj. destruct (decide (j = k)) as [->|Hne]; [by rewrite lookup_insert_eq|by rewrite lookup_insert_ne].
  - intros Hold i h Hi. destruct (decide (h_task_id h = k)) as [->|Hne]; [by rewrite lookup_insert_eq|].
    rewrite lookup_insert_ne by done. eauto.
  - intros Hold i h. rewrite lookup_put. intros [[-> ->]|[_ Hh]]; [|eauto].
    pose proof (is_fks _ _ Hi) as Hf. apply andb_true_iff in Hf as [Hf _]. cbn in Hf.
    apply bool_decide_eq_true, elem_of_dom in Hf. unfold issue_row. by destruct (actorColumns _).
  - intros Hold i x. rewrite lookup_put. intros [[-> ->]|[_ Hx]]; [|eauto].
    unfold set_resolved_row. destruct (actorColumns _). cbn. eauto.
Qed.

Lemma changes_edges d d' :
  rtc change d d' -> task_dependencies d' = task_dependencies d /\
    ((forall i h, task_threads d !! i = Some h -> is_Some (tasks d !! h_task_id h)) ->
     forall i h, task_threads d' !! i = Some h -> is_Some (tasks d' !! h_task_id h)).
Proof.
  induction 1 as [|d d1 d2 (E & _ & Ht)%change_edges _ [E' Ht']]; [done|]. split; [congruence|].
  intros Hx. apply Ht', Ht, Hx.
Qed.

(** A Task that gets ready waits for nobody. *)
Lemma moves_to_ready d r l l' path :
  path_evidence d r l path -> (exists lc, path = [lc]) \/ (exists st a, path = [CRelease st; CClaim a]) ->
  run_commands path l = Ok l' -> Phase l' = TaskPhaseReady ->
  forall b q, (t_id r, t_id q) ∈ task_dependencies d -> tasks d !! b = Some q -> finished q.
Proof.
  intros [_ Hev] [(lc & ->)|(st & a & ->)] Hrun Hph b q Hd Hq; cbn in Hrun.
  - apply bind_Ok in Hrun as (l1 & Hrun & [= ->]).
    destruct (run_command_sound _ _ _ Hrun) as (s & s' & _ & Hs' & He & _).
    unfold represents in Hs'. rewrite Hph in Hs'.
    assert (s' = Ready) as -> by (destruct s' as [| |[]|[]|[]| |]; done).
    inversion He; subst. specialize (Hev false false ltac:(set_solver)). apply unfinished_false.
    apply not_true_is_false. intros Hu. symmetry in Hev. apply not_true_iff_false in Hev. apply Hev, existsb_exists.
    exists q. split; [|done]. apply list_elem_of_In, elem_of_select. rewrite bool_decide_eq_true_2 by done. eauto.
  - apply bind_Ok in Hrun as (l1 & _ & Hrun). apply bind_Ok in Hrun as (l2 & Hrun & [= ->]).
    destruct (run_command_sound (CClaim a) _ _ Hrun) as (s & s' & _ & Hs' & He & _).
    unfold represents in Hs'. rewrite Hph in Hs'.
    assert (s' = Ready) as -> by (destruct s' as [| |[]|[]|[]| |]; done). inversion He.
Qed.

(** A finished Task does not move. *)
Lemma finished_stuck r l path l' :
  row_lifecycle r = Some l -> finished r ->
  (exists lc, path = [lc]) \/ (exists st a, path = [CRelease st; CClaim a]) -> run_commands path l <> Ok l'.
Proof.
  intros Hl Hf Hpath Hrun.
  assert (exists c l1, run_command c l = Ok l1) as (c & l1 & Hc).
  { destruct Hpath as [(lc & ->)|(st & a & ->)]; cbn in Hrun; apply bind_Ok in Hrun as (l1 & ? & _).
    - by exists lc, l1.
    - by exists (CRelease st), l1. }
  destruct (run_command_sound _ _ _ Hc) as (s & s' & Hs & _ & He & _).
  assert (Phase l = TaskPhaseDone \/ Phase l = TaskPhaseCancelled) as Hp.
  { unfold row_lifecycle in Hl. destruct Hf as [E|E]; rewrite E in Hl; destruct (t_review_cycle r); simplify_eq; auto. }
  assert (terminal s) as Ht.
  { unfold represents in Hs. destruct Hp as [E|E]; rewrite E in Hs; [left|right]; by destruct s as [| |[]|[]|[]| |]. }
  destruct Ht as [-> | ->]; inversion He as [| | | | | | | | | |w0 Hn]; apply Hn; [by left|by right].
Qed.

Lemma after_planned c w : wf (w_db w) -> planned (w_db w) -> planned (w_db (after c w)).
Proof.
  intros Hw Hp. destruct (changes_edges _ _ (after_changes c w Hw)) as [EE Ht].
  unfold planned. rewrite EE. specialize (Ht (pw_threads _ _ _ Hp)).
  destruct (after_moves c w Hw) as [ET|(c' & path & r & l & l' & task' & now & Hm & _ & Hev & Hpath)].
  - destruct Hp as [Pa Pe Pp Pb Pr _]. rewrite ET in *. by split.
  - destruct Hm as [Hr Hl HT Hto Hrun _]. eapply planned_rows; [exact Hp| | |exact Ht]; rewrite HT.
    + intros k. eapply option_Forall2_insert; [exact Hr|by split|]. intros x. by split.
    + intros k x b q Hx Hph Hd Hq.
      apply lookup_put in Hx as [[-> ->]|[Hk Hx]]; apply lookup_put in Hq as [[-> ->]|[Hb Hq]].
      * exfalso. apply (pw_acyclic _ _ _ Hp (t_id r)). by apply tc_once.
      * cbn in Hph. injection Hph as Hph. rewrite Hto in Hph. eapply moves_to_ready; [done..| |exact Hq].
        by rewrite (tw_key _ (wf_tasks _ Hw) _ _ Hq).
      * pose proof (pw_ready _ _ _ Hp _ _ _ _ Hx Hph Hd Hr) as Hf. by destruct (finished_stuck _ _ _ l' Hl Hf Hpath).
      * exact (pw_ready _ _ _ Hp _ _ _ _ Hx Hph Hd Hq).
Qed.

(** ** All commands *)

Inductive WorkspaceCommand :=
| WStore (c : StoreCommand)
| WCreate (t : NewTask) (labelIDs dependencyIDs : list UUID) (op : OperationActor) (number : Z) (now : Time)
| WUpdate (number : Z) (expected : option Z) (patch : TaskPatch) (op : OperationActor) (now : Time)
| WArchive (number : Z) (expected : option Z) (archived : bool) (op : OperationActor) (now : Time).

Definition run_workspace (c : WorkspaceCommand) : M unit :=
  match c with
  | WStore c => run_store c
  | WCreate t ls ds op number now => _ ← CreateWithOperation t ls ds op number now; mret tt
  | WUpdate number expected patch op now => _ ← updateWithExpectedVersion number expected patch op now; mret tt
  | WArchive number expected archived op now =>
      _ ← setArchivedWithExpectedVersion number expected archived op now; mret tt
  end.

Definition step (c : WorkspaceCommand) (w : World) : World := (run_workspace c w).2.
Fixpoint steps (cs : list WorkspaceCommand) (w : World) : World :=
  match cs with
  | [] => w
  | c :: cs' => steps cs' (step c w)
  end.

Lemma reads_new_id (b : bool) (u : UUID) : reads (if b then uuid_New else mret u).
Proof. by destruct b. Qed.

(** A command of the task store that fails changes nothing. *)
Lemma task_store_atomic c w e w' :
  run_workspace c w = (Err e, w') -> (forall c', c <> WStore c') -> w_db w' = w_db w.
Proof.
  intros Hr Hc. revert Hr. assert (atomic (run_workspace c)) as Ha; [|by eapply Ha].
  destruct c as [c|t ls ds op number now|number ev patch op now|number ev archived op now];
    [by destruct (Hc c)|..]; cbn; apply atomic_then.
  - unfold CreateWithOperation. repeat (apply atomic_bind; [first [apply reads_lift|apply reads_new_id]|intros ?]).
    cbv zeta. repeat (apply atomic_bind; [apply reads_lift|intros ?]). apply atomic_transaction.
  - unfold updateWithExpectedVersion. apply atomic_bind; [apply reads_lift|intros _]. apply atomic_transaction.
  - unfold setArchivedWithExpectedVersion. apply atomic_bind; [apply reads_lift|intros _]. apply atomic_transaction.
Qed.

Lemma step_keeps c w : wf (w_db w) -> planned (w_db w) -> wf (w_db (step c w)) /\ planned (w_db (step c w)).
Proof.
  intros Hw Hp. unfold step. destruct c as [c|t ls ds op number now|number ev patch op now|number ev archived op now].
  { split; [by apply after_wf|by apply after_planned]. }
  - destruct (run_workspace (WCreate t ls ds op number now) w) as [[[]|e] w'] eqn:Er; cbn;
      [|by rewrite (task_store_atomic _ _ _ _ Er (fun _ Ec => ltac:(discriminate Ec)))].
    cbn in Er. apply M_bind_Ok in Er as (r & w1 & Er & [_ <-]%M_ret_Ok). by eapply create_keeps.
  - destruct (run_workspace (WUpdate number ev patch op now) w) as [[[]|e] w'] eqn:Er; cbn;
      [|by rewrite (task_store_atomic _ _ _ _ Er (fun _ Ec => ltac:(discriminate Ec)))].
    cbn in Er. apply M_bind_Ok in Er as (r & w1 & Er & [_ <-]%M_ret_Ok). by eapply update_keeps.
  - destruct (run_workspace (WArchive number ev archived op now) w) as [[[]|e] w'] eqn:Er; cbn;
      [|by rewrite (task_store_atomic _ _ _ _ Er (fun _ Ec => ltac:(discriminate Ec)))].
    cbn in Er. apply M_bind_Ok in Er as (r & w1 & Er & [_ <-]%M_ret_Ok). by eapply archive_keeps.
Qed.

Lemma steps_keep cs w : wf (w_db w) -> planned (w_db w) -> wf (w_db (steps cs w)) /\ planned (w_db (steps cs w)).
Proof.
  revert w. induction cs as [|c cs IH]; intros w Hw Hp; cbn; [done|].
  destruct (step_keeps c w Hw Hp). by apply IH.
Qed.

End workspace.
