(* ===== verification/Records.v ===== *)
(** * Records that are final, and rows of valid values

    Invariants of the single statements: ended Claims, resolved Issue Threads, immutable Items and
    acceptance checks never change, and every stored row is the row of a valid value. *)

From stdpp Require Import base tactics strings gmap list numbers sorting relations.
From S2P Require Import Prelude Actors Lifecycle StageClaim Delivery Thread Acceptance.
From S2P Require Import Database Tx ThreadStore ClaimStore WorkflowStore WorkflowCommands.
From S2P Require Import WorkflowEffects WorkflowInvariant WorkflowOutcomes WorkflowSafety StoreCommands Refinement History.
From S2P Require Import Changes.

(** ** Records that are final *)

(** An ended Claim never changes; an active one keeps its Task, stage, owner, credential,
    provenance and deadline. *)
Definition claim_kept (c c' : ClaimRow) : Prop :=
  (c_status c <> StageClaimStatusActive -> c' = c) /\
  c_id c' = c_id c /\ c_task_id c' = c_task_id c /\ c_task_number c' = c_task_number c /\
  c_stage c' = c_stage c /\ c_claimed_by_type c' = c_claimed_by_type c /\
  c_claimed_by_user_id c' = c_claimed_by_user_id c /\ c_claimed_by_ref c' = c_claimed_by_ref c /\
  c_subject_user_id c' = c_subject_user_id c /\ c_auth_method c' = c_auth_method c /\
  c_api_token_id c' = c_api_token_id c /\ c_token_name_snapshot c' = c_token_name_snapshot c /\
  c_agent_run_id c' = c_agent_run_id c /\ c_client_kind c' = c_client_kind c /\
  c_client_session_id c' = c_client_session_id c /\ c_expires_at c' = c_expires_at c /\
  c_created_at c' = c_created_at c.

(** The Main Thread and resolved Issue Threads never change; an open one keeps its Task, type, phase,
    opener and creation. *)
Definition thread_kept (h h' : ThreadRow) : Prop :=
  (h_issue_status h <> Some IssueThreadStatusOpen -> h' = h) /\
  h_id h' = h_id h /\ h_task_id h' = h_task_id h /\ h_role h' = h_role h /\
  h_issue_type h' = h_issue_type h /\ h_opened_from_phase h' = h_opened_from_phase h /\
  h_opened_by_type h' = h_opened_by_type h /\ h_opened_by_user_id h' = h_opened_by_user_id h /\
  h_opened_by_ref h' = h_opened_by_ref h /\ h_created_at h' = h_created_at h.

(** Every row of [m] is in [m'], changed at most as [kept] allows. *)
Definition rows_kept {V} (kept : V -> V -> Prop) (m m' : gmap UUID V) : Prop :=
  forall k v, m !! k = Some v -> exists v', m' !! k = Some v' /\ kept v v'.

Record records_kept (d d' : DB) : Prop := {
  rk_claims : rows_kept claim_kept (task_stage_claims d) (task_stage_claims d');
  rk_threads : rows_kept thread_kept (task_threads d) (task_threads d');
  rk_items : rows_kept item_kept (task_thread_items d) (task_thread_items d');
  rk_checks : rows_kept eq (acceptance_checks d) (acceptance_checks d');
}.

#[global] Instance claim_kept_preorder : PreOrder claim_kept.
Proof.
  split; [done|]. intros a b c (A & Ha) (B & Hb). destruct_and! Ha; destruct_and! Hb.
  split_and!; try congruence. intros Hs. specialize (A Hs) as ->. auto.
Qed.
#[global] Instance thread_kept_preorder : PreOrder thread_kept.
Proof.
  split; [done|]. intros a b c (A & Ha) (B & Hb). destruct_and! Ha; destruct_and! Hb.
  split_and!; try congruence. intros Hs. specialize (A Hs) as ->. auto.
Qed.
#[global] Instance item_kept_preorder : PreOrder item_kept.
Proof. split; [exact item_kept_refl|exact item_kept_trans]. Qed.

Lemma rows_kept_refl {V} (R : V -> V -> Prop) `{!Reflexive R} m : rows_kept R m m.
Proof. intros k v Hk. eauto. Qed.
Lemma rows_kept_trans {V} (R : V -> V -> Prop) `{!Transitive R} m1 m2 m3 :
  rows_kept R m1 m2 -> rows_kept R m2 m3 -> rows_kept R m1 m3.
Proof.
  intros H12 H23 k v Hk. destruct (H12 k v Hk) as (v2 & Hk2 & ?).
  destruct (H23 k v2 Hk2) as (v3 & Hk3 & ?). eauto.
Qed.
Lemma rows_kept_insert {V} (R : V -> V -> Prop) `{!Reflexive R} m k v :
  (forall v0, m !! k = Some v0 -> R v0 v) -> rows_kept R m (<[k := v]> m).
Proof.
  intros Hr j q Hj. destruct (decide (j = k)) as [->|Hne].
  - rewrite lookup_insert_eq. eauto.
  - rewrite lookup_insert_ne by done. eauto.
Qed.

#[global] Instance records_kept_preorder : PreOrder records_kept.
Proof.
  split.
  - intros d. split; apply rows_kept_refl; apply _.
  - intros d1 d2 d3 [] []. split; by eapply rows_kept_trans; [apply _|..].
Qed.

Section kept.
Context `{UUIDSource}.

Lemma change_kept d d' : change d d' -> records_kept d d'.
Proof.
  intros Hc. destruct Hc as [| | |d item rid _ Hi|d r item Hr Hk|d chk crit Hf _ _|d claim Hi _ _
    |d c o now claim' d' Hc Hs [Hcomp _ ->]|d issue Hi _ _|d h by_ now v Hh _ Hres];
    split; try (apply rows_kept_refl; apply _);
    apply rows_kept_insert; try apply _; intros v0 Hv0.
  - by rewrite (ii_fresh _ _ Hi) in Hv0.
  - rewrite Hr in Hv0. simplify_eq. by split_and!.
  - congruence.
  - by rewrite (ci_fresh _ _ Hi) in Hv0.
  - destruct (Complete_keeps _ _ _ _ Hcomp) as (Eid & _). cbn in Eid. rewrite Eid, Hc in Hv0. simplify_eq.
    by split_and!.
  - by rewrite (is_fresh _ _ Hi) in Hv0.
  - rewrite Hh in Hv0. simplify_eq. pose proof (ir_open _ _ _ _ _ Hres).
    unfold set_resolved_row. destruct (actorColumns by_). by split_and!.
Qed.

Lemma changes_kept d d' : rtc change d d' -> records_kept d d'.
Proof. induction 1; [done|]. etrans; [by apply change_kept|done]. Qed.

(** ** Rows are rows of valid values *)

(** The CHECK constraints, and what the domain adds to them: an active Claim and an open Issue are in
    their first version, Threads have identifiers and creation times, a request has a text. *)
Record rows_ok (d : DB) : Prop := {
  ro_tasks : forall k r, tasks d !! k = Some r -> tasks_checks r = true /\ k <> uuid_Nil;
  ro_claims : forall i c, task_stage_claims d !! i = Some c ->
    task_stage_claims_checks c = true /\ (c_status c = StageClaimStatusActive -> c_version c = 1);
  ro_threads : forall i h, task_threads d !! i = Some h ->
    task_threads_checks h = true /\ i <> uuid_Nil /\ Time_IsZero (h_created_at h) = false /\
    (h_issue_status h = Some IssueThreadStatusOpen ->
       h_version h = 1 /\ validThreadActor (th_OpenedBy (scanTaskThread h)) = true);
  ro_requests : forall j r, task_thread_items d !! j = Some r ->
    i_kind r = ThreadItemKindResolutionRequest -> blank (of_null (i_body r)) = false;
}.

(** The stored actor of a valid one is valid: [actorColumns] drops only what validity does not need. *)
Lemma actor_columns_valid a u ref :
  actorColumns a = (u, ref) -> validThreadActor a = true ->
  validThreadActor (actorFromColumns (actor_Type a) u ref) = true.
Proof.
  unfold actorColumns, validThreadActor, actorFromColumns. cbn. unfold Actor_IsHuman. cbn.
  case_bool_decide; intros [= <- <-]; [done|]. by rewrite of_nullIfEmpty.
Qed.

Lemma issue_row_opened issue :
  validThreadActor (th_OpenedBy issue) = true ->
  validThreadActor (th_OpenedBy (scanTaskThread (issue_row issue))) = true.
Proof.
  unfold issue_row. destruct (actorColumns (th_OpenedBy issue)) as [u ref] eqn:E. cbn.
  by apply actor_columns_valid.
Qed.

Lemma issue_row_meta issue :
  h_created_at (issue_row issue) = th_CreatedAt issue /\ h_version (issue_row issue) = th_Version issue.
Proof. unfold issue_row. by destruct (actorColumns _). Qed.

Lemma request_body item rid :
  ThreadItem_Validate item = Ok tt -> ti_Kind item = ThreadItemKindResolutionRequest ->
  blank (of_null (i_body (item_row item rid))) = false.
Proof.
  unfold ThreadItem_Validate. intros Hv Hk.
  apply bind_Ok in Hv as (? & _ & Hv). apply bind_Ok in Hv as (? & _ & Hv).
  apply bind_Ok in Hv as (? & _ & Hv). apply bind_Ok in Hv as (? & _ & Hv).
  rewrite Hk in Hv. destruct (present (ti_DeletedAt item)); [done|]. apply fail_if_Ok in Hv.
  unfold item_row. destruct (actorColumns _). cbn. rewrite of_nullIfEmpty.
  destruct (blank (ti_Body item)); done.
Qed.

Lemma Thread_Validate_issue t :
  Thread_Validate t = Ok tt -> th_Role t = ThreadRoleIssue ->
  th_ID t <> uuid_Nil /\ Time_IsZero (th_CreatedAt t) = false /\ validThreadActor (th_OpenedBy t) = true.
Proof.
  unfold Thread_Validate. intros Hv Hr. apply bind_Ok in Hv as ([] & H1 & Hv). apply fail_if_Ok in H1.
  rewrite Hr in Hv. cbn in Hv. apply bind_Ok in Hv as ([] & _ & Hv). apply bind_Ok in Hv as ([] & H2 & _).
  apply fail_if_Ok in H2. go_bool. done.
Qed.

Lemma change_rows_ok d d' : change d d' -> rows_ok d -> rows_ok d'.
Proof.
  intros Hc [Rk Rc Rt Rr].
  destruct Hc as [| |d k0 r r' Hr Hchk|d item rid Hv Hi|d r item Hr Hk|d chk crit Hf _ _|d claim Hi Hst Hver
    |d c o now claim' d' Hc Hs [Hcomp Hwr ->]|d issue Hi Hro Hver|d h by_ now v Hh _ Hres];
    split; try done; cbn; intros k v0 [[-> ->]|[_ Hk0]]%lookup_put; eauto.
  - split; [done|by eapply Rk].
  - rewrite item_row_kind. by apply request_body.
  - cbn. by rewrite Hk.
  - destruct (claim_row_fields claim) as (_ & _ & _ & F). split; [apply Hi|].
    intros _. unfold claim_row. by destruct (actorColumns _).
  - split; [apply Hwr|]. cbn. by destruct (Complete_keeps _ _ _ _ Hcomp) as (_ & _ & _ & Hn).
  - destruct (Thread_Validate_issue _ (is_valid _ _ Hi) Hro) as (Hid & Ht & Ha).
    destruct (issue_row_meta issue) as [-> ->]. split_and!; [apply Hi|done|done|]. intros _.
    split; [done|by apply issue_row_opened].
  - destruct (Rt _ _ Hh) as (_ & Hid & Ht & _).
    assert (h_created_at (set_resolved_row h (th_resolved (scanTaskThread h) by_ now) by_) = h_created_at h /\
      h_issue_status (set_resolved_row h (th_resolved (scanTaskThread h) by_ now) by_)
        = Some IssueThreadStatusResolved) as [-> ->] by (unfold set_resolved_row; by destruct (actorColumns by_)).
    split_and!; [apply Hres|done|done|]. by intros ?.
Qed.

Lemma changes_rows_ok d d' : rtc change d d' -> rows_ok d -> rows_ok d'.
Proof. induction 1; eauto using change_rows_ok. Qed.

End kept.
