(* ===== verification/Progress.v ===== *)
(** * Commands that are always possible

    The forward direction of the statements: rows that satisfy the CHECK constraints, unique
    indexes and foreign keys, so that a command with valid arguments in a consistent workspace
    cannot fail.  Cancellation of a Task in any state that is not final is possible. *)

From stdpp Require Import base tactics strings gmap list numbers sorting.
From S2P Require Import Prelude Actors Lifecycle StageClaim Delivery Thread Acceptance.
From S2P Require Import Database Tx ThreadStore ClaimStore WorkflowStore WorkflowCommands.
From S2P Require Import WorkflowEffects WorkflowInvariant WorkflowOutcomes WorkflowSafety StoreCommands Refinement History.
From S2P Require Import Changes Records.

(** ** Performing a run *)

Lemma bind_possible {A B} (m : M A) (f : A -> M B) w a w1 :
  m w = (Ok a, w1) -> (exists b w', f a w1 = (Ok b, w')) -> exists b w', (m ≫= f) w = (Ok b, w').
Proof. intros Hm (b & w' & Hf). exists b, w'. apply M_bind_Ok. eauto. Qed.

Lemma transaction_possible {A} (m : M A) w :
  (exists a w', m w = (Ok a, w')) -> exists a w', transaction m w = (Ok a, w').
Proof. intros (a & w' & Hm). exists a, w'. by apply transaction_Ok. Qed.

(** One statement of a command that is known to succeed. *)
Ltac run_as E := eapply bind_possible; [exact E|]; cbv beta iota zeta.
Ltac run_guard := eapply (bind_possible _ _ _ tt); [apply throw_if_Ok; split; [|reflexivity]|]; cbv beta iota zeta.

(** ** CHECK constraints of the rows that the commands write *)

Lemma check_ok_true b : check_ok (Some b) = b.
Proof. by destruct b. Qed.

Lemma blank_btrim s : blank s = false -> GoStrings.btrim_empty s = false.
Proof. intros Hb%blank_false. by apply GoStrings.TrimSpace_btrim. Qed.

Lemma nullIfEmpty_blank s : blank s = false -> nullIfEmpty s = Some s.
Proof. unfold nullIfEmpty. intros Hb. case_bool_decide; [by subst|done]. Qed.

Lemma valid_actor_cases a :
  validThreadActor a = true ->
  (actor_Type a = ActorTypeUser /\ exists u, actor_UserID a = Some u /\ actorColumns a = (Some u, None)) \/
  ((actor_Type a = ActorTypeAgent \/ actor_Type a = ActorTypeSystem) /\ blank (actor_Ref a) = false /\
   actorColumns a = (None, Some (actor_Ref a))).
Proof.
  unfold validThreadActor, Actor_IsHuman, actorColumns. intros Hv. case_bool_decide as Ht.
  - left. split; [done|]. go_bool. destruct (actor_UserID a) as [u|]; [|done]. eauto.
  - right. destruct (_ || _) eqn:Ho; [|done]. apply orb_true_iff in Ho. rewrite !bool_decide_eq_true in Ho.
    go_bool. split_and!; [done|done|by rewrite nullIfEmpty_blank].
Qed.

Lemma actor_shape_valid a u ref :
  validThreadActor a = true -> actorColumns a = (u, ref) ->
  actor_columns_shape (Some (actor_Type a)) u ref = Some true.
Proof.
  intros [(Ht & v & _ & E)|([Ht|Ht] & Hb & E)]%valid_actor_cases E'; rewrite E in E'; injection E' as <- <-;
    rewrite Ht; unfold actor_columns_shape, not_btrim_empty; cbn; rewrite ?(blank_btrim _ Hb); done.
Qed.

(** A CHECK of the form [c IN (...)] on a column that is not NULL. *)
Lemma check_in s vs : check_ok (tin (Some s) vs) = true -> s ∈ vs.
Proof.
  unfold check_ok, tin. cbn. intros Hc%negb_true_iff%bool_decide_eq_false.
  destruct (decide (s ∈ vs)); [done|]. by rewrite bool_decide_eq_false_2 in Hc.
Qed.

Lemma completed_outcome_checks stage o st now :
  stage ∈ ["execution"; "review"] -> completed_status o = Ok st -> stageAcceptsOutcome stage o = true ->
  claim_outcome_checks stage st (nullIfEmpty o) (Some now) = true.
Proof.
  intros Hstage Hst Hacc. unfold completed_status in Hst.
  repeat (case_match; simplify_eq);
    repeat match goal with Hx : _ || _ = true |- _ => apply orb_true_iff in Hx as [Hx|Hx] end;
    repeat match goal with Hx : bool_decide _ = true |- _ => apply bool_decide_eq_true in Hx; subst o end;
    apply elem_of_cons in Hstage as [->|Hstage];
    try (apply list_elem_of_singleton in Hstage as ->);
    (discriminate Hacc || reflexivity).
Qed.

(** Ending a Claim keeps its row within the constraints. *)
Lemma set_claim_row_checks c o now claim' :
  task_stage_claims_checks c = true -> TaskStageClaim_Complete (scanTaskStageClaim c) o now = Ok claim' ->
  0 < sc_Version claim' -> task_stage_claims_checks (set_claim_row c claim') = true.
Proof.
  unfold task_stage_claims_checks. intros Hchk Hc Hver.
  apply andb_true_iff in Hchk as [[Hid _]%andb_true_iff _].
  pose proof Hid as Hstage. unfold claim_identity_checks in Hstage.
  repeat (apply andb_true_iff in Hstage as [Hstage _]). apply check_in in Hstage.
  apply TaskStageClaim_Complete_Ok in Hc as (st & _ & Hst & Hacc & ->). cbn in Hver |- *.
  apply andb_true_iff. split; [apply andb_true_iff; split; [exact Hid|by apply Z.ltb_lt]|].
  by eapply completed_outcome_checks.
Qed.

(** Resolving an open Issue keeps its row within the constraints. *)
Lemma set_resolved_row_checks h by_ now :
  task_threads_checks h = true -> h_role h = ThreadRoleIssue ->
  h_issue_status h = Some IssueThreadStatusOpen -> validThreadActor by_ = true -> h_version h = 1 ->
  task_threads_checks (set_resolved_row h (th_resolved (scanTaskThread h) by_ now) by_) = true.
Proof.
  unfold task_threads_checks. intros Hchk Hr Hs Ha Hver. unfold set_resolved_row.
  destruct (actorColumns by_) as [u ref] eqn:Ec. pose proof (actor_shape_valid _ _ _ Ha Ec) as Hshape.
  apply andb_true_iff in Hchk as [[[[Hid _]%andb_true_iff _]%andb_true_iff _]%andb_true_iff Hsh].
  rewrite !andb_true_iff. split_and!; [exact Hid|done| |cbn; by rewrite Hver|].
  - destruct (valid_actor_cases _ Ha) as [(-> & _)|([-> | ->] & _)]; reflexivity.
  - unfold thread_status_shape in *. cbn in Hsh |- *. rewrite Hr in *. rewrite Hs in Hsh. cbn in Hsh |- *.
    rewrite Hshape.
    destruct (h_issue_type h), (h_opened_from_phase h); cbn in Hsh |- *; try done.
    destruct (actor_columns_shape _ _ _) as [[]|]; cbn in *; try done.
Qed.

(** ** Callers and fresh identifiers *)

Lemma validate_op_rid op : OperationActor_Validate op = Ok tt -> blank (op_RequestID op) = false.
Proof. unfold OperationActor_Validate. intros Hv. apply bind_Ok in Hv as (? & Hv & _). go_inv. done. Qed.

Lemma validate_op_user op : OperationActor_Validate op = Ok tt -> op_UserID op <> uuid_Nil.
Proof. unfold OperationActor_Validate. intros Hv. apply bind_Ok in Hv as (? & Hv & _). go_inv. done. Qed.

Lemma validate_actor_op actor op :
  validateThreadOperationActor actor op = Ok tt -> OperationActor_Validate op = Ok tt.
Proof. unfold validateThreadOperationActor. intros Hv. by apply bind_Ok in Hv as ([] & Hv & _). Qed.

(** An actor that passed the caller check is a valid author; a user is the operation's user. *)
Lemma validate_actor_valid actor op :
  validateThreadOperationActor actor op = Ok tt ->
  validThreadActor actor = true /\
  (forall u, (actorColumns actor).1 = Some u -> u = op_UserID op).
Proof.
  intros Hv. pose proof (validate_op_user _ (validate_actor_op _ _ Hv)) as Hu.
  unfold validateThreadOperationActor in Hv. apply bind_Ok in Hv as (? & _ & Hv).
  unfold validThreadActor, actorColumns, Actor_IsHuman. case_bool_decide as Ht.
  - go_inv. match goal with E : actor_UserID actor = _ |- _ => rewrite E end.
    cbn. split; [|congruence]. by rewrite bool_decide_eq_false_2.
  - case_bool_decide as Ha; [|done]. go_inv. split; [|done]. by apply negb_true_iff.
Qed.

Lemma audit_checks_valid id now op ety eid num action old new :
  OperationActor_Validate op = Ok tt ->
  business_audit_events_checks (mkBusinessAuditEvent id now op ety eid num action old new) = true.
Proof.
  destruct op as [u m t tn a rq]. unfold OperationActor_Validate, business_audit_events_checks. cbn. intros Hv.
  apply bind_Ok in Hv as (? & _ & Hv).
  destruct (decide (m = AuthenticationMethodSession)) as [->|N1];
    [|destruct (decide (m = AuthenticationMethodAPIToken)) as [->|N2];
      [|destruct (decide (m = AuthenticationMethodAgentDelegate)) as [->|N3]]];
    rewrite ?(bool_decide_eq_false_2 _ N1), ?(bool_decide_eq_false_2 _ N2), ?(bool_decide_eq_false_2 _ N3) in Hv;
    try discriminate Hv; destruct t, a; try reflexivity; cbn in Hv; rewrite ?orb_true_r in Hv; discriminate Hv.
Qed.

Section progress.
Context `{UUIDSource}.

(** No identifier that is still to be drawn is in use: what a random version 4 UUID gives. *)
Record fresh_from (n : nat) (d : DB) : Prop := {
  fr_claims : forall m, (n <= m)%nat -> task_stage_claims d !! uuid_seq m = None;
  fr_threads : forall m, (n <= m)%nat -> task_threads d !! uuid_seq m = None;
  fr_items : forall m, (n <= m)%nat -> task_thread_items d !! uuid_seq m = None;
  fr_audit : forall m, (n <= m)%nat -> uuid_seq m ∉ (be_ID <$> business_audit_events d);
}.

(** A caller that the workspace knows, at a real time. *)
Record caller_ok (d : DB) (op : OperationActor) (now : Time) : Prop := {
  ca_valid : OperationActor_Validate op = Ok tt;
  ca_user : op_UserID op ∈ users d;
  ca_token : forall t, op_TokenID op = Some t -> t ∈ api_tokens d;
  ca_now : Time_IsZero now = false;
}.

Lemma caller_auditable d op now id task action :
  caller_ok d op now -> id ∉ (be_ID <$> business_audit_events d) -> wt_TaskID task <> uuid_Nil ->
  action <> "" -> auditable d (workflow_event id task op action now).
Proof.
  intros [Hv Hu Ht Hn] Hf Hid Ha. split; try done; cbn.
  - by apply audit_checks_valid.
  - rewrite bool_decide_eq_true_2 by done. cbn. destruct (op_TokenID op); [|done].
    apply bool_decide_eq_true. eauto.
Qed.

(** ** Items *)

(** The kinds of the Items that carry a text only. *)
Definition text_kinds : list ThreadItemKind :=
  [ThreadItemKindHandoff; ThreadItemKindReviewOutcome; ThreadItemKindResolutionRequest;
   ThreadItemKindResolution; ThreadItemKindSystemEvent].

Lemma text_item_ok id th kind author body now rid :
  kind ∈ text_kinds -> id <> uuid_Nil -> th <> uuid_Nil -> validThreadActor author = true ->
  blank body = false -> blank rid = false -> Time_IsZero now = false ->
  let item := workflow_item id th kind author body None now in
  ThreadItem_Validate item = Ok tt /\ task_thread_items_checks (item_row item rid) = true.
Proof.
  intros Hk Hid Hth Ha Hb Hrid Hn item.
  assert (ThreadItem_Validate item = Ok tt) as Hv.
  { unfold ThreadItem_Validate, item. cbn -[ThreadItemKind_Valid]. rewrite Ha, Hb, Hn.
    rewrite (bool_decide_eq_false_2 (id = _)), (bool_decide_eq_false_2 (th = _)) by done.
    unfold text_kinds in Hk.
    repeat (apply elem_of_cons in Hk as [->|Hk]; [reflexivity|]). by apply elem_of_nil in Hk. }
  split; [done|]. unfold item_row. destruct (actorColumns author) as [u ref] eqn:Ec.
  pose proof (actor_shape_valid _ _ _ Ha Ec) as Hs. unfold item. cbn [workflow_item ti_Author].
  rewrite Ec. unfold task_thread_items_checks. cbn -[actor_columns_shape GoStrings.btrim_empty].
  change ActorType with string in Hs. rewrite Hs, (blank_btrim _ Hrid), (nullIfEmpty_blank _ Hb).
  destruct (valid_actor_cases _ Ha) as [(-> & _)|([-> | ->] & _)];
  unfold text_kinds in Hk;
  repeat (apply elem_of_cons in Hk as [->|Hk]; [reflexivity|]); by apply elem_of_nil in Hk.
Qed.

Lemma record_item_ok id th p now rid :
  id <> uuid_Nil -> th <> uuid_Nil -> IssueResolutionPayload_Validate p = Ok tt ->
  blank rid = false -> Time_IsZero now = false ->
  let item := workflow_item id th ThreadItemKindIssueResolution systemActor "" (Some p) now in
  ThreadItem_Validate item = Ok tt /\ task_thread_items_checks (item_row item rid) = true.
Proof.
  intros Hid Hth Hp Hrid Hn item. split.
  - unfold ThreadItem_Validate, item. cbn -[IssueResolutionPayload_Validate]. rewrite Hn, Hp.
    by rewrite (bool_decide_eq_false_2 (id = _)), (bool_decide_eq_false_2 (th = _)).
  - unfold item, item_row. cbn [workflow_item ti_Author].
    change (actorColumns systemActor) with (@None UUID, Some workflowSystemActorRef).
    unfold task_thread_items_checks. cbn -[GoStrings.btrim_empty actor_columns_shape]. 
    rewrite (blank_btrim _ Hrid). reflexivity.
Qed.

Lemma item_row_insertable d item rid :
  task_thread_items_checks (item_row item rid) = true -> task_thread_items d !! ti_ID item = None ->
  is_Some (task_threads d !! ti_ThreadID item) ->
  (forall u, (actorColumns (ti_Author item)).1 = Some u -> u ∈ users d) ->
  ti_ReplyToItemID item = None -> ti_TaskStageClaimID item = None ->
  ((ti_Kind item = ThreadItemKindResolutionRequest \/ ti_Kind item = ThreadItemKindResolution) ->
   ~ has_item (task_thread_items d) (ti_ThreadID item) (ti_Kind item)) ->
  item_insertable d (item_row item rid).
Proof.
  intros Hc Hf Hth Hu Hre Hcl Hone. split; [done|by rewrite item_row_id| |].
  - unfold item_unique_violated. rewrite item_row_kind, item_row_thread.
    destruct (_ || _) eqn:Ho; [|done]. apply orb_true_iff in Ho. rewrite !bool_decide_eq_true in Ho.
    unfold item_kind_taken. cbn. apply present_false, select_one_None. intros k v Hk.
    apply not_true_is_false. intros Hp. go_bool. apply (Hone Ho). by exists k, v.
  - unfold item_fks, item_row. destruct (actorColumns (ti_Author item)) as [u ref]. cbn in Hu |- *.
    rewrite Hre, Hcl. rewrite bool_decide_eq_true_2 by by apply elem_of_dom. cbn.
    destruct u; [|done]. cbn. by rewrite bool_decide_eq_true_2 by auto.
Qed.


(** ** The Task row *)

(** The row that a lifecycle command writes is within the constraints when the reference to the
    open Issue is set exactly when the Task waits for a resolution. *)
Lemma set_task_row_checks r task now ws :
  represents (wt_Lifecycle task) ws -> 0 <= ReviewCycle (wt_Lifecycle task) -> 0 < wt_Version task ->
  (present (wt_ActiveIssueThreadID task) = true <-> exists st, ws = NeedsResolution st) ->
  tasks_checks (set_task_row r task now) = true.
Proof.
  intros Hr Hc Hv Hi. unfold tasks_checks. rewrite !andb_true_iff. split_and!; [| |by apply Z.ltb_lt].
  all: destruct task as [id n v [ph act cy] ai main arch proj]; unfold represents in Hr; cbn in *.
  - unfold tasks_target_lifecycle_shape. cbn. rewrite (proj2 (Z.leb_le 0 cy)) by done.
    destruct ws as [| |[]|[]|[]| |]; injection Hr as -> ->; reflexivity.
  - unfold tasks_active_issue_shape. cbn.
    destruct ai as [i|]; cbn in Hi |- *.
    + destruct (proj1 Hi eq_refl) as ([] & ->); injection Hr as -> ->; reflexivity.
    + destruct ws as [| |[]|[]|st| |]; injection Hr as -> ->; try reflexivity.
      discriminate (proj2 Hi (ex_intro _ st eq_refl)).
Qed.

(** A stored row has no open Issue unless the Task waits for a resolution. *)
Lemma stored_no_issue r ws :
  tasks_checks r = true -> row_in r ws -> (forall st, ws <> NeedsResolution st) ->
  t_active_issue_thread_id r = None.
Proof.
  unfold tasks_checks. intros Hc (l & Hl & Hr) Hn. go_bool.
  unfold row_lifecycle in Hl. destruct r as [id n v ph act cy ai pr pa up co ar]. cbn in *.
  destruct ph as [ph|]; [|done]. destruct cy as [cy|]; [|done]. injection Hl as <-.
  unfold represents in Hr. cbn in Hr. destruct ai as [i|]; [exfalso|done].
  unfold tasks_active_issue_shape, tasks_target_lifecycle_shape in *. cbn in *.
  destruct ws as [| |[]|[]|st| |]; try (by destruct (Hn st)); injection Hr as -> Ha;
    destruct act as [act|]; cbn in *; subst; discriminate.
Qed.

(** ** The common end of a lifecycle command *)

Record recordable (w : World) (task : workflowTask) (v : Z) (now : Time) (op : OperationActor) (r : TaskRow)
  (ws : WorkState) : Prop := {
  rb_row : tasks (w_db w) !! wt_TaskID task = Some r;
  rb_id : wt_TaskID task <> uuid_Nil;
  rb_version : t_version r = v;
  rb_small : 0 < v < MaxInt64;
  rb_state : represents (wt_Lifecycle task) ws;
  rb_cycle : 0 <= ReviewCycle (wt_Lifecycle task);
  rb_issue : present (wt_ActiveIssueThreadID task) = true <-> exists st, ws = NeedsResolution st;
  rb_thread : forall i, wt_ActiveIssueThreadID task = Some i -> is_Some (task_threads (w_db w) !! i);
  rb_main : is_Some (task_threads (w_db w) !! wt_MainThreadID task) /\ wt_MainThreadID task <> uuid_Nil;
  rb_caller : caller_ok (w_db w) op now;
  rb_fresh : fresh_from (w_next w) (w_db w);
}.

Lemma persist_possible w task v now op r ws :
  recordable w task v now op r ws ->
  let task' := with_Version task (int64 (v + 1)) in
  persistWorkflowTask task v now w
  = (Ok task', mkWorld (put_task (wt_TaskID task) (set_task_row r task' now) (w_db w)) (w_next w)).
Proof.
  intros [Hrow Hid Hv Hs Hst Hcy Hiss Hth _ _ _] task'. apply persistWorkflowTask_Ok. split; [done|].
  exists r. split; [|reflexivity]. split; try done.
  - apply TaskLifecycle_Validate_represents. eauto.
  - eapply set_task_row_checks; [exact Hst|done| |exact Hiss]. cbn.
    rewrite int64_small; unfold MaxInt64 in *; lia.
  - cbn. destruct (wt_ActiveIssueThreadID task); [|done]. cbn.
    apply bool_decide_eq_true, elem_of_dom. eauto.
Qed.

Lemma record_possible w task v now op r ws kind author body action :
  recordable w task v now op r ws -> kind ∈ text_kinds ->
  kind <> ThreadItemKindResolutionRequest -> kind <> ThreadItemKindResolution ->
  validThreadActor author = true -> (forall u, (actorColumns author).1 = Some u -> u ∈ users (w_db w)) ->
  blank body = false -> action <> "" ->
  exists task' item w1 w2 w3,
    persistWorkflowTask task v now w = (Ok task', w1) /\
    insertWorkflowItem (wt_MainThreadID task') kind author body None (op_RequestID op) now w1 = (Ok item, w2) /\
    insertWorkflowAudit task' op action now w2 = (Ok tt, w3) /\
    wt_Lifecycle task' = wt_Lifecycle task.
Proof.
  intros Hrb Hk Hk1 Hk2 Ha Hau Hb Hact. pose proof (persist_possible _ _ _ _ _ _ _ Hrb) as Ep. cbv zeta in Ep.
  destruct Hrb as [Hrow Hid Hv Hs Hst Hcy Hiss Hth [Hm Hmn] Hca Hfr]. pose proof Hca as [Hov Hou Hot Hon].
  set (item := workflow_item (uuid_seq (w_next w)) (wt_MainThreadID task) kind author body None now).
  destruct (text_item_ok (uuid_seq (w_next w)) (wt_MainThreadID task) kind author body now (op_RequestID op))
    as [Hiv Hic]; try done; [apply uuid_seq_ne|by apply validate_op_rid|].
  eexists _, item, _, _, _. split; [exact Ep|]. split_and!; [| |done].
  - apply insertWorkflowItem_Ok. split; [reflexivity|]. split; [done|]. split; [|reflexivity].
    apply item_row_insertable; try done; [by apply (fr_items _ _ Hfr)|]. cbn. tauto.
  - apply insertWorkflowAudit_Ok. split; [|reflexivity]. apply caller_auditable; try done.
    cbn. apply (fr_audit _ _ Hfr). lia.
Qed.

(** ** Ending a Claim *)

Lemma complete_claim_possible w c o now st :
  wf (w_db w) -> rows_ok (w_db w) -> task_stage_claims (w_db w) !! c_id c = Some c ->
  c_status c = StageClaimStatusActive -> completed_status o = Ok st -> stageAcceptsOutcome (c_stage c) o = true ->
  let claim' := sc_completed (scanTaskStageClaim c) st o now in
  complete_claim (scanTaskStageClaim c) o now w
  = (Ok claim', mkWorld (put_claim (c_id c) (set_claim_row c claim') (w_db w)) (w_next w)).
Proof.
  intros Hw Hro Hc Hs Hst Hacc claim'. destruct (ro_claims _ Hro _ _ Hc) as [Hchk Hver]. specialize (Hver Hs).
  assert (TaskStageClaim_Complete (scanTaskStageClaim c) o now = Ok claim') as Hcomp
    by (apply TaskStageClaim_Complete_Ok; eauto).
  apply complete_claim_Ok. split; [done|]. exists c. split; [|done]. split; try done.
  - eapply set_claim_row_checks; [done..|]. cbn. by rewrite Hver.
  - unfold one_active_violated.
    destruct (Complete_keeps _ _ _ _ Hcomp) as (_ & _ & _ & Hn). cbn in Hn |- *.
    by rewrite bool_decide_eq_false_2.
Qed.

(** ** Resolving an Issue *)

Lemma fresh_add_item n d r : fresh_from n d -> i_id r = uuid_seq n -> fresh_from (S n) (add_item r d).
Proof.
  intros [Fc Ft Fi Fa] Hid. split; cbn; intros m Hm; try (by (apply Fc || apply Ft || apply Fa); lia).
  rewrite lookup_insert_ne; [apply Fi; lia|]. rewrite Hid. intros E%uuid_seq_inj. lia.
Qed.

Lemma fresh_put_thread n d i h h' :
  fresh_from n d -> task_threads d !! i = Some h -> fresh_from n (put_thread i h' d).
Proof.
  intros [Fc Ft Fi Fa] Hi. split; cbn; intros m Hm; try by (apply Fc || apply Fi || apply Fa).
  rewrite lookup_insert_ne; [by apply Ft|]. intros ->. by rewrite Ft in Hi.
Qed.

Lemma fresh_put_claim n d i c c' :
  fresh_from n d -> task_stage_claims d !! i = Some c -> fresh_from n (put_claim i c' d).
Proof.
  intros [Fc Ft Fi Fa] Hi. split; cbn; intros m Hm; try by (apply Ft || apply Fi || apply Fa).
  rewrite lookup_insert_ne; [by apply Fc|]. intros ->. by rewrite Fc in Hi.
Qed.

(** The open Issue of a Task that waits for a resolution, with its request. *)
Lemma blocked_issue d k r st :
  wf d -> tasks d !! k = Some r -> row_in r (NeedsResolution st) ->
  exists i hr req j, t_active_issue_thread_id r = Some i /\ task_threads d !! i = Some hr /\ h_id hr = i /\
    is_open_issue k hr = true /\ issue_of d k i hr req /\ task_thread_items d !! j = Some req /\
    i_kind req = ThreadItemKindResolutionRequest.
Proof.
  intros Hw Hk Hin. destruct (hw_blocked _ _ (wf_threads _ Hw) _ _ _ Hk Hin) as (i & hr & Hi & Hh & Ho).
  pose proof (hw_key _ _ (wf_threads _ Hw) _ _ Hh) as Hid.
  pose proof (iw_request _ _ (wf_items _ Hw) _ _ _ Hh Ho) as (j0 & q0 & Hj0 & Hq1 & Hq2).
  destruct (select_one (fun q => (i_thread_id q == h_id hr) && (i_kind q == ThreadItemKindResolutionRequest))
    (task_thread_items d)) as [req|] eqn:Hreq.
  2: { rewrite select_one_None in Hreq. specialize (Hreq _ _ Hj0). cbn in Hreq.
       by rewrite Hid, !bool_decide_eq_true_2 in Hreq by done. }
  pose proof (select_one_Some _ _ _ Hreq) as (Hp & j & Hj). go_bool.
  exists i, hr, req, j. split_and!; try done. split; [|done].
  apply is_open_issue_true in Ho as (Ht & Hr & _).
  eapply select_one_unique; [exact Hh| |].
  - cbn. by rewrite !bool_decide_eq_true_2.
  - intros i' h' Hh' Hp'. cbn in Hp'. go_bool. pose proof (hw_key _ _ (wf_threads _ Hw) _ _ Hh'). congruence.
Qed.

(** An open Issue in a stored row is of a valid type. *)
Lemma stored_issue_type h :
  task_threads_checks h = true -> h_role h = ThreadRoleIssue -> IssueThreadType_Valid (of_null (h_issue_type h)) = true.
Proof.
  unfold task_threads_checks. intros Hc Hr. apply andb_true_iff in Hc as [Hc Hs].
  unfold thread_identity_checks in Hc. go_bool. rewrite Hr in Hs.
  destruct (h_issue_type h) as [ty|].
  - match goal with Hx : check_ok (tin (Some ty) _) = true |- _ => apply check_in in Hx as Hin end.
    repeat (apply elem_of_cons in Hin as [->|Hin]; [reflexivity|]). by apply elem_of_nil in Hin.
  - cbn in Hs. discriminate Hs.
Qed.

Record answerable (w : World) (k i : UUID) (hr : ThreadRow) (req : ItemRow) (now : Time) : Prop := {
  an_wf : wf (w_db w);
  an_rows : rows_ok (w_db w);
  an_row : task_threads (w_db w) !! i = Some hr;
  an_id : h_id hr = i;
  an_open : is_open_issue k hr = true;
  an_request : exists j, task_thread_items (w_db w) !! j = Some req /\
    i_kind req = ThreadItemKindResolutionRequest;
  an_clock : h_created_at hr <= now;
}.

Lemma answer_payload_valid w k i hr req resolution actor now :
  answerable w k i hr req now -> validThreadActor actor = true -> blank resolution = false ->
  Time_IsZero now = false ->
  IssueResolutionPayload_Validate
    (mkIssueResolutionPayload i (of_null (h_issue_type hr)) (of_null (i_body req)) resolution
       (th_OpenedBy (scanTaskThread hr)) actor (h_created_at hr) now) = Ok tt.
Proof.
  intros [Hw Hro Hrow Hid Ho (j & Hj & Hjk) Hclk] Hva Hb Hon.
  pose proof Ho as (_ & Hhr & Hhs)%is_open_issue_true.
  destruct (ro_threads _ Hro _ _ Hrow) as (Hchk & Hin & Hct & Hop). destruct (Hop Hhs) as [_ Hopn].
  unfold IssueResolutionPayload_Validate, Time_Before. cbn.
  rewrite (bool_decide_eq_false_2 (i = _)) by done. rewrite (stored_issue_type _ Hchk Hhr), Hb, Hva.
  rewrite (ro_requests _ Hro _ _ Hj Hjk). cbn in Hopn. rewrite Hopn, Hct, Hon.
  by rewrite (proj2 (Z.ltb_ge now (h_created_at hr))).
Qed.

Lemma resolve_issue_possible w task k i hr req resolution actor op now :
  answerable w k i hr req now -> fresh_from (w_next w) (w_db w) -> caller_ok (w_db w) op now ->
  validateThreadOperationActor actor op = Ok tt -> blank resolution = false ->
  is_Some (task_threads (w_db w) !! wt_MainThreadID task) -> wt_MainThreadID task <> uuid_Nil ->
  exists issue' item1 h' item2,
    let d' := add_item item2 (put_thread i h' (add_item item1 (w_db w))) in
    resolve_issue task (scanTaskThread hr) (scanTaskThreadItem [] req) (h_version hr) resolution actor op now w
    = (Ok issue', mkWorld d' (S (S (w_next w)))) /\
    i_id item1 = uuid_seq (w_next w) /\ i_id item2 = uuid_seq (S (w_next w)).
Proof.
  intros [Hw Hro Hrow Hid Ho (j & Hj & Hjk) Hclk] Hfr Hca Ha Hb Hm Hmn.
  pose proof Hca as [Hov Hou Hot Hon].
  destruct (validate_actor_valid _ _ Ha) as [Hva Hau].
  pose proof Ho as (Hht & Hhr & Hhs)%is_open_issue_true.
  destruct (ro_threads _ Hro _ _ Hrow) as (Hchk & Hin & Hct & Hop). destruct (Hop Hhs) as [Hver Hopn].
  pose proof (validate_op_rid _ Hov) as Hrid.
  set (answer := workflow_item (uuid_seq (w_next w)) i ThreadItemKindResolution actor resolution None now).
  destruct (text_item_ok (uuid_seq (w_next w)) i ThreadItemKindResolution actor resolution now (op_RequestID op))
    as [Hiv Hic]; try done; [set_solver|apply uuid_seq_ne|].
  set (issue' := th_resolved (scanTaskThread hr) actor now).
  set (p := mkIssueResolutionPayload i (of_null (h_issue_type hr)) (of_null (i_body req)) resolution
              (th_OpenedBy (scanTaskThread hr)) actor (h_created_at hr) now).
  assert (IssueResolutionPayload_Validate p = Ok tt) as Hp by (eapply answer_payload_valid; eauto; by split; eauto).
  destruct (record_item_ok (uuid_seq (S (w_next w))) (wt_MainThreadID task) p now (op_RequestID op))
    as [Hrv Hrc]; try done; [apply uuid_seq_ne|].
  eexists issue', (item_row answer (op_RequestID op)), (set_resolved_row hr issue' actor),
    (item_row (workflow_item (uuid_seq (S (w_next w))) (wt_MainThreadID task) ThreadItemKindIssueResolution
       systemActor "" (Some p) now) (op_RequestID op)).
  cbv zeta. rewrite !item_row_id. split_and!; [|done..].
  assert (forall u, (actorColumns actor).1 = Some u -> u ∈ users (w_db w)) as Hu.
  { intros u Hx. by rewrite (Hau _ Hx). }
  apply M_bind_Ok. eexists answer, _. split.
  { apply insertWorkflowItem_Ok. cbn [th_ID scanTaskThread]. rewrite Hid. split; [reflexivity|]. split; [done|].
    split; [|reflexivity]. apply item_row_insertable; try done; [by apply (fr_items _ _ Hfr)|].
    intros _. by eapply (iw_unanswered _ _ (wf_items _ Hw)). }
  apply M_bind_Ok. eexists issue', _. split.
  { apply lift_Ok. split; [|reflexivity]. apply Thread_Resolve_Ok. cbn. by rewrite Hhs. }
  apply M_bind_Ok. eexists tt, _. split.
  { apply persistResolvedIssue_Ok. exists actor, hr. cbn [th_ID issue' th_resolved scanTaskThread]. rewrite Hid.
    split; [|reflexivity]. split; try done; cbn [th_ID issue' th_resolved scanTaskThread].
    - by rewrite Hid.
    - by apply set_resolved_row_checks.
    - unfold set_resolved_row. destruct (actorColumns actor) as [[u|] ref]; [|done]. cbn in Hu |- *.
      apply bool_decide_eq_true. auto. }
  apply M_bind_Ok. eexists now, _. split; [apply or_err_Ok; split; reflexivity|]. cbn zeta.
  apply M_bind_Ok. eexists _, _. split; [|by apply M_ret_Ok].
  apply insertWorkflowItem_Ok. cbn [th_ID issue' th_resolved scanTaskThread]. rewrite Hid.
  split; [reflexivity|]. split; [done|]. split; [|reflexivity].
  apply item_row_insertable; try done; cbn.
  - rewrite item_row_id. rewrite lookup_insert_ne; [by apply (fr_items _ _ Hfr); lia|].
    cbn. intros E%uuid_seq_inj. lia.
  - rewrite lookup_insert_is_Some. destruct (decide (i = wt_MainThreadID task)); [by left|by right].
  - by intros [|].
Qed.

(** ** Cancelling *)

(** What a command relies on of the workspace it runs in: consistent tables within their
    constraints, unused identifiers, a caller that is known, and a clock that has not run back. *)
Record workspace_ok (w : World) (actor : Actor) (op : OperationActor) (now : Time) : Prop := {
  wo_wf : wf (w_db w);
  wo_rows : rows_ok (w_db w);
  wo_fresh : fresh_from (w_next w) (w_db w);
  wo_caller : caller_ok (w_db w) op now;
  wo_actor : validateThreadOperationActor actor op = Ok tt;
  wo_clock : forall i h, task_threads (w_db w) !! i = Some h -> h_created_at h <= now;
}.

(** The Task [r] is in the workflow in the state [ws], with Main Thread [h]. *)
Lemma row_loaded d n r ws :
  wf d -> task_by_number d n = Some r -> row_in r ws ->
  exists h l, loaded d n r h l /\ represents l ws /\ 0 <= ReviewCycle l /\
    task_threads d !! h_id h = Some h.
Proof.
  intros Hw Hn (l & Hl & Hr). pose proof Hn as [Hk _]%task_by_number_Some; [|apply Hw].
  pose proof (tw_lifecycle _ (wf_tasks _ Hw) _ _ _ Hk Hl) as Hv.
  destruct (hw_main _ _ (wf_threads _ Hw) _ _ _ Hk Hl) as (i & h & Hi & Hm).
  pose proof (hw_key _ _ (wf_threads _ Hw) _ _ Hi) as Hid.
  exists h, l. split_and!; [|done|by apply TaskLifecycle_Validate_represents in Hv as [_ ?]|congruence].
  split_and!; try done. unfold main_thread. eapply select_one_unique; [exact Hi|exact Hm|].
  intros j h' Hj Hm'. pose proof (hw_one_main _ _ (wf_threads _ Hw) _ _ _ _ _ Hi Hj Hm Hm'). congruence.
Qed.

Lemma systemActor_valid : validThreadActor systemActor = true.
Proof. reflexivity. Qed.

Lemma version_positive r : tasks_checks r = true -> 0 < t_version r.
Proof. unfold tasks_checks. intros Hc. go_bool. done. Qed.

Lemma cancelled_body reason : blank ("Task cancelled: " +:+ reason) = false.
Proof. apply blank_first. reflexivity. Qed.

(** The end of [CancelTask], from where the Claim or the Issue has been closed. *)
Lemma cancel_end w task v now op r reason l' ec ri :
  run_command CCancel (wt_Lifecycle task) = Ok l' ->
  recordable w (with_Lifecycle task l') v now op r Cancelled ->
  exists res w',
    (l ← lift (TaskLifecycle_Cancel (wt_Lifecycle task));
     let task := with_Lifecycle task l in
     task ← persistWorkflowTask task v now;
     _ ← system_event task ("Task cancelled: " +:+ reason) op now;
     _ ← insertWorkflowAudit task op "task_cancelled" now;
     mret (mkCancelTaskResult (wt_snapshot task) ec ri)) w = (Ok res, w').
Proof.
  intros Hl Hr. destruct (record_possible _ _ _ _ _ _ _ ThreadItemKindSystemEvent systemActor
    ("Task cancelled: " +:+ reason) "task_cancelled" Hr) as (task' & item & w1 & w2 & w3 & E1 & E2 & E3 & _);
    try done; [set_solver|apply cancelled_body|].
  eapply bind_possible; [by apply lift_Ok|]. cbv zeta. run_as E1. run_as E2. run_as E3. by eexists _, _.
Qed.

(** Closing a Claim or an Issue leaves the Task rows, the callers and the Main Thread in place. *)
Record undisturbed (w w' : World) (main : UUID) : Prop := {
  un_tasks : tasks (w_db w') = tasks (w_db w);
  un_users : users (w_db w') = users (w_db w);
  un_tokens : api_tokens (w_db w') = api_tokens (w_db w);
  un_main : is_Some (task_threads (w_db w') !! main);
  un_fresh : fresh_from (w_next w') (w_db w');
}.

Section cancelling.
Context (w : World) (n : Z) (r : TaskRow) (h : ThreadRow) (l : TaskLifecycle) (ws : WorkState)
  (reason : string) (actor : Actor) (op : OperationActor) (now : Time)
  (Hok : workspace_ok w actor op now) (Hk : tasks (w_db w) !! t_id r = Some r)
  (Hl : row_lifecycle r = Some l) (Hrep : represents l ws)
  (Hh : task_threads (w_db w) !! h_id h = Some h) (Hhn : h_id h <> uuid_Nil).

Lemma cancel_claim_possible :
  exists ec w1,
    (if Activity l == TaskActivityWorking then
       claim ← lockActiveTaskStageClaim (t_id r);
       claim ← complete_claim claim TaskClaimOutcomeTaskCancelled now;
       mret (Some claim)
     else mret None) w = (Ok ec, w1) /\ undisturbed w w1 (h_id h) /\
    ((exists st, ws = NeedsResolution st) -> w1 = w).
Proof using Hok Hk Hl Hrep Hh Hhn.
  destruct Hok as [Hw Hro Hfr Hca Ha Hclk]. case_bool_decide as Hact.
  - assert (exists st, ws = Working st) as (st & ->).
    { destruct ws as [| |[]|st|[]| |]; try (by eexists); injection Hrep as _ E; by rewrite E in Hact. }
    destruct (cw_working _ _ (wf_claims _ Hw) _ _ st Hk) as (i & c & Hc & Ht & Hs); [by eexists|].
    pose proof (cw_key _ _ (wf_claims _ Hw) _ _ Hc) as <-.
    assert (active_claim (w_db w) (t_id r) = Some c) as Hac by (apply active_claim_wf; [apply Hw|done]).
    pose proof (complete_claim_possible w c TaskClaimOutcomeTaskCancelled now StageClaimStatusCancelled
      Hw Hro Hc Hs eq_refl eq_refl) as E. cbv zeta in E.
    eexists _, _. split; [|split; [|by intros [? [=]]]].
    { apply M_bind_Ok. eexists _, _. split; [apply lockActiveTaskStageClaim_Ok; split; [reflexivity|]; eauto|].
      apply M_bind_Ok. eexists _, _. split; [exact E|done]. }
    split; try done; cbn. by eapply fresh_put_claim.
  - exists None, w. split; [done|]. split; [|done]. split; try done; by eexists.
Qed.

Lemma cancel_issue_possible w1 :
  undisturbed w w1 (h_id h) -> ((exists st, ws = NeedsResolution st) -> w1 = w) ->
  exists ri w2,
    (if Activity l == TaskActivityNeedsResolution then
       issueID ← or_err (t_active_issue_thread_id r) ErrConflict;
       issue ← lockIssueThread (t_id r) issueID;
       requestItem ← getIssueRequest (th_ID issue);
       let previousThreadVersion := th_Version issue in
       issue ← resolve_issue (load r (h_id h) l) issue requestItem previousThreadVersion
                 ("Task cancelled: " +:+ reason) actor op now;
       mret (with_ActiveIssueThreadID (load r (h_id h) l) None, Some issue)
     else mret (load r (h_id h) l, None)) w1
    = (Ok (with_ActiveIssueThreadID (load r (h_id h) l) None, ri), w2) /\ undisturbed w w2 (h_id h).
Proof using Hok Hk Hl Hrep Hh Hhn.
  intros Hun Hsame. destruct Hok as [Hw Hro Hfr Hca Ha Hclk]. case_bool_decide as Hact.
  - assert (exists st, ws = NeedsResolution st) as (st & ->).
    { destruct ws as [| |[]|[]|st| |]; try (by eexists); injection Hrep as _ E; by rewrite E in Hact. }
    specialize (Hsame (ex_intro _ st eq_refl)) as ->.
    destruct (blocked_issue _ _ _ st Hw Hk) as (i & hr & req & j & Hi & Hhr & Hid & Ho & [Hs1 Hs2] & Hj & Hjk);
      [by eexists|].
    destruct (resolve_issue_possible w (load r (h_id h) l) (t_id r) i hr req ("Task cancelled: " +:+ reason)
      actor op now) as (issue' & item1 & h' & item2 & E & E1 & E2); try done;
      [split; eauto|apply cancelled_body|].
    cbv zeta in E. eexists _, _. split.
    { rewrite Hi. do 3 (apply M_bind_Ok; eexists _, w; split;
        [unfold lockIssueThread, getIssueRequest, or_err; run_fwd; rewrite ?Hs1; run_fwd;
         cbn [th_ID scanTaskThread]; rewrite ?Hs2; reflexivity|]; cbv zeta).
      apply M_bind_Ok. eexists _, _. split; [exact E|done]. }
    split; try done; cbn.
    + rewrite lookup_insert_is_Some. destruct (decide (i = h_id h)); [by left|right]. by split; [|eexists].
    + apply fresh_add_item; [|done]. eapply fresh_put_thread; [|exact Hhr]. by apply fresh_add_item.
  - exists None, w1. split; [|done]. unfold load.
    rewrite (stored_no_issue r ws); [done|by eapply ro_tasks|by eexists|].
    intros st ->. by destruct st; injection Hrep as _ E.
Qed.
End cancelling.

Lemma cancel_possible w n r ws reason actor op now :
  workspace_ok w actor op now -> task_by_number (w_db w) n = Some r -> row_in r ws -> ~ terminal ws ->
  t_version r < MaxInt64 -> blank reason = false ->
  exists res w', CancelTask n (t_version r) reason actor op now w = (Ok res, w').
Proof.
  intros Hok Hn Hin Hnt Hmax Hb. pose proof Hok as [Hw Hro Hfr Hca Ha Hclk].
  destruct (row_loaded _ _ _ _ Hw Hn Hin) as (h & l & Hld & Hrep & Hcy & Hh).
  pose proof Hn as [Hk _]%task_by_number_Some; [|apply Hw]. pose proof Hld as (_ & _ & Hl & _).
  destruct (ro_tasks _ Hro _ _ Hk) as [Hchk Hnil]. pose proof (version_positive _ Hchk) as Hpos.
  destruct (ro_threads _ Hro _ _ Hh) as (_ & Hhn & _).
  destruct (run_command_complete CCancel l ws Cancelled Hrep Hcy (edge_cancel _ Hnt)) as (l' & Hl' & Hrep').
  destruct (cancel_claim_possible _ _ h _ _ _ _ _ Hok Hk Hl Hrep Hh Hhn) as (ec & w1 & E1 & Hun1 & Hsame).
  destruct (cancel_issue_possible _ _ h _ _ reason _ _ _ Hok Hk Hl Hrep Hh Hhn w1 Hun1 Hsame)
    as (ri & w2 & E2 & [ET EU EA Hth Hf]).
  apply (bind_possible _ _ _ tt w); [apply throw_if_Ok; by split|].
  apply (bind_possible _ _ _ tt w); [apply lift_Ok; by split|]. apply transaction_possible.
  apply (bind_possible _ _ _ (load r (h_id h) l) w); [apply lockWorkflowTask_Ok; eauto 10|].
  run_guard; [cbn; by rewrite bool_decide_eq_true_2|]. run_as E1. run_as E2.
  eapply cancel_end; [exact Hl'|]. destruct Hca. split; cbn; try done; rewrite ?ET; try done.
  - by destruct (run_command_sound _ _ _ Hl') as (_ & _ & _ & _ & _ & ->).
  - split; [done|]. by intros [].
  - split; rewrite ?EU, ?EA; eauto.

Qed.

End progress.
