(* ===== verification/ClaimProgress.v ===== *)
(** * Claiming is possible

    A Task that is ready, that waits for its stage, or whose Claim is past its deadline can be
    claimed by every valid caller: the new Claim satisfies the constraints of its table, and an
    expired one is closed in the same transaction. *)

From stdpp Require Import base tactics strings gmap list numbers sorting.
From S2P Require Import Prelude Actors Lifecycle StageClaim Delivery Thread Acceptance.
From S2P Require Import Database Tx ThreadStore ClaimStore WorkflowStore WorkflowCommands.
From S2P Require Import WorkflowEffects WorkflowInvariant WorkflowOutcomes WorkflowSafety StoreCommands Refinement History.
From S2P Require Import Changes Records Progress.

(** ** A new Claim is within the constraints *)

(** What a claimant needs besides being a valid caller: a token has a name, a run is recorded. *)
Record claimant_ok (d : DB) (op : OperationActor) : Prop := {
  cm_token : forall t, op_TokenID op = Some t -> blank (op_TokenName op) = false;
  cm_run : forall a, op_AgentRunID op = Some a -> a ∈ agent_runs d;
}.

(** The three kinds of callers. *)
Lemma caller_cases actor op :
  validateThreadOperationActor actor op = Ok tt ->
  (op_AuthMethod op = AuthenticationMethodSession /\ actor_Type actor = ActorTypeUser /\
   actor_UserID actor = Some (op_UserID op) /\ op_TokenID op = None /\ op_TokenName op = "" /\
   op_AgentRunID op = None) \/
  (op_AuthMethod op = AuthenticationMethodAPIToken /\ actor_Type actor = ActorTypeAgent /\
   blank (actor_Ref actor) = false /\ op_AgentRunID op = None /\
   exists t, op_TokenID op = Some t /\ t <> uuid_Nil) \/
  (op_AuthMethod op = AuthenticationMethodAgentDelegate /\ actor_Type actor = ActorTypeAgent /\
   blank (actor_Ref actor) = false /\ op_TokenID op = None /\ op_TokenName op = "" /\
   exists a, op_AgentRunID op = Some a /\ a <> uuid_Nil).
Proof.
  unfold validateThreadOperationActor, OperationActor_Validate. intros Hv.
  apply bind_Ok in Hv as (? & Hop & Hv). apply bind_Ok in Hop as (? & _ & Hop).
  destruct op as [u m t tn a rq], actor as [ty au ref]. cbn in *.
  destruct (decide (m = AuthenticationMethodSession)) as [->|N1];
    [|destruct (decide (m = AuthenticationMethodAPIToken)) as [->|N2];
      [|destruct (decide (m = AuthenticationMethodAgentDelegate)) as [->|N3]]];
    rewrite ?(bool_decide_eq_false_2 _ N1), ?(bool_decide_eq_false_2 _ N2), ?(bool_decide_eq_false_2 _ N3) in Hop;
    try discriminate Hop; cbn in Hop; go_inv; try done.
  - left. by split_and!; try apply present_false.
  - right; left. destruct t as [t|]; [|done]. cbn in *. go_bool. split_and!; try done; [by apply present_false|eauto].
  - right; right. destruct a as [a|]; [|done]. cbn in *. go_bool.
    split_and!; try done; [by apply present_false|eauto].
Qed.

Lemma new_claim_valid d id tid n st actor op ck cs now :
  validateThreadOperationActor actor op = Ok tt -> claimant_ok d op -> id <> uuid_Nil -> tid <> uuid_Nil ->
  1 <= n -> 0 < now ->
  exists claim, NewTaskStageClaim id tid n (stage_text st) actor op ck cs now = Ok claim.
Proof.
  intros Ha [Ht _] Hid Htid Hn Hnow. destruct (validate_actor_valid _ _ Ha) as [Hva _].
  pose proof (validate_actor_op _ _ Ha) as Hop. pose proof (validate_op_user _ Hop) as Hu.
  unfold NewTaskStageClaim. rewrite Hop. cbn [mbind result_mbind]. cbv zeta.
  match goal with |- context [TaskStageClaim_Validate ?c] => assert (TaskStageClaim_Validate c = Ok tt) as -> end;
    [|by eexists].
  unfold TaskStageClaim_Validate. cbn -[validThreadActor validateTaskClaimAuthentication].
  rewrite Hva, (bool_decide_eq_false_2 (id = _)), (bool_decide_eq_false_2 (tid = _)),
    (bool_decide_eq_false_2 (op_UserID op = _)) by done.
  rewrite (proj2 (Z.ltb_ge n 1)) by lia.
  unfold Time_IsZero. rewrite (bool_decide_eq_false_2 (now = 0)) by lia.
  rewrite (bool_decide_eq_false_2 (now + TaskClaimActiveLifetime = 0))
    by (unfold TaskClaimActiveLifetime, Hour; lia).
  assert (TaskClaimStage_Valid (stage_text st) = true) as -> by by destruct st.
  cbn -[validateTaskClaimAuthentication].
  match goal with |- context [validateTaskClaimAuthentication ?c] =>
    assert (validateTaskClaimAuthentication c = Ok tt) as -> end; [|reflexivity].
  unfold validateTaskClaimAuthentication. cbn.
  destruct (caller_cases _ _ Ha) as [(E1 & E2 & E3 & E4 & E5 & E6)|[(E1 & E2 & E3 & E4 & t & E5 & E6)|
    (E1 & E2 & E3 & E4 & E5 & a & E6 & E7)]]; rewrite E1, E2; cbn.
  - rewrite E3, E4, E6, (bool_decide_eq_true_2 (Some _ = Some _)) by done. reflexivity.
  - rewrite E4, E5, (Ht _ E5). cbn. rewrite (bool_decide_eq_false_2 (t = _)) by done. reflexivity.
  - rewrite E4, E6. cbn. rewrite (bool_decide_eq_false_2 (a = _)) by done. reflexivity.
Qed.

Lemma new_claim_checks d id tid n st actor op ck cs now claim :
  NewTaskStageClaim id tid n (stage_text st) actor op ck cs now = Ok claim ->
  validateThreadOperationActor actor op = Ok tt -> claimant_ok d op ->
  task_stage_claims_checks (claim_row claim) = true.
Proof.
  intros (_ & _ & ->)%NewTaskStageClaim_Ok Ha [Ht _].
  unfold task_stage_claims_checks, claim_identity_checks, claim_row. cbn [sc_ClaimedBy].
  destruct (actorColumns actor) as [u ref] eqn:Ec. cbn -[Z.ltb].
  assert ((now <? now + TaskClaimActiveLifetime) = true) as ->
    by (apply Z.ltb_lt; unfold TaskClaimActiveLifetime, Hour; lia).
  unfold actorColumns in Ec.
  destruct (caller_cases _ _ Ha) as [(E1 & E2 & E3 & E4 & E5 & E6)|[(E1 & E2 & E3 & E4 & t & E5 & E6)|
    (E1 & E2 & E3 & E4 & E5 & a & E6 & E7)]]; rewrite E2 in Ec |- *; rewrite E1; cbn in Ec;
    injection Ec as <- <-.
  - rewrite E3, E4, E5, E6. cbn. rewrite (bool_decide_eq_true_2 (op_UserID op = _)) by done.
    destruct st; reflexivity.
  - rewrite E4, E5, !nullIfEmpty_blank by eauto. cbn -[GoStrings.btrim_empty].
    rewrite !blank_btrim by eauto. destruct st; reflexivity.
  - rewrite E4, E5, E6, nullIfEmpty_blank by eauto. cbn -[GoStrings.btrim_empty].
    rewrite !blank_btrim by eauto. destruct st; reflexivity.
Qed.

Section claiming.
Context `{UUIDSource}.

Lemma fresh_new_claim n d c : fresh_from n d -> fresh_from (S n) (put_claim (uuid_seq n) c d).
Proof.
  intros [Fc Ft Fi Fa]. split; cbn; intros m Hm; try (by (apply Ft || apply Fi || apply Fa); lia).
  rewrite lookup_insert_ne; [apply Fc; lia|]. intros E%uuid_seq_inj. lia.
Qed.

Lemma claim_fks_ok d op actor claim now :
  caller_ok d op now -> claimant_ok d op -> validateThreadOperationActor actor op = Ok tt ->
  is_Some (tasks d !! sc_TaskID claim) -> sc_ClaimedBy claim = actor -> sc_SubjectUserID claim = op_UserID op ->
  sc_APITokenID claim = op_TokenID op -> sc_AgentRunID claim = op_AgentRunID op ->
  claim_fks d (claim_row claim) = true.
Proof.
  intros [_ Hu Ht _] [_ Hr] Ha Hk E1 E2 E3 E4. destruct (validate_actor_valid _ _ Ha) as [_ Hau].
  unfold claim_fks, claim_row. rewrite E1. destruct (actorColumns actor) as [u ref]. cbn in Hau |- *.
  rewrite E2, E3, E4, (bool_decide_eq_true_2 (op_UserID op ∈ _)) by done.
  rewrite (bool_decide_eq_true_2 (sc_TaskID claim ∈ _)) by by apply elem_of_dom.
  assert (fk u (users d) = true) as ->.
  { destruct u as [u|]; [|done]. rewrite (Hau u eq_refl). by apply bool_decide_eq_true. }
  destruct (op_TokenID op), (op_AgentRunID op); cbn; rewrite ?bool_decide_eq_true_2 by auto; done.
Qed.

(** The stage that a claimable state starts. *)
Definition claims_stage (ws : WorkState) (st : Stage) : Prop :=
  (ws = Ready /\ st = Execution) \/ ws = Available st.

Lemma lifecycle_claim l ws st :
  represents l ws -> claims_stage ws st ->
  exists l', TaskLifecycle_Claim l false = Ok (stage_text st, l') /\ represents l' (Working st) /\
    ReviewCycle l' = ReviewCycle l.
Proof.
  destruct l as [ph act cy]. unfold represents. cbn. intros Hr [[-> ->]| ->]; [|destruct st];
    injection Hr as -> ->; eexists; done.
Qed.

Lemma claim_body (st : Stage) : blank (stage_text st +:+ " Claim started") = false.
Proof. destruct st; by apply blank_first. Qed.

Section stage.
Context (w : World) (task : workflowTask) (v : Z) (r : TaskRow) (actor : Actor) (op : OperationActor)
  (ck cs : string) (now : Time) (ws : WorkState) (st : Stage)
  (Hrow : tasks (w_db w) !! wt_TaskID task = Some r) (Hid : wt_TaskID task <> uuid_Nil)
  (Hv : t_version r = v) (Hvs : 0 < v < MaxInt64) (Hn : 1 <= wt_TaskNumber task) (Hnow : 0 < now)
  (Harch : wt_ArchivedAt task = None) (Hai : wt_ActiveIssueThreadID task = None)
  (Hrep : represents (wt_Lifecycle task) ws) (Hcy : 0 <= ReviewCycle (wt_Lifecycle task))
  (Hst : claims_stage ws st) (Hac : active_claim (w_db w) (wt_TaskID task) = None)
  (Hm : is_Some (task_threads (w_db w) !! wt_MainThreadID task)) (Hmn : wt_MainThreadID task <> uuid_Nil)
  (Hfr : fresh_from (w_next w) (w_db w)) (Hca : caller_ok (w_db w) op now)
  (Hcl : claimant_ok (w_db w) op) (Ha : validateThreadOperationActor actor op = Ok tt).

Lemma claim_end :
  exists res w',
    ('(stage, l) ← lift (TaskLifecycle_Claim (wt_Lifecycle task) (present (wt_ArchivedAt task)));
     let task := with_Lifecycle task l in
     id ← uuid_New;
     claim ← lift (NewTaskStageClaim id (wt_TaskID task) (wt_TaskNumber task) stage actor op ck cs now);
     _ ← insertTaskStageClaim claim;
     task ← persistWorkflowTask task v now;
     _ ← system_event task (stage +:+ " Claim started") op now;
     _ ← insertWorkflowAudit task op "claimed" now;
     mret (wt_snapshot task, claim)) w = (Ok res, w').
Proof using All.
  destruct (lifecycle_claim _ _ _ Hrep Hst) as (l' & Hl' & Hrep' & Hcy').
  destruct (new_claim_valid (w_db w) (uuid_seq (w_next w)) (wt_TaskID task) (wt_TaskNumber task) st actor op ck cs
    now) as (claim & Hnew); try done; [apply uuid_seq_ne|].
  pose proof (new_claim_checks _ _ _ _ _ _ _ _ _ _ _ Hnew Ha Hcl) as Hchk.
  pose proof (NewTaskStageClaim_Ok _ _ _ _ _ _ _ _ _ _ Hnew) as (_ & Hval & Ecl).
  eapply bind_possible; [apply lift_Ok; split; [rewrite Harch; exact Hl'|reflexivity]|].
  cbv beta iota zeta. eapply bind_possible; [by apply uuid_New_Ok|].
  eapply bind_possible; [apply lift_Ok; split; [exact Hnew|reflexivity]|].
  eapply (bind_possible _ _ _ tt).
  { apply insertTaskStageClaim_Ok. split; [|reflexivity]. split; try done.
    - rewrite Ecl. by apply (fr_claims _ _ Hfr).
    - unfold one_active_violated. destruct (claim_row_fields claim) as (-> & _).
      rewrite Ecl. cbn. by rewrite Hac, andb_false_r.
    - eapply claim_fks_ok; [exact Hca|exact Hcl|exact Ha|..]; rewrite Ecl; done. }
  assert (sc_ID claim = uuid_seq (w_next w)) as -> by by rewrite Ecl.
  edestruct (record_possible (mkWorld (put_claim (uuid_seq (w_next w)) (claim_row claim) (w_db w)) (S (w_next w)))
    (with_Lifecycle task l') v now op r (Working st) ThreadItemKindSystemEvent systemActor
    (stage_text st +:+ " Claim started") "claimed") as (task' & item & w1 & w2 & w3 & E1 & E2 & E3 & _);
    try done; [|set_solver|apply claim_body|].
  - split; cbn; try done; rewrite ?Hcy', ?Hai; try done;
      [split; [done|by intros []]|by destruct Hca|by apply fresh_new_claim].
  - run_as E1. run_as E2. run_as E3. by eexists _, _.
Qed.
End stage.

Lemma expired_body (st : Stage) : blank (stage_text st +:+ " Claim expired") = false.
Proof. destruct st; by apply blank_first. Qed.

(** A Claim that is past its deadline can be expired by whoever comes next. *)
Lemma expire_possible w n r h l st actor op now c :
  workspace_ok w actor op now -> loaded (w_db w) n r h l -> tasks (w_db w) !! t_id r = Some r ->
  represents l (Working st) -> active_claim (w_db w) (t_id r) = Some c -> c_expires_at c <= now ->
  task_threads (w_db w) !! h_id h = Some h -> h_id h <> uuid_Nil ->
  exists l1 w1, expireDueWorkflowClaim (load r (h_id h) l) op now w
      = (Ok (with_Lifecycle (load r (h_id h) l) l1), w1) /\
    represents l1 (Available st) /\ ReviewCycle l1 = ReviewCycle l /\ undisturbed w w1 (h_id h) /\
    agent_runs (w_db w1) = agent_runs (w_db w) /\ active_claim (w_db w1) (t_id r) = None.
Proof.
  intros [Hw Hro Hfr Hca Ha Hclk] Hld Hk Hrep Hac Hdue Hh Hhn. pose proof Hld as (_ & _ & Hl & _).
  pose proof Hac as (Hc & Ht & Hs)%active_claim_wf; [|apply Hw].
  destruct (active_working _ _ _ _ Hw Hk Hl Hac) as (st' & Hrep' & Est).
  injection (represents_fun _ _ _ Hrep Hrep') as <-.
  pose proof (complete_claim_possible w c TaskClaimOutcomeDeadlineElapsed now StageClaimStatusExpired
    Hw Hro Hc Hs eq_refl eq_refl) as E. cbv zeta in E.
  set (w1 := mkWorld _ _) in E.
  assert (TaskLifecycle_Release l (c_stage c) = Ok (mkTaskLifecycle (Phase l) TaskActivityAvailable (ReviewCycle l)))
    as Hrel.
  { rewrite Est. destruct l as [ph act cy]. unfold represents in Hrep. cbn in Hrep.
    destruct st; injection Hrep as -> ->; reflexivity. }
  destruct (text_item_ok (uuid_seq (w_next w)) (h_id h) ThreadItemKindSystemEvent systemActor
    (stage_text st +:+ " Claim expired") now (op_RequestID op)) as [Hiv Hic]; try done;
    [set_solver|apply uuid_seq_ne|apply expired_body|by apply validate_op_rid, Hca|apply Hca|].
  eexists _, _. split.
  { unfold expireDueWorkflowClaim. cbn [wt_Lifecycle load].
    rewrite (bool_decide_eq_true_2 (Activity l = _)) by (destruct l, st; injection Hrep; done).
    cbn [negb]. apply M_bind_Ok. eexists _, w. split; [apply lockActiveTaskStageClaim_Ok; eauto|].
    unfold Time_After. cbn [sc_ExpiresAt scanTaskStageClaim]. rewrite (proj2 (Z.ltb_ge _ _) Hdue).
    apply M_bind_Ok. eexists _, _. split; [exact E|].
    apply M_bind_Ok. eexists _, _. split; [apply lift_Ok; split; [exact Hrel|reflexivity]|]. cbv zeta.
    apply M_bind_Ok. eexists _, _. split; [|apply M_ret_Ok; split; reflexivity].
    apply insertWorkflowItem_Ok. split; [reflexivity|]. cbn [sc_Stage sc_completed scanTaskStageClaim]. rewrite Est.
    split; [exact Hiv|]. split; [|reflexivity].
    apply item_row_insertable; try done; [by apply (fr_items _ _ Hfr)|]. by intros [|]. }
  split_and!; try done.
  - destruct l as [ph act cy]. unfold represents in *. cbn in *. destruct st; by injection Hrep as -> ->.
  - split; try done; cbn. apply fresh_add_item; [|by rewrite item_row_id].
    by eapply fresh_put_claim.
  - apply select_one_None. cbn. intros j q. rewrite lookup_put. intros [[-> ->]|[Hne Hq]].
    { apply not_true_is_false. by intros [_ ?]%is_active_claim_true. }
    apply not_true_is_false. intros [Hq1 Hq2]%is_active_claim_true. apply Hne.
    eapply (cw_one _ _ (wf_claims _ Hw)); eauto. congruence.
Qed.

(** A Task that can be taken: it is ready, waits for its stage, or its Claim is past the deadline. *)
Definition takeable (d : DB) (k : UUID) (now : Time) (ws : WorkState) : Prop :=
  ws = Ready \/ (exists st, ws = Available st) \/
  (exists st c, ws = Working st /\ active_claim d k = Some c /\ c_expires_at c <= now).

(** The state from which a takeable Task is claimed, after the expiry of its Claim if that is due. *)
Lemma claim_prologue_possible w n r h l ws actor op now :
  workspace_ok w actor op now -> loaded (w_db w) n r h l -> tasks (w_db w) !! t_id r = Some r ->
  represents l ws -> takeable (w_db w) (t_id r) now ws ->
  task_threads (w_db w) !! h_id h = Some h -> h_id h <> uuid_Nil ->
  exists l1 w1 ws1 st, expireDueWorkflowClaim (load r (h_id h) l) op now w
      = (Ok (with_Lifecycle (load r (h_id h) l) l1), w1) /\
    represents l1 ws1 /\ claims_stage ws1 st /\ ReviewCycle l1 = ReviewCycle l /\ undisturbed w w1 (h_id h) /\
    agent_runs (w_db w1) = agent_runs (w_db w) /\ active_claim (w_db w1) (t_id r) = None.
Proof.
  intros Hok Hld Hk Hrep Htk Hh Hhn. pose proof Hok as [Hw _ Hfr _ _ _]. pose proof Hld as (_ & _ & Hl & _).
  assert ((exists st, claims_stage ws st) \/ exists st c, ws = Working st /\
    active_claim (w_db w) (t_id r) = Some c /\ c_expires_at c <= now) as [(st & Hst)|(st & c & -> & Hac & Hdue)].
  { destruct Htk as [-> |[(st & ->)|?]]; [left; exists Execution; by left|left; exists st; by right|by right]. }
  - exists l, w, ws, st. split_and!; try done.
    + unfold expireDueWorkflowClaim. cbn [wt_Lifecycle load].
      rewrite (bool_decide_eq_false_2 (Activity l = _)); [done|].
      destruct l as [ph act cy]. unfold represents in Hrep. cbn in *.
      destruct Hst as [[-> ->]| ->]; [|destruct st]; injection Hrep as -> ->; done.
    + destruct (active_claim (w_db w) (t_id r)) as [c|] eqn:Hac; [exfalso|done].
      destruct (active_working _ _ _ _ Hw Hk Hl Hac) as (st' & Hrep' & _).
      pose proof (represents_fun _ _ _ Hrep Hrep') as ->. by destruct Hst as [[? _]|?].
  - destruct (expire_possible _ _ _ _ _ _ _ _ _ _ Hok Hld Hk Hrep Hac Hdue Hh Hhn)
      as (l1 & w1 & ? & ? & ? & ? & ? & ?).
    exists l1, w1, (Available st), st. split_and!; try done. by right.
Qed.

Lemma claim_possible w n r ws actor op ck cs now :
  workspace_ok w actor op now -> claimant_ok (w_db w) op -> 0 < now -> 1 <= n ->
  task_by_number (w_db w) n = Some r -> row_in r ws -> takeable (w_db w) (t_id r) now ws ->
  t_archived_at r = None -> t_version r < MaxInt64 ->
  exists res w', Claim n (t_version r) actor op ck cs now w = (Ok res, w').
Proof.
  intros Hok Hcl Hnow Hpn Hn Hin Htk Harch Hmax. pose proof Hok as [Hw Hro Hfr Hca Ha Hclk].
  destruct (row_loaded _ _ _ _ Hw Hn Hin) as (h & l & Hld & Hrep & Hcy & Hh).
  pose proof Hn as [Hk En]%task_by_number_Some; [|apply Hw]. pose proof Hld as (_ & _ & Hl & _).
  destruct (ro_tasks _ Hro _ _ Hk) as [Hchk Hnil]. pose proof (version_positive _ Hchk) as Hpos.
  destruct (ro_threads _ Hro _ _ Hh) as (_ & Hhn & _).
  destruct (claim_prologue_possible _ _ _ _ _ _ _ _ _ Hok Hld Hk Hrep Htk Hh Hhn)
    as (l1 & w1 & ws1 & st & E & Hrep1 & Hst & Hcy1 & [ET EU EA Hth Hf] & Erun & Hno).
  apply (bind_possible _ _ _ tt w); [apply lift_Ok; by split|]. apply transaction_possible.
  apply (bind_possible _ _ _ (load r (h_id h) l) w); [apply lockWorkflowTask_Ok; eauto 10|].
  run_guard; [cbn; by rewrite bool_decide_eq_true_2|]. run_as E.
  eapply (claim_end w1 (with_Lifecycle (load r (h_id h) l) l1) (t_version r) r); cbn; try done.
  - by rewrite ET.
  - lia.
  - eapply stored_no_issue; [done|exact Hin|]. intros st'.
    destruct Htk as [-> |[(? & ->)|(? & ? & -> & _)]]; discriminate.
  - by rewrite Hcy1.
  - destruct Hca. split; rewrite ?EU, ?EA; eauto.
  - destruct Hcl. split; [done|by rewrite Erun].
Qed.
End claiming.
