(* ===== verification/Demo.v ===== *)
(** * A small workspace

    One Task in the backlog with its Main Thread and one acceptance criterion: the concrete input
    on which the properties of the workflow are exercised. *)

From stdpp Require Import base tactics strings gmap list numbers sorting.
From S2P Require Import Prelude Actors Lifecycle StageClaim Delivery Thread Acceptance.
From S2P Require Import Database Tx ThreadStore ClaimStore WorkflowStore WorkflowCommands.
From S2P Require Import WorkflowEffects WorkflowInvariant WorkflowOutcomes WorkflowSafety StoreCommands Refinement.

Definition alice : UUID := 5%N.
Definition alice_op : OperationActor := SessionOperation alice "req-1".
Definition alice_actor : Actor := mkActor ActorTypeUser (Some alice) "".
Definition demo_brief : TaskBrief :=
  mkTaskBrief "Write it" "It is missing" "It exists" "" "todo" "none" "human_only" None None None None.
Definition demo_task : TaskRow :=
  mkTaskRow 3%N 142 1 (Some "backlog") None (Some 0) None 2%N None 10 None None alice 10 demo_brief.
Definition demo_main : ThreadRow :=
  mkThreadRow 4%N 3%N "main" None None None None None None None None None 1 10 10 None.
Definition demo_criterion : AcceptanceCriterion :=
  mkAcceptanceCriterion 6%N 1 None (Some 3%N) "It works" "Run it" 1 0 None 10 10.

Definition demo_db : DB :=
  {| tasks := {[ 3%N := demo_task ]}; task_stage_claims := ∅; task_threads := {[ 4%N := demo_main ]};
     task_thread_items := ∅; task_thread_item_mentions := ∅;
     acceptance_criteria := {[ 6%N := demo_criterion ]}; acceptance_checks := ∅;
     task_dependencies := ∅; task_code_changes := ∅; business_audit_events := [];
     users := {[ alice ]}; api_tokens := ∅; agent_runs := ∅;
     projects := {[ 2%N ]}; milestones := ∅; labels := ∅; task_labels := ∅; task_activity := []; task_claims := ∅ |}.

Definition demo_world : World := mkWorld demo_db 0.

Lemma demo_wf : wf demo_db.
Proof.
  split; cbn.
  - split.
    + by intros k r [<- <-]%lookup_singleton_Some.
    + by intros k k' r r' [<- <-]%lookup_singleton_Some [<- <-]%lookup_singleton_Some.
    + intros k r l [<- <-]%lookup_singleton_Some [= <-]. reflexivity.
  - split; [by intros i c ?%lookup_empty_Some|by intros i c ?%lookup_empty_Some|
             by intros i j c c' ?%lookup_empty_Some|].
    intros k r st [<- <-]%lookup_singleton_Some (l & [= <-] & E). by destruct st.
  - split.
    + by intros i h [<- <-]%lookup_singleton_Some.
    + intros k r l [<- <-]%lookup_singleton_Some _. exists 4%N, demo_main. done.
    + by intros i j h h' k [<- <-]%lookup_singleton_Some [<- <-]%lookup_singleton_Some.
    + by intros i h k [<- <-]%lookup_singleton_Some (_ & ? & _)%is_open_issue_true.
    + intros k r st [<- <-]%lookup_singleton_Some (l & [= <-] & E). by destruct st.
  - split; [by intros j r ?%lookup_empty_Some..| |];
      by intros i h k [<- <-]%lookup_singleton_Some (_ & ? & _)%is_open_issue_true.
Qed.

(** A delivery from backlog to done, with the check that acceptance needs. *)
Definition demo_check (purpose : AcceptanceCheckPurpose) : AcceptanceCheck :=
  mkAcceptanceCheck 0%N 6%N 1 "passed" "Ran it" Actor_zero purpose None None 0.
Definition demo_uuid (n : nat) : UUID := counting_uuid n.

Definition demo_delivery : list StoreCommand :=
  [SMarkReady 142 1 alice_op 20;
   SClaim 142 2 alice_actor alice_op "web" "s1" 30;
   SCompleteExecution 142 (demo_uuid 2) 3 1 "Done" [] alice_actor alice_op 40;
   SClaim 142 4 alice_actor alice_op "web" "s1" 50;
   SRecordAcceptanceCheck 142 (demo_uuid 7) 5 1 (demo_check "") alice_actor alice_op 60;
   SAcceptTask 142 (demo_uuid 7) 5 1 "Accepted" alice_actor alice_op 70].

