(* ===== verification/WorkflowProperties.v ===== *)
(** * Properties of the workflow

    The theorems about sequences of store commands, with the concrete runs on which each was
    exercised: consistency, refinement of the workflow diagram, optimistic concurrency control,
    atomicity, ownership and the evidence that acceptance needs. *)

From stdpp Require Import base tactics strings gmap list numbers sorting.
From S2P Require Import Prelude Actors Lifecycle StageClaim Delivery Thread Acceptance.
From S2P Require Import Database Tx ThreadStore ClaimStore WorkflowStore WorkflowCommands.
From S2P Require Import WorkflowEffects WorkflowInvariant WorkflowOutcomes WorkflowSafety StoreCommands Refinement History.
From S2P Require Import Demo.

Section properties.
Context `{UUIDSource}.

(** ** Consistency *)

(** C1: whatever sequence of workflow and thread commands runs, in any order, by any callers and
    with any failures, the tables stay consistent: a Task is worked on exactly when it has one
    active Claim (of the stage of its phase), waits for a resolution exactly when it has one open
    Issue Thread (opened from its phase, with its request and no resolution), and keeps a valid
    lifecycle and its one Main Thread. *)
Theorem workflow_consistent cs w (Hw : wf (w_db w)) : wf (w_db (after_all cs w)).
Proof. by apply after_all_wf. Qed.

(** At any time a Task has at most one active Claim, and it has one exactly when it is being
    worked on, for the stage of its phase. *)
Theorem claim_exclusive cs w n r (Hw : wf (w_db w)) (d := w_db (after_all cs w))
  (Hr : task_by_number d n = Some r) :
  (forall st, row_in r (Working st) <->
     exists claim, GetActiveForTaskNumber d n = Ok claim /\ sc_Stage claim = stage_text st) /\
  (forall i j c c', task_stage_claims d !! i = Some c -> task_stage_claims d !! j = Some c' ->
     is_active_claim (t_id r) c = true -> is_active_claim (t_id r) c' = true -> i = j).
Proof.
  assert (wf d) as Hd by (by apply after_all_wf). clearbody d.
  apply task_by_number_Some in Hr as Hr'; [|apply Hd]. destruct Hr' as [Hk Hn].
  unfold GetActiveForTaskNumber. rewrite Hr. split.
  - intros st. split.
    + intros Hin. destruct (cw_working _ _ (wf_claims _ Hd) _ _ _ Hk Hin) as (i & c & Hi & Ht & Hs).
      assert (active_claim d (t_id r) = Some c) as Hc.
      { apply active_claim_wf; [apply Hd|]. by rewrite (cw_key _ _ (wf_claims _ Hd) _ _ Hi). }
      rewrite Hc. eexists. split; [done|].
      destruct Hin as (l & Hl & Hin). destruct (active_working _ _ _ _ Hd Hk Hl Hc) as (st' & Hin' & Est).
      cbn. rewrite Est. by injection (represents_fun _ _ _ Hin Hin') as ->.
    + intros (claim & Hc & Hst). destruct (active_claim d (t_id r)) as [c|] eqn:Hac; [|done].
      injection Hc as <-. apply active_claim_wf in Hac as (Hi & Ht & Hs); [|apply Hd].
      destruct (cw_active _ _ (wf_claims _ Hd) _ _ Hi Hs) as (r' & st' & Hr' & Hin & Est & _).
      rewrite Ht, Hk in Hr'. simplify_eq. cbn in Hst. rewrite Est in Hst.
      by rewrite (stage_text_inj _ _ Hst) in Hin.
  - intros i j c c' Hi Hj [E1 S1]%is_active_claim_true [E2 S2]%is_active_claim_true.
    eapply (cw_one _ _ (wf_claims _ Hd)); eauto. congruence.
Qed.

(** ** Refinement *)

(** C2: every run of the store refines the workflow diagram: after any sequence of commands a
    Task still has its number, Project, parent and archive mark, its new state is reachable in
    the diagram from its old state, and its review cycle counts the completed executions of that
    path. *)
Theorem store_refines_workflow cs w k r l ws
  (Hw : wf (w_db w)) (Hk : tasks (w_db w) !! k = Some r) (Hl : row_lifecycle r = Some l)
  (Hws : represents l ws) :
  exists r' l' ws' path,
    tasks (w_db (after_all cs w)) !! k = Some r' /\ row_lifecycle r' = Some l' /\ represents l' ws' /\
    workflow_path path ws ws' /\
    (ReviewCycle l + completions path <= MaxInt64 -> ReviewCycle l' = ReviewCycle l + completions path) /\
    t_number r' = t_number r /\ t_project_id r' = t_project_id r /\
    t_parent_task_id r' = t_parent_task_id r /\ t_archived_at r' = t_archived_at r.
Proof.
  destruct (after_all_evolves cs w k r Hw Hk) as (r' & Hk' & [? ? ? ? ? _ Hev]).
  destruct (Hev l Hl) as (l' & path & Hl' & Hrun).
  destruct (run_commands_path _ _ _ _ Hws Hrun) as (ws' & Hws' & Hp).
  exists r', l', ws', path. split_and!; try done.
  pose proof (tw_lifecycle _ (wf_tasks _ Hw) _ _ _ Hk Hl) as [_ Hc]%TaskLifecycle_Validate_represents.
  intros Hmax. by apply run_commands_cycle.
Qed.

(** ** Concurrency control *)

Lemma version_checked c w w' n v :
  wf (w_db w) -> expected_version (w_db w) c = Some (n, v) -> run_store c w = (Ok tt, w') ->
  exists r, task_by_number (w_db w) n = Some r /\ t_version r = v.
Proof.
  intros Hw He Hr. destruct (run_store_moves _ _ _ Hw Hr) as [(_ & _ & Hx)|Hm]; [eauto|].
  destruct Hm as (path & r & l & l' & task' & now & Hm & Hx & _). exists r.
  specialize (Hx _ He) as [= -> ->]. split; [|done].
  apply task_by_number_Some; [apply Hw|]. split; [apply Hm|done].
Qed.

(** C3: no lost updates.  Once a command that was issued against version [v] of a Task has moved
    it, every other command that was issued against the same version is refused, whatever ran in
    between. *)
Theorem no_lost_update c1 c2 cs w w1 n v
  (Hw : wf (w_db w)) (Hl : is_lifecycle c1 = true) (H1 : expected_version (w_db w) c1 = Some (n, v))
  (Hr1 : run_store c1 w = (Ok tt, w1))
  (H2 : expected_version (w_db (after_all cs w1)) c2 = Some (n, v))
  (Hv : 0 <= v) (Hmax : v + 1 + Z.of_nat (length cs) <= MaxInt64) :
  exists e w2, run_store c2 (after_all cs w1) = (Err e, w2).
Proof.
  destruct (run_store c2 (after_all cs w1)) as [[[]|e] w2] eqn:Hr2; [exfalso|eauto].
  pose proof (run_store_wf _ _ _ Hw Hr1) as Hw1.
  destruct (run_store_moves _ _ _ Hw Hr1) as [(_ & Hx & _)|Hm]; [congruence|].
  destruct Hm as (path & r & l & l' & task' & now & Hm & Hx & _). specialize (Hx _ H1) as [= -> ->].
  destruct (moves_evolves _ _ _ _ _ _ _ _ _ _ Hm (mv_row _ _ _ _ _ _ _ _ Hm)) as (r1 & Hk1 & Hev1 & Hv1).
  specialize (Hv1 eq_refl). rewrite int64_small in Hv1 by (unfold MaxInt64 in *; lia).
  destruct (after_all_evolves cs w1 _ _ Hw1 Hk1) as (r2 & Hk2 & Hev2).
  destruct (version_checked _ _ _ _ _ (after_all_wf _ _ Hw1) H2 Hr2) as (r3 & Hn3 & Hv3).
  apply task_by_number_Some in Hn3 as [Hk3 Hn3]; [|apply after_all_wf, Hw1].
  assert (r3 = r2) as ->.
  { assert (t_id r3 = t_id r) as E; [|congruence].
    eapply (tw_number _ (wf_tasks _ (after_all_wf cs _ Hw1))); eauto.
    rewrite (ev_number _ _ _ Hev2), (ev_number _ _ _ Hev1). done. }
  pose proof (ev_version _ _ _ Hev2). lia.
Qed.

(** ** Stale callers *)

(** What a command checks before it opens its transaction. *)
Definition precheck (c : StoreCommand) : result unit :=
  match c with
  | SMarkReady _ _ op _ => OperationActor_Validate op
  | SWithdrawReadiness _ _ reason op _ =>
      _ ← fail_if (blank reason) ErrInvalidInput; OperationActor_Validate op
  | SClaim _ _ actor op _ _ _ | SRecordAcceptanceCheck _ _ _ _ _ actor op _ =>
      validateThreadOperationActor actor op
  | SReleaseClaim _ _ _ _ text actor op _ | SRecordWorkSubmission _ _ _ _ text actor op _
  | SCompleteExecution _ _ _ _ text _ actor op _ | SRequestChanges _ _ _ _ text actor op _
  | SResolveIssue _ _ _ _ text actor op _ | SAcceptTask _ _ _ _ text actor op _
  | SCancelTask _ _ text actor op _ =>
      _ ← fail_if (blank text) ErrInvalidInput; validateThreadOperationActor actor op
  | SRequestResolution _ _ _ _ ity text actor op _ =>
      _ ← fail_if (negb (IssueThreadType_Valid ity)) ErrWrongIssueType;
      _ ← fail_if (blank text) ErrInvalidInput; validateThreadOperationActor actor op
  | _ => Ok tt
  end.

Lemma bind_lift {A B} (r : result A) a (f : A -> M B) w : r = Ok a -> (lift r ≫= f) w = f a w.
Proof. by intros ->. Qed.

Lemma bind_Err_run {A B} (m : M A) (f : A -> M B) e w w' : m w = (Err e, w') -> (m ≫= f) w = (Err e, w').
Proof. unfold mbind, M_bind. by intros ->. Qed.

Lemma transaction_Err {A} (m : M A) e w : m w = (Err e, w) -> transaction m w = (Err e, w).
Proof. unfold transaction. intros ->. by destruct w. Qed.

Section stale.
Context (w : World) (n v : Z) (r : TaskRow) (h : ThreadRow) (l : TaskLifecycle)
  (Hld : loaded (w_db w) n r h l) (Hv : t_version r <> v).

Lemma lock_stale {A} (k : workflowTask -> M A) :
  (task ← lockWorkflowTask n;
   _ ← throw_if (wt_Version task != v) (VersionConflictError (wt_Version task)); k task) w
  = (Err (VersionConflictError (t_version r)), w).
Proof using Hld Hv.
  assert (lockWorkflowTask n w = (Ok (load r (h_id h) l), w)) as E by (apply lockWorkflowTask_Ok; eauto 10).
  unfold mbind, M_bind. rewrite E. unfold throw_if, lift. cbn. by rewrite bool_decide_eq_false_2.
Qed.

Lemma lockOwned_stale cid cv actor op :
  lockOwnedWorkflowClaim n cid v cv actor op w = (Err (VersionConflictError (t_version r)), w).
Proof using Hld Hv. apply lock_stale. Qed.
End stale.

(** A stale caller learns the current version: a well-formed command that names another
    version than the current one of its Task fails with exactly that version, and changes
    nothing. *)
Theorem stale_version_rejected c w n v r h l
  (Hd : is_by_claim c = false) (He : expected_version (w_db w) c = Some (n, v)) (Hp : precheck c = Ok tt)
  (Hld : loaded (w_db w) n r h l) (Hv : t_version r <> v) :
  run_store c w = (Err (VersionConflictError (t_version r)), w).
Proof.
  pose proof (fun A k => @lock_stale w n v r h l Hld Hv A k) as Hs.
  pose proof (lockOwned_stale w n v r h l Hld Hv) as Ho.
  destruct c; try discriminate He; try discriminate Hd; injection He as -> ->; cbn in Hp |- *; apply bind_Err_run;
    repeat match goal with
    | Hb : (_ ≫= _) = Ok _ |- _ => apply bind_Ok in Hb as ([] & ? & Hb)
    end;
    unfold MarkReady, WithdrawReadiness, simpleLifecycleCommand, Claim, ReleaseClaim, RequestChanges, finishClaim,
      RecordWorkSubmission, CompleteExecutionWithDelivery, RequestResolution, ResolveIssue,
      RecordAcceptanceCheck, AcceptTask, CancelTask, throw_if in *;
    repeat (erewrite bind_lift by eassumption);
    apply transaction_Err; (apply Hs || (apply bind_Err_run, Ho)).
Qed.

(** ** Failures *)

(** C8: a command that fails changes no table, whatever it had written before the failure, with one
    exception.  A command that is addressed by a Claim (a progress note, or one of the seven
    commands that name the Claim alone) and finds that very Claim active and past its deadline is
    refused with a conflict and commits the expiry: the Claim has expired, its Task waits for the
    next claimant of the stage, and no other Claim or Task changes. *)
Theorem failed_command_unchanged c w e w' (Hw : wf (w_db w)) (Hr : run_store c w = (Err e, w')) :
  w_db w' = w_db w \/
  exists cid claim w1, addressed_claim c = Some cid /\
    task_stage_claims (w_db w) !! cid = Some claim /\ c_status claim = StageClaimStatusActive /\
    c_expires_at claim <= time_of c /\ e = ErrConflict /\
    ExpireDueClaim (c_task_number claim) (operation_of c) (time_of c) w = (Ok true, w1) /\
    w_db w' = w_db w1 /\ expires_claim cid claim (time_of c) (w_db w) (w_db w').
Proof.
  apply failed_cases in Hr as [?|(cid & Ha & -> & claim & w1 & Hc & Hs & Hdue & Hx & E)]; [by left|right].
  exists cid, claim, w1. split_and!; try done. rewrite E. by eapply ExpireDueClaim_effect.
Qed.

(** ** Ownership *)

(** The Claim that a command acts through, with its actor. *)
Definition acts_through (c : StoreCommand) : option (UUID * Actor) :=
  match c with
  | SReleaseClaim _ cid _ _ _ actor _ _ | SRecordWorkSubmission _ cid _ _ _ actor _ _
  | SCompleteExecution _ cid _ _ _ _ actor _ _ | SRequestChanges _ cid _ _ _ actor _ _
  | SRequestResolution _ cid _ _ _ _ actor _ _ | SRecordAcceptanceCheck _ cid _ _ _ actor _ _
  | SAcceptTask _ cid _ _ _ actor _ _ | SRecordClaimProgress cid _ actor _ _
  | SByClaim _ cid _ actor _ _ => Some (cid, actor)
  | _ => None
  end.

Lemma sameOptionalUUID_eq a b : sameOptionalUUID a b = true <-> a = b.
Proof.
  unfold sameOptionalUUID. destruct a, b; rewrite ?bool_decide_eq_true; naive_solver.
Qed.

(** The caller is the principal that took the Claim: same user, credential and actor. *)
Record same_principal (c : ClaimRow) (actor : Actor) (op : OperationActor) : Prop := {
  sp_user : c_subject_user_id c = op_UserID op;
  sp_method : c_auth_method c = op_AuthMethod op;
  sp_token : c_api_token_id c = op_TokenID op;
  sp_run : c_agent_run_id c = op_AgentRunID op;
  sp_actor : mkActor (c_claimed_by_type c) (c_claimed_by_user_id c) (of_null (c_claimed_by_ref c)) = actor;
}.

Lemma validateClaimActor_Ok c actor op :
  validateClaimActor (scanTaskStageClaim c) actor op = Ok tt <->
  validateThreadOperationActor actor op = Ok tt /\ same_principal c actor op.
Proof.
  unfold validateClaimActor. split.
  - intros Hr. apply bind_Ok in Hr as ([] & Ha & Hr). split; [done|]. apply fail_if_Ok in Hr. go_bool.
    repeat match goal with Hs : sameOptionalUUID _ _ = true |- _ => apply sameOptionalUUID_eq in Hs end.
    destruct actor. cbn in *. split; congruence.
  - intros [-> [H1 H2 H3 H4 <-]]. cbn. rewrite H1, H2, H3, H4. rewrite !bool_decide_eq_true_2 by done. cbn.
    rewrite !(proj2 (sameOptionalUUID_eq _ _)) by done. done.
Qed.

Lemma owns_principal d n cid tv cv actor op r h l c :
  owns d n cid tv cv actor op r h l c ->
  exists c, c_id c = cid /\ is_active_claim (c_task_id c) c = true /\ same_principal c actor op /\
    exists i, task_stage_claims d !! i = Some c.
Proof.
  intros [_ _ Hc Hid _ [_ Hp]%validateClaimActor_Ok]. exists c. apply active_claim_Some in Hc as (i & Hi & _ & Hs).
  split_and!; eauto. by apply is_active_claim_true.
Qed.

Lemma direct_owner_acts c w w' cid actor :
  is_by_claim c = false -> acts_through c = Some (cid, actor) -> run_store c w = (Ok tt, w') ->
  exists claim, c_id claim = cid /\ is_active_claim (c_task_id claim) claim = true /\
    same_principal claim actor (operation_of c) /\ exists i, task_stage_claims (w_db w) !! i = Some claim.
Proof.
  intros Hd Hc Hr.
  destruct c; try discriminate Hc; try discriminate Hd; injection Hc as -> ->; cbn in Hr |- *;
    apply M_bind_Ok in Hr as (a & w1 & Hr & _).
  - destruct a. apply ReleaseClaim_Ok in Hr as (r & h & l & c & l' & cr & d1 & task' & r0 & item & Hr).
    destruct_and! Hr. by eapply owns_principal.
  - destruct a as [[]]. apply RecordWorkSubmission_Ok in Hr as (r & h & l & c & Hr). destruct_and! Hr.
    by eapply owns_principal.
  - destruct a as [[]].
    apply CompleteExecution_Ok in Hr as (r & h & l & c & l' & p & cr & d1 & task' & r0 & Hr). destruct_and! Hr.
    by eapply owns_principal.
  - destruct a. apply RequestChanges_Ok in Hr as (r & h & l & c & l' & cr & d1 & task' & r0 & item & Hr).
    destruct_and! Hr. by eapply owns_principal.
  - destruct a as [[]]. apply RequestResolution_Ok in Hr
      as (r & h & l & c & l' & req & cr & d1 & d2 & d3 & task' & r0 & item & Hr).
    destruct_and! Hr. by eapply owns_principal.
  - apply RecordAcceptanceCheck_Ok in Hr as (r & h & l & c & cr & e & Hr). destruct_and! Hr.
    by eapply owns_principal.
  - destruct a. apply AcceptTask_Ok in Hr as (r & h & l & c & l' & cr & d1 & task' & r0 & item & Hr).
    destruct_and! Hr. by eapply owns_principal.
  - destruct a as [[]]. apply RecordClaimProgress_Ok in Hr as (tg & w0 & r & h & l & c & Hr). destruct_and! Hr.
    match goal with Hv : validateClaimActor _ _ _ = _, Ha : active_claim _ _ = _ |- _ =>
      apply validateClaimActor_Ok in Hv as [_ Hv]; apply active_claim_Some in Ha as (i & Hi & _ & Hs) end.
    exists c. split_and!; eauto. by apply is_active_claim_true.
Qed.

(** C7: only the principal that took a Claim can act through it: a command on a Claim succeeds
    only when the Claim is active and was taken by the same user, through the same credential
    (session, API token or Agent run) and as the same actor. *)
Theorem only_owner_acts c w w' cid actor
  (Hc : acts_through c = Some (cid, actor)) (Hr : run_store c w = (Ok tt, w')) :
  exists claim i, task_stage_claims (w_db w) !! i = Some claim /\ c_id claim = cid /\
    c_status claim = StageClaimStatusActive /\ same_principal claim actor (operation_of c).
Proof.
  assert (exists claim, c_id claim = cid /\ is_active_claim (c_task_id claim) claim = true /\
    same_principal claim actor (operation_of c) /\ exists i, task_stage_claims (w_db w) !! i = Some claim)
    as (claim & ? & [_ ?]%is_active_claim_true & ? & i & ?); [|by exists claim, i].
  destruct (is_by_claim c) eqn:Hd; [|by eapply direct_owner_acts].
  destruct c as [| | | | | | | | | | | | | | | | |k]; try discriminate Hd. injection Hc as -> ->.
  apply by_claim_Ok in Hr as (c & w1 & _ & _ & <- & Hr).
  by destruct k; eapply direct_owner_acts in Hr.
Qed.

(** ** Acceptance *)

(** A check that is evidence for a criterion in a review cycle: an acceptance check of its current
    revision, recorded in that cycle, that passed or was waived. *)
Record evidence_for (c : AcceptanceCriterion) (cycle : Z) (k : CheckRow) : Prop := {
  ev_criterion : k_criterion_id k = ac_ID c;
  ev_revision : k_criterion_revision k = ac_Revision c;
  ev_purpose : k_purpose k = Some AcceptanceCheckPurposeAcceptance;
  ev_cycle : k_task_review_cycle k = Some cycle;
  ev_outcome : k_outcome k = "passed" \/ k_outcome k = "waived";
}.

Lemma satisfies_evidence c cycle k : satisfies c cycle k = true -> evidence_for c cycle k.
Proof. unfold satisfies. intros Hs. go_bool. split; try done. set_solver. Qed.

(** What complete readiness says of the tables. *)
Lemma readiness_tables d k cycle r :
  tasks d !! k = Some r -> complete_ready (taskCompletionReadinessForCycle d k cycle) ->
  (forall i c, acceptance_criteria d !! i = Some c -> ac_TaskID c = Some k -> ac_ArchivedAt c = None ->
     exists j chk, acceptance_checks d !! j = Some chk /\ evidence_for c cycle chk) /\
  (forall i t, tasks d !! i = Some t -> t_parent_task_id t = Some k -> finished t) /\
  (forall i t, tasks d !! i = Some t -> (k, t_id t) ∈ task_dependencies d -> finished t).
Proof.
  intros Hk (Hc & Hch & Hdep). unfold taskCompletionReadinessForCycle in *. rewrite Hk in *. cbn in *.
  split_and!.
  - intros i c Hi Ht Ha. pose proof (elem_of_active_criteria _ _ _ _ Hi Ht Ha) as Hin.
    destruct Hc as [Hc|Hc]; [destruct (active_criteria d k); [set_solver|cbn in Hc; lia]|].
    pose proof (filter_length_nil _ _ Hc _ Hin) as Hs. apply negb_false_iff, existsb_exists in Hs as (chk & Hchk & Hs).
    apply list_elem_of_In, elem_of_rows in Hchk as (j & Hj).
    apply satisfies_evidence in Hs. eauto.
  - intros i t Hi Hp. apply unfinished_false, (filter_length_nil _ _ Hch). apply elem_of_select. rewrite Hp.
    by rewrite bool_decide_eq_true_2; eauto.
  - intros i t Hi Hd. apply unfinished_false, (filter_length_nil _ _ Hdep). apply elem_of_select.
    by rewrite bool_decide_eq_true_2; eauto.
Qed.

(** C4: a Task is done only with evidence.  If a command takes a Task to done, the Task was under
    review by its claimant, every active acceptance criterion had a passed or waived acceptance
    check of its current revision recorded in the current review cycle, and every child Task and
    every Task it depends on was done or cancelled. *)
Theorem accept_requires_evidence c w k r r'
  (Hw : wf (w_db w)) (Hk : tasks (w_db w) !! k = Some r) (Hnd : row_in r Done -> False)
  (Hk' : tasks (w_db (after c w)) !! k = Some r') (Hd : row_in r' Done) :
  exists l, row_lifecycle r = Some l /\ represents l (Working Review) /\
    (forall i crit, acceptance_criteria (w_db w) !! i = Some crit -> ac_TaskID crit = Some k ->
       ac_ArchivedAt crit = None ->
       exists j chk, acceptance_checks (w_db w) !! j = Some chk /\ evidence_for crit (ReviewCycle l) chk) /\
    (forall i t, tasks (w_db w) !! i = Some t -> t_parent_task_id t = Some k -> finished t) /\
    (forall i t, tasks (w_db w) !! i = Some t -> (k, t_id t) ∈ task_dependencies (w_db w) ->
       finished t).
Proof.
  destruct (after_moves c w Hw) as [E|(c' & path & r0 & l & l' & task' & now & Hm & _ & Hacc & Hpath)].
  { rewrite E in Hk'. by simplify_eq. }
  destruct Hm as [Hr0 Hl HT Hto Hrun _]. rewrite HT in Hk'.
  destruct (decide (k = t_id r0)) as [->|Hne]; [|rewrite lookup_insert_ne in Hk' by done; by simplify_eq].
  rewrite lookup_insert_eq in Hk'. simplify_eq. apply row_in_set in Hd.
  exists l. split; [done|].
  destruct Hpath as [(lc & ->)|(st & a & ->)].
  - cbn in Hrun. apply bind_Ok in Hrun as (l1 & Hrun & [= ->]).
    destruct (run_command_sound _ _ _ Hrun) as (ws & ws' & Hws & Hws' & He & _).
    rewrite (represents_fun _ _ _ Hws' Hd) in He. inversion He as [| | | | | | | | |rd Hrd|]; subst.
    split; [done|]. rewrite (proj1 Hacc rd) in Hrd by set_solver. by eapply readiness_tables.
  - cbn in Hrun. apply bind_Ok in Hrun as (l1 & _ & Hrun). apply bind_Ok in Hrun as (l2 & Hrun & [= ->]).
    destruct (run_command_sound (CClaim a) _ _ Hrun) as (ws & ws' & Hws & Hws' & He & _).
    rewrite (represents_fun _ _ _ Hws' Hd) in He. inversion He.
Qed.
End properties.

(** ** Witnesses *)

(** The worlds that the demonstration passes through. *)
Definition demo_after (n : nat) : World := @after_all counting_uuids (take n demo_delivery) demo_world.

Lemma demo_after_wf n : wf (w_db (demo_after n)).
Proof. apply after_all_wf, demo_wf. Qed.

Definition demo_row (n : nat) : TaskRow := default demo_task (tasks (w_db (demo_after n)) !! 3%N).

Lemma workflow_consistent_witness :
  wf (w_db demo_world) /\ wf (w_db (@after_all counting_uuids demo_delivery demo_world)).
Proof.
  split; [exact demo_wf|]. exact (@workflow_consistent counting_uuids demo_delivery demo_world demo_wf).
Defined.

Lemma claim_exclusive_witness :
  row_in (demo_row 2) (Working Execution) /\
  exists claim, GetActiveForTaskNumber (w_db (demo_after 2)) 142 = Ok claim /\
    sc_Stage claim = stage_text Execution.
Proof.
  assert (row_in (demo_row 2) (Working Execution)) as Hin by (eexists; split; vm_compute; reflexivity).
  split; [exact Hin|].
  apply (@claim_exclusive counting_uuids (take 2 demo_delivery) demo_world 142 (demo_row 2) demo_wf
    ltac:(vm_compute; reflexivity)). exact Hin.
Defined.

Lemma store_refines_workflow_witness :
  exists r' l' ws' path,
    tasks (w_db (@after_all counting_uuids demo_delivery demo_world)) !! 3%N = Some r' /\
    row_lifecycle r' = Some l' /\ represents l' ws' /\ workflow_path path Backlog ws'.
Proof.
  destruct (@store_refines_workflow counting_uuids demo_delivery demo_world 3%N demo_task
    (mkTaskLifecycle TaskPhaseBacklog "" 0) Backlog demo_wf
    ltac:(vm_compute; reflexivity) ltac:(vm_compute; reflexivity) ltac:(vm_compute; reflexivity))
    as (r' & l' & ws' & path & Hk & Hl & Hr & Hp & _).
  exists r', l', ws', path. repeat (split; [assumption|]). assumption.
Defined.

Lemma no_lost_update_witness :
  exists e w2, @run_store counting_uuids (SMarkReady 142 1 alice_op 25)
    (@after_all counting_uuids [SClaim 142 2 alice_actor alice_op "web" "s1" 30] (demo_after 1)) = (Err e, w2).
Proof.
  apply (@no_lost_update counting_uuids (SMarkReady 142 1 alice_op 20) (SMarkReady 142 1 alice_op 25)
    [SClaim 142 2 alice_actor alice_op "web" "s1" 30] demo_world (demo_after 1) 142 1 demo_wf);
    try (vm_compute; reflexivity); vm_compute; discriminate.
Defined.

Lemma stale_version_rejected_witness :
  @run_store counting_uuids (SClaim 142 7 alice_actor alice_op "web" "s1" 30) demo_world
  = (Err (VersionConflictError 1), demo_world).
Proof.
  refine (@stale_version_rejected counting_uuids (SClaim 142 7 alice_actor alice_op "web" "s1" 30)
    demo_world 142 7 demo_task demo_main (mkTaskLifecycle TaskPhaseBacklog "" 0) eq_refl eq_refl _ _ _).
  - vm_compute; reflexivity.
  - repeat split; vm_compute; reflexivity.
  - vm_compute; discriminate.
Defined.

(** Alice hands over after the deadline of her Claim. *)
Definition demo_late : StoreCommand :=
  SByClaim (KReleaseClaimByID "Handing over") (demo_uuid 2) 3 alice_actor alice_op 1000000000000000.

Lemma failed_command_unchanged_witness :
  exists w', @run_store counting_uuids demo_late (demo_after 2) = (Err ErrConflict, w') /\
    exists claim, task_stage_claims (w_db (demo_after 2)) !! demo_uuid 2 = Some claim /\
      expires_claim (demo_uuid 2) claim 1000000000000000 (w_db (demo_after 2)) (w_db w').
Proof.
  destruct (@run_store counting_uuids demo_late (demo_after 2)) as [[[]|e] w'] eqn:E; [vm_compute in E; discriminate E|].
  destruct (@failed_command_unchanged counting_uuids demo_late (demo_after 2) e w' (demo_after_wf 2) E)
    as [Hu|(cid & claim & w1 & [= <-] & Hc & _ & _ & -> & _ & _ & Hx)].
  - exfalso. apply (f_equal (fun d => t_activity_state <$> tasks d !! 3%N)) in Hu.
    apply (f_equal snd) in E. cbn [snd] in E. rewrite <- E in Hu. vm_compute in Hu. discriminate Hu.
  - exists w'. split; [reflexivity|]. exists claim. split; [exact Hc|exact Hx].
Defined.

Lemma only_owner_acts_witness :
  exists claim i, task_stage_claims (w_db (demo_after 2)) !! i = Some claim /\ c_id claim = demo_uuid 2 /\
    c_status claim = StageClaimStatusActive /\ same_principal claim alice_actor alice_op.
Proof.
  apply (@only_owner_acts counting_uuids
    (SReleaseClaim 142 (demo_uuid 2) 3 1 "Handing over" alice_actor alice_op 40) (demo_after 2)
    (@after counting_uuids (SReleaseClaim 142 (demo_uuid 2) 3 1 "Handing over" alice_actor alice_op 40)
       (demo_after 2)) (demo_uuid 2) alice_actor eq_refl).
  vm_compute. reflexivity.
Defined.

Lemma accept_requires_evidence_witness :
  exists l, row_lifecycle (demo_row 5) = Some l /\ represents l (Working Review) /\
    exists j chk, acceptance_checks (w_db (demo_after 5)) !! j = Some chk /\
      evidence_for demo_criterion (ReviewCycle l) chk.
Proof.
  destruct (@accept_requires_evidence counting_uuids
    (SAcceptTask 142 (demo_uuid 7) 5 1 "Accepted" alice_actor alice_op 70) (demo_after 5) 3%N
    (demo_row 5) (demo_row 6) (demo_after_wf 5)) as (l & Hl & Hr & Hc & _).
  - vm_compute. reflexivity.
  - intros (l & Hl & Hd). vm_compute in Hl. injection Hl as <-. vm_compute in Hd. discriminate Hd.
  - vm_compute. reflexivity.
  - eexists. split; vm_compute; reflexivity.
  - exists l. split; [exact Hl|]. split; [exact Hr|].
    apply (Hc 6%N demo_criterion); vm_compute; reflexivity.
Defined.
