(* ===== verification/RecordProperties.v ===== *)
(** * Properties of the records and of progress

    What every sequence of commands leaves on the record (audit trail, final Claims, Threads,
    Items and checks), what can never be prevented (cancelling, claiming, expiring), and what a
    completion and a resolution store. *)

From stdpp Require Import base tactics strings gmap list numbers sorting.
From S2P Require Import Prelude Actors Lifecycle StageClaim Delivery Thread Acceptance.
From S2P Require Import Database Tx ThreadStore ClaimStore WorkflowStore WorkflowCommands.
From S2P Require Import WorkflowEffects WorkflowInvariant WorkflowOutcomes WorkflowSafety StoreCommands Refinement History.
From S2P Require Import Changes Records Progress ClaimProgress Demo.

Section properties.
Context `{UUIDSource}.

(** ** The record of what happened *)

(** Every successful command leaves exactly one audit event, at the end of the trail, that
    names the caller of the command and its time; only an expiry that found nothing due leaves
    none, and it changes nothing. *)
Theorem every_command_audited c w w' (Hw : wf (w_db w)) (Hr : run_store c w = (Ok tt, w')) :
  (exists e, business_audit_events (w_db w') = business_audit_events (w_db w) ++ [e] /\
     be_Actor e = operation_of c /\ be_OccurredAt e = time_of c) \/
  ((exists n op now, c = SExpireDueClaim n op now) /\ w_db w' = w_db w).
Proof.
  destruct (run_store_history _ _ _ Hw Hr) as [(e & [_ Ha Hb])|?]; [left|by right].
  apply Forall_singleton in Hb as [? ?]. eauto.
Qed.

(** The audit trail is append-only: no command, in any sequence, removes, changes or reorders
    an event, and a command adds at most one. *)
Theorem audit_append_only cs w (Hw : wf (w_db w)) :
  exists es, business_audit_events (w_db (after_all cs w)) = business_audit_events (w_db w) ++ es /\
    (length es <= length cs)%nat.
Proof.
  revert w Hw. induction cs as [|c cs IH]; intros w Hw; cbn.
  { exists []. by rewrite app_nil_r. }
  destruct (after_history c w Hw) as (es & Hlen & [_ Ha _]).
  destruct (IH (after c w) (after_wf _ _ Hw)) as (es' & -> & Hlen').
  exists (es ++ es'). rewrite Ha, app_assoc, length_app. split; [done|lia].
Qed.

(** C10: records are final.  Whatever commands run, no Claim, Thread, Item or acceptance check is
    ever deleted; an ended Claim, a resolved Issue Thread, the Main Thread, every Item that is not
    a message and every acceptance check stay exactly as they are; an active Claim keeps its
    owner, credential, stage and deadline, and a message its author, Thread and creation. *)
Theorem records_final cs w (Hw : wf (w_db w)) : records_kept (w_db w) (w_db (after_all cs w)).
Proof. by apply changes_kept, after_all_changes. Qed.

(** The rows that the commands write satisfy the CHECK constraints of their tables, and an
    active Claim and an open Issue are always in their first version: no row can wedge a later
    command. *)
Theorem rows_stay_valid cs w (Hw : wf (w_db w)) (Hr : rows_ok (w_db w)) : rows_ok (w_db (after_all cs w)).
Proof. by eapply changes_rows_ok; [apply after_all_changes|]. Qed.

(** ** Possibility *)

(** C9: a Task that is not done or cancelled can always be cancelled, whatever state it is in and
    whoever works on it: in a consistent workspace the command of a valid caller with a reason
    and the current version succeeds, and leaves the Task cancelled. *)
Theorem cancel_always_possible w n r ws reason actor op now
  (Hok : workspace_ok w actor op now) (Hn : task_by_number (w_db w) n = Some r) (Hin : row_in r ws)
  (Hnt : terminal ws -> False) (Hmax : t_version r < MaxInt64) (Hb : blank reason = false) :
  exists res w' r', CancelTask n (t_version r) reason actor op now w = (Ok res, w') /\
    tasks (w_db w') !! t_id r = Some r' /\ row_in r' Cancelled /\ t_version r' = t_version r + 1.
Proof.
  destruct (cancel_possible _ _ _ _ _ _ _ _ Hok Hn Hin Hnt Hmax Hb) as (res & w' & E).
  pose proof Hok as [Hw Hro _ _ _ _].
  pose proof Hn as [Hk _]%task_by_number_Some; [|apply Hw].
  pose proof (version_positive _ (proj1 (ro_tasks _ Hro _ _ Hk))) as Hpos.
  pose proof E as (r1 & h & l & d1 & l' & task' & r0 & item & _ & _ & Hld & _ & _ & Hl' & _ & _ & Hrec)%CancelTask_Ok.
  assert (r1 = r) as -> by (destruct Hld; congruence).
  destruct (run_command_sound _ _ _ Hl') as (ws1 & ws' & _ & Hrep' & He & _). inversion He; subst ws' ws1.
  destruct Hrec as [-> _ _ _ (e & _ & _ & Ed)].
  exists res, w'. eexists. split_and!; [exact E| | |].
  - rewrite Ed. cbn. by rewrite lookup_insert_eq.
  - apply row_in_set. exact Hrep'.
  - cbn. apply int64_small. unfold MaxInt64 in *. lia.
Qed.

(** The tables after a successful [Claim]. *)
Lemma Claim_taken n v actor op ck cs now w s claim w' r :
  wf (w_db w) -> Claim n v actor op ck cs now w = (Ok (s, claim), w') -> task_by_number (w_db w) n = Some r ->
  task_stage_claims (w_db w') !! sc_ID claim = Some (claim_row claim) /\
  exists r' st, tasks (w_db w') !! t_id r = Some r' /\ t_id r' = t_id r /\ t_number r' = t_number r /\
    row_in r' (Working st) /\ sc_Stage claim = stage_text st /\
    exists id, NewTaskStageClaim id (t_id r) (t_number r) (stage_text st) actor op ck cs now = Ok claim.
Proof.
  intros Hw E Hn.
  apply Claim_Ok in E as (r1 & h & l & task1 & w1 & stage & l' & id & task' & r0 & item & _ & Hld & _ & Hex & Hl'
    & Hnew & Hci & _ & _ & Hrec).
  assert (r1 = r) as -> by (destruct Hld; congruence).
  apply task_by_number_Some in Hn as [Hk _]; [|apply Hw].
  assert (wt_TaskID task1 = t_id r /\ wt_TaskNumber task1 = t_number r /\ tasks (w_db w1) = tasks (w_db w))
    as (Eid & En & ET).
  { apply expireDueWorkflowClaim_Ok in Hex as [(-> & -> & _)|(c & l1 & claim' & cr & it & Hex & ->)]; [done|].
    destruct Hex as [_ _ _ _ _ _ (d1 & [_ _ ->] & _ & ->)]. done. }
  destruct (TaskLifecycle_Claim_run _ _ _ _ Hl') as (_ & _ & st & _ & Hrep & -> & _).
  rewrite Eid, En in *. destruct Hrec as [-> [_ Hr0 _ _ _] _ _ (e & _ & _ & Ed)].
  cbn in Hr0. rewrite Eid, ET, Hk in Hr0. injection Hr0 as <-.
  rewrite Ed. cbn. rewrite Eid, !lookup_insert_eq. split; [done|]. eexists _, st. split_and!; try done.
  - by apply row_in_set.
  - by apply NewTaskStageClaim_Ok in Hnew as (_ & _ & ->).
  - eauto.
Qed.

(** A Task that is ready, that waits for its stage, or whose Claim is past its deadline can be
    claimed by every valid caller; the Claim that results is active and the caller's, and the Task
    is worked on. *)
Theorem takeable_task_claimed w n r ws actor op ck cs now
  (Hok : workspace_ok w actor op now) (Hcl : claimant_ok (w_db w) op) (Hnow : 0 < now) (Hpn : 1 <= n)
  (Hn : task_by_number (w_db w) n = Some r) (Hin : row_in r ws) (Htk : takeable (w_db w) (t_id r) now ws)
  (Harch : t_archived_at r = None) (Hmax : t_version r < MaxInt64) :
  exists s claim w' st, Claim n (t_version r) actor op ck cs now w = (Ok (s, claim), w') /\
    GetActiveForTaskNumber (w_db w') n = Ok (scanTaskStageClaim (claim_row claim)) /\
    sc_ClaimedBy claim = actor /\ sc_SubjectUserID claim = op_UserID op /\
    sc_ExpiresAt claim = now + TaskClaimActiveLifetime /\
    exists r', task_by_number (w_db w') n = Some r' /\ row_in r' (Working st).
Proof.
  destruct (claim_possible _ _ _ _ _ _ ck cs _ Hok Hcl Hnow Hpn Hn Hin Htk Harch Hmax) as ([s claim] & w' & E).
  pose proof Hok as [Hw _ _ _ _ _].
  assert (wf (w_db w')) as Hw' by (eapply Claim_wf; [exact Hw|exact E]).
  destruct (Claim_taken _ _ _ _ _ _ _ _ _ _ _ _ Hw E Hn) as (Hc & r' & st & Hk' & Eid & En & Hin' & Est & id & Hnew).
  apply task_by_number_Some in Hn as [_ <-]; [|apply Hw].
  apply NewTaskStageClaim_Ok in Hnew as (_ & _ & Ecl).
  assert (task_by_number (w_db w') (t_number r) = Some r') as Hn'.
  { apply task_by_number_Some; [apply Hw'|]. by rewrite Eid. }
  assert (active_claim (w_db w') (t_id r') = Some (claim_row claim)) as Hac.
  { apply active_claim_wf; [apply Hw'|]. destruct (claim_row_fields claim) as (-> & _ & _ & ->).
    rewrite claim_row_id, Ecl in *. by rewrite Eid. }
  exists s, claim, w', st. split_and!; [done|unfold GetActiveForTaskNumber; by rewrite Hn', Hac|by rewrite Ecl..|eauto].
Qed.

(** ** Dependencies *)

(** A Task is made ready only when every Task it depends on is done or cancelled. *)
Theorem ready_needs_finished_dependencies n v op now w s w' r i t
  (Hw : wf (w_db w)) (Hr : MarkReady n v op now w = (Ok s, w')) (Hn : task_by_number (w_db w) n = Some r)
  (Ht : tasks (w_db w) !! i = Some t) (Hd : (t_id r, t_id t) ∈ task_dependencies (w_db w)) :
  finished t.
Proof.
  apply unfinished_false.
  apply MarkReady_Ok in Hr as (r1 & h & l & l' & task' & r0 & item & _ & Hld & _ & Hl & _).
  assert (r1 = r) as -> by (destruct Hld; congruence).
  remember (existsb unfinished _) as b eqn:E.
  destruct (run_command_sound _ _ _ Hl) as (? & ? & _ & _ & He & _).
  assert (b = false) as -> by (by inversion He). symmetry in E. destruct (unfinished t) eqn:Hu; [exfalso|done].
  apply not_true_iff_false in E. apply E, existsb_exists. exists t. split; [|done].
  apply list_elem_of_In, elem_of_select. rewrite bool_decide_eq_true_2 by done. eauto.
Qed.

(** ** Delivery *)

Lemma prepare_snapshots_Ok m snaps m' :
  prepare_snapshots m snaps = Ok m' ->
  NoDup (ccs_TaskCodeChangeID <$> snaps) /\
  (forall i, is_Some (m' !! i) <-> is_Some (m !! i) \/ i ∈ (ccs_TaskCodeChangeID <$> snaps)) /\
  (forall i, i ∈ (ccs_TaskCodeChangeID <$> snaps) -> m !! i = None).
Proof.
  revert m. induction snaps as [|s snaps IH]; intros m Hp; cbn in Hp |- *.
  { injection Hp as <-. split_and!; [constructor|set_solver|set_solver]. }
  apply bind_Ok in Hp as ([] & _ & Hp). apply bind_Ok in Hp as ([] & Hf & Hp).
  apply fail_if_Ok, present_false in Hf. destruct (IH _ Hp) as (Hnd & Hdom & Hnone). split_and!.
  - constructor; [|done]. intros Hin. specialize (Hnone _ Hin). by rewrite lookup_insert_eq in Hnone.
  - intros i. rewrite Hdom, lookup_insert_is_Some, elem_of_cons. destruct (decide (i = ccs_TaskCodeChangeID s)); naive_solver.
  - intros i. rewrite elem_of_cons. intros [->|Hin]; [done|]. specialize (Hnone _ Hin).
    by apply lookup_insert_None in Hnone as [? _].
Qed.

Lemma first_error_Ok {A} (f : A -> result unit) l : first_error f l = Ok tt <-> forall x, x ∈ l -> f x = Ok tt.
Proof.
  induction l as [|a l IH]; cbn; [split; [set_solver|done]|]. rewrite bind_Ok. setoid_rewrite elem_of_cons. split.
  - intros ([] & Ha & Hl) x [->|Hx]; [done|]. by apply IH.
  - intros Hx. exists tt. split; [auto|]. apply IH. auto.
Qed.

Lemma activeCodeChangeIDs_NoDup d k :
  (forall i r, task_code_changes d !! i = Some r -> cr_id r = i) -> NoDup (activeCodeChangeIDs d k).
Proof. apply select_NoDup. Qed.

Lemma elem_of_activeCodeChangeIDs d k i :
  (forall i r, task_code_changes d !! i = Some r -> cr_id r = i) ->
  i ∈ activeCodeChangeIDs d k <->
  exists q, task_code_changes d !! i = Some q /\ cr_task_id q = k /\ cr_unlinked_at q = None.
Proof.
  intros Hkey. unfold activeCodeChangeIDs. rewrite list_elem_of_fmap. setoid_rewrite elem_of_select. split.
  - intros (q & -> & Hq & j & Hj). go_bool. rewrite (Hkey _ _ Hj).
    exists q. split_and!; [done|done|by apply present_false].
  - intros (q & Hq & Ht & Hu). exists q. split; [symmetry; eauto|]. rewrite Hu, bool_decide_eq_true_2 by done. eauto.
Qed.

(** Completing an execution freezes what was delivered.  The Item that is stored in the Main
    Thread records the new review cycle; exactly the work submissions of that cycle, the execution
    verifications of the previous one and the revisions of the active criteria that the tables
    hold; and one snapshot for every code change that is linked to the Task, and no other. *)
Theorem completion_freezes_delivery n cid tv cv summary changes actor op now w s claim item w'
  (Hw : wf (w_db w)) (Hkey : forall i r, task_code_changes (w_db w) !! i = Some r -> cr_id r = i)
  (Hr : CompleteExecutionWithDelivery n cid tv cv summary changes actor op now w = (Ok (s, claim, item), w')) :
  exists r h l payload, loaded (w_db w) n r h l /\
    task_thread_items (w_db w') !! ti_ID item = Some (item_row item (op_RequestID op)) /\
    ti_ThreadID item = h_id h /\ ti_ExecutionCompleted item = Some payload /\
    ecp_ReviewCycle payload = int64 (ReviewCycle l + 1) /\
    ecp_CodeChanges payload = changes /\
    NoDup (ccs_TaskCodeChangeID <$> changes) /\
    (forall i, i ∈ (ccs_TaskCodeChangeID <$> changes) <-> exists q, task_code_changes (w_db w) !! i = Some q /\
       cr_task_id q = t_id r /\ cr_unlinked_at q = None) /\
    (forall i, i ∈ ecp_SubmissionItemIDs payload <-> exists q, task_thread_items (w_db w) !! i = Some q /\
       i_thread_id q = h_id h /\ i_kind q = ThreadItemKindWorkSubmission /\
       i_task_review_cycle q = Some (ecp_ReviewCycle payload)) /\
    (forall i, i ∈ ecp_ExecutionCheckIDs payload <-> exists j k crit, acceptance_checks (w_db w) !! j = Some k /\
       k_id k = i /\ acceptance_criteria (w_db w) !! k_criterion_id k = Some crit /\
       ac_TaskID crit = Some (t_id r) /\ k_purpose k = Some AcceptanceCheckPurposeExecutionVerification /\
       k_task_review_cycle k = Some (int64 (ecp_ReviewCycle payload - 1))) /\
    (forall i n, mkCriterionRevisionSnapshot i n ∈ ecp_CriterionRevisions payload <->
       exists j c, acceptance_criteria (w_db w) !! j = Some c /\ ac_TaskID c = Some (t_id r) /\
         ac_ArchivedAt c = None /\ ac_ID c = i /\ ac_Revision c = n).
Proof.
  apply CompleteExecution_Ok in Hr
    as (r & h & l & c & l' & p & cr & d1 & task' & r0 & _ & _ & [Hld _ _ _ _ _] & Hl & Hp & _ & _ & -> & Hrec).
  destruct (run_command_sound _ _ _ Hl) as (_ & _ & _ & _ & _ & Hcy). cbn in Hcy.
  unfold executionCompletionPayload in Hp. cbv zeta in Hp.
  apply bind_Ok in Hp as ([] & Hlen & Hp). apply bind_Ok in Hp as (m & Hprep & Hp).
  apply bind_Ok in Hp as ([] & Hall & Hp). apply bind_Ok in Hp as ([] & _ & [= <-]).
  apply fail_if_Ok in Hlen. go_bool. cbn in *.
  destruct Hrec as [_ _ _ _ (e & _ & _ & ->)].
  exists r, h, l. eexists. split_and!; try done.
  - cbn. rewrite item_row_id. by rewrite lookup_insert_eq.
  - by destruct (prepare_snapshots_Ok _ _ _ Hprep).
  - destruct (prepare_snapshots_Ok _ _ _ Hprep) as (Hnd & Hdom & _).
    assert (activeCodeChangeIDs (w_db w) (t_id r) ≡ₚ ccs_TaskCodeChangeID <$> changes) as Hperm;
      [|intros i; by rewrite <- (elem_of_activeCodeChangeIDs _ _ _ Hkey), Hperm].
    apply submseteq_length_Permutation; [|by rewrite length_fmap, Hlen].
    apply NoDup_submseteq; [by apply activeCodeChangeIDs_NoDup|].
    intros i Hi. pose proof (proj1 (first_error_Ok _ _) Hall i Hi) as Hx. apply fail_if_Ok, negb_false_iff in Hx.
    apply present_true, Hdom in Hx as [Hx|Hx]; [|done]. by apply is_Some_None in Hx.
  - intros i. cbn. unfold submissions_of. rewrite list_elem_of_fmap. setoid_rewrite order_by_perm.
    setoid_rewrite elem_of_select. rewrite Hcy. split.
    + intros (q & -> & Hq & j & Hj). go_bool. rewrite (iw_key _ _ (wf_items _ Hw) _ _ Hj). eauto.
    + intros (q & Hq & E1 & E2 & E3). exists q. split; [symmetry; by eapply iw_key; [apply Hw|]|].
      rewrite !bool_decide_eq_true_2 by done. eauto.
  - intros i. cbn. unfold execution_checks_of. rewrite list_elem_of_fmap. setoid_rewrite order_by_perm.
    setoid_rewrite elem_of_select. rewrite Hcy. split.
    + intros (k & -> & Hk & j & Hj). go_bool. destruct (acceptance_criteria _ !! _) as [crit|] eqn:Hcr; [|done].
      go_bool. exists j, k, crit. split_and!; done.
    + intros (j & k & crit & Hj & <- & E1 & E2 & E3 & E4). exists k. split; [done|].
      rewrite E1, E2, E3, E4, !bool_decide_eq_true_2 by done. eauto.
  - intros i v. cbn. rewrite list_elem_of_fmap. setoid_rewrite order_by_perm. split.
    + intros (q & [= -> ->] & Hq). apply elem_of_select in Hq as (Hq & j & Hj). go_bool.
      exists j, q. split_and!; [done..|by apply present_false|done|done].
    + intros (j & q & Hj & Ht & Ha & <- & <-). exists q. split; [done|]. by eapply elem_of_active_criteria.
Qed.

(** ** Issues *)

Lemma issue_of_rows d k i hr req :
  wf d -> issue_of d k i hr req ->
  h_id hr = i /\ task_threads d !! i = Some hr /\ h_task_id hr = k /\ h_role hr = ThreadRoleIssue /\
  i_thread_id req = i /\ i_kind req = ThreadItemKindResolutionRequest /\ task_thread_items d !! i_id req = Some req.
Proof.
  intros Hw [Hs1 Hs2]. apply select_one_Some in Hs1 as (Hp & j & Hj). apply select_one_Some in Hs2 as (Hq & m & Hm).
  go_bool. pose proof (hw_key _ _ (wf_threads _ Hw) _ _ Hj). pose proof (iw_key _ _ (wf_items _ Hw) _ _ Hm).
  subst. done.
Qed.

Lemma set_resolved_row_fields h t by_ now :
  let h' := set_resolved_row h (th_resolved t by_ now) by_ in
  h_issue_status h' = Some IssueThreadStatusResolved /\ h_resolved_by_type h' = Some (actor_Type by_) /\
  h_resolved_at h' = Some now.
Proof. unfold set_resolved_row. by destruct (actorColumns by_). Qed.

(** An Issue is resolved on the record.  The resolution is an Item of the Issue Thread, the
    Issue Thread is resolved by the actor at the time of the command, the Main Thread has an Item
    that carries the original request, the resolution, who asked and who answered, and the Task
    waits for its stage again. *)
Theorem resolution_recorded n tv i hv resolution actor op now w s issue w'
  (Hw : wf (w_db w)) (Hr : ResolveIssue n tv i hv resolution actor op now w = (Ok (s, issue), w')) :
  exists r h l hr req a m hr' r' st,
    loaded (w_db w) n r h l /\ task_threads (w_db w) !! i = Some hr /\
    task_thread_items (w_db w) !! i_id req = Some req /\ i_thread_id req = i /\
    i_kind req = ThreadItemKindResolutionRequest /\
    task_thread_items (w_db w') !! i_id a = Some a /\ i_thread_id a = i /\
    i_kind a = ThreadItemKindResolution /\ i_body a = Some resolution /\
    task_threads (w_db w') !! i = Some hr' /\ h_issue_status hr' = Some IssueThreadStatusResolved /\
    h_resolved_by_type hr' = Some (actor_Type actor) /\ h_resolved_at hr' = Some now /\
    task_thread_items (w_db w') !! i_id m = Some m /\ i_thread_id m = h_id h /\
    i_kind m = ThreadItemKindIssueResolution /\
    i_typed_payload m = Some (IssueResolutionJSON
      (mkIssueResolutionPayload i (of_null (h_issue_type hr)) (of_null (i_body req)) resolution
         (th_OpenedBy (scanTaskThread hr)) actor (h_created_at hr) now)) /\
    tasks (w_db w') !! t_id r = Some r' /\ row_in r (NeedsResolution st) /\ row_in r' (Available st) /\
    t_active_issue_thread_id r' = None.
Proof.
  apply ResolveIssue_Ok in Hr as (r & h & l & hr0 & req & l' & hr & d1 & task' & r0 & e & Hb & _ & Hld & _ & _ & His
    & _ & _ & Hia & Hl & -> & _ & _ & _ & Ed).
  destruct (issue_of_rows _ _ _ _ _ Hw His) as (Eid & Hh & Et & Ero & Eq & Ek & Hq).
  destruct Hia as [Hres Hav Hai Hir (record & -> & Hrv & Hri & Hd1)]. cbn zeta in Hd1.
  apply Thread_Resolve_Ok in Hres as (_ & _ & _ & ->). cbn in Hri, Hd1, Hir.
  rewrite Eid in *. pose proof (ir_row _ _ _ _ _ Hir) as Hrow. cbn in Hrow. rewrite Eid, Hh in Hrow. injection Hrow as <-.
  destruct (run_command_sound _ _ _ Hl) as (ws & ws' & Hrep & Hrep' & He & _). inversion He as [| | | | | |st| | | |]; subst ws ws'.
  assert (uuid_seq (w_next w) <> uuid_seq (S (w_next w))) as Hne by (intros E%uuid_seq_inj; lia).
  exists r, h, l, hr0, req.
  exists (item_row (workflow_item (uuid_seq (w_next w)) i ThreadItemKindResolution actor resolution None now)
            (op_RequestID op)).
  exists (item_row (workflow_item (uuid_seq (S (w_next w))) (h_id h) ThreadItemKindIssueResolution systemActor ""
            (Some (mkIssueResolutionPayload i (of_null (h_issue_type hr0)) (of_null (i_body req)) resolution
               (th_OpenedBy (scanTaskThread hr0)) actor (h_created_at hr0) now)) now) (op_RequestID op)).
  eexists (set_resolved_row hr0 (th_resolved (scanTaskThread hr0) actor now) actor), _, st.
  rewrite Ed, Hd1. cbn -[item_row]. rewrite !item_row_id, !item_row_thread, !item_row_kind. cbn -[item_row].
  assert (i_body (item_row (workflow_item (uuid_seq (w_next w)) i ThreadItemKindResolution actor resolution None now)
    (op_RequestID op)) = Some resolution) as ->.
  { unfold item_row. destruct (actorColumns _). by apply nullIfEmpty_blank. }
  destruct (set_resolved_row_fields hr0 (scanTaskThread hr0) actor now) as (-> & -> & ->).
  rewrite !lookup_insert_eq. rewrite (lookup_insert_ne _ _ (uuid_seq (w_next w))), lookup_insert_eq by done.
  split_and!; try done; [by exists l; destruct Hld as (_ & _ & ? & _)|by apply row_in_set].
Qed.

(** ** Deadlines *)

Lemma expire_due_possible w n r st c actor op now :
  workspace_ok w actor op now -> task_by_number (w_db w) n = Some r -> row_in r (Working st) ->
  active_claim (w_db w) (t_id r) = Some c -> c_expires_at c <= now -> t_version r < MaxInt64 ->
  exists w', ExpireDueClaim n op now w = (Ok true, w').
Proof.
  intros Hok Hn Hin Hac Hdue Hmax. pose proof Hok as [Hw Hro Hfr Hca Ha Hclk].
  destruct (row_loaded _ _ _ _ Hw Hn Hin) as (h & l & Hld & Hrep & Hcy & Hh).
  pose proof Hn as [Hk En]%task_by_number_Some; [|apply Hw].
  destruct (ro_tasks _ Hro _ _ Hk) as [Hchk Hnil]. pose proof (version_positive _ Hchk) as Hpos.
  destruct (ro_threads _ Hro _ _ Hh) as (_ & Hhn & _).
  destruct (expire_possible _ _ _ _ _ _ _ _ _ _ Hok Hld Hk Hrep Hac Hdue Hh Hhn)
    as (l1 & w1 & E & Hrep1 & Hcy1 & [ET EU EA Hth Hf] & _ & _).
  assert (Activity l = TaskActivityWorking /\ Activity l1 = TaskActivityAvailable) as [Ea Ea1].
  { destruct l, l1. destruct st; injection Hrep as -> ->; injection Hrep1 as -> ->; done. }
  pose proof (stored_no_issue _ _ Hchk Hin ltac:(done)) as Hai.
  assert (caller_ok (w_db w1) op now) as Hca1 by (destruct Hca; split; rewrite ?EU, ?EA; eauto).
  assert (recordable w1 (with_Lifecycle (load r (h_id h) l) l1) (t_version r) now op r (Available st)) as Hrb.
  { split; cbn; try done; rewrite ?ET, ?Hcy1, ?Hai; try done. split; [done|by intros []]. }
  pose proof (persist_possible _ _ _ _ _ _ _ Hrb) as Ep. cbv zeta in Ep.
  match type of Ep with _ = (Ok ?t, ?w') => set (task' := t) in Ep; set (w2 := w') in Ep end.
  assert (exists w3, insertWorkflowAudit task' op "claim_expired" now w2 = (Ok tt, w3)) as (w3 & E3).
  { eexists. apply insertWorkflowAudit_Ok. split; [|reflexivity]. apply caller_auditable; try done.
    - by destruct Hca1.
    - by apply (fr_audit _ _ Hf). }
  exists w3. apply M_bind_Ok. eexists tt, w. split; [apply lift_Ok; by split; [apply Hca|]|].
  apply transaction_if_Ok. exists w3. split; [|done].
  apply M_bind_Ok. eexists (load r (h_id h) l), w. split; [apply lockWorkflowTask_Ok; eauto 10|].
  cbn [wt_Lifecycle load]. rewrite (bool_decide_eq_true_2 (Activity l = _)) by done. cbn [negb]. cbv zeta.
  apply M_bind_Ok. eexists _, _. split; [exact E|]. cbn [wt_Lifecycle with_Lifecycle].
  rewrite (bool_decide_eq_false_2 (Activity l1 = _)) by (by rewrite Ea, Ea1).
  apply M_bind_Ok. eexists _, _. split; [exact Ep|]. apply M_bind_Ok. eexists _, _. split; [exact E3|done].
Qed.

(** A Claim that is past its deadline cannot be used, and using it ends it: a command that names
    such a Claim is refused with a conflict, and the expiry is committed nevertheless, so that the
    Claim has expired and its Task waits for the next claimant of the stage. *)
Theorem due_claim_refused_and_expired w cid c actor op now
  (Hok : workspace_ok w actor op now) (Hc : task_stage_claims (w_db w) !! cid = Some c)
  (Hs : c_status c = StageClaimStatusActive) (Hdue : c_expires_at c <= now)
  (Hmax : forall r, tasks (w_db w) !! c_task_id c = Some r -> t_version r < MaxInt64) :
  exists w' c' r' st, claimCommandTarget cid op now w = (Err ErrConflict, w') /\
    task_stage_claims (w_db w') !! cid = Some c' /\ c_status c' = StageClaimStatusExpired /\
    c_outcome c' = Some TaskClaimOutcomeDeadlineElapsed /\ c_completed_at c' = Some now /\
    tasks (w_db w') !! c_task_id c = Some r' /\ c_stage c = stage_text st /\ row_in r' (Available st).
Proof.
  pose proof Hok as [Hw Hro Hfr Hca Ha Hclk].
  pose proof (cw_key _ _ (wf_claims _ Hw) _ _ Hc) as Hid.
  destruct (cw_active _ _ (wf_claims _ Hw) _ _ Hc Hs) as (r & st & Hk & Hin & Est & En).
  pose proof (tw_key _ (wf_tasks _ Hw) _ _ Hk) as Ek.
  assert (task_by_number (w_db w) (c_task_number c) = Some r) as Hn
    by (apply task_by_number_Some; [apply Hw|]; by rewrite Ek).
  assert (active_claim (w_db w) (t_id r) = Some c) as Hac
    by (apply active_claim_wf; [apply Hw|]; by rewrite Hid, Ek).
  destruct (expire_due_possible _ _ _ _ _ _ _ _ Hok Hn Hin Hac Hdue (Hmax _ Hk)) as (w' & E).
  assert (claimCommandTarget cid op now w = (Err ErrConflict, w')) as Et.
  { unfold claimCommandTarget, get_claim, GetClaim, Time_After. run_fwd. rewrite Hc. run_fwd.
    cbn [sc_Status sc_ExpiresAt sc_TaskNumber scanTaskStageClaim].
    rewrite Hs, (proj2 (Z.ltb_ge _ _) Hdue), (bool_decide_eq_true_2 (StageClaimStatusActive = _)) by done.
    cbn [negb andb]. rewrite E. reflexivity. }
  destruct (ExpireDueClaim_effect _ _ _ _ _ _ Hw Hc Hs E) as (c' & r' & st' & Ecl & ? & ? & ? & Et' & ? & ?).
  exists w', c', r', st'. rewrite Ecl, Et', !lookup_insert_eq. by split_and!.
Qed.
End properties.

(** ** Witnesses *)

(** The demonstration workspace with another Task row and other Claims. *)
Definition demo_with (t : TaskRow) (cs : gmap UUID ClaimRow) : DB :=
  set_claims cs (set_tasks {[ 3%N := t ]} demo_db).
Definition demo_ready : TaskRow :=
  mkTaskRow 3%N 142 2 (Some "ready") None (Some 0) None 2%N None 20 None None alice 10 demo_brief.
Definition demo_working : TaskRow :=
  mkTaskRow 3%N 142 3 (Some "in_progress") (Some "working") (Some 0) None 2%N None 30 None None alice 10 demo_brief.
Definition demo_claim : ClaimRow :=
  mkClaimRow 7%N 3%N 142 "execution" "user" (Some alice) None alice "session" None None None "web" "s1"
    "active" None 1 100 30 30 None.

Lemma demo_rows_ok t cs :
  tasks_checks t = true ->
  (forall i c, cs !! i = Some c -> task_stage_claims_checks c = true /\
     (c_status c = StageClaimStatusActive -> c_version c = 1)) ->
  rows_ok (demo_with t cs).
Proof.
  intros Ht Hc. split; cbn.
  - by intros k r [<- <-]%lookup_singleton_Some.
  - exact Hc.
  - by intros i h [<- <-]%lookup_singleton_Some.
  - by intros j r ?%lookup_empty_Some.
Qed.

Lemma demo_fresh t cs :
  (forall i c, cs !! i = Some c -> (i < 1000000)%N) -> @fresh_from counting_uuids 0 (demo_with t cs).
Proof.
  intros Hc. split; cbn; intros m _; unfold counting_uuid.
  - apply eq_None_not_Some. intros (c & Hi). specialize (Hc _ _ Hi). lia.
  - apply lookup_singleton_None. lia.
  - done.
  - set_solver.
Qed.

Lemma demo_caller_ok t cs now : Time_IsZero now = false -> caller_ok (demo_with t cs) alice_op now.
Proof. intros Hn. split; [reflexivity|cbn; set_solver|done|done]. Qed.

Lemma demo_wf_idle t :
  t_id t = 3%N -> (exists l, row_lifecycle t = Some l /\ TaskLifecycle_Validate l = Ok tt) ->
  (forall st, ~ row_in t (Working st)) -> (forall st, ~ row_in t (NeedsResolution st)) -> wf (demo_with t ∅).
Proof.
  intros Hid (l & Hl & Hv) Hnw Hnr. split; cbn.
  - split.
    + by intros k r [<- <-]%lookup_singleton_Some.
    + by intros k k' r r' [<- <-]%lookup_singleton_Some [<- <-]%lookup_singleton_Some.
    + intros k r l' [<- <-]%lookup_singleton_Some E. congruence.
  - split; [by intros i c ?%lookup_empty_Some|by intros i c ?%lookup_empty_Some|
             by intros i j c c' ?%lookup_empty_Some|].
    intros k r st [<- <-]%lookup_singleton_Some Hin. by destruct (Hnw st).
  - split.
    + by intros i h [<- <-]%lookup_singleton_Some.
    + intros k r l' [<- <-]%lookup_singleton_Some _. exists 4%N, demo_main. done.
    + by intros i j h h' k [<- <-]%lookup_singleton_Some [<- <-]%lookup_singleton_Some.
    + by intros i h k [<- <-]%lookup_singleton_Some (_ & ? & _)%is_open_issue_true.
    + intros k r st [<- <-]%lookup_singleton_Some Hin. by destruct (Hnr st).
  - split; [by intros j r ?%lookup_empty_Some..| |];
      by intros i h k [<- <-]%lookup_singleton_Some (_ & ? & _)%is_open_issue_true.
Qed.

Lemma demo_ready_ok now :
  20 <= now -> @workspace_ok counting_uuids (mkWorld (demo_with demo_ready ∅) 0) alice_actor alice_op now.
Proof.
  intros Hn. split; cbn.
  - apply demo_wf_idle; [done|by eexists| |]; intros st (l & [= <-] & E); by destruct st.
  - apply demo_rows_ok; [reflexivity|]. by intros i c ?%lookup_empty_Some.
  - apply demo_fresh. by intros i c ?%lookup_empty_Some.
  - apply demo_caller_ok. apply bool_decide_eq_false. lia.
  - reflexivity.
  - intros i h [<- <-]%lookup_singleton_Some. cbn. lia.
Qed.

Lemma demo_working_ok now :
  30 <= now ->
  @workspace_ok counting_uuids (mkWorld (demo_with demo_working {[ 7%N := demo_claim ]}) 0) alice_actor alice_op now.
Proof.
  intros Hn. split; cbn.
  - split; cbn.
    + split.
      * by intros k r [<- <-]%lookup_singleton_Some.
      * by intros k k' r r' [<- <-]%lookup_singleton_Some [<- <-]%lookup_singleton_Some.
      * intros k r l [<- <-]%lookup_singleton_Some [= <-]. reflexivity.
    + split.
      * by intros i c [<- <-]%lookup_singleton_Some.
      * intros i c [<- <-]%lookup_singleton_Some _. exists demo_working, Execution.
        split_and!; [by rewrite lookup_singleton_eq| |done|done]. by eexists.
      * by intros i j c c' [<- <-]%lookup_singleton_Some [<- <-]%lookup_singleton_Some.
      * intros k r st [<- <-]%lookup_singleton_Some _. exists 7%N, demo_claim.
        by rewrite lookup_singleton_eq.
    + split.
      * by intros i h [<- <-]%lookup_singleton_Some.
      * intros k r l' [<- <-]%lookup_singleton_Some _. exists 4%N, demo_main. done.
      * by intros i j h h' k [<- <-]%lookup_singleton_Some [<- <-]%lookup_singleton_Some.
      * by intros i h k [<- <-]%lookup_singleton_Some (_ & ? & _)%is_open_issue_true.
      * intros k r st [<- <-]%lookup_singleton_Some (l & [= <-] & E). by destruct st.
    + split; [by intros j r ?%lookup_empty_Some..| |];
        by intros i h k [<- <-]%lookup_singleton_Some (_ & ? & _)%is_open_issue_true.
  - apply demo_rows_ok; [reflexivity|]. by intros i c [<- <-]%lookup_singleton_Some.
  - apply demo_fresh. by intros i c [<- <-]%lookup_singleton_Some.
  - apply demo_caller_ok. apply bool_decide_eq_false. lia.
  - reflexivity.
  - intros i h [<- <-]%lookup_singleton_Some. cbn. lia.
Qed.

Lemma every_command_audited_witness :
  exists e, business_audit_events (w_db (@after counting_uuids (SMarkReady 142 1 alice_op 20) demo_world)) = [e] /\
    be_Actor e = alice_op /\ be_OccurredAt e = 20.
Proof.
  destruct (@every_command_audited counting_uuids (SMarkReady 142 1 alice_op 20) demo_world
    (@after counting_uuids (SMarkReady 142 1 alice_op 20) demo_world) demo_wf) as [(e & He)|[(n & op & now & E) _]].
  - vm_compute. reflexivity.
  - exists e. exact He.
  - discriminate E.
Defined.

Lemma audit_append_only_witness :
  exists es, business_audit_events (w_db (@after_all counting_uuids demo_delivery demo_world)) = es /\
    (length es <= 6)%nat.
Proof. exact (@audit_append_only counting_uuids demo_delivery demo_world demo_wf). Defined.

Lemma records_final_witness :
  records_kept (w_db demo_world) (w_db (@after_all counting_uuids demo_delivery demo_world)).
Proof. exact (@records_final counting_uuids demo_delivery demo_world demo_wf). Defined.

Lemma rows_stay_valid_witness :
  rows_ok (w_db (@after_all counting_uuids demo_delivery (mkWorld (demo_with demo_ready ∅) 0))).
Proof.
  apply (@rows_stay_valid counting_uuids demo_delivery (mkWorld (demo_with demo_ready ∅) 0)).
  - exact (wo_wf _ _ _ _ (demo_ready_ok 20 ltac:(lia))).
  - exact (wo_rows _ _ _ _ (demo_ready_ok 20 ltac:(lia))).
Defined.

Lemma cancel_always_possible_witness :
  exists res w' r', @CancelTask counting_uuids 142 3 "Not needed" alice_actor alice_op 40
      (mkWorld (demo_with demo_working {[ 7%N := demo_claim ]}) 0) = (Ok res, w') /\
    tasks (w_db w') !! 3%N = Some r' /\ row_in r' Cancelled /\ t_version r' = 4.
Proof.
  apply (@cancel_always_possible counting_uuids (mkWorld (demo_with demo_working {[ 7%N := demo_claim ]}) 0) 142
    demo_working (Working Execution) "Not needed" alice_actor alice_op 40 (demo_working_ok 40 ltac:(lia))).
  - vm_compute. reflexivity.
  - eexists. split; reflexivity.
  - intros [E|E]; discriminate E.
  - vm_compute. reflexivity.
  - vm_compute. reflexivity.
Defined.

Lemma takeable_task_claimed_witness :
  exists s claim w' st, @Claim counting_uuids 142 3 alice_actor alice_op "web" "s2" 200
      (mkWorld (demo_with demo_working {[ 7%N := demo_claim ]}) 0) = (Ok (s, claim), w') /\
    GetActiveForTaskNumber (w_db w') 142 = Ok (scanTaskStageClaim (claim_row claim)) /\
    sc_ClaimedBy claim = alice_actor /\ sc_SubjectUserID claim = alice /\
    sc_ExpiresAt claim = 200 + TaskClaimActiveLifetime /\
    exists r', task_by_number (w_db w') 142 = Some r' /\ row_in r' (Working st).
Proof.
  apply (@takeable_task_claimed counting_uuids (mkWorld (demo_with demo_working {[ 7%N := demo_claim ]}) 0) 142
    demo_working (Working Execution) alice_actor alice_op "web" "s2" 200 (demo_working_ok 200 ltac:(lia))).
  - split; intros ? E; discriminate E.
  - lia.
  - lia.
  - vm_compute. reflexivity.
  - eexists. split; reflexivity.
  - right. right. exists Execution, demo_claim. split; [reflexivity|]. split; [vm_compute; reflexivity|].
    vm_compute. discriminate.
  - reflexivity.
  - vm_compute. reflexivity.
Defined.

(** A second Task that the first one depends on. *)
Definition demo_dep_task : TaskRow :=
  mkTaskRow 8%N 143 5 (Some "done") None (Some 1) None 2%N None 15 (Some 15) None alice 10 demo_brief.
Definition demo_dep_db : DB :=
  mkDB {[ 3%N := demo_task; 8%N := demo_dep_task ]} ∅
    {[ 4%N := demo_main; 9%N := mkThreadRow 9%N 8%N "main" None None None None None None None None None 1 10 10 None ]}
    ∅ ∅ ∅ ∅ {[ (3%N, 8%N) ]} ∅ [] {[ alice ]} ∅ ∅ {[ 2%N ]} ∅ ∅ ∅ [] ∅.

Lemma demo_dep_wf : wf demo_dep_db.
Proof.
  assert (forall k r, tasks demo_dep_db !! k = Some r -> (k = 3%N /\ r = demo_task) \/ (k = 8%N /\ r = demo_dep_task))
    as HT.
  { cbn. intros k r [[<- <-]|[? [<- <-]%lookup_singleton_Some]]%lookup_insert_Some; auto. }
  assert (forall i h, task_threads demo_dep_db !! i = Some h -> h_id h = i /\ h_role h = ThreadRoleMain /\
    ((i = 4%N /\ h_task_id h = 3%N) \/ (i = 9%N /\ h_task_id h = 8%N))) as HH.
  { cbn. intros i h [[<- <-]|[? [<- <-]%lookup_singleton_Some]]%lookup_insert_Some; cbn; auto. }
  assert (forall i h k, task_threads demo_dep_db !! i = Some h -> is_open_issue k h = true -> False) as HO.
  { intros i h k (_ & E & _)%HH (_ & E' & _)%is_open_issue_true. rewrite E in E'. discriminate E'. }
  split.
  - split.
    + by intros k r [[-> ->]|[-> ->]]%HT.
    + by intros k k' r r' [[-> ->]|[-> ->]]%HT [[-> ->]|[-> ->]]%HT.
    + intros k r l [[-> ->]|[-> ->]]%HT [= <-]; reflexivity.
  - split; cbn; [by intros i c ?%lookup_empty_Some|by intros i c ?%lookup_empty_Some|
             by intros i j c c' ?%lookup_empty_Some|].
    intros k r st [[-> ->]|[-> ->]]%HT (l & [= <-] & E); by destruct st.
  - split.
    + by intros i h (? & _)%HH.
    + intros k r l [[-> ->]|[-> ->]]%HT _; [exists 4%N|exists 9%N]; eexists; done.
    + intros i j h h' k Hi Hj [E _]%is_main_true [E' _]%is_main_true.
      apply HH in Hi as (_ & _ & Hi). apply HH in Hj as (_ & _ & Hj).
      destruct Hi as [[-> Ei]|[-> Ei]], Hj as [[-> Ej]|[-> Ej]]; (done || (rewrite Ei in E; rewrite Ej in E'; subst k; discriminate)).
    + intros i h k Hi Ho. by destruct (HO _ _ _ Hi Ho).
    + intros k r st [[-> ->]|[-> ->]]%HT (l & [= <-] & E); by destruct st.
  - split; [by cbn; intros j r ?%lookup_empty_Some..| |]; intros i h k Hi Ho; by destruct (HO _ _ _ Hi Ho).
Qed.

Lemma ready_needs_finished_dependencies_witness : finished demo_dep_task.
Proof.
  eapply (@ready_needs_finished_dependencies counting_uuids 142 1 alice_op 20 (mkWorld demo_dep_db 0) _ _
    demo_task 8%N demo_dep_task demo_dep_wf).
  - vm_compute. reflexivity.
  - vm_compute. reflexivity.
  - vm_compute. reflexivity.
  - cbn. set_solver.
Defined.

Definition demo_blocked : list StoreCommand :=
  [SMarkReady 142 1 alice_op 20;
   SClaim 142 2 alice_actor alice_op "web" "s1" 30;
   SRequestResolution 142 (demo_uuid 2) 3 1 "decision_required" "Which one?" alice_actor alice_op 40].
Definition demo_blocked_after (n : nat) : World := @after_all counting_uuids (take n demo_blocked) demo_world.

Lemma demo_blocked_wf n : wf (w_db (demo_blocked_after n)).
Proof. apply after_all_wf, demo_wf. Qed.

Lemma demo_blocked_no_code n : task_code_changes (w_db (demo_blocked_after 2)) !! n = None.
Proof.
  assert (task_code_changes (w_db (demo_blocked_after 2)) = ∅) as -> by (vm_compute; reflexivity).
  apply lookup_empty.
Qed.

Lemma completion_freezes_delivery_witness :
  exists s claim item w' payload,
    @CompleteExecutionWithDelivery counting_uuids 142 (demo_uuid 2) 3 1 "Done" [] alice_actor alice_op 40
      (demo_blocked_after 2) = (Ok (s, claim, item), w') /\
    ti_ExecutionCompleted item = Some payload /\ ecp_ReviewCycle payload = 1 /\
    task_thread_items (w_db w') !! ti_ID item = Some (item_row item "req-1").
Proof.
  destruct (@CompleteExecutionWithDelivery counting_uuids 142 (demo_uuid 2) 3 1 "Done" [] alice_actor alice_op 40
    (demo_blocked_after 2)) as [[[[s claim] item]|e] w'] eqn:E; [|vm_compute in E; discriminate E].
  destruct (@completion_freezes_delivery counting_uuids 142 (demo_uuid 2) 3 1 "Done" [] alice_actor alice_op 40
    (demo_blocked_after 2) s claim item w' (demo_blocked_wf 2)
    ltac:(intros i r Hi; rewrite demo_blocked_no_code in Hi; discriminate Hi) E)
    as (r & h & l & payload & Hld & Hi & _ & Hp & Hc & _).
  exists s, claim, item, w', payload. split; [reflexivity|]. split; [exact Hp|]. split; [|exact Hi].
  destruct Hld as (Hn & _ & Hl & _). vm_compute in Hn. injection Hn as <-. vm_compute in Hl. injection Hl as <-.
  exact Hc.
Defined.

Lemma resolution_recorded_witness :
  exists s issue w' hr', @ResolveIssue counting_uuids 142 4 (demo_uuid 5) 1 "The first" alice_actor alice_op 50
      (demo_blocked_after 3) = (Ok (s, issue), w') /\
    task_threads (w_db w') !! demo_uuid 5 = Some hr' /\ h_issue_status hr' = Some IssueThreadStatusResolved.
Proof.
  destruct (@ResolveIssue counting_uuids 142 4 (demo_uuid 5) 1 "The first" alice_actor alice_op 50
    (demo_blocked_after 3)) as [[[s issue]|e] w'] eqn:E; [|vm_compute in E; discriminate E].
  destruct (@resolution_recorded counting_uuids 142 4 (demo_uuid 5) 1 "The first" alice_actor alice_op 50
    (demo_blocked_after 3) s issue w' (demo_blocked_wf 3) E)
    as (r & h & l & hr & req & a & m & hr' & r' & st & _ & _ & _ & _ & _ & _ & _ & _ & _ & Hh & Hs & _).
  exists s, issue, w', hr'. split; [reflexivity|]. split; [exact Hh|exact Hs].
Defined.

Lemma due_claim_refused_and_expired_witness :
  exists w' c', @claimCommandTarget counting_uuids 7%N alice_op 200
      (mkWorld (demo_with demo_working {[ 7%N := demo_claim ]}) 0) = (Err ErrConflict, w') /\
    task_stage_claims (w_db w') !! 7%N = Some c' /\ c_status c' = StageClaimStatusExpired.
Proof.
  destruct (@due_claim_refused_and_expired counting_uuids (mkWorld (demo_with demo_working {[ 7%N := demo_claim ]}) 0)
    7%N demo_claim alice_actor alice_op 200 (demo_working_ok 200 ltac:(lia))) as (w' & c' & r' & st & E & Hc & Hs & _).
  - vm_compute. reflexivity.
  - reflexivity.
  - vm_compute. discriminate.
  - intros r Hr. vm_compute in Hr. injection Hr as <-. vm_compute. reflexivity.
  - exists w', c'. split; [exact E|]. split; [exact Hc|exact Hs].
Defined.
