(* ===== verification/ReadProperties.v ===== *)
(** * Properties of the reads, of messages and of criteria

    Lists and pages are the slices they promise to be, rows give back what was written, messages
    belong to their authors, and a check counts for one revision of its criterion only. *)

From stdpp Require Import base tactics strings gmap list numbers sorting.
From S2P Require Import Prelude Actors Lifecycle StageClaim Delivery Thread Acceptance.
From S2P Require Import Database Tx ThreadStore ClaimStore WorkflowStore WorkflowCommands.
From S2P Require Import WorkflowEffects WorkflowInvariant WorkflowOutcomes WorkflowSafety StoreCommands Refinement History.
From S2P Require Import Demo.

(** ** Reversing in place *)

Lemma insert_middle {A} (p k : list A) x y n : n = length p -> <[n := y]> (p ++ x :: k) = p ++ y :: k.
Proof. intros ->. rewrite insert_app_r_alt by lia. by rewrite Nat.sub_diag. Qed.

Lemma reverse_loop_spec {A} fuel (p m s : list A) left right :
  length p = left -> (length m <= 2 * fuel + 1)%nat -> (right + 1 = left + length m)%nat ->
  reverse_loop fuel left right (p ++ m ++ s) = p ++ reverse m ++ s.
Proof.
  revert p m s left right. induction fuel as [|fuel IH]; intros p m s left right Hp Hm Hr; cbn.
  { destruct m as [|x [|]]; cbn in Hm; [done|done|lia]. }
  case_bool_decide as Hlt; cycle 1.
  { destruct m as [|x [|]]; cbn in *; [done|done|lia]. }
  destruct m as [|x m]; [cbn in *; lia|]. destruct m as [|y m _] using rev_ind; [cbn in *; lia|].
  rewrite length_cons, length_app in *. cbn [length] in Hm, Hr.
  assert (p ++ (x :: m ++ [y]) ++ s = p ++ x :: m ++ y :: s) as -> by (cbn; by rewrite <- app_assoc).
  rewrite (list_lookup_middle p _ x left) by done.
  assert (forall z, p ++ z :: m ++ y :: s = (p ++ z :: m) ++ y :: s) as E by (intros z; by rewrite <- app_assoc).
  rewrite (E x), (list_lookup_middle (p ++ x :: m) s y right) by (rewrite length_app; cbn; lia).
  rewrite <- (E x), (insert_middle p _ x y left) by done.
  rewrite (E y), (insert_middle (p ++ y :: m) s y x right) by (rewrite length_app; cbn; lia).
  assert ((p ++ y :: m) ++ x :: s = (p ++ [y]) ++ m ++ x :: s) as -> by (by rewrite <- !app_assoc).
  rewrite IH by (rewrite ?length_app; cbn; lia).
  rewrite reverse_cons, reverse_app. cbn. by rewrite <- !app_assoc.
Qed.

(** The loop that swaps the ends of a slice reverses it. *)
Lemma reverse_in_place_spec {A} (l : list A) : reverse_in_place l = reverse l.
Proof.
  unfold reverse_in_place. destruct l as [|x l]; [done|].
  pose proof (reverse_loop_spec (length (x :: l)) [] (x :: l) [] 0 (length (x :: l) - 1)) as E.
  rewrite !app_nil_r in E. apply E; cbn; lia.
Qed.

(** ** Orders with distinct keys *)

Lemma key_le_antisym a b : key_le a b -> key_le b a -> a = b.
Proof. destruct a, b. unfold key_le. cbn. intros. f_equal; lia. Qed.

Section distinct.
Context {A : Type} (key : A -> Z * UUID).
Definition distinct (l : list A) : Prop := forall x y, x ∈ l -> y ∈ l -> key x = key y -> x = y.

Lemma order_by_desc_perm l : order_by_desc key l ≡ₚ l.
Proof. apply merge_sort_Permutation. Qed.

Lemma order_by_desc_sorted l : StronglySorted (fun x y => key_le (key y) (key x)) (order_by_desc key l).
Proof.
  apply Sorted_StronglySorted; [intros x y z ? ?; by eapply key_le_trans|].
  apply Sorted_merge_sort. intros x y. destruct (key_le_total (key x) (key y)); [by right|by left].
Qed.

(** Descending order is ascending order reversed. *)
Lemma order_by_desc_reverse l : distinct l -> order_by_desc key l = reverse (order_by key l).
Proof.
  intros Hd. eapply (StronglySorted_unique_strong (fun x y => key_le (key y) (key x))).
  - intros x y Hx Hy Hxy Hyx. apply Hd.
    + by rewrite <- (order_by_desc_perm l).
    + rewrite elem_of_reverse, order_by_perm in Hy. done.
    + by apply key_le_antisym.
  - apply order_by_desc_sorted.
  - assert (StronglySorted (fun x y => key_le (key x) (key y)) (order_by key l)) as Hs by apply order_by_sorted.
    induction Hs as [|x k _ IH Hf]; [constructor|]. rewrite reverse_cons.
    apply StronglySorted_app_2; [|done|repeat constructor]. intros y z Hy ->%list_elem_of_singleton.
    rewrite elem_of_reverse in Hy. by eapply Forall_forall in Hf.
  - by rewrite order_by_desc_perm, reverse_Permutation, order_by_perm.
Qed.
End distinct.

Section reads.
Context `{UUIDSource}.

Lemma items_of_distinct d th : items_wf (task_threads d) (task_thread_items d) -> distinct item_key (items_of d th).
Proof.
  intros Hw x y (_ & i & Hi)%elem_of_select (_ & j & Hj)%elem_of_select [= _ E].
  rewrite (iw_key _ _ Hw _ _ Hi), (iw_key _ _ Hw _ _ Hj) in E. congruence.
Qed.

(** The recent Items of a Thread are its last Items, in the order in which the whole Thread is
    listed, with the number of all Items: reading backwards, cutting off and reversing in place
    gives the tail of the list. *)
Theorem recent_items_are_last d th limit
  (Hw : wf d) (Hl : 1 <= limit <= 100) :
  ListRecentItems d th limit =
  Ok (drop (length (ListItems d th) - Z.to_nat limit) (ListItems d th), Z.of_nat (length (ListItems d th))).
Proof.
  unfold ListRecentItems. rewrite (proj2 (Z.ltb_ge limit 1)), (proj2 (Z.ltb_ge 100 limit)) by lia. cbn.
  unfold ListItems. rewrite length_fmap.
  assert (length (order_by item_key (items_of d th)) = length (items_of d th)) as El
    by (by rewrite order_by_perm).
  rewrite El, reverse_in_place_spec, order_by_desc_reverse by apply items_of_distinct, Hw. do 2 f_equal.
  rewrite <- fmap_drop, <- fmap_reverse. f_equal.
  rewrite take_reverse, reverse_involutive, El. done.
Qed.

(** ** Pages of owned Claims *)

(** All Claims of a principal that match the filters, newest first. *)
Definition owned_claims (d : DB) (op : OperationActor) (status : StageClaimStatus) (stage : TaskClaimStage)
  : list TaskStageClaim :=
  scanTaskStageClaim <$> order_by_desc claim_key (select (owned_by op status stage) (task_stage_claims d)).

(** Paging through the owned Claims misses none and repeats none.  A page is the slice of the
    whole list at its offset, and it says that there is more exactly when a Claim follows it. *)
Theorem owned_pages_are_slices d op status stage offset limit
  (Hop : OperationActor_Validate op = Ok tt)
  (Hst : status = "" \/ StageClaimStatus_Valid status = true)
  (Hsg : stage = "" \/ TaskClaimStage_Valid stage = true)
  (Ho : 0 <= offset) (Hl : 1 <= limit <= 10000) :
  ListOwnedPage d op status stage offset limit =
  Ok (take (Z.to_nat limit) (drop (Z.to_nat offset) (owned_claims d op status stage)),
      offset + limit <? Z.of_nat (length (owned_claims d op status stage))).
Proof.
  unfold ListOwnedPage. rewrite Hop. cbn [mbind result_mbind].
  match goal with |- fail_if ?b _ ≫= _ = _ => assert (b = false) as -> end.
  { destruct Hst as [->|Hx]; [done|]. by rewrite Hx, andb_false_r. }
  cbn [mbind result_mbind fail_if].
  match goal with |- fail_if ?b _ ≫= _ = _ => assert (b = false) as -> end.
  { destruct Hsg as [->|Hx]; [done|]. by rewrite Hx, andb_false_r. }
  rewrite (proj2 (Z.ltb_ge offset 0)), (proj2 (Z.ltb_ge limit 1)), (proj2 (Z.ltb_ge 10000 limit)) by lia. cbn.
  unfold owned_claims. set (all := order_by_desc claim_key _).
  rewrite !length_fmap, length_take, length_drop, fmap_take, fmap_drop. f_equal.
  assert ((limit <? Z.of_nat (Z.to_nat (limit + 1) `min` (length all - Z.to_nat offset)))
    = (offset + limit <? Z.of_nat (length all))) as ->.
  { apply Bool.eq_iff_eq_true. rewrite !Z.ltb_lt. lia. }
  f_equal. destruct (Z.ltb_spec (offset + limit) (Z.of_nat (length all))).
  - rewrite take_take. f_equal. lia.
  - rewrite !take_ge; rewrite ?length_drop, ?length_fmap; done || lia.
Qed.

(** ** Claims survive their row *)

(** A Claim is read back from its row exactly as it was written when its actor is in the form
    in which the columns keep it (a user by id alone, an Agent by reference alone), and only then. *)
Theorem claim_row_roundtrip c :
  scanTaskStageClaim (claim_row c) = c <->
  (if actor_Type (sc_ClaimedBy c) == ActorTypeUser then actor_Ref (sc_ClaimedBy c) = ""
   else actor_UserID (sc_ClaimedBy c) = None).
Proof.
  unfold claim_row. destruct c as [id tid n st [ty u ref] su am at_ tn ar ck cs stt o v ex ca ua co]. cbn.
  unfold actorColumns. cbn. case_bool_decide as Ht; unfold scanTaskStageClaim, actorFromColumns; cbn;
    rewrite !of_nullIfEmpty; (split; [by intros [= ->]|by intros ->]).
Qed.

(** ** Messages *)

(** The row of an Item was written by the caller. *)
Definition authored_by (r : ItemRow) (author : Actor) : Prop :=
  mkActor (i_author_type r) (i_author_user_id r) (of_null (i_author_ref r)) = author.

(** A message can be edited only by its author, at its current version, while it is not deleted
    and its Issue Thread is not resolved; no other kind of Item can be edited at all.  The row then
    holds the new text in the next version. *)
Theorem message_edit_by_author i v body mentioned author op now w item w'
  (Hw : wf (w_db w)) (Hr : EditMessage i v body mentioned author op now w = (Ok item, w')) :
  exists r r' h, task_thread_items (w_db w) !! i = Some r /\ i_kind r = ThreadItemKindMessage /\
    i_deleted_at r = None /\ i_version r = v /\ authored_by r author /\
    task_threads (w_db w) !! i_thread_id r = Some h /\
    h_issue_status h <> Some IssueThreadStatusResolved /\ blank body = false /\
    task_thread_items (w_db w') !! i = Some r' /\ i_body r' = Some body /\ i_version r' = int64 (v + 1) /\
    i_deleted_at r' = None /\ i_author_type r' = i_author_type r /\ i_created_at r' = i_created_at r.
Proof.
  apply mutateMessage_Ok in Hr
    as (r & h & r1 & m & e & _ & Hi & Hv & Hh & Hs & Hm & A1 & A2 & A3 & Hi1 & _ & _ & _ & Ed).
  pose proof (iw_key _ _ (wf_items _ Hw) _ _ Hi) as Hid.
  unfold ThreadItem_Edit, ThreadItemKind_Immutable in Hm. go_inv. cbn in *.
  match goal with Hd : present _ = false |- _ => apply present_false in Hd end.
  exists r, (set_message_row r (ti_rewritten (scanTaskThreadItem (mentions_of (w_db w) (i_id r)) r) body mentioned now
    (i_deleted_at r))), h. rewrite Ed. cbn. rewrite lookup_insert_eq.
  match goal with Hd : i_deleted_at r = None |- _ => rewrite Hd end.
  split_and!; try done. destruct author. unfold authored_by. cbn in *. congruence.
Qed.

(** Deleting a message leaves a tombstone: only its author can delete it, once, and the row
    stays with its author and creation but without the text. *)
Theorem message_delete_tombstone i v author op now w item w'
  (Hw : wf (w_db w)) (Hr : DeleteMessage i v author op now w = (Ok item, w')) :
  exists r r', task_thread_items (w_db w) !! i = Some r /\ i_kind r = ThreadItemKindMessage /\
    i_deleted_at r = None /\ i_version r = v /\ authored_by r author /\
    task_thread_items (w_db w') !! i = Some r' /\ i_body r' = None /\ i_deleted_at r' = Some now /\
    i_version r' = int64 (v + 1) /\ authored_by r' author /\ i_created_at r' = i_created_at r /\
    (forall v' body mentioned author' op' now' item' w'',
       EditMessage i v' body mentioned author' op' now' w' <> (Ok item', w'')).
Proof.
  apply mutateMessage_Ok in Hr
    as (r & h & r1 & m & e & _ & Hi & Hv & Hh & Hs & Hm & A1 & A2 & A3 & Hi1 & _ & _ & _ & Ed).
  pose proof (iw_key _ _ (wf_items _ Hw) _ _ Hi) as Hid.
  unfold ThreadItem_Delete, ThreadItemKind_Immutable in Hm. go_inv. cbn in *.
  match goal with Hd : present _ = false |- _ => apply present_false in Hd end.
  assert (authored_by r author) as Ha by (destruct author; unfold authored_by; cbn in *; congruence).
  exists r, (set_message_row r (ti_rewritten (scanTaskThreadItem (mentions_of (w_db w) (i_id r)) r) "" [] now
    (Some now))). rewrite Ed. cbn. rewrite lookup_insert_eq. split_and!; try done.
  intros v' body mentioned author' op' now' item' w'' E.
  apply mutateMessage_Ok in E as (r2 & h2 & r3 & m2 & e2 & _ & Hi2 & _ & _ & _ & Hm2 & _).
  rewrite Ed in Hi2. cbn in Hi2. rewrite lookup_insert_eq in Hi2. injection Hi2 as <-.
  unfold ThreadItem_Edit in Hm2. cbn in Hm2. by rewrite orb_true_r in Hm2.
Qed.
End reads.

(** ** Criteria *)

(** Editing a criterion voids the checks that were recorded for it: once its text or its
    verification changes, no check of an earlier revision satisfies it, in any review cycle. *)
Theorem criterion_edit_voids_checks c criterion instructions now cycle k
  (Hchanged : ac_Criterion c <> criterion \/ ac_VerificationInstructions c <> instructions)
  (Hrev : 1 <= ac_Revision c < MaxInt64) (Hk : k_criterion_revision k <= ac_Revision c) :
  satisfies (AcceptanceCriterion_Edit c criterion instructions now) cycle k = false.
Proof.
  unfold AcceptanceCriterion_Edit.
  assert ((ac_Criterion c != criterion) || (ac_VerificationInstructions c != instructions) = true) as ->.
  { apply orb_true_iff. destruct Hchanged; [left|right]; by apply negb_true_iff, bool_decide_eq_false. }
  unfold satisfies. cbn. rewrite int64_small by (unfold MaxInt64 in *; lia).
  rewrite (bool_decide_eq_false_2 (k_criterion_revision k = _)) by lia. by rewrite andb_false_r.
Qed.

(** ** Witnesses *)

Definition demo_end : World := @after_all counting_uuids demo_delivery demo_world.

Lemma demo_end_wf : wf (w_db demo_end).
Proof. apply after_all_wf, demo_wf. Qed.

Lemma recent_items_are_last_witness :
  ListRecentItems (w_db demo_end) 4%N 2
  = Ok (drop 3 (ListItems (w_db demo_end) 4%N), 5).
Proof.
  refine (eq_trans (recent_items_are_last (w_db demo_end) 4%N 2 demo_end_wf _) _); [lia|].
  vm_compute. reflexivity.
Defined.

Lemma owned_pages_are_slices_witness :
  ListOwnedPage (w_db demo_end) alice_op "" TaskClaimStageReview 0 1
  = Ok (take 1 (owned_claims (w_db demo_end) alice_op "" TaskClaimStageReview), false).
Proof.
  refine (eq_trans (owned_pages_are_slices (w_db demo_end) alice_op "" TaskClaimStageReview 0 1 _ _ _ _ _) _).
  - vm_compute. reflexivity.
  - left. reflexivity.
  - right. vm_compute. reflexivity.
  - lia.
  - lia.
  - vm_compute. reflexivity.
Defined.

Definition demo_message : World :=
  @after counting_uuids (SAddItem 4%N "message" "Hello" None [] alice_actor alice_op 20) demo_world.

Lemma demo_message_wf : wf (w_db demo_message).
Proof. apply after_wf, demo_wf. Qed.

Lemma message_edit_by_author_witness :
  exists item w', @EditMessage counting_uuids (demo_uuid 0) 1 "Hello all" [] alice_actor alice_op 30 demo_message
      = (Ok item, w') /\
    exists r', task_thread_items (w_db w') !! demo_uuid 0 = Some r' /\ i_body r' = Some "Hello all".
Proof.
  destruct (@EditMessage counting_uuids (demo_uuid 0) 1 "Hello all" [] alice_actor alice_op 30 demo_message)
    as [[item|e] w'] eqn:E; [|vm_compute in E; discriminate E].
  destruct (@message_edit_by_author counting_uuids (demo_uuid 0) 1 "Hello all" [] alice_actor alice_op 30 demo_message
    item w' demo_message_wf E) as (r & r' & h & _ & _ & _ & _ & _ & _ & _ & _ & Hr & Hb & _).
  exists item, w'. split; [reflexivity|]. exists r'. split; [exact Hr|exact Hb].
Defined.

Lemma message_delete_tombstone_witness :
  exists item w', @DeleteMessage counting_uuids (demo_uuid 0) 1 alice_actor alice_op 30 demo_message
      = (Ok item, w') /\
    exists r', task_thread_items (w_db w') !! demo_uuid 0 = Some r' /\ i_body r' = None.
Proof.
  destruct (@DeleteMessage counting_uuids (demo_uuid 0) 1 alice_actor alice_op 30 demo_message)
    as [[item|e] w'] eqn:E; [|vm_compute in E; discriminate E].
  destruct (@message_delete_tombstone counting_uuids (demo_uuid 0) 1 alice_actor alice_op 30 demo_message
    item w' demo_message_wf E) as (r & r' & _ & _ & _ & _ & _ & Hr & Hb & _).
  exists item, w'. split; [reflexivity|]. exists r'. split; [exact Hr|exact Hb].
Defined.

Lemma criterion_edit_voids_checks_witness :
  satisfies (AcceptanceCriterion_Edit demo_criterion "It works well" "Run it" 50) 1
    (mkCheckRow 9%N 6%N 1 "passed" "Ran it" "user" (Some alice) None 40 (Some "acceptance") (Some 7%N) (Some 1))
  = false.
Proof.
  apply criterion_edit_voids_checks.
  - left. vm_compute. discriminate.
  - split; [vm_compute; discriminate|vm_compute; reflexivity].
  - vm_compute. discriminate.
Defined.
