(* ===== verification/PlanProperties.v ===== *)
(** * Properties of the plan of Tasks

    What holds of parents, dependencies, schedules and readiness whatever commands run, how exact the
    checks of the task store are, and what its edits leave alone. *)

From stdpp Require Import base tactics strings gmap list numbers sorting relations.
From S2P Require Import Prelude Actors Lifecycle StageClaim Delivery Thread Acceptance.
From S2P Require Import Database Tx ThreadStore ClaimStore WorkflowStore WorkflowCommands.
From S2P Require Import TaskStore TaskGraph WorkflowEffects WorkflowInvariant WorkflowOutcomes WorkflowSafety.
From S2P Require Import TaskEffects TaskInvariant StoreCommands Refinement History Changes Workspace Demo.

(** ** Invariants *)

Lemma brief_checks_schedule r s e :
  tasks_brief_checks r = true -> b_start_date (t_brief r) = Some s -> b_due_date (t_brief r) = Some e -> s <= e.
Proof.
  unfold tasks_brief_checks. intros Hc Es Ee. rewrite Es, Ee in Hc. cbn in Hc.
  destruct (Z.leb_spec s e); [done|]. rewrite !andb_true_iff in Hc. naive_solver.
Qed.

Section properties.
Context `{UUIDSource} `{TextForms}.

(** C6: whatever commands run on a consistent workspace, the workflow stays consistent and the plan
    stays a plan: dependencies have no cycle and stay within one project, parents have no parents and
    share project and milestone with their children, nobody depends on its own parent or child, and no
    Task starts after it is due.  (Commands run one after the other.) *)
Theorem plan_consistent cs w (Hw : wf (w_db w)) (Hp : planned (w_db w)) :
  let d := w_db (steps cs w) in
  wf d /\
  (forall a, ~ tc (fun a b => (a, b) ∈ task_dependencies d) a a) /\
  (forall a b, (a, b) ∈ task_dependencies d -> exists ra rb, tasks d !! a = Some ra /\ tasks d !! b = Some rb /\
     t_project_id ra = t_project_id rb /\ t_parent_task_id ra <> Some b /\ t_parent_task_id rb <> Some a) /\
  (forall k r p, tasks d !! k = Some r -> t_parent_task_id r = Some p -> exists q, tasks d !! p = Some q /\
     t_parent_task_id q = None /\ t_project_id q = t_project_id r /\
     b_milestone_id (t_brief q) = b_milestone_id (t_brief r)) /\
  (forall k r s e, tasks d !! k = Some r -> b_start_date (t_brief r) = Some s -> b_due_date (t_brief r) = Some e ->
     s <= e).
Proof.
  cbv zeta. destruct (steps_keep cs w Hw Hp) as [Hw' [Pa Pe Pp Pb _ _]]. split_and!; [done|exact Pa|exact Pe|exact Pp|].
  intros k r s e Hk. apply brief_checks_schedule. by eapply Pb.
Qed.

(** A Task that is ready waits for nobody.  However Tasks are created, edited and worked on, every
    Task on which a ready Task depends is done or cancelled. *)
Theorem ready_tasks_unblocked cs w k r b q
  (Hw : wf (w_db w)) (Hp : planned (w_db w)) (Hk : tasks (w_db (steps cs w)) !! k = Some r)
  (Hready : t_phase r = Some TaskPhaseReady) (Hd : (k, b) ∈ task_dependencies (w_db (steps cs w)))
  (Hb : tasks (w_db (steps cs w)) !! b = Some q) :
  t_phase q = Some TaskPhaseDone \/ t_phase q = Some TaskPhaseCancelled.
Proof.
  destruct (steps_keep cs w Hw Hp) as [_ Hp']. exact (pw_ready _ _ _ Hp' k r b q Hk Hready Hd Hb).
Qed.

(** ** The checks of the store *)

(** C12: the recursive query computes the transitive closure: the rounds that it is given are always
    enough, and it finds exactly the Tasks on which a Task depends, directly or through others. *)
Theorem recursive_query_exact E a b :
  b ∈ reachable E a <-> tc (fun a b => (a, b) ∈ E) a b.
Proof. apply reachable_tc. Qed.

Lemma validate_dependencies_iff d k proj parent seen ds :
  NoDup ds -> (forall b, b ∈ ds -> b ∉ seen) ->
  (forall b, b ∈ ds -> exists q, tasks d !! b = Some q /\ t_archived_at q = None /\ t_project_id q = proj /\
     parent <> Some b /\ t_parent_task_id q <> Some k) ->
  validate_dependencies d k proj parent seen ds = Ok tt <->
  forall b, b ∈ ds -> b <> k /\ (k ∉ reachable (task_dependencies d) b).
Proof.
  revert seen. induction ds as [|c ds IH]; intros seen Hnd Hseen Hok; cbn; [split; [set_solver|done]|].
  apply NoDup_cons in Hnd as [Hc Hnd].
  destruct (Hok c ltac:(set_solver)) as (q & Hq & Ha & Hproj & Hpar & Hqp).
  assert (c ∉ seen) as Hcs by (apply Hseen; set_solver).
  destruct (decide (c = k)) as [->|Hne].
  { rewrite (bool_decide_eq_true_2 (k = k)) by done. cbn. split; [done|]. intros Hx. by destruct (Hx k ltac:(set_solver)). }
  rewrite (bool_decide_eq_false_2 (c = k)) by done. cbn. rewrite (bool_decide_eq_false_2 (c ∈ seen) Hcs). cbn.
  rewrite Hq. cbn. rewrite Ha, Hproj. cbn. rewrite (bool_decide_eq_true_2 (proj = proj) eq_refl). cbn.
  rewrite (bool_decide_eq_false_2 (parent = Some c) Hpar), (bool_decide_eq_false_2 (t_parent_task_id q = Some k) Hqp).
  cbn.
  destruct (decide (k ∈ reachable (task_dependencies d) c)) as [Hr|Hr].
  { rewrite (bool_decide_eq_true_2 (k ∈ _) Hr). cbn. split; [done|]. intros Hx. by destruct (Hx c ltac:(set_solver)). }
  rewrite (bool_decide_eq_false_2 (k ∈ reachable _ c)) by done. cbn.
  rewrite IH; [|done|set_solver|set_solver]. split.
  - by intros Hx b [-> | Hb]%elem_of_cons; [|apply Hx].
  - intros Hx b Hb. apply Hx. by right.
Qed.

(** C11: the cycle check is exact.  New dependencies that are distinct, exist in the project, are not
    archived and are neither parent nor children of the Task are accepted if and only if the graph
    with them in place of the old ones has no cycle. *)
Theorem cycle_check_exact d k proj parent ds
  (Hp : planned d) (Hnd : NoDup ds)
  (Hok : forall b, b ∈ ds -> exists q, tasks d !! b = Some q /\ t_archived_at q = None /\ t_project_id q = proj /\
     parent <> Some b /\ t_parent_task_id q <> Some k) :
  validateDependencyAssignments d k proj parent ds = Ok tt <->
  forall a, ~ tc (fun a b => (a = k /\ b ∈ ds) \/ (a <> k /\ (a, b) ∈ task_dependencies d)) a a.
Proof.
  unfold validateDependencyAssignments. rewrite validate_dependencies_iff; [|done|set_solver|done].
  rewrite <- (acyclic_replaced _ _ _ (pw_acyclic _ _ _ Hp)). unfold acyclic.
  assert (forall a b, tc (depends (replaced (task_dependencies d) k ds)) a b <->
    tc (fun a b => (a = k /\ b ∈ ds) \/ (a <> k /\ (a, b) ∈ task_dependencies d)) a b) as E.
  { intros a b. split; induction 1; first [apply tc_once; by apply depends_replaced
      | eapply tc_l; [by apply depends_replaced|done]]. }
  by setoid_rewrite E.
Qed.

Lemma existsb_none {A} (f : A -> bool) l : (forall x, x ∈ l -> f x = false) -> existsb f l = false.
Proof.
  intros Hf. apply not_true_is_false. intros (x & Hx & E)%existsb_exists. rewrite Hf in E; [done|].
  by apply list_elem_of_In.
Qed.

Lemma existing_dependencies_ok d k r :
  planned d -> tasks d !! k = Some r -> t_id r = k ->
  validateExistingDependenciesForProject d (t_id r) (t_project_id r) = Ok tt.
Proof.
  intros Hp Hk <-. unfold validateExistingDependenciesForProject. apply fail_if_Ok, existsb_none.
  intros [a b] Hin%elem_of_elements. cbn. destruct (pw_edge _ _ _ Hp a b Hin) as (ra & rb & Ha & Hb & E & _).
  destruct (decide (a = t_id r)) as [->|Hne].
  - rewrite bool_decide_eq_true_2 by done. cbn. rewrite Hb. assert (ra = r) as -> by congruence.
    by rewrite E, (bool_decide_eq_true_2 (t_project_id rb = _)).
  - rewrite (bool_decide_eq_false_2 (a = _)) by done. cbn. rewrite Ha. destruct (decide (b = t_id r)) as [->|Hne'].
    + assert (rb = r) as -> by congruence.
      by rewrite E, (bool_decide_eq_true_2 (t_project_id r = _)), andb_false_r by done.
    + by rewrite (bool_decide_eq_false_2 (b = _)).
Qed.

Lemma relationships_trigger_ok d k r :
  tasks_wf (tasks d) -> planned d -> tasks d !! k = Some r -> validate_task_relationships d r = true.
Proof.
  intros Hw Hp Hk. pose proof (tw_key _ Hw _ _ Hk) as Hid. unfold validate_task_relationships.
  rewrite (existing_dependencies_ok d k r Hp Hk Hid), andb_true_r, Hid.
  destruct (t_parent_task_id r) as [p|] eqn:Ep.
  - destruct (pw_parent _ _ _ Hp _ _ _ Hk Ep) as (q & Hq & Hqp & Hproj & Hm). rewrite Hq, Hqp, Hproj, Hm. cbn.
    rewrite !(bool_decide_eq_true_2 (_ = _)) by done. rewrite existsb_none; cbn.
    + rewrite !bool_decide_eq_false_2; [done| |]; intros Hd; destruct (pw_edge _ _ _ Hp _ _ Hd) as (ra & rb & Ha & Hb & _ & H1 & H2);
        congruence.
    + intros c (j & Hj)%elem_of_rows. apply bool_decide_eq_false. intros Ec.
      destruct (pw_parent _ _ _ Hp _ _ _ Hj Ec) as (z & Hz & Hzp & _). congruence.
  - apply negb_true_iff, existsb_none. intros c (j & Hj)%elem_of_rows. apply andb_false_iff.
    destruct (decide (t_parent_task_id c = Some k)) as [Ec|Ec]; [right|left; by apply bool_decide_eq_false].
    destruct (pw_parent _ _ _ Hp _ _ _ Hj Ec) as (z & Hz & _ & E1 & E2).
    assert (z = r) as -> by congruence. rewrite E1, E2. by rewrite !bool_decide_eq_true_2.
Qed.

(** The deferred triggers of the database never reject what the task store committed: in every
    workspace that the commands reach, their conditions hold for every Task and every dependency. *)
Theorem relation_triggers_pass cs w (Hw : wf (w_db w)) (Hp : planned (w_db w)) :
  let d := w_db (steps cs w) in
  (forall k r, tasks d !! k = Some r -> validate_task_relationships d r = true) /\
  (forall e, e ∈ task_dependencies d -> validate_task_dependency d e = true).
Proof.
  cbv zeta. destruct (steps_keep cs w Hw Hp) as [Hw' Hp']. split.
  - intros k r Hk. by eapply relationships_trigger_ok; [apply Hw'| |].
  - intros [a b] Hd. unfold validate_task_dependency. cbn.
    destruct (pw_edge _ _ _ Hp' _ _ Hd) as (ra & rb & Ha & Hb & E & H1 & H2). rewrite Ha, Hb, E.
    rewrite (bool_decide_eq_true_2 (t_project_id rb = _)) by done. rewrite !(bool_decide_eq_false_2 (_ = Some _)) by done.
    cbn. apply negb_true_iff, bool_decide_eq_false. rewrite reachable_tc. intros Ht.
    apply (pw_acyclic _ _ _ Hp' a). by eapply tc_l.
Qed.

(** ** What an edit does *)

(** An edit leaves the workflow alone.  A successful update changes neither the phase, the activity,
    the review cycle and the active Issue of any Task, nor its number, its project and whether it is
    archived; it keeps every Task, and gives the edited one its next version. *)
Theorem update_keeps_workflow number expected patch op now w out w'
  (Hw : wf (w_db w)) (Hp : planned (w_db w))
  (Hr : updateWithExpectedVersion number expected patch op now w = (Ok out, w')) :
  (exists r, task_by_number (w_db w) number = Some r /\ task_by_number (w_db w') number = Some out /\
     (forall v, expected = Some v -> t_version r = v) /\ t_version out = t_version r + 1) /\
  (forall k r, tasks (w_db w) !! k = Some r -> exists r', tasks (w_db w') !! k = Some r' /\
     t_phase r' = t_phase r /\ t_activity_state r' = t_activity_state r /\ t_review_cycle r' = t_review_cycle r /\
     t_active_issue_thread_id r' = t_active_issue_thread_id r /\ t_number r' = t_number r /\
     t_project_id r' = t_project_id r /\ t_archived_at r' = t_archived_at r) /\
  (forall k r', tasks (w_db w') !! k = Some r' -> is_Some (tasks (w_db w) !! k)).
Proof.
  destruct (update_keeps _ _ _ _ _ _ _ _ Hw Hp Hr) as [Hw' _].
  apply update_Ok in Hr as (r & brief & completed & E & T1 & T2 & T3 & Hu & Hl & Hout).
  assert (tasks (w_db w') = T3) as ET by (by destruct Hl as (? & ? & ? & ->)). rewrite ET in *.
  pose proof (updated_self _ _ _ _ _ _ _ _ _ _ _ _ Hw Hu) as Hself. rewrite Hself in Hout. injection Hout as <-.
  pose proof (tu_row _ _ _ _ _ _ _ _ _ _ _ _ Hu) as Hrow. split_and!.
  - exists r. split_and!; [done| |by apply Hu|done].
    apply (task_by_number_Some _ _ _ (wf_tasks _ Hw')). rewrite ET. split; [done|]. cbn.
    by apply (task_by_number_Some _ _ _ (wf_tasks _ Hw)) in Hrow as [_ ?].
  - intros k y Hy. destruct (updated_new _ _ _ _ _ _ _ _ _ _ _ _ Hw Hu _ _ Hy) as (x & Hx & [] & Hc).
    exists x. split_and!; try done. destruct Hc as [(_ & -> & ->)|(_ & Ht)]; [done|apply Ht].
  - intros k x Hx. destruct (updated_old _ _ _ _ _ _ _ _ _ _ _ _ Hw Hu _ _ Hx) as (y & Hy & _). by exists y.
Qed.

Lemma patched_brief_shift d r patch brief days :
  patched_brief d r patch = Ok brief -> tp_ScheduleShiftDays patch = Some days ->
  b_start_date brief = shifted days (b_start_date (t_brief r)) /\
  b_due_date brief = shifted days (b_due_date (t_brief r)).
Proof.
  unfold patched_brief. cbv zeta. intros Hb Hs. rewrite Hs in Hb.
  do 6 (apply bind_Ok in Hb as ([] & _ & Hb)). apply bind_Ok in Hb as ([s e] & Hdates & Hb).
  apply bind_Ok in Hb as ([] & _ & [= <-]). apply bind_Ok in Hdates as ([] & _ & Hdates).
  apply bind_Ok in Hdates as ([] & Hset & Hdates). apply bind_Ok in Hdates as ([] & _ & [= <- <-]).
  apply fail_if_Ok, orb_false_iff in Hset as [-> ->]. done.
Qed.

(** Every child is shifted, also when it is moved to another milestone by the same edit. *)
Lemma shifted_children d number expected patch now r brief completed E T1 T2 T3 days k c :
  wf d -> planned d -> task_updated d number expected patch now r brief completed E T1 T2 T3 ->
  tp_ScheduleShiftDays patch = Some days -> tasks d !! k = Some c -> t_parent_task_id c = Some (t_id r) ->
  exists c', T3 !! k = Some c' /\
    b_start_date (t_brief c') = shifted days (b_start_date (t_brief c)) /\
    b_due_date (t_brief c') = shifted days (b_due_date (t_brief c)).
Proof.
  intros Hw Hp Hu Hs Hk Hc. pose proof (updated_target _ _ _ _ _ _ _ _ _ _ _ _ Hw Hu) as Hr.
  destruct (pw_parent _ _ _ Hp _ _ _ Hk Hc) as (q & Hq & Hqp & _). assert (q = r) as -> by congruence.
  assert (k <> t_id r) as Hne by congruence.
  assert (exists y, T2 !! k = Some y /\ is_child (t_id r) y = true /\
    b_start_date (t_brief y) = b_start_date (t_brief c) /\ b_due_date (t_brief y) = b_due_date (t_brief c)) as (y & Hy & Hyc & Ys & Ye).
  { assert (is_child (t_id r) c = true) as Hcc by (by apply bool_decide_eq_true).
    assert (T1 !! k = Some c) as H1 by (by rewrite (tu_T1 _ _ _ _ _ _ _ _ _ _ _ _ Hu), lookup_insert_ne).
    pose proof (tu_T2 _ _ _ _ _ _ _ _ _ _ _ _ Hu) as H2. cbv zeta in H2. destruct (negb _ && negb _).
    - destruct H2 as [-> _].
      rewrite (put_rows_select _ (is_child (t_id r)) _ _ _ (T1_key _ _ _ _ _ _ _ _ _ _ _ _ Hw Hu)
                 (children_perm (set_tasks T1 d) (t_id r))), H1. cbn. rewrite Hcc. by eexists.
    - rewrite H2. eauto. }
  pose proof (tu_T3 _ _ _ _ _ _ _ _ _ _ _ _ Hu) as H3. cbv zeta in H3. rewrite Hs, Hqp in H3. cbn in H3.
  destruct H3 as [-> _].
  rewrite (put_rows_select _ (fun c => is_child (t_id r) c && scheduled c) _ _ _
             (touched_keys _ _ _ _ (T1_key _ _ _ _ _ _ _ _ _ _ _ _ Hw Hu) (T2_touched _ _ _ _ _ _ _ _ _ _ _ _ Hw Hu))
             (scheduled_children_perm (set_tasks T2 d) (t_id r))), Hy. cbn. rewrite Hyc. cbn.
  destruct (scheduled y) eqn:Hsch.
  - eexists. split; [done|]. cbn. by rewrite Ys, Ye.
  - exists y. unfold scheduled in Hsch. apply orb_false_iff in Hsch as [H1%present_false H2%present_false].
    rewrite <- Ys, <- Ye, H1, H2. done.
Qed.

(** Shifting a schedule moves it as a whole.  When a Task is shifted by some days, so are its start
    and its due date and, if it is a parent, those of all its children, whatever else the edit does;
    no other Task changes. *)
Theorem schedule_shift_uniform number expected patch op now w out w' days
  (Hw : wf (w_db w)) (Hp : planned (w_db w)) (Hs : tp_ScheduleShiftDays patch = Some days)
  (Hr : updateWithExpectedVersion number expected patch op now w = (Ok out, w')) :
  exists r, task_by_number (w_db w) number = Some r /\ tasks (w_db w') !! t_id r = Some out /\
    b_start_date (t_brief out) = (fun n => n + days) <$> b_start_date (t_brief r) /\
    b_due_date (t_brief out) = (fun n => n + days) <$> b_due_date (t_brief r) /\
    (forall k c, tasks (w_db w) !! k = Some c -> t_parent_task_id c = Some (t_id r) ->
       exists c', tasks (w_db w') !! k = Some c' /\
         b_start_date (t_brief c') = (fun n => n + days) <$> b_start_date (t_brief c) /\
         b_due_date (t_brief c') = (fun n => n + days) <$> b_due_date (t_brief c)) /\
    (forall k c, tasks (w_db w) !! k = Some c -> k <> t_id r -> t_parent_task_id c <> Some (t_id r) ->
       tasks (w_db w') !! k = Some c).
Proof.
  apply update_Ok in Hr as (r & brief & completed & E & T1 & T2 & T3 & Hu & Hl & Hout).
  assert (tasks (w_db w') = T3) as ET by (by destruct Hl as (? & ? & ? & ->)). rewrite ET in *.
  pose proof (updated_self _ _ _ _ _ _ _ _ _ _ _ _ Hw Hu) as Hself. rewrite Hself in Hout. injection Hout as <-.
  destruct (patched_brief_shift _ _ _ _ _ (tu_brief _ _ _ _ _ _ _ _ _ _ _ _ Hu) Hs) as [Es Ee].
  exists r. split_and!; [by apply Hu|done|exact Es|exact Ee| |].
  - intros k c Hk Hc. by eapply shifted_children.
  - intros k c Hk Hne Hc. destruct (updated_new _ _ _ _ _ _ _ _ _ _ _ _ Hw Hu _ _ Hk) as (x & Hx & _ & [[? _]|[_ Ht]]); [done|].
    rewrite Hx. f_equal. apply (to_other _ _ _ _ Ht). unfold is_child. by apply bool_decide_eq_false.
Qed.

Lemma empty_patch_same d r patch brief :
  TaskPatch_IsEmpty patch = true -> patched_brief d r patch = Ok brief ->
  brief = t_brief r /\ patched_parent r patch = t_parent_task_id r.
Proof.
  unfold TaskPatch_IsEmpty. intros He Hb. rewrite !andb_true_iff, !negb_true_iff in He. destruct_and! He.
  repeat match goal with Hx : present _ = false |- _ => apply present_false in Hx end.
  unfold patched_parent, patched_brief in *. destruct patch; cbn in *; subst. cbn in Hb. injection Hb as <-.
  by destruct (t_brief r).
Qed.

(** An empty patch is a write.  It changes no field of the Task, but gives it its next version, so
    that every caller who still holds the old version is refused. *)
Theorem empty_patch_is_write number expected patch op now w out w'
  (Hw : wf (w_db w)) (Hp : planned (w_db w)) (Hempty : TaskPatch_IsEmpty patch = true)
  (Hr : updateWithExpectedVersion number expected patch op now w = (Ok out, w')) :
  exists r, task_by_number (w_db w) number = Some r /\ t_brief out = t_brief r /\
    t_parent_task_id out = t_parent_task_id r /\ t_version out = t_version r + 1 /\
    forall patch' op' now', OperationActor_Validate op' = Ok tt ->
      updateWithExpectedVersion number (Some (t_version r)) patch' op' now' w'
        = (Err (VersionConflictError (t_version r + 1)), w').
Proof.
  destruct (update_keeps _ _ _ _ _ _ _ _ Hw Hp Hr) as [Hw' _].
  apply update_Ok in Hr as (r & brief & completed & E & T1 & T2 & T3 & Hu & Hl & Hout).
  assert (tasks (w_db w') = T3) as ET by (by destruct Hl as (? & ? & ? & ->)). rewrite ET in *.
  pose proof (updated_self _ _ _ _ _ _ _ _ _ _ _ _ Hw Hu) as Hself. rewrite Hself in Hout. injection Hout as <-.
  pose proof (tu_row _ _ _ _ _ _ _ _ _ _ _ _ Hu) as Hrow.
  pose proof (tu_brief _ _ _ _ _ _ _ _ _ _ _ _ Hu) as Hbrief.
  destruct (empty_patch_same _ _ _ _ Hempty Hbrief) as [Eb Ep].
  exists r. split_and!; [done|done|exact Ep|done|]. intros patch' op' now' Hop.
  assert (task_by_number (w_db w') number = Some (updated_row r brief patch completed now)) as Hrow'.
  { apply (task_by_number_Some _ _ _ (wf_tasks _ Hw')). rewrite ET. split; [done|]. cbn.
    by apply (task_by_number_Some _ _ _ (wf_tasks _ Hw)) in Hrow as [_ ?]. }
  unfold updateWithExpectedVersion. run_fwd. rewrite Hop. run_fwd. unfold transaction. run_fwd. rewrite Hrow'. run_fwd.
  cbn. rewrite bool_decide_eq_false_2 by lia. cbn. by destruct w'.
Qed.

End properties.

(** ** Examples *)

(** A brief with the given dates. *)
Definition dated (s e : option Date) : TaskBrief :=
  mkTaskBrief "Part" "It is missing" "It exists" "" "" "" "" None s e None.
Definition no_patch : TaskPatch :=
  mkTaskPatch None None None None None None None false None false None false None false [] false None false None
    false None false [] None.
Definition depend_on (ds : list UUID) : TaskPatch :=
  mkTaskPatch None None None None None None None false None false None false None false [] false None false None
    false None true ds None.
Definition shift_by (days : Z) : TaskPatch :=
  mkTaskPatch None None None None None None None false None false None false None false [] false None false None
    false None false [] (Some days).

Lemma demo_planned : planned demo_db.
Proof.
  split; cbn.
  - intros a [z Hz]%tc_end. unfold depends in Hz. set_solver.
  - unfold depends. set_solver.
  - intros k r p [<- <-]%lookup_singleton_Some. done.
  - intros k r [<- <-]%lookup_singleton_Some. vm_compute. reflexivity.
  - unfold depends. set_solver.
  - intros i h [<- <-]%lookup_singleton_Some. cbn. by rewrite lookup_singleton_eq.
Qed.

(** A Task of its own that is cancelled and becomes a dependency of the demonstration Task, which is
    then made ready. *)
Definition demo_plan : list WorkspaceCommand :=
  [WCreate (mkNewTask 0%N alice 2%N None (dated None None)) [] [] alice_op 144 20;
   WStore (SCancelTask 144 1 "Obsolete" alice_actor alice_op 30);
   WUpdate 142 (Some 1) (depend_on [demo_uuid 0]) alice_op 40;
   WStore (SMarkReady 142 2 alice_op 50)].
Definition demo_planned_world : World := @steps counting_uuids counting_texts demo_plan demo_world.

Lemma demo_planned_keeps : wf (w_db demo_planned_world) /\ planned (w_db demo_planned_world).
Proof. apply steps_keep; [exact demo_wf|exact demo_planned]. Qed.

(** A child with a schedule. *)
Definition demo_child_world : World :=
  @step counting_uuids counting_texts
    (WCreate (mkNewTask 0%N alice 2%N (Some 3%N) (dated (Some 10) (Some 20))) [] [] alice_op 143 20) demo_world.

Lemma demo_child_keeps : wf (w_db demo_child_world) /\ planned (w_db demo_child_world).
Proof. apply step_keeps; [exact demo_wf|exact demo_planned]. Qed.

(** A Task that the workflow completed can still get an unfinished child: creation looks at the
    legacy status of the parent, which the workflow does not write. *)
Theorem done_parent_gets_child :
  exists parent child w',
    tasks (w_db (@after_all counting_uuids demo_delivery demo_world)) !! 3%N = Some parent /\
    t_phase parent = Some TaskPhaseDone /\
    @CreateWithOperation counting_uuids (mkNewTask 0%N alice 2%N (Some 3%N) (dated None None)) [] [] alice_op 143 80
      (@after_all counting_uuids demo_delivery demo_world) = (Ok child, w') /\
    t_parent_task_id child = Some 3%N /\ unfinished child = true.
Proof. do 3 eexists. split_and!; vm_compute; reflexivity. Qed.

Lemma plan_consistent_witness :
  ~ tc (fun a b => (a, b) ∈ task_dependencies (w_db demo_planned_world)) 3%N 3%N.
Proof.
  exact (proj1 (proj2 (@plan_consistent counting_uuids counting_texts demo_plan demo_world demo_wf demo_planned)) 3%N).
Defined.

Lemma ready_tasks_unblocked_witness :
  exists q, tasks (w_db demo_planned_world) !! demo_uuid 0 = Some q /\
    (t_phase q = Some TaskPhaseDone \/ t_phase q = Some TaskPhaseCancelled).
Proof.
  eexists. split; [vm_compute; reflexivity|].
  eapply (@ready_tasks_unblocked counting_uuids counting_texts demo_plan demo_world 3%N _ (demo_uuid 0) _ demo_wf
    demo_planned); vm_compute; reflexivity.
Defined.

(** The demonstration Task in that world: it depends on the cancelled one. *)
Definition demo_planned_task : TaskRow := default demo_task (tasks (w_db demo_planned_world) !! 3%N).

Lemma demo_planned_lookup : tasks (w_db demo_planned_world) !! 3%N = Some demo_planned_task.
Proof. vm_compute. reflexivity. Qed.

Lemma demo_planned_edge : (3%N, demo_uuid 0) ∈ task_dependencies (w_db demo_planned_world).
Proof. vm_compute. reflexivity. Qed.

Lemma cycle_check_exact_witness :
  ~ (validateDependencyAssignments (w_db demo_planned_world) (demo_uuid 0) 2%N None [3%N] = Ok tt).
Proof.
  intros Hv.
  refine (proj1 (cycle_check_exact (w_db demo_planned_world) (demo_uuid 0) 2%N None [3%N] (proj2 demo_planned_keeps)
    (NoDup_singleton _) _) Hv 3%N _).
  - intros b ->%list_elem_of_singleton. exists demo_planned_task.
    split; [exact demo_planned_lookup|]. split; [vm_compute; reflexivity|]. split; [vm_compute; reflexivity|].
    split; [discriminate|]. vm_compute. discriminate.
  - apply (tc_l _ _ (demo_uuid 0)).
    + right. split; [discriminate|exact demo_planned_edge].
    + apply tc_once. left. split; [reflexivity|constructor].
Defined.

Lemma relation_triggers_pass_witness :
  validate_task_dependency (w_db demo_planned_world) (3%N, demo_uuid 0) = true.
Proof.
  exact (proj2 (@relation_triggers_pass counting_uuids counting_texts demo_plan demo_world demo_wf demo_planned)
    (3%N, demo_uuid 0) demo_planned_edge).
Defined.

Lemma update_keeps_workflow_witness :
  exists out w' r', @updateWithExpectedVersion counting_uuids counting_texts 142 (Some 1) (shift_by 5) alice_op 60
      demo_child_world = (Ok out, w') /\ tasks (w_db w') !! 3%N = Some r' /\ t_phase r' = Some TaskPhaseBacklog.
Proof.
  destruct (@updateWithExpectedVersion counting_uuids counting_texts 142 (Some 1) (shift_by 5) alice_op 60
    demo_child_world) as [[out|e] w'] eqn:Er; [|vm_compute in Er; discriminate Er].
  destruct (@update_keeps_workflow counting_uuids counting_texts _ _ _ _ _ _ _ _ (proj1 demo_child_keeps)
    (proj2 demo_child_keeps) Er) as (_ & Hk & _).
  destruct (Hk 3%N demo_task) as (r' & Hr' & Hph & _); [vm_compute; reflexivity|].
  exists out, w', r'. split; [reflexivity|]. split; [exact Hr'|]. rewrite Hph. reflexivity.
Defined.

Lemma schedule_shift_uniform_witness :
  exists out w' c', @updateWithExpectedVersion counting_uuids counting_texts 142 (Some 1) (shift_by 5) alice_op 60
      demo_child_world = (Ok out, w') /\ tasks (w_db w') !! demo_uuid 0 = Some c' /\
    b_start_date (t_brief c') = Some 15 /\ b_due_date (t_brief c') = Some 25.
Proof.
  destruct (@updateWithExpectedVersion counting_uuids counting_texts 142 (Some 1) (shift_by 5) alice_op 60
    demo_child_world) as [[out|e] w'] eqn:Er; [|vm_compute in Er; discriminate Er].
  destruct (@schedule_shift_uniform counting_uuids counting_texts _ _ (shift_by 5) _ _ _ _ _ 5 (proj1 demo_child_keeps)
    (proj2 demo_child_keeps) eq_refl Er) as (r & Hr & _ & _ & _ & Hk & _).
  vm_compute in Hr. injection Hr as <-.
  edestruct (Hk (demo_uuid 0)) as (c' & Hc' & Hs & He); [vm_compute; reflexivity|reflexivity|].
  exists out, w', c'. split; [reflexivity|]. split; [exact Hc'|]. split; [exact Hs|exact He].
Defined.

Lemma empty_patch_is_write_witness :
  exists out w', @updateWithExpectedVersion counting_uuids counting_texts 142 (Some 1) no_patch alice_op 60 demo_world
      = (Ok out, w') /\
    @updateWithExpectedVersion counting_uuids counting_texts 142 (Some 1) (shift_by 5) alice_op 70 w'
      = (Err (VersionConflictError 2), w').
Proof.
  destruct (@updateWithExpectedVersion counting_uuids counting_texts 142 (Some 1) no_patch alice_op 60
    demo_world) as [[out|e] w'] eqn:Er; [|vm_compute in Er; discriminate Er].
  destruct (@empty_patch_is_write counting_uuids counting_texts _ _ no_patch _ _ demo_world _ _ demo_wf demo_planned eq_refl Er)
    as (r & Hr & _ & _ & _ & Hrefused).
  vm_compute in Hr. injection Hr as <-. exists out, w'. split; [reflexivity|].
  exact (Hrefused (shift_by 5) alice_op 70 eq_refl).
Defined.
