(* ===== verification/Http.v ===== *)
(** * The parts of Go's standard library that the HTTP middleware uses

    SHA-256 (crypto/sha256), headers (net/http, net/textproto), URL values (net/url) and the response
    writer, and the texts of UUIDs (google/uuid).  A Go string or byte slice is a [string] of bytes. *)

From Stdlib Require Import Ascii.
From stdpp Require Import base tactics strings gmap list numbers sorting.
From S2P Require Import Prelude.

(** ** Bytes *)

Definition code (c : ascii) : Z := Z.of_N (N_of_ascii c).
Definition byte (z : Z) : ascii := ascii_of_N (Z.to_N (z mod 256)).
Definition byte_codes (s : string) : list Z := code <$> String.list_ascii_of_string s.
Definition between (lo hi : ascii) (c : ascii) : bool := (code lo <=? code c) && (code c <=? code hi).
Definition map_bytes (f : ascii -> ascii) (s : string) : string :=
  String.string_of_list_ascii (f <$> String.list_ascii_of_string s).

Lemma code_range c : 0 <= code c < 256.
Proof.
  unfold code. pose proof (N_ascii_bounded c). lia.
Qed.

Lemma byte_code c : byte (code c) = c.
Proof.
  unfold byte. rewrite Z.mod_small by apply code_range. unfold code. rewrite N2Z.id. apply ascii_N_embedding.
Qed.

(** PostgreSQL's [length] of a UTF-8 text: the bytes that do not continue a character. *)
Definition char_length (s : string) : Z :=
  Z.of_nat (length (filter (fun c => ~ (0x80 <= code c < 0xC0)) (String.list_ascii_of_string s))).

(** ** SHA-256 *)

Module Sha256.
Definition word (z : Z) : Z := Z.land z (Z.ones 32).
Definition rotr (x n : Z) : Z := Z.lor (Z.shiftr x n) (word (Z.shiftl x (32 - n))).
Definition Ch (x y z : Z) : Z := Z.lxor (Z.land x y) (Z.land (Z.lxor x (Z.ones 32)) z).
Definition Maj (x y z : Z) : Z := Z.lxor (Z.lxor (Z.land x y) (Z.land x z)) (Z.land y z).
Definition Sigma0 (x : Z) : Z := Z.lxor (Z.lxor (rotr x 2) (rotr x 13)) (rotr x 22).
Definition Sigma1 (x : Z) : Z := Z.lxor (Z.lxor (rotr x 6) (rotr x 11)) (rotr x 25).
Definition sigma0 (x : Z) : Z := Z.lxor (Z.lxor (rotr x 7) (rotr x 18)) (Z.shiftr x 3).
Definition sigma1 (x : Z) : Z := Z.lxor (Z.lxor (rotr x 17) (rotr x 19)) (Z.shiftr x 10).

(** The constants are the first 32 bits of the fractional parts of the cube roots of the first 64
    primes, and of the square roots of the first eight. *)
Definition prime (n : nat) : bool := forallb (fun k => negb (n mod k =? 0)%nat) (seq 2 (n - 2)).
Definition primes : list Z := Z.of_nat <$> filter (fun n => prime n = true) (seq 2 310).
(** The cube root of [x] rounded down, bit by bit from bit [n - 1]. *)
Fixpoint cube_root (n : nat) (x root : Z) : Z :=
  match n with
  | O => root
  | S n => let next := root + 2 ^ Z.of_nat n in cube_root n x (if next * next * next <=? x then next else root)
  end.
Definition K : list Z := Eval vm_compute in (fun p => word (cube_root 36 (Z.shiftl p 96) 0)) <$> primes.

(** The eight words of the hash value. *)
Record hash := mkHash { ha : Z; hb : Z; hc : Z; hd : Z; he : Z; hf : Z; hg : Z; hh : Z }.
Definition H0 : hash := Eval vm_compute in
  match (fun p => word (Z.sqrt (Z.shiftl p 64))) <$> take 8 primes with
  | [a; b; c; d; e; f; g; h] => mkHash a b c d e f g h
  | _ => mkHash 0 0 0 0 0 0 0 0
  end.

(** The message schedule, latest word first: [n] words are added to [w]. *)
Fixpoint schedule (n : nat) (w : list Z) : list Z :=
  match n with
  | O => w
  | S n => schedule n (word (sigma1 (w !!! 1%nat) + w !!! 6%nat + sigma0 (w !!! 14%nat) + w !!! 15%nat) :: w)
  end.

Definition round (h : hash) (kw : Z * Z) : hash :=
  let t1 := hh h + Sigma1 (he h) + Ch (he h) (hf h) (hg h) + kw.1 + kw.2 in
  let t2 := Sigma0 (ha h) + Maj (ha h) (hb h) (hc h) in
  mkHash (word (t1 + t2)) (ha h) (hb h) (hc h) (word (hd h + t1)) (he h) (hf h) (hg h).

Definition compress (h : hash) (block : list Z) : hash :=
  let g := foldl round h (zip K (rev (schedule 48 (rev block)))) in
  mkHash (word (ha h + ha g)) (word (hb h + hb g)) (word (hc h + hc g)) (word (hd h + hd g))
    (word (he h + he g)) (word (hf h + hf g)) (word (hg h + hg g)) (word (hh h + hh g)).

Fixpoint big_endian (n : nat) (z : Z) : list Z :=
  match n with O => [] | S n => Z.land (Z.shiftr z (8 * Z.of_nat n)) 255 :: big_endian n z end.

Definition pad (m : list Z) : list Z :=
  let n := Z.of_nat (length m) in
  m ++ [0x80] ++ repeat 0 (Z.to_nat ((55 - n) mod 64)) ++ big_endian 8 (8 * n).

Fixpoint words (m : list Z) : list Z :=
  match m with
  | a :: b :: c :: d :: m => Z.lor (Z.shiftl a 24) (Z.lor (Z.shiftl b 16) (Z.lor (Z.shiftl c 8) d)) :: words m
  | _ => []
  end.

(** One round of the fuel per block of sixteen words. *)
Fixpoint blocks (fuel : nat) (h : hash) (w : list Z) : hash :=
  match fuel, w with
  | S fuel, _ :: _ => blocks fuel (compress h (take 16 w)) (drop 16 w)
  | _, _ => h
  end.

Definition digest (m : list Z) : list Z :=
  let w := words (pad m) in
  let h := blocks (length w) H0 w in
  flat_map (big_endian 4) [ha h; hb h; hc h; hd h; he h; hf h; hg h; hh h].
End Sha256.

(** [sha256.Sum256] *)
Definition sha256 (s : string) : string :=
  String.string_of_list_ascii (byte <$> Sha256.digest (byte_codes s)).

Lemma length_string_of_list l : String.length (String.string_of_list_ascii l) = length l.
Proof. induction l as [|c l IH]; cbn; [done|by rewrite IH]. Qed.

Lemma sha256_length s : String.length (sha256 s) = 32%nat.
Proof.
  unfold sha256, Sha256.digest. cbv zeta. generalize (Sha256.blocks (length (Sha256.words (Sha256.pad (byte_codes s))))
    Sha256.H0 (Sha256.words (Sha256.pad (byte_codes s)))). intros h. rewrite length_string_of_list, length_fmap. reflexivity.
Qed.

(** The hash of "abc" (FIPS 180-2, B.1). *)
Example sha256_abc : Sha256.digest (byte_codes "abc") =
  [0xba; 0x78; 0x16; 0xbf; 0x8f; 0x01; 0xcf; 0xea; 0x41; 0x41; 0x40; 0xde; 0x5d; 0xae; 0x22; 0x23;
   0xb0; 0x03; 0x61; 0xa3; 0x96; 0x17; 0x7a; 0x9c; 0xb4; 0x10; 0xff; 0x61; 0xf2; 0x00; 0x15; 0xad].
Proof. vm_compute. reflexivity. Qed.

(** ** Header names *)

Definition is_lower : ascii -> bool := between "a" "z".
Definition is_upper : ascii -> bool := between "A" "Z".
Definition is_digit : ascii -> bool := between "0" "9".
Definition to_upper (c : ascii) : ascii := if is_lower c then byte (code c - 32) else c.
Definition to_lower (c : ascii) : ascii := if is_upper c then byte (code c + 32) else c.

(** [validHeaderFieldByte]: a token character of RFC 7230. *)
Definition validHeaderFieldByte (c : ascii) : bool :=
  is_lower c || is_upper c || is_digit c || bool_decide (c ∈ String.list_ascii_of_string "!#$%&'*+-.^_`|~").

Fixpoint canonical_bytes (upper : bool) (l : list ascii) : list ascii :=
  match l with
  | [] => []
  | c :: l => (if upper then to_upper c else to_lower c) :: canonical_bytes (c == "-"%char) l
  end.

(** [textproto.CanonicalMIMEHeaderKey] *)
Definition CanonicalMIMEHeaderKey (s : string) : string :=
  let l := String.list_ascii_of_string s in
  if forallb validHeaderFieldByte l then String.string_of_list_ascii (canonical_bytes true l) else s.

(** [strings.EqualFold] against an ASCII text: besides the cases of the ASCII letters, U+017F (0xC5
    0xBF) folds to "s" and U+212A (0xE2 0x84 0xAA) to "k". *)
Fixpoint fold_case (l : list ascii) : list ascii :=
  match l with
  | [] => []
  | c :: l1 =>
      match l1 with
      | d :: l2 =>
          if (code c =? 0xC5) && (code d =? 0xBF) then "s"%char :: fold_case l2
          else match l2 with
               | e :: l3 => if (code c =? 0xE2) && (code d =? 0x84) && (code e =? 0xAA) then "k"%char :: fold_case l3
                            else to_lower c :: fold_case l1
               | [] => to_lower c :: fold_case l1
               end
      | [] => [to_lower c]
      end
  end.
Definition EqualFold (s ascii_text : string) : bool :=
  fold_case (String.list_ascii_of_string s) == (to_lower <$> String.list_ascii_of_string ascii_text).

(** [strings.ToLower] as far as its result can be an ASCII text: besides the ASCII letters, U+0130 (0xC4
    0xB0) becomes "i" and U+212A (0xE2 0x84 0xAA) "k". *)
Fixpoint lower_bytes (l : list ascii) : list ascii :=
  match l with
  | [] => []
  | c :: l1 =>
      match l1 with
      | d :: l2 =>
          if (code c =? 0xC4) && (code d =? 0xB0) then "i"%char :: lower_bytes l2
          else match l2 with
               | e :: l3 => if (code c =? 0xE2) && (code d =? 0x84) && (code e =? 0xAA) then "k"%char :: lower_bytes l3
                            else to_lower c :: lower_bytes l1
               | [] => to_lower c :: lower_bytes l1
               end
      | [] => [to_lower c]
      end
  end.
Definition ToLower (s : string) : string := String.string_of_list_ascii (lower_bytes (String.list_ascii_of_string s)).

(** [http.Header] *)
Abbreviation Header := (gmap string (list string)).
Definition Header_Values (h : Header) (name : string) : list string :=
  match h !! CanonicalMIMEHeaderKey name with Some vs => vs | None => [] end.
Definition Header_Get (h : Header) (name : string) : string :=
  match Header_Values h name with v :: _ => v | [] => "" end.
Definition Header_Set (name v : string) (h : Header) : Header := <[CanonicalMIMEHeaderKey name := [v]]> h.
Definition Header_Add (name v : string) (h : Header) : Header :=
  <[CanonicalMIMEHeaderKey name := Header_Values h name ++ [v]]> h.
(** [for _, value := range values { h.Add(name, value) }] *)
Definition Header_AddAll (name : string) (vs : list string) (h : Header) : Header :=
  foldl (fun h v => Header_Add name v h) h vs.

(** ** URL values *)

Definition hex_digit (z : Z) : ascii := if z <? 10 then byte (48 + z) else byte (55 + z).
Definition unreserved (c : ascii) : bool :=
  is_lower c || is_upper c || is_digit c || bool_decide (c ∈ String.list_ascii_of_string "-_.~").
Definition escape_byte (c : ascii) : list ascii :=
  if unreserved c then [c]
  else if c == " "%char then ["+"%char]
  else ["%"%char; hex_digit (code c / 16); hex_digit (code c mod 16)].
(** [url.QueryEscape] *)
Definition QueryEscape (s : string) : string := String.string_of_list_ascii (flat_map escape_byte (String.list_ascii_of_string s)).

(** [url.Values] and its [Encode]: the pairs in the order of the keys. *)
Abbreviation Values := (gmap string (list string)).
Definition key_le (a b : string * list string) : Prop := String.leb a.1 b.1 = true.
#[global] Instance key_le_dec : RelDecision key_le.
Proof. intros a b. unfold key_le. apply _. Defined.
Definition Values_Encode (vs : Values) : string :=
  String.concat "&" (kv ← merge_sort key_le (map_to_list vs); (fun v => QueryEscape kv.1 +:+ "=" +:+ QueryEscape v) <$> kv.2).

(** [strings.Cut]: the text before and after the first separator byte. *)
Fixpoint Cut (s : string) (sep : ascii) : option (string * string) :=
  match s with
  | EmptyString => None
  | String c s => if c == sep then Some ("", s) else '(before, after) ← Cut s sep; Some (String c before, after)
  end.

(** ** Requests and responses *)

Definition StatusOK : Z := 200.
Definition StatusNoContent : Z := 204.
Definition StatusBadRequest : Z := 400.
Definition StatusConflict : Z := 409.
Definition StatusInternalServerError : Z := 500.
Definition MethodGet : string := "GET".
Definition MethodPost : string := "POST".
Definition MethodPatch : string := "PATCH".
Definition MethodDelete : string := "DELETE".

(** ** The texts of identifiers

    The library github.com/google/uuid, as the credentials of this program use it. *)

(** Digits, small letters and hyphens. *)
Definition uuid_char (c : ascii) : bool :=
  bool_decide (c ∈ String.list_ascii_of_string "0123456789abcdefghijklmnopqrstuvwxyz-").

(** [uuid.Parse] and [UUID.String]: the text of an identifier is its hexadecimal digits in five groups
    with hyphens between them, and [Parse] reads it back. *)
Class UuidLibrary := {
  uuid_Parse : string -> option UUID;
  uuid_String : UUID -> string;
  uuid_Parse_String u : uuid_Parse (uuid_String u) = Some u;
  uuid_String_nonblank u : TrimSpace (uuid_String u) <> "";
  uuid_String_chars u : Forall (fun c => uuid_char c = true) (String.list_ascii_of_string (uuid_String u));
}.

Lemma uuid_String_without `{UuidLibrary} c u : uuid_char c = false -> c ∉ String.list_ascii_of_string (uuid_String u).
Proof. intros Hc Hin. apply list_elem_of_In in Hin. pose proof (proj1 (List.Forall_forall _ _) (uuid_String_chars u) _ Hin) as E. cbn in E. congruence. Qed.
Lemma uuid_String_no_dot `{UuidLibrary} u : "."%char ∉ String.list_ascii_of_string (uuid_String u).
Proof. by apply uuid_String_without. Qed.

(** Identifiers in binary, for the examples. *)
Fixpoint binary (p : positive) : string :=
  match p with xH => "" | xO p => String "0" (binary p) | xI p => String "1" (binary p) end.
Fixpoint of_binary (s : string) : option positive :=
  match s with
  | EmptyString => Some xH
  | String c s => p ← of_binary s; if c == "0"%char then Some (xO p) else if c == "1"%char then Some (xI p) else None
  end.
Lemma of_binary_binary p : of_binary (binary p) = Some p.
Proof. induction p as [p IH|p IH|]; cbn; [by rewrite IH|by rewrite IH|done]. Qed.

Lemma binary_chars p : Forall (fun c => uuid_char c = true) (String.list_ascii_of_string (binary p)).
Proof. induction p as [p IH|p IH|]; cbn; [by constructor|by constructor|constructor]. Qed.

Definition demo_uuid_String (u : UUID) : string := "u" +:+ binary (N.succ_pos u).
Definition demo_uuid_Parse (s : string) : option UUID :=
  match s with String "u" s => p ← of_binary s; Some (Pos.pred_N p) | _ => None end.

Definition binary_uuids : UuidLibrary.
Proof.
  refine {| uuid_Parse := demo_uuid_Parse; uuid_String := demo_uuid_String |}.
  - intros u. change (demo_uuid_Parse (demo_uuid_String u)) with (p ← of_binary (binary (N.succ_pos u)); Some (Pos.pred_N p)).
    rewrite of_binary_binary. cbn. f_equal. apply N.pos_pred_succ.
  - intros u. apply blank_false. change (demo_uuid_String u) with (String "u" (binary (N.succ_pos u))). apply blank_first. reflexivity.
  - intros u. change (demo_uuid_String u) with (String "u" (binary (N.succ_pos u))). cbn [String.list_ascii_of_string].
    constructor; [reflexivity|apply binary_chars].
Defined.
