(* ===== verification/Idempotency.v ===== *)
(** * Idempotency keys

    internal/access/idempotency.go, internal/store/idempotency_store.go (with the table
    idempotency_records of migrations 0012 and 0016) and the middleware of
    internal/api/idempotency.go around the handlers of the API. *)

From Stdlib Require Import Ascii.
From stdpp Require Import base tactics strings gmap list numbers sorting.
From S2P Require Import Prelude Actors State Http.

Definition IdempotencyRetention : Z := 24 * Hour.

Record IdempotencyKey := mkIdempotencyKey {
  ik_UserID : UUID;
  ik_CredentialKind : AuthenticationMethod;
  ik_CredentialID : UUID;
  ik_TokenID : option UUID;
  ik_AgentRunID : option UUID;
  ik_Method : string;
  ik_RoutePattern : string;
  ik_Value : string;
}.

(** A byte slice that may be nil is an [option]. *)
Record StoredResponse := mkStoredResponse {
  sr_StatusCode : Z;
  sr_Headers : Header;
  sr_Body : option string;
}.

(** [ClaimKind] with the response that a replay carries; no other kind exists, so that the [default]
    of the middleware's switch has no case here. *)
Inductive IdempotencyClaim :=
| ClaimAcquired
| ClaimReplay (response : StoredResponse)
| ClaimInProgress
| ClaimReused.

(** ** The table *)

Record RecordRow := mkRecordRow {
  rr_token_id : option UUID;
  rr_agent_run_id : option UUID;
  rr_request_hash : string;
  rr_state : string;
  rr_status_code : option Z;
  rr_response_headers : option Header;
  rr_response_body : option string;
  rr_created_at : Time;
  rr_expires_at : Time;
}.
Definition StateProcessing : string := "processing".
Definition StateCompleted : string := "completed".

(** The primary key: user, kind and identifier of the credential, method, route and key. *)
Definition RecordKey : Type := UUID * string * UUID * string * string * string.
Definition record_key (k : IdempotencyKey) : RecordKey :=
  (ik_UserID k, ik_CredentialKind k, ik_CredentialID k, ik_Method k, ik_RoutePattern k, ik_Value k).

(** The table and the rows that it refers to. *)
Record IdempotencyDB := mkIdempotencyDB {
  idempotency_records : gmap RecordKey RecordRow;
  idempotency_users : gset UUID;
  idempotency_tokens : gset UUID;
  idempotency_runs : gset UUID;
}.
Definition set_records (x : gmap RecordKey RecordRow) (d : IdempotencyDB) : IdempotencyDB :=
  mkIdempotencyDB x (idempotency_users d) (idempotency_tokens d) (idempotency_runs d).
Definition record_at (k : IdempotencyKey) (d : IdempotencyDB) : option RecordRow :=
  idempotency_records d !! record_key k.

Definition IdempotencyM (X : Type) : Type := St IdempotencyDB X.

Definition credential_shape (k : IdempotencyKey) (r : RecordRow) : bool :=
  if ik_CredentialKind k == AuthenticationMethodAPIToken then
    present (rr_token_id r) && negb (present (rr_agent_run_id r)) && (Some (ik_CredentialID k) == rr_token_id r)
  else if ik_CredentialKind k == AuthenticationMethodAgentDelegate then
    negb (present (rr_token_id r)) && present (rr_agent_run_id r) && (Some (ik_CredentialID k) == rr_agent_run_id r)
  else false.

Definition state_shape (r : RecordRow) : bool :=
  if rr_state r == StateProcessing then
    negb (present (rr_status_code r)) && negb (present (rr_response_headers r)) && negb (present (rr_response_body r))
  else if rr_state r == StateCompleted then
    present (rr_status_code r) && present (rr_response_headers r) && present (rr_response_body r)
  else false.

Definition status_in_range (o : option Z) : bool :=
  match o with Some s => (100 <=? s) && (s <=? 599) | None => true end.

Definition idempotency_records_checks (k : IdempotencyKey) (r : RecordRow) : bool :=
  (1 <=? char_length (ik_Value k)) && (char_length (ik_Value k) <=? 128) &&
  (Z.of_nat (String.length (rr_request_hash r)) =? 32) &&
  status_in_range (rr_status_code r) && (rr_created_at r <? rr_expires_at r) &&
  state_shape r && credential_shape k r.

Definition references (o : option UUID) (x : gset UUID) : bool :=
  match o with Some u => bool_decide (u ∈ x) | None => true end.
Definition record_fks (k : IdempotencyKey) (r : RecordRow) (d : IdempotencyDB) : bool :=
  bool_decide (ik_UserID k ∈ idempotency_users d) && references (rr_token_id r) (idempotency_tokens d) &&
  references (rr_agent_run_id r) (idempotency_runs d).

(** ** The store *)

(** What is read back of the headers that [json.Marshal] encodes, after the [jsonb] column; [None]
    when the column rejects them.  Texts of visible ASCII characters and spaces pass unchanged. *)
Definition plain_text (s : string) : bool := forallb (between " " "~") (String.list_ascii_of_string s).
Definition plain_header (h : Header) : bool :=
  bool_decide (map_Forall (fun k vs => plain_text k = true /\ Forall (fun v => plain_text v = true) vs) h).
Class HeaderJson := {
  headers_jsonb : Header -> option Header;
  headers_jsonb_plain h : plain_header h = true -> headers_jsonb h = Some h;
}.

(** [DELETE ... WHERE <key> AND <condition>] *)
Definition delete_record (k : IdempotencyKey) (cond : RecordRow -> bool) (d : IdempotencyDB) : IdempotencyDB :=
  match record_at k d with
  | Some r => if cond r then set_records (delete (record_key k) (idempotency_records d)) d else d
  | None => d
  end.

(** [INSERT ... ON CONFLICT DO NOTHING]: whether the row was inserted. *)
Definition insert_record (k : IdempotencyKey) (r : RecordRow) : IdempotencyM bool :=
  st_fail (negb (idempotency_records_checks k r)) ErrOther;;
  existing ← st_get (record_at k);
  match existing with
  | Some _ => mret false
  | None =>
      fks ← st_get (record_fks k r);
      st_fail (negb fks) ErrOther;;
      st_mod (fun d => set_records (<[record_key k := r]> (idempotency_records d)) d);;
      mret true
  end.

(** What is answered for a record that exists. *)
Definition claim_existing (r : RecordRow) (requestHash : string) : result IdempotencyClaim :=
  if rr_request_hash r != requestHash then Ok ClaimReused
  else if rr_state r == StateProcessing then Ok ClaimInProgress
  else match rr_status_code r, rr_response_headers r with
       | Some status, Some headers => Ok (ClaimReplay (mkStoredResponse status headers (rr_response_body r)))
       | _, _ => Err ErrOther
       end.

(** The transaction: the record that exists, or none when the key was acquired. *)
Definition claim_record (key : IdempotencyKey) (requestHash : string) (now expiresAt : Time) : IdempotencyM (option RecordRow) :=
  atomically (
    st_mod (delete_record key (fun r => rr_expires_at r <=? now));;
    inserted ← insert_record key
      (mkRecordRow (ik_TokenID key) (ik_AgentRunID key) requestHash StateProcessing None None None now expiresAt);
    if inserted : bool then mret None
    else existing ← st_get (record_at key);
         row ← st_or_err existing ErrOther;
         mret (Some row)).

Definition IdempotencyStore_Claim (key : IdempotencyKey) (requestHash : string) (now expiresAt : Time)
    : IdempotencyM IdempotencyClaim :=
  existing ← claim_record key requestHash now expiresAt;
  match existing with
  | None => mret ClaimAcquired
  | Some row => st_lift (claim_existing row requestHash)
  end.

Definition completed_row (r : RecordRow) (status : Z) (headers : Header) (body : option string) : RecordRow :=
  mkRecordRow (rr_token_id r) (rr_agent_run_id r) (rr_request_hash r) StateCompleted (Some status) (Some headers) body
    (rr_created_at r) (rr_expires_at r).

Section store.
Context `{HeaderJson}.

Definition IdempotencyStore_Complete (key : IdempotencyKey) (response : StoredResponse) : IdempotencyM unit :=
  headers ← st_or_err (headers_jsonb (sr_Headers response)) ErrOther;
  st_fail (negb ((- 2 ^ 31 <=? sr_StatusCode response) && (sr_StatusCode response <? 2 ^ 31))) ErrOther;;
  existing ← st_get (record_at key);
  row ← st_or_err existing ErrIdempotencyNotClaimed;
  st_fail (rr_state row != StateProcessing) ErrIdempotencyNotClaimed;;
  let row := completed_row row (sr_StatusCode response) headers (sr_Body response) in
  st_fail (negb (idempotency_records_checks key row)) ErrOther;;
  st_mod (fun d => set_records (<[record_key key := row]> (idempotency_records d)) d).
End store.

Definition IdempotencyStore_Release (key : IdempotencyKey) : IdempotencyM unit :=
  st_mod (delete_record key (fun r => rr_state r == StateProcessing)).

(** The maintenance of access_audit_store.go: how many expired records are removed. *)
Definition DeleteIdempotencyBefore (before : Time) : IdempotencyM Z :=
  n ← st_get (fun d => Z.of_nat (size (filter (fun kr => rr_expires_at kr.2 < before) (idempotency_records d))));
  st_mod (fun d => set_records (filter (fun kr => ~ rr_expires_at kr.2 < before) (idempotency_records d)) d);;
  mret n.

(** ** Responses *)

(** [capturedResponse]; the client's [http.ResponseWriter] keeps the same. *)
Record ResponseWriter := mkResponseWriter {
  rw_header : Header;
  rw_status : Z;
  rw_body : string;
}.
Definition newCapturedResponse : ResponseWriter := mkResponseWriter ∅ 0 "".
Definition with_header (f : Header -> Header) (w : ResponseWriter) : ResponseWriter :=
  mkResponseWriter (f (rw_header w)) (rw_status w) (rw_body w).
Definition WriteHeader (status : Z) (w : ResponseWriter) : ResponseWriter :=
  if rw_status w == 0 then mkResponseWriter (rw_header w) status (rw_body w) else w.
Definition Write (body : string) (w : ResponseWriter) : ResponseWriter :=
  mkResponseWriter (rw_header w) (if rw_status w == 0 then StatusOK else rw_status w) (rw_body w +:+ body).
Definition statusCode (w : ResponseWriter) : Z := if rw_status w == 0 then StatusOK else rw_status w.

Definition replayedResponseHeaders : list string := ["Content-Type"; "Etag"; "Location"; "X-Request-Id"].

(** [for name, values := range w.header { ... }] *)
Definition stored_headers (h : Header) : Header :=
  map_fold (fun name values headers =>
    let canonical := CanonicalMIMEHeaderKey name in
    if bool_decide (canonical ∈ replayedResponseHeaders) then <[canonical := values]> headers else headers) ∅ h.

(** [append([]byte(nil), b...)] is nil when [b] is empty. *)
Definition append_nil (b : string) : option string := if b == "" then None else Some b.

Definition storedResponse (w : ResponseWriter) (currentRequestID : string) : StoredResponse :=
  mkStoredResponse (statusCode w) (<["X-Request-Id" := [currentRequestID]]> (stored_headers (rw_header w)))
    (append_nil (rw_body w)).

Definition writeTo (captured target : ResponseWriter) : ResponseWriter :=
  Write (rw_body captured) (WriteHeader (statusCode captured)
    (with_header (fun h => map_fold Header_AddAll h (rw_header captured)) target)).

(** Without the errors of fields and the current version, which this code leaves unset. *)
Record Problem := mkProblem {
  pb_Type : string;
  pb_Title : string;
  pb_Status : Z;
  pb_Detail : string;
  pb_Instance : string;
  pb_Code : string;
  pb_RequestID : string;
  pb_Retryable : option bool;
}.

(** ** Requests *)

(** The fields of [identity.RequestIdentity] that the middleware reads; the actor is its identifier. *)
Record RequestIdentity := mkRequestIdentity {
  id_Actor : UUID;
  id_AuthenticationMethod : AuthenticationMethod;
  id_APITokenID : option UUID;
  id_AgentRunID : option UUID;
}.

(** [http.Request]: the parsed query, the body ([None] when it cannot be read), and of its context the
    identity and the request identifier. *)
Record Request := mkRequest {
  rq_Method : string;
  rq_Path : string;
  rq_Query : Values;
  rq_Header : Header;
  rq_Body : option string;
  rq_Identity : option RequestIdentity;
  rq_RequestID : string;
}.

(** What the client gets, or that the handler panicked.  The body of a problem is its JSON; the audit
    of the request learns whether the response was replayed. *)
Record Answer := mkAnswer {
  an_Writer : ResponseWriter;
  an_Problem : option Problem;
  an_Replayed : bool;
}.
Inductive Reply :=
| Answered (a : Answer)
| Panicked.
Definition plain_answer (w : ResponseWriter) : Answer := mkAnswer w None false.

Definition WriteProblem (w : ResponseWriter) (r : Request) (p : Problem) : Answer :=
  let problem := mkProblem (if pb_Type p == "" then "about:blank" else pb_Type p) (pb_Title p) (pb_Status p) (pb_Detail p)
    (if pb_Instance p == "" then rq_Path r else pb_Instance p) (pb_Code p) (rq_RequestID r) (pb_Retryable p) in
  mkAnswer (WriteHeader (pb_Status p) (with_header (Header_Set "Content-Type" "application/problem+json") w))
    (Some problem) false.

Definition new_problem (title : string) (status : Z) (detail code : string) (retryable : option bool) : Problem :=
  mkProblem "" title status detail "" code "" retryable.

Definition writeIdempotencyInternalError (w : ResponseWriter) (r : Request) : Answer :=
  WriteProblem w r (new_problem "Internal server error" StatusInternalServerError "The request could not be completed."
    "INTERNAL_ERROR" None).

Definition idempotencyCredential (current : RequestIdentity) : option (UUID * option UUID * option UUID) :=
  if id_AuthenticationMethod current == AuthenticationMethodAPIToken then
    match id_APITokenID current with
    | Some id => if id != uuid_Nil then Some (id, Some id, None) else None
    | None => None
    end
  else if id_AuthenticationMethod current == AuthenticationMethodAgentDelegate then
    match id_AgentRunID current with
    | Some id => if id != uuid_Nil then Some (id, None, Some id) else None
    | None => None
    end
  else None.

Definition requiresIdempotency (method : string) : bool :=
  bool_decide (method ∈ [MethodPost; MethodPatch; MethodDelete]).

Definition validIdempotencyKey (value : string) : bool :=
  if (Z.of_nat (String.length value) <? 1) || (128 <? Z.of_nat (String.length value)) then false
  else forallb (fun c => negb ((code c <? 0x21) || (0x7e <? code c))) (String.list_ascii_of_string value).

Definition stripMethodPattern (pattern : string) : string :=
  match Cut pattern " " with Some (_, route) => route | None => pattern end.

(** What is hashed: four texts, each ended by a zero byte, and the body. *)
Definition NUL : string := String Ascii.zero "".
Definition fingerprint_message (r : Request) (route body : string) : string :=
  rq_Method r +:+ NUL +:+ route +:+ NUL +:+ Values_Encode (rq_Query r) +:+ NUL +:+
  TrimSpace (Header_Get (rq_Header r) "Content-Type") +:+ NUL +:+ body.
Definition idempotencyFingerprint (r : Request) (route body : string) : string := sha256 (fingerprint_message r route body).

Definition replayStoredResponse (w : ResponseWriter) (r : Request) (response : StoredResponse) : Answer :=
  let add name values h := if EqualFold name "X-Request-ID" then h else Header_AddAll name values h in
  let header h := Header_Set "Idempotency-Replayed" "true" (Header_Set "X-Request-ID" (rq_RequestID r)
    (map_fold add h (sr_Headers response))) in
  mkAnswer (Write (default "" (sr_Body response)) (WriteHeader (sr_StatusCode response) (with_header header w))) None true.

(** ** The middleware *)

(** [idempotencyMiddleware]: whether there is a store, and the pattern that the routes resolve. *)
Record idempotencyMiddleware := mkIdempotencyMiddleware {
  im_store : bool;
  im_routes : option (Request -> string);
}.

(** What happens before the claim: the handler gets the request as it is, the request is refused, or
    its key is claimed with its fingerprint. *)
Inductive Admission :=
| Forward
| Refuse (a : Answer)
| Admit (key : IdempotencyKey) (requestHash : string).

Definition admission (m : idempotencyMiddleware) (r : Request) (w : ResponseWriter) : Admission :=
  match rq_Identity r with
  | None => Forward
  | Some current =>
      if ((id_AuthenticationMethod current != AuthenticationMethodAPIToken) &&
          (id_AuthenticationMethod current != AuthenticationMethodAgentDelegate)) ||
         negb (requiresIdempotency (rq_Method r)) then Forward
      else match idempotencyCredential current with
      | None => Refuse (writeIdempotencyInternalError w r)
      | Some (credentialID, tokenID, agentRunID) =>
          if negb (im_store m) then Refuse (writeIdempotencyInternalError w r)
          else match Header_Values (rq_Header r) "Idempotency-Key" with
          | [] | "" :: _ => Refuse (WriteProblem w r (new_problem "Idempotency key required" StatusBadRequest
              "Bearer mutations require an Idempotency-Key header." "IDEMPOTENCY_KEY_REQUIRED" None))
          | value :: rest =>
              if negb (rest == []) || negb (validIdempotencyKey value) then
                Refuse (WriteProblem w r (new_problem "Invalid request" StatusBadRequest
                  "Idempotency-Key must contain 1 to 128 visible non-space ASCII characters." "INVALID_REQUEST" None))
              else
                let route := match im_routes m with Some pattern => stripMethodPattern (pattern r) | None => "" end in
                if route == "" then Refuse (writeIdempotencyInternalError w r)
                else match rq_Body r with
                | None => Refuse (WriteProblem w r (new_problem "Invalid request" StatusBadRequest
                    "The request body could not be read." "INVALID_REQUEST" None))
                | Some body =>
                    Admit (mkIdempotencyKey (id_Actor current) (id_AuthenticationMethod current) credentialID tokenID agentRunID
                      (rq_Method r) route value) (idempotencyFingerprint r route body)
                end
          end
      end
  end.

(** The answer to a claim; [None] when the key was acquired and the handler runs. *)
Definition answer_claim (w : ResponseWriter) (r : Request) (claim : result IdempotencyClaim) : option Answer :=
  match claim with
  | Err _ => Some (writeIdempotencyInternalError w r)
  | Ok (ClaimReplay response) => Some (replayStoredResponse w r response)
  | Ok ClaimInProgress => Some (WriteProblem (with_header (Header_Set "Retry-After" "1") w) r
      (new_problem "Request in progress" StatusConflict "A request with this idempotency key is still in progress."
         "IDEMPOTENCY_IN_PROGRESS" (Some true)))
  | Ok ClaimReused => Some (WriteProblem w r (new_problem "Idempotency key reused" StatusConflict
      "This idempotency key was already used for a different request." "IDEMPOTENCY_KEY_REUSED" None))
  | Ok ClaimAcquired => None
  end.

(** Whether a handler's outcome is kept: a panic ([None]) and a server error are not. *)
Definition kept (captured : option ResponseWriter) : bool :=
  match captured with Some c => statusCode c <? 500 | None => false end.

Section middleware.
Context `{HeaderJson}.

(** The statement after the handler. *)
Definition settle (key : IdempotencyKey) (r : Request) (captured : option ResponseWriter) : IdempotencyM unit :=
  match captured with
  | None => IdempotencyStore_Release key
  | Some c =>
      let response := storedResponse c (rq_RequestID r) in
      if 500 <=? sr_StatusCode response then IdempotencyStore_Release key else IdempotencyStore_Complete key response
  end.

(** What the client gets after the handler, given how that statement ended. *)
Definition settled_reply (w : ResponseWriter) (r : Request) (captured : option ResponseWriter) (res : result unit) : Reply :=
  match captured with
  | None => Panicked
  | Some c => if kept captured && negb (is_ok res) then Answered (writeIdempotencyInternalError w r)
              else Answered (plain_answer (writeTo c w))
  end.

(** A handler changes the state of the application and fills the response, or panics. *)
Definition Handler (X : Type) : Type := Request -> ResponseWriter -> X -> option ResponseWriter * X.

Definition forward {X} (next : Handler X) (r : Request) (w : ResponseWriter) (x : X) : Reply * X :=
  match next r w x with
  | (Some w', x') => (Answered (plain_answer w'), x')
  | (None, x') => (Panicked, x')
  end.

Definition wrap {X} (m : idempotencyMiddleware) (next : Handler X) (r : Request) (w : ResponseWriter) (now : Time)
    (x : X) (d : IdempotencyDB) : Reply * X * IdempotencyDB :=
  match admission m r w with
  | Forward => (forward next r w x, d)
  | Refuse a => (Answered a, x, d)
  | Admit key hash =>
      let '(claim, d1) := IdempotencyStore_Claim key hash now (now + IdempotencyRetention) d in
      match answer_claim w r claim with
      | Some a => (Answered a, x, d1)
      | None =>
          let '(captured, x1) := next r newCapturedResponse x in
          let '(res, d2) := settle key r captured d1 in
          (settled_reply w r captured res, x1, d2)
      end
  end.
End middleware.
