(* ===== verification/IdempotencySystem.v ===== *)
(** * Concurrent requests under idempotency keys

    Any number of requests pass the middleware of [Idempotency] at the same time, in any order of
    their statements.  The store may fail before or after a statement took effect, a server may crash,
    and the maintenance removes expired records.  The invariant [safe] relates the table to the
    executions so far. *)

From stdpp Require Import base tactics strings gmap list numbers sorting.
From S2P Require Import Prelude Actors State Http Idempotency.

(** How far a request is: before its claim; its handler may run since the claim at [t]; its handler
    has ended with an outcome; it is answered. *)
Inductive Stage :=
| Claiming
| Executing (t : Time)
| Served (t : Time) (captured : option ResponseWriter)
| Replied (reply : Reply).

Record Proc := mkProc {
  pr_request : Request;
  pr_writer : ResponseWriter;
  pr_key : IdempotencyKey;
  pr_hash : string;
  pr_stage : Stage;
}.
Definition at_stage (st : Stage) (p : Proc) : Proc :=
  mkProc (pr_request p) (pr_writer p) (pr_key p) (pr_hash p) st.

(** A handler that ran, with the time of the claim under which it did. *)
Record Execution := mkExecution {
  ex_key : IdempotencyKey;
  ex_hash : string;
  ex_requestID : string;
  ex_claimed : Time;
  ex_outcome : option ResponseWriter;
}.

Record System := mkSystem {
  sy_db : IdempotencyDB;
  sy_now : Time;
  sy_procs : gmap N Proc;
  sy_log : list Execution;
}.

Definition put (i : N) (p : Proc) (d : IdempotencyDB) (s : System) : System :=
  mkSystem d (sy_now s) (<[i := p]> (sy_procs s)) (sy_log s).

(** The time of the claim under which a request may act. *)
Definition claimed_at (p : Proc) : option Time :=
  match pr_stage p with Executing t | Served t _ => Some t | _ => None end.

(** Where the answer to its claim takes a request. *)
Definition claimed_stage (p : Proc) (now : Time) (c : result IdempotencyClaim) : Stage :=
  match answer_claim (pr_writer p) (pr_request p) c with
  | Some a => Replied (Answered a)
  | None => Executing now
  end.

Section system.
Context `{HeaderJson} (m : idempotencyMiddleware).

(** One statement of one request, a failure, or the passing of time.  A handler starts and the
    statement after it runs within the retention of the claim. *)
Inductive step (s : System) : System -> Prop :=
| step_arrive i r w key hash :
    sy_procs s !! i = None -> admission m r w = Admit key hash ->
    step s (put i (mkProc r w key hash Claiming) (sy_db s) s)
| step_claim i p c d' :
    sy_procs s !! i = Some p -> pr_stage p = Claiming ->
    IdempotencyStore_Claim (pr_key p) (pr_hash p) (sy_now s) (sy_now s + IdempotencyRetention) (sy_db s) = (c, d') ->
    step s (put i (at_stage (claimed_stage p (sy_now s) c) p) d' s)
| step_claim_fault i p c d' d :
    sy_procs s !! i = Some p -> pr_stage p = Claiming ->
    IdempotencyStore_Claim (pr_key p) (pr_hash p) (sy_now s) (sy_now s + IdempotencyRetention) (sy_db s) = (c, d') ->
    d = sy_db s \/ d = d' ->
    step s (put i (at_stage (Replied (Answered (writeIdempotencyInternalError (pr_writer p) (pr_request p)))) p) d s)
| step_execute i p t captured :
    sy_procs s !! i = Some p -> pr_stage p = Executing t -> sy_now s < t + IdempotencyRetention ->
    step s (mkSystem (sy_db s) (sy_now s) (<[i := at_stage (Served t captured) p]> (sy_procs s))
              (sy_log s ++ [mkExecution (pr_key p) (pr_hash p) (rq_RequestID (pr_request p)) t captured]))
| step_settle i p t captured res d' :
    sy_procs s !! i = Some p -> pr_stage p = Served t captured -> sy_now s < t + IdempotencyRetention ->
    settle (pr_key p) (pr_request p) captured (sy_db s) = (res, d') ->
    step s (put i (at_stage (Replied (settled_reply (pr_writer p) (pr_request p) captured res)) p) d' s)
| step_settle_fault i p t captured res d' d e :
    sy_procs s !! i = Some p -> pr_stage p = Served t captured -> sy_now s < t + IdempotencyRetention ->
    settle (pr_key p) (pr_request p) captured (sy_db s) = (res, d') -> d = sy_db s \/ d = d' ->
    step s (put i (at_stage (Replied (settled_reply (pr_writer p) (pr_request p) captured (Err e))) p) d s)
| step_crash i :
    step s (mkSystem (sy_db s) (sy_now s) (delete i (sy_procs s)) (sy_log s))
| step_tick now' :
    sy_now s <= now' -> step s (mkSystem (sy_db s) now' (sy_procs s) (sy_log s))
| step_purge before n d' :
    before <= sy_now s -> DeleteIdempotencyBefore before (sy_db s) = (Ok n, d') ->
    step s (mkSystem d' (sy_now s) (sy_procs s) (sy_log s)).

(** An empty table, no request, no execution. *)
Definition initial (s : System) : Prop :=
  idempotency_records (sy_db s) = ∅ /\ sy_procs s = ∅ /\ sy_log s = [].

Inductive reachable_system : System -> Prop :=
| reach_initial s : initial s -> reachable_system s
| reach_step s s' : reachable_system s -> step s s' -> reachable_system s'.

(** ** The statements of the store *)

Definition new_record (key : IdempotencyKey) (hash : string) (now expiresAt : Time) : RecordRow :=
  mkRecordRow (ik_TokenID key) (ik_AgentRunID key) hash StateProcessing None None None now expiresAt.

(** What a claim does: it takes the key when no record or an expired one holds it; otherwise it
    changes nothing, and replays only what is recorded for the same request. *)
Inductive claim_effect (key : IdempotencyKey) (hash : string) (now expiresAt : Time) (d : IdempotencyDB)
    : result IdempotencyClaim -> IdempotencyDB -> Prop :=
| effect_acquired :
    (forall r, record_at key d = Some r -> rr_expires_at r <= now) ->
    idempotency_records_checks key (new_record key hash now expiresAt) = true ->
    claim_effect key hash now expiresAt d (Ok ClaimAcquired)
      (set_records (<[record_key key := new_record key hash now expiresAt]> (idempotency_records d)) d)
| effect_existing r c :
    record_at key d = Some r -> now < rr_expires_at r -> claim_existing r hash = c ->
    claim_effect key hash now expiresAt d c d
| effect_failed e : claim_effect key hash now expiresAt d (Err e) d.

Lemma set_records_id d : set_records (idempotency_records d) d = d.
Proof. by destruct d. Qed.

Lemma delete_record_cases k cond d :
  (record_at k d = None \/ (exists r, record_at k d = Some r /\ cond r = true)) /\
    delete_record k cond d = set_records (delete (record_key k) (idempotency_records d)) d \/
  exists r, record_at k d = Some r /\ cond r = false /\ delete_record k cond d = d.
Proof.
  unfold delete_record. destruct (record_at k d) as [r|] eqn:Hr.
  - destruct (cond r) eqn:Hc; [left|right]; eauto.
  - left. split; [by left|]. unfold record_at in Hr. by rewrite delete_id, set_records_id.
Qed.

Lemma Claim_effect key hash now expiresAt d c d' :
  IdempotencyStore_Claim key hash now expiresAt d = (c, d') -> claim_effect key hash now expiresAt d c d'.
Proof.
  unfold IdempotencyStore_Claim, claim_record, atomically, insert_record, mbind, St_bind, st_fail, st_lift, st_mod, st_get.
  destruct (idempotency_records_checks key _) eqn:Hc; cbn [negb fail_if]; [|intros [= <- <-]; constructor].
  destruct (delete_record_cases key (fun r => rr_expires_at r <=? now) d) as [[Hr ->]|(r & Hr & Hexp & ->)].
  - assert (record_at key (set_records (delete (record_key key) (idempotency_records d)) d) = None) as ->
      by apply lookup_delete_eq.
    destruct (record_fks _ _ _); cbn; [|intros [= <- <-]; constructor].
    intros [= <- <-]. unfold set_records. cbn. rewrite insert_delete_eq. constructor; [|done].
    intros r Hr'. destruct Hr as [Hr|(r' & Hr & He)]; [congruence|]. assert (r' = r) as -> by congruence. lia.
  - rewrite Hr. cbn -[record_at]. rewrite Hr. cbn. intros [= <- <-]. eapply effect_existing; [done| |done]. lia.
Qed.

(** What the statement after a handler does to the record of its key. *)
Inductive settle_effect (key : IdempotencyKey) (r : Request) (captured : option ResponseWriter) (d : IdempotencyDB)
    : result unit -> IdempotencyDB -> Prop :=
| effect_released :
    kept captured = false ->
    settle_effect key r captured d (Ok tt) (delete_record key (fun r => rr_state r == StateProcessing) d)
| effect_completed c row headers :
    captured = Some c -> kept captured = true -> record_at key d = Some row -> rr_state row = StateProcessing ->
    headers_jsonb (sr_Headers (storedResponse c (rq_RequestID r))) = Some headers ->
    idempotency_records_checks key (completed_row row (statusCode c) headers (append_nil (rw_body c))) = true ->
    settle_effect key r captured d (Ok tt)
      (set_records (<[record_key key := completed_row row (statusCode c) headers (append_nil (rw_body c))]>
        (idempotency_records d)) d)
| effect_unsettled e : kept captured = true -> settle_effect key r captured d (Err e) d.

Lemma Complete_cases key response d res d' :
  IdempotencyStore_Complete key response d = (res, d') ->
  (exists e, res = Err e /\ d' = d) \/
  exists row headers, res = Ok tt /\ record_at key d = Some row /\ rr_state row = StateProcessing /\
    headers_jsonb (sr_Headers response) = Some headers /\
    idempotency_records_checks key (completed_row row (sr_StatusCode response) headers (sr_Body response)) = true /\
    d' = set_records (<[record_key key := completed_row row (sr_StatusCode response) headers (sr_Body response)]>
      (idempotency_records d)) d.
Proof.
  intros Hc. destruct res as [[]|e].
  - right. unfold IdempotencyStore_Complete in Hc. st_inv. go_bool. naive_solver.
  - left. exists e. split; [done|]. revert Hc. assert (clean (IdempotencyStore_Complete key response)) as Hcl; [|apply Hcl].
    unfold IdempotencyStore_Complete. cleaned ltac:(idtac; fail).
Qed.

Lemma settle_cases key r captured d res d' :
  settle key r captured d = (res, d') -> settle_effect key r captured d res d'.
Proof.
  unfold settle. destruct captured as [c|]; [|intros [= <- <-]; by constructor].
  cbn [sr_StatusCode storedResponse]. destruct (500 <=? statusCode c) eqn:Hs.
  - intros [= <- <-]. constructor. cbn. lia.
  - assert (kept (Some c) = true) as Hk by (cbn; lia).
    intros [(e & -> & ->)|(row & headers & -> & Hrow & Hst & Hh & Hck & ->)]%Complete_cases; [by constructor|].
    by eapply effect_completed.
Qed.

(** ** The invariant *)

Definition live (s : System) (t : Time) : Prop := sy_now s < t + IdempotencyRetention.

(** The claim of a request whose handler has not run or has to be run again. *)
Definition unkept_at (p : Proc) : option Time :=
  match pr_stage p with
  | Executing t => Some t
  | Served t captured => if kept captured then None else Some t
  | _ => None
  end.

(** [row] records what [e] produced. *)
Definition original (e : Execution) (row : RecordRow) : Prop :=
  exists c headers, ex_outcome e = Some c /\ kept (ex_outcome e) = true /\
    headers_jsonb (sr_Headers (storedResponse c (ex_requestID e))) = Some headers /\
    rr_request_hash row = ex_hash e /\ rr_status_code row = Some (statusCode c) /\
    rr_response_headers row = Some headers /\ rr_response_body row = append_nil (rw_body c).

(** [a] repeats for the request of [p] what an execution under its key and fingerprint produced. *)
Definition repeats (log : list Execution) (p : Proc) (a : Answer) : Prop :=
  exists e c headers, e ∈ log /\ record_key (ex_key e) = record_key (pr_key p) /\ ex_hash e = pr_hash p /\
    ex_outcome e = Some c /\ kept (ex_outcome e) = true /\
    headers_jsonb (sr_Headers (storedResponse c (ex_requestID e))) = Some headers /\
    a = replayStoredResponse (pr_writer p) (pr_request p) (mkStoredResponse (statusCode c) headers (append_nil (rw_body c))).

Definition holds (p : Proc) (t : Time) (row : RecordRow) : Prop :=
  rr_state row = StateProcessing /\ rr_expires_at row = t + IdempotencyRetention /\ rr_request_hash row = pr_hash p.

Record safe (s : System) : Prop := {
  safe_past i p t : sy_procs s !! i = Some p -> claimed_at p = Some t -> t <= sy_now s;
  safe_record i p t : sy_procs s !! i = Some p -> claimed_at p = Some t -> live s t ->
    exists row, record_at (pr_key p) (sy_db s) = Some row /\ holds p t row;
  safe_one i j p q t u : sy_procs s !! i = Some p -> sy_procs s !! j = Some q ->
    claimed_at p = Some t -> claimed_at q = Some u -> live s t -> live s u ->
    record_key (pr_key p) = record_key (pr_key q) -> i = j;
  safe_served i p t captured : sy_procs s !! i = Some p -> pr_stage p = Served t captured ->
    mkExecution (pr_key p) (pr_hash p) (rq_RequestID (pr_request p)) t captured ∈ sy_log s;
  safe_kept e : e ∈ sy_log s -> kept (ex_outcome e) = true -> live s (ex_claimed e) ->
    exists row, record_at (ex_key e) (sy_db s) = Some row /\ rr_expires_at row = ex_claimed e + IdempotencyRetention;
  safe_fresh i p t e : sy_procs s !! i = Some p -> unkept_at p = Some t -> live s t ->
    e ∈ sy_log s -> kept (ex_outcome e) = true -> record_key (ex_key e) = record_key (pr_key p) ->
    ex_claimed e + IdempotencyRetention <= t;
  safe_completed k row : idempotency_records (sy_db s) !! k = Some row -> rr_state row <> StateProcessing ->
    exists e, e ∈ sy_log s /\ record_key (ex_key e) = k /\ original e row;
  safe_replay i p a : sy_procs s !! i = Some p -> pr_stage p = Replied (Answered a) -> an_Replayed a = true ->
    repeats (sy_log s) p a;
  safe_order (a b : nat) e1 e2 : sy_log s !! a = Some e1 -> sy_log s !! b = Some e2 -> (a < b)%nat ->
    record_key (ex_key e1) = record_key (ex_key e2) -> kept (ex_outcome e1) = true ->
    ex_claimed e1 + IdempotencyRetention <= ex_claimed e2;
}.

Lemma safe_initial s : initial s -> safe s.
Proof.
  intros (Hr & Hp & Hl). split; rewrite ?Hr, ?Hp, ?Hl; intros *; rewrite ?lookup_empty, ?lookup_nil; try done;
    by intros ?%elem_of_nil.
Qed.

Lemma unkept_claimed p t : unkept_at p = Some t -> claimed_at p = Some t.
Proof. unfold unkept_at, claimed_at. destruct (pr_stage p); try done. by case_match. Qed.

(** *** One primitive change at a time *)

Definition with_db (d : IdempotencyDB) (s : System) : System := mkSystem d (sy_now s) (sy_procs s) (sy_log s).
Definition with_procs (ps : gmap N Proc) (s : System) : System := mkSystem (sy_db s) (sy_now s) ps (sy_log s).

(** A request that is not (or no longer) acting appears, is answered or disappears. *)
Lemma safe_idle s ps :
  safe s ->
  (forall i p, ps !! i = Some p -> sy_procs s !! i = Some p \/
     claimed_at p = None /\ (forall a, pr_stage p = Replied (Answered a) -> an_Replayed a = true -> repeats (sy_log s) p a)) ->
  safe (with_procs ps s).
Proof.
  intros Hs Hps.
  assert (forall i p t, ps !! i = Some p -> claimed_at p = Some t -> sy_procs s !! i = Some p) as Hold.
  { intros i p t [?|[E _]]%Hps ?; [done|congruence]. }
  split; cbn.
  - intros i p t Hp Ht. eapply safe_past; eauto.
  - intros i p t Hp Ht. eapply (safe_record _ Hs); eauto.
  - intros i j p q t u Hp Hq Ht Hu. eapply (safe_one _ Hs); eauto.
  - intros i p t captured Hp Ht. eapply safe_served; eauto. eapply Hold; eauto. unfold claimed_at. by rewrite Ht.
  - apply (safe_kept _ Hs).
  - intros i p t e Hp Ht. eapply (safe_fresh _ Hs); eauto using unkept_claimed.
  - apply (safe_completed _ Hs).
  - intros i p a Hp Ha Hr. destruct (Hps _ _ Hp) as [Ho|[_ Ho]]; [|by apply Ho]. by eapply safe_replay.
  - apply (safe_order _ Hs).
Qed.

(** Nobody acts under a key. *)
Definition idle_key (s : System) (key : IdempotencyKey) : Prop :=
  forall i p t, sy_procs s !! i = Some p -> claimed_at p = Some t -> live s t -> record_key (pr_key p) <> record_key key.

(** No execution under a key holds any more. *)
Definition unkept_key (s : System) (key : IdempotencyKey) (t : Time) : Prop :=
  forall e, e ∈ sy_log s -> kept (ex_outcome e) = true -> record_key (ex_key e) = record_key key ->
    ex_claimed e + IdempotencyRetention <= t.

Lemma expired_free s key :
  safe s -> (forall r, record_at key (sy_db s) = Some r -> rr_expires_at r <= sy_now s) ->
  idle_key s key /\ unkept_key s key (sy_now s).
Proof.
  intros Hs Hexp. split.
  - intros i p t Hp Ht Hl E. destruct (safe_record _ Hs _ _ _ Hp Ht Hl) as (row & Hrow & _ & He & _).
    unfold record_at in Hrow. rewrite E in Hrow. apply Hexp in Hrow. unfold live in Hl. lia.
  - intros e He Hk E. destruct (decide (sy_now s < ex_claimed e + IdempotencyRetention)) as [Hl|Hl]; [|lia].
    destruct (safe_kept _ Hs _ He Hk Hl) as (row & Hrow & Hx). unfold record_at in Hrow. rewrite E in Hrow.
    apply Hexp in Hrow. lia.
Qed.

(** The record of a key changes to [o] while nobody acts under it. *)
Lemma safe_with_record s key o :
  safe s -> idle_key s key ->
  (forall e, e ∈ sy_log s -> kept (ex_outcome e) = true -> record_key (ex_key e) = record_key key -> live s (ex_claimed e) ->
     exists row, o = Some row /\ rr_expires_at row = ex_claimed e + IdempotencyRetention) ->
  (forall row, o = Some row -> rr_state row <> StateProcessing ->
     exists e, e ∈ sy_log s /\ record_key (ex_key e) = record_key key /\ original e row) ->
  safe (with_db (set_records (partial_alter (fun _ => o) (record_key key) (idempotency_records (sy_db s))) (sy_db s)) s).
Proof.
  intros Hs Hp He Ho. split; cbn -[record_key]; try apply Hs.
  - intros i p t Hi Ht Hl. unfold record_at. cbn [with_db sy_db set_records idempotency_records]. rewrite lookup_partial_alter_ne by (by apply not_eq_sym; eapply Hp).
    by eapply (safe_record _ Hs).
  - intros e Hin Hk Hl. unfold record_at. cbn [with_db sy_db set_records idempotency_records]. destruct (decide (record_key (ex_key e) = record_key key)) as [E|Hne].
    + rewrite E, lookup_partial_alter_eq. by apply He.
    + rewrite lookup_partial_alter_ne by done. by apply (safe_kept _ Hs).
  - intros k row Hk Hst. destruct (decide (k = record_key key)) as [->|Hne].
    + rewrite lookup_partial_alter_eq in Hk. by apply Ho.
    + rewrite lookup_partial_alter_ne in Hk by done. by eapply (safe_completed _ Hs).
Qed.

Lemma unkept_none s key t (P : Execution -> Prop) :
  unkept_key s key t -> t <= sy_now s ->
  forall e, e ∈ sy_log s -> kept (ex_outcome e) = true -> record_key (ex_key e) = record_key key -> live s (ex_claimed e) -> P e.
Proof. intros Hu Ht e Hin Hk E Hl. specialize (Hu _ Hin Hk E). unfold live in Hl. lia. Qed.

(** A claim takes a key that is free. *)
Lemma safe_acquired s key hash :
  safe s -> idle_key s key -> unkept_key s key (sy_now s) ->
  safe (with_db (set_records (<[record_key key := new_record key hash (sy_now s) (sy_now s + IdempotencyRetention)]>
    (idempotency_records (sy_db s))) (sy_db s)) s).
Proof.
  intros Hs Hi Hu. apply safe_with_record; [done|done|by eapply unkept_none|]. by intros row [= <-] [].
Qed.

(** The request that took it starts. *)
Lemma safe_started s i p row :
  safe s -> sy_procs s !! i = Some p -> pr_stage p = Claiming ->
  idle_key s (pr_key p) -> unkept_key s (pr_key p) (sy_now s) ->
  record_at (pr_key p) (sy_db s) = Some row -> holds p (sy_now s) row ->
  safe (with_procs (<[i := at_stage (Executing (sy_now s)) p]> (sy_procs s)) s).
Proof.
  intros Hs Hi Hst Hidle Hu Hrow Hh. split; cbn; try apply Hs.
  - intros j q t [[<- <-]|[_ Hq]]%lookup_insert_Some; [intros [= <-]; lia|by eapply safe_past].
  - intros j q t [[<- <-]|[_ Hq]]%lookup_insert_Some; [intros [= <-] _; eauto|by eapply (safe_record _ Hs)].
  - intros j k q q' t u [[<- <-]|[Hj Hq]]%lookup_insert_Some [[<- <-]|[Hk Hq']]%lookup_insert_Some Ht Hu' Hl Hl' E; [done| | |].
    + cbn in E. exfalso. eapply Hidle; eauto.
    + cbn in E. exfalso. eapply Hidle; eauto.
    + eapply (safe_one _ Hs); eauto.
  - intros j q t captured [[<- <-]|[_ Hq]]%lookup_insert_Some; [done|by eapply safe_served].
  - intros j q t e [[<- <-]|[_ Hq]]%lookup_insert_Some; [|by eapply (safe_fresh _ Hs)].
    intros [= <-] _ Hin Hk E. by eapply Hu.
  - intros j q a [[<- <-]|[_ Hq]]%lookup_insert_Some; [done|by eapply safe_replay].
Qed.

(** A handler runs. *)
Lemma safe_executed s i p t captured :
  safe s -> sy_procs s !! i = Some p -> pr_stage p = Executing t -> live s t ->
  safe (mkSystem (sy_db s) (sy_now s) (<[i := at_stage (Served t captured) p]> (sy_procs s))
    (sy_log s ++ [mkExecution (pr_key p) (pr_hash p) (rq_RequestID (pr_request p)) t captured])).
Proof.
  intros Hs Hi Hst Hl.
  assert (claimed_at p = Some t) as Hc by (unfold claimed_at; by rewrite Hst).
  assert (unkept_at p = Some t) as Hu by (unfold unkept_at; by rewrite Hst).
  destruct (safe_record _ Hs _ _ _ Hi Hc Hl) as (row & Hrow & Hh).
  split; cbn.
  - intros j q u [[<- <-]|[_ Hq]]%lookup_insert_Some; [intros [= <-]|]; by eapply safe_past.
  - intros j q u [[<- <-]|[_ Hq]]%lookup_insert_Some; [intros [= <-] _; eauto|by eapply (safe_record _ Hs)].
  - intros j k q q' u u' [[<- <-]|[Hj Hq]]%lookup_insert_Some [[<- <-]|[Hk Hq']]%lookup_insert_Some Ht Hu' Hl1 Hl2 E; [done| | |].
    all: try (injection Ht as <-); try (injection Hu' as <-); eapply (safe_one _ Hs); eauto.
  - intros j q u c [[<- <-]|[_ Hq]]%lookup_insert_Some; [intros [= <- <-]; apply elem_of_app; right; by left|].
    intros Hq'. apply elem_of_app. left. by eapply safe_served.
  - intros e [Hin|[-> | []%elem_of_nil]%elem_of_cons]%elem_of_app Hk Hle; [by apply (safe_kept _ Hs)|]. cbn. exists row. split; [done|apply Hh].
  - intros j q u e [[<- <-]|[Hj Hq]]%lookup_insert_Some Hu' Hlu [Hin|[-> | []%elem_of_nil]%elem_of_cons]%elem_of_app Hk E; cbn in *.
    + unfold unkept_at in Hu'. cbn in Hu'. case_match; [done|]. injection Hu' as <-. by eapply (safe_fresh _ Hs).
    + unfold unkept_at in Hu'. cbn in Hu'. by rewrite Hk in Hu'.
    + by eapply (safe_fresh _ Hs).
    + exfalso. apply Hj. eapply (safe_one _ Hs); eauto using unkept_claimed.
  - intros k r Hk Hne. destruct (safe_completed _ Hs _ _ Hk Hne) as (e & He & Ho). exists e. split; [|done]. apply elem_of_app. by left.
  - intros j q a [[<- <-]|[_ Hq]]%lookup_insert_Some; [done|]. intros Ha Hr.
    destruct (safe_replay _ Hs _ _ _ Hq Ha Hr) as (e & c & h & He & Ho). exists e, c, h. split; [|done]. apply elem_of_app. by left.
  - intros a b e1 e2 Ha Hb Hab E Hk. apply lookup_app_Some in Hb as [Hb|[Hlen Hb]].
    + apply lookup_app_Some in Ha as [Ha|[Hlen _]]; [by eapply (safe_order _ Hs)|]. apply lookup_lt_Some in Hb. lia.
    + apply list_lookup_singleton_Some in Hb as [Hb <-]. rewrite lookup_app_l in Ha by lia. cbn in *.
      apply list_elem_of_lookup_2 in Ha. by eapply (safe_fresh _ Hs).
Qed.

(** Time passes. *)
Lemma safe_later s now' : safe s -> sy_now s <= now' -> safe (mkSystem (sy_db s) now' (sy_procs s) (sy_log s)).
Proof.
  intros Hs Hle. assert (forall t, live (mkSystem (sy_db s) now' (sy_procs s) (sy_log s)) t -> live s t) as Hl
    by (unfold live; cbn; lia).
  split; cbn; try apply Hs.
  - intros i p t Hp Ht. pose proof (safe_past _ Hs _ _ _ Hp Ht). lia.
  - intros. eapply (safe_record _ Hs); eauto.
  - intros. eapply (safe_one _ Hs); eauto.
  - intros. eapply (safe_kept _ Hs); eauto.
  - intros. eapply (safe_fresh _ Hs); eauto.
Qed.

(** Expired records are removed. *)
Lemma safe_purged s before n d' :
  safe s -> before <= sy_now s -> DeleteIdempotencyBefore before (sy_db s) = (Ok n, d') -> safe (with_db d' s).
Proof.
  intros Hs Hb Hd. unfold DeleteIdempotencyBefore in Hd. st_inv.
  assert (forall k row, record_at k (sy_db s) = Some row -> sy_now s < rr_expires_at row ->
    idempotency_records (sy_db s) !! record_key k = Some row /\ ~ rr_expires_at row < before) as Hkeep by (intros; split; [done|lia]).
  split; cbn; try apply Hs.
  - intros i p t Hp Ht Hl. destruct (safe_record _ Hs _ _ _ Hp Ht Hl) as (row & Hrow & Hh). exists row. split; [|done].
    apply map_lookup_filter_Some, (Hkeep (pr_key p) row Hrow). destruct Hh as (_ & Hx & _). unfold live in Hl. cbn in Hl. lia.
  - intros e He Hk Hl. destruct (safe_kept _ Hs _ He Hk Hl) as (row & Hrow & Hx). exists row. split; [|done].
    apply map_lookup_filter_Some, (Hkeep (ex_key e) row Hrow). unfold live in Hl. cbn in Hl. lia.
  - intros k row [Hk _]%map_lookup_filter_Some. by apply (safe_completed _ Hs).
Qed.

(** *** Every step *)

Lemma settled_not_replayed w r captured res a : settled_reply w r captured res = Answered a -> an_Replayed a = false.
Proof. unfold settled_reply. destruct captured; [|done]. case_match; by intros [= <-]. Qed.

(** What a claim answers without the handler repeats an execution, if it is marked as a replay. *)
Lemma answer_repeats s p r c a :
  safe s -> record_at (pr_key p) (sy_db s) = Some r -> claim_existing r (pr_hash p) = c ->
  answer_claim (pr_writer p) (pr_request p) c = Some a -> an_Replayed a = true -> repeats (sy_log s) p a.
Proof.
  intros Hs Hr <- Ha Hrep. unfold claim_existing in Ha.
  case_bool_decide as Hh; [|by injection Ha as <-]. cbn [negb] in Ha.
  case_bool_decide as Hst; [by injection Ha as <-|].
  destruct (safe_completed _ Hs _ _ Hr Hst) as (e & He & Hk & x & headers & Ho & Hkept & Hj & Hh' & H1 & H2 & H3).
  rewrite H1, H2, H3 in Ha. injection Ha as <-. exists e, x, headers. split_and!; try done. congruence.
Qed.

(** An acting request is answered: then nobody acts under its key. *)
Lemma safe_answered s i p t reply :
  safe s -> sy_procs s !! i = Some p -> claimed_at p = Some t -> live s t ->
  (forall a, reply = Answered a -> an_Replayed a = false) ->
  let s' := with_procs (<[i := at_stage (Replied reply) p]> (sy_procs s)) s in
  safe s' /\ idle_key s' (pr_key p).
Proof.
  intros Hs Hi Hc Hl Hr. cbv zeta. split.
  - apply safe_idle; [done|]. intros j q [[<- <-]|[_ Hq]]%lookup_insert_Some; [right|by left].
    split; [done|]. intros a [= Ea] Ht. by rewrite (Hr a Ea) in Ht.
  - intros j q u. cbn [with_procs sy_procs]. intros [[<- <-]|[Hne Hq]]%lookup_insert_Some; [done|]. intros Hu Hlu E. apply Hne.
    by eapply (safe_one _ Hs _ _ _ _ _ _ Hi Hq Hc Hu Hl Hlu).
Qed.

Lemma safe_settled s i p t captured res d' reply d :
  safe s -> sy_procs s !! i = Some p -> pr_stage p = Served t captured -> live s t ->
  settle (pr_key p) (pr_request p) captured (sy_db s) = (res, d') -> d = sy_db s \/ d = d' ->
  (forall a, reply = Answered a -> an_Replayed a = false) ->
  safe (put i (at_stage (Replied reply) p) d s).
Proof.
  intros Hs Hi Hst Hl Hd Hor Hr.
  assert (claimed_at p = Some t) as Hc by (unfold claimed_at; by rewrite Hst).
  destruct (safe_answered _ _ _ _ reply Hs Hi Hc Hl Hr) as [Hs' Hidle]. set (s' := with_procs _ s) in *.
  change (safe (with_db d s')). destruct Hor as [->|E]; [exact Hs'|]. subst d.
  destruct (settle_cases _ _ _ _ _ _ Hd) as [Hk|c row headers Hcap Hk Hrow Hpr Hj Hck|e Hk]; [| |exact Hs'].
  - destruct (delete_record_cases (pr_key p) (fun r => rr_state r == StateProcessing) (sy_db s)) as [[_ ->]|(r & _ & _ & ->)]; [|exact Hs'].
    apply (safe_with_record s' (pr_key p) None Hs' Hidle); [|done].
    apply (unkept_none s' (pr_key p) t); [|by eapply (safe_past _ Hs)].
    intros e He Hke E. eapply (safe_fresh _ Hs); eauto. unfold unkept_at. by rewrite Hst, Hk.
  - apply (safe_with_record s' (pr_key p) (Some _) Hs' Hidle).
    + intros e He Hke E Hle. destruct (safe_kept _ Hs' _ He Hke Hle) as (row' & Hrow' & Hx).
      unfold record_at in Hrow'. rewrite E in Hrow'. unfold record_at in Hrow.
      assert (row' = row) as -> by (cbn in Hrow'; congruence). by eexists.
    + intros row' [= <-] _. eexists. split; [exact (safe_served _ Hs _ _ _ _ Hi Hst)|]. split; [done|].
      destruct (safe_record _ Hs _ _ _ Hi Hc Hl) as (row' & Hrow' & _ & _ & Hhash).
      assert (row' = row) as -> by congruence.
      exists c, headers. cbn. by rewrite Hcap in *.
Qed.

Lemma safe_claimed s i p c d' :
  safe s -> sy_procs s !! i = Some p -> pr_stage p = Claiming ->
  IdempotencyStore_Claim (pr_key p) (pr_hash p) (sy_now s) (sy_now s + IdempotencyRetention) (sy_db s) = (c, d') ->
  safe (put i (at_stage (claimed_stage p (sy_now s) c) p) d' s).
Proof.
  intros Hs Hi Hst [Hexp Hck|r c' Hr Hlt Hc|e]%Claim_effect.
  - destruct (expired_free _ _ Hs Hexp) as [Hidle Hu].
    apply (safe_started (with_db _ s) i p
      (new_record (pr_key p) (pr_hash p) (sy_now s) (sy_now s + IdempotencyRetention))); try done.
    + by apply safe_acquired.
    + apply lookup_insert_eq.
  - unfold claimed_stage. destruct (answer_claim _ _ c') as [a|] eqn:Ha.
    + apply safe_idle; [done|]. intros j q [[<- <-]|[_ Hq]]%lookup_insert_Some; [right|by left].
      split; [done|]. intros a' [= <-] Hrep. exact (answer_repeats _ _ _ _ _ Hs Hr Hc Ha Hrep).
    + exfalso. unfold claim_existing in Hc. subst c'. repeat (case_match; try done).
  - apply safe_idle; [done|]. intros j q [[<- <-]|[_ Hq]]%lookup_insert_Some; [right|by left].
    split; [done|]. by intros a [= <-].
Qed.

(** A claim whose answer is lost. *)
Lemma safe_claim_lost s i p c d' d :
  safe s -> sy_procs s !! i = Some p -> pr_stage p = Claiming ->
  IdempotencyStore_Claim (pr_key p) (pr_hash p) (sy_now s) (sy_now s + IdempotencyRetention) (sy_db s) = (c, d') ->
  d = sy_db s \/ d = d' ->
  safe (put i (at_stage (Replied (Answered (writeIdempotencyInternalError (pr_writer p) (pr_request p)))) p) d s).
Proof.
  intros Hs Hi Hst Hc Hor.
  assert (safe (with_db d s)) as Hs'.
  { destruct Hor as [->|E]; [by destruct s|]. subst d. destruct (Claim_effect _ _ _ _ _ _ _ Hc) as [Hexp _| |]; [|by destruct s|by destruct s].
    destruct (expired_free _ _ Hs Hexp) as [Hidle Hu]. by apply safe_acquired. }
  apply (safe_idle (with_db d s)); [done|]. intros j q [[<- <-]|[_ Hq]]%lookup_insert_Some; [right|by left].
  split; [done|]. by intros a [= <-].
Qed.

Lemma safe_step s s' : safe s -> step s s' -> safe s'.
Proof.
  intros Hs Hstep. destruct Hstep.
  - apply (safe_idle s); [done|]. intros j q [[<- <-]|[_ Hq]]%lookup_insert_Some; [by right|by left].
  - by eapply safe_claimed.
  - by eapply safe_claim_lost.
  - by apply safe_executed.
  - eapply safe_settled; eauto. intros a. apply settled_not_replayed.
  - eapply safe_settled; eauto. intros a. apply settled_not_replayed.
  - apply safe_idle; [done|]. intros j q [_ Hq]%lookup_delete_Some. by left.
  - by apply safe_later.
  - by eapply (safe_purged s).
Qed.

Lemma safe_reachable s : reachable_system s -> safe s.
Proof. induction 1; eauto using safe_initial, safe_step. Qed.
End system.
