(* ===== verification/IdempotencyProperties.v ===== *)
(** * Properties of the idempotency keys

    What a client with an Idempotency-Key can rely on: concurrent and repeated requests execute a
    mutation once, and repeated ones get the original response. *)

From Stdlib Require Import Ascii.
From stdpp Require Import base tactics strings gmap list numbers sorting.
From S2P Require Import Prelude Actors State Http Idempotency IdempotencySystem.

(** ** Fingerprints *)

Definition nul_free (s : string) : bool := forallb (fun c => c != Ascii.zero) (String.list_ascii_of_string s).

Lemma nul_free_cons c s : nul_free (String c s) = (c != Ascii.zero) && nul_free s.
Proof. done. Qed.

Lemma nul_free_app s t : nul_free (s +:+ t) = nul_free s && nul_free t.
Proof. induction s as [|c s IH]; [done|]. change (String c s +:+ t) with (String c (s +:+ t)).
  rewrite !nul_free_cons, IH. apply andb_assoc. Qed.

(** A zero byte ends a text without one. *)
Lemma nul_cut s t s' t' :
  nul_free s = true -> nul_free t = true -> s +:+ NUL +:+ s' = t +:+ NUL +:+ t' -> s = t /\ s' = t'.
Proof.
  revert t. induction s as [|c s IH]; intros [|c' t] Hs Ht E.
  - change (String Ascii.zero s' = String Ascii.zero t') in E. by injection E as ->.
  - change (String Ascii.zero s' = String c' (t +:+ NUL +:+ t')) in E. by injection E as <- _.
  - change (String c (s +:+ NUL +:+ s') = String Ascii.zero t') in E. by injection E as -> _.
  - change (String c (s +:+ NUL +:+ s') = String c' (t +:+ NUL +:+ t')) in E. injection E as <- E.
    rewrite nul_free_cons in Hs, Ht. apply andb_true_iff in Hs as [_ Hs], Ht as [_ Ht]. by destruct (IH t Hs Ht E) as [<- <-].
Qed.

Lemma hex_digit_nul z : 0 <= z < 16 -> hex_digit z <> Ascii.zero.
Proof.
  intros Hz E. assert (code (hex_digit z) = 0) as E0 by (by rewrite E). revert E0. clear E.
  assert (z ∈ (Z.of_nat <$> seq 0 16)) as Hin.
  { apply list_elem_of_fmap. exists (Z.to_nat z). split; [lia|]. apply elem_of_seq. lia. }
  assert (Forall (fun z => code (hex_digit z) <> 0) (Z.of_nat <$> seq 0 16)) as Hall by (repeat constructor; discriminate).
  rewrite Forall_forall in Hall. by apply Hall.
Qed.

Lemma escape_byte_nul c : forallb (fun c => c != Ascii.zero) (escape_byte c) = true.
Proof.
  unfold escape_byte. destruct (unreserved c) eqn:Hu.
  - cbn. rewrite andb_true_r. case_bool_decide as E; [|done]. by subst c.
  - case_bool_decide; [done|]. pose proof (code_range c). pose proof (Z.div_lt_upper_bound (code c) 16 16).
    pose proof (Z.div_pos (code c) 16). pose proof (Z.mod_pos_bound (code c) 16).
    repeat (apply andb_true_iff; split); try done; apply negb_true_iff, bool_decide_eq_false_2, hex_digit_nul; lia.
Qed.

Lemma QueryEscape_nul s : nul_free (QueryEscape s) = true.
Proof.
  unfold nul_free, QueryEscape. rewrite String.list_ascii_of_string_of_list_ascii. induction (String.list_ascii_of_string s) as [|c l IH]; [done|].
  cbn [flat_map]. by rewrite forallb_app, IH, escape_byte_nul.
Qed.

Lemma concat_nul sep l : nul_free sep = true -> Forall (fun s => nul_free s = true) l -> nul_free (String.concat sep l) = true.
Proof.
  intros Hs. induction 1 as [|s l Hs' Hl IH]; [done|]. destruct l as [|s2 l]; [done|].
  change (String.concat sep (s :: s2 :: l)) with (s +:+ sep +:+ String.concat sep (s2 :: l)).
  by rewrite !nul_free_app, Hs', Hs, IH.
Qed.

Lemma Values_Encode_nul vs : nul_free (Values_Encode vs) = true.
Proof.
  unfold Values_Encode. apply concat_nul; [done|]. apply Forall_forall. intros s ([k l] & Hs & _)%list_elem_of_bind.
  apply list_elem_of_fmap in Hs as (v & -> & _). by rewrite !nul_free_app, !QueryEscape_nul.
Qed.

(** The fingerprint of a request identifies it: two requests whose methods, routes and content types
    are free of zero bytes have the same fingerprint only if they agree on method, route, query
    parameters as encoded, content type and body, or if they are a collision of SHA-256. *)
Theorem fingerprint_identifies r r' route route' body body'
    (Hm : nul_free (rq_Method r) = true) (Hm' : nul_free (rq_Method r') = true)
    (Hr : nul_free route = true) (Hr' : nul_free route' = true)
    (Hc : nul_free (TrimSpace (Header_Get (rq_Header r) "Content-Type")) = true)
    (Hc' : nul_free (TrimSpace (Header_Get (rq_Header r') "Content-Type")) = true)
    (E : idempotencyFingerprint r route body = idempotencyFingerprint r' route' body') :
  (rq_Method r = rq_Method r' /\ route = route' /\ Values_Encode (rq_Query r) = Values_Encode (rq_Query r') /\
    TrimSpace (Header_Get (rq_Header r) "Content-Type") = TrimSpace (Header_Get (rq_Header r') "Content-Type") /\
    body = body') \/
  (fingerprint_message r route body <> fingerprint_message r' route' body' /\
    sha256 (fingerprint_message r route body) = sha256 (fingerprint_message r' route' body')).
Proof.
  destruct (decide (fingerprint_message r route body = fingerprint_message r' route' body')) as [Em|Hne]; [left|by right].
  unfold fingerprint_message in Em.
  apply nul_cut in Em as [-> Em]; [|done|done]. apply nul_cut in Em as [-> Em]; [|done|done].
  apply nul_cut in Em as [-> Em]; [|apply Values_Encode_nul|apply Values_Encode_nul].
  by apply nul_cut in Em as [-> ->].
Qed.

(** ** Concurrent requests *)

Section concurrent.
Context `{HeaderJson} (m : idempotencyMiddleware).

(** C20: a mutation runs once per key: whatever requests arrive, however their statements interleave, and
    whatever fails in between, after an execution that neither panicked nor ended in a server error no
    further execution under the same key is claimed before the retention of 24 hours is over; and at
    any time at most one request acts under a key. *)
Theorem mutation_runs_once s (Hs : reachable_system m s) :
  (forall (a b : nat) e1 e2, sy_log s !! a = Some e1 -> sy_log s !! b = Some e2 -> (a < b)%nat ->
     record_key (ex_key e1) = record_key (ex_key e2) -> kept (ex_outcome e1) = true ->
     ex_claimed e1 + IdempotencyRetention <= ex_claimed e2) /\
  (forall i j p q t u, sy_procs s !! i = Some p -> sy_procs s !! j = Some q ->
     claimed_at p = Some t -> claimed_at q = Some u ->
     sy_now s < t + IdempotencyRetention -> sy_now s < u + IdempotencyRetention ->
     record_key (pr_key p) = record_key (pr_key q) -> i = j).
Proof. apply safe_reachable in Hs. split; apply Hs. Qed.

(** A replay repeats the original response: a request that is answered with a replay, under any
    interleaving and any failures, gets status, kept headers and body of an execution that took place
    under the same key for a request with the same fingerprint. *)
Theorem replay_is_original s i p a (Hs : reachable_system m s) (Hp : sy_procs s !! i = Some p)
    (Ha : pr_stage p = Replied (Answered a)) (Hr : an_Replayed a = true) :
  exists e c headers, e ∈ sy_log s /\ record_key (ex_key e) = record_key (pr_key p) /\ ex_hash e = pr_hash p /\
    ex_outcome e = Some c /\ statusCode c < 500 /\
    headers_jsonb (sr_Headers (storedResponse c (ex_requestID e))) = Some headers /\
    a = replayStoredResponse (pr_writer p) (pr_request p) (mkStoredResponse (statusCode c) headers (append_nil (rw_body c))).
Proof.
  destruct (safe_replay _ (safe_reachable _ _ Hs) _ _ _ Hp Ha Hr) as (e & c & headers & He & Hk & Hh & Ho & Hkept & Hj & ->).
  exists e, c, headers. split_and!; try done. rewrite Ho in Hkept. cbn in Hkept. lia.
Qed.
End concurrent.

(** ** One request after another *)

(** What the admission of a request guarantees of its key and its fingerprint. *)
Lemma admit_Admit m r w key hash :
  admission m r w = Admit key hash ->
  validIdempotencyKey (ik_Value key) = true /\ String.length hash = 32%nat /\
  (forall now expiresAt, credential_shape key (new_record key hash now expiresAt) = true).
Proof.
  unfold admission. destruct (rq_Identity r) as [current|]; [|done]. destruct (_ || _); [done|].
  destruct (idempotencyCredential current) as [[[credentialID tokenID] runID]|] eqn:Hcred; [|done].
  destruct (negb (im_store m)); [done|]. destruct (Header_Values _ _) as [|[|c v] rest]; [done..|].
  destruct (_ || negb (validIdempotencyKey _)) eqn:Hv; [done|]. cbv zeta. destruct (bool_decide (_ = "")); [done|].
  destruct (rq_Body r) as [body|]; [|done]. intros [= <- <-].
  apply orb_false_iff in Hv as [_ Hv%negb_false_iff]. split; [done|]. split; [apply sha256_length|]. intros now expiresAt.
  unfold credential_shape, idempotencyCredential in *. cbn [ik_CredentialKind ik_CredentialID rr_token_id rr_agent_run_id new_record].
  cbn [ik_TokenID ik_AgentRunID].
  destruct (bool_decide (_ = AuthenticationMethodAPIToken)); [|destruct (bool_decide (_ = AuthenticationMethodAgentDelegate)); [|done]];
    (case_match; [|done]); (case_match; [|done]); injection Hcred as <- <- <-; cbn; by rewrite bool_decide_eq_true_2.
Qed.

(** A valid key has as many characters as bytes. *)
Lemma valid_key_length value : validIdempotencyKey value = true -> 1 <= char_length value <= 128.
Proof.
  unfold validIdempotencyKey. destruct (_ || _) eqn:Hl; [done|]. intros Hv. apply orb_false_iff in Hl as [H1 H2].
  assert (char_length value = Z.of_nat (String.length value)) as ->; [|lia].
  unfold char_length. f_equal. clear H1 H2. induction value as [|c s IH]; [done|].
  cbn [String.list_ascii_of_string forallb] in *. apply andb_true_iff in Hv as [Hc Hs].
  rewrite filter_cons_True by lia. cbn. by rewrite IH.
Qed.

(** *** Headers of a replay *)

(** Handlers set headers through [Header.Set] and [Add], so that every name is canonical. *)
Definition canonical_header (h : Header) : Prop := map_Forall (fun k _ => CanonicalMIMEHeaderKey k = k) h.

Definition values_at (h : Header) (k : string) : list string := default [] (h !! k).

Lemma Header_Values_at h name : Header_Values h name = values_at h (CanonicalMIMEHeaderKey name).
Proof. done. Qed.

Lemma AddAll_values name vs h k :
  CanonicalMIMEHeaderKey name = name ->
  values_at (Header_AddAll name vs h) k = if decide (k = name) then values_at h k ++ vs else values_at h k.
Proof.
  intros Hc. revert h. induction vs as [|v vs IH]; intros h; cbn [Header_AddAll foldl].
  - case_decide; [by rewrite app_nil_r|done].
  - unfold Header_AddAll in IH. rewrite IH. unfold Header_Add. rewrite Header_Values_at, Hc. unfold values_at.
    destruct (decide (k = name)) as [->|Hne]; [by rewrite lookup_insert_eq; cbn; rewrite <- app_assoc|by rewrite lookup_insert_ne].
Qed.

Lemma stored_headers_lookup h k :
  canonical_header h -> stored_headers h !! k = if decide (k ∈ replayedResponseHeaders) then h !! k else None.
Proof.
  unfold stored_headers.
  apply (map_fold_weak_ind (fun r h => canonical_header h -> r !! k = if decide (k ∈ replayedResponseHeaders) then h !! k else None)).
  - intros _. rewrite !lookup_empty. by case_decide.
  - intros name vs h' r Hn IH Hc. apply map_Forall_insert in Hc as [Hname Hc]; [|done]. cbv beta zeta. rewrite Hname.
    specialize (IH Hc). case_bool_decide as Hin.
    + destruct (decide (k = name)) as [->|Hne]; [|by rewrite !lookup_insert_ne].
      by rewrite !lookup_insert_eq, decide_True.
    + rewrite IH. destruct (decide (k = name)) as [->|Hne]; [by rewrite !decide_False|by rewrite lookup_insert_ne].
Qed.

Lemma stored_headers_canonical h : canonical_header h -> canonical_header (stored_headers h).
Proof.
  intros Hc k vs. rewrite stored_headers_lookup by done. case_decide; [|done]. apply Hc.
Qed.

(** The headers that a replay adds. *)
Lemma replay_header_values h0 h k :
  canonical_header h ->
  values_at (map_fold (fun name values h => if EqualFold name "X-Request-ID" then h else Header_AddAll name values h) h0 h) k =
    if EqualFold k "X-Request-ID" then values_at h0 k else values_at h0 k ++ values_at h k.
Proof.
  apply (map_fold_weak_ind (fun r h => canonical_header h ->
    values_at r k = if EqualFold k "X-Request-ID" then values_at h0 k else values_at h0 k ++ values_at h k)).
  - intros _. unfold values_at at 4. rewrite lookup_empty. cbn. rewrite app_nil_r. by case_match.
  - intros name vs h' r Hn IH Hc. apply map_Forall_insert in Hc as [Hname Hc]; [|done]. specialize (IH Hc).
    destruct (decide (k = name)) as [->|Hne].
    + destruct (EqualFold name "X-Request-ID"); [done|]. rewrite AddAll_values, decide_True, IH by done.
      unfold values_at. rewrite lookup_insert_eq, Hn. cbn. by rewrite app_nil_r.
    + assert (values_at (<[name := vs]> h') k = values_at h' k) as -> by (unfold values_at; by rewrite lookup_insert_ne).
      rewrite <- IH. destruct (EqualFold name "X-Request-ID"); [done|]. by rewrite AddAll_values, decide_False.
Qed.

Lemma written body status w :
  rw_status w = 0 -> status <> 0 ->
  rw_status (Write body (WriteHeader status w)) = status /\ rw_body (Write body (WriteHeader status w)) = rw_body w +:+ body.
Proof. intros Hw Hs. unfold Write, WriteHeader. rewrite Hw. cbn. by rewrite bool_decide_eq_false_2. Qed.

(** The writer of a request after [RequestIDMiddleware]. *)
Definition fresh_writer (r : Request) : ResponseWriter := with_header (Header_Set "X-Request-ID" (rq_RequestID r)) newCapturedResponse.

Section requests.
Context `{HeaderJson} {X : Type} (m : idempotencyMiddleware).

Lemma processing_checks key hash now :
  validIdempotencyKey (ik_Value key) = true -> String.length hash = 32%nat ->
  credential_shape key (new_record key hash now (now + IdempotencyRetention)) = true ->
  idempotency_records_checks key (new_record key hash now (now + IdempotencyRetention)) = true.
Proof.
  intros Hv%valid_key_length Hh Hc. unfold idempotency_records_checks. rewrite Hc. cbn [rr_request_hash new_record]. rewrite Hh.
  unfold status_in_range, state_shape, IdempotencyRetention, Hour. cbn [rr_created_at rr_expires_at new_record].
  repeat (apply andb_true_iff; split); try done; lia.
Qed.

(** The record of a key for a response: it is accepted exactly when it has a status and a body. *)
Lemma completed_checks key hash now status headers body :
  idempotency_records_checks key (new_record key hash now (now + IdempotencyRetention)) = true ->
  idempotency_records_checks key (completed_row (new_record key hash now (now + IdempotencyRetention)) status headers body)
    = (100 <=? status) && (status <=? 599) && present body.
Proof.
  set (new := new_record _ _ _ _). intros Hc. unfold idempotency_records_checks in *.
  change (credential_shape key (completed_row new status headers body)) with (credential_shape key new).
  change (rr_request_hash (completed_row new status headers body)) with (rr_request_hash new).
  change (rr_created_at (completed_row new status headers body)) with (rr_created_at new).
  change (rr_expires_at (completed_row new status headers body)) with (rr_expires_at new).
  change (state_shape (completed_row new status headers body)) with (present body).
  change (status_in_range (rr_status_code (completed_row new status headers body))) with ((100 <=? status) && (status <=? 599)).
  repeat match type of Hc with _ && _ = true => let H2 := fresh in apply andb_true_iff in Hc as [Hc H2] end.
  rewrite Hc. repeat match goal with Ht : ?b = true |- context [?b] => rewrite Ht end.
  by rewrite !andb_true_l, !andb_true_r.
Qed.

Definition new_for (key : IdempotencyKey) (hash : string) (now : Time) : RecordRow :=
  new_record key hash now (now + IdempotencyRetention).
Definition acquired_db (key : IdempotencyKey) (hash : string) (now : Time) (d : IdempotencyDB) : IdempotencyDB :=
  set_records (<[record_key key := new_for key hash now]> (idempotency_records d)) d.

(** The key of a request can be acquired: no record or an expired one holds it, and its user and
    credential exist. *)
Definition acquirable (key : IdempotencyKey) (hash : string) (now : Time) (d : IdempotencyDB) : Prop :=
  (forall row, record_at key d = Some row -> rr_expires_at row <= now) /\ record_fks key (new_for key hash now) d = true.

Lemma key_acquired key hash now d :
  idempotency_records_checks key (new_for key hash now) = true -> acquirable key hash now d ->
  IdempotencyStore_Claim key hash now (now + IdempotencyRetention) d = (Ok ClaimAcquired, acquired_db key hash now d).
Proof.
  intros Hc [Hexp Hfk]. unfold IdempotencyStore_Claim, claim_record, atomically, insert_record, mbind, St_bind, st_fail, st_lift, st_mod, st_get.
  unfold new_for, new_record in Hc, Hfk. rewrite Hc. cbn [negb fail_if].
  assert (record_at key (delete_record key (fun r => rr_expires_at r <=? now) d) = None /\
    set_records (delete (record_key key) (idempotency_records d)) d = delete_record key (fun r => rr_expires_at r <=? now) d) as [Hn Hd].
  { unfold delete_record. destruct (record_at key d) as [row|] eqn:Hr.
    - specialize (Hexp row eq_refl). assert ((rr_expires_at row <=? now) = true) as -> by lia. split; [|done]. apply lookup_delete_eq.
    - split; [done|]. unfold record_at in Hr. by rewrite delete_id, set_records_id. }
  rewrite Hn, <- Hd. change (record_fks key ?r (set_records ?x d)) with (record_fks key r d). rewrite Hfk. cbn.
  unfold acquired_db, set_records. cbn. by rewrite insert_delete_eq.
Qed.

Lemma key_taken key hash now d row :
  idempotency_records_checks key (new_for key hash now) = true -> record_at key d = Some row -> now < rr_expires_at row ->
  IdempotencyStore_Claim key hash now (now + IdempotencyRetention) d = (claim_existing row hash, d).
Proof.
  intros Hc Hr Hlt. unfold IdempotencyStore_Claim, claim_record, atomically, insert_record, mbind, St_bind, st_fail, st_lift, st_mod, st_get.
  unfold new_for, new_record in Hc. rewrite Hc. cbn [negb fail_if].
  assert (delete_record key (fun r => rr_expires_at r <=? now) d = d) as ->.
  { unfold delete_record. rewrite Hr. cbv beta. destruct (rr_expires_at row <=? now) eqn:E; [lia|done]. }
  rewrite Hr. cbn -[record_at claim_existing]. rewrite Hr. reflexivity.
Qed.

(** The first request under a key. *)
Lemma wrap_first (next : Handler X) r w now x d key hash captured x' :
  admission m r w = Admit key hash -> acquirable key hash now d -> next r newCapturedResponse x = (captured, x') ->
  wrap m next r w now x d =
    (settled_reply w r captured (settle key r captured (acquired_db key hash now d)).1, x',
     (settle key r captured (acquired_db key hash now d)).2).
Proof.
  intros Ha Hq Hn. unfold wrap. rewrite Ha. destruct (admit_Admit _ _ _ _ _ Ha) as (Hv & Hl & Hs).
  rewrite key_acquired by (done || apply processing_checks; auto). cbn [answer_claim]. rewrite Hn.
  by destruct (settle _ _ _ _).
Qed.

(** A request under a key that is taken. *)
Lemma wrap_taken (next : Handler X) r w now x d key hash row a :
  admission m r w = Admit key hash -> record_at key d = Some row -> now < rr_expires_at row ->
  answer_claim w r (claim_existing row hash) = Some a ->
  wrap m next r w now x d = (Answered a, x, d).
Proof.
  intros Ha Hr Hlt Hc. unfold wrap. rewrite Ha. destruct (admit_Admit _ _ _ _ _ Ha) as (Hv & Hl & Hs).
  rewrite (key_taken _ _ _ _ row) by (done || apply processing_checks; auto). by rewrite Hc.
Qed.

(** What the handler's outcome does to the record of an acquired key. *)
Definition recorded_db (key : IdempotencyKey) (hash : string) (now : Time) (c : ResponseWriter) (headers : Header)
    (d : IdempotencyDB) : IdempotencyDB :=
  set_records (<[record_key key := completed_row (new_for key hash now) (statusCode c) headers (append_nil (rw_body c))]>
    (idempotency_records d)) d.

Lemma acquired_record key hash now d : record_at key (acquired_db key hash now d) = Some (new_for key hash now).
Proof. apply lookup_insert_eq. Qed.

Lemma settle_recorded key hash now d r c headers :
  idempotency_records_checks key (new_for key hash now) = true -> 100 <= statusCode c < 500 -> rw_body c <> "" ->
  headers_jsonb (sr_Headers (storedResponse c (rq_RequestID r))) = Some headers ->
  settle key r (Some c) (acquired_db key hash now d) = (Ok tt, recorded_db key hash now c headers d).
Proof.
  intros Hck Hst Hb Hj. unfold settle. cbv zeta. cbn [sr_StatusCode storedResponse].
  assert ((500 <=? statusCode c) = false) as -> by lia.
  unfold IdempotencyStore_Complete, mbind, St_bind, st_or_err, st_fail, st_get, st_mod, st_lift. rewrite Hj. cbv beta iota.
  cbn [sr_StatusCode sr_Body storedResponse].
  assert (((- 2 ^ 31 <=? statusCode c) && (statusCode c <? 2 ^ 31)) = true) as -> by lia. cbn [negb fail_if]. cbv beta iota.
  rewrite acquired_record. cbv beta iota. rewrite (bool_decide_eq_true_2 (rr_state _ = _)) by done. cbn [negb fail_if]. cbv beta iota.
  assert (append_nil (rw_body c) = Some (rw_body c)) as Hsome by (unfold append_nil; by rewrite bool_decide_eq_false_2).
  rewrite Hsome. unfold new_for. rewrite completed_checks by done.
  assert (((100 <=? statusCode c) && (statusCode c <=? 599) && present (Some (rw_body c))) = true) as -> by (cbn; lia).
  cbn [negb fail_if]. unfold recorded_db, acquired_db, set_records, new_for. cbn [idempotency_records idempotency_users idempotency_tokens idempotency_runs].
  by rewrite insert_insert_eq, Hsome.
Qed.

Lemma settle_empty key hash now d r c :
  idempotency_records_checks key (new_for key hash now) = true -> statusCode c < 500 -> rw_body c = "" ->
  exists e, settle key r (Some c) (acquired_db key hash now d) = (Err e, acquired_db key hash now d).
Proof.
  intros Hck Hst Hb. destruct (settle key r (Some c) (acquired_db key hash now d)) as [res d'] eqn:Hs.
  destruct (settle_cases _ _ _ _ _ _ Hs) as [Hk|c' row headers [= <-] _ Hrow _ _ Hc|e _]; [cbn in Hk; lia| |by exists e].
  exfalso. rewrite acquired_record in Hrow. injection Hrow as <-. unfold new_for in Hc. rewrite completed_checks in Hc by done.
  rewrite Hb in Hc. change (append_nil "") with (@None string) in Hc. by rewrite andb_false_r in Hc.
Qed.

(** What a replay of a recorded response looks like. *)
Definition replays (c : ResponseWriter) (r : Request) (a : Answer) : Prop :=
  an_Replayed a = true /\ rw_status (an_Writer a) = statusCode c /\ rw_body (an_Writer a) = rw_body c /\
  (forall name, name ∈ ["Content-Type"; "Etag"; "Location"] ->
     Header_Values (rw_header (an_Writer a)) name = Header_Values (rw_header c) name) /\
  Header_Values (rw_header (an_Writer a)) "X-Request-ID" = [rq_RequestID r] /\
  Header_Values (rw_header (an_Writer a)) "Idempotency-Replayed" = ["true"].

Lemma replayed_header_lookup r h k :
  k ∈ ["Content-Type"; "Etag"; "Location"] -> canonical_header h ->
  values_at (<["Idempotency-Replayed" := ["true"]]> (<["X-Request-Id" := [rq_RequestID r]]>
    (map_fold (fun name values h => if EqualFold name "X-Request-ID" then h else Header_AddAll name values h)
       (<["X-Request-Id" := [rq_RequestID r]]> ∅) h))) k = values_at h k.
Proof.
  intros Hk Hc. unfold values_at at 1.
  assert (k <> "Idempotency-Replayed" /\ k <> "X-Request-Id" /\ EqualFold k "X-Request-ID" = false) as (H1 & H2 & H3)
    by (repeat (apply elem_of_cons in Hk as [-> | Hk]; [done|]); by apply elem_of_nil in Hk).
  rewrite !lookup_insert_ne by done. change (default [] ?o) with (default ([] : list string) o).
  etransitivity; [apply (replay_header_values _ _ k Hc)|]. rewrite H3. unfold values_at. rewrite lookup_insert_ne by done. done.
Qed.

Lemma replay_answer r' r c :
  canonical_header (rw_header c) -> statusCode c <> 0 ->
  replays c r' (replayStoredResponse (fresh_writer r') r' (mkStoredResponse (statusCode c)
    (sr_Headers (storedResponse c (rq_RequestID r))) (append_nil (rw_body c)))).
Proof.
  intros Hc Hst. set (stored := sr_Headers _).
  assert (canonical_header stored) as Hcs.
  { apply map_Forall_insert_2; [done|]. by apply stored_headers_canonical. }
  set (a := replayStoredResponse _ _ _).
  assert (exists h, rw_header (an_Writer a) = <["Idempotency-Replayed" := ["true"]]> (<["X-Request-Id" := [rq_RequestID r']]> h))
    as [h Hh] by (eexists; reflexivity).
  split; [done|]. split; [|split; [|split; [|split]]].
  - by apply written.
  - etransitivity; [by apply written|]. unfold append_nil. cbn [sr_Body]. case_bool_decide as E; [by rewrite E|done].
  - intros name Hn. rewrite !Header_Values_at.
    assert (CanonicalMIMEHeaderKey name = name) as ->
      by (repeat (apply elem_of_cons in Hn as [-> | Hn]; [done|]); by apply elem_of_nil in Hn).
    etransitivity; [exact (replayed_header_lookup r' stored name Hn Hcs)|]. unfold values_at, stored. cbn [sr_Headers storedResponse].
    assert (name <> "X-Request-Id" /\ name ∈ replayedResponseHeaders) as [H1 H2]
      by (repeat (apply elem_of_cons in Hn as [-> | Hn]; [split; [done|repeat constructor]|]); by apply elem_of_nil in Hn).
    by rewrite lookup_insert_ne, stored_headers_lookup, decide_True.
  - rewrite Header_Values_at, Hh. unfold values_at. change (CanonicalMIMEHeaderKey "X-Request-ID") with "X-Request-Id".
    by rewrite lookup_insert_ne, lookup_insert_eq.
  - rewrite Header_Values_at, Hh. unfold values_at.
    change (CanonicalMIMEHeaderKey "Idempotency-Replayed") with "Idempotency-Replayed". by rewrite lookup_insert_eq.
Qed.

(** Both requests of a retry: the first is served and recorded, the second is answered from the record. *)
Lemma retry_replayed (next next' : Handler X) r w now x d key hash c x' :
  admission m r w = Admit key hash -> acquirable key hash now d -> next r newCapturedResponse x = (Some c, x') ->
  100 <= statusCode c < 500 -> rw_body c <> "" -> canonical_header (rw_header c) ->
  plain_header (sr_Headers (storedResponse c (rq_RequestID r))) = true ->
  exists d', wrap m next r w now x d = (Answered (plain_answer (writeTo c w)), x', d') /\
    forall r' now' y, admission m r' (fresh_writer r') = Admit key hash -> now' < now + IdempotencyRetention ->
      exists a, wrap m next' r' (fresh_writer r') now' y d' = (Answered a, y, d') /\ replays c r' a.
Proof.
  intros Ha Hq Hn Hst Hb Hcan Hpl%headers_jsonb_plain. destruct (admit_Admit _ _ _ _ _ Ha) as (Hv & Hl & Hs).
  pose proof (processing_checks key hash now Hv Hl (Hs _ _)) as Hck.
  rewrite (wrap_first _ _ _ _ _ _ _ _ _ _ Ha Hq Hn), (settle_recorded _ _ _ _ _ _ _ Hck Hst Hb Hpl).
  eexists. split; [unfold settled_reply; cbn [is_ok negb fst]; by rewrite andb_false_r|].
  intros r' now' y Ha' Hlt. eexists. split; [|apply (replay_answer r' r c Hcan); lia].
  eapply wrap_taken; [done|apply lookup_insert_eq|done|]. cbn [claim_existing completed_row rr_request_hash new_for new_record].
  unfold claim_existing. rewrite (bool_decide_eq_true_2 (rr_request_hash _ = _)) by done. reflexivity.
Qed.

(** C21: a retry gets the response of the first request: a mutation that a handler answers with a body and
    no server error is recorded; every retry with the same key and fingerprint in the next 24 hours is
    answered with the same status, body, content type, entity tag and location, marked as replayed and
    with its own request identifier, and runs no handler. *)
Theorem retry_replays (next next' : Handler X) r w now x d key hash c x' r' now' y
    (Ha : admission m r w = Admit key hash) (Hq : acquirable key hash now d)
    (Hn : next r newCapturedResponse x = (Some c, x')) (Hst : 100 <= statusCode c < 500)
    (Hb : rw_body c <> "") (Hcan : canonical_header (rw_header c))
    (Hpl : plain_header (sr_Headers (storedResponse c (rq_RequestID r))) = true)
    (Ha' : admission m r' (fresh_writer r') = Admit key hash) (Hnow : now' < now + IdempotencyRetention) :
  exists d' a, wrap m next r w now x d = (Answered (plain_answer (writeTo c w)), x', d') /\
    wrap m next' r' (fresh_writer r') now' y d' = (Answered a, y, d') /\ replays c r' a.
Proof.
  destruct (retry_replayed next next' r w now x d key hash c x' Ha Hq Hn Hst Hb Hcan Hpl) as (d' & Hw & Hr).
  destruct (Hr r' now' y Ha' Hnow) as (a & Hw' & Hrep). eauto.
Qed.

(** The same request for another resource of the same route. *)
Definition with_path (path : string) (r : Request) : Request :=
  mkRequest (rq_Method r) path (rq_Query r) (rq_Header r) (rq_Body r) (rq_Identity r) (rq_RequestID r).

Lemma admit_path r w w' key hash path pattern :
  admission m r w = Admit key hash -> im_routes m = Some pattern -> pattern (with_path path r) = pattern r ->
  admission m (with_path path r) w' = Admit key hash.
Proof.
  intros Ha Hm Hp. unfold admission in *. cbn [rq_Identity rq_Method rq_Header rq_Body with_path].
  destruct (rq_Identity r) as [current|]; [|done]. destruct (_ || _); [done|].
  destruct (idempotencyCredential current) as [[[? ?] ?]|]; [|done].
  destruct (negb (im_store m)); [done|]. destruct (Header_Values _ _) as [|[|ch v] rest]; [done..|].
  destruct (_ || _); [done|]. cbv zeta in *. rewrite Hm in *. rewrite Hp. destruct (bool_decide (_ = "")); [done|].
  destruct (rq_Body r); [|done]. exact Ha.
Qed.

(** The fingerprint covers the route pattern and not the path: a request for another resource of the
    same route that repeats a key is not refused as a reuse of the key; it is answered with the
    response for the first resource, and its mutation does not run. *)
Theorem other_resource_replayed (next next' : Handler X) r w now x d key hash c x' path pattern now' y
    (Ha : admission m r w = Admit key hash) (Hq : acquirable key hash now d)
    (Hn : next r newCapturedResponse x = (Some c, x')) (Hst : 100 <= statusCode c < 500)
    (Hb : rw_body c <> "") (Hcan : canonical_header (rw_header c))
    (Hpl : plain_header (sr_Headers (storedResponse c (rq_RequestID r))) = true)
    (Hm : im_routes m = Some pattern) (Hp : pattern (with_path path r) = pattern r)
    (Hnow : now' < now + IdempotencyRetention) :
  exists d' a, wrap m next r w now x d = (Answered (plain_answer (writeTo c w)), x', d') /\
    wrap m next' (with_path path r) (fresh_writer (with_path path r)) now' y d' = (Answered a, y, d') /\
    replays c (with_path path r) a.
Proof.
  destruct (retry_replayed next next' r w now x d key hash c x' Ha Hq Hn Hst Hb Hcan Hpl) as (d' & Hw & Hr).
  destruct (Hr (with_path path r) now' y (admit_path _ _ _ _ _ _ _ Ha Hm Hp) Hnow) as (a & Hw' & Hrep). eauto.
Qed.

(** C40: a response without a body blocks its key: the table requires a body of a completed record, and the
    middleware stores an empty one as NULL.  The handler has run, the client gets an internal error,
    and every retry in the next 24 hours is told that the request is in progress. *)
Theorem empty_response_blocks_key (next next' : Handler X) r w now x d key hash c x' r' w' now' y
    (Ha : admission m r w = Admit key hash) (Hq : acquirable key hash now d)
    (Hn : next r newCapturedResponse x = (Some c, x')) (Hst : statusCode c < 500) (Hb : rw_body c = "")
    (Ha' : admission m r' w' = Admit key hash) (Hnow : now' < now + IdempotencyRetention) :
  exists d' a, wrap m next r w now x d = (Answered (writeIdempotencyInternalError w r), x', d') /\
    wrap m next' r' w' now' y d' = (Answered a, y, d') /\ pb_Code <$> an_Problem a = Some "IDEMPOTENCY_IN_PROGRESS".
Proof.
  destruct (admit_Admit _ _ _ _ _ Ha) as (Hv & Hl & Hs).
  destruct (settle_empty key hash now d r c (processing_checks key hash now Hv Hl (Hs _ _)) Hst Hb) as [e He].
  rewrite (wrap_first _ _ _ _ _ _ _ _ _ _ Ha Hq Hn), He. do 2 eexists. split.
  - unfold settled_reply. cbn [kept is_ok negb fst snd]. by assert ((statusCode c <? 500) = true) as -> by lia.
  - split; [eapply wrap_taken; [done|apply acquired_record|done|]|].
    + unfold claim_existing. rewrite (bool_decide_eq_true_2 (rr_request_hash _ = _)) by done. reflexivity.
    + reflexivity.
Qed.

(** A failed mutation can be retried: when the handler panics or answers with a server error, its
    outcome reaches the client, and the next request under the key, the same or another one, runs its
    handler. *)
Theorem failed_request_reruns (next next' : Handler X) r w now x d key hash captured x' r' w' now' y hash' captured' y'
    (Ha : admission m r w = Admit key hash) (Hq : acquirable key hash now d)
    (Hn : next r newCapturedResponse x = (captured, x')) (Hk : kept captured = false)
    (Ha' : admission m r' w' = Admit key hash') (Hn' : next' r' newCapturedResponse y = (captured', y')) :
  exists d', wrap m next r w now x d = (settled_reply w r captured (Ok tt), x', d') /\ (wrap m next' r' w' now' y d').1.2 = y'.
Proof.
  rewrite (wrap_first _ _ _ _ _ _ _ _ _ _ Ha Hq Hn).
  assert (settle key r captured (acquired_db key hash now d) =
    (Ok tt, delete_record key (fun r => rr_state r == StateProcessing) (acquired_db key hash now d))) as ->.
  { destruct (settle _ _ _ _) as [res d'] eqn:Hs. destruct (settle_cases _ _ _ _ _ _ Hs); [done|congruence|congruence]. }
  eexists. split; [done|]. cbn [snd]. unfold delete_record. rewrite acquired_record. cbn [rr_state new_for new_record].
  rewrite bool_decide_eq_true_2 by done. rewrite (wrap_first next' r' w' now' y _ key hash' captured' y' Ha'); [done| |exact Hn'].
  split; [|apply Hq]. intros row Hrow. exfalso. unfold record_at in Hrow. cbn [set_records idempotency_records] in Hrow.
  by rewrite lookup_delete_eq in Hrow.
Qed.
End requests.

(** ** Examples *)

#[local] Instance plain_json : HeaderJson.
Proof. refine {| headers_jsonb := Some |}. done. Defined.

Definition demo_middleware : idempotencyMiddleware :=
  mkIdempotencyMiddleware true (Some (fun _ => "POST /api/v1/tasks/{number}/acceptance-criteria")).
Definition demo_request (path requestID : string) : Request :=
  mkRequest MethodPost path ∅ {["Content-Type" := ["application/json"]; "Idempotency-Key" := ["key-1"]]}
    (Some "{}") (Some (mkRequestIdentity 5%N AuthenticationMethodAPIToken (Some 9%N) None)) requestID.
Definition demo_first : Request := demo_request "/api/v1/tasks/7/acceptance-criteria" "request-1".
Definition demo_retry : Request := demo_request "/api/v1/tasks/7/acceptance-criteria" "request-2".
Definition demo_created : ResponseWriter :=
  mkResponseWriter {["Content-Type" := ["application/json"]; "Etag" := ["1"]]} 201 "{}".
Definition demo_no_content : ResponseWriter := mkResponseWriter ∅ StatusNoContent "".
(** The application counts the mutations. *)
Definition demo_handler (c : option ResponseWriter) : Handler Z := fun _ _ n => (c, n + 1).
Definition demo_records : IdempotencyDB := mkIdempotencyDB ∅ {[5%N]} {[9%N]} ∅.

Definition demo_key : IdempotencyKey :=
  mkIdempotencyKey 5%N AuthenticationMethodAPIToken 9%N (Some 9%N) None MethodPost "/api/v1/tasks/{number}/acceptance-criteria" "key-1".
Definition demo_hash : string := idempotencyFingerprint demo_first (ik_RoutePattern demo_key) "{}".

Lemma demo_admitted : admission demo_middleware demo_first (fresh_writer demo_first) = Admit demo_key demo_hash.
Proof. vm_compute. reflexivity. Qed.
Lemma demo_retry_admitted : admission demo_middleware demo_retry (fresh_writer demo_retry) = Admit demo_key demo_hash.
Proof. vm_compute. reflexivity. Qed.
Lemma demo_acquirable : acquirable demo_key demo_hash 1000 demo_records.
Proof. split; [|reflexivity]. intros row. unfold record_at. cbn. rewrite lookup_empty. discriminate. Qed.
Lemma demo_created_canonical : canonical_header (rw_header demo_created).
Proof. apply map_Forall_insert_2; [reflexivity|]. apply map_Forall_singleton. reflexivity. Qed.

Lemma fingerprint_identifies_witness :
  (rq_Method demo_first = rq_Method demo_retry /\ "/r" = "/r" /\
    Values_Encode (rq_Query demo_first) = Values_Encode (rq_Query demo_retry) /\
    TrimSpace (Header_Get (rq_Header demo_first) "Content-Type") = TrimSpace (Header_Get (rq_Header demo_retry) "Content-Type") /\
    "{}" = "{}") \/
  (fingerprint_message demo_first "/r" "{}" <> fingerprint_message demo_retry "/r" "{}" /\
    sha256 (fingerprint_message demo_first "/r" "{}") = sha256 (fingerprint_message demo_retry "/r" "{}")).
Proof. apply fingerprint_identifies; vm_compute; reflexivity. Defined.

Lemma retry_replays_witness :
  exists d' a, wrap demo_middleware (demo_handler (Some demo_created)) demo_first (fresh_writer demo_first) 1000 0 demo_records =
      (Answered (plain_answer (writeTo demo_created (fresh_writer demo_first))), 1, d') /\
    wrap demo_middleware (demo_handler None) demo_retry (fresh_writer demo_retry) 5000 1 d' = (Answered a, 1, d') /\
    replays demo_created demo_retry a.
Proof.
  apply (retry_replays demo_middleware _ _ _ _ _ _ _ _ _ _ _ demo_retry 5000 1 demo_admitted demo_acquirable eq_refl);
    [vm_compute; split; congruence|discriminate|exact demo_created_canonical|vm_compute; reflexivity|exact demo_retry_admitted|reflexivity].
Defined.

Lemma other_resource_replayed_witness :
  exists d' a, wrap demo_middleware (demo_handler (Some demo_created)) demo_first (fresh_writer demo_first) 1000 0 demo_records =
      (Answered (plain_answer (writeTo demo_created (fresh_writer demo_first))), 1, d') /\
    wrap demo_middleware (demo_handler None) (with_path "/api/v1/tasks/8/acceptance-criteria" demo_first)
      (fresh_writer (with_path "/api/v1/tasks/8/acceptance-criteria" demo_first)) 5000 1 d' = (Answered a, 1, d') /\
    replays demo_created (with_path "/api/v1/tasks/8/acceptance-criteria" demo_first) a.
Proof.
  apply (other_resource_replayed demo_middleware _ _ _ _ _ _ _ _ _ _ _ "/api/v1/tasks/8/acceptance-criteria"
    (fun _ => "POST /api/v1/tasks/{number}/acceptance-criteria") 5000 1 demo_admitted demo_acquirable eq_refl);
    [vm_compute; split; congruence|discriminate|exact demo_created_canonical|vm_compute; reflexivity|reflexivity|reflexivity|reflexivity].
Defined.

Lemma empty_response_blocks_key_witness :
  exists d' a, wrap demo_middleware (demo_handler (Some demo_no_content)) demo_first (fresh_writer demo_first) 1000 0 demo_records =
      (Answered (writeIdempotencyInternalError (fresh_writer demo_first) demo_first), 1, d') /\
    wrap demo_middleware (demo_handler None) demo_retry (fresh_writer demo_retry) 5000 1 d' = (Answered a, 1, d') /\
    pb_Code <$> an_Problem a = Some "IDEMPOTENCY_IN_PROGRESS".
Proof.
  apply (empty_response_blocks_key demo_middleware _ _ _ _ _ _ _ _ _ demo_no_content _ demo_retry (fresh_writer demo_retry) 5000 1
    demo_admitted demo_acquirable eq_refl); [reflexivity|reflexivity|exact demo_retry_admitted|reflexivity].
Defined.

Lemma failed_request_reruns_witness :
  exists d', wrap demo_middleware (demo_handler None) demo_first (fresh_writer demo_first) 1000 0 demo_records = (Panicked, 1, d') /\
    (wrap demo_middleware (demo_handler (Some demo_created)) demo_retry (fresh_writer demo_retry) 5000 1 d').1.2 = 2.
Proof.
  exact (failed_request_reruns demo_middleware (demo_handler None) (demo_handler (Some demo_created)) demo_first (fresh_writer demo_first)
    1000 0 demo_records demo_key demo_hash None 1 demo_retry (fresh_writer demo_retry) 5000 1 demo_hash (Some demo_created) 2
    demo_admitted demo_acquirable eq_refl eq_refl demo_retry_admitted eq_refl).
Defined.

(** *** Schedules of concurrent requests *)

Inductive Action :=
| Arrive (i : N) (r : Request)
| DoClaim (i : N)
| Execute (i : N) (captured : option ResponseWriter)
| Settle (i : N)
| Tick (now' : Time).

Definition act (s : System) (a : Action) : System :=
  match a with
  | Arrive i r =>
      match sy_procs s !! i, admission demo_middleware r (fresh_writer r) with
      | None, Admit key hash => put i (mkProc r (fresh_writer r) key hash Claiming) (sy_db s) s
      | _, _ => s
      end
  | DoClaim i =>
      match sy_procs s !! i with
      | Some p =>
          let '(c, d') := IdempotencyStore_Claim (pr_key p) (pr_hash p) (sy_now s) (sy_now s + IdempotencyRetention) (sy_db s) in
          match pr_stage p with
          | Claiming => put i (at_stage (claimed_stage p (sy_now s) c) p) d' s
          | _ => s
          end
      | None => s
      end
  | Execute i captured =>
      match sy_procs s !! i with
      | Some p =>
          match pr_stage p with
          | Executing t => if decide (sy_now s < t + IdempotencyRetention) then
              mkSystem (sy_db s) (sy_now s) (<[i := at_stage (Served t captured) p]> (sy_procs s))
                (sy_log s ++ [mkExecution (pr_key p) (pr_hash p) (rq_RequestID (pr_request p)) t captured]) else s
          | _ => s
          end
      | None => s
      end
  | Settle i =>
      match sy_procs s !! i with
      | Some p =>
          match pr_stage p with
          | Served t captured =>
              let '(res, d') := settle (pr_key p) (pr_request p) captured (sy_db s) in
              if decide (sy_now s < t + IdempotencyRetention) then
                put i (at_stage (Replied (settled_reply (pr_writer p) (pr_request p) captured res)) p) d' s else s
          | _ => s
          end
      | None => s
      end
  | Tick now' => if decide (sy_now s <= now') then mkSystem (sy_db s) now' (sy_procs s) (sy_log s) else s
  end.

Lemma act_reachable s a : reachable_system demo_middleware s -> reachable_system demo_middleware (act s a).
Proof.
  intros Hs. destruct a; cbn [act]; repeat (case_match; try exact Hs); eapply reach_step; try exact Hs.
  - by eapply step_arrive.
  - by eapply step_claim.
  - by eapply step_execute.
  - by eapply step_settle.
  - by apply step_tick.
Qed.

Definition demo_system (l : list Action) : System := foldl act (mkSystem demo_records 1000 ∅ []) l.
Lemma demo_reachable l : reachable_system demo_middleware (demo_system l).
Proof.
  unfold demo_system. assert (reachable_system demo_middleware (mkSystem demo_records 1000 ∅ [])) as Hs by (by apply reach_initial).
  revert Hs. generalize (mkSystem demo_records 1000 ∅ []). induction l as [|a l IH]; intros s Hs; [done|].
  cbn [foldl]. by apply IH, act_reachable.
Qed.

(** Two requests under one key at the same time, and one on the next day. *)
Definition demo_schedule : list Action :=
  [Arrive 1 demo_first; Arrive 2 demo_retry; DoClaim 1; Execute 1 (Some demo_created); Settle 1; DoClaim 2;
   Tick (1000 + IdempotencyRetention); Arrive 3 demo_retry; DoClaim 3; Execute 3 (Some demo_created)].

Example demo_log : (fun e => (ex_requestID e, ex_claimed e)) <$> sy_log (demo_system demo_schedule) =
  [("request-1", 1000); ("request-2", 1000 + IdempotencyRetention)].
Proof. vm_compute. reflexivity. Qed.

Definition demo_execution (n : nat) : Execution :=
  default (mkExecution demo_key "" "" 0 None) (sy_log (demo_system demo_schedule) !! n).

Lemma mutation_runs_once_witness :
  ex_claimed (demo_execution 0) + IdempotencyRetention <= ex_claimed (demo_execution 1).
Proof.
  apply (proj1 (mutation_runs_once demo_middleware _ (demo_reachable demo_schedule)) 0%nat 1%nat);
    [vm_compute; reflexivity|vm_compute; reflexivity|constructor|vm_compute; reflexivity|vm_compute; reflexivity].
Defined.

Definition demo_repeated : System := demo_system (take 6 demo_schedule).
Definition demo_proc : Proc := default (mkProc demo_retry (fresh_writer demo_retry) demo_key "" Claiming) (sy_procs demo_repeated !! 2%N).
Definition demo_replay : Answer :=
  match pr_stage demo_proc with Replied (Answered a) => a | _ => plain_answer newCapturedResponse end.

Lemma replay_is_original_witness :
  exists e c headers, e ∈ sy_log demo_repeated /\ record_key (ex_key e) = record_key (pr_key demo_proc) /\
    ex_hash e = pr_hash demo_proc /\ ex_outcome e = Some c /\ statusCode c < 500 /\
    headers_jsonb (sr_Headers (storedResponse c (ex_requestID e))) = Some headers /\
    demo_replay = replayStoredResponse (pr_writer demo_proc) (pr_request demo_proc)
      (mkStoredResponse (statusCode c) headers (append_nil (rw_body c))).
Proof.
  apply (replay_is_original demo_middleware demo_repeated 2%N demo_proc demo_replay (demo_reachable _));
    vm_compute; reflexivity.
Defined.
