(* ===== verification/Access.v ===== *)
(** * Personal API tokens

    internal/access/domain.go and service.go, the users of internal/domain/user.go, and the store
    internal/store/access_store.go with the table api_tokens of migrations 0012 and 0017. *)

From Stdlib Require Import Ascii.
From stdpp Require Import base tactics strings gmap list numbers sorting.
From S2P Require Import Prelude Actors State Http.

(** ** Users *)

Definition UserRole := string.
Definition PlatformRole := string.
Definition PlatformRoleAdmin : PlatformRole := "ADMIN".
Definition PlatformRoleMember : PlatformRole := "MEMBER".
Definition AccessStatus := string.
Definition AccessStatusPending : AccessStatus := "PENDING".
Definition AccessStatusApproved : AccessStatus := "APPROVED".
Definition AccessStatusRejected : AccessStatus := "REJECTED".

Record User := mkUser {
  u_ID : UUID;
  u_Name : string;
  u_Email : option string;
  u_AvatarURL : option string;
  u_PlatformRole : PlatformRole;
  u_AccessStatus : AccessStatus;
  u_Roles : list UserRole;
  u_Active : bool;
  u_CreatedAt : Time;
  u_UpdatedAt : Time;
}.

Definition CanUseApplication (u : User) : bool := u_Active u && (u_AccessStatus u == AccessStatusApproved).

Definition CanChangeAccessStatus (from to : AccessStatus) : bool :=
  if from == to then true
  else ((from == AccessStatusPending) && ((to == AccessStatusApproved) || (to == AccessStatusRejected))) ||
       ((from == AccessStatusRejected) && (to == AccessStatusApproved)).

Definition HasRole (u : User) (r : UserRole) : bool := existsb (fun held => held == r) (u_Roles u).

(** ** Tokens *)

Definition Scope := string.
Definition ScopeWorkRead : Scope := "work:read".
Definition ScopeWorkExecute : Scope := "work:execute".
Definition ScopeWorkWrite : Scope := "work:write".

Definition SecretSize : Z := 32.
Definition LastUsedTouchInterval : Z := 5 * 60 * 1000000.

Record Token := mkToken {
  tk_ID : UUID;
  tk_UserID : UUID;
  tk_Name : string;
  tk_SecretHash : string;
  tk_DisplayPrefix : string;
  tk_Scopes : list Scope;
  tk_ExpiresAt : Time;
  tk_LastUsedAt : option Time;
  tk_RevokedAt : option Time;
  tk_RevokedByUserID : option UUID;
  tk_CreatedAt : Time;
}.

(** The metadata of a token: all but the hash of its secret. *)
Record TokenMetadata := mkTokenMetadata {
  tm_ID : UUID;
  tm_UserID : UUID;
  tm_Name : string;
  tm_DisplayPrefix : string;
  tm_Scopes : list Scope;
  tm_ExpiresAt : Time;
  tm_LastUsedAt : option Time;
  tm_RevokedAt : option Time;
  tm_RevokedByUserID : option UUID;
  tm_CreatedAt : Time;
}.
Definition Token_Metadata (t : Token) : TokenMetadata :=
  mkTokenMetadata (tk_ID t) (tk_UserID t) (tk_Name t) (tk_DisplayPrefix t) (tk_Scopes t) (tk_ExpiresAt t)
    (tk_LastUsedAt t) (tk_RevokedAt t) (tk_RevokedByUserID t) (tk_CreatedAt t).

Record IssuedToken := mkIssuedToken { it_Token : TokenMetadata; it_Value : string }.

Record Principal := mkPrincipal {
  pp_User : User;
  pp_Method : AuthenticationMethod;
  pp_TokenID : option UUID;
  pp_TokenName : string;
  pp_AgentRunID : option UUID;
  pp_Scopes : list Scope;
}.

Definition CredentialID (p : Principal) : option UUID :=
  if pp_Method p == AuthenticationMethodAPIToken then pp_TokenID p
  else if pp_Method p == AuthenticationMethodAgentDelegate then pp_AgentRunID p
  else None.

Definition HasScope (p : Principal) (required : Scope) : bool :=
  existsb (fun scope =>
    (scope == required) ||
    ((required == ScopeWorkRead) && ((scope == ScopeWorkExecute) || (scope == ScopeWorkWrite))) ||
    ((required == ScopeWorkExecute) && (scope == ScopeWorkWrite))) (pp_Scopes p).

Record IssueRequest := mkIssueRequest {
  is_UserID : UUID;
  is_Name : string;
  is_Scopes : list Scope;
  is_Lifetime : Z;
}.

Definition HashSecret (secret : string) : string := sha256 secret.

(** ** base64.RawURLEncoding *)

Module Base64.
Definition alphabet : list ascii :=
  String.list_ascii_of_string "ABCDEFGHIJKLMNOPQRSTUVWXYZabcdefghijklmnopqrstuvwxyz0123456789-_".

Definition enc6 (z : Z) : ascii := nth (Z.to_nat z) alphabet "A"%char.

Fixpoint index (c : ascii) (l : list ascii) : option Z :=
  match l with
  | [] => None
  | a :: l => if a == c then Some 0 else z ← index c l; Some (z + 1)
  end.
Definition dec6 (c : ascii) : option Z := index c alphabet.

(** Three bytes are four digits of six bits; the last group has two or three digits. *)
Fixpoint digits (l : list Z) : list Z :=
  match l with
  | a :: b :: c :: l => a / 4 :: a mod 4 * 16 + b / 16 :: b mod 16 * 4 + c / 64 :: c mod 64 :: digits l
  | [a; b] => [a / 4; a mod 4 * 16 + b / 16; b mod 16 * 4]
  | [a] => [a / 4; a mod 4 * 16]
  | [] => []
  end.
Definition encode (l : list Z) : list ascii := enc6 <$> digits l.

(** The decoder skips line ends and ignores the bits that the last group leaves over. *)
Fixpoint decode_digits (l : list Z) : option (list Z) :=
  match l with
  | [] => Some []
  | [_] => None
  | [w; x] => Some [w * 4 + x / 16]
  | [w; x; y] => Some [w * 4 + x / 16; x mod 16 * 16 + y / 4]
  | w :: x :: y :: z :: l =>
      rest ← decode_digits l; Some (w * 4 + x / 16 :: x mod 16 * 16 + y / 4 :: y mod 4 * 64 + z :: rest)
  end.
Definition line_end (c : ascii) : bool := (code c =? 10) || (code c =? 13).
Definition decode (l : list ascii) : option (list Z) :=
  ds ← mapM dec6 (filter (fun c => line_end c = false) l); decode_digits ds.

Definition EncodedLen (n : Z) : Z := n / 3 * 4 + (n mod 3 * 8 + 5) / 6.
End Base64.

Definition bytes_string (l : list Z) : string := String.string_of_list_ascii (byte <$> l).
Definition EncodeToString (s : string) : string := String.string_of_list_ascii (Base64.encode (byte_codes s)).
Definition DecodeString (s : string) : option string := bytes_string <$> Base64.decode (String.list_ascii_of_string s).

(** [id[:]] and [uuid.FromBytes]: big-endian. *)
Fixpoint be_bytes (n : nat) (z : Z) : list Z :=
  match n with O => [] | S n => (z / 256 ^ Z.of_nat n) mod 256 :: be_bytes n z end.
Definition be_value (l : list Z) : Z := foldl (fun acc b => acc * 256 + b) 0 l.
Definition uuid_bytes (id : UUID) : string := bytes_string (be_bytes 16 (Z.of_N id)).
Definition uuid_FromBytes (s : string) : result UUID :=
  if Z.of_nat (String.length s) =? 16 then Ok (Z.to_N (be_value (byte_codes s))) else Err ErrOther.

(** ** The service *)

Definition tokenPrefix : string := "bb_pat_".
Definition Day : Z := 24 * Hour.
Definition allowedLifetimes : list Z := [30 * Day; 90 * Day; 365 * Day].

Definition FormatToken (id : UUID) (secret : string) : string :=
  tokenPrefix +:+ EncodeToString (uuid_bytes id) +:+ "_" +:+ EncodeToString secret.

(** [strings.CutPrefix] *)
Fixpoint CutPrefix (s prefix : string) : option string :=
  match prefix, s with
  | EmptyString, _ => Some s
  | String p prefix, String c s => if c == p then CutPrefix s prefix else None
  | _, _ => None
  end.

Lemma CutPrefix_app p s : CutPrefix (p +:+ s) p = Some s.
Proof.
  induction p as [|c p IH]; [by destruct s|]. change (String c p +:+ s) with (String c (p +:+ s)). cbn [CutPrefix].
  by rewrite bool_decide_eq_true_2.
Qed.

Definition ParseToken (raw : string) : result (UUID * string) :=
  match CutPrefix raw tokenPrefix with
  | None => Err ErrTokenInvalid
  | Some encoded =>
      let idLength := Z.to_nat (Base64.EncodedLen 16) in
      let secretLength := Z.to_nat (Base64.EncodedLen SecretSize) in
      if bool_decide (String.length encoded <> (idLength + 1 + secretLength)%nat) ||
         bool_decide (String.get idLength encoded <> Some "_"%char) then Err ErrTokenInvalid
      else match DecodeString (String.substring 0 idLength encoded) with
      | None => Err ErrTokenInvalid
      | Some idBytes =>
          if bool_decide (String.length idBytes <> 16%nat) then Err ErrTokenInvalid
          else match uuid_FromBytes idBytes with
          | Err _ => Err ErrTokenInvalid
          | Ok id =>
              match DecodeString (String.substring (idLength + 1) secretLength encoded) with
              | None => Err ErrTokenInvalid
              | Some secret => if Z.of_nat (String.length secret) =? SecretSize then Ok (id, secret) else Err ErrTokenInvalid
              end
          end
      end
  end.

Definition displayPrefix (id : UUID) : string := tokenPrefix +:+ String.substring 0 8 (EncodeToString (uuid_bytes id)).

Definition string_le (a b : string) : Prop := String.leb a b = true.
#[global] Instance string_le_dec : RelDecision string_le.
Proof. intros a b. unfold string_le. apply _. Defined.

(** The loop over the requested scopes, into the set of those present. *)
Fixpoint collect_scopes (values : list Scope) (present : gset Scope) : result (gset Scope) :=
  match values with
  | [] => Ok present
  | scope :: values =>
      if bool_decide (scope ∈ [ScopeWorkRead; ScopeWorkExecute; ScopeWorkWrite]) then collect_scopes values ({[scope]} ∪ present)
      else Err ErrInvalidScope
  end.

Definition normalizeScopes (values : list Scope) : result (list Scope) :=
  match values with
  | [] => Err ErrInvalidScope
  | _ =>
      present ← collect_scopes values ∅;
      let present := if bool_decide (ScopeWorkWrite ∈ present) then {[ScopeWorkRead]} ∪ present else present in
      let present := if bool_decide (ScopeWorkExecute ∈ present) then {[ScopeWorkRead]} ∪ present else present in
      Ok (merge_sort string_le (elements (present : gset Scope)))
  end.

(** ** The store *)

Record AccessDB := mkAccessDB {
  api_tokens : gmap UUID Token;
  access_users : gmap UUID User;
}.
Definition AccessM (X : Type) : Type := St AccessDB X.
Definition set_tokens (x : gmap UUID Token) (d : AccessDB) : AccessDB := mkAccessDB x (access_users d).

Definition api_tokens_checks (t : Token) : bool :=
  negb (GoStrings.btrim_empty (tk_Name t)) && (char_length (tk_Name t) <=? 100) &&
  (Z.of_nat (String.length (tk_SecretHash t)) =? 32) && negb (GoStrings.btrim_empty (tk_DisplayPrefix t)) &&
  forallb (fun s => bool_decide (s ∈ [ScopeWorkRead; ScopeWorkExecute; ScopeWorkWrite])) (tk_Scopes t) &&
  negb (tk_Scopes t == []) && (tk_CreatedAt t <? tk_ExpiresAt t) &&
  Bool.eqb (present (tk_RevokedAt t)) (present (tk_RevokedByUserID t)).

Definition user_known (o : option UUID) (d : AccessDB) : bool :=
  match o with Some u => present (access_users d !! u) | None => true end.
Definition token_fks (t : Token) (d : AccessDB) : bool :=
  user_known (Some (tk_UserID t)) d && user_known (tk_RevokedByUserID t) d.

(** The primary key and the unique hash. *)
Definition token_unique (t : Token) (d : AccessDB) : bool :=
  negb (present (api_tokens d !! tk_ID t)) &&
  bool_decide (map_Forall (fun _ t' => tk_SecretHash t' <> tk_SecretHash t) (api_tokens d)).

Definition CreateToken (token : Token) : AccessM unit :=
  st_fail (negb (api_tokens_checks token)) ErrOther;;
  ok ← st_get (fun d => token_unique token d && token_fks token d);
  st_fail (negb ok) ErrOther;;
  st_mod (fun d => set_tokens (<[tk_ID token := token]> (api_tokens d)) d).

(** The join with the users. *)
Definition GetToken (id : UUID) : AccessM (Token * User) :=
  row ← st_get (fun d => t ← api_tokens d !! id; u ← access_users d !! tk_UserID t; Some (t, u));
  st_or_err row ErrTokenNotFound.

(** [ORDER BY created_at DESC, id DESC] *)
Definition newer (a b : Token) : Prop :=
  tk_CreatedAt b < tk_CreatedAt a \/ tk_CreatedAt a = tk_CreatedAt b /\ (tk_ID b <= tk_ID a)%N.
#[global] Instance newer_dec : RelDecision newer.
Proof. intros a b. unfold newer. apply _. Defined.
Definition AccessStore_ListUserTokens (userID : UUID) : AccessM (list Token) :=
  st_get (fun d => merge_sort newer (filter (fun t => tk_UserID t = userID) (snd <$> map_to_list (api_tokens d)))).
Definition AccessStore_ListAllTokens : AccessM (list (Token * User)) :=
  st_get (fun d => t ← merge_sort newer (snd <$> map_to_list (api_tokens d));
                   match access_users d !! tk_UserID t with Some u => [(t, u)] | None => [] end).

Definition with_revocation (now : Time) (by_ : UUID) (t : Token) : Token :=
  mkToken (tk_ID t) (tk_UserID t) (tk_Name t) (tk_SecretHash t) (tk_DisplayPrefix t) (tk_Scopes t) (tk_ExpiresAt t)
    (tk_LastUsedAt t) (Some now) (Some by_) (tk_CreatedAt t).
Definition with_last_used (now : Time) (t : Token) : Token :=
  mkToken (tk_ID t) (tk_UserID t) (tk_Name t) (tk_SecretHash t) (tk_DisplayPrefix t) (tk_Scopes t) (tk_ExpiresAt t)
    (Some now) (tk_RevokedAt t) (tk_RevokedByUserID t) (tk_CreatedAt t).

(** [UPDATE api_tokens SET revoked_at, revoked_by_user_id WHERE id AND <condition> AND revoked_at IS NULL] *)
Definition revoke_where (cond : Token -> bool) (tokenID by_ : UUID) (now : Time) : AccessM unit :=
  row ← st_get (fun d => t ← api_tokens d !! tokenID; if cond t && negb (present (tk_RevokedAt t)) then Some t else None);
  t ← st_or_err row ErrTokenNotFound;
  known ← st_get (user_known (Some by_));
  st_fail (negb known) ErrOther;;
  st_mod (fun d => set_tokens (<[tokenID := with_revocation now by_ t]> (api_tokens d)) d).
Definition RevokeToken (tokenID actorID : UUID) (now : Time) : AccessM unit :=
  revoke_where (fun t => tk_UserID t == actorID) tokenID actorID now.
Definition RevokeTokenAsAdmin (tokenID adminID : UUID) (now : Time) : AccessM unit :=
  revoke_where (fun _ => true) tokenID adminID now.

Definition touch_due (before : Time) (t : Token) : bool :=
  match tk_LastUsedAt t with None => true | Some u => u <? before end.
Definition TouchToken (tokenID : UUID) (now before : Time) : AccessM unit :=
  st_mod (fun d => match api_tokens d !! tokenID with
                   | Some t => if touch_due before t then set_tokens (<[tokenID := with_last_used now t]> (api_tokens d)) d else d
                   | None => d
                   end).

(** ** Operations *)

(** The generator of secrets and [uuid.New] are arguments. *)
Definition Issue (tokenID : UUID) (generated : result string) (now : Time) (request : IssueRequest) : AccessM IssuedToken :=
  let name := TrimSpace (is_Name request) in
  st_fail ((name == "") || (100 <? Z.of_nat (String.length name))) ErrInvalidName;;
  st_fail (negb (bool_decide (is_Lifetime request ∈ allowedLifetimes))) ErrInvalidLifetime;;
  scopes ← st_lift (normalizeScopes (is_Scopes request));
  secret ← st_lift generated;
  st_fail (negb (Z.of_nat (String.length secret) =? SecretSize)) ErrOther;;
  let token := mkToken tokenID (is_UserID request) name (HashSecret secret) (displayPrefix tokenID) scopes
    (now + is_Lifetime request) None None None now in
  CreateToken token;;
  mret (mkIssuedToken (Token_Metadata token) (FormatToken tokenID secret)).

Definition Authenticate (raw : string) (now : Time) : AccessM Principal :=
  parsed ← st_map_err (fun _ => ErrTokenInvalid) (st_lift (ParseToken raw));
  found ← st_map_err (fun e => if errors_Is e ErrTokenNotFound then ErrTokenInvalid else e) (GetToken parsed.1);
  let '(token, user) := found in
  st_fail (negb (Z.of_nat (String.length (tk_SecretHash token)) =? 32) || (HashSecret parsed.2 != tk_SecretHash token)) ErrTokenInvalid;;
  st_fail (present (tk_RevokedAt token)) ErrTokenRevoked;;
  st_fail (negb (Time_Before now (tk_ExpiresAt token))) ErrTokenExpired;;
  st_fail (negb (CanUseApplication user)) ErrUserInactive;;
  TouchToken (tk_ID token) now (now - LastUsedTouchInterval);;
  mret (mkPrincipal user AuthenticationMethodAPIToken (Some (tk_ID token)) (tk_Name token) None (tk_Scopes token)).

Definition ListUserTokens (userID : UUID) : AccessM (list TokenMetadata) :=
  tokens ← AccessStore_ListUserTokens userID; mret (Token_Metadata <$> tokens).
Definition Service_Revoke (tokenID actorID : UUID) (now : Time) : AccessM unit := RevokeToken tokenID actorID now.
Definition ListAllTokens : AccessM (list (Token * User)) := AccessStore_ListAllTokens.
Definition RevokeAsAdmin (tokenID adminID : UUID) (now : Time) : AccessM unit := RevokeTokenAsAdmin tokenID adminID now.
