(* ===== verification/AccessProperties.v ===== *)
(** * Properties of the API tokens

    A token is accepted from its issue to its expiry or revocation, by nobody without its secret, with
    the rights that were asked for. *)

From Stdlib Require Import Ascii.
From stdpp Require Import base tactics strings gmap list numbers sorting.
From S2P Require Import Prelude Actors State Http Access.

(** ** Texts of tokens *)

Definition is_byte (z : Z) : Prop := 0 <= z < 256.
Definition is_digit6 (z : Z) : Prop := 0 <= z < 64.

(** What holds of every number below [n] by inspection. *)
Lemma below_forall (n : nat) (P : Z -> bool) z :
  forallb (fun k => P (Z.of_nat k)) (seq 0 n) = true -> 0 <= z < Z.of_nat n -> P z = true.
Proof.
  intros Hall Hz. rewrite forallb_forall in Hall. rewrite <- (Z2Nat.id z) by lia. apply Hall, in_seq. lia.
Qed.

Lemma dec_enc z : is_digit6 z -> Base64.dec6 (Base64.enc6 z) = Some z /\ Base64.line_end (Base64.enc6 z) = false.
Proof.
  intros Hz. pose proof (below_forall 64 (fun z => (Base64.dec6 (Base64.enc6 z) == Some z) && negb (Base64.line_end (Base64.enc6 z))) z) as H.
  cbv beta in H. specialize (H ltac:(vm_compute; reflexivity) ltac:(unfold is_digit6 in Hz; lia)).
  apply andb_true_iff in H as [H1 H2]. split; [by apply bool_decide_eq_true in H1|by apply negb_true_iff in H2].
Qed.

Lemma list_three {A} (P : list A -> Prop) :
  P [] -> (forall a, P [a]) -> (forall a b, P [a; b]) -> (forall a b c l, P l -> P (a :: b :: c :: l)) -> forall l, P l.
Proof.
  intros H0 H1 H2 H3. fix IH 1. intros [|a [|b [|c l]]]; [exact H0|apply H1|apply H2|apply H3, IH].
Qed.

Lemma digits_range l : Forall is_byte l -> Forall is_digit6 (Base64.digits l).
Proof.
  unfold is_byte, is_digit6. induction l as [|a|a b|a b c l IH] using list_three; intros Hl; decompose_Forall_hyps; cbn [Base64.digits];
    repeat constructor; try (by apply IH); Z.div_mod_to_equations; lia.
Qed.

Lemma decode_digits_digits l : Forall is_byte l -> Base64.decode_digits (Base64.digits l) = Some l.
Proof.
  unfold is_byte. induction l as [|a|a b|a b c l IH] using list_three; intros Hl; decompose_Forall_hyps; cbn [Base64.digits Base64.decode_digits];
    [done| | |rewrite IH by done; cbn]; repeat f_equal; Z.div_mod_to_equations; lia.
Qed.

Lemma base64_roundtrip l : Forall is_byte l -> Base64.decode (Base64.encode l) = Some l.
Proof.
  intros Hl. unfold Base64.decode, Base64.encode. rewrite bind_Some. exists (Base64.digits l).
  split; [|by apply decode_digits_digits]. pose proof (digits_range _ Hl) as Hd. clear Hl.
  induction Hd as [|z ds Hz Hd IH]; [done|]. destruct (dec_enc _ Hz) as [H1 H2].
  cbn [fmap list_fmap]. rewrite filter_cons_True by done. cbn [mapM]. rewrite H1. cbn. by rewrite IH.
Qed.

Lemma code_byte z : is_byte z -> code (byte z) = z.
Proof.
  intros Hz. unfold code, byte. rewrite Z.mod_small by done. rewrite N_ascii_embedding by (unfold is_byte in Hz; lia).
  unfold is_byte in Hz. lia.
Qed.

Lemma byte_codes_bytes l : Forall is_byte l -> byte_codes (bytes_string l) = l.
Proof.
  intros Hl. unfold byte_codes, bytes_string. rewrite String.list_ascii_of_string_of_list_ascii. induction Hl as [|z l Hz Hl IH]; [done|].
  cbn. by rewrite code_byte, IH.
Qed.

Lemma bytes_byte_codes s : bytes_string (byte_codes s) = s.
Proof. unfold byte_codes, bytes_string. induction s as [|c s IH]; [done|]. cbn in *. by rewrite byte_code, IH. Qed.

Lemma byte_codes_range s : Forall is_byte (byte_codes s).
Proof. unfold byte_codes. apply Forall_fmap, Forall_forall. intros c _. apply code_range. Qed.

Lemma length_byte_codes s : length (byte_codes s) = String.length s.
Proof. unfold byte_codes. rewrite length_fmap. induction s as [|c s IH]; [done|]. cbn. by rewrite IH. Qed.

Lemma DecodeString_EncodeToString s : DecodeString (EncodeToString s) = Some s.
Proof.
  unfold DecodeString, EncodeToString. rewrite String.list_ascii_of_string_of_list_ascii, base64_roundtrip by apply byte_codes_range. cbn. by rewrite bytes_byte_codes.
Qed.

Lemma length_EncodeToString s :
  Z.of_nat (String.length (EncodeToString s)) = Base64.EncodedLen (Z.of_nat (String.length s)).
Proof.
  unfold EncodeToString, Base64.encode. rewrite length_string_of_list, length_fmap, <- (length_byte_codes s). unfold Base64.EncodedLen.
  induction (byte_codes s) as [|a|a b|a b c l IH] using list_three; cbn [Base64.digits length]; [done..|].
  rewrite !Nat2Z.inj_succ, IH. Z.div_mod_to_equations. lia.
Qed.

Lemma be_value_bytes n z acc :
  foldl (fun acc b => acc * 256 + b) acc (be_bytes n z) = acc * 256 ^ Z.of_nat n + z mod 256 ^ Z.of_nat n.
Proof.
  revert acc. induction n as [|n IH]; intros acc; cbn [be_bytes foldl]; [rewrite Z.mod_1_r; lia|].
  rewrite IH. replace (256 ^ Z.of_nat (S n)) with (256 ^ Z.of_nat n * 256) by (rewrite Nat2Z.inj_succ, Z.pow_succ_r; lia).
  rewrite Z.rem_mul_r by lia. lia.
Qed.

Lemma be_bytes_range n z : Forall is_byte (be_bytes n z).
Proof. induction n as [|n IH]; constructor; [apply Z.mod_pos_bound; lia|done]. Qed.

Lemma length_be_bytes n z : length (be_bytes n z) = n.
Proof. induction n as [|n IH]; cbn; congruence. Qed.

Lemma length_uuid_bytes id : String.length (uuid_bytes id) = 16%nat.
Proof. unfold uuid_bytes, bytes_string. by rewrite length_string_of_list, length_fmap, length_be_bytes. Qed.

Lemma uuid_roundtrip id : (id < 2 ^ 128)%N -> uuid_FromBytes (uuid_bytes id) = Ok id.
Proof.
  intros Hid. unfold uuid_FromBytes. rewrite length_uuid_bytes. cbn [Z.of_nat Pos.of_succ_nat Z.eqb Pos.succ Pos.eqb]. f_equal.
  unfold uuid_bytes. rewrite byte_codes_bytes by apply be_bytes_range. unfold be_value. rewrite be_value_bytes.
  change (256 ^ Z.of_nat 16) with (2 ^ 128). rewrite Z.mod_small by lia. lia.
Qed.

Lemma length_app_string a b : String.length (a +:+ b) = (String.length a + String.length b)%nat.
Proof. induction a as [|c a IH]; [done|]. change (String c a +:+ b) with (String c (a +:+ b)). cbn. by rewrite IH. Qed.

Lemma app_assoc_string (a b c : string) : a +:+ b +:+ c = (a +:+ b) +:+ c.
Proof. induction a as [|x a IH]; [done|]. exact (f_equal (String x) IH). Qed.

Lemma substring_app a b n k :
  n = String.length a -> k = String.length b -> String.substring n k (a +:+ b) = b.
Proof.
  intros -> ->. induction a as [|c a IH].
  - change ("" +:+ b) with b. induction b as [|c b IH]; [done|]. cbn in *. by rewrite IH.
  - exact IH.
Qed.

Lemma substring_first a b n : n = String.length a -> String.substring 0 n (a +:+ b) = a.
Proof.
  intros ->. induction a as [|c a IH]; [by destruct b|]. change (String c a +:+ b) with (String c (a +:+ b)). cbn. by rewrite IH.
Qed.

Lemma get_app a c b n : n = String.length a -> String.get n (a +:+ String c b) = Some c.
Proof. intros ->. induction a as [|c' a IH]; [done|exact IH]. Qed.

Lemma token_text_roundtrip_eq id secret (Hid : (id < 2 ^ 128)%N) (Hs : Z.of_nat (String.length secret) = SecretSize) :
  ParseToken (FormatToken id secret) = Ok (id, secret).
Proof.
  assert (forall x, "_" +:+ x = String "_"%char x) as Hu by done.
  unfold ParseToken, FormatToken. rewrite CutPrefix_app, Hu. cbv zeta.
  pose proof (length_EncodeToString (uuid_bytes id)) as H1. rewrite length_uuid_bytes in H1. change (Z.of_nat 16) with 16 in H1.
  pose proof (length_EncodeToString secret) as H2. rewrite Hs in H2.
  assert (String.length (EncodeToString (uuid_bytes id)) = Z.to_nat (Base64.EncodedLen 16)) as E1 by lia.
  assert (String.length (EncodeToString secret) = Z.to_nat (Base64.EncodedLen SecretSize)) as E2 by lia.
  rewrite length_app_string, (get_app _ "_"%char) by done. cbn [String.length]. rewrite E1, E2.
  rewrite (bool_decide_eq_false_2 (_ <> _)) by lia. rewrite (bool_decide_eq_false_2 (Some _ <> _)) by congruence. cbn [orb].
  rewrite substring_first, DecodeString_EncodeToString by done. rewrite (bool_decide_eq_false_2 (_ <> _)) by (rewrite length_uuid_bytes; lia).
  rewrite uuid_roundtrip by done.
  rewrite <- Hu, app_assoc_string.
  rewrite substring_app, DecodeString_EncodeToString; [|by rewrite length_app_string, E1|done].
  rewrite Hs. done.
Qed.

(** The text of a token is read back as it was written: identifier and secret survive formatting and
    parsing. *)
Theorem token_text_roundtrip id secret (Hid : (id < 2 ^ 128)%N) (Hs : Z.of_nat (String.length secret) = SecretSize) :
  ParseToken (FormatToken id secret) = Ok (id, secret).
Proof. by apply token_text_roundtrip_eq. Qed.

(** ** Scopes *)

Definition valid_scope (s : Scope) : Prop := s ∈ [ScopeWorkRead; ScopeWorkExecute; ScopeWorkWrite].

Lemma collect_scopes_Ok values present out :
  collect_scopes values present = Ok out <-> Forall valid_scope values /\ out = list_to_set values ∪ present.
Proof.
  revert present. induction values as [|s values IH]; intros present; cbn [collect_scopes].
  - split; [intros [= <-]; split; [done|set_solver]|intros [_ ->]; f_equal; set_solver].
  - case_bool_decide as Hs.
    + rewrite IH, Forall_cons. split; [intros [? ->]|intros [[_ ?] ->]]; (split; [done|set_solver]).
    + split; [done|]. rewrite Forall_cons. by intros [[? _] _].
Qed.

Lemma normalizeScopes_Ok values l :
  normalizeScopes values = Ok l ->
  values <> [] /\ Forall valid_scope values /\
  (forall s, s ∈ l <-> s ∈ values \/ s = ScopeWorkRead /\ (ScopeWorkWrite ∈ values \/ ScopeWorkExecute ∈ values)) /\
  NoDup l /\ Sorted string_le l.
Proof.
  unfold normalizeScopes. destruct values as [|v values]; [done|].
  intros (present & [Hv ->]%collect_scopes_Ok & E)%bind_Ok. injection E as <-. split; [done|]. split; [done|].
  split; [|split].
  - intros s. rewrite merge_sort_Permutation, elem_of_elements.
    assert (ScopeWorkRead <> ScopeWorkWrite /\ ScopeWorkExecute <> ScopeWorkRead) as [? ?] by done.
    repeat case_bool_decide; set_solver.
  - rewrite merge_sort_Permutation. apply NoDup_elements.
  - apply Sorted_merge_sort. intros a b. unfold string_le. apply String.leb_total.
Qed.

Definition with_scopes (l : list Scope) (p : Principal) : Principal :=
  mkPrincipal (pp_User p) (pp_Method p) (pp_TokenID p) (pp_TokenName p) (pp_AgentRunID p) l.

(** A token has exactly the rights that were asked for: normalization accepts every choice of known
    scopes, removes repetitions, orders the scopes and adds the right to read, which every scope
    implies; a principal with the normalized scopes has a scope if and only if one with the requested
    scopes has it. *)
Theorem scopes_keep_rights values p required (Hne : values <> []) (Hv : Forall valid_scope values) :
  exists l, normalizeScopes values = Ok l /\ NoDup l /\ Sorted string_le l /\ ScopeWorkRead ∈ l /\
    HasScope (with_scopes l p) required = HasScope (with_scopes values p) required.
Proof.
  destruct (normalizeScopes values) as [l|e] eqn:Hn.
  - exists l. apply normalizeScopes_Ok in Hn as (_ & _ & Hin & Hnd & Hso). split_and!; try done.
    + apply Hin. destruct values as [|v values]; [done|]. apply Forall_cons in Hv as [Hv _].
      unfold valid_scope in Hv. set_solver.
    + apply Bool.eq_iff_eq_true. unfold HasScope, with_scopes. cbn [pp_Scopes]. rewrite !existsb_exists.
      split; intros (s & Hs & Hg); apply list_elem_of_In in Hs.
      * apply Hin in Hs as [Hs|[-> Hs]]; [exists s; by rewrite <- list_elem_of_In|].
        assert (required = ScopeWorkRead) as ->.
        { rewrite (bool_decide_eq_false_2 (ScopeWorkRead = ScopeWorkExecute)), (bool_decide_eq_false_2 (ScopeWorkRead = ScopeWorkWrite)) in Hg by done.
          cbn in Hg. rewrite !andb_false_r, !orb_false_r in Hg. by apply bool_decide_eq_true in Hg. }
        destruct Hs as [Hs|Hs]; [exists ScopeWorkWrite|exists ScopeWorkExecute]; by rewrite <- list_elem_of_In.
      * exists s. rewrite <- list_elem_of_In. split; [apply Hin; by left|done].
  - exfalso. unfold normalizeScopes in Hn. destruct values as [|v values]; [done|].
    assert (collect_scopes (v :: values) ∅ = Ok (list_to_set (v :: values) ∪ ∅)) as E by (by apply collect_scopes_Ok).
    rewrite E in Hn. discriminate Hn.
Qed.

(** ** Sequences of operations *)

(** The operations of the service; [TSetUser] stands for what the identity store does to a user. *)
Inductive AccessCommand :=
| TIssue (tokenID : UUID) (generated : result string) (now : Time) (request : IssueRequest)
| TRevoke (tokenID actorID : UUID) (now : Time)
| TRevokeAsAdmin (tokenID adminID : UUID) (now : Time)
| TAuthenticate (raw : string) (now : Time)
| TSetUser (u : User).

Definition access_step (c : AccessCommand) (d : AccessDB) : AccessDB :=
  match c with
  | TIssue id generated now request => (Issue id generated now request d).2
  | TRevoke id actor now => (Service_Revoke id actor now d).2
  | TRevokeAsAdmin id admin now => (RevokeAsAdmin id admin now d).2
  | TAuthenticate raw now => (Authenticate raw now d).2
  | TSetUser u => mkAccessDB (api_tokens d) (<[u_ID u := u]> (access_users d))
  end.
Definition access_steps (cs : list AccessCommand) (d : AccessDB) : AccessDB := foldl (fun d c => access_step c d) d cs.

Definition revokes (c : AccessCommand) (id : UUID) : Prop :=
  match c with TRevoke i _ _ | TRevokeAsAdmin i _ _ => i = id | _ => False end.

(** Tokens are kept under their identifiers and belong to users that exist. *)
Record access_wf (d : AccessDB) : Prop := {
  aw_id id t : api_tokens d !! id = Some t -> tk_ID t = id;
  aw_user id t : api_tokens d !! id = Some t -> is_Some (access_users d !! tk_UserID t);
}.

(** What no operation changes of a token; its revocation is final. *)
Definition same_token (t t' : Token) : Prop :=
  tk_ID t' = tk_ID t /\ tk_UserID t' = tk_UserID t /\ tk_Name t' = tk_Name t /\ tk_SecretHash t' = tk_SecretHash t /\
  tk_Scopes t' = tk_Scopes t /\ tk_ExpiresAt t' = tk_ExpiresAt t /\
  (tk_RevokedAt t <> None -> tk_RevokedAt t' = tk_RevokedAt t).
#[local] Instance same_token_preorder : PreOrder same_token.
Proof.
  split; [by intros t|]. intros t1 t2 t3 (? & ? & ? & ? & ? & ? & Hr1) (? & ? & ? & ? & ? & ? & Hr2).
  repeat split; try congruence. intros Hr. specialize (Hr1 Hr). rewrite <- Hr1 in Hr. by rewrite Hr2.
Qed.

Lemma revoke_where_Ok cond id by_ now d u d' :
  revoke_where cond id by_ now d = (Ok u, d') <->
  exists t, api_tokens d !! id = Some t /\ cond t = true /\ tk_RevokedAt t = None /\
    is_Some (access_users d !! by_) /\ d' = set_tokens (<[id := with_revocation now by_ t]> (api_tokens d)) d.
Proof.
  unfold revoke_where. split.
  - intros Hr. st_inv.
    match goal with Hs : _ ≫= _ = Some _ |- _ => apply bind_Some in Hs as (t & Ht & Hc) end. case_match eqn:E; [|done].
    injection Hc as <-. apply andb_true_iff in E as [E1 E2%negb_true_iff%present_false]. exists t. split_and!; try done.
    match goal with Hk : negb (user_known _ _) = false |- _ => apply negb_false_iff in Hk; cbn in Hk end.
    destruct (access_users _ !! by_); [by eexists|done].
  - intros (t & Ht & Hc & Hr & [u' Hu] & ->). destruct u. unfold mbind, St_bind, st_get, st_or_err, st_lift, st_fail, st_mod.
    rewrite Ht. cbn. rewrite Hc, Hr. cbn. by rewrite Hu.
Qed.

Lemma revoke_where_clean cond id by_ now : clean (revoke_where cond id by_ now).
Proof. unfold revoke_where. cleaned ltac:(idtac; fail). Qed.

Lemma CreateToken_Ok t d u d' :
  CreateToken t d = (Ok u, d') <->
  api_tokens_checks t = true /\ token_unique t d = true /\ token_fks t d = true /\
  d' = set_tokens (<[tk_ID t := t]> (api_tokens d)) d.
Proof.
  unfold CreateToken. split.
  - intros Hr. st_inv. go_bool. done.
  - intros (H1 & H2 & H3 & ->). destruct u. unfold mbind, St_bind, st_get, st_lift, st_fail, st_mod, st_lift. rewrite H1. cbn -[token_unique token_fks].
    by rewrite H2, H3.
Qed.

Lemma CreateToken_clean t : clean (CreateToken t).
Proof. unfold CreateToken. cleaned ltac:(idtac; fail). Qed.

(** The token that is issued. *)
Definition issued (tokenID : UUID) (secret : string) (scopes : list Scope) (now : Time) (request : IssueRequest) : Token :=
  mkToken tokenID (is_UserID request) (TrimSpace (is_Name request)) (HashSecret secret) (displayPrefix tokenID) scopes
    (now + is_Lifetime request) None None None now.

Lemma Issue_Ok id generated now request d out d' :
  Issue id generated now request d = (Ok out, d') ->
  exists secret scopes, generated = Ok secret /\ Z.of_nat (String.length secret) = SecretSize /\
    normalizeScopes (is_Scopes request) = Ok scopes /\
    CreateToken (issued id secret scopes now request) d = (Ok tt, d') /\
    out = mkIssuedToken (Token_Metadata (issued id secret scopes now request)) (FormatToken id secret).
Proof.
  unfold Issue. cbv zeta. intros Hr. st_inv. go_bool. do 2 eexists. split_and!; try done.
Qed.

Lemma Issue_clean id generated now request : clean (Issue id generated now request).
Proof. unfold Issue. cbv zeta. cleaned ltac:(idtac; apply CreateToken_clean). Qed.

(** What an accepted token is, and what its use changes. *)
Definition touched (id : UUID) (now : Time) (d : AccessDB) : AccessDB := (TouchToken id now (now - LastUsedTouchInterval) d).2.

Lemma Authenticate_cases raw now d r d' :
  Authenticate raw now d = (r, d') ->
  (exists e, r = Err e /\ d' = d) \/
  exists id secret t u, ParseToken raw = Ok (id, secret) /\ api_tokens d !! id = Some t /\ access_users d !! tk_UserID t = Some u /\
    HashSecret secret = tk_SecretHash t /\ tk_RevokedAt t = None /\ now < tk_ExpiresAt t /\ CanUseApplication u = true /\
    r = Ok (mkPrincipal u AuthenticationMethodAPIToken (Some (tk_ID t)) (tk_Name t) None (tk_Scopes t)) /\
    d' = touched (tk_ID t) now d.
Proof.
  intros Hr. destruct r as [p|e].
  - right. unfold Authenticate, GetToken in Hr. st_inv. destruct x as [id secret], x1 as [t u]. st_inv.
    match goal with Hs : _ ≫= _ = Some _ |- _ => apply bind_Some in Hs as (t' & Ht & Hs); apply bind_Some in Hs as (u' & Hu & [= -> ->]) end.
    go_bool. match goal with Hp : present _ = false |- _ => apply present_false in Hp end. exists id, secret, t, u.
    unfold Time_Before in *. split_and!; try done; [lia|].
    match goal with Ht : TouchToken _ _ _ _ = _ |- _ => unfold touched; by rewrite Ht end.
  - left. exists e. split; [done|]. revert Hr. assert (clean (Authenticate raw now)) as Hc; [|apply Hc].
    unfold Authenticate, GetToken, TouchToken. cleaned ltac:(idtac; fail).
Qed.

Lemma touched_tokens i now d id t :
  api_tokens d !! id = Some t ->
  exists t', api_tokens (touched i now d) !! id = Some t' /\ same_token t t' /\ tk_RevokedAt t' = tk_RevokedAt t.
Proof.
  intros Ht. unfold touched, TouchToken. cbn. destruct (api_tokens d !! i) as [s|] eqn:Hi; [|by exists t].
  destruct (touch_due _ s); [|by exists t]. cbn. destruct (decide (i = id)) as [->|Hne].
  - rewrite lookup_insert_eq. eexists. assert (s = t) as -> by congruence. done.
  - rewrite lookup_insert_ne by done. by exists t.
Qed.

Lemma touched_from i now d id t' :
  api_tokens (touched i now d) !! id = Some t' -> exists t, api_tokens d !! id = Some t /\ same_token t t'.
Proof.
  unfold touched, TouchToken. cbn. destruct (api_tokens d !! i) as [s|] eqn:Hi; [|by exists t'].
  destruct (touch_due _ s); [|by exists t']. cbn. intros [[<- <-]|[_ Ht]]%lookup_insert_Some; [by exists s|by exists t'].
Qed.

Lemma touched_users i now d : access_users (touched i now d) = access_users d.
Proof. unfold touched, TouchToken. cbn. destruct (api_tokens d !! i) as [s|]; [|done]. by destruct (touch_due _ s). Qed.

(** A revocation that fails changes nothing. *)
Lemma revoke_where_cases cond id by_ now d :
  (revoke_where cond id by_ now d).2 = d \/
  exists t, api_tokens d !! id = Some t /\ tk_RevokedAt t = None /\
    (revoke_where cond id by_ now d).2 = set_tokens (<[id := with_revocation now by_ t]> (api_tokens d)) d.
Proof.
  destruct (revoke_where cond id by_ now d) as [[u|e] d'] eqn:Hr; cbn.
  - apply revoke_where_Ok in Hr as (t & Ht & _ & Hn & _ & ->). right. eauto.
  - left. by apply revoke_where_clean in Hr.
Qed.

(** What a step does to the tokens. *)
Inductive token_effect (c : AccessCommand) (d : AccessDB) : AccessDB -> Prop :=
| tokens_same d' : api_tokens d' = api_tokens d -> (forall u, is_Some (access_users d !! u) -> is_Some (access_users d' !! u)) ->
    token_effect c d d'
| tokens_touched i now : token_effect c d (touched i now d)
| tokens_revoked id by_ now t : revokes c id -> api_tokens d !! id = Some t -> tk_RevokedAt t = None ->
    token_effect c d (set_tokens (<[id := with_revocation now by_ t]> (api_tokens d)) d)
| tokens_issued t : api_tokens d !! tk_ID t = None -> is_Some (access_users d !! tk_UserID t) ->
    token_effect c d (set_tokens (<[tk_ID t := t]> (api_tokens d)) d).

Lemma access_step_effect c d : token_effect c d (access_step c d).
Proof.
  destruct c as [id generated now request|id actor now|id admin now|raw now|u]; cbn [access_step].
  - destruct (Issue id generated now request d) as [[out|e] d'] eqn:Hr; cbn [snd]; [|apply Issue_clean in Hr as ->; by constructor].
    apply Issue_Ok in Hr as (secret & scopes & _ & _ & _ & Hc & _). apply CreateToken_Ok in Hc as (_ & Hu & Hf & ->).
    unfold token_unique, token_fks in *. apply andb_true_iff in Hu as [Hu _], Hf as [Hf _]. apply negb_true_iff, present_false in Hu.
    apply tokens_issued; [done|]. cbn in Hf |- *. destruct (access_users d !! _); [by eexists|done].
  - destruct (revoke_where_cases (fun t => tk_UserID t == actor) id actor now d) as [E|(t & Ht & Hn & E)];
      unfold Service_Revoke, RevokeToken; rewrite E; [by constructor|by apply tokens_revoked].
  - destruct (revoke_where_cases (fun _ => true) id admin now d) as [E|(t & Ht & Hn & E)];
      unfold RevokeAsAdmin, RevokeTokenAsAdmin; rewrite E; [by constructor|by apply tokens_revoked].
  - destruct (Authenticate raw now d) as [r d'] eqn:Hr. cbn [snd].
    destruct (Authenticate_cases _ _ _ _ _ Hr) as [(e & _ & ->)|(? & ? & ? & ? & _ & _ & _ & _ & _ & _ & _ & _ & ->)]; by constructor.
  - apply tokens_same; [done|]. cbn. intros v [x Hx]. destruct (decide (u_ID u = v)) as [->|Hne].
    + rewrite lookup_insert_eq. by eexists.
    + rewrite lookup_insert_ne by done. by eexists.
Qed.

Lemma access_step_wf c d : access_wf d -> access_wf (access_step c d).
Proof.
  intros Hw. destruct (access_step_effect c d) as [d' E Hu|i now|id by_ now t _ Ht _|t Hn Hu]; split; cbn [set_tokens api_tokens access_users].
  - rewrite E. apply Hw.
  - rewrite E. intros id t Ht. by apply Hu, (aw_user _ Hw id).
  - intros id t' (t & Ht & Hs)%touched_from. destruct Hs as (-> & _). by apply Hw.
  - intros id t' (t & Ht & Hs)%touched_from. rewrite touched_users. destruct Hs as (_ & -> & _). by apply (aw_user _ Hw id).
  - intros i t' [[<- <-]|[_ Hi]]%lookup_insert_Some; [exact (aw_id _ Hw _ _ Ht)|by apply Hw].
  - intros i t' [[<- <-]|[_ Hi]]%lookup_insert_Some; [exact (aw_user _ Hw _ _ Ht)|by apply (aw_user _ Hw i)].
  - intros i t' [[<- <-]|[_ Hi]]%lookup_insert_Some; [done|by apply Hw].
  - intros i t' [[<- <-]|[_ Hi]]%lookup_insert_Some; [done|by apply (aw_user _ Hw i)].
Qed.

Lemma access_step_token c d id t :
  api_tokens d !! id = Some t ->
  exists t', api_tokens (access_step c d) !! id = Some t' /\ same_token t t' /\
    (tk_RevokedAt t' = tk_RevokedAt t \/ revokes c id).
Proof.
  intros Ht. destruct (access_step_effect c d) as [d' E _|i now|i by_ now s Hr Hs Hn|s Hn _]; cbn [set_tokens api_tokens].
  - exists t. rewrite E. split; [done|]. by split; [|left].
  - destruct (touched_tokens i now _ _ _ Ht) as (t' & Ht' & Hs & Hv). exists t'. split; [done|]. by split; [|left].
  - destruct (decide (i = id)) as [->|Hne].
    + rewrite lookup_insert_eq. assert (s = t) as -> by congruence. eexists. split; [done|]. split; [|by right].
      repeat split. by rewrite Hn.
    + rewrite lookup_insert_ne by done. exists t. split; [done|]. by split; [|left].
  - rewrite lookup_insert_ne by congruence. exists t. split; [done|]. by split; [|left].
Qed.

Lemma access_steps_token cs d id t :
  api_tokens d !! id = Some t ->
  exists t', api_tokens (access_steps cs d) !! id = Some t' /\ same_token t t' /\
    ((forall c, c ∈ cs -> ~ revokes c id) -> tk_RevokedAt t' = tk_RevokedAt t).
Proof.
  revert d t. induction cs as [|c cs IH]; intros d t Ht; cbn [access_steps foldl]; [by exists t|].
  destruct (access_step_token c d id t Ht) as (t1 & Ht1 & Hs1 & Hr1).
  destruct (IH _ _ Ht1) as (t2 & Ht2 & Hs2 & Hr2). exists t2. split; [done|]. split; [by etransitivity|].
  intros Hc. rewrite Hr2 by (intros c' Hin; apply Hc; by right). destruct Hr1 as [->|Hr1]; [done|]. exfalso. eapply Hc; [by left|done].
Qed.

Lemma access_steps_wf cs d : access_wf d -> access_wf (access_steps cs d).
Proof. revert d. induction cs as [|c cs IH]; intros d Hw; [done|]. by apply IH, access_step_wf. Qed.

(** ** Properties *)

Lemma Authenticate_found raw now d id secret t u :
  ParseToken raw = Ok (id, secret) -> api_tokens d !! id = Some t -> access_users d !! tk_UserID t = Some u ->
  Authenticate raw now d =
    if negb (Z.of_nat (String.length (tk_SecretHash t)) =? 32) || (HashSecret secret != tk_SecretHash t) then (Err ErrTokenInvalid, d)
    else if present (tk_RevokedAt t) then (Err ErrTokenRevoked, d)
    else if negb (Time_Before now (tk_ExpiresAt t)) then (Err ErrTokenExpired, d)
    else if negb (CanUseApplication u) then (Err ErrUserInactive, d)
    else (Ok (mkPrincipal u AuthenticationMethodAPIToken (Some (tk_ID t)) (tk_Name t) None (tk_Scopes t)), touched (tk_ID t) now d).
Proof.
  intros Hp Ht Hu. unfold Authenticate, GetToken, mbind, St_bind, st_map_err, st_or_err, st_get, st_fail, st_lift. rewrite Hp.
  cbn [fst snd]. rewrite Ht. cbn [mbind option_bind]. rewrite Hu. cbn [option_bind]. cbv beta iota.
  destruct (_ || _); [reflexivity|]. destruct (present _); [reflexivity|].
  destruct (negb (Time_Before _ _)); [reflexivity|]. destruct (negb (CanUseApplication _)); reflexivity.
Qed.

(** An operation that revokes a token, and its success. *)
Definition revoked_by (d : AccessDB) (id : UUID) (now : Time) (d' : AccessDB) : Prop :=
  exists user, Service_Revoke id user now d = (Ok tt, d') \/ RevokeAsAdmin id user now d = (Ok tt, d').

(** C23: a revoked token is never accepted again: once its owner or an administrator has revoked it, whatever
    operations follow, every text with its identifier is refused, as revoked when it carries the secret
    and as invalid otherwise. *)
Theorem revoked_token_rejected d id t now d1 cs raw secret now'
    (Hw : access_wf d) (Hr : revoked_by d id now d1) (Ht : api_tokens d !! id = Some t)
    (Hp : ParseToken raw = Ok (id, secret)) (Hl : Z.of_nat (String.length (tk_SecretHash t)) = 32) :
  (Authenticate raw now' (access_steps cs d1)).1 =
    Err (if HashSecret secret == tk_SecretHash t then ErrTokenRevoked else ErrTokenInvalid).
Proof.
  assert (access_wf d1 /\ exists by_, api_tokens d1 !! id = Some (with_revocation now by_ t)) as [Hw1 [by_ Ht1]].
  { destruct Hr as [user [Hr|Hr]]; pose proof Hr as Hr'; apply revoke_where_Ok in Hr' as (s & Hs & _ & _ & _ & E);
      (split; [|exists user; subst d1; cbn; rewrite lookup_insert_eq; by assert (s = t) as -> by congruence]).
    - pose proof (access_step_wf (TRevoke id user now) d Hw) as H1. cbn in H1. by rewrite Hr in H1.
    - pose proof (access_step_wf (TRevokeAsAdmin id user now) d Hw) as H1. cbn in H1. by rewrite Hr in H1. }
  destruct (access_steps_token cs d1 id _ Ht1) as (t' & Ht' & (H1 & H2 & _ & H4 & _ & _ & H7) & _).
  specialize (H7 ltac:(discriminate)). cbn in H1, H2, H4, H7.
  destruct (aw_user _ (access_steps_wf cs d1 Hw1) _ _ Ht') as [u Hu].
  rewrite (Authenticate_found _ _ _ _ _ _ _ Hp Ht' Hu), H4, Hl, H7. cbn [Z.eqb Pos.eqb negb orb]. by case_bool_decide.
Qed.

(** A token works from its issue to its expiry: whatever operations follow, other than revoking it, the
    text that was handed out is accepted while the owner may use the application, as the owner with the
    name and the scopes of the request. *)
Theorem issued_token_works d id generated now request out d1 cs u now'
    (Hw : access_wf d) (Hid : (id < 2 ^ 128)%N) (Hi : Issue id generated now request d = (Ok out, d1))
    (Hc : forall c, c ∈ cs -> ~ revokes c id)
    (Hu : access_users (access_steps cs d1) !! is_UserID request = Some u) (Hok : CanUseApplication u = true)
    (Hnow : now' < now + is_Lifetime request) :
  exists p d2, Authenticate (it_Value out) now' (access_steps cs d1) = (Ok p, d2) /\
    pp_User p = u /\ pp_TokenID p = Some id /\ pp_TokenName p = TrimSpace (is_Name request) /\
    normalizeScopes (is_Scopes request) = Ok (pp_Scopes p).
Proof.
  apply Issue_Ok in Hi as (secret & scopes & _ & Hl & Hs & Hcr & ->). apply CreateToken_Ok in Hcr as (_ & _ & _ & ->).
  set (d1 := set_tokens _ d) in *.
  assert (api_tokens d1 !! id = Some (issued id secret scopes now request)) as Hin by apply lookup_insert_eq.
  destruct (access_steps_token cs d1 id _ Hin)
    as (t & Ht & (H1 & H2 & H3 & H4 & H5 & H6 & _) & H8).
  specialize (H8 Hc). cbn in H1, H2, H3, H5, H6, H8. change (tk_SecretHash t = HashSecret secret) in H4.
  pose proof (token_text_roundtrip_eq id secret Hid Hl) as Hp.
  rewrite <- H2 in Hu. cbn [it_Value]. rewrite (Authenticate_found _ _ _ _ _ _ _ Hp Ht Hu).
  rewrite H4, H8, H6. unfold HashSecret. rewrite sha256_length. rewrite (bool_decide_eq_true_2 (sha256 _ = _)) by done.
  cbn [Z.eqb Pos.eqb negb orb present fail_if Z.of_nat Pos.of_succ_nat Pos.succ].
  unfold Time_Before. assert ((now' <? now + is_Lifetime request) = true) as -> by lia. rewrite Hok. cbn [negb fail_if].
  do 2 eexists. split; [reflexivity|]. cbn. rewrite H1, H3, H5. done.
Qed.

(** C22: nobody is accepted without the secret of a live token: an accepted text names a token by its
    identifier and carries a secret with its hash; the token is neither revoked nor expired, its owner
    may use the application and is the one who acts, with the scopes of the token and no others; and
    only the time of the last use of this token changes. *)
Theorem authentication_sound raw now d p d' (Ha : Authenticate raw now d = (Ok p, d')) :
  exists id secret t, ParseToken raw = Ok (id, secret) /\ api_tokens d !! id = Some t /\ sha256 secret = tk_SecretHash t /\
    tk_RevokedAt t = None /\ now < tk_ExpiresAt t /\
    access_users d !! tk_UserID t = Some (pp_User p) /\ CanUseApplication (pp_User p) = true /\
    pp_TokenID p = Some (tk_ID t) /\ (forall scope, HasScope p scope = HasScope (with_scopes (tk_Scopes t) p) scope) /\
    access_users d' = access_users d /\
    (forall i s, api_tokens d' !! i = Some s -> api_tokens d !! i = Some s \/
       i = tk_ID t /\ exists s0, api_tokens d !! i = Some s0 /\ s = with_last_used now s0).
Proof.
  destruct (Authenticate_cases _ _ _ _ _ Ha) as [(e & [=] & _)|(id & secret & t & u & Hp & Ht & Hu & Hh & Hr & Hn & Hc & [= ->] & ->)].
  exists id, secret, t. cbn [pp_User pp_TokenID]. split_and!; try done; [apply touched_users|].
  intros i s. unfold touched, TouchToken. cbn. destruct (api_tokens d !! tk_ID t) as [s0|] eqn:Hs; [|by left].
  destruct (touch_due _ s0); [|by left]. cbn. intros [[<- <-]|[_ Hi]]%lookup_insert_Some; [right|by left]. eauto.
Qed.

(** ** Examples *)

Definition demo_owner : User := mkUser 5%N "Ada" None None PlatformRoleMember AccessStatusApproved [] true 1 1.
Definition demo_access : AccessDB := mkAccessDB ∅ {[5%N := demo_owner]}.
Definition demo_secret : string := "0123456789abcdef0123456789abcdef".
Definition demo_issue : IssueRequest := mkIssueRequest 5%N " ci " [ScopeWorkWrite; ScopeWorkExecute] (30 * Day).
Definition demo_issued : AccessDB := (Issue 77%N (Ok demo_secret) 1000 demo_issue demo_access).2.
Definition demo_token : Token := issued 77%N demo_secret [ScopeWorkExecute; ScopeWorkRead; ScopeWorkWrite] 1000 demo_issue.
Definition demo_raw : string := FormatToken 77%N demo_secret.

Lemma demo_access_wf : access_wf demo_access.
Proof. split; cbn; intros id t; rewrite lookup_empty; discriminate. Qed.
Lemma demo_issued_wf : access_wf demo_issued.
Proof. exact (access_step_wf (TIssue 77%N (Ok demo_secret) 1000 demo_issue) demo_access demo_access_wf). Qed.
Lemma demo_issued_token : api_tokens demo_issued !! 77%N = Some demo_token.
Proof. vm_compute. reflexivity. Qed.

Example demo_raw_text : demo_raw = "bb_pat_AAAAAAAAAAAAAAAAAAAATQ_MDEyMzQ1Njc4OWFiY2RlZjAxMjM0NTY3ODlhYmNkZWY".
Proof. vm_compute. reflexivity. Qed.

Lemma token_text_roundtrip_witness : ParseToken (FormatToken 77%N demo_secret) = Ok (77%N, demo_secret).
Proof. apply token_text_roundtrip; reflexivity. Defined.

Lemma scopes_keep_rights_witness :
  exists l, normalizeScopes [ScopeWorkWrite; ScopeWorkExecute] = Ok l /\ NoDup l /\ Sorted string_le l /\ ScopeWorkRead ∈ l /\
    HasScope (with_scopes l (mkPrincipal demo_owner AuthenticationMethodAPIToken None "" None [])) ScopeWorkRead =
    HasScope (with_scopes [ScopeWorkWrite; ScopeWorkExecute] (mkPrincipal demo_owner AuthenticationMethodAPIToken None "" None [])) ScopeWorkRead.
Proof.
  apply scopes_keep_rights; [discriminate|]. unfold valid_scope. refine (bool_decide_eq_true_1 _ _). vm_compute. reflexivity.
Defined.

Lemma revoked_token_rejected_witness :
  (Authenticate demo_raw 5000 (access_steps [TAuthenticate demo_raw 4000; TSetUser demo_owner] (RevokeAsAdmin 77%N 5%N 3000 demo_issued).2)).1
    = Err ErrTokenRevoked.
Proof.
  rewrite (revoked_token_rejected demo_issued 77%N demo_token 3000 _ _ demo_raw demo_secret 5000 demo_issued_wf);
    [reflexivity|exists 5%N; right; vm_compute; reflexivity|exact demo_issued_token|vm_compute; reflexivity|vm_compute; reflexivity].
Defined.

Lemma issued_token_works_witness :
  exists p d2, Authenticate demo_raw 9000 (access_steps [TAuthenticate demo_raw 4000; TRevoke 78%N 5%N 4500] demo_issued) = (Ok p, d2) /\
    pp_User p = demo_owner /\ pp_TokenID p = Some 77%N /\ pp_TokenName p = TrimSpace (is_Name demo_issue) /\
    normalizeScopes (is_Scopes demo_issue) = Ok (pp_Scopes p).
Proof.
  apply (issued_token_works demo_access 77%N (Ok demo_secret) 1000 demo_issue (mkIssuedToken (Token_Metadata demo_token) demo_raw)
    demo_issued _ demo_owner 9000 demo_access_wf);
    [reflexivity|vm_compute; reflexivity| |vm_compute; reflexivity|reflexivity|reflexivity].
  intros c Hc. apply elem_of_cons in Hc as [-> | Hc]; [exact id|]. apply elem_of_cons in Hc as [-> | Hc]; [discriminate|].
  by apply elem_of_nil in Hc.
Defined.

Definition demo_principal : Principal :=
  mkPrincipal demo_owner AuthenticationMethodAPIToken (Some 77%N) "ci" None [ScopeWorkExecute; ScopeWorkRead; ScopeWorkWrite].
Lemma authentication_sound_witness :
  exists id secret t, ParseToken demo_raw = Ok (id, secret) /\ api_tokens demo_issued !! id = Some t /\ sha256 secret = tk_SecretHash t.
Proof.
  destruct (authentication_sound demo_raw 5000 demo_issued demo_principal (touched 77%N 5000 demo_issued) ltac:(vm_compute; reflexivity))
    as (id & secret & t & H1 & H2 & H3 & _). exists id, secret, t. split_and!; [exact H1|exact H2|exact H3].
Defined.
