(* ===== verification/Delegation.v ===== *)
(** * Delegated access of Agent runs

    internal/access/delegation.go: short-lived credentials with which a running Agent run acts for the
    user who started it, over the Agent store and the users. *)

From Stdlib Require Import Ascii.
From stdpp Require Import base tactics strings gmap list numbers sorting.
From S2P Require Import Prelude Actors Lifecycle StageClaim Delivery Thread Acceptance.
From S2P Require Import Database Tx State ThreadStore AgentRun AgentStore AgentCommands AgentEffects AgentProperties Http Access.

Definition AgentDelegateIssuer : string := "pactline-agent".
Definition AgentDelegateAudience : string := "pactline-openapi".
Definition AgentDelegatePrefix : string := "pact_agent_".
Definition AgentDelegateLifetime : Z := 5 * 60 * 1000000.

(** [delegateClaims] with the registered claims; a [NumericDate] is an instant. *)
Record delegateClaims := mkDelegateClaims {
  dc_RunID : string;
  dc_Scopes : list Scope;
  dc_Issuer : string;
  dc_Subject : string;
  dc_Audience : list string;
  dc_ExpiresAt : option Time;
  dc_NotBefore : option Time;
  dc_IssuedAt : option Time;
  dc_ID : string;
}.

(** The header of a JWT as the key function sees it: the method and the key identifier. *)
Record JwtHeader := mkJwtHeader { jh_Method : string; jh_KeyID : option string }.
Definition HS256 : string := "HS256".

Inductive JwtResult :=
| JwtValid (claims : delegateClaims)
| JwtExpired
| JwtInvalid.

(** [jwt.NewNumericDate] keeps seconds. *)
Definition NewNumericDate (t : Time) : Time := t - t mod 1000000.

(** What the options of the parser ask of the claims at [now]. *)
Definition claims_valid (now : Time) (c : delegateClaims) : bool :=
  (dc_Issuer c == AgentDelegateIssuer) && bool_decide (AgentDelegateAudience ∈ dc_Audience c) &&
  match dc_ExpiresAt c with Some e => now <? e | None => false end &&
  match dc_NotBefore c with Some t => t <=? now | None => true end &&
  match dc_IssuedAt c with Some t => t <=? now | None => true end.

(** The library golang-jwt.  [jwt_parse] is [ParseWithClaims] with the options of
    [Authenticate]: it returns claims only with a signature under the key that the key function returns
    for the header, and only valid ones; and it accepts what [SignedString] signed with that key. *)
Class JwtLibrary := {
  jwt_sign : string -> string -> delegateClaims -> result string;
  jwt_parse : (JwtHeader -> result string) -> Time -> string -> JwtResult;
  jwt_signed : string -> string -> delegateClaims -> Prop;
  jwt_parse_signed keyfunc now s c : jwt_parse keyfunc now s = JwtValid c ->
    exists h key, jh_Method h = HS256 /\ keyfunc h = Ok key /\ jwt_signed key s c /\ claims_valid now c = true;
  jwt_parse_accepts keyfunc now key kid c s : jwt_sign key kid c = Ok s -> keyfunc (mkJwtHeader HS256 (Some kid)) = Ok key ->
    claims_valid now c = true -> jwt_parse keyfunc now s = JwtValid c;
  jwt_sign_nonempty key kid c s : jwt_sign key kid c = Ok s -> s <> "";
}.

Record DelegateConfig := mkDelegateConfig {
  cfg_ActiveKeyID : string;
  cfg_SigningKeys : gmap string string;
  cfg_Lifetime : Z;
}.
Record DelegateService := mkDelegateService {
  ds_activeKeyID : string;
  ds_signingKeys : gmap string string;
  ds_lifetime : Z;
}.

(** The readers and the clock are always given. *)
Definition NewDelegateService (config : DelegateConfig) : result DelegateService :=
  let activeKeyID := TrimSpace (cfg_ActiveKeyID config) in
  fail_if (activeKeyID == "") ErrAgentDelegateInvalid;;
  fail_if (existsb (fun kv => (TrimSpace kv.1 == "") || (Z.of_nat (String.length kv.2) <? 32))
    (map_to_list (cfg_SigningKeys config))) ErrAgentDelegateInvalid;;
  fail_if (negb (present (cfg_SigningKeys config !! activeKeyID))) ErrAgentDelegateInvalid;;
  let lifetime := if cfg_Lifetime config <=? 0 then AgentDelegateLifetime else cfg_Lifetime config in
  fail_if (AgentDelegateLifetime <? lifetime) ErrAgentDelegateInvalid;;
  Ok (mkDelegateService activeKeyID (cfg_SigningKeys config) lifetime).

Definition normalizeDelegateScopes (scopes : list Scope) : result (list Scope) :=
  fail_if (negb (Z.of_nat (length scopes) =? 2)) ErrAgentDelegateInvalid;;
  fail_if (negb (forallb (fun s => bool_decide (s ∈ [ScopeWorkRead; ScopeWorkWrite])) scopes)) ErrAgentDelegateInvalid;;
  fail_if (negb (bool_decide (ScopeWorkRead ∈ scopes)) || negb (bool_decide (ScopeWorkWrite ∈ scopes))) ErrAgentDelegateInvalid;;
  Ok [ScopeWorkRead; ScopeWorkWrite].

(** [UserStore.GetByID] *)
Definition UserStore_GetByID (id : UUID) (d : AccessDB) : result User :=
  match access_users d !! id with Some u => Ok u | None => Err ErrNotFound end.

(** The run that a credential may act for, or none. *)
Definition delegate_run (runID userID : UUID) (a : AgentDB) : result Run :=
  match (GetRunForDelegate runID userID a).1 with
  | Ok run => if rn_Status run == RunRunning then Ok run else Err ErrAgentDelegateRun
  | Err _ => Err ErrAgentDelegateRun
  end.
Definition delegate_user (userID : UUID) (d : AccessDB) : result User :=
  user ← UserStore_GetByID userID d;
  fail_if (negb (u_Active user)) ErrUserInactive;;
  Ok user.

Section service.
Context `{UuidLibrary} `{JwtLibrary}.

Definition delegate_claims (s : DelegateService) (runID userID jti : UUID) (now : Time) : delegateClaims :=
  mkDelegateClaims (uuid_String runID) [ScopeWorkRead; ScopeWorkWrite] AgentDelegateIssuer (uuid_String userID)
    [AgentDelegateAudience] (Some (NewNumericDate (now + ds_lifetime s))) (Some (NewNumericDate now)) (Some (NewNumericDate now))
    (uuid_String jti).

Definition DelegateService_Issue (s : DelegateService) (runID userID jti : UUID) (now : Time) (a : AgentDB) (d : AccessDB) : result string :=
  _ ← delegate_run runID userID a;
  _ ← delegate_user userID d;
  signed ← jwt_sign (default "" (ds_signingKeys s !! ds_activeKeyID s)) (ds_activeKeyID s) (delegate_claims s runID userID jti now);
  Ok (AgentDelegatePrefix +:+ signed).

(** The key function of the parser. *)
Definition delegate_key (s : DelegateService) (h : JwtHeader) : result string :=
  fail_if (jh_Method h != HS256) ErrAgentDelegateInvalid;;
  match jh_KeyID h with
  | None | Some "" => Err ErrAgentDelegateInvalid
  | Some kid => match ds_signingKeys s !! kid with Some key => Ok key | None => Err ErrAgentDelegateInvalid end
  end.

(** A subject or run identifier: a UUID other than nil. *)
Definition claimed_uuid (text : string) : result UUID :=
  match uuid_Parse text with
  | Some u => if u == uuid_Nil then Err ErrAgentDelegateInvalid else Ok u
  | None => Err ErrAgentDelegateInvalid
  end.

Definition DelegateService_Authenticate (s : DelegateService) (raw : string) (now : Time) (a : AgentDB) (d : AccessDB) : result Principal :=
  match CutPrefix raw AgentDelegatePrefix with
  | None | Some "" => Err ErrAgentDelegateInvalid
  | Some encoded =>
      match jwt_parse (delegate_key s) now encoded with
      | JwtExpired => Err ErrAgentDelegateExpired
      | JwtInvalid => Err ErrAgentDelegateInvalid
      | JwtValid claims =>
          fail_if (TrimSpace (dc_ID claims) == "") ErrAgentDelegateInvalid;;
          userID ← claimed_uuid (dc_Subject claims);
          runID ← claimed_uuid (dc_RunID claims);
          scopes ← match normalizeDelegateScopes (dc_Scopes claims) with Ok l => Ok l | Err _ => Err ErrAgentDelegateInvalid end;
          _ ← delegate_run runID userID a;
          user ← delegate_user userID d;
          Ok (mkPrincipal user AuthenticationMethodAgentDelegate None "" (Some runID) scopes)
      end
  end.

(** [BearerService.Authenticate]: the prefix decides which service is asked; either may be absent. *)
Definition BearerService_Authenticate (tokens : bool) (delegates : option DelegateService) (raw : string) (now : Time)
    (a : AgentDB) (d : AccessDB) : result Principal * AccessDB :=
  if present (CutPrefix raw AgentDelegatePrefix) then
    match delegates with
    | None => (Err ErrAgentDelegateInvalid, d)
    | Some s => (DelegateService_Authenticate s raw now a d, d)
    end
  else if negb tokens then (Err ErrTokenInvalid, d)
  else Authenticate raw now d.

(** ** Properties *)

Lemma delegate_run_Ok runID userID a run :
  delegate_run runID userID a = Ok run <->
  exists r, agent_run_rows a !! runID = Some r /\ rn_InitiatingUserID (rn_Head r) = userID /\ rn_Status r = RunRunning /\
    run = scanAgentRun r.
Proof.
  unfold delegate_run, GetRunForDelegate, read_run, mbind, St_bind, st_get, st_or_err, st_lift.
  destruct (agent_run_rows a !! runID) as [r|]; cbn; [|by split; [|intros (? & ? & _)]].
  destruct (decide (rn_InitiatingUserID (rn_Head r) = userID)) as [Hu|Hu].
  - rewrite option_guard_True by done. cbn. case_bool_decide as Hs.
    + split; [intros [= <-]; eauto|intros (r' & [= <-] & _ & _ & ->); done].
    + split; [done|intros (r' & [= <-] & _ & ? & _); done].
  - rewrite option_guard_False by done. cbn. split; [done|intros (r' & [= <-] & ? & _); done].
Qed.

Lemma delegate_user_Ok userID d u :
  delegate_user userID d = Ok u <-> access_users d !! userID = Some u /\ u_Active u = true.
Proof.
  unfold delegate_user, UserStore_GetByID. destruct (access_users d !! userID) as [v|]; cbn; [|by split; [|intros [? _]]].
  destruct (u_Active v) eqn:E; cbn; split; [by intros [= <-]|by intros [[= <-] _]|done|intros [[= <-] ?]; congruence].
Qed.

Lemma NewDelegateService_Ok config s :
  NewDelegateService config = Ok s ->
  ds_activeKeyID s <> "" /\ is_Some (ds_signingKeys s !! ds_activeKeyID s) /\ 0 < ds_lifetime s <= AgentDelegateLifetime /\
  map_Forall (fun _ key => 32 <= Z.of_nat (String.length key)) (ds_signingKeys s).
Proof.
  unfold NewDelegateService. cbv zeta. intros Hr. apply bind_Ok in Hr as ([] & Hk%fail_if_Ok & Hr).
  apply bind_Ok in Hr as ([] & Hkeys%fail_if_Ok & Hr). apply bind_Ok in Hr as ([] & Hp%fail_if_Ok & Hr).
  apply bind_Ok in Hr as ([] & Hl%fail_if_Ok & [= <-]). cbn [ds_activeKeyID ds_signingKeys ds_lifetime].
  apply bool_decide_eq_false in Hk. apply negb_false_iff in Hp. split; [done|]. split; [|split].
  - destruct (cfg_SigningKeys config !! _); [by eexists|done].
  - unfold AgentDelegateLifetime in *. destruct (cfg_Lifetime config <=? 0) eqn:E; lia.
  - intros k key Hkey. destruct (decide (32 <= Z.of_nat (String.length key))) as [|Hlt]; [done|]. exfalso.
    assert (existsb (fun kv => (TrimSpace kv.1 == "") || (Z.of_nat (String.length kv.2) <? 32)) (map_to_list (cfg_SigningKeys config)) = true)
      as E; [|congruence].
    apply existsb_exists. exists (k, key). split; [by apply list_elem_of_In, elem_of_map_to_list|]. cbn [fst snd].
    apply orb_true_iff. right. lia.
Qed.

Lemma CutPrefix_Some s p x : CutPrefix s p = Some x -> s = p +:+ x.
Proof.
  revert s. induction p as [|c p IH]; intros s; cbn [CutPrefix].
  - intros E. assert (s = x) as -> by (destruct s; by injection E). reflexivity.
  - destruct s as [|c' s]; [discriminate|]. cbn [CutPrefix]. case_bool_decide as E; [|done]. subst c'. intros ->%IH. done.
Qed.

Lemma claimed_uuid_String u : u <> uuid_Nil -> claimed_uuid (uuid_String u) = Ok u.
Proof. intros Hu. unfold claimed_uuid. rewrite uuid_Parse_String. by rewrite bool_decide_eq_false_2. Qed.

(** A run can act with the credential that was issued for it: until the credential expires, as long as
    the run is running and its user is active, the bearer service accepts it as that user with the run's
    identity and the right to read and write. *)
Theorem delegate_accepted config s runID userID jti now a d raw tokens now' a' d' r u
    (Hs : NewDelegateService config = Ok s) (Hi : DelegateService_Issue s runID userID jti now a d = Ok raw)
    (Hnow : now <= now' < NewNumericDate (now + ds_lifetime s)) (Hnil : runID <> uuid_Nil) (Hnil' : userID <> uuid_Nil)
    (Hr : agent_run_rows a' !! runID = Some r) (Hst : rn_Status r = RunRunning)
    (Hu : access_users d' !! userID = Some u) (Hact : u_Active u = true) :
  BearerService_Authenticate tokens (Some s) raw now' a' d' =
    (if decide (rn_InitiatingUserID (rn_Head r) = userID)
     then Ok (mkPrincipal u AuthenticationMethodAgentDelegate None "" (Some runID) [ScopeWorkRead; ScopeWorkWrite])
     else Err ErrAgentDelegateRun, d').
Proof.
  destruct (NewDelegateService_Ok _ _ Hs) as (Hk & [key Hkey] & _ & _).
  unfold DelegateService_Issue in Hi. apply bind_Ok in Hi as (run & _ & Hi). apply bind_Ok in Hi as (u0 & _ & Hi).
  apply bind_Ok in Hi as (signed & Hsig & [= <-]). rewrite Hkey in Hsig. cbn [default] in Hsig.
  unfold BearerService_Authenticate, DelegateService_Authenticate. rewrite CutPrefix_app. cbn [present].
  pose proof (jwt_sign_nonempty _ _ _ _ Hsig) as Hne. destruct signed as [|ch signed]; [done|].
  rewrite (jwt_parse_accepts (delegate_key s) now' _ _ _ _ Hsig).
  - unfold delegate_claims. cbn [dc_ID dc_Subject dc_RunID dc_Scopes].
    rewrite (bool_decide_eq_false_2 (TrimSpace _ = _)) by apply uuid_String_nonblank. cbn [fail_if].
    unfold mbind, result_mbind. rewrite !claimed_uuid_String by done.
    change (normalizeDelegateScopes [ScopeWorkRead; ScopeWorkWrite]) with (Ok [ScopeWorkRead; ScopeWorkWrite]). cbv beta iota.
    assert (delegate_user userID d' = Ok u) as -> by (by apply delegate_user_Ok).
    destruct (decide _) as [Heq|Hne'].
    + assert (delegate_run runID userID a' = Ok (scanAgentRun r)) as -> by (apply delegate_run_Ok; eauto). done.
    + destruct (delegate_run runID userID a') as [x|e] eqn:Hd.
      * apply delegate_run_Ok in Hd as (r' & Hr' & Hx & _). congruence.
      * assert (e = ErrAgentDelegateRun) as ->; [|done]. unfold delegate_run in Hd.
        destruct (GetRunForDelegate runID userID a').1; [case_match|]; congruence.
  - unfold delegate_key. cbn [jh_Method jh_KeyID]. rewrite (bool_decide_eq_true_2 (HS256 = HS256)) by done. cbn.
    destruct (ds_activeKeyID s); [done|]. by rewrite Hkey.
  - unfold claims_valid, delegate_claims. cbn [dc_Issuer dc_Audience dc_ExpiresAt dc_NotBefore dc_IssuedAt].
    rewrite !bool_decide_eq_true_2 by (done || by left). cbn [andb].
    assert (NewNumericDate now <= now') by (unfold NewNumericDate; pose proof (Z.mod_pos_bound now 1000000); lia).
    repeat (apply andb_true_iff; split); lia.
Qed.

(** What an accepted credential proves. *)
Lemma delegate_Ok s raw now a d p :
  DelegateService_Authenticate s raw now a d = Ok p ->
  exists encoded claims key runID r, CutPrefix raw AgentDelegatePrefix = Some encoded /\
    jwt_parse (delegate_key s) now encoded = JwtValid claims /\ jwt_signed key encoded claims /\ (exists kid, ds_signingKeys s !! kid = Some key) /\ claims_valid now claims = true /\
    uuid_Parse (dc_RunID claims) = Some runID /\ uuid_Parse (dc_Subject claims) = Some (rn_InitiatingUserID (rn_Head r)) /\
    agent_run_rows a !! runID = Some r /\ rn_Status r = RunRunning /\
    access_users d !! rn_InitiatingUserID (rn_Head r) = Some (pp_User p) /\ u_Active (pp_User p) = true /\
    pp_AgentRunID p = Some runID /\ pp_Method p = AuthenticationMethodAgentDelegate /\ pp_Scopes p = [ScopeWorkRead; ScopeWorkWrite].
Proof.
  unfold DelegateService_Authenticate. destruct (CutPrefix raw AgentDelegatePrefix) as [[|ch encoded]|] eqn:Hc; [done| |done].
  destruct (jwt_parse _ now _) as [claims| |] eqn:Hj; [|done|done]. intros Hr.
  destruct (jwt_parse_signed _ _ _ _ Hj) as (h & key & _ & Hk & Hsig & Hv).
  apply bind_Ok in Hr as ([] & _ & Hr). apply bind_Ok in Hr as (userID & Huser & Hr). apply bind_Ok in Hr as (runID & Hrun & Hr).
  apply bind_Ok in Hr as (scopes & Hscopes & Hr). apply bind_Ok in Hr as (run & (r & Hrow & <- & Hst & ->)%delegate_run_Ok & Hr).
  apply bind_Ok in Hr as (u & [Hu Ha]%delegate_user_Ok & [= <-]).
  exists (String ch encoded), claims, key, runID, r. unfold claimed_uuid in *.
  destruct (uuid_Parse (dc_Subject claims)) as [x|]; [|done]. case_bool_decide; [done|]. injection Huser as ->.
  destruct (uuid_Parse (dc_RunID claims)) as [y|]; [|done]. case_bool_decide; [done|]. injection Hrun as ->.
  split_and!; try done.
  - unfold delegate_key in Hk. apply bind_Ok in Hk as ([] & _ & Hk). destruct (jh_KeyID h) as [[|c kid]|]; [done| |done].
    exists (String c kid). destruct (ds_signingKeys s !! String c kid); [by injection Hk as ->|done].
  - unfold normalizeDelegateScopes in Hscopes. cbn [pp_Scopes]. case_match eqn:E; [|done]. injection Hscopes as <-.
    apply bind_Ok in E as ([] & _ & E). apply bind_Ok in E as ([] & _ & E). apply bind_Ok in E as ([] & _ & E). by injection E as <-.
Qed.

(** A credential acts only for the running run of its user: what is accepted was signed with a key of
    the service and has not expired, names a run that is running and that the acting user started, and
    that user is active; it may read and write, and nothing else is granted. *)
Theorem delegate_sound s raw now a d p (Ha : DelegateService_Authenticate s raw now a d = Ok p) :
  exists encoded claims key runID r e, raw = AgentDelegatePrefix +:+ encoded /\ jwt_signed key encoded claims /\
    (exists kid, ds_signingKeys s !! kid = Some key) /\ dc_ExpiresAt claims = Some e /\ now < e /\
    uuid_Parse (dc_RunID claims) = Some runID /\ pp_AgentRunID p = Some runID /\
    agent_run_rows a !! runID = Some r /\ rn_Status r = RunRunning /\
    access_users d !! rn_InitiatingUserID (rn_Head r) = Some (pp_User p) /\ u_Active (pp_User p) = true /\
    (forall scope, HasScope p scope = true <-> scope = ScopeWorkRead \/ scope = ScopeWorkExecute \/ scope = ScopeWorkWrite).
Proof.
  destruct (delegate_Ok _ _ _ _ _ _ Ha) as (encoded & claims & key & runID & r & Hc & _ & Hsig & Hk & Hv & Hrun & Hsub & Hrow & Hst & Hu & Hact & Hid & Hm & Hsc).
  unfold claims_valid in Hv. apply andb_true_iff in Hv as [Hv _]. apply andb_true_iff in Hv as [Hv _]. apply andb_true_iff in Hv as [_ He].
  destruct (dc_ExpiresAt claims) as [e|] eqn:Hexp; [|done].
  exists encoded, claims, key, runID, r, e. split_and!; try done; [by apply CutPrefix_Some|lia|].
  intros scope. unfold HasScope. rewrite Hsc. cbn [existsb]. rewrite !orb_true_iff, !andb_true_iff, !orb_true_iff, !bool_decide_eq_true.
  naive_solver.
Qed.

(** Delegated access ends with the run: once a run has succeeded, failed or been cancelled, whatever
    happens to the runs afterwards, every credential for that run is refused, even one that has not
    expired. *)
Theorem delegate_ends_with_run `{AgentTexts} s cs a id r encoded claims now d
    (Hw : agent_wf a) (Hr : agent_run_rows a !! id = Some r) (Ht : Run_IsTerminal (scanAgentRun r) = true)
    (Hj : jwt_parse (delegate_key s) now encoded = JwtValid claims) (Hid : uuid_Parse (dc_RunID claims) = Some id) :
  exists e, DelegateService_Authenticate s (AgentDelegatePrefix +:+ encoded) now (agent_steps cs a) d = Err e.
Proof.
  destruct (DelegateService_Authenticate _ _ _ _ _) as [p|e] eqn:Ha; [exfalso|by eexists].
  destruct (delegate_Ok _ _ _ _ _ _ Ha) as (encoded' & claims' & _ & runID & r' & Hc & Hj' & _ & _ & _ & Hrun & _ & Hrow & Hst & _).
  rewrite CutPrefix_app in Hc. injection Hc as <-. rewrite Hj in Hj'. injection Hj' as <-. assert (runID = id) as -> by congruence.
  rewrite (ended_runs_final cs a id r Hw Hr Ht) in Hrow. injection Hrow as <-.
  unfold Run_IsTerminal in Ht. cbn [scanAgentRun rn_Status] in Ht. by rewrite Hst in Ht.
Qed.
End service.

(** ** Examples *)

(** A library that knows one key and one credential. *)
#[local] Existing Instance binary_uuids.
#[local] Instance delegateClaims_eq_dec : EqDecision delegateClaims.
Proof. solve_decision. Defined.
#[local] Instance demo_result_eq_dec : EqDecision (result string).
Proof. solve_decision. Defined.

Definition demo_signing_key : string := "0123456789abcdef0123456789abcdef".
Definition demo_claims : delegateClaims :=
  mkDelegateClaims (demo_uuid_String 100%N) [ScopeWorkRead; ScopeWorkWrite] AgentDelegateIssuer (demo_uuid_String 5%N)
    [AgentDelegateAudience] (Some 300000000) (Some 0) (Some 0) (demo_uuid_String 9%N).

#[local] Instance demo_jwt : JwtLibrary.
Proof.
  refine {| jwt_sign := fun key kid c => if decide (key = demo_signing_key /\ kid = "k1" /\ c = demo_claims) then Ok "token" else Err ErrOther;
            jwt_parse := fun keyfunc now s =>
              if decide (s = "token" /\ keyfunc (mkJwtHeader HS256 (Some "k1")) = Ok demo_signing_key /\ claims_valid now demo_claims = true)
              then JwtValid demo_claims else JwtInvalid;
            jwt_signed := fun key s c => key = demo_signing_key /\ s = "token" /\ c = demo_claims |}.
  - intros keyfunc now s c. case_decide as Hd; [|discriminate]. intros [= <-]. destruct Hd as (-> & Hk & Hv).
    exists (mkJwtHeader HS256 (Some "k1")), demo_signing_key. by split_and!.
  - intros keyfunc now key kid c s. case_decide as Hd; [|discriminate]. intros [= <-]. destruct Hd as (-> & -> & ->). intros Hk Hv.
    by rewrite decide_True.
  - intros key kid c s. case_decide; [|discriminate]. by intros [= <-].
Defined.
#[local] Existing Instance plain_texts.

Definition demo_config : DelegateConfig := mkDelegateConfig "k1" {["k1" := demo_signing_key]} 0.
Definition demo_service : DelegateService := mkDelegateService "k1" {["k1" := demo_signing_key]} AgentDelegateLifetime.
Definition demo_user_row : User := mkUser 5%N "Ada" None None PlatformRoleMember AccessStatusApproved [] true 1 1.
Definition demo_users : AccessDB := mkAccessDB ∅ {[5%N := demo_user_row]}.
Definition demo_credential : string := AgentDelegatePrefix +:+ "token".

Lemma delegate_accepted_witness :
  BearerService_Authenticate true (Some demo_service) demo_credential 6000 demo_running demo_users =
    (Ok (mkPrincipal demo_user_row AuthenticationMethodAgentDelegate None "" (Some 100%N) [ScopeWorkRead; ScopeWorkWrite]), demo_users).
Proof.
  apply (delegate_accepted demo_config demo_service 100%N 5%N 9%N 5000 demo_running demo_users demo_credential true 6000 demo_running
    demo_users (demo_row demo_running) demo_user_row);
    [reflexivity|vm_compute; reflexivity|vm_compute; split; congruence|discriminate|discriminate|exact demo_running_row
    |vm_compute; reflexivity|reflexivity|reflexivity].
Defined.

Definition demo_delegate : Principal :=
  mkPrincipal demo_user_row AuthenticationMethodAgentDelegate None "" (Some 100%N) [ScopeWorkRead; ScopeWorkWrite].

Lemma delegate_sound_witness :
  exists encoded claims key runID r e, demo_credential = AgentDelegatePrefix +:+ encoded /\ jwt_signed key encoded claims /\
    (exists kid, ds_signingKeys demo_service !! kid = Some key) /\ dc_ExpiresAt claims = Some e /\ 6000 < e /\
    uuid_Parse (dc_RunID claims) = Some runID /\ pp_AgentRunID demo_delegate = Some runID /\
    agent_run_rows demo_running !! runID = Some r /\ rn_Status r = RunRunning /\
    access_users demo_users !! rn_InitiatingUserID (rn_Head r) = Some (pp_User demo_delegate) /\ u_Active (pp_User demo_delegate) = true /\
    (forall scope, HasScope demo_delegate scope = true <-> scope = ScopeWorkRead \/ scope = ScopeWorkExecute \/ scope = ScopeWorkWrite).
Proof. apply (delegate_sound demo_service demo_credential 6000 demo_running demo_users demo_delegate). vm_compute. reflexivity. Defined.

Lemma delegate_ends_with_run_witness :
  exists e, DelegateService_Authenticate demo_service demo_credential 6000 (agent_steps demo_start demo_ended) demo_users = Err e.
Proof.
  apply (delegate_ends_with_run demo_service demo_start demo_ended 100%N (demo_row demo_ended) "token" demo_claims 6000 demo_users);
    [exact demo_ended_wf|exact demo_ended_row|vm_compute; reflexivity|vm_compute; reflexivity|vm_compute; reflexivity].
Defined.
