(* ===== verification/Membership.v ===== *)
(** * Project memberships and access to projects

    internal/domain/project_membership.go, internal/store/project_membership_store.go with the table
    project_memberships of migration 0018, and internal/application/project_access.go. *)

From stdpp Require Import base tactics strings gmap list numbers sorting.
From S2P Require Import Prelude Actors State Http Access.

(** ** The entities *)

Definition ProjectRole := string.
Definition ProjectRoleAdmin : ProjectRole := "admin".
Definition ProjectRoleMember : ProjectRole := "member".
Definition ProjectRole_Valid (r : ProjectRole) : bool := (r == ProjectRoleAdmin) || (r == ProjectRoleMember).

Record UserRef := mkUserRef { ur_ID : UUID; ur_Name : string; ur_Email : option string }.
Record ProjectMembership := mkProjectMembership {
  pm_ID : UUID;
  pm_ProjectID : UUID;
  pm_User : UserRef;
  pm_Role : ProjectRole;
  pm_Active : bool;
  pm_CreatedAt : Time;
  pm_UpdatedAt : Time;
}.
Definition ProjectMembership_Validate (m : ProjectMembership) : result unit :=
  fail_if ((pm_ID m == uuid_Nil) || (pm_ProjectID m == uuid_Nil) || (ur_ID (pm_User m) == uuid_Nil) ||
           negb (ProjectRole_Valid (pm_Role m))) ErrInvalidInput.

Record ProjectAccessSubject := mkProjectAccessSubject { sj_UserID : UUID; sj_PlatformRole : PlatformRole }.
Definition IsPlatformAdministrator (s : ProjectAccessSubject) : bool := sj_PlatformRole s == PlatformRoleAdmin.

(** ** The tables *)

(** Of a project, what the memberships and the access to it depend on. *)
Record ProjectRow := mkProjectRow { pj_id : UUID; pj_number : Z; pj_version : Z; pj_archived_at : option Time }.
Record MembershipRow := mkMembershipRow {
  mr_id : UUID;
  mr_project_id : UUID;
  mr_user_id : UUID;
  mr_role : ProjectRole;
  mr_created_at : Time;
  mr_updated_at : Time;
}.
(** A row of business_audit_events; the JSON of a value holds a user and a role. *)
Record MembershipAudit := mkMembershipAudit {
  ma_ID : UUID;
  ma_OccurredAt : Time;
  ma_Actor : OperationActor;
  ma_EntityType : string;
  ma_EntityID : UUID;
  ma_Action : string;
  ma_OldValue : option (UUID * ProjectRole);
  ma_NewValue : option (UUID * ProjectRole);
}.
Record ProjectActivityRow := mkProjectActivityRow {
  pa_id : UUID;
  pa_project_id : UUID;
  pa_actor : OperationActor;
  pa_action : string;
  pa_old_value : option string;
  pa_new_value : option string;
}.

(** Of the Tasks, their numbers and projects. *)
Record MemberDB := mkMemberDB {
  mb_projects : gmap UUID ProjectRow;
  mb_memberships : gmap UUID MembershipRow;
  mb_users : gmap UUID User;
  mb_tokens : gset UUID;
  mb_tasks : gmap Z UUID;
  mb_audit : list MembershipAudit;
  mb_activity : list ProjectActivityRow;
}.
Definition MemberM (X : Type) : Type := St MemberDB X.

Definition set_projects (x : gmap UUID ProjectRow) (d : MemberDB) : MemberDB :=
  mkMemberDB x (mb_memberships d) (mb_users d) (mb_tokens d) (mb_tasks d) (mb_audit d) (mb_activity d).
Definition set_memberships (x : gmap UUID MembershipRow) (d : MemberDB) : MemberDB :=
  mkMemberDB (mb_projects d) x (mb_users d) (mb_tokens d) (mb_tasks d) (mb_audit d) (mb_activity d).
Definition add_membership_audit (e : MembershipAudit) (d : MemberDB) : MemberDB :=
  mkMemberDB (mb_projects d) (mb_memberships d) (mb_users d) (mb_tokens d) (mb_tasks d) (mb_audit d ++ [e]) (mb_activity d).
Definition add_activity (y : ProjectActivityRow) (d : MemberDB) : MemberDB :=
  mkMemberDB (mb_projects d) (mb_memberships d) (mb_users d) (mb_tokens d) (mb_tasks d) (mb_audit d) (mb_activity d ++ [y]).

(** The rows of a table. *)
Definition table_rows {A} (t : gmap UUID A) : list A := snd <$> map_to_list t.

(** The authentication shape of audit and activity rows (migration 0016). *)
Definition auth_shape (o : OperationActor) : bool :=
  if op_AuthMethod o == AuthenticationMethodSession then negb (present (op_TokenID o)) && negb (present (op_AgentRunID o))
  else if op_AuthMethod o == AuthenticationMethodAPIToken then present (op_TokenID o) && negb (present (op_AgentRunID o))
  else if op_AuthMethod o == AuthenticationMethodAgentDelegate then negb (present (op_TokenID o)) && present (op_AgentRunID o)
  else false.
Definition actor_fks (o : OperationActor) (d : MemberDB) : bool :=
  present (mb_users d !! op_UserID o) && match op_TokenID o with Some t => bool_decide (t ∈ mb_tokens d) | None => true end.

(** ** Reads *)

Definition find_membership (projectID userID : UUID) (d : MemberDB) : option MembershipRow :=
  head (filter (fun r => mr_project_id r = projectID /\ mr_user_id r = userID) (table_rows (mb_memberships d))).

Definition scanProjectMembership (r : MembershipRow) (u : User) : ProjectMembership :=
  mkProjectMembership (mr_id r) (mr_project_id r) (mkUserRef (u_ID u) (u_Name u) (u_Email u)) (mr_role r) (u_Active u)
    (mr_created_at r) (mr_updated_at r).

Definition membership_of (projectID userID : UUID) (d : MemberDB) : option ProjectMembership :=
  r ← find_membership projectID userID d; u ← mb_users d !! mr_user_id r; Some (scanProjectMembership r u).
Definition Memberships_Get (projectID userID : UUID) : MemberM ProjectMembership :=
  found ← st_get (membership_of projectID userID); st_or_err found ErrNotFound.

(** ** Statements *)

Definition lockProjectVersion (projectID : UUID) (expected : Z) : MemberM ProjectRow :=
  row ← st_get (fun d => mb_projects d !! projectID);
  p ← st_or_err row ErrNotFound;
  st_fail (pj_version p != expected) (VersionConflictError (pj_version p));;
  mret p.

Definition other_active_admin (projectID excludedUserID : UUID) (d : MemberDB) (r : MembershipRow) : bool :=
  (mr_project_id r == projectID) && (mr_role r == ProjectRoleAdmin) && (mr_user_id r != excludedUserID) &&
  match mb_users d !! mr_user_id r with Some u => u_Active u | None => false end.
Definition requireAnotherActiveProjectAdmin (projectID excludedUserID : UUID) : MemberM unit :=
  count ← st_get (fun d => length (filter (fun r => other_active_admin projectID excludedUserID d r = true) (table_rows (mb_memberships d))));
  st_fail (Z.of_nat count =? 0) ErrConflict.

(** [version+1] of a bigint fails when it overflows. *)
Definition bumpProjectVersion (projectID : UUID) (version : Z) : MemberM Z :=
  row ← st_get (fun d => mb_projects d !! projectID);
  p ← st_or_err row ErrOther;
  st_fail ((pj_version p != version) || (version =? MaxInt64)) ErrOther;;
  st_mod (fun d => set_projects (<[projectID := mkProjectRow (pj_id p) (pj_number p) (version + 1) (pj_archived_at p)]> (mb_projects d)) d);;
  mret (version + 1).

Definition insert_membership (r : MembershipRow) : MemberM unit :=
  st_fail (negb (ProjectRole_Valid (mr_role r))) ErrInvalidInput;;
  d ← st_get id;
  st_fail (present (mb_memberships d !! mr_id r) || present (find_membership (mr_project_id r) (mr_user_id r) d)) ErrConflict;;
  st_fail (negb (present (mb_projects d !! mr_project_id r) && present (mb_users d !! mr_user_id r))) ErrInvalidInput;;
  st_mod (fun d => set_memberships (<[mr_id r := r]> (mb_memberships d)) d).

Definition with_role (role : ProjectRole) (now : Time) (r : MembershipRow) : MembershipRow :=
  mkMembershipRow (mr_id r) (mr_project_id r) (mr_user_id r) role (mr_created_at r) now.
Definition update_role (r : MembershipRow) (role : ProjectRole) (now : Time) : MemberM UUID :=
  st_fail (negb (ProjectRole_Valid role)) ErrInvalidInput;;
  st_mod (fun d => set_memberships (<[mr_id r := with_role role now r]> (mb_memberships d)) d);;
  mret (mr_id r).

(** [strPtrOrNil] *)
Definition null_if_empty (s : string) : option string := if s == "" then None else Some s.

(** The identifiers that the code draws are arguments. *)
Definition recordProjectMembershipAudit (auditID activityID projectID membershipID targetUserID : UUID)
    (oldRole newRole : ProjectRole) (action : string) (actor : OperationActor) (now : Time) : MemberM unit :=
  let oldValue := if action == "add" then None else Some (targetUserID, oldRole) in
  let newValue := if action == "remove" then None else Some (targetUserID, newRole) in
  st_lift (OperationActor_Validate actor);;
  st_fail (Time_IsZero now || (membershipID == uuid_Nil) || (action == "")) ErrOther;;
  d ← st_get id;
  st_fail (negb (auth_shape actor) || negb (actor_fks actor d) || bool_decide (auditID ∈ (ma_ID <$> mb_audit d))) ErrOther;;
  st_mod (add_membership_audit (mkMembershipAudit auditID now actor "project_membership" membershipID action oldValue newValue));;
  d ← st_get id;
  st_fail (negb (auth_shape actor) || negb (actor_fks actor d) || negb (present (mb_projects d !! projectID)) ||
           bool_decide (activityID ∈ (pa_id <$> mb_activity d))) ErrOther;;
  st_mod (add_activity (mkProjectActivityRow activityID projectID actor ("project_membership_" +:+ action)
    (null_if_empty oldRole) (null_if_empty newRole))).

(** ** Operations *)

Record Ids := mkIds { id_membership : UUID; id_audit : UUID; id_activity : UUID }.

Definition mutate_tx (ids : Ids) (projectID userID : UUID) (role : ProjectRole) (expectedProjectVersion : Z)
    (actor : OperationActor) (mode : string) (now : Time) : MemberM Z :=
  project ← lockProjectVersion projectID expectedProjectVersion;
  row ← st_get (fun d => mb_users d !! userID);
  user ← st_or_err row ErrNotFound;
  st_fail (negb (u_Active user)) ErrInvalidInput;;
  existing ← st_get (find_membership projectID userID);
  st_fail ((mode == "add") && present existing) ErrConflict;;
  st_fail ((mode == "change") && negb (present existing)) ErrNotFound;;
  let oldRole := match existing with Some r => mr_role r | None => "" end in
  (if (mode == "change") && (oldRole == ProjectRoleAdmin) && (role != ProjectRoleAdmin)
   then requireAnotherActiveProjectAdmin projectID userID else mret tt);;
  membershipID ← (if mode == "add" then
      insert_membership (mkMembershipRow (id_membership ids) projectID userID role now now);; mret (id_membership ids)
    else match existing with Some r => update_role r role now | None => st_throw ErrOther end);
  version ← bumpProjectVersion projectID (pj_version project);
  recordProjectMembershipAudit (id_audit ids) (id_activity ids) projectID membershipID userID oldRole role mode actor now;;
  mret version.

Definition mutate (ids : Ids) (projectID userID : UUID) (role : ProjectRole) (expectedProjectVersion : Z)
    (actor : OperationActor) (mode : string) (now : Time) : MemberM (ProjectMembership * Z) :=
  st_lift (OperationActor_Validate actor);;
  version ← atomically (mutate_tx ids projectID userID role expectedProjectVersion actor mode now);
  membership ← Memberships_Get projectID userID;
  mret (membership, version).

Definition Memberships_Add (ids : Ids) (projectID userID : UUID) (role : ProjectRole) (expectedProjectVersion : Z)
    (actor : OperationActor) (now : Time) : MemberM (ProjectMembership * Z) :=
  st_fail (negb (ProjectRole_Valid role)) ErrInvalidInput;;
  mutate ids projectID userID role expectedProjectVersion actor "add" now.

Definition ChangeRole (ids : Ids) (projectID userID : UUID) (role : ProjectRole) (expectedProjectVersion : Z)
    (actor : OperationActor) (now : Time) : MemberM (ProjectMembership * Z) :=
  st_fail (negb (ProjectRole_Valid role)) ErrInvalidInput;;
  mutate ids projectID userID role expectedProjectVersion actor "change" now.

Definition Memberships_Remove (ids : Ids) (projectID userID : UUID) (expectedProjectVersion : Z) (actor : OperationActor) (now : Time)
    : MemberM Z :=
  st_lift (OperationActor_Validate actor);;
  atomically (
    project ← lockProjectVersion projectID expectedProjectVersion;
    existing ← st_get (find_membership projectID userID);
    r ← st_or_err existing ErrNotFound;
    (if mr_role r == ProjectRoleAdmin then requireAnotherActiveProjectAdmin projectID userID else mret tt);;
    st_mod (fun d => set_memberships (delete (mr_id r) (mb_memberships d)) d);;
    version ← bumpProjectVersion projectID (pj_version project);
    recordProjectMembershipAudit (id_audit ids) (id_activity ids) projectID (mr_id r) userID (mr_role r) "" "remove" actor now;;
    mret version).

(** ** Access *)

Definition ProjectPermission := string.
Definition ProjectPermissionRead : ProjectPermission := "read".
Definition ProjectPermissionWrite : ProjectPermission := "write".
Definition ProjectPermissionAdmin : ProjectPermission := "admin".

Definition RequireProject (project : ProjectRow) (subject : ProjectAccessSubject) (permission : ProjectPermission) : MemberM unit :=
  st_fail (sj_UserID subject == uuid_Nil) ErrForbidden;;
  (if IsPlatformAdministrator subject then mret tt
   else membership ← Memberships_Get (pj_id project) (sj_UserID subject);
        st_fail ((permission == ProjectPermissionAdmin) && (pm_Role membership != ProjectRoleAdmin)) ErrForbidden);;
  st_fail ((permission == ProjectPermissionWrite) && present (pj_archived_at project)) ErrConflict.

Definition project_by_number (number : Z) (d : MemberDB) : option ProjectRow :=
  head (filter (fun p => pj_number p = number) (table_rows (mb_projects d))).
Definition RequireProjectByNumber (number : Z) (subject : ProjectAccessSubject) (permission : ProjectPermission) : MemberM ProjectRow :=
  found ← st_get (project_by_number number);
  project ← st_or_err found ErrNotFound;
  RequireProject project subject permission;;
  mret project.
Definition RequireProjectByID (id : UUID) (subject : ProjectAccessSubject) (permission : ProjectPermission) : MemberM unit :=
  found ← st_get (fun d => mb_projects d !! id);
  project ← st_or_err found ErrNotFound;
  RequireProject project subject permission.
Definition RequireTaskByNumber (number : Z) (subject : ProjectAccessSubject) (permission : ProjectPermission) : MemberM Z :=
  found ← st_get (fun d => id ← mb_tasks d !! number; p ← mb_projects d !! id; Some (pj_number p));
  projectNumber ← st_or_err found ErrNotFound;
  _ ← RequireProjectByNumber projectNumber subject permission;
  mret number.
