(* ===== verification/MembershipProperties.v ===== *)
(** * Properties of project memberships

    A project keeps an administrator, whoever is removed is locked out, and access is exactly what the
    memberships say. *)

From stdpp Require Import base tactics strings gmap list numbers sorting.
From S2P Require Import Prelude Actors State Http Access Membership.

(** ** The tables *)

Record member_wf (d : MemberDB) : Prop := {
  mw_id k r : mb_memberships d !! k = Some r -> mr_id r = k;
  mw_unique k k' r r' : mb_memberships d !! k = Some r -> mb_memberships d !! k' = Some r' ->
    mr_project_id r = mr_project_id r' -> mr_user_id r = mr_user_id r' -> k = k';
  mw_user k r : mb_memberships d !! k = Some r -> is_Some (mb_users d !! mr_user_id r);
  mw_project k p : mb_projects d !! k = Some p -> pj_id p = k;
}.

Lemma elem_of_table {A} (t : gmap UUID A) r : r ∈ table_rows t <-> exists k, t !! k = Some r.
Proof.
  unfold table_rows. rewrite list_elem_of_fmap. split.
  - intros ([k x] & -> & Hin). exists k. by apply elem_of_map_to_list.
  - intros [k Hk]. exists (k, r). split; [done|]. by apply elem_of_map_to_list.
Qed.

Lemma head_filter_Some {A} (P : A -> Prop) `{!forall x, Decision (P x)} l x : head (filter P l) = Some x -> P x /\ x ∈ l.
Proof.
  intros Hh. assert (x ∈ filter P l) as Hin by (destruct (filter P l); [done|]; injection Hh as ->; by left).
  by apply list_elem_of_filter in Hin.
Qed.

Lemma head_filter_None {A} (P : A -> Prop) `{!forall x, Decision (P x)} l : head (filter P l) = None -> forall x, x ∈ l -> ~ P x.
Proof.
  intros Hh x Hx Hp. assert (x ∈ filter P l) as Hin by (by apply list_elem_of_filter). destruct (filter P l); [|done].
  by apply elem_of_nil in Hin.
Qed.

Lemma find_membership_Some d p u r :
  find_membership p u d = Some r -> mr_project_id r = p /\ mr_user_id r = u /\ exists k, mb_memberships d !! k = Some r.
Proof. intros [[? ?] ?%elem_of_table]%head_filter_Some. done. Qed.

Lemma find_membership_None d p u k r :
  find_membership p u d = None -> mb_memberships d !! k = Some r -> ~ (mr_project_id r = p /\ mr_user_id r = u).
Proof. intros Hn Hk. eapply (head_filter_None _ _ Hn). apply elem_of_table. eauto. Qed.

Lemma find_membership_row d k r :
  member_wf d -> mb_memberships d !! k = Some r -> find_membership (mr_project_id r) (mr_user_id r) d = Some r.
Proof.
  intros Hw Hk. destruct (find_membership _ _ d) as [r'|] eqn:Hf.
  - apply find_membership_Some in Hf as (Hp & Hu & k' & Hk'). f_equal.
    assert (k' = k) as -> by (eapply (mw_unique _ Hw); eauto). congruence.
  - exfalso. by eapply find_membership_None.
Qed.

(** ** What the operations do *)

Definition has_other_admin (d : MemberDB) (projectID userID : UUID) : Prop :=
  exists k r u, mb_memberships d !! k = Some r /\ mr_project_id r = projectID /\ mr_role r = ProjectRoleAdmin /\
    mr_user_id r <> userID /\ mb_users d !! mr_user_id r = Some u /\ u_Active u = true.

Lemma requireAnother_Ok p u d x d' :
  requireAnotherActiveProjectAdmin p u d = (Ok x, d') -> d' = d /\ has_other_admin d p u.
Proof.
  unfold requireAnotherActiveProjectAdmin. intros Hr. st_inv. split; [done|].
  destruct (filter _ (table_rows (mb_memberships d'))) as [|r l] eqn:Hf; [done|].
  assert (r ∈ r :: l) as Hin by (by left). rewrite <- Hf in Hin. apply list_elem_of_filter in Hin as [Ho [k Hk]%elem_of_table].
  unfold other_active_admin in Ho. apply andb_true_iff in Ho as [Ho Hu]. go_bool.
  destruct (mb_users d' !! mr_user_id r) as [v|] eqn:Hv; [|done]. exists k, r, v. done.
Qed.

(** The memberships after a successful operation; everything else it writes are versions and records. *)
Definition with_memberships (ms : gmap UUID MembershipRow) (d d' : MemberDB) : Prop :=
  mb_memberships d' = ms /\ mb_users d' = mb_users d /\
  forall k p', mb_projects d' !! k = Some p' -> exists p, mb_projects d !! k = Some p /\ pj_id p' = pj_id p /\ pj_archived_at p' = pj_archived_at p.

(** The optional pair is the project and the user that [Add] was called with. *)
Inductive member_effect (pair : option (UUID * UUID)) (d : MemberDB) : MemberDB -> Prop :=
| me_same : member_effect pair d d
| me_added r d' : pair = Some (mr_project_id r, mr_user_id r) -> find_membership (mr_project_id r) (mr_user_id r) d = None -> mb_memberships d !! mr_id r = None ->
    is_Some (mb_users d !! mr_user_id r) -> with_memberships (<[mr_id r := r]> (mb_memberships d)) d d' -> member_effect pair d d'
| me_changed r role now d' : mb_memberships d !! mr_id r = Some r ->
    (mr_role r = ProjectRoleAdmin -> role <> ProjectRoleAdmin -> has_other_admin d (mr_project_id r) (mr_user_id r)) ->
    with_memberships (<[mr_id r := with_role role now r]> (mb_memberships d)) d d' -> member_effect pair d d'
| me_removed r d' : mb_memberships d !! mr_id r = Some r ->
    (mr_role r = ProjectRoleAdmin -> has_other_admin d (mr_project_id r) (mr_user_id r)) ->
    with_memberships (delete (mr_id r) (mb_memberships d)) d d' -> member_effect pair d d'.

Lemma bump_Ok pid v d x d' :
  bumpProjectVersion pid v d = (Ok x, d') ->
  exists p, mb_projects d !! pid = Some p /\ pj_version p = v /\ x = v + 1 /\
    d' = set_projects (<[pid := mkProjectRow (pj_id p) (pj_number p) (v + 1) (pj_archived_at p)]> (mb_projects d)) d.
Proof. unfold bumpProjectVersion. intros Hr. st_inv. go_bool. naive_solver. Qed.

Lemma record_Ok a y pid mid u o n act actor now d x d' :
  recordProjectMembershipAudit a y pid mid u o n act actor now d = (Ok x, d') ->
  mb_memberships d' = mb_memberships d /\ mb_users d' = mb_users d /\ mb_projects d' = mb_projects d.
Proof. unfold recordProjectMembershipAudit. cbv zeta. intros Hr. st_inv. done. Qed.

(** The end of every operation. *)
Lemma finish_Ok pid v d ver d1 a y mid u o n act actor now x d2 ms :
  bumpProjectVersion pid v (set_memberships ms d) = (Ok ver, d1) ->
  recordProjectMembershipAudit a y pid mid u o n act actor now d1 = (Ok x, d2) -> with_memberships ms d d2.
Proof.
  intros (p & Hp & _ & _ & ->)%bump_Ok (H1 & H2 & H3)%record_Ok. cbn in *. split; [done|]. split; [done|].
  rewrite H3. intros k p' [[<- <-]|[_ Hk]]%lookup_insert_Some; eauto.
Qed.

Lemma insert_membership_Ok r d x d' :
  insert_membership r d = (Ok x, d') ->
  find_membership (mr_project_id r) (mr_user_id r) d = None /\ mb_memberships d !! mr_id r = None /\
  d' = set_memberships (<[mr_id r := r]> (mb_memberships d)) d.
Proof.
  unfold insert_membership. intros Hr. st_inv.
  match goal with Hp : _ || _ = false |- _ => apply orb_false_iff in Hp as [?%present_false ?%present_false] end. done.
Qed.

Lemma update_role_Ok r role now d x d' :
  update_role r role now d = (Ok x, d') -> d' = set_memberships (<[mr_id r := with_role role now r]> (mb_memberships d)) d.
Proof. unfold update_role. intros Hr. by st_inv. Qed.

Lemma find_row_key d p u r : member_wf d -> find_membership p u d = Some r -> mb_memberships d !! mr_id r = Some r.
Proof. intros Hw (_ & _ & k & Hk)%find_membership_Some. by rewrite (mw_id _ Hw _ _ Hk). Qed.

Lemma lockProject_Ok pid v d p d' :
  lockProjectVersion pid v d = (Ok p, d') -> mb_projects d !! pid = Some p /\ pj_version p = v /\ d' = d.
Proof. unfold lockProjectVersion. intros Hr. st_inv. go_bool. done. Qed.

(** Both modes of [mutate]. *)
Lemma mutate_tx_Ok ids pid uid role v actor mode now d x d' :
  mutate_tx ids pid uid role v actor mode now d = (Ok x, d') ->
  exists p u mid d1 d2 old, mb_projects d !! pid = Some p /\ pj_version p = v /\ mb_users d !! uid = Some u /\ u_Active u = true /\
    (mode = "add" -> insert_membership (mkMembershipRow (id_membership ids) pid uid role now now) d = (Ok tt, d1)) /\
    (mode = "change" -> exists r, find_membership pid uid d = Some r /\ update_role r role now d = (Ok mid, d1) /\
       (mr_role r = ProjectRoleAdmin -> role <> ProjectRoleAdmin -> has_other_admin d pid uid)) /\
    bumpProjectVersion pid v d1 = (Ok x, d2) /\
    recordProjectMembershipAudit (id_audit ids) (id_activity ids) pid mid uid old role mode actor now d2 = (Ok tt, d').
Proof.
  unfold mutate_tx. intros Hr.
  apply St_bind_Ok in Hr as (p & d0 & (Hp & Hv & ->)%lockProject_Ok & Hr).
  apply St_bind_Ok in Hr as (o & d0 & [Ho <-]%st_get_Ok & Hr). apply St_bind_Ok in Hr as (u & d0 & [-> <-]%st_or_err_Ok & Hr).
  apply St_bind_Ok in Hr as ([] & d0 & [Hact%negb_false_iff <-]%st_fail_Ok & Hr).
  apply St_bind_Ok in Hr as (ex & d0 & [Hex <-]%st_get_Ok & Hr).
  apply St_bind_Ok in Hr as ([] & d0 & [_ <-]%st_fail_Ok & Hr). apply St_bind_Ok in Hr as ([] & d0 & [Hch <-]%st_fail_Ok & Hr).
  cbv zeta in Hr. apply St_bind_Ok in Hr as ([] & d0 & Hadm & Hr). apply St_bind_Ok in Hr as (mid & d1 & Hm & Hr).
  apply St_bind_Ok in Hr as (ver & d2 & Hb & Hr). apply St_bind_Ok in Hr as ([] & d3 & Hrec & [-> ->]%St_ret_Ok).
  assert (d0 = d /\ (mode = "change" -> forall r, ex = Some r -> mr_role r = ProjectRoleAdmin -> role <> ProjectRoleAdmin ->
    has_other_admin d pid uid)) as [-> Hother].
  { destruct ((mode == "change") && (match ex with Some r => mr_role r | None => "" end == ProjectRoleAdmin) &&
      (role != ProjectRoleAdmin)) eqn:Hg.
    - apply requireAnother_Ok in Hadm as [-> Ho']. done.
    - apply St_ret_Ok in Hadm as [_ <-]. split; [done|]. intros -> r -> Hr1 Hr2. exfalso.
      rewrite Hr1, (bool_decide_eq_true_2 ("change" = "change")), (bool_decide_eq_true_2 (ProjectRoleAdmin = ProjectRoleAdmin)),
        (bool_decide_eq_false_2 (role = _)) in Hg by done. done. }
  exists p, u, mid, d1, d2, (match ex with Some r => mr_role r | None => "" end). subst v. split_and!; try done.
  - intros ->. rewrite (bool_decide_eq_true_2 ("add" = "add")) in Hm by done.
    by apply St_bind_Ok in Hm as ([] & d4 & Hi & [_ <-]%St_ret_Ok).
  - intros ->. rewrite (bool_decide_eq_false_2 ("change" = "add")) in Hm by done. destruct ex as [r|]; [|done].
    exists r. split_and!; try done. by apply Hother.
Qed.

Lemma mutate_effect ids pid uid role v actor mode now d x d' :
  mode = "add" \/ mode = "change" -> member_wf d -> mutate_tx ids pid uid role v actor mode now d = (Ok x, d') ->
  member_effect (if mode == "add" then Some (pid, uid) else None) d d'.
Proof.
  intros Hmode Hw (p & u & mid & d1 & d2 & old & _ & _ & Hu & _ & Hadd & Hch & Hb & Hrec)%mutate_tx_Ok. destruct Hmode as [-> | ->].
  - destruct (insert_membership_Ok _ _ _ _ (Hadd eq_refl)) as (Hf & Hn & ->).
    apply (me_added _ _ (mkMembershipRow (id_membership ids) pid uid role now now)); [reflexivity|exact Hf|exact Hn|by eexists|]. by eapply finish_Ok.
  - destruct (Hch eq_refl) as (r & Hf & Hup & Ho). apply update_role_Ok in Hup as ->.
    pose proof (find_row_key _ _ _ _ Hw Hf) as Hk. apply find_membership_Some in Hf as (<- & <- & _).
    eapply me_changed; [exact Hk|exact Ho|]. by eapply finish_Ok.
Qed.

Lemma remove_effect ids pid uid v actor now d x d' :
  member_wf d -> Memberships_Remove ids pid uid v actor now d = (Ok x, d') ->
  member_effect None d d' /\ find_membership pid uid d' = None.
Proof.
  intros Hw Hr. unfold Memberships_Remove in Hr. apply St_bind_Ok in Hr as ([] & d0 & [_ <-]%st_lift_Ok & Hr).
  apply (proj1 (atomically_Ok _ _ _ _)) in Hr. apply St_bind_Ok in Hr as (p & d0 & (Hp & Hv & ->)%lockProject_Ok & Hr).
  apply St_bind_Ok in Hr as (o & d0 & [Ho <-]%st_get_Ok & Hr). apply St_bind_Ok in Hr as (r & d0 & [-> <-]%st_or_err_Ok & Hr).
  apply St_bind_Ok in Hr as ([] & d0 & Hadm & Hr). apply St_bind_Ok in Hr as ([] & d1 & Hd%st_mod_Ok & Hr).
  apply St_bind_Ok in Hr as (ver & d2 & Hb & Hr). apply St_bind_Ok in Hr as ([] & d3 & Hrec & [-> ->]%St_ret_Ok).
  assert (d0 = d /\ (mr_role r = ProjectRoleAdmin -> has_other_admin d pid uid)) as [-> Hother].
  { case_bool_decide; [by apply requireAnother_Ok in Hadm as [-> ?]|by apply St_ret_Ok in Hadm as [_ <-]]. }
  subst d1. pose proof (find_row_key _ _ _ _ Hw Ho) as Hk. pose proof (finish_Ok _ _ _ _ _ _ _ _ _ _ _ _ _ _ _ _ _ Hb Hrec) as Hfin.
  apply find_membership_Some in Ho as (<- & <- & _). split; [by eapply me_removed|].
  destruct (find_membership (mr_project_id r) (mr_user_id r) d') as [r'|] eqn:Hf; [exfalso|done].
  apply find_membership_Some in Hf as (H1 & H2 & k & Hk'). destruct Hfin as [Hms _]. rewrite Hms in Hk'.
  apply lookup_delete_Some in Hk' as [Hne Hk']. apply Hne. eapply (mw_unique _ Hw); eauto.
Qed.

(** ** Sequences *)

Inductive MemberCommand :=
| MAdd (ids : Ids) (projectID userID : UUID) (role : ProjectRole) (expected : Z) (actor : OperationActor) (now : Time)
| MChangeRole (ids : Ids) (projectID userID : UUID) (role : ProjectRole) (expected : Z) (actor : OperationActor) (now : Time)
| MRemove (ids : Ids) (projectID userID : UUID) (expected : Z) (actor : OperationActor) (now : Time).

Definition member_step (c : MemberCommand) (d : MemberDB) : MemberDB :=
  match c with
  | MAdd ids p u role v actor now => (Memberships_Add ids p u role v actor now d).2
  | MChangeRole ids p u role v actor now => (ChangeRole ids p u role v actor now d).2
  | MRemove ids p u v actor now => (Memberships_Remove ids p u v actor now d).2
  end.
Definition member_steps (cs : list MemberCommand) (d : MemberDB) : MemberDB := foldl (fun d c => member_step c d) d cs.

(** The tables after [Add] and [ChangeRole] are those after the transaction. *)
Lemma mutate_state ids pid uid role v actor mode now d :
  (mutate ids pid uid role v actor mode now d).2 = d \/
  exists x, mutate_tx ids pid uid role v actor mode now d = (Ok x, (mutate ids pid uid role v actor mode now d).2).
Proof.
  unfold mutate, mbind, St_bind, st_lift. destruct (OperationActor_Validate actor); [|by left]. cbn [snd].
  unfold atomically. destruct (mutate_tx ids pid uid role v actor mode now d) as [[x|e] d']; [right|by left]. exists x.
  unfold Memberships_Get, mbind, St_bind, st_get, st_or_err, st_lift. by destruct (membership_of pid uid d').
Qed.

Definition added_by (c : MemberCommand) : option (UUID * UUID) :=
  match c with MAdd _ p u _ _ _ _ => Some (p, u) | _ => None end.

Lemma member_step_effect c d : member_wf d -> member_effect (added_by c) d (member_step c d).
Proof.
  intros Hw. destruct c as [ids p u role v actor now|ids p u role v actor now|ids p u v actor now]; cbn [member_step added_by].
  - unfold Memberships_Add, mbind, St_bind, st_fail, st_lift. destruct (negb _); cbn [fail_if]; [constructor|].
    destruct (mutate_state ids p u role v actor "add" now d) as [E | [x Hm]]; [rewrite E; constructor|]. exact (mutate_effect _ _ _ _ _ _ _ _ _ _ _ (or_introl eq_refl) Hw Hm).
  - unfold ChangeRole, mbind, St_bind, st_fail, st_lift. destruct (negb _); cbn [fail_if]; [constructor|].
    destruct (mutate_state ids p u role v actor "change" now d) as [E | [x Hm]]; [rewrite E; constructor|]. exact (mutate_effect _ _ _ _ _ _ _ _ _ _ _ (or_intror eq_refl) Hw Hm).
  - destruct (Memberships_Remove ids p u v actor now d) as [[x|e] d'] eqn:Hr; cbn [snd].
    + by eapply remove_effect.
    + unfold Memberships_Remove, mbind, St_bind, st_lift in Hr. destruct (OperationActor_Validate actor); [|injection Hr as <- <-; constructor].
      apply atomically_Err in Hr as ->. constructor.
Qed.

Lemma member_effect_wf pair d d' : member_wf d -> member_effect pair d d' -> member_wf d'.
Proof.
  intros Hw [|r d1 _ Hf Hn Hu (Hm & Hus & Hp)|r role now d1 Hk _ (Hm & Hus & Hp)|r d1 Hk _ (Hm & Hus & Hp)]; [done|..];
    (split; rewrite ?Hm, ?Hus; [..|intros k p' (p & Hp' & -> & _)%Hp; by apply (mw_project _ Hw)]).
  - intros k x [[<- <-]|[_ Hx]]%lookup_insert_Some; [done|by apply (mw_id _ Hw)].
  - intros k k' x x' [[<- <-]|[Hne Hx]]%lookup_insert_Some [[<- <-]|[Hne' Hx']]%lookup_insert_Some E1 E2; [done| | |by eapply (mw_unique _ Hw)].
    + exfalso. by eapply (find_membership_None d).
    + exfalso. by eapply (find_membership_None d).
  - intros k x [[<- <-]|[_ Hx]]%lookup_insert_Some; [done|by eapply (mw_user _ Hw)].
  - intros k x [[<- <-]|[_ Hx]]%lookup_insert_Some; [done|by apply (mw_id _ Hw)].
  - intros k k' x x' [[<- <-]|[Hne Hx]]%lookup_insert_Some [[<- <-]|[Hne' Hx']]%lookup_insert_Some E1 E2; [done| | |by eapply (mw_unique _ Hw)].
    + exact (mw_unique _ Hw _ _ _ _ Hk Hx' E1 E2).
    + exact (mw_unique _ Hw _ _ _ _ Hx Hk E1 E2).
  - intros k x [[<- <-]|[_ Hx]]%lookup_insert_Some; [exact (mw_user _ Hw _ _ Hk)|by eapply (mw_user _ Hw)].
  - intros k x [_ Hx]%lookup_delete_Some. by apply (mw_id _ Hw).
  - intros k k' x x' [_ Hx]%lookup_delete_Some [_ Hx']%lookup_delete_Some. by apply (mw_unique _ Hw).
  - intros k x [_ Hx]%lookup_delete_Some. by eapply (mw_user _ Hw).
Qed.

Lemma member_step_wf c d : member_wf d -> member_wf (member_step c d).
Proof. intros Hw. eapply member_effect_wf; [done|by apply member_step_effect]. Qed.

Lemma member_steps_ind (P : MemberDB -> Prop) (ok : MemberCommand -> Prop) cs d :
  (forall c d, ok c -> member_wf d -> P d -> P (member_step c d)) -> Forall ok cs -> member_wf d -> P d -> P (member_steps cs d).
Proof.
  intros Hstep Hcs. revert d. induction Hcs as [|c cs Hc _ IH]; intros d Hw HP; [done|]. cbn.
  apply IH; [by apply member_step_wf|by apply Hstep].
Qed.

(** ** Administrators *)

Definition has_active_admin (d : MemberDB) (projectID : UUID) : Prop :=
  exists k r u, mb_memberships d !! k = Some r /\ mr_project_id r = projectID /\ mr_role r = ProjectRoleAdmin /\
    mb_users d !! mr_user_id r = Some u /\ u_Active u = true.

Lemma has_active_admin_kept d d' ms k r u :
  with_memberships ms d d' -> ms !! k = Some r -> mr_role r = ProjectRoleAdmin -> mb_users d !! mr_user_id r = Some u ->
  u_Active u = true -> has_active_admin d' (mr_project_id r).
Proof. intros (Hm & Hu & _) Hk Hr Hus Ha. exists k, r, u. by rewrite Hm, Hu. Qed.

Lemma other_admin_kept d d' ms pid k uid r0 :
  member_wf d -> has_other_admin d pid uid -> mb_memberships d !! k = Some r0 -> mr_user_id r0 = uid ->
  (forall k', k' <> k -> ms !! k' = mb_memberships d !! k') -> with_memberships ms d d' -> has_active_admin d' pid.
Proof.
  intros Hw (k2 & r & u & Hk & <- & Hr & Hne & Hu & Ha) H0 <- Hms Hd. eapply has_active_admin_kept; try done.
  rewrite Hms; [exact Hk|]. intros ->. congruence.
Qed.

Lemma member_effect_admin pair d d' pid : member_wf d -> member_effect pair d d' -> has_active_admin d pid -> has_active_admin d' pid.
Proof.
  intros Hw He (k & r & u & Hk & <- & Hr & Hu & Ha).
  destruct He as [|r0 d1 _ _ Hn _ Hd|r0 role now d1 H0 Ho Hd|r0 d1 H0 Ho Hd].
  - by exists k, r, u.
  - eapply has_active_admin_kept; [exact Hd| |done..]. rewrite lookup_insert_ne; [exact Hk|]. intros <-. congruence.
  - destruct (decide (mr_id r0 = k)) as [<-|Hne].
    + assert (r0 = r) as -> by congruence. destruct (decide (role = ProjectRoleAdmin)) as [-> | Hrole].
      * apply (has_active_admin_kept _ _ _ (mr_id r) (with_role ProjectRoleAdmin now r) u Hd); try done. apply lookup_insert_eq.
      * eapply (other_admin_kept d d1 _ _ _ _ r Hw (Ho Hr Hrole) H0 eq_refl); [|exact Hd]. intros k' Hk'. by apply lookup_insert_ne.
    + eapply has_active_admin_kept; [exact Hd| |done..]. by rewrite lookup_insert_ne.
  - destruct (decide (mr_id r0 = k)) as [<-|Hne].
    + assert (r0 = r) as -> by congruence.
      eapply (other_admin_kept d d1 _ _ _ _ r Hw (Ho Hr) H0 eq_refl); [|exact Hd]. intros k' Hk'. by apply lookup_delete_ne.
    + eapply has_active_admin_kept; [exact Hd| |done..]. by rewrite lookup_delete_ne.
Qed.

(** C24: a project that has an administrator who is an active user keeps one through every sequence of
    additions, role changes and removals, whatever their order, their callers and their outcomes. *)
Theorem project_keeps_administrator cs d projectID :
  member_wf d -> has_active_admin d projectID -> has_active_admin (member_steps cs d) projectID.
Proof.
  intros Hw Ha. apply (member_steps_ind (fun d => has_active_admin d projectID) (fun _ => True)); try done.
  - intros c d0 _ Hw0. eapply member_effect_admin; [done|by apply member_step_effect].
  - by apply Forall_true.
Qed.

(** ** Access *)

Lemma membership_of_row d p u m :
  member_wf d -> membership_of p u d = Some m <-> exists r v, find_membership p u d = Some r /\ mb_users d !! u = Some v /\ m = scanProjectMembership r v.
Proof.
  intros Hw. unfold membership_of. split.
  - intros (r & Hf & (v & Hv & [= <-])%bind_Some)%bind_Some. pose proof (find_membership_Some _ _ _ _ Hf) as (_ & <- & _). eauto.
  - intros (r & v & Hf & Hv & ->). pose proof (find_membership_Some _ _ _ _ Hf) as (_ & <- & _). by rewrite Hf; cbn; rewrite Hv.
Qed.

Lemma membership_of_None d p u : member_wf d -> find_membership p u d = None -> membership_of p u d = None.
Proof. intros _ Hf. unfold membership_of. by rewrite Hf. Qed.

Lemma Memberships_Get_cases d p u :
  Memberships_Get p u d = (match membership_of p u d with Some m => Ok m | None => Err ErrNotFound end, d).
Proof. unfold Memberships_Get, mbind, St_bind, st_get, st_or_err, st_lift. by destruct (membership_of p u d). Qed.

(** The decision, without the state. *)
Definition access_decision (project : ProjectRow) (subject : ProjectAccessSubject) (permission : ProjectPermission)
    (m : option ProjectMembership) : result unit :=
  let write := fail_if ((permission == ProjectPermissionWrite) && present (pj_archived_at project)) ErrConflict in
  if sj_UserID subject == uuid_Nil then Err ErrForbidden
  else if IsPlatformAdministrator subject then write
  else match m with
       | None => Err ErrNotFound
       | Some m => if (permission == ProjectPermissionAdmin) && (pm_Role m != ProjectRoleAdmin) then Err ErrForbidden else write
       end.

Lemma RequireProject_decision project subject permission d :
  RequireProject project subject permission d =
  (access_decision project subject permission (membership_of (pj_id project) (sj_UserID subject) d), d).
Proof.
  unfold RequireProject, access_decision, mbind, St_bind, st_fail, st_lift, fail_if.
  destruct (sj_UserID subject == uuid_Nil); [done|]. destruct (IsPlatformAdministrator subject); [done|].
  rewrite Memberships_Get_cases. destruct (membership_of _ _ d) as [m|]; [|done]. by destruct ((permission == ProjectPermissionAdmin) && _).
Qed.

Lemma write_open project permission :
  fail_if ((permission == ProjectPermissionWrite) && present (pj_archived_at project)) ErrConflict = Ok tt <->
  (permission = ProjectPermissionWrite -> pj_archived_at project = None).
Proof.
  case_bool_decide as Hp; cbn; [|naive_solver]. destruct (pj_archived_at project); naive_solver.
Qed.

(** Access to a project is exactly what the memberships say. A request passes if and only if it has a
    user, that user is a platform administrator or has a membership row of this project, with the admin role
    when administration is asked for, and the project is not archived when a write is asked for. The check
    changes nothing. *)
Theorem access_exact project subject permission d :
  member_wf d ->
  RequireProject project subject permission d = (Ok tt, d) <->
  sj_UserID subject <> uuid_Nil /\
  (sj_PlatformRole subject = PlatformRoleAdmin \/
   exists k r, mb_memberships d !! k = Some r /\ mr_project_id r = pj_id project /\ mr_user_id r = sj_UserID subject /\
     (permission = ProjectPermissionAdmin -> mr_role r = ProjectRoleAdmin)) /\
  (permission = ProjectPermissionWrite -> pj_archived_at project = None).
Proof.
  intros Hw. rewrite RequireProject_decision. transitivity (access_decision project subject permission
    (membership_of (pj_id project) (sj_UserID subject) d) = Ok tt); [split; [by intros [= ->]|by intros ->]|].
  unfold access_decision, IsPlatformAdministrator. cbv zeta. case_bool_decide as Hu; [split; [done|by intros [? _]]|].
  case_bool_decide as Hadm; [rewrite write_open; naive_solver|].
  destruct (membership_of (pj_id project) (sj_UserID subject) d) as [m|] eqn:Hm.
  - apply (membership_of_row _ _ _ _ Hw) in Hm as (r & v & Hf & Hv & ->). cbn [pm_Role scanProjectMembership].
    pose proof (find_membership_Some _ _ _ _ Hf) as (Hp & Hus & k & Hk).
    destruct ((permission == ProjectPermissionAdmin) && (mr_role r != ProjectRoleAdmin)) eqn:Hg; [|rewrite write_open].
    + go_bool. split; [done|]. intros (_ & [? | (k' & r' & Hk' & Hp' & Hu' & Hrole)] & _); [done|].
      pose proof (find_membership_row _ _ _ Hw Hk') as Hf'. rewrite Hp', Hu', Hf in Hf'. injection Hf' as <-. exfalso. auto.
    + split; [|by intros (_ & _ & ?)]. intros Hwr. split_and!; [done| |done]. right. exists k, r. split_and!; try done. intros ->.
      rewrite bool_decide_eq_true_2 in Hg by done. apply negb_false_iff, bool_decide_eq_true in Hg. exact Hg.
  - split; [done|]. intros (_ & [? | (k & r & Hk & Hp & Hus & _)] & _); [done|]. exfalso.
    pose proof (find_membership_row _ _ _ Hw Hk) as Hf. rewrite Hp, Hus in Hf. destruct (mw_user _ Hw _ _ Hk) as [v Hv].
    rewrite Hus in Hv. assert (membership_of (pj_id project) (sj_UserID subject) d = Some (scanProjectMembership r v)) as Hm'
      by (apply membership_of_row; eauto). congruence.
Qed.

(** ** Removal *)

Lemma member_effect_hidden pair d d' p u :
  member_wf d -> member_effect pair d d' -> pair <> Some (p, u) -> find_membership p u d = None -> find_membership p u d' = None.
Proof.
  intros Hw He Hpair Hf. destruct (find_membership p u d') as [r|] eqn:Hf'; [exfalso|done].
  apply find_membership_Some in Hf' as (<- & <- & k & Hk).
  destruct He as [|r0 d1 -> _ _ _ (Hm & _)|r0 role now d1 H0 _ (Hm & _)|r0 d1 H0 _ (Hm & _)]; try rewrite Hm in Hk.
  - by eapply find_membership_None.
  - apply lookup_insert_Some in Hk as [[<- <-]|[_ Hk]]; [done|by eapply find_membership_None].
  - apply lookup_insert_Some in Hk as [[<- <-]|[_ Hk]]; by eapply find_membership_None.
  - apply lookup_delete_Some in Hk as [_ Hk]. by eapply find_membership_None.
Qed.

(** Once a removal has succeeded, the project is hidden from the removed user: whatever membership
    operations follow, until one adds this user to this project again, every request of the user for the
    project, a platform administrator's apart, is answered as if the project did not exist. *)
Theorem removed_member_hidden ids projectID userID expected actor now version d d1 cs permission role :
  member_wf d -> userID <> uuid_Nil -> role <> PlatformRoleAdmin ->
  Memberships_Remove ids projectID userID expected actor now d = (Ok version, d1) ->
  Forall (fun c => added_by c <> Some (projectID, userID)) cs ->
  RequireProjectByID projectID (mkProjectAccessSubject userID role) permission (member_steps cs d1) = (Err ErrNotFound, member_steps cs d1).
Proof.
  intros Hw Hu Hrole Hr Hcs. destruct (remove_effect _ _ _ _ _ _ _ _ _ Hw Hr) as [He Hf].
  pose proof (member_effect_wf _ _ _ Hw He) as Hw1.
  assert (member_wf (member_steps cs d1)) as Hw2 by (eapply member_steps_ind with (ok := fun _ => True); try done;
    [intros; by apply member_step_wf|by apply Forall_true]).
  assert (find_membership projectID userID (member_steps cs d1) = None) as Hf2.
  { apply (member_steps_ind (fun d => find_membership projectID userID d = None) _ cs d1) with (2 := Hcs); try done.
    intros c d0 Hc Hw0. eapply member_effect_hidden; [done|by apply member_step_effect|done]. }
  unfold RequireProjectByID, mbind, St_bind, st_get, st_or_err, st_lift.
  destruct (mb_projects (member_steps cs d1) !! projectID) as [p|] eqn:Hp; [|done].
  rewrite RequireProject_decision. cbn [sj_UserID]. rewrite (mw_project _ Hw2 _ _ Hp), (membership_of_None _ _ _ Hw2 Hf2).
  unfold access_decision, IsPlatformAdministrator. cbn [sj_UserID sj_PlatformRole]. by rewrite !bool_decide_eq_false_2.
Qed.

(** ** Witnesses *)

Definition demo_member (id : UUID) : User :=
  mkUser id "Ada" None None PlatformRoleMember AccessStatusApproved [] true 0 0.
Definition demo_members : MemberDB :=
  mkMemberDB {[7%N := mkProjectRow 7%N 3 1 None]}
    {[21%N := mkMembershipRow 21%N 7%N 11%N ProjectRoleAdmin 0 0; 22%N := mkMembershipRow 22%N 7%N 12%N ProjectRoleMember 0 0]}
    {[11%N := demo_member 11%N; 12%N := demo_member 12%N; 13%N := demo_member 13%N]} ∅ {[5 := 7%N]} [] [].
Definition demo_member_actor : OperationActor := mkOperationActor 11%N AuthenticationMethodSession None "" None "req".

Lemma demo_members_wf : member_wf demo_members.
Proof.
  split; cbn [demo_members mb_memberships mb_projects mb_users].
  - intros k r [[<- <-]|[_ [<- <-]%lookup_singleton_Some]]%lookup_insert_Some; reflexivity.
  - intros k k' r r' [[<- <-]|[_ [<- <-]%lookup_singleton_Some]]%lookup_insert_Some
      [[<- <-]|[_ [<- <-]%lookup_singleton_Some]]%lookup_insert_Some; done.
  - intros k r [[<- <-]|[_ [<- <-]%lookup_singleton_Some]]%lookup_insert_Some; eexists; reflexivity.
  - intros k p [<- <-]%lookup_singleton_Some; reflexivity.
Qed.

(** The only administrator is neither removed nor demoted until there is another one. *)
Definition demo_commands : list MemberCommand :=
  [ MRemove (mkIds 0%N 31%N 41%N) 7%N 11%N 1 demo_member_actor 100;
    MAdd (mkIds 23%N 32%N 42%N) 7%N 13%N ProjectRoleAdmin 1 demo_member_actor 200;
    MChangeRole (mkIds 0%N 33%N 43%N) 7%N 11%N ProjectRoleMember 2 demo_member_actor 300;
    MRemove (mkIds 0%N 34%N 44%N) 7%N 13%N 3 demo_member_actor 400 ].

Example demo_commands_roles : mr_role <$> mb_memberships (member_steps demo_commands demo_members) =
  {[21%N := ProjectRoleMember; 22%N := ProjectRoleMember; 23%N := ProjectRoleAdmin]}.
Proof. vm_compute. reflexivity. Qed.

Lemma project_keeps_administrator_witness : has_active_admin (member_steps demo_commands demo_members) 7%N.
Proof.
  apply project_keeps_administrator; [exact demo_members_wf|].
  exists 21%N, (mkMembershipRow 21%N 7%N 11%N ProjectRoleAdmin 0 0), (demo_member 11%N). split_and!; reflexivity.
Defined.

Lemma access_exact_witness :
  RequireProject (mkProjectRow 7%N 3 1 None) (mkProjectAccessSubject 12%N PlatformRoleMember) ProjectPermissionWrite demo_members
  = (Ok tt, demo_members).
Proof.
  apply (access_exact _ _ _ _ demo_members_wf). split; [discriminate|]. split; [|reflexivity]. right.
  exists 22%N, (mkMembershipRow 22%N 7%N 12%N ProjectRoleMember 0 0). split_and!; [reflexivity..|discriminate].
Defined.

Lemma removed_member_hidden_witness :
  RequireProjectByID 7%N (mkProjectAccessSubject 12%N PlatformRoleMember) ProjectPermissionRead
    (member_steps demo_commands (Memberships_Remove (mkIds 0%N 30%N 40%N) 7%N 12%N 1 demo_member_actor 50 demo_members).2)
  = (Err ErrNotFound, member_steps demo_commands (Memberships_Remove (mkIds 0%N 30%N 40%N) 7%N 12%N 1 demo_member_actor 50 demo_members).2).
Proof.
  apply (removed_member_hidden (mkIds 0%N 30%N 40%N) 7%N 12%N 1 demo_member_actor 50 2 demo_members);
    [exact demo_members_wf|discriminate|discriminate|vm_compute; reflexivity|].
  repeat constructor; discriminate.
Defined.
