(* ===== verification/Events.v ===== *)
(** * Application events and their outbox

    The package internal/events, the table outbox_events of migration 0020 with
    internal/store/event_writer.go, and internal/store/outbox_store.go. *)

From stdpp Require Import base tactics strings gmap list numbers sorting.
From S2P Require Import Prelude Actors State Http.

(** ** Payloads *)

Record CommentPayload := mkCommentPayload {
  cp_ProjectID : UUID;
  cp_TaskID : UUID;
  cp_CommentID : UUID;
  cp_CommentAuthorID : UUID;
  cp_ReplyToCommentID : option UUID;
  cp_OccurredAt : Time;
}.
Record AccessRequestedPayload := mkAccessRequestedPayload {
  rp_RequesterID : UUID;
  rp_RequesterName : string;
  rp_RequesterEmail : option string;
  rp_RequestedAt : Time;
}.
Record AccessApprovedPayload := mkAccessApprovedPayload {
  ap_UserID : UUID;
  ap_UserName : string;
  ap_ApprovedByID : UUID;
  ap_ApprovedByName : string;
  ap_ApprovedAt : Time;
}.
Record NotificationTestPayload := mkNotificationTestPayload {
  np_TriggeredByID : UUID;
  np_TriggeredByName : string;
  np_TriggeredAt : Time;
}.

(** A payload; its JSON encoding is valid and is not looked into. *)
Inductive EventPayload :=
| PComment (p : CommentPayload)
| PAccessRequested (p : AccessRequestedPayload)
| PAccessApproved (p : AccessApprovedPayload)
| PNotificationTest (p : NotificationTestPayload).

Definition CommentPayload_Validate (p : CommentPayload) : result unit :=
  fail_if ((cp_ProjectID p == uuid_Nil) || (cp_TaskID p == uuid_Nil) || (cp_CommentID p == uuid_Nil) ||
           (cp_CommentAuthorID p == uuid_Nil) || Time_IsZero (cp_OccurredAt p)) ErrOther.
Definition AccessRequestedPayload_Validate (p : AccessRequestedPayload) : result unit :=
  fail_if ((rp_RequesterID p == uuid_Nil) || blank (rp_RequesterName p) || Time_IsZero (rp_RequestedAt p)) ErrOther.
Definition AccessApprovedPayload_Validate (p : AccessApprovedPayload) : result unit :=
  fail_if ((ap_UserID p == uuid_Nil) || blank (ap_UserName p) || (ap_ApprovedByID p == uuid_Nil) ||
           blank (ap_ApprovedByName p) || Time_IsZero (ap_ApprovedAt p)) ErrOther.
Definition NotificationTestPayload_Validate (p : NotificationTestPayload) : result unit :=
  fail_if ((np_TriggeredByID p == uuid_Nil) || blank (np_TriggeredByName p) || Time_IsZero (np_TriggeredAt p)) ErrOther.
Definition payload_Validate (p : EventPayload) : result unit :=
  match p with
  | PComment p => CommentPayload_Validate p
  | PAccessRequested p => AccessRequestedPayload_Validate p
  | PAccessApproved p => AccessApprovedPayload_Validate p
  | PNotificationTest p => NotificationTestPayload_Validate p
  end.

(** ** Events *)

Definition CommentMentioned : string := "comment.mentioned".
Definition CommentReplied : string := "comment.replied".
Definition AccessRequested : string := "access.requested".
Definition AccessApproved : string := "access.approved".
Definition NotificationTest : string := "notification.test".

Record Event := mkEvent {
  ev_ID : UUID;
  ev_AggregateType : string;
  ev_AggregateID : UUID;
  ev_Type : string;
  ev_RecipientID : UUID;
  ev_Payload : EventPayload;
  ev_DedupeKey : string;
  ev_AttemptCount : Z;
  ev_CreatedAt : Time;
}.
Record NewEvent := mkNewEvent {
  ne_ID : UUID;
  ne_AggregateType : string;
  ne_AggregateID : UUID;
  ne_Type : string;
  ne_RecipientID : UUID;
  ne_Payload : option EventPayload;
  ne_DedupeKey : string;
  ne_CreatedAt : Time;
}.

Definition Event_Validate (e : Event) : result unit :=
  fail_if ((ev_ID e == uuid_Nil) || (ev_AggregateID e == uuid_Nil) || (ev_RecipientID e == uuid_Nil) ||
           blank (ev_AggregateType e) || blank (ev_Type e) || blank (ev_DedupeKey e) || Time_IsZero (ev_CreatedAt e)) ErrOther.

(** [drawn] is what [uuid.New] returns. *)
Definition events_New (drawn : UUID) (input : NewEvent) : result Event :=
  match ne_Payload input with
  | None => Err ErrOther
  | Some payload =>
      let id := if ne_ID input == uuid_Nil then drawn else ne_ID input in
      payload_Validate payload;;
      let event := mkEvent id (TrimSpace (ne_AggregateType input)) (ne_AggregateID input) (TrimSpace (ne_Type input))
        (ne_RecipientID input) payload (TrimSpace (ne_DedupeKey input)) 0 (ne_CreatedAt input) in
      Event_Validate event;;
      Ok event
  end.

(** ** The outbox *)

Definition OutboxEventPending : string := "pending".
Definition OutboxEventPublishing : string := "publishing".
Definition OutboxEventPublished : string := "published".

Record OutboxRow := mkOutboxRow {
  or_event : Event;
  or_status : string;
  or_attempt_count : Z;
  or_next_attempt_at : Time;
  or_last_error : option string;
  or_published_at : option Time;
}.
Notation Outbox := (gmap UUID OutboxRow).

Definition outbox_checks (e : Event) : bool :=
  negb (GoStrings.btrim_empty (ev_AggregateType e)) && negb (GoStrings.btrim_empty (ev_Type e)) &&
  negb (GoStrings.btrim_empty (ev_DedupeKey e)).

(** [now] is the time of the transaction, the default of next_attempt_at. *)
Definition insertEvent (e : Event) (now : Time) (user_exists : UUID -> bool) (t : Outbox) : result Outbox :=
  Event_Validate e;;
  fail_if (negb (outbox_checks e)) ErrOther;;
  fail_if (present (t !! ev_ID e) && bool_decide (map_Forall (fun _ r => ev_DedupeKey (or_event r) <> ev_DedupeKey e) t)) ErrOther;;
  if bool_decide (map_Forall (fun _ r => ev_DedupeKey (or_event r) <> ev_DedupeKey e) t) then
    fail_if (negb (user_exists (ev_RecipientID e))) ErrOther;;
    Ok (<[ev_ID e := mkOutboxRow e OutboxEventPending 0 now None None]> t)
  else Ok t.

(** ** The store of the relay *)

Record OutboxDB := mkOutboxDB {
  ob_events : Outbox;
  ob_consumptions : gset (string * UUID);
  ob_users : gset UUID;
}.
Definition OutboxM (X : Type) : Type := St OutboxDB X.
Definition set_events (t : Outbox) (d : OutboxDB) : OutboxDB := mkOutboxDB t (ob_consumptions d) (ob_users d).
Definition set_consumptions (c : gset (string * UUID)) (d : OutboxDB) : OutboxDB := mkOutboxDB (ob_events d) c (ob_users d).

Definition Enqueue (e : Event) (now : Time) : OutboxM unit :=
  t ← st_get (fun d => insertEvent e now (fun u => bool_decide (u ∈ ob_users d)) (ob_events d));
  t ← st_lift t;
  st_mod (set_events t).

(** The rows that a claim may take: due, not published, and not locked by another relay. *)
Definition claimable_event (now : Time) (locked : gset UUID) (r : OutboxRow) : bool :=
  ((or_status r == OutboxEventPending) || (or_status r == OutboxEventPublishing)) && (or_next_attempt_at r <=? now) &&
  negb (bool_decide (ev_ID (or_event r) ∈ locked)).
(** [ORDER BY created_at, id] *)
Definition event_le (a b : OutboxRow) : Prop :=
  ev_CreatedAt (or_event a) < ev_CreatedAt (or_event b) \/
  ev_CreatedAt (or_event a) = ev_CreatedAt (or_event b) /\ (ev_ID (or_event a) <= ev_ID (or_event b))%N.
#[global] Instance event_le_dec : RelDecision event_le.
Proof. intros a b. unfold event_le. apply _. Defined.
Definition candidates (now : Time) (locked : gset UUID) (limit : Z) (t : Outbox) : list OutboxRow :=
  take (Z.to_nat limit) (merge_sort event_le (filter (fun r => claimable_event now locked r = true) (snd <$> map_to_list t))).

Definition PublishLease : Z := 30 * 1000000.
Definition claimed_event (now : Time) (r : OutboxRow) : OutboxRow :=
  mkOutboxRow (or_event r) OutboxEventPublishing (or_attempt_count r + 1) (now + PublishLease) None (or_published_at r).
Definition scanned_event (r : OutboxRow) : Event :=
  let e := or_event r in
  mkEvent (ev_ID e) (ev_AggregateType e) (ev_AggregateID e) (ev_Type e) (ev_RecipientID e) (ev_Payload e) (ev_DedupeKey e)
    (or_attempt_count r) (ev_CreatedAt e).
Definition MaxInt32 : Z := 2 ^ 31 - 1.

(** attempt_count is an integer column: its increment fails when it overflows.  The rows come back in no
    particular order; they are listed in the order of the candidates here. *)
Definition ClaimBatch (limit : Z) (now : Time) (locked : gset UUID) : OutboxM (list Event) :=
  let limit := if (limit <? 1) || (200 <? limit) then 50 else limit in
  rows ← st_get (fun d => candidates now locked limit (ob_events d));
  st_fail (existsb (fun r => or_attempt_count r =? MaxInt32) rows) ErrOther;;
  st_mod (fun d => set_events (foldr (fun r t => <[ev_ID (or_event r) := claimed_event now r]> t) (ob_events d) rows) d);;
  mret ((fun r => scanned_event (claimed_event now r)) <$> rows).

Definition published_event (now : Time) (r : OutboxRow) : OutboxRow :=
  mkOutboxRow (or_event r) OutboxEventPublished (or_attempt_count r) (or_next_attempt_at r) None (Some now).
Definition MarkPublished (id : UUID) (now : Time) : OutboxM unit :=
  row ← st_get (fun d => ob_events d !! id);
  r ← st_or_err row ErrNotFound;
  st_mod (fun d => set_events (<[id := published_event now r]> (ob_events d)) d).

(** [time.Second << min(attempt, 8)], at most five minutes; attempts count from one.  The messages of
    errors are ASCII texts, so that the cut is valid UTF-8. *)
Definition failure_delay (attempt : Z) : Z := Z.min (1000000 * 2 ^ Z.min attempt 8) (5 * 60 * 1000000).
Definition failed_event (now : Time) (attempt : Z) (message : string) (r : OutboxRow) : OutboxRow :=
  mkOutboxRow (or_event r) OutboxEventPending (or_attempt_count r) (now + failure_delay attempt)
    (Some (if 2000 <? Z.of_nat (String.length message) then String.substring 0 2000 message else message)) (or_published_at r).
Definition MarkFailed (id : UUID) (attempt : Z) (message : string) (now : Time) : OutboxM unit :=
  st_mod (fun d => match ob_events d !! id with
                   | Some r => set_events (<[id := failed_event now attempt message r]> (ob_events d)) d
                   | None => d
                   end).

Definition WasConsumed (consumerName : string) (eventID : UUID) : OutboxM bool :=
  st_get (fun d => bool_decide ((consumerName, eventID) ∈ ob_consumptions d)).
Definition MarkConsumed (consumerName : string) (eventID : UUID) : OutboxM bool :=
  st_fail (GoStrings.btrim_empty consumerName) ErrOther;;
  old ← st_get (fun d => bool_decide ((consumerName, eventID) ∈ ob_consumptions d));
  st_mod (fun d => set_consumptions ({[(consumerName, eventID)]} ∪ ob_consumptions d) d);;
  mret (negb old).
(** The payloads are valid JSON. *)
Definition ConsumeOnce (consumerName : string) (eventID : UUID) : OutboxM bool := MarkConsumed consumerName eventID.
