(* ===== verification/Identity.v ===== *)
(** * Identity: the entities, the policy and the cookies

    internal/identity: domain.go, policy.go, the errors and hashes of errors.go and crypto.go, context.go,
    and the session cookie of service.go, with HMAC-SHA256 (crypto/hmac) executable. *)

From Stdlib Require Import Ascii.
From stdpp Require Import base tactics strings gmap list numbers.
From S2P Require Import Prelude Actors State Http Access.

(** ** Principals *)

Record PrincipalKey := mkPrincipalKey { pk_Provider : string; pk_TenantID : string; pk_SubjectID : string }.
#[global] Instance PrincipalKey_eq_dec : EqDecision PrincipalKey.
Proof. solve_decision. Defined.

(** [identity.Principal]; the profile is a JSON text that nothing looks into. *)
Record ExternalPrincipal := mkExternalPrincipal {
  ip_Key : PrincipalKey;
  ip_Name : string;
  ip_Email : option string;
  ip_EmailVerified : bool;
  ip_AvatarURL : option string;
  ip_Active : bool;
  ip_Profile : string;
}.

Record OAuthCredential := mkOAuthCredential {
  oc_AccessTokenCiphertext : string;
  oc_RefreshTokenCiphertext : string;
  oc_AccessTokenExpiresAt : Time;
  oc_RefreshTokenExpiresAt : Time;
  oc_EncryptionKeyID : string;
}.

Record ExternalIdentity := mkExternalIdentity {
  ei_ID : UUID;
  ei_UserID : UUID;
  ei_Key : PrincipalKey;
  ei_ProviderProfile : string;
  ei_LastVerifiedAt : option Time;
  ei_CreatedAt : Time;
  ei_UpdatedAt : Time;
  ei_EncryptedCredential : OAuthCredential;
}.

(** ** Invitations *)

Definition InvitationStatus := string.
Definition InvitationPending : InvitationStatus := "pending".
Definition InvitationAccepted : InvitationStatus := "accepted".
Definition InvitationRevoked : InvitationStatus := "revoked".
Definition InvitationExpired : InvitationStatus := "expired".

Record Invitation := mkInvitation {
  iv_ID : UUID;
  iv_Target : PrincipalKey;
  iv_TargetSnapshot : string;
  iv_TokenHash : string;
  iv_Status : InvitationStatus;
  iv_CreatedByUserID : UUID;
  iv_ExpiresAt : Time;
  iv_AcceptedByUserID : option UUID;
  iv_AcceptedAt : option Time;
  iv_RevokedAt : option Time;
  iv_CreatedAt : Time;
  iv_UpdatedAt : Time;
}.

Definition ProviderErrorCategory := string.
Definition ProviderUnauthorized : ProviderErrorCategory := "unauthorized".
Definition ProviderNotFound : ProviderErrorCategory := "not_found".
Definition ProviderResigned : ProviderErrorCategory := "resigned".
Definition ProviderFrozen : ProviderErrorCategory := "frozen".
Definition ProviderAuthorizationRevoked : ProviderErrorCategory := "authorization_revoked".
Definition ProviderCredentialExpired : ProviderErrorCategory := "credential_expired".
Definition ProviderRateLimited : ProviderErrorCategory := "rate_limited".
Definition ProviderUnavailable : ProviderErrorCategory := "unavailable".
Definition ProviderContract : ProviderErrorCategory := "contract".

Definition DeliveryChannel := string.
Definition DeliveryProviderDM : DeliveryChannel := "provider_dm".
Definition DeliveryCopiedLink : DeliveryChannel := "copied_link".
Definition DeliveryStatus := string.
Definition DeliveryDelivered : DeliveryStatus := "delivered".
Definition DeliveryFailed : DeliveryStatus := "failed".

Record InvitationDelivery := mkInvitationDelivery {
  dl_ID : UUID;
  dl_InvitationID : UUID;
  dl_Channel : DeliveryChannel;
  dl_Status : DeliveryStatus;
  dl_ProviderReference : option string;
  dl_ErrorCategory : option ProviderErrorCategory;
  dl_AttemptedAt : Time;
}.

(** ** Authorizations, sessions and impersonations *)

Definition AuthorizationPurpose := string.
Definition AuthorizationLogin : AuthorizationPurpose := "login".
Definition AuthorizationInvitation : AuthorizationPurpose := "invitation".

(** A nil slice, which is stored as NULL, is [None]. *)
Record AuthorizationTransaction := mkAuthorizationTransaction {
  az_ID : UUID;
  az_Purpose : AuthorizationPurpose;
  az_StateHash : string;
  az_InvitationID : option UUID;
  az_InvitationTokenHash : option string;
  az_ExpiresAt : Time;
  az_ConsumedAt : option Time;
  az_CreatedAt : Time;
}.

Record Session := mkSession {
  se_ID : UUID;
  se_UserID : UUID;
  se_SecretHash : string;
  se_CSRFSecretHash : string;
  se_CreatedAt : Time;
  se_LastSeenAt : Time;
  se_IdleExpiresAt : Time;
  se_AbsoluteExpiresAt : Time;
  se_LastProviderVerifiedAt : option Time;
  se_ProviderFailureSince : option Time;
  se_RevokedAt : option Time;
  se_RevokeReason : option string;
}.

Record Impersonation := mkImpersonation {
  im_ID : UUID;
  im_SessionID : UUID;
  im_ActorUserID : UUID;
  im_SubjectUserID : UUID;
  im_StartedAt : Time;
  im_EndedAt : option Time;
}.

Record SessionBundle := mkSessionBundle {
  sb_Session : Session;
  sb_User : User;
  sb_Impersonation : option Impersonation;
  sb_Subject : option User;
}.
Record SessionTokens := mkSessionTokens { st_SessionID : UUID; st_SessionSecret : string; st_CSRFSecret : string }.

(** The metadata of an audit event is a JSON object of texts. *)
Record AuditEvent := mkAuditEvent {
  ae_ID : UUID;
  ae_EventType : string;
  ae_ActorUserID : option UUID;
  ae_SubjectUserID : option UUID;
  ae_InvitationID : option UUID;
  ae_SessionID : option UUID;
  ae_RequestID : option string;
  ae_Metadata : list (string * string);
  ae_OccurredAt : Time;
}.

Definition VerificationState := string.
Definition VerificationValid : VerificationState := "valid".
Definition VerificationInvalid : VerificationState := "invalid".
Definition VerificationTransient : VerificationState := "transient".

Record VerificationResult := mkVerificationResult {
  vr_State : VerificationState;
  vr_Category : ProviderErrorCategory;
  vr_RequestID : string;
}.

(** [identity.RequestIdentity] of a session; the fields of bearer credentials stay empty. *)
Record SessionIdentity := mkSessionIdentity {
  si_SessionID : UUID;
  si_Actor : User;
  si_Subject : User;
  si_Impersonation : option Impersonation;
}.
Definition IsAdmin (i : SessionIdentity) : bool := u_PlatformRole (si_Actor i) == PlatformRoleAdmin.
Definition IsImpersonating (i : SessionIdentity) : bool := present (si_Impersonation i).

(** ** Policy *)

Definition Minute : Z := 60 * 1000000.
Definition InvitationLifetime : Z := 7 * 24 * Hour.
Definition SessionIdleLifetime : Z := 24 * Hour.
Definition SessionAbsoluteLifetime : Z := 30 * 24 * Hour.
Definition ProviderVerificationInterval : Z := 15 * Minute.
Definition ProviderTransientGrace : Z := Hour.
Definition SessionRollingWriteInterval : Z := 5 * Minute.

Definition InvitationExpiresAt (createdAt : Time) : Time := createdAt + InvitationLifetime.

Definition InvitationMatches (invitation : Invitation) (key : PrincipalKey) (now : Time) : bool :=
  (iv_Status invitation == InvitationPending) && Time_Before now (iv_ExpiresAt invitation) && (iv_Target invitation == key).

Definition NewSessionTimes (now : Time) : Time * Time := (now + SessionIdleLifetime, now + SessionAbsoluteLifetime).

Definition RollingIdleExpiry (now absoluteExpiresAt : Time) : Time :=
  let next := now + SessionIdleLifetime in
  if Time_After next absoluteExpiresAt then absoluteExpiresAt else next.

Definition SessionUsable (session : Session) (now : Time) : bool :=
  negb (present (se_RevokedAt session)) && Time_Before now (se_IdleExpiresAt session) && Time_Before now (se_AbsoluteExpiresAt session).

Definition SessionRollDue (session : Session) (now : Time) : bool :=
  SessionUsable session now && negb (Time_Before now (se_LastSeenAt session + SessionRollingWriteInterval)).

Definition ProviderVerificationDue (lastVerifiedAt : option Time) (now : Time) : bool :=
  match lastVerifiedAt with None => true | Some t => negb (Time_Before now (t + ProviderVerificationInterval)) end.

Definition WithinProviderGrace (failureSince : option Time) (now : Time) : bool :=
  match failureSince with None => false | Some t => negb (Time_After now (t + ProviderTransientGrace)) end.

Definition IsExplicitInvalid (category : ProviderErrorCategory) : bool :=
  (category == ProviderUnauthorized) || (category == ProviderNotFound) || (category == ProviderResigned) ||
  (category == ProviderFrozen) || (category == ProviderAuthorizationRevoked).

Definition CanImpersonate (actor subject : User) : bool :=
  CanUseApplication actor && (u_PlatformRole actor == PlatformRoleAdmin) && CanUseApplication subject &&
  (u_PlatformRole subject == PlatformRoleMember) && (u_ID actor != u_ID subject).

Definition MethodHead : string := "HEAD".
Definition MethodOptions : string := "OPTIONS".

Definition RequestAllowedDuringImpersonation (method route : string) : bool :=
  if (method == MethodDelete) && (route == "/api/admin/impersonation") then true
  else if (method == MethodPost) && (route == "/api/auth/logout") then true
  else (method == MethodGet) || (method == MethodHead) || (method == MethodOptions).

Definition WriteAllowed (method route : string) (impersonating : bool) : bool :=
  negb impersonating || RequestAllowedDuringImpersonation method route.

(** ** Secrets *)

(** [hmac.New(sha256.New, key)]: blocks of 64 bytes. *)
Definition hmac_key (key : string) : list Z :=
  let k := if 64 <? Z.of_nat (String.length key) then byte_codes (sha256 key) else byte_codes key in
  k ++ repeat 0 (64 - length k).
Definition hmac_sha256 (key message : string) : string :=
  let k := hmac_key key in
  let inner := sha256 (bytes_string (Z.lxor 0x36 <$> k) +:+ message) in
  sha256 (bytes_string (Z.lxor 0x5c <$> k) +:+ inner).

(** RFC 4231, test case 2. *)
Example hmac_jefe : byte_codes (hmac_sha256 "Jefe" "what do ya want for nothing?") =
  [0x5b; 0xdc; 0xc1; 0x46; 0xbf; 0x60; 0x75; 0x4e; 0x6a; 0x04; 0x24; 0x26; 0x08; 0x95; 0x75; 0xc7;
   0x5a; 0x00; 0x3f; 0x08; 0x9d; 0x27; 0x39; 0x83; 0x9d; 0xec; 0x58; 0xb9; 0x64; 0xec; 0x38; 0x43].
Proof. vm_compute. reflexivity. Qed.

(** [NewOpaqueSecret]: [drawn] is what the source of random bytes gives. *)
Definition NewOpaqueSecret (drawn : option string) : result string :=
  match drawn with Some raw => Ok (EncodeToString raw) | None => Err ErrOther end.

Definition VerifySecret (secret expectedHash : string) : bool :=
  (Z.of_nat (String.length expectedHash) =? 32) && (HashSecret secret == expectedHash).

(** ** The session cookie *)

(** [strings.Split] at a byte. *)
Fixpoint Split (s : string) (sep : ascii) : list string :=
  match s with
  | EmptyString => [""]
  | String c s =>
      if c == sep then "" :: Split s sep
      else match Split s sep with p :: ps => String c p :: ps | [] => [String c ""] end
  end.

Definition signEnvelope (sessionSecret envelope : string) : string := EncodeToString (hmac_sha256 sessionSecret envelope).

(** [VerifyCSRF] *)
Definition VerifyCSRF (session : Session) (token : string) : bool :=
  if token == "" then false
  else (Z.of_nat (String.length (se_CSRFSecretHash session)) =? 32) && (HashSecret token == se_CSRFSecretHash session).

Section cookie.
Context `{UuidLibrary}.

Definition SessionCookieValue (sessionSecret : string) (tokens : SessionTokens) : string :=
  let envelope := uuid_String (st_SessionID tokens) +:+ "." +:+ st_SessionSecret tokens in
  envelope +:+ "." +:+ signEnvelope sessionSecret envelope.

Definition parseSessionCookie (sessionSecret value : string) : result (UUID * string) :=
  match Split value "." with
  | [id; secret; mac] =>
      if (id == "") || (secret == "") || (mac == "") then Err ErrSessionInvalid
      else
        let envelope := id +:+ "." +:+ secret in
        if mac != signEnvelope sessionSecret envelope then Err ErrSessionInvalid
        else match uuid_Parse id with
        | None => Err ErrSessionInvalid
        | Some sessionID =>
            match DecodeString secret with
            | None => Err ErrSessionInvalid
            | Some raw => if Z.of_nat (String.length raw) =? 32 then Ok (sessionID, HashSecret secret) else Err ErrSessionInvalid
            end
        end
  | _ => Err ErrSessionInvalid
  end.
End cookie.
