(* ===== verification/IdentityStore.v ===== *)
(** * The identity store

    internal/store/identity_store.go, access_events.go and user_store.go, with the tables of migration
    0009 and the later changes to them (0010, 0024).  A failed constraint is [ErrConflict] when it is a
    unique one ([isUniqueViolation]) and [ErrOther] otherwise, until the code maps it; CHECKs come before
    unique indexes, and references last. *)

From stdpp Require Import base tactics strings gmap list numbers sorting.
From S2P Require Import Prelude Actors State Http Access Events Identity.

(** ** The tables *)

Record ExternalRow := mkExternalRow {
  ex_id : UUID;
  ex_user_id : UUID;
  ex_key : PrincipalKey;
  ex_provider_profile : string;
  ex_last_verified_at : option Time;
  ex_created_at : Time;
  ex_updated_at : Time;
}.

Record IdentityDB := mkIdentityDB {
  id_users : gmap UUID User;
  id_externals : gmap UUID ExternalRow;
  id_credentials : gmap UUID OAuthCredential;
  id_invitations : gmap UUID Invitation;
  id_deliveries : gmap UUID InvitationDelivery;
  id_sessions : gmap UUID Session;
  id_authorizations : gmap UUID AuthorizationTransaction;
  id_impersonations : gmap UUID Impersonation;
  id_audit : list AuditEvent;
  id_outbox : Outbox;
}.
Definition IdentityM (X : Type) : Type := St IdentityDB X.

Definition on_users (f : gmap UUID User -> gmap UUID User) (d : IdentityDB) : IdentityDB :=
  mkIdentityDB (f (id_users d)) (id_externals d) (id_credentials d) (id_invitations d) (id_deliveries d) (id_sessions d)
    (id_authorizations d) (id_impersonations d) (id_audit d) (id_outbox d).
Definition on_externals (f : gmap UUID ExternalRow -> gmap UUID ExternalRow) (d : IdentityDB) : IdentityDB :=
  mkIdentityDB (id_users d) (f (id_externals d)) (id_credentials d) (id_invitations d) (id_deliveries d) (id_sessions d)
    (id_authorizations d) (id_impersonations d) (id_audit d) (id_outbox d).
Definition on_credentials (f : gmap UUID OAuthCredential -> gmap UUID OAuthCredential) (d : IdentityDB) : IdentityDB :=
  mkIdentityDB (id_users d) (id_externals d) (f (id_credentials d)) (id_invitations d) (id_deliveries d) (id_sessions d)
    (id_authorizations d) (id_impersonations d) (id_audit d) (id_outbox d).
Definition on_invitations (f : gmap UUID Invitation -> gmap UUID Invitation) (d : IdentityDB) : IdentityDB :=
  mkIdentityDB (id_users d) (id_externals d) (id_credentials d) (f (id_invitations d)) (id_deliveries d) (id_sessions d)
    (id_authorizations d) (id_impersonations d) (id_audit d) (id_outbox d).
Definition on_deliveries (f : gmap UUID InvitationDelivery -> gmap UUID InvitationDelivery) (d : IdentityDB) : IdentityDB :=
  mkIdentityDB (id_users d) (id_externals d) (id_credentials d) (id_invitations d) (f (id_deliveries d)) (id_sessions d)
    (id_authorizations d) (id_impersonations d) (id_audit d) (id_outbox d).
Definition on_sessions (f : gmap UUID Session -> gmap UUID Session) (d : IdentityDB) : IdentityDB :=
  mkIdentityDB (id_users d) (id_externals d) (id_credentials d) (id_invitations d) (id_deliveries d) (f (id_sessions d))
    (id_authorizations d) (id_impersonations d) (id_audit d) (id_outbox d).
Definition on_authorizations (f : gmap UUID AuthorizationTransaction -> gmap UUID AuthorizationTransaction) (d : IdentityDB) : IdentityDB :=
  mkIdentityDB (id_users d) (id_externals d) (id_credentials d) (id_invitations d) (id_deliveries d) (id_sessions d)
    (f (id_authorizations d)) (id_impersonations d) (id_audit d) (id_outbox d).
Definition on_impersonations (f : gmap UUID Impersonation -> gmap UUID Impersonation) (d : IdentityDB) : IdentityDB :=
  mkIdentityDB (id_users d) (id_externals d) (id_credentials d) (id_invitations d) (id_deliveries d) (id_sessions d)
    (id_authorizations d) (f (id_impersonations d)) (id_audit d) (id_outbox d).
Definition on_identity_audit (f : list AuditEvent -> list AuditEvent) (d : IdentityDB) : IdentityDB :=
  mkIdentityDB (id_users d) (id_externals d) (id_credentials d) (id_invitations d) (id_deliveries d) (id_sessions d)
    (id_authorizations d) (id_impersonations d) (f (id_audit d)) (id_outbox d).
Definition on_outbox (t : Outbox) (d : IdentityDB) : IdentityDB :=
  mkIdentityDB (id_users d) (id_externals d) (id_credentials d) (id_invitations d) (id_deliveries d) (id_sessions d)
    (id_authorizations d) (id_impersonations d) (id_audit d) t.

Definition has_user (u : UUID) (d : IdentityDB) : bool := present (id_users d !! u).
Definition has_user_opt (o : option UUID) (d : IdentityDB) : bool := match o with Some u => has_user u d | None => true end.

(** The row that a condition on a unique key selects. *)
Definition find_row {A} (P : A -> bool) (t : gmap UUID A) : option A :=
  head (filter (fun r => P r = true) (snd <$> map_to_list t)).
Definition no_row {A} (P : A -> bool) (t : gmap UUID A) : bool := negb (present (find_row P t)).
(** [UPDATE ... WHERE]: every row that the condition selects. *)
Definition update_where {A} (P : A -> bool) (f : A -> A) (t : gmap UUID A) : gmap UUID A :=
  (fun r => if P r then f r else r) <$> t.

(** A unique violation gets an error of its own, every other failure none. *)
Definition on_unique {A} (e : error) (m : IdentityM A) : IdentityM A :=
  st_map_err (fun x => if x == ErrConflict then e else ErrOther) m.
Definition wrapped {A} (m : IdentityM A) : IdentityM A := st_map_err (fun _ => ErrOther) m.

Definition jsonOrEmpty (value : string) : string := if value == "" then "{}" else value.

(** ** Statements *)

(** [INSERT INTO users]: [email] is unique, and the only ADMIN is guarded by a partial unique index. *)
Definition users_checks (u : User) : bool :=
  ((u_PlatformRole u == PlatformRoleAdmin) || (u_PlatformRole u == PlatformRoleMember)) &&
  ((u_AccessStatus u == AccessStatusPending) || (u_AccessStatus u == AccessStatusApproved) || (u_AccessStatus u == AccessStatusRejected)).
Definition users_conflict (u v : User) : bool :=
  (u_ID u != u_ID v) &&
  (match u_Email u, u_Email v with Some a, Some b => a == b | _, _ => false end ||
   (u_PlatformRole u == PlatformRoleAdmin) && (u_PlatformRole v == PlatformRoleAdmin)).
Definition insert_user (u : User) : IdentityM unit :=
  st_fail (negb (users_checks u)) ErrOther;;
  d ← st_get id;
  st_fail (has_user (u_ID u) d || negb (no_row (users_conflict u) (id_users d))) ErrConflict;;
  st_mod (on_users <[u_ID u := u]>).
(** [UPDATE users ... WHERE id=$1] of an existing row. *)
Definition update_user (u : User) : IdentityM unit :=
  st_fail (negb (users_checks u)) ErrOther;;
  d ← st_get id;
  st_fail (negb (no_row (users_conflict u) (id_users d))) ErrConflict;;
  st_mod (on_users <[u_ID u := u]>).

Definition invited_user (id : UUID) (name : string) (email avatar : option string) (now : Time) : User :=
  mkUser id name email avatar PlatformRoleMember AccessStatusPending [] true now now.
Definition with_profile (p : ExternalPrincipal) (now : Time) (u : User) : User :=
  mkUser (u_ID u) (ip_Name p) (ip_Email p) (ip_AvatarURL p) (u_PlatformRole u) (u_AccessStatus u) (u_Roles u) (u_Active u)
    (u_CreatedAt u) now.
Definition as_administrator (p : ExternalPrincipal) (now : Time) (u : User) : User :=
  mkUser (u_ID u) (ip_Name p) (ip_Email p) (ip_AvatarURL p) PlatformRoleAdmin AccessStatusApproved (u_Roles u) true (u_CreatedAt u) now.
Definition with_active (active : bool) (now : Time) (u : User) : User :=
  mkUser (u_ID u) (u_Name u) (u_Email u) (u_AvatarURL u) (u_PlatformRole u) (u_AccessStatus u) (u_Roles u) active (u_CreatedAt u) now.
Definition with_access_status (status : AccessStatus) (now : Time) (u : User) : User :=
  mkUser (u_ID u) (u_Name u) (u_Email u) (u_AvatarURL u) (u_PlatformRole u) status (u_Roles u) (u_Active u) (u_CreatedAt u) now.

Definition insertExternalIdentityAndCredential (externalID userID : UUID) (principal : ExternalPrincipal)
    (credential : OAuthCredential) (now : Time) : IdentityM unit :=
  d ← st_get id;
  st_fail (present (id_externals d !! externalID) ||
           negb (no_row (fun e => (ex_user_id e == userID) || (ex_key e == ip_Key principal)) (id_externals d))) ErrConflict;;
  st_fail (negb (has_user userID d)) ErrOther;;
  st_mod (on_externals <[externalID :=
    mkExternalRow externalID userID (ip_Key principal) (jsonOrEmpty (ip_Profile principal)) (Some now) now now]>);;
  d ← st_get id;
  st_fail (present (id_credentials d !! externalID)) ErrConflict;;
  st_mod (on_credentials <[externalID := credential]>).

Definition insertSession (s : Session) : IdentityM unit :=
  st_fail (negb (se_IdleExpiresAt s <=? se_AbsoluteExpiresAt s)) ErrOther;;
  d ← st_get id;
  st_fail (present (id_sessions d !! se_ID s)) ErrOther;;
  st_fail (negb (has_user (se_UserID s) d)) ErrOther;;
  st_mod (on_sessions <[se_ID s := s]>).

Definition insertAudit (a : AuditEvent) : IdentityM unit :=
  st_fail (ae_ID a == uuid_Nil) ErrOther;;
  d ← st_get id;
  st_fail (bool_decide (ae_ID a ∈ (ae_ID <$> id_audit d))) ErrOther;;
  st_fail (negb (has_user_opt (ae_ActorUserID a) d && has_user_opt (ae_SubjectUserID a) d &&
                 match ae_InvitationID a with Some i => present (id_invitations d !! i) | None => true end &&
                 match ae_SessionID a with Some s => present (id_sessions d !! s) | None => true end)) ErrOther;;
  st_mod (on_identity_audit (fun l => l ++ [a])).

Definition with_audit_subject (subject : UUID) (session : option UUID) (invitation : option UUID) (a : AuditEvent) : AuditEvent :=
  mkAuditEvent (ae_ID a) (ae_EventType a) (ae_ActorUserID a) (Some subject)
    (match invitation with Some i => Some i | None => ae_InvitationID a end)
    (match session with Some s => Some s | None => ae_SessionID a end) (ae_RequestID a) (ae_Metadata a) (ae_OccurredAt a).

(** [insertEvent] in a transaction of this store. *)
Definition insert_event (e : Event) (now : Time) : IdentityM unit :=
  t ← st_get (fun d => insertEvent e now (fun u => has_user u d) (id_outbox d));
  t ← st_lift t;
  st_mod (on_outbox t).

(** [SELECT ... FOR UPDATE] of a session *)
Definition lockSession (sessionID : UUID) : IdentityM Session :=
  row ← st_get (fun d => id_sessions d !! sessionID); st_or_err row ErrSessionInvalid.

Definition with_revoked (now : Time) (reason : string) (s : Session) : Session :=
  mkSession (se_ID s) (se_UserID s) (se_SecretHash s) (se_CSRFSecretHash s) (se_CreatedAt s) (se_LastSeenAt s) (se_IdleExpiresAt s)
    (se_AbsoluteExpiresAt s) (se_LastProviderVerifiedAt s) (se_ProviderFailureSince s)
    (Some (default now (se_RevokedAt s))) (Some (default reason (se_RevokeReason s))).
Definition with_activity (now idleExpiresAt : Time) (s : Session) : Session :=
  mkSession (se_ID s) (se_UserID s) (se_SecretHash s) (se_CSRFSecretHash s) (se_CreatedAt s) now idleExpiresAt
    (se_AbsoluteExpiresAt s) (se_LastProviderVerifiedAt s) (se_ProviderFailureSince s) (se_RevokedAt s) (se_RevokeReason s).
Definition with_provider (verified failure : option Time) (s : Session) : Session :=
  mkSession (se_ID s) (se_UserID s) (se_SecretHash s) (se_CSRFSecretHash s) (se_CreatedAt s) (se_LastSeenAt s) (se_IdleExpiresAt s)
    (se_AbsoluteExpiresAt s) verified failure (se_RevokedAt s) (se_RevokeReason s).

Definition invalidateInvitationAuthorizations (invitationID : UUID) (now : Time) : IdentityM unit :=
  st_mod (on_authorizations (update_where
    (fun a => (az_InvitationID a == Some invitationID) && negb (present (az_ConsumedAt a)))
    (fun a => mkAuthorizationTransaction (az_ID a) (az_Purpose a) (az_StateHash a) (az_InvitationID a) (az_InvitationTokenHash a)
                (az_ExpiresAt a) (Some now) (az_CreatedAt a)))).

(** ** Authorizations *)

Definition authorizations_checks (a : AuthorizationTransaction) : bool :=
  ((az_Purpose a == AuthorizationLogin) && negb (present (az_InvitationID a)) && negb (present (az_InvitationTokenHash a))) ||
  ((az_Purpose a == AuthorizationInvitation) && present (az_InvitationID a) && present (az_InvitationTokenHash a)).

Definition CreateAuthorizationTransaction (a : AuthorizationTransaction) : IdentityM unit :=
  on_unique ErrAuthorizationInvalid (
    st_fail (negb (authorizations_checks a)) ErrOther;;
    d ← st_get id;
    st_fail (present (id_authorizations d !! az_ID a) ||
             negb (no_row (fun b => az_StateHash b == az_StateHash a) (id_authorizations d))) ErrConflict;;
    st_fail (match az_InvitationID a with Some i => negb (present (id_invitations d !! i)) | None => false end) ErrOther;;
    st_mod (on_authorizations <[az_ID a := a]>)).

Definition with_consumed (now : Time) (a : AuthorizationTransaction) : AuthorizationTransaction :=
  mkAuthorizationTransaction (az_ID a) (az_Purpose a) (az_StateHash a) (az_InvitationID a) (az_InvitationTokenHash a)
    (az_ExpiresAt a) (Some now) (az_CreatedAt a).
Definition ConsumeAuthorizationState (stateHash : string) (now : Time) : IdentityM AuthorizationTransaction :=
  atomically (
    row ← st_get (fun d => find_row (fun a => az_StateHash a == stateHash) (id_authorizations d));
    a ← st_or_err row ErrAuthorizationInvalid;
    st_fail (present (az_ConsumedAt a) || negb (Time_Before now (az_ExpiresAt a))) ErrAuthorizationInvalid;;
    st_mod (on_authorizations <[az_ID a := with_consumed now a]>);;
    mret (with_consumed now a)).

(** ** Invitations *)

Definition invitations_checks (i : Invitation) : bool :=
  bool_decide (iv_Status i ∈ [InvitationPending; InvitationAccepted; InvitationRevoked; InvitationExpired]).
(** The unique token hash, and one pending invitation per target. *)
Definition invitations_conflict (i j : Invitation) : bool :=
  (iv_ID i != iv_ID j) &&
  ((iv_TokenHash i == iv_TokenHash j) ||
   (iv_Status i == InvitationPending) && (iv_Status j == InvitationPending) && (iv_Target i == iv_Target j)).

Definition CreateInvitation (i : Invitation) (audit : AuditEvent) : IdentityM unit :=
  atomically (
    on_unique ErrInvitationConflict (
      st_fail (negb (invitations_checks i)) ErrOther;;
      d ← st_get id;
      st_fail (present (id_invitations d !! iv_ID i) || negb (no_row (invitations_conflict i) (id_invitations d))) ErrConflict;;
      st_fail (negb (has_user (iv_CreatedByUserID i) d && has_user_opt (iv_AcceptedByUserID i) d)) ErrOther;;
      st_mod (on_invitations <[iv_ID i := i]>));;
    insertAudit audit).

(** [ORDER BY created_at DESC, id DESC] *)
Definition invitation_newer (a b : Invitation) : Prop :=
  iv_CreatedAt b < iv_CreatedAt a \/ iv_CreatedAt a = iv_CreatedAt b /\ (iv_ID b <= iv_ID a)%N.
#[global] Instance invitation_newer_dec : RelDecision invitation_newer.
Proof. intros a b. unfold invitation_newer. apply _. Defined.
Definition ListInvitations : IdentityM (list Invitation) :=
  st_get (fun d => merge_sort invitation_newer (snd <$> map_to_list (id_invitations d))).

(** [DISTINCT ON (invitation_id) ... ORDER BY invitation_id, attempted_at DESC, id DESC] *)
Definition delivery_newer (a b : InvitationDelivery) : Prop :=
  dl_AttemptedAt b < dl_AttemptedAt a \/ dl_AttemptedAt a = dl_AttemptedAt b /\ (dl_ID b <= dl_ID a)%N.
#[global] Instance delivery_newer_dec : RelDecision delivery_newer.
Proof. intros a b. unfold delivery_newer. apply _. Defined.
Definition ListLatestInvitationDeliveries : IdentityM (UUID -> option InvitationDelivery) :=
  st_get (fun d invitationID =>
    head (merge_sort delivery_newer (filter (fun x => dl_InvitationID x = invitationID) (snd <$> map_to_list (id_deliveries d))))).

Definition GetInvitation (invitationID : UUID) : IdentityM Invitation :=
  row ← st_get (fun d => id_invitations d !! invitationID); st_or_err row ErrInvitationInvalid.
Definition GetInvitationByTokenHash (tokenHash : string) (now : Time) : IdentityM Invitation :=
  row ← st_get (fun d => find_row (fun i => iv_TokenHash i == tokenHash) (id_invitations d));
  i ← st_or_err row ErrInvitationInvalid;
  st_fail ((iv_Status i != InvitationPending) || negb (Time_Before now (iv_ExpiresAt i))) ErrInvitationInvalid;;
  mret i.

Definition changeInvitation {A} (invitationID : UUID) (audit : AuditEvent) (change : Invitation -> IdentityM A) : IdentityM A :=
  atomically (
    row ← st_get (fun d => id_invitations d !! invitationID);
    i ← st_or_err row ErrInvitationInvalid;
    a ← change i;
    insertAudit audit;;
    mret a).

Definition with_status (status : InvitationStatus) (revokedAt : option Time) (now : Time) (i : Invitation) : Invitation :=
  mkInvitation (iv_ID i) (iv_Target i) (iv_TargetSnapshot i) (iv_TokenHash i) status (iv_CreatedByUserID i) (iv_ExpiresAt i)
    (iv_AcceptedByUserID i) (iv_AcceptedAt i) revokedAt (iv_CreatedAt i) now.
Definition with_token (tokenHash : string) (expiresAt now : Time) (i : Invitation) : Invitation :=
  mkInvitation (iv_ID i) (iv_Target i) (iv_TargetSnapshot i) tokenHash (iv_Status i) (iv_CreatedByUserID i) expiresAt
    (iv_AcceptedByUserID i) (iv_AcceptedAt i) (iv_RevokedAt i) (iv_CreatedAt i) now.
Definition with_acceptance (userID : UUID) (now : Time) (i : Invitation) : Invitation :=
  mkInvitation (iv_ID i) (iv_Target i) (iv_TargetSnapshot i) (iv_TokenHash i) InvitationAccepted (iv_CreatedByUserID i) (iv_ExpiresAt i)
    (Some userID) (Some now) (iv_RevokedAt i) (iv_CreatedAt i) now.

Definition RevokeInvitation (invitationID : UUID) (now : Time) (audit : AuditEvent) : IdentityM unit :=
  changeInvitation invitationID audit (fun i =>
    st_fail ((iv_Status i != InvitationPending) || negb (Time_Before now (iv_ExpiresAt i))) ErrInvitationInvalid;;
    st_mod (on_invitations <[invitationID := with_status InvitationRevoked (Some now) now i]>);;
    invalidateInvitationAuthorizations invitationID now).

(** [now] is the time of the store, [auditID] what it draws. *)
Definition RotateInvitation (invitationID actorID : UUID) (tokenHash : string) (expiresAt now : Time) (auditID : UUID)
    : IdentityM Invitation :=
  let audit := mkAuditEvent auditID "invitation_rotated" (Some actorID) None (Some invitationID) None None [] now in
  changeInvitation invitationID audit (fun i =>
    st_fail ((iv_Status i != InvitationPending) || negb (Time_Before now (iv_ExpiresAt i))) ErrInvitationInvalid;;
    on_unique ErrInvitationInvalid (
      d ← st_get id;
      st_fail (negb (no_row (invitations_conflict (with_token tokenHash expiresAt now i)) (id_invitations d))) ErrConflict;;
      st_mod (on_invitations <[invitationID := with_token tokenHash expiresAt now i]>));;
    invalidateInvitationAuthorizations invitationID now;;
    mret (with_token tokenHash expiresAt now i)).

Definition expired_invitation (now : Time) (i : Invitation) : bool :=
  (iv_Status i == InvitationPending) && (iv_ExpiresAt i <=? now).
Definition ExpireInvitations (now : Time) : IdentityM Z :=
  n ← st_get (fun d => length (filter (fun i => expired_invitation now i = true) (snd <$> map_to_list (id_invitations d))));
  st_mod (on_invitations (update_where (expired_invitation now) (fun i => with_status InvitationExpired (iv_RevokedAt i) now i)));;
  mret (Z.of_nat n).

Record AcceptInvitationCommand := mkAcceptInvitationCommand {
  ac_InvitationID : UUID;
  ac_TokenHash : string;
  ac_InvitationTokenHash : string;
  ac_Principal : ExternalPrincipal;
  ac_Credential : OAuthCredential;
  ac_UserID : UUID;
  ac_UserName : string;
  ac_UserEmail : option string;
  ac_UserAvatarURL : option string;
  ac_Session : Session;
  ac_Audit : AuditEvent;
  ac_Now : Time;
}.

(** The invitation that a command names: by its identifier, or by its token without one. *)
Definition invitation_named (c : AcceptInvitationCommand) (d : IdentityDB) : option Invitation :=
  if ac_InvitationID c != uuid_Nil then id_invitations d !! ac_InvitationID c
  else find_row (fun i => iv_TokenHash i == ac_TokenHash c) (id_invitations d).

(** [externalID] is drawn. *)
Definition AcceptInvitation (externalID : UUID) (c : AcceptInvitationCommand) : IdentityM User :=
  atomically (
    row ← st_get (invitation_named c);
    i ← st_or_err row ErrInvitationInvalid;
    st_fail (negb (InvitationMatches i (ip_Key (ac_Principal c)) (ac_Now c)) ||
             (ac_InvitationID c != uuid_Nil) &&
             ((ac_InvitationTokenHash c == "") || (iv_TokenHash i != ac_InvitationTokenHash c))) ErrInvitationInvalid;;
    let user := invited_user (ac_UserID c) (ac_UserName c) (ac_UserEmail c) (ac_UserAvatarURL c) (ac_Now c) in
    on_unique ErrInvitationInvalid (insert_user user);;
    on_unique ErrInvitationInvalid
      (insertExternalIdentityAndCredential externalID (u_ID user) (ac_Principal c) (ac_Credential c) (ac_Now c));;
    st_mod (on_invitations <[iv_ID i := with_acceptance (u_ID user) (ac_Now c) i]>);;
    (if se_ID (ac_Session c) != uuid_Nil then insertSession (ac_Session c) else mret tt);;
    insertAudit (with_audit_subject (u_ID user) None (Some (iv_ID i)) (ac_Audit c));;
    mret user).

Definition RecordDelivery (x : InvitationDelivery) : IdentityM unit :=
  st_fail (negb (((dl_Channel x == DeliveryProviderDM) || (dl_Channel x == DeliveryCopiedLink)) &&
                 ((dl_Status x == DeliveryDelivered) || (dl_Status x == DeliveryFailed)))) ErrOther;;
  d ← st_get id;
  st_fail (present (id_deliveries d !! dl_ID x) || negb (present (id_invitations d !! dl_InvitationID x))) ErrOther;;
  st_mod (on_deliveries <[dl_ID x := x]>).

(** ** External identities and their credentials *)

Definition BindExternalIdentity (external : ExternalIdentity) (credential : OAuthCredential) (audit : AuditEvent) : IdentityM unit :=
  atomically (
    on_unique ErrConflict (insertExternalIdentityAndCredential (ei_ID external) (ei_UserID external)
      (mkExternalPrincipal (ei_Key external) "" None false None false (ei_ProviderProfile external)) credential (ei_CreatedAt external));;
    insertAudit audit).

Definition GetCredential (externalIdentityID : UUID) : IdentityM OAuthCredential :=
  row ← st_get (fun d => id_credentials d !! externalIdentityID); st_or_err row ErrCredentialNotFound.

Definition external_identity (e : ExternalRow) (c : OAuthCredential) : ExternalIdentity :=
  mkExternalIdentity (ex_id e) (ex_user_id e) (ex_key e) (ex_provider_profile e) (ex_last_verified_at e) (ex_created_at e) (ex_updated_at e) c.
(** The join of an external identity with its credential. *)
Definition external_where (P : ExternalRow -> bool) (d : IdentityDB) : option ExternalIdentity :=
  e ← find_row P (id_externals d); c ← id_credentials d !! ex_id e; Some (external_identity e c).

Definition GetExternalIdentityForUser (userID : UUID) : IdentityM ExternalIdentity :=
  row ← st_get (external_where (fun e => ex_user_id e == userID)); st_or_err row ErrCredentialNotFound.
Definition FindExternalIdentity (key : PrincipalKey) : IdentityM (ExternalIdentity * User) :=
  row ← st_get (fun d => e ← external_where (fun e => ex_key e == key) d; u ← id_users d !! ei_UserID e; Some (e, u));
  st_or_err row ErrNotFound.

Definition with_verified (profile : option string) (now : Time) (e : ExternalRow) : ExternalRow :=
  mkExternalRow (ex_id e) (ex_user_id e) (ex_key e) (default (ex_provider_profile e) profile) (Some now) (ex_created_at e) now.

(** What a provider answers: a value, or an error with its category and request, if it has them; the last
    part says whether the error is [ErrProviderTransient]. *)
Record ProviderError := mkProviderError { pe_Category : option ProviderErrorCategory; pe_RequestID : string; pe_Transient : bool }.
Inductive ProviderReply (A : Type) := POk (a : A) | PErr (e : ProviderError).
Arguments POk {A} a.
Arguments PErr {A} e.

(** An error of [refresh] rolls the transaction back, which has written nothing. *)
Definition RefreshCredentialLocked (externalIdentityID : UUID) (refresh : OAuthCredential -> ProviderReply OAuthCredential)
    : IdentityM (ProviderReply OAuthCredential) :=
  atomically (
    row ← st_get (fun d => id_credentials d !! externalIdentityID);
    current ← st_or_err row ErrCredentialNotFound;
    match refresh current with
    | PErr e => mret (PErr e)
    | POk updated => st_mod (on_credentials <[externalIdentityID := updated]>);; mret (POk updated)
    end).
Definition UpdateCredential (externalIdentityID : UUID) (credential : OAuthCredential) : IdentityM unit :=
  atomically (
    row ← st_get (fun d => id_credentials d !! externalIdentityID);
    _ ← st_or_err row ErrCredentialNotFound;
    st_mod (on_credentials <[externalIdentityID := credential]>)).

(** ** Logins *)

Record LoginCommand := mkLoginCommand {
  lc_Principal : ExternalPrincipal;
  lc_Credential : OAuthCredential;
  lc_Session : Session;
  lc_Audit : AuditEvent;
  lc_Now : Time;
}.
(** [BootstrapAdminCommand] has the same fields; its CSRF secret is not used. *)
Definition BootstrapAdminCommand := LoginCommand.
Record RegisterAccessRequestCommand := mkRegisterAccessRequestCommand {
  rc_Principal : ExternalPrincipal;
  rc_Credential : OAuthCredential;
  rc_UserID : UUID;
  rc_UserName : string;
  rc_UserEmail : option string;
  rc_UserAvatarURL : option string;
  rc_Session : Session;
  rc_Audit : AuditEvent;
  rc_Now : Time;
}.

Definition primarySeedUserID : UUID := 1%N.

Definition BootstrapAdmin (externalID : UUID) (c : BootstrapAdminCommand) : IdentityM User :=
  atomically (
    admins ← st_get (fun d => length (filter (fun u => u_PlatformRole u = PlatformRoleAdmin) (snd <$> map_to_list (id_users d))));
    st_fail (negb (Z.of_nat admins =? 0)) ErrLoginDenied;;
    row ← st_get (fun d => id_users d !! primarySeedUserID);
    seed ← st_or_err row ErrOther;
    let user := as_administrator (lc_Principal c) (lc_Now c) seed in
    on_unique ErrLoginDenied (update_user user);;
    on_unique ErrLoginDenied
      (insertExternalIdentityAndCredential externalID primarySeedUserID (lc_Principal c) (lc_Credential c) (lc_Now c));;
    insertSession (lc_Session c);;
    insertAudit (with_audit_subject primarySeedUserID (Some (se_ID (lc_Session c))) None (lc_Audit c));;
    mret user).

Definition LoginExternal (c : LoginCommand) : IdentityM User :=
  atomically (
    row ← st_get (fun d => e ← find_row (fun e => ex_key e == ip_Key (lc_Principal c)) (id_externals d);
                           u ← id_users d !! ex_user_id e; Some (e, u));
    found ← st_or_err row ErrLoginDenied;
    let '(e, u) := found in
    st_fail (negb (u_Active u)) ErrLoginDenied;;
    st_mod (on_externals <[ex_id e := with_verified (Some (jsonOrEmpty (ip_Profile (lc_Principal c)))) (lc_Now c) e]>);;
    st_mod (on_credentials (fun t => if present (t !! ex_id e) then <[ex_id e := lc_Credential c]> t else t));;
    let user := with_profile (lc_Principal c) (lc_Now c) u in
    wrapped (update_user user);;
    insertSession (lc_Session c);;
    insertAudit (with_audit_subject (u_ID u) (Some (se_ID (lc_Session c))) None (lc_Audit c));;
    mret user).

(** ** Users *)

Definition GetByID (userID : UUID) : IdentityM User :=
  row ← st_get (fun d => id_users d !! userID); st_or_err row ErrNotFound.
Definition SetActive (userID : UUID) (active : bool) (now : Time) : IdentityM unit :=
  row ← st_get (fun d => id_users d !! userID);
  u ← st_or_err row ErrNotFound;
  st_mod (on_users <[userID := with_active active now u]>).

Section events.
Context `{UuidLibrary}.

(** The administrator to notify: there is at most one. *)
Definition notified_administrator (d : IdentityDB) : option User :=
  find_row (fun u => (u_PlatformRole u == PlatformRoleAdmin) && (u_AccessStatus u == AccessStatusApproved) && u_Active u) (id_users d).
(** [eventID] is drawn; [created] is the time of the transaction. *)
Definition insertAccessRequestedEvent (eventID : UUID) (requester : User) (occurredAt created : Time) : IdentityM unit :=
  row ← st_get notified_administrator;
  match row with
  | None => mret tt
  | Some administrator =>
      event ← st_lift (events_New eventID (mkNewEvent uuid_Nil "access_request" (u_ID requester) AccessRequested (u_ID administrator)
        (Some (PAccessRequested (mkAccessRequestedPayload (u_ID requester) (u_Name requester) (u_Email requester) occurredAt)))
        (AccessRequested +:+ ":" +:+ uuid_String (u_ID requester)) occurredAt));
      insert_event event created
  end.
Definition insertAccessApprovedEvent (eventID userID actorID : UUID) (occurredAt created : Time) : IdentityM unit :=
  row ← st_get (fun d => u ← id_users d !! userID; a ← id_users d !! actorID; Some (u, a));
  participants ← st_or_err row ErrOther;
  event ← st_lift (events_New eventID (mkNewEvent uuid_Nil "access_request" userID AccessApproved userID
    (Some (PAccessApproved (mkAccessApprovedPayload userID (u_Name participants.1) actorID (u_Name participants.2) occurredAt)))
    (AccessApproved +:+ ":" +:+ uuid_String userID) occurredAt));
  insert_event event created.

Definition RegisterAccessRequest (externalID eventID : UUID) (created : Time) (c : RegisterAccessRequestCommand) : IdentityM User :=
  atomically (
    let user := invited_user (rc_UserID c) (rc_UserName c) (rc_UserEmail c) (rc_UserAvatarURL c) (rc_Now c) in
    on_unique ErrLoginDenied (insert_user user);;
    on_unique ErrLoginDenied
      (insertExternalIdentityAndCredential externalID (u_ID user) (rc_Principal c) (rc_Credential c) (rc_Now c));;
    insertSession (rc_Session c);;
    insertAudit (with_audit_subject (u_ID user) (Some (se_ID (rc_Session c))) None (rc_Audit c));;
    insertAccessRequestedEvent eventID user (rc_Now c) created;;
    mret user).

Definition SetUserAccessStatus (auditID eventID : UUID) (created : Time) (userID actorID : UUID) (status : AccessStatus) (now : Time)
    (requestID : string) : IdentityM unit :=
  atomically (
    row ← st_get (fun d => id_users d !! userID);
    u ← st_or_err row ErrNotFound;
    st_fail (u_PlatformRole u != PlatformRoleMember) ErrForbidden;;
    st_fail (negb (CanChangeAccessStatus (u_AccessStatus u) status)) ErrConflict;;
    if u_AccessStatus u == status then mret tt
    else
      wrapped (update_user (with_access_status status now u));;
      insertAudit (mkAuditEvent auditID (if status == AccessStatusApproved then "access_approved" else "access_rejected")
        (Some actorID) (Some userID) None None (if requestID == "" then None else Some requestID) [] now);;
      if status == AccessStatusApproved then insertAccessApprovedEvent eventID userID actorID now created else mret tt).
End events.

Definition revoke_sessions (userID : UUID) (now : Time) (reason : string) : IdentityM unit :=
  st_mod (on_sessions (update_where (fun s => (se_UserID s == userID) && negb (present (se_RevokedAt s))) (with_revoked now reason))).

(** [now] is the time of the store, [auditID] what it draws. *)
Definition DeactivateUser (userID actorID : UUID) (reason providerRequestID : string) (now : Time) (auditID : UUID) : IdentityM unit :=
  atomically (
    row ← st_get (fun d => id_users d !! userID);
    u ← st_or_err row ErrNotFound;
    st_mod (on_users <[userID := with_active false now u]>);;
    revoke_sessions userID now reason;;
    insertAudit (mkAuditEvent auditID "user_deactivated" (Some actorID) (Some userID) None None None
      ([("reason", reason)] ++ (if providerRequestID == "" then [] else [("provider_request_id", providerRequestID)])) now)).

Definition ReactivateUser (userID actorID : UUID) (now : Time) (auditID : UUID) : IdentityM unit :=
  atomically (
    row ← st_get (fun d => id_users d !! userID);
    u ← st_or_err row ErrNotFound;
    st_mod (on_users <[userID := with_active true now u]>);;
    insertAudit (mkAuditEvent auditID "user_reactivated" (Some actorID) (Some userID) None None None [] now)).

(** ** Sessions *)

Definition CreateSession (s : Session) (audit : AuditEvent) : IdentityM unit :=
  atomically (
    row ← st_get (fun d => id_users d !! se_UserID s);
    u ← st_or_err row ErrSessionInvalid;
    st_fail (negb (u_Active u)) ErrIdentityUserInactive;;
    insertSession s;;
    insertAudit audit).

Definition open_impersonation (sessionID : UUID) (d : IdentityDB) : option Impersonation :=
  find_row (fun i => (im_SessionID i == sessionID) && negb (present (im_EndedAt i))) (id_impersonations d).
Definition with_ended (now : Time) (i : Impersonation) : Impersonation :=
  mkImpersonation (im_ID i) (im_SessionID i) (im_ActorUserID i) (im_SubjectUserID i) (im_StartedAt i) (Some now).

(** [audit1] and [audit2] are drawn. *)
Definition LogoutSession (audit1 audit2 sessionID : UUID) (now : Time) (requestID : string) : IdentityM unit :=
  let request := if requestID == "" then None else Some requestID in
  atomically (
    s ← lockSession sessionID;
    open ← st_get (open_impersonation sessionID);
    (match open with
     | None => mret tt
     | Some i =>
         st_mod (on_impersonations <[im_ID i := with_ended now i]>);;
         insertAudit (mkAuditEvent audit1 "impersonation_ended" (Some (se_UserID s)) (Some (im_SubjectUserID i)) None (Some sessionID)
           request [("reason", "logout")] now)
     end);;
    st_mod (on_sessions <[sessionID := with_revoked now "logout" s]>);;
    insertAudit (mkAuditEvent audit2 "session_revoked" (Some (se_UserID s)) (Some (se_UserID s)) None (Some sessionID)
      request [("reason", "logout")] now)).

(** The open impersonation of a session with its subject. *)
Definition currentImpersonation (sessionID : UUID) (d : IdentityDB) : option (Impersonation * User) :=
  i ← open_impersonation sessionID d; u ← id_users d !! im_SubjectUserID i; Some (i, u).
Definition CurrentImpersonation (sessionID : UUID) : IdentityM (option Impersonation) :=
  st_get (fun d => fst <$> currentImpersonation sessionID d).

Definition ResolveSession (sessionID : UUID) (secretHash : string) (now : Time) : IdentityM SessionBundle :=
  row ← st_get (fun d => s ← id_sessions d !! sessionID; u ← id_users d !! se_UserID s; Some (s, u));
  found ← st_or_err row ErrSessionInvalid;
  let '(s, u) := found in
  st_fail (secretHash != se_SecretHash s) ErrSessionInvalid;;
  st_fail (negb (u_Active u)) ErrIdentityUserInactive;;
  st_fail (present (se_RevokedAt s)) ErrSessionRevoked;;
  st_fail (negb (Time_Before now (se_IdleExpiresAt s)) || negb (Time_Before now (se_AbsoluteExpiresAt s))) ErrSessionExpired;;
  current ← st_get (currentImpersonation sessionID);
  mret (mkSessionBundle s u (fst <$> current) (snd <$> current)).

Definition TouchSession (sessionID : UUID) (now idleExpiresAt : Time) : IdentityM bool :=
  atomically (
    s ← lockSession sessionID;
    if SessionRollDue s now then
      let idle := if Time_After idleExpiresAt (se_AbsoluteExpiresAt s) then se_AbsoluteExpiresAt s else idleExpiresAt in
      st_mod (on_sessions <[sessionID := with_activity now idle s]>);; mret true
    else mret false).

Definition RecordProviderVerification (sessionID : UUID) (verifiedAt : Time) : IdentityM unit :=
  atomically (
    s ← lockSession sessionID;
    st_mod (on_sessions <[sessionID := with_provider (Some verifiedAt) None s]>);;
    st_mod (on_externals (update_where (fun e => ex_user_id e == se_UserID s) (with_verified None verifiedAt)))).
Definition RecordTokenProviderVerification (userID : UUID) (verifiedAt : Time) : IdentityM unit :=
  row ← st_get (fun d => find_row (fun e => ex_user_id e == userID) (id_externals d));
  _ ← st_or_err row ErrCredentialNotFound;
  st_mod (on_externals (update_where (fun e => ex_user_id e == userID) (with_verified None verifiedAt))).
Definition RecordProviderFailure (sessionID : UUID) (failedAt : Time) (audit : AuditEvent) : IdentityM unit :=
  atomically (
    s ← lockSession sessionID;
    st_mod (on_sessions <[sessionID :=
      with_provider (se_LastProviderVerifiedAt s) (Some (default failedAt (se_ProviderFailureSince s))) s]>);;
    insertAudit audit).

Definition RevokeSession (sessionID : UUID) (reason : string) (now : Time) (audit : AuditEvent) : IdentityM unit :=
  atomically (
    s ← lockSession sessionID;
    st_mod (on_sessions <[sessionID := with_revoked now reason s]>);;
    insertAudit audit).
Definition RevokeAllSessions (userID : UUID) (reason : string) (now : Time) (audit : AuditEvent) : IdentityM unit :=
  atomically (revoke_sessions userID now reason;; insertAudit audit).

(** ** Impersonation *)

Definition StartImpersonation (i : Impersonation) (audit : AuditEvent) : IdentityM unit :=
  atomically (
    s ← lockSession (im_SessionID i);
    st_fail (se_UserID s != im_ActorUserID i) ErrImpersonationDenied;;
    st_fail (im_ActorUserID i == im_SubjectUserID i) ErrImpersonationDenied;;
    row ← st_get (fun d => a ← id_users d !! im_ActorUserID i; u ← id_users d !! im_SubjectUserID i; Some (a, u));
    pair ← st_or_err row ErrImpersonationDenied;
    st_fail (negb (u_Active pair.1) || (u_PlatformRole pair.1 != PlatformRoleAdmin) || negb (u_Active pair.2) ||
             (u_PlatformRole pair.2 != PlatformRoleMember) || (im_ActorUserID i == im_SubjectUserID i)) ErrImpersonationDenied;;
    on_unique ErrImpersonationActive (
      d ← st_get id;
      st_fail (present (id_impersonations d !! im_ID i) || present (open_impersonation (im_SessionID i) d)) ErrConflict;;
      st_mod (on_impersonations <[im_ID i := mkImpersonation (im_ID i) (im_SessionID i) (im_ActorUserID i) (im_SubjectUserID i)
        (im_StartedAt i) None]>));;
    insertAudit audit).

Definition EndImpersonation (sessionID : UUID) (endedAt : Time) (audit : AuditEvent) : IdentityM unit :=
  atomically (
    _ ← lockSession sessionID;
    open ← st_get (open_impersonation sessionID);
    i ← st_or_err open ErrImpersonationNotFound;
    st_mod (on_impersonations <[im_ID i := with_ended endedAt i]>);;
    insertAudit audit).

Definition AppendAudit (audit : AuditEvent) : IdentityM unit := wrapped (insertAudit audit).
