(* ===== verification/IdentityService.v ===== *)
(** * The identity service

    internal/identity/service.go over the identity store.  What a call draws from the clock, the source of
    identifiers and the source of secrets is an argument, as is the provider with its answers in that call. *)

From Stdlib Require Import Ascii.
From stdpp Require Import base tactics strings gmap list numbers sorting.
From S2P Require Import Prelude Actors State Http Access Events Identity IdentityStore.

(** ** Arguments of a call *)

(** The [n]-th reading of the clock, the [n]-th identifier, the [n]-th secret of a call. *)
Record Draws := mkDraws { dr_now : nat -> Time; dr_uuid : nat -> UUID; dr_secret : nat -> result string }.
Definition later (n : nat) (dr : Draws) : Draws :=
  mkDraws (fun k => dr_now dr (n + k)) (fun k => dr_uuid dr (n + k)) (fun k => dr_secret dr (n + k)).

(** The ports of ports.go. *)
Record Provider := mkProvider {
  pv_StartAuthorization : string -> string -> ProviderReply string;
  pv_ExchangeAuthorizationCode : string -> ProviderReply (ExternalPrincipal * OAuthCredential);
  pv_RefreshCredential : OAuthCredential -> ProviderReply OAuthCredential;
  pv_VerifyPrincipal : OAuthCredential -> PrincipalKey -> ProviderReply VerificationResult;
  pv_SearchPrincipals : OAuthCredential -> string -> Z -> ProviderReply (list ExternalPrincipal);
  pv_GetPrincipal : OAuthCredential -> string -> ProviderReply ExternalPrincipal;
  pv_SendInvitation : PrincipalKey -> string -> ProviderReply string;
}.

(** An error of the provider as an error of the service. *)
Definition reply_error (e : ProviderError) : error := if pe_Transient e then ErrProviderTransient else ErrOther.
Definition st_reply {A} (r : ProviderReply A) : IdentityM A := match r with POk a => mret a | PErr e => st_throw (reply_error e) end.

(** [if err := m; err != nil { log }] *)
Definition ignore_error (m : IdentityM unit) : IdentityM unit := fun d => (Ok tt, (m d).2).

(** ** Configuration *)

Record LarkConfig := mkLarkConfig {
  lk_TenantID : string;
  lk_RedirectURI : string;
  lk_BootstrapEmail : string;
  lk_Directory : bool;
  lk_Notifier : bool;
  lk_AppBaseURL : string;
}.
Record Service := mkService { sv_sessionSecret : string; sv_lark : option LarkConfig }.

Definition NewService (sessionSecret : string) : result Service :=
  fail_if (negb (Z.of_nat (String.length sessionSecret) =? 32)) ErrOther;;
  Ok (mkService sessionSecret None).

(** [strings.TrimRight(s, "/")] *)
Definition trim_slashes (s : string) : string :=
  String.string_of_list_ascii (rev (GoStrings.trim_front [["/"%char]] (rev (String.list_ascii_of_string s)))).

(** [ports] says whether the repository, the authenticator and the verifier are given. *)
Definition ConfigureLark (ports : bool) (config : LarkConfig) (s : Service) : result Service :=
  fail_if (negb ports || (lk_TenantID config == "") || (lk_RedirectURI config == "") || blank (lk_BootstrapEmail config)) ErrOther;;
  Ok (mkService (sv_sessionSecret s) (Some (mkLarkConfig (lk_TenantID config) (lk_RedirectURI config)
    (TrimSpace (lk_BootstrapEmail config)) (lk_Directory config) (lk_Notifier config) (trim_slashes (lk_AppBaseURL config))))).

Definition invitationURL (s : Service) (rawToken : string) : string :=
  match sv_lark s with Some c => lk_AppBaseURL c | None => "" end +:+ "/invite#" +:+ rawToken.

(** ** Runes: [len([]rune(s))] *)

Definition continues (c : ascii) : bool := (0x80 <=? code c) && (code c <=? 0xBF).
(** The width of the first rune; bytes that start no rune count as one. *)
Definition rune_width (l : list ascii) : nat :=
  match l with
  | a :: b :: l =>
      let x := code a in let y := code b in
      if (0xC2 <=? x) && (x <=? 0xDF) && continues b then 2
      else match l with
      | c :: l =>
          if continues c &&
             (((x =? 0xE0) && (0xA0 <=? y) && (y <=? 0xBF)) || ((x =? 0xED) && (0x80 <=? y) && (y <=? 0x9F)) ||
              (0xE1 <=? x) && (x <=? 0xEF) && negb (x =? 0xED) && continues b) then 3
          else match l with
          | e :: _ =>
              if continues c && continues e &&
                 (((x =? 0xF0) && (0x90 <=? y) && (y <=? 0xBF)) || ((x =? 0xF4) && (0x80 <=? y) && (y <=? 0x8F)) ||
                  (0xF1 <=? x) && (x <=? 0xF3) && continues b) then 4 else 1
          | [] => 1
          end
      | [] => 1
      end
  | _ => 1
  end.
(** Every rune takes a byte, so that the bytes are fuel enough. *)
Fixpoint rune_count (fuel : nat) (l : list ascii) : nat :=
  match fuel, l with
  | S fuel, _ :: _ => S (rune_count fuel (drop (rune_width l) l))
  | _, _ => 0
  end.
Definition runes (s : string) : nat := rune_count (String.length s) (String.list_ascii_of_string s).

Definition requestRef (requestID : string) : option string := if requestID == "" then None else Some requestID.
Definition require_administrator (actor : User) : result unit :=
  fail_if ((u_PlatformRole actor != PlatformRoleAdmin) || negb (u_Active actor)) ErrAdminRequired.

(** ** Credentials of the provider *)

Definition credentialForUser (pv : Provider) (dr : Draws) (userID : UUID) : IdentityM OAuthCredential :=
  external ← GetExternalIdentityForUser userID;
  let credential := ei_EncryptedCredential external in
  if Time_Before (dr_now dr 0) (oc_AccessTokenExpiresAt credential) then mret credential
  else
    st_fail (negb (Time_Before (dr_now dr 1) (oc_RefreshTokenExpiresAt credential))) ErrSessionInvalid;;
    reply ← RefreshCredentialLocked (ei_ID external) (fun current =>
      if Time_Before (dr_now dr 2) (oc_AccessTokenExpiresAt current) then POk current else pv_RefreshCredential pv current);
    st_reply reply.

Definition SearchDirectory (s : Service) (pv : Provider) (dr : Draws) (actor : User) (query : string)
    : IdentityM (list ExternalPrincipal) :=
  let query := TrimSpace query in
  st_lift (require_administrator actor);;
  st_fail (Z.of_nat (runes query) <? 2) ErrInvalidInput;;
  st_fail (negb (match sv_lark s with Some c => lk_Directory c | None => false end)) ErrProviderContract;;
  credential ← credentialForUser pv dr (u_ID actor);
  principals ← st_reply (pv_SearchPrincipals pv credential query 20);
  mret (take 20 principals).

(** ** Invitations *)

Record InvitationResult := mkInvitationResult { vr_Invitation : Invitation; vr_Delivery : option InvitationDelivery }.

Definition Service_ListInvitations (dr : Draws) (actor : User) : IdentityM (list InvitationResult) :=
  st_lift (require_administrator actor);;
  _ ← ExpireInvitations (dr_now dr 0);
  invitations ← ListInvitations;
  deliveries ← ListLatestInvitationDeliveries;
  mret ((fun i => mkInvitationResult i (deliveries (iv_ID i))) <$> invitations).

Definition deliverInvitation (s : Service) (pv : Provider) (dr : Draws) (invitation : Invitation) (rawToken : string)
    : IdentityM InvitationDelivery :=
  let delivered := mkInvitationDelivery (dr_uuid dr 0) (iv_ID invitation) DeliveryProviderDM in
  let delivery :=
    match pv_SendInvitation pv (iv_Target invitation) (invitationURL s rawToken) with
    | PErr e => delivered DeliveryFailed None (Some (default ProviderUnavailable (pe_Category e))) (dr_now dr 0)
    | POk reference => delivered DeliveryDelivered (Some reference) None (dr_now dr 0)
    end in
  RecordDelivery delivery;;
  mret delivery.

(** [findLoginUser] *)
Definition findLoginUser (key : PrincipalKey) : IdentityM (ExternalIdentity * User) := FindExternalIdentity key.

(** Whether the principal is bound to a user already. *)
Definition bound (key : PrincipalKey) : IdentityM bool := fun d =>
  match FindExternalIdentity key d with
  | (Ok _, d') => (Ok true, d')
  | (Err e, d') => if e == ErrNotFound then (Ok false, d') else (Err e, d')
  end.

(** The snapshot is the JSON of name, email and avatar. *)
Definition Service_CreateInvitation (s : Service) (pv : Provider) (snapshot : ExternalPrincipal -> string) (dr : Draws) (actor : User)
    (subjectID requestID : string) : IdentityM InvitationResult :=
  st_lift (require_administrator actor);;
  config ← st_or_err (sv_lark s) ErrInvalidInput;
  st_fail (negb (lk_Directory config) || negb (lk_Notifier config) || blank subjectID) ErrInvalidInput;;
  credential ← credentialForUser pv (later 10 dr) (u_ID actor);
  principal ← st_reply (pv_GetPrincipal pv credential (TrimSpace subjectID));
  st_fail ((pk_Provider (ip_Key principal) != "lark") || (pk_TenantID (ip_Key principal) != lk_TenantID config) ||
           (pk_SubjectID (ip_Key principal) != TrimSpace subjectID) || negb (ip_Active principal)) ErrInvitationInvalid;;
  known ← bound (ip_Key principal);
  st_fail known ErrInvitationConflict;;
  rawToken ← st_lift (dr_secret dr 0);
  let now := dr_now dr 0 in
  let invitation := mkInvitation (dr_uuid dr 0) (ip_Key principal) (snapshot principal) (HashSecret rawToken) InvitationPending
    (u_ID actor) (InvitationExpiresAt now) None None None now now in
  CreateInvitation invitation (mkAuditEvent (dr_uuid dr 1) "invitation_created" (Some (u_ID actor)) None (Some (iv_ID invitation)) None
    (requestRef requestID) [] now);;
  delivery ← deliverInvitation s pv (later 20 dr) invitation rawToken;
  mret (mkInvitationResult invitation (Some delivery)).

Definition ResendInvitation (s : Service) (pv : Provider) (dr : Draws) (actor : User) (id : UUID) : IdentityM InvitationResult :=
  st_lift (require_administrator actor);;
  rawToken ← st_lift (dr_secret dr 0);
  invitation ← RotateInvitation id (u_ID actor) (HashSecret rawToken) (InvitationExpiresAt (dr_now dr 0)) (dr_now dr 1) (dr_uuid dr 0);
  delivery ← deliverInvitation s pv (later 20 dr) invitation rawToken;
  mret (mkInvitationResult invitation (Some delivery)).

Definition RotateInvitationLink (s : Service) (dr : Draws) (actor : User) (id : UUID) : IdentityM string :=
  st_lift (require_administrator actor);;
  rawToken ← st_lift (dr_secret dr 0);
  invitation ← RotateInvitation id (u_ID actor) (HashSecret rawToken) (InvitationExpiresAt (dr_now dr 0)) (dr_now dr 1) (dr_uuid dr 0);
  RecordDelivery (mkInvitationDelivery (dr_uuid dr 1) (iv_ID invitation) DeliveryCopiedLink DeliveryDelivered None None (dr_now dr 2));;
  mret (invitationURL s rawToken).

Definition Service_RevokeInvitation (dr : Draws) (actor : User) (id : UUID) (requestID : string) : IdentityM unit :=
  st_lift (require_administrator actor);;
  RevokeInvitation id (dr_now dr 0) (mkAuditEvent (dr_uuid dr 0) "invitation_revoked" (Some (u_ID actor)) None (Some id) None
    (requestRef requestID) [] (dr_now dr 0)).

(** ** Authorizations *)

Definition AuthorizationLifetime : Z := 10 * Minute.

Definition startAuthorization (s : Service) (pv : Provider) (dr : Draws) (purpose : AuthorizationPurpose) (invitationID : option UUID)
    (invitationTokenHash : string) : IdentityM string :=
  config ← st_or_err (sv_lark s) ErrLoginDenied;
  st_fail ((purpose == AuthorizationLogin) && (present invitationID || (invitationTokenHash != "")) ||
           (purpose == AuthorizationInvitation) && (negb (present invitationID) || (invitationTokenHash == ""))) ErrAuthorizationInvalid;;
  state ← st_lift (dr_secret dr 0);
  let now := dr_now dr 0 in
  CreateAuthorizationTransaction (mkAuthorizationTransaction (dr_uuid dr 0) purpose (HashSecret state) invitationID
    (if invitationTokenHash == "" then None else Some invitationTokenHash) (now + AuthorizationLifetime) None now);;
  st_reply (pv_StartAuthorization pv state (lk_RedirectURI config)).
Definition StartAuthorization (s : Service) (pv : Provider) (dr : Draws) (purpose : AuthorizationPurpose) (invitationID : option UUID)
    : IdentityM string := startAuthorization s pv dr purpose invitationID "".

Definition AcceptInvitationToken (s : Service) (pv : Provider) (dr : Draws) (token : string) : IdentityM string :=
  st_fail (blank token) ErrInvitationInvalid;;
  invitation ← st_map_err (fun _ => ErrInvitationInvalid) (GetInvitationByTokenHash (HashSecret token) (dr_now dr 10));
  startAuthorization s pv dr AuthorizationInvitation (Some (iv_ID invitation)) (iv_TokenHash invitation).

Definition recordAuthenticationRejection (dr : Draws) (category requestID providerRequestID : string) : IdentityM unit :=
  ignore_error (AppendAudit (mkAuditEvent (dr_uuid dr 0) "login_rejected" None None None None (requestRef requestID)
    ([("category", category)] ++ (if providerRequestID == "" then [] else [("provider_request_id", providerRequestID)])) (dr_now dr 0))).
(** [recordAuthenticationRejection] and the error after it *)
Definition reject {A} (dr : Draws) (category requestID : string) (e : error) : IdentityM A :=
  recordAuthenticationRejection (later 90 dr) category requestID "";; st_throw e.
(** [if err != nil { recordAuthenticationRejection; return e }] *)
Definition or_reject {A} (dr : Draws) (category requestID : string) (e : error) (m : IdentityM A) : IdentityM A := fun d =>
  match m d with
  | (Ok a, d') => (Ok a, d')
  | (Err _, d') => reject dr category requestID e d'
  end.

(** ** Sessions *)

Definition newSession (dr : Draws) (userID : UUID) : result (SessionTokens * Session) :=
  sessionSecret ← dr_secret dr 0;
  csrfSecret ← dr_secret dr 1;
  let now := dr_now dr 0 in
  let '(idleExpiresAt, absoluteExpiresAt) := NewSessionTimes now in
  Ok (mkSessionTokens (dr_uuid dr 0) sessionSecret csrfSecret,
      mkSession (dr_uuid dr 0) userID (HashSecret sessionSecret) (HashSecret csrfSecret) now now idleExpiresAt absoluteExpiresAt
        None None None None).
Definition with_user (userID : UUID) (s : Session) : Session :=
  mkSession (se_ID s) userID (se_SecretHash s) (se_CSRFSecretHash s) (se_CreatedAt s) (se_LastSeenAt s) (se_IdleExpiresAt s)
    (se_AbsoluteExpiresAt s) (se_LastProviderVerifiedAt s) (se_ProviderFailureSince s) (se_RevokedAt s) (se_RevokeReason s).

Definition IssueSession (dr : Draws) (userID : UUID) (requestID : string) : IdentityM SessionTokens :=
  user ← st_map_err (fun e => if errors_Is e ErrNotFound then ErrSessionInvalid else e) (GetByID userID);
  st_fail (negb (u_Active user)) ErrIdentityUserInactive;;
  new ← st_lift (newSession dr userID);
  let '(tokens, session) := new in
  CreateSession session (mkAuditEvent (dr_uuid dr 10) "session_created" None (Some userID) None (Some (se_ID session))
    (requestRef requestID) [] (dr_now dr 10));;
  mret tokens.

Definition Logout (dr : Draws) (current : SessionIdentity) (requestID : string) : IdentityM unit :=
  LogoutSession (dr_uuid dr 0) (dr_uuid dr 1) (si_SessionID current) (dr_now dr 0) requestID.

(** ** Administration *)

Definition SetUserActive (dr : Draws) (actor : User) (userID : UUID) (active : bool) : IdentityM unit :=
  st_lift (require_administrator actor);;
  target ← GetByID userID;
  st_fail ((u_PlatformRole target == PlatformRoleAdmin) || (u_ID target == u_ID actor)) ErrForbidden;;
  if active then ReactivateUser (u_ID target) (u_ID actor) (dr_now dr 0) (dr_uuid dr 0)
  else DeactivateUser (u_ID target) (u_ID actor) "administrator_deactivated" "" (dr_now dr 0) (dr_uuid dr 0).

Definition Service_StartImpersonation (dr : Draws) (current : SessionIdentity) (subjectID : UUID) (requestID : string) : IdentityM unit :=
  st_fail (IsImpersonating current || (u_PlatformRole (si_Actor current) != PlatformRoleAdmin) || negb (u_Active (si_Actor current)))
    ErrImpersonationDenied;;
  subject ← st_map_err (fun _ => ErrImpersonationDenied) (GetByID subjectID);
  st_fail (negb (CanImpersonate (si_Actor current) subject)) ErrImpersonationDenied;;
  let now := dr_now dr 0 in
  StartImpersonation (mkImpersonation (dr_uuid dr 0) (si_SessionID current) (u_ID (si_Actor current)) (u_ID subject) now None)
    (mkAuditEvent (dr_uuid dr 1) "impersonation_started" (Some (u_ID (si_Actor current))) (Some (u_ID subject)) None
      (Some (si_SessionID current)) (requestRef requestID) [] now).

Definition Service_EndImpersonation (dr : Draws) (current : SessionIdentity) (requestID : string) : IdentityM unit :=
  st_fail (negb (IsImpersonating current) || (u_PlatformRole (si_Actor current) != PlatformRoleAdmin)) ErrImpersonationNotFound;;
  let now := dr_now dr 0 in
  EndImpersonation (si_SessionID current) now (mkAuditEvent (dr_uuid dr 0) "impersonation_ended" (Some (u_ID (si_Actor current)))
    (Some (u_ID (si_Subject current))) None (Some (si_SessionID current)) (requestRef requestID) [] now).

Definition RecordImpersonationWriteRejected (dr : Draws) (current : SessionIdentity) (method route requestID : string) : IdentityM unit :=
  if negb (IsImpersonating current) then mret tt
  else AppendAudit (mkAuditEvent (dr_uuid dr 0) "impersonation_write_rejected" (Some (u_ID (si_Actor current)))
    (Some (u_ID (si_Subject current))) None (Some (si_SessionID current)) (requestRef requestID)
    [("method", method); ("route", route)] (dr_now dr 0)).

(** ** Verification by the provider *)

(** Errors that leave the answer open. *)
Definition transient_error (e : ProviderError) : bool :=
  pe_Transient e || match pe_Category e with Some c => (c == ProviderRateLimited) || (c == ProviderUnavailable) | None => false end.
Definition transient_result (e : ProviderError) : VerificationResult :=
  let category := default "" (pe_Category e) in
  mkVerificationResult VerificationTransient (if category == "" then ProviderUnavailable else category) (pe_RequestID e).

(** The credential for the verification: a valid one, or what its refresh says about the principal. *)
Definition verification_credential (pv : Provider) (external : ExternalIdentity) (now : Time)
    : IdentityM (OAuthCredential + VerificationResult) :=
  let credential := ei_EncryptedCredential external in
  if Time_Before now (oc_AccessTokenExpiresAt credential) then mret (inl credential)
  else
    st_fail (negb (Time_Before now (oc_RefreshTokenExpiresAt credential))) ErrSessionInvalid;;
    reply ← st_map_err (fun _ => ErrSessionInvalid) (RefreshCredentialLocked (ei_ID external) (fun current =>
      if Time_Before now (oc_AccessTokenExpiresAt current) then POk current else pv_RefreshCredential pv current));
    match reply with
    | POk c => mret (inl c)
    | PErr e =>
        if transient_error e then mret (inr (transient_result e))
        else match pe_Category e with
        | Some c => if IsExplicitInvalid c then mret (inr (mkVerificationResult VerificationInvalid c (pe_RequestID e)))
                    else st_throw ErrSessionInvalid
        | None => st_throw ErrSessionInvalid
        end
    end.
Definition verifyExternalPrincipal (pv : Provider) (external : ExternalIdentity) (now : Time) : IdentityM VerificationResult :=
  credential ← verification_credential pv external now;
  match credential with
  | inr result => mret result
  | inl c =>
      match pv_VerifyPrincipal pv c (ei_Key external) with
      | POk result => mret result
      | PErr e => if transient_error e then mret (transient_result e) else st_throw ErrProviderContract
      end
  end.

Definition deactivateInvalidPrincipal (dr : Draws) (userID : UUID) (category : ProviderErrorCategory) (providerRequestID : string)
    : IdentityM unit :=
  DeactivateUser userID userID category providerRequestID (dr_now dr 0) (dr_uuid dr 0);;
  st_throw ErrIdentityUserInactive.

Definition with_session (f : Session -> Session) (b : SessionBundle) : SessionBundle :=
  mkSessionBundle (f (sb_Session b)) (sb_User b) (sb_Impersonation b) (sb_Subject b).

Definition applyProviderTransient (dr : Draws) (bundle : SessionBundle) (category : ProviderErrorCategory) (providerRequestID : string)
    (now : Time) : IdentityM SessionBundle :=
  let session := sb_Session bundle in
  RecordProviderFailure (se_ID session) now (mkAuditEvent (dr_uuid dr 0) "provider_verification_failed" None
    (Some (u_ID (sb_User bundle))) None (Some (se_ID session)) None
    ([("category", category)] ++ (if providerRequestID == "" then [] else [("provider_request_id", providerRequestID)])) now);;
  match se_ProviderFailureSince session with
  | None => mret (with_session (with_provider (se_LastProviderVerifiedAt session) (Some now)) bundle)
  | Some _ => if WithinProviderGrace (se_ProviderFailureSince session) now then mret bundle else st_throw ErrProviderTransient
  end.

Definition revalidate (pv : Provider) (dr : Draws) (bundle : SessionBundle) (now : Time) : IdentityM SessionBundle :=
  external ← st_map_err (fun _ => ErrSessionInvalid) (GetExternalIdentityForUser (u_ID (sb_User bundle)));
  result ← verifyExternalPrincipal pv external now;
  if vr_State result == VerificationValid then
    RecordProviderVerification (se_ID (sb_Session bundle)) now;;
    mret (with_session (with_provider (Some now) None) bundle)
  else if vr_State result == VerificationInvalid then
    st_fail (negb (IsExplicitInvalid (vr_Category result))) ErrProviderContract;;
    deactivateInvalidPrincipal dr (u_ID (sb_User bundle)) (vr_Category result) (vr_RequestID result);;
    mret bundle
  else if vr_State result == VerificationTransient then
    applyProviderTransient dr bundle (vr_Category result) (vr_RequestID result) now
  else st_throw ErrProviderContract.

Definition VerifyTokenOwner (s : Service) (pv : Provider) (dr : Draws) (user : User) : IdentityM unit :=
  st_fail (negb (u_Active user)) ErrIdentityUserInactive;;
  if negb (present (sv_lark s)) then mret tt
  else
    let now := dr_now dr 0 in
    external ← st_map_err (fun _ => ErrSessionInvalid) (GetExternalIdentityForUser (u_ID user));
    if negb (ProviderVerificationDue (ei_LastVerifiedAt external) now) then mret tt
    else
      result ← verifyExternalPrincipal pv external now;
      if vr_State result == VerificationValid then RecordTokenProviderVerification (u_ID user) now
      else if vr_State result == VerificationInvalid then
        st_fail (negb (IsExplicitInvalid (vr_Category result))) ErrProviderContract;;
        deactivateInvalidPrincipal (later 10 dr) (u_ID user) (vr_Category result) (vr_RequestID result)
      else if vr_State result == VerificationTransient then
        match ei_LastVerifiedAt external with
        | Some t => if Time_After now (t + ProviderTransientGrace) then st_throw ErrProviderTransient else mret tt
        | None => st_throw ErrProviderTransient
        end
      else st_throw ErrProviderContract.

Section authenticate.
Context `{UuidLibrary}.

Definition Service_SetUserAccessStatus (dr : Draws) (actor : User) (userID : UUID) (status : AccessStatus) (requestID : string) : IdentityM unit :=
  st_fail ((u_PlatformRole actor != PlatformRoleAdmin) || negb (CanUseApplication actor)) ErrAdminRequired;;
  st_fail ((status != AccessStatusApproved) && (status != AccessStatusRejected)) ErrInvalidInput;;
  target ← GetByID userID;
  st_fail ((u_PlatformRole target == PlatformRoleAdmin) || (u_ID target == u_ID actor)) ErrForbidden;;
  st_fail (negb (CanChangeAccessStatus (u_AccessStatus target) status)) ErrConflict;;
  SetUserAccessStatus (dr_uuid dr 0) (dr_uuid dr 1) (dr_now dr 1) (u_ID target) (u_ID actor) status (dr_now dr 0) requestID.

(** The bundle after the verification that may be due. *)
Definition verified_bundle (s : Service) (pv : Provider) (dr : Draws) (bundle : SessionBundle) (now : Time) : IdentityM SessionBundle :=
  if present (sv_lark s) && ProviderVerificationDue (se_LastProviderVerifiedAt (sb_Session bundle)) now
  then revalidate pv dr bundle now else mret bundle.
(** Who acts, and for whom. *)
Definition session_identity (sessionID : UUID) (bundle : SessionBundle) : result SessionIdentity :=
  match sb_Impersonation bundle with
  | None => Ok (mkSessionIdentity sessionID (sb_User bundle) (sb_User bundle) None)
  | Some i =>
      match sb_Subject bundle with
      | Some subject => if u_Active subject then Ok (mkSessionIdentity sessionID (sb_User bundle) subject (Some i)) else Err ErrSessionInvalid
      | None => Err ErrSessionInvalid
      end
  end.
Definition roll_session (sessionID : UUID) (session : Session) (now : Time) : IdentityM Session :=
  if SessionRollDue session now then
    let nextExpiry := RollingIdleExpiry now (se_AbsoluteExpiresAt session) in
    _ ← TouchSession sessionID now nextExpiry;
    mret (with_activity now nextExpiry session)
  else mret session.

Definition Service_Authenticate (s : Service) (pv : Provider) (dr : Draws) (cookieValue : string) : IdentityM (SessionIdentity * Session) :=
  parsed ← st_lift (parseSessionCookie (sv_sessionSecret s) cookieValue);
  let '(sessionID, secretHash) := parsed in
  let now := dr_now dr 0 in
  bundle ← ResolveSession sessionID secretHash now;
  bundle ← verified_bundle s pv (later 10 dr) bundle now;
  requestIdentity ← st_lift (session_identity sessionID bundle);
  session ← roll_session sessionID (sb_Session bundle) now;
  mret (requestIdentity, session).

(** ** Logins

    The email of the bootstrap administrator is an ASCII text of the configuration. *)

Definition complete_invitation (dr : Draws) (requestID : string) (transaction : AuthorizationTransaction) (principal : ExternalPrincipal)
    (credential : OAuthCredential) (tokens : SessionTokens) (session : Session) (audit : string -> AuditEvent) (now : Time)
    : IdentityM SessionTokens :=
  match az_InvitationID transaction, az_InvitationTokenHash transaction with
  | Some invitationID, Some tokenHash =>
      if tokenHash == "" then reject dr "invitation_state" requestID ErrLoginDenied
      else
        let userID := dr_uuid dr 1 in
        or_reject dr "invitation_acceptance" requestID ErrLoginDenied
          (AcceptInvitation (dr_uuid dr 2) (mkAcceptInvitationCommand invitationID "" tokenHash principal credential userID (ip_Name principal)
            (ip_Email principal) (ip_AvatarURL principal) (with_user userID session) (audit "invitation_accepted") now));;
        mret tokens
  | _, _ => reject dr "invitation_state" requestID ErrLoginDenied
  end.

Definition complete_login (config : LarkConfig) (dr : Draws) (requestID : string) (principal : ExternalPrincipal) (credential : OAuthCredential)
    (tokens : SessionTokens) (session : Session) (audit : string -> AuditEvent) (now : Time) : IdentityM SessionTokens := fun d =>
  match findLoginUser (ip_Key principal) d with
  | (Ok (_, user), d) =>
      (or_reject dr "bound_login_denied" requestID ErrLoginDenied
         (LoginExternal (mkLoginCommand principal credential (with_user (u_ID user) session) (audit "login_succeeded") now));;
       mret tokens) d
  | (Err e, d) =>
      if e != ErrNotFound then (Err e, d)
      else if match ip_Email principal with
              | Some email => ip_EmailVerified principal && EqualFold (TrimSpace email) (lk_BootstrapEmail config)
              | None => false
              end then
        (or_reject dr "bootstrap_denied" requestID ErrLoginDenied
           (BootstrapAdmin (dr_uuid dr 1) (mkLoginCommand principal credential (with_user primarySeedUserID session)
             (audit "administrator_bootstrapped") now));;
         mret tokens) d
      else
        let userID := dr_uuid dr 2 in
        (or_reject dr "access_request_registration" requestID ErrLoginDenied
           (RegisterAccessRequest (dr_uuid dr 3) (dr_uuid dr 4) (dr_now dr 1) (mkRegisterAccessRequestCommand principal credential userID
             (ip_Name principal) (ip_Email principal) (ip_AvatarURL principal) (with_user userID session) (audit "access_requested") now));;
         mret tokens) d
  end.

Definition CompleteAuthorization (s : Service) (pv : Provider) (dr : Draws) (state code requestID : string) : IdentityM SessionTokens :=
  match sv_lark s with
  | None => reject dr "authorization_input" requestID ErrAuthorizationInvalid
  | Some config =>
      if (state == "") || (code == "") then reject dr "authorization_input" requestID ErrAuthorizationInvalid
      else
        transaction ← or_reject dr "authorization_state" requestID ErrAuthorizationInvalid
          (ConsumeAuthorizationState (HashSecret state) (dr_now dr 0));
        match pv_ExchangeAuthorizationCode pv code with
        | PErr e => recordAuthenticationRejection (later 90 dr) "provider_exchange" requestID (pe_RequestID e);; st_throw ErrLoginDenied
        | POk (principal, credential) =>
            if (pk_Provider (ip_Key principal) != "lark") || (pk_TenantID (ip_Key principal) != lk_TenantID config) ||
               negb (ip_Active principal)
            then reject dr "principal_mismatch" requestID ErrLoginDenied
            else
              new ← st_lift (newSession (later 10 dr) uuid_Nil);
              let '(tokens, session) := new in
              let now := dr_now dr 20 in
              let audit eventType := mkAuditEvent (dr_uuid dr 20) eventType None None None (Some (se_ID session)) (requestRef requestID) [] now in
              if az_Purpose transaction == AuthorizationInvitation then
                complete_invitation (later 30 dr) requestID transaction principal credential tokens session audit now
              else if az_Purpose transaction == AuthorizationLogin then
                complete_login config (later 30 dr) requestID principal credential tokens session audit now
              else reject dr "authorization_purpose" requestID ErrLoginDenied
        end
  end.
End authenticate.
