(* ===== verification/Gateway.v ===== *)
(** * The middleware in front of the handlers

    internal/api/identity.go (sessions), bearer_auth.go (bearer credentials) and the outer router of router.go
    that puts them in front of the handlers: who a request acts for, and which requests reach a handler.  The
    routing inside the internal API and inside /api/v1, the parser of URLs, the limiter and the authenticators
    of bearer credentials are arguments; what only the access log sees is left out. *)

From Stdlib Require Import Ascii.
From stdpp Require Import base tactics strings gmap list numbers.
From S2P Require Import Prelude Actors State Http Access Events Identity IdentityStore IdentityService.

(** A request: the decoded segments of its path, its cookie, and the pattern that the router behind the
    middleware resolves for it, empty when none matches. *)
Record GatewayRequest := mkGatewayRequest {
  gr_Method : string;
  gr_Segments : list string;
  gr_Header : Header;
  gr_SessionCookie : option string;
  gr_Pattern : option string;
  gr_RequestID : string;
}.

(** [r.URL.Path] *)
Definition gr_Path (r : GatewayRequest) : string := ("/" ++ String.concat "/" (gr_Segments r))%string.

Inductive Caller :=
| SessionCaller (i : SessionIdentity)
| BearerCaller (p : Principal).

(** What becomes of a request: an answer with a status and a message or problem code, or the next handler
    with its caller. *)
Inductive Gate :=
| Answered (status : Z) (message : string)
| Forwarded (caller : Caller)
| SessionFallback.

Definition StatusUnauthorized : Z := 401.
Definition StatusForbidden : Z := 403.
Definition StatusNotFound : Z := 404.
Definition StatusTooManyRequests : Z := 429.
Definition StatusServiceUnavailable : Z := 503.

(** ** Sessions *)

Definition methodRequiresCSRF (method : string) : bool :=
  negb ((method == MethodGet) || (method == MethodHead) || (method == MethodOptions)).

(** [url_Parse] gives scheme and host; the base URL of the application is an ASCII text. *)
Definition sameOriginRequest (url_Parse : string -> option (string * string)) (appBaseURL : option (string * string)) (h : Header) : bool :=
  match appBaseURL with
  | None => false
  | Some base =>
      let fetchSite := ToLower (TrimSpace (Header_Get h "Sec-Fetch-Site")) in
      if (fetchSite != "") && (fetchSite != "same-origin") then false
      else
        let origin := TrimSpace (Header_Get h "Origin") in
        if origin == "" then false
        else match url_Parse origin with
        | None => false
        | Some value => EqualFold value.1 base.1 && EqualFold value.2 base.2
        end
  end.

(** The pattern without its method; ["unmatched"] without one. *)
Definition routePattern (resolved : option string) : string :=
  match resolved with
  | None => "unmatched"
  | Some pattern =>
      if pattern == "" then "unmatched" else match Cut pattern " " with Some (_, route) => route | None => pattern end
  end.

Definition HasPrefix (s prefix : string) : bool := present (CutPrefix s prefix).

Section sessions.
Context `{UuidLibrary} (url_Parse : string -> option (string * string)) (appBaseURL : option (string * string)).

(** Who may not use the application sees the approval and may log out. *)
Definition approval_denied (r : GatewayRequest) (i : SessionIdentity) : bool :=
  negb (CanUseApplication (si_Actor i)) && negb ((gr_Method r == MethodGet) && (gr_Path r == "/api/me")) &&
  negb ((gr_Method r == MethodPost) && (gr_Path r == "/api/auth/logout")).
Definition adminRouteDenied (r : GatewayRequest) (i : SessionIdentity) : bool :=
  IsImpersonating i && HasPrefix (gr_Path r) "/api/admin/" &&
  negb ((gr_Method r == MethodDelete) && (routePattern (gr_Pattern r) == "/api/admin/impersonation")).
Definition writeDenied (r : GatewayRequest) (i : SessionIdentity) : bool :=
  IsImpersonating i && negb (RequestAllowedDuringImpersonation (gr_Method r) (routePattern (gr_Pattern r))).

Definition identityMiddleware (s : Service) (pv : Provider) (dr : Draws) (r : GatewayRequest) : IdentityM Gate := fun d =>
  match gr_SessionCookie r with
  | None => (Ok (Answered StatusUnauthorized "authentication required"), d)
  | Some cookie =>
      match Service_Authenticate s pv dr cookie d with
      | (Err e, d) =>
          (Ok (if errors_Is e ErrIdentityUserInactive then Answered StatusForbidden "user is inactive"
               else Answered StatusUnauthorized "invalid or expired session"), d)
      | (Ok (i, session), d) =>
          if approval_denied r i then (Ok (Answered StatusForbidden "access approval required"), d)
          else if adminRouteDenied r i || writeDenied r i then
            let d := if writeDenied r i
                     then (RecordImpersonationWriteRejected (later 50 dr) i (gr_Method r) (routePattern (gr_Pattern r)) (gr_RequestID r) d).2
                     else d in
            (Ok (Answered StatusForbidden (if adminRouteDenied r i then "administrator routes are unavailable during impersonation"
                                           else "impersonation is read-only")), d)
          else if methodRequiresCSRF (gr_Method r) &&
                  (negb (sameOriginRequest url_Parse appBaseURL (gr_Header r)) ||
                   negb (VerifyCSRF session (Header_Get (gr_Header r) "X-CSRF-Token")))
          then (Ok (Answered StatusForbidden "CSRF validation failed"), d)
          else (Ok (Forwarded (SessionCaller i)), d)
      end
  end.
End sessions.

(** ** Bearer credentials *)

Record LimitDecision := mkLimitDecision { ld_Allowed : bool; ld_Limit : Z; ld_Remaining : Z; ld_ResetAfter : Z }.

Definition blank_byte (c : ascii) : bool := (code c =? 32) || (code c =? 9) || (code c =? 13) || (code c =? 10).
Definition parseBearerAuthorization (value : string) : option string :=
  '(scheme, credential) ← Cut value " ";
  if EqualFold scheme "Bearer" && (credential != "") && negb (existsb blank_byte (String.list_ascii_of_string credential))
  then Some credential else None.

(** The status and the code of a problem. *)
Definition bearer_problem (e : error) : Gate :=
  if errors_Is e ErrTokenInvalid || errors_Is e ErrTokenNotFound then Answered StatusUnauthorized "TOKEN_INVALID"
  else if errors_Is e ErrTokenExpired then Answered StatusUnauthorized "TOKEN_EXPIRED"
  else if errors_Is e ErrAgentDelegateExpired then Answered StatusUnauthorized "AGENT_DELEGATE_EXPIRED"
  else if errors_Is e ErrAgentDelegateInvalid || errors_Is e ErrAgentDelegateRun then Answered StatusUnauthorized "AGENT_DELEGATE_INVALID"
  else if errors_Is e ErrTokenRevoked then Answered StatusUnauthorized "TOKEN_REVOKED"
  else if errors_Is e ErrUserInactive || errors_Is e ErrIdentityUserInactive then Answered StatusForbidden "USER_INACTIVE"
  else if errors_Is e ErrProviderTransient then Answered StatusServiceUnavailable "IDENTITY_VERIFICATION_UNAVAILABLE"
  else Answered StatusInternalServerError "INTERNAL_ERROR".

(** [authenticate] and [limiter] are the interfaces [BearerAuthenticator] and [TokenLimiter]; the owners are
    verified by the identity service when [owners] is given. *)
Definition bearerAuthentication (authenticate : string -> result Principal) (limiter : option (UUID -> Time -> LimitDecision))
    (owners : option Service) (pv : Provider) (dr : Draws) (now : Time) (r : GatewayRequest) : IdentityM Gate := fun d =>
  let authorization := TrimSpace (Header_Get (gr_Header r) "Authorization") in
  if authorization == "" then (Ok SessionFallback, d)
  else match parseBearerAuthorization authorization with
  | None => (Ok (bearer_problem ErrTokenInvalid), d)
  | Some raw =>
      match authenticate raw with
      | Err e => (Ok (bearer_problem e), d)
      | Ok principal =>
          let limited := match limiter with
                         | None => None
                         | Some allow =>
                             match CredentialID principal with
                             | None => Some (bearer_problem ErrOther)
                             | Some id => if ld_Allowed (allow id now) then None else Some (Answered StatusTooManyRequests "RATE_LIMITED")
                             end
                         end in
          match limited with
          | Some answer => (Ok answer, d)
          | None =>
              match owners with
              | None => (Ok (Forwarded (BearerCaller principal)), d)
              | Some s =>
                  match VerifyTokenOwner s pv dr (pp_User principal) d with
                  | (Err e, d) => (Ok (bearer_problem e), d)
                  | (Ok _, d) => (Ok (Forwarded (BearerCaller principal)), d)
                  end
              end
          end
      end
  end.

(** [requireScope]: whether the next handler runs. *)
Definition requireScope (required : Scope) (caller : option Caller) : Gate :=
  match caller with
  | None => Answered StatusUnauthorized "AUTHENTICATION_REQUIRED"
  | Some (SessionCaller i) => Forwarded (SessionCaller i)
  | Some (BearerCaller p) =>
      if (pp_Method p == AuthenticationMethodSession) || HasScope p required then Forwarded (BearerCaller p)
      else Answered StatusForbidden "INSUFFICIENT_SCOPE"
  end.
Definition RequireWorkRead : option Caller -> Gate := requireScope ScopeWorkRead.
Definition RequireWorkWrite : option Caller -> Gate := requireScope ScopeWorkWrite.

(** [isolateBearerFromInternal]: whether a request with a bearer credential is hidden from the internal API. *)
Definition isolateBearerFromInternal (r : GatewayRequest) : option Gate :=
  let authorization := TrimSpace (Header_Get (gr_Header r) "Authorization") in
  let scheme := match Cut authorization " " with Some (scheme, _) => scheme | None => authorization end in
  let v1 := (gr_Path r == "/api/v1") || HasPrefix (gr_Path r) "/api/v1/" in
  let openAPI := gr_Path r == "/api/openapi.yaml" in
  if EqualFold scheme "Bearer" && negb v1 && negb openAPI then Some (Answered StatusNotFound "404 page not found") else None.

(** ** The outer router *)

(** A pattern of [http.ServeMux] without wildcards: a method (GET stands for HEAD too), the segments, and
    whether it ends in a slash and so matches everything below. *)
Record Pattern := mkPattern { pt_Method : option string; pt_Segments : list string; pt_Subtree : bool }.

Definition method_matches (pattern : option string) (method : string) : bool :=
  match pattern with
  | None => true
  | Some m => (method == m) || ((m == MethodGet) && (method == MethodHead))
  end.
Definition Pattern_matches (p : Pattern) (r : GatewayRequest) : bool :=
  method_matches (pt_Method p) (gr_Method r) &&
  (if pt_Subtree p
   then (take (length (pt_Segments p)) (gr_Segments r) == pt_Segments p) &&
        bool_decide (length (pt_Segments p) < length (gr_Segments r))%nat
   else gr_Segments r == pt_Segments p).

(** Where the outer router sends a request. *)
Inductive Endpoint := ToDevelopmentSession | ToLarkStart | ToLarkCallback | ToAcceptInvitation | ToAPIv1 | ToOpenAPIDocument | ToInternal.

(** [RouterOptions]: [ro_Bearer] is [access.BearerService] (tokens and delegated credentials), [ro_Tokens] the
    service of the tokens alone. *)
Record RouterOptions := mkRouterOptions {
  ro_Sessions : Service;
  ro_AppBaseURL : option (string * string);
  ro_Development : bool;
  ro_LarkEnabled : bool;
  ro_OpenAPI : bool;
  ro_Bearer : string -> result Principal;
  ro_Tokens : string -> result Principal;
  ro_limiter : UUID -> Time -> LimitDecision;
}.

(** The registered patterns.  Of two that match a request one is ["/"], the least specific; it is the last. *)
Definition root_routes (o : RouterOptions) : list (Pattern * Endpoint) :=
  (if ro_Development o then [(mkPattern (Some MethodPost) ["api"; "auth"; "dev"; "session"] false, ToDevelopmentSession)] else []) ++
  (if ro_LarkEnabled o
   then [(mkPattern (Some MethodGet) ["api"; "auth"; "lark"; "start"] false, ToLarkStart);
         (mkPattern (Some MethodGet) ["api"; "auth"; "lark"; "callback"] false, ToLarkCallback);
         (mkPattern (Some MethodPost) ["api"; "invitations"; "accept"] false, ToAcceptInvitation)]
   else []) ++
  [(mkPattern None ["api"; "v1"] false, ToAPIv1); (mkPattern None ["api"; "v1"] true, ToAPIv1)] ++
  (if ro_OpenAPI o then [(mkPattern None ["api"; "openapi.yaml"] false, ToOpenAPIDocument)] else []) ++
  [(mkPattern None [] true, ToInternal)].

Definition ServeMux_Handler (routes : list (Pattern * Endpoint)) (r : GatewayRequest) : option Endpoint :=
  snd <$> List.find (fun route => Pattern_matches route.1 r) routes.

(** What becomes of a request at the outer router. *)
Inductive Routed :=
| RoutedAnswer (status : Z) (message : string)
| Reached (e : Endpoint) (caller : option Caller).

Definition without_pattern (r : GatewayRequest) : GatewayRequest :=
  mkGatewayRequest (gr_Method r) (gr_Segments r) (gr_Header r) (gr_SessionCookie r) None (gr_RequestID r).

Section router.
Context `{UuidLibrary} (url_Parse : string -> option (string * string)).

(** [bearerAuthentication.wrap]: requests without credentials go on to the session. *)
Definition bearer_or_session (o : RouterOptions) (authenticate : string -> result Principal) (pv : Provider) (dr : Draws)
    (now : Time) (r r_session : GatewayRequest) : IdentityM Gate := fun d =>
  match bearerAuthentication authenticate (Some (ro_limiter o)) (Some (ro_Sessions o)) pv dr now r d with
  | (Ok SessionFallback, d) => identityMiddleware url_Parse (ro_AppBaseURL o) (ro_Sessions o) pv dr r_session d
  | answer => answer
  end.

Definition reach (e : Endpoint) (g : Gate) : Routed :=
  match g with
  | Answered status message => RoutedAnswer status message
  | Forwarded caller => Reached e (Some caller)
  | SessionFallback => RoutedAnswer StatusUnauthorized "authentication required"
  end.

Definition require_work_read (g : Gate) : Gate :=
  match g with Forwarded caller => RequireWorkRead (Some caller) | _ => g end.

(** [NewRouter]: the internal API hides from bearer credentials; the login routes need none; /api/v1 and the
    document take a bearer credential or a session, and everything else a session.  (A path that is not
    canonical is answered with a redirect before any of these.) *)
Definition NewRouter (o : RouterOptions) (pv : Provider) (dr : Draws) (now : Time) (r : GatewayRequest) : IdentityM Routed :=
  match isolateBearerFromInternal r with
  | Some g => mret (reach ToInternal g)
  | None =>
      match ServeMux_Handler (root_routes o) r with
      | None => mret (RoutedAnswer StatusNotFound "404 page not found")
      | Some ToAPIv1 => g ← bearer_or_session o (ro_Bearer o) pv dr now r r; mret (reach ToAPIv1 g)
      | Some ToOpenAPIDocument =>
          g ← bearer_or_session o (ro_Tokens o) pv dr now r (without_pattern r);
          mret (reach ToOpenAPIDocument (require_work_read g))
      | Some ToInternal =>
          g ← identityMiddleware url_Parse (ro_AppBaseURL o) (ro_Sessions o) pv dr r; mret (reach ToInternal g)
      | Some login => mret (Reached login None)
      end
  end.
End router.
