(* ===== verification/IdentitySystem.v ===== *)
(** * Runs of the identity store

    The transactions of the identity store as commands.  Every call of the identity service is a sequence of
    them, whatever its outcome; calls that overlap interleave their transactions. *)

From stdpp Require Import base tactics strings gmap list numbers sorting.
From S2P Require Import Prelude Actors State Http Access Events Identity IdentityStore IdentityService.

(** ** Commands *)

Inductive IdentityOp :=
| OCreateAuthorization (a : AuthorizationTransaction)
| OConsumeAuthorization (stateHash : string) (now : Time)
| OCreateInvitation (i : Invitation) (audit : AuditEvent)
| ORevokeInvitation (invitationID : UUID) (now : Time) (audit : AuditEvent)
| ORotateInvitation (invitationID actorID : UUID) (tokenHash : string) (expiresAt now : Time) (auditID : UUID)
| OExpireInvitations (now : Time)
| OAcceptInvitation (externalID : UUID) (c : AcceptInvitationCommand)
| ORecordDelivery (x : InvitationDelivery)
| OBindExternal (external : ExternalIdentity) (credential : OAuthCredential) (audit : AuditEvent)
| ORefreshCredential (externalID : UUID) (refresh : OAuthCredential -> ProviderReply OAuthCredential)
| OUpdateCredential (externalID : UUID) (credential : OAuthCredential)
| OBootstrapAdmin (externalID : UUID) (c : BootstrapAdminCommand)
| OLoginExternal (c : LoginCommand)
| ORegister (externalID eventID : UUID) (created : Time) (c : RegisterAccessRequestCommand)
| OSetActive (userID : UUID) (active : bool) (now : Time)
| OSetAccessStatus (auditID eventID : UUID) (created : Time) (userID actorID : UUID) (status : AccessStatus) (now : Time) (requestID : string)
| ODeactivate (userID actorID : UUID) (reason providerRequestID : string) (now : Time) (auditID : UUID)
| OReactivate (userID actorID : UUID) (now : Time) (auditID : UUID)
| OCreateSession (s : Session) (audit : AuditEvent)
| OLogout (audit1 audit2 sessionID : UUID) (now : Time) (requestID : string)
| OTouch (sessionID : UUID) (now idleExpiresAt : Time)
| ORecordVerification (sessionID : UUID) (verifiedAt : Time)
| ORecordTokenVerification (userID : UUID) (verifiedAt : Time)
| ORecordFailure (sessionID : UUID) (failedAt : Time) (audit : AuditEvent)
| ORevokeSession (sessionID : UUID) (reason : string) (now : Time) (audit : AuditEvent)
| ORevokeAllSessions (userID : UUID) (reason : string) (now : Time) (audit : AuditEvent)
| OStartImpersonation (i : Impersonation) (audit : AuditEvent)
| OEndImpersonation (sessionID : UUID) (endedAt : Time) (audit : AuditEvent)
| OAppendAudit (audit : AuditEvent).

(** The times of the sessions that the service stores. *)
Definition session_times (s : Session) : Prop :=
  se_IdleExpiresAt s <= se_AbsoluteExpiresAt s /\ se_IdleExpiresAt s <= se_LastSeenAt s + SessionIdleLifetime /\
  se_AbsoluteExpiresAt s <= se_CreatedAt s + SessionAbsoluteLifetime.
(** The commands that the service issues: new sessions have their lifetimes, and activity extends them by
    one idle lifetime at most. *)
Definition timely (o : IdentityOp) : Prop :=
  match o with
  | OAcceptInvitation _ c => session_times (ac_Session c)
  | OBootstrapAdmin _ c | OLoginExternal c => session_times (lc_Session c)
  | ORegister _ _ _ c => session_times (rc_Session c)
  | OCreateSession s _ => session_times s
  | OTouch _ now idle => idle <= now + SessionIdleLifetime
  | _ => True
  end.

Section system.
Context `{UuidLibrary}.

Definition identity_step (o : IdentityOp) (d : IdentityDB) : IdentityDB :=
  match o with
  | OCreateAuthorization a => (CreateAuthorizationTransaction a d).2
  | OConsumeAuthorization h now => (ConsumeAuthorizationState h now d).2
  | OCreateInvitation i audit => (CreateInvitation i audit d).2
  | ORevokeInvitation i now audit => (RevokeInvitation i now audit d).2
  | ORotateInvitation i actor h e now audit => (RotateInvitation i actor h e now audit d).2
  | OExpireInvitations now => (ExpireInvitations now d).2
  | OAcceptInvitation e c => (AcceptInvitation e c d).2
  | ORecordDelivery x => (RecordDelivery x d).2
  | OBindExternal e c audit => (BindExternalIdentity e c audit d).2
  | ORefreshCredential e f => (RefreshCredentialLocked e f d).2
  | OUpdateCredential e c => (UpdateCredential e c d).2
  | OBootstrapAdmin e c => (BootstrapAdmin e c d).2
  | OLoginExternal c => (LoginExternal c d).2
  | ORegister e v created c => (RegisterAccessRequest e v created c d).2
  | OSetActive u b now => (SetActive u b now d).2
  | OSetAccessStatus a e created u actor status now request => (SetUserAccessStatus a e created u actor status now request d).2
  | ODeactivate u actor reason request now audit => (DeactivateUser u actor reason request now audit d).2
  | OReactivate u actor now audit => (ReactivateUser u actor now audit d).2
  | OCreateSession s audit => (CreateSession s audit d).2
  | OLogout a1 a2 s now request => (LogoutSession a1 a2 s now request d).2
  | OTouch s now idle => (TouchSession s now idle d).2
  | ORecordVerification s now => (RecordProviderVerification s now d).2
  | ORecordTokenVerification u now => (RecordTokenProviderVerification u now d).2
  | ORecordFailure s now audit => (RecordProviderFailure s now audit d).2
  | ORevokeSession s reason now audit => (RevokeSession s reason now audit d).2
  | ORevokeAllSessions u reason now audit => (RevokeAllSessions u reason now audit d).2
  | OStartImpersonation i audit => (StartImpersonation i audit d).2
  | OEndImpersonation s now audit => (EndImpersonation s now audit d).2
  | OAppendAudit audit => (AppendAudit audit d).2
  end.
Definition identity_steps (os : list IdentityOp) (d : IdentityDB) : IdentityDB := foldl (fun d o => identity_step o d) d os.

Lemma identity_steps_app os os' d : identity_steps (os ++ os') d = identity_steps os' (identity_steps os d).
Proof. unfold identity_steps. apply foldl_app. Qed.

(** ** Service calls as sequences of commands *)

(** [via m]: whatever the outcome of [m], the tables are what a sequence of commands makes of them. *)
Definition via {A} (m : IdentityM A) : Prop := forall d, exists os, Forall timely os /\ (m d).2 = identity_steps os d.

Lemma via_op {A} (m : IdentityM A) o : timely o -> (forall d, (m d).2 = identity_step o d) -> via m.
Proof. intros Ho Hm d. exists [o]. split; [by constructor|apply Hm]. Qed.
Lemma via_keeps {A} (m : IdentityM A) : keeps m -> via m.
Proof. intros Hm d. exists []. split; [constructor|apply Hm]. Qed.
Lemma via_bind_wp {A B} (m : IdentityM A) (f : A -> IdentityM B) (P : A -> Prop) :
  via m -> (forall d, wp m d (fun a _ => P a)) -> (forall a, P a -> via (f a)) -> via (m ≫= f).
Proof.
  intros Hm HP Hf d. destruct (Hm d) as (os & Ho & Hos). unfold mbind, St_bind. specialize (HP d).
  destruct (m d) as [[a|e] d1] eqn:Em; cbn in Hos; [|by exists os].
  destruct (Hf a (HP _ _ Em) d1) as (os' & Ho' & Hos'). exists (os ++ os'). rewrite identity_steps_app, <- Hos.
  split; [by apply Forall_app|done].
Qed.
Lemma via_bind {A B} (m : IdentityM A) (f : A -> IdentityM B) : via m -> (forall a, via (f a)) -> via (m ≫= f).
Proof. intros Hm Hf. by apply (via_bind_wp m f (fun _ => True)). Qed.
Lemma via_map_err {A} f (m : IdentityM A) : via m -> via (st_map_err f m).
Proof. intros Hm d. destruct (Hm d) as (os & Ho & Hos). exists os. rewrite <- Hos. unfold st_map_err. by destruct (m d) as [[]]. Qed.
Lemma via_ignore (m : IdentityM unit) : via m -> via (ignore_error m).
Proof. intros Hm d. exact (Hm d). Qed.
Lemma via_reply {A} (r : ProviderReply A) : via (st_reply r).
Proof. apply via_keeps. destruct r; intros d; reflexivity. Qed.

(** A transaction is its command. *)
Lemma via_CreateAuthorizationTransaction a : via (CreateAuthorizationTransaction a).
Proof. exact (via_op _ (OCreateAuthorization a) I (fun _ => eq_refl)). Qed.
Lemma via_ConsumeAuthorizationState a b : via (ConsumeAuthorizationState a b).
Proof. exact (via_op _ (OConsumeAuthorization a b) I (fun _ => eq_refl)). Qed.
Lemma via_CreateInvitation a b : via (CreateInvitation a b).
Proof. exact (via_op _ (OCreateInvitation a b) I (fun _ => eq_refl)). Qed.
Lemma via_RevokeInvitation a b c : via (RevokeInvitation a b c).
Proof. exact (via_op _ (ORevokeInvitation a b c) I (fun _ => eq_refl)). Qed.
Lemma via_RotateInvitation a b c d e f : via (RotateInvitation a b c d e f).
Proof. exact (via_op _ (ORotateInvitation a b c d e f) I (fun _ => eq_refl)). Qed.
Lemma via_ExpireInvitations a : via (ExpireInvitations a).
Proof. exact (via_op _ (OExpireInvitations a) I (fun _ => eq_refl)). Qed.
Lemma via_AcceptInvitation a b : session_times (ac_Session b) -> via (AcceptInvitation a b).
Proof. intros Ht. exact (via_op _ (OAcceptInvitation a b) Ht (fun _ => eq_refl)). Qed.
Lemma via_RecordDelivery a : via (RecordDelivery a).
Proof. exact (via_op _ (ORecordDelivery a) I (fun _ => eq_refl)). Qed.
Lemma via_RefreshCredentialLocked a b : via (RefreshCredentialLocked a b).
Proof. exact (via_op _ (ORefreshCredential a b) I (fun _ => eq_refl)). Qed.
Lemma via_BootstrapAdmin a b : session_times (lc_Session b) -> via (BootstrapAdmin a b).
Proof. intros Ht. exact (via_op _ (OBootstrapAdmin a b) Ht (fun _ => eq_refl)). Qed.
Lemma via_LoginExternal a : session_times (lc_Session a) -> via (LoginExternal a).
Proof. intros Ht. exact (via_op _ (OLoginExternal a) Ht (fun _ => eq_refl)). Qed.
Lemma via_RegisterAccessRequest a b c d : session_times (rc_Session d) -> via (RegisterAccessRequest a b c d).
Proof. intros Ht. exact (via_op _ (ORegister a b c d) Ht (fun _ => eq_refl)). Qed.
Lemma via_SetUserAccessStatus a b c d e f g h : via (SetUserAccessStatus a b c d e f g h).
Proof. exact (via_op _ (OSetAccessStatus a b c d e f g h) I (fun _ => eq_refl)). Qed.
Lemma via_DeactivateUser a b c d e f : via (DeactivateUser a b c d e f).
Proof. exact (via_op _ (ODeactivate a b c d e f) I (fun _ => eq_refl)). Qed.
Lemma via_ReactivateUser a b c d : via (ReactivateUser a b c d).
Proof. exact (via_op _ (OReactivate a b c d) I (fun _ => eq_refl)). Qed.
Lemma via_CreateSession a b : session_times a -> via (CreateSession a b).
Proof. intros Ht. exact (via_op _ (OCreateSession a b) Ht (fun _ => eq_refl)). Qed.
Lemma via_LogoutSession a b c d e : via (LogoutSession a b c d e).
Proof. exact (via_op _ (OLogout a b c d e) I (fun _ => eq_refl)). Qed.
Lemma via_TouchSession a b c : c <= b + SessionIdleLifetime -> via (TouchSession a b c).
Proof. intros Ht. exact (via_op _ (OTouch a b c) Ht (fun _ => eq_refl)). Qed.
Lemma via_RecordProviderVerification a b : via (RecordProviderVerification a b).
Proof. exact (via_op _ (ORecordVerification a b) I (fun _ => eq_refl)). Qed.
Lemma via_RecordTokenProviderVerification a b : via (RecordTokenProviderVerification a b).
Proof. exact (via_op _ (ORecordTokenVerification a b) I (fun _ => eq_refl)). Qed.
Lemma via_RecordProviderFailure a b c : via (RecordProviderFailure a b c).
Proof. exact (via_op _ (ORecordFailure a b c) I (fun _ => eq_refl)). Qed.
Lemma via_StartImpersonation a b : via (StartImpersonation a b).
Proof. exact (via_op _ (OStartImpersonation a b) I (fun _ => eq_refl)). Qed.
Lemma via_EndImpersonation a b c : via (EndImpersonation a b c).
Proof. exact (via_op _ (OEndImpersonation a b c) I (fun _ => eq_refl)). Qed.
Lemma via_AppendAudit a : via (AppendAudit a).
Proof. exact (via_op _ (OAppendAudit a) I (fun _ => eq_refl)). Qed.
End system.

Create HintDb via discriminated.
#[export] Hint Resolve via_CreateAuthorizationTransaction via_ConsumeAuthorizationState via_CreateInvitation via_RevokeInvitation via_RotateInvitation via_ExpireInvitations via_AcceptInvitation via_RecordDelivery via_RefreshCredentialLocked via_BootstrapAdmin via_LoginExternal via_RegisterAccessRequest via_SetUserAccessStatus via_DeactivateUser via_ReactivateUser via_CreateSession via_LogoutSession via_TouchSession via_RecordProviderVerification via_RecordTokenProviderVerification via_RecordProviderFailure via_StartImpersonation via_EndImpersonation via_AppendAudit via_reply : via.

(** Splits a call into its transactions. *)
Ltac via_steps := repeat first
  [ lazymatch goal with |- via _ => fail | |- forall _, _ => intro end
  | solve [auto with via]
  | match goal with |- via (ignore_error _) => apply via_ignore | |- via (st_map_err _ _) => apply via_map_err end
  | apply via_keeps; solve [auto with keeps]
  | lazymatch goal with |- via (st_lift (newSession _ _) ≫= _) => fail | _ => apply via_bind end
  | match goal with |- via (match ?x with _ => _ end) => destruct x end ].

(** ** The calls *)

Inductive ServiceCall :=
| CSearchDirectory (pv : Provider) (dr : Draws) (actor : User) (query : string)
| CListInvitations (dr : Draws) (actor : User)
| CCreateInvitation (pv : Provider) (snapshot : ExternalPrincipal -> string) (dr : Draws) (actor : User) (subjectID requestID : string)
| CResendInvitation (pv : Provider) (dr : Draws) (actor : User) (invitationID : UUID)
| CRotateInvitationLink (dr : Draws) (actor : User) (invitationID : UUID)
| CRevokeInvitation (dr : Draws) (actor : User) (invitationID : UUID) (requestID : string)
| CAcceptInvitationToken (pv : Provider) (dr : Draws) (token : string)
| CSetUserActive (dr : Draws) (actor : User) (userID : UUID) (active : bool)
| CSetUserAccessStatus (dr : Draws) (actor : User) (userID : UUID) (status : AccessStatus) (requestID : string)
| CStartImpersonation (dr : Draws) (current : SessionIdentity) (subjectID : UUID) (requestID : string)
| CEndImpersonation (dr : Draws) (current : SessionIdentity) (requestID : string)
| CRecordImpersonationWriteRejected (dr : Draws) (current : SessionIdentity) (method route requestID : string)
| CStartAuthorization (pv : Provider) (dr : Draws) (purpose : AuthorizationPurpose) (invitationID : option UUID)
| CCompleteAuthorization (pv : Provider) (dr : Draws) (state code requestID : string)
| CIssueSession (dr : Draws) (userID : UUID) (requestID : string)
| CAuthenticate (pv : Provider) (dr : Draws) (cookieValue : string)
| CVerifyTokenOwner (pv : Provider) (dr : Draws) (user : User)
| CLogout (dr : Draws) (current : SessionIdentity) (requestID : string).

Section calls.
Context `{UuidLibrary}.

Definition service_step (s : Service) (c : ServiceCall) (d : IdentityDB) : IdentityDB :=
  match c with
  | CSearchDirectory pv dr actor query => (SearchDirectory s pv dr actor query d).2
  | CListInvitations dr actor => (Service_ListInvitations dr actor d).2
  | CCreateInvitation pv snapshot dr actor subject request => (Service_CreateInvitation s pv snapshot dr actor subject request d).2
  | CResendInvitation pv dr actor i => (ResendInvitation s pv dr actor i d).2
  | CRotateInvitationLink dr actor i => (RotateInvitationLink s dr actor i d).2
  | CRevokeInvitation dr actor i request => (Service_RevokeInvitation dr actor i request d).2
  | CAcceptInvitationToken pv dr token => (AcceptInvitationToken s pv dr token d).2
  | CSetUserActive dr actor u active => (SetUserActive dr actor u active d).2
  | CSetUserAccessStatus dr actor u status request => (Service_SetUserAccessStatus dr actor u status request d).2
  | CStartImpersonation dr current subject request => (Service_StartImpersonation dr current subject request d).2
  | CEndImpersonation dr current request => (Service_EndImpersonation dr current request d).2
  | CRecordImpersonationWriteRejected dr current method route request =>
      (RecordImpersonationWriteRejected dr current method route request d).2
  | CStartAuthorization pv dr purpose i => (StartAuthorization s pv dr purpose i d).2
  | CCompleteAuthorization pv dr state code request => (CompleteAuthorization s pv dr state code request d).2
  | CIssueSession dr u request => (IssueSession dr u request d).2
  | CAuthenticate pv dr cookie => (Service_Authenticate s pv dr cookie d).2
  | CVerifyTokenOwner pv dr user => (VerifyTokenOwner s pv dr user d).2
  | CLogout dr current request => (Logout dr current request d).2
  end.
Definition service_steps (s : Service) (cs : list ServiceCall) (d : IdentityDB) : IdentityDB :=
  foldl (fun d c => service_step s c d) d cs.

Lemma keeps_GetExternalIdentityForUser u : keeps (GetExternalIdentityForUser u).
Proof. unfold GetExternalIdentityForUser. auto with keeps. Qed.
Lemma keeps_GetByID u : keeps (GetByID u).
Proof. unfold GetByID. auto with keeps. Qed.
Lemma keeps_GetInvitationByTokenHash h now : keeps (GetInvitationByTokenHash h now).
Proof. unfold GetInvitationByTokenHash. auto with keeps. Qed.
Lemma keeps_ResolveSession a b c : keeps (ResolveSession a b c).
Proof.
  unfold ResolveSession. apply keeps_bind; [auto with keeps|intros row]. apply keeps_bind; [auto with keeps|intros [s u]]. auto 12 with keeps.
Qed.
Lemma keeps_bound k : keeps (bound k).
Proof.
  intros d. unfold bound, FindExternalIdentity, mbind, St_bind, st_get, st_or_err, st_lift.
  match goal with |- context [match ?o with Some _ => Ok _ | None => _ end] => destruct o end; [done|]. by case_bool_decide.
Qed.
#[local] Hint Resolve keeps_GetExternalIdentityForUser keeps_GetByID keeps_GetInvitationByTokenHash keeps_ResolveSession keeps_bound : keeps.

Lemma via_credentialForUser pv dr u : via (credentialForUser pv dr u).
Proof. unfold credentialForUser. cbv zeta. via_steps. Qed.
Lemma via_verifyExternalPrincipal pv e now : via (verifyExternalPrincipal pv e now).
Proof. unfold verifyExternalPrincipal, verification_credential. cbv zeta. via_steps. Qed.
#[local] Hint Resolve via_credentialForUser via_verifyExternalPrincipal : via.
Lemma via_revalidate pv dr b now : via (revalidate pv dr b now).
Proof. unfold revalidate, applyProviderTransient, deactivateInvalidPrincipal. cbv zeta. via_steps. Qed.
Lemma via_reject {A} dr c r e : via (reject dr c r e : IdentityM A).
Proof. unfold reject, recordAuthenticationRejection. via_steps. Qed.
#[local] Hint Resolve via_revalidate : via.
#[local] Hint Extern 1 (via (reject _ _ _ _)) => apply via_reject : via.
Lemma via_or_reject {A} dr c r e (m : IdentityM A) : via m -> via (or_reject dr c r e m).
Proof.
  intros Hm d. destruct (Hm d) as (os & Ho & Hos). unfold or_reject. destruct (m d) as [[a|e'] d1]; cbn in Hos; [by exists os|].
  destruct (@via_reject A dr c r e d1) as (os' & Ho' & Hos'). exists (os ++ os'). rewrite identity_steps_app, <- Hos.
  split; [by apply Forall_app|done].
Qed.

Lemma newSession_times dr u x : newSession dr u = Ok x -> session_times x.2.
Proof.
  unfold newSession. destruct (dr_secret dr 0) as [s1|]; [|done]. destruct (dr_secret dr 1) as [s2|]; [|done]. intros [= <-].
  unfold session_times, SessionIdleLifetime, SessionAbsoluteLifetime, Hour. cbn -[Z.mul Z.add]. lia.
Qed.
Lemma with_user_times u s : session_times s -> session_times (with_user u s).
Proof. done. Qed.
Lemma RollingIdleExpiry_le now absolute : RollingIdleExpiry now absolute <= now + SessionIdleLifetime.
Proof. unfold RollingIdleExpiry, Time_After. cbv zeta. destruct (absolute <? _) eqn:E; go_bool; lia. Qed.
#[local] Hint Resolve with_user_times RollingIdleExpiry_le : via.
Lemma via_complete_login config dr r p c t s a now : session_times s -> via (complete_login config dr r p c t s a now).
Proof.
  intros Hs d. unfold complete_login. assert (exists x, findLoginUser (ip_Key p) d = (x, d)) as [x Hx].
  { unfold findLoginUser, FindExternalIdentity, mbind, St_bind, st_get, st_or_err, st_lift. eauto. }
  rewrite Hx. destruct x as [[e u]|e].
  - by apply via_bind; [apply via_or_reject, via_LoginExternal, with_user_times|intros; apply via_keeps; auto with keeps].
  - case_bool_decide; [cbn [negb]|exists []; by split; [constructor|]]. destruct (match ip_Email p with Some _ => _ | None => _ end).
    + by apply via_bind; [apply via_or_reject, via_BootstrapAdmin, with_user_times|intros; apply via_keeps; auto with keeps].
    + by apply via_bind; [apply via_or_reject, via_RegisterAccessRequest, with_user_times|intros; apply via_keeps; auto with keeps].
Qed.
#[local] Hint Resolve via_or_reject via_complete_login : via.
Lemma via_complete_invitation dr r t p c tk s a now : session_times s -> via (complete_invitation dr r t p c tk s a now).
Proof. intros Hs. unfold complete_invitation. cbv zeta. via_steps. Qed.
#[local] Hint Resolve via_complete_invitation : via.

Lemma via_new_session {B} dr u (f : SessionTokens * Session -> IdentityM B) :
  (forall t s, session_times s -> via (f (t, s))) -> via (st_lift (newSession dr u) ≫= f).
Proof.
  intros Hf. apply (via_bind_wp _ _ (fun x => session_times x.2)).
  - apply via_keeps. auto with keeps.
  - intros d. apply wp_lift. intros x. apply newSession_times.
  - intros [t s] Hs. by apply Hf.
Qed.

Lemma via_service_step s c d : exists os, Forall timely os /\ service_step s c d = identity_steps os d.
Proof.
  revert d.
  assert (forall A (m : IdentityM A), via m -> forall d, exists os, Forall timely os /\ (m d).2 = identity_steps os d) as go
    by (intros A m Hm; exact Hm).
  destruct c; cbn [service_step]; apply go;
    unfold SearchDirectory, Service_ListInvitations, ListInvitations, ListLatestInvitationDeliveries, Service_CreateInvitation, deliverInvitation,
      ResendInvitation, RotateInvitationLink, Service_RevokeInvitation, AcceptInvitationToken, StartAuthorization, startAuthorization,
      SetUserActive, Service_SetUserAccessStatus, Service_StartImpersonation, Service_EndImpersonation, RecordImpersonationWriteRejected,
      CompleteAuthorization, recordAuthenticationRejection, IssueSession, Service_Authenticate, verified_bundle, roll_session,
      VerifyTokenOwner, deactivateInvalidPrincipal, Logout;
    cbv zeta; repeat (via_steps; try (apply via_new_session; intros)).
Qed.

(** Calls one after the other are one run of the store. *)
Lemma service_steps_via s cs d : exists os, Forall timely os /\ service_steps s cs d = identity_steps os d.
Proof.
  revert d. induction cs as [|c cs IH]; intros d; [by exists []|]. cbn. destruct (via_service_step s c d) as (os & Ho & Hos).
  destruct (IH (service_step s c d)) as (os' & Ho' & Hos'). exists (os ++ os'). rewrite identity_steps_app, <- Hos.
  split; [by apply Forall_app|done].
Qed.
End calls.
