(* ===== verification/IdentityInvariant.v ===== *)
(** * What every command of the identity store preserves

    [identity_wf], the constraints of the tables with what the code adds to them, and [evolves], what no
    command takes back: revocations, approvals, consumed authorizations, final invitations. *)

From stdpp Require Import base tactics strings gmap list numbers sorting.
From S2P Require Import Prelude Actors State Http Access Events Identity IdentityStore IdentityService IdentitySystem.

(** ** Tables *)

Section tables.
Context {A : Type}.
Implicit Types (t : gmap UUID A) (R : A -> A -> Prop).

Definition keyed (f : A -> UUID) t : Prop := forall k r, t !! k = Some r -> f r = k.
(** Every row of the old table is in the new one, changed at most by [R]. *)
Definition table_moves R t t' : Prop := forall k r, t !! k = Some r -> exists r', t' !! k = Some r' /\ R r r'.

Lemma table_moves_refl R t : (forall r, R r r) -> table_moves R t t.
Proof. intros HR k r Hk. eauto. Qed.
Lemma table_moves_trans R t1 t2 t3 :
  (forall a b c, R a b -> R b c -> R a c) -> table_moves R t1 t2 -> table_moves R t2 t3 -> table_moves R t1 t3.
Proof. intros HR H1 H2 k r Hk. destruct (H1 k r Hk) as (r1 & Hk1 & Hr1). destruct (H2 k r1 Hk1) as (r2 & Hk2 & Hr2). eauto. Qed.
Lemma table_moves_new R t k r : (forall r, R r r) -> t !! k = None -> table_moves R t (<[k := r]> t).
Proof. intros HR Hk k' r' Hk'. exists r'. split; [|done]. rewrite lookup_insert_ne; [done|]. intros ->. congruence. Qed.
Lemma table_moves_set R t k r r' : (forall r, R r r) -> t !! k = Some r -> R r r' -> table_moves R t (<[k := r']> t).
Proof.
  intros HR Hk Hr k1 r1 Hk1. destruct (decide (k1 = k)) as [->|Hne].
  - exists r'. split; [apply lookup_insert_eq|]. congruence.
  - exists r1. by rewrite lookup_insert_ne.
Qed.
Lemma update_where_lookup P f t k r' :
  update_where P f t !! k = Some r' <-> exists r, t !! k = Some r /\ r' = if P r then f r else r.
Proof. unfold update_where. rewrite lookup_fmap, fmap_Some. done. Qed.
Lemma table_moves_where R P f t : (forall r, R r r) -> (forall r, P r = true -> R r (f r)) -> table_moves R t (update_where P f t).
Proof.
  intros HR Hf k r Hk. exists (if P r then f r else r). split; [apply update_where_lookup; eauto|].
  destruct (P r) eqn:E; auto.
Qed.

Lemma keyed_insert f t k r : keyed f t -> f r = k -> keyed f (<[k := r]> t).
Proof. intros Ht Hr k' r' [[<- <-]|[_ Hk]]%lookup_insert_Some; [done|by apply Ht]. Qed.
Lemma keyed_where f P g t : keyed f t -> (forall r, f (g r) = f r) -> keyed f (update_where P g t).
Proof. intros Ht Hg k r' (r & Hk & ->)%update_where_lookup. destruct (P r); [rewrite Hg|]; by apply Ht. Qed.

Lemma find_row_Some P t r : find_row P t = Some r -> P r = true /\ exists k, t !! k = Some r.
Proof.
  unfold find_row. intros Hh. assert (r ∈ filter (fun r => P r = true) (snd <$> map_to_list t)) as Hin
    by (destruct (filter _ _); [done|]; injection Hh as ->; by left).
  apply list_elem_of_filter in Hin as [HP Hin]. split; [done|]. apply list_elem_of_fmap in Hin as ([k x] & -> & Hk).
  exists k. by apply elem_of_map_to_list.
Qed.
Lemma find_row_None P t k r : find_row P t = None -> t !! k = Some r -> P r = false.
Proof.
  unfold find_row. intros Hh Hk. destruct (P r) eqn:E; [exfalso|done].
  assert (r ∈ filter (fun r => P r = true) (snd <$> map_to_list t)) as Hin.
  { apply list_elem_of_filter. split; [done|]. apply list_elem_of_fmap. exists (k, r). split; [done|]. by apply elem_of_map_to_list. }
  destruct (filter _ _); [by apply elem_of_nil in Hin|done].
Qed.
Lemma find_row_keyed f P t r : keyed f t -> find_row P t = Some r -> P r = true /\ t !! f r = Some r.
Proof. intros Ht [HP [k Hk]]%find_row_Some. split; [done|]. by rewrite (Ht k r Hk). Qed.
Lemma no_row_true P t k r : no_row P t = true -> t !! k = Some r -> P r = false.
Proof. unfold no_row. intros Hn%negb_true_iff%present_false. by apply find_row_None. Qed.
End tables.

(** ** What a row keeps *)

Definition session_moves (s s' : Session) : Prop :=
  se_ID s' = se_ID s /\ se_UserID s' = se_UserID s /\ se_SecretHash s' = se_SecretHash s /\ se_CSRFSecretHash s' = se_CSRFSecretHash s /\
  se_CreatedAt s' = se_CreatedAt s /\ se_AbsoluteExpiresAt s' = se_AbsoluteExpiresAt s /\
  (present (se_RevokedAt s) = true -> se_RevokedAt s' = se_RevokedAt s).
Definition user_moves (u u' : User) : Prop :=
  u_ID u' = u_ID u /\ (u_PlatformRole u = PlatformRoleAdmin -> u_PlatformRole u' = PlatformRoleAdmin) /\
  (u_AccessStatus u = AccessStatusApproved -> u_AccessStatus u' = AccessStatusApproved).
Definition external_moves (e e' : ExternalRow) : Prop := ex_id e' = ex_id e /\ ex_user_id e' = ex_user_id e /\ ex_key e' = ex_key e.
(** Only pending invitations change, other than their token. *)
Definition invitation_moves (i i' : Invitation) : Prop :=
  iv_ID i' = iv_ID i /\ iv_Target i' = iv_Target i /\ (iv_Status i <> InvitationPending -> i' = i).
Definition authorization_moves (a a' : AuthorizationTransaction) : Prop :=
  az_ID a' = az_ID a /\ az_StateHash a' = az_StateHash a /\ az_Purpose a' = az_Purpose a /\ az_ExpiresAt a' = az_ExpiresAt a /\
  az_InvitationID a' = az_InvitationID a /\ az_InvitationTokenHash a' = az_InvitationTokenHash a /\
  (present (az_ConsumedAt a) = true -> present (az_ConsumedAt a') = true).
Definition impersonation_moves (i i' : Impersonation) : Prop :=
  im_ID i' = im_ID i /\ im_SessionID i' = im_SessionID i /\ im_ActorUserID i' = im_ActorUserID i /\
  im_SubjectUserID i' = im_SubjectUserID i /\ (present (im_EndedAt i) = true -> present (im_EndedAt i') = true).

Record evolves (d d' : IdentityDB) : Prop := {
  ev_sessions : table_moves session_moves (id_sessions d) (id_sessions d');
  ev_users : table_moves user_moves (id_users d) (id_users d');
  ev_externals : table_moves external_moves (id_externals d) (id_externals d');
  ev_invitations : table_moves invitation_moves (id_invitations d) (id_invitations d');
  ev_authorizations : table_moves authorization_moves (id_authorizations d) (id_authorizations d');
  ev_impersonations : table_moves impersonation_moves (id_impersonations d) (id_impersonations d');
  ev_audit : exists l, id_audit d' = id_audit d ++ l;
}.

Lemma session_moves_refl s : session_moves s s.
Proof. by split_and!. Qed.
Lemma session_moves_trans a b c : session_moves a b -> session_moves b c -> session_moves a c.
Proof.
  intros (? & ? & ? & ? & ? & ? & Ha) (? & ? & ? & ? & ? & ? & Hb). split_and!; try congruence.
  intros Hr. rewrite Hb; [by apply Ha|]. by rewrite Ha.
Qed.
Lemma user_moves_refl u : user_moves u u.
Proof. by split_and!. Qed.
Lemma user_moves_trans a b c : user_moves a b -> user_moves b c -> user_moves a c.
Proof. unfold user_moves. naive_solver congruence. Qed.
Lemma external_moves_refl e : external_moves e e.
Proof. by split_and!. Qed.
Lemma external_moves_trans a b c : external_moves a b -> external_moves b c -> external_moves a c.
Proof. unfold external_moves. naive_solver congruence. Qed.
Lemma invitation_moves_refl i : invitation_moves i i.
Proof. by split_and!. Qed.
Lemma invitation_moves_trans a b c : invitation_moves a b -> invitation_moves b c -> invitation_moves a c.
Proof.
  intros (? & ? & Ha) (? & ? & Hb). split_and!; try congruence. intros Hs. specialize (Ha Hs). subst b. by apply Hb.
Qed.
Lemma authorization_moves_refl a : authorization_moves a a.
Proof. by split_and!. Qed.
Lemma authorization_moves_trans a b c : authorization_moves a b -> authorization_moves b c -> authorization_moves a c.
Proof. unfold authorization_moves. naive_solver congruence. Qed.
Lemma impersonation_moves_refl i : impersonation_moves i i.
Proof. by split_and!. Qed.
Lemma impersonation_moves_trans a b c : impersonation_moves a b -> impersonation_moves b c -> impersonation_moves a c.
Proof. unfold impersonation_moves. naive_solver congruence. Qed.
#[export] Hint Resolve session_moves_refl user_moves_refl external_moves_refl invitation_moves_refl authorization_moves_refl
  impersonation_moves_refl : core.

#[global] Instance evolves_preorder : PreOrder evolves.
Proof.
  split.
  - intros d. split; try (apply table_moves_refl; auto). exists []. by rewrite app_nil_r.
  - intros d1 d2 d3 [? ? ? ? ? ? [l Hl]] [? ? ? ? ? ? [l' Hl']]. split.
    1-6: eapply table_moves_trans; eauto using session_moves_trans, user_moves_trans, external_moves_trans, invitation_moves_trans,
      authorization_moves_trans, impersonation_moves_trans.
    exists (l ++ l'). by rewrite Hl', Hl, app_assoc.
Qed.

(** ** The invariant *)

Definition impersonation_legal (d : IdentityDB) (i : Impersonation) : Prop :=
  exists s a u, id_sessions d !! im_SessionID i = Some s /\ se_UserID s = im_ActorUserID i /\
    id_users d !! im_ActorUserID i = Some a /\ u_PlatformRole a = PlatformRoleAdmin /\
    id_users d !! im_SubjectUserID i = Some u /\ u_PlatformRole u = PlatformRoleMember.

Record identity_wf (d : IdentityDB) : Prop := {
  iw_users : keyed u_ID (id_users d);
  iw_externals : keyed ex_id (id_externals d);
  iw_invitations : keyed iv_ID (id_invitations d);
  iw_sessions : keyed se_ID (id_sessions d);
  iw_authorizations : keyed az_ID (id_authorizations d);
  iw_impersonations : keyed im_ID (id_impersonations d);
  iw_admin k k' u u' : id_users d !! k = Some u -> id_users d !! k' = Some u' ->
    u_PlatformRole u = PlatformRoleAdmin -> u_PlatformRole u' = PlatformRoleAdmin -> k = k';
  iw_state k k' a a' : id_authorizations d !! k = Some a -> id_authorizations d !! k' = Some a' -> az_StateHash a = az_StateHash a' -> k = k';
  iw_session_user k s : id_sessions d !! k = Some s -> is_Some (id_users d !! se_UserID s);
  iw_session_times k s : id_sessions d !! k = Some s -> session_times s;
  iw_open k i : id_impersonations d !! k = Some i -> im_EndedAt i = None -> impersonation_legal d i;
}.

Definition good (d d' : IdentityDB) : Prop := identity_wf d' /\ evolves d d'.

Lemma good_refl d : identity_wf d -> good d d.
Proof. intros Hw. by split. Qed.
Lemma good_step d0 d d' : good d0 d -> (identity_wf d -> good d d') -> good d0 d'.
Proof. intros [Hw He] Hd. destruct (Hd Hw) as [Hw' He']. split; [done|]. by etransitivity. Qed.

(** Proves [evolves] for an update of one table. *)
Ltac evolve := split; cbn; try (apply table_moves_refl; auto); try (exists []; by rewrite app_nil_r).

Lemma good_audit d0 d a : good d0 d -> good d0 (on_identity_audit (fun l => l ++ [a]) d).
Proof.
  intros Hg. eapply good_step; [exact Hg|]. intros []. split; [by split|]. evolve. by exists [a].
Qed.
Lemma good_outbox d0 d t : good d0 d -> good d0 (on_outbox t d).
Proof. intros Hg. eapply good_step; [exact Hg|]. intros []. split; [by split|]. evolve. Qed.
Lemma good_deliveries d0 d f : good d0 d -> good d0 (on_deliveries f d).
Proof. intros Hg. eapply good_step; [exact Hg|]. intros []. split; [by split|]. evolve. Qed.
Lemma good_credentials d0 d f : good d0 d -> good d0 (on_credentials f d).
Proof. intros Hg. eapply good_step; [exact Hg|]. intros []. split; [by split|]. evolve. Qed.

(** *** Sessions *)

(** The new sessions table keeps the old sessions, and its sessions are well formed. *)
Lemma good_sessions d0 d f :
  good d0 d -> keyed se_ID (f (id_sessions d)) -> table_moves session_moves (id_sessions d) (f (id_sessions d)) ->
  (forall k s, f (id_sessions d) !! k = Some s -> is_Some (id_users d !! se_UserID s) /\ session_times s) ->
  good d0 (on_sessions f d).
Proof.
  intros Hg Hk Hm Hs. eapply good_step; [exact Hg|]. intros []. split.
  - split; cbn; try done; try (intros k s Hks; by apply (Hs k s Hks)).
    intros k i Hki He. destruct (iw_open0 k i Hki He) as (s & a & u & H1 & H2 & H3). destruct (Hm _ _ H1) as (s' & Hs' & Hmv).
    exists s', a, u. cbn. destruct Hmv as (_ & -> & _). done.
  - evolve. done.
Qed.
Lemma good_session_new d0 d s :
  good d0 d -> id_sessions d !! se_ID s = None -> is_Some (id_users d !! se_UserID s) -> session_times s ->
  good d0 (on_sessions <[se_ID s := s]> d).
Proof.
  intros Hg Hn Hu Ht. destruct (proj1 Hg). apply good_sessions; [done|by apply keyed_insert|by apply table_moves_new|].
  intros k s' [[<- <-]|[_ Hk]]%lookup_insert_Some; [done|]. eauto.
Qed.
Lemma good_session_set d0 d k s s' :
  good d0 d -> id_sessions d !! k = Some s -> session_moves s s' -> (session_times s -> session_times s') ->
  good d0 (on_sessions <[k := s']> d).
Proof.
  intros Hg Hk Hm Ht. destruct (proj1 Hg). pose proof Hm as (Hid & Hu & _).
  apply good_sessions; [done|apply keyed_insert; [done|]|by eapply table_moves_set|].
  - rewrite Hid. by apply iw_sessions0.
  - intros k' x [[<- <-]|[_ Hx]]%lookup_insert_Some; [rewrite Hu|]; eauto.
Qed.
Lemma good_session_where d0 d P f :
  good d0 d -> (forall s, P s = true -> session_moves s (f s)) -> (forall s, session_times s -> session_times (f s)) ->
  (forall s, se_ID (f s) = se_ID s) -> (forall s, se_UserID (f s) = se_UserID s) ->
  good d0 (on_sessions (update_where P f) d).
Proof.
  intros Hg Hm Ht Hid Hu. destruct (proj1 Hg). apply good_sessions; [done|by apply keyed_where|by apply table_moves_where|].
  intros k s' (s & Hk & ->)%update_where_lookup. destruct (P s); rewrite ?Hu; eauto.
Qed.

(** *** Users *)

Lemma good_user_new d0 d u :
  good d0 d -> id_users d !! u_ID u = None -> u_PlatformRole u = PlatformRoleMember -> good d0 (on_users <[u_ID u := u]> d).
Proof.
  intros Hg Hn Hr. eapply good_step; [exact Hg|]. intros [].
  assert (forall k v, id_users d !! k = Some v -> <[u_ID u := u]> (id_users d) !! k = Some v) as Hold.
  { intros k v Hk. rewrite lookup_insert_ne; [done|]. intros <-. congruence. }
  split; [split; cbn; try done|evolve].
  - by apply keyed_insert.
  - intros k k' v v' [[<- <-]|[_ Hk]]%lookup_insert_Some [[<- <-]|[_ Hk']]%lookup_insert_Some Ha Ha';
      [done|by rewrite Hr in Ha|by rewrite Hr in Ha'|eauto].
  - intros k s Hk. destruct (iw_session_user0 k s Hk) as [v Hv]. eauto.
  - intros k i Hk He. destruct (iw_open0 k i Hk He) as (s & a & v & H1 & H2 & H3 & H4 & H5 & H6). exists s, a, v. cbn. eauto 10.
  - by apply table_moves_new.
Qed.

(** An update that keeps the role. *)
Lemma good_user_set d0 d k u u' :
  good d0 d -> id_users d !! k = Some u -> user_moves u u' -> u_PlatformRole u' = u_PlatformRole u -> good d0 (on_users <[k := u']> d).
Proof.
  intros Hg Hku Hm Hr. eapply good_step; [exact Hg|]. intros [].
  assert (forall k1 v, id_users d !! k1 = Some v -> exists v', <[k := u']> (id_users d) !! k1 = Some v' /\ u_PlatformRole v' = u_PlatformRole v) as Hold.
  { intros k1 v Hk. destruct (decide (k1 = k)) as [->|Hne].
    - exists u'. split; [apply lookup_insert_eq|]. congruence.
    - exists v. by rewrite lookup_insert_ne. }
  split; [split; cbn; try done|evolve].
  - apply keyed_insert; [done|]. destruct Hm as [-> _]. by apply iw_users0.
  - intros k1 k2 v v' H1 H2 Ha Ha'.
    assert (forall k1 v, <[k:=u']> (id_users d) !! k1 = Some v -> exists w, id_users d !! k1 = Some w /\ u_PlatformRole w = u_PlatformRole v) as Hback.
    { intros k3 w [[<- <-]|[_ Hk]]%lookup_insert_Some; eauto. }
    destruct (Hback _ _ H1) as (w & Hw1 & E1). destruct (Hback _ _ H2) as (w' & Hw2 & E2).
    apply (iw_admin0 _ _ _ _ Hw1 Hw2); congruence.
  - intros k1 s Hk. destruct (iw_session_user0 k1 s Hk) as [v Hv]. destruct (Hold _ _ Hv) as (v' & Hv' & _). eauto.
  - intros k1 i Hk He. destruct (iw_open0 k1 i Hk He) as (s & a & v & H1 & H2 & H3 & H4 & H5 & H6).
    destruct (Hold _ _ H3) as (a' & Ha' & Ea). destruct (Hold _ _ H5) as (v' & Hv' & Ev). exists s, a', v'. cbn.
    split_and!; try done; congruence.
  - by eapply table_moves_set.
Qed.

(** The first administrator: without one there is no impersonation. *)
Lemma good_user_admin d0 d k u u' :
  good d0 d -> id_users d !! k = Some u -> user_moves u u' -> (forall k v, id_users d !! k = Some v -> u_PlatformRole v <> PlatformRoleAdmin) ->
  good d0 (on_users <[k := u']> d).
Proof.
  intros Hg Hku Hm Hno. eapply good_step; [exact Hg|]. intros [].
  split; [split; cbn; try done|evolve].
  - apply keyed_insert; [done|]. destruct Hm as [-> _]. by apply iw_users0.
  - intros k1 k2 v v' [[<- <-]|[_ Hk]]%lookup_insert_Some [[<- <-]|[_ Hk']]%lookup_insert_Some Ha Ha'; [done|exfalso; by eapply Hno..].
  - intros k1 s Hk. destruct (iw_session_user0 k1 s Hk) as [v Hv]. destruct (decide (k = se_UserID s)) as [->|Hne];
      [rewrite lookup_insert_eq|rewrite lookup_insert_ne by done]; eauto.
  - intros k1 i Hk He. destruct (iw_open0 k1 i Hk He) as (s & a & v & H1 & H2 & H3 & H4 & _). exfalso. by eapply Hno.
  - by eapply table_moves_set.
Qed.

(** *** External identities and invitations *)

Lemma good_externals d0 d f :
  good d0 d -> keyed ex_id (f (id_externals d)) -> table_moves external_moves (id_externals d) (f (id_externals d)) -> good d0 (on_externals f d).
Proof. intros Hg Hk Hm. eapply good_step; [exact Hg|]. intros []. split; [by split|]. evolve. done. Qed.
Lemma good_external_new d0 d e : good d0 d -> id_externals d !! ex_id e = None -> good d0 (on_externals <[ex_id e := e]> d).
Proof. intros Hg Hn. destruct (proj1 Hg). apply good_externals; [done|by apply keyed_insert|by apply table_moves_new]. Qed.
Lemma good_external_set d0 d e profile now :
  good d0 d -> id_externals d !! ex_id e = Some e -> good d0 (on_externals <[ex_id e := with_verified profile now e]> d).
Proof. intros Hg Hk. destruct (proj1 Hg). apply good_externals; [done|by apply keyed_insert|by eapply table_moves_set]. Qed.
Lemma good_external_where d0 d P now : good d0 d -> good d0 (on_externals (update_where P (with_verified None now)) d).
Proof. intros Hg. destruct (proj1 Hg). apply good_externals; [done|by apply keyed_where|by apply table_moves_where]. Qed.

Lemma good_invitations d0 d f :
  good d0 d -> keyed iv_ID (f (id_invitations d)) -> table_moves invitation_moves (id_invitations d) (f (id_invitations d)) ->
  good d0 (on_invitations f d).
Proof. intros Hg Hk Hm. eapply good_step; [exact Hg|]. intros []. split; [by split|]. evolve. done. Qed.
Lemma good_invitation_new d0 d i : good d0 d -> id_invitations d !! iv_ID i = None -> good d0 (on_invitations <[iv_ID i := i]> d).
Proof. intros Hg Hn. destruct (proj1 Hg). apply good_invitations; [done|by apply keyed_insert|by apply table_moves_new]. Qed.
Lemma good_invitation_set d0 d k i i' :
  good d0 d -> id_invitations d !! k = Some i -> iv_Status i = InvitationPending -> iv_ID i' = iv_ID i -> iv_Target i' = iv_Target i ->
  good d0 (on_invitations <[k := i']> d).
Proof.
  intros Hg Hk Hp Hid Ht. destruct (proj1 Hg). apply good_invitations; [done|apply keyed_insert; [done|]|].
  - rewrite Hid. by apply iw_invitations0.
  - eapply table_moves_set; [auto|done|]. by split_and!.
Qed.
Lemma good_invitation_expire d0 d now :
  good d0 d -> good d0 (on_invitations (update_where (expired_invitation now) (fun i => with_status InvitationExpired (iv_RevokedAt i) now i)) d).
Proof.
  intros Hg. destruct (proj1 Hg). apply good_invitations; [done|by apply keyed_where|]. apply table_moves_where; [auto|].
  intros i [Hp _]%andb_true_iff. apply bool_decide_eq_true in Hp. by split_and!.
Qed.

(** *** Authorizations and impersonations *)

Lemma good_authorization_new d0 d a :
  good d0 d -> id_authorizations d !! az_ID a = None ->
  no_row (fun b => az_StateHash b == az_StateHash a) (id_authorizations d) = true -> good d0 (on_authorizations <[az_ID a := a]> d).
Proof.
  intros Hg Hn Hh. eapply good_step; [exact Hg|]. intros [].
  assert (forall k b, id_authorizations d !! k = Some b -> az_StateHash b <> az_StateHash a) as Hne.
  { intros k b Hk E. pose proof (no_row_true _ _ _ _ Hh Hk) as Hb. cbn in Hb. by rewrite bool_decide_eq_true_2 in Hb. }
  split; [split; cbn; try done|evolve; by apply table_moves_new].
  - by apply keyed_insert.
  - intros k k' b b' [[<- <-]|[_ Hk]]%lookup_insert_Some [[<- <-]|[_ Hk']]%lookup_insert_Some E; [done| | |eauto].
    + exfalso. by eapply Hne.
    + exfalso. by eapply Hne.
Qed.

(** Rows change only by being consumed. *)
Lemma good_authorizations d0 d f :
  good d0 d -> keyed az_ID (f (id_authorizations d)) -> table_moves authorization_moves (id_authorizations d) (f (id_authorizations d)) ->
  (forall k a', f (id_authorizations d) !! k = Some a' -> exists a, id_authorizations d !! k = Some a /\ az_StateHash a = az_StateHash a') ->
  good d0 (on_authorizations f d).
Proof.
  intros Hg Hk Hm Hb. eapply good_step; [exact Hg|]. intros []. split; [split; cbn; try done|evolve; done].
  intros k k' a a' H1 H2 E. destruct (Hb _ _ H1) as (b & Hb1 & E1). destruct (Hb _ _ H2) as (b' & Hb2 & E2).
  apply (iw_state0 _ _ _ _ Hb1 Hb2). congruence.
Qed.
Lemma good_authorization_consume d0 d a now :
  good d0 d -> id_authorizations d !! az_ID a = Some a -> good d0 (on_authorizations <[az_ID a := with_consumed now a]> d).
Proof.
  intros Hg Hk. destruct (proj1 Hg). apply good_authorizations; [done|by apply keyed_insert| |].
  - eapply table_moves_set; [auto|done|]. by split_and!.
  - intros k a' [[<- <-]|[_ Hk']]%lookup_insert_Some; eauto.
Qed.
Lemma good_authorization_where d0 d P now :
  good d0 d -> good d0 (on_authorizations (update_where P (fun a => mkAuthorizationTransaction (az_ID a) (az_Purpose a) (az_StateHash a)
    (az_InvitationID a) (az_InvitationTokenHash a) (az_ExpiresAt a) (Some now) (az_CreatedAt a))) d).
Proof.
  intros Hg. destruct (proj1 Hg). apply good_authorizations; [done|by apply keyed_where| |].
  - apply table_moves_where; [auto|]. intros a _. by split_and!.
  - intros k a' (a & Hk & ->)%update_where_lookup. exists a. split; [done|]. by destruct (P a).
Qed.

Lemma good_impersonation_new d0 d i :
  good d0 d -> id_impersonations d !! im_ID i = None -> impersonation_legal d i -> good d0 (on_impersonations <[im_ID i := i]> d).
Proof.
  intros Hg Hn Hl. eapply good_step; [exact Hg|]. intros []. split; [split; cbn; try done|evolve; by apply table_moves_new].
  - by apply keyed_insert.
  - intros k j [[<- <-]|[_ Hk]]%lookup_insert_Some He; [done|by eapply iw_open0].
Qed.
Lemma good_impersonation_end d0 d i now :
  good d0 d -> id_impersonations d !! im_ID i = Some i -> good d0 (on_impersonations <[im_ID i := with_ended now i]> d).
Proof.
  intros Hg Hk. eapply good_step; [exact Hg|]. intros []. split; [split; cbn; try done|evolve].
  - by apply keyed_insert.
  - intros k j [[<- <-]|[_ Hj]]%lookup_insert_Some He; [done|by eapply iw_open0].
  - eapply table_moves_set; [auto|done|]. by split_and!.
Qed.

(** ** Every command *)

Lemma session_moves_revoked now reason s : session_moves s (with_revoked now reason s).
Proof. split_and!; try done. cbn. by destruct (se_RevokedAt s). Qed.
Lemma session_moves_provider v f s : session_moves s (with_provider v f s).
Proof. by split_and!. Qed.
Lemma session_moves_activity now idle s : session_moves s (with_activity now idle s).
Proof. by split_and!. Qed.

Lemma has_user_true u d : has_user u d = true -> is_Some (id_users d !! u).
Proof. unfold has_user. by destruct (id_users d !! u). Qed.

Section commands.
Context `{UuidLibrary} (d : IdentityDB) (Hw : identity_wf d).

(** The statements of a command, and then the updates of the tables one by one. *)
Ltac known := repeat (go_bool_step || match goal with Hp : present _ = false |- _ => apply present_false in Hp end).
Ltac goods := repeat first
  [ exact (good_refl d Hw)
  | apply good_audit | apply good_outbox | apply good_deliveries | apply good_credentials
  | apply good_external_where | apply good_authorization_where | apply good_invitation_expire ].
Ltac command := wp_steps; known; goods.

Lemma CreateAuthorization_good a : wp (CreateAuthorizationTransaction a) d (fun _ d' => good d d').
Proof. unfold CreateAuthorizationTransaction, on_unique. command. apply good_authorization_new; [goods|done..]. Qed.
Lemma Consume_good h now : wp (ConsumeAuthorizationState h now) d (fun _ d' => good d d').
Proof.
  unfold ConsumeAuthorizationState. command. apply good_authorization_consume; [goods|].
  eapply find_row_keyed; [apply (iw_authorizations _ Hw)|done].
Qed.
Lemma CreateInvitation_good i audit : wp (CreateInvitation i audit) d (fun _ d' => good d d').
Proof. unfold CreateInvitation, on_unique, insertAudit. command; apply good_invitation_new; [goods|done]. Qed.
Lemma RevokeInvitation_good i now audit : wp (RevokeInvitation i now audit) d (fun _ d' => good d d').
Proof.
  unfold RevokeInvitation, changeInvitation, insertAudit, invalidateInvitationAuthorizations. command.
  eapply good_invitation_set; [goods|done..].
Qed.
Lemma RotateInvitation_good i actor h e now audit : wp (RotateInvitation i actor h e now audit) d (fun _ d' => good d d').
Proof.
  unfold RotateInvitation, changeInvitation, insertAudit, invalidateInvitationAuthorizations, on_unique. cbv zeta. command.
  eapply good_invitation_set; [goods|done..].
Qed.
Lemma Expire_good now : wp (ExpireInvitations now) d (fun _ d' => good d d').
Proof. unfold ExpireInvitations. command. Qed.
Lemma RecordDelivery_good x : wp (RecordDelivery x) d (fun _ d' => good d d').
Proof. unfold RecordDelivery. command. Qed.
Lemma Refresh_good e f : wp (RefreshCredentialLocked e f) d (fun _ d' => good d d').
Proof. unfold RefreshCredentialLocked. command. Qed.
Lemma UpdateCredential_good e c : wp (UpdateCredential e c) d (fun _ d' => good d d').
Proof. unfold UpdateCredential. command. Qed.
Lemma AppendAudit_good a : wp (AppendAudit a) d (fun _ d' => good d d').
Proof. unfold AppendAudit, wrapped, insertAudit. command. Qed.
Lemma BindExternal_good e c audit : wp (BindExternalIdentity e c audit) d (fun _ d' => good d d').
Proof.
  unfold BindExternalIdentity, on_unique, insertExternalIdentityAndCredential, insertAudit. command.
  apply (good_external_new _ _ (mkExternalRow _ _ _ _ _ _ _)); [goods|done].
Qed.

Lemma SetActive_good u b now : wp (SetActive u b now) d (fun _ d' => good d d').
Proof. unfold SetActive. command. eapply good_user_set; [goods|done..|reflexivity]. Qed.
Lemma Reactivate_good u actor now audit : wp (ReactivateUser u actor now audit) d (fun _ d' => good d d').
Proof. unfold ReactivateUser, insertAudit. command. eapply good_user_set; [goods|done..|reflexivity]. Qed.
Lemma good_revoke_sessions d0 d1 u now reason :
  good d0 d1 ->
  good d0 (on_sessions (update_where (fun s => (se_UserID s == u) && negb (present (se_RevokedAt s))) (with_revoked now reason)) d1).
Proof. intros Hg. apply good_session_where; [done|intros; apply session_moves_revoked|done..]. Qed.
Lemma Deactivate_good u actor reason request now audit : wp (DeactivateUser u actor reason request now audit) d (fun _ d' => good d d').
Proof.
  unfold DeactivateUser, revoke_sessions, insertAudit. command. apply good_revoke_sessions. eapply good_user_set; [goods|done..|reflexivity].
Qed.
Lemma RevokeAll_good u reason now audit : wp (RevokeAllSessions u reason now audit) d (fun _ d' => good d d').
Proof. unfold RevokeAllSessions, revoke_sessions, insertAudit. command. apply good_revoke_sessions. goods. Qed.
Lemma RevokeSession_good s reason now audit : wp (RevokeSession s reason now audit) d (fun _ d' => good d d').
Proof.
  unfold RevokeSession, lockSession, insertAudit. command. eapply good_session_set; [goods|done|apply session_moves_revoked|done].
Qed.
Lemma CreateSession_good s audit : session_times s -> wp (CreateSession s audit) d (fun _ d' => good d d').
Proof.
  intros Ht. unfold CreateSession, insertSession, insertAudit. command. apply good_session_new; [goods|done|by apply has_user_true|done].
Qed.
Lemma Touch_good s now idle : idle <= now + SessionIdleLifetime -> wp (TouchSession s now idle) d (fun _ d' => good d d').
Proof.
  intros Hi. unfold TouchSession, lockSession, Time_After. command. eapply good_session_set; [goods|done|apply session_moves_activity|].
  intros (H1 & H2 & H3). destruct (_ <? idle) eqn:Ha; go_bool; split_and!; cbn -[SessionIdleLifetime SessionAbsoluteLifetime Z.add]; lia.
Qed.
Lemma RecordVerification_good s now : wp (RecordProviderVerification s now) d (fun _ d' => good d d').
Proof.
  unfold RecordProviderVerification, lockSession. command. eapply good_session_set; [goods|done|apply session_moves_provider|done].
Qed.
Lemma RecordTokenVerification_good u now : wp (RecordTokenProviderVerification u now) d (fun _ d' => good d d').
Proof. unfold RecordTokenProviderVerification. command. Qed.
Lemma RecordFailure_good s now audit : wp (RecordProviderFailure s now audit) d (fun _ d' => good d d').
Proof.
  unfold RecordProviderFailure, lockSession, insertAudit. command. eapply good_session_set; [goods|done|apply session_moves_provider|done].
Qed.
Lemma open_impersonation_key s i : open_impersonation s d = Some i -> id_impersonations d !! im_ID i = Some i.
Proof using Hw. intros Hi. by eapply find_row_keyed; [apply (iw_impersonations _ Hw)|]. Qed.
Lemma Logout_good a1 a2 s now request : wp (LogoutSession a1 a2 s now request) d (fun _ d' => good d d').
Proof.
  unfold LogoutSession, lockSession, insertAudit. cbv zeta. command;
    (eapply good_session_set; [goods|done|apply session_moves_revoked|done]).
  apply good_impersonation_end; [goods|by eapply open_impersonation_key].
Qed.
Lemma EndImpersonation_good s now audit : wp (EndImpersonation s now audit) d (fun _ d' => good d d').
Proof.
  unfold EndImpersonation, lockSession, insertAudit. command. apply good_impersonation_end; [goods|by eapply open_impersonation_key].
Qed.
Lemma StartImpersonation_good i audit : wp (StartImpersonation i audit) d (fun _ d' => good d d').
Proof.
  unfold StartImpersonation, lockSession, on_unique, insertAudit. command.
  apply (good_impersonation_new _ _ (mkImpersonation _ _ _ _ _ _)); [goods|done|].
  cbv beta in *.
  match goal with Hp : (_ ≫= _) = Some _ |- _ => apply bind_Some in Hp as (adm & Ha & Hp); apply bind_Some in Hp as (sub & Hu & [= <-]) end.
  cbn in *. eexists _, adm, sub. cbn. by split_and!.
Qed.

Lemma insertExternal_good d0 d1 e u p c now :
  good d0 d1 -> wp (insertExternalIdentityAndCredential e u p c now) d1 (fun _ d' => good d0 d' /\ id_users d' = id_users d1 /\
    id_invitations d' = id_invitations d1 /\ id_sessions d' = id_sessions d1).
Proof.
  intros Hg. unfold insertExternalIdentityAndCredential. wp_steps. known. split_and!; try reflexivity.
  apply good_credentials. apply (good_external_new _ _ (mkExternalRow _ _ _ _ _ _ _)); done.
Qed.
Lemma insertSession_good d0 d1 s : session_times s -> good d0 d1 -> wp (insertSession s) d1 (fun _ d' => good d0 d').
Proof. intros Ht Hg. unfold insertSession. wp_steps. known. apply good_session_new; [done|done|by apply has_user_true|done]. Qed.
Lemma insertAudit_good d0 d1 a : good d0 d1 -> wp (insertAudit a) d1 (fun _ d' => good d0 d').
Proof. intros Hg. unfold insertAudit. wp_steps. by apply good_audit. Qed.
Lemma insert_event_good d0 d1 e now : good d0 d1 -> wp (insert_event e now) d1 (fun _ d' => good d0 d').
Proof. intros Hg. unfold insert_event. wp_steps. by apply good_outbox. Qed.
Lemma insert_user_good d0 d1 u : u_PlatformRole u = PlatformRoleMember -> good d0 d1 ->
  wp (insert_user u) d1 (fun _ d' => good d0 d' /\ id_invitations d' = id_invitations d1).
Proof.
  intros Hr Hg. unfold insert_user. wp_steps. known. split; [|done]. apply good_user_new; [done| |done].
  match goal with Hh : has_user _ _ = false |- _ => by apply present_false in Hh end.
Qed.

Lemma AcceptInvitation_good e c : session_times (ac_Session c) -> wp (AcceptInvitation e c) d (fun _ d' => good d d').
Proof.
  intros Ht. unfold AcceptInvitation, on_unique. cbv zeta. apply wp_atomically, wp_bind, wp_get, wp_bind, wp_or_err. intros i Hi.
  apply wp_bind, wp_fail. intros Hf. go_bool.
  apply wp_bind, wp_map_err. eapply wp_mono; [apply insert_user_good; [reflexivity|goods]|]. intros [] d1 [Hg1 Hi1].
  apply wp_bind, wp_map_err. eapply wp_mono; [by apply insertExternal_good|]. intros [] d2 (Hg2 & _ & Hi2 & _).
  apply wp_bind, wp_mod.
  assert (id_invitations d !! iv_ID i = Some i) as Hk.
  { unfold invitation_named in Hi. destruct (negb _); [by rewrite (iw_invitations _ Hw _ _ Hi)|].
    by eapply find_row_keyed; [apply (iw_invitations _ Hw)|]. }
  match goal with Hm : InvitationMatches _ _ _ = true |- _ => unfold InvitationMatches in Hm end. go_bool.
  assert (good d (on_invitations <[iv_ID i := with_acceptance (ac_UserID c) (ac_Now c) i]> d2)) as Hg3.
  { eapply good_invitation_set; [done|by rewrite Hi2, Hi1|done..]. }
  apply wp_bind. destruct (se_ID (ac_Session c) != uuid_Nil); [eapply wp_mono; [by apply insertSession_good|]|apply wp_ret].
  - intros [] d3 Hg4. apply wp_bind. eapply wp_mono; [by apply insertAudit_good|]. intros [] d4 Hg5. by apply wp_ret.
  - apply wp_bind. eapply wp_mono; [by apply insertAudit_good|]. intros [] d4 Hg5. by apply wp_ret.
Qed.

Lemma no_admin : length (filter (fun u => u_PlatformRole u = PlatformRoleAdmin) (snd <$> map_to_list (id_users d))) = 0%nat ->
  forall k v, id_users d !! k = Some v -> u_PlatformRole v <> PlatformRoleAdmin.
Proof.
  intros Hl k v Hk Ha. apply length_zero_iff_nil in Hl. assert (v ∈ @nil User) as Hin; [|by apply elem_of_nil in Hin].
  rewrite <- Hl. apply list_elem_of_filter. split; [done|]. apply list_elem_of_fmap. exists (k, v). split; [done|].
  by apply elem_of_map_to_list.
Qed.

Lemma BootstrapAdmin_good e c : session_times (lc_Session c) -> wp (BootstrapAdmin e c) d (fun _ d' => good d d').
Proof.
  intros Ht. unfold BootstrapAdmin, on_unique, update_user. cbv zeta.
  apply wp_atomically, wp_bind, wp_get, wp_bind, wp_fail. intros Hn. apply wp_bind, wp_get, wp_bind, wp_or_err. intros seed Hs.
  apply wp_bind, wp_map_err, wp_bind, wp_fail. intros _. apply wp_bind, wp_get, wp_bind, wp_fail. intros _. apply wp_mod.
  assert (u_ID seed = primarySeedUserID) as Hid by (by apply (iw_users _ Hw)).
  assert (good d (on_users <[u_ID (as_administrator (lc_Principal c) (lc_Now c) seed) := as_administrator (lc_Principal c) (lc_Now c) seed]> d)) as Hg1.
  { eapply good_user_admin; [goods|cbn; by rewrite Hid|by split_and!|]. apply no_admin. go_bool. lia. }
  apply wp_bind, wp_map_err. eapply wp_mono; [by apply insertExternal_good|]. intros [] d2 (Hg2 & _).
  apply wp_bind. eapply wp_mono; [by apply insertSession_good|]. intros [] d3 Hg3.
  apply wp_bind. eapply wp_mono; [by apply insertAudit_good|]. intros [] d4 Hg4. by apply wp_ret.
Qed.

Lemma LoginExternal_good c : session_times (lc_Session c) -> wp (LoginExternal c) d (fun _ d' => good d d').
Proof.
  intros Ht. unfold LoginExternal, wrapped, update_user. cbv zeta. apply wp_atomically, wp_bind, wp_get, wp_bind, wp_or_err.
  intros [ex u] Hr. apply bind_Some in Hr as (ex' & He & Hr). apply bind_Some in Hr as (u' & Hu & [= <- <-]).
  apply wp_bind, wp_fail. intros _. apply wp_bind, wp_mod, wp_bind, wp_mod.
  apply wp_bind, wp_map_err, wp_bind, wp_fail. intros _. apply wp_bind, wp_get, wp_bind, wp_fail. intros _. apply wp_mod.
  match goal with |- wp _ ?x _ => assert (good d x) as Hg1 end.
  { eapply (good_user_set _ _ _ u'); [|cbn; by rewrite (iw_users _ Hw _ _ Hu)|by split_and!|done]. apply good_credentials.
    apply good_external_set; [goods|]. by eapply find_row_keyed; [apply (iw_externals _ Hw)|]. }
  apply wp_bind. eapply wp_mono; [by apply insertSession_good|]. intros [] d3 Hg3.
  apply wp_bind. eapply wp_mono; [by apply insertAudit_good|]. intros [] d4 Hg4. by apply wp_ret.
Qed.

Lemma Register_good e v created c : session_times (rc_Session c) -> wp (RegisterAccessRequest e v created c) d (fun _ d' => good d d').
Proof.
  intros Ht. unfold RegisterAccessRequest, on_unique, insertAccessRequestedEvent. cbv zeta. apply wp_atomically.
  apply wp_bind, wp_map_err. eapply wp_mono; [apply insert_user_good; [reflexivity|goods]|]. intros [] d1 [Hg1 Hi1].
  apply wp_bind, wp_map_err. eapply wp_mono; [by apply insertExternal_good|]. intros [] d2 (Hg2 & _ & Hi2 & _).
  apply wp_bind. eapply wp_mono; [by apply insertSession_good|]. intros [] d3 Hg3.
  apply wp_bind. eapply wp_mono; [by apply insertAudit_good|]. intros [] d4 Hg4.
  apply wp_bind, wp_bind, wp_get. destruct (notified_administrator d4); [apply wp_bind, wp_lift; intros ev _|by apply wp_ret, wp_ret].
  eapply wp_mono; [by apply insert_event_good|]. intros [] d5 Hg5. by apply wp_ret.
Qed.

Lemma SetAccessStatus_good a e created u actor status now request :
  wp (SetUserAccessStatus a e created u actor status now request) d (fun _ d' => good d d').
Proof.
  unfold SetUserAccessStatus, insertAccessApprovedEvent, wrapped, update_user. cbv zeta.
  apply wp_atomically, wp_bind, wp_get, wp_bind, wp_or_err. intros v Hv. apply wp_bind, wp_fail. intros _. apply wp_bind, wp_fail. intros Hc.
  case_bool_decide as Hst; [apply wp_ret; goods|].
  apply wp_bind, wp_map_err, wp_bind, wp_fail. intros _. apply wp_bind, wp_get, wp_bind, wp_fail. intros _. apply wp_mod.
  match goal with |- wp _ ?x _ => assert (good d x) as Hg1 end.
  { eapply (good_user_set _ _ _ v); [goods|cbn; by rewrite (iw_users _ Hw _ _ Hv)| |done]. split_and!; [done|done|].
    intros Ha. exfalso. rewrite Ha in Hc. unfold CanChangeAccessStatus in Hc. rewrite Ha in Hst.
    rewrite (bool_decide_eq_false_2 (_ = status)) in Hc by done. by cbn in Hc. }
  apply wp_bind. eapply wp_mono; [by apply insertAudit_good|]. intros [] d4 Hg4.
  case_bool_decide; [|by apply wp_ret]. wp_steps. by apply insert_event_good.
Qed.
End commands.

Lemma step_good {A} (m : IdentityM A) d : identity_wf d -> clean m -> wp m d (fun _ d' => good d d') -> good d (m d).2.
Proof.
  intros Hw Hc Hm. destruct (m d) as [[a|e] d'] eqn:E; cbn; [by eapply Hm|]. rewrite (Hc _ _ _ E). by apply good_refl.
Qed.

Ltac clean_op := unfold CreateAuthorizationTransaction, on_unique, ConsumeAuthorizationState, CreateInvitation, RevokeInvitation,
  RotateInvitation, changeInvitation, ExpireInvitations, AcceptInvitation, RecordDelivery, BindExternalIdentity, RefreshCredentialLocked,
  UpdateCredential, BootstrapAdmin, LoginExternal, RegisterAccessRequest, SetActive, SetUserAccessStatus, DeactivateUser, ReactivateUser,
  CreateSession, LogoutSession, TouchSession, RecordProviderVerification, RecordTokenProviderVerification, RecordProviderFailure,
  RevokeSession, RevokeAllSessions, StartImpersonation, EndImpersonation, AppendAudit, wrapped, insertAudit; cbv zeta;
  cleaned ltac:(idtac; fail).

Lemma identity_step_good `{UuidLibrary} o d : timely o -> identity_wf d -> good d (identity_step o d).
Proof.
  intros Ht Hw. destruct o; cbn [identity_step timely] in *; (apply step_good; [done|clean_op|]).
  - by apply CreateAuthorization_good.
  - by apply Consume_good.
  - by apply CreateInvitation_good.
  - by apply RevokeInvitation_good.
  - by apply RotateInvitation_good.
  - by apply Expire_good.
  - by apply AcceptInvitation_good.
  - by apply RecordDelivery_good.
  - by apply BindExternal_good.
  - by apply Refresh_good.
  - by apply UpdateCredential_good.
  - by apply BootstrapAdmin_good.
  - by apply LoginExternal_good.
  - by apply Register_good.
  - by apply SetActive_good.
  - by apply SetAccessStatus_good.
  - by apply Deactivate_good.
  - by apply Reactivate_good.
  - by apply CreateSession_good.
  - by apply Logout_good.
  - by apply Touch_good.
  - by apply RecordVerification_good.
  - by apply RecordTokenVerification_good.
  - by apply RecordFailure_good.
  - by apply RevokeSession_good.
  - by apply RevokeAll_good.
  - by apply StartImpersonation_good.
  - by apply EndImpersonation_good.
  - by apply AppendAudit_good.
Qed.

Lemma identity_steps_good `{UuidLibrary} os d : Forall timely os -> identity_wf d -> good d (identity_steps os d).
Proof.
  intros Ho. revert d. induction Ho as [|o os Ho _ IH]; intros d Hw; [by apply good_refl|]. cbn.
  pose proof (identity_step_good o d Ho Hw) as Hg. eapply good_step; [exact Hg|]. apply IH.
Qed.
