(* ===== verification/IdentityProperties.v ===== *)
(** * Properties of identity: sessions, logins, impersonation and the middleware

    What an accepted session cookie proves, that ended sessions stay ended, the lifetimes, the single use of
    authorizations and invitations, the only administrator, and which requests reach a handler. *)

From Stdlib Require Import Ascii.
From stdpp Require Import base tactics strings gmap list numbers sorting.
From S2P Require Import Prelude Actors State Http Access AccessProperties Events Identity IdentityStore IdentityService Gateway.
From S2P Require Import IdentitySystem IdentityInvariant.

(** ** Cookies *)

Lemma no_dot_bool s : "."%char ∉ String.list_ascii_of_string s -> Split s "." = [s].
Proof.
  induction s as [|c s IH]; [done|]. cbn [Split String.list_ascii_of_string]. intros [Hc Hs]%not_elem_of_cons.
  rewrite bool_decide_eq_false_2 by congruence. by rewrite IH.
Qed.
Lemma Split_dot a b : "."%char ∉ String.list_ascii_of_string a -> Split (a +:+ "." +:+ b) "." = a :: Split b ".".
Proof.
  induction a as [|c a IH]; [done|]. intros [Hc Ha]%not_elem_of_cons.
  change (Split (String c a +:+ "." +:+ b) ".") with
    (if c == "."%char then "" :: Split (a +:+ "." +:+ b) "."
     else match Split (a +:+ "." +:+ b) "." with p :: ps => String c p :: ps | [] => [String c ""] end).
  rewrite bool_decide_eq_false_2 by congruence. by rewrite IH.
Qed.

Lemma enc6_no_dot z : is_digit6 z -> Base64.enc6 z <> "."%char.
Proof.
  intros Hz. pose proof (below_forall 64 (fun z => Base64.enc6 z != "."%char) z) as H. cbv beta in H.
  specialize (H ltac:(vm_compute; reflexivity) ltac:(unfold is_digit6 in Hz; lia)). by apply negb_true_iff, bool_decide_eq_false in H.
Qed.
Lemma encoded_no_dot s : "."%char ∉ String.list_ascii_of_string (EncodeToString s).
Proof.
  unfold EncodeToString, Base64.encode. rewrite String.list_ascii_of_string_of_list_ascii. intros (z & Hz & Hin)%list_elem_of_fmap.
  pose proof (digits_range _ (byte_codes_range s)) as Hd. rewrite Forall_forall in Hd. by apply (enc6_no_dot z); [apply Hd|].
Qed.
Lemma encoded_nonempty s : String.length s = 32%nat -> EncodeToString s <> "".
Proof. intros Hs E. pose proof (length_EncodeToString s) as H. rewrite E, Hs in H. by vm_compute in H. Qed.

Lemma cookie_roundtrip `{UuidLibrary} key id raw csrf :
  String.length raw = 32%nat ->
  parseSessionCookie key (SessionCookieValue key (mkSessionTokens id (EncodeToString raw) csrf)) = Ok (id, HashSecret (EncodeToString raw)).
Proof.
  intros Hr. unfold parseSessionCookie, SessionCookieValue. cbv zeta. cbn [st_SessionID st_SessionSecret].
  rewrite <- !app_assoc_string. rewrite Split_dot by apply uuid_String_no_dot. rewrite Split_dot by apply encoded_no_dot.
  rewrite no_dot_bool by apply encoded_no_dot.
  assert (uuid_String id <> "") as Hid. { intros E. apply (uuid_String_nonblank id). by rewrite E. }
  rewrite !(bool_decide_eq_false_2 (_ = "")); [|apply encoded_nonempty, sha256_length|by apply encoded_nonempty|done].
  cbn [orb]. rewrite bool_decide_eq_true_2 by done. cbn [negb].
  rewrite uuid_Parse_String, DecodeString_EncodeToString, Hr. done.
Qed.

(** ** Accepted cookies *)

(** What an accepted cookie says about the tables [d] at [now]: [i] is the identity and [session] the
    session that the request gets. *)
Record accepted (lark : bool) (key cookie : string) (now : Time) (d : IdentityDB) `{UuidLibrary} (i : SessionIdentity) (session row : Session)
    : Prop := {
  ac_cookie : parseSessionCookie key cookie = Ok (si_SessionID i, se_SecretHash row);
  ac_row : id_sessions d !! si_SessionID i = Some row;
  ac_usable : se_RevokedAt row = None /\ now < se_IdleExpiresAt row /\ now < se_AbsoluteExpiresAt row;
  ac_actor : id_users d !! se_UserID row = Some (si_Actor i);
  ac_active : u_Active (si_Actor i) = true;
  ac_csrf : se_CSRFSecretHash session = se_CSRFSecretHash row;
  ac_subject : match si_Impersonation i with
    | None => si_Subject i = si_Actor i
    | Some m => open_impersonation (si_SessionID i) d = Some m /\ id_users d !! im_SubjectUserID m = Some (si_Subject i) /\ u_Active (si_Subject i) = true
    end;
  ac_trusted : lark = true ->
    (exists t, se_LastProviderVerifiedAt session = Some t /\ now < t + ProviderVerificationInterval) \/
    (exists t, se_ProviderFailureSince session = Some t /\ now <= t + ProviderTransientGrace);
}.

Section accepted.
Context `{UuidLibrary} (s : Service) (pv : Provider).

Lemma ResolveSession_wp id h now d :
  wp (ResolveSession id h now) d (fun b d' => d' = d /\ id_sessions d !! id = Some (sb_Session b) /\ h = se_SecretHash (sb_Session b) /\
    id_users d !! se_UserID (sb_Session b) = Some (sb_User b) /\ u_Active (sb_User b) = true /\ se_RevokedAt (sb_Session b) = None /\
    now < se_IdleExpiresAt (sb_Session b) /\ now < se_AbsoluteExpiresAt (sb_Session b) /\
    sb_Impersonation b = fst <$> currentImpersonation id d /\ sb_Subject b = snd <$> currentImpersonation id d).
Proof.
  unfold ResolveSession. wp_steps.
  match goal with Hr : (_ ≫= _) = Some _ |- _ => apply bind_Some in Hr as (row & Hrow & Hr); apply bind_Some in Hr as (v & Hv & [= -> ->]) end.
  unfold Time_Before in *. go_bool. cbn. split_and!; try done; try lia. by apply present_false.
Qed.

(** The bundle keeps what the verification does not touch, and the session of a configured provider is
    verified or within the grace. *)
Definition trusted (now : Time) (session : Session) : Prop :=
  (exists t, se_LastProviderVerifiedAt session = Some t /\ now < t + ProviderVerificationInterval) \/
  (exists t, se_ProviderFailureSince session = Some t /\ now <= t + ProviderTransientGrace).
Definition same_bundle (b b' : SessionBundle) : Prop :=
  sb_User b' = sb_User b /\ sb_Impersonation b' = sb_Impersonation b /\ sb_Subject b' = sb_Subject b /\
  se_CSRFSecretHash (sb_Session b') = se_CSRFSecretHash (sb_Session b).

Lemma wp_any {A} (m : IdentityM A) d (Q : A -> IdentityDB -> Prop) : (forall a d', Q a d') -> wp m d Q.
Proof. intros HQ a d' _. apply HQ. Qed.

Lemma revalidate_wp dr b now d : wp (revalidate pv dr b now) d (fun b' _ => same_bundle b b' /\ trusted now (sb_Session b')).
Proof.
  unfold revalidate, applyProviderTransient, deactivateInvalidPrincipal. cbv zeta. apply wp_bind, wp_any. intros external d1.
  apply wp_bind, wp_any. intros result d2. case_bool_decide; [|case_bool_decide; [|case_bool_decide; [|apply wp_throw]]].
  - apply wp_bind, wp_any. intros [] d3. apply wp_ret. split; [by split_and!|]. left. exists now. cbn -[Z.add Z.lt].
    unfold ProviderVerificationInterval, Minute. split; [done|lia].
  - apply wp_bind, wp_any. intros [] d3. apply wp_bind, wp_bind, wp_any. intros [] d4. apply wp_throw.
  - apply wp_bind, wp_any. intros [] d3. destruct (se_ProviderFailureSince (sb_Session b)) as [t|] eqn:Ef.
    + destruct (WithinProviderGrace _ _) eqn:Eg; [|apply wp_throw]. apply wp_ret. split; [by split_and!|]. right. exists t. split; [done|].
      unfold WithinProviderGrace, Time_After in Eg. go_bool. lia.
    + apply wp_ret. split; [by split_and!|]. right. exists now. cbn -[Z.add Z.le]. unfold ProviderTransientGrace, Hour. split; [done|lia].
Qed.
Lemma verified_wp dr b now d :
  wp (verified_bundle s pv dr b now) d (fun b' _ => same_bundle b b' /\ (present (sv_lark s) = true -> trusted now (sb_Session b'))).
Proof.
  unfold verified_bundle. destruct (present (sv_lark s)) eqn:El; cbn [andb]; [|apply wp_ret; by split_and!].
  destruct (ProviderVerificationDue _ _) eqn:Ed.
  - eapply wp_mono; [apply revalidate_wp|]. intros b' d' [? ?]. by split.
  - apply wp_ret. split; [by split_and!|]. intros _. left. unfold ProviderVerificationDue, Time_Before in Ed.
    destruct (se_LastProviderVerifiedAt _) as [t|]; [|done]. exists t. go_bool. split; [done|lia].
Qed.
Lemma roll_wp id session now d :
  wp (roll_session id session now) d (fun session' _ => se_CSRFSecretHash session' = se_CSRFSecretHash session /\
    (trusted now session -> trusted now session')).
Proof. unfold roll_session. cbv zeta. destruct (SessionRollDue _ _); [apply wp_bind, wp_any; intros ? ?|]; by apply wp_ret. Qed.

Lemma Authenticate_wp dr cookie d :
  wp (Service_Authenticate s pv dr cookie) d (fun r _ => exists row,
    accepted (present (sv_lark s)) (sv_sessionSecret s) cookie (dr_now dr 0) d r.1 r.2 row).
Proof.
  unfold Service_Authenticate. apply wp_bind, wp_lift. intros [id h] Hp. cbv zeta.
  apply wp_bind. eapply wp_mono; [apply ResolveSession_wp|]. intros b d1 (-> & Hrow & -> & Hu & Ha & Hr & Hi & Hx & Him & Hsub).
  apply wp_bind. eapply wp_mono; [apply verified_wp|]. intros b' d1 [(Eu & Ei & Es & Ec) Ht].
  apply wp_bind, wp_lift. intros i Hid. apply wp_bind. eapply wp_mono; [apply roll_wp|]. intros session d2 [Ec' Ht']. apply wp_ret.
  exists (sb_Session b). unfold session_identity in Hid. rewrite Eu, Ei, Es, Him, Hsub in Hid.
  assert (si_SessionID i = id /\ si_Actor i = sb_User b) as [Eid Eact].
  { destruct (currentImpersonation id d) as [[m u]|]; cbn in Hid; [destruct (u_Active u); [|done]|]; by injection Hid as <-. }
  split; cbn [fst snd]; rewrite ?Eid, ?Eact; try done.
  - congruence.
  - unfold currentImpersonation in Hid. destruct (open_impersonation id d) as [m|]; cbn in Hid; [|by injection Hid as <-].
    destruct (id_users d !! im_SubjectUserID m) as [u|] eqn:Hm; cbn in Hid; [|by injection Hid as <-].
    destruct (u_Active u) eqn:Hua; [|done]. injection Hid as <-. by cbn.
  - intros Hl. apply Ht', Ht, Hl.
Qed.
End accepted.

(** ** Issued sessions *)

(** The provider, if one is configured, has a valid credential of the user and confirms the principal. *)
Definition provider_confirms (s : Service) (pv : Provider) (now : Time) (userID : UUID) (d : IdentityDB) : Prop :=
  sv_lark s = None \/
  exists e category request, external_where (fun e => ex_user_id e == userID) d = Some e /\
    now < oc_AccessTokenExpiresAt (ei_EncryptedCredential e) /\
    pv_VerifyPrincipal pv (ei_EncryptedCredential e) (ei_Key e) = POk (mkVerificationResult VerificationValid category request).

Section issued.
Context `{UuidLibrary} (s : Service) (pv : Provider).

(** Binds of a statement that succeeds. *)
Lemma bind_run {S A B} (m : St S A) (f : A -> St S B) d a d1 : m d = (Ok a, d1) -> (m ≫= f) d = f a d1.
Proof. intros E. unfold mbind, St_bind. by rewrite E. Qed.

Lemma ResolveSession_run id row u now d :
  id_sessions d !! id = Some row -> id_users d !! se_UserID row = Some u -> u_Active u = true -> se_RevokedAt row = None ->
  now < se_IdleExpiresAt row -> now < se_AbsoluteExpiresAt row -> open_impersonation id d = None ->
  ResolveSession id (se_SecretHash row) now d = (Ok (mkSessionBundle row u None None), d).
Proof.
  intros Hrow Hu Ha Hr Hi Hx Ho. unfold ResolveSession, st_get. rewrite (bind_run _ _ _ (Some (row, u)) d) by (by rewrite Hrow; cbn; rewrite Hu).
  rewrite (bind_run _ _ _ (row, u) d) by done. unfold Time_Before.
  rewrite bool_decide_eq_true_2, Ha, Hr by done. cbn [negb present].
  replace (now <? se_IdleExpiresAt row) with true by (symmetry; lia). replace (now <? se_AbsoluteExpiresAt row) with true by (symmetry; lia).
  assert (currentImpersonation id d = None) as Hcur by (unfold currentImpersonation; by rewrite Ho).
  cbn -[currentImpersonation]. unfold mbind, St_bind. cbn -[currentImpersonation]. by rewrite Hcur.
Qed.

Lemma verified_run dr b now d :
  provider_confirms s pv now (u_ID (sb_User b)) d -> is_Some (id_sessions d !! se_ID (sb_Session b)) ->
  exists b' d', verified_bundle s pv dr b now d = (Ok b', d') /\ is_Some (id_sessions d' !! se_ID (sb_Session b)) /\ same_bundle b b'.
Proof.
  intros Hc [row Hrow]. unfold verified_bundle. destruct (present (sv_lark s) && _) eqn:E; [|by eexists b, d; split_and!; eauto; split_and!].
  destruct Hc as [Hl|(e & c & r & He & Ht & Hv)]; [by rewrite Hl in E|]. unfold revalidate.
  rewrite (bind_run _ _ _ e d).
  2: { unfold st_map_err, GetExternalIdentityForUser, st_get. by rewrite (bind_run _ _ _ (Some e) d) by (by rewrite He). }
  rewrite (bind_run _ _ _ (mkVerificationResult VerificationValid c r) d).
  2: { unfold verifyExternalPrincipal, verification_credential. cbv zeta. unfold Time_Before.
       replace (now <? _) with true by (symmetry; lia). rewrite (bind_run _ _ _ (inl (ei_EncryptedCredential e)) d) by done. by rewrite Hv. }
  cbn [vr_State]. rewrite bool_decide_eq_true_2 by done. cbv iota.
  assert (exists d1, RecordProviderVerification (se_ID (sb_Session b)) now d = (Ok tt, d1) /\ is_Some (id_sessions d1 !! se_ID (sb_Session b)))
    as (d1 & E1 & Hs1).
  { eexists _. split.
    - unfold RecordProviderVerification, lockSession, st_get, atomically.
      rewrite (bind_run _ _ _ row d); [reflexivity|]. by rewrite (bind_run _ _ _ (Some row) d) by (by rewrite Hrow).
    - cbn. by rewrite lookup_insert_eq. }
  rewrite (bind_run _ _ _ _ _ E1). exists (with_session (with_provider (Some now) None) b), d1. by split_and!.
Qed.

Lemma roll_run id session now d : is_Some (id_sessions d !! id) -> exists session' d', roll_session id session now d = (Ok session', d').
Proof.
  intros [row Hrow]. unfold roll_session. cbv zeta. destruct (SessionRollDue session now); [|by eexists _, _].
  unfold TouchSession, lockSession, atomically, st_get.
  unfold mbind at 1, St_bind at 1. rewrite (bind_run _ _ _ row d) by (by rewrite (bind_run _ _ _ (Some row) d) by (by rewrite Hrow)).
  destruct (SessionRollDue row now); eexists _, _; reflexivity.
Qed.

Lemma Authenticate_run dr cookie d id row u :
  identity_wf d -> parseSessionCookie (sv_sessionSecret s) cookie = Ok (id, se_SecretHash row) ->
  id_sessions d !! id = Some row -> id_users d !! se_UserID row = Some u -> u_Active u = true -> se_RevokedAt row = None ->
  dr_now dr 0 < se_IdleExpiresAt row -> open_impersonation id d = None -> provider_confirms s pv (dr_now dr 0) (se_UserID row) d ->
  exists session, (Service_Authenticate s pv dr cookie d).1 = Ok (mkSessionIdentity id u u None, session).
Proof.
  intros Hw Hp Hrow Hu Ha Hr Hi Ho Hc. unfold Service_Authenticate. rewrite (bind_run _ _ _ (id, se_SecretHash row) d) by (by rewrite Hp).
  destruct (iw_session_times _ Hw _ _ Hrow) as (Hle & _). cbv zeta.
  rewrite (bind_run _ _ _ (mkSessionBundle row u None None) d) by (apply ResolveSession_run; try done; lia).
  pose proof (iw_sessions _ Hw _ _ Hrow) as Eid. pose proof (iw_users _ Hw _ _ Hu) as Euid.
  destruct (verified_run (later 10 dr) (mkSessionBundle row u None None) (dr_now dr 0) d) as (b & d1 & Hb & Hs1 & Eu & Ei & _).
  { by cbn; rewrite Euid. } { cbn. rewrite Eid. eauto. }
  rewrite (bind_run _ _ _ _ _ Hb). cbn in *. rewrite (bind_run _ _ _ (mkSessionIdentity id u u None) d1) by (by unfold session_identity; rewrite Ei, Eu).
  rewrite Eid in Hs1. destruct (roll_run id (sb_Session b) (dr_now dr 0) d1 Hs1) as (session & d2 & Hroll).
  exists session. by rewrite (bind_run _ _ _ _ _ Hroll).
Qed.
End issued.

Lemma fresh_not_impersonating d id : identity_wf d -> id_sessions d !! id = None -> open_impersonation id d = None.
Proof.
  intros Hw Hn. unfold open_impersonation. destruct (find_row _ _) as [i|] eqn:E; [exfalso|done].
  apply find_row_Some in E as (Hp & k & Hk). go_bool. subst.
  match goal with He : present (im_EndedAt i) = false |- _ => apply present_false in He; destruct (iw_open _ Hw _ _ Hk He) as (s & _ & _ & Hs & _) end.
  congruence.
Qed.

Lemma IssueSession_wp dr userID request d :
  wp (IssueSession dr userID request) d (fun tokens d1 => exists u row secret csrf,
    id_users d !! userID = Some u /\ u_Active u = true /\ id_users d1 = id_users d /\ id_impersonations d1 = id_impersonations d /\
    dr_secret dr 0 = Ok secret /\ tokens = mkSessionTokens (dr_uuid dr 0) secret csrf /\
    id_sessions d !! dr_uuid dr 0 = None /\ id_sessions d1 !! dr_uuid dr 0 = Some row /\
    se_UserID row = userID /\ se_SecretHash row = HashSecret secret /\ se_RevokedAt row = None /\
    se_IdleExpiresAt row = dr_now dr 0 + SessionIdleLifetime).
Proof.
  unfold IssueSession, newSession, GetByID, CreateSession, insertSession, insertAudit. cbv zeta.
  apply wp_bind, wp_map_err, wp_bind, wp_get, wp_or_err. intros u Hu. apply wp_bind, wp_fail. intros Ha%negb_false_iff.
  apply wp_bind, wp_lift. intros [tokens row] Hn. destruct (dr_secret dr 0) as [secret|]; [|done]. destruct (dr_secret dr 1) as [csrf|]; [|done].
  injection Hn as <- <-. wp_steps. exists u. eexists _, secret, csrf. cbn -[Z.add SessionIdleLifetime] in *.
  rewrite lookup_insert_eq. split_and!; try done. by apply present_false.
Qed.

(** Whatever happens to the tables after a session was issued, its cookie is accepted, for its owner and
    nobody else, as long as the session is not revoked, its idle time is not over, the owner is active and
    a configured provider confirms the owner; and right after the issue the session is in that state for
    24 hours. *)
Theorem issued_session_works `{UuidLibrary} dr userID request raw d tokens d1 :
  identity_wf d -> String.length raw = 32%nat -> dr_secret dr 0 = NewOpaqueSecret (Some raw) ->
  IssueSession dr userID request d = (Ok tokens, d1) ->
  (exists u row, id_users d1 !! userID = Some u /\ u_Active u = true /\ id_sessions d1 !! st_SessionID tokens = Some row /\
     se_RevokedAt row = None /\ se_IdleExpiresAt row = dr_now dr 0 + SessionIdleLifetime /\ open_impersonation (st_SessionID tokens) d1 = None) /\
  forall os, Forall timely os -> exists row, id_sessions (identity_steps os d1) !! st_SessionID tokens = Some row /\ se_UserID row = userID /\
    forall s pv dr' u, id_users (identity_steps os d1) !! userID = Some u -> u_Active u = true -> se_RevokedAt row = None ->
      dr_now dr' 0 < se_IdleExpiresAt row -> open_impersonation (st_SessionID tokens) (identity_steps os d1) = None ->
      provider_confirms s pv (dr_now dr' 0) userID (identity_steps os d1) ->
      exists session, (Service_Authenticate s pv dr' (SessionCookieValue (sv_sessionSecret s) tokens) (identity_steps os d1)).1 =
        Ok (mkSessionIdentity (st_SessionID tokens) u u None, session).
Proof.
  intros Hw Hl Hs E.
  assert (identity_wf d1) as Hw1.
  { destruct (via_service_step (mkService "" None) (CIssueSession dr userID request) d) as (os & Ho & Hos). cbn in Hos. rewrite E in Hos.
    cbn in Hos. subst d1. by apply identity_steps_good. }
  destruct (IssueSession_wp _ _ _ _ _ _ E) as (u & row & secret & csrf & Hu & Ha & Eu & Ei & Hs' & -> & Hn & Hrow & Hrow1 & Hrow2 & Hrow3 & Hrow4).
  rewrite Hs in Hs'. injection Hs' as <-. cbn [st_SessionID]. split.
  - exists u, row. rewrite Eu. split_and!; try done. unfold open_impersonation. rewrite Ei. by apply (fresh_not_impersonating d).
  - intros os Ho. destruct (identity_steps_good os d1 Ho Hw1) as [Hw2 Hev]. destruct (ev_sessions _ _ Hev _ _ Hrow) as (row' & Hrow' & Hm).
    destruct Hm as (_ & Hm1 & Hm2 & _). exists row'. split_and!; [done|congruence|]. intros s pv dr' v Hv Hva Hr Hi Hop Hc.
    apply (Authenticate_run s pv dr' _ _ _ row'); try done; [|by rewrite Hm1, Hrow1|by rewrite Hm1, Hrow1].
    rewrite Hm2, Hrow2. by apply cookie_roundtrip.
Qed.

(** ** Ended sessions *)

(** A successful call that ends the session [id]: logout, deactivation of its owner by an administrator or
    on the word of the provider, and the revocations of the store. *)
Inductive ends_session (id : UUID) (row : Session) (d d' : IdentityDB) : Prop :=
| end_logout dr current request : si_SessionID current = id -> Logout dr current request d = (Ok tt, d') -> ends_session id row d d'
| end_deactivated dr actor : SetUserActive dr actor (se_UserID row) false d = (Ok tt, d') -> ends_session id row d d'
| end_invalid dr category request :
    deactivateInvalidPrincipal dr (se_UserID row) category request d = (Err ErrIdentityUserInactive, d') -> ends_session id row d d'
| end_revoked reason now audit : RevokeSession id reason now audit d = (Ok tt, d') -> ends_session id row d d'
| end_all_revoked reason now audit : RevokeAllSessions (se_UserID row) reason now audit d = (Ok tt, d') -> ends_session id row d d'.

Section ended.
Context `{UuidLibrary}.

Definition revoked_in (id : UUID) (d : IdentityDB) : Prop := exists row, id_sessions d !! id = Some row /\ present (se_RevokedAt row) = true.

Lemma revoke_where_revoked id row u now reason d :
  id_sessions d !! id = Some row -> se_UserID row = u ->
  revoked_in id (on_sessions (update_where (fun s => (se_UserID s == u) && negb (present (se_RevokedAt s))) (with_revoked now reason)) d).
Proof.
  intros Hrow <-. unfold revoked_in. cbn. eexists. split; [apply update_where_lookup; eauto|]. rewrite bool_decide_eq_true_2 by done.
  destruct (present (se_RevokedAt row)) eqn:E; cbn [andb negb]; [by rewrite E|done].
Qed.
Lemma Deactivate_revokes id row actor reason request now audit d :
  id_sessions d !! id = Some row -> wp (DeactivateUser (se_UserID row) actor reason request now audit) d (fun _ d' => revoked_in id d').
Proof.
  intros Hrow. unfold DeactivateUser, revoke_sessions, insertAudit. wp_steps.
  match goal with |- revoked_in _ (on_identity_audit _ (on_sessions _ ?x)) =>
    exact (revoke_where_revoked id row (se_UserID row) now reason x Hrow eq_refl) end.
Qed.
Lemma RevokeAll_revokes id row reason now audit d :
  id_sessions d !! id = Some row -> wp (RevokeAllSessions (se_UserID row) reason now audit) d (fun _ d' => revoked_in id d').
Proof. intros Hrow. unfold RevokeAllSessions, revoke_sessions, insertAudit. wp_steps. by apply (revoke_where_revoked id row (se_UserID row) now reason d). Qed.
Lemma Revoke_revokes id reason now audit d : wp (RevokeSession id reason now audit) d (fun _ d' => revoked_in id d').
Proof. unfold RevokeSession, lockSession, insertAudit. wp_steps. eexists. cbn. by rewrite lookup_insert_eq. Qed.
Lemma Logout_revokes a1 a2 id now request d : wp (LogoutSession a1 a2 id now request) d (fun _ d' => revoked_in id d').
Proof. unfold LogoutSession, lockSession, insertAudit. cbv zeta. wp_steps; eexists; cbn; by rewrite lookup_insert_eq. Qed.

Lemma fail_error b e d x d' : (st_fail b e : IdentityM unit) d = (Err x, d') -> x = e.
Proof. unfold st_fail, st_lift. by destruct b; [intros [= <-]|]. Qed.
Lemma bind_error {A B} (m : IdentityM A) (f : A -> IdentityM B) d e d' :
  (m ≫= f) d = (Err e, d') -> m d = (Err e, d') \/ exists a d1, m d = (Ok a, d1) /\ f a d1 = (Err e, d').
Proof. unfold mbind, St_bind. destruct (m d) as [[a|x] d1]; [eauto|]. intros [= -> ->]. by left. Qed.
Lemma insertAudit_error a d e d' : insertAudit a d = (Err e, d') -> e = ErrOther.
Proof.
  unfold insertAudit. intros [E|([] & d1 & _ & [E|(x & d2 & _ & [E|([] & d3 & _ & [E|([] & d4 & _ & E)]%bind_error)]%bind_error)]%bind_error)]%bind_error;
    by first [apply fail_error in E|discriminate E].
Qed.
Lemma Deactivate_error u actor reason request now audit d e d' :
  DeactivateUser u actor reason request now audit d = (Err e, d') -> e = ErrNotFound \/ e = ErrOther.
Proof.
  unfold DeactivateUser, atomically. match goal with |- context [?m d] => destruct (m d) as [[x|e1] d1] eqn:E end; [done|]. intros [= <- <-].
  apply bind_error in E as [E|(row & d2 & [= <- <-] & [E|(v & d3 & _ & [E|([] & d4 & _ & [E|([] & d5 & _ & E)]%bind_error)]%bind_error)]%bind_error)];
    [done| |done|done|right; by apply insertAudit_error in E].
  unfold st_or_err, st_lift in E. destruct (id_users d !! u); [done|]. injection E as <- _. by left.
Qed.
Lemma ends_revoked id row d d' : identity_wf d -> id_sessions d !! id = Some row -> ends_session id row d d' -> revoked_in id d'.
Proof.
  intros Hw Hrow [dr current request <- E|dr actor E|dr category request E|reason now audit E|reason now audit E].
  - by apply Logout_revokes in E.
  - assert (wp (SetUserActive dr actor (se_UserID row) false) d (fun _ d' => revoked_in id d')) as W; [|by apply W in E].
    unfold SetUserActive, GetByID. wp_steps.
    match goal with Hu : id_users d !! _ = Some ?a |- _ => rewrite (iw_users _ Hw _ _ Hu) end. by apply Deactivate_revokes.
  - unfold deactivateInvalidPrincipal, mbind, St_bind in E. destruct (DeactivateUser _ _ _ _ _ _ d) as [[[]|e] d1] eqn:Ed.
    + injection E as <-. by apply (Deactivate_revokes id row) in Ed.
    + injection E as -> <-. by apply Deactivate_error in Ed as [|].
  - by apply Revoke_revokes in E.
  - by apply (RevokeAll_revokes id row) in E.
Qed.
Lemma ends_good id row d d' : identity_wf d -> ends_session id row d d' -> good d d'.
Proof.
  intros Hw [dr current request <- E|dr actor E|dr category request E|reason now audit E|reason now audit E].
  - pose proof (identity_step_good (OLogout (dr_uuid dr 0) (dr_uuid dr 1) (si_SessionID current) (dr_now dr 0) request) d I Hw) as Hg.
    cbn in Hg. unfold Logout in E. by rewrite E in Hg.
  - destruct (via_service_step (mkService "" None) (CSetUserActive dr actor (se_UserID row) false) d) as (os & Ho & Hos). cbn in Hos.
    rewrite E in Hos. cbn in Hos. subst d'. by apply identity_steps_good.
  - pose proof (identity_step_good (ODeactivate (se_UserID row) (se_UserID row) category request (dr_now dr 0) (dr_uuid dr 0)) d I Hw) as Hg.
    cbn in Hg. unfold deactivateInvalidPrincipal, mbind, St_bind in E. destruct (DeactivateUser _ _ _ _ _ _ d) as [[] d1]; injection E; intros; by subst.
  - pose proof (identity_step_good (ORevokeSession id reason now audit) d I Hw) as Hg. cbn in Hg. by rewrite E in Hg.
  - pose proof (identity_step_good (ORevokeAllSessions (se_UserID row) reason now audit) d I Hw) as Hg. cbn in Hg. by rewrite E in Hg.
Qed.
Lemma revoked_forever id os d : identity_wf d -> Forall timely os -> revoked_in id d -> revoked_in id (identity_steps os d).
Proof.
  intros Hw Ho (row & Hrow & Hr). destruct (ev_sessions _ _ (proj2 (identity_steps_good os d Ho Hw)) _ _ Hrow) as (row' & Hrow' & Hm).
  exists row'. split; [done|]. destruct Hm as (_ & _ & _ & _ & _ & _ & ->); done.
Qed.
End ended.

(** C26: Once a session has been ended, by logout, by a revocation or by the deactivation of its owner,
    whatever transactions follow, the reactivation of the owner included, every cookie that names it is
    refused. *)
Theorem ended_session_rejected `{UuidLibrary} id row d d' os s pv dr cookie h :
  identity_wf d -> id_sessions d !! id = Some row -> ends_session id row d d' -> Forall timely os ->
  parseSessionCookie (sv_sessionSecret s) cookie = Ok (id, h) ->
  exists e, (Service_Authenticate s pv dr cookie (identity_steps os d')).1 = Err e.
Proof.
  intros Hw Hrow He Ho Hc. destruct (ends_good _ _ _ _ Hw He) as [Hw' _].
  destruct (revoked_forever id os d' Hw' Ho (ends_revoked _ _ _ _ Hw Hrow He)) as (row' & Hrow' & Hr).
  destruct (Service_Authenticate s pv dr cookie _) as [[[i session]|e] d2] eqn:E; [exfalso|by eexists].
  destruct (Authenticate_wp _ _ _ _ _ _ _ E) as (row2 & []). cbn in *. rewrite Hc in ac_cookie0. injection ac_cookie0 as -> _.
  destruct ac_usable0 as [Hn _]. rewrite ac_row0 in Hrow'. injection Hrow' as <-. by rewrite Hn in Hr.
Qed.

(** No activity keeps a session beyond thirty days from its creation, and without activity it ends after
    24 hours: at a time when a cookie is accepted, whatever happened since the session was stored, its
    creation is less than thirty days and its last activity less than 24 hours ago. *)
Theorem session_lifetime `{UuidLibrary} id row d os s pv dr cookie i session d' :
  identity_wf d -> id_sessions d !! id = Some row -> Forall timely os ->
  Service_Authenticate s pv dr cookie (identity_steps os d) = (Ok (i, session), d') -> si_SessionID i = id ->
  dr_now dr 0 < se_CreatedAt row + 30 * 24 * Hour /\
  exists row', id_sessions (identity_steps os d) !! id = Some row' /\ dr_now dr 0 < se_LastSeenAt row' + 24 * Hour.
Proof.
  intros Hw Hrow Ho E Hi. destruct (identity_steps_good os d Ho Hw) as [Hw' Hev].
  destruct (ev_sessions _ _ Hev _ _ Hrow) as (row' & Hrow' & Hm). destruct (Authenticate_wp _ _ _ _ _ _ _ E) as (row2 & []). cbn in *.
  rewrite Hi in ac_row0. rewrite ac_row0 in Hrow'. injection Hrow' as ->. destruct (iw_session_times _ Hw' _ _ ac_row0) as (H1 & H2 & H3).
  destruct Hm as (_ & _ & _ & _ & Hcr & Habs & _). unfold SessionIdleLifetime, SessionAbsoluteLifetime in *.
  split; [rewrite <- Hcr; lia|]. exists row'. split; [done|lia].
Qed.

(** ** Authorizations *)

Section authorizations.
Context `{UuidLibrary}.

Definition consumed_in (stateHash : string) (d : IdentityDB) : Prop :=
  exists k a, id_authorizations d !! k = Some a /\ az_StateHash a = stateHash /\ present (az_ConsumedAt a) = true.

Lemma Consume_consumes h now d : wp (ConsumeAuthorizationState h now) d (fun _ d' => consumed_in h d').
Proof.
  unfold ConsumeAuthorizationState. wp_steps. match goal with Hr : find_row _ _ = Some ?a |- _ => apply find_row_Some in Hr as [Hr _]; exists (az_ID a) end.
  go_bool. eexists. cbn. by rewrite lookup_insert_eq.
Qed.
Lemma consumed_forever h os d : identity_wf d -> Forall timely os -> consumed_in h d -> consumed_in h (identity_steps os d).
Proof.
  intros Hw Ho (k & a & Hk & Hh & Hc). destruct (ev_authorizations _ _ (proj2 (identity_steps_good os d Ho Hw)) _ _ Hk) as (a' & Hk' & Hm).
  destruct Hm as (_ & Hm1 & _ & _ & _ & _ & Hm2). exists k, a'. split_and!; [done|congruence|auto].
Qed.
Lemma Consume_refused h now d : identity_wf d -> consumed_in h d -> ConsumeAuthorizationState h now d = (Err ErrAuthorizationInvalid, d).
Proof.
  intros Hw (k & a & Hk & Hh & Hc). unfold ConsumeAuthorizationState, atomically. unfold st_get.
  rewrite (bind_run _ _ _ (find_row (fun a => az_StateHash a == h) (id_authorizations d)) d) by done.
  destruct (find_row _ _) as [b|] eqn:E; [|by apply (find_row_None _ _ _ _ E) in Hk; rewrite bool_decide_eq_true_2 in Hk].
  apply (find_row_keyed az_ID) in E as [Eb Hb]; [|apply (iw_authorizations _ Hw)]. apply bool_decide_eq_true in Eb.
  pose proof (iw_state _ Hw _ _ _ _ Hk Hb ltac:(congruence)) as ->. rewrite Hk in Hb. injection Hb as <-.
  rewrite (bind_run _ _ _ a d) by done. unfold mbind, St_bind, st_fail. by rewrite Hc.
Qed.

Lemma insertAudit_frame a d : id_sessions (insertAudit a d).2 = id_sessions d /\ id_users (insertAudit a d).2 = id_users d.
Proof.
  destruct (insertAudit a d) as [[[]|e] d'] eqn:E; cbn [snd].
  - assert (preserves id_sessions (insertAudit a)) as H1 by (unfold insertAudit; framed).
    assert (preserves id_users (insertAudit a)) as H2 by (unfold insertAudit; framed). split; [by apply H1 in E|by apply H2 in E].
  - assert (clean (insertAudit a)) as Hc by (unfold insertAudit; cleaned ltac:(idtac; fail)). by rewrite (Hc _ _ _ E).
Qed.
Lemma reject_only_audits {A} dr c r e d :
  exists d', (reject dr c r e : IdentityM A) d = (Err e, d') /\ id_sessions d' = id_sessions d /\ id_users d' = id_users d.
Proof.
  unfold reject, recordAuthenticationRejection, ignore_error, AppendAudit, wrapped, st_map_err.
  match goal with |- context [insertAudit ?a] => pose proof (insertAudit_frame a d) as Hf; generalize dependent a end.
  intros a Hf. exists (insertAudit a d).2. split; [|done]. unfold mbind, St_bind. by destruct (insertAudit a d) as [[]].
Qed.
End authorizations.

#[local] Hint Resolve via_or_reject via_complete_login via_complete_invitation : via.
#[local] Hint Extern 1 (via (reject _ _ _ _)) => apply via_reject : via.

Section completion.
Context `{UuidLibrary}.

(** The call after the state has been consumed. *)
Lemma Complete_after_consumption s config pv dr state code request d a d1 :
  sv_lark s = Some config -> state <> "" -> code <> "" -> ConsumeAuthorizationState (HashSecret state) (dr_now dr 0) d = (Ok a, d1) ->
  exists os, Forall timely os /\ (CompleteAuthorization s pv dr state code request d).2 = identity_steps os d1.
Proof.
  intros Hl Hs Hc E. unfold CompleteAuthorization. rewrite Hl, !bool_decide_eq_false_2 by done. cbn [orb].
  rewrite (bind_run _ _ _ a d1) by (unfold or_reject; by rewrite E). revert d1 E. intros d1 _. revert d1.
  match goal with |- forall d1, exists os, _ /\ (?m d1).2 = _ => change (via m) end. unfold recordAuthenticationRejection. cbv zeta.
  repeat (via_steps; try (apply via_new_session; intros)).
Qed.
Lemma Complete_refused s pv dr state code request d :
  identity_wf d -> consumed_in (HashSecret state) d ->
  exists d', CompleteAuthorization s pv dr state code request d = (Err ErrAuthorizationInvalid, d') /\
    id_sessions d' = id_sessions d /\ id_users d' = id_users d.
Proof.
  intros Hw Hc. unfold CompleteAuthorization. destruct (sv_lark s); [|apply reject_only_audits].
  destruct (_ || _); [apply reject_only_audits|].
  match goal with |- exists d', (or_reject ?dr ?c ?r ?e ?m ≫= ?f) d = _ /\ _ =>
    destruct (@reject_only_audits AuthorizationTransaction dr c r e d) as (d' & E & Hd') end.
  exists d'. split; [|done]. unfold mbind, St_bind, or_reject. by rewrite Consume_refused, E.
Qed.
End completion.

(** The state of an authorization is used at most once: after a callback has consumed it, whether its
    login succeeded or not, and whatever transactions follow, every callback with this state is refused and
    creates neither a session nor a user. *)
Theorem authorization_state_single_use `{UuidLibrary} s pv dr config state code request d a d1 os s' pv' dr' code' request' :
  identity_wf d -> sv_lark s = Some config -> state <> "" -> code <> "" ->
  ConsumeAuthorizationState (HashSecret state) (dr_now dr 0) d = (Ok a, d1) -> Forall timely os ->
  let d2 := identity_steps os (CompleteAuthorization s pv dr state code request d).2 in
  exists d3, CompleteAuthorization s' pv' dr' state code' request' d2 = (Err ErrAuthorizationInvalid, d3) /\
    id_sessions d3 = id_sessions d2 /\ id_users d3 = id_users d2.
Proof.
  intros Hw Hl Hs Hc E Ho. destruct (Complete_after_consumption s config pv dr state code request d a d1 Hl Hs Hc E) as (os1 & Ho1 & ->).
  rewrite <- identity_steps_app. pose proof (Consume_consumes _ _ _ _ _ E) as Hcon.
  assert (identity_wf d1) as Hw1.
  { pose proof (identity_step_good (OConsumeAuthorization (HashSecret state) (dr_now dr 0)) d I Hw) as [Hg _]. cbn [identity_step] in Hg. by rewrite E in Hg. }
  assert (Forall timely (os1 ++ os)) as Ho2 by (by apply Forall_app).
  apply Complete_refused; [by apply identity_steps_good|by apply consumed_forever].
Qed.

(** ** Invitations *)

(** An invitation that is not pending stays as it is, and nobody can accept it. *)
Lemma final_invitation `{UuidLibrary} k i d os :
  identity_wf d -> Forall timely os -> id_invitations d !! k = Some i -> iv_Status i <> InvitationPending ->
  id_invitations (identity_steps os d) !! k = Some i /\
  forall e c j, invitation_named c (identity_steps os d) = Some j -> iv_ID j = k ->
    (AcceptInvitation e c (identity_steps os d)).1 = Err ErrInvitationInvalid.
Proof.
  intros Hw Ho Hk Hs. destruct (identity_steps_good os d Ho Hw) as [Hw' Hev].
  destruct (ev_invitations _ _ Hev _ _ Hk) as (i' & Hk' & _ & _ & Hm). rewrite (Hm Hs) in Hk'. split; [done|]. intros e c j Hj Ej.
  assert (j = i) as ->.
  { assert (id_invitations (identity_steps os d) !! iv_ID j = Some j) as Hjk; [|rewrite Ej, Hk' in Hjk; congruence].
    unfold invitation_named in Hj. destruct (negb _); [by rewrite (iw_invitations _ Hw' _ _ Hj)|].
    by eapply find_row_keyed; [apply (iw_invitations _ Hw')|]. }
  unfold AcceptInvitation, atomically, st_get. rewrite (bind_run _ _ _ (Some i) (identity_steps os d)) by (by rewrite Hj).
  rewrite (bind_run _ _ _ i (identity_steps os d)) by done. unfold InvitationMatches. rewrite (bool_decide_eq_false_2 (iv_Status i = _)) by done.
  reflexivity.
Qed.

Lemma insertExternal_frames id u p c now d :
  wp (insertExternalIdentityAndCredential id u p c now) d (fun _ d' => id_users d' = id_users d /\ id_invitations d' = id_invitations d).
Proof. unfold insertExternalIdentityAndCredential. wp_steps. done. Qed.
Lemma insertSession_frames s d : wp (insertSession s) d (fun _ d' => id_users d' = id_users d /\ id_invitations d' = id_invitations d).
Proof. unfold insertSession. wp_steps. done. Qed.
Lemma insertAudit_frames a d : wp (insertAudit a) d (fun _ d' => id_users d' = id_users d /\ id_invitations d' = id_invitations d).
Proof. unfold insertAudit. wp_steps. done. Qed.
Lemma insert_user_wp u d : wp (insert_user u) d (fun _ d' => id_users d !! u_ID u = None /\ d' = on_users <[u_ID u := u]> d).
Proof. unfold insert_user. wp_steps. go_bool. split; [|done]. by apply present_false. Qed.

Lemma AcceptInvitation_wp e c d :
  wp (AcceptInvitation e c) d (fun u d1 => exists i, invitation_named c d = Some i /\ InvitationMatches i (ip_Key (ac_Principal c)) (ac_Now c) = true /\
    (ac_InvitationID c <> uuid_Nil -> iv_TokenHash i = ac_InvitationTokenHash c) /\
    u = invited_user (ac_UserID c) (ac_UserName c) (ac_UserEmail c) (ac_UserAvatarURL c) (ac_Now c) /\
    id_users d !! ac_UserID c = None /\ id_users d1 = <[ac_UserID c := u]> (id_users d) /\
    id_invitations d1 = <[iv_ID i := with_acceptance (ac_UserID c) (ac_Now c) i]> (id_invitations d)).
Proof.
  unfold AcceptInvitation, on_unique. cbv zeta. apply wp_atomically, wp_bind, wp_get, wp_bind, wp_or_err. intros i Hi.
  apply wp_bind, wp_fail. intros Hf. apply orb_false_iff in Hf as [Hm%negb_false_iff Ht].
  apply wp_bind, wp_map_err. eapply wp_mono; [apply insert_user_wp|]. intros [] d1 [Hn ->].
  apply wp_bind, wp_map_err. eapply wp_mono; [apply insertExternal_frames|]. intros [] d2 [Eu Ei]. apply wp_bind, wp_mod, wp_bind.
  eapply (wp_mono _ _ (fun _ d3 => id_users d3 = id_users d2 /\ id_invitations d3 = <[iv_ID i := with_acceptance (ac_UserID c) (ac_Now c) i]> (id_invitations d2))).
  { destruct (se_ID (ac_Session c) != uuid_Nil); [eapply wp_mono; [apply insertSession_frames|]; intros [] d3 [-> ->]; by split|by apply wp_ret]. }
  intros [] d3 [Eu3 Ei3]. apply wp_bind. eapply wp_mono; [apply insertAudit_frames|]. intros [] d4 [Eu4 Ei4]. apply wp_ret.
  exists i. split_and!; try done; [|by rewrite Eu4, Eu3, Eu|by rewrite Ei4, Ei3, Ei].
  intros Hne. rewrite bool_decide_eq_false_2 in Ht by done. cbn [negb andb] in Ht.
  apply orb_false_iff in Ht as [_ Ht%negb_false_iff]. by apply bool_decide_eq_true in Ht.
Qed.

(** C27: An invitation is accepted only while it is pending and not expired, by the principal that it was sent
    to, with its current token; the acceptance creates one member who still needs the approval of an
    administrator, and whatever transactions follow, the invitation records this acceptance and is
    accepted by nobody else. *)
Theorem invitation_accepted_once `{UuidLibrary} e c d u d1 os :
  identity_wf d -> session_times (ac_Session c) -> AcceptInvitation e c d = (Ok u, d1) -> Forall timely os ->
  exists i, invitation_named c d = Some i /\ iv_Status i = InvitationPending /\ ac_Now c < iv_ExpiresAt i /\
    iv_Target i = ip_Key (ac_Principal c) /\ (ac_InvitationID c <> uuid_Nil -> iv_TokenHash i = ac_InvitationTokenHash c) /\
    id_users d !! ac_UserID c = None /\ id_users d1 = <[ac_UserID c := u]> (id_users d) /\
    u_PlatformRole u = PlatformRoleMember /\ CanUseApplication u = false /\
    id_invitations (identity_steps os d1) !! iv_ID i = Some (with_acceptance (ac_UserID c) (ac_Now c) i) /\
    forall e' c' j, invitation_named c' (identity_steps os d1) = Some j -> iv_ID j = iv_ID i ->
      (AcceptInvitation e' c' (identity_steps os d1)).1 = Err ErrInvitationInvalid.
Proof.
  intros Hw Ht E Ho. destruct (AcceptInvitation_wp _ _ _ _ _ E) as (i & Hi & Hm & Htk & Hu & Hn & Eu & Ei). exists i.
  assert (identity_wf d1) as Hw1.
  { pose proof (identity_step_good (OAcceptInvitation e c) d Ht Hw) as [Hg _]. cbn [identity_step] in Hg. by rewrite E in Hg. }
  unfold InvitationMatches, Time_Before in Hm. go_bool.
  destruct (final_invitation (iv_ID i) (with_acceptance (ac_UserID c) (ac_Now c) i) d1 os Hw1 Ho) as [Hf Hr]; [by rewrite Ei, lookup_insert_eq|done|].
  split_and!; try done; try lia; by rewrite Hu.
Qed.

(** ** The administrator and the approvals *)

(** There is at most one administrator, and once there is one, whatever transactions follow, this user is
    the administrator and nobody else becomes one. *)
Theorem single_administrator `{UuidLibrary} d os k u k' :
  identity_wf d -> Forall timely os -> id_users d !! k = Some u -> u_PlatformRole u = PlatformRoleAdmin ->
  (exists u', id_users (identity_steps os d) !! k' = Some u' /\ u_PlatformRole u' = PlatformRoleAdmin) <-> k' = k.
Proof.
  intros Hw Ho Hk Ha. destruct (identity_steps_good os d Ho Hw) as [Hw' Hev]. destruct (ev_users _ _ Hev _ _ Hk) as (v & Hv & _ & Hm & _).
  split; [intros (u' & Hu' & Ha')|intros ->; eauto]. by apply (iw_admin _ Hw' _ _ _ _ Hu' Hv); auto.
Qed.

Definition approved (k : UUID) (d : IdentityDB) : Prop := exists u, id_users d !! k = Some u /\ u_AccessStatus u = AccessStatusApproved.

Lemma preserves_map_err {X A} (g : IdentityDB -> X) f (m : IdentityM A) : preserves g m -> preserves g (st_map_err f m).
Proof. intros Hm d a d' E. apply (proj1 (st_map_err_Ok _ _ _ _ _)) in E. by apply Hm in E. Qed.
Ltac frame_op := unfold CreateAuthorizationTransaction, on_unique, ConsumeAuthorizationState, CreateInvitation, RevokeInvitation,
  RotateInvitation, changeInvitation, ExpireInvitations, RecordDelivery, BindExternalIdentity, insertExternalIdentityAndCredential,
  RefreshCredentialLocked, UpdateCredential, CreateSession, insertSession, LogoutSession, lockSession, TouchSession, RecordProviderVerification,
  RecordTokenProviderVerification, RecordProviderFailure, RevokeSession, RevokeAllSessions, revoke_sessions, StartImpersonation,
  EndImpersonation, AppendAudit, wrapped, insertAudit, invalidateInvitationAuthorizations; cbv zeta;
  repeat (framed; try apply preserves_map_err).

Section approvals.
Context `{UuidLibrary}.

(** Nobody but [k] gets the approval. *)
Definition approves_only (P : UUID -> Prop) (d d' : IdentityDB) : Prop := forall k, approved k d' -> approved k d \/ P k.

Lemma approves_users P d d' : id_users d' = id_users d -> approves_only P d d'.
Proof. intros E k (u & Hu & Ha). left. exists u. by rewrite <- E. Qed.
Lemma approves_insert P d d' k u :
  id_users d' = <[k := u]> (id_users d) -> (u_AccessStatus u = AccessStatusApproved -> approved k d \/ P k) -> approves_only P d d'.
Proof.
  intros E Hu k' (v & Hv & Ha). rewrite E in Hv. apply lookup_insert_Some in Hv as [[<- <-]|[_ Hv]]; [by apply Hu|]. left. by exists v.
Qed.
Lemma approves_frame {A} (m : IdentityM A) P d : clean m -> preserves id_users m -> approves_only P d (m d).2.
Proof.
  intros Hc Hp. destruct (m d) as [[a|e] d'] eqn:E; apply approves_users; cbn; [by apply Hp in E|by rewrite (Hc _ _ _ E)].
Qed.
Lemma approves_step {A} (m : IdentityM A) P d : clean m -> wp m d (fun _ d' => approves_only P d d') -> approves_only P d (m d).2.
Proof.
  intros Hc Hm. destruct (m d) as [[a|e] d'] eqn:E; cbn; [by eapply Hm|]. rewrite (Hc _ _ _ E). by apply approves_users.
Qed.
Lemma approves_same P k (u u' : User) d d' :
  id_users d !! k = Some u -> u_AccessStatus u' = u_AccessStatus u -> id_users d' = <[k := u']> (id_users d) -> approves_only P d d'.
Proof. intros Hk Ha E. eapply approves_insert; [done|]. intros Hu. left. exists u. split; [done|congruence]. Qed.

Lemma insert_event_users e now d : wp (insert_event e now) d (fun _ d' => id_users d' = id_users d).
Proof. unfold insert_event. wp_steps. done. Qed.

Lemma Accept_approves P e c d : wp (AcceptInvitation e c) d (fun _ d' => approves_only P d d').
Proof.
  eapply wp_mono; [apply AcceptInvitation_wp|]. intros u d' (i & _ & _ & _ & -> & _ & E & _). eapply approves_insert; [done|]. done.
Qed.
Lemma Register_approves P e v created c d : wp (RegisterAccessRequest e v created c) d (fun _ d' => approves_only P d d').
Proof.
  unfold RegisterAccessRequest, on_unique, insertAccessRequestedEvent. cbv zeta. apply wp_atomically.
  apply wp_bind, wp_map_err. eapply wp_mono; [apply insert_user_wp|]. intros [] d1 [_ E1].
  apply wp_bind, wp_map_err. eapply wp_mono; [apply insertExternal_frames|]. intros [] d2 [E2 _].
  apply wp_bind. eapply wp_mono; [apply insertSession_frames|]. intros [] d3 [E3 _].
  apply wp_bind. eapply wp_mono; [apply insertAudit_frames|]. intros [] d4 [E4 _].
  assert (forall d5, id_users d5 = id_users d4 -> approves_only P d d5) as Hend.
  { intros d5 E5. eapply (approves_insert P d d5); [rewrite E5, E4, E3, E2, E1; reflexivity|done]. }
  apply wp_bind, wp_bind, wp_get. destruct (notified_administrator d4); [apply wp_bind, wp_lift; intros ev _|by apply wp_ret, wp_ret, Hend].
  eapply wp_mono; [apply insert_event_users|]. intros [] d5 E5. by apply wp_ret, Hend.
Qed.
Lemma update_user_wp u d : wp (update_user u) d (fun _ d' => d' = on_users <[u_ID u := u]> d).
Proof. unfold update_user. wp_steps. done. Qed.
Lemma Login_approves P c d : identity_wf d -> wp (LoginExternal c) d (fun _ d' => approves_only P d d').
Proof.
  intros Hw. unfold LoginExternal, wrapped. cbv zeta. apply wp_atomically, wp_bind, wp_get, wp_bind, wp_or_err.
  intros [ex u] Hr. apply bind_Some in Hr as (ex' & He & Hr). apply bind_Some in Hr as (u' & Hu & [= <- <-]).
  apply wp_bind, wp_fail. intros _. apply wp_bind, wp_mod, wp_bind, wp_mod.
  apply wp_bind, wp_map_err. eapply wp_mono; [apply update_user_wp|]. intros [] d1 ->.
  apply wp_bind. eapply wp_mono; [apply insertSession_frames|]. intros [] d3 [E3 _].
  apply wp_bind. eapply wp_mono; [apply insertAudit_frames|]. intros [] d4 [E4 _]. apply wp_ret.
  eapply (approves_same P _ u'); [exact Hu| |rewrite E4, E3; cbn; by rewrite (iw_users _ Hw _ _ Hu)]. done.
Qed.
Lemma Bootstrap_approves e c d : identity_wf d -> wp (BootstrapAdmin e c) d (fun _ d' =>
  approves_only (fun k => k = primarySeedUserID /\ forall k v, id_users d !! k = Some v -> u_PlatformRole v <> PlatformRoleAdmin) d d').
Proof.
  intros Hw. unfold BootstrapAdmin, on_unique. cbv zeta.
  apply wp_atomically, wp_bind, wp_get, wp_bind, wp_fail. intros Hn. apply wp_bind, wp_get, wp_bind, wp_or_err. intros seed Hs.
  apply wp_bind, wp_map_err. eapply wp_mono; [apply update_user_wp|]. intros [] d1 ->.
  apply wp_bind, wp_map_err. eapply wp_mono; [apply insertExternal_frames|]. intros [] d2 [E2 _].
  apply wp_bind. eapply wp_mono; [apply insertSession_frames|]. intros [] d3 [E3 _].
  apply wp_bind. eapply wp_mono; [apply insertAudit_frames|]. intros [] d4 [E4 _]. apply wp_ret.
  eapply approves_insert; [rewrite E4, E3, E2; cbn; reflexivity|]. intros _. right. split; [by apply (iw_users _ Hw)|].
  apply no_admin. go_bool. lia.
Qed.
Lemma SetAccess_approves a e created u actor status now request d : identity_wf d ->
  wp (SetUserAccessStatus a e created u actor status now request) d (fun _ d' => approves_only (fun k => k = u /\ status = AccessStatusApproved) d d').
Proof.
  intros Hw. unfold SetUserAccessStatus, insertAccessApprovedEvent, wrapped. cbv zeta.
  apply wp_atomically, wp_bind, wp_get, wp_bind, wp_or_err. intros v Hv. apply wp_bind, wp_fail. intros _. apply wp_bind, wp_fail. intros _.
  case_bool_decide; [apply wp_ret; by apply approves_users|].
  apply wp_bind, wp_map_err. eapply wp_mono; [apply update_user_wp|]. intros [] d1 ->.
  apply wp_bind. eapply wp_mono; [apply insertAudit_frames|]. intros [] d4 [E4 _].
  assert (forall d5, id_users d5 = id_users d4 -> approves_only (fun k => k = u /\ status = AccessStatusApproved) d d5) as Hend.
  { intros d5 E5. eapply (approves_insert _ d d5); [rewrite E5, E4; cbn; reflexivity|]. cbn. intros Ha. right. split; [|done].
    by apply (iw_users _ Hw). }
  case_bool_decide; [|by apply wp_ret, Hend]. wp_steps. eapply wp_mono; [apply insert_event_users|]. intros [] d5 E5. by apply Hend.
Qed.
End approvals.

(** Nobody gets access without an administrator: a transaction after which a user is approved who was
    not approved before is a decision for this user, or makes the seed user the administrator while there
    is none; and a decision of the service is taken only by an administrator who may use the application,
    about somebody else who is not an administrator. *)
Theorem access_needs_approval `{UuidLibrary} o d k :
  timely o -> identity_wf d -> approved k (identity_step o d) ->
  (approved k d \/
   (exists a e created actor now request, o = OSetAccessStatus a e created k actor AccessStatusApproved now request) \/
   (exists e c, o = OBootstrapAdmin e c /\ k = primarySeedUserID /\
      forall k v, id_users d !! k = Some v -> u_PlatformRole v <> PlatformRoleAdmin)) /\
  (forall dr actor status request d', Service_SetUserAccessStatus dr actor k status request d = (Ok tt, d') ->
     u_PlatformRole actor = PlatformRoleAdmin /\ CanUseApplication actor = true /\
     exists target, id_users d !! k = Some target /\ u_PlatformRole target <> PlatformRoleAdmin /\ k <> u_ID actor).
Proof.
  intros Ht Hw Ha. split.
  - assert (forall P, approves_only P d (identity_step o d) -> approved k d \/ P k) as Hend by (intros P Hp; by apply Hp).
    assert (approves_only (fun _ => False) d (identity_step o d) -> approved k d) as Hno by (intros Hp; by destruct (Hp k Ha) as [|[]]).
    destruct o; cbn [identity_step] in *;
      try (left; apply Hno, approves_frame; [solve [clean_op]|solve [frame_op]]).
    + left. by apply Hno, approves_step; [clean_op|apply Accept_approves].
    + destruct (Hend _ (approves_step _ _ _ ltac:(clean_op) (Bootstrap_approves externalID c d Hw))) as [?|[-> Hn]]; [by left|].
      right; right. by eexists _, _.
    + left. by apply Hno, approves_step; [clean_op|apply Login_approves].
    + left. by apply Hno, approves_step; [clean_op|apply Register_approves].
    + left. apply Hno, approves_step; [clean_op|].
      unfold SetActive. wp_steps. eapply approves_same; [eassumption| |reflexivity]; done.
    + destruct (Hend _ (approves_step _ _ _ ltac:(clean_op) (SetAccess_approves auditID eventID created userID actorID status now requestID d Hw))) as [?|[-> ->]];
        [by left|]. right; left. by eexists _, _, _, _, _, _.
    + left. apply Hno, approves_step; [clean_op|].
      unfold DeactivateUser, revoke_sessions, insertAudit. wp_steps. eapply approves_same; [eassumption| |reflexivity]; done.
    + left. apply Hno, approves_step; [clean_op|].
      unfold ReactivateUser, insertAudit. wp_steps. eapply approves_same; [eassumption| |reflexivity]; done.
  - intros dr actor status request d'. unfold Service_SetUserAccessStatus, GetByID. intros E. st_inv. go_bool.
    match goal with Hwf : identity_wf ?x, Hk : id_users ?x !! k = Some ?t |- _ => pose proof (iw_users _ Hwf _ _ Hk); split_and!; try done; exists t; split_and!; congruence end.
Qed.

(** ** Requests *)

Section requests.
Context `{UuidLibrary}.

Lemma impersonation_roles lark key cookie now d i session row :
  identity_wf d -> accepted lark key cookie now d i session row -> IsImpersonating i = true ->
  u_PlatformRole (si_Actor i) = PlatformRoleAdmin /\ u_PlatformRole (si_Subject i) = PlatformRoleMember /\ u_ID (si_Subject i) <> u_ID (si_Actor i).
Proof.
  intros Hw [] Hi. unfold IsImpersonating in Hi. destruct (si_Impersonation i) as [m|]; [|done]. destruct ac_subject0 as (Hop & Hsub & _).
  apply find_row_Some in Hop as (Hp & k & Hk). go_bool.
  match goal with He : present (im_EndedAt m) = false |- _ => apply present_false in He; destruct (iw_open _ Hw _ _ Hk He) as (s & a & u & Hs & Hsa & Ha & Hra & Hu & Hru) end.
  assert (s = row) as -> by congruence. assert (a = si_Actor i) as -> by congruence. assert (u = si_Subject i) as -> by congruence.
  split_and!; [done..|]. rewrite (iw_users _ Hw _ _ Hsub), (iw_users _ Hw _ _ Ha). intros E. assert (PlatformRoleAdmin <> PlatformRoleMember) by done. congruence.
Qed.

(** What the session middleware has checked of a request that it lets through for [i]. *)
Definition session_allows (url_Parse : string -> option (string * string)) (base : option (string * string)) (s : Service)
    (now : Time) (d : IdentityDB) (r : GatewayRequest) (i : SessionIdentity) : Prop :=
  exists cookie session row, gr_SessionCookie r = Some cookie /\
    accepted (present (sv_lark s)) (sv_sessionSecret s) cookie now d i session row /\
    (CanUseApplication (si_Actor i) = true \/ gr_Method r = MethodGet /\ gr_Path r = "/api/me" \/
       gr_Method r = MethodPost /\ gr_Path r = "/api/auth/logout") /\
    (IsImpersonating i = true ->
       u_PlatformRole (si_Actor i) = PlatformRoleAdmin /\ u_PlatformRole (si_Subject i) = PlatformRoleMember /\ u_ID (si_Subject i) <> u_ID (si_Actor i) /\
       (gr_Method r ∈ [MethodGet; MethodHead; MethodOptions] /\ HasPrefix (gr_Path r) "/api/admin/" = false \/
        gr_Method r = MethodDelete /\ routePattern (gr_Pattern r) = "/api/admin/impersonation" \/
        gr_Method r = MethodPost /\ routePattern (gr_Pattern r) = "/api/auth/logout")) /\
    (gr_Method r ∉ [MethodGet; MethodHead; MethodOptions] ->
       sameOriginRequest url_Parse base (gr_Header r) = true /\
       HashSecret (Header_Get (gr_Header r) "X-CSRF-Token") = se_CSRFSecretHash row).

Lemma identityMiddleware_sound url_Parse base s pv dr r d caller d' :
  identity_wf d -> identityMiddleware url_Parse base s pv dr r d = (Ok (Forwarded caller), d') ->
  exists i, caller = SessionCaller i /\ session_allows url_Parse base s (dr_now dr 0) d r i.
Proof.
  intros Hw E. unfold identityMiddleware in E. destruct (gr_SessionCookie r) as [cookie|] eqn:Hck; [|done].
  destruct (Service_Authenticate s pv dr cookie d) as [[[i session]|e] d1] eqn:Ea; [|by destruct (errors_Is _ _)].
  destruct (Authenticate_wp _ _ _ _ _ _ _ Ea) as (row & Hacc). cbn [fst snd] in Hacc.
  destruct (approval_denied r i) eqn:Hd; [done|]. destruct (adminRouteDenied r i || writeDenied r i) eqn:Hi; [by destruct (writeDenied r i)|].
  destruct (methodRequiresCSRF (gr_Method r) && _) eqn:Hc; [done|]. injection E as <- <-.
  exists i. split; [done|]. exists cookie, session, row. split_and!; [done..| | |].
  - unfold approval_denied in Hd. destruct (CanUseApplication _); [by left|right]. cbn [negb andb] in Hd.
    apply andb_false_iff in Hd as [Hd|Hd]; apply negb_false_iff, andb_true_iff in Hd as [H1%bool_decide_eq_true H2%bool_decide_eq_true]; auto.
  - intros Him. destruct (impersonation_roles _ _ _ _ _ _ _ _ Hw Hacc Him) as (H1 & H2 & H3). split_and!; [done..|].
    apply orb_false_iff in Hi as [Hi1 Hi2]. unfold adminRouteDenied in Hi1. unfold writeDenied in Hi2. rewrite Him in Hi1, Hi2. cbn [andb] in Hi1, Hi2.
    apply negb_false_iff in Hi2. unfold RequestAllowedDuringImpersonation in Hi2.
    destruct (_ && _) eqn:E1 in Hi2; [go_bool; auto|]. destruct (_ && _) eqn:E2 in Hi2; [go_bool; auto|]. left.
    rewrite E1 in Hi1. cbn [negb] in Hi1. rewrite andb_true_r in Hi1. split; [|done].
    apply orb_true_iff in Hi2 as [[Hm|Hm]%orb_true_iff|Hm]; apply bool_decide_eq_true in Hm; rewrite Hm; set_solver.
  - intros Hm. assert (methodRequiresCSRF (gr_Method r) = true) as Hmc.
    { unfold methodRequiresCSRF. rewrite !bool_decide_eq_false_2 by (intros E; apply Hm; rewrite E; set_solver). done. }
    rewrite Hmc in Hc. cbn [andb] in Hc. apply orb_false_iff in Hc as [H1%negb_false_iff H2%negb_false_iff]. split; [done|].
    unfold VerifyCSRF in H2. destruct (_ == ""); [done|]. apply andb_true_iff in H2 as [_ H2%bool_decide_eq_true]. rewrite H2. apply (ac_csrf _ _ _ _ _ _ _ _ Hacc).
Qed.

(** What has been checked of a bearer credential for the user that [p] acts for. *)
Definition bearer_allows (o : RouterOptions) (authenticate : string -> result Principal) (pv : Provider) (dr : Draws) (now : Time)
    (r : GatewayRequest) (d d' : IdentityDB) (p : Principal) : Prop :=
  exists raw id, parseBearerAuthorization (TrimSpace (Header_Get (gr_Header r) "Authorization")) = Some raw /\
    authenticate raw = Ok p /\ CredentialID p = Some id /\ ld_Allowed (ro_limiter o id now) = true /\
    VerifyTokenOwner (ro_Sessions o) pv dr (pp_User p) d = (Ok tt, d').

Lemma bearer_or_session_sound url_Parse o authenticate pv dr now r rs d caller d' :
  identity_wf d -> bearer_or_session url_Parse o authenticate pv dr now r rs d = (Ok (Forwarded caller), d') ->
  (exists p, caller = BearerCaller p /\ bearer_allows o authenticate pv dr now r d d' p) \/
  TrimSpace (Header_Get (gr_Header r) "Authorization") = "" /\
    exists i, caller = SessionCaller i /\ session_allows url_Parse (ro_AppBaseURL o) (ro_Sessions o) (dr_now dr 0) d rs i.
Proof.
  intros Hw. unfold bearer_or_session, bearerAuthentication. cbv zeta. case_bool_decide as Ha.
  { intros E. right. split; [done|]. by eapply identityMiddleware_sound. }
  assert (forall e c, bearer_problem e <> Forwarded c) as Hp by (intros e c; unfold bearer_problem; by repeat case_match).
  assert (forall e, bearer_problem e <> SessionFallback) as Hf by (intros e; unfold bearer_problem; by repeat case_match).
  destruct (parseBearerAuthorization _) as [raw|] eqn:Er; [|intros E; exfalso; destruct (bearer_problem _) eqn:Eb; naive_solver].
  destruct (authenticate raw) as [q|e] eqn:Eq; [|intros E; exfalso; destruct (bearer_problem _) eqn:Eb; naive_solver].
  destruct (CredentialID q) as [id|] eqn:Ei; [|intros E; exfalso; destruct (bearer_problem _) eqn:Eb; naive_solver].
  destruct (ld_Allowed _) eqn:El; [|naive_solver].
  destruct (VerifyTokenOwner _ _ _ _ d) as [[[]|e] d1] eqn:Ev; [|intros E; exfalso; destruct (bearer_problem _) eqn:Eb; naive_solver].
  intros [= <- <-]. left. exists q. split; [done|]. by exists raw, id.
Qed.

(** The routes that log in, when they are switched on. *)
Definition login_request (o : RouterOptions) (r : GatewayRequest) (e : Endpoint) : Prop :=
  match e with
  | ToDevelopmentSession => ro_Development o = true /\ gr_Method r = MethodPost /\ gr_Path r = "/api/auth/dev/session"
  | ToLarkStart => ro_LarkEnabled o = true /\ gr_Method r ∈ [MethodGet; MethodHead] /\ gr_Path r = "/api/auth/lark/start"
  | ToLarkCallback => ro_LarkEnabled o = true /\ gr_Method r ∈ [MethodGet; MethodHead] /\ gr_Path r = "/api/auth/lark/callback"
  | ToAcceptInvitation => ro_LarkEnabled o = true /\ gr_Method r = MethodPost /\ gr_Path r = "/api/invitations/accept"
  | _ => False
  end.

(** What the router found in the path of a request that it sends to [e]. *)
Definition routed_request (o : RouterOptions) (r : GatewayRequest) (e : Endpoint) : Prop :=
  match e with
  | ToAPIv1 => take 2 (gr_Segments r) = ["api"; "v1"]
  | ToOpenAPIDocument => ro_OpenAPI o = true /\ gr_Path r = "/api/openapi.yaml"
  | ToInternal => take 2 (gr_Segments r) <> ["api"; "v1"]
  | _ => login_request o r e
  end.

Lemma Pattern_matches_exact m seg r :
  Pattern_matches (mkPattern m seg false) r = true -> method_matches m (gr_Method r) = true /\ gr_Segments r = seg.
Proof. unfold Pattern_matches. by intros [? ?%bool_decide_eq_true]%andb_true_iff. Qed.

Lemma get_matches m : method_matches (Some MethodGet) m = true -> m ∈ [MethodGet; MethodHead].
Proof.
  unfold method_matches. intros [->%bool_decide_eq_true|[_ ->%bool_decide_eq_true]%andb_true_iff]%orb_true_iff; set_solver.
Qed.

Lemma post_matches m : method_matches (Some MethodPost) m = true -> m = MethodPost.
Proof.
  unfold method_matches. rewrite (bool_decide_eq_false_2 (MethodPost = MethodGet)) by done.
  rewrite orb_false_r. by intros ?%bool_decide_eq_true.
Qed.

(** The first pattern that matches decides. *)
Lemma ServeMux_Handler_sound o r e : ServeMux_Handler (root_routes o) r = Some e -> routed_request o r e.
Proof.
  unfold ServeMux_Handler, root_routes.
  destruct (ro_Development o) eqn:Hd, (ro_LarkEnabled o) eqn:Hl, (ro_OpenAPI o) eqn:Ho; cbn [List.find app fst snd];
    repeat match goal with
    | |- context [if Pattern_matches ?p r then _ else _] => destruct (Pattern_matches p r) eqn:?
    end; intros [= <-]; cbn;
    repeat match goal with
    | Hm : Pattern_matches (mkPattern _ _ false) r = true |- _ => apply Pattern_matches_exact in Hm as [Hm ?]
    | Hm : method_matches (Some MethodPost) _ = true |- _ => apply post_matches in Hm
    | Hm : method_matches (Some MethodGet) _ = true |- _ => apply get_matches in Hm
    | Hs : gr_Segments r = _ |- _ => unfold gr_Path; rewrite Hs; clear Hs
    end; try done;
    unfold Pattern_matches in *; cbn in *; go_bool; try done;
    intros Ht; repeat match goal with Hb : _ && _ = false |- _ => apply andb_false_iff in Hb as [Hb|Hb] end; go_bool; try done;
    destruct (gr_Segments r) as [|x [|y [|z t]]]; cbn in *; try congruence; try lia.
Qed.
End requests.

(** C25: what the router has checked of a request that reaches a handler.  Either it is one of the login
    routes that are switched on, which see no caller.  Or it acts through a session: it has the cookie of a
    session that is neither revoked nor expired, whose owner is active; the owner is approved, unless the
    request asks for the own profile or logs out; an administrator who acts for a member only reads, ends
    the impersonation or logs out; and a request that may change anything comes from the origin of the
    application and carries the CSRF secret of the session.  Or it acts through a bearer credential, which
    only the API below /api/v1 and the published document accept: the header holds a credential that was
    authenticated, within its rate, whose owner the identity service has verified; the document also asks for
    the right to read. *)
Theorem gateway_sound `{UuidLibrary} url_Parse o pv dr now r d e caller d' :
  identity_wf d -> NewRouter url_Parse o pv dr now r d = (Ok (Reached e caller), d') ->
  routed_request o r e /\
  match caller with
  | None => login_request o r e
  | Some (SessionCaller i) =>
      session_allows url_Parse (ro_AppBaseURL o) (ro_Sessions o) (dr_now dr 0) d
        (match e with ToOpenAPIDocument => without_pattern r | _ => r end) i /\
      (e = ToInternal \/ (e = ToAPIv1 \/ e = ToOpenAPIDocument) /\ TrimSpace (Header_Get (gr_Header r) "Authorization") = "")
  | Some (BearerCaller p) =>
      (e = ToAPIv1 /\ bearer_allows o (ro_Bearer o) pv dr now r d d' p) \/
      (e = ToOpenAPIDocument /\ bearer_allows o (ro_Tokens o) pv dr now r d d' p /\
       (pp_Method p = AuthenticationMethodSession \/ HasScope p ScopeWorkRead = true))
  end.
Proof.
  intros Hw. unfold NewRouter. destruct (isolateBearerFromInternal r) as [g|] eqn:Hi.
  { unfold isolateBearerFromInternal in Hi. cbv zeta in Hi. case_match; [|done]. injection Hi as <-. by intros [= ]. }
  destruct (ServeMux_Handler _ _) as [e0|] eqn:He; [|by intros [= ]]. apply ServeMux_Handler_sound in He.
  destruct e0; try (by intros [= <- <- <-]).
  - intros (g & d1 & Eg & [Er <-]%St_ret_Ok)%St_bind_Ok. destruct g as [| c |]; try done. injection Er as <- <-.
    split; [done|]. apply bearer_or_session_sound in Eg as [(p & -> & Hp)|(Ha & i & -> & Hs)]; [by left|by auto|done].
  - intros (g & d1 & Eg & [Er <-]%St_ret_Ok)%St_bind_Ok. destruct g as [| c |]; try done.
    apply bearer_or_session_sound in Eg as [(p & -> & Hp)|(Ha & i & -> & Hs)]; [| |done].
    + cbn in Er. unfold RequireWorkRead, requireScope in Er. case_match eqn:Hsc; [|done]. injection Er as <- <-. split; [done|]. right.
      apply orb_true_iff in Hsc as [?%bool_decide_eq_true|?]; auto.
    + cbn in Er. injection Er as <- <-. split; [done|]. auto.
  - intros (g & d1 & Eg & [Er <-]%St_ret_Ok)%St_bind_Ok. destruct g as [| c |]; try done. injection Er as <- <-.
    split; [done|]. apply identityMiddleware_sound in Eg as (i & -> & Hs); [|done]. auto.
Qed.

(** ** Examples *)

#[local] Existing Instance binary_uuids.

Definition demo_administrator : User :=
  mkUser 1%N "Ada" (Some "ada@example.com") None PlatformRoleAdmin AccessStatusApproved [] true 0 0.
Definition demo_approved : User := mkUser 2%N "Bo" None None PlatformRoleMember AccessStatusApproved [] true 0 0.
Definition demo_applicant : User := mkUser 3%N "Cy" None None PlatformRoleMember AccessStatusPending [] true 0 0.
Definition demo_identity : IdentityDB :=
  mkIdentityDB (<[1%N := demo_administrator]> (<[2%N := demo_approved]> {[3%N := demo_applicant]})) ∅ ∅ ∅ ∅ ∅ ∅ ∅ [] ∅.
Definition demo_raw32 : string := "0123456789abcdef0123456789abcdef".
Definition demo_draws (now : Time) (first : N) : Draws :=
  mkDraws (fun _ => now) (fun n => (first + N.of_nat n)%N) (fun _ => NewOpaqueSecret (Some demo_raw32)).
Definition demo_sessions : Service := mkService "a key of the sessions" None.
Definition demo_lark : LarkConfig := mkLarkConfig "tenant" "https://app/callback" "ada@example.com" true true "https://app".
Definition demo_key : PrincipalKey := mkPrincipalKey "lark" "tenant" "dee".
Definition demo_principal : ExternalPrincipal := mkExternalPrincipal demo_key "Dee" None false None true "".
Definition demo_credential : OAuthCredential := mkOAuthCredential "a" "r" 5000000 9000000 "k".
Definition demo_provider : Provider :=
  mkProvider (fun _ _ => POk "https://lark") (fun _ => POk (demo_principal, demo_credential)) POk
    (fun _ _ => POk (mkVerificationResult VerificationValid "" "")) (fun _ _ _ => POk []) (fun _ _ => POk demo_principal) (fun _ _ => POk "sent").

Lemma demo_identity_wf : identity_wf demo_identity.
Proof.
  split; cbn; try (intros ? ? Hk; by rewrite lookup_empty in Hk); try (intros ? ? ? ? Hk; by rewrite lookup_empty in Hk).
  - unfold keyed. intros k r Hk. repeat (apply lookup_insert_Some in Hk as [[<- <-]|[_ Hk]]; [done|]). by apply lookup_singleton_Some in Hk as [<- <-].
  - intros k k' u u' Hk Hk' Ha Ha'. assert (forall k u, id_users demo_identity !! k = Some u -> u_PlatformRole u = PlatformRoleAdmin -> k = 1%N) as Hone.
    { clear. intros k u Hk Ha. cbn in Hk. apply lookup_insert_Some in Hk as [[<- <-]|[_ Hk]]; [done|].
      apply lookup_insert_Some in Hk as [[<- <-]|[_ Hk]]; [done|]. apply lookup_singleton_Some in Hk as [<- <-]. done. }
    transitivity 1%N; [by eapply Hone|symmetry; by eapply Hone].
Qed.

(** The session of the approved member. *)
Definition demo_tokens : SessionTokens := mkSessionTokens 100%N (EncodeToString demo_raw32) (EncodeToString demo_raw32).
Definition demo_logged_in : IdentityDB := (IssueSession (demo_draws 1000 100%N) 2%N "" demo_identity).2.
Definition demo_cookie : string := SessionCookieValue (sv_sessionSecret demo_sessions) demo_tokens.

Lemma demo_issue : IssueSession (demo_draws 1000 100%N) 2%N "" demo_identity = (Ok demo_tokens, demo_logged_in).
Proof. vm_compute. reflexivity. Qed.
Lemma demo_logged_in_wf : identity_wf demo_logged_in.
Proof.
  destruct (via_service_step demo_sessions (CIssueSession (demo_draws 1000 100%N) 2%N "") demo_identity) as (os & Ho & Hos).
  change demo_logged_in with (service_step demo_sessions (CIssueSession (demo_draws 1000 100%N) 2%N "") demo_identity). rewrite Hos.
  apply identity_steps_good; [done|apply demo_identity_wf].
Qed.
Definition demo_session : Session := default (mkSession 0%N 0%N "" "" 0 0 0 0 None None None None) (id_sessions demo_logged_in !! 100%N).
Lemma demo_session_stored : id_sessions demo_logged_in !! 100%N = Some demo_session.
Proof. vm_compute. reflexivity. Qed.

Lemma issued_session_works_witness :
  exists session, (Service_Authenticate demo_sessions demo_provider (demo_draws 2000 200%N) demo_cookie demo_logged_in).1 =
    Ok (mkSessionIdentity 100%N demo_approved demo_approved None, session).
Proof.
  destruct (issued_session_works (demo_draws 1000 100%N) 2%N "" demo_raw32 demo_identity demo_tokens demo_logged_in demo_identity_wf eq_refl eq_refl demo_issue)
    as [_ Hos].
  destruct (Hos [] (List.Forall_nil timely)) as (row & Hrow & Hu & Hrun). pose proof (eq_trans (eq_sym Hrow) demo_session_stored) as Er.
  injection Er as ->. apply (Hrun demo_sessions demo_provider (demo_draws 2000 200%N) demo_approved);
    [vm_compute; reflexivity|reflexivity|vm_compute; reflexivity|vm_compute; reflexivity|vm_compute; reflexivity|by left].
Defined.

Definition demo_current : SessionIdentity := mkSessionIdentity 100%N demo_approved demo_approved None.
Definition demo_logged_out : IdentityDB := (Logout (demo_draws 3000 300%N) demo_current "" demo_logged_in).2.
Lemma demo_logout : Logout (demo_draws 3000 300%N) demo_current "" demo_logged_in = (Ok tt, demo_logged_out).
Proof. vm_compute. reflexivity. Qed.
Lemma demo_cookie_parses : parseSessionCookie (sv_sessionSecret demo_sessions) demo_cookie = Ok (100%N, HashSecret (EncodeToString demo_raw32)).
Proof. apply cookie_roundtrip. reflexivity. Qed.

Lemma ended_session_rejected_witness :
  exists e, (Service_Authenticate demo_sessions demo_provider (demo_draws 4000 400%N) demo_cookie
    (identity_steps [OReactivate 2%N 1%N 3500 350%N] demo_logged_out)).1 = Err e.
Proof.
  apply (ended_session_rejected 100%N demo_session demo_logged_in demo_logged_out [OReactivate 2%N 1%N 3500 350%N] demo_sessions demo_provider
    (demo_draws 4000 400%N) demo_cookie (HashSecret (EncodeToString demo_raw32))).
  - apply demo_logged_in_wf.
  - apply demo_session_stored.
  - exact (end_logout 100%N demo_session demo_logged_in demo_logged_out (demo_draws 3000 300%N) demo_current "" eq_refl demo_logout).
  - repeat constructor.
  - apply demo_cookie_parses.
Defined.

Lemma demo_authenticated :
  Service_Authenticate demo_sessions demo_provider (demo_draws 2000 200%N) demo_cookie (identity_steps [] demo_logged_in) =
  (Ok (demo_current, demo_session), demo_logged_in).
Proof. vm_compute. reflexivity. Qed.
Lemma session_lifetime_witness :
  dr_now (demo_draws 2000 200%N) 0 < se_CreatedAt demo_session + 30 * 24 * Hour /\
  exists row', id_sessions (identity_steps [] demo_logged_in) !! 100%N = Some row' /\ dr_now (demo_draws 2000 200%N) 0 < se_LastSeenAt row' + 24 * Hour.
Proof.
  exact (session_lifetime 100%N demo_session demo_logged_in [] demo_sessions demo_provider (demo_draws 2000 200%N) demo_cookie demo_current
    demo_session demo_logged_in demo_logged_in_wf demo_session_stored (List.Forall_nil timely) demo_authenticated eq_refl).
Defined.

(** A login that the state "state" starts. *)
Definition demo_authorization : AuthorizationTransaction :=
  mkAuthorizationTransaction 50%N AuthorizationLogin (HashSecret "state") None None 600000000 None 0.
Definition demo_authorizing : IdentityDB := identity_step (OCreateAuthorization demo_authorization) demo_identity.
Lemma demo_authorizing_wf : identity_wf demo_authorizing.
Proof. exact (proj1 (identity_step_good (OCreateAuthorization demo_authorization) demo_identity I demo_identity_wf)). Qed.
Definition demo_with_lark : Service := mkService "a key of the sessions" (Some demo_lark).
Example demo_callback_works : exists tokens,
  (CompleteAuthorization demo_with_lark demo_provider (demo_draws 1000 100%N) "state" "code" "" demo_authorizing).1 = Ok tokens.
Proof. eexists. vm_compute. reflexivity. Qed.
Lemma demo_consumed : ConsumeAuthorizationState (HashSecret "state") (dr_now (demo_draws 1000 100%N) 0) demo_authorizing =
  (Ok (with_consumed 1000 demo_authorization), (ConsumeAuthorizationState (HashSecret "state") 1000 demo_authorizing).2).
Proof. vm_compute. reflexivity. Qed.
Lemma authorization_state_single_use_witness :
  let d2 := identity_steps [] (CompleteAuthorization demo_with_lark demo_provider (demo_draws 1000 100%N) "state" "code" "" demo_authorizing).2 in
  exists d3, CompleteAuthorization demo_with_lark demo_provider (demo_draws 1000 700%N) "state" "code" "" d2 = (Err ErrAuthorizationInvalid, d3) /\
    id_sessions d3 = id_sessions d2 /\ id_users d3 = id_users d2.
Proof.
  exact (authorization_state_single_use demo_with_lark demo_provider (demo_draws 1000 100%N) demo_lark "state" "code" "" demo_authorizing
    (with_consumed 1000 demo_authorization) (ConsumeAuthorizationState (HashSecret "state") 1000 demo_authorizing).2 []
    demo_with_lark demo_provider (demo_draws 1000 700%N) "code" "" demo_authorizing_wf eq_refl ltac:(discriminate) ltac:(discriminate) demo_consumed
    (List.Forall_nil timely)).
Defined.

(** An invitation of Dee. *)
Definition demo_invitation : Invitation :=
  mkInvitation 60%N demo_key "{}" (HashSecret "token") InvitationPending 1%N 700000000 None None None 0 0.
Definition demo_invited : IdentityDB :=
  identity_step (OCreateInvitation demo_invitation (mkAuditEvent 61%N "invitation_created" (Some 1%N) None (Some 60%N) None None [] 0)) demo_identity.
Lemma demo_invited_wf : identity_wf demo_invited.
Proof. exact (proj1 (identity_step_good (OCreateInvitation demo_invitation _) demo_identity I demo_identity_wf)). Qed.
Definition demo_invitee_session : Session := mkSession 101%N 70%N "" "" 1000 1000 2000 3000 None None None None.
Definition demo_acceptance : AcceptInvitationCommand :=
  mkAcceptInvitationCommand 60%N "" (HashSecret "token") demo_principal demo_credential 70%N "Dee" None None demo_invitee_session
    (mkAuditEvent 62%N "invitation_accepted" None None None (Some 101%N) None [] 1000) 1000.
Definition demo_invitee : User := invited_user 70%N "Dee" None None 1000.
Definition demo_joined : IdentityDB := (AcceptInvitation 80%N demo_acceptance demo_invited).2.
Lemma demo_join : AcceptInvitation 80%N demo_acceptance demo_invited = (Ok demo_invitee, demo_joined).
Proof. vm_compute. reflexivity. Qed.
Lemma invitation_accepted_once_witness :
  exists i, invitation_named demo_acceptance demo_invited = Some i /\
    id_invitations (identity_steps [OExpireInvitations 9000] demo_joined) !! iv_ID i = Some (with_acceptance 70%N 1000 i).
Proof.
  assert (session_times demo_invitee_session) as Ht by (by vm_compute).
  assert (Forall timely [OExpireInvitations 9000]) as Ho by (repeat constructor).
  destruct (invitation_accepted_once 80%N demo_acceptance demo_invited demo_invitee demo_joined [OExpireInvitations 9000] demo_invited_wf Ht demo_join Ho)
    as (i & Hi & _ & _ & _ & _ & _ & _ & _ & _ & Hf & _). exists i. split; [exact Hi|exact Hf].
Defined.

Lemma single_administrator_witness :
  (exists u', id_users (identity_steps [OSetActive 2%N false 10] demo_identity) !! 1%N = Some u' /\ u_PlatformRole u' = PlatformRoleAdmin) <-> 1%N = 1%N.
Proof.
  apply (single_administrator demo_identity [OSetActive 2%N false 10] 1%N demo_administrator 1%N demo_identity_wf); [repeat constructor|reflexivity|reflexivity].
Defined.

Definition demo_decision : IdentityOp := OSetAccessStatus 90%N 91%N 10 3%N 1%N AccessStatusApproved 10 "".
Lemma access_needs_approval_witness :
  approved 3%N demo_identity \/
  (exists a e created actor now request, demo_decision = OSetAccessStatus a e created 3%N actor AccessStatusApproved now request) \/
  (exists e c, demo_decision = OBootstrapAdmin e c /\ 3%N = primarySeedUserID /\
     forall k v, id_users demo_identity !! k = Some v -> u_PlatformRole v <> PlatformRoleAdmin).
Proof.
  apply (access_needs_approval demo_decision demo_identity 3%N I demo_identity_wf). eexists. split; [vm_compute; reflexivity|reflexivity].
Defined.

(** A member reads the own profile; a program reads Tasks with a token. *)
Definition demo_request : GatewayRequest := mkGatewayRequest MethodGet ["api"; "me"] ∅ (Some demo_cookie) (Some "GET /api/me") "request".
Definition demo_bearer : GatewayRequest :=
  mkGatewayRequest MethodGet ["api"; "v1"; "tasks"] {["Authorization" := ["Bearer secret"]]} None (Some "GET /api/v1/tasks") "request".
Definition demo_token_principal : Principal := mkPrincipal demo_approved AuthenticationMethodAPIToken (Some 55%N) "ci" None [ScopeWorkRead].
Definition demo_options : RouterOptions :=
  mkRouterOptions demo_sessions None false false false
    (fun raw => if raw == "secret" then Ok demo_token_principal else Err ErrTokenInvalid) (fun _ => Err ErrTokenInvalid)
    (fun _ _ => mkLimitDecision true 60 59 1).

Lemma gateway_sound_witness :
  (exists i, NewRouter (fun _ => None) demo_options demo_provider (demo_draws 2000 200%N) 2000 demo_request demo_logged_in =
       (Ok (Reached ToInternal (Some (SessionCaller i))), demo_logged_in) /\
     session_allows (fun _ => None) None demo_sessions 2000 demo_logged_in demo_request i) /\
  bearer_allows demo_options (ro_Bearer demo_options) demo_provider (demo_draws 2000 200%N) 2000 demo_bearer demo_logged_in
    demo_logged_in demo_token_principal.
Proof.
  split.
  - exists demo_current. split; [vm_compute; reflexivity|].
    refine (proj1 (proj2 (gateway_sound (fun _ => None) demo_options demo_provider (demo_draws 2000 200%N) 2000 demo_request demo_logged_in
      ToInternal (Some (SessionCaller demo_current)) demo_logged_in demo_logged_in_wf _))). vm_compute. reflexivity.
  - destruct (gateway_sound (fun _ => None) demo_options demo_provider (demo_draws 2000 200%N) 2000 demo_bearer demo_logged_in
      ToAPIv1 (Some (BearerCaller demo_token_principal)) demo_logged_in demo_logged_in_wf ltac:(vm_compute; reflexivity)) as [_ [[_ Hb]|[Hb _]]];
      [exact Hb|discriminate Hb].
Defined.
