(* ===== verification/Relay.v ===== *)
(** * The relay of the outbox and the consumers of its events

    internal/application/outbox_relay.go over the outbox store, and the consumers of internal/messaging/
    rabbitmq.go.  The broker, the JSON of events and the handler of a consumer are arguments; what a
    statement of a consumer meets when the database is away is an argument too. *)

From stdpp Require Import base tactics strings gmap list numbers sorting.
From S2P Require Import Prelude Actors State Http Events Identity.

(** ** The relay *)

(** [publish e] is the error of [Publish], [None] when the broker has confirmed the event; [clock n] is the
    time of the [n]-th statement of the loop. *)
Fixpoint publish_each (publish : Event -> option string) (clock : nat -> Time) (es : list Event) : OutboxM unit :=
  match es with
  | [] => mret tt
  | e :: es =>
      (match publish e with
       | Some message => MarkFailed (ev_ID e) (ev_AttemptCount e) message (clock 0%nat)
       | None => MarkPublished (ev_ID e) (clock 0%nat)
       end);;
      publish_each publish (fun n => clock (S n)) es
  end.
Definition PublishPending (publish : Event -> option string) (clock : nat -> Time) (locked : gset UUID) : OutboxM unit :=
  es ← ClaimBatch 50 (clock 0%nat) locked;
  publish_each publish (fun n => clock (S n)) es.

(** ** Deliveries *)

Definition NoopQueue : string := "pactline.notifications.noop".
Definition LarkDMQueue : string := "pactline.notifications.lark_dm".
Definition NoopConsumer : string := "pactline.notifications.noop.v1".
Definition LarkDMConsumer : string := "pactline.notifications.lark_dm.v1".
Definition maxDeliveryTries : Z := 5.

(** The x-death header is a list of tables, in which other values are [None]: the queue and the count. *)
Record Delivery := mkDelivery {
  dv_MessageId : string;
  dv_Type : string;
  dv_Body : string;
  dv_deaths : option (list (option (string * option Z)));
}.
(** What becomes of a delivery: acknowledged, rejected (back to the queue or to its dead-letter exchange),
    published to the dead exchange and acknowledged; or the consumer stops with an error. *)
Inductive Disposition :=
| Acked
| Nacked (requeue : bool)
| DeadLettered
| Stopped.

Definition deliveryAttempt (delivery : Delivery) : Z :=
  match dv_deaths delivery with
  | None => 0
  | Some deaths =>
      foldl (fun attempts raw =>
        match raw with
        | Some (queue, Some count) => if (queue == LarkDMQueue) && (attempts <? count) then count else attempts
        | _ => attempts
        end) 0 deaths
  end.

(** The category that an error of the handler carries, if any. *)
Definition retryableDelivery (category : option ProviderErrorCategory) : bool :=
  match category with
  | None => true
  | Some c => (c == ProviderRateLimited) || (c == ProviderUnavailable)
  end.

Section consumers.
Context `{UuidLibrary} (json_Unmarshal : string -> option Event).

Definition decodeDelivery (delivery : Delivery) : result Event :=
  e ← (match json_Unmarshal (dv_Body delivery) with Some e => Ok e | None => Err ErrOther end);
  Event_Validate e;;
  fail_if ((dv_MessageId delivery != uuid_String (ev_ID e)) || (dv_Type delivery != ev_Type e)) ErrOther;;
  Ok e.

(** What a delivery meets: outages of the database at its two statements, the answer of the broker to a
    dead letter, whether the channel takes the acknowledgement or rejection, the result of the handler, and
    what other transactions do before the delivery and while it is under way (other deliveries of the same
    event among them). *)
Record Circumstances := mkCircumstances {
  cu_check_fails : bool;
  cu_record_fails : bool;
  cu_confirmed : bool;
  cu_settles : bool;
  cu_handle : Event -> option (option ProviderErrorCategory);
  cu_before : OutboxDB -> OutboxDB;
  cu_during : OutboxDB -> OutboxDB;
}.

(** An acknowledgement or a rejection; when the channel does not take it the consumer stops. *)
Definition settled_as (c : Circumstances) (disposition : Disposition) : Disposition :=
  if cu_settles c then disposition else Stopped.

(** The dead letter is acknowledged after the broker has confirmed it. *)
Definition deadLetter (c : Circumstances) : Disposition :=
  if cu_confirmed c then settled_as c DeadLettered else Stopped.

(** What the handler did. *)
Inductive Handling :=
| NotHandled
| Handled
| HandlerFailed (category : option ProviderErrorCategory).

(** One round of [ConsumeLarkDM], with what the handler did. *)
Definition ConsumeLarkDM (c : Circumstances) (delivery : Delivery) : OutboxM (Disposition * Handling) :=
  match decodeDelivery delivery with
  | Err _ => mret (deadLetter c, NotHandled)
  | Ok event =>
      if cu_check_fails c then mret (settled_as c (Nacked false), NotHandled)
      else
        consumed ← WasConsumed LarkDMConsumer (ev_ID event);
        if consumed : bool then mret (settled_as c Acked, NotHandled)
        else
          _ ← st_mod (cu_during c);
          match cu_handle c event with
          | Some category =>
              let attempt := deliveryAttempt delivery + 1 in
              if retryableDelivery category && (attempt <? maxDeliveryTries)
              then mret (settled_as c (Nacked false), HandlerFailed category)
              else mret (deadLetter c, HandlerFailed category)
          | None =>
              if cu_record_fails c then mret (settled_as c (Nacked false), Handled)
              else
                _ ← MarkConsumed LarkDMConsumer (ev_ID event);
                mret (settled_as c Acked, Handled)
          end
  end.

(** One round of [ConsumeNoop]; the second part says whether this is the first delivery. *)
Definition ConsumeNoop (c : Circumstances) (delivery : Delivery) : OutboxM (Disposition * bool) :=
  match decodeDelivery delivery with
  | Err _ => mret (settled_as c (Nacked false), false)
  | Ok event =>
      if cu_record_fails c then mret (settled_as c (Nacked true), false)
      else
        first ← ConsumeOnce NoopConsumer (ev_ID event);
        mret (settled_as c Acked, first)
  end.

(** ** The life of a message

    The queue of the direct messages gives rejected messages to the retry exchange, whose queue gives them
    back to the events after 30 seconds ([declareTopology]).  What the broker does to a message on that way
    is the class [Broker]: the content stays, and the count of rejections in the x-death header grows by
    one.  A message whose consumer stopped is delivered again as it was. *)

Class Broker := {
  redeliver : Delivery -> Delivery;
  redeliver_content m : dv_MessageId (redeliver m) = dv_MessageId m /\ dv_Type (redeliver m) = dv_Type m /\
    dv_Body (redeliver m) = dv_Body m;
  redeliver_attempt m : deliveryAttempt (redeliver m) = deliveryAttempt m + 1;
}.

(** The rounds of a message until it leaves the queue, one per element of [cs]. *)
Fixpoint message_life `{Broker} (cs : list Circumstances) (delivery : Delivery) : OutboxM (list (Disposition * Handling)) :=
  match cs with
  | [] => mret []
  | c :: cs =>
      _ ← st_mod (cu_before c);
      round ← ConsumeLarkDM c delivery;
      rounds ← (match round.1 with
                | Acked | DeadLettered => mret []
                | Nacked _ => message_life cs (redeliver delivery)
                | Stopped => message_life cs delivery
                end);
      mret (round :: rounds)
  end.
End consumers.
