(* ===== verification/RelayProperties.v ===== *)
(** * Properties of the outbox

    However many relays run, whatever fails and whichever of them dies in between: no event is lost or
    altered, an event counts as published only when the broker has confirmed it, an unpublished event is
    due again within five minutes, and the consumer of direct messages hands an event to its handler at
    most until it is recorded. *)

From stdpp Require Import base tactics strings gmap list numbers sorting.
From S2P Require Import Prelude Actors State Http Events Identity Relay.

(** ** Relays that run side by side *)

(** A relay between two statements: the events of its batch that are left, the first of which the broker may
    have confirmed. *)
Inductive Worker :=
| Publishing (es : list Event)
| Confirmed (e : Event) (es : list Event).

Record RelayState := mkRelayState {
  rs_db : OutboxDB;
  rs_broker : list Event;
  rs_workers : gmap nat Worker;
  rs_now : Time;
}.

(** The statements of [PublishPending], of the writers and of the consumers.  A publication may reach the
    broker although its confirmation is lost, and a relay may stop at any point. *)
Inductive relay_step : RelayState -> RelayState -> Prop :=
| step_enqueue d d' b ws now e : Enqueue e now d = (Ok tt, d') -> relay_step (mkRelayState d b ws now) (mkRelayState d' b ws now)
| step_claim d d' b ws now w locked es : ws !! w = None -> ClaimBatch 50 now locked d = (Ok es, d') ->
    relay_step (mkRelayState d b ws now) (mkRelayState d' b (<[w := Publishing es]> ws) now)
| step_confirm d b ws now w e es : ws !! w = Some (Publishing (e :: es)) ->
    relay_step (mkRelayState d b ws now) (mkRelayState d (b ++ [e]) (<[w := Confirmed e es]> ws) now)
| step_unconfirmed d b ws now w e es : ws !! w = Some (Publishing (e :: es)) ->
    relay_step (mkRelayState d b ws now) (mkRelayState d (b ++ [e]) ws now)
| step_mark d d' b ws now w e es : ws !! w = Some (Confirmed e es) -> MarkPublished (ev_ID e) now d = (Ok tt, d') ->
    relay_step (mkRelayState d b ws now) (mkRelayState d' b (<[w := Publishing es]> ws) now)
| step_fail d d' b ws now w e es message : ws !! w = Some (Publishing (e :: es)) ->
    MarkFailed (ev_ID e) (ev_AttemptCount e) message now d = (Ok tt, d') ->
    relay_step (mkRelayState d b ws now) (mkRelayState d' b (<[w := Publishing es]> ws) now)
| step_stop d b ws now w : relay_step (mkRelayState d b ws now) (mkRelayState d b (delete w ws) now)
| step_consume d d' b ws now consumer id first : MarkConsumed consumer id d = (Ok first, d') ->
    relay_step (mkRelayState d b ws now) (mkRelayState d' b ws now)
| step_clock d b ws now now' : now <= now' -> relay_step (mkRelayState d b ws now) (mkRelayState d b ws now').

Definition relay_steps : RelayState -> RelayState -> Prop := rtc relay_step.

(** The same event, however often it was tried. *)
Definition same_event (a b : Event) : Prop :=
  ev_ID a = ev_ID b /\ ev_AggregateType a = ev_AggregateType b /\ ev_AggregateID a = ev_AggregateID b /\ ev_Type a = ev_Type b /\
  ev_RecipientID a = ev_RecipientID b /\ ev_Payload a = ev_Payload b /\ ev_DedupeKey a = ev_DedupeKey b /\ ev_CreatedAt a = ev_CreatedAt b.

(** A batch holds events of the table. *)
Definition stored (d : OutboxDB) (e : Event) : Prop := exists r, ob_events d !! ev_ID e = Some r /\ same_event e (or_event r).
Definition worker_events (w : Worker) : list Event := match w with Publishing es => es | Confirmed e es => e :: es end.

Record relay_wf (s : RelayState) : Prop := {
  rw_key k r : ob_events (rs_db s) !! k = Some r -> ev_ID (or_event r) = k;
  rw_batch w x e : rs_workers s !! w = Some x -> e ∈ worker_events x -> stored (rs_db s) e;
  rw_confirmed w e es : rs_workers s !! w = Some (Confirmed e es) -> e ∈ rs_broker s;
  rw_published k r : ob_events (rs_db s) !! k = Some r -> or_status r = OutboxEventPublished ->
    exists e, e ∈ rs_broker s /\ same_event e (or_event r);
  rw_due k r : ob_events (rs_db s) !! k = Some r -> or_next_attempt_at r <= rs_now s + 5 * 60 * 1000000;
  rw_status k r : ob_events (rs_db s) !! k = Some r -> or_status r ∈ [OutboxEventPending; OutboxEventPublishing; OutboxEventPublished];
}.

(** Every event of the table stays, as it is. *)
Definition outbox_keeps (d d' : OutboxDB) : Prop :=
  forall k r, ob_events d !! k = Some r -> exists r', ob_events d' !! k = Some r' /\ or_event r' = or_event r.

#[global] Instance outbox_keeps_preorder : PreOrder outbox_keeps.
Proof.
  split; [intros d k r Hk; eauto|]. intros d1 d2 d3 H1 H2 k r Hk. destruct (H1 _ _ Hk) as (r1 & Hk1 & E1).
  destruct (H2 _ _ Hk1) as (r2 & Hk2 & E2). exists r2. split; [done|congruence].
Qed.
Lemma same_event_refl e : same_event e e.
Proof. by split_and!. Qed.
Lemma stored_mono d d' e : outbox_keeps d d' -> stored d e -> stored d' e.
Proof. intros Hk (r & Hr & Hs). destruct (Hk _ _ Hr) as (r' & Hr' & E). exists r'. split; [done|by rewrite E]. Qed.

(** A statement that updates rows of the table: it keeps events, and what it makes of a row is confirmed and
    due within five minutes. *)
Lemma relay_wf_update d d' b ws now :
  relay_wf (mkRelayState d b ws now) -> outbox_keeps d d' ->
  (forall k r', ob_events d' !! k = Some r' -> ob_events d !! k = Some r' \/
     ev_ID (or_event r') = k /\ or_next_attempt_at r' <= now + 5 * 60 * 1000000 /\
     or_status r' ∈ [OutboxEventPending; OutboxEventPublishing; OutboxEventPublished] /\
     (or_status r' = OutboxEventPublished -> exists e, e ∈ b /\ same_event e (or_event r'))) ->
  relay_wf (mkRelayState d' b ws now).
Proof.
  intros [] Hk Hr. split; cbn -[Z.mul Z.add] in *.
  - intros k r Hkr. destruct (Hr _ _ Hkr) as [?|[? _]]; eauto.
  - intros w x e Hw He. eapply stored_mono; eauto.
  - eauto.
  - intros k r Hkr Hp. destruct (Hr _ _ Hkr) as [?|(_ & _ & _ & Hb)]; eauto.
  - intros k r Hkr. destruct (Hr _ _ Hkr) as [?|(_ & Hb & _)]; eauto.
  - intros k r Hkr. destruct (Hr _ _ Hkr) as [?|(_ & _ & Hb & _)]; eauto.
Qed.
Lemma relay_wf_worker d b ws now w x :
  relay_wf (mkRelayState d b ws now) -> (forall e, e ∈ worker_events x -> stored d e) ->
  (forall e es, x = Confirmed e es -> e ∈ b) -> relay_wf (mkRelayState d b (<[w := x]> ws) now).
Proof.
  intros [] Hx Hc. split; cbn -[Z.mul Z.add] in *; try eauto.
  - intros w' x' e [[<- <-]|[_ Hw]]%lookup_insert_Some He; eauto.
  - intros w' e es [[<- ->]|[_ Hw]]%lookup_insert_Some; eauto.
Qed.
Lemma relay_wf_broker d b e ws now : relay_wf (mkRelayState d b ws now) -> relay_wf (mkRelayState d (b ++ [e]) ws now).
Proof.
  intros []. split; cbn -[Z.mul Z.add] in *; try eauto.
  - intros w e' es Hw. apply elem_of_app. left. eauto.
  - intros k r Hk Hp. destruct (rw_published0 _ _ Hk Hp) as (e' & He & Hs). exists e'. split; [apply elem_of_app; by left|done].
Qed.

(** ** Statements *)

Lemma Enqueue_rows e now d d' : Enqueue e now d = (Ok tt, d') ->
  ob_events d' = ob_events d \/ ob_events d !! ev_ID e = None /\ ob_events d' = <[ev_ID e := mkOutboxRow e OutboxEventPending 0 now None None]> (ob_events d).
Proof.
  unfold Enqueue. intros E. st_inv. cbn. match goal with Hi : insertEvent _ _ _ _ = Ok _ |- _ => unfold insertEvent in Hi; rename Hi into Hins end.
  destruct (Event_Validate e); [|done]. cbn -[bool_decide outbox_checks] in Hins. destruct (negb (outbox_checks e)); [done|]. cbn -[bool_decide] in Hins.
  case_bool_decide as Hd; [|rewrite andb_false_r in Hins; cbn in Hins; injection Hins as <-; by left].
  rewrite andb_true_r in Hins. destruct (present _) eqn:Hp; [done|]. apply present_false in Hp. cbn -[bool_decide] in Hins.
  destruct (negb _); [done|]. cbn in Hins. injection Hins as <-. by right.
Qed.

Definition claimed_table (now : Time) (rows : list OutboxRow) (t : Outbox) : Outbox :=
  foldr (fun r t => <[ev_ID (or_event r) := claimed_event now r]> t) t rows.
Lemma claimed_table_cons now r rows t : claimed_table now (r :: rows) t = <[ev_ID (or_event r) := claimed_event now r]> (claimed_table now rows t).
Proof. done. Qed.
Lemma claimed_table_lookup now rows t k r' : claimed_table now rows t !! k = Some r' ->
  t !! k = Some r' \/ exists r, r ∈ rows /\ ev_ID (or_event r) = k /\ r' = claimed_event now r.
Proof.
  induction rows as [|r rows IH]; cbn; [by left|]. intros [[<- <-]|[_ Hk]]%lookup_insert_Some; [right; exists r; set_solver|].
  destruct (IH Hk) as [?|(r0 & ? & ?)]; [by left|right; exists r0; set_solver].
Qed.
Lemma claimed_table_keeps now rows t k : is_Some (t !! k) -> is_Some (claimed_table now rows t !! k).
Proof.
  intros Hk. induction rows as [|r rows IH]; [done|]. rewrite claimed_table_cons. apply lookup_insert_is_Some'. auto.
Qed.
Lemma claimed_table_row now rows t r : r ∈ rows -> NoDup ((fun r => ev_ID (or_event r)) <$> rows) ->
  claimed_table now rows t !! ev_ID (or_event r) = Some (claimed_event now r).
Proof.
  induction rows as [|r0 rows IH]; [by intros ?%elem_of_nil|]. rewrite claimed_table_cons. intros [->|Hr]%elem_of_cons [Hn Hd]%NoDup_cons; [apply lookup_insert_eq|].
  etransitivity; [apply lookup_insert_ne|by apply IH]. intros E. apply Hn. rewrite E. by apply (list_elem_of_fmap_2 (fun r => ev_ID (or_event r))).
Qed.

Lemma candidates_rows now locked limit t r : r ∈ candidates now locked limit t -> claimable_event now locked r = true /\ exists k, t !! k = Some r.
Proof.
  unfold candidates. intros Hr. apply (subseteq_take (Z.to_nat limit)) in Hr. rewrite merge_sort_Permutation in Hr.
  apply list_elem_of_filter in Hr as [Hc Hr]. split; [done|]. apply list_elem_of_fmap in Hr as ([k x] & -> & Hk). exists k. by apply elem_of_map_to_list.
Qed.

Lemma ClaimBatch_wp limit now locked d : wp (ClaimBatch limit now locked) d (fun es d' =>
  let rows := candidates now locked (if (limit <? 1) || (200 <? limit) then 50 else limit) (ob_events d) in
  es = (fun r => scanned_event (claimed_event now r)) <$> rows /\ d' = set_events (claimed_table now rows (ob_events d)) d).
Proof. unfold ClaimBatch. wp_steps. done. Qed.

Lemma claim_keeps now rows d : (forall k r, ob_events d !! k = Some r -> ev_ID (or_event r) = k) ->
  (forall r, r ∈ rows -> exists k, ob_events d !! k = Some r) -> outbox_keeps d (set_events (claimed_table now rows (ob_events d)) d).
Proof.
  intros Hkey Hrows k r Hk. destruct (claimed_table_keeps now rows (ob_events d) k) as [r' Hr']; [eauto|]. exists r'. split; [done|].
  apply claimed_table_lookup in Hr' as [?|(r0 & Hr0 & E0 & ->)]; [congruence|]. destruct (Hrows _ Hr0) as [k0 Hk0].
  rewrite (Hkey _ _ Hk0) in E0. cbn. congruence.
Qed.
Lemma scanned_same now r : same_event (scanned_event (claimed_event now r)) (or_event r).
Proof. by split_and!. Qed.

Lemma keeps_insert d k r r' : ob_events d !! k = Some r -> or_event r' = or_event r -> outbox_keeps d (set_events (<[k := r']> (ob_events d)) d).
Proof.
  intros Hk E k1 r1 Hk1. destruct (decide (k1 = k)) as [->|Hne].
  - exists r'. cbn. rewrite lookup_insert_eq. split; [done|congruence].
  - exists r1. cbn. by rewrite lookup_insert_ne.
Qed.
Lemma keeps_same d d' : ob_events d' = ob_events d -> outbox_keeps d d'.
Proof. intros E k r Hk. exists r. by rewrite E. Qed.

Lemma relay_step_wf s s' : relay_step s s' -> relay_wf s -> relay_wf s' /\ outbox_keeps (rs_db s) (rs_db s').
Proof.
  intros Hstep Hw. destruct Hstep as [d d' b ws now e E|d d' b ws now w locked es Hn E|d b ws now w e es Hwk|d b ws now w e es Hwk|d d' b ws now w e es Hwk E
    |d d' b ws now w e es message Hwk E|d b ws now w|d d' b ws now consumer id first E|d b ws now now' Hle]; cbn [rs_db].
  - destruct (Enqueue_rows _ _ _ _ E) as [Er|[Hn Er]].
    + split; [apply (relay_wf_update d); [done|by apply keeps_same|]; intros k r; rewrite Er; by left|by apply keeps_same].
    + assert (outbox_keeps d d') as Hk. { intros k r Hk. exists r. rewrite Er, lookup_insert_ne by congruence. done. }
      split; [apply (relay_wf_update d); [done|done|]|done].
      intros k r'. rewrite Er. intros [[<- <-]|[_ Hkr]]%lookup_insert_Some; [right|by left]. cbn -[Z.mul Z.add]. split_and!; [done|lia|set_solver|done].
  - destruct (ClaimBatch_wp _ _ _ _ _ _ E) as [-> ->]. set (rows := candidates _ _ _ _).
    assert (forall r, r ∈ rows -> exists k, ob_events d !! k = Some r) as Hrows by (intros r Hr; by apply candidates_rows in Hr as [_ ?]).
    pose proof (claim_keeps now rows d (rw_key _ Hw) Hrows) as Hk. split; [|done]. apply relay_wf_worker; [| |done].
    + apply (relay_wf_update d); [done|done|]. intros k r' Hr'. apply claimed_table_lookup in Hr' as [?|(r & Hr & <- & ->)]; [by left|right].
      unfold PublishLease. cbn -[Z.mul Z.add]. unfold PublishLease. split_and!; [done|lia|set_solver|done].
    + cbn. intros e (r & -> & Hr)%list_elem_of_fmap. eapply stored_mono; [exact Hk|]. destruct (Hrows _ Hr) as [k Hkr]. exists r.
      cbn. rewrite (rw_key _ Hw _ _ Hkr). split; [done|apply scanned_same].
  - split; [|done]. apply relay_wf_worker; [by apply relay_wf_broker| |].
    + intros e' He. eapply (rw_batch _ Hw); [exact Hwk|exact He].
    + intros e' es' [= <- <-]. set_solver.
  - split; [|done]. by apply relay_wf_broker.
  - unfold MarkPublished in E. st_inv.
    match goal with Hr : ob_events _ !! ev_ID e = Some ?x |- _ => rename x into r; rename Hr into Hrow end.
    destruct (rw_batch _ Hw w _ e Hwk ltac:(set_solver)) as (r1 & Hr1 & Hs). cbn in Hr1. rewrite Hrow in Hr1. injection Hr1 as <-.
    pose proof (keeps_insert _ _ r (published_event now r) Hrow eq_refl) as Hk. split; [|done].
    apply relay_wf_worker; [|intros e' He; eapply stored_mono; [done|]; eapply (rw_batch _ Hw); [exact Hwk|set_solver]|done].
    eapply relay_wf_update; [exact Hw|done|]. cbn -[Z.mul Z.add]. intros k r' [[<- <-]|[_ Hkr]]%lookup_insert_Some; [right|by left].
    cbn -[Z.mul Z.add]. split_and!; [by apply (rw_key _ Hw) in Hrow|by apply (rw_due _ Hw) in Hrow|set_solver|].
    intros _. exists e. split; [by apply (rw_confirmed _ Hw) in Hwk|done].
  - unfold MarkFailed in E. st_inv.
    destruct (rw_batch _ Hw w _ e Hwk ltac:(set_solver)) as (r & Hrow & Hs). cbn in Hrow.
    cbn. rewrite Hrow. pose proof (keeps_insert _ _ r (failed_event now (ev_AttemptCount e) message r) Hrow eq_refl) as Hk. split; [|done].
    apply relay_wf_worker; [|intros e' He; eapply stored_mono; [done|]; eapply (rw_batch _ Hw); [exact Hwk|set_solver]|done].
    eapply relay_wf_update; [exact Hw|done|]. cbn -[Z.mul Z.add]. intros k r' [[<- <-]|[_ Hkr]]%lookup_insert_Some; [right|by left].
    cbn -[Z.mul Z.add failure_delay]. split_and!; [by apply (rw_key _ Hw) in Hrow|unfold failure_delay; lia|set_solver|done].
  - split; [|done]. destruct Hw. split; cbn -[Z.mul Z.add] in *; try eauto.
    + intros w' x e [_ Hwk]%lookup_delete_Some He. eauto.
    + intros w' e es [_ Hwk]%lookup_delete_Some. eauto.
  - unfold MarkConsumed in E. st_inv. split; [|by apply keeps_same]. eapply relay_wf_update; [exact Hw|by apply keeps_same|]. intros k r Hkr. by left.
  - split; [|done]. destruct Hw. split; cbn -[Z.mul Z.add] in *; try eauto. intros k r Hk. specialize (rw_due0 _ _ Hk). lia.
Qed.

(** ** Reliability *)

Lemma relay_steps_wf s s' : relay_steps s s' -> relay_wf s -> relay_wf s' /\ outbox_keeps (rs_db s) (rs_db s').
Proof.
  intros Hs Hw. induction Hs as [s|s s1 s' H1 _ IH]; [by split|]. destruct (relay_step_wf _ _ H1 Hw) as [Hw1 Hk1].
  destruct (IH Hw1) as [Hw' Hk']. split; [done|]. by etransitivity.
Qed.

(** C28: No event of the outbox is lost or altered, whatever writers, relays and consumers do, however their
    statements interleave and wherever a relay stops: it stays in the table as it was written; it counts as
    published only when the broker has got this very event; and otherwise a relay can claim it again five
    minutes later at the latest. *)
Theorem outbox_reliable s s' k r :
  relay_wf s -> relay_steps s s' -> ob_events (rs_db s) !! k = Some r ->
  exists r', ob_events (rs_db s') !! k = Some r' /\ or_event r' = or_event r /\
    (or_status r' = OutboxEventPublished /\ (exists e, e ∈ rs_broker s' /\ same_event e (or_event r)) \/
     forall now, rs_now s' + 5 * 60 * 1000000 <= now -> claimable_event now ∅ r' = true).
Proof.
  intros Hw Hs Hk. destruct (relay_steps_wf _ _ Hs Hw) as [Hw' Hkeep]. destruct (Hkeep _ _ Hk) as (r' & Hk' & E). exists r'. split_and!; [done..|].
  destruct (decide (or_status r' = OutboxEventPublished)) as [Hp|Hp].
  - left. split; [done|]. rewrite <- E. by eapply rw_published.
  - right. intros now Hn. pose proof (rw_due _ Hw' _ _ Hk') as Hd. unfold claimable_event.
    replace (or_next_attempt_at r' <=? now) with true by (symmetry; lia). rewrite (bool_decide_eq_false_2 (_ ∈ ∅)) by set_solver.
    pose proof (rw_status _ Hw' _ _ Hk') as Hst. apply elem_of_cons in Hst as [Es|[Es|[Es|Es%elem_of_nil]%elem_of_cons]%elem_of_cons];
      [by rewrite Es..|done|done].
Qed.

(** ** A round of the relay *)

(** What becomes of the row of a claimed event. *)
Definition settled (answer : option string) (now : Time) (e : Event) (r : OutboxRow) : OutboxRow :=
  match answer with None => published_event now r | Some message => failed_event now (ev_AttemptCount e) message r end.

Lemma publish_one publish now e d r : ob_events d !! ev_ID e = Some r ->
  (match publish e with Some message => MarkFailed (ev_ID e) (ev_AttemptCount e) message now | None => MarkPublished (ev_ID e) now end) d =
  (Ok tt, set_events (<[ev_ID e := settled (publish e) now e r]> (ob_events d)) d).
Proof.
  intros Hr. destruct (publish e); unfold MarkFailed, MarkPublished, st_mod, mbind, St_bind, st_get; [by rewrite Hr|]. rewrite Hr. reflexivity.
Qed.

Lemma publish_each_run publish es : forall clock d, NoDup (ev_ID <$> es) -> (forall e, e ∈ es -> is_Some (ob_events d !! ev_ID e)) ->
  exists d', publish_each publish clock es d = (Ok tt, d') /\ forall k r, ob_events d !! k = Some r ->
    ((k ∉ ev_ID <$> es) -> ob_events d' !! k = Some r) /\
    (forall e, e ∈ es -> ev_ID e = k -> exists n, ob_events d' !! k = Some (settled (publish e) (clock n) e r)).
Proof.
  induction es as [|e es IH]; intros clock d Hd Hs; cbn [publish_each].
  { exists d. split; [done|]. intros k r Hk. split; [done|]. by intros e ?%elem_of_nil. }
  apply NoDup_cons in Hd as [Hn Hd]. destruct (Hs e ltac:(set_solver)) as [r0 Hr0].
  unfold mbind at 1, St_bind at 1. rewrite (publish_one publish (clock 0%nat) e d r0 Hr0).
  set (d1 := set_events _ d). destruct (IH (fun n => clock (S n)) d1 Hd) as (d' & E & Hd').
  { intros e' He. unfold d1. cbn. apply lookup_insert_is_Some'. right. apply Hs. set_solver. }
  exists d'. split; [exact E|]. intros k r Hk. destruct (decide (ev_ID e = k)) as [<-|Hne].
  - rewrite Hr0 in Hk. injection Hk as <-. split; [set_solver|]. intros e' [->|He]%elem_of_cons Ek.
    + exists 0%nat. destruct (Hd' (ev_ID e) (settled (publish e) (clock 0%nat) e r0)) as [Hu _]; [unfold d1; cbn; apply lookup_insert_eq|]. by apply Hu.
    + exfalso. apply Hn. rewrite <- Ek. by apply (list_elem_of_fmap_2 ev_ID).
  - destruct (Hd' k r) as [Hu Hr]; [unfold d1; cbn; by rewrite lookup_insert_ne|]. split; [set_solver|].
    intros e' [->|He]%elem_of_cons Ek; [done|]. destruct (Hr e' He Ek) as [n Hn']. by exists (S n).
Qed.

Section round.
Context (d : OutboxDB) (Hkey : forall k r, ob_events d !! k = Some r -> ev_ID (or_event r) = k).

Lemma candidates_NoDup now locked limit : NoDup ((fun r => ev_ID (or_event r)) <$> candidates now locked limit (ob_events d)).
Proof using Hkey.
  unfold candidates. eapply sublist_NoDup; [|apply fmap_sublist, sublist_take]. rewrite merge_sort_Permutation.
  eapply sublist_NoDup; [|apply fmap_sublist, sublist_filter]. rewrite <- list_fmap_compose.
  assert (((fun r => ev_ID (or_event r)) ∘ snd) <$> map_to_list (ob_events d) = fst <$> map_to_list (ob_events d)) as ->.
  { apply list_fmap_ext. intros i [k r] Hi. cbn. apply Hkey. apply elem_of_map_to_list. by eapply list_elem_of_lookup_2. }
  apply NoDup_fst_map_to_list.
Qed.
End round.

(** C29: One round of the relay settles exactly the first fifty due events that no other relay holds, oldest
    first: an event that the broker confirmed is published, one that it refused is pending again after a
    delay that doubles with every attempt up to five minutes, and every other row is as it was. *)
Theorem relay_round publish clock locked d :
  (forall k r, ob_events d !! k = Some r -> ev_ID (or_event r) = k) ->
  (forall r, r ∈ candidates (clock 0%nat) locked 50 (ob_events d) -> or_attempt_count r < MaxInt32) ->
  exists d', PublishPending publish clock locked d = (Ok tt, d') /\
    forall k r, ob_events d !! k = Some r ->
      let e := scanned_event (claimed_event (clock 0%nat) r) in
      (r ∉ candidates (clock 0%nat) locked 50 (ob_events d) -> ob_events d' !! k = Some r) /\
      (r ∈ candidates (clock 0%nat) locked 50 (ob_events d) -> exists n r', ob_events d' !! k = Some r' /\ or_event r' = or_event r /\
         or_attempt_count r' = or_attempt_count r + 1 /\
         match publish e with
         | None => or_status r' = OutboxEventPublished /\ or_published_at r' = Some (clock n)
         | Some _ => or_status r' = OutboxEventPending /\
             or_next_attempt_at r' = clock n + Z.min (1000000 * 2 ^ Z.min (or_attempt_count r + 1) 8) (5 * 60 * 1000000)
         end).
Proof.
  intros Hkey Hc. set (rows := candidates (clock 0%nat) locked 50 (ob_events d)) in *. set (now := clock 0%nat) in *.
  pose proof (candidates_NoDup d Hkey now locked 50) as Hnd. fold rows in Hnd.
  assert (forall r, r ∈ rows -> ob_events d !! ev_ID (or_event r) = Some r) as Hrows.
  { intros r Hr. apply candidates_rows in Hr as [_ [k Hk]]. by rewrite (Hkey _ _ Hk). }
  set (es := (fun r => scanned_event (claimed_event now r)) <$> rows).
  assert (ev_ID <$> es = (fun r => ev_ID (or_event r)) <$> rows) as Eids by (unfold es; by rewrite <- list_fmap_compose).
  set (d1 := set_events (claimed_table now rows (ob_events d)) d).
  assert (ClaimBatch 50 now locked d = (Ok es, d1)) as Hclaim.
  { unfold ClaimBatch. cbn [orb Z.ltb Z.compare Pos.compare Pos.compare_cont]. unfold mbind, St_bind, st_get. fold rows.
    assert (existsb (fun r => or_attempt_count r =? MaxInt32) rows = false) as ->; [|done].
    apply not_true_is_false. intros (r & Hr & Hm)%existsb_exists. apply list_elem_of_In in Hr. specialize (Hc r Hr). lia. }
  destruct (publish_each_run publish es (fun n => clock (S n)) d1) as (d' & E & Hd').
  { by rewrite Eids. }
  { intros e (r & -> & Hr)%list_elem_of_fmap. unfold d1. cbn. rewrite claimed_table_row by done. eauto. }
  exists d'. split; [unfold PublishPending, mbind, St_bind; fold now; by rewrite Hclaim|]. intros k r Hk. cbv zeta. split.
  - intros Hr. assert (k ∉ ev_ID <$> es) as Hn.
    { rewrite Eids. intros (r0 & -> & Hr0)%list_elem_of_fmap. rewrite (Hrows _ Hr0) in Hk. congruence. }
    apply Hd'; [|done]. destruct (claimed_table_keeps now rows (ob_events d) k) as [r' Hr']; [eauto|]. pose proof Hr' as Hl.
    apply claimed_table_lookup in Hl as [?|(r0 & Hr0 & <- & _)]; [unfold d1; cbn; congruence|].
    exfalso. apply Hn. rewrite Eids. by apply (list_elem_of_fmap_2 (fun r => ev_ID (or_event r))).
  - intros Hr. assert (k = ev_ID (or_event r)) as -> by (by rewrite (Hkey _ _ Hk)).
    destruct (Hd' (ev_ID (or_event r)) (claimed_event now r)) as [_ Hs]; [unfold d1; cbn; by apply claimed_table_row|].
    destruct (Hs (scanned_event (claimed_event now r))) as [n Hn]; [by apply (list_elem_of_fmap_2 (fun r => scanned_event (claimed_event now r)))|done|].
    exists (S n). eexists. split; [exact Hn|]. destruct (publish _); by split_and!.
Qed.

(** ** Consumers *)


Section messages.
Context `{UuidLibrary} (json : string -> option Event).












End messages.


(** ** Examples *)

#[local] Existing Instance binary_uuids.

Definition demo_event : Event :=
  mkEvent 7%N "access_request" 3%N AccessApproved 3%N (PAccessApproved (mkAccessApprovedPayload 3%N "Cy" 1%N "Ada" 10)) "access.approved:3" 0 10.
Definition demo_outbox_row : OutboxRow := mkOutboxRow demo_event OutboxEventPending 0 10 None None.
Definition demo_outbox : OutboxDB := mkOutboxDB {[7%N := demo_outbox_row]} ∅ {[1%N; 3%N]}.
Definition demo_relay : RelayState := mkRelayState demo_outbox [] ∅ 20.
Lemma demo_outbox_lookup k r : ob_events demo_outbox !! k = Some r -> k = 7%N /\ r = demo_outbox_row.
Proof. cbn. intros [<- <-]%lookup_singleton_Some. done. Qed.
Lemma demo_relay_wf : relay_wf demo_relay.
Proof.
  split; cbn -[Z.mul Z.add].
  - by intros k r [-> ->]%demo_outbox_lookup.
  - intros w x e Hw. by rewrite lookup_empty in Hw.
  - intros w e es Hw. by rewrite lookup_empty in Hw.
  - by intros k r [-> ->]%demo_outbox_lookup.
  - intros k r [-> ->]%demo_outbox_lookup. cbn -[Z.mul Z.add]. lia.
  - intros k r [-> ->]%demo_outbox_lookup. set_solver.
Qed.
Definition demo_batch : list Event := [scanned_event (claimed_event 20 demo_outbox_row)].
Definition demo_claimed : OutboxDB := set_events {[7%N := claimed_event 20 demo_outbox_row]} demo_outbox.
Lemma demo_claim : ClaimBatch 50 20 ∅ demo_outbox = (Ok demo_batch, demo_claimed).
Proof. vm_compute. reflexivity. Qed.
Lemma demo_relay_steps : relay_steps demo_relay (mkRelayState demo_claimed demo_batch {[0%nat := Publishing demo_batch]} 20).
Proof.
  eapply rtc_l; [exact (step_claim demo_outbox demo_claimed [] ∅ 20 0%nat ∅ demo_batch eq_refl demo_claim)|].
  eapply rtc_l; [eapply step_unconfirmed; exact (lookup_insert_eq _ _ _)|]. apply rtc_refl.
Qed.

Lemma outbox_reliable_witness :
  exists r', ob_events demo_claimed !! 7%N = Some r' /\ or_event r' = demo_event /\
    (or_status r' = OutboxEventPublished /\ (exists e, e ∈ demo_batch /\ same_event e demo_event) \/
     forall now, 20 + 5 * 60 * 1000000 <= now -> claimable_event now ∅ r' = true).
Proof.
  exact (outbox_reliable demo_relay (mkRelayState demo_claimed demo_batch {[0%nat := Publishing demo_batch]} 20) 7%N demo_outbox_row
    demo_relay_wf demo_relay_steps eq_refl).
Defined.

Lemma relay_round_witness :
  exists d' r', PublishPending (fun _ => None) (fun n => 20 + Z.of_nat n) ∅ demo_outbox = (Ok tt, d') /\ ob_events d' !! 7%N = Some r' /\
    or_status r' = OutboxEventPublished.
Proof.
  destruct (relay_round (fun _ => None) (fun n => 20 + Z.of_nat n) ∅ demo_outbox) as (d' & E & Hd).
  - by intros k r [-> ->]%demo_outbox_lookup.
  - intros r [_ [k [-> ->]%demo_outbox_lookup]]%candidates_rows. reflexivity.
  - exists d'. destruct (proj2 (Hd 7%N demo_outbox_row eq_refl)) as (n & r' & Hr & _ & _ & Hs & _); [vm_compute; left|]. exists r'.
    split; [exact E|]. split; [exact Hr|exact Hs].
Defined.

(** A broker that counts the rejections of the queue. *)
Definition count_rejection (m : Delivery) : Delivery :=
  mkDelivery (dv_MessageId m) (dv_Type m) (dv_Body m) (Some [Some (LarkDMQueue, Some (deliveryAttempt m + 1))]).

Lemma deliveryAttempt_nonneg m : 0 <= deliveryAttempt m.
Proof.
  unfold deliveryAttempt. destruct (dv_deaths m) as [l|]; [|done].
  assert (forall z, 0 <= z -> 0 <= foldl (fun attempts raw => match raw with
    | Some (queue, Some count) => if (queue == LarkDMQueue) && (attempts <? count) then count else attempts | _ => attempts end) z l) as Hl; [|by apply Hl].
  induction l as [|[[q [n|]]|] l IH]; intros z Hz; cbn; auto. apply IH. case_match eqn:E; [|done].
  apply andb_true_iff in E as [_ E%Z.ltb_lt]. lia.
Qed.

Lemma count_rejection_attempt m : deliveryAttempt (count_rejection m) = deliveryAttempt m + 1.
Proof.
  pose proof (deliveryAttempt_nonneg m). unfold count_rejection. unfold deliveryAttempt at 1. cbn -[deliveryAttempt].
  destruct (Z.ltb_spec 0 (deliveryAttempt m + 1)); [done|lia].
Qed.

#[local] Instance counting_broker : Broker :=
  {| redeliver := count_rejection; redeliver_content m := conj eq_refl (conj eq_refl eq_refl); redeliver_attempt := count_rejection_attempt |}.

