(* ===== verification/PlanningStore.v ===== *)
(** * Projects and Milestones and their stores

    internal/domain/project.go; internal/store/project_store.go, milestone_store.go and milestone_versioned_store.go over the
    tables projects, milestones, project_activity (migrations 0006, 0012, 0013, 0016) and
    project_memberships (0018), next to the tables of the workflow. *)

From stdpp Require Import base tactics strings gmap list numbers sorting.
From S2P Require Import Prelude Actors Lifecycle StageClaim Delivery Thread Acceptance Database Tx State.
From S2P Require Import ThreadStore ClaimStore WorkflowStore WorkflowCommands TaskStore Access Membership.

(** ** Projects and Milestones

    internal/domain/project.go: a Project is a long-lived workspace that may be archived once nothing
    in it is open; a Milestone is a delivery window with a lifecycle of its own. *)

Record Project := mkProject {
  p_ID : UUID;
  p_Number : Z;
  p_Version : Z;
  p_Name : string;
  p_Description : string;
  p_CreatorID : UUID;
  p_ArchivedAt : option Time;
  p_CreatedAt : Time;
  p_UpdatedAt : Time;
}.

(** The old and new values of an activity entry: a text, or the text of a time or an identifier. *)
Inductive ActivityValue :=
| ActivityText (s : string)
| ActivityTime (t : Time)
| ActivityID (u : UUID).

Record ProjectActivity := mkProjectActivity {
  py_ID : UUID;
  py_ProjectID : UUID;
  py_MilestoneID : option UUID;
  py_ActorID : UUID;
  py_Action : string;
  py_Reason : option string;
  py_OldValue : option ActivityValue;
  py_NewValue : option ActivityValue;
  py_RequestID : option string;
  py_AuthMethod : option AuthenticationMethod;
  py_APITokenID : option UUID;
  py_TokenName : option string;
  py_AgentRunID : option UUID;
  py_CreatedAt : Time;
}.

Definition Project_Validate (p : Project) : result unit :=
  _ ← fail_if (blank (p_Name p)) ErrInvalidInput;
  fail_if (p_CreatorID p == uuid_Nil) ErrInvalidInput.

Record ProjectArchiveReadiness := mkProjectArchiveReadiness {
  rd_OpenMilestones : Z;
  rd_UnfinishedTasks : Z;
}.

Definition with_archive (p : Project) (archived : option Time) (now : Time) : Project :=
  mkProject (p_ID p) (p_Number p) (p_Version p) (p_Name p) (p_Description p) (p_CreatorID p) archived
    (p_CreatedAt p) now.

(** [now] is [time.Now().UTC()]. *)
Definition Project_Archive (p : Project) (readiness : ProjectArchiveReadiness) (now : Time) : result Project :=
  _ ← fail_if (0 <? rd_OpenMilestones readiness) ErrConflict;
  _ ← fail_if (0 <? rd_UnfinishedTasks readiness) ErrConflict;
  Ok (with_archive p (Some now) now).

Definition Project_Restore (p : Project) (now : Time) : Project := with_archive p None now.

Definition MilestoneStatus := string.
Definition MilestoneStatusPlanned : MilestoneStatus := "planned".
Definition MilestoneStatusActive : MilestoneStatus := "active".
Definition MilestoneStatusCompleted : MilestoneStatus := "completed".
Definition MilestoneStatusCancelled : MilestoneStatus := "cancelled".

Definition MilestoneStatus_Valid (s : MilestoneStatus) : bool :=
  bool_decide (s ∈ [MilestoneStatusPlanned; MilestoneStatusActive; MilestoneStatusCompleted; MilestoneStatusCancelled]).

Record Milestone := mkMilestone {
  ms_ID : UUID;
  ms_ProjectID : UUID;
  ms_Version : Z;
  ms_Name : string;
  ms_Outcome : string;
  ms_Description : string;
  ms_OwnerID : UUID;
  ms_Status : MilestoneStatus;
  ms_TargetDate : option Date;
  ms_Position : Z;
  ms_CompletedAt : option Time;
  ms_CancelledAt : option Time;
  ms_CreatedAt : Time;
  ms_UpdatedAt : Time;
}.

Definition Milestone_Validate (m : Milestone) : result unit :=
  _ ← fail_if ((ms_ProjectID m == uuid_Nil) || blank (ms_Name m) || blank (ms_Outcome m) ||
               (ms_OwnerID m == uuid_Nil)) ErrInvalidInput;
  fail_if (negb (MilestoneStatus_Valid (ms_Status m)) || (ms_Position m <? 0)) ErrInvalidInput.

Record MilestoneReadiness := mkMilestoneReadiness {
  rd_ActiveCriteria : Z;
  rd_UnsatisfiedCriteria : Z;
  rd_MilestoneTasks : Z;  (** [UnfinishedTasks] *)
}.

Definition milestone_in (m : Milestone) (status : MilestoneStatus) (completed cancelled : option Time) (now : Time)
    : Milestone :=
  mkMilestone (ms_ID m) (ms_ProjectID m) (ms_Version m) (ms_Name m) (ms_Outcome m) (ms_Description m) (ms_OwnerID m)
    status (ms_TargetDate m) (ms_Position m) completed cancelled (ms_CreatedAt m) now.

Definition Milestone_Activate (m : Milestone) (readiness : MilestoneReadiness) (now : Time) : result Milestone :=
  _ ← fail_if (ms_Status m != MilestoneStatusPlanned) ErrConflict;
  _ ← fail_if (rd_ActiveCriteria readiness =? 0) ErrConflict;
  Ok (milestone_in m MilestoneStatusActive (ms_CompletedAt m) (ms_CancelledAt m) now).

Definition Milestone_Complete (m : Milestone) (readiness : MilestoneReadiness) (now : Time) : result Milestone :=
  _ ← fail_if (ms_Status m != MilestoneStatusActive) ErrConflict;
  _ ← fail_if ((rd_ActiveCriteria readiness =? 0) || (0 <? rd_UnsatisfiedCriteria readiness)) ErrConflict;
  _ ← fail_if (0 <? rd_MilestoneTasks readiness) ErrConflict;
  Ok (milestone_in m MilestoneStatusCompleted (Some now) None now).

Definition Milestone_Cancel (m : Milestone) (readiness : MilestoneReadiness) (now : Time) : result Milestone :=
  _ ← fail_if ((ms_Status m != MilestoneStatusPlanned) && (ms_Status m != MilestoneStatusActive)) ErrConflict;
  _ ← fail_if (0 <? rd_MilestoneTasks readiness) ErrConflict;
  Ok (milestone_in m MilestoneStatusCancelled None (Some now) now).

Definition Milestone_Reopen (m : Milestone) (actor : Actor) (reason : string) (now : Time) : result Milestone :=
  _ ← fail_if (negb (Actor_IsHuman actor)) ErrForbidden;
  _ ← fail_if (blank reason) ErrInvalidInput;
  _ ← fail_if ((ms_Status m != MilestoneStatusCompleted) && (ms_Status m != MilestoneStatusCancelled)) ErrConflict;
  Ok (milestone_in m MilestoneStatusActive None None now).

(** ** The tables *)

(** The columns of the legacy [task_claims] that tell who holds a Claim; the others are in the
    tables of the workflow. *)
Record ClaimClient := mkClaimClient {
  cc_claimed_by_user_id : UUID;
  cc_client_kind : string;
  cc_client_session_id : string;
  cc_expires_at : Time;
}.

(** [projects] and [milestones] have their keys in the tables of the workflow and their rows here.
    [pl_numbers] is the last value of the sequence of [projects.number]. *)
Record PlanWorld := mkPlanWorld {
  pl_world : World;
  pl_projects : gmap UUID Project;
  pl_milestones : gmap UUID Milestone;
  pl_users : gmap UUID User;
  pl_memberships : gmap UUID MembershipRow;
  pl_activity : list ProjectActivity;
  pl_claim_clients : gmap UUID ClaimClient;
  pl_numbers : Z;
}.
Definition PlanM (X : Type) : Type := St PlanWorld X.

Definition pl_db (p : PlanWorld) : DB := w_db (pl_world p).
Definition set_world (x : World) (p : PlanWorld) : PlanWorld :=
  mkPlanWorld x (pl_projects p) (pl_milestones p) (pl_users p) (pl_memberships p) (pl_activity p) (pl_claim_clients p)
    (pl_numbers p).
Definition set_db (f : DB -> DB) (p : PlanWorld) : PlanWorld := set_world (mkWorld (f (pl_db p)) (w_next (pl_world p))) p.
Definition put_project (x : Project) (p : PlanWorld) : PlanWorld :=
  mkPlanWorld (pl_world p) (<[p_ID x := x]> (pl_projects p)) (pl_milestones p) (pl_users p) (pl_memberships p)
    (pl_activity p) (pl_claim_clients p) (pl_numbers p).
Definition put_milestone (x : Milestone) (p : PlanWorld) : PlanWorld :=
  mkPlanWorld (pl_world p) (pl_projects p) (<[ms_ID x := x]> (pl_milestones p)) (pl_users p) (pl_memberships p)
    (pl_activity p) (pl_claim_clients p) (pl_numbers p).
Definition put_membership (x : MembershipRow) (p : PlanWorld) : PlanWorld :=
  mkPlanWorld (pl_world p) (pl_projects p) (pl_milestones p) (pl_users p) (<[mr_id x := x]> (pl_memberships p))
    (pl_activity p) (pl_claim_clients p) (pl_numbers p).
Definition add_project_activity (x : ProjectActivity) (p : PlanWorld) : PlanWorld :=
  mkPlanWorld (pl_world p) (pl_projects p) (pl_milestones p) (pl_users p) (pl_memberships p)
    (pl_activity p ++ [x]) (pl_claim_clients p) (pl_numbers p).
Definition set_numbers (x : Z) (p : PlanWorld) : PlanWorld :=
  mkPlanWorld (pl_world p) (pl_projects p) (pl_milestones p) (pl_users p) (pl_memberships p)
    (pl_activity p) (pl_claim_clients p) x.

(** A statement on the tables of the workflow. *)
Definition on_world {A} (m : M A) : PlanM A := fun p => let '(r, w) := m (pl_world p) in (r, set_world w p).

(** [tx := Begin(); defer tx.Rollback(); ...; tx.Commit()]: a rollback takes back neither the
    identifiers nor the values of the sequence that were drawn. *)
Definition plan_tx {A} (m : PlanM A) : PlanM A := fun p =>
  match m p with
  | (Ok a, p') => (Ok a, p')
  | (Err e, p') => (Err e, set_numbers (pl_numbers p') (set_world (mkWorld (pl_db p) (w_next (pl_world p'))) p))
  end.

(** A value for an [integer] column; another one is not encoded. *)
Definition in_int4 (z : Z) : bool := (- 2 ^ 31 <=? z) && (z <? 2 ^ 31).

(** The order of [lower(name)] in the database's collation. *)
Class NameOrder := { lower_le : string -> string -> bool }.

Section stores.
Context `{UUIDSource} `{NameOrder}.

Definition new_uuid : PlanM UUID := on_world uuid_New.
(** [if id == uuid.Nil { id = uuid.New() }] *)
Definition or_new (id : UUID) : PlanM UUID := if id == uuid_Nil then new_uuid else mret id.

(** ** Statements shared by the stores *)

(** [version] of a row of one of the versioned tables. *)
Definition row_version (table : string) (id : UUID) (p : PlanWorld) : option Z :=
  if table == "projects" then p_Version <$> pl_projects p !! id
  else if table == "milestones" then ms_Version <$> pl_milestones p !! id
  else if table == "acceptance_criteria" then ac_Version <$> acceptance_criteria (pl_db p) !! id
  else if table == "tasks" then t_version <$> tasks (pl_db p) !! id
  else None.

Definition versioned_table (table : string) : bool :=
  bool_decide (table ∈ ["projects"; "milestones"; "acceptance_criteria"; "tasks"]).

Definition lockVersion (table : string) (id : UUID) : PlanM Z :=
  st_fail (negb (versioned_table table)) ErrOther;;
  version ← st_get (row_version table id);
  st_or_err version ErrNotFound.

(** [SET version=version+1, updated_at=now()] *)
Definition project_bumped (x : Project) (now : Time) : Project :=
  mkProject (p_ID x) (p_Number x) (p_Version x + 1) (p_Name x) (p_Description x) (p_CreatorID x) (p_ArchivedAt x)
    (p_CreatedAt x) now.
Definition milestone_bumped (x : Milestone) (now : Time) : Milestone :=
  mkMilestone (ms_ID x) (ms_ProjectID x) (ms_Version x + 1) (ms_Name x) (ms_Outcome x) (ms_Description x)
    (ms_OwnerID x) (ms_Status x) (ms_TargetDate x) (ms_Position x) (ms_CompletedAt x) (ms_CancelledAt x)
    (ms_CreatedAt x) now.
Definition criterion_bumped (x : AcceptanceCriterion) (now : Time) : AcceptanceCriterion :=
  mkAcceptanceCriterion (ac_ID x) (ac_Version x + 1) (ac_MilestoneID x) (ac_TaskID x) (ac_Criterion x)
    (ac_VerificationInstructions x) (ac_Revision x) (ac_Position x) (ac_ArchivedAt x) (ac_CreatedAt x) now.
Definition task_bumped (x : TaskRow) (now : Time) : TaskRow :=
  mkTaskRow (t_id x) (t_number x) (t_version x + 1) (t_phase x) (t_activity_state x) (t_review_cycle x)
    (t_active_issue_thread_id x) (t_project_id x) (t_parent_task_id x) now (t_completed_at x) (t_archived_at x)
    (t_creator_id x) (t_created_at x) (t_brief x).

Definition put_criterion (x : AcceptanceCriterion) (d : DB) : DB :=
  set_criteria (<[ac_ID x := x]> (acceptance_criteria d)) d.

Definition bump_row (table : string) (id : UUID) (now : Time) (p : PlanWorld) : PlanWorld :=
  if table == "projects" then
    match pl_projects p !! id with Some x => put_project (project_bumped x now) p | None => p end
  else if table == "milestones" then
    match pl_milestones p !! id with Some x => put_milestone (milestone_bumped x now) p | None => p end
  else if table == "acceptance_criteria" then
    match acceptance_criteria (pl_db p) !! id with
    | Some x => set_db (put_criterion (criterion_bumped x now)) p
    | None => p
    end
  else match tasks (pl_db p) !! id with
       | Some x => set_db (fun d => set_tasks (<[id := task_bumped x now]> (tasks d)) d) p
       | None => p
       end.

(** [version+1] of a bigint fails when it overflows. *)
Definition incrementVersion (table : string) (id : UUID) (expectedVersion : Z) (now : Time) : PlanM Z :=
  st_fail (negb (versioned_table table)) ErrOther;;
  version ← st_get (row_version table id);
  st_fail (version != Some expectedVersion) (VersionConflictError expectedVersion);;
  st_fail (expectedVersion =? MaxInt64) ErrOther;;
  st_mod (bump_row table id now);;
  mret (expectedVersion + 1).

(** [INSERT INTO project_activity] *)
Definition record_project_activity (projectID : UUID) (milestoneID : option UUID) (actor : OperationActor)
    (action : string) (reason : option string) (old new : option ActivityValue) (now : Time) : PlanM unit :=
  id ← new_uuid;
  p ← st_get (fun p => p);
  let d := pl_db p in
  st_fail (negb (auth_shape actor) || bool_decide (id ∈ (py_ID <$> pl_activity p)) ||
           negb (present (pl_projects p !! projectID) && fk milestoneID (dom (pl_milestones p)) &&
                 fk (Some (op_UserID actor)) (users d) && fk (op_TokenID actor) (Database.api_tokens d))) ErrOther;;
  st_mod (add_project_activity (mkProjectActivity id projectID milestoneID (op_UserID actor) action reason old new
    (Some (op_RequestID actor)) (Some (op_AuthMethod actor)) (op_TokenID actor) (nullIfEmpty (op_TokenName actor))
    (op_AgentRunID actor) now)).

(** [InsertBusinessAudit] with an identifier of its own *)
Definition audit (entityType : string) (entityID : UUID) (number : option Z) (action : string)
    (old new : option AuditValue) (actor : OperationActor) (now : Time) : PlanM unit :=
  on_world (InsertBusinessAudit
    (mkBusinessAuditEvent uuid_Nil now actor entityType entityID number action old new)).

(** ** internal/store/project_store.go *)

Record ProjectWithRelations := mkProjectWithRelations {
  pwr_Project : Project;
  pwr_Creator : UserRef;
  pwr_CompletedTasks : Z;
  pwr_EligibleTasks : Z;
}.
Record ProjectPatch := mkProjectPatch { ppt_Name : option string; ppt_Description : option string }.

(** [projectSelectColumns]: the Tasks that count for the progress of a Project. *)
Definition counted_tasks (d : DB) (projectID : UUID) (in_phase : string -> bool) : Z :=
  Z.of_nat (length (select (fun t => (t_project_id t == projectID) && negb (present (t_archived_at t)) &&
    match t_phase t with Some phase => in_phase phase | None => false end) (tasks d))).

(** The row of a Project joined with its creator. *)
Definition scanProject (p : PlanWorld) (x : Project) : option ProjectWithRelations :=
  cu ← pl_users p !! p_CreatorID x;
  Some (mkProjectWithRelations x (mkUserRef (u_ID cu) (u_Name cu) (u_Email cu))
    (counted_tasks (pl_db p) (p_ID x) (fun phase => phase == "done"))
    (counted_tasks (pl_db p) (p_ID x) (fun phase => phase != "cancelled"))).

Definition project_numbered (number : Z) (p : PlanWorld) : option Project :=
  select_one (fun x => p_Number x == number) (pl_projects p).

Definition Projects_GetByNumber (number : Z) : PlanM ProjectWithRelations :=
  found ← st_get (fun p => x ← project_numbered number p; scanProject p x);
  st_or_err found ErrNotFound.
Definition Projects_GetByID (id : UUID) : PlanM ProjectWithRelations :=
  found ← st_get (fun p => x ← pl_projects p !! id; scanProject p x);
  st_or_err found ErrNotFound.
Definition ResolveProjectID (number : Z) : PlanM UUID :=
  found ← st_get (project_numbered number);
  x ← st_or_err found ErrNotFound;
  mret (p_ID x).

(** The CHECKs of [projects]. *)
Definition projects_checks (x : Project) : bool := negb (GoStrings.btrim_empty (p_Name x)) && (0 <? p_Version x).

(** [INSERT INTO projects (id, name, description, creator_id)]; the sequence gives the number. *)
Definition insert_project (project : Project) (now : Time) : PlanM Project :=
  number ← st_get pl_numbers;
  st_fail (number =? MaxInt64) ErrOther;;
  st_mod (set_numbers (number + 1));;
  let x := mkProject (p_ID project) (number + 1) 1 (p_Name project) (p_Description project) (p_CreatorID project) None
             now now in
  p ← st_get (fun p => p);
  st_fail (negb (projects_checks x)) ErrInvalidInput;;
  st_fail (present (pl_projects p !! p_ID x) || present (project_numbered (p_Number x) p)) ErrConflict;;
  st_fail (negb (fk (Some (p_CreatorID x)) (users (pl_db p)))) ErrInvalidInput;;
  st_mod (put_project x);;
  st_mod (set_db (fun d => set_project_keys ({[p_ID x]} ∪ projects d) d));;
  mret x.

(** [INSERT INTO project_memberships (id, project_id, user_id, role)] *)
Definition insert_admin (projectID userID : UUID) (now : Time) : PlanM unit :=
  id ← new_uuid;
  p ← st_get (fun p => p);
  st_fail (present (pl_memberships p !! id) ||
           present (select_one (fun r => (mr_project_id r == projectID) && (mr_user_id r == userID)) (pl_memberships p)))
    ErrConflict;;
  st_fail (negb (present (pl_projects p !! projectID) && fk (Some userID) (users (pl_db p)))) ErrInvalidInput;;
  st_mod (put_membership (mkMembershipRow id projectID userID "admin" now now)).

Definition Projects_CreateWithOperation (project : Project) (actor : OperationActor) (now : Time)
    : PlanM ProjectWithRelations :=
  st_lift (OperationActor_Validate actor);;
  st_fail (p_CreatorID project != op_UserID actor) ErrForbidden;;
  id ← or_new (p_ID project);
  let project := mkProject id (p_Number project) (p_Version project) (p_Name project) (p_Description project)
                   (p_CreatorID project) (p_ArchivedAt project) (p_CreatedAt project) (p_UpdatedAt project) in
  st_lift (Project_Validate project);;
  plan_tx (
    x ← insert_project project now;
    found ← st_get (fun p => scanProject p x);
    out ← st_or_err found ErrOther;
    insert_admin (p_ID project) (p_CreatorID project) now;;
    audit "project" (p_ID project) (Some (p_Number (pwr_Project out))) "created" None
      (Some (AuditProject (p_Name project) (p_Description project))) actor now;;
    mret out).

Definition Projects_Create (project : Project) (now : Time) : PlanM ProjectWithRelations :=
  Projects_CreateWithOperation project (SessionOperation (p_CreatorID project) "internal") now.

(** [ORDER BY p.archived_at NULLS FIRST, lower(p.name), p.number]; [lower_le] is the order of the
    lower-case forms. *)
Definition archived_key (x : Project) : Z * Z := match p_ArchivedAt x with None => (0, 0) | Some at_ => (1, at_) end.
Definition project_le (x y : Project) : bool :=
  let '(a, s) := archived_key x in let '(b, t) := archived_key y in
  if (a <? b) || ((a =? b) && (s <? t)) then true
  else if (b <? a) || (t <? s) then false
  else if negb (lower_le (p_Name y) (p_Name x)) then true
  else lower_le (p_Name x) (p_Name y) && (p_Number x <=? p_Number y).
Definition project_order (x y : Project) : Prop := project_le x y = true.
#[global] Instance project_order_dec x y : Decision (project_order x y).
Proof. unfold project_order. apply _. Defined.
Definition listed_projects (include : Project -> bool) (p : PlanWorld) : list ProjectWithRelations :=
  omap (scanProject p)
    (merge_sort project_order (select include (pl_projects p))).

Definition Projects_List (includeArchived : bool) : PlanM (list ProjectWithRelations) :=
  st_get (listed_projects (fun x => includeArchived || negb (present (p_ArchivedAt x)))).
Definition ListForSubject (includeArchived : bool) (subject : ProjectAccessSubject) : PlanM (list ProjectWithRelations) :=
  if IsPlatformAdministrator subject then Projects_List includeArchived
  else st_get (fun p => listed_projects (fun x =>
    present (select_one (fun r => (mr_project_id r == p_ID x) && (mr_user_id r == sj_UserID subject)) (pl_memberships p)) &&
    (includeArchived || negb (present (p_ArchivedAt x)))) p).

(** [SELECT ... FOR UPDATE] and the comparison with the version that the caller expects. *)
Definition lockProject (number : Z) (expectedVersion : option Z) : PlanM Project :=
  found ← st_get (project_numbered number);
  project ← st_or_err found ErrNotFound;
  st_fail (match expectedVersion with Some v => p_Version project != v | None => false end)
    (VersionConflictError (p_Version project));;
  mret project.

(** [UPDATE projects SET ..., version=version+1 WHERE id=$1 AND version=$n]: [x] has the new values. *)
Definition update_project (x : Project) (now : Time) (invalid : error) : PlanM Z :=
  version ← st_get (row_version "projects" (p_ID x));
  st_fail (version != Some (p_Version x)) ErrOther;;
  st_fail (p_Version x =? MaxInt64) ErrOther;;
  st_fail (negb (projects_checks (project_bumped x now))) invalid;;
  st_mod (put_project (project_bumped x now));;
  mret (p_Version x + 1).

Definition patched_project (x : Project) (patch : ProjectPatch) : Project :=
  mkProject (p_ID x) (p_Number x) (p_Version x) (patched (ppt_Name patch) (p_Name x))
    (patched (ppt_Description patch) (p_Description x)) (p_CreatorID x) (p_ArchivedAt x) (p_CreatedAt x) (p_UpdatedAt x).

Definition record_project_change (projectID : UUID) (action old new : string) (actor : OperationActor) (now : Time)
    : PlanM unit :=
  if old == new then mret tt
  else record_project_activity projectID None actor action None (ActivityText <$> null_if_empty old)
         (ActivityText <$> null_if_empty new) now.

Definition Projects_updateWithExpectedVersion (number : Z) (expectedVersion : option Z) (patch : ProjectPatch)
    (actor : OperationActor) (now : Time) : PlanM ProjectWithRelations :=
  st_lift (OperationActor_Validate actor);;
  plan_tx (
    old ← lockProject number expectedVersion;
    let project := patched_project old patch in
    st_lift (Project_Validate project);;
    update_project project now ErrInvalidInput;;
    record_project_change (p_ID project) "project_name_changed" (p_Name old) (p_Name project) actor now;;
    record_project_change (p_ID project) "project_description_changed" (p_Description old) (p_Description project) actor now;;
    audit "project" (p_ID project) (Some number) "updated" (Some (AuditProject (p_Name old) (p_Description old)))
      (Some (AuditProject (p_Name project) (p_Description project))) actor now);;
  Projects_GetByNumber number.

Definition Projects_UpdateWithOperation (number : Z) (patch : ProjectPatch) (actor : OperationActor) (now : Time) :=
  Projects_updateWithExpectedVersion number None patch actor now.
Definition Projects_Update (number : Z) (patch : ProjectPatch) (actorID : UUID) (now : Time) :=
  Projects_UpdateWithOperation number patch (SessionOperation actorID "internal") now.
Definition Projects_UpdateVersionedWithOperation (number expectedVersion : Z) (patch : ProjectPatch)
    (actor : OperationActor) (now : Time) :=
  Projects_updateWithExpectedVersion number (Some expectedVersion) patch actor now.

Definition ProjectLifecycleAction := string.
Definition ProjectActionArchive : ProjectLifecycleAction := "archived".
Definition ProjectActionRestore : ProjectLifecycleAction := "restored".

Definition projectArchiveReadiness (p : PlanWorld) (projectID : UUID) : ProjectArchiveReadiness :=
  mkProjectArchiveReadiness
    (Z.of_nat (length (select (fun m => (ms_ProjectID m == projectID) &&
       bool_decide (ms_Status m ∈ ["planned"; "active"])) (pl_milestones p))))
    (Z.of_nat (length (select (fun t => (t_project_id t == projectID) && unfinished t) (tasks (pl_db p))))).

Definition project_lifecycle_tx (number : Z) (expectedVersion : option Z) (action : ProjectLifecycleAction) (reason : string)
    (operation : OperationActor) (now : Time) : PlanM unit :=
  old ← lockProject number expectedVersion;
  readiness ← st_get (fun p => projectArchiveReadiness p (p_ID old));
  project ← st_lift (
    if action == ProjectActionArchive then Project_Archive old readiness now
    else if action == ProjectActionRestore then Ok (Project_Restore old now)
    else Err ErrInvalidInput);
  update_project project (p_UpdatedAt project) ErrOther;;
  record_project_activity (p_ID project) None operation action (nullIfEmpty reason)
    (ActivityTime <$> p_ArchivedAt old) (ActivityTime <$> p_ArchivedAt project) now;;
  audit "project" (p_ID project) (Some number) action (Some (AuditProjectArchived (p_ArchivedAt old)))
    (Some (AuditProjectArchived (p_ArchivedAt project))) operation now.
Definition Projects_applyLifecycleWithExpectedVersion (number : Z) (expectedVersion : option Z)
    (action : ProjectLifecycleAction) (actor : Actor) (reason : string) (operation : OperationActor) (now : Time)
    : PlanM ProjectWithRelations :=
  st_fail (negb (Actor_IsHuman actor)) ErrForbidden;;
  st_lift (OperationActor_Validate operation);;
  st_fail (actor_UserID actor != Some (op_UserID operation)) ErrForbidden;;
  plan_tx (project_lifecycle_tx number expectedVersion action reason operation now);;
  Projects_GetByNumber number.

Definition Projects_ApplyLifecycleWithOperation (number : Z) (action : ProjectLifecycleAction) (actor : Actor)
    (reason : string) (operation : OperationActor) (now : Time) :=
  Projects_applyLifecycleWithExpectedVersion number None action actor reason operation now.
Definition Projects_ApplyLifecycle (number : Z) (action : ProjectLifecycleAction) (actor : Actor) (reason : string)
    (now : Time) :=
  let actorID := match actor_UserID actor with Some u => u | None => uuid_Nil end in
  Projects_ApplyLifecycleWithOperation number action actor reason (SessionOperation actorID "internal") now.
Definition Projects_ApplyLifecycleVersionedWithOperation (number expectedVersion : Z) (action : ProjectLifecycleAction)
    (actor : Actor) (reason : string) (operation : OperationActor) (now : Time) :=
  Projects_applyLifecycleWithExpectedVersion number (Some expectedVersion) action actor reason operation now.

(** [ORDER BY created_at, id] *)
Definition ListActivity (projectID : UUID) : PlanM (list ProjectActivity) :=
  st_get (fun p => order_by (fun y => (py_CreatedAt y, py_ID y))
    (List.filter (fun y => py_ProjectID y == projectID) (pl_activity p))).

(** ** internal/store/milestone_store.go *)

Record MilestonePatch := mkMilestonePatch {
  mp_Name : option string;
  mp_Outcome : option string;
  mp_Description : option string;
  mp_OwnerID : option UUID;
  mp_TargetDateSet : bool;
  mp_TargetDate : option Date;
  mp_Position : option Z;
}.

(** The CHECKs of [milestones]. *)
Definition milestones_checks (m : Milestone) : bool :=
  negb (GoStrings.btrim_empty (ms_Name m)) && negb (GoStrings.btrim_empty (ms_Outcome m)) &&
  bool_decide (ms_Status m ∈ ["planned"; "active"; "completed"; "cancelled"]) && (0 <=? ms_Position m) &&
  (0 <? ms_Version m).

(** [INSERT INTO milestones (...) RETURNING ...] *)
Definition insert_milestone (milestone : Milestone) (now : Time) : PlanM Milestone :=
  let m := mkMilestone (ms_ID milestone) (ms_ProjectID milestone) 1 (ms_Name milestone) (ms_Outcome milestone)
             (ms_Description milestone) (ms_OwnerID milestone) (ms_Status milestone) (ms_TargetDate milestone)
             (ms_Position milestone) None None now now in
  p ← st_get (fun p => p);
  st_fail (negb (in_int4 (ms_Position m))) ErrOther;;
  st_fail (negb (milestones_checks m)) ErrInvalidInput;;
  st_fail (present (pl_milestones p !! ms_ID m)) ErrConflict;;
  st_fail (negb (present (pl_projects p !! ms_ProjectID m) && fk (Some (ms_OwnerID m)) (users (pl_db p)))) ErrInvalidInput;;
  st_mod (put_milestone m);;
  st_mod (set_db (fun d => set_milestone_keys ({[(ms_ProjectID m, ms_ID m)]} ∪ milestones d) d));;
  mret m.

(** The identifier and the status that a new Milestone defaults to. *)
Definition new_milestone (id projectID : UUID) (m : Milestone) : Milestone :=
  mkMilestone id projectID (ms_Version m) (ms_Name m) (ms_Outcome m) (ms_Description m) (ms_OwnerID m)
    (if ms_Status m == "" then MilestoneStatusPlanned else ms_Status m) (ms_TargetDate m) (ms_Position m)
    (ms_CompletedAt m) (ms_CancelledAt m) (ms_CreatedAt m) (ms_UpdatedAt m).

Definition created_milestone_audit (m : Milestone) : AuditValue :=
  AuditMilestone (Some (ms_ProjectID m)) (ms_Name m) (ms_Outcome m) (ms_Description m) (ms_OwnerID m) (Some (ms_Status m))
    (ms_TargetDate m) (ms_Position m).
Definition milestone_audit (m : Milestone) : AuditValue :=
  AuditMilestone None (ms_Name m) (ms_Outcome m) (ms_Description m) (ms_OwnerID m) None (ms_TargetDate m) (ms_Position m).

Definition Milestones_create (milestone : Milestone) (actor : option OperationActor) (now : Time) : PlanM Milestone :=
  id ← or_new (ms_ID milestone);
  let milestone := new_milestone id (ms_ProjectID milestone) milestone in
  st_lift (Milestone_Validate milestone);;
  match actor with
  | None => plan_tx (insert_milestone milestone now)
  | Some actor => plan_tx (
      out ← insert_milestone milestone now;
      audit "milestone" (ms_ID out) None "created" None (Some (created_milestone_audit out)) actor now;;
      mret out)
  end.
Definition Milestones_Create (milestone : Milestone) (now : Time) : PlanM Milestone :=
  Milestones_create milestone None now.
Definition Milestones_CreateWithOperation (milestone : Milestone) (actor : OperationActor) (now : Time) : PlanM Milestone :=
  st_lift (OperationActor_Validate actor);;
  Milestones_create milestone (Some actor) now.

(** [WHERE project_id=$1 AND id=$2] *)
Definition milestone_of (projectID milestoneID : UUID) (p : PlanWorld) : option Milestone :=
  m ← pl_milestones p !! milestoneID; if ms_ProjectID m == projectID then Some m else None.

Definition Milestones_Get (projectID milestoneID : UUID) : PlanM Milestone :=
  found ← st_get (milestone_of projectID milestoneID); st_or_err found ErrNotFound.
Definition Milestones_GetByID (milestoneID : UUID) : PlanM Milestone :=
  found ← st_get (fun p => pl_milestones p !! milestoneID); st_or_err found ErrNotFound.
(** [ORDER BY position, created_at, id] *)
Definition milestone_le (m n : Milestone) : Prop :=
  ms_Position m < ms_Position n \/
  (ms_Position m = ms_Position n /\ key_le (ms_CreatedAt m, ms_ID m) (ms_CreatedAt n, ms_ID n)).
#[global] Instance milestone_le_dec m n : Decision (milestone_le m n).
Proof. unfold milestone_le. apply _. Defined.
Definition Milestones_List (projectID : UUID) : PlanM (list Milestone) :=
  st_get (fun p => merge_sort milestone_le (select (fun m => ms_ProjectID m == projectID) (pl_milestones p))).
Definition BelongsToProject (milestoneID projectID : UUID) : PlanM bool :=
  st_get (fun p => present (milestone_of projectID milestoneID p)).

Definition patched_milestone (m : Milestone) (patch : MilestonePatch) : Milestone :=
  mkMilestone (ms_ID m) (ms_ProjectID m) (ms_Version m) (patched (mp_Name patch) (ms_Name m))
    (patched (mp_Outcome patch) (ms_Outcome m)) (patched (mp_Description patch) (ms_Description m))
    (patched (mp_OwnerID patch) (ms_OwnerID m)) (ms_Status m)
    (if mp_TargetDateSet patch then mp_TargetDate patch else ms_TargetDate m)
    (patched (mp_Position patch) (ms_Position m)) (ms_CompletedAt m) (ms_CancelledAt m) (ms_CreatedAt m)
    (ms_UpdatedAt m).

(** [UPDATE milestones SET ... WHERE project_id=$1 AND id=$2]: [m] has the new values. *)
Definition update_milestone (m : Milestone) (invalid : error) : PlanM unit :=
  p ← st_get (fun p => p);
  st_fail (negb (present (milestone_of (ms_ProjectID m) (ms_ID m) p))) ErrNotFound;;
  st_fail (negb (in_int4 (ms_Position m))) ErrOther;;
  st_fail (negb (milestones_checks m) || negb (fk (Some (ms_OwnerID m)) (users (pl_db p)))) invalid;;
  st_mod (put_milestone m).
Definition milestone_updated (m : Milestone) (now : Time) : Milestone :=
  mkMilestone (ms_ID m) (ms_ProjectID m) (ms_Version m) (ms_Name m) (ms_Outcome m) (ms_Description m) (ms_OwnerID m)
    (ms_Status m) (ms_TargetDate m) (ms_Position m) (ms_CompletedAt m) (ms_CancelledAt m) (ms_CreatedAt m) now.

Definition milestone_changed (old new : Milestone) : bool :=
  (ms_Name old != ms_Name new) || (ms_Outcome old != ms_Outcome new) || (ms_Description old != ms_Description new) ||
  (ms_OwnerID old != ms_OwnerID new) || (ms_TargetDate old != ms_TargetDate new) || (ms_Position old != ms_Position new).

Definition Milestones_UpdateWithOperation (projectID milestoneID : UUID) (patch : MilestonePatch) (actor : OperationActor)
    (now : Time) : PlanM Milestone :=
  st_lift (OperationActor_Validate actor);;
  plan_tx (
    old ← Milestones_Get projectID milestoneID;
    let current := patched_milestone old patch in
    st_lift (Milestone_Validate current);;
    update_milestone (milestone_updated current now) ErrInvalidInput;;
    (if milestone_changed old current then
       record_project_activity projectID (Some milestoneID) actor "milestone_updated" None
         (Some (ActivityText (ms_Name old))) (Some (ActivityText (ms_Name current))) now
     else mret tt);;
    audit "milestone" (ms_ID current) None "updated" (Some (milestone_audit old)) (Some (milestone_audit current)) actor now);;
  Milestones_Get projectID milestoneID.
Definition Milestones_Update (projectID milestoneID : UUID) (patch : MilestonePatch) (actorID : UUID) (now : Time) :=
  Milestones_UpdateWithOperation projectID milestoneID patch (SessionOperation actorID "internal") now.

Definition MilestoneLifecycleAction := string.
Definition MilestoneActionActivate : MilestoneLifecycleAction := "milestone_activated".
Definition MilestoneActionComplete : MilestoneLifecycleAction := "milestone_completed".
Definition MilestoneActionCancel : MilestoneLifecycleAction := "milestone_cancelled".
Definition MilestoneActionReopen : MilestoneLifecycleAction := "milestone_reopened".

(** [ac.milestone_id=$1 AND ac.archived_at IS NULL] *)
Definition milestone_criteria (d : DB) (milestoneID : UUID) : list AcceptanceCriterion :=
  select (fun c => (ac_MilestoneID c == Some milestoneID) && negb (present (ac_ArchivedAt c))) (acceptance_criteria d).
(** The latest check of the current revision, of one Claim if one is given. *)
Definition current_check (d : DB) (claimID : option UUID) (c : AcceptanceCriterion) : option CheckRow :=
  last (order_by (fun k => (k_checked_at k, k_id k))
    (select (fun k => (k_criterion_id k == ac_ID c) && (k_criterion_revision k == ac_Revision c) &&
       match claimID with Some _ => k_task_stage_claim_id k == claimID | None => true end) (acceptance_checks d))).
Definition criterion_satisfied (d : DB) (c : AcceptanceCriterion) : bool :=
  match current_check d None c with Some k => bool_decide (k_outcome k ∈ ["passed"; "waived"]) | None => false end.
Definition milestoneReadiness (d : DB) (milestoneID : UUID) : MilestoneReadiness :=
  mkMilestoneReadiness (Z.of_nat (length (milestone_criteria d milestoneID)))
    (Z.of_nat (length (List.filter (fun c => negb (criterion_satisfied d c)) (milestone_criteria d milestoneID))))
    (Z.of_nat (length (select (fun t => (b_milestone_id (t_brief t) == Some milestoneID) && unfinished t) (tasks d)))).

Definition milestone_action (action : MilestoneLifecycleAction) (m : Milestone) (readiness : MilestoneReadiness)
    (actor : OperationActor) (reason : string) (now : Time) : result Milestone :=
  if action == MilestoneActionActivate then Milestone_Activate m readiness now
  else if action == MilestoneActionComplete then Milestone_Complete m readiness now
  else if action == MilestoneActionCancel then Milestone_Cancel m readiness now
  else if action == MilestoneActionReopen then
    Milestone_Reopen m (mkActor ActorTypeUser (Some (op_UserID actor)) "") reason now
  else Err ErrInvalidInput.

(** The activity and the audit of a lifecycle action. *)
Definition record_milestone_action (projectID milestoneID : UUID) (action : MilestoneLifecycleAction)
    (actor : OperationActor) (reason : string) (oldStatus : MilestoneStatus) (m : Milestone) (now : Time) : PlanM unit :=
  record_project_activity projectID (Some milestoneID) actor action (Some reason) (Some (ActivityText oldStatus))
    (Some (ActivityText (ms_Status m))) now;;
  audit "milestone" (ms_ID m) None action (Some (AuditMilestoneStatus oldStatus None))
    (Some (AuditMilestoneStatus (ms_Status m) (Some reason))) actor now.

Definition Milestones_ApplyLifecycleWithOperation (projectID milestoneID : UUID) (action : MilestoneLifecycleAction)
    (actor : OperationActor) (reason : string) (now : Time) : PlanM Milestone :=
  st_lift (OperationActor_Validate actor);;
  plan_tx (
    old ← Milestones_Get projectID milestoneID;
    readiness ← st_get (fun p => milestoneReadiness (pl_db p) (ms_ID old));
    milestone ← st_lift (milestone_action action old readiness actor reason now);
    update_milestone milestone ErrOther;;
    record_milestone_action projectID milestoneID action actor reason (ms_Status old) milestone now;;
    mret milestone).
Definition Milestones_ApplyLifecycle (projectID milestoneID : UUID) (action : MilestoneLifecycleAction) (actor : Actor)
    (reason : string) (now : Time) : PlanM Milestone :=
  if negb (Actor_IsHuman actor) then st_throw ErrForbidden
  else match actor_UserID actor with
       | None => st_throw ErrForbidden
       | Some userID =>
           Milestones_ApplyLifecycleWithOperation projectID milestoneID action (SessionOperation userID "internal") reason now
       end.

(** ** internal/store/milestone_versioned_store.go *)

Record MilestoneMutation := mkMilestoneMutation { mm_Milestone : Milestone; mm_ProjectVersion : Z }.

(** [if version != expected { return VersionConflictError }] *)
Definition expect_version (version expected : Z) : PlanM unit :=
  st_fail (version != expected) (VersionConflictError version).

Definition Milestones_CreateVersionedWithOperation (projectID : UUID) (expectedProjectVersion : Z) (milestone : Milestone)
    (actor : OperationActor) (now : Time) : PlanM MilestoneMutation :=
  st_lift (OperationActor_Validate actor);;
  id ← or_new (ms_ID milestone);
  let milestone := new_milestone id projectID milestone in
  st_lift (Milestone_Validate milestone);;
  plan_tx (
    projectVersion ← lockVersion "projects" projectID;
    expect_version projectVersion expectedProjectVersion;;
    created ← insert_milestone milestone now;
    projectVersion ← incrementVersion "projects" projectID projectVersion now;
    audit "milestone" (ms_ID created) None "created" None (Some (created_milestone_audit created)) actor now;;
    mret (mkMilestoneMutation created projectVersion)).

(** [version=version+1 WHERE ... AND version=$n]: the row was locked with that version. *)
Definition update_milestone_version (m : Milestone) (now : Time) (invalid : error) : PlanM Milestone :=
  p ← st_get (fun p => p);
  st_fail (negb (match milestone_of (ms_ProjectID m) (ms_ID m) p with Some x => ms_Version x == ms_Version m | None => false end))
    ErrOther;;
  st_fail (ms_Version m =? MaxInt64) ErrOther;;
  update_milestone (milestone_bumped m now) invalid;;
  mret (milestone_bumped m now).

Definition Milestones_UpdateVersionedWithOperation (projectID : UUID) (expectedProjectVersion : Z) (milestoneID : UUID)
    (expectedMilestoneVersion : Z) (patch : MilestonePatch) (actor : OperationActor) (now : Time) : PlanM MilestoneMutation :=
  st_lift (OperationActor_Validate actor);;
  plan_tx (
    projectVersion ← lockVersion "projects" projectID;
    expect_version projectVersion expectedProjectVersion;;
    old ← Milestones_Get projectID milestoneID;
    expect_version (ms_Version old) expectedMilestoneVersion;;
    st_lift (Milestone_Validate (patched_milestone old patch));;
    current ← update_milestone_version (patched_milestone old patch) now ErrInvalidInput;
    projectVersion ← incrementVersion "projects" projectID projectVersion now;
    record_project_activity projectID (Some milestoneID) actor "milestone_updated" None
      (Some (ActivityText (ms_Name old))) (Some (ActivityText (ms_Name current))) now;;
    audit "milestone" (ms_ID current) None "updated" (Some (milestone_audit old)) (Some (milestone_audit current)) actor now;;
    mret (mkMilestoneMutation current projectVersion)).

Definition Milestones_ApplyLifecycleVersionedWithOperation (projectID : UUID) (expectedProjectVersion : Z)
    (milestoneID : UUID) (expectedMilestoneVersion : Z) (action : MilestoneLifecycleAction) (actor : OperationActor)
    (reason : string) (now : Time) : PlanM MilestoneMutation :=
  st_lift (OperationActor_Validate actor);;
  plan_tx (
    projectVersion ← lockVersion "projects" projectID;
    expect_version projectVersion expectedProjectVersion;;
    old ← Milestones_Get projectID milestoneID;
    expect_version (ms_Version old) expectedMilestoneVersion;;
    readiness ← st_get (fun p => milestoneReadiness (pl_db p) (ms_ID old));
    moved ← st_lift (milestone_action action old readiness actor reason now);
    milestone ← update_milestone_version moved (ms_UpdatedAt moved) ErrOther;
    projectVersion ← incrementVersion "projects" projectID projectVersion now;
    record_milestone_action projectID milestoneID action actor reason (ms_Status old) milestone now;;
    mret (mkMilestoneMutation milestone projectVersion)).
End stores.
