(* ===== verification/CriteriaStore.v ===== *)
(** * The store of acceptance criteria and checks

    internal/store/acceptance_store.go and acceptance_versioned_store.go over the tables
    acceptance_criteria and acceptance_checks: criteria of Milestones and Tasks are created, edited,
    checked and removed, and every change also advances the versions of their owners. *)

From stdpp Require Import base tactics strings gmap list numbers sorting.
From S2P Require Import Prelude Actors Lifecycle StageClaim Delivery Thread Acceptance Database Tx State.
From S2P Require Import ThreadStore ClaimStore WorkflowStore WorkflowCommands TaskStore Access Membership PlanningStore.

Section stores.
Context `{UUIDSource}.

(** ** Statements *)

(** The CHECKs of [acceptance_criteria]. *)
Definition criteria_checks (c : AcceptanceCriterion) : bool :=
  (0 <? ac_Revision c) && (0 <=? ac_Position c) && (0 <? ac_Version c) &&
  (present (ac_MilestoneID c) != present (ac_TaskID c)) &&
  negb (GoStrings.btrim_empty (ac_Criterion c)) && negb (GoStrings.btrim_empty (ac_VerificationInstructions c)).

Definition criterion_fks (p : PlanWorld) (c : AcceptanceCriterion) : bool :=
  fk (ac_MilestoneID c) (dom (pl_milestones p)) && fk (ac_TaskID c) (dom (tasks (pl_db p))).

(** [INSERT INTO acceptance_criteria (...) RETURNING ...] *)
Definition insert_criterion (criterion : AcceptanceCriterion) (now : Time) : PlanM AcceptanceCriterion :=
  let c := mkAcceptanceCriterion (ac_ID criterion) 1 (ac_MilestoneID criterion) (ac_TaskID criterion)
             (ac_Criterion criterion) (ac_VerificationInstructions criterion) (ac_Revision criterion)
             (ac_Position criterion) None now now in
  p ← st_get (fun p => p);
  st_fail (negb (in_int4 (ac_Revision c) && in_int4 (ac_Position c))) ErrOther;;
  st_fail (negb (criteria_checks c)) ErrInvalidInput;;
  st_fail (present (acceptance_criteria (pl_db p) !! ac_ID c)) ErrConflict;;
  st_fail (negb (criterion_fks p c)) ErrInvalidInput;;
  st_mod (set_db (put_criterion c));;
  mret c.

(** [UPDATE acceptance_criteria SET criterion, verification_instructions, revision, position,
    updated_at=now() WHERE id=$1]: [c] has the new values. *)
Definition update_criterion (c : AcceptanceCriterion) : PlanM unit :=
  st_fail (negb (in_int4 (ac_Revision c) && in_int4 (ac_Position c))) ErrOther;;
  st_fail (negb (criteria_checks c)) ErrInvalidInput;;
  st_mod (set_db (put_criterion c)).
Definition criterion_updated (c : AcceptanceCriterion) (now : Time) : AcceptanceCriterion :=
  mkAcceptanceCriterion (ac_ID c) (ac_Version c) (ac_MilestoneID c) (ac_TaskID c) (ac_Criterion c)
    (ac_VerificationInstructions c) (ac_Revision c) (ac_Position c) (ac_ArchivedAt c) (ac_CreatedAt c) now.
(** [SET archived_at=now(), updated_at=now()] *)
Definition criterion_archived (c : AcceptanceCriterion) (now : Time) : AcceptanceCriterion :=
  mkAcceptanceCriterion (ac_ID c) (ac_Version c) (ac_MilestoneID c) (ac_TaskID c) (ac_Criterion c)
    (ac_VerificationInstructions c) (ac_Revision c) (ac_Position c) (Some now) (ac_CreatedAt c) now.
Definition delete_criterion (id : UUID) (d : DB) : DB := set_criteria (delete id (acceptance_criteria d)) d.

(** The columns of the checker: a user by identifier, another one by reference. *)
Definition checker_columns (checker : Actor) : option UUID * option string :=
  if actor_Type checker == ActorTypeUser then (actor_UserID checker, None)
  else (None, Some (TrimSpace (actor_Ref checker))).

(** The row of a check without a Claim and a review cycle. *)
Definition plain_check_row (c : AcceptanceCheck) : CheckRow :=
  {| k_id := ck_ID c; k_criterion_id := ck_CriterionID c; k_criterion_revision := ck_CriterionRevision c;
     k_outcome := ck_Outcome c; k_evidence := ck_Evidence c; k_checker_type := actor_Type (ck_Checker c);
     k_checked_by_user_id := (checker_columns (ck_Checker c)).1; k_checker_ref := (checker_columns (ck_Checker c)).2;
     k_checked_at := ck_CheckedAt c; k_purpose := None; k_task_stage_claim_id := None; k_task_review_cycle := None |}.

Definition with_check_id (c : AcceptanceCheck) (id : UUID) (now : Time) : AcceptanceCheck :=
  mkAcceptanceCheck id (ck_CriterionID c) (ck_CriterionRevision c) (ck_Outcome c) (ck_Evidence c) (ck_Checker c)
    (ck_Purpose c) (ck_TaskClaimID c) (ck_TaskReviewCycle c)
    (if Time_IsZero (ck_CheckedAt c) then now else ck_CheckedAt c).

(** The identifier and the time of a check and its [INSERT]. *)
Definition store_check (check : AcceptanceCheck) (now : Time) : PlanM AcceptanceCheck :=
  id ← or_new (ck_ID check);
  let check := with_check_id check id now in
  on_world (insert_check_row (plain_check_row check));;
  mret check.

Definition check_audit (c : AcceptanceCheck) : AuditValue :=
  AuditCheck (ck_CriterionID c) (ck_CriterionRevision c) (ck_Outcome c) (ck_Evidence c) (actor_Type (ck_Checker c))
    (checker_columns (ck_Checker c)).1 (checker_columns (ck_Checker c)).2.
Definition criterion_audit (with_owner : bool) (c : AcceptanceCriterion) : AuditValue :=
  AuditCriterion (if with_owner then Some (ac_MilestoneID c, ac_TaskID c) else None) (ac_Criterion c)
    (ac_VerificationInstructions c) (ac_Revision c) (ac_Position c).

(** [if actor != nil { InsertBusinessAudit }] *)
Definition audit_if (actor : option OperationActor) (entityType : string) (entityID : UUID) (action : string)
    (old new : option AuditValue) (now : Time) : PlanM unit :=
  match actor with
  | Some actor => audit entityType entityID None action old new actor now
  | None => mret tt
  end.

(** ** internal/store/acceptance_store.go *)

(** The identifier and the revision that a new criterion defaults to. *)
Definition new_criterion (id : UUID) (c : AcceptanceCriterion) : AcceptanceCriterion :=
  mkAcceptanceCriterion id (ac_Version c) (ac_MilestoneID c) (ac_TaskID c) (ac_Criterion c)
    (ac_VerificationInstructions c) (if ac_Revision c =? 0 then 1 else ac_Revision c) (ac_Position c)
    (ac_ArchivedAt c) (ac_CreatedAt c) (ac_UpdatedAt c).

Definition Acceptance_create (criterion : AcceptanceCriterion) (actor : option OperationActor) (now : Time)
    : PlanM AcceptanceCriterion :=
  id ← or_new (ac_ID criterion);
  let criterion := new_criterion id criterion in
  st_lift (AcceptanceCriterion_Validate criterion);;
  plan_tx (
    out ← insert_criterion criterion now;
    audit_if actor "acceptance_criterion" (ac_ID out) "created" None (Some (criterion_audit true out)) now;;
    mret out).
Definition Acceptance_Create (criterion : AcceptanceCriterion) (now : Time) : PlanM AcceptanceCriterion :=
  Acceptance_create criterion None now.
Definition Acceptance_CreateWithOperation (criterion : AcceptanceCriterion) (actor : OperationActor) (now : Time)
    : PlanM AcceptanceCriterion :=
  st_lift (OperationActor_Validate actor);;
  Acceptance_create criterion (Some actor) now.

Definition Acceptance_Get (criterionID : UUID) : PlanM AcceptanceCriterion :=
  found ← st_get (fun p => acceptance_criteria (pl_db p) !! criterionID); st_or_err found ErrNotFound.

Record CriterionWithCurrentCheck := mkCriterionWithCurrentCheck {
  cw_Criterion : AcceptanceCriterion;
  cw_CurrentCheck : option AcceptanceCheck;
}.
(** A check as [list] reads it back. *)
Definition scan_check (criterionID : UUID) (k : CheckRow) : AcceptanceCheck :=
  mkAcceptanceCheck (k_id k) criterionID (k_criterion_revision k) (k_outcome k) (k_evidence k)
    (mkActor (k_checker_type k) (k_checked_by_user_id k) (of_null (k_checker_ref k))) (of_null (k_purpose k))
    (k_task_stage_claim_id k) (k_task_review_cycle k) (k_checked_at k).
(** [ORDER BY ac.position, ac.created_at, ac.id] *)
Definition criterion_le (c e : AcceptanceCriterion) : Prop :=
  ac_Position c < ac_Position e \/
  (ac_Position c = ac_Position e /\ key_le (ac_CreatedAt c, ac_ID c) (ac_CreatedAt e, ac_ID e)).
#[global] Instance criterion_le_dec c e : Decision (criterion_le c e).
Proof. unfold criterion_le. apply _. Defined.
Definition list_criteria (owned : AcceptanceCriterion -> bool) (claimID : option UUID) : PlanM (list CriterionWithCurrentCheck) :=
  st_get (fun p =>
    (fun c => mkCriterionWithCurrentCheck c (scan_check (ac_ID c) <$> current_check (pl_db p) claimID c)) <$>
    merge_sort criterion_le (select (fun c => owned c && negb (present (ac_ArchivedAt c))) (acceptance_criteria (pl_db p)))).
Definition ListForMilestone (milestoneID : UUID) := list_criteria (fun c => ac_MilestoneID c == Some milestoneID) None.
Definition ListForTask (taskID : UUID) := list_criteria (fun c => ac_TaskID c == Some taskID) None.
Definition ListForTaskClaim (taskID claimID : UUID) := list_criteria (fun c => ac_TaskID c == Some taskID) (Some claimID).

(** [Edit] and [Move] with the values of a patch. *)
Definition edited_criterion (c : AcceptanceCriterion) (criterionText instructions : option string) (position : option Z)
    (now : Time) : AcceptanceCriterion :=
  let c' := AcceptanceCriterion_Edit c (patched criterionText (ac_Criterion c))
              (patched instructions (ac_VerificationInstructions c)) now in
  match position with Some n => AcceptanceCriterion_Move c' n now | None => c' end.

Definition Acceptance_update (criterionID : UUID) (criterionText instructions : option string) (position : option Z)
    (actor : option OperationActor) (now : Time) : PlanM AcceptanceCriterion :=
  plan_tx (
    old ← Acceptance_Get criterionID;
    let current := edited_criterion old criterionText instructions position now in
    st_lift (AcceptanceCriterion_Validate current);;
    update_criterion (criterion_updated current now);;
    audit_if actor "acceptance_criterion" (ac_ID current) "updated" (Some (criterion_audit false old))
      (Some (criterion_audit false current)) now);;
  Acceptance_Get criterionID.
Definition Acceptance_Update (criterionID : UUID) (criterionText instructions : option string) (position : option Z)
    (now : Time) := Acceptance_update criterionID criterionText instructions position None now.
Definition Acceptance_UpdateWithOperation (criterionID : UUID) (criterionText instructions : option string)
    (position : option Z) (actor : OperationActor) (now : Time) : PlanM AcceptanceCriterion :=
  st_lift (OperationActor_Validate actor);;
  Acceptance_update criterionID criterionText instructions position (Some actor) now.

Definition addCheck (check : AcceptanceCheck) (actor : option OperationActor) (now : Time) : PlanM AcceptanceCheck :=
  plan_tx (
    criterion ← Acceptance_Get (ck_CriterionID check);
    st_lift (ValidateAgainst check criterion);;
    check ← store_check check now;
    audit_if actor "acceptance_check" (ck_ID check) "created" None (Some (check_audit check)) now;;
    mret check).
Definition AddCheck (check : AcceptanceCheck) (now : Time) : PlanM AcceptanceCheck := addCheck check None now.
Definition AddCheckWithOperation (check : AcceptanceCheck) (actor : OperationActor) (now : Time) : PlanM AcceptanceCheck :=
  st_lift (OperationActor_Validate actor);;
  addCheck check (Some actor) now.

(** [WHERE ac.id=$1 AND ac.archived_at IS NULL] *)
Definition lock_active_criterion (criterionID : UUID) : PlanM AcceptanceCriterion :=
  found ← st_get (fun p => acceptance_criteria (pl_db p) !! criterionID);
  c ← st_or_err found ErrNotFound;
  st_fail (present (ac_ArchivedAt c)) ErrNotFound;;
  mret c.
(** [SELECT count( * ) FROM acceptance_checks WHERE criterion_id=$1] *)
Definition checks_of (d : DB) (criterionID : UUID) : list CheckRow :=
  select (fun k => k_criterion_id k == criterionID) (acceptance_checks d).
Definition check_count (d : DB) (criterionID : UUID) : Z := Z.of_nat (length (checks_of d criterionID)).

(** The scope of an active Milestone shrinks only with a reason, and never to nothing. *)
Definition guard_active_scope (milestoneID : UUID) (status : MilestoneStatus) (reason : string) : PlanM unit :=
  if status == MilestoneStatusActive then
    st_fail (blank reason) ErrInvalidInput;;
    active ← st_get (fun p => length (milestone_criteria (pl_db p) milestoneID));
    st_fail (Z.of_nat active <=? 1) ErrConflict
  else mret tt.

(** Deletes a criterion or archives it. *)
Definition drop_criterion (remove : bool) (c : AcceptanceCriterion) (now : Time) : PlanM unit :=
  if remove then st_mod (set_db (delete_criterion (ac_ID c)))
  else st_mod (set_db (put_criterion (criterion_archived c now))).

Definition RemoveCriterionWithOperation (criterionID : UUID) (actor : OperationActor) (reason : string) (now : Time)
    : PlanM unit :=
  st_lift (OperationActor_Validate actor);;
  plan_tx (
    c ← lock_active_criterion criterionID;
    checkCount ← st_get (fun p => check_count (pl_db p) criterionID);
    match ac_TaskID c with
    | Some taskID =>
        drop_criterion (checkCount =? 0) c now;;
        audit "acceptance_criterion" criterionID None "removed"
          (Some (AuditCriterionRemoved (Some taskID) (TrimSpace reason) checkCount)) None actor now
    | None =>
        found ← st_get (fun p => id ← ac_MilestoneID c; m ← pl_milestones p !! id; Some (id, m));
        '(milestoneID, m) ← st_or_err found ErrOther;
        guard_active_scope milestoneID (ms_Status m) reason;;
        let removed := (ms_Status m == MilestoneStatusPlanned) && (checkCount =? 0) in
        let action := if removed then "acceptance_criterion_removed" else "acceptance_criterion_archived" in
        drop_criterion removed c now;;
        record_project_activity (ms_ProjectID m) None actor action (Some (TrimSpace reason))
          (Some (ActivityID criterionID)) None now;;
        audit "acceptance_criterion" criterionID None action
          (Some (AuditCriterionRemoved (Some milestoneID) (TrimSpace reason) checkCount)) None actor now
    end).
Definition RemoveCriterion (criterionID : UUID) (actor : Actor) (reason : string) (now : Time) : PlanM unit :=
  if negb (Actor_IsHuman actor) then st_throw ErrForbidden
  else match actor_UserID actor with
       | None => st_throw ErrForbidden
       | Some userID => RemoveCriterionWithOperation criterionID (SessionOperation userID "internal") reason now
       end.

(** ** internal/store/acceptance_versioned_store.go *)

Record ownerExpectations := mkOwnerExpectations {
  oe_projectID : UUID;
  oe_task : option Z;
  oe_project : option Z;
  oe_milestone : option Z;
}.
(** The owners of a criterion with their versions: [has...] is [Some]. *)
Record ownerVersions := mkOwnerVersions {
  ov_task : option (UUID * Z);
  ov_project : option (UUID * Z);
  ov_milestone : option (UUID * Z);
}.
Record CriterionMutation := mkCriterionMutation {
  cm_Criterion : AcceptanceCriterion;
  cm_TaskVersion : option Z;
  cm_ProjectVersion : option Z;
  cm_MilestoneVersion : option Z;
}.
Record AcceptanceCheckMutation := mkAcceptanceCheckMutation {
  am_Check : AcceptanceCheck;
  am_CriterionVersion : Z;
  am_TaskVersion : option Z;
  am_ProjectVersion : option Z;
  am_MilestoneVersion : option Z;
}.
Definition taskResult (v : ownerVersions) : option Z := snd <$> ov_task v.
Definition projectResult (v : ownerVersions) : option Z := snd <$> ov_project v.
Definition milestoneResult (v : ownerVersions) : option Z := snd <$> ov_milestone v.
Definition criterionMutation (criterion : AcceptanceCriterion) (versions : ownerVersions) : CriterionMutation :=
  mkCriterionMutation criterion (taskResult versions) (projectResult versions) (milestoneResult versions).

(** [if expected == nil || version != *expected] *)
Definition expect_owner (version : Z) (expected : option Z) : PlanM unit :=
  st_fail (expected != Some version) (VersionConflictError version).

Definition lockCriterionOwnersForCreate (criterion : AcceptanceCriterion) (expected : ownerExpectations) : PlanM ownerVersions :=
  match ac_TaskID criterion, ac_MilestoneID criterion with
  | Some taskID, _ =>
      value ← lockVersion "tasks" taskID;
      expect_owner value (oe_task expected);;
      mret (mkOwnerVersions (Some (taskID, value)) None None)
  | None, Some milestoneID =>
      let projectID := oe_projectID expected in
      projectVersion ← lockVersion "projects" projectID;
      expect_owner projectVersion (oe_project expected);;
      found ← st_get (fun p => pl_milestones p !! milestoneID);
      m ← st_or_err found ErrNotFound;
      st_fail (ms_ProjectID m != projectID) ErrNotFound;;
      milestoneVersion ← lockVersion "milestones" milestoneID;
      expect_owner milestoneVersion (oe_milestone expected);;
      mret (mkOwnerVersions None (Some (projectID, projectVersion)) (Some (milestoneID, milestoneVersion)))
  | None, None => mret (mkOwnerVersions None None None)
  end.

Definition lockCriterionAndOwners (criterionID : UUID) : PlanM (AcceptanceCriterion * ownerVersions) :=
  c ← lock_active_criterion criterionID;
  versions ← match ac_TaskID c, ac_MilestoneID c with
    | Some taskID, _ =>
        value ← lockVersion "tasks" taskID;
        mret (mkOwnerVersions (Some (taskID, value)) None None)
    | None, Some milestoneID =>
        found ← st_get (fun p => pl_milestones p !! milestoneID);
        m ← st_or_err found ErrOther;
        projectVersion ← lockVersion "projects" (ms_ProjectID m);
        milestoneVersion ← lockVersion "milestones" milestoneID;
        mret (mkOwnerVersions None (Some (ms_ProjectID m, projectVersion)) (Some (milestoneID, milestoneVersion)))
    | None, None => mret (mkOwnerVersions None None None)
    end;
  criterion ← lock_active_criterion criterionID;
  mret (criterion, versions).

(** One owner, if there is one. *)
Definition increment_owner (table : string) (owner : option (UUID * Z)) (now : Time) : PlanM (option (UUID * Z)) :=
  match owner with
  | Some (id, version) => version ← incrementVersion table id version now; mret (Some (id, version))
  | None => mret None
  end.
Definition incrementCriterionOwners (versions : ownerVersions) (now : Time) : PlanM ownerVersions :=
  project ← increment_owner "projects" (ov_project versions) now;
  milestone ← increment_owner "milestones" (ov_milestone versions) now;
  task ← increment_owner "tasks" (ov_task versions) now;
  mret (mkOwnerVersions task project milestone).

Definition auditCriterionOwnerChange (actor : OperationActor) (criterion : AcceptanceCriterion) (action : string) (now : Time)
    : PlanM unit :=
  let value := Some (AuditCriterionChange (ac_ID criterion) (ac_Revision criterion)) in
  match ac_TaskID criterion, ac_MilestoneID criterion with
  | Some taskID, _ =>
      found ← st_get (fun p => tasks (pl_db p) !! taskID);
      t ← st_or_err found ErrOther;
      audit "task" taskID (Some (t_number t)) action None value actor now
  | None, Some milestoneID =>
      found ← st_get (fun p => pl_milestones p !! milestoneID);
      m ← st_or_err found ErrOther;
      audit "milestone" milestoneID None action None value actor now;;
      found ← st_get (fun p => pl_projects p !! ms_ProjectID m);
      x ← st_or_err found ErrOther;
      audit "project" (ms_ProjectID m) (Some (p_Number x)) action None value actor now
  | None, None => mret tt
  end.

Definition createVersioned (criterion : AcceptanceCriterion) (actor : OperationActor) (expected : ownerExpectations)
    (now : Time) : PlanM CriterionMutation :=
  st_lift (OperationActor_Validate actor);;
  id ← or_new (ac_ID criterion);
  let criterion := new_criterion id criterion in
  st_lift (AcceptanceCriterion_Validate criterion);;
  plan_tx (
    versions ← lockCriterionOwnersForCreate criterion expected;
    created ← insert_criterion criterion now;
    versions ← incrementCriterionOwners versions now;
    audit "acceptance_criterion" (ac_ID created) None "created" None (Some (criterion_audit true created)) actor now;;
    auditCriterionOwnerChange actor created "criterion_created" now;;
    mret (criterionMutation created versions)).

Definition with_owner (c : AcceptanceCriterion) (milestoneID taskID : option UUID) : AcceptanceCriterion :=
  mkAcceptanceCriterion (ac_ID c) (ac_Version c) milestoneID taskID (ac_Criterion c) (ac_VerificationInstructions c)
    (ac_Revision c) (ac_Position c) (ac_ArchivedAt c) (ac_CreatedAt c) (ac_UpdatedAt c).
Definition CreateTaskCriterionVersioned (taskID : UUID) (expectedTaskVersion : Z) (criterion : AcceptanceCriterion)
    (actor : OperationActor) (now : Time) : PlanM CriterionMutation :=
  createVersioned (with_owner criterion (ac_MilestoneID criterion) (Some taskID)) actor
    (mkOwnerExpectations uuid_Nil (Some expectedTaskVersion) None None) now.
Definition CreateMilestoneCriterionVersioned (projectID : UUID) (expectedProjectVersion : Z) (milestoneID : UUID)
    (expectedMilestoneVersion : Z) (criterion : AcceptanceCriterion) (actor : OperationActor) (now : Time)
    : PlanM CriterionMutation :=
  createVersioned (with_owner criterion (Some milestoneID) (ac_TaskID criterion)) actor
    (mkOwnerExpectations projectID None (Some expectedProjectVersion) (Some expectedMilestoneVersion)) now.

Definition UpdateCriterionVersioned (criterionID : UUID) (expectedVersion : Z) (criterionText instructions : option string)
    (position : option Z) (actor : OperationActor) (now : Time) : PlanM CriterionMutation :=
  st_lift (OperationActor_Validate actor);;
  plan_tx (
    '(old, versions) ← lockCriterionAndOwners criterionID;
    expect_version (ac_Version old) expectedVersion;;
    let edited := edited_criterion old criterionText instructions position now in
    st_lift (AcceptanceCriterion_Validate edited);;
    st_fail (ac_Version edited =? MaxInt64) ErrOther;;
    let current := criterion_bumped edited now in
    update_criterion current;;
    versions ← incrementCriterionOwners versions now;
    audit "acceptance_criterion" (ac_ID current) None "updated" (Some (criterion_audit false old))
      (Some (criterion_audit false current)) actor now;;
    auditCriterionOwnerChange actor current "criterion_updated" now;;
    mret (criterionMutation current versions)).

Definition with_criterion_id (c : AcceptanceCheck) (id : UUID) : AcceptanceCheck :=
  mkAcceptanceCheck (ck_ID c) id (ck_CriterionRevision c) (ck_Outcome c) (ck_Evidence c) (ck_Checker c)
    (ck_Purpose c) (ck_TaskClaimID c) (ck_TaskReviewCycle c) (ck_CheckedAt c).

Definition addCheckVersioned (criterionID : UUID) (expectedVersion : Z) (check : AcceptanceCheck) (actor : OperationActor)
    (guard : option (PlanM UUID)) (now : Time) : PlanM AcceptanceCheckMutation :=
  st_lift (OperationActor_Validate actor);;
  plan_tx (
    guardedTaskID ← match guard with Some g => taskID ← g; mret (Some taskID) | None => mret None end;
    '(criterion, versions) ← lockCriterionAndOwners criterionID;
    st_fail (present guardedTaskID && (ac_TaskID criterion != guardedTaskID)) ErrForbidden;;
    expect_version (ac_Version criterion) expectedVersion;;
    let check := with_criterion_id check criterionID in
    st_lift (ValidateAgainst check criterion);;
    check ← store_check check now;
    version ← incrementVersion "acceptance_criteria" (ac_ID criterion) (ac_Version criterion) now;
    versions ← incrementCriterionOwners versions now;
    audit "acceptance_check" (ck_ID check) None "created" None (Some (check_audit check)) actor now;;
    auditCriterionOwnerChange actor criterion "acceptance_checked" now;;
    mret (mkAcceptanceCheckMutation check version (taskResult versions) (projectResult versions) (milestoneResult versions))).

Definition AddCheckVersioned (criterionID : UUID) (expectedVersion : Z) (check : AcceptanceCheck) (actor : OperationActor)
    (now : Time) : PlanM AcceptanceCheckMutation :=
  addCheckVersioned criterionID expectedVersion check actor None now.

(** The Task of an active legacy Claim that the caller holds. *)
Definition claim_guard (claimID : UUID) (clientKind clientSessionID : string) (actor : OperationActor) (now : Time)
    : PlanM UUID :=
  st_fail (op_AuthMethod actor != AuthenticationMethodAPIToken) ErrForbidden;;
  found ← st_get (fun p =>
    c ← task_claims (pl_db p) !! claimID;
    cc ← pl_claim_clients p !! claimID;
    if (cc_claimed_by_user_id cc == op_UserID actor) && (cc_client_kind cc == TrimSpace clientKind) &&
       (cc_client_session_id cc == TrimSpace clientSessionID) && (lc_status c == "active") && (now <? cc_expires_at cc)
    then Some (lc_task_id c) else None);
  st_or_err found ErrForbidden.
Definition AddClaimCheckVersioned (claimID : UUID) (clientKind clientSessionID : string) (criterionID : UUID)
    (expectedVersion : Z) (check : AcceptanceCheck) (actor : OperationActor) (now : Time) : PlanM AcceptanceCheckMutation :=
  addCheckVersioned criterionID expectedVersion check actor (Some (claim_guard claimID clientKind clientSessionID actor now)) now.

Definition RemoveCriterionVersioned (criterionID : UUID) (expectedVersion : Z) (actor : OperationActor) (reason : string)
    (now : Time) : PlanM unit :=
  st_lift (OperationActor_Validate actor);;
  plan_tx (
    '(criterion, versions) ← lockCriterionAndOwners criterionID;
    expect_version (ac_Version criterion) expectedVersion;;
    checkCount ← st_get (fun p => check_count (pl_db p) criterionID);
    match ac_MilestoneID criterion with
    | Some milestoneID =>
        found ← st_get (fun p => pl_milestones p !! milestoneID);
        m ← st_or_err found ErrOther;
        guard_active_scope milestoneID (ms_Status m) reason
    | None => mret tt
    end;;
    (if checkCount =? 0 then drop_criterion true criterion now
     else st_fail (ac_Version criterion =? MaxInt64) ErrOther;;
          drop_criterion false (criterion_bumped criterion now) now);;
    _ ← incrementCriterionOwners versions now;
    audit "acceptance_criterion" criterionID None "removed"
      (Some (AuditCriterionRemoved None (TrimSpace reason) checkCount)) None actor now;;
    auditCriterionOwnerChange actor criterion "criterion_removed" now).
End stores.
