(* ===== verification/PlanningEffects.v ===== *)
(** * Planning commands as sequences of statements

    What a command of the stores of Projects, Milestones and criteria does to the tables is a sequence
    of edits, whether it succeeds or fails; what every edit keeps, every command keeps. *)

From stdpp Require Import base tactics strings gmap list numbers sorting relations.
From S2P Require Import Prelude Actors Lifecycle StageClaim Delivery Thread Acceptance Database Tx State.
From S2P Require Import ThreadStore ClaimStore WorkflowStore WorkflowCommands TaskStore WorkflowEffects.
From S2P Require Import Access Membership PlanningStore CriteriaStore.

(** ** Keys *)

(** The values that the columns of a criterion can hold. *)
Definition criterion_row (c : AcceptanceCriterion) : bool := criteria_checks c && in_int4 (ac_Revision c).

(** Every row is stored under its identifier, and every criterion meets the CHECKs of its table. *)
Record keyed (p : PlanWorld) : Prop := {
  ky_projects : forall i x, pl_projects p !! i = Some x -> p_ID x = i;
  ky_milestones : forall i m, pl_milestones p !! i = Some m -> ms_ID m = i;
  ky_criteria : forall i c, acceptance_criteria (pl_db p) !! i = Some c -> ac_ID c = i /\ criterion_row c = true;
}.

(** ** Edits *)

Definition archivable (p : PlanWorld) (x : Project) : Prop :=
  (forall i m, pl_milestones p !! i = Some m -> ms_ProjectID m = p_ID x ->
     ms_Status m <> MilestoneStatusPlanned /\ ms_Status m <> MilestoneStatusActive) /\
  (forall i t, tasks (pl_db p) !! i = Some t -> t_project_id t = p_ID x -> unfinished t = false).

(** What may occur in a sequence of edits: lifecycle actions of Milestones, the status of new
    Milestones, and archive actions of Projects. *)
Record Extent := mkExtent {
  moves : MilestoneLifecycleAction -> Prop;
  births : MilestoneStatus -> Prop;
  archives : ProjectLifecycleAction -> Prop;
}.
Definition quiet : Extent := mkExtent (fun _ => False) (fun _ => False) (fun _ => False).

Section effects.
Context (ext : Extent).

(** The row [x'] that may replace [x]. *)
Record project_change (p : PlanWorld) (x x' : Project) : Prop := {
  pc_id : p_ID x' = p_ID x;
  pc_number : p_Number x' = p_Number x;
  pc_creator : p_CreatorID x' = p_CreatorID x;
  pc_created : p_CreatedAt x' = p_CreatedAt x;
  pc_version : p_Version x' = p_Version x + 1;
  pc_bound : p_Version x <> MaxInt64;
  pc_archive : p_ArchivedAt x' = p_ArchivedAt x \/ (archives ext ProjectActionRestore /\ p_ArchivedAt x' = None) \/
    (archives ext ProjectActionArchive /\ archivable p x);
}.

(** A Milestone keeps its status and dates, or moves by a lifecycle action. *)
Inductive milestone_move (p : PlanWorld) (m m' : Milestone) : Prop :=
| mv_stay : ms_Status m' = ms_Status m -> ms_CompletedAt m' = ms_CompletedAt m -> ms_CancelledAt m' = ms_CancelledAt m ->
    milestone_move p m m'
| mv_action action actor reason now m1 :
    moves ext action ->
    milestone_action action m (milestoneReadiness (pl_db p) (ms_ID m)) actor reason now = Ok m1 ->
    ms_Status m' = ms_Status m1 -> ms_CompletedAt m' = ms_CompletedAt m1 -> ms_CancelledAt m' = ms_CancelledAt m1 ->
    milestone_move p m m'.
Record milestone_change (p : PlanWorld) (m m' : Milestone) : Prop := {
  mc_id : ms_ID m' = ms_ID m;
  mc_project : ms_ProjectID m' = ms_ProjectID m;
  mc_created : ms_CreatedAt m' = ms_CreatedAt m;
  mc_version : ms_Version m <= ms_Version m' <= ms_Version m + 1;
  mc_move : milestone_move p m m';
}.

(** A criterion keeps its owner; its text changes only with its revision. *)
Record criterion_change (c c' : AcceptanceCriterion) : Prop := {
  cg_id : ac_ID c' = ac_ID c;
  cg_milestone : ac_MilestoneID c' = ac_MilestoneID c;
  cg_task : ac_TaskID c' = ac_TaskID c;
  cg_created : ac_CreatedAt c' = ac_CreatedAt c;
  cg_version : ac_Version c <= ac_Version c' <= ac_Version c + 1;
  cg_text : (ac_Revision c' = ac_Revision c /\ ac_Criterion c' = ac_Criterion c /\
             ac_VerificationInstructions c' = ac_VerificationInstructions c) \/
            ac_Revision c' = ac_Revision c + 1;
}.

(** An active Milestone has another criterion. *)
Definition droppable (p : PlanWorld) (c : AcceptanceCriterion) : Prop :=
  forall i m, ac_MilestoneID c = Some i -> pl_milestones p !! i = Some m -> ms_Status m = MilestoneStatusActive ->
    (2 <= length (milestone_criteria (pl_db p) i))%nat.

Definition drawn (n : nat) (k : Z) (p : PlanWorld) : PlanWorld := set_numbers k (set_world (mkWorld (pl_db p) n) p).

Inductive edit : PlanWorld -> PlanWorld -> Prop :=
| edit_drawn p n k : edit p (drawn n k p)
| edit_audit p e : edit p (set_db (add_audit e) p)
| edit_activity p y : edit p (add_project_activity y p)
| edit_member p r : pl_memberships p !! mr_id r = None -> edit p (put_membership r p)
| edit_project_new p x :
    pl_projects p !! p_ID x = None -> p_Version x = 1 -> p_ArchivedAt x = None ->
    edit p (set_db (fun d => set_project_keys ({[p_ID x]} ∪ projects d) d) (put_project x p))
| edit_project p x x' :
    pl_projects p !! p_ID x = Some x -> project_change p x x' -> edit p (put_project x' p)
| edit_milestone_new p m :
    pl_milestones p !! ms_ID m = None -> ms_Version m = 1 -> births ext (ms_Status m) -> is_Some (pl_projects p !! ms_ProjectID m) ->
    edit p (set_db (fun d => set_milestone_keys ({[(ms_ProjectID m, ms_ID m)]} ∪ milestones d) d) (put_milestone m p))
| edit_milestone p m m' :
    pl_milestones p !! ms_ID m = Some m -> milestone_change p m m' -> edit p (put_milestone m' p)
| edit_criterion_new p c :
    acceptance_criteria (pl_db p) !! ac_ID c = None -> criterion_row c = true -> ac_ArchivedAt c = None ->
    criterion_fks p c = true -> edit p (set_db (put_criterion c) p)
| edit_criterion p c c' :
    acceptance_criteria (pl_db p) !! ac_ID c = Some c -> criterion_row c' = true -> criterion_change c c' ->
    ac_ArchivedAt c' = ac_ArchivedAt c -> edit p (set_db (put_criterion c') p)
| edit_criterion_archived p c c' :
    acceptance_criteria (pl_db p) !! ac_ID c = Some c -> ac_ArchivedAt c = None -> criterion_row c' = true ->
    criterion_change c c' -> droppable p c -> edit p (set_db (put_criterion c') p)
| edit_criterion_deleted p c :
    acceptance_criteria (pl_db p) !! ac_ID c = Some c -> ac_ArchivedAt c = None -> checks_of (pl_db p) (ac_ID c) = [] ->
    droppable p c -> edit p (set_db (delete_criterion (ac_ID c)) p)
| edit_check p k c :
    acceptance_checks (pl_db p) !! k_id k = None -> acceptance_criteria (pl_db p) !! k_criterion_id k = Some c ->
    k_criterion_revision k = ac_Revision c ->
    edit p (set_db (fun d => set_checks (<[k_id k := k]> (acceptance_checks d)) d) p)
| edit_task p i t now :
    tasks (pl_db p) !! i = Some t -> t_version t <> MaxInt64 ->
    edit p (set_db (put_task i (task_bumped t now)) p).

Lemma lookup_own {V} (id : V -> UUID) (m : gmap UUID V) (x : V) :
  (forall i y, m !! i = Some y -> id y = i) -> forall i y, <[id x := x]> m !! i = Some y -> id y = i.
Proof. intros Hm i y. rewrite lookup_insert_Some. intros [[<- <-]|[_ Hy]]; [done|eauto]. Qed.

Lemma edit_keyed p p' : edit p p' -> keyed p -> keyed p'.
Proof.
  intros He [Kp Km Kc].
  destruct He; split; cbn; try done; try by apply lookup_own.
  all: intros j y; first
    [ rewrite lookup_insert_Some; intros [[<- <-]|[_ Hy]]; [by split|by apply Kc]
    | rewrite lookup_delete_Some; intros [_ Hy]; by apply Kc ].
Qed.
Lemma edits_keyed p p' : rtc edit p p' -> keyed p -> keyed p'.
Proof. induction 1; eauto using edit_keyed. Qed.

(** ** Computing what a body does *)

(** A successful run, and any run, is a sequence of edits. *)
Definition oks {A} (m : PlanM A) : Prop := forall p, keyed p -> wp m p (fun _ p' => rtc edit p p').
Definition does {A} (m : PlanM A) : Prop := forall p, keyed p -> rtc edit p (m p).2.

Lemma oks_bind {A B} (m : PlanM A) (f : A -> PlanM B) : oks m -> (forall a, oks (f a)) -> oks (m ≫= f).
Proof.
  intros Hm Hf p Hk. apply wp_bind. eapply wp_mono; [by apply Hm|]. intros a p1 H1. cbv beta in H1.
  eapply wp_mono; [by apply Hf; eapply edits_keyed|]. intros b p2 H2. by etrans.
Qed.
Lemma oks_keeps {A} (m : PlanM A) : keeps m -> oks m.
Proof. intros Hm p _ a p' E. specialize (Hm p). rewrite E in Hm. cbn in Hm. by subst. Qed.
Lemma does_oks {A} (m : PlanM A) : does m -> oks m.
Proof. intros Hm p Hk a p' E. specialize (Hm p Hk). by rewrite E in Hm. Qed.
Lemma does_bind {A B} (m : PlanM A) (f : A -> PlanM B) : does m -> (forall a, does (f a)) -> does (m ≫= f).
Proof.
  intros Hm Hf p Hk. specialize (Hm p Hk). unfold mbind, St_bind. destruct (m p) as [[a|e] p1]; [|done].
  cbn in Hm. etrans; [done|]. apply Hf. eauto using edits_keyed.
Qed.
Lemma does_keeps {A} (m : PlanM A) : keeps m -> does m.
Proof. intros Hm p _. by rewrite Hm. Qed.
Lemma does_tx {A} (m : PlanM A) : oks m -> does (plan_tx m).
Proof.
  intros Hm p Hk. unfold plan_tx. destruct (m p) as [[a|e] p'] eqn:E; cbn; [by eapply Hm|].
  apply rtc_once, (edit_drawn _ (w_next (pl_world p')) (pl_numbers p')).
Qed.
Lemma wp_plan_tx {A} (m : PlanM A) p Q : wp m p Q -> wp (plan_tx m) p Q.
Proof. intros Hm a p' E. unfold plan_tx in E. destruct (m p) as [[b|e] p1] eqn:E1; [|done]. simplify_eq. by apply Hm. Qed.
(** The rest of a body after a statement that has its reason in what the body has read. *)
Lemma wp_then {A B} (m : PlanM A) (f : A -> PlanM B) p :
  keyed p -> wp m p (fun _ p' => rtc edit p p') -> (forall a, oks (f a)) ->
  wp m p (fun a p1 => wp (f a) p1 (fun _ p' => rtc edit p p')).
Proof.
  intros Hk Hm Hf. eapply wp_mono; [exact Hm|]. intros a p1 H1. cbv beta in H1.
  eapply wp_mono; [by apply Hf; eapply edits_keyed|]. intros b p2 H2. by etrans.
Qed.

Lemma oks_fail b e : oks (st_fail b e).
Proof. apply oks_keeps. done. Qed.
Lemma oks_ret {A} (a : A) : oks (mret a).
Proof. apply oks_keeps. done. Qed.
Lemma oks_or_err {A} (o : option A) e : oks (st_or_err o e).
Proof. apply oks_keeps. done. Qed.

(** ** Statements *)

Section statements.
Context `{UUIDSource}.

Lemma on_world_Ok {A} (m : M A) p a p' :
  on_world m p = (Ok a, p') <-> exists w, m (pl_world p) = (Ok a, w) /\ p' = set_world w p.
Proof. unfold on_world. destruct (m (pl_world p)) as [[]]; naive_solver. Qed.
Lemma set_world_same p : set_world (pl_world p) p = p.
Proof. by destruct p. Qed.

Lemma does_uuid : does new_uuid.
Proof. intros p _. apply rtc_once. apply (edit_drawn p (S (w_next (pl_world p))) (pl_numbers p)). Qed.
Lemma does_or_new id : does (or_new id).
Proof. unfold or_new. case_bool_decide; [apply does_uuid|by apply does_keeps]. Qed.

Lemma oks_audit ty id number action old new actor now : oks (audit ty id number action old new actor now).
Proof.
  intros p Hk a p' (w & E & ->)%on_world_Ok. unfold InsertBusinessAudit in E. cbn [be_ID] in E.
  rewrite (bool_decide_eq_true_2 _ (eq_refl uuid_Nil)) in E. run_inv.
  etrans; [apply rtc_once, (edit_drawn p (S (w_next (pl_world p))) (pl_numbers p))|].
  apply rtc_once. eapply (edit_audit (drawn _ _ p)).
Qed.
Lemma oks_activity projectID milestoneID actor action reason old new now :
  oks (record_project_activity projectID milestoneID actor action reason old new now).
Proof.
  apply oks_bind; [apply does_oks, does_uuid|]. intros id. apply oks_bind; [by apply oks_keeps|]. intros q.
  apply oks_bind; [apply oks_fail|]. intros _ p Hk. apply wp_mod. apply rtc_once, edit_activity.
Qed.

Lemma milestone_bumped_change p m now : milestone_change p m (milestone_bumped m now).
Proof. split; try done; [cbn; lia|]. by apply mv_stay. Qed.
Lemma criterion_bumped_change c now : criterion_change c (criterion_bumped c now).
Proof. split; try done; [cbn; lia|]. by left. Qed.
Lemma criterion_row_bumped c now : criterion_row c = true -> criterion_row (criterion_bumped c now) = true.
Proof.
  unfold criterion_row, criteria_checks. rewrite !andb_true_iff. cbn [criterion_bumped ac_Version ac_Revision ac_Position ac_MilestoneID
    ac_TaskID ac_Criterion ac_VerificationInstructions]. intros ((((((? & ?) & Hv) & ?) & ?) & ?) & ?).
  apply Z.ltb_lt in Hv. split_and!; try done. apply Z.ltb_lt. lia.
Qed.

Lemma bump_edit table id now p v :
  keyed p -> versioned_table table = true -> row_version table id p = Some v -> v <> MaxInt64 ->
  edit p (bump_row table id now p).
Proof.
  intros [Kp Km Kc] Ht. unfold row_version, bump_row. apply bool_decide_eq_true in Ht.
  repeat case_bool_decide; subst; try done.
  - destruct (pl_projects p !! id) as [x|] eqn:E; [|done]. intros [= <-] Hv. eapply edit_project.
    + by rewrite (Kp _ _ E).
    + by split; auto.
  - destruct (pl_milestones p !! id) as [m|] eqn:E; [|done]. intros _ _. eapply edit_milestone.
    + by rewrite (Km _ _ E).
    + apply milestone_bumped_change.
  - destruct (acceptance_criteria (pl_db p) !! id) as [c|] eqn:E; [|done]. intros _ _.
    destruct (Kc _ _ E) as [Hid Hc]. eapply edit_criterion.
    + by rewrite Hid.
    + by apply criterion_row_bumped.
    + apply criterion_bumped_change.
    + done.
  - destruct (tasks (pl_db p) !! id) as [t|] eqn:E; [|done]. intros [= <-] Hv. by eapply edit_task.
Qed.

Lemma oks_increment table id v now : oks (incrementVersion table id v now).
Proof.
  intros p Hk. unfold incrementVersion. wp_steps. apply rtc_once. eapply bump_edit; [done| | |].
  - by apply negb_false_iff.
  - by apply negb_false_iff, bool_decide_eq_true in H1.
  - by apply Z.eqb_neq.
Qed.
Lemma oks_lock table id : oks (lockVersion table id).
Proof. apply oks_keeps. unfold lockVersion. auto with keeps. Qed.
Lemma oks_increment_owner table owner now : oks (increment_owner table owner now).
Proof.
  destruct owner as [[id v]|]; [|apply oks_ret]. apply oks_bind; [apply oks_increment|intros; apply oks_ret].
Qed.
Lemma oks_increment_owners versions now : oks (incrementCriterionOwners versions now).
Proof. unfold incrementCriterionOwners. repeat (apply oks_bind; [apply oks_increment_owner|intros ?]). apply oks_ret. Qed.
Lemma oks_owner_audit actor c action now : oks (auditCriterionOwnerChange actor c action now).
Proof.
  unfold auditCriterionOwnerChange. destruct (ac_TaskID c), (ac_MilestoneID c);
    repeat (apply oks_bind; [first [by apply oks_keeps|apply oks_or_err|apply oks_audit]|intros ?]);
    first [apply oks_audit|apply oks_ret].
Qed.
Lemma oks_audit_if actor ty id action old new now : oks (audit_if actor ty id action old new now).
Proof. destruct actor; [apply oks_audit|apply oks_ret]. Qed.

(** ** Inserts *)

Lemma edit_numbers p k : edit p (set_numbers k p).
Proof. destruct p as [[d n] ? ? ? ? ? ? ?]. apply (edit_drawn (mkPlanWorld (mkWorld d n) _ _ _ _ _ _ _) n k). Qed.

Lemma not_present {A} (o : option A) : present o = false -> o = None.
Proof. by destruct o. Qed.

Lemma oks_insert_project project now : oks (insert_project project now).
Proof.
  intros p Hk. unfold insert_project. cbv zeta. wp_steps. go_bool. etrans; [apply rtc_once, edit_numbers|].
  apply rtc_once, edit_project_new; try done. by apply not_present.
Qed.
Lemma oks_insert_admin projectID userID now : oks (insert_admin projectID userID now).
Proof.
  apply oks_bind; [apply does_oks, does_uuid|]. intros id p Hk. wp_steps. go_bool. apply rtc_once, edit_member.
  by apply not_present.
Qed.
Lemma oks_insert_milestone milestone now : births ext (ms_Status milestone) -> oks (insert_milestone milestone now).
Proof.
  intros Hb p Hk. unfold insert_milestone. cbv zeta. wp_steps. go_bool. apply rtc_once, edit_milestone_new; try done.
  - by apply not_present.
  - cbn. by destruct (pl_projects p !! _).
Qed.
Lemma oks_insert_criterion criterion now : oks (insert_criterion criterion now).
Proof.
  intros p Hk. unfold insert_criterion. cbv zeta. wp_steps. apply negb_false_iff in H0, H1, H3. apply andb_true_iff in H0 as [H0 _].
  apply rtc_once, edit_criterion_new; try done; [by apply not_present|]. unfold criterion_row. by rewrite H1, H0.
Qed.

(** ** Updates *)

Lemma wp_update_project p x x' now invalid :
  pl_projects p !! p_ID x = Some x -> (p_Version x' <> MaxInt64 -> project_change p x (project_bumped x' now)) ->
  wp (update_project x' now invalid) p (fun _ p' => rtc edit p p').
Proof.
  intros Hx Hc. unfold update_project. wp_steps. apply rtc_once. eapply edit_project; [done|]. by apply Hc, Z.eqb_neq.
Qed.
Lemma wp_update_milestone p m m' invalid :
  pl_milestones p !! ms_ID m = Some m -> milestone_change p m m' ->
  wp (update_milestone m' invalid) p (fun _ p' => rtc edit p p').
Proof. intros Hm Hc. unfold update_milestone. wp_steps. apply rtc_once. by eapply edit_milestone. Qed.
Lemma wp_update_milestone_version p m m' now invalid :
  pl_milestones p !! ms_ID m = Some m -> milestone_change p m (milestone_bumped m' now) ->
  wp (update_milestone_version m' now invalid) p (fun _ p' => rtc edit p p').
Proof.
  intros Hm Hc. unfold update_milestone_version. wp_steps.
  eapply wp_mono; [by eapply wp_update_milestone|]. intros [] p1 Hp1. by apply wp_ret.
Qed.

Lemma project_numbered_lookup n p x : keyed p -> project_numbered n p = Some x -> pl_projects p !! p_ID x = Some x /\ p_Number x = n.
Proof.
  intros Hk [Hn (k & Hx)]%select_one_Some. apply bool_decide_eq_true in Hn. by rewrite (ky_projects _ Hk _ _ Hx).
Qed.
Lemma milestone_of_lookup i j p m :
  milestone_of i j p = Some m <-> pl_milestones p !! j = Some m /\ ms_ProjectID m = i.
Proof.
  unfold milestone_of. destruct (pl_milestones p !! j) as [x|] eqn:E; cbn; [|split; [done|by intros [? _]]].
  case_bool_decide; split; intros Hx; try done; simplify_eq; try done; by destruct Hx; simplify_eq.
Qed.
Lemma milestone_of_own i j p m : keyed p -> milestone_of i j p = Some m -> pl_milestones p !! ms_ID m = Some m /\ ms_ID m = j.
Proof. intros Hk [Hm _]%milestone_of_lookup. by rewrite (ky_milestones _ Hk _ _ Hm). Qed.

Lemma readiness_archivable p x x' now :
  Project_Archive x (projectArchiveReadiness p (p_ID x)) now = Ok x' -> archivable p x.
Proof.
  unfold Project_Archive, projectArchiveReadiness. cbn. intros E. repeat (apply bind_Ok in E as (? & ?%fail_if_Ok & E)).
  assert (forall {V} (f : V -> bool) (m : gmap UUID V) i v, (0 <? Z.of_nat (length (select f m))) = false ->
    m !! i = Some v -> f v = false) as Hs.
  { intros V f m i v Hl Hi. apply not_true_is_false. intros Hf. assert (v ∈ select f m) as Hin by (apply elem_of_select; eauto).
    apply Z.ltb_ge in Hl. destruct (select f m); [set_solver|cbn in Hl; lia]. }
  split.
  - intros i m Hm Hp. pose proof (Hs _ _ _ _ _ H0 Hm) as Hf. cbn in Hf. rewrite Hp, bool_decide_eq_true_2 in Hf by done.
    apply bool_decide_eq_false in Hf. split; intros E1; apply Hf; rewrite E1; set_solver.
  - intros i t Ht Hp. pose proof (Hs _ _ _ _ _ H1 Ht) as Hf. cbn in Hf. by rewrite Hp, bool_decide_eq_true_2 in Hf.
Qed.

(** The guards of a lifecycle action, and the row that it gives. *)
Lemma milestone_action_row action m rd actor reason now m1 :
  milestone_action action m rd actor reason now = Ok m1 ->
  exists status completed cancelled, m1 = milestone_in m status completed cancelled now.
Proof.
  unfold milestone_action, Milestone_Activate, Milestone_Complete, Milestone_Cancel, Milestone_Reopen.
  repeat case_bool_decide; intros E; try done;
    repeat (apply bind_Ok in E as (? & _ & E)); injection E as <-; eauto.
Qed.
Lemma action_change p action m actor reason now m1 m' :
  moves ext action -> milestone_action action m (milestoneReadiness (pl_db p) (ms_ID m)) actor reason now = Ok m1 ->
  m' = m1 \/ m' = milestone_bumped m1 (ms_UpdatedAt m1) -> milestone_change p m m'.
Proof.
  intros Hmv E Hm. destruct (milestone_action_row _ _ _ _ _ _ _ E) as (st & co & ca & ->).
  destruct Hm as [-> | ->]; split; try done; try (cbn; lia); by eapply mv_action.
Qed.
Lemma patched_change p m patch now :
  milestone_change p m (milestone_updated (patched_milestone m patch) now) /\
  milestone_change p m (milestone_bumped (patched_milestone m patch) now).
Proof. split; split; try done; try (cbn; lia); by apply mv_stay. Qed.

Lemma int4_int64 z : in_int4 z = true -> int64 (z + 1) = z + 1.
Proof. unfold in_int4. intros Hz. go_bool. apply int64_small. unfold MaxInt64. lia. Qed.
Lemma edited_change c text instructions position now :
  in_int4 (ac_Revision c) = true -> criterion_change c (edited_criterion c text instructions position now).
Proof.
  intros Hr. pose proof (int4_int64 _ Hr) as Hi.
  assert (forall c', criterion_change c c' -> criterion_change c (match position with
    | Some n => AcceptanceCriterion_Move c' n now | None => c' end)) as Hmove.
  { intros c' Hc. destruct position as [n|]; [|done]. unfold AcceptanceCriterion_Move. case_bool_decide; [done|].
    destruct Hc. by split. }
  apply Hmove. unfold AcceptanceCriterion_Edit. destruct ((_ != _) || (_ != _)); split; try done; cbn [ac_Version ac_Revision]; try lia.
  by left.
Qed.
Lemma edited_archived c text instructions position now :
  ac_ArchivedAt (edited_criterion c text instructions position now) = ac_ArchivedAt c.
Proof.
  unfold edited_criterion, AcceptanceCriterion_Edit, AcceptanceCriterion_Move.
  destruct (_ || _), position; repeat case_bool_decide; done.
Qed.
Lemma criterion_change_trans c1 c2 : criterion_change c1 c2 -> forall c3,
  ac_ID c3 = ac_ID c2 -> ac_MilestoneID c3 = ac_MilestoneID c2 -> ac_TaskID c3 = ac_TaskID c2 ->
  ac_CreatedAt c3 = ac_CreatedAt c2 -> ac_Version c1 <= ac_Version c3 <= ac_Version c1 + 1 -> ac_Revision c3 = ac_Revision c2 ->
  ac_Criterion c3 = ac_Criterion c2 -> ac_VerificationInstructions c3 = ac_VerificationInstructions c2 ->
  criterion_change c1 c3.
Proof. intros [] c3 ???? Hv E1 E2 E3. split; congruence. Qed.
Lemma edited_version c text instructions position now :
  ac_Version (edited_criterion c text instructions position now) = ac_Version c.
Proof.
  unfold edited_criterion, AcceptanceCriterion_Edit, AcceptanceCriterion_Move.
  destruct (_ || _), position; repeat case_bool_decide; done.
Qed.
Lemma wp_update_criterion p c c' :
  acceptance_criteria (pl_db p) !! ac_ID c = Some c -> criterion_change c c' -> ac_ArchivedAt c' = ac_ArchivedAt c ->
  wp (update_criterion c') p (fun _ p' => rtc edit p p').
Proof.
  intros Hc Hch Ha. unfold update_criterion. wp_steps. apply negb_false_iff in H0, H1. apply andb_true_iff in H0 as [H0 _].
  apply rtc_once. eapply edit_criterion; try done. unfold criterion_row. by rewrite H1, H0.
Qed.
End statements.
End effects.
