(* ===== verification/PlanningCommands.v ===== *)
(** * The commands of the planning stores

    Every method of the stores of Projects, Milestones and acceptance criteria, with every command of
    the workflow and the task store beside them, as one type of commands; each is a sequence of edits. *)

From stdpp Require Import base tactics strings gmap list numbers sorting relations.
From S2P Require Import Prelude Actors Lifecycle StageClaim Delivery Thread Acceptance Database Tx State.
From S2P Require Import ThreadStore ClaimStore WorkflowStore WorkflowCommands TaskStore WorkflowEffects.
From S2P Require Import TaskGraph WorkflowInvariant WorkflowOutcomes WorkflowSafety TaskEffects TaskInvariant StoreCommands.
From S2P Require Import Refinement History Changes Workspace.
From S2P Require Import Access Membership PlanningStore CriteriaStore PlanningEffects.

Create HintDb oks discriminated.
#[export] Hint Resolve oks_ret oks_fail oks_or_err oks_audit oks_activity oks_increment oks_lock oks_increment_owner
  oks_increment_owners oks_owner_audit oks_audit_if oks_insert_project oks_insert_admin oks_insert_milestone
  oks_insert_criterion : oks.

(** Proves [oks] for statements none of which depends on what was read before. *)
Ltac oks_all := repeat first
  [ solve [auto with oks]
  | apply oks_bind; [|intros ?]
  | match goal with
    | |- oks _ (match ?x with _ => _ end) => destruct x
    | |- oks _ (if ?b then _ else _) => destruct b
    end
  | apply oks_keeps; solve [auto with keeps] ].
(** Proves [does] for a transaction after checks of the arguments. *)
Ltac does_body := repeat first
  [ apply does_tx
  | apply does_bind; [|intros ?]
  | apply does_or_new
  | apply does_keeps; solve [auto with keeps] ].

Section commands.
Context `{UUIDSource} `{NameOrder} (ext : Extent).
Local Notation edit := (edit ext).
Local Notation oks := (oks ext).
Local Notation does := (does ext).

Lemma keeps_get_project n : keeps (Projects_GetByNumber n).
Proof. unfold Projects_GetByNumber. auto with keeps. Qed.
Lemma keeps_get_milestone i j : keeps (Milestones_Get i j).
Proof. unfold Milestones_Get. auto with keeps. Qed.
Lemma keeps_get_criterion i : keeps (Acceptance_Get i).
Proof. unfold Acceptance_Get. auto with keeps. Qed.
Local Hint Resolve keeps_get_project keeps_get_milestone keeps_get_criterion : keeps.

(** ** Projects *)

Lemma does_project_create project actor now : does (Projects_CreateWithOperation project actor now).
Proof. unfold Projects_CreateWithOperation. does_body. oks_all. Qed.

Lemma oks_project_change projectID action old new actor now : oks (record_project_change projectID action old new actor now).
Proof. unfold record_project_change. case_bool_decide; auto with oks. Qed.
Local Hint Resolve oks_project_change : oks.

Lemma does_project_update number expected patch actor now :
  does (Projects_updateWithExpectedVersion number expected patch actor now).
Proof.
  unfold Projects_updateWithExpectedVersion. cbv zeta. does_body. intros p Hk. unfold lockProject. wp_steps.
  destruct (project_numbered_lookup _ _ _ Hk H1) as [Hx _].
  apply (wp_then _ (update_project _ _ _)); [done| |intros; oks_all].
  eapply wp_update_project; [exact Hx|]. intros Hv. split; auto.
Qed.

Lemma does_project_lifecycle number expected action actor reason operation now :
  archives ext action -> does (Projects_applyLifecycleWithExpectedVersion number expected action actor reason operation now).
Proof.
  intros Har. unfold Projects_applyLifecycleWithExpectedVersion. does_body. intros p Hk. unfold project_lifecycle_tx, lockProject. wp_steps.
  destruct (project_numbered_lookup _ _ _ Hk H1) as [Hx _].
  apply (wp_then _ (update_project _ _ _)); [done| |intros; oks_all].
  eapply wp_update_project; [exact Hx|]. intros Hv.
  match goal with E : (if _ then _ else _) = Ok _ |- _ => revert E end. repeat case_bool_decide; intros E; try done.
  - pose proof (readiness_archivable _ _ _ _ E) as Ha. unfold Project_Archive in E.
    repeat (apply bind_Ok in E as (? & _ & E)). injection E as <-. subst action. split; auto.
  - injection E as <-. subst action. split; auto.
Qed.

(** ** Milestones *)

(** The status of a new Milestone. *)
Definition birth (m : Milestone) : MilestoneStatus := if ms_Status m == "" then MilestoneStatusPlanned else ms_Status m.

Lemma does_milestone_create milestone actor now : births ext (birth milestone) -> does (Milestones_create milestone actor now).
Proof.
  intros Hb. unfold Milestones_create. cbv zeta. does_body. destruct actor; does_body; oks_all.
Qed.

Lemma does_milestone_update projectID milestoneID patch actor now :
  does (Milestones_UpdateWithOperation projectID milestoneID patch actor now).
Proof.
  unfold Milestones_UpdateWithOperation. cbv zeta. does_body. intros p Hk. unfold Milestones_Get. wp_steps.
  destruct (milestone_of_own _ _ _ _ Hk H1) as [Hm _].
  apply (wp_then _ (update_milestone _ _)); [done| |intros; oks_all].
  eapply wp_update_milestone; [exact Hm|]. apply patched_change.
Qed.

Lemma oks_record_action projectID milestoneID action actor reason old m now :
  oks (record_milestone_action projectID milestoneID action actor reason old m now).
Proof. unfold record_milestone_action. oks_all. Qed.
Local Hint Resolve oks_record_action : oks.

Lemma does_milestone_lifecycle projectID milestoneID action actor reason now :
  moves ext action -> does (Milestones_ApplyLifecycleWithOperation projectID milestoneID action actor reason now).
Proof.
  intros Hmv. unfold Milestones_ApplyLifecycleWithOperation. does_body. intros p Hk. unfold Milestones_Get. wp_steps.
  destruct (milestone_of_own _ _ _ _ Hk H1) as [Hm _].
  apply (wp_then _ (update_milestone _ _)); [done| |intros; oks_all].
  eapply wp_update_milestone; [exact Hm|]. eapply action_change; eauto.
Qed.

Lemma does_milestone_create_versioned projectID v milestone actor now :
  births ext (birth milestone) -> does (Milestones_CreateVersionedWithOperation projectID v milestone actor now).
Proof. intros Hb. unfold Milestones_CreateVersionedWithOperation, expect_version. cbv zeta. does_body. oks_all. Qed.

Lemma does_milestone_update_versioned projectID v milestoneID mv patch actor now :
  does (Milestones_UpdateVersionedWithOperation projectID v milestoneID mv patch actor now).
Proof.
  unfold Milestones_UpdateVersionedWithOperation, expect_version. does_body. intros p Hk.
  unfold lockVersion, Milestones_Get. wp_steps.
  match goal with E : milestone_of _ _ _ = Some _ |- _ => destruct (milestone_of_own _ _ _ _ Hk E) as [Hm _] end.
  apply (wp_then _ (update_milestone_version _ _ _)); [done| |intros; oks_all].
  eapply wp_update_milestone_version; [exact Hm|]. apply patched_change.
Qed.

Lemma does_milestone_lifecycle_versioned projectID v milestoneID mv action actor reason now :
  moves ext action -> does (Milestones_ApplyLifecycleVersionedWithOperation projectID v milestoneID mv action actor reason now).
Proof.
  intros Hmv. unfold Milestones_ApplyLifecycleVersionedWithOperation, expect_version. does_body. intros p Hk.
  unfold lockVersion, Milestones_Get. wp_steps.
  match goal with E : milestone_of _ _ _ = Some _ |- _ => destruct (milestone_of_own _ _ _ _ Hk E) as [Hm _] end.
  apply (wp_then _ (update_milestone_version _ _ _)); [done| |intros; oks_all].
  eapply wp_update_milestone_version; [exact Hm|]. eapply action_change; eauto.
Qed.

(** ** Criteria and checks *)

Lemma does_criterion_create criterion actor now : does (Acceptance_create criterion actor now).
Proof. unfold Acceptance_create. cbv zeta. does_body. oks_all. Qed.

Lemma criterion_lookup p i c : keyed p -> acceptance_criteria (pl_db p) !! i = Some c ->
  acceptance_criteria (pl_db p) !! ac_ID c = Some c /\ ac_ID c = i /\ criterion_row c = true /\ in_int4 (ac_Revision c) = true.
Proof.
  intros Hk Hc. destruct (ky_criteria _ Hk _ _ Hc) as [-> Hr]. split_and!; try done.
  by apply andb_true_iff in Hr as [_ ?].
Qed.

Lemma does_criterion_update criterionID text instructions position actor now :
  does (Acceptance_update criterionID text instructions position actor now).
Proof.
  unfold Acceptance_update. cbv zeta. does_body. intros p Hk. unfold Acceptance_Get. wp_steps.
  destruct (criterion_lookup _ _ _ Hk H1) as (Hc & _ & _ & Hr).
  apply (wp_then _ (update_criterion _)); [done| |intros; oks_all].
  eapply wp_update_criterion; [exact Hc| |apply edited_archived].
  eapply criterion_change_trans; [by apply edited_change|..]; try done. cbn. rewrite edited_version. lia.
Qed.

Lemma wp_or_new id p : wp (or_new id) p (fun _ p1 => pl_db p1 = pl_db p /\ rtc edit p p1).
Proof.
  unfold or_new. case_bool_decide; [|by apply wp_ret]. intros u p1 (w & E & ->)%on_world_Ok.
  apply uuid_New_Ok in E as [_ ->]. split; [done|].
  apply rtc_once, (edit_drawn _ p (S (w_next (pl_world p))) (pl_numbers p)).
Qed.

Lemma wp_store_check check now p c :
  keyed p -> acceptance_criteria (pl_db p) !! ck_CriterionID check = Some c -> ck_CriterionRevision check = ac_Revision c ->
  wp (store_check check now) p (fun _ p' => rtc edit p p').
Proof.
  intros Hk Hc Hr. unfold store_check. cbv zeta. apply wp_bind. eapply wp_mono; [apply wp_or_new|].
  intros id p1 [Hd H1]. wp_steps. intros [] p2 (w & E & ->)%on_world_Ok. apply wp_ret. etrans; [exact H1|].
  unfold insert_check_row in E. run_inv. go_bool. apply rtc_once.
  apply (edit_check _ p1 (plain_check_row (with_check_id check id now)) c); [by apply not_present|by rewrite Hd|done].
Qed.
Lemma validated_against check c u :
  ValidateAgainst check c = Ok u -> ck_CriterionID check = ac_ID c /\ ck_CriterionRevision check = ac_Revision c.
Proof.
  unfold ValidateAgainst, validateBase. intros E.
  apply bind_Ok in E as (? & E%fail_if_Ok & _). apply orb_false_iff in E as [E1 E2].
  by apply negb_false_iff, bool_decide_eq_true in E1, E2.
Qed.

Lemma does_add_check check actor now : does (addCheck check actor now).
Proof.
  unfold addCheck. does_body. intros p Hk. unfold Acceptance_Get. wp_steps.
  destruct (criterion_lookup _ _ _ Hk H1) as (Hc & Hid & _).
  match goal with E : ValidateAgainst _ _ = Ok _ |- _ => apply validated_against in E as [_ Hr] end.
  apply (wp_then _ (store_check _ _)); [done| |intros; oks_all]. by eapply wp_store_check.
Qed.

Lemma checks_none d i : (check_count d i =? 0) = true -> checks_of d i = [].
Proof. unfold check_count. intros E. by destruct (checks_of d i). Qed.

Lemma wp_drop p c c' remove now :
  acceptance_criteria (pl_db p) !! ac_ID c = Some c -> ac_ArchivedAt c = None -> droppable p c ->
  (remove = true -> checks_of (pl_db p) (ac_ID c) = []) -> criterion_change c c' -> criterion_row c' = true ->
  wp (drop_criterion remove c' now) p (fun _ p' => rtc edit p p').
Proof.
  intros Hc Ha Hd Hr Hch Hrow. unfold drop_criterion. destruct remove; apply wp_mod, rtc_once.
  - rewrite (cg_id _ _ Hch). apply edit_criterion_deleted; auto.
  - eapply edit_criterion_archived; [exact Hc|done| |destruct Hch; by split|done].
    done.
Qed.
Lemma criterion_change_refl c : criterion_change c c.
Proof. split; try done; [lia|by left]. Qed.

Lemma wp_guard i st reason p :
  wp (guard_active_scope i st reason) p
    (fun _ p' => p' = p /\ (st = MilestoneStatusActive -> (2 <= length (milestone_criteria (pl_db p) i))%nat)).
Proof.
  unfold guard_active_scope. case_bool_decide; wp_steps; [|by split]. split; [done|]. intros _.
  match goal with E : (_ <=? 1) = false |- _ => apply Z.leb_gt in E; lia end.
Qed.

(** A criterion of a Task has no Milestone. *)
Lemma task_criterion c taskID : criterion_row c = true -> ac_TaskID c = Some taskID -> ac_MilestoneID c = None.
Proof.
  unfold criterion_row, criteria_checks. rewrite !andb_true_iff. intros ((((_ & Ho) & _) & _) & _) E. rewrite E in Ho.
  by destruct (ac_MilestoneID c).
Qed.

Lemma does_criterion_remove criterionID actor reason now : does (RemoveCriterionWithOperation criterionID actor reason now).
Proof.
  unfold RemoveCriterionWithOperation. does_body. intros p Hk. unfold lock_active_criterion. cbv zeta. wp_steps.
  - destruct (criterion_lookup _ _ _ Hk H1) as (Hc & Hid & Hrow & _).
    apply (wp_then _ (drop_criterion _ _ _)); [done| |intros; oks_all].
    eapply wp_drop; [exact Hc|by apply not_present| | |apply criterion_change_refl|done].
    + intros i m Hi. by rewrite (task_criterion _ _ Hrow E) in Hi.
    + rewrite Hid. apply checks_none.
  - destruct (criterion_lookup _ _ _ Hk H1) as (Hc & Hid & Hrow & _).
    eapply wp_mono; [apply wp_guard|]. intros [] p1 [-> Hg]. apply wp_bind.
    apply (wp_then _ (drop_criterion _ _ _)); [done| |intros; oks_all].
    eapply wp_drop; [exact Hc|by apply not_present| | |apply criterion_change_refl|done].
    + intros i m' Hi Hm Hs. match goal with E' : _ = Some (_, _) |- _ => rewrite Hi in E'; cbn in E'; rewrite Hm in E'; cbn in E' end.
      simplify_eq. auto.
    + rewrite Hid. intros [_ ?]%andb_true_iff. by apply checks_none.
Qed.

(** ** Versioned commands on criteria *)

Lemma keeps_lock_criterion i : keeps (lock_active_criterion i).
Proof. unfold lock_active_criterion. auto with keeps. Qed.
Lemma keeps_lock table i : keeps (lockVersion table i).
Proof. unfold lockVersion. auto with keeps. Qed.
Local Hint Resolve keeps_lock_criterion keeps_lock : keeps.

Lemma wp_lock_criterion i p :
  wp (lockCriterionAndOwners i) p (fun cv p' =>
    p' = p /\ acceptance_criteria (pl_db p) !! i = Some cv.1 /\ ac_ArchivedAt cv.1 = None).
Proof.
  unfold lockCriterionAndOwners. apply wp_bind. eapply wp_mono; [apply (wp_keeps _ _ (keeps_lock_criterion i))|].
  intros c p1 ->. apply wp_bind. eapply wp_mono; [apply wp_keeps|intros v p1 ->].
  { destruct (ac_TaskID c), (ac_MilestoneID c); auto with keeps. }
  unfold lock_active_criterion. wp_steps. split_and!; try done. by apply not_present.
Qed.

Lemma keeps_lock_for_create c expected : keeps (lockCriterionOwnersForCreate c expected).
Proof. unfold lockCriterionOwnersForCreate, expect_owner. destruct (ac_TaskID c), (ac_MilestoneID c); auto 20 with keeps. Qed.
Local Hint Resolve keeps_lock_for_create : keeps.

Lemma does_criterion_create_versioned criterion actor expected now : does (createVersioned criterion actor expected now).
Proof. unfold createVersioned. cbv zeta. does_body. oks_all. Qed.

Lemma does_criterion_update_versioned criterionID v text instructions position actor now :
  does (UpdateCriterionVersioned criterionID v text instructions position actor now).
Proof.
  unfold UpdateCriterionVersioned, expect_version. cbv zeta. does_body. intros p Hk. apply wp_bind.
  eapply wp_mono; [apply wp_lock_criterion|]. intros [c owners] p1 (-> & Hc & Ha). cbn in Hc, Ha.
  destruct (criterion_lookup _ _ _ Hk Hc) as (Hc' & Hid & Hrow & Hr). wp_steps.
  apply (wp_then _ (update_criterion _)); [done| |intros; oks_all].
  eapply wp_update_criterion; [exact Hc'| |apply edited_archived].
  eapply criterion_change_trans; [by apply edited_change|..]; try done. cbn. rewrite edited_version. lia.
Qed.

Lemma does_add_check_versioned criterionID v check actor guard now :
  (forall g, guard = Some g -> keeps g) -> does (addCheckVersioned criterionID v check actor guard now).
Proof.
  intros Hg. unfold addCheckVersioned, expect_version. cbv zeta. does_body. intros p Hk. apply wp_bind.
  eapply wp_mono; [apply wp_keeps|intros task p1 ->].
  { destruct guard as [g|]; [|auto with keeps]. apply keeps_bind; [by apply Hg|auto with keeps]. }
  apply wp_bind. eapply wp_mono; [apply wp_lock_criterion|]. intros [c owners] p1 (-> & Hc & Ha). cbn in Hc, Ha.
  wp_steps. match goal with E : ValidateAgainst _ _ = Ok _ |- _ => apply validated_against in E as [_ Hr] end.
  apply (wp_then _ (store_check _ _)); [done| |intros; oks_all]. by eapply wp_store_check.
Qed.
Lemma keeps_claim_guard claimID kind session actor now : keeps (claim_guard claimID kind session actor now).
Proof. unfold claim_guard. auto with keeps. Qed.

Lemma does_criterion_remove_versioned criterionID v actor reason now :
  does (RemoveCriterionVersioned criterionID v actor reason now).
Proof.
  unfold RemoveCriterionVersioned, expect_version. does_body. intros p Hk. apply wp_bind.
  eapply wp_mono; [apply wp_lock_criterion|]. intros [c owners] p1 (-> & Hc & Ha). cbn in Hc, Ha.
  destruct (criterion_lookup _ _ _ Hk Hc) as (Hc' & Hid & Hrow & _). do 2 (apply wp_bind; wp_step). apply wp_bind.
  eapply (wp_mono _ _ (fun _ p1 => p1 = p /\ droppable p c)).
  { destruct (ac_MilestoneID c) as [i|] eqn:E.
    - wp_steps. eapply wp_mono; [apply wp_guard|]. intros [] p1 [-> Hg]. split; [done|].
      intros j m Hj Hm Hs. simplify_eq. auto.
    - wp_steps. split; [done|]. intros j m Hj. congruence. }
  intros [] p1 [-> Hd]. apply wp_bind. destruct (check_count _ _ =? 0) eqn:En.
  - apply (wp_then _ (drop_criterion _ _ _)); [done| |intros; oks_all].
    eapply wp_drop; try done; [|apply criterion_change_refl]. rewrite Hid. intros _. by apply checks_none.
  - apply (wp_then _ (st_fail _ _ ≫= _)); [done| |intros; oks_all]. wp_steps.
    eapply wp_drop; try done; [apply criterion_bumped_change|by apply criterion_row_bumped].
Qed.
End commands.

(** ** All commands *)

Section system.
Context `{UUIDSource} `{NameOrder} `{TextForms}.

Inductive PlanCommand :=
| PWork (c : WorkspaceCommand)
| PProjectCreate (project : Project) (actor : OperationActor) (now : Time)
| PProjectUpdate (number : Z) (expected : option Z) (patch : ProjectPatch) (actor : OperationActor) (now : Time)
| PProjectLifecycle (number : Z) (expected : option Z) (action : ProjectLifecycleAction) (actor : Actor) (reason : string)
    (operation : OperationActor) (now : Time)
| PMilestoneCreate (milestone : Milestone) (actor : option OperationActor) (now : Time)
| PMilestoneUpdate (projectID milestoneID : UUID) (patch : MilestonePatch) (actor : OperationActor) (now : Time)
| PMilestoneLifecycle (projectID milestoneID : UUID) (action : MilestoneLifecycleAction) (actor : OperationActor)
    (reason : string) (now : Time)
| PMilestoneCreateVersioned (projectID : UUID) (v : Z) (milestone : Milestone) (actor : OperationActor) (now : Time)
| PMilestoneUpdateVersioned (projectID : UUID) (v : Z) (milestoneID : UUID) (mv : Z) (patch : MilestonePatch)
    (actor : OperationActor) (now : Time)
| PMilestoneLifecycleVersioned (projectID : UUID) (v : Z) (milestoneID : UUID) (mv : Z) (action : MilestoneLifecycleAction)
    (actor : OperationActor) (reason : string) (now : Time)
| PCriterionCreate (criterion : AcceptanceCriterion) (actor : option OperationActor) (now : Time)
| PCriterionUpdate (criterionID : UUID) (text instructions : option string) (position : option Z)
    (actor : option OperationActor) (now : Time)
| PCheckAdd (check : AcceptanceCheck) (actor : option OperationActor) (now : Time)
| PCriterionRemove (criterionID : UUID) (actor : OperationActor) (reason : string) (now : Time)
| PTaskCriterionCreateVersioned (taskID : UUID) (v : Z) (criterion : AcceptanceCriterion) (actor : OperationActor) (now : Time)
| PMilestoneCriterionCreateVersioned (projectID : UUID) (v : Z) (milestoneID : UUID) (mv : Z)
    (criterion : AcceptanceCriterion) (actor : OperationActor) (now : Time)
| PCriterionUpdateVersioned (criterionID : UUID) (v : Z) (text instructions : option string) (position : option Z)
    (actor : OperationActor) (now : Time)
| PCheckAddVersioned (criterionID : UUID) (v : Z) (check : AcceptanceCheck) (actor : OperationActor) (now : Time)
| PClaimCheckAddVersioned (claimID : UUID) (clientKind clientSessionID : string) (criterionID : UUID) (v : Z)
    (check : AcceptanceCheck) (actor : OperationActor) (now : Time)
| PCriterionRemoveVersioned (criterionID : UUID) (v : Z) (actor : OperationActor) (reason : string) (now : Time).

Definition and_done {A} (m : PlanM A) : PlanM unit := _ ← m; mret tt.
Definition run_plan (c : PlanCommand) : PlanM unit :=
  match c with
  | PWork c => on_world (run_workspace c)
  | PProjectCreate project actor now => and_done (Projects_CreateWithOperation project actor now)
  | PProjectUpdate number expected patch actor now => and_done (Projects_updateWithExpectedVersion number expected patch actor now)
  | PProjectLifecycle number expected action actor reason operation now =>
      and_done (Projects_applyLifecycleWithExpectedVersion number expected action actor reason operation now)
  | PMilestoneCreate milestone (Some actor) now => and_done (Milestones_CreateWithOperation milestone actor now)
  | PMilestoneCreate milestone None now => and_done (Milestones_Create milestone now)
  | PMilestoneUpdate projectID milestoneID patch actor now =>
      and_done (Milestones_UpdateWithOperation projectID milestoneID patch actor now)
  | PMilestoneLifecycle projectID milestoneID action actor reason now =>
      and_done (Milestones_ApplyLifecycleWithOperation projectID milestoneID action actor reason now)
  | PMilestoneCreateVersioned projectID v milestone actor now =>
      and_done (Milestones_CreateVersionedWithOperation projectID v milestone actor now)
  | PMilestoneUpdateVersioned projectID v milestoneID mv patch actor now =>
      and_done (Milestones_UpdateVersionedWithOperation projectID v milestoneID mv patch actor now)
  | PMilestoneLifecycleVersioned projectID v milestoneID mv action actor reason now =>
      and_done (Milestones_ApplyLifecycleVersionedWithOperation projectID v milestoneID mv action actor reason now)
  | PCriterionCreate criterion (Some actor) now => and_done (Acceptance_CreateWithOperation criterion actor now)
  | PCriterionCreate criterion None now => and_done (Acceptance_Create criterion now)
  | PCriterionUpdate criterionID text instructions position (Some actor) now =>
      and_done (Acceptance_UpdateWithOperation criterionID text instructions position actor now)
  | PCriterionUpdate criterionID text instructions position None now =>
      and_done (Acceptance_Update criterionID text instructions position now)
  | PCheckAdd check (Some actor) now => and_done (AddCheckWithOperation check actor now)
  | PCheckAdd check None now => and_done (AddCheck check now)
  | PCriterionRemove criterionID actor reason now => RemoveCriterionWithOperation criterionID actor reason now
  | PTaskCriterionCreateVersioned taskID v criterion actor now =>
      and_done (CreateTaskCriterionVersioned taskID v criterion actor now)
  | PMilestoneCriterionCreateVersioned projectID v milestoneID mv criterion actor now =>
      and_done (CreateMilestoneCriterionVersioned projectID v milestoneID mv criterion actor now)
  | PCriterionUpdateVersioned criterionID v text instructions position actor now =>
      and_done (UpdateCriterionVersioned criterionID v text instructions position actor now)
  | PCheckAddVersioned criterionID v check actor now => and_done (AddCheckVersioned criterionID v check actor now)
  | PClaimCheckAddVersioned claimID kind session criterionID v check actor now =>
      and_done (AddClaimCheckVersioned claimID kind session criterionID v check actor now)
  | PCriterionRemoveVersioned criterionID v actor reason now => RemoveCriterionVersioned criterionID v actor reason now
  end.

(** The tables after a command, whether it succeeds or fails. *)
Definition plan_step (c : PlanCommand) (p : PlanWorld) : PlanWorld := (run_plan c p).2.
Fixpoint plan_steps (cs : list PlanCommand) (p : PlanWorld) : PlanWorld :=
  match cs with
  | [] => p
  | c :: rest => plan_steps rest (plan_step c p)
  end.

Definition is_work (c : PlanCommand) : bool := match c with PWork _ => true | _ => false end.
(** The lifecycle action and the status of a new Milestone in a command. *)
Definition move_of (c : PlanCommand) : option MilestoneLifecycleAction :=
  match c with
  | PMilestoneLifecycle _ _ action _ _ _ | PMilestoneLifecycleVersioned _ _ _ _ action _ _ _ => Some action
  | _ => None
  end.
Definition birth_of (c : PlanCommand) : option MilestoneStatus :=
  match c with
  | PMilestoneCreate milestone _ _ | PMilestoneCreateVersioned _ _ milestone _ _ => Some (birth milestone)
  | _ => None
  end.

Definition archive_of (c : PlanCommand) : option ProjectLifecycleAction :=
  match c with PProjectLifecycle _ _ action _ _ _ _ => Some action | _ => None end.
Definition extent (c : PlanCommand) : Extent :=
  mkExtent (fun a => move_of c = Some a) (fun s => birth_of c = Some s) (fun a => archive_of c = Some a).

Lemma does_done ext {A} (m : PlanM A) : does ext m -> does ext (and_done m).
Proof. intros Hm. apply does_bind; [done|intros; by apply does_keeps]. Qed.

(** A command of the planning stores is a sequence of edits. *)
Lemma plan_step_edits c p : is_work c = false -> keyed p ->  rtc (edit (extent c)) p (plan_step c p).
Proof.
  intros Hc Hk. unfold plan_step. assert (does (extent c) (run_plan c)) as Hd; [|by apply Hd].
  destruct c; try done; cbn [run_plan];
    repeat match goal with |- does _ (match ?o with Some _ => _ | None => _ end) => destruct o end; try apply does_done.
  - apply does_project_create.
  - apply does_project_update.
  - by apply does_project_lifecycle.
  - apply does_bind; [by apply does_keeps|intros _; by apply does_milestone_create].
  - by apply does_milestone_create.
  - apply does_milestone_update.
  - by apply does_milestone_lifecycle.
  - by apply does_milestone_create_versioned.
  - apply does_milestone_update_versioned.
  - by apply does_milestone_lifecycle_versioned.
  - apply does_bind; [by apply does_keeps|intros _; apply does_criterion_create].
  - apply does_criterion_create.
  - apply does_bind; [by apply does_keeps|intros _; apply does_criterion_update].
  - apply does_criterion_update.
  - apply does_bind; [by apply does_keeps|intros _; apply does_add_check].
  - apply does_add_check.
  - apply does_criterion_remove.
  - apply does_criterion_create_versioned.
  - apply does_criterion_create_versioned.
  - apply does_criterion_update_versioned.
  - by apply does_add_check_versioned.
  - apply does_add_check_versioned. intros g [= <-]. apply keeps_claim_guard.
  - apply does_criterion_remove_versioned.
Qed.
End system.
