(* ===== verification/PlanningInvariant.v ===== *)
(** * Consistency of the planning tables

    What the tables of Projects, Milestones, criteria and checks satisfy, with those of the workflow,
    between any two commands of either. *)

From stdpp Require Import base tactics strings gmap list numbers sorting relations.
From S2P Require Import Prelude Actors Lifecycle StageClaim Delivery Thread Acceptance Database Tx State.
From S2P Require Import ThreadStore ClaimStore WorkflowStore WorkflowCommands TaskStore TaskGraph WorkflowEffects.
From S2P Require Import WorkflowInvariant WorkflowOutcomes WorkflowSafety TaskEffects TaskInvariant StoreCommands.
From S2P Require Import Refinement History Changes Records Workspace.
From S2P Require Import Access Membership PlanningStore CriteriaStore PlanningEffects PlanningCommands.

Record plan_sound (p : PlanWorld) : Prop := {
  ps_keyed : keyed p;
  ps_wf : wf (pl_db p);
  ps_planned : planned (pl_db p);
  ps_projects : projects (pl_db p) = dom (pl_projects p);
  ps_milestones : forall i j, (i, j) ∈ milestones (pl_db p) <-> exists m, pl_milestones p !! j = Some m /\ ms_ProjectID m = i;
  ps_milestone_project : forall i m, pl_milestones p !! i = Some m -> is_Some (pl_projects p !! ms_ProjectID m);
  ps_owner : forall i c, acceptance_criteria (pl_db p) !! i = Some c -> criterion_fks p c = true;
  ps_checks : forall j k, acceptance_checks (pl_db p) !! j = Some k -> k_id k = j /\ exists c,
    acceptance_criteria (pl_db p) !! k_criterion_id k = Some c /\ k_criterion_revision k <= ac_Revision c;
}.

(** ** Edits *)

Section edits.
Context (ext : Extent).
Local Notation edit := (edit ext).

Lemma task_bumped_wf d i t now : wf d -> tasks d !! i = Some t -> wf (put_task i (task_bumped t now) d).
Proof.
  intros Hw Hi. eapply wf_edited; [exact Hw| |done..]. intros k. cbn.
  eapply option_Forall2_insert; [exact Hi|by split|]. intros x. reflexivity.
Qed.
Lemma task_bumped_planned d i t now : wf d -> planned d -> tasks d !! i = Some t -> planned (put_task i (task_bumped t now) d).
Proof.
  intros Hw Hp Hi. eapply planned_rows; [exact Hp| | |]; cbn.
  - intros k. eapply option_Forall2_insert; [exact Hi|by split|]. intros x. by split.
  - intros k x b z Hx Hph Hd Hz. apply lookup_put in Hx as [[-> ->]|[_ Hx]]; apply lookup_put in Hz as [[-> ->]|[_ Hz]].
    + exfalso. apply (pw_acyclic _ _ _ Hp i). by apply tc_once.
    + exact (pw_ready _ _ _ Hp _ _ _ _ Hi Hph Hd Hz).
    + exact (pw_ready _ _ _ Hp _ _ _ _ Hx Hph Hd Hi).
    + exact (pw_ready _ _ _ Hp _ _ _ _ Hx Hph Hd Hz).
  - intros j h Hj. apply lookup_insert_is_Some'. right. by eapply (pw_threads _ _ _ Hp).
Qed.

Lemma edit_workflow p p' : edit p p' -> wf (pl_db p) -> planned (pl_db p) -> wf (pl_db p') /\ planned (pl_db p').
Proof.
  intros He Hw Hp. destruct He; try (split; [destruct Hw; by split|exact Hp]).
  split; [by apply task_bumped_wf|by apply task_bumped_planned].
Qed.

Lemma fks_mono p p' c :
  criterion_fks p c = true -> (forall i, is_Some (pl_milestones p !! i) -> is_Some (pl_milestones p' !! i)) ->
  (forall i, is_Some (tasks (pl_db p) !! i) -> is_Some (tasks (pl_db p') !! i)) -> criterion_fks p' c = true.
Proof.
  unfold criterion_fks. intros [H1 H2]%andb_true_iff Hm Ht. apply andb_true_iff. unfold fk in *. split.
  - destruct (ac_MilestoneID c); [|done]. apply bool_decide_eq_true, elem_of_dom in H1. apply bool_decide_eq_true, elem_of_dom. auto.
  - destruct (ac_TaskID c); [|done]. apply bool_decide_eq_true, elem_of_dom in H2. apply bool_decide_eq_true, elem_of_dom. auto.
Qed.

(** No edit removes a Project, a Milestone or a Task. *)
Lemma edit_grows p p' : edit p p' ->
  (forall i, is_Some (pl_projects p !! i) -> is_Some (pl_projects p' !! i)) /\
  (forall i, is_Some (pl_milestones p !! i) -> is_Some (pl_milestones p' !! i)) /\
  (forall i, is_Some (tasks (pl_db p) !! i) -> is_Some (tasks (pl_db p') !! i)).
Proof.
  intros He. destruct He; cbn; split_and!; try done; intros j Hj; apply lookup_insert_is_Some'; auto.
Qed.

Lemma edit_project_keys p p' :
  edit p p' -> projects (pl_db p) = dom (pl_projects p) -> projects (pl_db p') = dom (pl_projects p').
Proof.
  intros He Hd. destruct He as [| | | |p x Hn _ _|p x x' Hx Hc| | | | | | | |]; cbn; try done.
  - change (projects (pl_db (put_project x p))) with (projects (pl_db p)). rewrite Hd, dom_insert_L. done.
  - rewrite (pc_id _ _ _ _ Hc), dom_insert_lookup_L by eauto. done.
Qed.
Lemma edit_milestone_keys p p' :
  edit p p' ->
  (forall i j, (i, j) ∈ milestones (pl_db p) <-> exists m, pl_milestones p !! j = Some m /\ ms_ProjectID m = i) ->
  forall i j, (i, j) ∈ milestones (pl_db p') <-> exists m, pl_milestones p' !! j = Some m /\ ms_ProjectID m = i.
Proof.
  intros He Hd. destruct He as [| | | | | |p m Hn _ _ _|p m m' Hm Hc| | | | | |]; cbn; try done; intros i j.
  - change (milestones (pl_db (put_milestone m p))) with (milestones (pl_db p)). rewrite elem_of_union, elem_of_singleton, Hd.
    split.
    + intros [[= -> ->]|(m' & Hm & E)]; [exists m; by rewrite lookup_insert_eq|].
      exists m'. rewrite lookup_insert_ne; [done|]. intros Ej. congruence.
    + intros (m' & Hm & <-). apply lookup_put in Hm as [[-> ->]|[_ Hm]]; eauto.
  - change (milestones (pl_db (put_milestone m' p))) with (milestones (pl_db p)). rewrite Hd. destruct Hc as [Hi Hp _ _ _].
    split; intros (y & Hy & <-).
    + destruct (decide (j = ms_ID m)) as [->|Hne].
      * exists m'. rewrite <- Hi, lookup_insert_eq. split; [done|]. rewrite Hm in Hy. simplify_eq. done.
      * exists y. by rewrite lookup_insert_ne by congruence.
    + apply lookup_put in Hy as [[-> ->]|[_ Hy]]; [|eauto]. exists m. rewrite Hi. done.
Qed.
Lemma edit_milestone_project p p' :
  edit p p' -> (forall i m, pl_milestones p !! i = Some m -> is_Some (pl_projects p !! ms_ProjectID m)) ->
  forall i m, pl_milestones p' !! i = Some m -> is_Some (pl_projects p' !! ms_ProjectID m).
Proof.
  intros He Hp. destruct (edit_grows _ _ He) as (Hg & _). intros i y Hy. apply Hg.
  destruct He as [| | | | | |p m Hn _ _ Hx|p m m' Hm Hc| | | | | |]; cbn in Hy; eauto.
  - apply lookup_put in Hy as [[-> ->]|[_ Hy]]; eauto.
  - apply lookup_put in Hy as [[-> ->]|[_ Hy]]; [|eauto]. rewrite (mc_project _ _ _ _ Hc). eauto.
Qed.
Lemma edit_owner p p' :
  edit p p' -> (forall i c, acceptance_criteria (pl_db p) !! i = Some c -> criterion_fks p c = true) ->
  forall i c, acceptance_criteria (pl_db p') !! i = Some c -> criterion_fks p' c = true.
Proof.
  intros He Ho i c Hc. destruct (edit_grows _ _ He) as (_ & Hm & Ht). eapply fks_mono; [|exact Hm|exact Ht].
  assert (forall c0 c1, criterion_change c0 c1 -> criterion_fks p c0 = true -> criterion_fks p c1 = true) as Hch.
  { intros c0 c1 [_ E1 E2 _ _ _]. unfold criterion_fks. by rewrite E1, E2. }
  destruct He; cbn in Hc; eauto.
  all: first [apply lookup_put in Hc as [[-> ->]|[_ Hc]]; eauto|apply lookup_delete_Some in Hc as [_ Hc]; eauto].
Qed.
Lemma edit_checks p p' :
  edit p p' ->
  (forall j k, acceptance_checks (pl_db p) !! j = Some k -> k_id k = j /\ exists c,
     acceptance_criteria (pl_db p) !! k_criterion_id k = Some c /\ k_criterion_revision k <= ac_Revision c) ->
  forall j k, acceptance_checks (pl_db p') !! j = Some k -> k_id k = j /\ exists c,
    acceptance_criteria (pl_db p') !! k_criterion_id k = Some c /\ k_criterion_revision k <= ac_Revision c.
Proof.
  intros He Ho j k Hk.
  assert (forall c0 c1, criterion_change c0 c1 -> acceptance_criteria (pl_db p) !! ac_ID c0 = Some c0 ->
    (exists c, acceptance_criteria (pl_db p) !! k_criterion_id k = Some c /\ k_criterion_revision k <= ac_Revision c) ->
    exists c, <[ac_ID c1 := c1]> (acceptance_criteria (pl_db p)) !! k_criterion_id k = Some c /\
      k_criterion_revision k <= ac_Revision c) as Hch.
  { intros c0 c1 [E _ _ _ _ Hr] Hc0 (c & Hc & Hle). rewrite E. destruct (decide (k_criterion_id k = ac_ID c0)) as [E'|Hne].
    - exists c1. rewrite E', lookup_insert_eq. split; [done|]. rewrite E', Hc0 in Hc. simplify_eq. lia.
    - exists c. by rewrite lookup_insert_ne. }
  destruct He; cbn in Hk |- *; try (by apply Ho);
    try (destruct (Ho _ _ Hk) as [Hj Hr]; split; [done|]; by eapply Hch).
  - destruct (Ho _ _ Hk) as (Hj & c0 & Hc0 & Hle). split; [done|]. exists c0. rewrite lookup_insert_ne; [done|]. congruence.
  - destruct (Ho _ _ Hk) as (Hj & c0 & Hc0 & Hle). split; [done|]. exists c0. rewrite lookup_delete_ne; [done|]. intros E.
    assert (k ∈ checks_of (pl_db p) (ac_ID c)) as Hin; [|by rewrite H1 in Hin; apply not_elem_of_nil in Hin].
    apply elem_of_select. rewrite E, bool_decide_eq_true_2 by done. eauto.
  - apply lookup_put in Hk as [[-> ->]|[_ Hk]]; [|eauto]. split; [done|]. exists c. split; [done|lia].
Qed.

Lemma edit_sound p p' : edit p p' -> plan_sound p -> plan_sound p'.
Proof.
  intros He [Hk Hw Hp Hpk Hmk Hmp Ho Hc]. destruct (edit_workflow _ _ He Hw Hp) as [Hw' Hp']. split; try done.
  - by eapply edit_keyed.
  - by eapply edit_project_keys.
  - by eapply edit_milestone_keys.
  - by eapply edit_milestone_project.
  - by eapply edit_owner.
  - by eapply edit_checks.
Qed.
Lemma edits_sound p p' : rtc edit p p' -> plan_sound p -> plan_sound p'.
Proof. induction 1; eauto using edit_sound. Qed.

End edits.

(** ** Commands of the workflow and the task store *)

(** A Task stays in its Project. *)
Definition same_project (t t' : TaskRow) : Prop := t_project_id t' = t_project_id t.
#[global] Instance same_project_preorder : PreOrder same_project.
Proof. split; [done|]. unfold same_project. intros a b c. congruence. Qed.

(** What they leave of the tables that planning reads. *)
Record work_kept (d d' : DB) : Prop := {
  wk_criteria : acceptance_criteria d' = acceptance_criteria d;
  wk_projects : projects d' = projects d;
  wk_milestones : milestones d' = milestones d;
  wk_code : task_code_changes d' = task_code_changes d;
  wk_users : users d' = users d;
  wk_tasks : rows_kept same_project (tasks d) (tasks d');
  wk_claims : forall i, is_Some (task_stage_claims d !! i) -> is_Some (task_stage_claims d' !! i);
  wk_checks : rows_kept eq (acceptance_checks d) (acceptance_checks d');
  wk_new : forall j k, acceptance_checks d' !! j = Some k -> acceptance_checks d !! j = Some k \/
    (k_id k = j /\ exists c, acceptance_criteria d !! k_criterion_id k = Some c /\ k_criterion_revision k = ac_Revision c);
}.
#[global] Instance work_kept_preorder : PreOrder work_kept.
Proof.
  split.
  - intros d. split; auto; apply rows_kept_refl, _.
  - intros d1 d2 d3 [A1 A2 A3 A4 Au At Ac A6 A7] [B1 B2 B3 B4 Bu Bt Bc B6 B7]. split; try congruence; auto.
    + by eapply rows_kept_trans; [apply _|..].
    + by eapply rows_kept_trans; [apply _|..].
    + intros j k [Hj|Hc]%B7; [auto|]. rewrite A1 in Hc. auto.
Qed.

Section workspace.
Context `{UUIDSource} `{TextForms}.

Lemma tasks_work_kept d T : rows_kept same_project (tasks d) T -> work_kept d (set_tasks T d).
Proof. intros HT. split; try done; auto; apply rows_kept_refl, _. Qed.
Lemma row_work_kept d k r r' : tasks d !! k = Some r -> same_project r r' -> work_kept d (put_task k r' d).
Proof. intros Hk Hp. apply tasks_work_kept, rows_kept_insert; [apply _|]. intros v Hv. by rewrite Hk in Hv; injection Hv as <-. Qed.
Lemma change_work_kept d d' : change d d' -> work_kept d d'.
Proof.
  intros Hc. pose proof (change_kept _ _ Hc) as Hr.
  assert (forall i, is_Some (task_stage_claims d !! i) -> is_Some (task_stage_claims d' !! i)) as Hcl.
  { intros i [c Hi]. destruct (rk_claims _ _ Hr _ _ Hi) as (c' & ? & _). eauto. }
  destruct Hc as [| |d k r task now Hk _| | |d chk crit Hf Hcr Hrev| |d c o now claim' d' _ _ [_ _ ->]| |];
    first [by apply (row_work_kept _ _ r)|split; try done; try apply Hr; auto; try apply rows_kept_refl, _].
  intros j k Hk. cbn in Hk. apply lookup_put in Hk as [[-> ->]|[_ Hk]]; eauto.
Qed.
Lemma logged_work_kept d d' : logged d d' -> work_kept d d'.
Proof. intros (es & ys & ls & ->). split; try done; auto; apply rows_kept_refl, _. Qed.

Lemma changes_work_kept d d' : rtc change d d' -> work_kept d d'.
Proof. induction 1 as [|x y z H1 _ IH]; [reflexivity|]. etrans; [by apply change_work_kept|done]. Qed.

Lemma workspace_kept c w : wf (w_db w) -> planned (w_db w) -> work_kept (w_db w) (w_db (step c w)).
Proof.
  intros Hw Hp. unfold step. destruct c as [c|t ls ds op number now|number ev patch op now|number ev archived op now].
  { apply changes_work_kept. by apply after_changes. }
  - destruct (run_workspace (WCreate t ls ds op number now) w) as [[[]|e] w'] eqn:Er; cbn;
      [|by rewrite (task_store_atomic _ _ _ _ Er (fun _ Ec => ltac:(discriminate Ec)))].
    cbn in Er. apply M_bind_Ok in Er as (r & w1 & Er & [_ <-]%M_ret_Ok).
    apply create_Ok in Er as (id & mid & Hc & _ & Hl). etrans; [|by apply logged_work_kept].
    split; try done; auto; try apply rows_kept_refl, _. apply rows_kept_insert; [apply _|]. intros v Hv.
    cbn in Hv. by rewrite (tc_fresh _ _ _ _ _ _ _ Hc) in Hv.
  - destruct (run_workspace (WUpdate number ev patch op now) w) as [[[]|e] w'] eqn:Er; cbn;
      [|by rewrite (task_store_atomic _ _ _ _ Er (fun _ Ec => ltac:(discriminate Ec)))].
    cbn in Er. apply M_bind_Ok in Er as (r & w1 & Er & [_ <-]%M_ret_Ok).
    apply update_Ok in Er as (r0 & brief & completed & E & T1 & T2 & T3 & Hu & Hl & _).
    etrans; [|by apply logged_work_kept]. etrans; [|apply tasks_work_kept].
    + split; try done; auto; apply rows_kept_refl, _.
    + intros i x Hx. destruct (edited_rows_new _ _ _ _ (update_edits _ _ _ _ _ _ _ _ _ _ _ _ Hw Hu) Hx) as (x' & ? & Hs).
      exists x'. split; [done|apply Hs].
  - destruct (run_workspace (WArchive number ev archived op now) w) as [[[]|e] w'] eqn:Er; cbn;
      [|by rewrite (task_store_atomic _ _ _ _ Er (fun _ Ec => ltac:(discriminate Ec)))].
    cbn in Er. apply M_bind_Ok in Er as (r & w1 & Er & [_ <-]%M_ret_Ok).
    apply archive_Ok in Er as (r0 & Hn & _ & _ & _ & Er' & Hl). etrans; [|by apply logged_work_kept].
    apply (task_by_number_Some _ _ _ (wf_tasks _ Hw)) in Hn as [Hk _].
    by apply (row_work_kept _ _ r0); [|rewrite Er'].
Qed.

Lemma work_sound p w' : plan_sound p -> wf (w_db w') -> planned (w_db w') -> work_kept (pl_db p) (w_db w') ->
  plan_sound (set_world w' p).
Proof.
  intros [Hk _ _ Hpk Hmk Hmp Ho Hc] Hw Hp [Kc Kp Km _ _ Kt _ Kk Kn]. split; try done.
  - destruct Hk. split; try done. cbn. unfold pl_db. cbn. by rewrite Kc.
  - unfold pl_db. cbn. by rewrite Kp.
  - unfold pl_db. cbn. by rewrite Km.
  - unfold pl_db. cbn. rewrite Kc. intros i c Hi. eapply fks_mono; [by eapply Ho|done|].
    intros j [t Ht]. destruct (Kt _ _ Ht) as (t' & ? & _). eauto.
  - unfold pl_db. cbn. rewrite Kc. intros j k [Hj|(Hj & c & Hcr & Hr)]%Kn; [eauto|]. split; [done|]. exists c. split; [done|lia].
Qed.

Context `{NameOrder}.
Lemma plan_step_work c p : plan_step (PWork c) p = set_world (step c (pl_world p)) p.
Proof. unfold plan_step, step. cbn. unfold on_world. by destruct (run_workspace c (pl_world p)). Qed.

Lemma plan_step_sound c p : plan_sound p -> plan_sound (plan_step c p).
Proof.
  intros Hs. destruct (is_work c) eqn:Hc.
  - destruct c as [c| | | | | | | | | | | | | | | | | | |]; try done. rewrite plan_step_work.
    destruct (step_keeps c (pl_world p) (ps_wf _ Hs) (ps_planned _ Hs)) as [Hw Hp].
    apply work_sound; try done. apply workspace_kept; [apply Hs|apply Hs].
  - eapply edits_sound; [by apply plan_step_edits; [|apply Hs]|done].
Qed.
Lemma plan_steps_sound cs p : plan_sound p -> plan_sound (plan_steps cs p).
Proof. revert p. induction cs as [|c cs IH]; intros p Hs; cbn; [done|]. by apply IH, plan_step_sound. Qed.
End workspace.

(** ** What checks are evidence of *)

(** The row [c'] of the criterion [c] later on: of the same revision only with the same text. *)
Record same_criterion (c c' : AcceptanceCriterion) : Prop := {
  sm_id : ac_ID c' = ac_ID c;
  sm_milestone : ac_MilestoneID c' = ac_MilestoneID c;
  sm_task : ac_TaskID c' = ac_TaskID c;
  sm_revision : ac_Revision c <= ac_Revision c';
  sm_text : ac_Revision c' = ac_Revision c ->
    ac_Criterion c' = ac_Criterion c /\ ac_VerificationInstructions c' = ac_VerificationInstructions c;
}.
#[global] Instance same_criterion_preorder : PreOrder same_criterion.
Proof.
  split; [by split|]. intros c1 c2 c3 [] []. split; try congruence; [lia|]. intros E.
  assert (ac_Revision c2 = ac_Revision c1) as E1 by lia. assert (ac_Revision c3 = ac_Revision c2) as E2 by lia.
  destruct (sm_text0 E1), (sm_text1 E2). split; congruence.
Qed.
Lemma change_same_criterion c c' : criterion_change c c' -> same_criterion c c'.
Proof. intros [H1 H2 H3 _ _ Ht]. split; try done; [lia|]. intros E. destruct Ht as [(_ & ? & ?)|?]; [done|lia]. Qed.

(** A check stays, with the criterion that it was made for. *)
Definition evidence_kept (d d' : DB) : Prop := forall j k c,
  acceptance_checks d !! j = Some k -> acceptance_criteria d !! k_criterion_id k = Some c ->
  acceptance_checks d' !! j = Some k /\ exists c', acceptance_criteria d' !! k_criterion_id k = Some c' /\ same_criterion c c'.
#[global] Instance evidence_kept_preorder : PreOrder evidence_kept.
Proof.
  split.
  - intros d j k c Hk Hc. split; [done|]. exists c. by split.
  - intros d1 d2 d3 H12 H23 j k c Hk Hc. destruct (H12 _ _ _ Hk Hc) as (Hk2 & c2 & Hc2 & S2).
    destruct (H23 _ _ _ Hk2 Hc2) as (Hk3 & c3 & Hc3 & S3). split; [done|]. exists c3. split; [done|by etrans].
Qed.

Lemma edit_evidence ext p p' : edit ext p p' -> evidence_kept (pl_db p) (pl_db p').
Proof.
  intros He j k c Hk Hc.
  assert (forall c0 c1, acceptance_criteria (pl_db p) !! ac_ID c0 = Some c0 -> criterion_change c0 c1 ->
    exists c', <[ac_ID c1 := c1]> (acceptance_criteria (pl_db p)) !! k_criterion_id k = Some c' /\ same_criterion c c') as Hch.
  { intros c0 c1 Hc0 Hcc. rewrite (cg_id _ _ Hcc). destruct (decide (k_criterion_id k = ac_ID c0)) as [E|Hne].
    - exists c1. rewrite E, lookup_insert_eq. split; [done|]. rewrite E, Hc0 in Hc. simplify_eq. by apply change_same_criterion.
    - exists c. rewrite lookup_insert_ne by done. by split. }
  destruct He; cbn; try (split; [done|]; exists c; by split); try (split; [done|]; by eapply Hch).
  - split; [done|]. exists c. rewrite lookup_insert_ne by congruence. by split.
  - split; [done|]. exists c. rewrite lookup_delete_ne; [by split|]. intros E.
    assert (k ∈ checks_of (pl_db p) (ac_ID c0)) as Hin; [|by rewrite H1 in Hin; apply not_elem_of_nil in Hin].
    apply elem_of_select. rewrite E, bool_decide_eq_true_2 by done. eauto.
  - split; [rewrite lookup_insert_ne; [done|congruence]|]. exists c. by split.
Qed.
Lemma edits_evidence ext p p' : rtc (edit ext) p p' -> evidence_kept (pl_db p) (pl_db p').
Proof. induction 1 as [|x y z H1 _ IH]; [reflexivity|]. etrans; [by eapply edit_evidence|done]. Qed.

Section evidence.
Context `{UUIDSource} `{NameOrder} `{TextForms}.
Lemma plan_step_evidence c p : plan_sound p -> evidence_kept (pl_db p) (pl_db (plan_step c p)).
Proof.
  intros Hs. destruct (is_work c) eqn:Hc.
  - destruct c as [c| | | | | | | | | | | | | | | | | | |]; try done. rewrite plan_step_work.
    pose proof (workspace_kept c (pl_world p) (ps_wf _ Hs) (ps_planned _ Hs)) as Hk.
    intros j k cr Hj Hcr. cbn. split.
    + destruct (wk_checks _ _ Hk _ _ Hj) as (k' & Hk' & <-). done.
    + exists cr. unfold pl_db. cbn. rewrite (wk_criteria _ _ Hk). by split.
  - eapply edits_evidence, plan_step_edits; [done|apply Hs].
Qed.
Lemma plan_steps_evidence cs p : plan_sound p -> evidence_kept (pl_db p) (pl_db (plan_steps cs p)).
Proof.
  revert p. induction cs as [|c cs IH]; intros p Hs; cbn; [reflexivity|]. etrans; [by apply plan_step_evidence|].
  by apply IH, plan_step_sound.
Qed.
End evidence.
