(* ===== verification/PlanningMoves.v ===== *)
(** * How Milestones move

    The lifecycle of Milestones as an abstract machine over the tables, and the evidence that each of
    its transitions needs; the code moves a Milestone only along them. *)

From stdpp Require Import base tactics strings gmap list numbers sorting relations.
From S2P Require Import Prelude Actors Lifecycle StageClaim Delivery Thread Acceptance Database Tx State.
From S2P Require Import ThreadStore ClaimStore WorkflowStore WorkflowCommands TaskStore TaskGraph WorkflowEffects.
From S2P Require Import WorkflowInvariant WorkflowOutcomes WorkflowSafety TaskEffects TaskInvariant StoreCommands.
From S2P Require Import Refinement History Changes Records Workspace.
From S2P Require Import Access Membership PlanningStore CriteriaStore PlanningEffects PlanningCommands PlanningInvariant.

(** ** Evidence, as the tables hold it *)

(** The last check of the current revision of a criterion. *)
Record latest_for (d : DB) (c : AcceptanceCriterion) (k : CheckRow) : Prop := {
  lf_stored : exists j, acceptance_checks d !! j = Some k;
  lf_criterion : k_criterion_id k = ac_ID c;
  lf_revision : k_criterion_revision k = ac_Revision c;
  lf_last : forall j k', acceptance_checks d !! j = Some k' -> k_criterion_id k' = ac_ID c ->
    k_criterion_revision k' = ac_Revision c -> key_le (k_checked_at k', k_id k') (k_checked_at k, k_id k);
}.

Definition criterion_of (d : DB) (i : UUID) (c : AcceptanceCriterion) : Prop :=
  (exists j, acceptance_criteria d !! j = Some c) /\ ac_MilestoneID c = Some i /\ ac_ArchivedAt c = None.
(** There is a criterion, and the last word on each was that it passed or was waived. *)
Definition accepted (d : DB) (i : UUID) : Prop :=
  (exists c, criterion_of d i c) /\
  (forall c, criterion_of d i c -> exists k, latest_for d c k /\ (k_outcome k = "passed" \/ k_outcome k = "waived")).
Definition tasks_finished (d : DB) (i : UUID) : Prop :=
  forall j t, tasks d !! j = Some t -> b_milestone_id (t_brief t) = Some i -> finished t.

Lemma finished_not_unfinished t : finished t -> unfinished t = false.
Proof. unfold unfinished. intros [-> | ->]; done. Qed.

Lemma last_sorted {A} (R : relation A) (l : list A) x y : StronglySorted R l -> last l = Some x -> y ∈ l -> y = x \/ R y x.
Proof.
  induction 1 as [|z l Hs IH Hz]; [done|]. destruct l as [|z' l].
  - cbn. intros [= ->] ->%list_elem_of_singleton. by left.
  - intros Hl. change (last (z' :: l) = Some x) in Hl. rewrite elem_of_cons. intros [->|Hy]; [|auto].
    right. rewrite Forall_forall in Hz. apply Hz, last_Some_elem_of. done.
Qed.

Lemma key_le_refl a : key_le a a.
Proof. right. split; [done|lia]. Qed.

Lemma current_check_latest d c k : current_check d None c = Some k -> latest_for d c k.
Proof.
  unfold current_check. intros Hk.
  assert (forall x, x ∈ order_by (fun k => (k_checked_at k, k_id k)) (select (fun k =>
    (k_criterion_id k == ac_ID c) && (k_criterion_revision k == ac_Revision c) && true) (acceptance_checks d)) <->
    (k_criterion_id x = ac_ID c /\ k_criterion_revision x = ac_Revision c) /\ exists j, acceptance_checks d !! j = Some x) as Hin.
  { intros x. rewrite order_by_perm, elem_of_select, andb_true_r, andb_true_iff, !bool_decide_eq_true. done. }
  destruct (proj1 (Hin k)) as [[H1 H2] Hj]; [by apply last_Some_elem_of|]. split; try done. intros j k' Hk' E1 E2.
  destruct (last_sorted _ _ k k' (order_by_sorted _ _) Hk) as [->|Hle]; [apply Hin; eauto|apply key_le_refl|done].
Qed.

Lemma elem_of_milestone_criteria d i c : c ∈ milestone_criteria d i <-> criterion_of d i c.
Proof.
  unfold milestone_criteria, criterion_of. rewrite elem_of_select, andb_true_iff, bool_decide_eq_true, negb_true_iff.
  destruct (ac_ArchivedAt c); naive_solver.
Qed.
Lemma tasks_finished_iff d i : tasks_finished d i <-> rd_MilestoneTasks (milestoneReadiness d i) = 0.
Proof.
  unfold tasks_finished, milestoneReadiness. cbn. split.
  - intros Ht. destruct (select _ _) as [|t l] eqn:E; [done|]. exfalso.
    assert (t ∈ select (fun t => (b_milestone_id (t_brief t) == Some i) && unfinished t) (tasks d)) as Hin by (rewrite E; set_solver).
    apply elem_of_select in Hin as [[Hi Hu]%andb_true_iff [j Hj]]. apply bool_decide_eq_true in Hi.
    specialize (Ht _ _ Hj Hi). by rewrite (finished_not_unfinished _ Ht) in Hu.
  - intros Hn j t Hj Hi. apply unfinished_false. apply not_true_is_false. intros Hu.
    assert (t ∈ select (fun t => (b_milestone_id (t_brief t) == Some i) && unfinished t) (tasks d)) as Hin.
    { apply elem_of_select. rewrite Hi, bool_decide_eq_true_2 by done. eauto. }
    destruct (select _ _); [by apply not_elem_of_nil in Hin|cbn in Hn; lia].
Qed.

Section sound.
Context (p : PlanWorld) (Hs : plan_sound p).
Local Abbreviation d := (pl_db p).

Lemma latest_current c k : latest_for d c k -> current_check d None c = Some k.
Proof using Hs.
  intros [[j Hj] H1 H2 Hl]. destruct (current_check d None c) as [k'|] eqn:E.
  - pose proof (current_check_latest _ _ _ E) as [[j' Hj'] H1' H2' Hl'].
    pose proof (Hl _ _ Hj' H1' H2') as L1. pose proof (Hl' _ _ Hj H1 H2) as L2.
    destruct (ps_checks _ Hs _ _ Hj) as [E1 _]. destruct (ps_checks _ Hs _ _ Hj') as [E2 _].
    unfold key_le in L1, L2. cbn in L1, L2. assert (k_id k' = k_id k) by lia. congruence.
  - unfold current_check in E. apply last_None in E.
    assert (k ∈ select (fun k => (k_criterion_id k == ac_ID c) && (k_criterion_revision k == ac_Revision c) && true)
      (acceptance_checks d)) as Hin.
    { apply elem_of_select. rewrite H1, H2, !bool_decide_eq_true_2 by done. eauto. }
    rewrite <- (order_by_perm (fun k => (k_checked_at k, k_id k))), E in Hin. by apply not_elem_of_nil in Hin.
Qed.

Lemma satisfied_iff c : criterion_satisfied d c = true <->
  exists k, latest_for d c k /\ (k_outcome k = "passed" \/ k_outcome k = "waived").
Proof using Hs.
  unfold criterion_satisfied. split.
  - destruct (current_check d None c) as [k|] eqn:E; [|done]. intros Ho%bool_decide_eq_true.
    exists k. split; [by apply current_check_latest|set_solver].
  - intros (k & Hk & Ho). rewrite (latest_current _ _ Hk). apply bool_decide_eq_true. set_solver.
Qed.

Lemma accepted_iff i : accepted d i <->
  0 < rd_ActiveCriteria (milestoneReadiness d i) /\ rd_UnsatisfiedCriteria (milestoneReadiness d i) = 0.
Proof using Hs.
  unfold accepted, milestoneReadiness. cbn. split.
  - intros [[c Hc] Ha]. apply elem_of_milestone_criteria in Hc as Hin. split.
    + destruct (milestone_criteria d i); [set_solver|cbn; lia].
    + destruct (List.filter _ _) as [|x l] eqn:E; [done|]. exfalso.
      assert (In x (List.filter (fun c => negb (criterion_satisfied d c)) (milestone_criteria d i))) as Hx by (rewrite E; by left).
      apply filter_In in Hx as [Hx Hn]. apply list_elem_of_In, elem_of_milestone_criteria, Ha, satisfied_iff in Hx.
      by rewrite Hx in Hn.
  - intros [Hn Hu]. split.
    + destruct (milestone_criteria d i) as [|c l] eqn:E; [cbn in Hn; lia|]. exists c. apply elem_of_milestone_criteria.
      rewrite E. set_solver.
    + intros c Hc%elem_of_milestone_criteria. apply satisfied_iff. apply negb_false_iff.
      apply (filter_length_nil (fun c => negb (criterion_satisfied d c)) (milestone_criteria d i)); [lia|done].
Qed.
End sound.

(** ** The machine *)

Inductive milestone_edge (d : DB) (actor : OperationActor) (reason : string) (now : Time)
    : MilestoneLifecycleAction -> Milestone -> Milestone -> Prop :=
| edge_activate m :
    ms_Status m = MilestoneStatusPlanned -> (exists c, criterion_of d (ms_ID m) c) ->
    milestone_edge d actor reason now MilestoneActionActivate m
      (milestone_in m MilestoneStatusActive (ms_CompletedAt m) (ms_CancelledAt m) now)
| edge_complete m :
    ms_Status m = MilestoneStatusActive -> accepted d (ms_ID m) -> tasks_finished d (ms_ID m) ->
    milestone_edge d actor reason now MilestoneActionComplete m
      (milestone_in m MilestoneStatusCompleted (Some now) None now)
| edge_cancel m :
    ms_Status m = MilestoneStatusPlanned \/ ms_Status m = MilestoneStatusActive -> tasks_finished d (ms_ID m) ->
    milestone_edge d actor reason now MilestoneActionCancel m
      (milestone_in m MilestoneStatusCancelled None (Some now) now)
| edge_reopen m :
    ms_Status m = MilestoneStatusCompleted \/ ms_Status m = MilestoneStatusCancelled ->
    op_UserID actor <> uuid_Nil -> blank reason = false ->
    milestone_edge d actor reason now MilestoneActionReopen m (milestone_in m MilestoneStatusActive None None now).

Lemma fail_if_bind {A} b e (f : unit -> result A) (r : A) : (fail_if b e ≫= f) = Ok r <-> b = false /\ f tt = Ok r.
Proof. destruct b; cbn; naive_solver. Qed.

Lemma milestone_action_iff p a m actor reason now m' : plan_sound p ->
  milestone_action a m (milestoneReadiness (pl_db p) (ms_ID m)) actor reason now = Ok m' <->
  milestone_edge (pl_db p) actor reason now a m m'.
Proof.
  intros Hs. pose proof (accepted_iff p Hs (ms_ID m)) as Ha. pose proof (tasks_finished_iff (pl_db p) (ms_ID m)) as Ht.
  assert ((exists c, criterion_of (pl_db p) (ms_ID m) c) <-> 0 < rd_ActiveCriteria (milestoneReadiness (pl_db p) (ms_ID m))) as Hc.
  { unfold milestoneReadiness. cbn. split.
    - intros [c Hc%elem_of_milestone_criteria]. destruct (milestone_criteria _ _); [by apply not_elem_of_nil in Hc|cbn; lia].
    - intros Hn. destruct (milestone_criteria (pl_db p) (ms_ID m)) as [|c l] eqn:E; [cbn in Hn; lia|].
      exists c. apply elem_of_milestone_criteria. rewrite E. set_solver. }
  assert (0 <= rd_ActiveCriteria (milestoneReadiness (pl_db p) (ms_ID m)) /\
          0 <= rd_UnsatisfiedCriteria (milestoneReadiness (pl_db p) (ms_ID m)) /\
          0 <= rd_MilestoneTasks (milestoneReadiness (pl_db p) (ms_ID m))) as (P1 & P2 & P3) by (cbn; lia).
  revert Ha Ht Hc P1 P2 P3. generalize (milestoneReadiness (pl_db p) (ms_ID m)). intros rd Ha Ht Hc P1 P2 P3.
  unfold milestone_action, Milestone_Activate, Milestone_Complete, Milestone_Cancel, Milestone_Reopen.
  change (Actor_IsHuman (mkActor ActorTypeUser (Some (op_UserID actor)) "")) with (op_UserID actor != uuid_Nil).
  split.
  - repeat case_bool_decide; subst; try done; rewrite ?fail_if_bind; intros E; destruct_and! E; go_bool; simplify_eq;
      match goal with Hx : Ok _ = Ok _ |- _ => injection Hx as <- | _ => idtac end; constructor; try tauto; try done.
    all: first [apply Hc; lia | apply Ha; lia | apply Ht; lia].
  - intros He; destruct He as [m Es Hx|m Es Hx Hy|m Es Hx|m Es Hu Hb]; repeat case_bool_decide; try done;
      rewrite ?fail_if_bind; split_and!; try done; cbn.
    all: try (apply Z.ltb_ge; apply Ht in Hx || apply Ht in Hy; lia).
    all: try by destruct Es.
    + apply Z.eqb_neq. apply Hc in Hx. lia.
    + apply Ha in Hx. apply orb_false_iff. split; [apply Z.eqb_neq|apply Z.ltb_ge]; lia.
Qed.

(** ** Commands that move *)

(** The Milestone and the row that a lifecycle command replaces it with; the rest moves nothing. *)
Record moved (p p' : PlanWorld) (projectID milestoneID : UUID) (action : MilestoneLifecycleAction) (actor : OperationActor)
    (reason : string) (now : Time) (m m1 m' : Milestone) (p1 : PlanWorld) : Prop := {
  mo_row : milestone_of projectID milestoneID p = Some m;
  mo_action : milestone_action action m (milestoneReadiness (pl_db p) (ms_ID m)) actor reason now = Ok m1;
  mo_status : ms_ProjectID m' = ms_ProjectID m1 /\ ms_Status m' = ms_Status m1 /\ ms_CompletedAt m' = ms_CompletedAt m1 /\ ms_CancelledAt m' = ms_CancelledAt m1;
  mo_table : pl_milestones p1 = <[ms_ID m := m']> (pl_milestones p);
  mo_db : pl_db p1 = pl_db p;
  mo_rest : rtc (edit quiet) p1 p';
}.

Section moving.
Context `{UUIDSource} `{NameOrder}.

Lemma wp_update_milestone_put p m invalid :
  wp (update_milestone m invalid) p (fun _ p1 => p1 = put_milestone m p).
Proof. unfold update_milestone. wp_steps. done. Qed.

Lemma wp_rest {A B} (m : PlanM A) p (p1 : PlanWorld) (f : A -> PlanM B) (Q : PlanWorld -> Prop) :
  keyed p1 -> wp m p (fun _ p' => p' = p1) -> (forall a, oks quiet (f a)) ->
  (forall p', rtc (edit quiet) p1 p' -> Q p') ->
  wp m p (fun a p' => wp (f a) p' (fun _ p2 => Q p2)).
Proof.
  intros Hk Hm Hf HQ. eapply wp_mono; [exact Hm|]. intros a p' ->. eapply wp_mono; [by apply Hf|]. intros b p2. apply HQ.
Qed.

Lemma wp_lifecycle projectID milestoneID action actor reason now p : keyed p ->
  wp (Milestones_ApplyLifecycleWithOperation projectID milestoneID action actor reason now) p (fun _ p' =>
    exists m m1 m' p1, moved p p' projectID milestoneID action actor reason now m m1 m' p1).
Proof.
  intros Hk. unfold Milestones_ApplyLifecycleWithOperation, Milestones_Get. apply wp_bind. wp_step. apply wp_plan_tx. wp_steps.
  destruct (milestone_of_own _ _ _ _ Hk H2) as [Hm _].
  destruct (milestone_action_row _ _ _ _ _ _ _ H3) as (st & co & ca & E).
  eapply (wp_rest _ _ (put_milestone a1 p)); [|by apply wp_update_milestone_put|intros; oks_all; apply oks_record_action|].
  - eapply (edit_keyed (mkExtent (fun _ => True) (fun _ => True) (fun _ => True))); [|exact Hk]. eapply edit_milestone; [exact Hm|]. eapply action_change; [exact I|eassumption|auto].
  - intros p' Hr. exists a0, a1, a1, (put_milestone a1 p). split; try done. cbn. by rewrite E.
Qed.

Lemma wp_lifecycle_versioned projectID v milestoneID mv action actor reason now p : keyed p ->
  wp (Milestones_ApplyLifecycleVersionedWithOperation projectID v milestoneID mv action actor reason now) p (fun _ p' =>
    (exists m m1 m' p1, moved p p' projectID milestoneID action actor reason now m m1 m' p1)).
Proof.
  intros Hk. unfold Milestones_ApplyLifecycleVersionedWithOperation, Milestones_Get, expect_version, lockVersion. apply wp_bind.
  wp_step. apply wp_plan_tx. wp_steps.
  match goal with E : milestone_of _ _ _ = Some ?m |- _ => destruct (milestone_of_own _ _ _ _ Hk E) as [Hm _] end.
  match goal with Ha : milestone_action _ _ _ _ _ _ = Ok ?x |- _ =>
    rename x into m1; destruct (milestone_action_row _ _ _ _ _ _ _ Ha) as (st & co & ca & Em1) end.
  eapply (wp_rest _ _ (put_milestone (milestone_bumped m1 (ms_UpdatedAt m1)) p));
    [| |intros; oks_all; apply oks_record_action|].
  - eapply (edit_keyed (mkExtent (fun _ => True) (fun _ => True) (fun _ => True))); [|exact Hk]. eapply edit_milestone; [exact Hm|]. eapply action_change; [exact I|eassumption|auto].
  - unfold update_milestone_version. wp_steps. eapply wp_mono; [apply wp_update_milestone_put|]. intros [] p1 ->. by apply wp_ret.
  - intros p' Hr. eexists _, m1, (milestone_bumped m1 (ms_UpdatedAt m1)), (put_milestone (milestone_bumped m1 (ms_UpdatedAt m1)) p).
    split; [eassumption|eassumption|done| |done|done]. cbn. by rewrite Em1.
Qed.
End moving.

(** ** A Milestone moves only by a lifecycle command *)

Definition same_state (m m' : Milestone) : Prop :=
  ms_ProjectID m' = ms_ProjectID m /\ ms_Status m' = ms_Status m /\ ms_CompletedAt m' = ms_CompletedAt m /\
  ms_CancelledAt m' = ms_CancelledAt m.

Lemma edit_stays ext p p' : edit ext p p' -> (forall a, ~ moves ext a) ->
  forall i m, pl_milestones p !! i = Some m -> exists m', pl_milestones p' !! i = Some m' /\ same_state m m'.
Proof.
  intros He Hn i y Hy.
  destruct He as [| | | | | |p m Hf _ _ _|p m m' Hm Hc| | | | | |]; cbn; try (exists y; done).
  - exists y. by rewrite lookup_insert_ne by congruence.
  - destruct Hc as [Hi Hp _ _ Hmv]. destruct (decide (i = ms_ID m)) as [->|Hne].
    + exists m'. rewrite Hi, lookup_insert_eq. split; [done|]. simplify_eq. destruct Hmv as [? ? ?|a ? ? ? ? Ha]; [done|by destruct (Hn a)].
    + exists y. by rewrite lookup_insert_ne by congruence.
Qed.
Lemma edits_stay ext p p' : rtc (edit ext) p p' -> (forall a, ~ moves ext a) ->
  forall i m, pl_milestones p !! i = Some m -> exists m', pl_milestones p' !! i = Some m' /\ same_state m m'.
Proof.
  intros Hr Hn. induction Hr as [|x y z H1 _ IH]; intros i m Hm; [exists m; done|].
  destruct (edit_stays _ _ _ H1 Hn _ _ Hm) as (m1 & Hm1 & S1). destruct (IH _ _ Hm1) as (m2 & Hm2 & S2).
  exists m2. split; [done|]. unfold same_state in *. destruct_and! S1. destruct_and! S2. split_and!; congruence.
Qed.

Section system.
Context `{UUIDSource} `{NameOrder} `{TextForms}.

(** The arguments of a lifecycle command. *)
Definition lifecycle_of (c : PlanCommand) : option (UUID * UUID * MilestoneLifecycleAction * OperationActor * string * Time) :=
  match c with
  | PMilestoneLifecycle projectID milestoneID action actor reason now
  | PMilestoneLifecycleVersioned projectID _ milestoneID _ action actor reason now =>
      Some (projectID, milestoneID, action, actor, reason, now)
  | _ => None
  end.

Lemma lifecycle_run c projectID i action actor reason now p p' :
  keyed p -> lifecycle_of c = Some (projectID, i, action, actor, reason, now) -> run_plan c p = (Ok tt, p') ->
  exists m m1 m' p1, moved p p' projectID i action actor reason now m m1 m' p1.
Proof.
  intros Hk Hc Hr. destruct c; try done; injection Hc as <- <- <- <- <- <-; cbn in Hr; unfold and_done in Hr;
    apply St_bind_Ok in Hr as (a & p2 & Hr & [_ <-]%St_ret_Ok).
  - by eapply wp_lifecycle.
  - by eapply wp_lifecycle_versioned.
Qed.

Lemma and_done_failed {A} (m : PlanM A) p e p' : and_done m p = (Err e, p') -> m p = (Err e, p').
Proof. unfold and_done, mbind, St_bind. destruct (m p) as [[a|e'] p1]; [done|]. by intros [= -> ->]. Qed.
Lemma lift_failed {A} (r : result unit) (m : PlanM A) p e p' :
  (st_lift r ≫= fun _ => m) p = (Err e, p') -> p' = p \/ m p = (Err e, p').
Proof. unfold mbind, St_bind, st_lift. destruct r; [by right|]. intros [= _ <-]. by left. Qed.
Lemma plan_tx_failed {A} (m : PlanM A) p e p' : plan_tx m p = (Err e, p') -> exists n k, p' = drawn n k p.
Proof. unfold plan_tx. destruct (m p) as [[a|e'] p1]; [done|]. intros [= _ <-]. by eexists _, _. Qed.
Lemma lifecycle_failed c x p e p' :
  lifecycle_of c = Some x -> run_plan c p = (Err e, p') -> pl_milestones p' = pl_milestones p /\ pl_db p' = pl_db p.
Proof.
  intros Hc Hr. assert (exists n k, p' = drawn n k p \/ p' = p) as (n & k & [-> | ->]); [|done..].
  destruct c; try done; cbn in Hr; apply and_done_failed in Hr;
    [unfold Milestones_ApplyLifecycleWithOperation in Hr|unfold Milestones_ApplyLifecycleVersionedWithOperation in Hr];
    apply lift_failed in Hr as [->|Hr]; try (exists 0%nat, 0; by right);
    apply plan_tx_failed in Hr as (n & k & ->); exists n, k; by left.
Qed.

(** A command that changes the state of a Milestone is a lifecycle command on it, whose action the
    code allows in the tables right before. *)
Lemma step_moves c p i m m' :
  plan_sound p -> pl_milestones p !! i = Some m -> pl_milestones (plan_step c p) !! i = Some m' ->
  same_state m m' \/
  exists action actor reason now m1, lifecycle_of c = Some (ms_ProjectID m, i, action, actor, reason, now) /\
    milestone_edge (pl_db p) actor reason now action m m1 /\ same_state m1 m'.
Proof.
  intros Hs Hm Hm'. destruct (lifecycle_of c) as [[[[[[projectID j] action] actor] reason] now]|] eqn:Hc.
  - unfold plan_step in Hm'. destruct (run_plan c p) as [[[]|e] p'] eqn:Hr; cbn in Hm'.
    + destruct (lifecycle_run _ _ _ _ _ _ _ _ _ (ps_keyed _ Hs) Hc Hr) as (m0 & m1 & m2 & p1 & [Ho Ha Hst Ht Hd Hre]).
      destruct (milestone_of_own _ _ _ _ (ps_keyed _ Hs) Ho) as [Hm0 Hid]. apply milestone_of_lookup in Ho as [_ Hpr].
      destruct (decide (ms_ID m0 = i)) as [Ei|Hne].
      * right. rewrite Ei in *. assert (m0 = m) as -> by congruence.
        destruct (edits_stay _ _ _ Hre (fun _ x => x) i m2) as (m3 & Hm3 & S3); [by rewrite Ht, lookup_insert_eq|].
        assert (m3 = m') as -> by congruence.
        exists action, actor, reason, now, m1. split; [by rewrite Hpr, <- Hid|].
        split; [apply milestone_action_iff; [done|by rewrite Ei]|].
        destruct (milestone_action_row _ _ _ _ _ _ _ Ha) as (st & co & ca & E1).
        unfold same_state in *. destruct_and! S3. destruct_and! Hst. split_and!; congruence.
      * left. destruct (edits_stay _ _ _ Hre (fun _ x => x) i m) as (m3 & Hm3 & S3);
          [by rewrite Ht, lookup_insert_ne|]. assert (m3 = m') as -> by congruence. done.
    + left. destruct (lifecycle_failed _ _ _ _ _ Hc Hr) as [E _]. rewrite E in Hm'. by simplify_eq.
  - left. destruct (is_work c) eqn:Hw.
    + destruct c as [c| | | | | | | | | | | | | | | | | | |]; try done. rewrite plan_step_work in Hm'. cbn in Hm'. by simplify_eq.
    + destruct (edits_stay _ _ _ (plan_step_edits c p Hw (ps_keyed _ Hs))) with (i := i) (m := m) as (m3 & Hm3 & S3);
        [intros a Ha; by destruct c|done|]. by simplify_eq.
Qed.
End system.

(** ** A Project is archived only when nothing in it is open *)

Lemma edit_archive_kept ext p p' : edit ext p p' -> (forall a, ~ archives ext a) ->
  forall i x, pl_projects p !! i = Some x -> exists x', pl_projects p' !! i = Some x' /\ p_ArchivedAt x' = p_ArchivedAt x.
Proof.
  intros He Hn i y Hy. destruct He as [| | | |p x Hf _ _|p x x' Hx Hc| | | | | | | |]; cbn; try (exists y; done).
  - exists y. by rewrite lookup_insert_ne by congruence.
  - destruct Hc as [Hi _ _ _ _ _ Ha]. destruct (decide (i = p_ID x)) as [->|Hne].
    + exists x'. rewrite Hi, lookup_insert_eq. split; [done|]. simplify_eq.
      destruct Ha as [?|[[Ha _]|[Ha _]]]; [done|by destruct (Hn _ Ha)..].
    + exists y. by rewrite lookup_insert_ne by congruence.
Qed.
Lemma edits_archive_kept ext p p' : rtc (edit ext) p p' -> (forall a, ~ archives ext a) ->
  forall i x, pl_projects p !! i = Some x -> exists x', pl_projects p' !! i = Some x' /\ p_ArchivedAt x' = p_ArchivedAt x.
Proof.
  intros Hr Hn. induction Hr as [q|y z w H1 _ IH]; intros i x Hx; [eauto|].
  destruct (edit_archive_kept _ _ _ H1 Hn _ _ Hx) as (x1 & Hx1 & E1). destruct (IH _ _ Hx1) as (x2 & Hx2 & E2).
  exists x2. split; [done|congruence].
Qed.

Section archiving.
Context `{UUIDSource} `{NameOrder} `{TextForms}.

Record archived_by (p p' : PlanWorld) (number : Z) (action : ProjectLifecycleAction) (x x' : Project) (p1 : PlanWorld) : Prop := {
  ab_row : project_numbered number p = Some x;
  ab_action : (action = ProjectActionArchive /\ archivable p x /\ present (p_ArchivedAt x') = true) \/
              (action = ProjectActionRestore /\ p_ArchivedAt x' = None);
  ab_table : pl_projects p1 = <[p_ID x := x']> (pl_projects p);
  ab_rest : rtc (edit quiet) p1 p';
}.

Lemma wp_update_project_put p x now invalid :
  wp (update_project x now invalid) p (fun _ p1 => p1 = put_project (project_bumped x now) p /\ p_Version x <> MaxInt64).
Proof. unfold update_project. wp_steps. split; [done|]. by apply Z.eqb_neq. Qed.

Lemma fail_bind {A} b e (m : PlanM A) p r p' : (st_fail b e ≫= fun _ => m) p = (r, p') -> p' = p \/ m p = (r, p').
Proof. unfold mbind, St_bind, st_fail, st_lift. destruct b; cbn; [|by right]. intros [= _ <-]. by left. Qed.
Lemma lift_bind {A} (x : result unit) (m : PlanM A) p r p' : (st_lift x ≫= fun _ => m) p = (r, p') -> p' = p \/ m p = (r, p').
Proof. unfold mbind, St_bind, st_lift. destruct x; [by right|]. intros [= _ <-]. by left. Qed.

Lemma wp_project_lifecycle number expected action reason operation now p : keyed p ->
  wp (project_lifecycle_tx number expected action reason operation now) p (fun _ p' =>
    exists x x' p1, archived_by p p' number action x x' p1).
Proof.
  intros Hk. unfold project_lifecycle_tx, lockProject. wp_steps.
  match goal with E : project_numbered _ _ = Some ?y |- _ => rename y into x0; destruct (project_numbered_lookup _ _ _ Hk E) as [Hx _] end.
  match goal with E : (if _ then _ else _) = Ok ?y |- _ => rename E into Ea; rename y into x1 end.
  assert (p_ID x1 = p_ID x0 /\ p_Version x1 = p_Version x0 /\ p_Number x1 = p_Number x0 /\ p_CreatorID x1 = p_CreatorID x0 /\
    p_CreatedAt x1 = p_CreatedAt x0 /\
    ((action = ProjectActionArchive /\ archivable p x0 /\ present (p_ArchivedAt x1) = true) \/
     (action = ProjectActionRestore /\ p_ArchivedAt x1 = None))) as (Ei & Ev & En & Ec & Et & Hact).
  { revert Ea. repeat case_bool_decide; intros Ea; try done.
    - pose proof (readiness_archivable _ _ _ _ Ea) as Hr. unfold Project_Archive in Ea.
      repeat (apply bind_Ok in Ea as (? & _ & Ea)). injection Ea as <-. split_and!; try done. by left.
    - injection Ea as <-. split_and!; try done. by right. }
  eapply wp_mono; [apply wp_update_project_put|]. intros v p1 [-> Hv].
  assert (keyed (put_project (project_bumped x1 (p_UpdatedAt x1)) p)) as Hk1.
  { eapply (edit_keyed (mkExtent (fun _ => True) (fun _ => True) (fun _ => True))); [|exact Hk].
    eapply edit_project; [exact Hx|]. split; try done; [cbn; lia|congruence|].
    destruct Hact as [(_ & ? & _)|[_ ?]]; cbn; auto. }
  eapply wp_mono; [eapply (oks_bind quiet); [apply oks_activity|intros _; apply oks_audit|exact Hk1]|].
  intros [] p2 Hr. cbv beta in Hr.
  eexists _, (project_bumped x1 (p_UpdatedAt x1)), _. split; [eassumption|exact Hact| |exact Hr]. cbn. by rewrite Ei.
Qed.

(** Whatever it returns, an archive action changes nothing or does what the action means. *)
Lemma project_lifecycle_run number expected action actor reason operation now p r p' : keyed p ->
  Projects_applyLifecycleWithExpectedVersion number expected action actor reason operation now p = (r, p') ->
  p' = p \/ (exists n k, p' = drawn n k p) \/ exists x x' p1, archived_by p p' number action x x' p1.
Proof.
  intros Hk Hr. unfold Projects_applyLifecycleWithExpectedVersion in Hr.
  apply fail_bind in Hr as [->|Hr]; [by left|]. apply lift_bind in Hr as [->|Hr]; [by left|].
  apply fail_bind in Hr as [->|Hr]; [by left|]. right.
  unfold mbind at 1, St_bind at 1 in Hr. destruct (plan_tx _ p) as [[[]|e] p2] eqn:Et;
    [|apply plan_tx_failed in Et as (n & k & ->); injection Hr as _ <-; eauto].
  right. pose proof (keeps_get_project number p2) as Hg. rewrite Hr in Hg. cbn in Hg. subst p'.
  exact (wp_plan_tx _ _ _ (wp_project_lifecycle _ _ _ _ _ _ _ Hk) _ _ Et).
Qed.

Lemma step_archives c p i x x' :
  plan_sound p -> pl_projects p !! i = Some x -> p_ArchivedAt x = None ->
  pl_projects (plan_step c p) !! i = Some x' -> p_ArchivedAt x' <> None ->
  archive_of c = Some ProjectActionArchive /\ archivable p x.
Proof.
  intros Hs Hx Hn Hx' Ha. pose proof (ps_keyed _ Hs) as Hk. destruct (archive_of c) as [action|] eqn:Hc.
  - destruct c; try done. injection Hc as <-. unfold plan_step in Hx'. cbn in Hx'.
    unfold and_done, mbind, St_bind in Hx'.
    destruct (Projects_applyLifecycleWithExpectedVersion _ _ _ _ _ _ _ p) as [r p'] eqn:Hr.
    assert (pl_projects p' !! i = Some x') as Hy' by by destruct r. clear Hx'.
    destruct (project_lifecycle_run _ _ _ _ _ _ _ _ _ _ Hk Hr) as [->|[(n & k & ->)|(y & y' & p1 & [Hy Hact Ht Hre])]];
      [cbn in Hy'; congruence..|].
    destruct (project_numbered_lookup _ _ _ Hk Hy) as [Hy1 _].
    destruct (decide (i = p_ID y)) as [->|Hne].
    + assert (y = x) as -> by congruence.
      destruct (edits_archive_kept _ _ _ Hre (fun _ z => z) (p_ID x) y') as (z & Hz & Ez); [by rewrite Ht, lookup_insert_eq|].
      assert (z = x') as -> by congruence. destruct Hact as [(-> & ? & _)|[_ E]]; [done|]. congruence.
    + destruct (edits_archive_kept _ _ _ Hre (fun _ z => z) i x) as (z & Hz & Ez); [by rewrite Ht, lookup_insert_ne|].
      congruence.
  - exfalso. destruct (is_work c) eqn:Hw.
    + destruct c as [c| | | | | | | | | | | | | | | | | | |]; try done. rewrite plan_step_work in Hx'. cbn in Hx'. congruence.
    + destruct (edits_archive_kept _ _ _ (plan_step_edits c p Hw Hk)) with (i := i) (x := x) as (z & Hz & Ez);
        [intros a Hac; cbn in Hac; congruence|done|]. congruence.
Qed.
End archiving.

(** ** An active Milestone has a criterion *)

Definition scoped (p : PlanWorld) : Prop := forall i m,
  pl_milestones p !! i = Some m -> ms_Status m = MilestoneStatusActive -> exists c, criterion_of (pl_db p) i c.

(** Of two criteria, one is another than [c]. *)
Lemma another_criterion p i c : keyed p -> (2 <= length (milestone_criteria (pl_db p) i))%nat ->
  exists c', criterion_of (pl_db p) i c' /\ ac_ID c' <> ac_ID c.
Proof.
  intros Hk Hl. assert (NoDup (ac_ID <$> milestone_criteria (pl_db p) i)) as Hnd.
  { apply select_NoDup. intros k v Hv. by destruct (ky_criteria _ Hk _ _ Hv). }
  assert (forall x, x ∈ milestone_criteria (pl_db p) i -> criterion_of (pl_db p) i x) as Hin
    by (intros; by apply elem_of_milestone_criteria).
  destruct (milestone_criteria (pl_db p) i) as [|c1 [|c2 l]]; cbn in Hl; try lia.
  cbn in Hnd. apply NoDup_cons in Hnd as [Hne _].
  destruct (decide (ac_ID c1 = ac_ID c)) as [E|Hn1].
  - exists c2. split; [apply Hin; set_solver|]. intros E2. apply Hne. rewrite E, <- E2. set_solver.
  - exists c1. split; [apply Hin; set_solver|done].
Qed.

Lemma criterion_of_put d d' i c c0 x :
  acceptance_criteria d' = <[ac_ID x := x]> (acceptance_criteria d) -> acceptance_criteria d !! ac_ID c = Some c ->
  acceptance_criteria d !! ac_ID x = Some c0 -> ac_MilestoneID x = ac_MilestoneID c0 ->
  (ac_ArchivedAt x = ac_ArchivedAt c0 \/ ac_ID c <> ac_ID x) -> criterion_of d i c -> exists c', criterion_of d' i c'.
Proof.
  intros E Hc H0 Hm Ha (_ & Hi & Hn). unfold criterion_of. rewrite E. destruct (decide (ac_ID c = ac_ID x)) as [Ei|Hne].
  - destruct Ha as [Ha|Ha]; [|done]. exists x. split; [exists (ac_ID x); by rewrite lookup_insert_eq|].
    rewrite Ei, H0 in Hc. simplify_eq. split; congruence.
  - exists c. split; [exists (ac_ID c); by rewrite lookup_insert_ne|done].
Qed.

Lemma edit_scoped ext p p' : edit ext p p' -> keyed p -> ~ moves ext MilestoneActionReopen ->
  ~ births ext MilestoneStatusActive -> scoped p -> scoped p'.
Proof.
  intros He Hk Hmv Hbi Hs i m Hm Ha.
  assert (forall c j, criterion_of (pl_db p) j c -> acceptance_criteria (pl_db p) !! ac_ID c = Some c) as Hown.
  { intros c j ((k & Hc) & _). by destruct (ky_criteria _ Hk _ _ Hc) as [-> _]. }
  destruct He as [| | | |p x Hf _ _|p x x' Hx Hc|p x Hf _ Hb _|p x x' Hx Hc|p c Hf Hrow Hn _|p c c' Hc Hrow Hch Har
    |p c c' Hc Hn Hrow Hch Hd|p c Hc Hn Hnc Hd|p k c _ _ _|p j t now _ _];
    try (destruct (Hs _ _ Hm Ha) as [c0 Hc0]; exists c0; exact Hc0).
  - cbn in Hm. apply lookup_put in Hm as [[-> ->]|[_ Hm]]; [by rewrite Ha in Hb|]. by eapply Hs.
  - cbn in Hm. apply lookup_put in Hm as [[Ei ->]|[_ Hm]]; [|by eapply Hs].
    destruct Hc as [Hi _ _ _ Hmove]. destruct Hmove as [Est _ _|a actor reason now m1 Hma Hact Est _ _].
    + rewrite Ei, Hi. eapply (Hs _ _ Hx). congruence.
    + rewrite Ei, Hi. unfold milestone_action in Hact. repeat case_bool_decide; subst; try done.
      * apply bind_Ok in Hact as (? & _ & Hact). apply fail_if_bind in Hact as [Hn _]. apply Z.eqb_neq in Hn. cbn in Hn.
        destruct (milestone_criteria (pl_db p) (ms_ID x)) as [|c l] eqn:El; [done|]. exists c. cbn.
        apply (elem_of_milestone_criteria (pl_db p)). rewrite El. set_solver.
      * repeat (apply bind_Ok in Hact as (? & _ & Hact)). injection Hact as <-. cbn in Est. by rewrite Est in Ha.
      * repeat (apply bind_Ok in Hact as (? & _ & Hact)). injection Hact as <-. cbn in Est. by rewrite Est in Ha.
  - destruct (Hs _ _ Hm Ha) as [c0 Hc0]. exists c0. destruct Hc0 as ((k & Hk0) & Hi0 & Hn0). split; [|done].
    exists k. cbn. rewrite lookup_insert_ne; [done|]. intros <-. congruence.
  - destruct (Hs _ _ Hm Ha) as [c0 Hc0]. eapply (criterion_of_put (pl_db p)); [reflexivity|by eapply Hown|..|exact Hc0].
    + by rewrite (cg_id _ _ Hch).
    + apply Hch.
    + by left.
  - destruct (decide (ac_MilestoneID c = Some i)) as [Ei|Hne].
    + destruct (another_criterion p i c Hk) as (c0 & Hc0 & Hid); [by eapply Hd|].
      eapply (criterion_of_put (pl_db p)); [reflexivity|by eapply Hown|by rewrite (cg_id _ _ Hch)|apply Hch| |exact Hc0].
      right. by rewrite (cg_id _ _ Hch).
    + destruct (Hs _ _ Hm Ha) as [c0 Hc0].
      eapply (criterion_of_put (pl_db p)); [reflexivity|by eapply Hown|by rewrite (cg_id _ _ Hch)|apply Hch| |exact Hc0].
      right. rewrite (cg_id _ _ Hch). intros E. pose proof (Hown _ _ Hc0) as H1. rewrite E, Hc in H1. simplify_eq. by destruct Hc0 as (_ & ? & _).
  - assert (exists c0, criterion_of (pl_db p) i c0 /\ ac_ID c0 <> ac_ID c) as (c0 & Hc0 & Hid).
    { destruct (decide (ac_MilestoneID c = Some i)) as [Ei|Hne].
      - apply another_criterion; [done|]. by eapply Hd.
      - destruct (Hs _ _ Hm Ha) as [c0 Hc0]. exists c0. split; [done|]. intros E. pose proof (Hown _ _ Hc0) as H1.
        rewrite E, Hc in H1. simplify_eq. by destruct Hc0 as (_ & ? & _). }
    exists c0. pose proof (Hown _ _ Hc0) as H1. destruct Hc0 as (_ & Hi0 & Hn0). split; [|done]. exists (ac_ID c0). cbn.
    by rewrite lookup_delete_ne.
Qed.

Section scope.
Context `{UUIDSource} `{NameOrder} `{TextForms}.

(** Reopening, or creating with that status, is how a Milestone becomes active without more. *)
Definition opens (c : PlanCommand) : bool :=
  (move_of c == Some MilestoneActionReopen) || (birth_of c == Some MilestoneStatusActive).

Lemma plan_step_scoped c p : plan_sound p -> opens c = false -> scoped p -> scoped (plan_step c p).
Proof.
  intros Hs Ho Hsc. apply orb_false_iff in Ho as [Hm%bool_decide_eq_false Hb%bool_decide_eq_false].
  destruct (is_work c) eqn:Hw.
  - destruct c as [c| | | | | | | | | | | | | | | | | | |]; try done. rewrite plan_step_work.
    pose proof (workspace_kept c (pl_world p) (ps_wf _ Hs) (ps_planned _ Hs)) as Hk.
    intros i m Hi Ha. destruct (Hsc i m Hi Ha) as (cr & Hcr). exists cr. unfold criterion_of, pl_db in *. cbn.
    by rewrite (wk_criteria _ _ Hk).
  - assert (forall q, rtc (edit (extent c)) p q -> keyed p -> scoped p -> scoped q) as Hind;
      [|apply Hind; [apply plan_step_edits; [done|apply Hs]|apply Hs|done]].
    clear Hs Hsc. intros q Hr. induction Hr as [|x y z He _ IH]; [done|]. intros Hk Hx. apply IH; [by eapply edit_keyed|by eapply edit_scoped].
Qed.
End scope.
