(* ===== verification/PlanningProperties.v ===== *)
(** * What the planning stores guarantee

    Consistency of the tables of Projects, Milestones, criteria and checks under every command of the
    planning stores, the workflow and the task store; what checks are evidence of; and how Milestones
    and Projects move. *)

From stdpp Require Import base tactics strings gmap list numbers sorting relations.
From S2P Require Import Prelude Actors Lifecycle StageClaim Delivery Thread Acceptance Database Tx State.
From S2P Require Import ThreadStore ClaimStore WorkflowStore WorkflowCommands TaskStore TaskGraph WorkflowEffects.
From S2P Require Import WorkflowInvariant WorkflowOutcomes WorkflowSafety TaskEffects TaskInvariant StoreCommands.
From S2P Require Import Refinement History Changes Records Workspace Progress Demo PlanProperties.
From S2P Require Import Access Membership PlanningStore CriteriaStore PlanningEffects PlanningCommands.
From S2P Require Import PlanningInvariant PlanningMoves.

(** ** The way of a lifecycle command through its statements *)

Section possible.
Context `{UUIDSource} `{NameOrder}.

Lemma st_possible {S A B} (m : St S A) (f : A -> St S B) s a s1 :
  m s = (Ok a, s1) -> (exists b s', f a s1 = (Ok b, s')) -> exists b s', (m ≫= f) s = (Ok b, s').
Proof. intros Hm (b & s' & Hf). exists b, s'. apply St_bind_Ok. eauto. Qed.
Lemma st_fail_possible {S B} (c : bool) e (f : unit -> St S B) s :
  c = false -> (exists b s', f tt s = (Ok b, s')) -> exists b s', (st_fail c e ≫= f) s = (Ok b, s').
Proof. intros ->. by apply (st_possible (st_fail false e)). Qed.
Lemma plan_tx_possible {A} (m : PlanM A) p : (exists a p', m p = (Ok a, p')) -> exists a p', plan_tx m p = (Ok a, p').
Proof. intros (a & p' & E). exists a, p'. unfold plan_tx. by rewrite E. Qed.

(** A caller and a Milestone whose change the tables can take: the caller is known, the next two
    identifiers are unused, the counters have room and the row is within the constraints. *)
Record can_record (p : PlanWorld) (project : Project) (m : Milestone) (actor : OperationActor) (now : Time) : Prop := {
  cr_caller : caller_ok (pl_db p) actor now;
  cr_activity : uuid_seq (w_next (pl_world p)) ∉ (py_ID <$> pl_activity p);
  cr_audit : uuid_seq (S (w_next (pl_world p))) ∉ (be_ID <$> business_audit_events (pl_db p));
  cr_project : pl_projects p !! ms_ProjectID m = Some project;
  cr_milestone : pl_milestones p !! ms_ID m = Some m;
  cr_id : ms_ID m <> uuid_Nil;
  cr_room : p_Version project < MaxInt64 /\ 0 < ms_Version m < MaxInt64;
  cr_row : milestones_checks m = true /\ in_int4 (ms_Position m) = true /\ ms_OwnerID m ∈ users (pl_db p);
}.

Lemma validate_auth_shape op : OperationActor_Validate op = Ok tt -> auth_shape op = true.
Proof.
  destruct op as [u m t tn a rq]. unfold OperationActor_Validate, auth_shape. cbn. intros Hv. apply bind_Ok in Hv as (? & _ & Hv).
  revert Hv. repeat case_bool_decide; try done; destruct t, a; cbn; rewrite ?orb_true_r; done.
Qed.

Lemma activity_possible p projectID milestoneID actor action reason old new now :
  OperationActor_Validate actor = Ok tt -> op_UserID actor ∈ users (pl_db p) ->
  (forall t, op_TokenID actor = Some t -> t ∈ Database.api_tokens (pl_db p)) ->
  uuid_seq (w_next (pl_world p)) ∉ (py_ID <$> pl_activity p) -> is_Some (pl_projects p !! projectID) ->
  is_Some (pl_milestones p !! milestoneID) ->
  exists a, record_project_activity projectID (Some milestoneID) actor action reason old new now p =
    (Ok tt, add_project_activity a (set_world (mkWorld (pl_db p) (S (w_next (pl_world p)))) p)).
Proof.
  intros Hv Hu Ht Hf [x Hx] [m Hm]. unfold record_project_activity. eexists.
  assert (fk (op_TokenID actor) (Database.api_tokens (pl_db p)) = true) as Hk.
  { unfold fk. destruct (op_TokenID actor); [apply bool_decide_eq_true; auto|done]. }
  assert (fk (Some (op_UserID actor)) (users (pl_db p)) = true) as Hk2 by by apply bool_decide_eq_true.
  assert (fk (Some milestoneID) (dom (pl_milestones p)) = true) as Hk3 by (apply bool_decide_eq_true, elem_of_dom; eauto).
  unfold mbind at 1, St_bind at 1. cbn -[auth_shape fk]. unfold mbind, St_bind. cbn -[auth_shape fk].
  unfold pl_db in *. cbn -[auth_shape fk] in *.
  rewrite (validate_auth_shape _ Hv), Hx, (bool_decide_eq_false_2 _ Hf), Hk, Hk2, Hk3. reflexivity.
Qed.

Lemma audit_possible p entity id action old new actor now :
  caller_ok (pl_db p) actor now -> uuid_seq (w_next (pl_world p)) ∉ (be_ID <$> business_audit_events (pl_db p)) ->
  id <> uuid_Nil -> entity <> "" -> action <> "" ->
  exists p', audit entity id None action old new actor now p = (Ok tt, p').
Proof.
  intros [Hv Hu Ht Hn] Hf Hi He Ha. unfold audit, on_world.
  assert (exists w', InsertBusinessAudit (mkBusinessAuditEvent uuid_Nil now actor entity id None action old new) (pl_world p) =
    (Ok tt, w')) as [w' ->]; [|by eexists].
  eexists. apply InsertBusinessAudit_Ok. split; [|reflexivity]. split; try done; [by apply audit_checks_valid|]. cbn.
  apply andb_true_iff. split; [by apply bool_decide_eq_true|]. destruct (op_TokenID actor); [|done]. apply bool_decide_eq_true. eauto.
Qed.

Lemma action_moves a m rd actor reason now m1 :
  milestone_action a m rd actor reason now = Ok m1 -> a <> "" /\
  exists st co ca, st ∈ ["planned"; "active"; "completed"; "cancelled"] /\ m1 = milestone_in m st co ca now.
Proof.
  unfold milestone_action. repeat case_bool_decide; try done; subst; intros E;
    repeat (apply bind_Ok in E as (? & _ & E)); injection E as <-; (split; [done|]); do 3 eexists; split; try reflexivity; set_solver.
Qed.

Lemma update_possible p m st co ca now invalid :
  milestone_of (ms_ProjectID m) (ms_ID m) p = Some m -> milestones_checks m = true -> in_int4 (ms_Position m) = true ->
  ms_OwnerID m ∈ users (pl_db p) -> 0 < ms_Version m -> st ∈ ["planned"; "active"; "completed"; "cancelled"] ->
  update_milestone (milestone_bumped (milestone_in m st co ca now) now) invalid p =
    (Ok tt, put_milestone (milestone_bumped (milestone_in m st co ca now) now) p).
Proof.
  intros Ho Hc Hi Hu Hv Hst. unfold update_milestone. set (m2 := milestone_bumped _ _).
  assert (milestones_checks m2 = true) as Hc2.
  { unfold milestones_checks in *. rewrite !andb_true_iff in *. destruct Hc as [[[[H1 H2] _] H4] _].
    split_and!; [exact H1|exact H2|by apply bool_decide_eq_true|exact H4|apply Z.ltb_lt; cbn; lia]. }
  eapply St_bind_Ok. eexists _, p. split; [done|].
  eapply St_bind_Ok. exists tt, p. split; [apply st_fail_Ok; split; [|done]; cbn; by rewrite Ho|].
  eapply St_bind_Ok. exists tt, p. split; [apply st_fail_Ok; split; [|done]; by apply negb_false_iff|].
  eapply St_bind_Ok. exists tt, p. split; [|done]. apply st_fail_Ok. split; [|done]. rewrite Hc2. cbn.
  by rewrite bool_decide_eq_true_2.
Qed.

Lemma increment_possible p id x now : pl_projects p !! id = Some x -> p_Version x < MaxInt64 ->
  incrementVersion "projects" id (p_Version x) now p = (Ok (p_Version x + 1), put_project (project_bumped x now) p).
Proof.
  intros Hx Hv. unfold incrementVersion. eapply St_bind_Ok. exists tt, p. split; [done|].
  eapply St_bind_Ok. eexists _, p. split; [done|].
  assert (row_version "projects" id p = Some (p_Version x)) as -> by (unfold row_version; cbn; by rewrite Hx).
  eapply St_bind_Ok. exists tt, p. split; [apply st_fail_Ok; split; [by rewrite bool_decide_eq_true_2|done]|].
  eapply St_bind_Ok. exists tt, p. split; [apply st_fail_Ok; split; [|done]; apply Z.eqb_neq; lia|].
  eapply St_bind_Ok. eexists tt, _. split; [done|]. apply St_ret_Ok. split; [done|]. unfold bump_row. cbn. by rewrite Hx.
Qed.

Lemma move_possible p project m action actor reason now m1 :
  plan_sound p -> can_record p project m actor now ->
  milestone_action action m (milestoneReadiness (pl_db p) (ms_ID m)) actor reason now = Ok m1 ->
  exists r p', Milestones_ApplyLifecycleVersionedWithOperation (ms_ProjectID m) (p_Version project) (ms_ID m) (ms_Version m)
    action actor reason now p = (Ok r, p').
Proof.
  intros Hs [Hc Hf1 Hf2 Hp Hm Hi [Hr1 Hr2] (Hw1 & Hw2 & Hw3)] Ha. destruct (action_moves _ _ _ _ _ _ _ Ha) as (Hne & st & co & ca & Hst & ->).
  assert (forall q, pl_milestones q = pl_milestones p -> milestone_of (ms_ProjectID m) (ms_ID m) q = Some m) as Hof.
  { intros q E. unfold milestone_of. rewrite E, Hm. cbn. by rewrite bool_decide_eq_true_2. }
  unfold Milestones_ApplyLifecycleVersionedWithOperation, lockVersion, expect_version, Milestones_Get.
  eapply (st_possible _ _ _ tt); [unfold st_lift; by rewrite (ca_valid _ _ _ Hc)|]. apply plan_tx_possible.
  eapply st_possible.
  { eapply St_bind_Ok. exists tt, p. split; [done|]. eapply St_bind_Ok. eexists _, p. split; [done|].
    apply st_or_err_Ok. split; [|done]. unfold row_version. cbn. by rewrite Hp. }
  apply st_fail_possible; [by rewrite bool_decide_eq_true_2|].
  eapply st_possible.
  { eapply St_bind_Ok. eexists _, p. split; [done|]. apply st_or_err_Ok. split; [by apply Hof|done]. }
  apply st_fail_possible; [by rewrite bool_decide_eq_true_2|].
  eapply st_possible; [done|]. eapply st_possible; [by apply st_lift_Ok|].
  set (m2 := milestone_bumped (milestone_in m st co ca now) now). set (p1 := put_milestone m2 p).
  eapply (st_possible _ _ _ m2 p1).
  { unfold update_milestone_version. eapply St_bind_Ok. eexists _, p. split; [done|].
    eapply St_bind_Ok. exists tt, p. split; [apply st_fail_Ok; split; [|done]|].
    - cbn. rewrite (Hof p eq_refl). by rewrite bool_decide_eq_true_2.
    - eapply St_bind_Ok. exists tt, p. split; [apply st_fail_Ok; split; [|done]; apply Z.eqb_neq; cbn; lia|].
      eapply St_bind_Ok. exists tt, p1. split; [|done]. apply update_possible; try done; [by apply Hof|lia]. }
  eapply (st_possible _ _ _ (p_Version project + 1) (put_project (project_bumped project now) p1)).
  { apply increment_possible; [exact Hp|lia]. }
  set (p2 := put_project _ p1).
  destruct (activity_possible p2 (ms_ProjectID m) (ms_ID m) actor action (Some reason)
    (Some (ActivityText (ms_Status m))) (Some (ActivityText (ms_Status m2))) now) as [e He];
    [apply Hc|apply Hc|apply Hc|exact Hf1|..].
  { cbn. apply lookup_insert_is_Some'. right. by rewrite Hp. }
  { cbn. apply lookup_insert_is_Some'. right. by rewrite Hm. }
  set (p3 := add_project_activity e _) in He.
  destruct (audit_possible p3 "milestone" (ms_ID m2) action (Some (AuditMilestoneStatus (ms_Status m) None))
    (Some (AuditMilestoneStatus (ms_Status m2) (Some reason))) actor now) as [p4 Hp4];
    [destruct Hc; by split|exact Hf2|exact Hi|done|done|].
  eexists _, p4. eapply St_bind_Ok. exists tt, p4. split; [|by apply St_ret_Ok].
  eapply St_bind_Ok. exists tt, p3. split; [exact He|exact Hp4].
Qed.
End possible.

(** ** The properties *)

Section properties.
Context `{UUIDSource} `{NameOrder} `{TextForms}.

(** C13: whatever commands of the planning stores, the workflow and the task store run, succeed or fail,
    every Milestone belongs to a Project, every criterion to a Milestone or Task, every check to a
    criterion of at least the revision that was checked, and the workflow and the plan of the Tasks
    stay consistent. *)
Theorem planning_consistent cs p (Hs : plan_sound p) : plan_sound (plan_steps cs p).
Proof. by apply plan_steps_sound. Qed.

(** A check is evidence of the text that was checked: it is never changed or removed, whatever
    commands run, nor is its criterion, and once the text or the instructions of the criterion have
    changed it is not the current check of the criterion any more, of no Claim. *)
Theorem checked_text_fixed cs p j k c (Hs : plan_sound p)
  (Hk : acceptance_checks (pl_db p) !! j = Some k) (Hc : acceptance_criteria (pl_db p) !! k_criterion_id k = Some c) :
  let d' := pl_db (plan_steps cs p) in
  acceptance_checks d' !! j = Some k /\
  exists c', acceptance_criteria d' !! k_criterion_id k = Some c' /\
    ac_TaskID c' = ac_TaskID c /\ ac_MilestoneID c' = ac_MilestoneID c /\
    (ac_Criterion c' = ac_Criterion c /\ ac_VerificationInstructions c' = ac_VerificationInstructions c \/
     forall claim, current_check d' claim c' <> Some k).
Proof.
  intros d'. destruct (plan_steps_evidence cs p Hs _ _ _ Hk Hc) as (Hk' & c' & Hc' & [_ Hm Ht Hr Hx]). split; [done|].
  exists c'. split_and!; try done. destruct (decide (ac_Revision c' = ac_Revision c)) as [E|Hne]; [left; auto|right].
  destruct (ps_checks _ Hs _ _ Hk) as (_ & c0 & Hc0 & Hle). assert (c0 = c) as -> by congruence.
  intros claim E. apply last_Some_elem_of in E. rewrite order_by_perm, elem_of_select in E. destruct E as [E _]. go_bool. lia.
Qed.

(** C14: the status of a Milestone changes only by a lifecycle command that names it, along an edge of
    the state machine whose evidence the tables hold right before: it is activated with a criterion,
    completed when the last check of the current revision of each of its criteria passed or was waived
    and all its Tasks are done or cancelled, cancelled when they are, and reopened by a person with a
    reason. *)
Theorem milestone_state_machine c p i m m' (Hs : plan_sound p)
  (Hm : pl_milestones p !! i = Some m) (Hm' : pl_milestones (plan_step c p) !! i = Some m') :
  same_state m m' \/
  exists action actor reason now m1, lifecycle_of c = Some (ms_ProjectID m, i, action, actor, reason, now) /\
    milestone_edge (pl_db p) actor reason now action m m1 /\ same_state m1 m'.
Proof. by apply step_moves. Qed.

(** C15: every edge can be taken: when the tables can record the change, the versioned lifecycle
    command with the current versions succeeds exactly along the edges of the state machine, and the
    Milestone gets the status of the edge. *)
Theorem milestone_moves_exactly p project m action actor reason now
  (Hs : plan_sound p) (Hc : can_record p project m actor now) :
  let command := Milestones_ApplyLifecycleVersionedWithOperation (ms_ProjectID m) (p_Version project) (ms_ID m)
                   (ms_Version m) action actor reason now in
  ((exists r p', command p = (Ok r, p')) <-> exists m1, milestone_edge (pl_db p) actor reason now action m m1) /\
  (forall r p', command p = (Ok r, p') -> exists m1 m', milestone_edge (pl_db p) actor reason now action m m1 /\
     pl_milestones p' !! ms_ID m = Some m' /\ same_state m1 m').
Proof.
  intros command.
  assert (forall r p', command p = (Ok r, p') -> exists m1 m', milestone_edge (pl_db p) actor reason now action m m1 /\
     pl_milestones p' !! ms_ID m = Some m' /\ same_state m1 m') as Hback.
  { intros r p' Hr. destruct (wp_lifecycle_versioned _ _ _ _ _ _ _ _ _ (ps_keyed _ Hs) _ _ Hr) as (m0 & m1 & m2 & p1 & [Ho Ha Hst Ht Hd Hre]).
    apply milestone_of_lookup in Ho as [Ho _]. pose proof (cr_milestone _ _ _ _ _ Hc) as Hm. assert (m0 = m) as -> by congruence.
    destruct (edits_stay _ _ _ Hre (fun _ x => x) (ms_ID m) m2) as (m3 & Hm3 & S3); [by rewrite Ht, lookup_insert_eq|].
    exists m1, m3. split_and!; [by apply milestone_action_iff|done|]. unfold same_state in *. destruct_and! S3. destruct_and! Hst.
    split_and!; congruence. }
  split; [|exact Hback]. split.
  - intros (r & p' & Hr). destruct (Hback _ _ Hr) as (m1 & _ & He & _). eauto.
  - intros (m1 & He). apply milestone_action_iff in He; [|done]. by eapply move_possible.
Qed.

(** A Project becomes archived only by the archive command, and only while none of its Milestones
    is planned or active and none of its Tasks is unfinished. *)
Theorem project_archived_when_done c p i x x' (Hs : plan_sound p)
  (Hx : pl_projects p !! i = Some x) (Hn : p_ArchivedAt x = None)
  (Hx' : pl_projects (plan_step c p) !! i = Some x') (Ha : present (p_ArchivedAt x') = true) :
  archive_of c = Some ProjectActionArchive /\
  (forall j m, pl_milestones p !! j = Some m -> ms_ProjectID m = i ->
     ms_Status m <> MilestoneStatusPlanned /\ ms_Status m <> MilestoneStatusActive) /\
  (forall j t, tasks (pl_db p) !! j = Some t -> t_project_id t = i -> finished t).
Proof.
  destruct (step_archives _ _ _ _ _ Hs Hx Hn Hx') as (Hc & Hm & Ht); [by destruct (p_ArchivedAt x')|].
  pose proof (ky_projects _ (ps_keyed _ Hs) _ _ Hx) as Hi. rewrite <- Hi. split_and!; [done..|].
  intros j t Hj Hp. apply unfinished_false. by eapply Ht.
Qed.

(** While no Milestone is reopened or created as active, every active Milestone keeps an acceptance
    criterion, whatever other commands run. *)
Theorem active_scope_kept cs p (Hs : plan_sound p) (Hsc : scoped p) (Ho : forallb (fun c => negb (opens c)) cs = true) :
  scoped (plan_steps cs p).
Proof.
  revert p Hs Hsc. induction cs as [|c cs IH]; intros p Hs Hsc; [done|]. cbn in Ho. apply andb_true_iff in Ho as [Hc Ho].
  apply IH; [done|by apply plan_step_sound|]. apply plan_step_scoped; [done|by apply negb_true_iff|done].
Qed.
End properties.

(** ** A small plan *)

Definition text_order : NameOrder := {| lower_le := String.leb |}.
Definition demo_project : Project := mkProject 2%N 1 1 "Platform" "" alice None 10 10.
Definition demo_member : User := mkUser alice "Alice" None None PlatformRoleMember AccessStatusApproved [] true 1 1.
Definition demo_board : PlanWorld :=
  mkPlanWorld demo_world {[2%N := demo_project]} ∅ {[alice := demo_member]} ∅ [] ∅ 1.

Lemma demo_board_sound : plan_sound demo_board.
Proof.
  split; [|exact demo_wf|exact demo_planned|..].
  - split; cbn.
    + by intros i x [<- <-]%lookup_singleton_Some.
    + by intros i m ?%lookup_empty_Some.
    + intros i c [<- <-]%lookup_singleton_Some. split; [done|vm_compute; reflexivity].
  - vm_compute. reflexivity.
  - cbn. intros i j. split; [set_solver|]. intros (m & ?%lookup_empty_Some & _). done.
  - cbn. by intros i m ?%lookup_empty_Some.
  - cbn. intros i c [<- <-]%lookup_singleton_Some. vm_compute. reflexivity.
  - cbn. by intros j k ?%lookup_empty_Some.
Qed.

Definition demo_milestone : Milestone := mkMilestone 7%N 2%N 0 "Beta" "People use it" "" alice "" None 0 None None 0 0.
Definition demo_scope : AcceptanceCriterion := mkAcceptanceCriterion 8%N 0 None None "Ten users" "Count them" 0 0 None 0 0.
Definition demo_verdict : AcceptanceCheck :=
  mkAcceptanceCheck 0%N 8%N 1 "passed" "Counted twelve" alice_actor "" None None 0.
(** A Milestone with a criterion, activated and checked. *)
Definition demo_checked : list PlanCommand :=
  [PMilestoneCreateVersioned 2%N 1 demo_milestone alice_op 20;
   PMilestoneCriterionCreateVersioned 2%N 2 7%N 1 demo_scope alice_op 30;
   PMilestoneLifecycleVersioned 2%N 3 7%N 2 MilestoneActionActivate alice_op "" 40;
   PCheckAddVersioned 8%N 1 demo_verdict alice_op 50].
Definition demo_complete : PlanCommand := PMilestoneLifecycleVersioned 2%N 5 7%N 4 MilestoneActionComplete alice_op "" 60.
Definition demo_reword : PlanCommand := PCriterionUpdateVersioned 8%N 2 (Some "Twenty users") None None alice_op 60.
Definition demo_archive : PlanCommand := PProjectLifecycle 1 None ProjectActionArchive alice_actor "Done" alice_op 200.

#[local] Existing Instance counting_uuids.
#[local] Existing Instance counting_texts.
#[local] Existing Instance text_order.

Definition checked_board : PlanWorld := plan_steps demo_checked demo_board.
Definition demo_cancel : PlanCommand := PWork (WStore (SCancelTask 142 1 "Not needed" alice_actor alice_op 70)).
Definition finished_board : PlanWorld := plan_steps [demo_complete; demo_cancel] checked_board.

Lemma checked_board_sound : plan_sound checked_board.
Proof. apply plan_steps_sound, demo_board_sound. Qed.
Lemma finished_board_sound : plan_sound finished_board.
Proof. apply plan_steps_sound, checked_board_sound. Qed.

(** The rows that the witnesses are about. *)
Definition checked_row : CheckRow :=
  mkCheckRow (demo_uuid 6) 8%N 1 "passed" "Counted twelve" "user" (Some alice) None 50 None None None.
Definition checked_scope : AcceptanceCriterion :=
  mkAcceptanceCriterion 8%N 2 (Some 7%N) None "Ten users" "Count them" 1 0 None 30 50.
Definition active_milestone : Milestone := mkMilestone 7%N 2%N 4 "Beta" "People use it" "" alice "active" None 0 None None 20 50.
Definition completed_milestone : Milestone :=
  mkMilestone 7%N 2%N 5 "Beta" "People use it" "" alice "completed" None 0 (Some 60) None 20 60.
Definition running_project : Project := mkProject 2%N 1 5 "Platform" "" alice None 10 50.

(** Reopening a Milestone that was cancelled before it had an acceptance criterion makes it active
    without one, which neither activation nor the removal of criteria allows. *)
Theorem reopened_without_criterion :
  exists m, pl_milestones (plan_steps
      [PMilestoneCreateVersioned 2%N 1 demo_milestone alice_op 20;
       PMilestoneLifecycleVersioned 2%N 2 7%N 1 MilestoneActionCancel alice_op "" 30;
       PMilestoneLifecycleVersioned 2%N 3 7%N 2 MilestoneActionReopen alice_op "Needed after all" 40] demo_board) !! 7%N = Some m /\
    ms_Status m = MilestoneStatusActive /\
    milestone_criteria (pl_db (plan_steps
      [PMilestoneCreateVersioned 2%N 1 demo_milestone alice_op 20;
       PMilestoneLifecycleVersioned 2%N 2 7%N 1 MilestoneActionCancel alice_op "" 30;
       PMilestoneLifecycleVersioned 2%N 3 7%N 2 MilestoneActionReopen alice_op "Needed after all" 40] demo_board)) 7%N = [].
Proof. eexists. split_and!; vm_compute; reflexivity. Qed.

Lemma planning_consistent_witness : plan_sound (plan_steps demo_checked demo_board).
Proof. exact (planning_consistent demo_checked demo_board demo_board_sound). Defined.

Lemma checked_text_fixed_witness :
  acceptance_checks (pl_db (plan_steps [demo_reword] checked_board)) !! demo_uuid 6 = Some checked_row /\
  exists c', acceptance_criteria (pl_db (plan_steps [demo_reword] checked_board)) !! 8%N = Some c' /\
    forall claim, current_check (pl_db (plan_steps [demo_reword] checked_board)) claim c' <> Some checked_row.
Proof.
  destruct (checked_text_fixed [demo_reword] checked_board (demo_uuid 6) checked_row checked_scope checked_board_sound)
    as (Hk & c' & Hc' & _ & _ & Hx); [vm_compute; reflexivity|vm_compute; reflexivity|].
  split; [exact Hk|]. exists c'. split; [exact Hc'|]. destruct Hx as [[Hx _]|Hx]; [|exact Hx].
  vm_compute in Hc'. injection Hc' as <-. discriminate Hx.
Defined.

Lemma milestone_state_machine_witness :
  accepted (pl_db checked_board) 7%N /\ tasks_finished (pl_db checked_board) 7%N.
Proof.
  destruct (milestone_state_machine demo_complete checked_board 7%N active_milestone completed_milestone checked_board_sound)
    as [(_ & Hst & _)|(action & actor & reason & now & m1 & Hl & He & _)]; [vm_compute; reflexivity|vm_compute; reflexivity| |].
  - discriminate Hst.
  - injection Hl as <- <- <- <-. inversion He. split; assumption.
Defined.

Lemma alice_known : alice ∈ users (pl_db checked_board).
Proof. apply (bool_decide_eq_true_1 (alice ∈ users (pl_db checked_board))). vm_compute. reflexivity. Qed.
Lemma active_recordable : can_record checked_board running_project active_milestone alice_op 60.
Proof.
  split; try (vm_compute; reflexivity).
  - split; try (vm_compute; reflexivity). intros t E. discriminate E.
  - intros Hx. apply (bool_decide_eq_true_2 _) in Hx. vm_compute in Hx. discriminate Hx.
  - intros Hx. apply (bool_decide_eq_true_2 _) in Hx. vm_compute in Hx. discriminate Hx.
  - done.
  - vm_compute. split; [reflexivity|split; reflexivity].
  - split_and!; [vm_compute; reflexivity|vm_compute; reflexivity|].
    exact alice_known.
Qed.

Lemma milestone_moves_exactly_witness :
  exists m1, milestone_edge (pl_db checked_board) alice_op "" 60 MilestoneActionComplete active_milestone m1.
Proof.
  apply (proj1 (milestone_moves_exactly checked_board running_project active_milestone MilestoneActionComplete alice_op "" 60
    checked_board_sound active_recordable)).
  destruct (Milestones_ApplyLifecycleVersionedWithOperation (ms_ProjectID active_milestone) (p_Version running_project)
    (ms_ID active_milestone) (ms_Version active_milestone) MilestoneActionComplete alice_op "" 60 checked_board) as [[r|e] p'] eqn:E.
  - exists r, p'. reflexivity.
  - vm_compute in E. discriminate E.
Defined.

Lemma project_archived_when_done_witness :
  archive_of demo_archive = Some ProjectActionArchive /\
  (forall j m, pl_milestones finished_board !! j = Some m -> ms_ProjectID m = 2%N ->
     ms_Status m <> MilestoneStatusPlanned /\ ms_Status m <> MilestoneStatusActive) /\
  (forall j t, tasks (pl_db finished_board) !! j = Some t -> t_project_id t = 2%N -> finished t).
Proof.
  apply (project_archived_when_done demo_archive finished_board 2%N
    (default demo_project (pl_projects finished_board !! 2%N))
    (default demo_project (pl_projects (plan_step demo_archive finished_board) !! 2%N)) finished_board_sound);
    vm_compute; reflexivity.
Defined.

Lemma active_scope_kept_witness : scoped (plan_steps (demo_checked ++ [demo_reword]) demo_board).
Proof.
  apply (active_scope_kept (demo_checked ++ [demo_reword]) demo_board demo_board_sound).
  - intros i m E. exfalso. cbn in E. by apply lookup_empty_Some in E.
  - vm_compute. reflexivity.
Defined.
