(* ===== verification/Attachment.v ===== *)
(** * Attachments and their names

    internal/domain/attachment.go, and what the attachments use of the packages path/filepath and mime. *)

From Stdlib Require Import Ascii.
From stdpp Require Import base tactics strings gmap list numbers.
From S2P Require Import Prelude Actors Http.

Local Abbreviation chars := String.list_ascii_of_string.
Local Abbreviation text := String.string_of_list_ascii.

(** ** The standard library *)

Definition slash : ascii := "/".

(** [strings.HasPrefix] *)
Definition HasPrefix (s prefix : string) : bool := present (GoStrings.strip_prefix (chars prefix) (chars s)).
(** [strings.ContainsAny] with ASCII characters *)
Definition ContainsAny (s : string) (cs : list ascii) : bool := existsb (fun c => bool_decide (c ∈ cs)) (chars s).
(** [strings.Split(s, ";")[0]] *)
Definition first_part (s : string) : string :=
  match Cut s ";" with Some (before, _) => before | None => s end.

(** What is left of the characters up to and with the last slash. *)
Fixpoint after_slash (l : list ascii) : list ascii :=
  match l with
  | [] => []
  | c :: l' => if bool_decide (slash ∈ l') then after_slash l' else if c == slash then l' else c :: l'
  end.
Fixpoint drop_slashes (reversed : list ascii) : list ascii :=
  match reversed with
  | c :: l => if c == slash then drop_slashes l else c :: l
  | [] => []
  end.
(** [filepath.Base] *)
Definition filepath_Base (path : string) : string :=
  if path == "" then "."
  else let base := after_slash (rev (drop_slashes (rev (chars path)))) in
       if base == [] then "/" else text base.

(** [filepath.Ext]: the suffix from the last dot of the last element; [reversed] are the characters from
    the end, [ext] those already passed. *)
Fixpoint ext_loop (reversed ext : list ascii) : list ascii :=
  match reversed with
  | c :: l => if c == slash then [] else if c == "."%char then c :: ext else ext_loop l (c :: ext)
  | [] => []
  end.
Definition filepath_Ext (path : string) : string := text (ext_loop (rev (chars path)) []).

(** [strings.ToLower] gives [ToLower] wherever that is an ASCII text, or it gives one itself;
    [mime.TypeByExtension] reads tables of the operating system, and [http.DetectContentType] applies the
    sniffing rules for content to its first bytes. *)
Class MimeLibrary := {
  strings_ToLower : string -> string;
  TypeByExtension : string -> string;
  DetectContentType : string -> string;
  ToLower_ascii s : forallb (fun c => code c <? 128) (chars (ToLower s)) = true -> strings_ToLower s = ToLower s;
}.
(** A library without tables. *)
Definition plain_mime : MimeLibrary := {|
  strings_ToLower := ToLower;
  TypeByExtension := fun _ => "";
  DetectContentType := fun _ => "application/octet-stream";
  ToLower_ascii := fun s _ => eq_refl;
|}.

(** ** internal/domain/attachment.go *)

Definition MaxAttachmentBytes : Z := 100 * 1024 * 1024.
Definition MaxActiveTaskAttachments : Z := 100.

Definition AttachmentProvider := string.
Definition AttachmentProviderLocal : AttachmentProvider := "local".
Definition AttachmentProviderOSS : AttachmentProvider := "oss".
Definition AttachmentProviderCOS : AttachmentProvider := "cos".

Definition AttachmentPreviewKind := string.
Definition AttachmentPreviewImage : AttachmentPreviewKind := "image".
Definition AttachmentPreviewMarkdown : AttachmentPreviewKind := "markdown".
Definition AttachmentPreviewHTML : AttachmentPreviewKind := "html".
Definition AttachmentPreviewDownload : AttachmentPreviewKind := "download".

Record TaskAttachment := mkTaskAttachment {
  ta_ID : UUID;
  ta_TaskID : UUID;
  ta_UploaderID : UUID;
  ta_Filename : string;
  ta_MediaType : string;
  ta_SizeBytes : Z;
  ta_Provider : AttachmentProvider;
  ta_ObjectKey : string;
  ta_Version : Z;
  ta_DeletedAt : option Time;
  ta_CreatedAt : Time;
  ta_UpdatedAt : Time;
}.

Record AttachmentUploadSession := mkAttachmentUploadSession {
  us_ID : UUID;
  us_TaskID : UUID;
  us_UploaderID : UUID;
  us_Provider : AttachmentProvider;
  us_ObjectKey : string;
  us_Filename : string;
  us_MediaType : string;
  us_ExpectedSize : Z;
  us_ExpiresAt : Time;
  us_CreatedAt : Time;
}.

Definition deniedAttachmentExtensions : list string :=
  [".apk"; ".app"; ".bat"; ".bin"; ".cmd"; ".com"; ".cpl"; ".dll"; ".dmg"; ".exe"; ".hta"; ".img"; ".iso"; ".jar"; ".js";
   ".jse"; ".lnk"; ".msi"; ".msp"; ".ps1"; ".reg"; ".scr"; ".sh"; ".vbe"; ".vbs"; ".wsf"].
Definition deniedAttachmentMediaTypes : list string :=
  ["application/java-archive"; "application/vnd.android.package-archive"; "application/x-dosexec";
   "application/x-executable"; "application/x-msdownload"; "application/x-sh"].

Section attachments.
Context `{MimeLibrary}.

(** [strings.ToLower(strings.TrimSpace(strings.Split(mediaType, ";")[0]))] *)
Definition bare_media_type (mediaType : string) : string := strings_ToLower (TrimSpace (first_part mediaType)).

Definition ValidateAttachmentMetadata (filename mediaType : string) (size : Z) : result unit :=
  let filename := TrimSpace filename in
  _ ← fail_if ((filename == "") || (filename == ".") || (filename == "..")) ErrInvalidInput;
  _ ← fail_if ((filepath_Base filename != filename) || ContainsAny filename ["/"; "\"; "000"]%char) ErrInvalidInput;
  _ ← fail_if ((size <=? 0) || (MaxAttachmentBytes <? size)) ErrInvalidInput;
  let mediaType := bare_media_type mediaType in
  _ ← fail_if (mediaType == "") ErrInvalidInput;
  _ ← fail_if (bool_decide (strings_ToLower (filepath_Ext filename) ∈ deniedAttachmentExtensions)) ErrInvalidInput;
  fail_if (bool_decide (mediaType ∈ deniedAttachmentMediaTypes)) ErrInvalidInput.

Definition octet_stream : string := "application/octet-stream".

Definition NormalizeAttachmentMediaType (filename mediaType : string) : string :=
  let mediaType := bare_media_type mediaType in
  if (mediaType != "") && (mediaType != octet_stream) then mediaType
  else let inferred := TypeByExtension (strings_ToLower (filepath_Ext filename)) in
       if inferred != "" then bare_media_type inferred else octet_stream.

Definition AttachmentPreview (filename mediaType : string) : AttachmentPreviewKind :=
  let mediaType := NormalizeAttachmentMediaType filename mediaType in
  let ext := strings_ToLower (filepath_Ext filename) in
  if HasPrefix mediaType "image/" && (mediaType != "image/svg+xml") then AttachmentPreviewImage
  else if (mediaType == "text/markdown") || (ext == ".md") || (ext == ".markdown") then AttachmentPreviewMarkdown
  else if (mediaType == "text/html") || (ext == ".html") || (ext == ".htm") then AttachmentPreviewHTML
  else AttachmentPreviewDownload.
End attachments.

(** The first bytes of executables: MZ, ELF, scripts and the four Mach-O headers. *)
Definition dangerous_prefixes : list (list ascii) :=
  [chars "MZ"; byte 0x7f :: chars "ELF"; chars "#!"; byte <$> [0xfe; 0xed; 0xfa; 0xce]; byte <$> [0xce; 0xfa; 0xed; 0xfe];
   byte <$> [0xfe; 0xed; 0xfa; 0xcf]; byte <$> [0xcf; 0xfa; 0xed; 0xfe]].
Definition ValidateAttachmentContentSignature (header : list ascii) : result unit :=
  fail_if (existsb (fun p => present (GoStrings.strip_prefix p header)) dangerous_prefixes) ErrInvalidInput.

(** Examples *)
Example base_of_path : (filepath_Base "a/b//", filepath_Base "name.txt", filepath_Base "///") = ("b", "name.txt", "/").
Proof. reflexivity. Qed.
Example ext_of_path : (filepath_Ext "a.b/c", filepath_Ext "x.tar.GZ", filepath_Ext ".sh", filepath_Ext "none") = ("", ".GZ", ".sh", "").
Proof. reflexivity. Qed.

(** ** What valid metadata say *)

Section metadata.
Context `{MimeLibrary}.

(** Every way to write a denied extension in ASCII is refused, whatever the name before it. *)
Lemma denied_extension_refused filename mediaType size :
  bool_decide (ToLower (filepath_Ext (TrimSpace filename)) ∈ deniedAttachmentExtensions) = true ->
  exists e, ValidateAttachmentMetadata filename mediaType size = Err e.
Proof.
  intros Hd. destruct (ValidateAttachmentMetadata filename mediaType size) as [[]|e] eqn:E; [exfalso|eauto].
  unfold ValidateAttachmentMetadata in E. repeat (apply bind_Ok in E as (? & ?%fail_if_Ok & E)).
  match goal with Hx : bool_decide (strings_ToLower _ ∈ _) = false |- _ => rewrite ToLower_ascii, Hd in Hx; [done|] end.
  apply bool_decide_eq_true in Hd. revert Hd. generalize (ToLower (filepath_Ext (TrimSpace filename))).
  intros t Ht. unfold deniedAttachmentExtensions in Ht.
  repeat (apply elem_of_cons in Ht as [->|Ht]; [reflexivity|]). by apply elem_of_nil in Ht.
Qed.

Lemma valid_metadata_size filename mediaType size :
  ValidateAttachmentMetadata filename mediaType size = Ok tt -> 0 < size <= MaxAttachmentBytes.
Proof.
  unfold ValidateAttachmentMetadata. intros E. repeat (apply bind_Ok in E as (? & ?%fail_if_Ok & E)). go_bool. lia.
Qed.
End metadata.
