(* ===== verification/Paths.v ===== *)
(** * Paths

    What the local store of attachments uses of the package path/filepath, for Unix: a path is the list of
    its bytes, and its elements are what stands between slashes. *)

From Stdlib Require Import Ascii.
From stdpp Require Import base tactics strings gmap list numbers.
From S2P Require Import Prelude Actors Http Attachment.

Abbreviation bytes := (list ascii).

(** [strings.Split(path, "/")] *)
Fixpoint split_slash (l : bytes) : list bytes :=
  match l with
  | [] => [[]]
  | c :: l' => if c == slash then [] :: split_slash l'
               else match split_slash l' with e :: es => (c :: e) :: es | [] => [[c]] end
  end.
(** [strings.Join(elements, "/")] *)
Fixpoint join_slash (es : list bytes) : bytes :=
  match es with
  | [] => []
  | [e] => e
  | e :: es => e ++ slash :: join_slash es
  end.

Definition dot : bytes := ["."%char].
Definition dotdot : bytes := ["."; "."]%char.

(** The rules of [filepath.Clean] for one more element; [out] are the elements so far, the last one first. *)
Definition clean_step (rooted : bool) (out : list bytes) (e : bytes) : list bytes :=
  if (e == []) || (e == dot) then out
  else if e == dotdot then
    match out with
    | x :: rest => if x == dotdot then dotdot :: out else rest
    | [] => if rooted then [] else [dotdot]
    end
  else e :: out.
Definition clean_elements (rooted : bool) (l : bytes) : list bytes := rev (foldl (clean_step rooted) [] (split_slash l)).

Definition IsAbs (path : bytes) : bool := head path == Some slash.
(** [filepath.Clean] *)
Definition Clean (path : bytes) : bytes :=
  if IsAbs path then slash :: join_slash (clean_elements true path)
  else match clean_elements false path with [] => dot | es => join_slash es end.

(** [filepath.Join(a, b)] *)
Definition Join (a b : bytes) : bytes :=
  if a == [] then (if b == [] then [] else Clean b) else Clean (a ++ slash :: b).

(** The elements of a clean path. *)
Definition elements_of (clean : bytes) : list bytes :=
  if clean == dot then []
  else if IsAbs clean then match clean with _ :: [] => [] | _ :: l => split_slash l | [] => [] end
  else split_slash clean.

(** What is left of two lists after their common prefix. *)
Fixpoint strip_common (a b : list bytes) : list bytes * list bytes :=
  match a, b with
  | x :: a', y :: b' => if x == y then strip_common a' b' else (a, b)
  | _, _ => (a, b)
  end.
(** [filepath.Rel] *)
Definition Rel (base target : bytes) : result bytes :=
  let base := Clean base in
  let target := Clean target in
  if base == target then Ok dot
  else if IsAbs base != IsAbs target then Err ErrOther
  else let '(b, t) := strip_common (elements_of base) (elements_of target) in
       if head b == Some dotdot then Err ErrOther
       else Ok (join_slash (replicate (length b) dotdot ++ t)).

(** [strings.HasPrefix(path, "../")] *)
Definition climbs (path : bytes) : bool := present (GoStrings.strip_prefix (dotdot ++ [slash]) path).

Example clean_examples :
  (Clean <$> (String.list_ascii_of_string <$> ["a//b/./c"; "a/../../b"; "/../x"; ""; "a/.."; "./"])) =
  (String.list_ascii_of_string <$> ["a/b/c"; "../b"; "/x"; "."; "."; "."]).
Proof. reflexivity. Qed.
Example rel_example :
  Rel (String.list_ascii_of_string "/a/b") (String.list_ascii_of_string "/a/c/d") = Ok (String.list_ascii_of_string "../c/d").
Proof. reflexivity. Qed.

(** ** Elements *)

(** An element that names a file or a directory in its directory. *)
Definition proper (e : bytes) : Prop := e <> [] /\ e <> dot /\ e <> dotdot /\ slash ∉ e.

Lemma split_no_slash l e : e ∈ split_slash l -> slash ∉ e.
Proof.
  revert e. induction l as [|c l IH]; intros e; cbn.
  - rewrite list_elem_of_singleton. intros ->. apply not_elem_of_nil.
  - case_bool_decide as Hc.
    + rewrite elem_of_cons. intros [->|He]; [apply not_elem_of_nil|auto].
    + destruct (split_slash l) as [|x xs]; [rewrite list_elem_of_singleton; intros ->; set_solver|].
      rewrite elem_of_cons. intros [->|He]; [|set_solver]. rewrite not_elem_of_cons. split; [done|]. apply IH. set_solver.
Qed.
Lemma split_cons_plain e l : slash ∉ e -> split_slash (e ++ slash :: l) = e :: split_slash l.
Proof.
  induction e as [|c e IH]; cbn; [done|]. rewrite not_elem_of_cons. intros [Hc He].
  rewrite bool_decide_eq_false_2 by congruence. by rewrite IH.
Qed.
Lemma split_plain e : slash ∉ e -> split_slash e = [e].
Proof.
  induction e as [|c e IH]; cbn; [done|]. rewrite not_elem_of_cons. intros [Hc He].
  rewrite bool_decide_eq_false_2 by congruence. by rewrite IH.
Qed.
Lemma split_join es : es <> [] -> Forall (fun e => slash ∉ e) es -> split_slash (join_slash es) = es.
Proof.
  induction es as [|e es IH]; [done|]. intros _ [He Hes]%Forall_cons_1. destruct es as [|e' es].
  - by apply split_plain.
  - change (join_slash (e :: e' :: es)) with (e ++ slash :: join_slash (e' :: es)). rewrite split_cons_plain by done.
    by rewrite IH.
Qed.
Lemma split_app l l' : split_slash (l ++ slash :: l') = split_slash l ++ split_slash l'.
Proof.
  induction l as [|c l IH]; [reflexivity|]. cbn. case_bool_decide; [by rewrite IH|]. rewrite IH.
  destruct (split_slash l) as [|e es] eqn:E; [|done]. by destruct l; cbn in E; repeat case_match.
Qed.

Lemma clean_proper rooted es out : Forall proper es -> foldl (clean_step rooted) out es = rev es ++ out.
Proof.
  revert out. induction es as [|e es IH]; intros out; [done|]. intros [(H1 & H2 & H3 & _) Hes]%Forall_cons_1. cbn.
  rewrite IH by done. unfold clean_step. rewrite !bool_decide_eq_false_2 by done. cbn. by rewrite <- app_assoc.
Qed.

(** The elements of a clean path that is not absolute climb first, if at all. *)
Lemma clean_relative l : exists n es, clean_elements false l = replicate n dotdot ++ es /\ Forall proper es.
Proof.
  unfold clean_elements.
  assert (forall xs out, Forall (fun e => slash ∉ e) xs -> (exists n es, out = rev es ++ replicate n dotdot /\ Forall proper es) ->
    exists n es, foldl (clean_step false) out xs = rev es ++ replicate n dotdot /\ Forall proper es) as Hf.
  { intros xs. induction xs as [|x xs IH]; intros out; [auto|]. intros [Hx Hxs]%Forall_cons_1 (n & es & -> & Hes). cbn.
    apply IH; [done|]. unfold clean_step. case_bool_decide as H1; cbn; [eauto|]. case_bool_decide as H2; cbn; [eauto|].
    case_bool_decide as H3.
    - destruct es as [|e es _] using rev_ind; cbn.
      + destruct n as [|n]; cbn; [by exists 1%nat, []|]. exists (S (S n)), []. done.
      + rewrite rev_app_distr. cbn. apply Forall_app in Hes as [Hes [He _]%Forall_cons_1].
        rewrite bool_decide_eq_false_2 by apply He. eauto.
    - exists n, (es ++ [x]). rewrite rev_app_distr. split; [done|]. apply Forall_app. split; [done|]. constructor; [by split_and!|done]. }
  destruct (Hf (split_slash l) []) as (n & es & -> & Hes).
  - apply List.Forall_forall. intros e He%list_elem_of_In. by eapply split_no_slash.
  - by exists 0%nat, [].
  - exists n, es. rewrite rev_app_distr, rev_involutive. split; [|done]. f_equal.
    clear. induction n as [|n IH]; [done|]. cbn. rewrite IH. clear. induction n as [|n IH]; [done|]. cbn. by rewrite IH.
Qed.

Lemma join_cons e es : es <> [] -> join_slash (e :: es) = e ++ slash :: join_slash es.
Proof. by destruct es. Qed.
Lemma join_ne es : es <> [] -> Forall proper es -> join_slash es <> [].
Proof.
  destruct es as [|e es]; [done|]. intros _ [(He & _) _]%Forall_cons_1. destruct es; cbn; [done|]. by destruct e.
Qed.
Lemma proper_not_abs es : Forall proper es -> IsAbs (join_slash es) = false.
Proof.
  destruct es as [|e es]; [done|]. intros [(He & _ & _ & Hs) _]%Forall_cons_1. unfold IsAbs.
  destruct e as [|c e]; [done|]. destruct es; cbn; apply bool_decide_eq_false; set_solver.
Qed.
Lemma proper_plain es : Forall proper es -> Forall (fun e => slash ∉ e) es.
Proof. apply Forall_impl. by intros e (_ & _ & _ & ?). Qed.
Lemma join_app_inj a b : Forall proper a -> Forall proper b -> a <> [] -> b <> [] -> join_slash a = join_slash b -> a = b.
Proof. intros Ha Hb Na Nb E. rewrite <- (split_join a), <- (split_join b), E; auto using proper_plain. Qed.

(** A clean path that neither is absolute nor climbs is made of proper elements. *)
Lemma clean_inside l : Clean l <> dot -> IsAbs l = false -> Clean l <> dotdot -> climbs (Clean l) = false ->
  exists es, es <> [] /\ Forall proper es /\ clean_elements false l = es /\ Clean l = join_slash es.
Proof.
  unfold Clean. intros Hd Ha Hdd Hc. rewrite Ha in *. destruct (clean_relative l) as (n & es & E & Hes). rewrite E in *.
  destruct n as [|n].
  - cbn in *. exists es. destruct es; [done|]. done.
  - exfalso. cbn [replicate app] in *. destruct (replicate n dotdot ++ es) as [|x xs] eqn:Ex; [done|].
    change (join_slash (dotdot :: x :: xs)) with ((dotdot ++ [slash]) ++ join_slash (x :: xs)) in Hc.
    unfold climbs in Hc. rewrite (proj2 (GoStrings.strip_prefix_Some _ _ _) eq_refl) in Hc. done.
Qed.

Lemma IsAbs_slash l : IsAbs (slash :: l) = true.
Proof. reflexivity. Qed.

(** A directory: an absolute clean path. *)
Definition is_dir (path : bytes) (es : list bytes) : Prop := Forall proper es /\ path = slash :: join_slash es.

Lemma clean_absolute es : Forall proper es -> clean_elements true (slash :: join_slash es) = es.
Proof.
  intros Hes. unfold clean_elements. change (slash :: join_slash es) with ([] ++ slash :: join_slash es).
  rewrite split_cons_plain by apply not_elem_of_nil. cbn [foldl]. change (clean_step true [] []) with (@nil bytes).
  destruct es as [|e es]; [reflexivity|]. rewrite split_join by (done || by apply proper_plain).
  rewrite clean_proper by done. by rewrite app_nil_r, rev_involutive.
Qed.
Lemma clean_dir path es : is_dir path es -> Clean path = path.
Proof. intros [Hes ->]. unfold Clean. rewrite IsAbs_slash. by rewrite clean_absolute. Qed.

Lemma join_inside root rs es : is_dir root rs -> Forall proper es -> es <> [] ->
  Join root (join_slash es) = slash :: join_slash (rs ++ es).
Proof.
  intros [Hrs ->] Hes Hne. unfold Join. cbn [app]. rewrite bool_decide_eq_false_2 by done. unfold Clean. rewrite IsAbs_slash. f_equal. f_equal. unfold clean_elements.
  change (slash :: join_slash rs ++ slash :: join_slash es) with (([] ++ slash :: join_slash rs) ++ slash :: join_slash es).
  rewrite split_app, split_cons_plain by apply not_elem_of_nil. rewrite (split_join es) by (done || by apply proper_plain).
  cbn [app foldl]. change (clean_step true [] []) with (@nil bytes). rewrite foldl_app.
  destruct rs as [|r rs].
  - change (foldl (clean_step true) [] (split_slash (join_slash []))) with (@nil bytes). rewrite clean_proper by done. by rewrite app_nil_r, rev_involutive.
  - rewrite split_join by (done || by apply proper_plain). rewrite !clean_proper by done.
    rewrite app_nil_r, rev_app_distr, !rev_involutive. done.
Qed.

Lemma strip_common_app rs es : strip_common rs (rs ++ es) = ([], es).
Proof. induction rs as [|r rs IH]; cbn; [by destruct es|]. by rewrite bool_decide_eq_true_2. Qed.

Lemma elements_dir es : Forall proper es -> elements_of (slash :: join_slash es) = es.
Proof.
  intros Hes. unfold elements_of. rewrite bool_decide_eq_false_2 by done. rewrite IsAbs_slash.
  destruct es as [|e es]; [done|]. destruct (join_slash (e :: es)) as [|c l] eqn:E; [by apply join_ne in E|].
  rewrite <- E. apply split_join; [done|by apply proper_plain].
Qed.

(** Inside a directory, the relative path is what was joined. *)
Lemma rel_inside root rs es : is_dir root rs -> Forall proper es -> es <> [] ->
  Rel root (slash :: join_slash (rs ++ es)) = Ok (join_slash es).
Proof.
  intros Hr Hes Hne. destruct (Hr) as [Hrs Er]. assert (Forall proper (rs ++ es)) as Hall by by apply Forall_app.
  unfold Rel. rewrite (clean_dir _ _ Hr), (clean_dir _ (rs ++ es)) by done. rewrite Er.
  rewrite bool_decide_eq_false_2.
  - rewrite !IsAbs_slash. change (true != true) with false. cbv iota. rewrite !elements_dir by done. by rewrite strip_common_app.
  - intros [= E]. assert (rs = rs ++ es) as E2.
    { destruct rs as [|r rs]; [by apply eq_sym, join_ne in E|]. apply join_app_inj; done. }
    apply Hne. by apply (app_inv_head rs); rewrite app_nil_r.
Qed.
