(* ===== verification/BlobStore.v ===== *)
(** * Object stores

    The interface internal/blob/store.go with what its clients rely on, and the store on the local disk,
    internal/blob/local.go, which keeps to it.  An error of the operating system ends an operation of the
    local store; [AttachmentSystem] lets every operation of a store fail. *)

From Stdlib Require Import Ascii.
From stdpp Require Import base tactics strings gmap list numbers.
From S2P Require Import Prelude Actors State Http Attachment Paths.

Local Abbreviation chars := String.list_ascii_of_string.
Local Abbreviation text := String.string_of_list_ascii.

(** ** internal/blob/store.go *)

Record UploadInstruction := mkUploadInstruction {
  ui_Method : string;
  ui_URL : string;
  ui_Headers : Header;
  ui_Direct : bool;
  ui_ExpiresAt : Time;
}.
Record ObjectInfo := mkObjectInfo { oi_Size : Z; oi_MediaType : string }.

(** [SignedGet] gives out addresses and is not used by the attachments. *)
Class BlobStore := {
  Objects : Type;
  blob_Provider : AttachmentProvider;
  blob_CreateUpload : string -> string -> Z -> Time -> result UploadInstruction;
  blob_Put : string -> string -> Z -> string -> St Objects unit;
  blob_Stat : string -> St Objects ObjectInfo;
  blob_Open : string -> St Objects (string * ObjectInfo);
  blob_Delete : string -> St Objects unit;
}.

Definition size_of (body : string) : Z := Z.of_nat (String.length body).

(** What a store promises for the keys that its client uses: an operation that fails changes nothing,
    one that succeeds changes the object of its key only. *)
Class BlobLaws (B : BlobStore) (key : string -> Prop) := {
  object : Objects -> string -> option string;
  put_Ok k body size media o o' : key k -> blob_Put k body size media o = (Ok tt, o') ->
    object o' k = Some body /\ size_of body = size /\ forall k', key k' -> k' <> k -> object o' k' = object o k';
  put_Err k body size media o e o' : blob_Put k body size media o = (Err e, o') -> o' = o;
  stat_keeps k : keeps (blob_Stat k);
  stat_Ok k o info o' : key k -> blob_Stat k o = (Ok info, o') -> exists body, object o k = Some body /\ oi_Size info = size_of body;
  stat_possible k o body : key k -> object o k = Some body -> exists info, blob_Stat k o = (Ok info, o);
  open_keeps k : keeps (blob_Open k);
  open_Ok k o body info o' : key k -> blob_Open k o = (Ok (body, info), o') -> object o k = Some body /\ oi_Size info = size_of body;
  open_possible k o body : key k -> object o k = Some body -> exists info, blob_Open k o = (Ok (body, info), o);
  delete_Ok k o o' : key k -> blob_Delete k o = (Ok tt, o') ->
    object o' k = None /\ forall k', key k' -> k' <> k -> object o' k' = object o k';
  delete_Err k o e o' : blob_Delete k o = (Err e, o') -> o' = o;
  delete_possible k o : key k -> exists o', blob_Delete k o = (Ok tt, o');
}.

(** ** internal/blob/local.go *)

(** The files of a disk by their paths. *)
Abbreviation Disk := (gmap string string).

Definition LocalStore_path (root key : string) : result string :=
  let key := Clean (chars (TrimSpace key)) in
  _ ← fail_if ((key == dot) || IsAbs key || climbs key || (key == dotdot)) ErrOther;
  let path := Join (chars root) key in
  match Rel (chars root) path with
  | Err _ => Err ErrOther
  | Ok relative =>
      _ ← fail_if ((relative == dotdot) || climbs relative) ErrOther;
      Ok (text path)
  end.

(** The body is written to a temporary file, which replaces the file at the end: [LimitedReader] lets one
    byte more than the declared size pass, so that a longer body is noticed. *)
Definition LocalStore_Put (root key body : string) (size : Z) (_mediaType : string) : St Disk unit :=
  st_fail ((size <=? 0) || (MaxAttachmentBytes <? size)) ErrOther;;
  path ← st_lift (LocalStore_path root key);
  let written := Z.min (size_of body) (size + 1) in
  let left := size + 1 - written in
  st_fail ((written != size) || (left =? 0)) ErrOther;;
  st_mod <[path := body]>.

Section local.
Context `{MimeLibrary}.

Definition LocalStore_Stat (root key : string) : St Disk ObjectInfo :=
  path ← st_lift (LocalStore_path root key);
  found ← st_get (lookup path);
  body ← st_or_err found ErrOther;
  mret (mkObjectInfo (size_of body) (TypeByExtension (filepath_Ext path))).

Definition LocalStore_Open (root key : string) : St Disk (string * ObjectInfo) :=
  path ← st_lift (LocalStore_path root key);
  found ← st_get (lookup path);
  body ← st_or_err found ErrOther;
  mret (body, mkObjectInfo (size_of body) "").

(** A file that does not exist counts as deleted. *)
Definition LocalStore_Delete (root key : string) : St Disk unit :=
  path ← st_lift (LocalStore_path root key);
  st_mod (delete path).

Definition LocalStore_CreateUpload (key mediaType : string) (size : Z) (expiresAt : Time) : result UploadInstruction :=
  Ok (mkUploadInstruction "PUT" "" ∅ false expiresAt).

Definition LocalStore (root : string) : BlobStore := {|
  Objects := Disk;
  blob_Provider := AttachmentProviderLocal;
  blob_CreateUpload := LocalStore_CreateUpload;
  blob_Put := LocalStore_Put root;
  blob_Stat := LocalStore_Stat root;
  blob_Open := LocalStore_Open root;
  blob_Delete := LocalStore_Delete root;
|}.
End local.

(** ** Where the local store puts its files *)

(** Inside the root: a path below it, of elements that name files and directories. *)
Lemma path_inside root rs key path : is_dir (chars root) rs -> LocalStore_path root key = Ok path ->
  exists es, es <> [] /\ Forall proper es /\ Clean (chars (TrimSpace key)) = join_slash es /\
    path = text (slash :: join_slash (rs ++ es)).
Proof.
  intros Hr Hp. unfold LocalStore_path in Hp. apply bind_Ok in Hp as (? & Hg%fail_if_Ok & Hp). go_bool.
  destruct (clean_inside (chars (TrimSpace key))) as (es & Hne & Hes & _ & Ec); try done.
  { destruct (IsAbs (chars (TrimSpace key))) eqn:Ea; [|done]. unfold Clean in *. rewrite Ea, IsAbs_slash in *. done. }
  rewrite Ec in Hp. rewrite (join_inside _ _ _ Hr Hes Hne), (rel_inside _ _ _ Hr Hes Hne) in Hp.
  apply bind_Ok in Hp as (? & _ & [= <-]). eauto.
Qed.

(** The keys of the attachments: [path.Join("tasks", taskID.String(), sessionID.String())] *)
Definition path_Join (elements : list string) : string :=
  text (Clean (join_slash (List.filter (fun e => e != []) (chars <$> elements)))).

Section keys.
Context `{UuidLibrary} `{MimeLibrary}.

Definition objectKey (taskID sessionID : UUID) : string := path_Join ["tasks"; uuid_String taskID; uuid_String sessionID].
Definition is_key (k : string) : Prop := exists t s, k = objectKey t s.
Definition key_elements (t s : UUID) : list bytes := chars <$> ["tasks"; uuid_String t; uuid_String s].

Lemma uuid_ne u : chars (uuid_String u) <> [].
Proof. pose proof (uuid_String_nonblank u) as Hb. by destruct (uuid_String u). Qed.
Lemma uuid_proper u : proper (chars (uuid_String u)).
Proof.
  split_and!; [apply uuid_ne| | |by apply uuid_String_without];
    intros E; apply (uuid_String_no_dot u); rewrite E; set_solver.
Qed.
Lemma key_proper t s : Forall proper (key_elements t s).
Proof. repeat constructor; try apply uuid_proper; try done. cbn. intros ?. set_solver. Qed.

Lemma clean_join es : es <> [] -> Forall proper es -> Clean (join_slash es) = join_slash es.
Proof.
  intros Hne Hes. unfold Clean, clean_elements. rewrite proper_not_abs by done.
  rewrite split_join by (done || by apply proper_plain). rewrite clean_proper by done. rewrite app_nil_r, rev_involutive.
  by destruct es.
Qed.
Lemma key_text t s : chars (objectKey t s) = join_slash (key_elements t s).
Proof.
  unfold objectKey, path_Join. rewrite String.list_ascii_of_string_of_list_ascii.
  assert (List.filter (fun e => e != []) (key_elements t s) = key_elements t s) as E.
  { apply forallb_filter_id, forallb_forall. intros e He. pose proof (proj1 (List.Forall_forall _ _) (key_proper t s) _ He) as [Hp _].
    apply negb_true_iff, bool_decide_eq_false. exact Hp. }
  change (chars <$> _) with (key_elements t s). rewrite E. apply clean_join; [done|apply key_proper].
Qed.

Lemma strip_uuid_char c l : uuid_char c = true -> GoStrings.strip_any (@rev _ <$> GoStrings.spaces) (c :: l) = None.
Proof.
  unfold uuid_char. intros Hc%bool_decide_eq_true. cbn in Hc.
  repeat (apply elem_of_cons in Hc as [->|Hc]; [reflexivity|]). by apply elem_of_nil in Hc.
Qed.
Lemma key_trimmed t s : TrimSpace (objectKey t s) = objectKey t s.
Proof.
  rewrite <- (String.string_of_list_ascii_of_string (objectKey t s)) at 2. unfold TrimSpace. f_equal. unfold GoStrings.trim.
  rewrite (GoStrings.trim_front_id GoStrings.spaces); rewrite key_text.
  - rewrite GoStrings.trim_front_id; [apply rev_involutive|].
    change (join_slash (key_elements t s)) with (chars "tasks" ++ slash :: chars (uuid_String t) ++ slash :: chars (uuid_String s)).
    pose proof (uuid_String_chars s) as Hc. destruct (exists_last (uuid_ne s)) as (l & c & E). rewrite E in *.
    apply Forall_app in Hc as [_ [Hc _]%Forall_cons_1].
    rewrite !app_comm_cons, !app_assoc, rev_app_distr. by apply strip_uuid_char.
  - reflexivity.
Qed.

(** Every key has a file of its own. *)
Lemma key_path root rs t s : is_dir (chars root) rs ->
  LocalStore_path root (objectKey t s) = Ok (text (slash :: join_slash (rs ++ key_elements t s))).
Proof.
  intros Hr. unfold LocalStore_path. rewrite key_trimmed, key_text.
  pose proof (key_proper t s) as Hp. rewrite clean_join by done.
  rewrite (join_inside _ _ _ Hr Hp) by done. rewrite (rel_inside _ _ _ Hr Hp) by done.
  assert (join_slash (key_elements t s) = "t"%char :: "a"%char :: chars "sks" ++ slash :: chars (uuid_String t) ++ slash :: chars (uuid_String s))
    as -> by reflexivity. reflexivity.
Qed.
Lemma key_path_inj root rs t s t' s' : is_dir (chars root) rs ->
  LocalStore_path root (objectKey t s) = LocalStore_path root (objectKey t' s') -> objectKey t s = objectKey t' s'.
Proof.
  intros Hr. rewrite !(key_path _ _ _ _ Hr). intros [= E]. apply (f_equal chars) in E.
  rewrite !String.list_ascii_of_string_of_list_ascii in E. destruct Hr as [Hrs _].
  apply join_app_inj in E; try (apply Forall_app; split; [done|apply key_proper]); try by destruct rs.
  apply app_inv_head in E. apply (f_equal join_slash) in E. rewrite <- !key_text in E.
  apply (f_equal text) in E. by rewrite !String.string_of_list_ascii_of_string in E.
Qed.
Lemma objectKey_inj t s t' s' : objectKey t s = objectKey t' s' -> t = t' /\ s = s'.
Proof.
  intros E%(f_equal chars). rewrite !key_text in E.
  apply join_app_inj in E; try apply key_proper; try done. injection E as Et Es.
  assert (forall u v, chars (uuid_String u) = chars (uuid_String v) -> u = v) as Hinj; [|by split; apply Hinj].
  intros u v Euv%(f_equal text). rewrite !String.string_of_list_ascii_of_string in Euv.
  apply (f_equal uuid_Parse) in Euv. rewrite !uuid_Parse_String in Euv. by simplify_eq.
Qed.


(** ** The local store keeps to the interface *)

Definition local_object (root : string) (d : Disk) (k : string) : option string :=
  match LocalStore_path root k with Ok path => d !! path | Err _ => None end.

Lemma local_path_distinct root rs k k' p p' : is_dir (chars root) rs -> is_key k -> is_key k' -> k' <> k ->
  LocalStore_path root k = Ok p -> LocalStore_path root k' = Ok p' -> p <> p'.
Proof. intros Hr (t & s & ->) (t' & s' & ->) Hne Hp Hp' ->. apply Hne. eapply key_path_inj; [exact Hr|]. congruence. Qed.

Lemma local_update_other root rs k k' p (f : Disk -> Disk) d : is_dir (chars root) rs -> is_key k -> is_key k' -> k' <> k ->
  LocalStore_path root k = Ok p -> (forall p', p' <> p -> f d !! p' = d !! p') -> local_object root (f d) k' = local_object root d k'.
Proof.
  intros Hr Hk Hk' Hne Hp Hf. unfold local_object. destruct (LocalStore_path root k') as [p'|] eqn:Hp'; [|done].
  apply Hf. intros ->. by destruct (local_path_distinct root rs k k' p p Hr Hk Hk' Hne Hp Hp').
Qed.
Lemma local_key_path root rs k : is_dir (chars root) rs -> is_key k -> exists p, LocalStore_path root k = Ok p.
Proof. intros Hr (t & s & ->). rewrite (key_path _ _ _ _ Hr). eauto. Qed.

Definition local_laws root rs (Hr : is_dir (chars root) rs) : BlobLaws (LocalStore root) is_key.
Proof.
  refine {| object := local_object root : @Objects (LocalStore root) -> string -> option string |}; cbn.
  - intros k body size media o o' Hk E. destruct (local_key_path _ _ _ Hr Hk) as [p Hp].
    unfold LocalStore_Put in E. rewrite Hp in E. st_inv. cbn in *. go_bool. match goal with Hx : Ok p = Ok _ |- _ => injection Hx as <- end. split_and!.
    + unfold local_object. rewrite Hp. apply lookup_insert_eq.
    + lia.
    + intros k' Hk' Hne. apply (local_update_other root rs k k' p <[p:=body]>); try done. intros p' Hn. by apply lookup_insert_ne.
  - intros k body size media o e o' E. unfold LocalStore_Put in E.
    assert (clean (LocalStore_Put root k body size media)) as Hc by (unfold LocalStore_Put; cleaned ltac:(idtac; fail)). by eapply Hc.
  - intros k. unfold LocalStore_Stat. auto 10 with keeps.
  - intros k o info o' Hk E. destruct (local_key_path _ _ _ Hr Hk) as [p Hp]. unfold LocalStore_Stat in E. rewrite Hp in E. st_inv. match goal with Hx : Ok p = Ok _ |- _ => injection Hx as <- end.
    eexists. unfold local_object. rewrite Hp. done.
  - intros k o body Hk Ho. destruct (local_key_path _ _ _ Hr Hk) as [p Hp]. unfold local_object in Ho. rewrite Hp in Ho.
    unfold LocalStore_Stat. rewrite Hp. unfold mbind, St_bind. cbn. rewrite Ho. by eexists.
  - intros k. unfold LocalStore_Open. auto 10 with keeps.
  - intros k o body info o' Hk E. destruct (local_key_path _ _ _ Hr Hk) as [p Hp]. unfold LocalStore_Open in E. rewrite Hp in E. st_inv. match goal with Hx : Ok p = Ok _ |- _ => injection Hx as <- end.
    unfold local_object. rewrite Hp. by simplify_eq.
  - intros k o body Hk Ho. destruct (local_key_path _ _ _ Hr Hk) as [p Hp]. unfold local_object in Ho. rewrite Hp in Ho.
    unfold LocalStore_Open. rewrite Hp. unfold mbind, St_bind. cbn. rewrite Ho. by eexists.
  - intros k o o' Hk E. destruct (local_key_path _ _ _ Hr Hk) as [p Hp]. unfold LocalStore_Delete in E. rewrite Hp in E. st_inv. cbn in *. match goal with Hx : Ok p = Ok _ |- _ => injection Hx as <- end.
    split; [unfold local_object; rewrite Hp; apply lookup_delete_eq|].
    intros k' Hk' Hne. apply (local_update_other root rs k k' p (delete p)); try done. intros p' Hn. by apply lookup_delete_ne.
  - intros k o e o' E. assert (clean (LocalStore_Delete root k)) as Hc by (unfold LocalStore_Delete; cleaned ltac:(idtac; fail)). by eapply Hc.
  - intros k o Hk. destruct (local_key_path _ _ _ Hr Hk) as [p Hp]. unfold LocalStore_Delete. rewrite Hp. by eexists.
Defined.
End keys.
