(* ===== verification/AttachmentStore.v ===== *)
(** * The store and the service of attachments

    internal/store/attachment_store.go over the tables attachment_upload_sessions and task_attachments
    (migrations 0019 and 0021), next to the tables of the workflow, and the calls that use it
    (internal/application/attachment_service.go, attachment_cleanup.go). *)

From stdpp Require Import base tactics strings gmap list numbers sorting.
From S2P Require Import Prelude Actors Database Tx State ThreadStore Http Attachment.
From S2P Require Import BlobStore.

(** ** The tables *)

Definition UploadPending : string := "pending".
Definition UploadCompleted : string := "completed".
Definition UploadExpired : string := "expired".

Record SessionRow := mkSessionRow {
  ur_session : AttachmentUploadSession;
  ur_status : string;
  ur_attachment_id : option UUID;
  ur_completed_at : option Time;
}.
Record AttachmentRow := mkAttachmentRow {
  ar_attachment : TaskAttachment;
  ar_cleanup_attempted_at : option Time;
  ar_cleanup_error : option string;
  ar_cleaned_at : option Time;
}.

Record FileWorld := mkFileWorld {
  fw_world : World;
  fw_sessions : gmap UUID SessionRow;
  fw_attachments : gmap UUID AttachmentRow;
}.
Definition FileM (X : Type) : Type := St FileWorld X.

Definition fw_db (w : FileWorld) : DB := w_db (fw_world w).
Definition set_fw_world (x : World) (w : FileWorld) : FileWorld := mkFileWorld x (fw_sessions w) (fw_attachments w).
Definition put_session (r : SessionRow) (w : FileWorld) : FileWorld :=
  mkFileWorld (fw_world w) (<[us_ID (ur_session r) := r]> (fw_sessions w)) (fw_attachments w).
Definition put_attachment (r : AttachmentRow) (w : FileWorld) : FileWorld :=
  mkFileWorld (fw_world w) (fw_sessions w) (<[ta_ID (ar_attachment r) := r]> (fw_attachments w)).

(** A statement on the tables of the workflow. *)
Definition in_world {A} (m : M A) : FileM A := fun w => let '(r, x) := m (fw_world w) in (r, set_fw_world x w).
(** A rollback does not take back the identifiers that were drawn. *)
Definition file_tx {A} (m : FileM A) : FileM A := fun w =>
  match m w with
  | (Ok a, w') => (Ok a, w')
  | (Err e, w') => (Err e, set_fw_world (mkWorld (fw_db w) (w_next (fw_world w'))) w)
  end.

Definition known_provider (p : AttachmentProvider) : bool := bool_decide (p ∈ ["local"; "oss"; "cos"]).
Definition file_columns_ok (object_key filename media_type : string) (size : Z) (provider : AttachmentProvider) : bool :=
  known_provider provider && negb (GoStrings.btrim_empty object_key) && negb (GoStrings.btrim_empty filename) &&
  negb (GoStrings.btrim_empty media_type) && (0 <? size) && (size <=? 104857600).

Section store.
Context `{UUIDSource} `{MimeLibrary}.

(** ** Upload sessions *)

Definition active_attachments (w : FileWorld) (taskID : UUID) : list AttachmentRow :=
  select (fun r => (ta_TaskID (ar_attachment r) == taskID) && negb (present (ta_DeletedAt (ar_attachment r)))) (fw_attachments w).
Definition active_count (w : FileWorld) (taskID : UUID) : Z := Z.of_nat (length (active_attachments w taskID)).

(** [INSERT INTO attachment_upload_sessions (...) RETURNING ...] *)
Definition insert_session (session : AttachmentUploadSession) (now : Time) : FileM AttachmentUploadSession :=
  let s := mkAttachmentUploadSession (us_ID session) (us_TaskID session) (us_UploaderID session) (us_Provider session)
             (us_ObjectKey session) (us_Filename session) (us_MediaType session) (us_ExpectedSize session)
             (us_ExpiresAt session) now in
  w ← st_get (fun w => w);
  st_fail (negb (file_columns_ok (us_ObjectKey s) (us_Filename s) (us_MediaType s) (us_ExpectedSize s) (us_Provider s)))
    ErrInvalidInput;;
  st_fail (present (fw_sessions w !! us_ID s)) ErrConflict;;
  st_fail (negb (present (tasks (fw_db w) !! us_TaskID s) && fk (Some (us_UploaderID s)) (users (fw_db w)))) ErrInvalidInput;;
  st_mod (put_session (mkSessionRow s UploadPending None None));;
  mret s.

Definition session_identified (session : AttachmentUploadSession) (id : UUID) : AttachmentUploadSession :=
  mkAttachmentUploadSession id (us_TaskID session) (us_UploaderID session) (us_Provider session) (us_ObjectKey session)
    (us_Filename session) (us_MediaType session) (us_ExpectedSize session) (us_ExpiresAt session) (us_CreatedAt session).

Definition CreateUploadSession (session : AttachmentUploadSession) (now : Time) : FileM AttachmentUploadSession :=
  st_lift (ValidateAttachmentMetadata (us_Filename session) (us_MediaType session) (us_ExpectedSize session));;
  id ← (if us_ID session == uuid_Nil then in_world uuid_New else mret (us_ID session));
  let session := session_identified session id in
  st_fail ((us_TaskID session == uuid_Nil) || (us_UploaderID session == uuid_Nil) || (us_ObjectKey session == "")) ErrInvalidInput;;
  st_fail (Time_IsZero (us_ExpiresAt session) || negb (now <? us_ExpiresAt session)) ErrInvalidInput;;
  file_tx (
    activeCount ← st_get (fun w => active_count w (us_TaskID session));
    st_fail (MaxActiveTaskAttachments <=? activeCount) ErrConflict;;
    insert_session session now).

Definition pending_session (id : UUID) (w : FileWorld) : option AttachmentUploadSession :=
  r ← fw_sessions w !! id;
  if ur_status r == UploadPending then Some (ur_session r) else None.

Definition GetUploadSession (id : UUID) : FileM AttachmentUploadSession :=
  found ← st_get (pending_session id);
  st_or_err found ErrNotFound.

(** ** Completion *)

Record AttachmentCompletion := mkAttachmentCompletion { cp_Attachment : TaskAttachment; cp_TaskVersion : Z }.

(** [INSERT INTO task_attachments (...) RETURNING ...] *)
Definition insert_attachment (a : TaskAttachment) (now : Time) : FileM TaskAttachment :=
  let a := mkTaskAttachment (ta_ID a) (ta_TaskID a) (ta_UploaderID a) (ta_Filename a) (ta_MediaType a) (ta_SizeBytes a)
             (ta_Provider a) (ta_ObjectKey a) 1 None now now in
  w ← st_get (fun w => w);
  st_fail (negb (file_columns_ok (ta_ObjectKey a) (ta_Filename a) (ta_MediaType a) (ta_SizeBytes a) (ta_Provider a))) ErrInvalidInput;;
  st_fail (present (fw_attachments w !! ta_ID a) ||
           present (select_one (fun r => ta_ObjectKey (ar_attachment r) == ta_ObjectKey a) (fw_attachments w))) ErrConflict;;
  st_fail (negb (present (tasks (fw_db w) !! ta_TaskID a) && fk (Some (ta_UploaderID a)) (users (fw_db w)))) ErrInvalidInput;;
  st_mod (put_attachment (mkAttachmentRow a None None None));;
  mret a.

Definition session_expired (r : SessionRow) : SessionRow := mkSessionRow (ur_session r) UploadExpired (ur_attachment_id r) (ur_completed_at r).
Definition session_completed (session : AttachmentUploadSession) (attachmentID : UUID) (now : Time) : SessionRow :=
  mkSessionRow session UploadCompleted (Some attachmentID) (Some now).

(** [UPDATE tasks SET version=version+1, updated_at=now() WHERE id=$1 AND version=$2] of the locked row *)
Definition bump_task (taskID : UUID) (now : Time) : FileM Z :=
  found ← st_get (fun w => tasks (fw_db w) !! taskID);
  t ← st_or_err found ErrOther;
  st_fail (t_version t =? MaxInt64) ErrOther;;
  let t' := mkTaskRow (t_id t) (t_number t) (t_version t + 1) (t_phase t) (t_activity_state t) (t_review_cycle t)
    (t_active_issue_thread_id t) (t_project_id t) (t_parent_task_id t) now (t_completed_at t) (t_archived_at t)
    (t_creator_id t) (t_created_at t) (t_brief t) in
  st_mod (fun w => set_fw_world (mkWorld (set_tasks (<[taskID := t']> (tasks (fw_db w))) (fw_db w)) (w_next (fw_world w))) w);;
  mret (t_version t').

Definition attachment_audit (a : TaskAttachment) : AuditValue :=
  AuditAttachment (ta_TaskID a) (ta_Filename a) (ta_MediaType a) (ta_SizeBytes a) (ta_Provider a).

(** The media type of the uploaded object, or of the session when the object has none. *)
Definition completed_media_type (session : AttachmentUploadSession) (actualMediaType : string) : string :=
  let actual := NormalizeAttachmentMediaType (us_Filename session) actualMediaType in
  if actual == octet_stream then us_MediaType session else actual.

(** The transaction after the checks of the session. *)
Definition complete_session (session : AttachmentUploadSession) (actualSize : Z) (actualMediaType : string)
    (expectedTaskVersion : Z) (actor : OperationActor) (now : Time) : FileM AttachmentCompletion :=
  let media := completed_media_type session actualMediaType in
  st_fail (actualSize != us_ExpectedSize session) ErrInvalidInput;;
  st_lift (ValidateAttachmentMetadata (us_Filename session) media actualSize);;
  found ← st_get (fun w => t_version <$> tasks (fw_db w) !! us_TaskID session);
  taskVersion ← st_or_err found ErrOther;
  st_fail (taskVersion != expectedTaskVersion) (VersionConflictError taskVersion);;
  activeCount ← st_get (fun w => active_count w (us_TaskID session));
  st_fail (MaxActiveTaskAttachments <=? activeCount) ErrConflict;;
  attachmentID ← in_world uuid_New;
  attachment ← insert_attachment (mkTaskAttachment attachmentID (us_TaskID session) (us_UploaderID session) (us_Filename session)
    media actualSize (us_Provider session) (us_ObjectKey session) 1 None now now) now;
  st_mod (put_session (session_completed session (ta_ID attachment) now));;
  taskVersion ← bump_task (us_TaskID session) now;
  in_world (InsertBusinessAudit (mkBusinessAuditEvent uuid_Nil now actor "attachment" (ta_ID attachment) None "created" None
    (Some (attachment_audit attachment))));;
  mret (mkAttachmentCompletion attachment taskVersion).

(** A session past its expiry is marked and the transaction commits, although the call fails. *)
Definition CompleteUploadSession (id uploaderID : UUID) (actualSize : Z) (actualMediaType : string) (expectedTaskVersion : Z)
    (actor : OperationActor) (now : Time) : FileM AttachmentCompletion :=
  st_lift (OperationActor_Validate actor);;
  st_fail (op_UserID actor != uploaderID) ErrForbidden;;
  completed ← file_tx (
    found ← st_get (pending_session id);
    session ← st_or_err found ErrNotFound;
    st_fail (us_UploaderID session != uploaderID) ErrForbidden;;
    if us_ExpiresAt session <? now then
      st_mod (put_session (session_expired (mkSessionRow session UploadPending None None)));;
      mret None
    else
      completion ← complete_session session actualSize actualMediaType expectedTaskVersion actor now;
      mret (Some completion));
  st_or_err completed ErrConflict.

(** ** Reads and deletion *)

Definition attachment_of (taskID id : UUID) (w : FileWorld) : option AttachmentRow :=
  r ← fw_attachments w !! id; if ta_TaskID (ar_attachment r) == taskID then Some r else None.

(** [ORDER BY created_at, id] *)
Definition Attachments_List (taskID : UUID) : FileM (list TaskAttachment) :=
  st_get (fun w => order_by (fun a => (ta_CreatedAt a, ta_ID a)) (ar_attachment <$> active_attachments w taskID)).

Definition Attachments_Get (taskID id : UUID) : FileM TaskAttachment :=
  found ← st_get (fun w => r ← attachment_of taskID id w;
    if present (ta_DeletedAt (ar_attachment r)) then None else Some (ar_attachment r));
  st_or_err found ErrNotFound.

Definition soft_deleted (a : TaskAttachment) (now : Time) : TaskAttachment :=
  mkTaskAttachment (ta_ID a) (ta_TaskID a) (ta_UploaderID a) (ta_Filename a) (ta_MediaType a) (ta_SizeBytes a) (ta_Provider a)
    (ta_ObjectKey a) (ta_Version a + 1) (Some now) (ta_CreatedAt a) now.
Definition with_attachment (r : AttachmentRow) (a : TaskAttachment) : AttachmentRow :=
  mkAttachmentRow a (ar_cleanup_attempted_at r) (ar_cleanup_error r) (ar_cleaned_at r).

(** The version in the error is read by a second statement. *)
Definition SoftDelete (taskID id : UUID) (expectedVersion : Z) (now : Time) : FileM TaskAttachment :=
  found ← st_get (attachment_of taskID id);
  match found with
  | None => st_throw ErrNotFound
  | Some r =>
      let a := ar_attachment r in
      if negb (present (ta_DeletedAt a)) && (ta_Version a == expectedVersion) then
        st_fail (ta_Version a =? MaxInt64) ErrOther;;
        st_mod (put_attachment (with_attachment r (soft_deleted a now)));;
        mret (soft_deleted a now)
      else st_throw (VersionConflictError (ta_Version a))
  end.

(** ** Cleanup *)

Definition CleanupRetry : Z := 5 * 60 * 1000000.
Definition batch_limit (limit : Z) : nat := Z.to_nat (if (limit <? 1) || (200 <? limit) then 50 else limit).

(** [locked] are the rows that other transactions hold ([FOR UPDATE SKIP LOCKED]). *)
Definition due_cleanup (now : Time) (locked : gset UUID) (r : AttachmentRow) : bool :=
  present (ta_DeletedAt (ar_attachment r)) && negb (present (ar_cleaned_at r)) &&
  match ar_cleanup_attempted_at r with None => true | Some t => t <? now - CleanupRetry end &&
  negb (bool_decide (ta_ID (ar_attachment r) ∈ locked)).
Definition cleanup_candidates (limit : Z) (now : Time) (locked : gset UUID) (w : FileWorld) : list AttachmentRow :=
  take (batch_limit limit) (order_by (fun r => (default 0 (ta_DeletedAt (ar_attachment r)), ta_ID (ar_attachment r)))
    (select (due_cleanup now locked) (fw_attachments w))).
Definition cleanup_claimed (now : Time) (r : AttachmentRow) : AttachmentRow :=
  mkAttachmentRow (ar_attachment r) (Some now) None (ar_cleaned_at r).

(** The rows come back in no particular order; they are listed in the order of the candidates here. *)
Definition ClaimCleanupBatch (limit : Z) (locked : gset UUID) (now : Time) : FileM (list TaskAttachment) :=
  rows ← st_get (cleanup_candidates limit now locked);
  st_mod (fun w => foldr (fun r w => put_attachment (cleanup_claimed now r) w) w rows);;
  mret (ar_attachment <$> rows).

Definition MarkCleaned (id : UUID) (now : Time) : FileM unit :=
  st_mod (fun w => match fw_attachments w !! id with
    | Some r => put_attachment (mkAttachmentRow (ar_attachment r) (ar_cleanup_attempted_at r) None (Some now)) w
    | None => w
    end).
(** [message[:2000]] of a longer text *)
Definition MarkCleanupFailed (id : UUID) (message : string) : FileM unit :=
  let message := if (2000 <? Z.of_nat (String.length message)) then String.substring 0 2000 message else message in
  st_mod (fun w => match fw_attachments w !! id with
    | Some r => put_attachment (mkAttachmentRow (ar_attachment r) (ar_cleanup_attempted_at r) (Some message) (ar_cleaned_at r)) w
    | None => w
    end).

Definition expired_upload (now : Time) (locked : gset UUID) (r : SessionRow) : bool :=
  (ur_status r == UploadPending) && (us_ExpiresAt (ur_session r) <=? now) && negb (bool_decide (us_ID (ur_session r) ∈ locked)).
Definition expired_candidates (limit : Z) (now : Time) (locked : gset UUID) (w : FileWorld) : list SessionRow :=
  take (batch_limit limit) (order_by (fun r => (us_ExpiresAt (ur_session r), us_ID (ur_session r)))
    (select (expired_upload now locked) (fw_sessions w))).
Definition ClaimExpiredUploadSessions (limit : Z) (locked : gset UUID) (now : Time) : FileM (list AttachmentUploadSession) :=
  rows ← st_get (expired_candidates limit now locked);
  st_mod (fun w => foldr (fun r w => put_session (session_expired r) w) w rows);;
  mret (ur_session <$> rows).
End store.

(** ** The service of attachments

    internal/application/attachment_service.go, attachment_cleanup.go, and the two branches of
    internal/api/v1/server.go that move content.  A call touches the tables and the object store in turns:
    it is a tree of such steps, so that other calls can run between any two of them. *)

(** ** Calls *)

Section calls.
Context `{BlobStore}.

(** The rest of a call: it has returned, or it asks the clock, runs a statement or transaction on the
    tables (at the time at which it runs), or an operation of the object store. *)
Inductive Call (A : Type) : Type :=
| Return (r : result A)
| Clock (k : Time -> Call A)
| Tables (X : Type) (m : Time -> FileM X) (k : result X -> Call A)
| Blob (X : Type) (m : St Objects X) (k : result X -> Call A).
#[global] Arguments Return {A}.
#[global] Arguments Clock {A}.
#[global] Arguments Tables {A X}.
#[global] Arguments Blob {A X}.

(** [if err != nil { return ..., err }] *)
Fixpoint Call_then {A B} (f : A -> Call B) (c : Call A) : Call B :=
  match c with
  | Return (Ok a) => f a
  | Return (Err e) => Return (Err e)
  | Clock k => Clock (fun t => Call_then f (k t))
  | Tables m k => Tables m (fun r => Call_then f (k r))
  | Blob m k => Blob m (fun r => Call_then f (k r))
  end.
#[global] Instance Call_bind : MBind Call := fun A B f c => Call_then f c.
#[global] Instance Call_ret : MRet Call := fun A a => Return (Ok a).

Definition now_UTC : Call Time := Clock (fun t => Return (Ok t)).
Definition tables {X} (m : FileM X) : Call X := Tables (fun _ => m) Return.
Definition tables_at {X} (m : Time -> FileM X) : Call X := Tables m Return.
Definition blob {X} (m : St Objects X) : Call X := Blob m Return.
Definition refuse (b : bool) (e : error) : Call unit := Return (fail_if b e).
(** The answer of an operation of the object store, an error included. *)
Definition try_blob {X} (m : St Objects X) : Call (result X) := Blob m (fun r => Return (Ok r)).
End calls.

(** ** internal/application/attachment_service.go *)

Section service.
Context `{UUIDSource} `{UuidLibrary} `{MimeLibrary} `{BlobStore}.

Definition attachmentUploadLifetime : Z := 30 * 60 * 1000000.

Record AttachmentUpload := mkAttachmentUpload { up_Session : AttachmentUploadSession; up_Instruction : UploadInstruction }.

Definition upload_session (sessionID taskID uploaderID : UUID) (filename mediaType : string) (size : Z) (now : Time)
    : AttachmentUploadSession :=
  mkAttachmentUploadSession sessionID taskID uploaderID blob_Provider (objectKey taskID sessionID) filename mediaType size
    (now + attachmentUploadLifetime) 0.

Definition StartUpload (taskID uploaderID : UUID) (filename mediaType : string) (size : Z) : Call AttachmentUpload :=
  let mediaType := NormalizeAttachmentMediaType filename mediaType in
  Return (ValidateAttachmentMetadata filename mediaType size) ≫= fun _ =>
  now ← now_UTC;
  sessionID ← tables (in_world uuid_New);
  created ← tables_at (CreateUploadSession (upload_session sessionID taskID uploaderID filename mediaType size now));
  instruction ← blob (st_lift (blob_CreateUpload (us_ObjectKey created) mediaType size (now + attachmentUploadLifetime)));
  mret (mkAttachmentUpload created instruction).

Definition UploadLocal (session : AttachmentUploadSession) (uploaderID : UUID) (body : string) (contentLength : Z) : Call unit :=
  refuse (us_UploaderID session != uploaderID) ErrForbidden ≫= fun _ =>
  refuse ((blob_Provider != AttachmentProviderLocal) || (us_Provider session != AttachmentProviderLocal)) ErrConflict ≫= fun _ =>
  now ← now_UTC;
  refuse (us_ExpiresAt session <? now) ErrConflict ≫= fun _ =>
  refuse (contentLength != us_ExpectedSize session) ErrInvalidInput ≫= fun _ =>
  blob (blob_Put (us_ObjectKey session) body contentLength (us_MediaType session)).

(** [io.ReadFull] of at most 512 bytes *)
Definition content_header (body : string) : list Ascii.ascii := take 512 (String.list_ascii_of_string body).

(** The media type of an object whose content says that it is a page or an image. *)
Definition inspected_media_type (session : AttachmentUploadSession) (info : ObjectInfo) (header : list Ascii.ascii) : string :=
  let detected := NormalizeAttachmentMediaType (us_Filename session) (DetectContentType (String.string_of_list_ascii header)) in
  if (detected == "text/html") || HasPrefix detected "image/" then detected else oi_MediaType info.

Definition CompleteUpload (sessionID uploaderID : UUID) (expectedTaskVersion : Z) (actor : OperationActor)
    : Call AttachmentCompletion :=
  session ← tables (GetUploadSession sessionID);
  refuse (us_UploaderID session != uploaderID) ErrForbidden ≫= fun _ =>
  info ← blob (blob_Stat (us_ObjectKey session));
  '(body, _) ← blob (blob_Open (us_ObjectKey session));
  let header := content_header body in
  match ValidateAttachmentContentSignature (GoStrings.trim header) with
  | Err e => _ ← try_blob (blob_Delete (us_ObjectKey session)); Return (Err e)
  | Ok _ => tables_at (CompleteUploadSession sessionID uploaderID (oi_Size info) (inspected_media_type session info header)
              expectedTaskVersion actor)
  end.

Definition AttachmentService_Open (attachment : TaskAttachment) : Call string :=
  '(body, info) ← blob (blob_Open (ta_ObjectKey attachment));
  refuse ((0 <=? oi_Size info) && (oi_Size info != ta_SizeBytes attachment)) ErrOther ≫= fun _ =>
  mret body.

(** ** internal/api/v1/server.go: the content of an upload and of an attachment of a Task *)

Definition serve_upload (taskID sessionID uploaderID : UUID) (body : string) (contentLength : Z) : Call unit :=
  session ← tables (GetUploadSession sessionID);
  refuse (us_TaskID session != taskID) ErrNotFound ≫= fun _ =>
  refuse (contentLength <? 0) ErrInvalidInput ≫= fun _ =>
  UploadLocal session uploaderID body contentLength.
Definition serve_content (taskID attachmentID : UUID) : Call string :=
  attachment ← tables (Attachments_Get taskID attachmentID);
  AttachmentService_Open attachment.

(** ** internal/application/attachment_cleanup.go *)

(** [err.Error()] *)
Context (error_text : error -> string).

Definition wrong_provider (provider : AttachmentProvider) : string :=
  "configured provider " +:+ blob_Provider +:+ " cannot clean historical " +:+ provider +:+ " object".
Definition clean_object (attachment : TaskAttachment) : Call unit :=
  if ta_Provider attachment != blob_Provider then
    tables (MarkCleanupFailed (ta_ID attachment) (wrong_provider (ta_Provider attachment)))
  else
    deleted ← try_blob (blob_Delete (ta_ObjectKey attachment));
    match deleted with
    | Err e => tables (MarkCleanupFailed (ta_ID attachment) (error_text e))
    | Ok _ => tables_at (MarkCleaned (ta_ID attachment))
    end.
Fixpoint clean_objects (attachments : list TaskAttachment) : Call unit :=
  match attachments with
  | [] => mret tt
  | attachment :: rest => clean_object attachment ≫= fun _ => clean_objects rest
  end.
(** A failure is logged. *)
Fixpoint drop_uploads (sessions : list AttachmentUploadSession) : Call unit :=
  match sessions with
  | [] => mret tt
  | session :: rest =>
      (if us_Provider session != blob_Provider then mret tt
       else _ ← try_blob (blob_Delete (us_ObjectKey session)); mret tt) ≫= fun _ => drop_uploads rest
  end.

Definition RunOnce (locked lockedSessions : gset UUID) : Call unit :=
  attachments ← tables_at (ClaimCleanupBatch 50 locked);
  clean_objects attachments ≫= fun _ =>
  expired ← tables_at (ClaimExpiredUploadSessions 50 lockedSessions);
  drop_uploads expired.
End service.

(** ** A call that nobody disturbs *)

Section run.
Context `{BlobStore}.

Fixpoint run_call {A} (now : Time) (c : Call A) (w : FileWorld) (o : Objects) : result A * FileWorld * Objects :=
  match c with
  | Return r => (r, w, o)
  | Clock k => run_call now (k now) w o
  | Tables m k => let '(r, w') := m now w in run_call now (k r) w' o
  | Blob m k => let '(r, o') := m o in run_call now (k r) w o'
  end.
End run.
