(* ===== verification/AttachmentTables.v ===== *)
(** * The tables of attachments

    What the tables of attachments and upload sessions satisfy, how their rows may change while a call is
    under way, and that every method of the store keeps to it. *)

From stdpp Require Import base tactics strings gmap list numbers sorting.
From S2P Require Import Prelude Actors Database Tx State ThreadStore Http Attachment BlobStore AttachmentStore.

(** ** Counting rows *)

Section counting.
Context {V : Type} (f : V -> bool).
Implicit Types m : gmap UUID V.

Lemma filter_length_perm l l' : Permutation l l' -> length (List.filter f l) = length (List.filter f l').
Proof. induction 1; cbn; repeat case_match; cbn; congruence. Qed.
Lemma select_insert_new m k v : m !! k = None ->
  length (select f (<[k := v]> m)) = ((if f v then 1 else 0) + length (select f m))%nat.
Proof.
  intros Hk. unfold select, rows. rewrite (filter_length_perm _ _ (Permutation_map snd (map_to_list_insert m k v Hk))). cbn.
  by destruct (f v).
Qed.
Lemma select_update_le m k v v' : m !! k = Some v -> (f v' = true -> f v = true) ->
  (length (select f (<[k := v']> m)) <= length (select f m))%nat.
Proof.
  intros Hk Hf. rewrite <- (insert_delete_id m k v Hk) at 2. rewrite <- (insert_delete_eq m).
  rewrite !select_insert_new by apply lookup_delete_eq. destruct (f v'); [|destruct (f v); lia]. by rewrite Hf.
Qed.
End counting.

(** ** The tables *)

Section sound.
Context `{UuidLibrary}.

(** The file of an upload session, as the attachment that came of it has it. *)
Record same_file (s : AttachmentUploadSession) (a : TaskAttachment) : Prop := {
  sf_key : ta_ObjectKey a = us_ObjectKey s;
  sf_task : ta_TaskID a = us_TaskID s;
  sf_uploader : ta_UploaderID a = us_UploaderID s;
  sf_size : ta_SizeBytes a = us_ExpectedSize s;
  sf_name : ta_Filename a = us_Filename s;
  sf_provider : ta_Provider a = us_Provider s;
}.

Record file_sound (w : FileWorld) : Prop := {
  fs_session_id i r : fw_sessions w !! i = Some r -> us_ID (ur_session r) = i;
  fs_object_key i r : fw_sessions w !! i = Some r -> us_ObjectKey (ur_session r) = objectKey (us_TaskID (ur_session r)) i;
  fs_status i r : fw_sessions w !! i = Some r ->
    (ur_attachment_id r <> None -> ur_status r = UploadCompleted) /\ (ur_status r = UploadPending -> ur_completed_at r = None);
  fs_attachment_id i a : fw_attachments w !! i = Some a -> ta_ID (ar_attachment a) = i;
  fs_source i a : fw_attachments w !! i = Some a ->
    exists j r, fw_sessions w !! j = Some r /\ ur_attachment_id r = Some i /\ same_file (ur_session r) (ar_attachment a);
  fs_size i a : fw_attachments w !! i = Some a -> 0 < ta_SizeBytes (ar_attachment a) <= MaxAttachmentBytes;
  fs_bound t : active_count w t <= MaxActiveTaskAttachments;
}.

Definition deleted (a : TaskAttachment) : Prop := present (ta_DeletedAt a) = true.

(** How rows may change: a session keeps its file and its end, an attachment its file and its deletion. *)
Record evolves (w w' : FileWorld) : Prop := {
  ev_sessions i r : fw_sessions w !! i = Some r -> exists r', fw_sessions w' !! i = Some r' /\ ur_session r' = ur_session r /\
    (ur_status r <> UploadPending -> r' = r);
  ev_attachments i a : fw_attachments w !! i = Some a -> exists a', fw_attachments w' !! i = Some a' /\
    ta_ObjectKey (ar_attachment a') = ta_ObjectKey (ar_attachment a) /\ ta_TaskID (ar_attachment a') = ta_TaskID (ar_attachment a) /\
    ta_SizeBytes (ar_attachment a') = ta_SizeBytes (ar_attachment a) /\
    (deleted (ar_attachment a) -> deleted (ar_attachment a'));
}.
#[global] Instance evolves_preorder : PreOrder evolves.
Proof.
  split.
  - intros w. split; eauto 10.
  - intros w1 w2 w3 [S1 A1] [S2 A2]. split.
    + intros i r Hr. destruct (S1 _ _ Hr) as (r2 & H2 & E2 & N2). destruct (S2 _ _ H2) as (r3 & H3 & E3 & N3).
      exists r3. split; [done|]. split; [congruence|]. intros Hn. rewrite <- (N2 Hn). apply N3. by rewrite (N2 Hn).
    + intros i a Ha. destruct (A1 _ _ Ha) as (a2 & H2 & E1 & E2 & E3 & E4). destruct (A2 _ _ H2) as (a3 & H3 & F1 & F2 & F3 & F4).
      exists a3. split_and!; try congruence. auto.
Qed.

Definition stable (w w' : FileWorld) : Prop := evolves w w' /\ (file_sound w -> file_sound w').
#[global] Instance stable_preorder : PreOrder stable.
Proof.
  split; [intros w; split; [reflexivity|done]|]. intros w1 w2 w3 [E1 S1] [E2 S2]. split; [by etrans|auto].
Qed.

(** Objects that nobody needs: of a deleted attachment or of an expired upload. *)
Definition removable (w : FileWorld) (k : string) : Prop :=
  (exists i a, fw_attachments w !! i = Some a /\ ta_ObjectKey (ar_attachment a) = k /\ deleted (ar_attachment a)) \/
  (exists i r, fw_sessions w !! i = Some r /\ us_ObjectKey (ur_session r) = k /\ ur_status r = UploadExpired).
(** Objects that a reader of a Task may ask for. *)
Definition live (w : FileWorld) (k : string) : Prop :=
  exists i a, fw_attachments w !! i = Some a /\ ta_ObjectKey (ar_attachment a) = k /\ ~ deleted (ar_attachment a).

Lemma removable_stable w w' k : evolves w w' -> removable w k -> removable w' k.
Proof.
  intros He [(i & a & Ha & Hk & Hd)|(i & r & Hr & Hk & Hx)].
  - left. destruct (ev_attachments _ _ He _ _ Ha) as (a' & Ha' & E & _ & _ & Hd'). exists i, a'. split_and!; [done|congruence|auto].
  - right. destruct (ev_sessions _ _ He _ _ Hr) as (r' & Hr' & E & Hn). exists i, r'.
    rewrite (Hn ltac:(rewrite Hx; done)) in *. done.
Qed.

(** A key belongs to one session, and to one attachment at most. *)
Lemma key_session w i r j r' : file_sound w -> fw_sessions w !! i = Some r -> fw_sessions w !! j = Some r' ->
  us_ObjectKey (ur_session r) = us_ObjectKey (ur_session r') -> i = j.
Proof.
  intros Hs Hi Hj E. rewrite (fs_object_key _ Hs _ _ Hi), (fs_object_key _ Hs _ _ Hj) in E. by apply objectKey_inj in E as [_ ?].
Qed.
Lemma key_attachment w i a j a' : file_sound w -> fw_attachments w !! i = Some a -> fw_attachments w !! j = Some a' ->
  ta_ObjectKey (ar_attachment a) = ta_ObjectKey (ar_attachment a') -> i = j.
Proof.
  intros Hs Hi Hj E. destruct (fs_source _ Hs _ _ Hi) as (x & r & Hx & Ex & [Kx _ _ _ _ _]).
  destruct (fs_source _ Hs _ _ Hj) as (y & q & Hy & Ey & [Ky _ _ _ _ _]).
  assert (x = y) as -> by (eapply key_session; [done..|congruence]). simplify_eq. congruence.
Qed.
Lemma removable_not_live w k : file_sound w -> removable w k -> ~ live w k.
Proof.
  intros Hs Hr (i & a & Ha & Hk & Hn). destruct Hr as [(j & a' & Ha' & Hk' & Hd)|(j & r & Hr & Hk' & Hx)].
  - assert (i = j) as -> by (eapply key_attachment; [done..|congruence]). assert (a' = a) as -> by congruence. exact (Hn Hd).
  - destruct (fs_source _ Hs _ _ Ha) as (x & q & Hq & Eq & [Kq _ _ _ _ _]).
    assert (x = j) as -> by (eapply key_session; [done..|congruence]). assert (q = r) as -> by congruence.
    destruct (fs_status _ Hs _ _ Hr) as [Hc _]. rewrite Hc in Hx by (rewrite Eq; done). done.
Qed.
Lemma session_is_key w i r : file_sound w -> fw_sessions w !! i = Some r -> is_key (us_ObjectKey (ur_session r)).
Proof. intros Hs Hr. rewrite (fs_object_key _ Hs _ _ Hr). by eexists _, _. Qed.
Lemma attachment_is_key w i a : file_sound w -> fw_attachments w !! i = Some a -> is_key (ta_ObjectKey (ar_attachment a)).
Proof.
  intros Hs Ha. destruct (fs_source _ Hs _ _ Ha) as (x & r & Hx & _ & [-> _ _ _ _ _]). by eapply session_is_key.
Qed.

(** ** Changes of the tables *)

(** The other tables do not matter. *)
Lemma stable_same w w1 w2 : stable w w1 -> fw_sessions w2 = fw_sessions w1 -> fw_attachments w2 = fw_attachments w1 -> stable w w2.
Proof.
  destruct w1 as [x1 s1 a1], w2 as [x2 s2 a2]. cbn. intros [[E1 E2] Hs] -> ->. split; [by split|].
  intros Hw. destruct (Hs Hw). by split.
Qed.
Lemma stable_world w x : stable w (set_fw_world x w).
Proof. by apply (stable_same w w). Qed.

(** A row of an attachment that keeps its file, and its deletion. *)
Record row_kept (r r' : AttachmentRow) : Prop := {
  rk_id : ta_ID (ar_attachment r') = ta_ID (ar_attachment r);
  rk_file s : same_file s (ar_attachment r) -> same_file s (ar_attachment r');
  rk_key : ta_ObjectKey (ar_attachment r') = ta_ObjectKey (ar_attachment r);
  rk_task : ta_TaskID (ar_attachment r') = ta_TaskID (ar_attachment r);
  rk_size : ta_SizeBytes (ar_attachment r') = ta_SizeBytes (ar_attachment r);
  rk_deleted : deleted (ar_attachment r) -> deleted (ar_attachment r');
}.
Lemma row_kept_same r r' : ar_attachment r' = ar_attachment r -> row_kept r r'.
Proof. intros E. split; rewrite E; auto. Qed.
Lemma row_kept_deleted r now : row_kept r (with_attachment r (soft_deleted (ar_attachment r) now)).
Proof. split; try done. intros s []. by split. Qed.

Lemma stable_row w r r' : fw_attachments w !! ta_ID (ar_attachment r) = Some r -> row_kept r r' -> stable w (put_attachment r' w).
Proof.
  intros Hr Hk. split.
  - split; cbn; [eauto|]. intros i a Ha. rewrite (rk_id _ _ Hk). destruct (decide (i = ta_ID (ar_attachment r))) as [->|Hne].
    + exists r'. rewrite lookup_insert_eq. assert (a = r) as -> by congruence. destruct Hk. split_and!; auto.
    + exists a. rewrite lookup_insert_ne by done. auto 10.
  - intros [S1 S2 S3 S4 S5 S6 S7]. split; cbn; rewrite ?(rk_id _ _ Hk); try done.
    + intros i a [[<- <-]|[_ Ha]]%lookup_insert_Some; [apply Hk|eauto].
    + intros i a [[<- <-]|[_ Ha]]%lookup_insert_Some; [|eauto]. destruct (S5 _ _ Hr) as (j & q & Hq & Eq & Hf).
      exists j, q. split_and!; try done. by apply (rk_file _ _ Hk).
    + intros i a [[<- <-]|[_ Ha]]%lookup_insert_Some; [|eauto]. rewrite (rk_size _ _ Hk). eauto.
    + intros t. etrans; [|apply (S7 t)]. apply Nat2Z.inj_le. unfold active_attachments. cbn.
      apply (select_update_le _ _ _ r); [by rewrite (rk_id _ _ Hk)|]. rewrite (rk_task _ _ Hk). rewrite !andb_true_iff, !negb_true_iff.
      intros [Ht Hd]. split; [done|]. destruct (present (ta_DeletedAt (ar_attachment r))) eqn:E; [|done].
      by rewrite (rk_deleted _ _ Hk E) in Hd.
Qed.

Lemma stable_new_session w s : fw_sessions w !! us_ID s = None -> us_ObjectKey s = objectKey (us_TaskID s) (us_ID s) ->
  stable w (put_session (mkSessionRow s UploadPending None None) w).
Proof.
  intros Hn Hk. split.
  - split; cbn; [|eauto 10]. intros i r Hr. exists r. rewrite lookup_insert_ne; [done|congruence].
  - intros [S1 S2 S3 S4 S5 S6 S7]. split; cbn; try done.
    + intros i r [[<- <-]|[_ Hr]]%lookup_insert_Some; eauto.
    + intros i r [[<- <-]|[_ Hr]]%lookup_insert_Some; eauto.
    + intros i r [[<- <-]|[_ Hr]]%lookup_insert_Some; [done|eauto].
    + intros i a Ha. destruct (S5 _ _ Ha) as (j & q & Hq & Eq & Hf). exists j, q. rewrite lookup_insert_ne; [done|congruence].
Qed.

(** The end of a pending session: it expires. *)
Lemma stable_expired w i r : fw_sessions w !! i = Some r -> us_ID (ur_session r) = i -> ur_status r = UploadPending ->
  stable w (put_session (session_expired r) w).
Proof.
  intros Hr Hi Hp. split.
  - split; cbn; [|eauto 10]. intros j q Hq. rewrite Hi. destruct (decide (j = i)) as [->|Hne].
    + exists (session_expired r). rewrite lookup_insert_eq. assert (q = r) as -> by congruence. split_and!; try done.
    + exists q. by rewrite lookup_insert_ne.
  - intros [S1 S2 S3 S4 S5 S6 S7]. assert (ur_attachment_id r = None) as Hn.
    { destruct (S3 _ _ Hr) as [Hc _]. destruct (ur_attachment_id r); [|done]. rewrite Hc in Hp; done. }
    split; cbn; rewrite ?Hi; try done.
    + intros j q [[<- <-]|[_ Hq]]%lookup_insert_Some; eauto.
    + intros j q [[<- <-]|[_ Hq]]%lookup_insert_Some; eauto. cbn. eauto.
    + intros j q [[<- <-]|[_ Hq]]%lookup_insert_Some; [|eauto]. cbn. by rewrite Hn.
    + intros j a Ha. destruct (S5 _ _ Ha) as (x & q & Hq & Eq & Hf). exists x, q. rewrite lookup_insert_ne; [done|].
      intros <-. congruence.
Qed.

(** The end of a pending session: its attachment is stored, while there is room. *)
Lemma stable_completed w i r a now : fw_sessions w !! i = Some r -> us_ID (ur_session r) = i -> ur_status r = UploadPending ->
  fw_attachments w !! ta_ID a = None -> same_file (ur_session r) a -> 0 < ta_SizeBytes a <= MaxAttachmentBytes ->
  active_count w (ta_TaskID a) < MaxActiveTaskAttachments ->
  stable w (put_session (session_completed (ur_session r) (ta_ID a) now) (put_attachment (mkAttachmentRow a None None None) w)).
Proof.
  intros Hr Hi Hp Hn Hf Hz Hb. split.
  - split; cbn.
    + intros j q Hq. rewrite Hi. destruct (decide (j = i)) as [->|Hne].
      * eexists. rewrite lookup_insert_eq. assert (q = r) as -> by congruence. split_and!; try done.
      * exists q. by rewrite lookup_insert_ne.
    + intros j x Hx. exists x. rewrite lookup_insert_ne by congruence. auto 10.
  - intros [S1 S2 S3 S4 S5 S6 S7]. split; cbn; rewrite ?Hi.
    + intros j q [[<- <-]|[_ Hq]]%lookup_insert_Some; eauto.
    + intros j q [[<- <-]|[_ Hq]]%lookup_insert_Some; eauto. cbn. eauto.
    + intros j q [[<- <-]|[_ Hq]]%lookup_insert_Some; [|eauto]. done.
    + intros j x [[<- <-]|[_ Hx]]%lookup_insert_Some; [done|eauto].
    + intros j x [[<- <-]|[_ Hx]]%lookup_insert_Some.
      * exists i. eexists. rewrite lookup_insert_eq. done.
      * destruct (S5 _ _ Hx) as (y & q & Hq & Eq & Hff). exists y, q. rewrite lookup_insert_ne; [done|]. intros <-.
        destruct (S3 _ _ Hr) as [Hc _]. assert (q = r) as -> by congruence. rewrite Hc in Hp; [done|congruence].
    + intros j x [[<- <-]|[_ Hx]]%lookup_insert_Some; [done|eauto].
    + intros t. unfold active_count, active_attachments. cbn. rewrite select_insert_new by done. cbn.
      specialize (S7 t). unfold active_count in *. case_bool_decide as Ht; cbn.
      * subst t. unfold active_attachments in Hb. destruct (present (ta_DeletedAt a)); cbn; lia.
      * unfold active_attachments in S7. lia.
Qed.
End sound.

(** ** The methods of the store *)

Section methods.
Context `{UuidLibrary} `{UUIDSource} `{MimeLibrary}.

(** A method keeps to the rules whether it succeeds or fails. *)
Definition stays {A} (m : FileM A) : Prop := forall w, file_sound w -> stable w (m w).2.

Lemma stays_keeps {A} (m : FileM A) : keeps m -> stays m.
Proof. intros Hm w _. rewrite Hm. reflexivity. Qed.
Lemma stays_bind {A B} (m : FileM A) (f : A -> FileM B) : stays m -> (forall a, stays (f a)) -> stays (m ≫= f).
Proof.
  intros Hm Hf w Hs. unfold mbind, St_bind. specialize (Hm w Hs). destruct (m w) as [[a|e] w1]; cbn in *; [|done].
  etrans; [exact Hm|]. apply Hf. by apply Hm.
Qed.
Lemma stays_world {A} (m : M A) : stays (in_world m).
Proof. intros w _. unfold in_world. destruct (m (fw_world w)) as [r x]. apply stable_world. Qed.
Lemma stays_tx {A} (m : FileM A) : (forall w, file_sound w -> wp m w (fun _ w' => stable w w')) -> stays (file_tx m).
Proof.
  intros Hm w Hs. specialize (Hm w Hs). unfold file_tx. destruct (m w) as [[a|e] w'] eqn:E; [exact (Hm _ _ E)|apply stable_world].
Qed.

Lemma stays_pure {A B} (a : A) (f : A -> FileM B) : stays (f a) -> stays (mret a ≫= f).
Proof. intros Hf. exact Hf. Qed.

Lemma wp_in_world {A} (m : M A) w (Q : A -> FileWorld -> Prop) : (forall a x, Q a (set_fw_world x w)) -> wp (in_world m) w Q.
Proof. intros HQ a w' E. unfold in_world in E. destruct (m (fw_world w)) as [r x]. injection E as -> <-. apply HQ. Qed.

Lemma pending_session_Some i w s : pending_session i w = Some s ->
  exists r, fw_sessions w !! i = Some r /\ ur_session r = s /\ ur_status r = UploadPending.
Proof.
  unfold pending_session. destruct (fw_sessions w !! i) as [r|] eqn:E; cbn; [|done]. case_bool_decide; [|done]. intros [= <-]. eauto.
Qed.

(** ** Upload sessions *)

Lemma stays_create session now : us_ID session <> uuid_Nil -> us_ObjectKey session = objectKey (us_TaskID session) (us_ID session) ->
  stays (CreateUploadSession session now).
Proof.
  intros Hi Hk. unfold CreateUploadSession. rewrite bool_decide_eq_false_2 by done.
  apply stays_bind; [by apply stays_keeps|intros _]. apply stays_pure, stays_bind; [by apply stays_keeps|intros _].
  apply stays_bind; [by apply stays_keeps|intros _]. apply stays_tx. intros w Hs. unfold insert_session. wp_steps.
  apply stable_new_session; [|done]. cbn in *. by apply present_false.
Qed.
Lemma stays_get i : stays (GetUploadSession i).
Proof. apply stays_keeps. unfold GetUploadSession. auto with keeps. Qed.

(** ** Completion *)

Lemma sound_pending w i s : file_sound w -> pending_session i w = Some s ->
  fw_sessions w !! i = Some (mkSessionRow s UploadPending None None) /\ us_ID s = i.
Proof.
  intros Hs (r & Hr & <- & Hp)%pending_session_Some. destruct (fs_status _ Hs _ _ Hr) as [Ha Hc]. split; [|by eapply fs_session_id].
  rewrite Hr. destruct r as [s st [a|] c]; cbn in *; subst; [by specialize (Ha ltac:(done))|]. by rewrite Hc.
Qed.

(** What a completion leaves: the attachment of the file of the session, which has ended. *)
Definition completed_file (s : AttachmentUploadSession) (now : Time) (a : TaskAttachment) (w w' : FileWorld) : Prop :=
  same_file s a /\ present (ta_DeletedAt a) = false /\ fw_attachments w !! ta_ID a = None /\
  fw_attachments w' = <[ta_ID a := mkAttachmentRow a None None None]> (fw_attachments w) /\
  fw_sessions w' = <[us_ID s := session_completed s (ta_ID a) now]> (fw_sessions w).

Lemma wp_bump_task i now w (Q : Z -> FileWorld -> Prop) : (forall v x, Q v (set_fw_world x w)) -> wp (bump_task i now) w Q.
Proof. intros HQ. unfold bump_task. wp_steps. apply HQ. Qed.
Lemma wp_complete_session s size media version actor now w :
  wp (complete_session s size media version actor now) w (fun c w' => completed_file s now (cp_Attachment c) w w' /\
    0 < ta_SizeBytes (cp_Attachment c) <= MaxAttachmentBytes /\ active_count w (us_TaskID s) < MaxActiveTaskAttachments).
Proof.
  unfold complete_session. do 14 wp_step. match goal with x : unit |- _ => destruct x end.
  apply wp_bind, wp_in_world. intros i x. unfold insert_attachment. wp_steps. apply wp_bump_task. intros v y.
  apply wp_bind, wp_in_world. intros [] z. wp_steps. go_bool. unfold completed_file. cbn in *.
  match goal with Hv : ValidateAttachmentMetadata _ _ _ = _ |- _ => apply valid_metadata_size in Hv end.
  split_and!; try done; try lia. by apply present_false.
Qed.
Lemma completed_stable s now a w w' i : fw_sessions w !! i = Some (mkSessionRow s UploadPending None None) -> us_ID s = i ->
  completed_file s now a w w' -> 0 < ta_SizeBytes a <= MaxAttachmentBytes -> active_count w (us_TaskID s) < MaxActiveTaskAttachments ->
  stable w w'.
Proof.
  intros Hr Hi (Hf & _ & Hn & Ea & Es) Hz Hb. rewrite <- (sf_task _ _ Hf) in Hb.
  eapply (stable_same _ _ w'); [exact (stable_completed w i _ a now Hr Hi eq_refl Hn Hf Hz Hb)|..]; [by rewrite Es|by rewrite Ea].
Qed.
Lemma stays_complete i u size media version actor now : stays (CompleteUploadSession i u size media version actor now).
Proof.
  unfold CompleteUploadSession. apply stays_bind; [by apply stays_keeps|intros _]. apply stays_bind; [by apply stays_keeps|intros _].
  apply stays_bind; [|intros ?; by apply stays_keeps]. apply stays_tx. intros w Hs. do 6 wp_step.
  match goal with Hp : pending_session i w = Some _ |- _ => apply (sound_pending _ _ _ Hs) in Hp as [Hr Hi] end. wp_step; wp_steps.
  - by eapply (stable_expired _ _ _ Hr).
  - eapply wp_mono; [apply wp_complete_session|]. intros c w' (Hc & Hz & Hb). wp_steps. by eapply completed_stable.
Qed.

(** ** Reads and deletion *)

Lemma attachment_of_Some t i w r : attachment_of t i w = Some r -> fw_attachments w !! i = Some r /\ ta_TaskID (ar_attachment r) = t.
Proof. unfold attachment_of. destruct (fw_attachments w !! i); cbn; [|done]. case_bool_decide; [|done]. by intros [= ->]. Qed.
Lemma stays_soft_delete t i version now : stays (SoftDelete t i version now).
Proof.
  intros w Hs. unfold SoftDelete, mbind, St_bind. cbn. destruct (attachment_of t i w) as [r|] eqn:E; [|reflexivity].
  apply attachment_of_Some in E as [Hr _]. case_match; [|reflexivity]. unfold st_fail, st_lift, fail_if. case_match; cbn; [|reflexivity].
  apply (stable_row _ r); [by rewrite (fs_attachment_id _ Hs _ _ Hr)|apply row_kept_deleted].
Qed.
Lemma stays_list t : stays (Attachments_List t).
Proof. by apply stays_keeps. Qed.
Lemma stays_read t i : stays (Attachments_Get t i).
Proof. apply stays_keeps. unfold Attachments_Get. auto with keeps. Qed.

(** ** Cleanup *)

Lemma elem_of_candidates {A} (key : A -> Z * UUID) p (m : gmap UUID A) n r :
  r ∈ take n (order_by key (select p m)) -> p r = true /\ exists i, m !! i = Some r.
Proof. intros Hr%(subseteq_take n). rewrite order_by_perm in Hr. by apply elem_of_select. Qed.

Definition claim_rows (now : Time) (rows : list AttachmentRow) (w : FileWorld) : FileWorld :=
  foldr (fun r w => put_attachment (cleanup_claimed now r) w) w rows.
(** Only the marks of the cleanup change. *)
Lemma claim_rows_same now rows w i r :
  (forall r, r ∈ rows -> exists r0, fw_attachments w !! ta_ID (ar_attachment r) = Some r0 /\ ar_attachment r0 = ar_attachment r) ->
  fw_attachments w !! i = Some r ->
  exists r', fw_attachments (claim_rows now rows w) !! i = Some r' /\ ar_attachment r' = ar_attachment r.
Proof.
  intros Hrows Hi. induction rows as [|q rows IH]; cbn; [eauto|]. destruct (decide (ta_ID (ar_attachment q) = i)) as [<-|Hne].
  - rewrite lookup_insert_eq. destruct (Hrows q) as (r0 & Hr0 & E0); [set_solver|]. eexists. split; [done|]. cbn. congruence.
  - rewrite lookup_insert_ne by done. apply IH. set_solver.
Qed.
Lemma stable_claimed now rows w :
  (forall r, r ∈ rows -> exists r0, fw_attachments w !! ta_ID (ar_attachment r) = Some r0 /\ ar_attachment r0 = ar_attachment r) ->
  stable w (claim_rows now rows w).
Proof.
  induction rows as [|q rows IH]; intros Hrows; [reflexivity|]. cbn. etrans; [apply IH; set_solver|].
  destruct (Hrows q) as (r0 & Hr0 & E0); [set_solver|].
  destruct (claim_rows_same now rows w _ _ ltac:(set_solver) Hr0) as (r1 & Hr1 & E1).
  apply (stable_row _ r1); [|apply row_kept_same; cbn; congruence]. by rewrite E1, E0.
Qed.
Lemma candidate_rows limit now locked w r : file_sound w -> r ∈ cleanup_candidates limit now locked w ->
  due_cleanup now locked r = true /\ fw_attachments w !! ta_ID (ar_attachment r) = Some r.
Proof. intros Hs [Hd (i & Hi)]%elem_of_candidates. split; [done|]. by rewrite (fs_attachment_id _ Hs _ _ Hi). Qed.
Lemma stays_claim limit locked now : stays (ClaimCleanupBatch limit locked now).
Proof. intros w Hs. apply (stable_claimed now). intros r [_ Hr]%candidate_rows; eauto. Qed.
(** Everything that a worker claims has been deleted. *)
Lemma claimed_removable limit locked now w a : file_sound w -> a ∈ ar_attachment <$> cleanup_candidates limit now locked w ->
  removable w (ta_ObjectKey a).
Proof.
  intros Hs (r & -> & [Hd Hr]%candidate_rows)%list_elem_of_fmap; [|done]. left. eexists _, r. split_and!; [done..|].
  unfold due_cleanup in Hd. unfold deleted. by destruct (present (ta_DeletedAt (ar_attachment r))).
Qed.

Lemma stays_mark i f : (forall r, ar_attachment (f r) = ar_attachment r) ->
  stays (st_mod (fun w => match fw_attachments w !! i with Some r => put_attachment (f r) w | None => w end)).
Proof.
  intros Hf w Hs. cbn. destruct (fw_attachments w !! i) as [r|] eqn:Hr; [|reflexivity].
  apply (stable_row _ r); [by rewrite (fs_attachment_id _ Hs _ _ Hr)|by apply row_kept_same].
Qed.
Lemma stays_cleaned i now : stays (MarkCleaned i now).
Proof. exact (stays_mark i (fun r => mkAttachmentRow (ar_attachment r) _ None (Some now)) (fun _ => eq_refl)). Qed.
Lemma stays_cleanup_failed i message : stays (MarkCleanupFailed i message).
Proof. exact (stays_mark i (fun r => mkAttachmentRow (ar_attachment r) _ (Some _) _) (fun _ => eq_refl)). Qed.

Definition expire_rows (rows : list SessionRow) (w : FileWorld) : FileWorld :=
  foldr (fun r w => put_session (session_expired r) w) w rows.
Lemma expire_rows_lookup rows w i r :
  (forall r, r ∈ rows -> fw_sessions w !! us_ID (ur_session r) = Some r) -> fw_sessions w !! i = Some r -> us_ID (ur_session r) = i ->
  exists r', fw_sessions (expire_rows rows w) !! i = Some r' /\ (r ∈ rows -> r' = session_expired r) /\ (r' = r \/ r' = session_expired r).
Proof.
  intros Hrows Hi Hid. induction rows as [|q rows IH]; cbn; [exists r; split_and!; [done|set_solver|by left]|].
  pose proof (Hrows q ltac:(set_solver)) as Hq. destruct (decide (us_ID (ur_session q) = i)) as [<-|Hne].
  - rewrite lookup_insert_eq. assert (q = r) as -> by congruence. eauto.
  - rewrite lookup_insert_ne by done. destruct IH as (r' & Hr' & Hin & Hor); [set_solver|]. exists r'. split_and!; try done.
    intros [->|Hr]%elem_of_cons; [|auto]. congruence.
Qed.
Lemma stable_expire_rows rows w :
  (forall r, r ∈ rows -> ur_status r = UploadPending /\ fw_sessions w !! us_ID (ur_session r) = Some r) -> stable w (expire_rows rows w).
Proof.
  induction rows as [|q rows IH]; intros Hrows; [reflexivity|]. cbn. etrans; [apply IH; set_solver|].
  destruct (Hrows q) as [Hp Hq]; [set_solver|].
  destruct (expire_rows_lookup rows w _ _ ltac:(set_solver) Hq eq_refl) as (r & Hr & _ & [-> | ->]).
  - by eapply stable_expired.
  - eapply stable_same; [reflexivity| |done]. cbn. by apply insert_id.
Qed.
Lemma expired_rows limit now locked w r : file_sound w -> r ∈ expired_candidates limit now locked w ->
  expired_upload now locked r = true /\ ur_status r = UploadPending /\ fw_sessions w !! us_ID (ur_session r) = Some r.
Proof.
  intros Hs [Hd (i & Hi)]%elem_of_candidates. rewrite (fs_session_id _ Hs _ _ Hi). split_and!; [done| |done].
  unfold expired_upload in Hd. by go_bool.
Qed.
Lemma stays_expire limit locked now : stays (ClaimExpiredUploadSessions limit locked now).
Proof. intros w Hs. apply stable_expire_rows. intros r (_ & Hp & Hr)%expired_rows; eauto. Qed.
(** Everything that a worker expires can go. *)
Lemma expired_removable limit locked now w s : file_sound w -> s ∈ ur_session <$> expired_candidates limit now locked w ->
  removable (ClaimExpiredUploadSessions limit locked now w).2 (us_ObjectKey s).
Proof.
  intros Hs (r & -> & Hr)%list_elem_of_fmap. pose proof (expired_rows _ _ _ _ _ Hs Hr) as (_ & Hp & Hi). right.
  destruct (expire_rows_lookup (expired_candidates limit now locked w) w _ _
    ltac:(by intros q (_ & _ & Hq)%expired_rows) Hi eq_refl) as (r' & Hr' & E & _). rewrite (E Hr) in Hr'. by eexists _, _.
Qed.
End methods.
