(* ===== verification/AttachmentSystem.v ===== *)
(** * Attachments under concurrent calls

    Any number of calls of the attachment service at once, step by step, over one set of tables and one
    object store: every step may work, fail, or work and report a failure, and a call may stop anywhere.
    Rely-guarantee reasoning: a call relies on [later] for what happens between its steps, and guarantees
    it, and removes or replaces objects only as [harmless] says. *)

From stdpp Require Import base tactics strings gmap list numbers sorting relations.
From S2P Require Import Prelude Actors Database Tx State ThreadStore Http Attachment BlobStore AttachmentStore AttachmentTables.

(** ** The steps of one call *)

Section guarantee.
Context `{UuidLibrary} {B : BlobStore} {L : BlobLaws B is_key}.

Definition later (w w' : FileWorld) : Prop := evolves w w' /\ file_sound w'.
Lemma later_trans w w1 w2 : later w w1 -> later w1 w2 -> later w w2.
Proof. intros [E1 _] [E2 S2]. split; [by etrans|done]. Qed.
Lemma later_stable w w' : file_sound w -> stable w w' -> later w w'.
Proof. intros Hs [He Hk]. split; auto. Qed.

(** An operation that changes objects that can go, or those that the caller may change. *)
Definition harmless (may : FileWorld -> string -> Prop) {X} (m : St Objects X) (w : FileWorld) : Prop :=
  forall o r o' k, m o = (r, o') -> is_key k -> object o' k <> object o k -> removable w k \/ may w k.

(** What a call does from tables [w] on: every method of the store keeps to the rules, every operation of
    the object store is harmless, and the answer satisfies [Q]. *)
Fixpoint does (may : FileWorld -> string -> Prop) {A} (c : Call A) (w : FileWorld) (Q : result A -> FileWorld -> Prop) : Prop :=
  match c with
  | Return r => Q r w
  | Clock k => forall t, does may (k t) w Q
  | Tables m k => forall now w', later w w' ->
      let '(r, w1) := m now w' in
      stable w' w1 /\ does may (k r) w1 Q /\ forall e, does may (k (Err e)) w' Q /\ does may (k (Err e)) w1 Q
  | Blob m k => forall w', later w w' -> harmless may m w' /\ forall r, does may (k r) w' Q
  end.

Lemma does_mono may may' {A} (c : Call A) w (Q Q' : result A -> FileWorld -> Prop) : file_sound w ->
  does may c w Q -> (forall w' k, later w w' -> may w' k -> may' w' k) -> (forall r w', Q r w' -> Q' r w') -> does may' c w Q'.
Proof.
  intros Hs Hd Hm HQ. revert w Hs Hd Hm. induction c as [r|k IH|X m k IH|X m k IH]; intros w Hs Hd Hm; cbn in *; [auto..| |].
  - intros now w' Hw'. specialize (Hd now w' Hw'). destruct (m now w') as [r w1]. destruct Hd as (Hst & Hr & He).
    assert (later w w1) as Hw1 by (eapply later_trans; [exact Hw'|apply later_stable, Hst; apply Hw']).
    assert (forall v, later w v -> forall w2 k, later v w2 -> may w2 k -> may' w2 k) as Hm' by eauto using later_trans.
    pose proof (proj2 Hw1) as S1. pose proof (proj2 Hw') as S2.
    split_and!; [done|by apply IH; eauto|]. intros e. destruct (He e). split; apply IH; eauto.
  - intros w' Hw'. destruct (Hd w' Hw') as [Hh Hr]. split.
    + intros o r o' x E Hx Hne. destruct (Hh o r o' x E Hx Hne) as [?|?]; eauto.
    + intros r. apply IH; [apply Hw'|done|]. intros w2 x Hw2. apply Hm. by eapply later_trans.
Qed.
Lemma does_later may {A} (c : Call A) w w' : later w w' -> does may c w (fun _ _ => True) -> does may c w' (fun _ _ => True).
Proof.
  intros Hw. induction c as [r|k IH|X m k IH|X m k IH]; cbn; [done|auto| |].
  - intros Hd now w2 Hw2. apply Hd. by eapply later_trans.
  - intros Hd w2 Hw2. apply Hd. by eapply later_trans.
Qed.

Lemma does_then may {A A'} (f : A -> Call A') (c : Call A) w Q :
  does may c w (fun r w' => match r with Ok a => does may (f a) w' Q | Err e => Q (Err e) w' end) -> does may (c ≫= f) w Q.
Proof.
  unfold mbind, Call_bind. revert w. induction c as [r|k IH|X m k IH|X m k IH]; intros w Hd; cbn in *.
  - by destruct r.
  - auto.
  - intros now w' Hw'. specialize (Hd now w' Hw'). destruct (m now w') as [r w1]. destruct Hd as (? & ? & He).
    split_and!; [done|auto|]. intros e. destruct (He e). auto.
  - intros w' Hw'. destruct (Hd w' Hw') as [? Hr]. auto.
Qed.

(** ** Steps *)

Lemma does_tables may {X} (m : Time -> FileM X) w (Q : result X -> FileWorld -> Prop) : (forall now, stays (m now)) ->
  (forall e w', later w w' -> Q (Err e) w') ->
  (forall now w' a w1, later w w' -> later w' w1 -> m now w' = (Ok a, w1) -> Q (Ok a) w1) -> does may (tables_at m) w Q.
Proof.
  intros Hm He Ha now w' Hw'. pose proof (Hm now w' (proj2 Hw')) as Hst. destruct (m now w') as [r w1] eqn:E. cbn in Hst.
  assert (later w' w1) as Hw1 by (apply later_stable; [apply Hw'|done]). assert (later w w1) by (by eapply later_trans).
  split_and!; [done| |intros e; by split; apply He]. destruct r; cbn; eauto.
Qed.
Lemma does_method may {X} (m : Time -> FileM X) w : (forall now, stays (m now)) -> does may (tables_at m) w (fun _ _ => True).
Proof. intros Hm. by apply does_tables. Qed.
Lemma does_tables1 may {X} (m : FileM X) w : stays m -> does may (tables m) w (fun _ _ => True).
Proof. intros Hm. by apply (does_method _ (fun _ => m)). Qed.

Lemma harmless_keeps may {X} (m : St Objects X) w : keeps m -> harmless may m w.
Proof. intros Hm o r o' k E _ Hne. specialize (Hm o). rewrite E in Hm. cbn in Hm. by subst. Qed.
Lemma harmless_delete may k w : is_key k -> removable w k \/ may w k -> harmless may (blob_Delete k) w.
Proof.
  intros Hk Hm o r o' x E Hx Hne. destruct r as [[]|e]; [|apply delete_Err in E; by subst].
  destruct (delete_Ok _ _ _ Hk E) as [_ Ho]. destruct (decide (x = k)) as [->|Hxk]; [done|]. by destruct Hne; apply Ho.
Qed.
Lemma harmless_put may k body size media w : is_key k -> may w k -> harmless may (blob_Put k body size media) w.
Proof.
  intros Hk Hm o r o' x E Hx Hne. destruct r as [[]|e]; [|apply put_Err in E; by subst].
  destruct (put_Ok _ _ _ _ _ _ Hk E) as (_ & _ & Ho). destruct (decide (x = k)) as [->|Hxk]; [by right|]. by destruct Hne; apply Ho.
Qed.
Lemma does_blob may {X} (m : St Objects X) w (Q : result X -> FileWorld -> Prop) :
  (forall w', later w w' -> harmless may m w' /\ forall r, Q r w') -> does may (blob m) w Q.
Proof. intros Hm w' Hw'. by apply Hm. Qed.
Lemma does_try may {X} (m : St Objects X) w (Q : result (result X) -> FileWorld -> Prop) :
  (forall w', later w w' -> harmless may m w' /\ forall r, Q (Ok r) w') -> does may (try_blob m) w Q.
Proof. intros Hm w' Hw'. by apply Hm. Qed.
Lemma does_refuse may b e w (Q : result unit -> FileWorld -> Prop) : (b = false -> Q (Ok tt) w) -> (b = true -> Q (Err e) w) ->
  does may (refuse b e) w Q.
Proof. intros Hf Ht. unfold refuse, fail_if. cbn. destruct b; auto. Qed.
Lemma does_return may {A} (r : result A) w (Q : result A -> FileWorld -> Prop) : Q r w -> does may (Return r) w Q.
Proof. intros HQ. exact HQ. Qed.
Lemma does_now may w (Q : result Time -> FileWorld -> Prop) : (forall t, Q (Ok t) w) -> does may now_UTC w Q.
Proof. intros HQ. exact HQ. Qed.
End guarantee.

(** ** The calls of the service *)

Section calls.
Context `{UUIDSource} `{UuidLibrary} `{MimeLibrary} {B : BlobStore} {L : BlobLaws B is_key}.
Implicit Types may : FileWorld -> string -> Prop.

(** A caller who finds session [i] pending, and is its uploader, may change its object from then on. *)
Definition permitted may (i u : UUID) (w : FileWorld) : Prop := forall w1 w2 s,
  later w w1 -> later w1 w2 -> pending_session i w1 = Some s -> us_UploaderID s = u -> may w2 (us_ObjectKey s).

Lemma does_get_session may i w (Q : result AttachmentUploadSession -> FileWorld -> Prop) : (forall e w', Q (Err e) w') ->
  (forall w1 s, later w w1 -> pending_session i w1 = Some s -> Q (Ok s) w1) -> does may (tables (GetUploadSession i)) w Q.
Proof.
  intros He Ha. apply (does_tables _ (fun _ => GetUploadSession i)); [intros _; apply stays_get|auto|].
  intros now w' s w1 Hw' _ E. unfold GetUploadSession in E. st_inv. auto.
Qed.
Lemma pending_key i w s : file_sound w -> pending_session i w = Some s -> is_key (us_ObjectKey s).
Proof. intros Hs (r & Hr & <- & _)%pending_session_Some. by eapply session_is_key. Qed.

Lemma does_start may t u filename media size w : does may (StartUpload t u filename media size) w (fun _ _ => True).
Proof.
  unfold StartUpload. apply does_then, does_return. case_match; [|done]. apply does_then, does_now. intros now. apply does_then.
  apply (does_tables _ (fun _ => in_world uuid_New)); [intros _; apply stays_world|done|]. intros _ w1 id w2 _ _ E.
  assert (id <> uuid_Nil) as Hid by (injection E as <- _; apply uuid_seq_ne).
  apply does_then. apply does_tables; [intros ?; by apply stays_create|done|]. intros _ _ created w3 _ _ _.
  apply does_then, does_blob. intros w4 _. split; [by apply harmless_keeps|]. by intros [].
Qed.

Lemma does_upload may t i u body len w : permitted may i u w -> does may (serve_upload t i u body len) w (fun _ _ => True).
Proof.
  intros Hp. unfold serve_upload, UploadLocal. apply does_then, does_get_session; [done|]. intros w1 s Hw1 Hs.
  apply does_then, does_refuse; [intros _|done]. apply does_then, does_refuse; [intros _|done].
  apply does_then, does_refuse; [intros Hu|done]. apply does_then, does_refuse; [intros _|done]. apply does_then, does_now. intros now.
  apply does_then, does_refuse; [intros _|done]. apply does_then, does_refuse; [intros _|done].
  apply does_blob. intros w2 Hw2. split; [|done]. go_bool.
  apply harmless_put; [eapply pending_key; [apply Hw1|done]|by eapply Hp].
Qed.

Lemma does_complete may i u version actor w : permitted may i u w -> does may (CompleteUpload i u version actor) w (fun _ _ => True).
Proof.
  intros Hp. unfold CompleteUpload. apply does_then, does_get_session; [done|]. intros w1 s Hw1 Hs.
  apply does_then, does_refuse; [intros Hu|done]. go_bool.
  apply does_then, does_blob. intros w2 Hw2. split; [apply harmless_keeps, stat_keeps|]. intros [info|]; [|done].
  apply does_then, does_blob. intros w3 Hw3. split; [apply harmless_keeps, open_keeps|]. intros [[content x]|]; [|done].
  cbv zeta. case_match.
  - apply does_method. intros now. apply stays_complete.
  - apply does_then, does_try. intros w4 Hw4. split; [|done].
    apply harmless_delete; [eapply pending_key; [apply Hw1|done]|right]. eapply Hp; eauto using later_trans.
Qed.

Lemma does_content may t i w : does may (serve_content t i) w (fun _ _ => True).
Proof.
  unfold serve_content, AttachmentService_Open. apply does_then.
  apply (does_tables _ (fun _ => Attachments_Get t i)); [intros _; apply stays_read|done|]. intros _ w1 a w2 _ _ _.
  apply does_then, does_blob. intros w3 _. split; [apply harmless_keeps, open_keeps|]. intros [[content x]|]; [|done].
  by apply does_then, does_refuse.
Qed.

Lemma removable_key w k : file_sound w -> removable w k -> is_key k.
Proof.
  intros Hs [(i & a & Ha & <- & _)|(i & r & Hr & <- & _)]; [by eapply attachment_is_key|by eapply session_is_key].
Qed.
Lemma does_drop may k w (Q : result (result unit) -> FileWorld -> Prop) : removable w k -> (forall r w', later w w' -> Q (Ok r) w') ->
  does may (try_blob (blob_Delete k)) w Q.
Proof.
  intros Hr HQ. apply does_try. intros w' Hw'. assert (removable w' k) as Hr' by (eapply removable_stable; [apply Hw'|done]).
  split; [|auto]. apply harmless_delete; [eapply removable_key; [apply Hw'|done]|by left].
Qed.

Lemma does_clean_objects may text l w : file_sound w -> (forall a, a ∈ l -> removable w (ta_ObjectKey a)) ->
  does may (clean_objects text l) w (fun _ w' => later w w').
Proof.
  revert w. induction l as [|a l IH]; intros w Hs Hl; cbn; [split; [reflexivity|done]|].
  assert (forall (r : result unit) w', later w w' -> match r with
    | Ok _ => does may (clean_objects text l) w' (fun _ v => later w v) | Err _ => later w w' end) as Hrest.
  { intros [[]|e] w' Hw'; [|done]. eapply does_mono; [apply Hw'| |by eauto|].
    - apply IH; [apply Hw'|]. intros x Hx. eapply removable_stable; [apply Hw'|apply Hl; set_solver].
    - intros r v Hv. by eapply later_trans. }
  apply does_then. unfold clean_object. case_match.
  - apply (does_tables _ (fun _ => MarkCleanupFailed _ _)); [intros _; apply stays_cleanup_failed|auto..].
    intros. apply (Hrest (Ok tt)). by eapply later_trans.
  - apply does_then, does_drop; [apply Hl; set_solver|]. intros r w1 Hw1. destruct r as [[]|e].
    + apply does_tables; [intros ?; apply stays_cleaned|..]; intros; [apply (Hrest (Err ErrOther))|apply (Hrest (Ok tt))]; eauto using later_trans.
    + apply (does_tables _ (fun _ => MarkCleanupFailed _ _)); [intros _; apply stays_cleanup_failed|..]; intros;
        [apply (Hrest (Err ErrOther))|apply (Hrest (Ok tt))]; eauto using later_trans.
Qed.
Lemma does_drop_uploads may l w : file_sound w -> (forall s, s ∈ l -> removable w (us_ObjectKey s)) ->
  does may (drop_uploads l) w (fun _ _ => True).
Proof.
  revert w. induction l as [|s l IH]; intros w Hs Hl; [done|]. cbn [drop_uploads].
  apply does_then. case_match; [by apply IH; set_solver|].
  apply does_then, does_drop; [apply Hl; set_solver|]. intros r w1 Hw1. cbn. apply IH; [apply Hw1|].
  intros x Hx. eapply removable_stable; [apply Hw1|apply Hl; set_solver].
Qed.
Lemma does_clean may text locked lockedSessions w : does may (RunOnce text locked lockedSessions) w (fun _ _ => True).
Proof.
  unfold RunOnce. apply does_then, does_tables; [intros ?; apply stays_claim|done|]. intros now w1 l w2 Hw1 Hw2 E.
  assert (forall a, a ∈ l -> removable w2 (ta_ObjectKey a)) as Hl.
  { intros a Ha. unfold ClaimCleanupBatch in E. st_inv. eapply removable_stable; [apply Hw2|].
    eapply claimed_removable; [apply Hw1|done]. }
  apply does_then. eapply does_mono; [apply Hw2|exact (does_clean_objects may text l w2 (proj2 Hw2) Hl)|done|].
  intros [[]|e] w3 Hw3; [|done]. apply does_then, does_tables; [intros ?; apply stays_expire|done|].
  intros t w4 sessions w5 Hw4 Hw5 E'. apply does_drop_uploads; [apply Hw5|]. intros s Hs.
  assert (E5 : sessions = ur_session <$> expired_candidates 50 t lockedSessions w4) by (by unfold ClaimExpiredUploadSessions in E'; st_inv).
  subst sessions.
  pose proof (expired_removable 50 lockedSessions t w4 s (proj2 Hw4) Hs) as Hr. by rewrite E' in Hr.
Qed.
End calls.

(** ** The system *)

Section system.
Context `{UUIDSource} `{UuidLibrary} `{MimeLibrary} {B : BlobStore} {L : BlobLaws B is_key} (error_text : error -> string).

Inductive Request : Type :=
| RStart (taskID uploaderID : UUID) (filename mediaType : string) (size : Z)
| RUpload (taskID sessionID uploaderID : UUID) (body : string) (contentLength : Z)
| RComplete (sessionID uploaderID : UUID) (expectedTaskVersion : Z) (actor : OperationActor)
| RContent (taskID attachmentID : UUID)
| RDelete (taskID attachmentID : UUID) (expectedVersion : Z)
| RCleanup (locked lockedSessions : gset UUID).

Definition discard {A} (c : Call A) : Call unit := c ≫= fun _ => mret tt.
Definition request_call (q : Request) : Call unit :=
  match q with
  | RStart t u filename media size => discard (StartUpload t u filename media size)
  | RUpload t i u body len => serve_upload t i u body len
  | RComplete i u version actor => discard (CompleteUpload i u version actor)
  | RContent t i => discard (serve_content t i)
  | RDelete t i version => discard (tables_at (SoftDelete t i version))
  | RCleanup locked lockedSessions => RunOnce error_text locked lockedSessions
  end.
(** The upload session that a request is about, and who asks. *)
Definition request_session (q : Request) : option (UUID * UUID) :=
  match q with
  | RUpload _ i u _ _ | RComplete i u _ _ => Some (i, u)
  | _ => None
  end.

(** A step of a call works, fails, or works while its caller is told that it failed. *)
Inductive Outcome : Type := Works | Fails (e : error) | Breaks (e : error).
Definition outcome {X S} (how : Outcome) (m : St S X) (s : S) : result X * S :=
  match how with
  | Works => m s
  | Fails e => (Err e, s)
  | Breaks e => (Err e, (m s).2)
  end.
Definition advance (now : Time) (how : Outcome) (c : Call unit) (w : FileWorld) (o : Objects)
    : option (Call unit * FileWorld * Objects) :=
  match c with
  | Return _ => None
  | Clock k => Some (k now, w, o)
  | Tables m k => let '(r, w') := outcome how (m now) w in Some (k r, w', o)
  | Blob m k => let '(r, o') := outcome how m o in Some (k r, w, o')
  end.

Record System := mkSystem {
  sys_tables : FileWorld;
  sys_objects : Objects;
  sys_calls : list (Request * Call unit);
}.
(** A request arrives; a call takes a step; a call is over, or its process dies; another part of the
    program changes its own tables. *)
Inductive Move : Type :=
| Arrive (q : Request)
| Advance (n : nat) (now : Time) (how : Outcome)
| Stop (n : nat)
| Elsewhere (x : World).
Definition sys_move (mv : Move) (s : System) : option System :=
  match mv with
  | Arrive q => Some (mkSystem (sys_tables s) (sys_objects s) ((q, request_call q) :: sys_calls s))
  | Advance n now how =>
      '(q, c) ← sys_calls s !! n;
      '(c', w', o') ← advance now how c (sys_tables s) (sys_objects s);
      Some (mkSystem w' o' (<[n := (q, c')]> (sys_calls s)))
  | Stop n => Some (mkSystem (sys_tables s) (sys_objects s) (delete n (sys_calls s)))
  | Elsewhere x => Some (mkSystem (set_fw_world x (sys_tables s)) (sys_objects s) (sys_calls s))
  end.
Definition sys_step (s s' : System) : Prop := exists mv, sys_move mv s = Some s'.

Definition sys_initial (s : System) : Prop :=
  fw_sessions (sys_tables s) = ∅ /\ fw_attachments (sys_tables s) = ∅ /\ sys_calls s = [].
Definition sys_reachable (s : System) : Prop := exists s0, sys_initial s0 /\ rtc sys_step s0 s.

Fixpoint sys_moves (l : list Move) (s : System) : option System :=
  match l with
  | [] => Some s
  | mv :: l => s1 ← sys_move mv s; sys_moves l s1
  end.
Lemma sys_moves_steps l s s' : sys_moves l s = Some s' -> rtc sys_step s s'.
Proof.
  revert s. induction l as [|mv l IH]; intros s; cbn; [by intros [= ->]|].
  destruct (sys_move mv s) as [s1|] eqn:E; cbn; [|done]. intros Hl. eapply rtc_l; [by exists mv|auto].
Qed.

(** *** What every step keeps *)

Section kept.
Variable P : Request -> FileWorld -> string -> Prop.
Variable w0 : FileWorld.
Hypothesis Hstart : forall q w, later w0 w -> does (P q) (request_call q) w (fun _ _ => True).

Definition kept (s : System) : Prop :=
  later w0 (sys_tables s) /\ forall q c, (q, c) ∈ sys_calls s -> does (P q) c (sys_tables s) (fun _ _ => True).
(** A change of an object, and who made it. *)
Definition accounted (s s' : System) : Prop := forall k, is_key k -> object (sys_objects s') k <> object (sys_objects s) k ->
  removable (sys_tables s) k \/ exists q c, (q, c) ∈ sys_calls s /\ P q (sys_tables s) k.

Lemma outcome_object {X} how (m : St Objects X) may w o r o' k : harmless may m w -> outcome how m o = (r, o') -> is_key k ->
  object o' k <> object o k -> removable w k \/ may w k.
Proof.
  intros Hh E Hk Hne. destruct how; cbn in E; [by eapply Hh|by simplify_eq|].
  destruct (m o) as [r1 o1] eqn:Em. cbn in E. simplify_eq. by eapply Hh.
Qed.
Lemma advance_kept now how q c w o c' w' o' : file_sound w -> does (P q) c w (fun _ _ => True) ->
  advance now how c w o = Some (c', w', o') ->
  later w w' /\ does (P q) c' w' (fun _ _ => True) /\
  forall k, is_key k -> object o' k <> object o k -> removable w k \/ P q w k.
Proof.
  intros Hs Hd E. assert (later w w) as Hw by (by split). destruct c as [r|k|X m k|X m k]; cbn in E, Hd; [done| | |].
  - simplify_eq. split_and!; [done|auto|done].
  - specialize (Hd now w Hw). destruct (m now w) as [r w1] eqn:Em. destruct Hd as (Hst & Hr & He).
    assert (later w w1) as Hw1 by (by apply later_stable).
    destruct how; cbn in E; rewrite ?Em in E; cbn in E; simplify_eq; split_and!; try done; by apply He.
  - destruct (Hd w Hw) as [Hh Hr]. destruct (outcome how m o) as [r o1] eqn:Eo. simplify_eq. split_and!; [done|apply Hr|].
    intros x Hx Hne. by eapply outcome_object.
Qed.
Lemma accounted_same s s' : sys_objects s' = sys_objects s -> accounted s s'.
Proof. intros E k _ Hne. by rewrite E in Hne. Qed.
Lemma step_kept s s' : sys_step s s' -> kept s -> kept s' /\ later (sys_tables s) (sys_tables s') /\ accounted s s'.
Proof.
  intros [mv E] [Hw Hc]. assert (later (sys_tables s) (sys_tables s)) as Hrefl by (split; [reflexivity|apply Hw]).
  destruct mv as [q|n now how|n|x]; cbn in E.
  - simplify_eq. split_and!; [split; [done|]|done|by apply accounted_same]. intros q' c [[= -> ->]|Hin]%elem_of_cons; [by apply Hstart|by apply Hc].
  - destruct (sys_calls s !! n) as [[q c]|] eqn:En; cbn in E; [|done].
    destruct (advance now how c _ _) as [[[c' w'] o']|] eqn:Ea; cbn in E; [|done]. simplify_eq.
    pose proof (list_elem_of_lookup_2 _ _ _ En) as Hin.
    destruct (advance_kept _ _ _ _ _ _ _ _ _ (proj2 Hw) (Hc _ _ Hin) Ea) as (Hw' & Hd' & Ho). split_and!; [split|done|]; cbn.
    + by eapply later_trans.
    + intros q1 c1 Hin1. apply list_elem_of_lookup in Hin1 as (j & Hj). apply list_lookup_insert_Some in Hj as [(-> & [= <- <-] & _)|[_ Hj]].
      * done.
      * eapply does_later; [exact Hw'|]. by eapply Hc, list_elem_of_lookup_2.
    + intros k Hk Hne. destruct (Ho k Hk Hne); eauto 6.
  - simplify_eq. split_and!; [split; [done|]|done|by apply accounted_same]. intros q c Hin. apply Hc. cbn in Hin.
    eapply sublist_subseteq; [apply sublist_delete|exact Hin].
  - simplify_eq. assert (later (sys_tables s) (set_fw_world x (sys_tables s))) as Hx by (apply later_stable; [apply Hw|apply stable_world]).
    split_and!; [split; [by eapply later_trans|]|done|by apply accounted_same]. intros q c Hin. eapply does_later; [exact Hx|by apply Hc].
Qed.
End kept.

(** *** Every reachable state *)

(** The uploader of a session may change its object. *)
Definition request_may (q : Request) (w : FileWorld) (k : string) : Prop :=
  exists i u r, request_session q = Some (i, u) /\ fw_sessions w !! i = Some r /\
    us_UploaderID (ur_session r) = u /\ us_ObjectKey (ur_session r) = k.

Lemma does_discard may {A} (c : Call A) w : does may c w (fun _ _ => True) -> file_sound w -> does may (discard c) w (fun _ _ => True).
Proof. intros Hc Hs. apply does_then. eapply does_mono; [done|exact Hc|done|]. by intros [] ? _. Qed.
Lemma does_request may q w : file_sound w -> (forall i u, request_session q = Some (i, u) -> permitted may i u w) ->
  does may (request_call q) w (fun _ _ => True).
Proof.
  intros Hs Hp. destruct q; cbn [request_call] in *.
  - apply does_discard; [apply does_start|done].
  - by apply does_upload, Hp.
  - by apply does_discard; [apply does_complete, Hp|].
  - apply does_discard; [apply does_content|done].
  - apply does_discard; [|done]. apply does_method. intros now. apply stays_soft_delete.
  - apply does_clean.
Qed.
Lemma permitted_uploader q i u w : request_session q = Some (i, u) -> permitted (request_may q) i u w.
Proof.
  intros Hq w1 w2 s _ [He _] (r & Hr & <- & _)%pending_session_Some Hu.
  destruct (ev_sessions _ _ He _ _ Hr) as (r' & Hr' & E & _). exists i, u, r'. by rewrite E.
Qed.
(** A session that has ended gives no permission. *)
Lemma permitted_other w j r i u : fw_sessions w !! j = Some r -> ur_status r <> UploadPending ->
  permitted (fun _ k => k <> us_ObjectKey (ur_session r)) i u w.
Proof.
  intros Hj Hn w1 w2 s [He Hs] _ (q & Hq & <- & Hp)%pending_session_Some _ Hk.
  destruct (ev_sessions _ _ He _ _ Hj) as (r' & Hr' & _ & Hsame). rewrite (Hsame Hn) in Hr'.
  assert (i = j) as -> by (eapply key_session; [exact Hs|exact Hq|exact Hr'|done]). congruence.
Qed.

Lemma initial_sound s : sys_initial s -> file_sound (sys_tables s).
Proof.
  destruct s as [[x ss aa] o l]. intros (Hss & Haa & _). cbn in Hss, Haa. subst. by split.
Qed.
Lemma steps_kept P w0 s s' : (forall q w, later w0 w -> does (P q) (request_call q) w (fun _ _ => True)) ->
  rtc sys_step s s' -> kept P w0 s -> kept P w0 s' /\ later (sys_tables s) (sys_tables s').
Proof.
  intros Hstart Hsteps. induction Hsteps as [s|s s1 s' Hstep _ IH]; intros Hk.
  - split; [done|]. split; [reflexivity|apply Hk].
  - destruct (step_kept P w0 Hstart _ _ Hstep Hk) as (Hk1 & Hl1 & _). destruct (IH Hk1) as [Hk' Hl']. split; [done|]. by eapply later_trans.
Qed.
Lemma uploads_start w0 q w : later w0 w -> does (request_may q) (request_call q) w (fun _ _ => True).
Proof. intros [_ Hs]. apply does_request; [done|]. intros i u. apply permitted_uploader. Qed.
Lemma reachable_kept s : sys_reachable s -> file_sound (sys_tables s) /\
  forall q c, (q, c) ∈ sys_calls s -> does (request_may q) c (sys_tables s) (fun _ _ => True).
Proof.
  intros (s0 & Hi & Hsteps). destruct (steps_kept request_may (sys_tables s0) s0 s (uploads_start _) Hsteps) as [[Hl Hd] _].
  - split; [split; [reflexivity|by apply initial_sound]|]. destruct Hi as (_ & _ & ->). intros q c Hin. by apply elem_of_nil in Hin.
  - split; [apply Hl|done].
Qed.

(** The object of a session that has ended, while no call of its uploader for it is under way. *)
Lemma kept_other s j r : sys_reachable s -> fw_sessions (sys_tables s) !! j = Some r -> ur_status r <> UploadPending ->
  (forall q c, (q, c) ∈ sys_calls s -> request_session q <> Some (j, us_UploaderID (ur_session r))) ->
  kept (fun _ _ k => k <> us_ObjectKey (ur_session r)) (sys_tables s) s.
Proof.
  intros [Hs Hd]%reachable_kept Hj Hn Hq. split; [by split|]. intros q c Hin.
  eapply does_mono; [done|by apply Hd| |done]. intros w' k [He Hs'] (i & u & q' & Hi & Hq' & <- & <-) Hk.
  destruct (ev_sessions _ _ He _ _ Hj) as (r' & Hr' & _ & Hsame). rewrite (Hsame Hn) in Hr'.
  assert (i = j) as -> by (eapply key_session; [exact Hs'|done..]). assert (q' = r) as -> by congruence. by eapply Hq.
Qed.
Lemma other_start w j r : fw_sessions w !! j = Some r -> ur_status r <> UploadPending -> forall (q : Request) w', later w w' ->
  does (fun _ k => k <> us_ObjectKey (ur_session r)) (request_call q) w' (fun _ _ => True).
Proof.
  intros Hj Hn q w' [He Hs]. apply does_request; [done|]. intros i u _.
  destruct (ev_sessions _ _ He _ _ Hj) as (r' & Hr' & E & Hsame). rewrite (Hsame Hn) in Hr'. by apply permitted_other with (j := j).
Qed.
Lemma kept_object w0 k s s' : (forall (q : Request) w, later w0 w -> does (fun _ k' => k' <> k) (request_call q) w (fun _ _ => True)) ->
  is_key k -> rtc sys_step s s' -> kept (fun _ _ k' => k' <> k) w0 s -> live (sys_tables s') k ->
  object (sys_objects s') k = object (sys_objects s) k.
Proof.
  intros Hstart Hkey Hsteps. induction Hsteps as [s|s s1 s' Hstep Hrest IH]; intros Hk Hlive; [done|].
  destruct (step_kept _ _ Hstart _ _ Hstep Hk) as (Hk1 & Hl1 & Ha). rewrite (IH Hk1 Hlive).
  destruct (steps_kept _ _ _ _ Hstart Hrest Hk1) as [Hk' Hl'].
  destruct (decide (object (sys_objects s1) k = object (sys_objects s) k)) as [?|Hne]; [done|].
  destruct (Ha k Hkey Hne) as [Hr|(q & c & _ & Hx)]; [|done]. exfalso.
  eapply (removable_not_live (sys_tables s')); [apply Hk'| |exact Hlive].
  eapply removable_stable; [|exact Hr]. etrans; [apply Hl1|apply Hl'].
Qed.
End system.
