(* ===== verification/AttachmentProperties.v ===== *)
(** * Attachments: theorems

    The limits and the provenance of attachments under every interleaving and every failure, the content of
    a stored attachment, where the local store puts its files, a round of the cleanup worker, and the way
    of a file from its upload to its reader. *)

From stdpp Require Import base tactics strings gmap list numbers sorting relations.
From S2P Require Import Prelude Actors Database Tx State ThreadStore Http Attachment Paths BlobStore AttachmentStore AttachmentTables AttachmentSystem.

Local Abbreviation chars := String.list_ascii_of_string.
Local Abbreviation text := String.string_of_list_ascii.

(** ** Calls that nobody disturbs *)

Section runs.
Context `{UUIDSource} `{UuidLibrary} `{MimeLibrary} {B : BlobStore} {L : BlobLaws B is_key}.

Lemma run_then {A A'} now (c : Call A) (f : A -> Call A') w o :
  run_call now (c ≫= f) w o = match run_call now c w o with
                              | (Ok a, w', o') => run_call now (f a) w' o'
                              | (Err e, w', o') => (Err e, w', o')
                              end.
Proof.
  unfold mbind, Call_bind. revert w o. induction c as [[a|e]|k IH|X m k IH|X m k IH]; intros w o; cbn; try done.
  - destruct (m now w). apply IH.
  - destruct (m o). apply IH.
Qed.

(** [ks] are gone, and nothing else. *)
Record dropped (ks : list string) (o o' : Objects) : Prop := {
  dr_gone k : k ∈ ks -> object o' k = None;
  dr_kept k : is_key k -> k ∉ ks -> object o' k = object o k;
}.
Lemma dropped_nil o : dropped [] o o.
Proof. split; [set_solver|done]. Qed.
Lemma dropped_app ks1 ks2 o o1 o2 : Forall is_key ks1 -> dropped ks1 o o1 -> dropped ks2 o1 o2 -> dropped (ks1 ++ ks2) o o2.
Proof.
  intros Hks [G1 K1] [G2 K2]. split.
  - intros k [Hk|Hk]%elem_of_app; [|auto]. destruct (decide (k ∈ ks2)); [auto|]. rewrite K2, G1; [done..| |done].
    by eapply (proj1 (List.Forall_forall _ _) Hks), list_elem_of_In.
  - intros k Hk Hn. rewrite K2, K1; [done|done|set_solver..].
Qed.
Lemma run_delete {A} now k w o (f : result unit -> Call A) : is_key k ->
  exists o', run_call now (try_blob (blob_Delete k) ≫= f) w o = run_call now (f (Ok tt)) w o' /\ dropped [k] o o'.
Proof.
  intros Hk. destruct (delete_possible k o Hk) as (o' & E). exists o'. rewrite run_then. cbn. rewrite E. split; [done|].
  destruct (delete_Ok _ _ _ Hk E) as [G K]. split; [by intros x ->%list_elem_of_singleton|]. intros x Hx Hn. apply K; [done|set_solver].
Qed.

(** *** A round of the cleanup worker *)

Definition cleanable (l : list TaskAttachment) : list TaskAttachment := List.filter (fun a => ta_Provider a == blob_Provider) l.
(** The rows of the attachments [l] are marked as cleaned, the others stay. *)
Definition marked (now : Time) (l : list TaskAttachment) (w w' : FileWorld) : Prop :=
  fw_sessions w' = fw_sessions w /\
  forall i r, fw_attachments w !! i = Some r -> exists r', fw_attachments w' !! i = Some r' /\ ar_attachment r' = ar_attachment r /\
    (ar_cleaned_at r = Some now -> ar_cleaned_at r' = Some now) /\
    (forall a, a ∈ l -> ta_ID a = i -> ar_cleaned_at r' = Some now).
Lemma marked_trans now l1 l2 w w1 w2 : marked now l1 w w1 -> marked now l2 w1 w2 -> marked now (l1 ++ l2) w w2.
Proof.
  intros [S1 M1] [S2 M2]. split; [congruence|]. intros i r Hr. destruct (M1 _ _ Hr) as (r1 & H1' & E1 & C1 & A1).
  destruct (M2 _ _ H1') as (r2 & H2' & E2 & C2 & A2). exists r2. split_and!; [done|congruence|auto|].
  intros a [Ha|Ha]%elem_of_app Hi; [eauto|eauto].
Qed.
Lemma marked_by now i f l w : (forall r, ar_attachment (f r) = ar_attachment r) -> file_sound w ->
  (forall r, ar_cleaned_at r = Some now -> ar_cleaned_at (f r) = Some now) -> (forall a, a ∈ l -> ta_ID a = i) ->
  (l = [] \/ forall r, ar_cleaned_at (f r) = Some now) ->
  marked now l w (match fw_attachments w !! i with Some r => put_attachment (f r) w | None => w end).
Proof.
  intros Hf Hs Hc Hl Hor. split; [by case_match|]. intros j r Hr. destruct (decide (j = i)) as [->|Hne].
  - rewrite Hr. cbn. exists (f r). rewrite Hf, (fs_attachment_id _ Hs _ _ Hr), lookup_insert_eq. split_and!; auto.
    intros a Ha _. destruct Hor as [-> | Hall]; [set_solver|auto].
  - exists r. split_and!; auto; [|intros a Ha <-; by destruct Hne; apply Hl]. destruct (fw_attachments w !! i) as [q|] eqn:Hq; [|done].
    cbn. rewrite Hf, (fs_attachment_id _ Hs _ _ Hq). by rewrite lookup_insert_ne.
Qed.

Lemma run_clean_object error_text now a w o : file_sound w -> is_key (ta_ObjectKey a) -> exists w' o',
  run_call now (clean_object error_text a) w o = (Ok tt, w', o') /\ dropped (ta_ObjectKey <$> cleanable [a]) o o' /\
  marked now (cleanable [a]) w w' /\ file_sound w'.
Proof.
  intros Hs Hk. unfold clean_object, cleanable. cbn [List.filter].
  destruct (ta_Provider a == blob_Provider) eqn:E; cbn [negb].
  - destruct (run_delete now (ta_ObjectKey a) w o (fun r => match r with
      | Ok _ => tables_at (MarkCleaned (ta_ID a)) | Err e => tables (MarkCleanupFailed (ta_ID a) (error_text e)) end) Hk) as (o' & -> & Hd).
    eexists _, o'. split; [reflexivity|]. split_and!; [done| |].
    + apply (marked_by now (ta_ID a) (fun r => mkAttachmentRow (ar_attachment r) _ None (Some now))); try done; [|by right].
      by intros x ->%list_elem_of_singleton.
    + by apply (stays_cleaned (ta_ID a) now w Hs).
  - eexists _, o. split; [reflexivity|]. split_and!; [apply dropped_nil| |].
    + apply (marked_by now (ta_ID a) (fun r => mkAttachmentRow (ar_attachment r) _ (Some _) (ar_cleaned_at r))); try done; [|by left].
      set_solver.
    + by apply (stays_cleanup_failed (ta_ID a) (wrong_provider (ta_Provider a)) w Hs).
Qed.
Lemma run_clean_objects error_text now l w o : file_sound w -> Forall is_key (ta_ObjectKey <$> l) -> exists w' o',
  run_call now (clean_objects error_text l) w o = (Ok tt, w', o') /\ dropped (ta_ObjectKey <$> cleanable l) o o' /\
  marked now (cleanable l) w w' /\ file_sound w'.
Proof.
  revert w o. induction l as [|a l IH]; intros w o Hs Hl.
  { exists w, o. split_and!; [done|apply dropped_nil| |done]. split; [done|]. intros i r Hr. exists r. split_and!; auto. set_solver. }
  apply Forall_cons_1 in Hl as [Ha Hl]. destruct (run_clean_object error_text now a w o Hs Ha) as (w1 & o1 & E1 & D1 & M1 & S1).
  destruct (IH w1 o1 S1 Hl) as (w2 & o2 & E2 & D2 & M2 & S2). exists w2, o2.
  replace (cleanable (a :: l)) with (cleanable [a] ++ cleanable l) by (unfold cleanable; cbn; by case_match).
  cbn [clean_objects]. rewrite run_then, E1. split_and!; [done| |by eapply marked_trans|done].
  rewrite fmap_app. eapply dropped_app; [|done..]. unfold cleanable. cbn. case_match; cbn; [by constructor|constructor].
Qed.
Lemma run_drop_uploads now l w o : Forall is_key (us_ObjectKey <$> l) -> exists o',
  run_call now (drop_uploads l) w o = (Ok tt, w, o') /\
  dropped (us_ObjectKey <$> List.filter (fun s => us_Provider s == blob_Provider) l) o o'.
Proof.
  revert o. induction l as [|s l IH]; intros o Hl; [exists o; split; [done|apply dropped_nil]|].
  apply Forall_cons_1 in Hl as [Hk Hl]. cbn. destruct (us_Provider s == blob_Provider) eqn:E; cbn; [|by apply IH].
  destruct (delete_possible (us_ObjectKey s) o Hk) as (o1 & Ed). rewrite Ed. destruct (IH o1 Hl) as (o' & -> & Hd). exists o'.
  split; [done|]. apply (dropped_app [_] _ o o1); [by constructor| |done].
  destruct (delete_Ok _ _ _ Hk Ed) as [G K]. split; [by intros x ->%list_elem_of_singleton|]. intros x Hx Hn. apply K; [done|set_solver].
Qed.

Lemma claim_rows_sessions now rows w : fw_sessions (claim_rows now rows w) = fw_sessions w.
Proof. by induction rows. Qed.
Lemma expire_rows_attachments rows w : fw_attachments (expire_rows rows w) = fw_attachments w.
Proof. by induction rows. Qed.
Lemma candidate_keys limit now locked w : file_sound w ->
  Forall is_key (ta_ObjectKey <$> (ar_attachment <$> cleanup_candidates limit now locked w)).
Proof.
  intros Hs. apply List.Forall_forall. intros k (a & -> & (r & -> & [_ Hr]%candidate_rows)%list_elem_of_fmap)%list_elem_of_In%list_elem_of_fmap;
    [|done]. by eapply attachment_is_key.
Qed.
Lemma expired_keys limit now locked w : file_sound w ->
  Forall is_key (us_ObjectKey <$> (ur_session <$> expired_candidates limit now locked w)).
Proof.
  intros Hs. apply List.Forall_forall. intros k (a & -> & (r & -> & (_ & _ & Hr)%expired_rows)%list_elem_of_fmap)%list_elem_of_In%list_elem_of_fmap;
    [|done]. by eapply session_is_key.
Qed.
Lemma elem_of_cleanable a l : a ∈ cleanable l <-> a ∈ l /\ ta_Provider a = blob_Provider.
Proof. unfold cleanable. rewrite list_elem_of_In, filter_In, <- list_elem_of_In, bool_decide_eq_true. done. Qed.

Lemma run_claim now locked w o : run_call now (tables_at (ClaimCleanupBatch 50 locked)) w o =
  (Ok (ar_attachment <$> cleanup_candidates 50 now locked w), claim_rows now (cleanup_candidates 50 now locked w) w, o).
Proof. reflexivity. Qed.
Lemma run_expire now locked w o : run_call now (tables_at (ClaimExpiredUploadSessions 50 locked)) w o =
  (Ok (ur_session <$> expired_candidates 50 now locked w), expire_rows (expired_candidates 50 now locked w) w, o).
Proof. reflexivity. Qed.
Lemma pending_not_live w i r : file_sound w -> fw_sessions w !! i = Some r -> ur_status r = UploadPending ->
  ~ live w (us_ObjectKey (ur_session r)).
Proof.
  intros Hs Hr Hp (j & a & Ha & Hk & _). destruct (fs_source _ Hs _ _ Ha) as (x & q & Hq & Eq & [Kq _ _ _ _ _]).
  assert (x = i) as -> by (eapply key_session; [done..|congruence]). assert (q = r) as -> by congruence.
  destruct (fs_status _ Hs _ _ Hr) as [Hc _]. rewrite Hc in Hp; [done|congruence].
Qed.
Lemma elem_of_own s l : s ∈ List.filter (fun s => us_Provider s == blob_Provider) l <-> s ∈ l /\ us_Provider s = blob_Provider.
Proof. by rewrite list_elem_of_In, filter_In, <- list_elem_of_In, bool_decide_eq_true. Qed.

(** The three parts of a round, and the tables between them. *)
Lemma run_round error_text now w o : file_sound w -> exists w2 o2 o3,
  run_call now (RunOnce error_text ∅ ∅) w o = (Ok tt, expire_rows (expired_candidates 50 now ∅ w) w2, o3) /\ file_sound w2 /\
  marked now (cleanable (ar_attachment <$> cleanup_candidates 50 now ∅ w)) (claim_rows now (cleanup_candidates 50 now ∅ w) w) w2 /\
  dropped (ta_ObjectKey <$> cleanable (ar_attachment <$> cleanup_candidates 50 now ∅ w)) o o2 /\
  dropped (us_ObjectKey <$> List.filter (fun s => us_Provider s == blob_Provider) (ur_session <$> expired_candidates 50 now ∅ w)) o2 o3 /\
  expired_candidates 50 now ∅ w2 = expired_candidates 50 now ∅ w.
Proof.
  intros Hs. pose proof (stays_claim 50 ∅ now w Hs) as [_ Hst].
  destruct (run_clean_objects error_text now _ (claim_rows now (cleanup_candidates 50 now ∅ w) w) o (Hst Hs) (candidate_keys 50 now ∅ w Hs))
    as (w2 & o2 & E2 & D2 & M2 & S2).
  assert (expired_candidates 50 now ∅ w2 = expired_candidates 50 now ∅ w) as Hx.
  { unfold expired_candidates. by rewrite (proj1 M2), claim_rows_sessions. }
  destruct (run_drop_uploads now _ (expire_rows (expired_candidates 50 now ∅ w) w2) o2 (expired_keys 50 now ∅ w Hs)) as (o3 & E3 & D3).
  exists w2, o2, o3. split_and!; try done. unfold RunOnce. by rewrite run_then, run_claim, run_then, E2, run_then, run_expire, Hx.
Qed.

(** One undisturbed round of the cleanup worker ([RunOnce]) always ends without an error, and does its
    work: of the oldest 50 attachments that are deleted, not cleaned, and not tried in the last five minutes,
    every one that belongs to the configured provider loses its object and is marked as cleaned; of the
    oldest 50 pending uploads past their expiry, every one is marked as expired and loses its object; and the
    object of every attachment that is not deleted stays as it is. *)
Theorem cleanup_round error_text now w o : file_sound w -> exists w' o',
  run_call now (RunOnce error_text ∅ ∅) w o = (Ok tt, w', o') /\ file_sound w' /\
  (forall r, r ∈ cleanup_candidates 50 now ∅ w -> ta_Provider (ar_attachment r) = blob_Provider ->
     object o' (ta_ObjectKey (ar_attachment r)) = None /\
     exists r', fw_attachments w' !! ta_ID (ar_attachment r) = Some r' /\ ar_attachment r' = ar_attachment r /\ ar_cleaned_at r' = Some now) /\
  (forall r, r ∈ expired_candidates 50 now ∅ w ->
     fw_sessions w' !! us_ID (ur_session r) = Some (session_expired r) /\
     (us_Provider (ur_session r) = blob_Provider -> object o' (us_ObjectKey (ur_session r)) = None)) /\
  (forall k, live w k -> object o' k = object o k).
Proof.
  intros Hs. destruct (run_round error_text now w o Hs) as (w2 & o2 & o3 & E & S2 & M2 & D2 & D3 & Hx).
  pose proof (proj1 M2) as Hss. rewrite claim_rows_sessions in Hss. eexists _, o3. split; [exact E|]. split_and!.
  - pose proof (stays_expire 50 ∅ now w2 S2) as [_ He]. rewrite <- Hx. by apply He.
  - intros r Hr Hp. destruct (candidate_rows _ _ _ _ _ Hs Hr) as [_ Hl].
    assert (ar_attachment r ∈ cleanable (ar_attachment <$> cleanup_candidates 50 now ∅ w)) as Hc
      by (apply elem_of_cleanable; split; [by apply list_elem_of_fmap_2|done]).
    assert (is_key (ta_ObjectKey (ar_attachment r))) as Hk by exact (attachment_is_key _ _ _ Hs Hl). split.
    + match type of D3 with dropped ?ks _ _ => destruct (decide (ta_ObjectKey (ar_attachment r) ∈ ks)) as [Hin|Hn] end; [by apply D3|].
      rewrite (dr_kept _ _ _ D3) by done. apply (dr_gone _ _ _ D2). by apply list_elem_of_fmap_2.
    + destruct (claim_rows_same now (cleanup_candidates 50 now ∅ w) w _ _ ltac:(intros q [_ Hq]%candidate_rows; eauto) Hl) as (r1 & H1' & E1).
      destruct (proj2 M2 _ _ H1') as (r' & Hr' & E' & _ & Hm). rewrite expire_rows_attachments. exists r'. split_and!; [done|congruence|by eapply Hm].
  - intros r Hr. destruct (expired_rows _ _ _ _ _ Hs Hr) as (_ & _ & Hl). rewrite <- Hss in Hl. split.
    + destruct (expire_rows_lookup (expired_candidates 50 now ∅ w) w2 _ _ ltac:(rewrite Hss; intros q (_ & _ & Hq)%expired_rows; done) Hl eq_refl)
        as (r' & Hr' & E' & _). by rewrite Hr', (E' Hr).
    + intros Hp. apply (dr_gone _ _ _ D3), list_elem_of_fmap_2, elem_of_own. split; [by apply list_elem_of_fmap_2|done].
  - intros k Hlive. assert (is_key k) as Hk by (destruct Hlive as (i & a & Ha & <- & _); exact (attachment_is_key _ _ _ Hs Ha)).
    rewrite (dr_kept _ _ _ D3), (dr_kept _ _ _ D2); try done.
    + intros (a & -> & [Ha _]%elem_of_cleanable)%list_elem_of_fmap. eapply (removable_not_live w); [done|by eapply claimed_removable|done].
    + intros (x & -> & [Hx' _]%elem_of_own)%list_elem_of_fmap. apply list_elem_of_fmap in Hx' as (r & -> & Hin).
      destruct (expired_rows _ _ _ _ _ Hs Hin) as (_ & Hp & Hr).
      exact (pending_not_live _ _ _ Hs Hr Hp Hlive).
Qed.
End runs.

(** ** Every interleaving *)

Section interleavings.
Context `{UUIDSource} `{UuidLibrary} `{MimeLibrary} {B : BlobStore} {L : BlobLaws B is_key} (error_text : error -> string).

(** C37: However calls interleave, fail and die, no Task ever has more than 100 attachments that are not
    deleted, every attachment has between 1 byte and 100 MiB, it is the file of one completed upload session
    (same object, Task, uploader, size, name and provider), and no two attachments share an object. *)
Theorem attachments_bounded s : sys_reachable error_text s ->
  (forall t, active_count (sys_tables s) t <= MaxActiveTaskAttachments) /\
  (forall i a, fw_attachments (sys_tables s) !! i = Some a -> 0 < ta_SizeBytes (ar_attachment a) <= MaxAttachmentBytes /\
     exists j r, fw_sessions (sys_tables s) !! j = Some r /\ ur_status r = UploadCompleted /\ ur_attachment_id r = Some i /\
       same_file (ur_session r) (ar_attachment a)) /\
  (forall i a j b, fw_attachments (sys_tables s) !! i = Some a -> fw_attachments (sys_tables s) !! j = Some b ->
     ta_ObjectKey (ar_attachment a) = ta_ObjectKey (ar_attachment b) -> i = j).
Proof.
  intros [Hs _]%reachable_kept. split_and!; [apply Hs| |intros; by eapply key_attachment].
  intros i a Ha. split; [by eapply fs_size|]. destruct (fs_source _ Hs _ _ Ha) as (j & r & Hr & Ei & Hf). exists j, r. split_and!; try done.
  destruct (fs_status _ Hs _ _ Hr) as [Hc _]. apply Hc. congruence.
Qed.

(** C36: The content of an attachment is fixed: once no call of its uploader for its own upload session is under
    way, its object stays as it is for as long as the attachment is not deleted, whatever other calls run,
    arrive, fail or die, calls for the same session included. *)
Theorem live_content_fixed s s' i a :
  sys_reachable error_text s -> rtc (sys_step error_text) s s' -> fw_attachments (sys_tables s) !! i = Some a ->
  (forall q c, (q, c) ∈ sys_calls s -> request_may q (sys_tables s) (ta_ObjectKey (ar_attachment a)) -> False) ->
  (exists a', fw_attachments (sys_tables s') !! i = Some a' /\ ~ deleted (ar_attachment a')) ->
  object (sys_objects s') (ta_ObjectKey (ar_attachment a)) = object (sys_objects s) (ta_ObjectKey (ar_attachment a)).
Proof.
  intros Hreach Hsteps Ha Hq (a' & Ha' & Hd). destruct (reachable_kept _ _ Hreach) as [Hs _].
  destruct (fs_source _ Hs _ _ Ha) as (j & r & Hr & Ei & Hf). destruct (fs_status _ Hs _ _ Hr) as [Hc _].
  assert (ur_status r <> UploadPending) as Hn by (rewrite Hc; [done|congruence]). rewrite (sf_key _ _ Hf) in *.
  pose proof (other_start error_text _ _ _ Hr Hn) as Hstart.
  assert (kept (fun _ _ k => k <> us_ObjectKey (ur_session r)) (sys_tables s) s) as Hk.
  { eapply kept_other; [done..|]. intros q c Hin E. eapply Hq; [exact Hin|]. by exists j, (us_UploaderID (ur_session r)), r. }
  eapply kept_object; [exact Hstart|by eapply session_is_key|done|done|].
  destruct (steps_kept error_text _ _ _ _ Hstart Hsteps Hk) as [_ [He _]].
  destruct (ev_attachments _ _ He _ _ Ha) as (a2 & Ha2 & E & _). exists i, a'. split_and!; [done| |done].
  rewrite <- (sf_key _ _ Hf). congruence.
Qed.
End interleavings.

(** ** Files of the local store *)

(** A path below the directory [rs]: at least one element more, and no element that leads back. *)
Definition below (rs : list bytes) (path : string) : Prop :=
  exists es, es <> [] /\ Forall proper es /\ path = text (slash :: join_slash (rs ++ es)).

Lemma path_below root rs key path : is_dir (chars root) rs -> LocalStore_path root key = Ok path -> below rs path.
Proof. intros Hr (es & ? & ? & _ & ->)%(path_inside _ _ _ _ Hr). by exists es. Qed.

(** C38: Whatever key the local store is given ("..", absolute paths, doubled slashes and blanks included), it
    writes, removes and reads files strictly below its root only; a file that it writes holds the whole body,
    of exactly the declared size; and the keys of two upload sessions never name the same file. *)
Theorem local_store_confined `{UuidLibrary} `{MimeLibrary} root rs : is_dir (chars root) rs ->
  (forall key body size media d r d' p, LocalStore_Put root key body size media d = (r, d') -> d' !! p <> d !! p ->
     below rs p /\ d' !! p = Some body /\ size_of body = size /\ 0 < size <= MaxAttachmentBytes) /\
  (forall key d r d' p, LocalStore_Delete root key d = (r, d') -> d' !! p <> d !! p -> below rs p /\ d' !! p = None) /\
  (forall key d body info d', LocalStore_Open root key d = (Ok (body, info), d') ->
     exists p, below rs p /\ d !! p = Some body /\ d' = d /\ oi_Size info = size_of body) /\
  (forall t s t' s' p, LocalStore_path root (objectKey t s) = Ok p -> LocalStore_path root (objectKey t' s') = Ok p -> t = t' /\ s = s').
Proof.
  intros Hr. split_and!.
  - intros key body size media d [[]|e] d' p E Hne.
    + unfold LocalStore_Put in E. st_inv. cbn in *. go_bool.
      match goal with Hp : LocalStore_path root key = Ok ?q |- _ => destruct (decide (q = p)) as [->|?] end; [|by rewrite lookup_insert_ne in Hne]. rewrite lookup_insert_eq.
      split_and!; [by eapply path_below|done|lia..].
    + assert (clean (LocalStore_Put root key body size media)) as Hc by (unfold LocalStore_Put; cleaned ltac:(idtac; fail)).
      by rewrite (Hc _ _ _ E) in Hne.
  - intros key d [[]|e] d' p E Hne.
    + unfold LocalStore_Delete in E. st_inv. cbn in *.
      match goal with Hp : LocalStore_path root key = Ok ?q |- _ => destruct (decide (q = p)) as [->|?] end; [|by rewrite lookup_delete_ne in Hne]. rewrite lookup_delete_eq. split; [by eapply path_below|done].
    + assert (clean (LocalStore_Delete root key)) as Hc by (unfold LocalStore_Delete; cleaned ltac:(idtac; fail)).
      by rewrite (Hc _ _ _ E) in Hne.
  - intros key d body info d' E. unfold LocalStore_Open in E. st_inv. simplify_eq. eexists. split_and!; [by eapply path_below|done..].
  - intros t s t' s' p Hp Hp'. apply objectKey_inj. eapply key_path_inj; [exact Hr|]. by rewrite Hp, Hp'.
Qed.

(** ** The way of a file *)

Section roundtrip.
Context `{UUIDSource} `{UuidLibrary} `{MimeLibrary} {B : BlobStore} {L : BlobLaws B is_key}.

Lemma run_then_Ok {A A'} now (c : Call A) (f : A -> Call A') w o b w' o' : run_call now (c ≫= f) w o = (Ok b, w', o') <->
  exists a w1 o1, run_call now c w o = (Ok a, w1, o1) /\ run_call now (f a) w1 o1 = (Ok b, w', o').
Proof. rewrite run_then. destruct (run_call now c w o) as [[[a|e] w1] o1]; split; naive_solver. Qed.
Lemma run_tables_Ok {X} now (m : Time -> FileM X) w o a w' o' :
  run_call now (tables_at m) w o = (Ok a, w', o') <-> m now w = (Ok a, w') /\ o' = o.
Proof. cbn. destruct (m now w). naive_solver. Qed.
Lemma run_blob_Ok {X} now (m : St Objects X) w o a w' o' :
  run_call now (blob m) w o = (Ok a, w', o') <-> m o = (Ok a, o') /\ w' = w.
Proof. cbn. destruct (m o). naive_solver. Qed.
Lemma run_return_Ok {A} now (r : result A) w o a w' o' :
  run_call now (Return r) w o = (Ok a, w', o') <-> r = Ok a /\ w' = w /\ o' = o.
Proof. cbn. naive_solver. Qed.

Lemma wp_file_tx {A} (m : FileM A) w Q : wp m w Q -> wp (file_tx m) w Q.
Proof. intros Hm a w' E. unfold file_tx in E. destruct (m w) as [[b|e] w1] eqn:Em; [|done]. simplify_eq. by apply Hm. Qed.
Lemma wp_create_session session now w : us_ID session <> uuid_Nil ->
  wp (CreateUploadSession session now) w (fun s w' => fw_sessions w' = <[us_ID s := mkSessionRow s UploadPending None None]> (fw_sessions w) /\
    us_ID s = us_ID session /\ us_TaskID s = us_TaskID session /\ us_UploaderID s = us_UploaderID session /\
    us_Filename s = us_Filename session /\ us_ObjectKey s = us_ObjectKey session /\ us_ExpectedSize s = us_ExpectedSize session).
Proof.
  intros Hi. unfold CreateUploadSession. rewrite bool_decide_eq_false_2 by done. do 8 wp_step. apply wp_file_tx. unfold insert_session. by wp_steps.
Qed.
Lemma wp_complete_upload_session i u size media version actor now w :
  wp (CompleteUploadSession i u size media version actor now) w (fun c w' => exists s,
    pending_session i w = Some s /\ completed_file s now (cp_Attachment c) w w').
Proof.
  unfold CompleteUploadSession. do 4 wp_step. apply wp_bind, wp_file_tx. do 6 wp_step. wp_step; wp_steps; [done|].
  eapply wp_mono; [apply wp_complete_session|]. intros c w' (Hc & _). wp_steps. simplify_eq. eauto.
Qed.

Lemma start_stored now t u filename media size w o up w' o' :
  run_call now (StartUpload t u filename media size) w o = (Ok up, w', o') ->
  let s := up_Session up in
  fw_sessions w' !! us_ID s = Some (mkSessionRow s UploadPending None None) /\ us_TaskID s = t /\ us_UploaderID s = u /\
  us_Filename s = filename /\ us_ObjectKey s = objectKey t (us_ID s) /\ us_ExpectedSize s = size.
Proof.
  unfold StartUpload. intros (? & w1 & o1 & _ & (now' & w2 & o2 & _ & (i & w3 & o3 & Hi & (s & w4 & o4 & Hs & Hup)%run_then_Ok)%run_then_Ok)%run_then_Ok)%run_then_Ok.
  apply (run_tables_Ok now (fun _ => in_world uuid_New)) in Hi as [[= <- <-] ->]. apply run_tables_Ok in Hs as [Hs ->].
  apply wp_create_session in Hs as (Ess & Ei & Et & Eu & Ef & Ek & Ez); [|apply uuid_seq_ne]. cbn in Ei, Et, Eu, Ef, Ek, Ez.
  apply run_then_Ok in Hup as (ins & w5 & o5 & [_ ->]%run_blob_Ok & ([= <-] & -> & _)%run_return_Ok). cbn.
  rewrite Ess, lookup_insert_eq. split_and!; congruence.
Qed.
Lemma upload_stored now t i u body len w o w' o' s : pending_session i w = Some s -> is_key (us_ObjectKey s) ->
  run_call now (serve_upload t i u body len) w o = (Ok tt, w', o') ->
  w' = w /\ object o' (us_ObjectKey s) = Some body /\ size_of body = us_ExpectedSize s.
Proof.
  intros Hp Hk. unfold serve_upload, UploadLocal. intros (s' & w1 & o1 & Hs & E)%run_then_Ok.
  apply (run_tables_Ok now (fun _ => GetUploadSession i)) in Hs as [Hs ->]. unfold GetUploadSession in Hs. st_inv. simplify_eq.
  repeat (apply run_then_Ok in E as (? & ? & ? & (?%fail_if_Ok & -> & ->)%run_return_Ok & E)).
  apply run_then_Ok in E as (? & ? & ? & [= <- <- <-] & E).
  repeat (apply run_then_Ok in E as (? & ? & ? & (?%fail_if_Ok & -> & ->)%run_return_Ok & E)).
  apply run_blob_Ok in E as [E ->]. go_bool. destruct (put_Ok _ _ _ _ _ _ Hk E) as (? & ? & _). split_and!; congruence.
Qed.
Lemma complete_stored now i u version actor w o c w' o' s body : pending_session i w = Some s -> is_key (us_ObjectKey s) ->
  object o (us_ObjectKey s) = Some body -> run_call now (CompleteUpload i u version actor) w o = (Ok c, w', o') ->
  completed_file s now (cp_Attachment c) w w' /\ object o' (us_ObjectKey s) = Some body.
Proof.
  intros Hp Hk Ho. unfold CompleteUpload. intros (s' & w1 & o1 & Hs & E)%run_then_Ok.
  apply (run_tables_Ok now (fun _ => GetUploadSession i)) in Hs as [Hs ->]. unfold GetUploadSession in Hs. st_inv. simplify_eq.
  apply run_then_Ok in E as (? & ? & ? & (_ & -> & ->)%run_return_Ok & E).
  apply run_then_Ok in E as (info & ? & o2 & [Ei ->]%run_blob_Ok & E). apply (wp_keeps _ _ (stat_keeps _)) in Ei as ->.
  apply run_then_Ok in E as ([content extra] & ? & o3 & [Ei ->]%run_blob_Ok & E). apply (wp_keeps _ _ (open_keeps _)) in Ei as ->.
  cbv zeta beta iota in E. case_match; [|by apply run_then_Ok in E as (? & ? & ? & _ & [? _]%run_return_Ok)].
  apply run_tables_Ok in E as [E ->]. apply wp_complete_upload_session in E as (s2 & Hs2 & Hc). simplify_eq. done.
Qed.

(** C39: What is uploaded is what is served: when the upload of a file of a Task was started, the content was
    uploaded and the upload was completed, in turn, the content of the attachment is served byte for byte; the
    attachment belongs to that Task and has the name, the uploader and the size that the upload was started
    with, and the content has that size.  (Who may read a Task is decided before the content is asked for.) *)
Theorem attachment_roundtrip t u filename media size body len version actor now1 now2 now3 now4 w o up w1 o1 w2 o2 c w3 o3 :
  run_call now1 (StartUpload t u filename media size) w o = (Ok up, w1, o1) ->
  run_call now2 (serve_upload t (us_ID (up_Session up)) u body len) w1 o1 = (Ok tt, w2, o2) ->
  run_call now3 (CompleteUpload (us_ID (up_Session up)) u version actor) w2 o2 = (Ok c, w3, o3) ->
  run_call now4 (serve_content t (ta_ID (cp_Attachment c))) w3 o3 = (Ok body, w3, o3) /\
  ta_Filename (cp_Attachment c) = filename /\ ta_UploaderID (cp_Attachment c) = u /\
  ta_TaskID (cp_Attachment c) = t /\ ta_SizeBytes (cp_Attachment c) = size /\ size_of body = size.
Proof.
  intros (Hs & Et & Eu & Ef & Ek & Ez)%start_stored Hup Hcomp. cbv zeta in *. set (s := up_Session up) in *.
  assert (pending_session (us_ID s) w1 = Some s) as Hp by (unfold pending_session; by rewrite Hs).
  assert (is_key (us_ObjectKey s)) as Hk by (rewrite Ek; by eexists _, _).
  destruct (upload_stored _ _ _ _ _ _ _ _ _ _ _ Hp Hk Hup) as (-> & Ho & Hz).
  destruct (complete_stored _ _ _ _ _ _ _ _ _ _ _ _ Hp Hk Ho Hcomp) as [(Hf & Hd & _ & Ea & _) Ho3].
  destruct Hf as [Fk Ft Fu Fz Fn _]. set (a := cp_Attachment c) in *.
  split_and!; [|congruence..]. destruct (open_possible _ _ _ Hk Ho3) as (info & Eo). destruct (open_Ok _ _ _ _ _ Hk Eo) as [_ Ei].
  unfold serve_content. rewrite run_then.
  assert (run_call now4 (tables (Attachments_Get t (ta_ID a))) w3 o3 = (Ok a, w3, o3)) as ->.
  { cbn. unfold Attachments_Get, attachment_of, mbind, St_bind. cbn. rewrite Ea, lookup_insert_eq. cbn.
    rewrite bool_decide_eq_true_2 by congruence. cbn. by rewrite Hd. }
  unfold AttachmentService_Open. rewrite run_then. cbn [run_call blob]. rewrite Fk, Eo. cbn. rewrite Fz, Ei, Hz.
  rewrite (bool_decide_eq_true_2 (us_ExpectedSize s = _)) by done. by rewrite andb_false_r.
Qed.
End roundtrip.

(** ** A workspace with one Task *)

#[local] Existing Instance counting_uuids.
#[local] Existing Instance binary_uuids.
#[local] Existing Instance plain_mime.

Definition demo_root : string := "/srv/files".
Definition demo_rs : list bytes := chars <$> ["srv"; "files"].
Lemma demo_dir : is_dir (chars demo_root) demo_rs.
Proof. split; [|reflexivity]. repeat constructor; try done; cbn; intros ?; set_solver. Qed.
#[local] Instance demo_files : BlobStore := LocalStore demo_root.
#[local] Instance demo_laws : BlobLaws demo_files is_key := local_laws demo_root _ demo_dir.

Definition demo_file_task : TaskRow :=
  mkTaskRow 3%N 142 2 (Some "ready") None (Some 0) None 2%N None 20 None None 5%N 10
    (mkTaskBrief "notes" "" "" "" "todo" "none" "human" None None None None).
Definition demo_tables : FileWorld :=
  mkFileWorld (mkWorld (mkDB {[ 3%N := demo_file_task ]} ∅ ∅ ∅ ∅ ∅ ∅ ∅ ∅ [] {[ 5%N ]} ∅ ∅ {[ 2%N ]} ∅ ∅ ∅ [] ∅) 0) ∅ ∅.
Definition demo_errors (e : error) : string := "failed".
Definition demo_empty : System := mkSystem demo_tables (∅ : Disk) [].
Definition demo_uploader : OperationActor := SessionOperation 5%N "r1".
Definition demo_session : UUID := counting_uuid 0.
Definition demo_attachment : UUID := counting_uuid 1.
Definition demo_key : string := objectKey 3%N demo_session.
(** A request that arrives and takes [n] steps at time [t]. *)
Definition taking (q : Request) (n : nat) (t : Time) : list Move := Arrive q :: replicate n (Advance 0 t Works).
Definition demo_start_upload : Request := RStart 3%N 5%N "notes.txt" "text/plain" 5.
Definition demo_put (body : string) : Request := RUpload 3%N demo_session 5%N body 5.
Definition demo_finish_upload : Request := RComplete demo_session 5%N 2 demo_uploader.
Definition moves (l : list Move) (s : System) : System := default demo_empty (sys_moves demo_errors l s).
Definition after_moves (l : list Move) : System := moves l demo_empty.

Lemma moves_steps l s : present (sys_moves demo_errors l s) = true -> rtc (sys_step demo_errors) s (moves l s).
Proof. intros Hl. apply (sys_moves_steps _ l). unfold moves. by destruct (sys_moves demo_errors l s). Qed.
Lemma after_reachable l : present (sys_moves demo_errors l demo_empty) = true -> sys_reachable demo_errors (after_moves l).
Proof. intros Hl. exists demo_empty. split; [done|by apply moves_steps]. Qed.

Definition upload_moves : list Move := taking demo_start_upload 4 1000 ++ taking (demo_put "hello") 3 1000.
Definition stored_moves : list Move := upload_moves ++ taking demo_finish_upload 4 1000 ++ [Stop 0; Stop 0; Stop 0].
Definition demo_file : AttachmentRow :=
  mkAttachmentRow (mkTaskAttachment demo_attachment 3%N 5%N "notes.txt" "text/plain" 5 "local" demo_key 1 None 1000 1000) None None None.
Lemma stored_reachable : sys_reachable demo_errors (after_moves stored_moves).
Proof. apply after_reachable. vm_compute. reflexivity. Qed.
Lemma stored_calls : length (sys_calls (after_moves stored_moves)) = 0%nat.
Proof. vm_compute. reflexivity. Qed.
Lemma demo_stored_row : fw_attachments (sys_tables (after_moves stored_moves)) !! demo_attachment = Some demo_file.
Proof. vm_compute. reflexivity. Qed.

Lemma attachments_bounded_witness : active_count (sys_tables (after_moves stored_moves)) 3%N <= 100 /\
  0 < ta_SizeBytes (ar_attachment demo_file) <= MaxAttachmentBytes.
Proof.
  pose proof (attachments_bounded demo_errors (after_moves stored_moves) stored_reachable) as (Hb & Hs & _).
  split; [exact (Hb 3%N)|]. exact (proj1 (Hs _ _ demo_stored_row)).
Defined.

(** Later requests for the same session find that it has ended. *)
Definition more_moves : list Move := taking (demo_put "other") 1 2000 ++ taking demo_finish_upload 1 2000 ++ taking (RCleanup ∅ ∅) 2 3000.
Lemma demo_steps : rtc (sys_step demo_errors) (after_moves stored_moves) (moves more_moves (after_moves stored_moves)).
Proof. apply moves_steps. vm_compute. reflexivity. Qed.
Lemma live_content_fixed_witness :
  object (sys_objects (moves more_moves (after_moves stored_moves))) demo_key =
  object (sys_objects (after_moves stored_moves)) demo_key /\
  object (sys_objects (after_moves stored_moves)) demo_key = Some "hello".
Proof.
  split; [|vm_compute; reflexivity].
  apply (live_content_fixed demo_errors _ _ demo_attachment demo_file stored_reachable demo_steps demo_stored_row).
  - intros q c Hin. rewrite (nil_length_inv _ stored_calls) in Hin. by apply elem_of_nil in Hin.
  - exists demo_file. split; [vm_compute; reflexivity|]. discriminate.
Defined.

Lemma local_store_confined_witness : below demo_rs "/srv/files/b/c" /\
  LocalStore_path demo_root "../secret" = Err ErrOther /\ LocalStore_path demo_root "a/../../secret" = Err ErrOther.
Proof.
  split; [|split; vm_compute; reflexivity].
  apply (proj1 (local_store_confined demo_root demo_rs demo_dir) " a/../b//c" "x" 1 "" ∅ (Ok tt) {["/srv/files/b/c" := "x"]});
    [vm_compute; reflexivity|]. vm_compute. discriminate.
Defined.

(** A deleted attachment, and an upload that nobody finished. *)
Definition deleted_moves : list Move := stored_moves ++ taking (RDelete 3%N demo_attachment 1) 1 2000 ++ taking demo_start_upload 4 2000.
Lemma deleted_sound : file_sound (sys_tables (after_moves deleted_moves)).
Proof. eapply reachable_kept, after_reachable. vm_compute. reflexivity. Qed.
Definition demo_deleted_row : AttachmentRow := with_attachment demo_file (soft_deleted (ar_attachment demo_file) 2000).
Lemma deleted_candidates : cleanup_candidates 50 (10 ^ 10) ∅ (sys_tables (after_moves deleted_moves)) = [demo_deleted_row].
Proof. vm_compute. reflexivity. Qed.
Lemma cleanup_round_witness : object (sys_objects (after_moves deleted_moves)) demo_key = Some "hello" /\
  length (expired_candidates 50 (10 ^ 10) ∅ (sys_tables (after_moves deleted_moves))) = 1%nat /\
  exists w' o', run_call (10 ^ 10) (RunOnce demo_errors ∅ ∅) (sys_tables (after_moves deleted_moves)) (sys_objects (after_moves deleted_moves)) =
    (Ok tt, w', o') /\ object o' demo_key = None.
Proof.
  split; [vm_compute; reflexivity|]. split; [vm_compute; reflexivity|].
  destruct (cleanup_round demo_errors (10 ^ 10) _ (sys_objects (after_moves deleted_moves)) deleted_sound) as (w' & o' & E & _ & Hc & _).
  exists w', o'. split; [exact E|]. rewrite deleted_candidates in Hc. apply (Hc demo_deleted_row); [left|reflexivity].
Defined.

Definition demo_up : AttachmentUpload :=
  mkAttachmentUpload (mkAttachmentUploadSession demo_session 3%N 5%N "local" demo_key "notes.txt" "text/plain" 5 1800001000 1000)
    (mkUploadInstruction "PUT" "" ∅ false 1800001000).
Definition demo_completion : AttachmentCompletion :=
  mkAttachmentCompletion (mkTaskAttachment demo_attachment 3%N 5%N "notes.txt" "text/plain" 5 "local" demo_key 1 None 3000 3000) 3.
Definition demo_run1 := run_call 1000 (StartUpload 3%N 5%N "notes.txt" "text/plain" 5) demo_tables (∅ : @Objects demo_files).
Definition demo_run2 := run_call 2000 (serve_upload 3%N demo_session 5%N "hello" 5) demo_run1.1.2 demo_run1.2.
Definition demo_run3 := run_call 3000 (CompleteUpload demo_session 5%N 2 demo_uploader) demo_run2.1.2 demo_run2.2.
Lemma answered {A} (x : result A * FileWorld * Objects) r : x.1.1 = r -> x = (r, x.1.2, x.2).
Proof. by destruct x as [[] ?]; intros <-. Qed.
Lemma attachment_roundtrip_witness :
  run_call 4000 (serve_content 3%N demo_attachment) demo_run3.1.2 demo_run3.2 = (Ok "hello", demo_run3.1.2, demo_run3.2) /\
  size_of "hello" = 5.
Proof.
  assert (demo_run1 = (Ok demo_up, demo_run1.1.2, demo_run1.2)) as E1 by (apply answered; vm_compute; reflexivity).
  assert (demo_run2 = (Ok tt, demo_run2.1.2, demo_run2.2)) as E2 by (apply answered; vm_compute; reflexivity).
  assert (demo_run3 = (Ok demo_completion, demo_run3.1.2, demo_run3.2)) as E3 by (apply answered; vm_compute; reflexivity).
  destruct (attachment_roundtrip 3%N 5%N "notes.txt" "text/plain" 5 "hello" 5 2 demo_uploader 1000 2000 3000 4000
    demo_tables (∅ : @Objects demo_files) demo_up _ _ _ _ demo_completion _ _ E1 E2 E3) as (Hr & _ & _ & _ & _ & Hz).
  split; [exact Hr|exact Hz].
Defined.

(** ** The inspection of content and the completion are two steps

    [CompleteUpload] reads the first bytes of the object, and marks the session as completed in a later
    transaction; the local store replaces a file that exists ([os.Rename]).  So the uploader can replace the
    content after the inspection, *)
Example inspection_bypassed :
  let s := after_moves (upload_moves ++ taking (demo_put "MZ...") 2 1000 ++ taking demo_finish_upload 4 1000 ++ [Advance 1 1000 Works]) in
  fw_attachments (sys_tables s) !! demo_attachment = Some demo_file /\ object (sys_objects s) demo_key = Some "MZ..." /\
  ValidateAttachmentContentSignature (GoStrings.trim (content_header "MZ...")) = Err ErrInvalidInput.
Proof. intros s. split_and!; vm_compute; reflexivity. Qed.
(** and of two completions one can remove the object of the attachment that the other has stored. *)
Example content_lost :
  let s := after_moves (upload_moves ++ taking demo_finish_upload 3 1000 ++ taking (demo_put "MZ...") 3 1000 ++
             taking demo_finish_upload 3 1000 ++ [Advance 2 1000 Works; Advance 0 1000 Works]) in
  fw_attachments (sys_tables s) !! demo_attachment = Some demo_file /\ object (sys_objects s) demo_key = None.
Proof. intros s. split_and!; vm_compute; reflexivity. Qed.
(** The object of an upload whose completion comes too late stays for good: the completion marks the session as
    expired, and the worker looks for pending sessions only. *)
Example late_completion_leaks :
  let s := after_moves (upload_moves ++ taking demo_finish_upload 4 (10 ^ 10) ++ taking (RCleanup ∅ ∅) 2 (2 * 10 ^ 10)) in
  (ur_status <$> fw_sessions (sys_tables s) !! demo_session) = Some UploadExpired /\ object (sys_objects s) demo_key = Some "hello" /\
  (run_call (3 * 10 ^ 10) (RunOnce demo_errors ∅ ∅) (sys_tables s) (sys_objects s)) = (Ok tt, sys_tables s, sys_objects s).
Proof. intros s. split_and!; vm_compute; reflexivity. Qed.
