(* ===== verification/DeliveryStore.v ===== *)
(** * The stores of repositories and code changes

    internal/store/repository_connection_store.go, project_repository_store.go and
    task_code_change_store.go over the tables repository_connections, repository_connection_events,
    project_repositories and task_code_changes (migrations 0031 and 0033), next to the tables of the
    workflow and of the Projects. *)

From stdpp Require Import base tactics strings gmap list numbers sorting.
From S2P Require Import Prelude Actors Lifecycle StageClaim Delivery Thread Acceptance Database Tx State.
From S2P Require Import ThreadStore ClaimStore WorkflowStore WorkflowCommands TaskStore Access Membership PlanningStore.

(** ** The tables *)

Record ConnectionEvent := mkConnectionEvent {
  ce_id : UUID;
  ce_connection_id : option UUID;
  ce_actor_user_id : UUID;
  ce_event_type : string;
  ce_outcome : string;
  ce_provider : RepositoryProvider;
  ce_origin : option string;
  ce_provider_repository_id : option string;
  ce_error_category : option string;
  ce_request_id : string;
  ce_created_at : Time;
}.

Record DeliveryWorld := mkDeliveryWorld {
  dw_plan : PlanWorld;
  dw_connections : gmap UUID RepositoryConnection;
  dw_repositories : gmap UUID ProjectRepository;
  dw_events : list ConnectionEvent;
}.
Definition DeliveryM (X : Type) : Type := St DeliveryWorld X.

Definition dw_db (w : DeliveryWorld) : DB := pl_db (dw_plan w).
Definition set_plan (p : PlanWorld) (w : DeliveryWorld) : DeliveryWorld :=
  mkDeliveryWorld p (dw_connections w) (dw_repositories w) (dw_events w).
Definition put_connection (c : RepositoryConnection) (w : DeliveryWorld) : DeliveryWorld :=
  mkDeliveryWorld (dw_plan w) (<[rc_ID c := c]> (dw_connections w)) (dw_repositories w) (dw_events w).
Definition put_repository (r : ProjectRepository) (w : DeliveryWorld) : DeliveryWorld :=
  mkDeliveryWorld (dw_plan w) (dw_connections w) (<[pr_ID r := r]> (dw_repositories w)) (dw_events w).
Definition add_event (e : ConnectionEvent) (w : DeliveryWorld) : DeliveryWorld :=
  mkDeliveryWorld (dw_plan w) (dw_connections w) (dw_repositories w) (dw_events w ++ [e]).
Definition put_code_change (r : CodeChangeRow) (w : DeliveryWorld) : DeliveryWorld :=
  set_plan (set_db (fun d => set_code_changes (<[cr_id r := r]> (task_code_changes d)) d) (dw_plan w)) w.

(** Statements on the tables of the Projects and of the workflow. *)
Definition in_plan {A} (m : PlanM A) : DeliveryM A := fun w => let '(r, p) := m (dw_plan w) in (r, set_plan p w).
Definition in_work {A} (m : M A) : DeliveryM A := in_plan (on_world m).

(** A rollback takes back neither the identifiers nor the values of the sequence that were drawn. *)
Definition undone (w w' : DeliveryWorld) : DeliveryWorld :=
  set_plan (set_numbers (pl_numbers (dw_plan w'))
    (set_world (mkWorld (dw_db w) (w_next (pl_world (dw_plan w')))) (dw_plan w))) w.
Definition delivery_tx {A} (m : DeliveryM A) : DeliveryM A := fun w =>
  match m w with
  | (Ok a, w') => (Ok a, w')
  | (Err e, w') => (Err e, undone w w')
  end.

(** ** CHECKs and unique indexes *)

Definition filled (texts : list string) : bool := forallb (fun s => negb (GoStrings.btrim_empty s)) texts.

Definition repository_connections_checks (c : RepositoryConnection) : bool :=
  (0 <? rc_Version c) &&
  filled [rc_Label c; rc_Origin c; rc_ProviderRepositoryID c; rc_PathWithNamespace c; rc_PathLookupKey c;
          rc_CanonicalWebURL c; rc_EncryptionKeyID c] &&
  (length (rc_CredentialCiphertext c) != 0%nat) &&
  bool_decide (rc_Status c ∈ ["active"; "disabled"]) && bool_decide (rc_Provider c ∈ ["gitlab"; "github"]) &&
  (if rc_Status c == "active" then negb (present (rc_DisabledBy c)) && negb (present (rc_DisabledAt c))
   else present (rc_DisabledBy c) && present (rc_DisabledAt c)).

(** [repository_connections_active_identity] and [repository_connections_active_path] *)
Definition active_connection (c : RepositoryConnection) : bool := rc_Status c == RepositoryConnectionStatusActive.
Definition same_repository (c c' : RepositoryConnection) : bool :=
  (rc_Provider c == rc_Provider c') && (rc_Origin c == rc_Origin c') &&
  ((rc_ProviderRepositoryID c == rc_ProviderRepositoryID c') || (rc_PathLookupKey c == rc_PathLookupKey c')).
Definition connection_taken (c : RepositoryConnection) (w : DeliveryWorld) : bool :=
  active_connection c &&
  present (select_one (fun c' => (rc_ID c' != rc_ID c) && active_connection c' && same_repository c c') (dw_connections w)).

Definition project_repositories_checks (r : ProjectRepository) : bool :=
  match pr_UnboundBy r, pr_UnboundAt r with
  | None, None => true
  | Some _, Some at_ => pr_BoundAt r <=? at_
  | _, _ => false
  end.
(** [project_repositories_active_binding] *)
Definition binding_taken (r : ProjectRepository) (w : DeliveryWorld) : bool :=
  ProjectRepository_Active r &&
  present (select_one (fun r' => (pr_ID r' != pr_ID r) && ProjectRepository_Active r' && (pr_ProjectID r' == pr_ProjectID r) &&
    (pr_ConnectionID r' == pr_ConnectionID r)) (dw_repositories w)).

(** An actor who is a user or an Agent. *)
Definition delivery_actor_shape (ty : option string) (user : option UUID) (ref : option string) : tv :=
  ((teq ty "user" AND not_null user AND is_null ref) OR
   (teq ty "agent" AND is_null user AND not_null ref AND not_btrim_empty ref))%sql.
Definition task_code_changes_checks (r : CodeChangeRow) : bool :=
  let o := cr_observation r in
  bool_decide (cr_kind r ∈ ["merge_request"; "pull_request"]) && (0 <? cr_change_number r) &&
  filled [cr_provider_change_id r; cr_web_url r; ob_Title o; ob_SourceBranch o; ob_TargetBranch o; ob_HeadSHA o] &&
  bool_decide (ob_Status o ∈ ["confirmed"; "missing"; "unauthorized"; "unreachable"; "disconnected"]) &&
  bool_decide (ob_State o ∈ ["opened"; "closed"; "merged"; "locked"]) &&
  bool_decide (cr_linked_by_type r ∈ ["user"; "agent"]) && check_ok (tin (cr_unlinked_by_type r) ["user"; "agent"]) &&
  check_ok (delivery_actor_shape (Some (cr_linked_by_type r)) (cr_linked_by_user_id r) (cr_linked_by_ref r)) &&
  check_ok ((is_null (cr_unlinked_at r) AND is_null (cr_unlinked_by_type r) AND is_null (cr_unlinked_by_user_id r) AND
             is_null (cr_unlinked_by_ref r) AND is_null (cr_unlinked_through_claim_id r)) OR
            (not_null (cr_unlinked_at r) AND not_null (cr_unlinked_through_claim_id r) AND
             delivery_actor_shape (cr_unlinked_by_type r) (cr_unlinked_by_user_id r) (cr_unlinked_by_ref r)))%sql.
Definition linked (r : CodeChangeRow) : bool := negb (present (cr_unlinked_at r)).
(** [task_code_changes_active_reference] *)
Definition link_taken (r : CodeChangeRow) (d : DB) : bool :=
  linked r &&
  present (select_one (fun r' => (cr_id r' != cr_id r) && linked r' && (cr_task_id r' == cr_task_id r) &&
    (cr_project_repository_id r' == cr_project_repository_id r) && (cr_kind r' == cr_kind r) &&
    (cr_change_number r' == cr_change_number r)) (task_code_changes d)).

Section stores.
Context `{UUIDSource}.

(** ** internal/store/repository_connection_store.go *)

Definition repository_connection_events_checks (e : ConnectionEvent) : bool :=
  bool_decide (ce_event_type e ∈ ["created"; "credential_rotated"; "validated"; "disabled"]) &&
  bool_decide (ce_outcome e ∈ ["succeeded"; "failed"]) && bool_decide (ce_provider e ∈ ["gitlab"; "github"]) &&
  check_ok (not_btrim_empty (ce_origin e)) && check_ok (not_btrim_empty (ce_provider_repository_id e)) &&
  check_ok (not_btrim_empty (ce_error_category e)) && filled [ce_request_id e].
Definition insertRepositoryConnectionEvent (connectionID : option UUID) (actorUserID : UUID) (eventType outcome : string)
    (provider : RepositoryProvider) (origin : string) (providerRepositoryID errorCategory : option string) (requestID : string)
    (now : Time) : DeliveryM unit :=
  id ← in_plan new_uuid;
  let e := mkConnectionEvent id connectionID actorUserID eventType outcome provider (nullIfEmpty origin) providerRepositoryID
             errorCategory requestID now in
  w ← st_get (fun w => w);
  st_fail (negb (repository_connection_events_checks e) || bool_decide (id ∈ (ce_id <$> dw_events w)) ||
           negb (fk (Some actorUserID) (users (dw_db w)) && fk connectionID (dom (dw_connections w)))) ErrOther;;
  st_mod (add_event e).

Definition Connections_Get (id : UUID) : DeliveryM RepositoryConnection :=
  found ← st_get (fun w => dw_connections w !! id);
  st_or_err found ErrNotFound.

(** [ORDER BY] several columns, texts in the collation of the database *)
Fixpoint lexicographic (cs : list comparison) : comparison :=
  match cs with
  | [] => Eq
  | Eq :: cs => lexicographic cs
  | c :: _ => c
  end.
Definition compare_connections (collate : string -> string -> comparison) (a b : RepositoryConnection) : comparison :=
  lexicographic [collate (rc_Status a) (rc_Status b); collate (rc_Provider a) (rc_Provider b); collate (rc_Label a) (rc_Label b);
    Z.compare (rc_CreatedAt a) (rc_CreatedAt b); N.compare (rc_ID a) (rc_ID b)].
Definition Connections_List (collate : string -> string -> comparison) : DeliveryM (list RepositoryConnection) :=
  st_get (fun w => merge_sort (fun a b => compare_connections collate a b <> Gt) (select (fun _ => true) (dw_connections w))).

Definition connection_matches (reference : RepositoryReference) (c : RepositoryConnection) : bool :=
  (rc_Provider c == rr_Provider reference) && (rc_Origin c == rr_Origin reference) &&
  (rc_PathLookupKey c == rr_PathLookupKey reference) && active_connection c.
Definition FindActiveByRepository (reference : RepositoryReference) : DeliveryM RepositoryConnection :=
  found ← st_get (fun w => select_one (connection_matches reference) (dw_connections w));
  st_or_err found ErrNotFound.

Definition repositoryConnectionAuditValue (c : RepositoryConnection) : AuditValue :=
  AuditConnection (rc_Label c) (rc_Provider c) (rc_Origin c) (rc_ProviderRepositoryID c) (rc_PathWithNamespace c)
    (rc_CanonicalWebURL c) (rc_DefaultBranch c) (rc_CredentialExpiresAt c) (rc_Status c) (rc_LastValidatedAt c).

(** [INSERT INTO repository_connections (...) RETURNING ...]: a new row is never disabled. *)
Definition new_connection (c : RepositoryConnection) : RepositoryConnection :=
  mkRepositoryConnection (rc_ID c) (rc_Version c) (rc_Label c) (rc_Provider c) (rc_Origin c) (rc_ProviderRepositoryID c)
    (rc_PathWithNamespace c) (rc_PathLookupKey c) (rc_CanonicalWebURL c) (rc_DefaultBranch c) (rc_CredentialCiphertext c)
    (rc_EncryptionKeyID c) (rc_CredentialExpiresAt c) (rc_Status c) (rc_LastValidatedAt c) (rc_CreatedBy c) None None
    (rc_CreatedAt c) (rc_UpdatedAt c).
(** A row that is inserted or replaced. *)
Definition write_connection (c : RepositoryConnection) : DeliveryM unit :=
  w ← st_get (fun w => w);
  st_fail (negb (repository_connections_checks c)) ErrInvalidInput;;
  st_fail (connection_taken c w) ErrConflict;;
  st_fail (negb (fk (Some (rc_CreatedBy c)) (users (dw_db w)) && fk (rc_DisabledBy c) (users (dw_db w)))) ErrInvalidInput;;
  st_mod (put_connection c).
Definition insert_connection (connection : RepositoryConnection) : DeliveryM RepositoryConnection :=
  let c := new_connection connection in
  found ← st_get (fun w => dw_connections w !! rc_ID c);
  st_fail (present found) ErrConflict;;
  write_connection c;;
  mret c.

Definition connection_event (c : RepositoryConnection) (eventType : string) (operation : OperationActor) (now : Time) : DeliveryM unit :=
  insertRepositoryConnectionEvent (Some (rc_ID c)) (op_UserID operation) eventType "succeeded" (rc_Provider c) (rc_Origin c)
    (Some (rc_ProviderRepositoryID c)) None (op_RequestID operation) now.
Definition connection_audit (action : string) (old new : option RepositoryConnection) (id : UUID) (operation : OperationActor)
    (now : Time) : DeliveryM unit :=
  in_plan (audit "repository_connection" id None action (repositoryConnectionAuditValue <$> old)
    (repositoryConnectionAuditValue <$> new) operation now).

Definition Connections_Create (connection : RepositoryConnection) (operation : OperationActor) : DeliveryM RepositoryConnection :=
  st_lift (RepositoryConnection_Validate connection);;
  st_lift (OperationActor_Validate operation);;
  delivery_tx (
    created ← insert_connection connection;
    connection_event created "created" operation (rc_CreatedAt created);;
    connection_audit "created" None (Some created) (rc_ID created) operation (rc_CreatedAt created);;
    mret created).

Definition RecordFailure (connectionID : option UUID) (actorUserID : UUID) (eventType : string) (provider : RepositoryProvider)
    (origin : string) (providerRepositoryID : option string) (errorCategory requestID : string) (now : Time) : DeliveryM unit :=
  insertRepositoryConnectionEvent connectionID actorUserID eventType "failed" provider origin providerRepositoryID
    (Some errorCategory) requestID now.

Record RepositoryConnectionValidation := mkRepositoryConnectionValidation {
  rv_Reference : RepositoryReference;
  rv_Repository : RepositoryIdentity;
  rv_At : Time;
}.
Record credentialReplacement := mkCredentialReplacement {
  cx_Ciphertext : list Byte.byte;
  cx_EncryptionKeyID : string;
  cx_ExpiresAt : option Time;
}.

(** [SELECT ... FOR UPDATE] and the checks of an active Connection *)
Definition lock_connection (id : UUID) (expectedVersion : Z) : DeliveryM RepositoryConnection :=
  current ← Connections_Get id;
  st_fail (rc_Version current != expectedVersion) (VersionConflictError (rc_Version current));;
  st_fail (rc_Status current != RepositoryConnectionStatusActive) ErrConflict;;
  mret current.

(** [UPDATE repository_connections SET version=version+1, ... RETURNING ...] *)
Definition validated_connection (c : RepositoryConnection) (validation : RepositoryConnectionValidation)
    (replacement : credentialReplacement) : RepositoryConnection :=
  let reference := rv_Reference validation in
  mkRepositoryConnection (rc_ID c) (rc_Version c + 1) (rc_Label c) (rc_Provider c) (rc_Origin c) (rc_ProviderRepositoryID c)
    (rr_PathWithNamespace reference) (rr_PathLookupKey reference) (rr_WebURL reference)
    (ri_DefaultBranch (rv_Repository validation)) (cx_Ciphertext replacement) (cx_EncryptionKeyID replacement)
    (cx_ExpiresAt replacement) (rc_Status c) (rv_At validation) (rc_CreatedBy c) (rc_DisabledBy c) (rc_DisabledAt c)
    (rc_CreatedAt c) (rv_At validation).
Definition updateValidated (id : UUID) (expectedVersion : Z) (validation : RepositoryConnectionValidation)
    (replacement : option credentialReplacement) (eventType : string) (operation : OperationActor) : DeliveryM RepositoryConnection :=
  st_lift (OperationActor_Validate operation);;
  delivery_tx (
    current ← lock_connection id expectedVersion;
    st_fail ((rc_Provider current != rr_Provider (rv_Reference validation)) ||
             (rc_ProviderRepositoryID current != ri_ProviderRepositoryID (rv_Repository validation)) ||
             (rc_Origin current != rr_Origin (rv_Reference validation))) ErrConflict;;
    st_fail (match replacement with
             | Some x => (length (cx_Ciphertext x) == 0%nat) || (cx_EncryptionKeyID x == "")
             | None => false
             end) ErrInvalidInput;;
    st_fail (rc_Version current =? MaxInt64) ErrOther;;
    let updated := validated_connection current validation
      (default (mkCredentialReplacement (rc_CredentialCiphertext current) (rc_EncryptionKeyID current)
        (rc_CredentialExpiresAt current)) replacement) in
    write_connection updated;;
    connection_event updated eventType operation (rv_At validation);;
    connection_audit eventType (Some current) (Some updated) id operation (rv_At validation);;
    mret updated).
Definition Connections_RotateCredential (id : UUID) (expectedVersion : Z) (validation : RepositoryConnectionValidation)
    (ciphertext : list Byte.byte) (encryptionKeyID : string) (expiresAt : option Time) (operation : OperationActor) :=
  updateValidated id expectedVersion validation (Some (mkCredentialReplacement ciphertext encryptionKeyID expiresAt))
    "credential_rotated" operation.
Definition RecordValidation (id : UUID) (expectedVersion : Z) (validation : RepositoryConnectionValidation)
    (operation : OperationActor) :=
  updateValidated id expectedVersion validation None "validated" operation.

Definition disabled_connection (c : RepositoryConnection) (by_ : UUID) (now : Time) : RepositoryConnection :=
  mkRepositoryConnection (rc_ID c) (rc_Version c + 1) (rc_Label c) (rc_Provider c) (rc_Origin c) (rc_ProviderRepositoryID c)
    (rc_PathWithNamespace c) (rc_PathLookupKey c) (rc_CanonicalWebURL c) (rc_DefaultBranch c) (rc_CredentialCiphertext c)
    (rc_EncryptionKeyID c) (rc_CredentialExpiresAt c) RepositoryConnectionStatusDisabled (rc_LastValidatedAt c) (rc_CreatedBy c)
    (Some by_) (Some now) (rc_CreatedAt c) now.
Definition active_bindings (id : UUID) (w : DeliveryWorld) : list ProjectRepository :=
  select (fun r => (pr_ConnectionID r == id) && ProjectRepository_Active r) (dw_repositories w).
Definition Connections_Disable (id : UUID) (expectedVersion : Z) (operation : OperationActor) (now : Time)
    : DeliveryM RepositoryConnection :=
  st_lift (OperationActor_Validate operation);;
  delivery_tx (
    current ← lock_connection id expectedVersion;
    activeBindings ← st_get (fun w => Z.of_nat (length (active_bindings id w)));
    st_fail (0 <? activeBindings) ErrConflict;;
    st_fail (rc_Version current =? MaxInt64) ErrOther;;
    let updated := disabled_connection current (op_UserID operation) now in
    write_connection updated;;
    connection_event updated "disabled" operation now;;
    connection_audit "disabled" (Some current) (Some updated) id operation now;;
    mret updated).

(** ** internal/store/project_repository_store.go *)

Record ProjectRepositoryWithConnection := mkProjectRepositoryWithConnection {
  pc_Repository : ProjectRepository;
  pc_Connection : RepositoryConnection;
}.
Record ProjectRepositoryMutation := mkProjectRepositoryMutation {
  pm_Repository : ProjectRepositoryWithConnection;
  pm_ProjectVersion : Z;
}.

(** [project_repositories JOIN repository_connections] *)
Definition with_connection (w : DeliveryWorld) (r : ProjectRepository) : option ProjectRepositoryWithConnection :=
  mkProjectRepositoryWithConnection r <$> dw_connections w !! pr_ConnectionID r.
Definition reference_of_binding (projectID : UUID) (reference : RepositoryReference) (w : DeliveryWorld) (r : ProjectRepository) : bool :=
  (pr_ProjectID r == projectID) && ProjectRepository_Active r &&
  match dw_connections w !! pr_ConnectionID r with Some c => connection_matches reference c | None => false end.
Definition FindActiveByReference (projectID : UUID) (reference : RepositoryReference) : DeliveryM ProjectRepositoryWithConnection :=
  found ← st_get (fun w => r ← select_one (reference_of_binding projectID reference w) (dw_repositories w); with_connection w r);
  st_or_err found ErrNotFound.

Definition compare_bindings (collate : string -> string -> comparison) (a b : ProjectRepositoryWithConnection) : comparison :=
  lexicographic [collate (rc_PathLookupKey (pc_Connection a)) (rc_PathLookupKey (pc_Connection b));
    N.compare (pr_ID (pc_Repository a)) (pr_ID (pc_Repository b))].
Definition Repositories_ListActive (collate : string -> string -> comparison) (projectID : UUID) : DeliveryM (list ProjectRepositoryWithConnection) :=
  st_get (fun w => merge_sort (fun a b => compare_bindings collate a b <> Gt)
    (omap (with_connection w) (select (fun r => (pr_ProjectID r == projectID) && ProjectRepository_Active r) (dw_repositories w)))).

(** The lock and the checks of the Project. *)
Definition open_project (projectID : UUID) (expectedVersion : Z) : DeliveryM Z :=
  projectVersion ← in_plan (lockVersion "projects" projectID);
  st_fail (projectVersion != expectedVersion) (VersionConflictError projectVersion);;
  project ← st_get (fun w => pl_projects (dw_plan w) !! projectID);
  project ← st_or_err project ErrOther;
  st_fail (present (p_ArchivedAt project)) ErrConflict;;
  mret projectVersion.

Definition projectRepositoryAuditValue (r : ProjectRepository) (c : RepositoryConnection) : AuditValue :=
  AuditRepository (pr_ProjectID r) (pr_ConnectionID r) (rc_Provider c) (rc_ProviderRepositoryID c) (rc_CanonicalWebURL c)
    (pr_BoundAt r) (pr_UnboundAt r).
Definition insertProjectRepositoryActivity (projectID : UUID) (operation : OperationActor) (action reason oldValue newValue : string)
    (now : Time) : DeliveryM unit :=
  in_plan (record_project_activity projectID None operation action (Some reason) (ActivityText <$> nullIfEmpty oldValue)
    (ActivityText <$> nullIfEmpty newValue) now).

Definition write_repository (r : ProjectRepository) : DeliveryM unit :=
  w ← st_get (fun w => w);
  st_fail (negb (project_repositories_checks r)) ErrInvalidInput;;
  st_fail (binding_taken r w) ErrConflict;;
  st_fail (negb (present (pl_projects (dw_plan w) !! pr_ProjectID r) && present (dw_connections w !! pr_ConnectionID r) &&
                 fk (Some (pr_BoundBy r)) (users (dw_db w)) && fk (pr_UnboundBy r) (users (dw_db w)))) ErrInvalidInput;;
  st_mod (put_repository r).

Definition Repositories_Bind (projectID : UUID) (expectedProjectVersion : Z) (connectionID : UUID) (operation : OperationActor)
    (now : Time) : DeliveryM ProjectRepositoryMutation :=
  st_lift (OperationActor_Validate operation);;
  delivery_tx (
    projectVersion ← open_project projectID expectedProjectVersion;
    connection ← Connections_Get connectionID;
    st_fail (rc_Status connection != RepositoryConnectionStatusActive) ErrConflict;;
    id ← in_plan new_uuid;
    let repository := mkProjectRepository id projectID connectionID (op_UserID operation) now None None in
    st_lift (ProjectRepository_Validate repository);;
    found ← st_get (fun w => dw_repositories w !! id);
    st_fail (present found) ErrConflict;;
    write_repository repository;;
    projectVersion ← in_plan (incrementVersion "projects" projectID projectVersion now);
    insertProjectRepositoryActivity projectID operation "project_repository_bound" (rc_CanonicalWebURL connection) ""
      (rc_CanonicalWebURL connection) now;;
    in_plan (audit "project_repository" id None "bound" None (Some (projectRepositoryAuditValue repository connection)) operation now);;
    mret (mkProjectRepositoryMutation (mkProjectRepositoryWithConnection repository connection) projectVersion)).

Definition unbound (r : ProjectRepository) (by_ : UUID) (now : Time) : ProjectRepository :=
  mkProjectRepository (pr_ID r) (pr_ProjectID r) (pr_ConnectionID r) (pr_BoundBy r) (pr_BoundAt r) (Some by_) (Some now).
Definition Repositories_Unbind (projectID : UUID) (expectedProjectVersion : Z) (repositoryID : UUID) (operation : OperationActor)
    (now : Time) : DeliveryM ProjectRepositoryMutation :=
  st_lift (OperationActor_Validate operation);;
  delivery_tx (
    projectVersion ← open_project projectID expectedProjectVersion;
    found ← st_get (fun w => r ← dw_repositories w !! repositoryID;
      if pr_ProjectID r == projectID then with_connection w r else None);
    item ← st_or_err found ErrNotFound;
    let repository := pc_Repository item in
    let connection := pc_Connection item in
    st_fail (negb (ProjectRepository_Active repository)) ErrConflict;;
    let updated := unbound repository (op_UserID operation) now in
    write_repository updated;;
    projectVersion ← in_plan (incrementVersion "projects" projectID projectVersion now);
    insertProjectRepositoryActivity projectID operation "project_repository_unbound" (rc_CanonicalWebURL connection)
      (rc_CanonicalWebURL connection) "" now;;
    in_plan (audit "project_repository" repositoryID None "unbound" (Some (projectRepositoryAuditValue repository connection))
      (Some (projectRepositoryAuditValue updated connection)) operation now);;
    mret (mkProjectRepositoryMutation (mkProjectRepositoryWithConnection updated connection) projectVersion)).

(** ** internal/store/task_code_change_store.go *)

Record TaskDeliverySnapshot := mkTaskDeliverySnapshot {
  td_ReviewCycle : Z;
  td_CodeChanges : list CodeChangeSnapshot;
}.
Record TaskCodeChangeWithRepository := mkTaskCodeChangeWithRepository {
  tr_CodeChange : TaskCodeChange;
  tr_Repository : ProjectRepository;
  tr_Connection : RepositoryConnection;
}.
Record TaskCodeChangeMutation := mkTaskCodeChangeMutation {
  tm_Task : TaskWorkflowSnapshot;
  tm_CodeChange : TaskCodeChangeWithRepository;
}.

Definition actorFromStored (actorType : string) (userID : option UUID) (ref : option string) : Actor :=
  mkActor actorType userID (default "" ref).
(** The row of a link, with its binding and Connection. *)
Definition scan_code_change (r : CodeChangeRow) (provider : RepositoryProvider) : TaskCodeChange :=
  mkTaskCodeChange (cr_id r) (cr_task_id r) (cr_project_id r) (cr_project_repository_id r) provider (cr_kind r) (cr_change_number r)
    (cr_provider_change_id r) (cr_web_url r)
    (actorFromStored (cr_linked_by_type r) (cr_linked_by_user_id r) (cr_linked_by_ref r)) (cr_linked_through_claim_id r)
    (cr_linked_at r) ((fun ty => actorFromStored ty (cr_unlinked_by_user_id r) (cr_unlinked_by_ref r)) <$> cr_unlinked_by_type r)
    (cr_unlinked_through_claim_id r) (cr_unlinked_at r) (cr_observation r) (cr_created_at r) (cr_updated_at r).
Definition scanTaskCodeChangeWithRepository (w : DeliveryWorld) (r : CodeChangeRow) : option TaskCodeChangeWithRepository :=
  repository ← dw_repositories w !! cr_project_repository_id r;
  connection ← dw_connections w !! pr_ConnectionID repository;
  Some (mkTaskCodeChangeWithRepository (scan_code_change r (rc_Provider connection)) repository connection).

(** [ORDER BY connection.provider, connection.origin, connection.provider_repository_id, code_change.kind,
    code_change.change_number, code_change.id], texts in the collation of the database. *)
Definition compare_links (collate : string -> string -> comparison) (a b : TaskCodeChangeWithRepository) : comparison :=
  let c x := tr_Connection x in
  let l x := tr_CodeChange x in
  lexicographic [collate (rc_Provider (c a)) (rc_Provider (c b)); collate (rc_Origin (c a)) (rc_Origin (c b));
    collate (rc_ProviderRepositoryID (c a)) (rc_ProviderRepositoryID (c b)); collate (tcc_Kind (l a)) (tcc_Kind (l b));
    Z.compare (tcc_ChangeNumber (l a)) (tcc_ChangeNumber (l b)); N.compare (tcc_ID (l a)) (tcc_ID (l b))].
Definition active_links (w : DeliveryWorld) (taskID : UUID) : list CodeChangeRow :=
  select (fun r => (cr_task_id r == taskID) && linked r) (task_code_changes (dw_db w)).
Definition CodeChanges_ListActive (collate : string -> string -> comparison) (taskID : UUID) : DeliveryM (list TaskCodeChangeWithRepository) :=
  st_get (fun w => merge_sort (fun a b => compare_links collate a b <> Gt) (omap (scanTaskCodeChangeWithRepository w) (active_links w taskID))).

(** [ORDER BY item.created_at DESC, item.id DESC LIMIT 1] *)
Definition completion_items (taskID : UUID) (cycle : Z) (d : DB) : list ItemRow :=
  order_by_desc (fun r => (i_created_at r, i_id r))
    (select (fun r => match task_threads d !! i_thread_id r with Some h => h_task_id h == taskID | None => false end &&
       (i_kind r == "execution_completed") && (i_task_review_cycle r == Some cycle)) (task_thread_items d)).
Definition GetReviewSnapshot (taskID : UUID) (reviewCycle : Z) : DeliveryM (option TaskDeliverySnapshot) :=
  if reviewCycle <? 1 then mret None
  else
    items ← st_get (fun w => completion_items taskID reviewCycle (dw_db w));
    match head items with
    | None => mret None
    | Some r =>
        match i_typed_payload r with
        | Some (ExecutionCompletedJSON p) => mret (Some (mkTaskDeliverySnapshot (ecp_ReviewCycle p) (ecp_CodeChanges p)))
        | _ => st_throw ErrOther
        end
    end.

Definition lockActiveProjectRepository (repositoryID projectID : UUID) : DeliveryM (ProjectRepository * RepositoryConnection) :=
  found ← st_get (fun w => r ← dw_repositories w !! repositoryID; c ← dw_connections w !! pr_ConnectionID r;
    if (pr_ProjectID r == projectID) && ProjectRepository_Active r && active_connection c then Some (r, c) else None);
  st_or_err found ErrNotFound.

Definition taskCodeChangeAuditValue (c : TaskCodeChange) (connection : RepositoryConnection) : AuditValue :=
  AuditCodeChange (tcc_ProjectRepositoryID c) (rc_Provider connection) (rc_ProviderRepositoryID connection) (tcc_Kind c)
    (tcc_ChangeNumber c) (tcc_ProviderChangeID c) (tcc_WebURL c) (ob_HeadSHA (tcc_LatestObservation c))
    (ob_Status (tcc_LatestObservation c)).

(** The Claim of the caller, during execution. *)
Definition execution_claim (taskNumber : Z) (claimID : UUID) (expectedTaskVersion expectedClaimVersion : Z) (actor : Actor)
    (operation : OperationActor) : DeliveryM (workflowTask * TaskStageClaim) :=
  '(task, claim) ← in_work (lockOwnedWorkflowClaim taskNumber claimID expectedTaskVersion expectedClaimVersion actor operation);
  st_fail (present (wt_ArchivedAt task) || (Phase (wt_Lifecycle task) != TaskPhaseInProgress) ||
           (Activity (wt_Lifecycle task) != TaskActivityWorking) || (sc_Stage claim != TaskClaimStageExecution)) ErrInvalidTransition;;
  mret (task, claim).

(** [INSERT INTO task_code_changes (...)] *)
Definition link_row (link : TaskCodeChange) : CodeChangeRow :=
  mkCodeChangeRow (tcc_ID link) (tcc_TaskID link) (tcc_ProjectID link) (tcc_ProjectRepositoryID link) (tcc_Kind link)
    (tcc_ChangeNumber link) (tcc_ProviderChangeID link) (tcc_WebURL link) (actor_Type (tcc_LinkedBy link))
    (actor_UserID (tcc_LinkedBy link)) (nullIfEmpty (actor_Ref (tcc_LinkedBy link))) (tcc_LinkedThroughClaimID link)
    (tcc_LinkedAt link) None None None None None (tcc_LatestObservation link) (tcc_CreatedAt link) (tcc_UpdatedAt link).
Definition link_keys (r : CodeChangeRow) (w : DeliveryWorld) : bool :=
  let d := dw_db w in
  match tasks d !! cr_task_id r with Some t => t_project_id t == cr_project_id r | None => false end &&
  match dw_repositories w !! cr_project_repository_id r with Some x => pr_ProjectID x == cr_project_id r | None => false end &&
  fk (Some (cr_project_id r)) (projects d) && fk (cr_linked_by_user_id r) (users d) && fk (cr_unlinked_by_user_id r) (users d) &&
  fk (Some (cr_linked_through_claim_id r)) (dom (task_stage_claims d)) &&
  fk (cr_unlinked_through_claim_id r) (dom (task_stage_claims d)).
Definition write_link (r : CodeChangeRow) : DeliveryM unit :=
  w ← st_get (fun w => w);
  st_fail (negb (task_code_changes_checks r)) ErrInvalidInput;;
  st_fail (link_taken r (dw_db w)) ErrConflict;;
  st_fail (negb (link_keys r w)) ErrInvalidInput;;
  st_mod (put_code_change r).

Definition ActivityFieldCodeChanges : string := "code_changes".

Definition CodeChanges_Link (taskNumber : Z) (claimID : UUID) (expectedTaskVersion expectedClaimVersion : Z)
    (projectRepositoryID : UUID) (codeChange : CodeChange) (actor : Actor) (operation : OperationActor) (now : Time)
    : DeliveryM TaskCodeChangeMutation :=
  st_lift (CodeChange_Validate codeChange);;
  st_fail (ob_Status (cc_Observation codeChange) != CodeChangeObservationConfirmed) ErrInvalidInput;;
  delivery_tx (
    '(task, claim) ← execution_claim taskNumber claimID expectedTaskVersion expectedClaimVersion actor operation;
    '(repository, connection) ← lockActiveProjectRepository projectRepositoryID (wt_ProjectID task);
    st_fail (rc_Provider connection != cc_Provider codeChange) ErrConflict;;
    id ← in_plan new_uuid;
    let link := mkTaskCodeChange id (wt_TaskID task) (wt_ProjectID task) (pr_ID repository) (cc_Provider codeChange)
      (cc_Kind codeChange) (cc_ChangeNumber codeChange) (cc_ProviderChangeID codeChange) (cc_WebURL codeChange) actor (sc_ID claim)
      now None None None (cc_Observation codeChange) now now in
    st_lift (TaskCodeChange_Validate link);;
    found ← st_get (fun w => task_code_changes (dw_db w) !! id);
    st_fail (present found) ErrConflict;;
    write_link (link_row link);;
    task ← in_work (persistWorkflowTask task expectedTaskVersion now);
    in_work (insertActivity (wt_TaskID task) operation ActivityFieldCodeChanges None (Some (tcc_WebURL link)));;
    in_plan (audit "task_code_change" id (Some (wt_TaskNumber task)) "linked" None
      (Some (taskCodeChangeAuditValue link connection)) operation now);;
    mret (mkTaskCodeChangeMutation (wt_snapshot task) (mkTaskCodeChangeWithRepository link repository connection))).

Definition unlinked_row (r : CodeChangeRow) (actor : Actor) (claimID : UUID) (now : Time) : CodeChangeRow :=
  mkCodeChangeRow (cr_id r) (cr_task_id r) (cr_project_id r) (cr_project_repository_id r) (cr_kind r) (cr_change_number r)
    (cr_provider_change_id r) (cr_web_url r) (cr_linked_by_type r) (cr_linked_by_user_id r) (cr_linked_by_ref r)
    (cr_linked_through_claim_id r) (cr_linked_at r) (Some (actor_Type actor)) (actor_UserID actor) (nullIfEmpty (actor_Ref actor))
    (Some claimID) (Some now) (cr_observation r) (cr_created_at r) now.
Definition unlinked_item (item : TaskCodeChangeWithRepository) (actor : Actor) (claimID : UUID) (now : Time) : TaskCodeChangeWithRepository :=
  let c := tr_CodeChange item in
  mkTaskCodeChangeWithRepository (mkTaskCodeChange (tcc_ID c) (tcc_TaskID c) (tcc_ProjectID c) (tcc_ProjectRepositoryID c)
    (tcc_Provider c) (tcc_Kind c) (tcc_ChangeNumber c) (tcc_ProviderChangeID c) (tcc_WebURL c) (tcc_LinkedBy c)
    (tcc_LinkedThroughClaimID c) (tcc_LinkedAt c) (Some actor) (Some claimID) (Some now) (tcc_LatestObservation c) (tcc_CreatedAt c) now)
    (tr_Repository item) (tr_Connection item).
Definition CodeChanges_Unlink (taskNumber : Z) (claimID : UUID) (expectedTaskVersion expectedClaimVersion : Z) (linkID : UUID)
    (actor : Actor) (operation : OperationActor) (now : Time) : DeliveryM TaskCodeChangeMutation :=
  delivery_tx (
    '(task, claim) ← execution_claim taskNumber claimID expectedTaskVersion expectedClaimVersion actor operation;
    found ← st_get (fun w => r ← task_code_changes (dw_db w) !! linkID;
      if cr_task_id r == wt_TaskID task then pair r <$> scanTaskCodeChangeWithRepository w r else None);
    '(r, item) ← st_or_err found ErrNotFound;
    st_fail (negb (TaskCodeChange_Active (tr_CodeChange item))) ErrConflict;;
    write_link (unlinked_row r actor (sc_ID claim) now);;
    let item := unlinked_item item actor (sc_ID claim) now in
    task ← in_work (persistWorkflowTask task expectedTaskVersion now);
    in_work (insertActivity (wt_TaskID task) operation ActivityFieldCodeChanges (Some (tcc_WebURL (tr_CodeChange item))) None);;
    in_plan (audit "task_code_change" (tcc_ID (tr_CodeChange item)) (Some (wt_TaskNumber task)) "unlinked"
      (Some (taskCodeChangeAuditValue (tr_CodeChange item) (tr_Connection item))) None operation now);;
    mret (mkTaskCodeChangeMutation (wt_snapshot task) item)).

(** [CASE WHEN $2='confirmed' THEN ... ELSE ... END] of every column but the status and the time *)
Definition observed (o o' : CodeChangeObservation) : CodeChangeObservation :=
  if ob_Status o' == CodeChangeObservationConfirmed then o'
  else mkCodeChangeObservation (ob_Status o') (ob_ObservedAt o') (ob_Title o) (ob_State o) (ob_Draft o) (ob_SourceBranch o)
         (ob_TargetBranch o) (ob_HeadSHA o) (ob_MergeCommitSHA o) (ob_MergedAt o) (ob_ProviderUpdatedAt o).

Definition observed_row (r : CodeChangeRow) (observation : CodeChangeObservation) (now : Time) : CodeChangeRow :=
  mkCodeChangeRow (cr_id r) (cr_task_id r) (cr_project_id r) (cr_project_repository_id r) (cr_kind r) (cr_change_number r)
    (cr_provider_change_id r) (cr_web_url r) (cr_linked_by_type r) (cr_linked_by_user_id r) (cr_linked_by_ref r)
    (cr_linked_through_claim_id r) (cr_linked_at r) (cr_unlinked_by_type r) (cr_unlinked_by_user_id r) (cr_unlinked_by_ref r)
    (cr_unlinked_through_claim_id r) (cr_unlinked_at r) (observed (cr_observation r) observation) (cr_created_at r) now.
Definition UpdateObservation (linkID : UUID) (observation : CodeChangeObservation) (now : Time) : DeliveryM unit :=
  st_lift (CodeChangeObservation_Validate observation);;
  found ← st_get (fun w => task_code_changes (dw_db w) !! linkID);
  r ← st_or_err found ErrNotFound;
  st_fail (negb (task_code_changes_checks (observed_row r observation now))) ErrInvalidInput;;
  st_mod (put_code_change (observed_row r observation now)).
End stores.
