(* ===== verification/DeliveryInvariant.v ===== *)
(** * Consistency of repositories and code changes

    What the tables of repository connections, bindings and links satisfy between any two commands, how
    their rows may change, and that every method of the stores keeps to it. *)

From stdpp Require Import base tactics strings gmap list numbers sorting relations.
From S2P Require Import Prelude Actors Lifecycle StageClaim Delivery Thread Acceptance Database Tx State.
From S2P Require Import ThreadStore ClaimStore WorkflowStore WorkflowCommands TaskStore TaskGraph WorkflowEffects.
From S2P Require Import WorkflowInvariant WorkflowOutcomes WorkflowSafety TaskEffects TaskInvariant StoreCommands.
From S2P Require Import Refinement History Changes Records Workspace.
From S2P Require Import Access Membership PlanningStore CriteriaStore PlanningEffects PlanningCommands PlanningInvariant.
From S2P Require Import DeliveryStore.

(** ** What the other tables keep *)

Record plan_kept (p p' : PlanWorld) : Prop := {
  pk_sound : plan_sound p -> plan_sound p';
  pk_code : task_code_changes (pl_db p') = task_code_changes (pl_db p);
  pk_users : users (pl_db p') = users (pl_db p);
  pk_tasks : rows_kept same_project (tasks (pl_db p)) (tasks (pl_db p'));
  pk_claims : forall i, is_Some (task_stage_claims (pl_db p) !! i) -> is_Some (task_stage_claims (pl_db p') !! i);
  pk_projects : forall i, is_Some (pl_projects p !! i) -> is_Some (pl_projects p' !! i);
}.
#[global] Instance plan_kept_preorder : PreOrder plan_kept.
Proof.
  split.
  - intros p. split; auto. apply rows_kept_refl, _.
  - intros p1 p2 p3 [] []. split; try congruence; auto. by eapply rows_kept_trans; [apply _|..].
Qed.

Lemma edit_kept ext p p' : edit ext p p' -> plan_kept p p'.
Proof.
  intros He. split; [by apply (edit_sound ext)|..|exact (proj1 (edit_grows _ _ _ He))]; destruct He; try done; try apply rows_kept_refl, _.
  apply rows_kept_insert; [apply _|]. intros v Hv. by rewrite H in Hv; injection Hv as <-.
Qed.
Lemma edits_kept ext p p' : rtc (edit ext) p p' -> plan_kept p p'.
Proof. induction 1; [reflexivity|]. etrans; [by eapply edit_kept|done]. Qed.
Lemma world_kept p w' : plan_sound p -> wf (w_db w') -> planned (w_db w') -> work_kept (pl_db p) (w_db w') -> plan_kept p (set_world w' p).
Proof. intros Hs Hw Hp Hk. split; try apply Hk; [|auto]. intros _. by apply work_sound. Qed.

Section plan.
Context `{UUIDSource} `{TextForms} `{NameOrder}.
Lemma plan_step_kept c p : plan_sound p -> plan_kept p (plan_step c p).
Proof.
  intros Hs. destruct (is_work c) eqn:Hc; [|eapply edits_kept; by apply plan_step_edits; [|apply Hs]].
  destruct c as [c| | | | | | | | | | | | | | | | | | |]; try done. rewrite plan_step_work.
  destruct (step_keeps c (pl_world p) (ps_wf _ Hs) (ps_planned _ Hs)) as [Hw Hp].
  apply world_kept; try done. apply workspace_kept; apply Hs.
Qed.
End plan.

(** ** The tables *)

(** What is known of a code change does not depend on whether the last refresh reached it. *)
Definition last_known (o : CodeChangeObservation) : CodeChangeObservation :=
  mkCodeChangeObservation CodeChangeObservationConfirmed (ob_ObservedAt o) (ob_Title o) (ob_State o) (ob_Draft o) (ob_SourceBranch o)
    (ob_TargetBranch o) (ob_HeadSHA o) (ob_MergeCommitSHA o) (ob_MergedAt o) (ob_ProviderUpdatedAt o).
Definition known (o : CodeChangeObservation) : Prop := CodeChangeObservation_Validate (last_known o) = Ok tt.

Record connection_ok (i : UUID) (c : RepositoryConnection) : Prop := {
  ck_id : rc_ID c = i;
  ck_named : i <> uuid_Nil;
  ck_repository : blank (rc_ProviderRepositoryID c) = false;
  ck_checks : repository_connections_checks c = true;
}.
Record binding_ok (w : DeliveryWorld) (i : UUID) (r : ProjectRepository) : Prop := {
  bk_id : pr_ID r = i;
  bk_named : i <> uuid_Nil;
  bk_project : is_Some (pl_projects (dw_plan w) !! pr_ProjectID r);
  bk_connection : exists c, dw_connections w !! pr_ConnectionID r = Some c /\
    (ProjectRepository_Active r = true -> active_connection c = true);
}.
Record link_ok (w : DeliveryWorld) (i : UUID) (l : CodeChangeRow) : Prop := {
  lk_id : cr_id l = i;
  lk_named : i <> uuid_Nil;
  lk_checks : task_code_changes_checks l = true;
  lk_keys : link_keys l w = true;
  lk_kind : exists r c, dw_repositories w !! cr_project_repository_id l = Some r /\ dw_connections w !! pr_ConnectionID r = Some c /\
    CodeChangeKind_CompatibleWith (cr_kind l) (rc_Provider c) = true;
  lk_change : blank (cr_provider_change_id l) = false;
  lk_url : blank (cr_web_url l) = false;
  lk_known : known (cr_observation l);
}.

(** Two rows under two keys never both hold what [clash] compares. *)
Definition exclusive {V} (clash : V -> V -> bool) (m : gmap UUID V) : Prop :=
  forall i j x y, m !! i = Some x -> m !! j = Some y -> clash x y = true -> i = j.
Definition connections_clash (c c' : RepositoryConnection) : bool := active_connection c && active_connection c' && same_repository c c'.
Definition bindings_clash (r r' : ProjectRepository) : bool :=
  ProjectRepository_Active r && ProjectRepository_Active r' && (pr_ProjectID r' == pr_ProjectID r) &&
  (pr_ConnectionID r' == pr_ConnectionID r).
Definition links_clash (l l' : CodeChangeRow) : bool :=
  linked l && linked l' && (cr_task_id l' == cr_task_id l) && (cr_project_repository_id l' == cr_project_repository_id l) &&
  (cr_kind l' == cr_kind l) && (cr_change_number l' == cr_change_number l).

Record delivery_sound (w : DeliveryWorld) : Prop := {
  ds_plan : plan_sound (dw_plan w);
  ds_connections i c : dw_connections w !! i = Some c -> connection_ok i c;
  ds_one_connection : exclusive connections_clash (dw_connections w);
  ds_bindings i r : dw_repositories w !! i = Some r -> binding_ok w i r;
  ds_one_binding : exclusive bindings_clash (dw_repositories w);
  ds_links i l : task_code_changes (dw_db w) !! i = Some l -> link_ok w i l;
  ds_one_link : exclusive links_clash (task_code_changes (dw_db w));
}.

(** ** How rows may change *)

(** A Connection keeps the repository that it identifies, and stays disabled. *)
Record connection_kept (c c' : RepositoryConnection) : Prop := {
  cn_id : rc_ID c' = rc_ID c;
  cn_provider : rc_Provider c' = rc_Provider c;
  cn_origin : rc_Origin c' = rc_Origin c;
  cn_repository : rc_ProviderRepositoryID c' = rc_ProviderRepositoryID c;
  cn_label : rc_Label c' = rc_Label c;
  cn_created : rc_CreatedBy c' = rc_CreatedBy c /\ rc_CreatedAt c' = rc_CreatedAt c;
  cn_version : rc_Version c <= rc_Version c';
  cn_disabled : active_connection c = false -> c' = c;
}.
(** A binding keeps its Project and Connection, and stays unbound. *)
Record binding_kept (r r' : ProjectRepository) : Prop := {
  bn_id : pr_ID r' = pr_ID r;
  bn_project : pr_ProjectID r' = pr_ProjectID r;
  bn_connection : pr_ConnectionID r' = pr_ConnectionID r;
  bn_bound : pr_BoundBy r' = pr_BoundBy r /\ pr_BoundAt r' = pr_BoundAt r;
  bn_unbound : ProjectRepository_Active r = false -> r' = r;
}.
(** The unlinking of a row. *)
Definition unlinking (l : CodeChangeRow) :=
  (cr_unlinked_by_type l, cr_unlinked_by_user_id l, cr_unlinked_by_ref l, cr_unlinked_through_claim_id l, cr_unlinked_at l).
(** The code change that a row links to a Task, and who linked it. *)
Definition link_identity (l : CodeChangeRow) :=
  (cr_id l, cr_task_id l, cr_project_id l, cr_project_repository_id l, cr_kind l, cr_change_number l, cr_provider_change_id l,
   cr_web_url l, (cr_linked_by_type l, cr_linked_by_user_id l, cr_linked_by_ref l, cr_linked_through_claim_id l, cr_linked_at l,
   cr_created_at l)).
Record link_kept (l l' : CodeChangeRow) : Prop := {
  ln_identity : link_identity l' = link_identity l;
  ln_unlinked : linked l = false -> unlinking l' = unlinking l;
}.
#[global] Instance connection_kept_preorder : PreOrder connection_kept.
Proof.
  split; [by split|]. intros a b c [? ? ? ? ? [? ?] ? Ha] [? ? ? ? ? [? ?] ? Hb]. split; try congruence; [split; congruence|lia|].
  intros Hd. rewrite (Ha Hd) in Hb. auto.
Qed.
#[global] Instance binding_kept_preorder : PreOrder binding_kept.
Proof.
  split; [by split|]. intros a b c [? ? ? [? ?] Ha] [? ? ? [? ?] Hb]. split; try congruence; [split; congruence|].
  intros Hd. rewrite (Ha Hd) in Hb. auto.
Qed.
#[global] Instance link_kept_preorder : PreOrder link_kept.
Proof.
  split; [by split|]. intros a b c [? Ha] [? Hb]. split; [congruence|]. intros Hd. rewrite <- (Ha Hd). apply Hb.
  unfold linked in *. specialize (Ha Hd). unfold unlinking in Ha. congruence.
Qed.

Record history (w w' : DeliveryWorld) : Prop := {
  hy_connections : rows_kept connection_kept (dw_connections w) (dw_connections w');
  hy_repositories : rows_kept binding_kept (dw_repositories w) (dw_repositories w');
  hy_links : rows_kept link_kept (task_code_changes (dw_db w)) (task_code_changes (dw_db w'));
  hy_tasks : rows_kept same_project (tasks (dw_db w)) (tasks (dw_db w'));
}.
#[global] Instance history_preorder : PreOrder history.
Proof.
  split; [intros w; split; apply rows_kept_refl, _|]. intros w1 w2 w3 [] []. split; by eapply rows_kept_trans; [apply _|..].
Qed.
Definition orderly (w w' : DeliveryWorld) : Prop := history w w' /\ (delivery_sound w -> delivery_sound w').
#[global] Instance orderly_preorder : PreOrder orderly.
Proof. split; [by split|]. intros w1 w2 w3 [H1 S1] [H2 S2]. split; [by etrans|auto]. Qed.

(** ** Changes of the tables *)

Lemma fk_mono (o : option UUID) (A B : gset UUID) : fk o A = true -> A ⊆ B -> fk o B = true.
Proof. destruct o; cbn; [|done]. rewrite !bool_decide_eq_true. set_solver. Qed.
Lemma link_keys_mono w w' l : link_keys l w = true -> projects (dw_db w) ⊆ projects (dw_db w') -> users (dw_db w') = users (dw_db w) ->
  rows_kept same_project (tasks (dw_db w)) (tasks (dw_db w')) ->
  dom (task_stage_claims (dw_db w)) ⊆ dom (task_stage_claims (dw_db w')) ->
  rows_kept binding_kept (dw_repositories w) (dw_repositories w') -> link_keys l w' = true.
Proof.
  unfold link_keys. intros Hl Hp Eu Ht Hc Hr. rewrite !andb_true_iff in *. rewrite Eu. destruct_and! Hl.
  split_and!; try done; try by eapply fk_mono.
  - destruct (tasks (dw_db w) !! _) as [t|] eqn:E; [|done]. destruct (Ht _ _ E) as (t' & -> & Hs). by rewrite Hs.
  - destruct (dw_repositories w !! _) as [t|] eqn:E; [|done]. destruct (Hr _ _ E) as (t' & -> & Hs). by rewrite (bn_project _ _ Hs).
Qed.
Lemma link_keys_same w l l' : link_identity l' = link_identity l -> unlinking l' = unlinking l -> link_keys l' w = link_keys l w.
Proof. destruct l, l'. unfold link_identity, unlinking. cbn. intros Hi Hu. injection Hi as. injection Hu as. by subst. Qed.

(** Bindings and links hold of more rows. *)
Lemma binding_ok_mono w w' i r : binding_ok w i r -> (forall j, is_Some (pl_projects (dw_plan w) !! j) -> is_Some (pl_projects (dw_plan w') !! j)) ->
  (forall c, dw_connections w !! pr_ConnectionID r = Some c -> exists c', dw_connections w' !! pr_ConnectionID r = Some c' /\
     (ProjectRepository_Active r = true -> active_connection c = true -> active_connection c' = true)) -> binding_ok w' i r.
Proof.
  intros [? ? ? (c & Hc & Ha)] Hp Hk. split; auto. destruct (Hk _ Hc) as (c' & Hc' & Ha'). exists c'. auto.
Qed.
Lemma link_ok_mono w w' i l : link_ok w i l -> link_keys l w' = true -> rows_kept binding_kept (dw_repositories w) (dw_repositories w') ->
  rows_kept connection_kept (dw_connections w) (dw_connections w') -> link_ok w' i l.
Proof.
  intros [? ? ? ? (r & c & Hr & Hc & Hk) ? ? ?] Hl Kr Kc. split; auto. destruct (Kr _ _ Hr) as (r' & Hr' & Er).
  destruct (Kc _ _ Hc) as (c' & Hc' & Ec). exists r', c'. rewrite (bn_connection _ _ Er), (cn_provider _ _ Ec). done.
Qed.

Lemma exclusive_insert {V} (clash : V -> V -> bool) (m : gmap UUID V) k v :
  (forall x y, clash x y = clash y x) -> (forall j y, j <> k -> m !! j = Some y -> clash v y = false) -> exclusive clash m ->
  exclusive clash (<[k := v]> m).
Proof.
  intros Hsym Hv Hm i j x y Hx Hy Hc.
  apply lookup_put in Hx as [[-> ->]|[Hi Hx]]; apply lookup_put in Hy as [[-> ->]|[Hj Hy]]; [done|..].
  - by rewrite (Hv _ _ Hj Hy) in Hc.
  - by rewrite Hsym, (Hv _ _ Hi Hx) in Hc.
  - by eapply Hm.
Qed.

Lemma orderly_plan w p' : plan_kept (dw_plan w) p' -> orderly w (set_plan p' w).
Proof.
  intros [Ks Kc Ku Kt Kl Kp]. split.
  - split; cbn; try apply rows_kept_refl, _; [|done]. unfold dw_db. cbn. rewrite Kc. apply rows_kept_refl, _.
  - intros Hw. pose proof (Ks (ds_plan _ Hw)) as Hs. destruct Hw as [Hp C1 C2 B1 B2 L1 L2]. split; try done.
    + intros i r Hr. eapply binding_ok_mono; [by apply B1|exact Kp|]. cbn. eauto.
    + unfold dw_db. cbn. rewrite Kc. intros i l Hl. pose proof (L1 _ _ Hl) as Hok.
      eapply link_ok_mono; [exact Hok| |apply rows_kept_refl, _|apply rows_kept_refl, _].
      eapply link_keys_mono; [apply Hok|..]; try done; try apply rows_kept_refl, _; unfold dw_db; cbn [set_plan dw_plan].
      * rewrite (ps_projects _ Hp), (ps_projects _ Hs). intros j. rewrite !elem_of_dom. apply Kp.
      * intros j. rewrite !elem_of_dom. apply Kl.
    + unfold dw_db. cbn. by rewrite Kc.
Qed.
Lemma orderly_event w e : orderly w (add_event e w).
Proof.
  split; [split; apply rows_kept_refl, _|]. intros [Hp C1 C2 B1 B2 L1 L2]. split; try done.
  - intros i r Hr. eapply binding_ok_mono; [by apply B1|done|]. cbn. eauto.
  - intros i l Hl. pose proof (L1 _ _ Hl) as Hok. eapply link_ok_mono; [exact Hok|apply Hok|apply rows_kept_refl, _..].
Qed.
Lemma orderly_undone w w' : orderly w (undone w w').
Proof. apply orderly_plan, (edit_kept quiet), edit_drawn. Qed.

(** A row that no other row clashes with. *)
Lemma not_taken {V} (f : V -> bool) (m : gmap UUID V) j y : present (select_one f m) = false -> m !! j = Some y -> f y = false.
Proof. intros Hp%present_false Hy. by eapply (proj1 (select_one_None _ _) Hp). Qed.
Lemma negb_neq {A} `{EqDecision A} (x y : A) : x <> y -> (x != y) = true.
Proof. intros Hn. by rewrite bool_decide_eq_false_2. Qed.
Lemma eqb_sym {A} `{EqDecision A} (x y : A) : (x == y) = (y == x).
Proof. by apply bool_decide_ext. Qed.
Lemma same_repository_sym c c' : same_repository c c' = same_repository c' c.
Proof.
  unfold same_repository. rewrite (eqb_sym (rc_Provider c)), (eqb_sym (rc_Origin c)), (eqb_sym (rc_ProviderRepositoryID c)).
  by rewrite (eqb_sym (rc_PathLookupKey c)).
Qed.
Lemma connections_clash_sym c c' : connections_clash c c' = connections_clash c' c.
Proof. unfold connections_clash. rewrite same_repository_sym. by rewrite (andb_comm (active_connection c)). Qed.
Lemma bindings_clash_sym r r' : bindings_clash r r' = bindings_clash r' r.
Proof.
  unfold bindings_clash. rewrite (eqb_sym (pr_ProjectID r')), (eqb_sym (pr_ConnectionID r')).
  by rewrite (andb_comm (ProjectRepository_Active r)).
Qed.
Lemma links_clash_sym l l' : links_clash l l' = links_clash l' l.
Proof.
  unfold links_clash. rewrite (eqb_sym (cr_task_id l')), (eqb_sym (cr_project_repository_id l')), (eqb_sym (cr_kind l')).
  by rewrite (eqb_sym (cr_change_number l')), (andb_comm (linked l)).
Qed.

Lemma connection_free w c j y : (forall i c, dw_connections w !! i = Some c -> connection_ok i c) -> connection_taken c w = false ->
  j <> rc_ID c -> dw_connections w !! j = Some y -> connections_clash c y = false.
Proof.
  unfold connection_taken, connections_clash. intros Hk Ht Hj Hy. destruct (active_connection c); cbn in *; [|done].
  pose proof (not_taken _ _ _ _ Ht Hy) as Hf. cbn in Hf. rewrite negb_neq in Hf; [done|]. by rewrite (ck_id _ _ (Hk _ _ Hy)).
Qed.
Lemma binding_free w r j y : (forall i r, dw_repositories w !! i = Some r -> binding_ok w i r) -> binding_taken r w = false ->
  j <> pr_ID r -> dw_repositories w !! j = Some y -> bindings_clash r y = false.
Proof.
  unfold binding_taken, bindings_clash. intros Hk Ht Hj Hy. destruct (ProjectRepository_Active r); cbn [andb] in *; [|done].
  pose proof (not_taken _ _ _ _ Ht Hy) as Hf. cbn beta in Hf. rewrite negb_neq in Hf; [done|]. by rewrite (bk_id _ _ _ (Hk _ _ Hy)).
Qed.
Lemma link_free w l j y : (forall i l, task_code_changes (dw_db w) !! i = Some l -> link_ok w i l) -> link_taken l (dw_db w) = false ->
  j <> cr_id l -> task_code_changes (dw_db w) !! j = Some y -> links_clash l y = false.
Proof.
  unfold link_taken, links_clash. intros Hk Ht Hj Hy. destruct (linked l); cbn [andb] in *; [|done].
  pose proof (not_taken _ _ _ _ Ht Hy) as Hf. cbn beta in Hf. rewrite negb_neq in Hf; [done|]. by rewrite (lk_id _ _ _ (Hk _ _ Hy)).
Qed.

Lemma orderly_connection w c : connection_ok (rc_ID c) c -> connection_taken c w = false ->
  (forall c0, dw_connections w !! rc_ID c = Some c0 -> connection_kept c0 c) ->
  (forall i r, dw_repositories w !! i = Some r -> pr_ConnectionID r = rc_ID c -> ProjectRepository_Active r = true ->
     active_connection c = true) ->
  orderly w (put_connection c w).
Proof.
  intros Hc Ht Hold Hb. assert (rows_kept connection_kept (dw_connections w) (dw_connections (put_connection c w))) as Hk.
  { apply rows_kept_insert; [apply _|done]. }
  split; [by split; try apply rows_kept_refl, _|]. intros [Hp C1 C2 B1 B2 L1 L2]. split; try done.
  - intros i y Hy. apply lookup_put in Hy as [[-> ->]|[_ Hy]]; auto.
  - apply exclusive_insert; [apply connections_clash_sym| |done]. intros j y. by apply connection_free.
  - intros i r Hr. eapply binding_ok_mono; [by apply B1|done|]. intros y Hy. destruct (Hk _ _ Hy) as (y' & Hy' & _).
    exists y'. split; [done|]. intros Ha Hac. cbn in Hy'. apply lookup_put in Hy' as [[E ->]|[_ E]]; [eauto|congruence].
  - intros i l Hl. pose proof (L1 _ _ Hl) as Hok. eapply link_ok_mono; [exact Hok|apply Hok|apply rows_kept_refl, _|done].
Qed.
Lemma orderly_binding w r : binding_ok w (pr_ID r) r -> binding_taken r w = false ->
  (forall r0, dw_repositories w !! pr_ID r = Some r0 -> binding_kept r0 r) -> orderly w (put_repository r w).
Proof.
  intros Hr Ht Hold. assert (rows_kept binding_kept (dw_repositories w) (dw_repositories (put_repository r w))) as Hk.
  { apply rows_kept_insert; [apply _|done]. }
  split; [by split; try apply rows_kept_refl, _|]. intros [Hp C1 C2 B1 B2 L1 L2]. split; try done.
  - intros i y Hy. apply (binding_ok_mono w); [|done|by eauto]. apply lookup_put in Hy as [[-> ->]|[_ Hy]]; auto.
  - apply exclusive_insert; [apply bindings_clash_sym| |done]. intros j y. by apply binding_free.
  - intros i l Hl. pose proof (L1 _ _ Hl) as Hok. eapply link_ok_mono; [exact Hok| |done|apply rows_kept_refl, _].
    eapply link_keys_mono; [apply Hok|..]; try done; apply rows_kept_refl, _.
Qed.
Lemma orderly_link w l : link_ok w (cr_id l) l ->
  (delivery_sound w -> forall j y, j <> cr_id l -> task_code_changes (dw_db w) !! j = Some y -> links_clash l y = false) ->
  (forall l0, task_code_changes (dw_db w) !! cr_id l = Some l0 -> link_kept l0 l) -> orderly w (put_code_change l w).
Proof.
  intros Hl Ht Hold. split; [split; try apply rows_kept_refl, _; by apply rows_kept_insert; [apply _|]|].
  intros Hw. specialize (Ht Hw). destruct Hw as [Hp C1 C2 B1 B2 L1 L2]. split; try done.
  - destruct Hp as [[] [] ? ? ? ? ? ?]. by split.
  - intros i r Hr. apply (binding_ok_mono w); [auto|done|by eauto].
  - intros i y Hy. assert (link_ok w i y) as Hok by (apply lookup_put in Hy as [[-> ->]|[_ Hy]]; auto).
    apply (link_ok_mono w); [done|apply Hok|apply rows_kept_refl, _..].
  - apply exclusive_insert; [apply links_clash_sym|done..].
Qed.

(** ** The methods of the stores *)

Section methods.
Context `{UUIDSource}.

(** A run, successful or not, and a successful run. *)
Definition ordered {A} (m : DeliveryM A) : Prop := forall w, delivery_sound w -> orderly w (m w).2.
Definition leads {A} (m : DeliveryM A) : Prop := forall w, delivery_sound w -> wp m w (fun _ w' => orderly w w').

Lemma leads_after {A B} (m : DeliveryM A) (f : A -> DeliveryM B) w :
  delivery_sound w -> wp m w (fun _ w' => orderly w w') -> (forall a, leads (f a)) -> wp (m ≫= f) w (fun _ w' => orderly w w').
Proof.
  intros Hw Hm Hf. apply wp_bind. eapply wp_mono; [exact Hm|]. intros a w1 H1. cbv beta in H1.
  eapply wp_mono; [by apply Hf, H1|]. intros b w2 H2. by etrans.
Qed.
Lemma leads_bind {A B} (m : DeliveryM A) (f : A -> DeliveryM B) : leads m -> (forall a, leads (f a)) -> leads (m ≫= f).
Proof. intros Hm Hf w Hw. apply leads_after; auto. Qed.
Lemma leads_keeps {A} (m : DeliveryM A) : keeps m -> leads m.
Proof. intros Hm w _ a w' E. specialize (Hm w). rewrite E in Hm. cbn in Hm. subst. reflexivity. Qed.
Lemma ordered_keeps {A} (m : DeliveryM A) : keeps m -> ordered m.
Proof. intros Hm w _. rewrite Hm. reflexivity. Qed.
Lemma ordered_bind {A B} (m : DeliveryM A) (f : A -> DeliveryM B) : ordered m -> (forall a, ordered (f a)) -> ordered (m ≫= f).
Proof.
  intros Hm Hf w Hw. specialize (Hm w Hw). unfold mbind, St_bind. destruct (m w) as [[a|e] w1]; [|done]. cbn in Hm.
  etrans; [done|]. by apply Hf, Hm.
Qed.
Lemma ordered_lift {A B} (r : result A) (f : A -> DeliveryM B) : (forall a, r = Ok a -> ordered (f a)) -> ordered (st_lift r ≫= f).
Proof. intros Hf w Hw. unfold st_lift, mbind, St_bind. destruct r; [by apply Hf|reflexivity]. Qed.
Lemma ordered_tx {A} (m : DeliveryM A) : leads m -> ordered (delivery_tx m).
Proof.
  intros Hm w Hw. unfold delivery_tx. specialize (Hm w Hw). destruct (m w) as [[a|e] w'] eqn:E; [by eapply Hm|]. apply orderly_undone.
Qed.

Lemma wp_delivery_tx {A} (m : DeliveryM A) w Q : wp m w Q -> wp (delivery_tx m) w Q.
Proof. intros Hm a w' E. unfold delivery_tx in E. destruct (m w) as [[b|e] w1] eqn:E1; [|done]. simplify_eq. by apply Hm. Qed.

Lemma in_plan_Ok {A} (m : PlanM A) w a w' : in_plan m w = (Ok a, w') <-> exists p, m (dw_plan w) = (Ok a, p) /\ w' = set_plan p w.
Proof. unfold in_plan. destruct (m (dw_plan w)) as [[] p]; naive_solver. Qed.
Lemma wp_in_plan {A} (m : PlanM A) w Q : wp m (dw_plan w) (fun a p => Q a (set_plan p w)) -> wp (in_plan m) w Q.
Proof. intros Hm a w' (p & E & ->)%in_plan_Ok. by apply Hm. Qed.
Lemma leads_plan {A} (m : PlanM A) : oks quiet m -> leads (in_plan m).
Proof.
  intros Hm w Hw. apply wp_in_plan. eapply wp_mono; [apply Hm, Hw|]. intros a p Hp. eapply orderly_plan, edits_kept, Hp.
Qed.
Lemma leads_logs {A} (m : M A) : logs m -> leads (in_work m).
Proof.
  intros Hm w Hw. apply wp_in_plan. intros a p' (x & E & ->)%on_world_Ok. apply Hm in E. apply orderly_plan, world_kept.
  - apply Hw.
  - eapply logged_wf, ps_wf; [exact E|apply Hw].
  - eapply logged_planned, ps_planned; [exact E|apply Hw].
  - by apply logged_work_kept.
Qed.
Lemma leads_get_w {A B} (q : DeliveryWorld -> A) (f : A -> DeliveryM B) :
  (forall w, delivery_sound w -> wp (f (q w)) w (fun _ w' => orderly w w')) -> leads (st_get q ≫= f).
Proof. intros Hf w Hw. apply wp_bind, wp_get. auto. Qed.

(** *** Repository connections *)

Lemma ordered_uuid : ordered (in_plan new_uuid).
Proof. intros w Hw. apply orderly_plan, (edits_kept quiet), (does_uuid quiet), Hw. Qed.
Lemma ordered_event connectionID actorUserID eventType outcome provider origin repositoryID category requestID now :
  ordered (insertRepositoryConnectionEvent connectionID actorUserID eventType outcome provider origin repositoryID category requestID now).
Proof.
  apply ordered_bind; [apply ordered_uuid|]. intros id. apply ordered_bind; [by apply ordered_keeps|]. intros w1.
  apply ordered_bind; [by apply ordered_keeps|]. intros _ w Hw. apply orderly_event.
Qed.
Lemma ordered_leads {A} (m : DeliveryM A) : ordered m -> leads m.
Proof. intros Hm w Hw a w' E. specialize (Hm w Hw). by rewrite E in Hm. Qed.
Lemma leads_connection_audit action old new id operation now : leads (connection_audit action old new id operation now).
Proof. apply leads_plan, oks_audit. Qed.
Lemma leads_recorded c eventType action old new id operation now :
  leads (connection_event c eventType operation now;; connection_audit action old new id operation now;; mret c).
Proof.
  apply leads_bind; [apply ordered_leads, ordered_event|intros _]. apply leads_bind; [apply leads_connection_audit|intros _]. by apply leads_keeps.
Qed.

Lemma wp_write_connection w c : delivery_sound w -> rc_ID c <> uuid_Nil -> blank (rc_ProviderRepositoryID c) = false ->
  (forall c0, dw_connections w !! rc_ID c = Some c0 -> connection_kept c0 c) ->
  (forall i r, dw_repositories w !! i = Some r -> pr_ConnectionID r = rc_ID c -> ProjectRepository_Active r = true ->
     active_connection c = true) ->
  wp (write_connection c) w (fun _ w' => orderly w w').
Proof.
  intros Hw Hi Hr Hk Hb. unfold write_connection. wp_steps. apply negb_false_iff in H0. by apply orderly_connection.
Qed.
Lemma valid_connection c : RepositoryConnection_Validate c = Ok tt -> rc_ID c <> uuid_Nil /\ blank (rc_ProviderRepositoryID c) = false.
Proof. unfold RepositoryConnection_Validate. intros Hc. apply bind_Ok in Hc as ([] & Hc%fail_if_Ok & _). by go_bool. Qed.

Lemma ordered_create connection operation : ordered (Connections_Create connection operation).
Proof.
  apply ordered_lift. intros [] [Hi Hr]%valid_connection. apply ordered_lift. intros [] _. apply ordered_tx. intros w Hw.
  apply leads_after; [done| |intros c; apply leads_recorded]. unfold insert_connection.
  apply wp_bind, wp_get, wp_bind, wp_fail. intros Hn%present_false. apply leads_after; [done| |by intros; apply leads_keeps].
  cbn in Hn. apply wp_write_connection; try done; cbn.
  - by rewrite Hn.
  - intros i r Hb Ec _. destruct (bk_connection _ _ _ (ds_bindings _ Hw _ _ Hb)) as (c & Hc & _). by rewrite Ec, Hn in Hc.
Qed.
Lemma lock_connection_Ok id v w c w' :
  lock_connection id v w = (Ok c, w') -> w' = w /\ dw_connections w !! id = Some c /\ rc_Version c = v /\ active_connection c = true.
Proof.
  revert c w'. change (wp (lock_connection id v) w (fun c w' => w' = w /\ dw_connections w !! id = Some c /\ rc_Version c = v /\
    active_connection c = true)).
  unfold lock_connection, Connections_Get. wp_steps. go_bool. split_and!; try done. by apply bool_decide_eq_true.
Qed.
Lemma wp_lock_connection id v w (Q : RepositoryConnection -> DeliveryWorld -> Prop) :
  (forall c, dw_connections w !! id = Some c -> active_connection c = true -> Q c w) -> wp (lock_connection id v) w Q.
Proof. intros HQ c w' (-> & Hc & _ & Ha)%lock_connection_Ok. auto. Qed.

Lemma ordered_validated id v validation replacement eventType operation :
  ordered (updateValidated id v validation replacement eventType operation).
Proof.
  apply ordered_lift. intros [] _. apply ordered_tx. intros w Hw. apply wp_bind, wp_lock_connection. intros c Hc Ha.
  destruct (ds_connections _ Hw _ _ Hc) as [Hi Hn Hr _]. do 6 wp_step. cbv zeta.
  apply leads_after; [done| |intros _; apply leads_recorded]. apply wp_write_connection; cbn; try done; [congruence|].
  rewrite Hi, Hc. intros c0 [= <-]. split; try done; [cbn; lia|]. by rewrite Ha.
Qed.
Lemma active_bindings_none id w i r : (0 <? Z.of_nat (length (active_bindings id w))) = false -> dw_repositories w !! i = Some r ->
  pr_ConnectionID r = id -> ProjectRepository_Active r = false.
Proof.
  intros Hl Hr <-. apply not_true_is_false. intros Ha. assert (r ∈ active_bindings (pr_ConnectionID r) w) as Hin.
  { apply elem_of_select. rewrite bool_decide_eq_true_2, Ha by done. eauto. }
  apply Z.ltb_ge in Hl. destruct (active_bindings _ w); [set_solver|cbn in Hl; lia].
Qed.
Lemma ordered_disable id v operation now : ordered (Connections_Disable id v operation now).
Proof.
  apply ordered_lift. intros [] _. apply ordered_tx. intros w Hw. apply wp_bind, wp_lock_connection. intros c Hc Ha.
  destruct (ds_connections _ Hw _ _ Hc) as [Hi Hn Hr _]. do 6 wp_step. cbv zeta.
  apply leads_after; [done| |intros _; apply leads_recorded]. apply wp_write_connection; cbn; try done; [congruence|..].
  - rewrite Hi, Hc. intros c0 [= <-]. split; try done; [cbn; lia|]. by rewrite Ha.
  - intros i r Hb Ec Hact. rewrite (active_bindings_none id w i r) in Hact; try done. congruence.
Qed.

(** *** Bindings *)

Definition redrawn (w : DeliveryWorld) : DeliveryWorld :=
  set_plan (drawn (S (w_next (pl_world (dw_plan w)))) (pl_numbers (dw_plan w)) (dw_plan w)) w.
Lemma wp_uuid w (Q : UUID -> DeliveryWorld -> Prop) :
  delivery_sound w -> (forall id, delivery_sound (redrawn w) -> orderly w (redrawn w) -> Q id (redrawn w)) -> wp (in_plan new_uuid) w Q.
Proof.
  intros Hw HQ id w' E. assert (w' = redrawn w) as ->.
  { unfold in_plan, new_uuid, on_world, uuid_New in E. cbn in E. injection E as _ <-. unfold redrawn, drawn. by destruct w as [[] ? ? ?]. }
  assert (orderly w (redrawn w)) as Ho by (apply orderly_plan, (edit_kept quiet), edit_drawn). apply HQ; [|done]. by apply Ho.
Qed.

Lemma set_plan_same w : set_plan (dw_plan w) w = w.
Proof. by destruct w. Qed.
Lemma wp_open_project id v w (Q : Z -> DeliveryWorld -> Prop) :
  (forall x, pl_projects (dw_plan w) !! id = Some x -> p_ArchivedAt x = None -> Q v w) -> wp (open_project id v) w Q.
Proof.
  intros HQ. unfold open_project. apply wp_bind, wp_in_plan. eapply wp_mono; [apply wp_keeps, keeps_lock|]. intros v' p' ->.
  rewrite set_plan_same. wp_steps. go_bool. apply present_false in H2. subst. by eapply HQ.
Qed.

Lemma valid_binding r : ProjectRepository_Validate r = Ok tt -> pr_ID r <> uuid_Nil.
Proof. unfold ProjectRepository_Validate. intros Hr. apply bind_Ok in Hr as ([] & Hr%fail_if_Ok & _). by go_bool. Qed.
Lemma wp_write_binding w r : delivery_sound w -> pr_ID r <> uuid_Nil ->
  (forall c, dw_connections w !! pr_ConnectionID r = Some c -> ProjectRepository_Active r = true -> active_connection c = true) ->
  (forall r0, dw_repositories w !! pr_ID r = Some r0 -> binding_kept r0 r) ->
  wp (write_repository r) w (fun _ w' => orderly w w').
Proof.
  intros Hw Hi Hc Hk. unfold write_repository. wp_steps. apply negb_false_iff in H2. rewrite !andb_true_iff in H2.
  destruct H2 as [[[Hp [c Hx]%present_true] _] _]. apply present_true in Hp. apply orderly_binding; [split; eauto|done..].
Qed.
Lemma leads_binding_recorded {A} projectID v operation now action reason old new id action' value value' (f : Z -> A) :
  leads (projectVersion ← in_plan (incrementVersion "projects" projectID v now);
    insertProjectRepositoryActivity projectID operation action reason old new now;;
    in_plan (audit "project_repository" id None action' value value' operation now);;
    mret (f projectVersion)).
Proof.
  apply leads_bind; [apply leads_plan, oks_increment|intros ?]. apply leads_bind; [apply leads_plan, oks_activity|intros _].
  apply leads_bind; [apply leads_plan, oks_audit|intros _]. by apply leads_keeps.
Qed.
Lemma ordered_bind_repository projectID v connectionID operation now : ordered (Repositories_Bind projectID v connectionID operation now).
Proof.
  apply ordered_lift. intros [] _. apply ordered_tx. intros w Hw. apply wp_bind, wp_open_project. intros x Hx _.
  unfold Connections_Get. do 6 wp_step. apply wp_bind, wp_uuid; [done|]. intros id Hw1 Ho. cbv zeta. do 6 wp_step.
  match goal with u : unit |- _ => destruct u end.
  eapply wp_mono; [apply leads_after; [done| |intros _; apply leads_binding_recorded]|intros ? w' Hw'; by etrans].
  apply wp_write_binding; [done|by eapply valid_binding|..]; cbn.
  - rewrite H0. intros c [= <-] _. by apply negb_false_iff in H1.
  - apply present_false in H3. cbn in H3. by rewrite H3.
Qed.
Lemma ordered_unbind projectID v repositoryID operation now : ordered (Repositories_Unbind projectID v repositoryID operation now).
Proof.
  apply ordered_lift. intros [] _. apply ordered_tx. intros w Hw. apply wp_bind, wp_open_project. intros x Hx _. do 4 wp_step. cbv zeta. do 2 wp_step.
  match goal with Hf : (_ ≫= _) = Some _ |- _ => apply bind_Some in Hf as (r & Hr & Hf) end. case_bool_decide; [|done].
  unfold with_connection in *. destruct (dw_connections w !! pr_ConnectionID r) as [c|] eqn:Hc; [|done]. simplify_eq/=. go_bool.
  destruct (ds_bindings _ Hw _ _ Hr) as [Hi Hn _ _].
  apply leads_after; [done| |intros _; apply leads_binding_recorded]. apply wp_write_binding; cbn; try done; [congruence|].
  rewrite Hi, Hr. intros r0 [= <-]. split; try done. congruence.
Qed.

(** *** Links *)

Lemma wp_in_work {A} (m : M A) w (Q : A -> DeliveryWorld -> Prop) :
  (forall a x, m (pl_world (dw_plan w)) = (Ok a, x) -> Q a (set_plan (set_world x (dw_plan w)) w)) -> wp (in_work m) w Q.
Proof. intros HQ. apply wp_in_plan. intros a p' (x & E & ->)%on_world_Ok. auto. Qed.

(** The caller holds the Claim of a Task that is being executed. *)
Record executing (d : DB) (n : Z) (claimID : UUID) (tv cv : Z) (actor : Actor) (op : OperationActor)
    (r : TaskRow) (h : ThreadRow) (l : TaskLifecycle) (c : ClaimRow) : Prop := {
  ex_owns : owns d n claimID tv cv actor op r h l c;
  ex_archived : t_archived_at r = None;
  ex_phase : Phase l = TaskPhaseInProgress;
  ex_activity : Activity l = TaskActivityWorking;
  ex_stage : c_stage c = TaskClaimStageExecution;
}.
Lemma wp_execution_claim n claimID tv cv actor op w (Q : workflowTask * TaskStageClaim -> DeliveryWorld -> Prop) :
  (forall r h l c, executing (dw_db w) n claimID tv cv actor op r h l c -> Q (load r (h_id h) l, scanTaskStageClaim c) w) ->
  wp (execution_claim n claimID tv cv actor op) w Q.
Proof.
  intros HQ. unfold execution_claim. apply wp_bind, wp_in_work. intros [task claim] x E.
  apply lockOwnedWorkflowClaim_Ok in E as (-> & r & h & l & c & Ho & -> & ->). rewrite set_world_same, set_plan_same.
  wp_steps. go_bool. apply present_false in H0. apply HQ. by split.
Qed.

Lemma touched_same_work r m l now v : row_lifecycle r = Some l -> Activity l <> "" ->
  same_work r (set_task_row r (with_Version (load r m l) v) now).
Proof.
  unfold row_lifecycle. destruct (t_phase r) as [ph|] eqn:E1, (t_review_cycle r) as [cy|] eqn:E2; try done. intros [= <-] Ha. cbn in Ha.
  split; cbn; try done. unfold nullIfEmpty. destruct (t_activity_state r) as [a|]; cbn in *; [|done]. by rewrite bool_decide_eq_false_2.
Qed.
Lemma touched_planned d i t t' : planned d -> tasks d !! i = Some t -> same_work t t' -> same_place t t' -> planned (put_task i t' d).
Proof.
  intros Hp Hi Hs Hpl. pose proof (sw_phase _ _ Hs) as Eph. eapply planned_rows; [exact Hp| | |]; cbn.
  - intros k. eapply option_Forall2_insert; [exact Hi|done|]. intros x. by split.
  - intros k x b z Hx Hph Hd Hz. assert (forall q, finished q -> q = t -> finished t') as Hf.
    { unfold finished. intros q Hq ->. by rewrite Eph. }
    apply lookup_put in Hx as [[-> ->]|[_ Hx]]; apply lookup_put in Hz as [[-> ->]|[_ Hz]].
    + exfalso. apply (pw_acyclic _ _ _ Hp i). by apply tc_once.
    + rewrite Eph in Hph. exact (pw_ready _ _ _ Hp _ _ _ _ Hi Hph Hd Hz).
    + eapply Hf; [|done]. exact (pw_ready _ _ _ Hp _ _ _ _ Hx Hph Hd Hi).
    + exact (pw_ready _ _ _ Hp _ _ _ _ Hx Hph Hd Hz).
  - intros j h Hj. apply lookup_insert_is_Some'. right. by eapply (pw_threads _ _ _ Hp).
Qed.
Lemma wp_persist w r m l v now (Q : workflowTask -> DeliveryWorld -> Prop) : delivery_sound w ->
  tasks (dw_db w) !! t_id r = Some r -> row_lifecycle r = Some l -> Activity l <> "" ->
  (let task := with_Version (load r m l) (int64 (v + 1)) in
   let w' := set_plan (set_db (put_task (t_id r) (set_task_row r task now)) (dw_plan w)) w in
   t_version r = v -> orderly w w' -> Q task w') ->
  wp (in_work (persistWorkflowTask (load r m l) v now)) w Q.
Proof.
  intros Hw Hr Hl Ha HQ. apply wp_in_work. intros task x E. apply persistWorkflowTask_Ok in E as (-> & r' & [_ Hr' Hv _ _] & ->).
  cbn in Hr'. unfold dw_db, pl_db in Hr. rewrite Hr in Hr'. injection Hr' as <-. apply HQ; [done|]. apply orderly_plan.
  pose proof (touched_same_work r m l now (int64 (v + 1)) Hl Ha) as Hs. destruct (ds_plan _ Hw) as [_ Wf Pl _ _ _ _ _]. apply world_kept.
  - apply Hw.
  - cbn. eapply wf_edited; [exact Wf| |done..]. intros k. cbn. eapply option_Forall2_insert; [exact Hr|done|]. reflexivity.
  - cbn. by eapply touched_planned.
  - cbn. by eapply row_work_kept.
Qed.
Lemma executing_row d n claimID tv cv actor op r h l c : wf d -> executing d n claimID tv cv actor op r h l c ->
  tasks d !! t_id r = Some r /\ row_lifecycle r = Some l /\ Activity l <> "".
Proof.
  intros Hw [[(Hn & _ & Hl & _) _ _ _ _ _] _ _ Ha _]. apply (task_by_number_Some _ _ _ (wf_tasks _ Hw)) in Hn as [Hk _].
  rewrite Ha. by split_and!.
Qed.

Lemma last_known_confirmed o : ob_Status o = CodeChangeObservationConfirmed -> last_known o = o.
Proof. destruct o. cbn. by intros ->. Qed.
Lemma wp_lock_binding id projectID w (Q : ProjectRepository * RepositoryConnection -> DeliveryWorld -> Prop) :
  (forall r c, dw_repositories w !! id = Some r -> dw_connections w !! pr_ConnectionID r = Some c -> pr_ProjectID r = projectID ->
     ProjectRepository_Active r = true -> active_connection c = true -> Q (r, c) w) -> wp (lockActiveProjectRepository id projectID) w Q.
Proof.
  intros HQ. unfold lockActiveProjectRepository. wp_steps.
  match goal with Hf : (_ ≫= _) = Some _ |- _ => apply bind_Some in Hf as (r & Hr & Hf); apply bind_Some in Hf as (c & Hc & Hf) end.
  destruct (_ && _) eqn:E; [|done]. simplify_eq. go_bool. by apply HQ.
Qed.

Lemma wp_write_link w l (Q : unit -> DeliveryWorld -> Prop) :
  (task_code_changes_checks l = true -> link_taken l (dw_db w) = false -> link_keys l w = true -> Q tt (put_code_change l w)) ->
  wp (write_link l) w Q.
Proof. intros HQ. unfold write_link. wp_steps. apply negb_false_iff in H0, H2. by apply HQ. Qed.

(** The row of a link that the store has validated. *)
Lemma valid_link w link r c : TaskCodeChange_Validate link = Ok tt -> ob_Status (tcc_LatestObservation link) = CodeChangeObservationConfirmed ->
  task_code_changes_checks (link_row link) = true -> link_keys (link_row link) w = true ->
  dw_repositories w !! tcc_ProjectRepositoryID link = Some r -> dw_connections w !! pr_ConnectionID r = Some c ->
  rc_Provider c = tcc_Provider link -> link_ok w (tcc_ID link) (link_row link).
Proof.
  unfold TaskCodeChange_Validate. intros Hv Hs Hc Hk Hr Hx Hp.
  apply bind_Ok in Hv as ([] & Hv%fail_if_Ok & Ho). apply bind_Ok in Ho as ([] & Ho & _). go_bool.
  split; cbn; try done.
  - exists r, c. by rewrite Hp.
  - unfold known. by rewrite last_known_confirmed.
Qed.

Lemma leads_link_recorded {A} id operation old new linkID number action value value' now (a : A) :
  leads (in_work (insertActivity id operation ActivityFieldCodeChanges old new);;
    in_plan (audit "task_code_change" linkID number action value value' operation now);; mret a).
Proof.
  apply leads_bind; [apply leads_logs, logs_activity|intros _]. apply leads_bind; [apply leads_plan, oks_audit|intros _].
  by apply leads_keeps.
Qed.

(** The part of the tables that links, Tasks and Claims are in. *)
Definition linkage (w : DeliveryWorld) := (task_code_changes (dw_db w), tasks (dw_db w), task_stage_claims (dw_db w)).
Lemma preserves_logs {A} (m : M A) : logs m -> preserves linkage (in_work m).
Proof.
  intros Hm w a w' (p & E & ->)%in_plan_Ok. apply on_world_Ok in E as (x & E & ->). apply Hm in E as (es & ys & ls & E).
  unfold linkage, dw_db, pl_db. cbn. by rewrite E.
Qed.
Lemma preserves_link_recorded {A} id operation old new linkID number action value value' now (a : A) :
  preserves linkage (in_work (insertActivity id operation ActivityFieldCodeChanges old new);;
    in_plan (audit "task_code_change" linkID number action value value' operation now);; mret a).
Proof.
  apply preserves_bind; [apply preserves_logs, logs_activity|intros _].
  apply preserves_bind; [apply (preserves_logs (InsertBusinessAudit _)), logs_audit|intros _]. by apply preserves_keeps.
Qed.

(** One row of the links of the Task under execution is written, and the Task gets a new version. *)
Record edits_link (w w' : DeliveryWorld) (n : Z) (claimID : UUID) (tv cv : Z) (actor : Actor) (op : OperationActor) (now : Time)
    (r : TaskRow) (c : ClaimRow) (row : CodeChangeRow) : Prop := {
  el_executing : exists h l, executing (dw_db w) n claimID tv cv actor op r h l c /\
    tasks (dw_db w') = <[t_id r := set_task_row r (with_Version (load r (h_id h) l) (int64 (tv + 1))) now]> (tasks (dw_db w));
  el_task : cr_task_id row = t_id r;
  el_links : task_code_changes (dw_db w') = <[cr_id row := row]> (task_code_changes (dw_db w));
  el_claims : task_stage_claims (dw_db w') = task_stage_claims (dw_db w);
}.

(** After the row is written. *)
Lemma wp_link_written {A} w w1 n claimID tv cv actor op now r h l c row (f : workflowTask -> DeliveryM A) :
  delivery_sound w -> executing (dw_db w) n claimID tv cv actor op r h l c -> orderly w (put_code_change row w1) ->
  linkage w1 = linkage w -> cr_task_id row = t_id r ->
  (forall task, leads (f task) /\ preserves linkage (f task)) ->
  wp (task ← in_work (persistWorkflowTask (load r (h_id h) l) tv now); f task) (put_code_change row w1)
    (fun _ w' => orderly w w' /\ edits_link w w' n claimID tv cv actor op now r c row).
Proof.
  intros Hw Hex Ho Hk Ht Hf. pose proof (proj2 Ho Hw) as Hw1. injection Hk as Kc Kt Kl.
  destruct (executing_row (dw_db w) _ _ _ _ _ _ _ _ _ _ (ps_wf _ (ds_plan _ Hw)) Hex) as (Hr & Hl & Ha).
  apply wp_bind, wp_persist; try done; [by rewrite <- Kt in Hr|]. cbv zeta. intros _ H2 a w' E.
  destruct (Hf (with_Version (load r (h_id h) l) (int64 (tv + 1)))) as [Hfl Hfp].
  pose proof (Hfl _ (proj2 H2 Hw1) _ _ E) as H3. apply Hfp in E. injection E as Ec Et El. split; [by do 2 etrans|].
  split; [|done|..].
  - exists h, l. split; [done|]. rewrite Et. unfold dw_db, pl_db in *. cbn. by rewrite Kt.
  - rewrite Ec. unfold dw_db, pl_db in *. cbn. by rewrite Kc.
  - rewrite El. unfold dw_db, pl_db in *. cbn. by rewrite Kl.
Qed.

(** The row of a code change that is linked from now on: in a repository that is bound to the Project of the Task. *)
Record links_row (w : DeliveryWorld) (repositoryID : UUID) (change : CodeChange) (actor : Actor) (now : Time) (r : TaskRow)
    (c : ClaimRow) (row : CodeChangeRow) : Prop := {
  nl_fresh : task_code_changes (dw_db w) !! cr_id row = None;
  nl_linked : linked row = true;
  nl_change : (cr_kind row, cr_change_number row, cr_provider_change_id row, cr_web_url row, cr_observation row) =
    (cc_Kind change, cc_ChangeNumber change, cc_ProviderChangeID change, cc_WebURL change, cc_Observation change);
  nl_through : cr_linked_through_claim_id row = c_id c;
  nl_by : actorFromStored (cr_linked_by_type row) (cr_linked_by_user_id row) (cr_linked_by_ref row) = actor;
  nl_repository : cr_project_repository_id row = repositoryID;
  nl_bound : exists b k, dw_repositories w !! repositoryID = Some b /\ pr_ProjectID b = t_project_id r /\
    ProjectRepository_Active b = true /\ dw_connections w !! pr_ConnectionID b = Some k /\ active_connection k = true /\
    rc_Provider k = cc_Provider change;
}.
Lemma nullIfEmpty_default s : default "" (nullIfEmpty s) = s.
Proof. unfold nullIfEmpty. by case_bool_decide. Qed.

Lemma wp_link n claimID tv cv repositoryID change actor operation now w : delivery_sound w ->
  wp (CodeChanges_Link n claimID tv cv repositoryID change actor operation now) w (fun _ w' => orderly w w' /\
    exists r c row, edits_link w w' n claimID tv cv actor operation now r c row /\ links_row w repositoryID change actor now r c row).
Proof.
  intros Hw. unfold CodeChanges_Link. do 4 wp_step. apply wp_delivery_tx, wp_bind, wp_execution_claim. intros r h l c Hex.
  apply wp_bind, wp_lock_binding. intros b k Hb Hk Ep Hba Hka. do 2 wp_step. apply wp_bind, wp_uuid; [done|]. intros id Hw1 Ho. cbv zeta.
  do 6 wp_step. apply wp_bind, wp_write_link. intros Hchk Htk Hky. go_bool.
  match goal with Hn : present _ = false |- _ => apply present_false in Hn; cbn in Hn; rename Hn into Hnew end.
  repeat match goal with u : unit |- _ => destruct u end.
  destruct (ds_bindings _ Hw _ _ Hb) as [Hbi _ _ _]. rewrite Hbi in *.
  assert (orderly (redrawn w) (put_code_change (link_row (mkTaskCodeChange id (t_id r) (t_project_id r) repositoryID (cc_Provider change)
    (cc_Kind change) (cc_ChangeNumber change) (cc_ProviderChangeID change) (cc_WebURL change) actor (c_id c) now None None None
    (cc_Observation change) now now)) (redrawn w))) as Ho2.
  { apply orderly_link.
    - eapply (valid_link _ _ b k); try done.
    - intros Hs j y Hj Hy. eapply link_free; [apply Hs|done..].
    - cbn. by rewrite Hnew. }
  eapply wp_mono; [eapply (wp_link_written w (redrawn w)); try done; [by etrans|]|].
  - intros task. split; [apply leads_link_recorded|apply preserves_link_recorded].
  - intros m w' [H4 H5]. split; [done|]. eexists r, c, _. split; [exact H5|]. split; try done.
    + cbn. unfold actorFromStored. rewrite nullIfEmpty_default. by destruct actor.
    + by exists b, k.
Qed.

Lemma ordered_fail {A} (b : bool) e (m : DeliveryM A) : (b = false -> ordered m) -> ordered (st_fail b e;; m).
Proof. intros Hm w Hw. destruct b; [reflexivity|]. by apply Hm. Qed.
(** A failed transaction takes back what it did. *)
Lemma ordered_checked {A} (m : DeliveryM A) : (forall w e w', m w = (Err e, w') -> orderly w w') -> leads m -> ordered m.
Proof. intros He Hm w Hw. destruct (m w) as [[a|e] w'] eqn:E; [by eapply Hm|by eapply He]. Qed.
Lemma tx_failed {A} (m : DeliveryM A) w e w' : delivery_tx m w = (Err e, w') -> exists x, w' = undone w x.
Proof. unfold delivery_tx. destruct (m w) as [[]]; naive_solver. Qed.
Lemma tx_failed_orderly {A} (m : DeliveryM A) w e w' : delivery_tx m w = (Err e, w') -> orderly w w'.
Proof. intros (x & ->)%tx_failed. apply orderly_undone. Qed.

Lemma link_failed n claimID tv cv repositoryID change actor operation now w e w' :
  CodeChanges_Link n claimID tv cv repositoryID change actor operation now w = (Err e, w') -> w' = w \/ exists x, w' = undone w x.
Proof.
  unfold CodeChanges_Link, st_lift, st_fail, mbind at 1 2, St_bind at 1 2. destruct (CodeChange_Validate change); [|intros [= _ <-]; by left].
  destruct (_ != _); cbn [fail_if]; [intros [= _ <-]; by left|]. intros E%tx_failed. by right.
Qed.
Lemma ordered_link n claimID tv cv repositoryID change actor operation now :
  ordered (CodeChanges_Link n claimID tv cv repositoryID change actor operation now).
Proof.
  apply ordered_checked; [|intros w Hw; eapply wp_mono; [by apply wp_link|by intros a w' [? _]]].
  intros w e w' [->|(x & ->)]%link_failed; [reflexivity|apply orderly_undone].
Qed.

(** The row of a link that has ended. *)
Record unlinks_row (w : DeliveryWorld) (linkID : UUID) (actor : Actor) (now : Time) (c : ClaimRow) (row : CodeChangeRow) : Prop := {
  ul_row : exists row0, task_code_changes (dw_db w) !! linkID = Some row0 /\ linked row0 = true /\ row = unlinked_row row0 actor (c_id c) now;
  ul_key : cr_id row = linkID;
}.
Lemma wp_unlink n claimID tv cv linkID actor operation now w : delivery_sound w ->
  wp (CodeChanges_Unlink n claimID tv cv linkID actor operation now) w (fun _ w' => orderly w w' /\
    exists r c row, edits_link w w' n claimID tv cv actor operation now r c row /\ unlinks_row w linkID actor now c row).
Proof.
  intros Hw. apply wp_delivery_tx, wp_bind, wp_execution_claim. intros r h l c Hex. do 4 wp_step.
  match goal with Hf : (_ ≫= _) = Some _ |- _ => apply bind_Some in Hf as (row & Hr & Hf) end. case_bool_decide as Ht; [|done].
  unfold scanTaskCodeChangeWithRepository in *.
  destruct (ds_links _ Hw _ _ Hr) as [Hid Hn Hc Hky (b & k & Hb & Hk & Hkind) Hch Hu Hkn].
  rewrite Hb in *. cbn in H0. rewrite Hk in H0. cbn in H0. simplify_eq. do 2 wp_step. cbv zeta. apply wp_bind, wp_write_link.
  intros Hchk Htk Hkeys. go_bool. assert (linked row = true) as Hlk by done.
  eapply wp_mono; [eapply (wp_link_written w w); try done|].
  - apply orderly_link; cbn.
    + split; try done. by exists b, k.
    + done.
    + rewrite Hr. intros l0 [= <-]. split; [done|]. by rewrite Hlk.
  - intros task. split; [apply leads_link_recorded|apply preserves_link_recorded].
  - intros m w' [H4 H5]. split; [done|]. eexists r, c, _. split; [exact H5|]. split; [eauto|done].
Qed.
Lemma ordered_unlink n claimID tv cv linkID actor operation now :
  ordered (CodeChanges_Unlink n claimID tv cv linkID actor operation now).
Proof.
  apply ordered_checked; [|intros w Hw; eapply wp_mono; [by apply wp_unlink|by intros a w' [? _]]]. intros w e w'. apply tx_failed_orderly.
Qed.

Lemma observed_known o o' : known o -> CodeChangeObservation_Validate o' = Ok tt -> known (observed o o').
Proof.
  unfold known, observed. intros Ho Ho'. case_bool_decide as Hs; [by rewrite last_known_confirmed|].
  unfold CodeChangeObservation_Validate in *. apply bind_Ok in Ho as ([] & H1%fail_if_Ok & Ho).
  apply bind_Ok in Ho' as ([] & H2%fail_if_Ok & _). cbn in *. go_bool. match goal with Hz : Time_IsZero (ob_ObservedAt o') = false |- _ => rewrite Hz end. cbn. exact Ho.
Qed.
Lemma ordered_observe linkID observation now : ordered (UpdateObservation linkID observation now).
Proof.
  apply ordered_lift. intros [] Ho. intros w Hw. unfold mbind, St_bind, st_get, st_or_err, st_fail, st_lift, st_mod.
  destruct (task_code_changes (dw_db w) !! linkID) as [row|] eqn:Hr; [|reflexivity]. destruct (negb _) eqn:Hchk; cbn [fail_if]; [reflexivity|].
  apply negb_false_iff in Hchk. destruct (ds_links _ Hw _ _ Hr) as [Hid Hn Hc Hky Hkind Hch Hu Hkn]. apply orderly_link; cbn.
  - split; try done; [congruence|]. by apply observed_known.
  - rewrite Hid. intros _ j y Hj Hy. apply not_true_is_false. intros Hcl. apply Hj. symmetry. by eapply (ds_one_link _ Hw).
  - rewrite Hid, Hr. intros l0 [= <-]. by split.
Qed.
End methods.
