(* ===== verification/DeliverySystem.v ===== *)
(** * Commands of repositories and code changes

    The commands of the stores of repositories and code changes, next to those of the workflow, the Tasks and
    the Projects, and what the tables keep under any of them. *)

From stdpp Require Import base tactics strings gmap list numbers sorting relations.
From S2P Require Import Prelude Actors Lifecycle StageClaim Delivery Thread Acceptance Database Tx State.
From S2P Require Import ThreadStore ClaimStore WorkflowStore WorkflowCommands TaskStore WorkflowEffects WorkflowInvariant TaskEffects StoreCommands.
From S2P Require Import Records Workspace Access Membership PlanningStore PlanningEffects PlanningCommands PlanningInvariant.
From S2P Require Import DeliveryStore DeliveryInvariant.

Inductive DeliveryCommand :=
| DPlan (c : PlanCommand)
| DConnect (connection : RepositoryConnection) (operation : OperationActor)
| DRotate (id : UUID) (v : Z) (validation : RepositoryConnectionValidation) (ciphertext : list Byte.byte) (keyID : string)
    (expiresAt : option Time) (operation : OperationActor)
| DValidate (id : UUID) (v : Z) (validation : RepositoryConnectionValidation) (operation : OperationActor)
| DDisable (id : UUID) (v : Z) (operation : OperationActor) (now : Time)
| DFailure (connectionID : option UUID) (actorUserID : UUID) (eventType : string) (provider : RepositoryProvider) (origin : string)
    (repositoryID : option string) (category requestID : string) (now : Time)
| DBind (projectID : UUID) (v : Z) (connectionID : UUID) (operation : OperationActor) (now : Time)
| DUnbind (projectID : UUID) (v : Z) (repositoryID : UUID) (operation : OperationActor) (now : Time)
| DLink (number : Z) (claimID : UUID) (tv cv : Z) (repositoryID : UUID) (change : CodeChange) (actor : Actor)
    (operation : OperationActor) (now : Time)
| DUnlink (number : Z) (claimID : UUID) (tv cv : Z) (linkID : UUID) (actor : Actor) (operation : OperationActor) (now : Time)
| DObserve (linkID : UUID) (observation : CodeChangeObservation) (now : Time).

Create HintDb aside discriminated.

Section commands.
Context `{UUIDSource} `{TextForms} `{NameOrder}.

Definition discard {A} (m : DeliveryM A) : DeliveryM unit := _ ← m; mret tt.
Definition run_delivery (c : DeliveryCommand) : DeliveryM unit :=
  match c with
  | DPlan c => in_plan (run_plan c)
  | DConnect connection operation => discard (Connections_Create connection operation)
  | DRotate id v validation ciphertext keyID expiresAt operation =>
      discard (Connections_RotateCredential id v validation ciphertext keyID expiresAt operation)
  | DValidate id v validation operation => discard (RecordValidation id v validation operation)
  | DDisable id v operation now => discard (Connections_Disable id v operation now)
  | DFailure connectionID actorUserID eventType provider origin repositoryID category requestID now =>
      RecordFailure connectionID actorUserID eventType provider origin repositoryID category requestID now
  | DBind projectID v connectionID operation now => discard (Repositories_Bind projectID v connectionID operation now)
  | DUnbind projectID v repositoryID operation now => discard (Repositories_Unbind projectID v repositoryID operation now)
  | DLink number claimID tv cv repositoryID change actor operation now =>
      discard (CodeChanges_Link number claimID tv cv repositoryID change actor operation now)
  | DUnlink number claimID tv cv linkID actor operation now =>
      discard (CodeChanges_Unlink number claimID tv cv linkID actor operation now)
  | DObserve linkID observation now => UpdateObservation linkID observation now
  end.

(** The tables after a command, whether it succeeds or fails. *)
Definition delivery_step (c : DeliveryCommand) (w : DeliveryWorld) : DeliveryWorld := (run_delivery c w).2.
Fixpoint delivery_steps (cs : list DeliveryCommand) (w : DeliveryWorld) : DeliveryWorld :=
  match cs with
  | [] => w
  | c :: rest => delivery_steps rest (delivery_step c w)
  end.

Lemma ordered_discard {A} (m : DeliveryM A) : ordered m -> ordered (discard m).
Proof. intros Hm. apply ordered_bind; [done|]. intros a. by apply ordered_keeps. Qed.
Lemma run_ordered c : ordered (run_delivery c).
Proof.
  destruct c; cbn [run_delivery]; try match goal with |- ordered (discard _) => apply ordered_discard end.
  - intros w Hw. unfold in_plan. pose proof (plan_step_kept c (dw_plan w) (ds_plan _ Hw)) as Hk. unfold plan_step in Hk.
    destruct (run_plan c (dw_plan w)) as [r p]. by apply orderly_plan.
  - apply ordered_create.
  - unfold Connections_RotateCredential. apply ordered_validated.
  - unfold RecordValidation. apply ordered_validated.
  - apply ordered_disable.
  - unfold RecordFailure. apply ordered_event.
  - apply ordered_bind_repository.
  - apply ordered_unbind.
  - apply ordered_link.
  - apply ordered_unlink.
  - apply ordered_observe.
Qed.
Lemma step_orderly c w : delivery_sound w -> orderly w (delivery_step c w).
Proof. apply run_ordered. Qed.
Lemma steps_orderly cs w : delivery_sound w -> orderly w (delivery_steps cs w).
Proof.
  revert w. induction cs as [|c cs IH]; intros w Hw; cbn; [reflexivity|]. pose proof (step_orderly c w Hw) as Ho.
  etrans; [exact Ho|]. by apply IH, Ho.
Qed.

(** ** Commands that leave links, Tasks and Claims alone *)

Definition aside {A} (m : DeliveryM A) : Prop := forall w, linkage (m w).2 = linkage w.
Lemma aside_keeps {A} (m : DeliveryM A) : keeps m -> aside m.
Proof. intros Hm w. by rewrite Hm. Qed.
Lemma aside_bind {A B} (m : DeliveryM A) (f : A -> DeliveryM B) : aside m -> (forall a, aside (f a)) -> aside (m ≫= f).
Proof.
  intros Hm Hf w. specialize (Hm w). unfold mbind, St_bind. destruct (m w) as [[a|e] w1]; [|done]. cbn in Hm. by rewrite Hf.
Qed.
Lemma aside_tx {A} (m : DeliveryM A) : preserves linkage m -> aside (delivery_tx m).
Proof. intros Hm w. unfold delivery_tx. destruct (m w) as [[a|e] w'] eqn:E; cbn; [by eapply Hm|done]. Qed.

Lemma preserves_uuid : preserves linkage (in_plan new_uuid).
Proof. by intros w a w' [= _ <-]. Qed.
Lemma preserves_audit ty id number action old new actor now : preserves linkage (in_plan (audit ty id number action old new actor now)).
Proof. apply (preserves_logs (InsertBusinessAudit _)), logs_audit. Qed.
Lemma preserves_in_plan {A} (m : PlanM A) :
  preserves (fun p => (task_code_changes (pl_db p), tasks (pl_db p), task_stage_claims (pl_db p))) m -> preserves linkage (in_plan m).
Proof. intros Hm w a w' (p & E & ->)%in_plan_Ok. exact (Hm _ _ _ E). Qed.
Lemma preserves_project_version id v now : preserves linkage (in_plan (incrementVersion "projects" id v now)).
Proof.
  apply preserves_in_plan. unfold incrementVersion. framed. apply preserves_mod. intros p. unfold bump_row. cbn.
  by destruct (pl_projects p !! id).
Qed.
Lemma preserves_project_activity id m actor action reason old new now :
  preserves linkage (in_plan (record_project_activity id m actor action reason old new now)).
Proof. apply preserves_in_plan. unfold record_project_activity. apply preserves_bind; [by intros w a w' [= _ <-]|]. intros i. framed. Qed.
Lemma preserves_event connectionID actorUserID eventType outcome provider origin repositoryID category requestID now :
  preserves linkage (insertRepositoryConnectionEvent connectionID actorUserID eventType outcome provider origin repositoryID category
    requestID now).
Proof. apply preserves_bind; [apply preserves_uuid|]. intros i. framed. Qed.
End commands.

#[export] Hint Resolve preserves_uuid preserves_audit preserves_project_version preserves_project_activity preserves_event : aside.

(** Proves [preserves linkage] for the body of a transaction on repositories. *)
Ltac set_aside := repeat first
  [ solve [auto with aside]
  | lazymatch goal with |- preserves _ _ => fail | |- forall _, _ => intro end
  | apply preserves_bind
  | apply preserves_mod; intros; reflexivity
  | apply preserves_keeps; solve [auto with keeps]
  | match goal with |- preserves _ (match ?x with _ => _ end) => destruct x end ].
(** Proves [aside] for a transaction after checks of the arguments. *)
Ltac aside_body := repeat first
  [ apply aside_tx | apply aside_bind; [|intros ?] | apply aside_keeps; solve [auto with keeps] ].

Section links.
Context `{UUIDSource} `{TextForms} `{NameOrder}.

Lemma aside_create connection operation : aside (Connections_Create connection operation).
Proof.
  unfold Connections_Create. aside_body. unfold insert_connection, write_connection, connection_event, connection_audit. set_aside.
Qed.
Lemma aside_validated id v validation replacement eventType operation :
  aside (updateValidated id v validation replacement eventType operation).
Proof.
  unfold updateValidated. aside_body. unfold lock_connection, Connections_Get, write_connection, connection_event, connection_audit.
  set_aside.
Qed.
Lemma aside_disable id v operation now : aside (Connections_Disable id v operation now).
Proof.
  unfold Connections_Disable. aside_body. unfold lock_connection, Connections_Get, write_connection, connection_event, connection_audit.
  set_aside.
Qed.
Lemma preserves_open_project id v : preserves linkage (open_project id v).
Proof.
  unfold open_project. apply preserves_bind; [|intros ?; set_aside]. apply preserves_in_plan, preserves_keeps, keeps_lock.
Qed.
Lemma aside_bind_repository projectID v connectionID operation now : aside (Repositories_Bind projectID v connectionID operation now).
Proof.
  unfold Repositories_Bind. aside_body. apply preserves_bind; [apply preserves_open_project|intros ?].
  unfold Connections_Get, write_repository, insertProjectRepositoryActivity. set_aside.
Qed.
Lemma aside_unbind projectID v repositoryID operation now : aside (Repositories_Unbind projectID v repositoryID operation now).
Proof.
  unfold Repositories_Unbind. aside_body. apply preserves_bind; [apply preserves_open_project|intros ?].
  unfold write_repository, insertProjectRepositoryActivity. set_aside.
Qed.
Lemma aside_event connectionID actorUserID eventType outcome provider origin repositoryID category requestID now :
  aside (insertRepositoryConnectionEvent connectionID actorUserID eventType outcome provider origin repositoryID category requestID now).
Proof.
  apply aside_bind; [by intros w|]. intros i. apply aside_bind; [by apply aside_keeps|]. intros x.
  apply aside_bind; [by apply aside_keeps|]. by intros _ w.
Qed.

(** Commands of repositories. *)
Definition on_repositories (c : DeliveryCommand) : bool :=
  match c with DPlan _ | DLink _ _ _ _ _ _ _ _ _ | DUnlink _ _ _ _ _ _ _ _ | DObserve _ _ _ => false | _ => true end.
Lemma aside_discard {A} (m : DeliveryM A) : aside m -> aside (discard m).
Proof. intros Hm. apply aside_bind; [done|]. intros a. by apply aside_keeps. Qed.
Lemma step_aside c w : on_repositories c = true -> linkage (delivery_step c w) = linkage w.
Proof.
  intros Hc. unfold delivery_step. revert w. change (aside (run_delivery c)).
  destruct c; try done; cbn [run_delivery]; try match goal with |- aside (discard _) => apply aside_discard end.
  - apply aside_create.
  - unfold Connections_RotateCredential. apply aside_validated.
  - unfold RecordValidation. apply aside_validated.
  - apply aside_disable.
  - unfold RecordFailure. apply aside_event.
  - apply aside_bind_repository.
  - apply aside_unbind.
Qed.

(** ** Who links and unlinks *)

Definition link_active (w : DeliveryWorld) (i : UUID) : bool :=
  match task_code_changes (dw_db w) !! i with Some l => linked l | None => false end.
Lemma link_active_same w w' i : task_code_changes (dw_db w') = task_code_changes (dw_db w) -> link_active w' i = link_active w i.
Proof. unfold link_active. by intros ->. Qed.

(** The only ways for a link to appear or to end. *)
Inductive link_move (w : DeliveryWorld) (i : UUID) : DeliveryCommand -> Prop :=
| lm_link n claimID tv cv repositoryID change actor op now r c row :
    edits_link w (delivery_step (DLink n claimID tv cv repositoryID change actor op now) w) n claimID tv cv actor op now r c row ->
    links_row w repositoryID change actor now r c row -> cr_id row = i ->
    link_move w i (DLink n claimID tv cv repositoryID change actor op now)
| lm_unlink n claimID tv cv actor op now r c row :
    edits_link w (delivery_step (DUnlink n claimID tv cv i actor op now) w) n claimID tv cv actor op now r c row ->
    unlinks_row w i actor now c row -> link_move w i (DUnlink n claimID tv cv i actor op now).

Lemma link_active_put w w' row i : task_code_changes (dw_db w') = <[cr_id row := row]> (task_code_changes (dw_db w)) ->
  link_active w' i <> link_active w i -> cr_id row = i.
Proof.
  unfold link_active. intros -> Hne. destruct (decide (cr_id row = i)) as [|Hni]; [done|]. by rewrite lookup_insert_ne in Hne.
Qed.
Lemma observe_active linkID observation now w i : delivery_sound w ->
  link_active (UpdateObservation linkID observation now w).2 i = link_active w i.
Proof.
  intros Hw. unfold UpdateObservation, st_lift, mbind at 1, St_bind at 1. destruct (CodeChangeObservation_Validate observation); [|done].
  unfold mbind, St_bind, st_get, st_or_err, st_fail, st_lift, st_mod.
  destruct (task_code_changes (dw_db w) !! linkID) as [row|] eqn:Hr; [|done]. destruct (negb _); [done|].
  pose proof (lk_id _ _ _ (ds_links _ Hw _ _ Hr)) as Hid. unfold link_active. cbn. rewrite Hid.
  destruct (decide (linkID = i)) as [->|Hne]; [by rewrite lookup_insert_eq, Hr|by rewrite lookup_insert_ne].
Qed.

Lemma step_link_move c w i : delivery_sound w -> link_active (delivery_step c w) i <> link_active w i -> link_move w i c.
Proof.
  intros Hw Hne. destruct (on_repositories c) eqn:Hc.
  { exfalso. apply Hne, link_active_same. pose proof (step_aside c w Hc) as E. by injection E. }
  destruct c as [c| | | | | | | |n cl tv cv rid change actor op now|n cl tv cv lid actor op now|lid o now]; try done.
  - exfalso. apply Hne, link_active_same. pose proof (plan_step_kept c (dw_plan w) (ds_plan _ Hw)) as Hk. unfold plan_step in Hk.
    unfold delivery_step. cbn [run_delivery]. unfold in_plan. destruct (run_plan c (dw_plan w)) as [r p]. apply Hk.
  - destruct (CodeChanges_Link n cl tv cv rid change actor op now w) as [[m|e] w'] eqn:E.
    + destruct (wp_link _ _ _ _ _ _ _ _ _ _ Hw _ _ E) as (_ & r & c & row & He & Hl).
      assert (delivery_step (DLink n cl tv cv rid change actor op now) w = w') as Es.
      { unfold delivery_step. cbn [run_delivery]. unfold discard, mbind, St_bind. by rewrite E. }
      rewrite Es in Hne. eapply lm_link; [by rewrite Es|done|]. eapply link_active_put; [apply He|done].
    + exfalso. apply Hne, link_active_same. unfold delivery_step. cbn [run_delivery]. unfold discard, mbind, St_bind. rewrite E.
      by apply link_failed in E as [->|(x & ->)].
  - destruct (CodeChanges_Unlink n cl tv cv lid actor op now w) as [[m|e] w'] eqn:E.
    + destruct (wp_unlink _ _ _ _ _ _ _ _ _ Hw _ _ E) as (_ & r & c & row & He & Hl).
      assert (delivery_step (DUnlink n cl tv cv lid actor op now) w = w') as Es.
      { unfold delivery_step. cbn [run_delivery]. unfold discard, mbind, St_bind. by rewrite E. }
      rewrite Es in Hne. assert (i = lid) as ->; [|by eapply lm_unlink; [rewrite Es|]].
      rewrite <- (ul_key _ _ _ _ _ _ Hl). symmetry. eapply link_active_put; [apply He|done].
    + exfalso. apply Hne, link_active_same. unfold delivery_step. cbn [run_delivery]. unfold discard, mbind, St_bind. rewrite E.
      apply tx_failed in E as (x & ->). done.
  - exfalso. by apply Hne, observe_active.
Qed.
End links.
