(* ===== verification/Providers.v ===== *)
(** * Clients of repository providers

    internal/integrations/gitlab/client.go and internal/integrations/github/client.go: what the clients make of
    a URL and of an answer of their provider.  The package net/url, the exchange over HTTP and the JSON of a
    response are parameters. *)

From Stdlib Require Import Ascii.
From stdpp Require Import base tactics strings gmap list numbers pretty.
From S2P Require Import Prelude Actors Delivery Http Attachment Paths.

Abbreviation credential := (list Byte.byte).
Local Abbreviation chars := String.list_ascii_of_string.
Local Abbreviation text := String.string_of_list_ascii.

(** ** Strings *)

(** [strings.TrimPrefix], [strings.TrimSuffix], [strings.Contains], [strings.Split] and [strings.Join] at slashes *)
Definition TrimPrefix (s prefix : string) : string := text (default (chars s) (GoStrings.strip_prefix (chars prefix) (chars s))).
Definition TrimSuffix (s suffix : string) : string :=
  text (rev (default (rev (chars s)) (GoStrings.strip_prefix (rev (chars suffix)) (rev (chars s))))).
Fixpoint contains (l sub : list ascii) : bool :=
  present (GoStrings.strip_prefix sub l) || match l with [] => false | _ :: l => contains l sub end.
Definition Contains (s sub : string) : bool := contains (chars s) (chars sub).
Definition split_path (s : string) : list string := text <$> split_slash (chars s).
Definition join_path (segments : list string) : string := text (join_slash (chars <$> segments)).

(** [strings.LastIndex] *)
Fixpoint last_index (l sub : list ascii) (i : nat) (found : option nat) : option nat :=
  let found := if present (GoStrings.strip_prefix sub l) then Some i else found in
  match l with
  | [] => found
  | _ :: l => last_index l sub (S i) found
  end.
Definition LastIndex (s sub : string) : option nat := last_index (chars s) (chars sub) 0 None.

(** [strconv.ParseInt(s, 10, 64)] and [strconv.FormatInt(n, 10)] *)
Definition parse_digits (l : list ascii) : option Z :=
  if (length l == 0%nat) || negb (forallb is_digit l) then None
  else Some (foldl (fun n c => 10 * n + (code c - code "0")) 0 l).
Definition ParseInt (s : string) : option Z :=
  n ← match chars s with
      | c :: l => if c == "-"%char then Z.opp <$> parse_digits l
                  else if c == "+"%char then parse_digits l else parse_digits (chars s)
      | [] => None
      end;
  if (- MaxInt64 - 1 <=? n) && (n <=? MaxInt64) then Some n else None.
Definition FormatInt (n : Z) : string := pretty n.

(** ** Errors *)

(** What a client answers; an error has a category when it implements [RepositoryProviderErrorCategory]. *)
Inductive ProviderAnswer (A : Type) :=
| Answered (a : A)
| Failed (category : option string).
Arguments Answered {A}.
Arguments Failed {A}.
#[global] Instance Answer_bind : MBind ProviderAnswer := fun A B f m => match m with Answered a => f a | Failed c => Failed c end.

Definition ErrorInvalidReference : string := "invalid_reference".
Definition ErrorNotFound : string := "not_found".
Definition ErrorUnauthorized : string := "unauthorized".
Definition ErrorUnreachable : string := "unreachable".
Definition ErrorProviderRejected : string := "provider_rejected".
Definition invalidReference {A} : ProviderAnswer A := Failed (Some ErrorInvalidReference).
Definition rejected {A} : ProviderAnswer A := Failed (Some ErrorProviderRejected).
Definition reject_if (b : bool) (category : string) : ProviderAnswer unit := if b then Failed (Some category) else Answered tt.
Definition or_category {A} (o : option A) (category : string) : ProviderAnswer A :=
  match o with Some a => Answered a | None => Failed (Some category) end.

(** The interface [application.RepositoryProviderClient] *)
Record RepositoryProviderClient := mkRepositoryProviderClient {
  cl_Provider : RepositoryProvider;
  cl_ParseRepositoryURL : string -> ProviderAnswer RepositoryReference;
  cl_ParseCodeChangeURL : string -> ProviderAnswer CodeChangeReference;
  cl_ResolveRepository : RepositoryReference -> credential -> string -> ProviderAnswer RepositoryIdentity;
  cl_GetCodeChange : RepositoryReference -> string -> CodeChangeKind -> Z -> credential -> string -> ProviderAnswer CodeChange;
}.

(** ** The package net/url *)

Record URL := mkURL {
  url_Scheme : string;
  url_Opaque : string;
  url_User : bool;
  url_Host : string;
  url_Path : string;
  url_EscapedPath : string;
  url_RawQuery : string;
  url_Fragment : string;
  url_Hostname : string;
  url_Port : string;
}.
(** A URL of scheme https prints as such; white space has no case. *)
Class UrlLibrary := {
  url_Parse : string -> option URL;
  url_String : URL -> string;
  https_String : string -> string -> string;
  PathUnescape : string -> option string;
  PathEscape : string -> string;
  ParseIP : string -> bool;
  unicode_ToLower : string -> string;
  unicode_EqualFold : string -> string -> bool;
  https_String_prefix host path : blank (https_String host path) = false;
  ToLower_blank s : blank (unicode_ToLower s) = blank s;
}.

(** [net.JoinHostPort] *)
Definition JoinHostPort (host port : string) : string :=
  if Contains host ":" then "[" +:+ host +:+ "]:" +:+ port else host +:+ ":" +:+ port.

Section urls.
Context `{UrlLibrary}.

Definition parseHTTPSURL (raw : string) : ProviderAnswer URL :=
  parsed ← or_category (url_Parse (TrimSpace raw)) ErrorInvalidReference;
  _ ← reject_if ((url_Scheme parsed != "https") || (url_Host parsed == "") || url_User parsed || (url_RawQuery parsed != "") ||
        (url_Fragment parsed != "") || (url_Opaque parsed != "")) ErrorInvalidReference;
  _ ← reject_if ((url_Hostname parsed == "") || (negb (ParseIP (url_Hostname parsed)) && Contains (url_Hostname parsed) " "))
        ErrorInvalidReference;
  let hostname := unicode_ToLower (url_Hostname parsed) in
  let port := url_Port parsed in
  let host := if port == "" then hostname else JoinHostPort hostname port in
  Answered (mkURL "https" (url_Opaque parsed) (url_User parsed) host (url_Path parsed) (url_EscapedPath parsed) (url_RawQuery parsed)
    (url_Fragment parsed) (url_Hostname parsed) port).

Definition validateOrigin (origin : string) : ProviderAnswer URL :=
  parsed ← or_category (url_Parse (TrimSpace origin)) ErrorInvalidReference;
  _ ← reject_if ((url_Scheme parsed != "https") || (url_Host parsed == "") || url_User parsed || (url_Path parsed != "") ||
        (url_RawQuery parsed != "") || (url_Fragment parsed != "")) ErrorInvalidReference;
  Answered parsed.

(** [path.Clean(p) != p || strings.Contains(p, "//")] *)
Definition unclean (p : string) : bool := (text (Clean (chars p)) != p) || Contains p "//".
Definition bad_segment (segment : string) : bool := blank segment || (segment == ".") || (segment == "..").

(** ** internal/integrations/gitlab/client.go *)

Definition GitLab_normalizeRepositoryPath (escapedPath : string) : ProviderAnswer string :=
  unescaped ← or_category (PathUnescape escapedPath) ErrorInvalidReference;
  let unescaped := TrimPrefix (TrimSuffix (TrimSuffix unescaped "/") ".git") "/" in
  _ ← reject_if ((unescaped == "") || unclean unescaped) ErrorInvalidReference;
  let segments := split_path unescaped in
  _ ← reject_if (length segments <? 2)%nat ErrorInvalidReference;
  _ ← reject_if (existsb bad_segment segments) ErrorInvalidReference;
  Answered unescaped.

Definition GitLab_ParseRepositoryURL (raw : string) : ProviderAnswer RepositoryReference :=
  parsed ← parseHTTPSURL raw;
  _ ← reject_if (Contains (url_Path parsed) "/-/") ErrorInvalidReference;
  repositoryPath ← GitLab_normalizeRepositoryPath (url_EscapedPath parsed);
  Answered (mkRepositoryReference RepositoryProviderGitLab (https_String (url_Host parsed) "") repositoryPath
    (unicode_ToLower repositoryPath) (https_String (url_Host parsed) ("/" +:+ repositoryPath))).

Definition GitLab_marker : string := "/-/merge_requests/".
Definition GitLab_ParseCodeChangeURL (raw : string) : ProviderAnswer CodeChangeReference :=
  parsed ← parseHTTPSURL raw;
  markerIndex ← or_category (LastIndex (url_Path parsed) GitLab_marker) ErrorInvalidReference;
  _ ← reject_if (markerIndex == 0%nat) ErrorInvalidReference;
  let numberText := text (drop (markerIndex + String.length GitLab_marker) (chars (url_Path parsed))) in
  _ ← reject_if ((numberText == "") || Contains numberText "/") ErrorInvalidReference;
  number ← or_category (ParseInt numberText) ErrorInvalidReference;
  _ ← reject_if (number <? 1) ErrorInvalidReference;
  repository ← GitLab_ParseRepositoryURL (https_String (url_Host parsed) (text (take markerIndex (chars (url_Path parsed)))));
  Answered (mkCodeChangeReference repository CodeChangeKindMergeRequest number
    (https_String (url_Host parsed) ("/" +:+ rr_PathWithNamespace repository +:+ GitLab_marker +:+ FormatInt number))).

(** ** internal/integrations/github/client.go *)

Definition decodedPathSegments (escapedPath : string) : ProviderAnswer (list string) :=
  unescaped ← or_category (PathUnescape escapedPath) ErrorInvalidReference;
  let unescaped := TrimPrefix (TrimSuffix unescaped "/") "/" in
  _ ← reject_if ((unescaped == "") || unclean unescaped) ErrorInvalidReference;
  let segments := split_path unescaped in
  _ ← reject_if (existsb bad_segment segments) ErrorInvalidReference;
  Answered segments.

Definition GitHub_normalizeRepositoryPath (escapedPath : string) : ProviderAnswer string :=
  segments ← decodedPathSegments escapedPath;
  match segments with
  | [owner; name] =>
      let segments := [owner; TrimSuffix name ".git"] in
      _ ← reject_if (existsb bad_segment segments) ErrorInvalidReference;
      Answered (join_path segments)
  | _ => invalidReference
  end.

Definition GitHub_ParseRepositoryURL (raw : string) : ProviderAnswer RepositoryReference :=
  parsed ← parseHTTPSURL raw;
  repositoryPath ← GitHub_normalizeRepositoryPath (url_EscapedPath parsed);
  Answered (mkRepositoryReference RepositoryProviderGitHub (https_String (url_Host parsed) "") repositoryPath
    (unicode_ToLower repositoryPath) (https_String (url_Host parsed) ("/" +:+ repositoryPath))).

Definition GitHub_ParseCodeChangeURL (raw : string) : ProviderAnswer CodeChangeReference :=
  parsed ← parseHTTPSURL raw;
  match decodedPathSegments (url_EscapedPath parsed) with
  | Answered [owner; name; pull; numberText] =>
      _ ← reject_if (pull != "pull") ErrorInvalidReference;
      number ← or_category (ParseInt numberText) ErrorInvalidReference;
      _ ← reject_if (number <? 1) ErrorInvalidReference;
      repository ← GitHub_ParseRepositoryURL (https_String (url_Host parsed) ("/" +:+ owner +:+ "/" +:+ name));
      Answered (mkCodeChangeReference repository CodeChangeKindPullRequest number
        (rr_WebURL repository +:+ "/pull/" +:+ FormatInt number))
  | _ => invalidReference
  end.

(** ** Requests *)

(** A request that cannot be made, that gets no answer, or that gets one; the body may break off. *)
Record Response := mkResponse {
  rsp_StatusCode : Z;
  rsp_RetryAfter : string;
  rsp_RateLimitRemaining : string;
  rsp_Body : option string;
}.
Inductive Exchange :=
| NoRequest
| NoResponse
| Responded (r : Response).
Definition maxResponseBodySize : Z := 2 ^ 20.

Definition categoryForStatus (status : Z) : string :=
  if (status =? 401) || (status =? 403) then ErrorUnauthorized
  else if status =? 404 then ErrorNotFound
  else if status =? 429 then ErrorUnreachable
  else if 500 <=? status then ErrorUnreachable
  else ErrorProviderRejected.
Definition categoryForResponse (r : Response) : string :=
  let status := rsp_StatusCode r in
  if status =? 401 then ErrorUnauthorized
  else if status =? 404 then ErrorNotFound
  else if status =? 429 then ErrorUnreachable
  else if status =? 403 then
    if negb (blank (rsp_RetryAfter r)) || (TrimSpace (rsp_RateLimitRemaining r) == "0") then ErrorUnreachable else ErrorUnauthorized
  else if 500 <=? status then ErrorUnreachable
  else ErrorProviderRejected.

Definition getJSON {A} (category : Response -> string) (exchange : credential -> Exchange) (decode : string -> option A) (key : credential)
    : ProviderAnswer A :=
  _ ← reject_if (length key == 0%nat) ErrorUnauthorized;
  match exchange key with
  | NoRequest => invalidReference
  | NoResponse => Failed (Some ErrorUnreachable)
  | Responded response =>
      _ ← reject_if ((rsp_StatusCode response <? 200) || (300 <=? rsp_StatusCode response)) (category response);
      body ← or_category (rsp_Body response) ErrorUnreachable;
      _ ← reject_if (maxResponseBodySize <? Z.of_nat (String.length body)) ErrorProviderRejected;
      or_category (decode body) ErrorProviderRejected
  end.

(** ** Answers of GitLab *)

Record projectResponse := mkProjectResponse {
  gp_ID : Z;
  gp_PathWithNamespace : string;
  gp_WebURL : string;
  gp_DefaultBranch : option string;
}.
Record mergeRequestResponse := mkMergeRequestResponse {
  mr_ID : Z;
  mr_IID : Z;
  mr_Title : string;
  mr_State : string;
  mr_Draft : bool;
  mr_SourceBranch : string;
  mr_TargetBranch : string;
  mr_SHA : string;
  mr_MergeCommitSHA : option string;
  mr_MergedAt : option Time;
  mr_UpdatedAt : Time;
  mr_WebURL : string;
}.
Record GitLabServer := mkGitLabServer {
  gl_send : string -> string -> credential -> Exchange;
  gl_project : string -> option projectResponse;
  gl_merge_request : string -> option mergeRequestResponse;
  gl_now : Time;
}.

Definition projectEndpoint (origin pathWithNamespace : string) : ProviderAnswer string :=
  parsed ← validateOrigin origin;
  _ ← reject_if (blank pathWithNamespace || HasPrefix pathWithNamespace "/") ErrorInvalidReference;
  Answered (url_String parsed +:+ "/api/v4/projects/" +:+ PathEscape pathWithNamespace).
Definition mergeRequestEndpoint (origin : string) (projectID iid : Z) : ProviderAnswer string :=
  parsed ← validateOrigin origin;
  _ ← reject_if ((projectID <? 1) || (iid <? 1)) ErrorInvalidReference;
  Answered (url_String parsed +:+ "/api/v4/projects/" +:+ FormatInt projectID +:+ "/merge_requests/" +:+ FormatInt iid).

Definition answer_if_valid {A} (validate : A -> result unit) (a : A) : ProviderAnswer A :=
  match validate a with Ok _ => Answered a | Err _ => rejected end.

Definition GitLab_ResolveRepository (s : GitLabServer) (reference : RepositoryReference) (key : credential) (requestID : string)
    : ProviderAnswer RepositoryIdentity :=
  _ ← reject_if (rr_Provider reference != RepositoryProviderGitLab) ErrorInvalidReference;
  endpoint ← projectEndpoint (rr_Origin reference) (rr_PathWithNamespace reference);
  response ← getJSON (fun r => categoryForStatus (rsp_StatusCode r)) (gl_send s endpoint requestID) (gl_project s) key;
  answer_if_valid RepositoryIdentity_Validate (mkRepositoryIdentity (FormatInt (gp_ID response)) (gp_PathWithNamespace response)
    (gp_WebURL response) (default "" (gp_DefaultBranch response))).

Definition GitLab_GetCodeChange (s : GitLabServer) (reference : RepositoryReference) (providerRepositoryID : string)
    (kind : CodeChangeKind) (changeNumber : Z) (key : credential) (requestID : string) : ProviderAnswer CodeChange :=
  _ ← reject_if (rr_Provider reference != RepositoryProviderGitLab) ErrorInvalidReference;
  _ ← reject_if (kind != CodeChangeKindMergeRequest) ErrorInvalidReference;
  projectID ← or_category (ParseInt providerRepositoryID) ErrorInvalidReference;
  _ ← reject_if (projectID <? 1) ErrorInvalidReference;
  endpoint ← mergeRequestEndpoint (rr_Origin reference) projectID changeNumber;
  response ← getJSON (fun r => categoryForStatus (rsp_StatusCode r)) (gl_send s endpoint requestID) (gl_merge_request s) key;
  let observation := mkCodeChangeObservation CodeChangeObservationConfirmed (gl_now s) (mr_Title response) (mr_State response)
    (mr_Draft response) (mr_SourceBranch response) (mr_TargetBranch response) (mr_SHA response) (mr_MergeCommitSHA response)
    (mr_MergedAt response) (mr_UpdatedAt response) in
  let codeChange := mkCodeChange RepositoryProviderGitLab CodeChangeKindMergeRequest (FormatInt (mr_ID response)) (mr_IID response)
    (mr_WebURL response) observation in
  _ ← reject_if (cc_ChangeNumber codeChange != changeNumber) ErrorProviderRejected;
  answer_if_valid CodeChange_Validate codeChange.

Definition GitLab_Client (s : GitLabServer) : RepositoryProviderClient :=
  mkRepositoryProviderClient RepositoryProviderGitLab GitLab_ParseRepositoryURL GitLab_ParseCodeChangeURL
    (GitLab_ResolveRepository s) (GitLab_GetCodeChange s).

(** ** Answers of GitHub *)

Record repositoryResponse := mkRepositoryResponse {
  hr_ID : Z;
  hr_FullName : string;
  hr_HTMLURL : string;
  hr_DefaultBranch : string;
}.
Record pullRequestResponse := mkPullRequestResponse {
  pq_ID : Z;
  pq_Number : Z;
  pq_HTMLURL : string;
  pq_Title : string;
  pq_State : string;
  pq_Draft : bool;
  pq_MergeCommitSHA : option string;
  pq_MergedAt : option Time;
  pq_UpdatedAt : Time;
  pq_HeadRef : string;
  pq_HeadSHA : string;
  pq_BaseRef : string;
  pq_BaseRepositoryID : Z;
  pq_BaseRepositoryFullName : string;
}.
Record GitHubServer := mkGitHubServer {
  gh_send : string -> string -> credential -> Exchange;
  gh_repository : string -> option repositoryResponse;
  gh_pull_request : string -> option pullRequestResponse;
  gh_now : Time;
}.
Definition githubAPIOrigin : string := "https://api.github.com".
Definition apiBase (origin : string) : ProviderAnswer string :=
  parsed ← validateOrigin origin;
  if unicode_EqualFold (url_Host parsed) "github.com" then Answered githubAPIOrigin
  else Answered (url_String parsed +:+ "/api/v3").
Definition repositoryEndpoint (reference : RepositoryReference) : ProviderAnswer string :=
  base ← apiBase (rr_Origin reference);
  match split_path (rr_PathWithNamespace reference) with
  | [owner; name] => Answered (base +:+ "/repos/" +:+ PathEscape owner +:+ "/" +:+ PathEscape name)
  | _ => invalidReference
  end.
Definition pullRequestEndpoint (reference : RepositoryReference) (number : Z) : ProviderAnswer string :=
  endpoint ← repositoryEndpoint reference;
  _ ← reject_if (number <? 1) ErrorInvalidReference;
  Answered (endpoint +:+ "/pulls/" +:+ FormatInt number).

Definition codeChangeState (state : string) (mergedAt : option Time) : ProviderAnswer CodeChangeState :=
  if present mergedAt then Answered CodeChangeStateMerged
  else if state == "open" then Answered CodeChangeStateOpened
  else if state == "closed" then Answered CodeChangeStateClosed
  else rejected.

Definition GitHub_ResolveRepository (s : GitHubServer) (reference : RepositoryReference) (key : credential) (requestID : string)
    : ProviderAnswer RepositoryIdentity :=
  _ ← reject_if (rr_Provider reference != RepositoryProviderGitHub) ErrorInvalidReference;
  endpoint ← repositoryEndpoint reference;
  response ← getJSON categoryForResponse (gh_send s endpoint requestID) (gh_repository s) key;
  answer_if_valid RepositoryIdentity_Validate (mkRepositoryIdentity (FormatInt (hr_ID response)) (hr_FullName response)
    (hr_HTMLURL response) (hr_DefaultBranch response)).

Definition GitHub_GetCodeChange (s : GitHubServer) (reference : RepositoryReference) (providerRepositoryID : string)
    (kind : CodeChangeKind) (changeNumber : Z) (key : credential) (requestID : string) : ProviderAnswer CodeChange :=
  _ ← reject_if ((rr_Provider reference != RepositoryProviderGitHub) || (kind != CodeChangeKindPullRequest)) ErrorInvalidReference;
  repositoryID ← or_category (ParseInt providerRepositoryID) ErrorInvalidReference;
  _ ← reject_if ((repositoryID <? 1) || (changeNumber <? 1)) ErrorInvalidReference;
  endpoint ← pullRequestEndpoint reference changeNumber;
  response ← getJSON categoryForResponse (gh_send s endpoint requestID) (gh_pull_request s) key;
  _ ← reject_if ((pq_BaseRepositoryID response != repositoryID) ||
        negb (unicode_EqualFold (pq_BaseRepositoryFullName response) (rr_PathWithNamespace reference))) ErrorProviderRejected;
  state ← codeChangeState (pq_State response) (pq_MergedAt response);
  let observation := mkCodeChangeObservation CodeChangeObservationConfirmed (gh_now s) (pq_Title response) state (pq_Draft response)
    (pq_HeadRef response) (pq_BaseRef response) (pq_HeadSHA response) (pq_MergeCommitSHA response) (pq_MergedAt response)
    (pq_UpdatedAt response) in
  let codeChange := mkCodeChange RepositoryProviderGitHub CodeChangeKindPullRequest (FormatInt (pq_ID response)) (pq_Number response)
    (pq_HTMLURL response) observation in
  _ ← reject_if (pq_Number response != changeNumber) ErrorProviderRejected;
  answer_if_valid CodeChange_Validate codeChange.

Definition GitHub_Client (s : GitHubServer) : RepositoryProviderClient :=
  mkRepositoryProviderClient RepositoryProviderGitHub GitHub_ParseRepositoryURL GitHub_ParseCodeChangeURL
    (GitHub_ResolveRepository s) (GitHub_GetCodeChange s).
End urls.

(** ** What callers rely on *)

(** The interface keeps this promise: what a client answers is valid, and of its provider. *)
Class ClientLaws (c : RepositoryProviderClient) : Prop := {
  law_repository_url raw r : cl_ParseRepositoryURL c raw = Answered r -> RepositoryReference_Validate r = Ok tt /\ rr_Provider r = cl_Provider c;
  law_change_url raw r : cl_ParseCodeChangeURL c raw = Answered r -> CodeChangeReference_Validate r = Ok tt;
  law_identity reference key requestID i : cl_ResolveRepository c reference key requestID = Answered i -> RepositoryIdentity_Validate i = Ok tt;
  law_change reference id kind number key requestID change :
    cl_GetCodeChange c reference id kind number key requestID = Answered change ->
    CodeChange_Validate change = Ok tt /\ ob_Status (cc_Observation change) = CodeChangeObservationConfirmed /\
    cc_Provider change = cl_Provider c /\ cc_Kind change = kind /\ cc_ChangeNumber change = number;
}.

Lemma Answer_bind_Answered {A B} (m : ProviderAnswer A) (f : A -> ProviderAnswer B) b : m ≫= f = Answered b <-> exists a, m = Answered a /\ f a = Answered b.
Proof. destruct m; cbn; naive_solver. Qed.
Lemma reject_if_Answered b c u : reject_if b c = Answered u <-> b = false.
Proof. destruct b, u; cbn; naive_solver. Qed.
Lemma or_category_Answered {A} (o : option A) c a : or_category o c = Answered a <-> o = Some a.
Proof. destruct o; cbn; naive_solver. Qed.
Lemma answer_if_valid_Answered {A} (v : A -> result unit) a b : answer_if_valid v a = Answered b <-> b = a /\ v a = Ok tt.
Proof. unfold answer_if_valid, rejected. destruct (v a) as [[]|]; naive_solver. Qed.
(** Splits a successful run of a client into its statements. *)
Ltac answered := repeat match goal with
  | Ha : (_ ≫= _) = Answered _ |- _ => apply Answer_bind_Answered in Ha as (? & ? & ?)
  | Ha : reject_if _ _ = Answered _ |- _ => apply reject_if_Answered in Ha
  | Ha : or_category _ _ = Answered _ |- _ => apply or_category_Answered in Ha
  | Ha : answer_if_valid _ _ = Answered _ |- _ => apply answer_if_valid_Answered in Ha as [-> ?]
  | Ha : Answered _ = Answered _ |- _ => injection Ha as <-
  | Ha : Failed _ = Answered _ |- _ => discriminate Ha
  | Ha : invalidReference = Answered _ |- _ => discriminate Ha
  end.

(** A text with a slash is not blank. *)
Lemma space_no_slash p : p ∈ GoStrings.spaces -> slash ∉ p.
Proof.
  intros Hp%list_elem_of_In Hs%list_elem_of_In.
  assert (forallb (fun p => forallb (fun c => c != slash) p) GoStrings.spaces = true) as Ha by (vm_compute; reflexivity).
  rewrite forallb_forall in Ha. specialize (Ha _ Hp). rewrite forallb_forall in Ha. by specialize (Ha _ Hs).
Qed.
Lemma trimmed_slash ps n l : (forall p, p ∈ ps -> slash ∉ p) -> slash ∈ l -> slash ∈ GoStrings.trim_fuel ps n l.
Proof.
  intros Hps Hl. destruct (GoStrings.trim_fuel_concat ps n l) as (qs & Hqs & E). rewrite E in Hl. apply elem_of_app in Hl as [Hl|Hl]; [|done].
  exfalso. apply list_elem_of_In, in_concat in Hl as (q & Hq & Hs). apply list_elem_of_In in Hq, Hs. by apply (Hps q); [apply Hqs|].
Qed.
Lemma slash_not_blank s : slash ∈ chars s -> blank s = false.
Proof.
  intros Hs. apply bool_decide_eq_false. unfold TrimSpace, GoStrings.TrimSpace. intros E.
  assert (slash ∈ GoStrings.trim (chars s)) as Hin.
  { unfold GoStrings.trim. apply list_elem_of_In. rewrite <- in_rev. apply list_elem_of_In. apply trimmed_slash.
    - intros p (q & -> & Hq)%list_elem_of_fmap. intros Hp. apply (space_no_slash q Hq), list_elem_of_In. rewrite in_rev. by apply list_elem_of_In.
    - apply list_elem_of_In. rewrite <- in_rev. apply list_elem_of_In. by apply trimmed_slash; [apply space_no_slash|]. }
  apply (f_equal chars) in E. rewrite String.list_ascii_of_string_of_list_ascii in E. rewrite E in Hin. by apply not_elem_of_nil in Hin.
Qed.

Lemma split_slash_two l : (2 <= length (split_slash l))%nat -> slash ∈ l.
Proof.
  induction l as [|c l IH]; cbn [split_slash]; [cbn; lia|]. case_bool_decide as E; [subst; intros; by left|]. intros Hl. right. apply IH.
  destruct (split_slash l) as [|e es]; cbn in *; lia.
Qed.
Lemma joined_slash a b : slash ∈ chars (join_path [a; b]).
Proof. unfold join_path. rewrite String.list_ascii_of_string_of_list_ascii. cbn. apply elem_of_app. right. by left. Qed.
Lemma slash_app s t : slash ∈ chars (s +:+ String slash t).
Proof. induction s as [|c s IH]; [by left|]. by right. Qed.

Section laws.
Context `{UrlLibrary}.

Lemma GitLab_path_slash e p : GitLab_normalizeRepositoryPath e = Answered p -> slash ∈ chars p.
Proof.
  unfold GitLab_normalizeRepositoryPath. intros Hp. answered. cbv zeta in *. answered. apply split_slash_two.
  match goal with Hl : (length _ <? 2)%nat = false |- _ => apply Nat.ltb_ge in Hl; unfold split_path in Hl; by rewrite length_fmap in Hl end.
Qed.
Lemma GitHub_path_slash e p : GitHub_normalizeRepositoryPath e = Answered p -> slash ∈ chars p.
Proof.
  unfold GitHub_normalizeRepositoryPath. intros Hp. answered. repeat (case_match; answered; try done). apply joined_slash.
Qed.
Lemma parsed_reference provider host p : RepositoryProvider_Valid provider = true -> slash ∈ chars p ->
  RepositoryReference_Validate (mkRepositoryReference provider (https_String host "") p (unicode_ToLower p) (https_String host ("/" +:+ p))) = Ok tt.
Proof.
  intros Hv Hs. unfold RepositoryReference_Validate. cbn [rr_Provider rr_Origin rr_PathWithNamespace rr_PathLookupKey rr_WebURL].
  by rewrite Hv, !https_String_prefix, ToLower_blank, (slash_not_blank p Hs).
Qed.

Lemma valid_reference_kind r kind number url : RepositoryReference_Validate r = Ok tt -> CodeChangeKind_CompatibleWith kind (rr_Provider r) = true ->
  (number <? 1) = false -> blank url = false -> CodeChangeReference_Validate (mkCodeChangeReference r kind number url) = Ok tt.
Proof. intros Hr Hk Hn Hu. unfold CodeChangeReference_Validate. cbn. rewrite Hr. cbn. by rewrite Hk, Hn, Hu. Qed.

Lemma GitLab_reference raw r : GitLab_ParseRepositoryURL raw = Answered r ->
  RepositoryReference_Validate r = Ok tt /\ rr_Provider r = RepositoryProviderGitLab.
Proof.
  unfold GitLab_ParseRepositoryURL. intros Hr. answered. split; [|done]. apply parsed_reference; [done|]. by eapply GitLab_path_slash.
Qed.
Lemma GitHub_reference raw r : GitHub_ParseRepositoryURL raw = Answered r ->
  RepositoryReference_Validate r = Ok tt /\ rr_Provider r = RepositoryProviderGitHub.
Proof.
  unfold GitHub_ParseRepositoryURL. intros Hr. answered. split; [|done]. apply parsed_reference; [done|]. by eapply GitHub_path_slash.
Qed.

#[global] Instance GitLab_laws s : ClientLaws (GitLab_Client s).
Proof.
  split; cbn [GitLab_Client cl_Provider cl_ParseRepositoryURL cl_ParseCodeChangeURL cl_ResolveRepository cl_GetCodeChange].
  - apply GitLab_reference.
  - unfold GitLab_ParseCodeChangeURL. intros raw r Hr. answered. cbv zeta in *. answered.
    match goal with Hp : GitLab_ParseRepositoryURL _ = Answered _ |- _ => apply GitLab_reference in Hp as [? Ep] end.
    apply valid_reference_kind; [done|by rewrite Ep|done|apply https_String_prefix].
  - unfold GitLab_ResolveRepository. intros reference key requestID i Hi. by answered.
  - unfold GitLab_GetCodeChange. intros reference id kind number key requestID change Hc. answered. cbv zeta in *. answered. go_bool. by subst.
Qed.
#[global] Instance GitHub_laws s : ClientLaws (GitHub_Client s).
Proof.
  split; cbn [GitHub_Client cl_Provider cl_ParseRepositoryURL cl_ParseCodeChangeURL cl_ResolveRepository cl_GetCodeChange].
  - apply GitHub_reference.
  - unfold GitHub_ParseCodeChangeURL. intros raw r Hr. answered. repeat (case_match; answered; try done).
    match goal with Hp : GitHub_ParseRepositoryURL _ = Answered _ |- _ => apply GitHub_reference in Hp as [? Ep] end.
    apply valid_reference_kind; [done|by rewrite Ep|done|apply slash_not_blank, slash_app].
  - unfold GitHub_ResolveRepository. intros reference key requestID i Hi. by answered.
  - unfold GitHub_GetCodeChange. intros reference id kind number key requestID change Hc. answered. cbv zeta in *. answered. go_bool. by subst.
Qed.
End laws.
