(* ===== verification/DeliveryService.v ===== *)
(** * Services of repositories and code changes

    internal/application/repository_provider_registry.go, repository_connection_service.go,
    project_repository_service.go and task_delivery_service.go, the cipher of credentials of
    internal/identity/crypto.go, over the stores and the clients of the providers.  AES-GCM is a parameter. *)

From stdpp Require Import base tactics strings gmap list numbers sorting.
From Stdlib Require Strings.Byte.
From S2P Require Import Prelude Actors Lifecycle StageClaim Delivery Thread Acceptance Database Tx State.
From S2P Require Import ThreadStore ClaimStore WorkflowStore WorkflowCommands TaskStore StoreCommands Access Membership PlanningStore.
From S2P Require Import PlanningCommands DeliveryStore DeliverySystem Providers.

Local Abbreviation bytes := (list Byte.byte).
(** [[]byte(s)] *)
Definition bytes_of (s : string) : bytes := String.list_byte_of_string s.

(** ** internal/identity/crypto.go *)

(** AES-GCM *)
Class AEAD := {
  gcm_NonceSize : nat;
  gcm_Seal : bytes -> bytes -> bytes -> bytes -> bytes;
  gcm_Open : bytes -> bytes -> bytes -> bytes -> option bytes;
  gcm_open_seal key nonce plaintext data : length nonce = gcm_NonceSize ->
    gcm_Open key nonce (gcm_Seal key nonce plaintext data) data = Some plaintext;
}.

Definition CredentialCipher : Type := gmap string bytes.
Definition NewCredentialCipher (keys : gmap string bytes) : result CredentialCipher :=
  _ ← fail_if (bool_decide (keys = ∅)) ErrOther;
  _ ← fail_if (existsb (fun k => (k.1 == "") || (length k.2 != 32%nat)) (map_to_list keys)) ErrOther;
  Ok keys.

Section services.
Context `{AEAD} `{UrlLibrary} `{UUIDSource} `{TextForms} `{NameOrder}.

(** [aes.NewCipher] takes keys of 16, 24 or 32 bytes. *)
Definition gcm (c : CredentialCipher) (keyID : string) : result bytes :=
  match c !! keyID with
  | None => Err ErrOther
  | Some key => _ ← fail_if (negb (bool_decide (length key ∈ [16; 24; 32]%nat))) ErrOther; Ok key
  end.
(** The nonce that the random source gives, unless it fails. *)
Definition Encrypt (c : CredentialCipher) (keyID : string) (plaintext : bytes) (nonce : option bytes) : result bytes :=
  key ← gcm c keyID;
  match nonce with
  | None => Err ErrOther
  | Some nonce => Ok (nonce ++ gcm_Seal key nonce plaintext (bytes_of keyID))
  end.
Definition Decrypt (c : CredentialCipher) (keyID : string) (ciphertext : bytes) : result bytes :=
  key ← gcm c keyID;
  _ ← fail_if (length ciphertext <? gcm_NonceSize)%nat ErrOther;
  match gcm_Open key (take gcm_NonceSize ciphertext) (drop gcm_NonceSize ciphertext) (bytes_of keyID) with
  | Some plaintext => Ok plaintext
  | None => Err ErrOther
  end.

(** ** internal/application/repository_provider_registry.go *)

(** [nil] is a registry that was not configured. *)
Definition RepositoryProviderRegistry : Type := gmap string RepositoryProviderClient.
Fixpoint register (clients : list (option RepositoryProviderClient)) (registry : RepositoryProviderRegistry)
    : result RepositoryProviderRegistry :=
  match clients with
  | [] => Ok registry
  | None :: _ => Err ErrInvalidInput
  | Some client :: rest =>
      _ ← fail_if (negb (RepositoryProvider_Valid (cl_Provider client))) ErrInvalidInput;
      _ ← fail_if (present (registry !! cl_Provider client)) ErrConflict;
      register rest (<[cl_Provider client := client]> registry)
  end.
Definition NewRepositoryProviderRegistry (clients : list (option RepositoryProviderClient)) : result RepositoryProviderRegistry :=
  register clients ∅.

Definition Registry_Provider (r : option RepositoryProviderRegistry) (provider : RepositoryProvider) : result RepositoryProviderClient :=
  match r with
  | None => Err ErrIntegrationNotConfigured
  | Some clients => match clients !! provider with Some client => Ok client | None => Err ErrIntegrationNotConfigured end
  end.

Definition mapRepositoryProviderError (category : option string) : error :=
  match category with
  | None => ErrProviderRejected
  | Some c =>
      if c == "invalid_reference" then ErrInvalidInput
      else if c == "not_found" then ErrNotFound
      else if c == "unauthorized" then ErrProviderUnauthorized
      else if c == "unreachable" then ErrProviderUnavailable
      else ErrProviderRejected
  end.
Definition Registry_ParseRepositoryURL (r : option RepositoryProviderRegistry) (provider : RepositoryProvider) (rawURL : string)
    : result RepositoryReference :=
  client ← Registry_Provider r provider;
  match cl_ParseRepositoryURL client rawURL with
  | Answered reference => Ok reference
  | Failed category => Err (mapRepositoryProviderError category)
  end.

(** [sort.Strings] of the keys *)
Definition sorted_providers (clients : RepositoryProviderRegistry) : list string :=
  merge_sort (fun a b => String.compare a b <> Gt) (map_to_list clients).*1.
Definition url_candidates {A} (r : option RepositoryProviderRegistry) (parse : RepositoryProviderClient -> ProviderAnswer A) : result (list A) :=
  match r with
  | None => Err ErrIntegrationNotConfigured
  | Some clients =>
      _ ← fail_if (bool_decide (clients = ∅)) ErrIntegrationNotConfigured;
      let matches := omap (fun value => client ← clients !! value;
        match parse client with Answered reference => Some reference | Failed _ => None end) (sorted_providers clients) in
      _ ← fail_if (length matches == 0%nat) ErrInvalidInput;
      Ok matches
  end.
Definition RepositoryURLCandidates (r : option RepositoryProviderRegistry) (rawURL : string) : result (list RepositoryReference) :=
  url_candidates r (fun client => cl_ParseRepositoryURL client rawURL).
Definition CodeChangeURLCandidates (r : option RepositoryProviderRegistry) (rawURL : string) : result (list CodeChangeReference) :=
  url_candidates r (fun client => cl_ParseCodeChangeURL client rawURL).

(** [errors.Is(err, domain.ErrVersionConflict)] holds of a [VersionConflictError] too. *)
Definition repositoryIntegrationFailureCategory (e : error) : string :=
  match e with
  | ErrInvalidInput => "invalid_reference"
  | ErrNotFound => "not_found"
  | ErrProviderUnauthorized => "unauthorized"
  | ErrProviderUnavailable => "unreachable"
  | ErrProviderRejected => "provider_rejected"
  | ErrConflict | ErrVersionConflict | VersionConflictError _ => "conflict"
  | _ => "internal"
  end.

(** ** Access to Projects and Tasks *)

(** The Projects, memberships, users and Tasks as the access service reads them. *)
Definition member_view (p : PlanWorld) : MemberDB :=
  mkMemberDB ((fun x => mkProjectRow (p_ID x) (p_Number x) (p_Version x) (p_ArchivedAt x)) <$> pl_projects p) (pl_memberships p) (pl_users p)
    (Database.api_tokens (pl_db p)) (list_to_map ((fun t => (t_number t, t_project_id t)) <$> rows (tasks (pl_db p)))) [] [].
Definition access {A} (m : MemberM A) : DeliveryM A := fun w => ((m (member_view (dw_plan w))).1, w).
Definition require_project (number : Z) (subject : ProjectAccessSubject) (permission : ProjectPermission) : DeliveryM Project :=
  row ← access (RequireProjectByNumber number subject permission);
  found ← st_get (fun w => pl_projects (dw_plan w) !! pj_id row);
  st_or_err found ErrNotFound.
Definition require_task (number : Z) (subject : ProjectAccessSubject) (permission : ProjectPermission) : DeliveryM TaskRow :=
  found ← st_get (fun w => task_by_number (dw_db w) number);
  task ← st_or_err found ErrNotFound;
  _ ← access (RequireTaskByNumber number subject permission);
  mret task.

(** ** internal/application/repository_connection_service.go *)

Record RepositoryConnectionService := mkRepositoryConnectionService {
  rs_Providers : option RepositoryProviderRegistry;
  rs_Cipher : option CredentialCipher;
  rs_EncryptionKeyID : string;
}.
Record CreateRepositoryConnection := mkCreateRepositoryConnection {
  ic_Label : string;
  ic_Provider : RepositoryProvider;
  ic_RepositoryURL : string;
  ic_Credential : string;
  ic_CredentialExpiresAt : option Time;
}.

Definition repositoryReference (c : RepositoryConnection) : RepositoryReference :=
  mkRepositoryReference (rc_Provider c) (rc_Origin c) (rc_PathWithNamespace c) (rc_PathLookupKey c) (rc_CanonicalWebURL c).
(** The cipher, when the service is configured. *)
Definition configured (s : RepositoryConnectionService) : result CredentialCipher :=
  match rs_Providers s, rs_Cipher s with
  | Some _, Some cipher => _ ← fail_if (blank (rs_EncryptionKeyID s)) ErrIntegrationNotConfigured; Ok cipher
  | _, _ => Err ErrIntegrationNotConfigured
  end.

Definition answer_or {A} (f : option string -> error) (a : ProviderAnswer A) : result A :=
  match a with Answered a => Ok a | Failed category => Err (f category) end.

Definition resolve (s : RepositoryConnectionService) (reference : RepositoryReference) (key : bytes) (requestID : string) (now : Time)
    : result RepositoryConnectionValidation :=
  provider ← Registry_Provider (rs_Providers s) (rr_Provider reference);
  repository ← answer_or mapRepositoryProviderError (cl_ResolveRepository provider reference key requestID);
  providerReference ← answer_or (fun _ => ErrProviderRejected) (cl_ParseRepositoryURL provider (ri_WebURL repository));
  _ ← fail_if ((rr_Provider providerReference != rr_Provider reference) || (rr_Origin providerReference != rr_Origin reference) ||
               (rr_PathLookupKey providerReference != rr_PathLookupKey reference) ||
               negb (unicode_EqualFold (ri_PathWithNamespace repository) (rr_PathWithNamespace reference))) ErrProviderRejected;
  Ok (mkRepositoryConnectionValidation providerReference repository now).

(** [if err != nil { h(err); return ..., err }] *)
Definition on_error {A} (m : DeliveryM A) (h : error -> DeliveryM unit) : DeliveryM A := fun w =>
  match m w with
  | (Err e, w') => (Err e, (h e w').2)
  | ok => ok
  end.
(** What fails is only logged. *)
Definition recordFailure (connectionID : option UUID) (operation : OperationActor) (eventType : string) (provider : RepositoryProvider)
    (origin : string) (providerRepositoryID : option string) (now : Time) (failure : error) : DeliveryM unit :=
  RecordFailure connectionID (op_UserID operation) eventType provider origin providerRepositoryID
    (repositoryIntegrationFailureCategory failure) (op_RequestID operation) now.

Definition ConnectionService_Create (s : RepositoryConnectionService) (input : CreateRepositoryConnection) (operation : OperationActor)
    (nonce : option bytes) (now : Time) : DeliveryM RepositoryConnection :=
  st_lift (OperationActor_Validate operation);;
  cipher ← st_lift (configured s);
  let label := TrimSpace (ic_Label input) in
  let key := bytes_of (TrimSpace (ic_Credential input)) in
  st_fail ((label == "") || (length key == 0%nat) || negb (RepositoryProvider_Valid (ic_Provider input))) ErrInvalidInput;;
  reference ← st_lift (Registry_ParseRepositoryURL (rs_Providers s) (ic_Provider input) (ic_RepositoryURL input));
  let failed := recordFailure None operation "created" (rr_Provider reference) (rr_Origin reference) in
  validation ← on_error (st_lift (resolve s reference key (op_RequestID operation) now)) (failed None now);
  ciphertext ← st_lift (Encrypt cipher (rs_EncryptionKeyID s) key nonce);
  id ← in_plan new_uuid;
  let connection := mkRepositoryConnection id 1 label (rr_Provider reference) (rr_Origin (rv_Reference validation))
    (ri_ProviderRepositoryID (rv_Repository validation)) (rr_PathWithNamespace (rv_Reference validation))
    (rr_PathLookupKey (rv_Reference validation)) (rr_WebURL (rv_Reference validation)) (ri_DefaultBranch (rv_Repository validation))
    ciphertext (rs_EncryptionKeyID s) (ic_CredentialExpiresAt input) RepositoryConnectionStatusActive now (op_UserID operation) None None
    now now in
  on_error (Connections_Create connection operation) (failed (Some (ri_ProviderRepositoryID (rv_Repository validation))) now).

(** The Connection that a caller has read, and the validation of its repository with a credential. *)
Definition expected_connection (id : UUID) (expectedVersion : Z) : DeliveryM RepositoryConnection :=
  current ← Connections_Get id;
  st_fail (rc_Version current != expectedVersion) (VersionConflictError (rc_Version current));;
  mret current.
Definition revalidated (s : RepositoryConnectionService) (current : RepositoryConnection) (key : bytes) (requestID : string) (now : Time)
    : result RepositoryConnectionValidation :=
  validation ← resolve s (repositoryReference current) key requestID now;
  _ ← fail_if (ri_ProviderRepositoryID (rv_Repository validation) != rc_ProviderRepositoryID current) ErrConflict;
  Ok validation.

Definition ConnectionService_RotateCredential (s : RepositoryConnectionService) (id : UUID) (expectedVersion : Z) (credentialText : string)
    (expiresAt : option Time) (operation : OperationActor) (nonce : option bytes) (now : Time) : DeliveryM RepositoryConnection :=
  st_lift (OperationActor_Validate operation);;
  cipher ← st_lift (configured s);
  let key := bytes_of (TrimSpace credentialText) in
  st_fail (length key == 0%nat) ErrInvalidInput;;
  current ← expected_connection id expectedVersion;
  let failed := recordFailure (Some id) operation "credential_rotated" (rc_Provider current) (rc_Origin current)
    (Some (rc_ProviderRepositoryID current)) now in
  validation ← on_error (st_lift (revalidated s current key (op_RequestID operation) now)) failed;
  ciphertext ← st_lift (Encrypt cipher (rs_EncryptionKeyID s) key nonce);
  on_error (Connections_RotateCredential id expectedVersion validation ciphertext (rs_EncryptionKeyID s) expiresAt operation) failed.

Definition ConnectionService_Validate (s : RepositoryConnectionService) (id : UUID) (expectedVersion : Z) (operation : OperationActor)
    (now : Time) : DeliveryM RepositoryConnection :=
  st_lift (OperationActor_Validate operation);;
  cipher ← st_lift (configured s);
  current ← expected_connection id expectedVersion;
  key ← st_lift (Decrypt cipher (rc_EncryptionKeyID current) (rc_CredentialCiphertext current));
  let failed := recordFailure (Some id) operation "validated" (rc_Provider current) (rc_Origin current)
    (Some (rc_ProviderRepositoryID current)) now in
  validation ← on_error (st_lift (revalidated s current key (op_RequestID operation) now)) failed;
  on_error (RecordValidation id expectedVersion validation operation) failed.

Definition ConnectionService_Disable (id : UUID) (expectedVersion : Z) (operation : OperationActor) (now : Time)
    : DeliveryM RepositoryConnection :=
  st_lift (OperationActor_Validate operation);;
  Connections_Disable id expectedVersion operation now.

Definition validateExisting (s : RepositoryConnectionService) (connection : RepositoryConnection) (requestID : string) (now : Time)
    : result RepositoryConnectionValidation :=
  cipher ← configured s;
  _ ← fail_if (rc_Status connection != RepositoryConnectionStatusActive) ErrConflict;
  key ← Decrypt cipher (rc_EncryptionKeyID connection) (rc_CredentialCiphertext connection);
  revalidated s connection key requestID now.

(** ** internal/application/project_repository_service.go *)

(** The loop over the candidates: the last match, and how many there are. *)
Fixpoint match_candidates {C X} (find : C -> DeliveryM X) (cs : list C) (last : option (C * X)) (count : Z) : DeliveryM (option (C * X) * Z) :=
  match cs with
  | [] => mret (last, count)
  | candidate :: rest => fun w =>
      match find candidate w with
      | (Err ErrNotFound, w) => match_candidates find rest last count w
      | (Err e, w) => (Err e, w)
      | (Ok matched, w) => match_candidates find rest (Some (candidate, matched)) (count + 1) w
      end
  end.
Definition one_match {C X} (find : C -> DeliveryM X) (cs : list C) : DeliveryM (C * X) :=
  '(last, count) ← match_candidates find cs None 0;
  st_fail (count =? 0) ErrNotFound;;
  st_fail (1 <? count) ErrConflict;;
  st_or_err last ErrNotFound.

(** An administrator of a Project that is not archived. *)
Definition administered_project (number : Z) (subject : ProjectAccessSubject) : DeliveryM Project :=
  project ← require_project number subject ProjectPermissionAdmin;
  st_fail (present (p_ArchivedAt project)) ErrConflict;;
  mret project.

Definition RepositoryService_List (collate : string -> string -> comparison) (number : Z) (subject : ProjectAccessSubject)
    : DeliveryM (list ProjectRepositoryWithConnection) :=
  project ← require_project number subject ProjectPermissionRead;
  Repositories_ListActive collate (p_ID project).

(** The service shares the registry of the Connection service (cmd/server/main.go).  [checked] and [now] are the
    times of the validation and of the binding. *)
Definition RepositoryService_Bind (s : RepositoryConnectionService) (projectNumber expectedProjectVersion : Z) (repositoryURL : string)
    (subject : ProjectAccessSubject) (operation : OperationActor) (checked now : Time) : DeliveryM ProjectRepositoryMutation :=
  project ← administered_project projectNumber subject;
  found ← st_lift (RepositoryURLCandidates (rs_Providers s) repositoryURL);
  '(reference, connection) ← one_match FindActiveByRepository found;
  validation ← st_lift (validateExisting s connection (op_RequestID operation) checked);
  let resolved := rv_Reference validation in
  st_fail ((rr_Origin resolved != rr_Origin reference) || (rr_Provider resolved != rr_Provider reference) ||
           (rr_PathLookupKey resolved != rr_PathLookupKey reference)) ErrConflict;;
  Repositories_Bind (p_ID project) expectedProjectVersion (rc_ID connection) operation now.

Definition RepositoryService_Unbind (projectNumber expectedProjectVersion : Z) (repositoryID : UUID) (subject : ProjectAccessSubject)
    (operation : OperationActor) (now : Time) : DeliveryM ProjectRepositoryMutation :=
  project ← administered_project projectNumber subject;
  Repositories_Unbind (p_ID project) expectedProjectVersion repositoryID operation now.

(** ** internal/application/task_delivery_service.go *)

Record TaskDeliveryService := mkTaskDeliveryService {
  tds_Providers : option RepositoryProviderRegistry;
  tds_Cipher : option CredentialCipher;
}.
Record TaskDelivery := mkTaskDelivery {
  dl_ActiveLinks : list TaskCodeChangeWithRepository;
  dl_Review : option TaskDeliverySnapshot;
}.

(** A zero [domain.CodeChangeObservation] but for a status and a time *)
Definition unobserved (status : CodeChangeObservationStatus) (now : Time) : CodeChangeObservation :=
  mkCodeChangeObservation status now "" "" false "" "" "" None None 0.
Definition failure_status (e : error) : CodeChangeObservationStatus :=
  match e with
  | ErrNotFound => CodeChangeObservationMissing
  | ErrProviderUnauthorized => CodeChangeObservationUnauthorized
  | _ => CodeChangeObservationUnreachable
  end.
Definition refreshObservation (s : TaskDeliveryService) (item : TaskCodeChangeWithRepository) (requestID : string) (now : Time)
    : CodeChangeObservation :=
  let connection := tr_Connection item in
  let change := tr_CodeChange item in
  match tds_Providers s, tds_Cipher s with
  | Some _, Some cipher =>
      if rc_Status connection != RepositoryConnectionStatusActive then unobserved CodeChangeObservationDisconnected now
      else match Registry_Provider (tds_Providers s) (rc_Provider connection) with
      | Err _ => unobserved CodeChangeObservationDisconnected now
      | Ok provider =>
          match Decrypt cipher (rc_EncryptionKeyID connection) (rc_CredentialCiphertext connection) with
          | Err _ => unobserved CodeChangeObservationDisconnected now
          | Ok key =>
              match cl_GetCodeChange provider (repositoryReference connection) (rc_ProviderRepositoryID connection) (tcc_Kind change)
                      (tcc_ChangeNumber change) key requestID with
              | Failed category => unobserved (failure_status (mapRepositoryProviderError category)) now
              | Answered codeChange =>
                  if (cc_ProviderChangeID codeChange != tcc_ProviderChangeID change) ||
                     (cc_ChangeNumber codeChange != tcc_ChangeNumber change) || (cc_Kind codeChange != tcc_Kind change)
                  then unobserved CodeChangeObservationMissing now
                  else cc_Observation codeChange
              end
          end
      end
  | _, _ => unobserved CodeChangeObservationDisconnected now
  end.

(** [results[index].CodeChange.LatestObservation] after a refresh *)
Definition refreshed (item : TaskCodeChangeWithRepository) (observation : CodeChangeObservation) : TaskCodeChangeWithRepository :=
  let c := tr_CodeChange item in
  mkTaskCodeChangeWithRepository (mkTaskCodeChange (tcc_ID c) (tcc_TaskID c) (tcc_ProjectID c) (tcc_ProjectRepositoryID c)
    (tcc_Provider c) (tcc_Kind c) (tcc_ChangeNumber c) (tcc_ProviderChangeID c) (tcc_WebURL c) (tcc_LinkedBy c)
    (tcc_LinkedThroughClaimID c) (tcc_LinkedAt c) (tcc_UnlinkedBy c) (tcc_UnlinkedThroughClaimID c) (tcc_UnlinkedAt c)
    (observed (tcc_LatestObservation c) observation) (tcc_CreatedAt c) (tcc_UpdatedAt c))
    (tr_Repository item) (tr_Connection item).

(** The goroutines of [refreshLinks] in the order in which they write their observation: the index, whether the time
    was up before it got its turn, when it observed and when it wrote, and what other requests did before that. *)
Record Turn := mkTurn {
  tn_index : nat;
  tn_expired : bool;
  tn_observed : Time;
  tn_written : Time;
  tn_others : list DeliveryCommand;
}.
Definition turn_observation (s : TaskDeliveryService) (requestID : string) (item : TaskCodeChangeWithRepository) (t : Turn)
    : CodeChangeObservation :=
  if tn_expired t then unobserved CodeChangeObservationUnreachable (tn_observed t)
  else refreshObservation s item requestID (tn_observed t).
(** [results] and [firstError] *)
Fixpoint refresh_turns (s : TaskDeliveryService) (requestID : string) (turns : list Turn)
    (results : list TaskCodeChangeWithRepository) (firstError : option error) (w : DeliveryWorld)
    : list TaskCodeChangeWithRepository * option error * DeliveryWorld :=
  match turns with
  | [] => (results, firstError, w)
  | t :: rest =>
      let w := delivery_steps (tn_others t) w in
      match results !! tn_index t with
      | None => refresh_turns s requestID rest results firstError w
      | Some item =>
          let observation := turn_observation s requestID item t in
          match UpdateObservation (tcc_ID (tr_CodeChange item)) observation (tn_written t) w with
          | (Err e, w) => refresh_turns s requestID rest results (Some (default e firstError)) w
          | (Ok _, w) => refresh_turns s requestID rest (<[tn_index t := refreshed item observation]> results) firstError w
          end
      end
  end.
(** [cancelled]: the request itself was cancelled. *)
Definition refreshLinks (s : TaskDeliveryService) (requestID : string) (turns : list Turn) (cancelled : bool)
    (links : list TaskCodeChangeWithRepository) : DeliveryM (list TaskCodeChangeWithRepository) := fun w =>
  if length links == 0%nat then (Ok links, w)
  else
    let '(results, firstError, w') := refresh_turns s requestID turns links None w in
    if cancelled then (Err ErrOther, w')
    else match firstError with
         | Some e => (Err e, w')
         | None => (Ok results, w')
         end.

Definition snapshot_of (link : TaskCodeChangeWithRepository) : CodeChangeSnapshot :=
  let c := tr_CodeChange link in
  let o := tcc_LatestObservation c in
  mkCodeChangeSnapshot (tcc_ID c) (pr_ID (tr_Repository link)) (rc_ID (tr_Connection link)) (rc_Provider (tr_Connection link))
    (rc_ProviderRepositoryID (tr_Connection link)) (tcc_Kind c) (tcc_ChangeNumber c) (tcc_ProviderChangeID c) (tcc_WebURL c)
    (ob_Title o) (ob_State o) (ob_Draft o) (ob_SourceBranch o) (ob_TargetBranch o) (ob_HeadSHA o) (ob_MergeCommitSHA o) (ob_MergedAt o)
    (ob_Status o) (ob_ObservedAt o).
(** The active links of the Task, refreshed. *)
Definition delivered_links (s : TaskDeliveryService) (collate : string -> string -> comparison) (taskID : UUID) (requestID : string)
    (turns : list Turn) (cancelled : bool) : DeliveryM (list TaskCodeChangeWithRepository) :=
  links ← CodeChanges_ListActive collate taskID;
  refreshLinks s requestID turns cancelled links.
Definition PrepareCompletion (s : TaskDeliveryService) (collate : string -> string -> comparison) (taskNumber : Z)
    (subject : ProjectAccessSubject) (requestID : string) (turns : list Turn) (cancelled : bool) : DeliveryM (list CodeChangeSnapshot) :=
  task ← require_task taskNumber subject ProjectPermissionRead;
  links ← delivered_links s collate (t_id task) requestID turns cancelled;
  let snapshots := snapshot_of <$> links in
  st_lift (first_error CodeChangeSnapshot_Validate snapshots);;
  mret snapshots.
Definition GetDelivery (s : TaskDeliveryService) (collate : string -> string -> comparison) (taskNumber : Z)
    (subject : ProjectAccessSubject) (requestID : string) (turns : list Turn) (cancelled : bool) : DeliveryM TaskDelivery :=
  task ← require_task taskNumber subject ProjectPermissionRead;
  links ← delivered_links s collate (t_id task) requestID turns cancelled;
  review ← (if (t_phase task == Some TaskPhaseInReview) || (t_phase task == Some TaskPhaseDone)
            then GetReviewSnapshot (t_id task) (default 0 (t_review_cycle task)) else mret None);
  mret (mkTaskDelivery links review).

Definition DeliveryComparison (snapshot : CodeChangeSnapshot) (current : option TaskCodeChange) : string :=
  match current with
  | None => "missing"
  | Some c =>
      let o := tcc_LatestObservation c in
      if ob_Status o == CodeChangeObservationMissing then "missing"
      else if ob_Status o == CodeChangeObservationUnauthorized then "unauthorized"
      else if ob_Status o == CodeChangeObservationUnreachable then "unreachable"
      else if ob_Status o == CodeChangeObservationDisconnected then "disconnected"
      else if ob_State o == CodeChangeStateMerged then "merged"
      else if ob_HeadSHA o != ccs_HeadSHA snapshot then "moved"
      else "unchanged"
  end.

Definition LinkCodeChange (s : TaskDeliveryService) (taskNumber : Z) (claimID : UUID) (expectedTaskVersion expectedClaimVersion : Z)
    (codeChangeURL : string) (subject : ProjectAccessSubject) (actor : Actor) (operation : OperationActor) (now : Time)
    : DeliveryM TaskCodeChangeMutation :=
  cipher ← st_lift (match tds_Providers s, tds_Cipher s with Some _, Some cipher => Ok cipher | _, _ => Err ErrIntegrationNotConfigured end);
  task ← require_task taskNumber subject ProjectPermissionRead;
  found ← st_lift (CodeChangeURLCandidates (tds_Providers s) codeChangeURL);
  '(reference, repository) ← one_match (fun c => FindActiveByReference (t_project_id task) (ccr_Repository c)) found;
  let connection := pc_Connection repository in
  provider ← st_lift (Registry_Provider (tds_Providers s) (rc_Provider connection));
  key ← st_lift (Decrypt cipher (rc_EncryptionKeyID connection) (rc_CredentialCiphertext connection));
  codeChange ← st_lift (answer_or mapRepositoryProviderError (cl_GetCodeChange provider (repositoryReference connection)
    (rc_ProviderRepositoryID connection) (ccr_Kind reference) (ccr_ChangeNumber reference) key (op_RequestID operation)));
  providerReference ← st_lift (answer_or (fun _ => ErrProviderRejected) (cl_ParseCodeChangeURL provider (cc_WebURL codeChange)));
  st_fail ((rr_Provider (ccr_Repository providerReference) != rr_Provider (ccr_Repository reference)) ||
           (rr_Origin (ccr_Repository providerReference) != rr_Origin (ccr_Repository reference)) ||
           (rr_PathLookupKey (ccr_Repository providerReference) != rr_PathLookupKey (ccr_Repository reference)) ||
           (ccr_Kind providerReference != ccr_Kind reference) || (ccr_ChangeNumber providerReference != ccr_ChangeNumber reference))
    ErrProviderRejected;;
  let codeChange := mkCodeChange (cc_Provider codeChange) (cc_Kind codeChange) (cc_ProviderChangeID codeChange) (cc_ChangeNumber codeChange)
    (ccr_WebURL providerReference) (cc_Observation codeChange) in
  CodeChanges_Link taskNumber claimID expectedTaskVersion expectedClaimVersion (pr_ID (pc_Repository repository)) codeChange actor operation now.

Definition UnlinkCodeChange (taskNumber : Z) (claimID : UUID) (expectedTaskVersion expectedClaimVersion : Z) (linkID : UUID)
    (subject : ProjectAccessSubject) (actor : Actor) (operation : OperationActor) (now : Time) : DeliveryM TaskCodeChangeMutation :=
  _ ← require_task taskNumber subject ProjectPermissionRead;
  CodeChanges_Unlink taskNumber claimID expectedTaskVersion expectedClaimVersion linkID actor operation now.

(** ** Requests *)

(** What the handlers ask of the services, and the commands of the stores that other requests run. *)
Inductive DeliveryRequest :=
| RCommand (c : DeliveryCommand)
| RConnect (s : RepositoryConnectionService) (input : CreateRepositoryConnection) (operation : OperationActor) (nonce : option bytes) (now : Time)
| RRotate (s : RepositoryConnectionService) (id : UUID) (v : Z) (credentialText : string) (expiresAt : option Time)
    (operation : OperationActor) (nonce : option bytes) (now : Time)
| RValidate (s : RepositoryConnectionService) (id : UUID) (v : Z) (operation : OperationActor) (now : Time)
| RDisable (id : UUID) (v : Z) (operation : OperationActor) (now : Time)
| RBind (s : RepositoryConnectionService) (number v : Z) (url : string) (subject : ProjectAccessSubject) (operation : OperationActor)
    (checked now : Time)
| RUnbind (number v : Z) (repositoryID : UUID) (subject : ProjectAccessSubject) (operation : OperationActor) (now : Time)
| RLink (s : TaskDeliveryService) (number : Z) (claimID : UUID) (tv cv : Z) (url : string) (subject : ProjectAccessSubject) (actor : Actor)
    (operation : OperationActor) (now : Time)
| RUnlink (number : Z) (claimID : UUID) (tv cv : Z) (linkID : UUID) (subject : ProjectAccessSubject) (actor : Actor)
    (operation : OperationActor) (now : Time)
| RDelivery (s : TaskDeliveryService) (collate : string -> string -> comparison) (number : Z) (subject : ProjectAccessSubject)
    (requestID : string) (turns : list Turn) (cancelled : bool)
| RPrepare (s : TaskDeliveryService) (collate : string -> string -> comparison) (number : Z) (subject : ProjectAccessSubject)
    (requestID : string) (turns : list Turn) (cancelled : bool).
Definition run_request (r : DeliveryRequest) : DeliveryM unit :=
  match r with
  | RCommand c => run_delivery c
  | RConnect s input operation nonce now => discard (ConnectionService_Create s input operation nonce now)
  | RRotate s id v text expiresAt operation nonce now => discard (ConnectionService_RotateCredential s id v text expiresAt operation nonce now)
  | RValidate s id v operation now => discard (ConnectionService_Validate s id v operation now)
  | RDisable id v operation now => discard (ConnectionService_Disable id v operation now)
  | RBind s number v url subject operation checked now => discard (RepositoryService_Bind s number v url subject operation checked now)
  | RUnbind number v repositoryID subject operation now => discard (RepositoryService_Unbind number v repositoryID subject operation now)
  | RLink s number claimID tv cv url subject actor operation now =>
      discard (LinkCodeChange s number claimID tv cv url subject actor operation now)
  | RUnlink number claimID tv cv linkID subject actor operation now =>
      discard (UnlinkCodeChange number claimID tv cv linkID subject actor operation now)
  | RDelivery s collate number subject requestID turns cancelled =>
      discard (GetDelivery s collate number subject requestID turns cancelled)
  | RPrepare s collate number subject requestID turns cancelled =>
      discard (PrepareCompletion s collate number subject requestID turns cancelled)
  end.
(** The tables after requests, whether they succeed or fail. *)
Definition serve (r : DeliveryRequest) (w : DeliveryWorld) : DeliveryWorld := (run_request r w).2.
Fixpoint serve_all (rs : list DeliveryRequest) (w : DeliveryWorld) : DeliveryWorld :=
  match rs with
  | [] => w
  | r :: rest => serve_all rest (serve r w)
  end.
End services.
