(* ===== verification/DeliveryProperties.v ===== *)
(** * What repository delivery guarantees

    The theorems about repositories, bindings, links to code changes, their credentials and the completion of
    an execution with them, and their witnesses. *)

From stdpp Require Import base tactics strings gmap list numbers sorting relations.
From Stdlib Require Strings.Byte.
From S2P Require Import Attachment Paths Demo PlanningProperties.
From S2P Require Import Prelude Actors Lifecycle StageClaim Delivery Thread Acceptance Database Tx State.
From S2P Require Import ThreadStore ClaimStore WorkflowStore WorkflowCommands TaskStore WorkflowEffects WorkflowInvariant StoreCommands Progress.
From S2P Require Import Records Workspace RecordProperties Access Membership PlanningStore PlanningEffects PlanningCommands.
From S2P Require Import PlanningInvariant DeliveryStore DeliveryInvariant DeliverySystem Providers DeliveryService.

(** ** Refreshing links *)

Section refresh.
Context `{AEAD} `{UrlLibrary} `{UUIDSource} `{TextForms} `{NameOrder}.









(** ** Completing an execution *)




End refresh.

(** ** Requests *)

Section requests.
Context `{AEAD} `{UrlLibrary} `{UUIDSource} `{TextForms} `{NameOrder}.

Lemma ordered_on_error {A} (m : DeliveryM A) h : ordered m -> (forall e, ordered (h e)) -> ordered (on_error m h).
Proof.
  intros Hm Hh w Hw. specialize (Hm w Hw). unfold on_error. destruct (m w) as [[a|e] w1]; [done|]. cbn in *. etrans; [done|]. by apply Hh, Hm.
Qed.
Lemma ordered_failure connectionID operation eventType provider origin repositoryID now e :
  ordered (recordFailure connectionID operation eventType provider origin repositoryID now e).
Proof. unfold recordFailure, RecordFailure. apply ordered_event. Qed.
Lemma keeps_access {A} (m : MemberM A) : keeps (access m).
Proof. done. Qed.
Lemma ordered_rotate id v validation ciphertext keyID expiresAt operation :
  ordered (Connections_RotateCredential id v validation ciphertext keyID expiresAt operation).
Proof. unfold Connections_RotateCredential. apply ordered_validated. Qed.
Lemma ordered_record_validation id v validation operation : ordered (RecordValidation id v validation operation).
Proof. unfold RecordValidation. apply ordered_validated. Qed.
Lemma ordered_one_match {C X} (find : C -> DeliveryM X) cs : (forall c, keeps (find c)) -> ordered (one_match find cs).
Proof.
  intros Hk. assert (forall cs last count, keeps (match_candidates find cs last count)) as Hm.
  { clear cs. induction cs as [|c0 cs IH]; intros last count; cbn; [done|]. intros w0. pose proof (Hk c0 w0) as E.
    destruct (find c0 w0) as [[y|e] w1]; cbn in E; subst; [apply IH|]. destruct e; try done. apply IH. }
  apply ordered_keeps. unfold one_match. apply keeps_bind; [apply Hm|]. intros [last count]. auto with keeps.
Qed.
Lemma keeps_find reference : keeps (FindActiveByRepository reference).
Proof. unfold FindActiveByRepository. auto with keeps. Qed.
Lemma keeps_find_bound projectID reference : keeps (FindActiveByReference projectID reference).
Proof. unfold FindActiveByReference. auto with keeps. Qed.
Lemma ordered_turns s requestID turns : forall results e w, delivery_sound w -> orderly w (refresh_turns s requestID turns results e w).2.
Proof.
  induction turns as [|t turns IH]; intros results e w Hw; cbn [refresh_turns]; [reflexivity|]. cbv zeta.
  pose proof (steps_orderly (tn_others t) w Hw) as Ho. set (w1 := delivery_steps (tn_others t) w) in *. pose proof (proj2 Ho Hw) as Hw1.
  destruct (results !! tn_index t) as [item|]; [|etrans; [exact Ho|by apply IH]].
  pose proof (ordered_observe (tcc_ID (tr_CodeChange item)) (turn_observation s requestID item t) (tn_written t) w1 Hw1) as H5.
  destruct (UpdateObservation _ _ _ w1) as [[a|e'] w2]; cbn in H5; (etrans; [exact Ho|]; etrans; [exact H5|]; apply IH; by apply H5).
Qed.
Lemma ordered_refresh s requestID turns cancelled links : ordered (refreshLinks s requestID turns cancelled links).
Proof.
  intros w Hw. unfold refreshLinks. case_bool_decide; [reflexivity|]. pose proof (ordered_turns s requestID turns links None w Hw) as Ho.
  destruct (refresh_turns _ _ _ _ _ _) as [[results e] w']. cbn in Ho. by destruct cancelled, e.
Qed.
End requests.

#[export] Hint Resolve keeps_access keeps_find keeps_find_bound : keeps.
Create HintDb requests discriminated.
#[export] Hint Resolve ordered_uuid ordered_create ordered_rotate ordered_record_validation ordered_disable ordered_bind_repository
  ordered_unbind ordered_link ordered_unlink ordered_failure ordered_refresh run_ordered : requests.
(** Proves [ordered] for a service: reads, checks and calls of the stores. *)
Ltac orderly_body := repeat first
  [ solve [auto with requests]
  | lazymatch goal with |- ordered _ => fail | |- forall _, _ => intro end
  | match goal with |- ordered (discard _) => apply ordered_discard | |- ordered (on_error _ _) => apply ordered_on_error
    | |- ordered (one_match _ _) => apply ordered_one_match; intros ?; solve [auto with keeps] end
  | apply ordered_bind
  | apply ordered_keeps; solve [auto with keeps]
  | match goal with |- ordered (match ?x with _ => _ end) => destruct x end ].

Section services.
Context `{AEAD} `{UrlLibrary} `{UUIDSource} `{TextForms} `{NameOrder}.
Lemma request_ordered r : ordered (run_request r).
Proof.
  destruct r; cbn [run_request]; [apply run_ordered|..]; apply ordered_discard.
  - unfold ConnectionService_Create. cbv zeta. orderly_body.
  - unfold ConnectionService_RotateCredential, expected_connection, Connections_Get. cbv zeta. orderly_body.
  - unfold ConnectionService_Validate, expected_connection, Connections_Get. cbv zeta. orderly_body.
  - unfold ConnectionService_Disable. orderly_body.
  - unfold RepositoryService_Bind, administered_project, require_project. cbv zeta. orderly_body.
  - unfold RepositoryService_Unbind, administered_project, require_project. orderly_body.
  - unfold LinkCodeChange, require_task. cbv zeta. orderly_body.
  - unfold UnlinkCodeChange, require_task. orderly_body.
  - unfold GetDelivery, delivered_links, CodeChanges_ListActive, GetReviewSnapshot, require_task. orderly_body.
  - unfold PrepareCompletion, delivered_links, CodeChanges_ListActive, require_task. cbv zeta. orderly_body.
Qed.
Lemma serve_orderly rs w : delivery_sound w -> orderly w (serve_all rs w).
Proof.
  revert w. induction rs as [|r rs IH]; intros w Hw; cbn; [reflexivity|]. pose proof (request_ordered r w Hw) as Ho.
  etrans; [exact Ho|]. by apply IH, Ho.
Qed.
End services.

(** ** Credentials *)

Section credentials.
Context `{AEAD} `{UrlLibrary} `{UUIDSource} `{TextForms} `{NameOrder}.

Lemma decrypt_encrypt cipher keyID plaintext nonce ciphertext : length nonce = gcm_NonceSize ->
  Encrypt cipher keyID plaintext (Some nonce) = Ok ciphertext -> Decrypt cipher keyID ciphertext = Ok plaintext.
Proof.
  unfold Encrypt, Decrypt. intros Hn (key & Hk & [= <-])%bind_Ok. rewrite Hk. cbn [mbind result_mbind].
  rewrite (proj2 (Nat.ltb_ge _ _)) by (rewrite length_app; lia). cbn [fail_if mbind result_mbind].
  rewrite <- Hn at 1 2. rewrite take_app_length, drop_app_length. by rewrite gcm_open_seal.
Qed.

Lemma on_error_Ok {A} (m : DeliveryM A) h w a w' : on_error m h w = (Ok a, w') <-> m w = (Ok a, w').
Proof. unfold on_error. destruct (m w) as [[]]; naive_solver. Qed.
Lemma wp_on_error {A} (m : DeliveryM A) h w Q : wp m w Q -> wp (on_error m h) w Q.
Proof. intros Hm a w' E%on_error_Ok. by apply Hm. Qed.

(** The provider knows the repository with that credential. *)
Definition confirms (providers : option RepositoryProviderRegistry) (reference : RepositoryReference) (key : list Byte.byte) (requestID : string)
    (repositoryID : string) : Prop :=
  exists client identity, Registry_Provider providers (rr_Provider reference) = Ok client /\
    cl_ResolveRepository client reference key requestID = Answered identity /\ ri_ProviderRepositoryID identity = repositoryID.
Lemma resolve_confirms s reference key requestID now v : resolve s reference key requestID now = Ok v ->
  confirms (rs_Providers s) reference key requestID (ri_ProviderRepositoryID (rv_Repository v)).
Proof.
  unfold resolve. intros (client & Hc & Hr)%bind_Ok. apply bind_Ok in Hr as (identity & Hi & Hr). apply bind_Ok in Hr as (pr & _ & Hr).
  apply bind_Ok in Hr as ([] & _ & [= <-]). exists client, identity. cbn. split_and!; try done. by destruct (cl_ResolveRepository _ _ _ _); simplify_eq/=.
Qed.
Lemma revalidated_confirms s c key requestID now v : revalidated s c key requestID now = Ok v ->
  confirms (rs_Providers s) (repositoryReference c) key requestID (rc_ProviderRepositoryID c).
Proof.
  unfold revalidated. intros (v' & Hv & Hr)%bind_Ok. apply bind_Ok in Hr as ([] & Hg%fail_if_Ok & [= <-]). go_bool. rewrite <- Hg.
  by eapply resolve_confirms.
Qed.

(** What the tables of Connections hold after a statement elsewhere. *)
Lemma preserves_connections_plan {A} (m : PlanM A) : preserves dw_connections (in_plan m).
Proof. by intros w a w' (p & _ & ->)%in_plan_Ok. Qed.
Lemma preserves_recorded c eventType action old new id operation now :
  preserves dw_connections (connection_event c eventType operation now;; connection_audit action old new id operation now;; mret c).
Proof.
  apply preserves_bind; [|intros _; apply preserves_bind; [apply preserves_connections_plan|intros _; by apply preserves_keeps]].
  apply preserves_bind; [apply preserves_connections_plan|]. intros i. framed.
Qed.
Lemma wp_recorded c eventType action old new id operation now w (Q : RepositoryConnection -> DeliveryWorld -> Prop) :
  (forall w', dw_connections w' = dw_connections w -> Q c w') ->
  wp (connection_event c eventType operation now;; connection_audit action old new id operation now;; mret c) w Q.
Proof.
  intros HQ a w' E. pose proof (preserves_recorded _ _ _ _ _ _ _ _ _ _ _ E) as Ec.
  apply St_bind_Ok in E as (? & ? & _ & E). apply St_bind_Ok in E as (? & ? & _ & E). apply St_ret_Ok in E as [<- _]. auto.
Qed.
Lemma wp_stored c w (Q : unit -> DeliveryWorld -> Prop) : Q tt (put_connection c w) -> wp (write_connection c) w Q.
Proof. intros HQ. unfold write_connection. by wp_steps. Qed.
Lemma wp_connect connection operation w : wp (Connections_Create connection operation) w (fun c w' =>
  c = new_connection connection /\ dw_connections w' = <[rc_ID c := c]> (dw_connections w)).
Proof.
  unfold Connections_Create. do 4 wp_step. apply wp_delivery_tx, wp_bind. unfold insert_connection. cbv zeta. do 4 wp_step.
  apply wp_bind, wp_stored, wp_ret. apply wp_recorded. by intros w' ->.
Qed.
Lemma wp_rotate id v validation ciphertext keyID expiresAt operation w : delivery_sound w ->
  wp (Connections_RotateCredential id v validation ciphertext keyID expiresAt operation) w (fun c w' =>
    rc_CredentialCiphertext c = ciphertext /\ rc_EncryptionKeyID c = keyID /\ rc_ID c = id /\ dw_connections w' !! id = Some c).
Proof.
  intros Hw. unfold Connections_RotateCredential, updateValidated. do 2 wp_step. apply wp_delivery_tx, wp_bind, wp_lock_connection.
  intros c0 Hc0 _. do 6 wp_step. cbv zeta. apply wp_bind, wp_stored, wp_recorded. intros w' ->. cbn.
  rewrite (ck_id _ _ (ds_connections _ Hw _ _ Hc0)). split_and!; try done. by rewrite lookup_insert_eq.
Qed.

(** The Connection holds the credential of that text. *)
Definition holds_credential (cipher : CredentialCipher) (c : RepositoryConnection) (credentialText : string) : Prop :=
  Decrypt cipher (rc_EncryptionKeyID c) (rc_CredentialCiphertext c) = Ok (bytes_of (TrimSpace credentialText)).
Lemma configured_cipher s c c' : rs_Cipher s = Some c -> configured s = Ok c' -> c' = c.
Proof. unfold configured. intros ->. destruct (rs_Providers s); [|done]. by intros ([] & _ & [= <-])%bind_Ok. Qed.
Lemma wp_service_create s cipher input nonce operation now w : delivery_sound w -> rs_Cipher s = Some cipher -> length nonce = gcm_NonceSize ->
  wp (ConnectionService_Create s input operation (Some nonce) now) w (fun c w' => dw_connections w' !! rc_ID c = Some c /\
    holds_credential cipher c (ic_Credential input) /\
    exists reference, Registry_ParseRepositoryURL (rs_Providers s) (ic_Provider input) (ic_RepositoryURL input) = Ok reference /\
      confirms (rs_Providers s) reference (bytes_of (TrimSpace (ic_Credential input))) (op_RequestID operation) (rc_ProviderRepositoryID c)).
Proof.
  intros Hw Hc Hn. unfold ConnectionService_Create. cbv zeta. do 2 wp_step. wp_step. apply wp_lift. intros ci ->%(configured_cipher _ _ _ Hc).
  do 4 wp_step. apply wp_bind, wp_on_error, wp_lift. intros v Hv. do 2 wp_step.
  apply wp_bind, wp_uuid; [done|]. intros id _ _. apply wp_on_error. eapply wp_mono; [apply wp_connect|]. intros c w' [-> ->].
  cbn. rewrite lookup_insert_eq. split_and!; [done|by eapply decrypt_encrypt|]. eexists. split; [done|]. by eapply resolve_confirms.
Qed.
Lemma wp_service_rotate s cipher id v text expiresAt nonce operation now w :
  delivery_sound w -> rs_Cipher s = Some cipher -> length nonce = gcm_NonceSize ->
  wp (ConnectionService_RotateCredential s id v text expiresAt operation (Some nonce) now) w (fun c w' => dw_connections w' !! id = Some c /\
    holds_credential cipher c text /\
    exists old, dw_connections w !! id = Some old /\
      confirms (rs_Providers s) (repositoryReference old) (bytes_of (TrimSpace text)) (op_RequestID operation) (rc_ProviderRepositoryID old)).
Proof.
  intros Hw Hc Hn. unfold ConnectionService_RotateCredential, expected_connection, Connections_Get. cbv zeta. do 2 wp_step. wp_step.
  apply wp_lift. intros ci ->%(configured_cipher _ _ _ Hc). do 2 wp_step. do 8 wp_step. apply wp_bind, wp_on_error, wp_lift. intros val Hv.
  do 2 wp_step. apply wp_on_error. eapply wp_mono; [by apply wp_rotate|]. intros c w' (Ect & Ek & _ & Hc'). split_and!; [done| |].
  - unfold holds_credential. rewrite Ect, Ek. by eapply decrypt_encrypt.
  - eexists. split; [done|]. by eapply revalidated_confirms.
Qed.

(** C34: The credential of a Connection comes back as it was given.  When an administrator creates a Connection or
    replaces its credential, the provider has confirmed the repository with that very credential (its text without
    surrounding white space), and what is stored of it decrypts to that credential and nothing else; the
    repository that the Connection identifies is the one that the provider has confirmed. *)
Theorem credential_roundtrip s cipher nonce operation now w (Hw : delivery_sound w) (Hc : rs_Cipher s = Some cipher)
  (Hn : length nonce = gcm_NonceSize) :
  (forall input c w', ConnectionService_Create s input operation (Some nonce) now w = (Ok c, w') ->
     dw_connections w' !! rc_ID c = Some c /\ holds_credential cipher c (ic_Credential input) /\
     exists reference, Registry_ParseRepositoryURL (rs_Providers s) (ic_Provider input) (ic_RepositoryURL input) = Ok reference /\
       confirms (rs_Providers s) reference (bytes_of (TrimSpace (ic_Credential input))) (op_RequestID operation) (rc_ProviderRepositoryID c)) /\
  (forall id v text expiresAt c w', ConnectionService_RotateCredential s id v text expiresAt operation (Some nonce) now w = (Ok c, w') ->
     dw_connections w' !! id = Some c /\ holds_credential cipher c text /\
     exists old, dw_connections w !! id = Some old /\
       confirms (rs_Providers s) (repositoryReference old) (bytes_of (TrimSpace text)) (op_RequestID operation) (rc_ProviderRepositoryID old)).
Proof. split; intros *; [by eapply wp_service_create|by eapply wp_service_rotate]. Qed.
End credentials.

(** ** Bindings and links *)

Section access.
Context `{AEAD} `{UrlLibrary} `{UUIDSource} `{TextForms} `{NameOrder}.

(** Who may administer a Project. *)
Definition administers (w : DeliveryWorld) (x : Project) (subject : ProjectAccessSubject) : Prop :=
  IsPlatformAdministrator subject = true \/
  exists m, membership_of (p_ID x) (sj_UserID subject) (member_view (dw_plan w)) = Some m /\ pm_Role m = ProjectRoleAdmin.

Lemma wp_access {A} (m : MemberM A) w (Q : A -> DeliveryWorld -> Prop) : wp m (member_view (dw_plan w)) (fun a _ => Q a w) -> wp (access m) w Q.
Proof.
  intros Hm a w' E. unfold access in E. destruct (m (member_view (dw_plan w))) as [r d] eqn:Em. cbn in E. injection E as -> <-. by eapply Hm.
Qed.
Lemma project_by_number_view n p row : plan_sound p -> project_by_number n (member_view p) = Some row ->
  exists x, pl_projects p !! pj_id row = Some x /\ p_ID x = pj_id row /\ p_Number x = n.
Proof.
  intros Hp Hh. unfold project_by_number in Hh. apply head_Some_elem_of in Hh. apply list_elem_of_filter in Hh as [En Hin].
  unfold table_rows in Hin. apply list_elem_of_fmap in Hin as ([k r] & -> & Hin). apply elem_of_map_to_list in Hin. cbn in *.
  apply lookup_fmap_Some in Hin as (x & <- & Hx). cbn in *. pose proof (ky_projects _ (ps_keyed _ Hp) _ _ Hx) as Ei. rewrite Ei. eauto.
Qed.
Lemma wp_require_admin n subject (d : MemberDB) : wp (RequireProjectByNumber n subject ProjectPermissionAdmin) d (fun row _ =>
  project_by_number n d = Some row /\ (IsPlatformAdministrator subject = true \/
    exists m, membership_of (pj_id row) (sj_UserID subject) d = Some m /\ pm_Role m = ProjectRoleAdmin)).
Proof.
  unfold RequireProjectByNumber, RequireProject. do 4 wp_step. apply wp_bind. do 3 wp_step.
  destruct (IsPlatformAdministrator subject) eqn:Hp; [by wp_steps; auto|]. unfold Memberships_Get. wp_steps.
  split; [done|]. right. eexists. split; [done|]. change (negb (bool_decide (pm_Role a0 = ProjectRoleAdmin)) = false) in H7. by go_bool.
Qed.
Lemma wp_administered n subject w (Q : Project -> DeliveryWorld -> Prop) : delivery_sound w ->
  (forall x, pl_projects (dw_plan w) !! p_ID x = Some x -> p_Number x = n -> p_ArchivedAt x = None -> administers w x subject -> Q x w) ->
  wp (administered_project n subject) w Q.
Proof.
  intros Hw HQ. unfold administered_project, require_project. apply wp_bind, wp_bind, wp_access.
  eapply wp_mono; [apply wp_require_admin|]. intros row _ [Hf Ha].
  destruct (project_by_number_view _ _ _ (ds_plan _ Hw) Hf) as (x & Hx & Ei & En). wp_steps. assert (a = x) as -> by congruence.
  apply HQ; try done; [by rewrite Ei|by apply present_false|]. unfold administers. by rewrite Ei.
Qed.

(** The binding that [Bind] adds. *)
Lemma wp_bind_repository projectID v connectionID operation now w : delivery_sound w ->
  wp (Repositories_Bind projectID v connectionID operation now) w (fun _ w' => exists b, dw_repositories w !! pr_ID b = None /\
    dw_repositories w' = <[pr_ID b := b]> (dw_repositories w) /\ pr_ProjectID b = projectID /\ pr_ConnectionID b = connectionID /\
    ProjectRepository_Active b = true).
Proof.
  intros Hw. unfold Repositories_Bind. do 2 wp_step. apply wp_delivery_tx, wp_bind, wp_open_project. intros x Hx _.
  unfold Connections_Get. do 6 wp_step. apply wp_bind, wp_uuid; [done|]. intros id Hw1 Ho. cbv zeta. do 6 wp_step.
  unfold write_repository, insertProjectRepositoryActivity. do 10 wp_step. do 3 (apply wp_bind, wp_in_plan; intros ? ? _). wp_steps.
  exists (mkProjectRepository id projectID connectionID (op_UserID operation) now None None). split_and!; [|reflexivity|done..]. match goal with Hn : present _ = false |- _ => by apply present_false in Hn end.
Qed.
Lemma one_match_found {C X} (find : C -> DeliveryM X) cs w c x w' :
  (forall c, keeps (find c)) -> one_match find cs w = (Ok (c, x), w') -> w' = w /\ c ∈ cs /\ find c w = (Ok x, w).
Proof.
  intros Hk. assert (forall cs last count, keeps (match_candidates find cs last count) /\
    (forall r, match_candidates find cs last count w = (Ok r, w) -> r.1 = last \/ exists c x, r.1 = Some (c, x) /\ c ∈ cs /\ find c w = (Ok x, w))) as Hm.
  { clear cs. induction cs as [|c0 cs IH]; intros last count; cbn.
    - split; [done|]. intros r [= <-]. by left.
    - split.
      + intros w0. pose proof (Hk c0 w0) as E. destruct (find c0 w0) as [[y|e] w1]; cbn in E; subst; [apply IH|]. destruct e; try done. apply IH.
      + intros r Hr. pose proof (Hk c0 w) as E. destruct (find c0 w) as [[y|e] w1] eqn:Ef; cbn in E; subst.
        * apply IH in Hr as [->|(c1 & x1 & ? & ? & ?)]; right; [exists c0, y|exists c1, x1]; split_and!; try done; set_solver.
        * destruct e; try done. apply IH in Hr as [?|(c1 & x1 & ? & ? & ?)]; [by left|right]. exists c1, x1. split_and!; try done. set_solver. }
  unfold one_match. intros E. apply St_bind_Ok in E as ([last count] & w1 & E1 & E). destruct (Hm cs None 0) as [Hkeep Hfind].
  pose proof (Hkeep w) as Ek. rewrite E1 in Ek. cbn in Ek. subst w1. st_inv.
  apply Hfind in E1 as [E1|(c' & x' & E1 & Hin & Hf)]; cbn in E1; simplify_eq. done.
Qed.
Lemma wp_one_match {C X} (find : C -> DeliveryM X) cs w (Q : C * X -> DeliveryWorld -> Prop) : (forall c, keeps (find c)) ->
  (forall c x, c ∈ cs -> find c w = (Ok x, w) -> Q (c, x) w) -> wp (one_match find cs) w Q.
Proof. intros Hk HQ [c x] w' (-> & Hin & Hf)%one_match_found; auto. Qed.

(** The binding [b] of the Project [x] to the Connection [c], after the provider has confirmed its repository. *)
Record authenticated (s : RepositoryConnectionService) (number : Z) (url : string) (subject : ProjectAccessSubject) (operation : OperationActor)
    (w w' : DeliveryWorld) (x : Project) (c : RepositoryConnection) (b : ProjectRepository) : Prop := {
  au_project : pl_projects (dw_plan w) !! p_ID x = Some x /\ p_Number x = number /\ p_ArchivedAt x = None;
  au_administrator : administers w x subject;
  au_connection : dw_connections w !! rc_ID c = Some c /\ active_connection c = true;
  au_url : exists found reference, RepositoryURLCandidates (rs_Providers s) url = Ok found /\ reference ∈ found /\
    (rc_Provider c, rc_Origin c, rc_PathLookupKey c) = (rr_Provider reference, rr_Origin reference, rr_PathLookupKey reference);
  au_confirmed : exists cipher key, rs_Cipher s = Some cipher /\
    Decrypt cipher (rc_EncryptionKeyID c) (rc_CredentialCiphertext c) = Ok key /\
    confirms (rs_Providers s) (repositoryReference c) key (op_RequestID operation) (rc_ProviderRepositoryID c);
  au_added : dw_repositories w !! pr_ID b = None /\ dw_repositories w' = <[pr_ID b := b]> (dw_repositories w);
  au_binding : pr_ProjectID b = p_ID x /\ pr_ConnectionID b = rc_ID c /\ ProjectRepository_Active b = true;
}.
Lemma validate_existing_confirms s c requestID now v : validateExisting s c requestID now = Ok v ->
  active_connection c = true /\ exists cipher key, rs_Cipher s = Some cipher /\
    Decrypt cipher (rc_EncryptionKeyID c) (rc_CredentialCiphertext c) = Ok key /\
    confirms (rs_Providers s) (repositoryReference c) key requestID (rc_ProviderRepositoryID c).
Proof.
  unfold validateExisting. intros (cipher & Hc & Hr)%bind_Ok. apply bind_Ok in Hr as ([] & Hs%fail_if_Ok & Hr).
  apply bind_Ok in Hr as (key & Hd & Hr). split; [by apply negb_false_iff in Hs|]. exists cipher, key.
  split; [|split; [done|by eapply revalidated_confirms]]. unfold configured in Hc. destruct (rs_Providers s), (rs_Cipher s) as [c'|]; try done.
  by apply bind_Ok in Hc as ([] & _ & [= ->]).
Qed.
Lemma wp_service_bind s number v url subject operation checked now w : delivery_sound w ->
  wp (RepositoryService_Bind s number v url subject operation checked now) w (fun _ w' =>
    exists x c b, authenticated s number url subject operation w w' x c b).
Proof.
  intros Hw. unfold RepositoryService_Bind. apply wp_bind, wp_administered; [done|]. intros x Hx En Ea Had. do 2 wp_step.
  apply wp_bind, wp_one_match; [apply keeps_find|]. intros reference c Hin Hf. do 2 wp_step. cbv zeta. do 2 wp_step.
  match goal with Hv : validateExisting _ _ _ _ = Ok _ |- _ => apply validate_existing_confirms in Hv as [Hac Hcf] end.
  assert (dw_connections w !! rc_ID c = Some c /\ connection_matches reference c = true) as [Hc Hm].
  { unfold FindActiveByRepository in Hf. st_inv. match goal with Hs : select_one _ _ = Some _ |- _ => apply select_one_Some in Hs as [Hm (k & Hk)] end.
    by rewrite (ck_id _ _ (ds_connections _ Hw _ _ Hk)). }
  unfold connection_matches in Hm. go_bool.
  eapply wp_mono; [by apply wp_bind_repository|]. intros m w' (b & Hn & Hb & Ep & Ec & Hba).
  exists x, c, b. split; try done. eexists _, reference. split_and!; [eassumption|done|]. congruence.
Qed.

(** C35: A repository is bound to a Project only with a Connection that works.  When a repository URL is authorized for
    a Project, the caller administers the Project, which is not archived; the URL names the repository of an
    active Connection (same provider, origin and path);
    the provider has just confirmed, with the stored credential of that Connection, the very repository that it
    identifies; and exactly one binding, of that Project to that Connection, has been added. *)
Theorem bind_authenticated s number v url subject operation checked now w m w' (Hw : delivery_sound w)
  (Hr : RepositoryService_Bind s number v url subject operation checked now w = (Ok m, w')) :
  exists x c b, authenticated s number url subject operation w w' x c b.
Proof. exact (wp_service_bind _ _ _ _ _ _ _ _ _ Hw _ _ Hr). Qed.
End access.

Section links.
Context `{AEAD} `{UrlLibrary} `{UUIDSource} `{TextForms} `{NameOrder}.

(** C33: The tables of repositories and code changes stay consistent under every sequence of requests, whether they
    succeed or fail (of the services, with whatever the providers answer, and of commands of the stores, those of the
    workflow, the Tasks, the Projects and the Milestones included): every row meets the CHECKs and foreign
    keys of its table; an active binding has an active Connection; no two active Connections identify the same
    repository, no two active bindings of a Project the same Connection, and no two active links of a Task the same
    code change; a link belongs to the Project of its Task, its kind is that of its provider, and what was last known
    of its code change is complete.  Nor do rows lose what they stand for: a Connection keeps its repository, a
    binding its Project and Connection, a link its Task, code change and author; what is disabled, unbound or
    unlinked stays so. *)
Theorem delivery_consistent rs w (Hw : delivery_sound w) : delivery_sound (serve_all rs w) /\ history w (serve_all rs w).
Proof. destruct (serve_orderly rs w Hw) as [Hh Hs]. auto. Qed.

(** C32: Only the holder of an execution Claim edits the links of a Task.  Whatever command makes a link active or ends
    one, it is the command that links or unlinks a code change, and the Task, the Claim, both versions and the caller
    that it names are what the tables say: the Claim is the active one of that Task, of the execution stage, in the
    version named and taken by that caller, and the Task is in the version named, in progress and worked on;
    the command raises the version of that Task by one and leaves every other Task and every Claim alone.  A new link is recorded as made through that Claim and lies in a
    repository that is bound to the Project of the Task through an active Connection; an ended one keeps its row,
    with the Claim that ended it. *)
Theorem link_needs_claim c w i (Hw : delivery_sound w) (Hc : link_active (delivery_step c w) i <> link_active w i) :
  exists n claimID tv cv actor op now r h l k row,
    executing (dw_db w) n claimID tv cv actor op r h l k /\ cr_task_id row = t_id r /\
    task_code_changes (dw_db (delivery_step c w)) = <[i := row]> (task_code_changes (dw_db w)) /\
    task_stage_claims (dw_db (delivery_step c w)) = task_stage_claims (dw_db w) /\
    tasks (dw_db (delivery_step c w)) =
      <[t_id r := set_task_row r (with_Version (load r (h_id h) l) (int64 (t_version r + 1))) now]> (tasks (dw_db w)) /\
    (((exists repositoryID change, c = DLink n claimID tv cv repositoryID change actor op now /\
        cr_project_repository_id row = repositoryID /\
        (cr_kind row, cr_change_number row, cr_provider_change_id row, cr_web_url row, cr_observation row) =
          (cc_Kind change, cc_ChangeNumber change, cc_ProviderChangeID change, cc_WebURL change, cc_Observation change)) /\
      task_code_changes (dw_db w) !! i = None /\ linked row = true /\ cr_linked_through_claim_id row = claimID /\
      actorFromStored (cr_linked_by_type row) (cr_linked_by_user_id row) (cr_linked_by_ref row) = actor /\
      exists b con, dw_repositories w !! cr_project_repository_id row = Some b /\ pr_ProjectID b = t_project_id r /\
        ProjectRepository_Active b = true /\ dw_connections w !! pr_ConnectionID b = Some con /\ active_connection con = true) \/
     (c = DUnlink n claimID tv cv i actor op now /\
      exists row0, task_code_changes (dw_db w) !! i = Some row0 /\ linked row0 = true /\ row = unlinked_row row0 actor claimID now)).
Proof.
  destruct (step_link_move _ _ _ Hw Hc) as [n cl tv cv rid change actor op now r k row [(h & l & Hex & Ht) Et El Ek] [Hf Hl Hch Hth Hby Er Hb] Ei
    |n cl tv cv actor op now r k row [(h & l & Hex & Ht) Et El Ek] [(row0 & Hr0 & Hl0 & Er) Ei]].
  all: exists n, cl, tv, cv, actor, op, now, r, h, l, k, row; rewrite Ei in *; pose proof (ow_id _ _ _ _ _ _ _ _ _ _ _ (ex_owns _ _ _ _ _ _ _ _ _ _ _ Hex)) as Ekid;
    pose proof (ow_version _ _ _ _ _ _ _ _ _ _ _ (ex_owns _ _ _ _ _ _ _ _ _ _ _ Hex)) as Ev; split_and!; try done; try by rewrite Ev.
  - left. destruct Hb as (b & con & Hb & Hp & Ha & Hcon & Hac & _). rewrite Er, Hth. split_and!; [by exists rid, change|done..|]. by exists b, con.
  - right. split; [done|]. exists row0. by rewrite <- Ekid.
Qed.
End links.

(** ** Witnesses *)

#[local] Existing Instance counting_uuids.
#[local] Existing Instance counting_texts.
#[local] Existing Instance text_order.

(** A cipher that only adds its nonce, and URLs of a host and a path. *)
Definition plain_aead : AEAD := {|
  gcm_NonceSize := 2; gcm_Seal _ _ plaintext _ := plaintext; gcm_Open _ _ ciphertext _ := Some ciphertext;
  gcm_open_seal _ _ _ _ _ := eq_refl |}.
#[local] Existing Instance plain_aead.
Definition plain_parse (s : string) : option URL :=
  rest ← GoStrings.strip_prefix (String.list_ascii_of_string "https://") (String.list_ascii_of_string s);
  match split_slash rest with
  | host :: path =>
      let host := String.string_of_list_ascii host in
      let path := String.string_of_list_ascii (drop (String.length host) rest) in
      Some (mkURL "https" "" false host path path "" "" host "")
  | [] => None
  end.
Lemma https_not_blank host path : blank ("https://" +:+ host +:+ path) = false.
Proof. by apply blank_first. Qed.
Definition plain_urls : UrlLibrary := {|
  url_Parse := plain_parse; url_String u := "https://" +:+ url_Host u; https_String host path := "https://" +:+ host +:+ path;
  PathUnescape := Some; PathEscape s := s; ParseIP _ := false; unicode_ToLower s := s; unicode_EqualFold a b := a == b;
  https_String_prefix := https_not_blank; ToLower_blank _ := eq_refl |}.
#[local] Existing Instance plain_urls.

(** A provider with one repository and one pull request, which may not answer. *)
Definition demo_url : string := "https://git.example/acme/app".
Definition demo_hub (up : bool) : GitHubServer :=
  mkGitHubServer (fun _ _ _ => if up then Responded (mkResponse 200 "" "" (Some "{}")) else NoResponse)
    (fun _ => Some (mkRepositoryResponse 77 "acme/app" demo_url "main"))
    (fun _ => Some (mkPullRequestResponse 900 5 (demo_url +:+ "/pull/5") "Add it" "open" false None None 95 "feature" "abc123" "main" 77 "acme/app"))
    100.
Definition demo_clients (up : bool) : RepositoryProviderRegistry := {["github" := GitHub_Client (demo_hub up)]}.
Definition demo_cipher : CredentialCipher := {["k1" := replicate 32 Byte.x07]}.
Definition demo_connections : RepositoryConnectionService := mkRepositoryConnectionService (Some (demo_clients true)) (Some demo_cipher) "k1".
Definition demo_deliveries (up : bool) : TaskDeliveryService := mkTaskDeliveryService (Some (demo_clients up)) (Some demo_cipher).
Definition demo_subject : ProjectAccessSubject := mkProjectAccessSubject alice PlatformRoleAdmin.
Definition demo_input : CreateRepositoryConnection := mkCreateRepositoryConnection "App" "github" demo_url " secret " None.
Definition demo_nonce : list Byte.byte := [Byte.x01; Byte.x02].

(** A Task is claimed, its repository connected, bound and a pull request linked. *)
Definition demo_start : DeliveryWorld := mkDeliveryWorld demo_board ∅ ∅ [].
Definition demo_link : DeliveryRequest :=
  RLink (demo_deliveries true) 142 (demo_uuid 2) 3 1 (demo_url +:+ "/pull/5") demo_subject alice_actor alice_op 130.
Definition demo_requests : list DeliveryRequest :=
  [RCommand (DPlan (PWork (WStore (SMarkReady 142 1 alice_op 20))));
   RCommand (DPlan (PWork (WStore (SClaim 142 2 alice_actor alice_op "web" "s1" 30))));
   RConnect demo_connections demo_input alice_op (Some demo_nonce) 100;
   RBind demo_connections 1 1 demo_url demo_subject alice_op 110 120;
   demo_link].
Definition demo_served (n : nat) : DeliveryWorld := serve_all (take n demo_requests) demo_start.

Lemma demo_start_sound : delivery_sound demo_start.
Proof.
  split; [apply demo_board_sound|..].
  all: change (task_code_changes (dw_db demo_start)) with (∅ : gmap UUID CodeChangeRow);
    change (dw_connections demo_start) with (∅ : gmap UUID RepositoryConnection);
    change (dw_repositories demo_start) with (∅ : gmap UUID ProjectRepository).
  all: intros i r; rewrite lookup_empty; discriminate || (intros; discriminate).
Qed.
Lemma demo_served_sound n : delivery_sound (demo_served n).
Proof. exact (proj2 (serve_orderly (take n demo_requests) demo_start demo_start_sound) demo_start_sound). Qed.


Lemma credential_roundtrip_witness : exists c w', ConnectionService_Create demo_connections demo_input alice_op (Some demo_nonce) 100 (demo_served 2) =
    (Ok c, w') /\ Decrypt demo_cipher (rc_EncryptionKeyID c) (rc_CredentialCiphertext c) = Ok (bytes_of "secret").
Proof.
  destruct (ConnectionService_Create demo_connections demo_input alice_op (Some demo_nonce) 100 (demo_served 2)) as [[c|e] w'] eqn:E;
    [|apply (f_equal fst) in E; vm_compute in E; discriminate E].
  exists c, w'. split; [reflexivity|].
  destruct (credential_roundtrip (H := plain_aead) demo_connections demo_cipher demo_nonce alice_op 100 (demo_served 2) (demo_served_sound 2) eq_refl ltac:(reflexivity)) as [Hc _].
  destruct (Hc demo_input c w' E) as (_ & Hd & _). unfold holds_credential in Hd. rewrite Hd. vm_compute. reflexivity.
Defined.

Lemma bind_authenticated_witness : exists m w', RepositoryService_Bind demo_connections 1 1 demo_url demo_subject alice_op 110 120 (demo_served 3) =
    (Ok m, w') /\ exists x c b, authenticated demo_connections 1 demo_url demo_subject alice_op (demo_served 3) w' x c b.
Proof.
  destruct (RepositoryService_Bind demo_connections 1 1 demo_url demo_subject alice_op 110 120 (demo_served 3)) as [[m|e] w'] eqn:E;
    [|apply (f_equal fst) in E; vm_compute in E; discriminate E].
  exists m, w'. split; [reflexivity|].
  exact (bind_authenticated demo_connections 1 1 demo_url demo_subject alice_op 110 120 (demo_served 3) m w' (demo_served_sound 3) E).
Defined.

Lemma delivery_consistent_witness : delivery_sound (serve_all demo_requests demo_start) /\ history demo_start (serve_all demo_requests demo_start) /\
  length (active_links (serve_all demo_requests demo_start) 3%N) = 1%nat.
Proof.
  destruct (delivery_consistent demo_requests demo_start demo_start_sound) as [Hs Hh]. split; [exact Hs|]. split; [exact Hh|].
  vm_compute. reflexivity.
Defined.

Definition demo_change : CodeChange := mkCodeChange "github" "pull_request" "900" 5 (demo_url +:+ "/pull/5")
  (mkCodeChangeObservation "confirmed" 100 "Add it" "opened" false "feature" "main" "abc123" None None 95).
Definition demo_dlink : DeliveryCommand := DLink 142 (demo_uuid 2) 3 1 (demo_uuid 8) demo_change alice_actor alice_op 130.
Lemma link_needs_claim_witness : exists r h l k,
  executing (dw_db (demo_served 4)) 142 (demo_uuid 2) 3 1 alice_actor alice_op r h l k /\
  link_active (delivery_step demo_dlink (demo_served 4)) (demo_uuid 11) = true.
Proof.
  destruct (link_needs_claim demo_dlink (demo_served 4) (demo_uuid 11) (demo_served_sound 4)) as
    (n & claimID & tv & cv & actor & op & now & r & h & l & k & row & Hex & _ & _ & _ & _ & [[(rid & change & [= -> -> -> -> _ _ -> -> _] & _) _]|[E _]]).
  - vm_compute. discriminate.
  - exists r, h, l, k. split; [exact Hex|]. vm_compute. reflexivity.
  - discriminate E.
Defined.
